(* ===== verification/_CoqProject ===== *)
-Q . S2P
Prelude.v
Chain.v
Heap.v
HeapProofs.v
HeapOps.v
HeapSpec.v
Watchdog.v
WatchdogProofs.v
WatchdogOps.v
WatchdogSpec.v
Tod.v
TodSpec.v
Priority.v
Object.v
ObjectSpec.v
ApiTypes.v
Kernel.v
Workspace.v
Thread.v
ThreadProofs.v
ThreadSpec.v
Threadq.v
ThreadqProofs.v
ThreadqSpec.v
CoreWait.v
CoreSem.v
CoreMutex.v
CoreMutexSpec.v
CoreMsg.v
CoreMsgSpec.v
CoreMsgTheorems.v
Rtems.v
Event.v
EventSpec.v
Partition.v
PartitionSpec.v
Region.v
RegionSpec.v
RateMon.v
RateMonSpec.v
Semaphore.v
SemaphoreSpec.v
MsgQueue.v
MsgQueueSpec.v
Timer.v
TimerSpec.v
Signal.v
SignalSpec.v
Extension.v
Init.v
WorkspaceSpec.v
ThreadLife.v
ThreadLifeSpec.v
Tasks.v
TasksSpec.v
IO.v
ObjectMP.v
Exinit.v
ExinitSpec.v
Posix.v
PosixKey.v
PosixKeySpec.v
PosixTime.v
PosixTimeSpec.v
PosixMutex.v
PosixCond.v
PosixCondSpec.v
PosixSignal.v
PosixSignalSpec.v
PosixDelivery.v
PosixSem.v
PosixSemSpec.v
PosixThread.v
PosixThreadSpec.v
PosixMqueue.v
PosixApi.v
Sparc.v
Mpci.v
MpciSpec.v
