(* ===== verification/Prelude.v ===== *)
(** * A verified model of the RTEMS 3.6 executive

    RTEMS is a real-time executive in C.  Its SuperCore (src/c/src/exec/score) holds the
    mechanisms - chains, a heap, watchdogs, the calendar, objects and their ids, priorities,
    threads, thread queues, semaphores, mutexes and message queues - and the APIs are
    layers of directives over them.  This library models the SuperCore, the managers of the
    RTEMS API (src/c/src/exec/rtems), the start of the system (sapi) and the POSIX API
    (posix) from their C source, with the parameters of the SPARC port, and proves them
    correct.

    ** How the parts fit together

    Chains are the data structure of everything else.  The heap hands out the memory of the
    workspace.  The watchdog handler keeps the timers in two delta chains that the clock
    tick runs down.  The object handler maps ids to control blocks.  The thread handler
    keeps one ready chain per priority with a bit map of those that are not empty, the heir
    and the flag of a pending switch.  A thread that waits is on a thread queue, by arrival
    or by priority, perhaps with a timer; semaphores, mutexes and message queues are thread
    queues with a state of their own.

    ** Files

    - [Prelude]: machine words, word memory, lists, automation, the hint database [rtems].
    - [Chain]: score/src/chain.c and inline/chain.inl on pointers in memory, and
      [Chain.ListChain], the list operations that they refine.  The components above use
      the list operations.
    - [Heap], [HeapProofs], [HeapOps], [HeapSpec]: score/src/heap.c on memory words, the
      relation to a tiling of blocks, the operations, the theorems.
    - [Watchdog], [WatchdogProofs], [WatchdogOps], [WatchdogSpec]: score/src/watchdog.c.
    - [Tod], [TodSpec]: score/src/tod.c.
    - [Priority]: inline/priority.inl and the bit fields of headers/bitfield.h.
    - [Object], [ObjectSpec]: score/src/object.c and objectmp.c.
    - [Kernel]: the record of the executive's state, shared by what follows.
    - [Workspace]: score/src/wkspace.c and interr.c.
    - [Thread], [ThreadProofs], [ThreadSpec]: score/src/thread.c.
    - [Threadq], [ThreadqProofs], [ThreadqSpec]: score/src/threadq.c.
    - [CoreWait]: the interface between thread queues and the objects threads wait for.
    - [CoreSem]: score/src/coresem.c.
    - [CoreMutex], [CoreMutexSpec]: score/src/coremutex.c.
    - [CoreMsg], [CoreMsgSpec], [CoreMsgTheorems]: score/src/coremsg.c.
    - [ApiTypes]: the control blocks of the RTEMS API (rtems/headers).
    - [Rtems]: status codes, options, attributes, modes and event sets, and the objects of
      an API class.
    - [Event], [EventSpec]: rtems/src/event.c.
    - [Partition], [PartitionSpec]: rtems/src/part.c and dpmem.c.
    - [Region], [RegionSpec]: rtems/src/region.c.
    - [RateMon], [RateMonSpec]: rtems/src/ratemon.c.
    - [Semaphore], [SemaphoreSpec]: rtems/src/sem.c.
    - [MsgQueue], [MsgQueueSpec]: rtems/src/msg.c.
    - [Timer], [TimerSpec]: rtems/src/timer.c and clock.c.
    - [Signal], [SignalSpec]: rtems/src/signal.c, inline/asr.inl and the modes of tasks.c.
    - [Extension]: score/src/userext.c, apiext.c and sapi/src/extension.c.
    - [Init]: the initialization of the managers.
    - [WorkspaceSpec]: the workspace as a collection of blocks, for its clients.
    - [ThreadLife], [ThreadLifeSpec]: the creation, restart and deletion of threads
      (score/src/thread.c, inline/stack.inl) and the start of the system.
    - [Tasks], [TasksSpec]: rtems/src/tasks.c.
    - [IO]: sapi/src/io.c.
    - [ObjectMP]: the global objects of the nodes (score/src/objectmp.c).
    - [Exinit], [ExinitSpec]: sapi/src/exinit.c, rtemsapi.c, debug.c and fatal.c: the start
      of the system from the configuration tables to the first context switch.
    - [Posix]: results, priorities and times of the POSIX API.
    - [PosixKey], [PosixKeySpec]: posix/src/key.c.
    - [PosixTime], [PosixTimeSpec]: posix/src/time.c.
    - [PosixMutex]: posix/src/mutex.c.
    - [PosixCond], [PosixCondSpec]: posix/src/cond.c.
    - [PosixSignal], [PosixSignalSpec], [PosixDelivery]: posix/src/psignal.c; the last one
      is about what happens to pending signals after a dispatch.
    - [PosixSem], [PosixSemSpec]: posix/src/semaphore.c.
    - [PosixThread], [PosixThreadSpec]: posix/src/pthread.c.
    - [PosixMqueue]: posix/src/mqueue.c.
    - [PosixApi]: posix/src/sched.c, unistd.c and sapi/src/posixapi.c.
    - [Sparc]: the Interrupt Manager (rtems/src/intr.c, intrbody.c) and what it calls of the
      SPARC port (score/cpu/sparc): the trap table, the interrupt level, the context of a
      new thread.
    - [Mpci], [MpciSpec]: packets between nodes, requests, responses and the receive server
      (score/src/mpci.c), proxies (threadmp.c), and the remote directives of events,
      signals, tasks and partitions (rtems/src/eventmp.c, signalmp.c, taskmp.c, partmp.c).

    Definitions have the names of the source; a definition with a name of its own is a
    part of a routine (a loop, a branch), and its comment says which.

    ** How the code is modelled

    An [unsigned32] is an integer with the reductions modulo 2^32 written out; [NULL] is 0;
    memory is a finite map from addresses to words (to bytes for the contents of messages).
    Control blocks are records named by their addresses.  A routine is a function from the
    state to the state and its result.  Code between [_ISR_Disable] and [_ISR_Enable] is
    one step; where the source opens a window for interrupts that its correctness depends
    on (the searches of the watchdog and thread queue handlers, the dispatcher, the way
    into a thread queue), the interrupts that are taken there are parameters, functions on
    the state.  Callouts to other code - service routines of timers, the context switch,
    the multiprocessing layer, the fatal error extensions - are parameters too.

    Loops that are not structural take fuel and return [None] when it runs out.  The
    theorems give an amount that is enough - more than the length of the list that is
    searched or drained, plus the number of interrupts - and prove that the result is
    [Some].

    ** What is proved

    - Chains: the pointer operations refine those on lists.
    - Heap: allocation, release and extension against a tiling of blocks that is always
      coalesced; no word of a block in use changes; allocate and free is a round trip.
    - Watchdogs: insertion, removal, ticks and adjustment against the list of expiry times,
      under interrupts during insertion; a watchdog fires at its time.
    - Calendar: ticks keep a valid date, and the conversion to seconds is a count year by
      year, modulo 2^32, with every fourth year a leap year; exact up to the end of 2123 and
      that of the Gregorian calendar up to the end of 2099.
    - Objects: ids and look-ups.
    - Priorities: the two-level bit map refines a set.
    - Threads: the scheduler's invariant over every sequence of operations (the heir is the
      first of the highest ready priority, a needed switch is flagged), the dispatcher
      ends with the heir running, blocking and unblocking, priority changes, and the
      deferred switch of the floating point context.
    - Thread queues: the order in which waiting threads are served, under interrupts that
      release threads while a search is under way; timeouts; flushing.
    - Semaphores: units are conserved along every run; a release on the way in is not lost.
    - Mutexes: one holder, priority inheritance and ceilings, every path of seize and
      surrender (with no interrupt in their windows), those that a caller that does not
      hold the mutex takes among them.
    - Message queues: any sequence of calls is a run of a bounded queue of byte strings;
      creation from the workspace; flushing at pointer level.
    - Events: no event is lost on any path of a receive, with interrupts in the window
      before the thread is blocked; a theorem shows what a timeout in the window behind it
      loses; sending releases a thread whose condition holds.
    - Partitions: buffers handed out are distinct, inside the area and disjoint, as long as
      only buffers that are out are given back, and which addresses a return accepts.
    - Regions: the composition of a heap and a thread queue; returning a segment serves the
      threads that wait, in order.
    - Periods: one end of a period that comes while the owner is about to wait is not lost,
      two in a row leave the owner waiting forever; a waiting owner runs once per period
      without drift.
    - Semaphore and message directives: the core object that a creation sets up is the one
      its attributes ask for; a caller is answered as the core object's state calls for, or
      joins the queue, and the translations of all statuses are given.
    - Timers: a timer fires at exactly the clock tick it was set for, whatever else goes on.
    - Signals: none is lost or invented by sending, changing modes and delivering, up to the
      window that a theorem shows; a mode that is set back is restored.
    - The life of a thread: creation is all or nothing for the workspace, and creation and
      deletion together leave it as it was, without stack hooks, for sizes that do not wrap
      around and every set of extensions that keeps the contract
      [ThreadLifeSpec.BookKeeping], which the Task Manager's is shown to keep; the size of
      the stack for every request.
    - The start of the system: for every configuration whose workspace is placed well it
      ends, in a fatal error or with the system up and the highest thread running; then, if
      the idle thread could be created, the scheduler's invariant holds.  Drivers and
      hooks, those of the APIs included, are parameters that keep the invariant.
    - Global objects and devices: what is announced is found, and conserved.
    - POSIX keys: creation is all or nothing, values of threads and keys are kept apart,
      the workspace gets back what a key had.
    - POSIX clocks: a time that is set is read back to the tick.
    - POSIX condition variables, over mutexes and thread queues: waiting gives up the mutex
      and joins the queue without a dispatch in between; a signal releases the first
      waiter, a broadcast all of them.
    - POSIX signals: which thread a signal to the process goes to; it is given to that
      thread, if it waits, or pends, with its information queued (a thread behind another
      of its priority may be missed).  After a dispatch the handler of the first signal due
      is called, again and again until none is due; with handlers that send nothing this
      ends, after the calls for all the signals that were due.  Every signal due needs a
      handler: the code asserts it.
    - POSIX threads: attribute objects stay valid, every thread that joins gets the value
      of the one that ends, the sporadic server changes between its priorities.
    - Interrupts: the trap table entry that is installed for a handler, its instructions
      decoded and executed as the processor does; levels that are given back.
    - Multiprocessing: a remote directive is the local one on the other node, and the caller
      is released with its status, for every driver that keeps the contract
      [MpciSpec.driver_ok]; the receive server processes the packets in their order.
    - POSIX semaphores and message queues: what the calls do to the core objects, and what
      they report.
    - Where the code falls short (overflow in size computations, reads past a table, a
      ceiling priority that is kept after a timeout), a theorem shows it.

    ** Not modelled

    The packets of the managers whose remote directives wait for an object (msgmp.c, semmp.c,
    regionmp.c); the local routines take the requests to other nodes as parameters, and
    thread queues allocate no proxies: the variable that selects them,
    [_Thread_MP_Receive], is never set in the sources.  The context that
    [_Thread_Load_environment] sets up is that of the port,
    [Sparc._CPU_Context_Initialize], apart from the state of the threads, and the start of
    the system leaves out [_CPU_Initialize] (of which [Sparc.move_trap_table] is a part)
    and [_POSIX_API_Initialize].  Cancellation and interrupts of the POSIX API (cancel.c and intr.c use types that no header defines) and
    its stubs; the other processor ports, the assembly of the SPARC port, board support, libraries and network stack, which are either
    assembly and device access or are not part of the executive.  The links of ready
    chains, thread queues and delta chains are lists, not pointers: the pointer level is
    proved once, in [Chain] (and for the links that coremsg.c sets by hand). *)
From stdpp Require Export base numbers list gmap fin_maps sorting.
From Stdlib Require Export ZArith Lia Bool.

#[global] Open Scope Z_scope.

(** * 32-bit machine words

    [unsigned32] values are integers in [0 .. 2^32), and every C operation on
    them is the integer operation followed by reduction modulo 2^32. *)

Definition two32 : Z := 4294967296.
Definition wrap32 (z : Z) : Z := z mod two32.
Definition u32 (z : Z) : Prop := 0 <= z < two32.

Declare Scope word_scope.
Delimit Scope word_scope with w.
Notation "x +w y" := (wrap32 (x + y)) (at level 50, left associativity) : word_scope.
Notation "x -w y" := (wrap32 (x - y)) (at level 50, left associativity) : word_scope.
Notation "x *w y" := (wrap32 (x * y)) (at level 40, left associativity) : word_scope.
#[global] Open Scope word_scope.

(** [~x] on an [unsigned32]. *)
Definition not32 (z : Z) : Z := two32 - 1 - z.

Lemma not32_testbit z n : u32 z -> 0 <= n ->
  Z.testbit (not32 z) n = (n <? 32) && negb (Z.testbit z n).
Proof.
  intros Hz Hn. unfold not32. change (two32 - 1) with (Z.ones 32). rewrite Z.sub_nocarry_ldiff.
  - rewrite Z.ldiff_spec. f_equal. destruct (Z.ltb_spec n 32).
    + apply Z.ones_spec_low. lia.
    + apply Z.ones_spec_high. lia.
  - unfold u32, two32 in Hz. apply Z.ldiff_ones_r_low; [lia|].
    destruct (Z.eq_dec z 0) as [-> |]; [done|]. apply Z.log2_lt_pow2; lia.
Qed.

Lemma wrap32_small z : u32 z -> wrap32 z = z.
Proof. intros H. apply Z.mod_small. exact H. Qed.

Lemma wrap32_range z : u32 (wrap32 z).
Proof. apply Z.mod_pos_bound. reflexivity. Qed.

Lemma wrap32_add_two32 z : wrap32 (z + two32) = wrap32 z.
Proof. unfold wrap32. rewrite <- (Z.mul_1_l two32) at 1. apply Z.mod_add. discriminate. Qed.

Lemma wrap32_idemp z : wrap32 (wrap32 z) = wrap32 z.
Proof. apply Z.mod_mod. discriminate. Qed.

(** *** Congruence modulo 2^32

    [eqm32] is an equivalence that the ring operations respect, so that the inner
    reductions of an [unsigned32] expression can be rewritten away. *)

Definition eqm32 (a b : Z) : Prop := exists k, a = b + k * two32.

#[export] Instance eqm32_equivalence : Equivalence eqm32.
Proof.
  split.
  - intros a. exists 0. lia.
  - intros a b [k ->]. exists (- k). lia.
  - intros a b c [k ->] [j ->]. exists (j + k). lia.
Qed.
#[export] Instance eqm32_add : Proper (eqm32 ==> eqm32 ==> eqm32) Z.add.
Proof. intros a a' [k ->] b b' [j ->]. exists (k + j). lia. Qed.
#[export] Instance eqm32_sub : Proper (eqm32 ==> eqm32 ==> eqm32) Z.sub.
Proof. intros a a' [k ->] b b' [j ->]. exists (k - j). lia. Qed.
#[export] Instance eqm32_mul : Proper (eqm32 ==> eqm32 ==> eqm32) Z.mul.
Proof. intros a a' [k ->] b b' [j ->]. exists (k * b' + a' * j + k * j * two32). lia. Qed.

Lemma eqm32_wrap z : eqm32 (wrap32 z) z.
Proof.
  exists (- (z / two32)). unfold wrap32. rewrite Z.mod_eq by discriminate. lia.
Qed.

Lemma wrap32_eqm a b : eqm32 a b -> wrap32 a = wrap32 b.
Proof. intros [k ->]. unfold wrap32. apply Z.mod_add. discriminate. Qed.

Lemma land_u32 a b : u32 a -> 0 <= b -> u32 (Z.land a b).
Proof.
  intros [H1 H2] Hb. split; [apply Z.land_nonneg; by left|].
  pose proof (Z.land_ones a 32 ltac:(lia)) as E. rewrite Z.mod_small in E by (unfold two32 in *; lia).
  rewrite <- E, <- Z.land_assoc, (Z.land_comm (Z.ones 32)), Z.land_assoc, Z.land_ones by lia.
  change two32 with (2 ^ 32). apply Z.mod_pos_bound. lia.
Qed.

(** * Word-addressed memory

    A memory maps the address of each aligned 32-bit word to its contents; a
    word never written reads as zero. *)

Abbreviation mem := (gmap Z Z).
Definition ld (m : mem) (a : Z) : Z := default 0 (m !! a).
Definition st (m : mem) (a v : Z) : mem := <[a := v]> m.

Lemma ld_st_eq m a v : ld (st m a v) a = v.
Proof. unfold ld, st. by rewrite lookup_insert_eq. Qed.

Lemma ld_st_ne m a b v : a <> b -> ld (st m a v) b = ld m b.
Proof. intros H. unfold ld, st. by rewrite lookup_insert_ne. Qed.

Create HintDb rtems.
Create Rewrite HintDb rtems.
#[export] Hint Resolve wrap32_range : rtems.
#[export] Hint Rewrite ld_st_eq : rtems.

(** [ld_simpl] evaluates loads through a chain of stores, discharging the
    address inequalities with [lia] or from hypotheses. *)
Ltac addr_ne := first [ assumption | done | lia | congruence ].
Ltac ld_simpl :=
  repeat first [ rewrite ld_st_eq | rewrite ld_st_ne by addr_ne ].

(** [bool_simp] turns the boolean tests of the code into propositions. *)
Ltac bool_simp :=
  repeat match goal with
  | H : (_ =? _) = true |- _ => apply Z.eqb_eq in H
  | H : (_ =? _) = false |- _ => apply Z.eqb_neq in H
  | H : (_ <? _) = true |- _ => apply Z.ltb_lt in H
  | H : (_ <? _) = false |- _ => apply Z.ltb_ge in H
  | H : (_ <=? _) = true |- _ => apply Z.leb_le in H
  | H : (_ <=? _) = false |- _ => apply Z.leb_gt in H
  | H : andb _ _ = true |- _ => apply andb_true_iff in H; destruct H
  | H : orb _ _ = false |- _ => apply orb_false_iff in H; destruct H
  | H : negb _ = true |- _ => apply negb_true_iff in H
  | H : negb _ = false |- _ => apply negb_false_iff in H
  end.

(** * Lists *)

Section ListFacts.
Context {A : Type}.
Implicit Types (l k : list A) (x y : A).

Lemma NoDup_app_3 l k x :
  NoDup (l ++ x :: k) <-> NoDup (l ++ k) /\ x ∉ l ++ k.
Proof.
  rewrite <- Permutation_middle, NoDup_cons. tauto.
Qed.

Lemma last_cons_indep x l d d' : List.last (x :: l) d = List.last (x :: l) d'.
Proof. revert x. induction l as [|y l IH]; intros x; [done|]. exact (IH y). Qed.

Lemma last_cons_default x l d : List.last (x :: l) d = List.last l x.
Proof. destruct l as [|y l]; [done|]. exact (last_cons_indep y l d x). Qed.
End ListFacts.


(** [nodup_simp] splits the [NoDup] hypotheses and goals into memberships;
    [nodup_solve] closes a goal that follows from them. *)
Ltac nodup_simp :=
  repeat match goal with
  | H : NoDup (_ :: _) |- _ => apply NoDup_cons in H; destruct H
  | H : NoDup (_ ++ _) |- _ => apply NoDup_app in H; destruct H as (? & ? & ?)
  end.
Ltac nodup_solve :=
  nodup_simp; rewrite ?NoDup_cons; split_and?; try assumption; try constructor; set_solver.

Lemma st_comm m a b v w : a <> b -> st (st m a v) b w = st (st m b w) a v.
Proof. intros H. unfold st. by apply insert_insert_ne. Qed.

(** [by_decide] proves a closed decidable proposition by evaluation. *)
Ltac by_decide := refine (bool_decide_unpack _ _); vm_compute; exact I.
