(* ===== verification/Chain.v ===== *)
(** * Chain Handler (score/src/chain.c, score/inline/chain.inl)

    Doubly linked chains at the level of memory words.  A [Chain_Node] at
    address [n] has its [next] field in the word [n] and its [previous] field
    in the word [n + 4].  A [Chain_Control] at [c] has [first] at [c],
    [permanent_null] at [c + 4] and [last] at [c + 8]; as in the C code it
    doubles as the head node (at [c]) and the tail node (at [c + 4]), which
    share the [permanent_null] word.

    [ListChain] gives the same operations on plain lists; the refinement
    theorem shows that any sequence of operations behaves the same on both, and
    the handlers above the chain handler are modelled with lists. *)
From S2P Require Import Prelude.

(** ** score/inline/address.inl *)

Definition _Addresses_Add_offset (base offset : Z) : Z := base +w offset.
Definition _Addresses_Subtract_offset (base offset : Z) : Z := base -w offset.
Definition _Addresses_Subtract (left right : Z) : Z := left -w right.
Definition _Addresses_Is_in_range (address base limit : Z) : bool :=
  (base <=? address) && (address <=? limit).

Definition NULL : Z := 0.

(** ** Field accesses *)

Definition Node_next (m : mem) (n : Z) : Z := ld m n.
Definition Node_previous (m : mem) (n : Z) : Z := ld m (n + 4).
Definition set_Node_next (m : mem) (n v : Z) : mem := st m n v.
Definition set_Node_previous (m : mem) (n v : Z) : mem := st m (n + 4) v.
Definition Chain_first (m : mem) (c : Z) : Z := ld m c.
Definition Chain_permanent_null (m : mem) (c : Z) : Z := ld m (c + 4).
Definition Chain_last (m : mem) (c : Z) : Z := ld m (c + 8).
Definition set_Chain_first (m : mem) (c v : Z) : mem := st m c v.
Definition set_Chain_permanent_null (m : mem) (c v : Z) : mem := st m (c + 4) v.
Definition set_Chain_last (m : mem) (c v : Z) : mem := st m (c + 8) v.

(** ** Operations *)

Definition _Chain_Are_nodes_equal (left right : Z) : bool := left =? right.
Definition _Chain_Is_null (the_chain : Z) : bool := the_chain =? NULL.
Definition _Chain_Is_null_node (the_node : Z) : bool := the_node =? NULL.
Definition _Chain_Head (the_chain : Z) : Z := the_chain.
Definition _Chain_Tail (the_chain : Z) : Z := the_chain + 4.
Definition _Chain_Is_empty (m : mem) (the_chain : Z) : bool :=
  Chain_first m the_chain =? _Chain_Tail the_chain.
Definition _Chain_Is_first (m : mem) (the_node : Z) : bool :=
  Node_previous m the_node =? NULL.
Definition _Chain_Is_last (m : mem) (the_node : Z) : bool :=
  Node_next m the_node =? NULL.
Definition _Chain_Has_only_one_node (m : mem) (the_chain : Z) : bool :=
  Chain_first m the_chain =? Chain_last m the_chain.
Definition _Chain_Is_head (the_chain the_node : Z) : bool :=
  the_node =? _Chain_Head the_chain.
Definition _Chain_Is_tail (the_chain the_node : Z) : bool :=
  the_node =? _Chain_Tail the_chain.

Definition _Chain_Initialize_empty (m : mem) (the_chain : Z) : mem :=
  let m := set_Chain_first m the_chain (_Chain_Tail the_chain) in
  let m := set_Chain_permanent_null m the_chain NULL in
  set_Chain_last m the_chain (_Chain_Head the_chain).

(** The [while ( count-- )] loop of [_Chain_Initialize]: returns the memory and
    the final [current]. *)
Fixpoint _Chain_Initialize_loop (m : mem) (count : nat) (current nxt node_size : Z)
  : mem * Z :=
  match count with
  | O => (m, current)
  | S count =>
      let m := set_Node_next m current nxt in
      let m := set_Node_previous m nxt current in
      _Chain_Initialize_loop m count nxt (_Addresses_Add_offset nxt node_size) node_size
  end.

Definition _Chain_Initialize
    (m : mem) (the_chain starting_address number_nodes node_size : Z) : mem :=
  let current := _Chain_Head the_chain in
  let m := set_Chain_permanent_null m the_chain NULL in
  let '(m, current) :=
    _Chain_Initialize_loop m (Z.to_nat number_nodes) current starting_address node_size in
  let m := set_Node_next m current (_Chain_Tail the_chain) in
  set_Chain_last m the_chain current.

Definition _Chain_Extract_unprotected (m : mem) (the_node : Z) : mem :=
  let nxt := Node_next m the_node in
  let prv := Node_previous m the_node in
  let m := set_Node_previous m nxt prv in
  set_Node_next m prv nxt.

Definition _Chain_Get_first_unprotected (m : mem) (the_chain : Z) : Z * mem :=
  let return_node := Chain_first m the_chain in
  let new_first := Node_next m return_node in
  let m := set_Chain_first m the_chain new_first in
  let m := set_Node_previous m new_first (_Chain_Head the_chain) in
  (return_node, m).

Definition _Chain_Get_unprotected (m : mem) (the_chain : Z) : Z * mem :=
  if negb (_Chain_Is_empty m the_chain)
  then _Chain_Get_first_unprotected m the_chain
  else (NULL, m).

Definition _Chain_Insert_unprotected (m : mem) (after_node the_node : Z) : mem :=
  let m := set_Node_previous m the_node after_node in
  let before_node := Node_next m after_node in
  let m := set_Node_next m after_node the_node in
  let m := set_Node_next m the_node before_node in
  set_Node_previous m before_node the_node.

Definition _Chain_Append_unprotected (m : mem) (the_chain the_node : Z) : mem :=
  let m := set_Node_next m the_node (_Chain_Tail the_chain) in
  let old_last_node := Chain_last m the_chain in
  let m := set_Chain_last m the_chain the_node in
  let m := set_Node_next m old_last_node the_node in
  set_Node_previous m the_node old_last_node.

Definition _Chain_Prepend_unprotected (m : mem) (the_chain the_node : Z) : mem :=
  _Chain_Insert_unprotected m (_Chain_Head the_chain) the_node.

(** The protected variants run the bodies between [_ISR_Disable] and
    [_ISR_Enable]: one atomic memory transformation. *)
Definition _Chain_Get (m : mem) (the_chain : Z) : Z * mem :=
  if negb (_Chain_Is_empty m the_chain)
  then _Chain_Get_first_unprotected m the_chain
  else (NULL, m).
Definition _Chain_Append (m : mem) (the_chain the_node : Z) : mem :=
  _Chain_Append_unprotected m the_chain the_node.
Definition _Chain_Extract (m : mem) (the_node : Z) : mem :=
  _Chain_Extract_unprotected m the_node.
Definition _Chain_Insert (m : mem) (after_node the_node : Z) : mem :=
  _Chain_Insert_unprotected m after_node the_node.
Definition _Chain_Prepend (m : mem) (the_chain the_node : Z) : mem :=
  _Chain_Insert m (_Chain_Head the_chain) the_node.

(** ** Doubly linked node sequences

    [links off m ns]: consecutive nodes of [ns] point at each other, the links
    of a node [n] being the words [n + off] and [n + off + 4] (offset 0 for
    [Chain_Node], 8 for [Heap_Block]).  [link_words] lists those words. *)

Section Links.
Context (off : Z).

Fixpoint links (m : mem) (ns : list Z) : Prop :=
  match ns with
  | x :: (y :: _) as r => ld m (x + off) = y /\ ld m (y + off + 4) = x /\ links m r
  | _ => True
  end.

Fixpoint link_words (ns : list Z) : list Z :=
  match ns with
  | x :: (y :: _) as r => (x + off) :: (y + off + 4) :: link_words r
  | _ => []
  end.

Lemma links_cons2 m x y l :
  links m (x :: y :: l) <->
  ld m (x + off) = y /\ ld m (y + off + 4) = x /\ links m (y :: l).
Proof. reflexivity. Qed.

Lemma link_words_cons2 x y l :
  link_words (x :: y :: l) = (x + off) :: (y + off + 4) :: link_words (y :: l).
Proof. reflexivity. Qed.

Lemma links_app m l1 x l2 :
  links m (l1 ++ x :: l2) <-> links m (l1 ++ [x]) /\ links m (x :: l2).
Proof.
  induction l1 as [|a l1 IH]; [by simpl; tauto|].
  destruct l1 as [|b l1]; simpl app in *.
  - rewrite !links_cons2. simpl. tauto.
  - rewrite !links_cons2. tauto.
Qed.

Lemma link_words_app l1 x l2 :
  link_words (l1 ++ x :: l2) = link_words (l1 ++ [x]) ++ link_words (x :: l2).
Proof.
  induction l1 as [|a l1 IH]; [done|].
  destruct l1 as [|b l1]; simpl app in *.
  - by rewrite !link_words_cons2.
  - rewrite !(link_words_cons2 a b), IH. done.
Qed.

Lemma links_frame m a v ns :
  a ∉ link_words ns -> links (st m a v) ns <-> links m ns.
Proof.
  induction ns as [|x ns IH]; [done|]. destruct ns as [|y ns]; [done|].
  rewrite link_words_cons2, !links_cons2, !not_elem_of_cons. intros (H1 & H2 & H3).
  by rewrite !ld_st_ne, IH.
Qed.

Lemma links_ext m m' ns :
  (forall a, a ∈ link_words ns -> ld m' a = ld m a) -> links m ns -> links m' ns.
Proof.
  induction ns as [|x ns IH]; [done|]. destruct ns as [|y ns]; [done|].
  rewrite link_words_cons2, !links_cons2. intros H (H1 & H2 & H3).
  rewrite !H by set_solver. split_and!; [done..|]. apply IH; [|done]. set_solver.
Qed.

(** Splicing a node in between [x] and [y]. *)
Lemma links_splice_in m l1 x y l2 n m' :
  links m (l1 ++ x :: y :: l2) ->
  NoDup ((n + off) :: (n + off + 4) :: link_words (l1 ++ x :: y :: l2)) ->
  ld m' (x + off) = n -> ld m' (n + off + 4) = x ->
  ld m' (n + off) = y -> ld m' (y + off + 4) = n ->
  (forall a, a ∉ [x + off; y + off + 4; n + off; n + off + 4] -> ld m' a = ld m a) ->
  links m' (l1 ++ x :: n :: y :: l2).
Proof.
  intros HL HND E1 E2 E3 E4 HF. apply links_app in HL as [HA HB].
  rewrite links_cons2 in HB. rewrite link_words_app, link_words_cons2 in HND.
  apply links_app. rewrite !links_cons2. split_and!; try done.
  - apply (links_ext m); [|done]. intros a Ha. apply HF. nodup_solve.
  - apply (links_ext m); [|tauto]. intros a Ha. apply HF. nodup_solve.
Qed.

(** Removing the node between [x] and [y]. *)
Lemma links_splice_out m l1 x n y l2 :
  links m (l1 ++ x :: n :: y :: l2) ->
  NoDup (link_words (l1 ++ x :: n :: y :: l2)) ->
  links (st (st m (y + off + 4) x) (x + off) y) (l1 ++ x :: y :: l2).
Proof.
  intros HL HND. apply links_app in HL as [HA HB]. rewrite !links_cons2 in HB.
  rewrite link_words_app, !link_words_cons2 in HND.
  apply NoDup_app in HND as (N1 & N2 & N3). rewrite !NoDup_cons in N3.
  assert (x + off <> y + off + 4) by set_solver.
  apply links_app. rewrite links_cons2, !links_frame by set_solver.
  ld_simpl. tauto.
Qed.
End Links.

(** ** The representation of a list by a chain *)

Definition node_words (n : Z) : list Z := [n; n + 4].
Definition control_words (c : Z) : list Z := [c; c + 4; c + 8].
Definition chain_words (c : Z) (l : list Z) : list Z :=
  control_words c ++ flat_map node_words l.

(** [chain_rep m c l]: the chain at [c] holds exactly the nodes [l], in order. *)
Definition chain_rep (m : mem) (c : Z) (l : list Z) : Prop :=
  links 0 m (_Chain_Head c :: l ++ [_Chain_Tail c]) /\
  Chain_permanent_null m c = NULL /\
  NoDup (chain_words c l).

Lemma link_words_seq x l t :
  link_words 0 (x :: l ++ [t]) ≡ₚ x :: (t + 4) :: flat_map node_words l.
Proof.
  revert x. induction l as [|y l IH]; intros x; simpl app.
  - rewrite link_words_cons2. simpl. by rewrite !Z.add_0_r.
  - rewrite link_words_cons2, IH. simpl. rewrite !Z.add_0_r.
    apply perm_skip.
    exact (Permutation_app_tail (flat_map node_words l) (Permutation_rev [y + 4; y; t + 4])).
Qed.

Lemma chain_words_links c l :
  chain_words c l ≡ₚ (c + 4) :: link_words 0 (_Chain_Head c :: l ++ [_Chain_Tail c]).
Proof.
  rewrite link_words_seq. unfold chain_words, _Chain_Head, _Chain_Tail. simpl.
  rewrite <- Z.add_assoc. apply Permutation_swap.
Qed.

Lemma chain_rep_nodup m c l :
  chain_rep m c l ->
  NoDup (link_words 0 (_Chain_Head c :: l ++ [_Chain_Tail c])) /\
  c + 4 ∉ link_words 0 (_Chain_Head c :: l ++ [_Chain_Tail c]).
Proof.
  intros (_ & _ & H). rewrite chain_words_links, NoDup_cons in H. tauto.
Qed.

(** A store outside the words of a chain leaves the chain alone. *)
Lemma chain_rep_frame m c l a v :
  a ∉ chain_words c l -> chain_rep m c l -> chain_rep (st m a v) c l.
Proof.
  intros Ha (H1 & H2 & H3). split; [|split; [|done]].
  - apply links_frame; [|done]. rewrite chain_words_links in Ha. set_solver.
  - unfold Chain_permanent_null in *. rewrite ld_st_ne; [done|].
    unfold chain_words in Ha. set_solver.
Qed.

Lemma chain_words_app c l1 l2 :
  chain_words c (l1 ++ l2) = chain_words c l1 ++ flat_map node_words l2.
Proof. unfold chain_words. by rewrite flat_map_app, app_assoc. Qed.

Lemma chain_words_insert c l1 n l2 :
  chain_words c (l1 ++ n :: l2) ≡ₚ node_words n ++ chain_words c (l1 ++ l2).
Proof.
  unfold chain_words. rewrite !flat_map_app.
  change (flat_map node_words (n :: l2)) with (node_words n ++ flat_map node_words l2).
  rewrite (app_assoc (control_words c) _ (node_words n ++ _)),
    (app_assoc (control_words c) _ (flat_map node_words l2)).
  apply Permutation_app_swap_app.
Qed.

(** ** Each operation against the represented list *)

Section Rep.
Context (c : Z).
Implicit Types (m : mem) (l : list Z).

Lemma chain_rep_first m l :
  chain_rep m c l -> Chain_first m c = hd (_Chain_Tail c) l.
Proof.
  intros (H & _). unfold Chain_first. destruct l as [|x l]; simpl app in H;
    rewrite links_cons2 in H; rewrite Z.add_0_r in H; tauto.
Qed.

Lemma chain_rep_last m l :
  chain_rep m c l -> Chain_last m c = List.last l (_Chain_Head c).
Proof.
  intros (H & _). unfold Chain_last. destruct l as [|x l _] using rev_ind.
  - simpl in H. unfold _Chain_Tail in H.
    replace (c + 4 + 0 + 4) with (c + 8) in H by lia. tauto.
  - rewrite List.last_last. rewrite <- app_assoc in H. simpl app in H.
    rewrite app_comm_cons, links_app, links_cons2 in H.
    unfold _Chain_Tail in H. replace (c + 4 + 0 + 4) with (c + 8) in H by lia. tauto.
Qed.

(** [_Chain_Is_empty] tests emptiness. *)
Lemma chain_rep_is_empty m l :
  chain_rep m c l -> _Chain_Is_empty m c = match l with [] => true | _ => false end.
Proof.
  intros H. unfold _Chain_Is_empty. rewrite (chain_rep_first _ _ H).
  destruct l as [|x l]; simpl; [apply Z.eqb_refl|].
  apply Z.eqb_neq. destruct H as (_ & _ & H). unfold chain_words, _Chain_Tail in *.
  simpl in H. rewrite !NoDup_cons in H. set_solver.
Qed.

(** The nodes of a chain, its head and its tail are pairwise distinct. *)
Lemma chain_rep_nodes m l :
  chain_rep m c l -> NoDup l /\ _Chain_Head c ∉ l /\ _Chain_Tail c ∉ l.
Proof.
  intros (_ & _ & H). unfold chain_words in H.
  apply NoDup_app in H as (_ & H1 & H2).
  assert (forall x, x ∈ l -> x ∈ flat_map node_words l) as HI.
  { intros x Hx. rewrite list_elem_of_In in *. apply in_flat_map. exists x.
    split; [done|]. left. done. }
  repeat split.
  - clear H1 HI. induction l as [|x l IH]; [constructor|]. simpl in H2.
    rewrite !NoDup_cons in H2. destruct H2 as (H2 & H3 & H4).
    apply NoDup_cons. split; [|by apply IH]. intros Hx. apply H2.
    apply elem_of_cons. right. rewrite list_elem_of_In in *. apply in_flat_map.
    exists x. split; [done|]. left. done.
  - intros Hx. apply (H1 (_Chain_Head c)); [left|by apply HI].
  - intros Hx. apply (H1 (_Chain_Tail c)); [right; left|by apply HI].
Qed.

(** [_Chain_Has_only_one_node] also answers TRUE only for singleton chains
    (the empty chain has [first <> last]). *)
Lemma chain_rep_only_one m l :
  chain_rep m c l ->
  _Chain_Has_only_one_node m c = match l with [_] => true | _ => false end.
Proof.
  intros H. unfold _Chain_Has_only_one_node.
  rewrite (chain_rep_first _ _ H), (chain_rep_last _ _ H).
  destruct (chain_rep_nodes _ _ H) as (HN & Hh & Ht).
  destruct l as [|x [|y l]]; simpl.
  - apply Z.eqb_neq. unfold _Chain_Head, _Chain_Tail. lia.
  - apply Z.eqb_refl.
  - apply Z.eqb_neq. intros E. apply NoDup_cons in HN as [HN _]. apply HN.
    change (x = List.last (y :: l) (_Chain_Head c)) in E. rewrite E.
    destruct (exists_last (l := y :: l)) as (k & z & ->); [done|].
    rewrite List.last_last. set_solver.
Qed.

Lemma initialize_empty_rep m : chain_rep (_Chain_Initialize_empty m c) c [].
Proof.
  unfold chain_rep, _Chain_Initialize_empty, set_Chain_first, set_Chain_permanent_null,
    set_Chain_last, Chain_permanent_null, _Chain_Tail, _Chain_Head, chain_words. simpl.
  rewrite Z.add_0_r. replace (c + 4 + 0 + 4) with (c + 8) by lia. ld_simpl.
  repeat split. rewrite !NoDup_cons, !not_elem_of_cons.
  repeat split; try lia; try apply not_elem_of_nil. constructor.
Qed.

(** Cutting the node sequence of a chain between two neighbours. *)
Lemma rep_cut l1 l2 :
  let x := List.last l1 (_Chain_Head c) in
  let y := hd (_Chain_Tail c) l2 in
  exists k k', forall a,
    _Chain_Head c :: (l1 ++ a ++ l2) ++ [_Chain_Tail c] = k ++ x :: a ++ y :: k'.
Proof.
  intros x y.
  assert (exists k, _Chain_Head c :: l1 = k ++ [x]) as [k Hk].
  { subst x. destruct l1 as [|z l1 _] using rev_ind; [exists []; done|].
    exists (_Chain_Head c :: l1). by rewrite List.last_last. }
  assert (exists k', l2 ++ [_Chain_Tail c] = y :: k') as [k' Hk'].
  { subst y. destruct l2; eexists; reflexivity. }
  exists k, k'. intros a.
  by rewrite <- !app_assoc, app_comm_cons, Hk, <- app_assoc, Hk'.
Qed.

Lemma rep_neighbours m l1 l2 :
  chain_rep m c (l1 ++ l2) ->
  ld m (List.last l1 (_Chain_Head c)) = hd (_Chain_Tail c) l2 /\
  ld m (hd (_Chain_Tail c) l2 + 4) = List.last l1 (_Chain_Head c).
Proof.
  intros (HL & _ & _). destruct (rep_cut l1 l2) as (k & k' & EQ).
  specialize (EQ []). simpl app in EQ. rewrite EQ, links_app, links_cons2, !Z.add_0_r in HL.
  tauto.
Qed.

Lemma splice_words l1 n l2 :
  NoDup (chain_words c (l1 ++ n :: l2)) ->
  NoDup [List.last l1 (_Chain_Head c); hd (_Chain_Tail c) l2 + 4; n; n + 4; c + 4].
Proof.
  rewrite chain_words_links. destruct (rep_cut l1 l2) as (k & k' & EQ).
  specialize (EQ [n]). simpl app in EQ. rewrite EQ, link_words_app, !link_words_cons2, !Z.add_0_r.
  intros H. nodup_solve.
Qed.

(** Any memory that links [n] between two neighbours, and differs nowhere
    else, represents the list with [n] inserted there. *)
Lemma rep_splice_in m l1 l2 n m' :
  let x := List.last l1 (_Chain_Head c) in
  let y := hd (_Chain_Tail c) l2 in
  chain_rep m c (l1 ++ l2) -> NoDup (chain_words c (l1 ++ n :: l2)) ->
  ld m' x = n -> ld m' (n + 4) = x -> ld m' n = y -> ld m' (y + 4) = n ->
  (forall a, a ∉ [x; y + 4; n; n + 4] -> ld m' a = ld m a) ->
  chain_rep m' c (l1 ++ n :: l2).
Proof.
  intros x y (HL & HP & HW) HN E1 E2 E3 E4 HF.
  pose proof (splice_words _ _ _ HN) as HD. fold x y in HD.
  pose proof HN as HN'. rewrite chain_words_insert, chain_words_links in HN'.
  destruct (rep_cut l1 l2) as (k & k' & EQ). fold x y in EQ.
  pose proof (EQ []) as EQ0. pose proof (EQ [n]) as EQ1. simpl app in EQ0, EQ1.
  rewrite EQ0 in HL, HN'. unfold chain_rep. rewrite EQ1. split_and!; [| |done].
  - apply (links_splice_in 0 m); rewrite ?Z.add_0_r; try done. clear -HN'.
    simpl in HN'. nodup_solve.
  - unfold Chain_permanent_null in *. rewrite HF; [done|]. nodup_solve.
Qed.

Lemma rep_splice_out m l1 n l2 :
  let x := List.last l1 (_Chain_Head c) in
  let y := hd (_Chain_Tail c) l2 in
  chain_rep m c (l1 ++ n :: l2) ->
  ld m n = y /\ ld m (n + 4) = x /\
  chain_rep (st (st m (y + 4) x) x y) c (l1 ++ l2).
Proof.
  intros x y (HL & HP & HW).
  pose proof (splice_words _ _ _ HW) as HD. fold x y in HD.
  pose proof HW as HW'. rewrite chain_words_insert in HW'.
  pose proof HW as HW''. rewrite chain_words_links in HW''.
  destruct (rep_cut l1 l2) as (k & k' & EQ). fold x y in EQ.
  pose proof (EQ []) as EQ0. pose proof (EQ [n]) as EQ1. simpl app in EQ0, EQ1.
  rewrite EQ1 in HL, HW''. unfold chain_rep. rewrite EQ0.
  pose proof HL as HL'. rewrite links_app, !links_cons2, !Z.add_0_r in HL'.
  split_and!; [tauto|tauto| | |].
  - pose proof (links_splice_out 0 m k x n y k') as HS. rewrite !Z.add_0_r in HS.
    apply HS; [done|]. nodup_solve.
  - unfold Chain_permanent_null in *. rewrite !ld_st_ne; [done|nodup_solve..].
  - clear -HW'. simpl in HW'. nodup_solve.
Qed.

(** [_Chain_Insert_unprotected] after the last node of [l1] (the head when
    [l1] is empty). *)
Lemma insert_rep m l1 l2 n :
  chain_rep m c (l1 ++ l2) -> NoDup (chain_words c (l1 ++ n :: l2)) ->
  chain_rep (_Chain_Insert_unprotected m (List.last l1 (_Chain_Head c)) n) c (l1 ++ n :: l2).
Proof.
  intros HR HN. pose proof (splice_words _ _ _ HN) as HD.
  destruct (rep_neighbours _ _ _ HR) as [Ex _].
  apply (rep_splice_in m); try done;
    unfold _Chain_Insert_unprotected, set_Node_next, set_Node_previous, Node_next;
    rewrite (ld_st_ne m (n + 4)) by nodup_solve; rewrite Ex; nodup_simp;
    repeat first [rewrite ld_st_eq | rewrite ld_st_ne by set_solver]; try done.
  intros a Ha. rewrite !ld_st_ne by set_solver. done.
Qed.

Lemma append_rep m l n :
  chain_rep m c l -> NoDup (chain_words c (l ++ [n])) ->
  chain_rep (_Chain_Append_unprotected m c n) c (l ++ [n]).
Proof.
  intros HR HN. pose proof (splice_words _ _ _ HN) as HD. simpl in HD.
  pose proof (chain_rep_last _ _ HR) as EL.
  unfold _Chain_Append_unprotected, set_Node_next, set_Chain_last, set_Node_previous,
    Chain_last, _Chain_Tail in *.
  replace (c + 4 + 4) with (c + 8) in HD by lia.
  rewrite (ld_st_ne m n (c + 8)), EL by nodup_solve.
  apply (rep_splice_in m l []); rewrite ?app_nil_r; try done; simpl hd;
    unfold _Chain_Tail; replace (c + 4 + 4) with (c + 8) by lia; nodup_simp;
    repeat first [rewrite ld_st_eq | rewrite ld_st_ne by set_solver]; try done.
  intros a Ha. rewrite !ld_st_ne by set_solver. done.
Qed.

Lemma extract_rep m l1 n l2 :
  chain_rep m c (l1 ++ n :: l2) -> chain_rep (_Chain_Extract_unprotected m n) c (l1 ++ l2).
Proof.
  intros HR. destruct (rep_splice_out _ _ _ _ HR) as (E1 & E2 & H).
  unfold _Chain_Extract_unprotected, Node_next, Node_previous, set_Node_next, set_Node_previous.
  by rewrite E1, E2.
Qed.

Lemma get_first_rep m n l :
  chain_rep m c (n :: l) ->
  let '(r, m') := _Chain_Get_first_unprotected m c in r = n /\ chain_rep m' c l.
Proof.
  intros HR. pose proof (chain_rep_first _ _ HR) as EF. simpl in EF.
  destruct (rep_splice_out m [] n l HR) as (E1 & E2 & H). simpl in E1, E2, H.
  pose proof (splice_words [] n l (proj2 (proj2 HR))) as HD. simpl in HD.
  unfold _Chain_Get_first_unprotected, Node_next, set_Chain_first, set_Node_previous.
  rewrite EF, E1. split; [done|]. rewrite st_comm; [done|].
  unfold _Chain_Head in *. nodup_solve.
Qed.

(** The addresses of [number_nodes] nodes of [node_size] bytes each. *)
Fixpoint node_array (start size : Z) (n : nat) : list Z :=
  match n with
  | O => []
  | S n => start :: node_array (start + size) size n
  end.

Lemma initialize_loop_links n m k current nxt size :
  links 0 m (k ++ [current]) ->
  NoDup (link_words 0 (k ++ current :: node_array nxt size n)) ->
  0 <= nxt -> 0 <= size -> nxt + Z.of_nat n * size < two32 ->
  let '(m', current') := _Chain_Initialize_loop m n current nxt size in
  links 0 m' (k ++ current :: node_array nxt size n) /\
  current' = List.last (node_array nxt size n) current /\
  (forall a, a ∉ link_words 0 (current :: node_array nxt size n) -> ld m' a = ld m a).
Proof.
  revert m k current nxt. induction n as [|n IH]; intros m k current nxt HL HN H1 H2 H3.
  { simpl. done. }
  cbn [_Chain_Initialize_loop node_array] in *. unfold set_Node_next, set_Node_previous.
  unfold _Addresses_Add_offset. rewrite wrap32_small by (unfold u32; nia).
  assert (link_words 0 (k ++ current :: nxt :: node_array (nxt + size) size n) =
          link_words 0 (k ++ [current]) ++ current :: nxt + 4 ::
            link_words 0 (nxt :: node_array (nxt + size) size n)) as HW.
  { by rewrite link_words_app, link_words_cons2, !Z.add_0_r. }
  rewrite HW in HN.
  specialize (IH (st (st m current nxt) (nxt + 4) current) (k ++ [current]) nxt (nxt + size)).
  destruct (_Chain_Initialize_loop _ n nxt (nxt + size) size) as [m' cur'].
  rewrite <- !app_assoc in IH. simpl app in IH. rewrite HW in IH.
  destruct IH as (IA & IB & IC); [| |lia|lia|nia|].
  - apply links_app. split.
    + apply links_frame; [nodup_solve|]. apply links_frame; [nodup_solve|done].
    + rewrite links_cons2, !Z.add_0_r. rewrite ld_st_eq, ld_st_ne, ld_st_eq by nodup_solve.
      done.
  - done.
  - split_and!; [done| |].
    + by rewrite last_cons_default.
    + intros a Ha. rewrite link_words_cons2, !Z.add_0_r in Ha.
      rewrite IC, !ld_st_ne by set_solver. done.
Qed.

(** [_Chain_Initialize] builds the chain of the contiguous array of nodes. *)
Lemma initialize_rep m start number size :
  0 <= start -> 0 <= number -> 0 <= size -> start + number * size < two32 ->
  NoDup (chain_words c (node_array start size (Z.to_nat number))) ->
  chain_rep (_Chain_Initialize m c start number size) c
    (node_array start size (Z.to_nat number)).
Proof.
  intros H1 H2 H3 H4 HN. unfold _Chain_Initialize, set_Chain_permanent_null.
  set (arr := node_array start size (Z.to_nat number)) in *.
  pose proof HN as HN'. rewrite chain_words_links in HN'.
  assert (exists k, _Chain_Head c :: arr = k ++ [List.last arr (_Chain_Head c)]) as [k Hk].
  { clear. destruct arr as [|z l _] using rev_ind; [by exists []|].
    exists (_Chain_Head c :: l). by rewrite List.last_last. }
  rewrite app_comm_cons, Hk, <- app_assoc in HN'. simpl app in HN'.
  rewrite link_words_app, <- Hk, link_words_cons2, !Z.add_0_r in HN'.
  pose proof (initialize_loop_links (Z.to_nat number) (st m (c + 4) NULL) [] (_Chain_Head c)
                start size) as HLoop.
  destruct (_Chain_Initialize_loop _ _ _ _ _) as [m' cur'].
  destruct HLoop as (LA & LB & LC); [done|simpl; nodup_solve|lia|lia|lia|].
  fold arr in LA, LB, LC. simpl app in LA. subst cur'.
  unfold set_Node_next, set_Chain_last, chain_rep, _Chain_Tail in *.
  replace (c + 4 + 4) with (c + 8) in * by lia.
  rewrite app_comm_cons, Hk, <- app_assoc. simpl app. rewrite links_app, <- Hk, links_cons2, !Z.add_0_r.
  replace (c + 4 + 4) with (c + 8) by lia.
  set (z := List.last arr (_Chain_Head c)) in *. set (W := link_words 0 (_Chain_Head c :: arr)) in *.
  assert ((c + 8 ∉ W) /\ (z ∉ W) /\ z <> c + 8 /\ (c + 4 ∉ W) /\ c + 4 <> z) as (D1 & D2 & D3 & D4 & D5).
  { clear -HN'. nodup_solve. }
  split_and!; try done.
  - apply links_frame; [done|]. apply links_frame; done.
  - by rewrite ld_st_ne, ld_st_eq.
  - by rewrite ld_st_eq.
  - unfold Chain_permanent_null. rewrite !ld_st_ne, LC, ld_st_eq by (done || lia). done.
Qed.
End Rep.

(** ** Chains as lists

    The operations of the chain handler on the sequence of nodes itself; the
    handlers built on chains are modelled with these. *)

Module ListChain.
Section Ops.
Context {A : Type} `{EqDecision A}.

Definition append (l : list A) (n : A) : list A := l ++ [n].
Definition prepend (l : list A) (n : A) : list A := n :: l.
Fixpoint insert_node (l : list A) (a n : A) : list A :=
  match l with
  | [] => []
  | x :: r => if decide (x = a) then x :: n :: r else x :: insert_node r a n
  end.
(** [insert_after l None n] inserts after the head pseudo-node. *)
Definition insert_after (l : list A) (after : option A) (n : A) : list A :=
  match after with
  | None => n :: l
  | Some a => insert_node l a n
  end.
Fixpoint extract (l : list A) (n : A) : list A :=
  match l with
  | [] => []
  | x :: r => if decide (x = n) then r else x :: extract r n
  end.
Definition has_only_one_node (l : list A) : bool :=
  match l with [_] => true | _ => false end.
Definition is_empty (l : list A) : bool :=
  match l with [] => true | _ => false end.

Lemma extract_app_r l1 l2 n : n ∉ l1 -> extract (l1 ++ l2) n = l1 ++ extract l2 n.
Proof.
  induction l1 as [|x l1 IH]; intros Hn; [done|]. simpl. apply not_elem_of_cons in Hn as [].
  rewrite decide_False by congruence. by rewrite IH.
Qed.

Lemma extract_middle l1 n l2 : n ∉ l1 -> extract (l1 ++ n :: l2) n = l1 ++ l2.
Proof. intros. rewrite extract_app_r by done. simpl. by rewrite decide_True. Qed.

Lemma extract_not_elem l n : n ∉ l -> extract l n = l.
Proof.
  induction l as [|x l IH]; intros Hn; [done|]. simpl. apply not_elem_of_cons in Hn as [].
  rewrite decide_False by congruence. by rewrite IH.
Qed.

Lemma elem_of_extract l n x : NoDup l -> x ∈ extract l n <-> x ∈ l /\ x <> n.
Proof.
  induction l as [|y l IH]; intros HN; simpl; [set_solver|].
  apply NoDup_cons in HN as [Hy HN]. case_decide as E.
  - subst. set_solver.
  - rewrite elem_of_cons, IH, elem_of_cons by done. set_solver.
Qed.

Lemma NoDup_extract l n : NoDup l -> NoDup (extract l n).
Proof.
  induction l as [|y l IH]; intros HN; simpl; [done|].
  apply NoDup_cons in HN as [Hy HN]. case_decide; [done|].
  apply NoDup_cons. split; [|by apply IH]. rewrite elem_of_extract by done. tauto.
Qed.

Lemma insert_node_middle l1 a l2 n :
  a ∉ l1 -> insert_node (l1 ++ a :: l2) a n = l1 ++ a :: n :: l2.
Proof.
  induction l1 as [|x l1 IH]; intros Ha; simpl.
  - by rewrite decide_True.
  - apply not_elem_of_cons in Ha as []. rewrite decide_False by congruence. f_equal.
    by apply IH.
Qed.
End Ops.
End ListChain.

(** ** Refinement: any sequence of chain operations *)

Inductive chain_op : Type :=
| Op_Append (n : Z)
| Op_Prepend (n : Z)
| Op_Insert (after_node n : Z)
| Op_Extract (n : Z)
| Op_Get.

(** One operation on the memory; the result is the returned pointer ([NULL] for
    the [void] routines). *)
Definition run_mem (c : Z) (op : chain_op) (m : mem) : Z * mem :=
  match op with
  | Op_Append n => (NULL, _Chain_Append m c n)
  | Op_Prepend n => (NULL, _Chain_Prepend m c n)
  | Op_Insert a n => (NULL, _Chain_Insert m a n)
  | Op_Extract n => (NULL, _Chain_Extract m n)
  | Op_Get => _Chain_Get m c
  end.

(** The same operation on the list. *)
Definition run_list (c : Z) (op : chain_op) (l : list Z) : Z * list Z :=
  match op with
  | Op_Append n => (NULL, ListChain.append l n)
  | Op_Prepend n => (NULL, ListChain.prepend l n)
  | Op_Insert a n =>
      (NULL, ListChain.insert_after l (if decide (a = _Chain_Head c) then None else Some a) n)
  | Op_Extract n => (NULL, ListChain.extract l n)
  | Op_Get => match l with [] => (NULL, []) | x :: r => (x, r) end
  end.

(** The obligations of the callers: only nodes of the pool [U] that are off the
    chain are added, and only nodes on the chain are named otherwise. *)
Definition op_ok (U : list Z) (c : Z) (op : chain_op) (l : list Z) : Prop :=
  match op with
  | Op_Append n | Op_Prepend n => n ∈ U /\ n ∉ l
  | Op_Insert a n => (a = _Chain_Head c \/ a ∈ l) /\ n ∈ U /\ n ∉ l
  | Op_Extract n => n ∈ l
  | Op_Get => True
  end.

Fixpoint run_ops {S} (step : chain_op -> S -> Z * S) (ops : list chain_op) (s : S)
  : list Z * S :=
  match ops with
  | [] => ([], s)
  | op :: ops =>
      let '(r, s) := step op s in
      let '(rs, s) := run_ops step ops s in (r :: rs, s)
  end.

Fixpoint ops_ok (U : list Z) (c : Z) (ops : list chain_op) (l : list Z) : Prop :=
  match ops with
  | [] => True
  | op :: ops => op_ok U c op l /\ ops_ok U c ops (snd (run_list c op l))
  end.

#[global] Instance op_ok_dec U c op l : Decision (op_ok U c op l).
Proof. destruct op; simpl; apply _. Defined.

#[global] Instance ops_ok_dec U c ops l : Decision (ops_ok U c ops l).
Proof. revert l. induction ops as [|op ops IH]; intros l; simpl; apply _. Defined.

Lemma flat_map_node_words_submseteq l U :
  NoDup l -> l ⊆ U -> flat_map node_words l ⊆+ flat_map node_words U.
Proof.
  revert U. induction l as [|x l IH]; intros U HN HS; simpl; [apply submseteq_nil_l|].
  apply NoDup_cons in HN as [Hx HN].
  assert (x ∈ U) as HU by set_solver.
  apply list_elem_of_split in HU as (U1 & U2 & ->).
  assert (flat_map node_words (U1 ++ x :: U2) ≡ₚ node_words x ++ flat_map node_words (U1 ++ U2)) as ->.
  { rewrite !flat_map_app. simpl. rewrite <- !Permutation_middle. done. }
  simpl. do 2 apply submseteq_skip. apply IH; [done|]. set_solver.
Qed.

Lemma chain_words_pool c U l :
  NoDup (chain_words c U) -> NoDup l -> l ⊆ U -> NoDup (chain_words c l).
Proof.
  intros HU HN HS. destruct (submseteq_Permutation (chain_words c l) (chain_words c U)) as [k Hk].
  - apply submseteq_app; [done|]. by apply flat_map_node_words_submseteq.
  - rewrite Hk in HU. apply NoDup_app in HU. tauto.
Qed.

(** One step of the simulation. *)
Lemma chain_step U c op m l :
  NoDup (chain_words c U) -> l ⊆ U -> chain_rep m c l -> op_ok U c op l ->
  let '(r, m') := run_mem c op m in
  let '(r', l') := run_list c op l in
  r = r' /\ chain_rep m' c l' /\ l' ⊆ U.
Proof.
  intros HU HS HR Hok. destruct (chain_rep_nodes _ _ _ HR) as (HN & Hh & Ht).
  assert (forall l', NoDup l' -> l' ⊆ U -> NoDup (chain_words c l')) as HP
    by eauto using chain_words_pool.
  destruct op as [n|n|a n|n|]; simpl in *.
  - split_and!; [done| |set_solver]. apply append_rep; [done|]. apply HP; [|set_solver].
    apply NoDup_app. split_and!; [done|set_solver|apply NoDup_singleton].
  - split_and!; [done| |set_solver]. apply (insert_rep c m [] l); [done|].
    apply HP; [|set_solver]. apply NoDup_cons. tauto.
  - split; [done|]. destruct Hok as (Ha & Hn & Hn').
    case_decide as E.
    + subst a. split; [|set_solver]. apply (insert_rep c m [] l); [done|].
      apply HP; [|set_solver]. apply NoDup_cons. tauto.
    + destruct Ha as [?|Ha]; [done|].
      apply list_elem_of_split in Ha as (l1 & l2 & ->).
      assert (a ∉ l1) by (intros ?; apply NoDup_app in HN; set_solver).
      cbn [ListChain.insert_after]. rewrite ListChain.insert_node_middle by done. split; [|set_solver].
      pose proof (insert_rep c m (l1 ++ [a]) l2 n) as HX.
      rewrite List.last_last, <- !app_assoc in HX. apply HX; [done|]. simpl.
      apply HP; [|set_solver].
      apply NoDup_app in HN as (N1 & N2 & N3). apply NoDup_app. split_and!; [done| |].
      * set_solver.
      * apply NoDup_cons in N3 as [N3 N4]. rewrite !NoDup_cons. split_and!; [set_solver..|done].
  - split; [done|]. apply list_elem_of_split in Hok as (l1 & l2 & ->).
    rewrite ListChain.extract_middle by (apply NoDup_app in HN; set_solver).
    split; [|set_solver]. by apply extract_rep.
  - unfold _Chain_Get. rewrite (chain_rep_is_empty _ _ _ HR).
    destruct l as [|x l]; cbn [negb]; [done|].
    pose proof (get_first_rep c m x l HR) as HG.
    destruct (_Chain_Get_first_unprotected m c) as [r m']. destruct HG as [HG1 HG2].
    split; [done|]. split; [done|]. set_solver.
Qed.

(** C24: The pointer implementation of chains refines lists.  For every pool of
    non-overlapping nodes and every sequence of append, prepend, insert, extract
    and get operations that callers may legally issue, the routines of chain.c
    return the same nodes as the list operations and end in a memory that
    represents the resulting list: no node is lost, duplicated or reordered,
    whatever the overlap of head and tail in [Chain_Control]. *)
Theorem chain_refinement U c ops m l :
  NoDup (chain_words c U) -> l ⊆ U -> chain_rep m c l -> ops_ok U c ops l ->
  fst (run_ops (run_mem c) ops m) = fst (run_ops (run_list c) ops l) /\
  chain_rep (snd (run_ops (run_mem c) ops m)) c (snd (run_ops (run_list c) ops l)).
Proof.
  intros HU. revert m l. induction ops as [|op ops IH]; intros m l HS HR Hok; simpl; [done|].
  destruct Hok as [Hop Hok]. pose proof (chain_step U c op m l HU HS HR Hop) as HX.
  destruct (run_mem c op m) as [r m'], (run_list c op l) as [r' l'].
  destruct HX as (-> & HR' & HS'). specialize (IH m' l' HS' HR' Hok).
  destruct (run_ops (run_mem c) ops m'), (run_ops (run_list c) ops l'). simpl in *.
  destruct IH. by subst.
Qed.

Definition witness_ops : list chain_op :=
  [Op_Append 100; Op_Prepend 108; Op_Insert 108 116; Op_Get; Op_Extract 100; Op_Get; Op_Get].

Lemma chain_refinement_witness :
  fst (run_ops (run_mem 16) witness_ops (_Chain_Initialize_empty ∅ 16)) =
    [0; 0; 0; 108; 0; 116; 0].
Proof.
  rewrite (proj1 (chain_refinement [100; 108; 116] 16 witness_ops _ []
    ltac:(by_decide) (list_subseteq_nil _)
    (initialize_empty_rep 16 ∅)
    ltac:(by_decide))).
  reflexivity.
Defined.

(** [_Chain_Initialize] turns a contiguous array of nodes into a chain that
    holds exactly the nodes of the array, in address order, provided the array
    does not wrap around the address space and its nodes overlap neither each
    other nor the control block. *)
Theorem chain_initialize_correct c m start number size :
  0 <= start -> 0 <= number -> 0 <= size -> start + number * size < two32 ->
  NoDup (chain_words c (node_array start size (Z.to_nat number))) ->
  chain_rep (_Chain_Initialize m c start number size) c
    (node_array start size (Z.to_nat number)).
Proof. apply initialize_rep. Qed.

Lemma chain_initialize_witness :
  chain_rep (_Chain_Initialize ∅ 16 100 3 20) 16 [100; 120; 140].
Proof.
  apply (chain_initialize_correct 16 ∅ 100 3 20); try lia; [reflexivity|].
  by_decide.
Defined.

(** [_Chain_Is_first] and [_Chain_Is_last] do not recognise the first and the
    last node of a chain: on a chain whose control block is not at address 0 they
    answer FALSE for every node of the chain, because the neighbours of the first
    and last nodes are the head and tail pseudo-nodes, never NULL. *)
Theorem chain_is_first_last_false m c l n :
  0 < c -> chain_rep m c l -> Forall (fun n => 0 < n) l -> n ∈ l ->
  _Chain_Is_first m n = false /\ _Chain_Is_last m n = false.
Proof.
  intros Hc HR HF Hn. apply list_elem_of_split in Hn as (l1 & l2 & ->).
  destruct (rep_splice_out _ _ _ _ _ HR) as (E1 & E2 & _).
  unfold _Chain_Is_first, _Chain_Is_last, Node_next, Node_previous. rewrite E1, E2.
  apply Forall_app in HF as [HF1 HF2]. apply Forall_cons in HF2 as [_ HF2].
  split; apply Z.eqb_neq; unfold NULL.
  - destruct l1 as [|x l1 _] using rev_ind; [unfold _Chain_Head; simpl; lia|].
    rewrite List.last_last. apply Forall_app in HF1 as [_ HF1]. inversion HF1. lia.
  - destruct l2 as [|x l2]; simpl; [unfold _Chain_Tail; lia|]. inversion HF2. lia.
Qed.

Lemma chain_is_first_last_false_witness :
  let m := _Chain_Initialize ∅ 16 100 3 20 in
  Chain_first m 16 = 100 /\ Chain_last m 16 = 140 /\
  _Chain_Is_first m 100 = false /\ _Chain_Is_last m 140 = false.
Proof.
  split; [reflexivity|]. split; [reflexivity|].
  assert (chain_rep (_Chain_Initialize ∅ 16 100 3 20) 16 [100; 120; 140]) as HR.
  { apply (initialize_rep 16 ∅ 100 3 20); try lia; [reflexivity|].
    by_decide. }
  split.
  - apply (chain_is_first_last_false _ 16 [100; 120; 140] 100);
      [lia|exact HR|repeat constructor; lia|set_solver].
  - apply (chain_is_first_last_false _ 16 [100; 120; 140] 140);
      [lia|exact HR|repeat constructor; lia|set_solver].
Defined.
