(* ===== verification/Heap.v ===== *)
(** * Heap Handler (score/src/heap.c, score/inline/heap.inl, score/headers/heap.h)

    The boundary-tag allocator at the level of memory words, with 32-bit
    pointers.  A [Heap_Block] at [b] has [back_flag] at [b], [front_flag] at
    [b + 4], [next] at [b + 8] and [previous] at [b + 12]; a [Heap_Control] at
    [h] has [start] at [h], [final] at [h + 4], [first] at [h + 8],
    [permanent_null] at [h + 12], [last] at [h + 16] and [page_size] at [h + 20].
    The control block doubles as the head block (at [h]) and the tail block (at
    [h + 4]) of the free list. *)
From S2P Require Import Prelude Chain.

(** ** Constants and types (headers/heap.h; the SPARC port's cpu.h) *)

Definition CPU_ALIGNMENT : Z := 8.
Definition CPU_HEAP_ALIGNMENT : Z := CPU_ALIGNMENT.

Inductive Heap_Extend_status : Type :=
| HEAP_EXTEND_SUCCESSFUL
| HEAP_EXTEND_ERROR
| HEAP_EXTEND_NOT_IMPLEMENTED.

Definition HEAP_BLOCK_USED : Z := 1.
Definition HEAP_BLOCK_FREE : Z := 0.
Definition HEAP_DUMMY_FLAG : Z := 0 + HEAP_BLOCK_USED.
Definition sizeof_unsigned32 : Z := 4.
Definition sizeof_pointer : Z := 4.
Definition sizeof_Heap_Block : Z := 16.
Definition HEAP_OVERHEAD : Z := sizeof_unsigned32 * 2.
Definition HEAP_BLOCK_USED_OVERHEAD : Z := sizeof_pointer * 2.
Definition HEAP_MINIMUM_SIZE : Z := HEAP_OVERHEAD + sizeof_Heap_Block.

(** ** Field accesses *)

Definition back_flag (m : mem) (b : Z) : Z := ld m b.
Definition front_flag (m : mem) (b : Z) : Z := ld m (b + 4).
Definition block_next (m : mem) (b : Z) : Z := ld m (b + 8).
Definition block_previous (m : mem) (b : Z) : Z := ld m (b + 12).
Definition set_back_flag (m : mem) (b v : Z) : mem := st m b v.
Definition set_front_flag (m : mem) (b v : Z) : mem := st m (b + 4) v.
Definition set_block_next (m : mem) (b v : Z) : mem := st m (b + 8) v.
Definition set_block_previous (m : mem) (b v : Z) : mem := st m (b + 12) v.

Definition heap_start (m : mem) (h : Z) : Z := ld m h.
Definition heap_final (m : mem) (h : Z) : Z := ld m (h + 4).
Definition heap_first (m : mem) (h : Z) : Z := ld m (h + 8).
Definition heap_page_size (m : mem) (h : Z) : Z := ld m (h + 20).
Definition set_heap_start (m : mem) (h v : Z) : mem := st m h v.
Definition set_heap_final (m : mem) (h v : Z) : mem := st m (h + 4) v.
Definition set_heap_first (m : mem) (h v : Z) : mem := st m (h + 8) v.
Definition set_heap_permanent_null (m : mem) (h v : Z) : mem := st m (h + 12) v.
Definition set_heap_last (m : mem) (h v : Z) : mem := st m (h + 16) v.
Definition set_heap_page_size (m : mem) (h v : Z) : mem := st m (h + 20) v.

(** ** Inlined routines *)

Definition _Heap_Head (the_heap : Z) : Z := the_heap.
Definition _Heap_Tail (the_heap : Z) : Z := the_heap + 4.

Definition _Heap_Previous_block (m : mem) (the_block : Z) : Z :=
  _Addresses_Subtract_offset the_block (Z.land (back_flag m the_block) (not32 HEAP_BLOCK_USED)).

Definition _Heap_Next_block (m : mem) (the_block : Z) : Z :=
  _Addresses_Add_offset the_block (Z.land (front_flag m the_block) (not32 HEAP_BLOCK_USED)).

Definition _Heap_Block_at (base offset : Z) : Z := _Addresses_Add_offset base offset.

Definition _Heap_User_block_at (m : mem) (base : Z) : Z :=
  let offset := ld m (base - 4) in
  _Heap_Block_at base (wrap32 (- offset + - HEAP_BLOCK_USED_OVERHEAD)).

Definition _Heap_Is_previous_block_free (m : mem) (the_block : Z) : bool :=
  Z.land (back_flag m the_block) HEAP_BLOCK_USED =? 0.

Definition _Heap_Is_block_free (m : mem) (the_block : Z) : bool :=
  Z.land (front_flag m the_block) HEAP_BLOCK_USED =? 0.

Definition _Heap_Is_block_used (m : mem) (the_block : Z) : bool :=
  negb (Z.land (front_flag m the_block) HEAP_BLOCK_USED =? 0).

Definition _Heap_Block_size (m : mem) (the_block : Z) : Z :=
  Z.land (front_flag m the_block) (not32 HEAP_BLOCK_USED).

Definition _Heap_Start_of_user_area (the_block : Z) : Z := the_block + 8.

Definition _Heap_Is_block_in (m : mem) (the_heap the_block : Z) : bool :=
  _Addresses_Is_in_range the_block (heap_start m the_heap) (heap_final m the_heap).

Definition _Heap_Is_page_size_valid (page_size : Z) : bool :=
  negb (page_size =? 0) && (page_size mod CPU_HEAP_ALIGNMENT =? 0).

Definition _Heap_Build_flag (size in_use_flag : Z) : Z := Z.lor size in_use_flag.

(** ** heap.c *)

Definition _Heap_Initialize (m : mem) (the_heap starting_address size page_size : Z)
  : Z * mem :=
  if negb (_Heap_Is_page_size_valid page_size) || (size <? HEAP_MINIMUM_SIZE)
  then (0, m)
  else
    let m := set_heap_page_size m the_heap page_size in
    let the_size := size -w HEAP_OVERHEAD in
    let the_block := starting_address in
    let m := set_back_flag m the_block HEAP_DUMMY_FLAG in
    let m := set_front_flag m the_block the_size in
    let m := set_block_next m the_block (_Heap_Tail the_heap) in
    let m := set_block_previous m the_block (_Heap_Head the_heap) in
    let m := set_heap_start m the_heap the_block in
    let m := set_heap_first m the_heap the_block in
    let m := set_heap_permanent_null m the_heap NULL in
    let m := set_heap_last m the_heap the_block in
    let the_block := _Heap_Next_block m the_block in
    let m := set_back_flag m the_block the_size in
    let m := set_front_flag m the_block HEAP_DUMMY_FLAG in
    let m := set_heap_final m the_heap the_block in
    (the_size -w HEAP_BLOCK_USED_OVERHEAD, m).

(** The search loop of [_Heap_Allocate]: the first block of the free list that is
    large enough, [NULL] when the tail is reached ([None]: out of fuel). *)
Fixpoint heap_search (fuel : nat) (m : mem) (the_heap the_block the_size : Z) : option Z :=
  match fuel with
  | O => None
  | S fuel =>
      if the_block =? _Heap_Tail the_heap then Some NULL
      else if the_size <=? front_flag m the_block then Some the_block
      else heap_search fuel m the_heap (block_next m the_block) the_size
  end.

(** The size of the block that a request needs, as [unsigned32] arithmetic. *)
Definition heap_request_size (page_size size : Z) : Z :=
  let excess := size mod page_size in
  let the_size := (size +w page_size) +w HEAP_BLOCK_USED_OVERHEAD in
  let the_size := if negb (excess =? 0) then the_size +w (page_size -w excess) else the_size in
  if the_size <? sizeof_Heap_Block then sizeof_Heap_Block else the_size.

Definition _Heap_Allocate (fuel : nat) (m : mem) (the_heap size : Z) : option (Z * mem) :=
  let page_size := heap_page_size m the_heap in
  let the_size := heap_request_size page_size size in
  match heap_search fuel m the_heap (heap_first m the_heap) the_size with
  | None => None
  | Some the_block =>
      if the_block =? NULL then Some (NULL, m)
      else
        let '(ptr, m) :=
          if page_size +w HEAP_BLOCK_USED_OVERHEAD <? (front_flag m the_block) -w the_size
          then
            let m := set_front_flag m the_block (front_flag m the_block -w the_size) in
            let next_block := _Heap_Next_block m the_block in
            let m := set_back_flag m next_block (front_flag m the_block) in
            let temporary_block := _Heap_Block_at next_block the_size in
            let flag := _Heap_Build_flag the_size HEAP_BLOCK_USED in
            let m := set_front_flag m next_block flag in
            let m := set_back_flag m temporary_block flag in
            (_Heap_Start_of_user_area next_block, m)
          else
            let next_block := _Heap_Next_block m the_block in
            let m := set_back_flag m next_block
                       (_Heap_Build_flag (front_flag m the_block) HEAP_BLOCK_USED) in
            let m := set_front_flag m the_block (back_flag m next_block) in
            let m := set_block_previous m (block_next m the_block) (block_previous m the_block) in
            let m := set_block_next m (block_previous m the_block) (block_next m the_block) in
            (_Heap_Start_of_user_area the_block, m) in
        let offset := page_size -w Z.land ptr (page_size -w 1) in
        let ptr := _Addresses_Add_offset ptr offset in
        let m := st m (ptr - 4) offset in
        Some (ptr, m)
  end.

(** TRUE with the size, or FALSE ([None]). *)
Definition _Heap_Size_of_user_area (m : mem) (the_heap starting_address : Z) : option Z :=
  let the_block := _Heap_User_block_at m starting_address in
  if negb (_Heap_Is_block_in m the_heap the_block) || _Heap_Is_block_free m the_block
  then None
  else
    let the_size := _Heap_Block_size m the_block in
    let next_block := _Heap_Block_at the_block the_size in
    if negb (_Heap_Is_block_in m the_heap next_block)
       || negb (front_flag m the_block =? back_flag m next_block)
    then None
    else Some the_size.

Definition _Heap_Free (m : mem) (the_heap starting_address : Z) : bool * mem :=
  let the_block := _Heap_User_block_at m starting_address in
  if negb (_Heap_Is_block_in m the_heap the_block) || _Heap_Is_block_free m the_block
  then (false, m)
  else
    let the_size := _Heap_Block_size m the_block in
    let next_block := _Heap_Block_at the_block the_size in
    if negb (_Heap_Is_block_in m the_heap next_block)
       || negb (front_flag m the_block =? back_flag m next_block)
    then (false, m)
    else if _Heap_Is_previous_block_free m the_block then
      let previous_block := _Heap_Previous_block m the_block in
      if negb (_Heap_Is_block_in m the_heap previous_block) then (false, m)
      else if _Heap_Is_block_free m next_block then           (* coalesce both *)
        let m := set_front_flag m previous_block
                   (front_flag m previous_block +w (front_flag m next_block +w the_size)) in
        let temporary_block := _Heap_Next_block m previous_block in
        let m := set_back_flag m temporary_block (front_flag m previous_block) in
        let m := set_block_previous m (block_next m next_block) (block_previous m next_block) in
        let m := set_block_next m (block_previous m next_block) (block_next m next_block) in
        (true, m)
      else                                                     (* coalesce prev *)
        let flag := front_flag m previous_block +w the_size in
        let m := set_back_flag m next_block flag in
        let m := set_front_flag m previous_block flag in
        (true, m)
    else if _Heap_Is_block_free m next_block then              (* coalesce next *)
      let m := set_front_flag m the_block (the_size +w front_flag m next_block) in
      let new_next_block := _Heap_Next_block m the_block in
      let m := set_back_flag m new_next_block (front_flag m the_block) in
      let m := set_block_next m the_block (block_next m next_block) in
      let m := set_block_previous m the_block (block_previous m next_block) in
      let m := set_block_next m (block_previous m next_block) the_block in
      let m := set_block_previous m (block_next m next_block) the_block in
      let m := if heap_first m the_heap =? next_block
               then set_heap_first m the_heap the_block else m in
      (true, m)
    else                                                       (* no coalesce *)
      let m := set_front_flag m the_block the_size in
      let m := set_back_flag m next_block the_size in
      let m := set_block_previous m the_block (_Heap_Head the_heap) in
      let m := set_block_next m the_block (heap_first m the_heap) in
      let m := set_heap_first m the_heap the_block in
      let m := set_block_previous m (block_next m the_block) the_block in
      (true, m).

(** The status, the amount extended (meaningful on success) and the memory. *)
Definition _Heap_Extend (m : mem) (the_heap starting_address size : Z)
  : Heap_Extend_status * Z * mem :=
  if (heap_start m the_heap <=? starting_address) && (starting_address <=? heap_final m the_heap)
  then (HEAP_EXTEND_ERROR, 0, m)
  else if starting_address <? heap_start m the_heap
  then (HEAP_EXTEND_NOT_IMPLEMENTED, 0, m)
  else
    let the_block := _Addresses_Subtract_offset starting_address HEAP_OVERHEAD in
    if negb (the_block =? heap_final m the_heap) then (HEAP_EXTEND_NOT_IMPLEMENTED, 0, m)
    else
      let amount_extended := size in
      let old_final := heap_final m the_heap in
      let new_final := _Addresses_Add_offset old_final size in
      let m := set_heap_final m the_heap new_final in
      let flag := _Heap_Build_flag size HEAP_BLOCK_USED in
      let m := set_back_flag m new_final flag in
      let m := set_front_flag m old_final flag in
      let m := set_front_flag m new_final HEAP_DUMMY_FLAG in
      let p := old_final + 8 in
      let m := st m p sizeof_unsigned32 in
      let p := p + 4 in
      let '(_, m) := _Heap_Free m the_heap p in
      (HEAP_EXTEND_SUCCESSFUL, amount_extended, m).
