(* ===== verification/HeapProofs.v ===== *)
(** * Correctness of the heap handler

    The abstract state of a heap is the sequence of its blocks (size and whether
    used), which tile the area from [start] to [final], and the order of the free
    list.  [heap_rep] relates it to the words in memory. *)
From S2P Require Import Prelude Chain Heap.

Abbreviation block := (Z * bool)%type.

(** ** Flags *)

Definition flag_of (sz : Z) (used : bool) : Z := sz + if used then 1 else 0.

Lemma land_1_even z : z mod 2 = 0 -> Z.land z 1 = 0.
Proof. intros H. change 1 with (Z.ones 1). by rewrite Z.land_ones. Qed.

Lemma land_1_odd z : z mod 2 = 0 -> Z.land (z + 1) 1 = 1.
Proof.
  intros H. change 1 with (Z.ones 1) at 2. rewrite Z.land_ones by lia.
  change (2 ^ 1) with 2. Z.div_mod_to_equations. lia.
Qed.

Lemma land_not32_1 z : u32 z -> Z.land z (not32 1) = z - z mod 2.
Proof.
  intros H.
  assert (Z.land (Z.land z (not32 1)) (Z.land z 1) = 0) as H0.
  { replace (Z.land (Z.land z (not32 1)) (Z.land z 1)) with
      (Z.land z (Z.land (not32 1) 1)); [apply Z.land_0_r|].
    apply Z.bits_inj'. intros n _. rewrite !Z.land_spec.
    by destruct (Z.testbit z n), (Z.testbit (not32 1) n). }
  assert (Z.land z (Z.ones 32) = Z.land z (not32 1) + Z.land z 1) as E.
  { rewrite Z.add_nocarry_lxor, Z.lxor_lor by done.
    change (Z.ones 32) with (Z.lor (not32 1) 1). apply Z.land_lor_distr_r. }
  rewrite Z.land_ones in E by lia. rewrite Z.mod_small in E by exact H.
  change 1 with (Z.ones 1) in E at 2. rewrite Z.land_ones in E by lia.
  change (2 ^ 1) with 2 in E. lia.
Qed.

Lemma lor_1_even z : z mod 2 = 0 -> Z.lor z 1 = z + 1.
Proof.
  intros H. rewrite Z.add_nocarry_lxor by by apply land_1_even.
  by rewrite Z.lxor_lor by by apply land_1_even.
Qed.

Section Flags.
Context (sz : Z) (Hsz : sz mod 4 = 0) (Hr : 0 <= sz < two32 - 4).

Lemma sz_even : sz mod 2 = 0.
Proof. Z.div_mod_to_equations; lia. Qed.

Lemma flag_size u : Z.land (flag_of sz u) (not32 HEAP_BLOCK_USED) = sz.
Proof.
  pose proof sz_even. unfold HEAP_BLOCK_USED, flag_of.
  rewrite land_not32_1 by (unfold u32, two32 in *; destruct u; lia).
  destruct u; Z.div_mod_to_equations; lia.
Qed.

Lemma size_mask : Z.land sz (not32 HEAP_BLOCK_USED) = sz.
Proof. rewrite <- (flag_size false) at 2. unfold flag_of. by rewrite Z.add_0_r. Qed.

Lemma flag_used u : (Z.land (flag_of sz u) HEAP_BLOCK_USED =? 0) = negb u.
Proof.
  unfold HEAP_BLOCK_USED, flag_of. destruct u.
  - by rewrite land_1_odd by apply sz_even.
  - by rewrite Z.add_0_r, land_1_even by apply sz_even.
Qed.

Lemma build_flag_used : _Heap_Build_flag sz HEAP_BLOCK_USED = flag_of sz true.
Proof. unfold _Heap_Build_flag, HEAP_BLOCK_USED, flag_of. apply lor_1_even, sz_even. Qed.
End Flags.

(** ** Tilings *)

Fixpoint total (bs : list block) : Z :=
  match bs with [] => 0 | (sz, _) :: bs => sz + total bs end.

(** [tiles m a pf bs]: from [a], blocks with the sizes and states of [bs] follow
    one another, front and back flags agreeing; the flag before [a] is [pf] and
    the area ends in the dummy front flag. *)
Fixpoint tiles (m : mem) (a pf : Z) (bs : list block) : Prop :=
  ld m a = pf /\
  match bs with
  | [] => ld m (a + 4) = HEAP_DUMMY_FLAG
  | (sz, u) :: bs => ld m (a + 4) = flag_of sz u /\ tiles m (a + sz) (flag_of sz u) bs
  end.

(** The same without the final flags. *)
Fixpoint tseg (m : mem) (a pf : Z) (bs : list block) : Prop :=
  match bs with
  | [] => True
  | (sz, u) :: bs =>
      ld m a = pf /\ ld m (a + 4) = flag_of sz u /\ tseg m (a + sz) (flag_of sz u) bs
  end.

Fixpoint out_flag (pf : Z) (bs : list block) : Z :=
  match bs with [] => pf | (sz, u) :: bs => out_flag (flag_of sz u) bs end.

Fixpoint free_addrs (a : Z) (bs : list block) : list Z :=
  match bs with
  | [] => []
  | (sz, u) :: bs => (if u then [] else [a]) ++ free_addrs (a + sz) bs
  end.

Fixpoint seg_words (a : Z) (bs : list block) : list Z :=
  match bs with
  | [] => []
  | (sz, _) :: bs => a :: (a + 4) :: seg_words (a + sz) bs
  end.
Definition tile_words (a : Z) (bs : list block) : list Z :=
  seg_words a bs ++ [a + total bs; a + total bs + 4].

Definition block_ok (b : block) : Prop := 16 <= fst b /\ fst b mod 4 = 0.

(** No two neighbouring blocks are both free. *)
Fixpoint coalesced (bs : list block) : Prop :=
  match bs with
  | (_, u) :: ((_, u') :: _) as r => u || u' = true /\ coalesced r
  | _ => True
  end.

Lemma total_app A B : total (A ++ B) = total A + total B.
Proof. induction A as [|[sz u] A IH]; simpl; lia. Qed.

Lemma total_nonneg A : Forall block_ok A -> 0 <= total A.
Proof. induction 1 as [|[sz u] A [H _] _ IH]; simpl in *; lia. Qed.

Lemma total_mod4 A : Forall block_ok A -> total A mod 4 = 0.
Proof.
  induction 1 as [|[sz u] A [_ H] _ IH]; simpl in *; [done|].
  Z.div_mod_to_equations; lia.
Qed.

Lemma tiles_app m a pf A B :
  tiles m a pf (A ++ B) <-> tseg m a pf A /\ tiles m (a + total A) (out_flag pf A) B.
Proof.
  revert a pf. induction A as [|[sz u] A IH]; intros a pf; cbn [app tseg total out_flag].
  - rewrite Z.add_0_r. tauto.
  - cbn [tiles]. rewrite IH, Z.add_assoc. tauto.
Qed.

Lemma tseg_app m a pf A B :
  tseg m a pf (A ++ B) <-> tseg m a pf A /\ tseg m (a + total A) (out_flag pf A) B.
Proof.
  revert a pf. induction A as [|[sz u] A IH]; intros a pf; cbn [app tseg total out_flag].
  - rewrite Z.add_0_r. tauto.
  - rewrite IH, Z.add_assoc. tauto.
Qed.

Lemma free_addrs_app a A B :
  free_addrs a (A ++ B) = free_addrs a A ++ free_addrs (a + total A) B.
Proof.
  revert a. induction A as [|[sz u] A IH]; intros a; simpl.
  - by rewrite Z.add_0_r.
  - by rewrite IH, Z.add_assoc, app_assoc.
Qed.

Lemma seg_words_app a A B :
  seg_words a (A ++ B) = seg_words a A ++ seg_words (a + total A) B.
Proof.
  revert a. induction A as [|[sz u] A IH]; intros a; simpl.
  - by rewrite Z.add_0_r.
  - by rewrite IH, Z.add_assoc.
Qed.

Lemma out_flag_app pf A B : out_flag pf (A ++ B) = out_flag (out_flag pf A) B.
Proof. revert pf. induction A as [|[sz u] A IH]; intros pf; simpl; auto. Qed.

Lemma seg_words_range a A w :
  Forall block_ok A -> w ∈ seg_words a A -> a <= w < a + total A.
Proof.
  intros H. revert a. induction H as [|[sz u] A [H _] HF IH]; intros a; simpl in *.
  - rewrite elem_of_nil. tauto.
  - rewrite !elem_of_cons. pose proof (total_nonneg A HF).
    intros [->|[->|Hw]]; [lia..|]. apply IH in Hw. lia.
Qed.

Lemma free_addrs_split a bs b :
  b ∈ free_addrs a bs <-> exists A sz B, bs = A ++ (sz, false) :: B /\ b = a + total A.
Proof.
  revert a. induction bs as [|[sz u] bs IH]; intros a; simpl.
  - rewrite elem_of_nil. split; [done|]. intros (A & sz & B & E & _). by destruct A.
  - rewrite elem_of_app, IH. split.
    + intros [H|(A & s & B & -> & ->)].
      * destruct u; [by apply elem_of_nil in H|]. apply list_elem_of_singleton in H as ->.
        exists [], sz, bs. simpl. split; [done|lia].
      * exists ((sz, u) :: A), s, B. simpl. split; [done|lia].
    + intros (A & s & B & E & ->). destruct A as [|[s' u'] A]; simpl in *; simplify_eq.
      * left. rewrite Z.add_0_r. by apply list_elem_of_singleton.
      * right. exists A, s, B. split; [done|lia].
Qed.

Lemma free_addrs_range a A b :
  Forall block_ok A -> b ∈ free_addrs a A -> a <= b /\ b + 16 <= a + total A.
Proof.
  rewrite free_addrs_split. intros HF (A1 & sz & A2 & -> & ->).
  apply Forall_app in HF as [H1 H2]. apply Forall_cons in H2 as [[H2 _] H3]. simpl in H2.
  rewrite total_app. simpl. pose proof (total_nonneg _ H1). pose proof (total_nonneg _ H3). lia.
Qed.

(** The words inside a block are not boundary words. *)
Lemma inside_not_tile_word a A sz u B w :
  Forall block_ok (A ++ (sz, u) :: B) ->
  a + total A + 8 <= w < a + total A + sz -> w ∉ tile_words a (A ++ (sz, u) :: B).
Proof.
  intros HF Hw. apply Forall_app in HF as [H1 H2]. apply Forall_cons in H2 as [[H2 _] H3].
  simpl in H2. pose proof (total_nonneg _ H3).
  unfold tile_words. rewrite seg_words_app, total_app. simpl.
  rewrite !elem_of_app, !elem_of_cons, elem_of_nil.
  intros [[Hs|[Hs|[Hs|Hs]]]|[Hs|[Hs|Hs]]]; try lia; try done.
  - apply seg_words_range in Hs; [lia|done].
  - apply seg_words_range in Hs; [lia|done].
Qed.

Lemma tseg_frame m a pf A w v :
  w ∉ seg_words a A -> tseg (st m w v) a pf A <-> tseg m a pf A.
Proof.
  revert a pf. induction A as [|[sz u] A IH]; intros a pf Hw; simpl in *; [done|].
  rewrite !not_elem_of_cons in Hw. destruct Hw as (H1 & H2 & H3).
  by rewrite !ld_st_ne, IH.
Qed.

Lemma tiles_frame m a pf A w v :
  w ∉ tile_words a A -> tiles (st m w v) a pf A <-> tiles m a pf A.
Proof.
  unfold tile_words. revert a pf. induction A as [|[sz u] A IH]; intros a pf Hw; simpl in *.
  - rewrite Z.add_0_r in Hw. rewrite !ld_st_ne by set_solver. done.
  - rewrite !not_elem_of_cons, Z.add_assoc in Hw. destruct Hw as (H1 & H2 & H3).
    by rewrite !ld_st_ne, IH.
Qed.

(** Rewriting the back flag in front of a tiling. *)
Lemma tiles_back m a pf pf' B :
  Forall block_ok B -> tiles m a pf B -> tiles (st m a pf') a pf' B.
Proof.
  intros HF. destruct B as [|[sz u] B]; simpl.
  - rewrite ld_st_eq, ld_st_ne by lia. tauto.
  - apply Forall_cons in HF as [[H1 _] HF]. simpl in H1.
    rewrite ld_st_eq, ld_st_ne by lia. intros (_ & E & H). split_and!; [done..|].
    apply tiles_frame; [|done]. unfold tile_words. pose proof (total_nonneg _ HF).
    rewrite elem_of_app, !elem_of_cons, elem_of_nil.
    intros [Hs|[Hs|[Hs|Hs]]]; try lia; try done. apply seg_words_range in Hs; [lia|done].
Qed.

Lemma coalesced_app A x B :
  coalesced (A ++ x :: B) <-> coalesced (A ++ [x]) /\ coalesced (x :: B).
Proof.
  induction A as [|[s u] A IH]; [by simpl; destruct x; tauto|].
  destruct A as [|[s' u'] A].
  - simpl. destruct x as [s' u']. destruct B as [|[]]; tauto.
  - change (u || u' = true /\ coalesced (((s', u') :: A) ++ x :: B) <->
      (u || u' = true /\ coalesced (((s', u') :: A) ++ [x])) /\ coalesced (x :: B)).
    rewrite IH. tauto.
Qed.

(** ** The words of the free list *)

Definition free_node_words (b : Z) : list Z := [b + 8; b + 12].

Lemma link_words_free x l t :
  link_words 8 (x :: l ++ [t]) ≡ₚ (x + 8) :: (t + 12) :: flat_map free_node_words l.
Proof.
  revert x. induction l as [|y l IH]; intros x; simpl app.
  - rewrite link_words_cons2. simpl. replace (t + 8 + 4) with (t + 12) by lia. done.
  - rewrite link_words_cons2, IH. simpl. replace (y + 8 + 4) with (y + 12) by lia.
    apply perm_skip.
    exact (Permutation_app_tail (flat_map free_node_words l)
             (Permutation_rev [y + 12; y + 8; t + 12])).
Qed.

Lemma elem_of_free_words l w :
  w ∈ flat_map free_node_words l <-> exists b, b ∈ l /\ (w = b + 8 \/ w = b + 12).
Proof.
  rewrite list_elem_of_In, in_flat_map. unfold free_node_words. simpl.
  split; intros (b & H1 & H2); exists b; rewrite list_elem_of_In in *; intuition auto.
Qed.

Lemma NoDup_free_words a bs :
  Forall block_ok bs -> NoDup (flat_map free_node_words (free_addrs a bs)).
Proof.
  intros HF. revert a. induction HF as [|[sz u] bs [H _] HF IH]; intros a; simpl in *; [constructor|].
  destruct u; simpl; [done|]. rewrite !NoDup_cons, not_elem_of_cons, !elem_of_free_words.
  split_and!; [lia| | |done];
    intros (b & Hb & E); apply free_addrs_range in Hb; try done; lia.
Qed.

Definition apart (h a : Z) (bs : list block) : Prop :=
  h + 28 <= a \/ a + total bs + 8 <= h.

Section FreeList.
Context (h a : Z) (bs : list block) (fl : list Z).
Context (HF : Forall block_ok bs) (HA : apart h a bs).

Lemma free_links_nodup :
  fl ≡ₚ free_addrs a bs -> NoDup (link_words 8 (_Heap_Head h :: fl ++ [_Heap_Tail h])).
Proof.
  intros HP. rewrite link_words_free. unfold _Heap_Head, _Heap_Tail.
  replace (h + 4 + 12) with (h + 16) by lia. rewrite (Permutation_flat_map free_node_words HP).
  pose proof (total_nonneg _ HF).
  rewrite !NoDup_cons, not_elem_of_cons, !elem_of_free_words. unfold apart in HA.
  split_and!; [lia| | |by apply NoDup_free_words];
    intros (b & Hb & E); apply free_addrs_range in Hb; try done; lia.
Qed.

(** The words of the free list are neither boundary words nor the other fields
    of the control block. *)
Lemma free_links_words w :
  (forall b, b ∈ fl -> b ∈ free_addrs a bs) ->
  w ∈ link_words 8 (_Heap_Head h :: fl ++ [_Heap_Tail h]) ->
  w ∉ tile_words a bs /\ w <> h /\ w <> h + 4 /\ w <> h + 12 /\ w <> h + 20.
Proof.
  intros HS. rewrite link_words_free, !elem_of_cons, elem_of_free_words.
  unfold _Heap_Head, _Heap_Tail. pose proof (total_nonneg _ HF) as HT. unfold apart in HA.
  assert (forall w, w ∈ tile_words a bs -> a <= w < a + total bs + 8) as HR.
  { intros w'. unfold tile_words. rewrite elem_of_app, !elem_of_cons, elem_of_nil.
    intros [Hs|[Hs|[Hs|Hs]]]; try lia; try done. apply seg_words_range in Hs; [lia|done]. }
  intros [->|[->|(b & Hb & Hw)]].
  - split; [intros Hx; apply HR in Hx; lia|lia].
  - split; [intros Hx; apply HR in Hx; lia|lia].
  - apply HS in Hb. pose proof (free_addrs_range _ _ _ HF Hb).
    apply free_addrs_split in Hb as (A & sz & B & -> & ->).
    split; [|lia]. apply inside_not_tile_word; [done|].
    apply Forall_app in HF as [_ H2]. apply Forall_cons in H2 as [[H2 _] _]. simpl in H2. lia.
Qed.
End FreeList.

(** ** The representation of a heap *)

Record heap_rep (m : mem) (h start ps : Z) (bs : list block) (fl : list Z) : Prop := {
  hr_start : heap_start m h = start;
  hr_final : heap_final m h = start + total bs;
  hr_page_size : heap_page_size m h = ps;
  hr_null : ld m (h + 12) = NULL;
  hr_tiles : tiles m start HEAP_DUMMY_FLAG bs;
  hr_links : links 8 m (_Heap_Head h :: fl ++ [_Heap_Tail h]);
  hr_free : fl ≡ₚ free_addrs start bs;
  hr_ok : Forall block_ok bs;
  hr_coalesced : coalesced bs;
  hr_apart : apart h start bs;
  hr_low : 8 <= start;
  hr_high : start + total bs + 8 <= two32;
  hr_align : start mod 4 = 0;
  hr_control : 0 < h
}.

(** A heap control block in words of its own, next to an area that holds [bs]:
    what the stores of one operation must re-establish. *)
Lemma heap_rep_intro m m' h start ps bs fl bs' fl' :
  heap_rep m h start ps bs fl ->
  ld m' h = ld m h -> ld m' (h + 4) = ld m (h + 4) -> ld m' (h + 12) = ld m (h + 12) ->
  ld m' (h + 20) = ld m (h + 20) ->
  total bs' = total bs -> tiles m' start HEAP_DUMMY_FLAG bs' ->
  links 8 m' (_Heap_Head h :: fl' ++ [_Heap_Tail h]) -> fl' ≡ₚ free_addrs start bs' ->
  Forall block_ok bs' -> coalesced bs' ->
  heap_rep m' h start ps bs' fl'.
Proof.
  intros [] E1 E2 E3 E4 ET. intros.
  split; unfold heap_start, heap_final, heap_page_size, apart in *; rewrite ?ET; try done;
    congruence.
Qed.

Lemma heap_rep_first m h start ps bs fl :
  heap_rep m h start ps bs fl -> heap_first m h = hd (_Heap_Tail h) fl.
Proof.
  intros [_ _ _ _ _ H]. unfold heap_first. destruct fl; simpl in H; tauto.
Qed.

(** ** [_Heap_Initialize] *)

Lemma heap_initialize_rep m h start size ps :
  _Heap_Is_page_size_valid ps = true -> HEAP_MINIMUM_SIZE <= size ->
  size mod 4 = 0 -> start mod 4 = 0 -> 8 <= start -> start + size <= two32 ->
  0 < h -> h + 28 <= start \/ start + size <= h ->
  let '(r, m') := _Heap_Initialize m h start size ps in
  r = size - 16 /\ heap_rep m' h start ps [(size - 8, false)] [start].
Proof.
  intros Hp Hs Hm Ha Hl Hh Hc Hd. unfold _Heap_Initialize. rewrite Hp. simpl negb.
  unfold HEAP_MINIMUM_SIZE, HEAP_OVERHEAD, sizeof_Heap_Block, sizeof_unsigned32 in *.
  replace (size <? 4 * 2 + 16) with false by (symmetry; apply Z.ltb_ge; lia). simpl orb.
  cbv zeta iota. replace (4 * 2) with 8 by lia.
  rewrite (wrap32_small (size - 8)) by (unfold u32, two32 in *; lia).
  unfold _Heap_Next_block, _Addresses_Add_offset, front_flag,
    set_back_flag, set_front_flag, set_block_next, set_block_previous, set_heap_start,
    set_heap_first, set_heap_permanent_null, set_heap_last, set_heap_page_size, set_heap_final,
    _Heap_Head, _Heap_Tail.
  assert ((size - 8) mod 4 = 0) as Hm8 by (Z.div_mod_to_equations; lia).
  ld_simpl. rewrite !size_mask by (unfold two32 in *; lia).
  rewrite (wrap32_small (start + (size - 8))) by (unfold u32, two32 in *; lia).
  unfold HEAP_BLOCK_USED_OVERHEAD, sizeof_pointer. replace (4 * 2) with 8 by lia.
  rewrite (wrap32_small (size - 8 - 8)) by (unfold u32, two32 in *; lia).
  split; [lia|]. split; unfold heap_start, heap_final, heap_page_size, apart; simpl;
    unfold _Heap_Head, _Heap_Tail, flag_of; rewrite ?Z.add_0_r; try lia; ld_simpl; try done.
  - replace (h + 4 + 8 + 4) with (h + 16) by lia. replace (start + 8 + 4) with (start + 12) by lia.
    ld_simpl. done.
  - constructor; [|constructor]. unfold block_ok. simpl. lia.
Qed.

(** ** Blocks of a represented heap *)

Section Blocks.
Context (m : mem) (h start ps : Z) (bs : list block) (fl : list Z).
Context (HR : heap_rep m h start ps bs fl).

Lemma rep_links_nodup : NoDup (link_words 8 (_Heap_Head h :: fl ++ [_Heap_Tail h])).
Proof. destruct HR. by eapply free_links_nodup. Qed.

Lemma rep_links_words w :
  w ∈ link_words 8 (_Heap_Head h :: fl ++ [_Heap_Tail h]) ->
  w ∉ tile_words start bs /\ w <> h /\ w <> h + 4 /\ w <> h + 12 /\ w <> h + 20.
Proof. destruct HR. eapply free_links_words; try done. intros b. by rewrite hr_free0. Qed.

Section Split.
Context (A : list block) (sz : Z) (u : bool) (B : list block).
Context (Ebs : bs = A ++ (sz, u) :: B).

Lemma split_ok :
  Forall block_ok A /\ 16 <= sz /\ sz mod 4 = 0 /\ Forall block_ok B /\
  0 <= total A /\ 0 <= total B /\ total A mod 4 = 0 /\
  start + total A + sz + total B + 8 <= two32 /\ total bs = total A + sz + total B.
Proof.
  destruct HR. rewrite Ebs in *. apply Forall_app in hr_ok0 as [H1 H2].
  apply Forall_cons in H2 as [[H2 H3] H4]. simpl in *.
  rewrite total_app in *. simpl in *.
  pose proof (total_nonneg _ H1). pose proof (total_nonneg _ H4). pose proof (total_mod4 _ H1).
  split_and!; try done; lia.
Qed.

Lemma split_tiles :
  tseg m start HEAP_DUMMY_FLAG A /\
  ld m (start + total A) = out_flag HEAP_DUMMY_FLAG A /\
  ld m (start + total A + 4) = flag_of sz u /\
  tiles m (start + total A + sz) (flag_of sz u) B.
Proof. destruct HR. rewrite Ebs, tiles_app in hr_tiles0. simpl in hr_tiles0. tauto. Qed.

Lemma split_next_back : ld m (start + total A + sz) = flag_of sz u.
Proof. destruct split_tiles as (_ & _ & _ & H). destruct B as [|[]]; simpl in H; tauto. Qed.

Lemma split_next_block : _Heap_Next_block m (start + total A) = start + total A + sz.
Proof.
  destruct split_ok as (? & ? & ? & ? & ? & ? & ? & ? & ?). destruct HR.
  unfold _Heap_Next_block, _Addresses_Add_offset, front_flag.
  rewrite (proj1 (proj2 (proj2 split_tiles))), flag_size by (unfold two32 in *; lia).
  apply wrap32_small. unfold u32. lia.
Qed.

Lemma split_block_in :
  _Heap_Is_block_in m h (start + total A) = true /\
  _Heap_Is_block_in m h (start + total A + sz) = true.
Proof.
  destruct split_ok as (? & ? & ? & ? & ? & ? & ? & ? & ?). destruct HR.
  unfold _Heap_Is_block_in, _Addresses_Is_in_range.
  rewrite hr_start0, hr_final0, !andb_true_iff, !Z.leb_le. lia.
Qed.

Lemma split_is_free : _Heap_Is_block_free m (start + total A) = negb u.
Proof.
  destruct split_ok as (? & ? & ? & ? & ? & ? & ? & ? & ?). destruct HR.
  unfold _Heap_Is_block_free, front_flag.
  rewrite (proj1 (proj2 (proj2 split_tiles))). apply flag_used; [done|unfold two32 in *; lia].
Qed.
End Split.

(** A block that is on the free list is a free block of the heap. *)
Lemma free_block_split b :
  b ∈ fl -> exists A sz B, bs = A ++ (sz, false) :: B /\ b = start + total A.
Proof. destruct HR. rewrite hr_free0. apply free_addrs_split. Qed.

Lemma free_block_not_special b : b ∈ fl -> b <> NULL /\ b <> _Heap_Tail h /\ b <> _Heap_Head h.
Proof.
  intros Hb. destruct (free_block_split b Hb) as (A & sz & B & E & ->).
  destruct (split_ok A sz false B E) as (? & ? & ? & ? & ? & ? & ? & ? & ?). destruct HR.
  unfold apart, NULL, _Heap_Tail, _Heap_Head in *. lia.
Qed.

Lemma search_suffix the_size k x fuel :
  links 8 m (x :: k ++ [_Heap_Tail h]) -> (forall b, b ∈ k -> b ∈ fl) -> (length k < fuel)%nat ->
  (exists b, b ∈ k /\ the_size <= front_flag m b /\
     heap_search fuel m h (hd (_Heap_Tail h) k) the_size = Some b) \/
  ((forall b, b ∈ k -> front_flag m b < the_size) /\
     heap_search fuel m h (hd (_Heap_Tail h) k) the_size = Some NULL).
Proof.
  revert k x. induction fuel as [|fuel IH]; intros k x HL HK Hf; [lia|].
  destruct k as [|b k]; simpl.
  - right. rewrite Z.eqb_refl. split; [set_solver|done].
  - destruct (free_block_not_special b) as (_ & Ht & _); [set_solver|].
    replace (b =? _Heap_Tail h) with false by (symmetry; by apply Z.eqb_neq).
    destruct (Z.leb_spec the_size (front_flag m b)) as [Hle|Hgt].
    + left. exists b. split_and!; [set_solver|done|done].
    + simpl app in HL. rewrite links_cons2 in HL. destruct HL as (_ & _ & HL).
      assert (block_next m b = hd (_Heap_Tail h) k) as ->.
      { unfold block_next. destruct k; simpl in HL; tauto. }
      destruct (IH k b HL) as [(b' & Hb & Hs & E)|(Ha & E)]; [set_solver|simpl in Hf; lia| |].
      * left. exists b'. split_and!; [set_solver|done|done].
      * right. split; [|done]. intros b'. rewrite elem_of_cons. intros [->|]; [done|auto].
Qed.

Lemma search_spec the_size fuel :
  (length fl < fuel)%nat ->
  (exists A sz B, bs = A ++ (sz, false) :: B /\ the_size <= sz /\
     heap_search fuel m h (heap_first m h) the_size = Some (start + total A)) \/
  ((forall A sz B, bs = A ++ (sz, false) :: B -> sz < the_size) /\
     heap_search fuel m h (heap_first m h) the_size = Some NULL).
Proof.
  intros Hf. rewrite (heap_rep_first _ _ _ _ _ _ HR).
  destruct (search_suffix the_size fl (_Heap_Head h) fuel) as [(b & Hb & Hs & E)|(Ha & E)];
    [apply HR|done|done| |].
  - left. destruct (free_block_split b Hb) as (A & sz & B & Eb & ->).
    exists A, sz, B. split_and!; try done. unfold front_flag in Hs.
    rewrite (proj1 (proj2 (proj2 (split_tiles _ _ _ _ Eb)))) in Hs. unfold flag_of in Hs. lia.
  - right. split; [|done]. intros A sz B Eb.
    assert (start + total A ∈ fl) as Hin.
    { destruct HR. rewrite hr_free0. apply free_addrs_split. eauto. }
    specialize (Ha _ Hin). unfold front_flag in Ha.
    rewrite (proj1 (proj2 (proj2 (split_tiles _ _ _ _ Eb)))) in Ha. unfold flag_of in Ha. lia.
Qed.
End Blocks.
