(* ===== verification/HeapOps.v ===== *)
(** * The operations of the heap handler against their specification *)
From S2P Require Import Prelude Chain Heap HeapProofs.

(** ** Edits of the free list *)

Section FreeListEdits.
Context (h : Z).
Abbreviation seq l := (_Heap_Head h :: l ++ [_Heap_Tail h]).

Lemma heap_cut k1 k2 :
  let x := List.last k1 (_Heap_Head h) in
  let y := hd (_Heap_Tail h) k2 in
  exists K K', forall a, seq (k1 ++ a ++ k2) = K ++ x :: a ++ y :: K'.
Proof. exact (rep_cut h k1 k2). Qed.

Lemma free_unlink m k1 b k2 :
  let x := List.last k1 (_Heap_Head h) in
  let y := hd (_Heap_Tail h) k2 in
  links 8 m (seq (k1 ++ b :: k2)) -> NoDup (link_words 8 (seq (k1 ++ b :: k2))) ->
  block_next m b = y /\ block_previous m b = x /\
  NoDup [b + 8; b + 12; x + 8; y + 12] /\
  links 8 (st (st m (y + 12) x) (x + 8) y) (seq (k1 ++ k2)) /\
  x + 8 ∈ link_words 8 (seq (k1 ++ k2)) /\ y + 12 ∈ link_words 8 (seq (k1 ++ k2)).
Proof.
  intros x y HL HN. destruct (heap_cut k1 k2) as (K & K' & EQ). fold x y in EQ.
  pose proof (EQ [b]) as E1. pose proof (EQ []) as E0. simpl app in E1, E0.
  rewrite E1 in HL, HN. rewrite E0.
  pose proof (links_splice_out 8 m K x b y K' HL HN) as HS.
  rewrite link_words_app, !link_words_cons2 in HN.
  rewrite links_app, !links_cons2 in HL.
  replace (y + 8 + 4) with (y + 12) in * by lia. replace (b + 8 + 4) with (b + 12) in * by lia.
  unfold block_next, block_previous. split_and!; [tauto|tauto| |done| |].
  - clear -HN. nodup_solve.
  - rewrite link_words_app, link_words_cons2. set_solver.
  - rewrite link_words_app, link_words_cons2.
    replace (y + 8 + 4) with (y + 12) by lia. set_solver.
Qed.

(** Pushing a block in front of the free list. *)
Lemma free_push m m' b k :
  let y := hd (_Heap_Tail h) k in
  links 8 m (seq k) -> NoDup (link_words 8 (seq (b :: k))) ->
  ld m' (h + 8) = b -> ld m' (b + 12) = h -> ld m' (b + 8) = y -> ld m' (y + 12) = b ->
  (forall a, a ∉ [h + 8; y + 12; b + 8; b + 12] -> ld m' a = ld m a) ->
  links 8 m' (seq (b :: k)).
Proof.
  intros y HL HN E1 E2 E3 E4 HF.
  destruct (heap_cut [] k) as (K & K' & EQ). fold y in EQ.
  pose proof (EQ [b]) as Q1. pose proof (EQ []) as Q0. simpl app in Q1, Q0.
  simpl app in HN |- *. rewrite Q1 in HN |- *. rewrite Q0 in HL. simpl List.last in *.
  replace (b + 12) with (b + 8 + 4) in * by lia. replace (y + 12) with (y + 8 + 4) in * by lia.
  apply (links_splice_in 8 m); try done.
  rewrite link_words_app, !link_words_cons2 in HN. rewrite link_words_app, link_words_cons2.
  clear -HN. apply NoDup_app in HN as (N1 & N2 & N3). nodup_simp.
  rewrite !NoDup_cons, NoDup_app, !NoDup_cons. split_and!; try done; set_solver.
Qed.

(** Putting a block in the place of another one. *)
Lemma free_replace m m' k1 n k2 b :
  let x := List.last k1 (_Heap_Head h) in
  let y := hd (_Heap_Tail h) k2 in
  links 8 m (seq (k1 ++ n :: k2)) -> NoDup (link_words 8 (seq (k1 ++ n :: k2))) ->
  b + 8 ∉ link_words 8 (seq (k1 ++ n :: k2)) -> b + 12 ∉ link_words 8 (seq (k1 ++ n :: k2)) ->
  ld m' (x + 8) = b -> ld m' (b + 12) = x -> ld m' (b + 8) = y -> ld m' (y + 12) = b ->
  (forall a, a ∉ [x + 8; y + 12; b + 8; b + 12] -> ld m' a = ld m a) ->
  links 8 m' (seq (k1 ++ b :: k2)).
Proof.
  intros x y HL HN Hb1 Hb2 E1 E2 E3 E4 HF.
  destruct (heap_cut k1 k2) as (K & K' & EQ). fold x y in EQ.
  pose proof (EQ [n]) as Q1. pose proof (EQ [b]) as Q2. simpl app in Q1, Q2.
  rewrite Q1 in HL, HN, Hb1, Hb2. rewrite Q2.
  rewrite link_words_app, !link_words_cons2 in HN, Hb1, Hb2. rewrite links_app, !links_cons2 in HL.
  rewrite links_app, !links_cons2.
  replace (y + 8 + 4) with (y + 12) in * by lia. replace (b + 8 + 4) with (b + 12) by lia.
  destruct HL as (L1 & _ & _ & _ & _ & L2).
  split_and!; try done.
  - apply (links_ext 8 m); [|done]. intros a Ha. apply HF. clear -HN Ha Hb1 Hb2. nodup_solve.
  - apply (links_ext 8 m); [|done]. intros a Ha. apply HF. clear -HN Ha Hb1 Hb2. nodup_solve.
Qed.
End FreeListEdits.

Lemma tile_words_range a bs w :
  Forall block_ok bs -> w ∈ tile_words a bs -> a <= w < a + total bs + 8.
Proof.
  intros HF. pose proof (total_nonneg _ HF). unfold tile_words.
  rewrite elem_of_app, !elem_of_cons, elem_of_nil.
  intros [Hs|[Hs|[Hs|Hs]]]; try lia; try done. apply seg_words_range in Hs; [lia|done].
Qed.

(** [out_tile] proves that an address lies outside the boundary words of a
    segment by comparing it with the segment's range. *)
Ltac out_tile :=
  let Hw := fresh in
  intros Hw; first [ apply seg_words_range in Hw; [|assumption]
                   | apply tile_words_range in Hw; [|assumption] ]; lia.

(** ** User stores

    A store inside a used block, beyond its flags, does not touch the heap's
    structure. *)
Lemma user_store_rep m h start ps A sz B fl w v :
  heap_rep m h start ps (A ++ (sz, true) :: B) fl ->
  start + total A + 8 <= w < start + total A + sz ->
  heap_rep (st m w v) h start ps (A ++ (sz, true) :: B) fl.
Proof.
  intros HR Hw.
  destruct (split_ok _ _ _ _ _ _ HR A sz true B eq_refl) as (HA & ? & ? & HB & ? & ? & ? & ? & ET).
  pose proof (hr_apart _ _ _ _ _ _ HR) as HP. unfold apart in HP. rewrite ET in HP.
  eapply (heap_rep_intro _ _ _ _ _ _ _ _ _ HR); try apply HR; try (rewrite ld_st_ne by lia; done).
  - done.
  - apply tiles_frame; [|apply HR]. apply inside_not_tile_word; [apply HR|done].
  - apply links_frame; [|apply HR]. rewrite link_words_free, !elem_of_cons, elem_of_free_words.
    unfold _Heap_Head, _Heap_Tail. intros [E|[E|(b & Hb & E)]]; [lia..|].
    rewrite (hr_free _ _ _ _ _ _ HR), free_addrs_app in Hb. simpl in Hb.
    apply elem_of_app in Hb as [Hb|Hb]; apply free_addrs_range in Hb; try done; lia.
Qed.

(** The words a program may use: those inside a used block, beyond its flags. *)
Definition user_word (start : Z) (bs : list block) (w : Z) : Prop :=
  exists A sz B, bs = A ++ (sz, true) :: B /\ start + total A + 8 <= w < start + total A + sz.

Lemma user_word_used start A sz u B w :
  user_word start (A ++ (sz, false) :: B) w -> user_word start (A ++ (sz, u) :: B) w.
Proof.
  intros (A1 & s1 & B1 & E & Hw). apply List.app_eq_app in E. destruct E as (l & [[E1 E2]|[E1 E2]]).
  - destruct l as [|[s x] l]; simpl in E2; [congruence|]. injection E2 as <- <- E2.
    exists A1, s1, (l ++ (sz, u) :: B). rewrite E1, <- app_assoc. done.
  - destruct l as [|[s x] l]; simpl in E2; [congruence|]. injection E2 as <- <- E2.
    exists (A ++ (sz, u) :: l), s1, B1. rewrite E2, <- app_assoc. split; [done|].
    rewrite E1, !total_app in Hw. rewrite !total_app. exact Hw.
Qed.

Lemma user_word_out start A sz B w :
  Forall block_ok (A ++ (sz, false) :: B) -> user_word start (A ++ (sz, false) :: B) w ->
  w < start + total A \/ start + total A + sz + 8 <= w.
Proof.
  intros HF (A1 & s1 & B1 & E & Hw). apply List.app_eq_app in E. destruct E as (l & [[E1 E2]|[E1 E2]]);
    (destruct l as [|[s x] l]; simpl in E2; [congruence|]); injection E2 as <- <- E2.
  - left. rewrite E1, total_app. simpl. apply Forall_app in HF as [HF _]. rewrite E1 in HF.
    apply Forall_app in HF as [_ HF]. apply Forall_cons in HF as [_ HF].
    pose proof (total_nonneg _ HF). lia.
  - right. rewrite E1, total_app in Hw. simpl in Hw. apply Forall_app in HF as [_ HF].
    apply Forall_cons in HF as [_ HF]. rewrite E2 in HF. apply Forall_app in HF as [HF _].
    pose proof (total_nonneg _ HF). lia.
Qed.

Lemma user_word_safe m h start ps bs fl w :
  heap_rep m h start ps bs fl -> user_word start bs w ->
  w ∉ link_words 8 (_Heap_Head h :: fl ++ [_Heap_Tail h]) /\ w ∉ tile_words start bs.
Proof.
  intros HR (A & sz & B & -> & Hw).
  destruct (split_ok _ _ _ _ _ _ HR A sz true B eq_refl) as (HA & ? & ? & HB & ? & ? & ? & ? & ET).
  pose proof (hr_apart _ _ _ _ _ _ HR) as HP. unfold apart in HP. rewrite ET in HP.
  split; [|apply inside_not_tile_word; [apply HR|done]].
  rewrite link_words_free, !elem_of_cons, elem_of_free_words.
  unfold _Heap_Head, _Heap_Tail. intros [E|[E|(b & Hb & E)]]; [lia..|].
  rewrite (hr_free _ _ _ _ _ _ HR), free_addrs_app in Hb. simpl in Hb.
  apply elem_of_app in Hb as [Hb|Hb]; apply free_addrs_range in Hb; try done; lia.
Qed.

Lemma cut_words h k1 b k2 l :
  l = k1 ++ k2 \/ l = k1 ++ b :: k2 ->
  List.last k1 (_Heap_Head h) + 8 ∈ link_words 8 (_Heap_Head h :: l ++ [_Heap_Tail h]) /\
  hd (_Heap_Tail h) k2 + 12 ∈ link_words 8 (_Heap_Head h :: l ++ [_Heap_Tail h]).
Proof.
  destruct (heap_cut h k1 k2) as (K & K' & EQ). pose proof (EQ []) as E0. specialize (EQ [b]).
  set (x := List.last _ _) in *. set (y := hd _ _) in *. simpl app in EQ, E0.
  intros [-> | ->]; [rewrite E0|rewrite EQ]; rewrite link_words_app, !link_words_cons2;
    replace (y + 8 + 4) with (y + 12) by lia; set_solver.
Qed.

(** [user_ne] separates a user word from the words an operation stores to. *)
Ltac user_ne := intros ?; subst; tauto || lia || (exfalso; set_solver).

(** ** [_Heap_Allocate] *)

(** Stores to boundary words do not disturb the free list. *)
Lemma links_tile_store m h start bs fl w v :
  Forall block_ok bs -> apart h start bs -> (forall b, b ∈ fl -> b ∈ free_addrs start bs) ->
  w ∈ tile_words start bs ->
  links 8 (st m w v) (_Heap_Head h :: fl ++ [_Heap_Tail h]) <->
  links 8 m (_Heap_Head h :: fl ++ [_Heap_Tail h]).
Proof.
  intros HF HA HS Hw. apply links_frame. intros Hl.
  by destruct (free_links_words h start bs fl HF HA w HS Hl).
Qed.

Lemma elem_of_tile_words a A sz u B w :
  w = a + total A \/ w = a + total A + 4 \/ w ∈ tile_words (a + total A + sz) B ->
  w ∈ tile_words a (A ++ (sz, u) :: B).
Proof.
  unfold tile_words. rewrite seg_words_app, total_app. simpl.
  rewrite !elem_of_app, !elem_of_cons, !elem_of_nil. rewrite !Z.add_assoc. tauto.
Qed.

Lemma tile_words_start a B : a ∈ tile_words a B.
Proof.
  unfold tile_words. destruct B as [|[sz u] B]; simpl; [rewrite Z.add_0_r|]; set_solver.
Qed.

Lemma coalesced_used A sz u B :
  coalesced (A ++ (sz, u) :: B) -> coalesced (A ++ (sz, true) :: B).
Proof.
  rewrite (coalesced_app A (sz, u)), (coalesced_app A (sz, true)). intros [H1 H2]. split.
  - clear H2. induction A as [|[s x] A IH]; [done|]. destruct A as [|[s' x'] A].
    + simpl in *. rewrite orb_true_r. done.
    + destruct H1 as [H1 H2]. split; [done|]. by apply IH.
  - destruct B as [|[s x] B]; [done|]. simpl in *. tauto.
Qed.

Lemma coalesced_carve A sz sz' t B :
  coalesced (A ++ (sz, false) :: B) -> coalesced (A ++ (sz', false) :: (t, true) :: B).
Proof.
  rewrite (coalesced_app A (sz, false)), (coalesced_app A (sz', false)). intros [H1 H2]. split.
  - clear H2. induction A as [|[s x] A IH]; [done|]. destruct A as [|[s' x'] A]; [done|].
    destruct H1 as [H1 H2]. split; [done|]. by apply IH.
  - destruct B as [|[s x] B]; simpl in *; tauto.
Qed.

(** Cutting a used block of [t] bytes off the end of a free block. *)
Lemma carve_rep m h start ps A sz B fl t :
  heap_rep m h start ps (A ++ (sz, false) :: B) fl ->
  16 <= t -> t mod 4 = 0 -> 16 <= sz - t ->
  let b := start + total A in
  let nb := b + (sz - t) in
  heap_rep (st (st (st (st m (b + 4) (sz - t)) nb (sz - t)) (nb + 4) (flag_of t true))
              (nb + t) (flag_of t true))
    h start ps (A ++ (sz - t, false) :: (t, true) :: B) fl.
Proof.
  intros HR Ht1 Ht2 Ht3 b nb.
  destruct (split_ok _ _ _ _ _ _ HR A sz false B eq_refl) as (HA & ? & ? & HB & ? & ? & ? & ? & ET).
  destruct (split_tiles _ _ _ _ _ _ HR A sz false B eq_refl) as (T1 & T2 & T3 & T4).
  fold b in T2, T3, T4.
  pose proof (hr_apart _ _ _ _ _ _ HR) as HP. unfold apart in HP. rewrite ET in HP.
  replace (nb + t) with (b + sz) by (subst nb; lia).
  assert (Forall block_ok (A ++ (sz - t, false) :: (t, true) :: B)) as HF.
  { apply Forall_app. split; [done|]. repeat constructor; simpl; try done.
    Z.div_mod_to_equations; lia. }
  assert (total (A ++ (sz - t, false) :: (t, true) :: B) = total (A ++ (sz, false) :: B)) as ET'.
  { rewrite !total_app. simpl. lia. }
  assert (free_addrs start (A ++ (sz - t, false) :: (t, true) :: B) =
          free_addrs start (A ++ (sz, false) :: B)) as EF.
  { rewrite !free_addrs_app. simpl. do 3 f_equal. lia. }
  eapply (heap_rep_intro _ _ _ _ _ _ _ _ _ HR); try (rewrite !ld_st_ne by lia; done); try done.
  - apply tiles_app. simpl. fold b nb.
    replace (flag_of (sz - t) false) with (sz - t) by (unfold flag_of; lia).
    replace (nb + t) with (b + sz) by (subst nb; lia). split_and!; ld_simpl; try done.
    + rewrite !tseg_frame by out_tile. done.
    + apply (tiles_back _ _ (flag_of sz false)); [done|]. rewrite !tiles_frame by out_tile. done.
  - assert (apart h start (A ++ (sz - t, false) :: (t, true) :: B)) as HAp.
    { unfold apart. rewrite ET', ET. lia. }
    assert (forall x, x ∈ fl -> x ∈ free_addrs start (A ++ (sz - t, false) :: (t, true) :: B)) as HS.
    { intros x. by rewrite EF, (hr_free _ _ _ _ _ _ HR). }
    assert (forall w, w = b + 4 \/ w = nb \/ w = nb + 4 \/ w = b + sz ->
              w ∈ tile_words start (A ++ (sz - t, false) :: (t, true) :: B)) as HW.
    { intros w Hw. apply elem_of_tile_words. fold b. destruct Hw as [-> | [-> | [-> | ->]]]; [tauto|..].
      - right; right. apply (elem_of_tile_words _ []). simpl. left. lia.
      - right; right. apply (elem_of_tile_words _ []). simpl. right; left. lia.
      - right; right. apply (elem_of_tile_words _ []). simpl. right; right.
        replace (b + (sz - t) + 0 + t) with (b + sz) by lia. apply tile_words_start. }
    rewrite !(links_tile_store _ _ _ _ _ _ _ HF HAp HS) by (apply HW; tauto). apply HR.
  - rewrite EF. apply HR.
  - eapply coalesced_carve, HR.
Qed.

(** Turning a whole free block into a used one and unlinking it. *)
Lemma occupy_rep m h start ps A sz B k1 k2 :
  let b := start + total A in
  heap_rep m h start ps (A ++ (sz, false) :: B) (k1 ++ b :: k2) ->
  let m1 := st (st m (b + sz) (flag_of sz true)) (b + 4) (flag_of sz true) in
  let x := List.last k1 (_Heap_Head h) in
  let y := hd (_Heap_Tail h) k2 in
  block_next m1 b = y /\ block_previous m1 b = x /\ NoDup [b + 8; b + 12; x + 8; y + 12] /\
  heap_rep (st (st m1 (y + 12) x) (x + 8) y) h start ps (A ++ (sz, true) :: B) (k1 ++ k2).
Proof.
  intros b HR m1 x y.
  destruct (split_ok _ _ _ _ _ _ HR A sz false B eq_refl) as (HA & ? & ? & HB & ? & ? & ? & ? & ET).
  destruct (split_tiles _ _ _ _ _ _ HR A sz false B eq_refl) as (T1 & T2 & T3 & T4).
  fold b in T2, T3, T4.
  pose proof (hr_apart _ _ _ _ _ _ HR) as HP. unfold apart in HP. rewrite ET in HP.
  assert (Forall block_ok (A ++ (sz, true) :: B)) as HF.
  { apply Forall_app. split; [done|]. repeat constructor; simpl; try done. }
  assert (apart h start (A ++ (sz, true) :: B)) as HAp.
  { unfold apart. rewrite total_app. simpl. lia. }
  pose proof (rep_links_nodup _ _ _ _ _ _ HR) as HN.
  assert (links 8 m1 (_Heap_Head h :: (k1 ++ b :: k2) ++ [_Heap_Tail h])) as HL1.
  { subst m1. rewrite !(links_tile_store _ h start (A ++ (sz, false) :: B)); try apply HR.
    - intros z. by rewrite (hr_free _ _ _ _ _ _ HR).
    - apply elem_of_tile_words. right; right. apply tile_words_start.
    - intros z. by rewrite (hr_free _ _ _ _ _ _ HR).
    - apply elem_of_tile_words. tauto. }
  destruct (free_unlink h m1 k1 b k2 HL1 HN) as (E1 & E2 & HD & HL2 & W1 & W2).
  fold x y in E1, E2, HD, HL2, W1, W2.
  assert (k1 ++ k2 ≡ₚ free_addrs start (A ++ (sz, true) :: B)) as EP.
  { apply (Permutation_cons_inv (a := b)). rewrite Permutation_middle, (hr_free _ _ _ _ _ _ HR).
    rewrite !free_addrs_app. simpl. fold b. by rewrite Permutation_middle. }
  assert (forall w, w ∈ link_words 8 (_Heap_Head h :: (k1 ++ k2) ++ [_Heap_Tail h]) ->
     w ∉ tile_words start (A ++ (sz, true) :: B) /\ w <> h /\ w <> h + 4 /\ w <> h + 12 /\ w <> h + 20) as HW.
  { intros w. apply free_links_words; try done. intros z. by rewrite EP. }
  destruct (HW _ W1) as (V1 & ?). destruct (HW _ W2) as (V2 & ?).
  split_and!; try done. subst m1.
  eapply (heap_rep_intro _ _ _ _ _ _ _ _ _ HR); try (rewrite !ld_st_ne by lia; done); try done.
  - rewrite !total_app. done.
  - rewrite !tiles_frame by done. apply tiles_app. simpl. fold b. split_and!; ld_simpl; try done.
    + rewrite !tseg_frame by out_tile. done.
    + rewrite tiles_frame by out_tile. by apply (tiles_back _ _ (flag_of sz false)).
  - eapply coalesced_used, HR.
Qed.

(** The block structure after an allocation of a [t]-byte block: either a whole
    free block becomes used, or a used block is cut off its end.  The used block
    is the one of [sz'] bytes between [A'] and [B']. *)
Inductive allocated (t : Z) : list block -> list block -> Z -> list block -> Prop :=
| alloc_whole A sz B :
    t <= sz -> allocated t (A ++ (sz, false) :: B) A sz B
| alloc_carve A sz B :
    t < sz -> allocated t (A ++ (sz, false) :: B) (A ++ [(sz - t, false)]) t B.

(** [p] is a pointer to [size] user bytes inside the block of [sz] bytes at [b],
    with the distance to the block recorded in front of it. *)
Definition owns (m : mem) (b sz p size : Z) : Prop :=
  b + 8 < p /\ p + size <= b + sz /\ ld m (p - 4) = p - b - 8 /\ p mod 4 = 0.

Lemma request_size ps size :
  8 <= ps -> ps mod 8 = 0 -> 0 <= size -> size + 2 * ps + 8 < two32 ->
  size + ps + 8 <= heap_request_size ps size /\
  heap_request_size ps size <= size + 2 * ps + 8 /\ heap_request_size ps size mod 4 = 0.
Proof.
  intros H1 H2 H3 H4. unfold heap_request_size, HEAP_BLOCK_USED_OVERHEAD, sizeof_pointer,
    sizeof_Heap_Block. replace (4 * 2) with 8 by lia.
  pose proof (Z.mod_pos_bound size ps ltac:(lia)) as Hb.
  rewrite (wrap32_small (size + ps)), (wrap32_small (size + ps + 8)) by (unfold u32, two32 in *; lia).
  rewrite (wrap32_small (ps - size mod ps)) by (unfold u32, two32 in *; lia).
  assert (exists q, ps = 8 * q) as [q Hq] by (exists (ps / 8); Z.div_mod_to_equations; lia).
  assert (exists r, size = ps * r + size mod ps) as [r Hr]
    by (exists (size / ps); apply Z.div_mod; lia).
  destruct (Z.eqb_spec (size mod ps) 0) as [E|E]; simpl negb; cbv iota.
  - replace (size + ps + 8 <? 16) with false by (symmetry; apply Z.ltb_ge; lia).
    split_and!; [lia..|]. rewrite Hr, E, Hq.
    replace (8 * q * r + 0 + 8 * q + 8) with ((2 * q * r + 2 * q + 2) * 4) by lia.
    apply Z.mod_mul. lia.
  - rewrite wrap32_small by (unfold u32, two32 in *; lia).
    replace (size + ps + 8 + (ps - size mod ps) <? 16) with false
      by (symmetry; apply Z.ltb_ge; lia).
    split_and!; [lia..|]. rewrite Hr at 1.
    replace (ps * r + size mod ps + ps + 8 + (ps - size mod ps)) with
      ((2 * q * r + 4 * q + 2) * 4) by lia.
    apply Z.mod_mul. lia.
Qed.

Lemma user_offset ps k ptr :
  ps = 2 ^ k -> 3 <= k -> ps < two32 -> ptr mod 4 = 0 ->
  let offset := ps -w Z.land ptr (ps -w 1) in
  4 <= offset <= ps /\ (ptr + offset) mod ps = 0 /\ offset mod 4 = 0.
Proof.
  intros -> Hk Hp Hm offset.
  assert (2 ^ k = 8 * 2 ^ (k - 3)) as E.
  { change 8 with (2 ^ 3). rewrite <- Z.pow_add_r by lia. f_equal. lia. }
  assert (0 < 2 ^ (k - 3)) by (apply Z.pow_pos_nonneg; lia).
  subst offset. rewrite (wrap32_small (2 ^ k - 1)) by (unfold u32; lia).
  rewrite Z.sub_1_r, <- Z.ones_equiv, Z.land_ones by lia.
  pose proof (Z.mod_pos_bound ptr (2 ^ k) ltac:(lia)) as Hb.
  rewrite wrap32_small by (unfold u32; lia).
  assert ((ptr mod 2 ^ k) mod 4 = 0) as H4.
  { rewrite Z.mod_mod_divide; [done|]. exists (2 * 2 ^ (k - 3)). lia. }
  assert ((2 ^ k - ptr mod 2 ^ k) mod 4 = 0) as H4'.
  { rewrite E in *. Z.div_mod_to_equations; lia. }
  split_and!; [Z.div_mod_to_equations; lia|lia| |done].
  replace (ptr + (2 ^ k - ptr mod 2 ^ k)) with (2 ^ k * (ptr / 2 ^ k + 1)).
  - rewrite Z.mul_comm. apply Z.mod_mul. lia.
  - rewrite (Z.div_mod ptr (2 ^ k)) at 2 by lia. lia.
Qed.

(** The last step of an allocation: rounding the pointer up and recording the
    offset. *)
Lemma finish_allocate m h start ps k A sz B fl size :
  heap_rep m h start ps (A ++ (sz, true) :: B) fl ->
  ps = 2 ^ k -> 3 <= k -> ps < two32 -> 0 <= size -> size + ps + 8 <= sz ->
  let ptr := _Heap_Start_of_user_area (start + total A) in
  let offset := ps -w Z.land ptr (ps -w 1) in
  let p := _Addresses_Add_offset ptr offset in
  heap_rep (st m (p - 4) offset) h start ps (A ++ (sz, true) :: B) fl /\
  owns (st m (p - 4) offset) (start + total A) sz p size /\ p mod ps = 0 /\ p <> NULL.
Proof.
  intros HR Hps Hk Hlt Hsz Hfit ptr offset p.
  destruct (split_ok _ _ _ _ _ _ HR A sz true B eq_refl) as (HA & ? & ? & HB & ? & ? & HM & ? & ET).
  pose proof (hr_align _ _ _ _ _ _ HR) as Hal. pose proof (hr_low _ _ _ _ _ _ HR) as Hlow.
  unfold _Heap_Start_of_user_area in ptr.
  destruct (user_offset ps k ptr) as (O1 & O2 & O3);
    [done|done|done|subst ptr; Z.div_mod_to_equations; lia|]. fold offset in O1, O2, O3.
  assert (p = ptr + offset) as Ep.
  { subst p. apply wrap32_small. unfold u32. lia. }
  rewrite Ep in *. unfold owns. split_and!.
  - apply user_store_rep; [done|]. subst ptr. lia.
  - lia.
  - subst ptr. lia.
  - rewrite ld_st_eq. subst ptr. lia.
  - subst ptr. Z.div_mod_to_equations; lia.
  - done.
  - unfold NULL. subst ptr. lia.
Qed.

(** What a successful allocation from the blocks [bs] gives. *)
Definition placed (m : mem) (h start ps : Z) (bs : list block) (size : Z) (r : option (Z * mem)) : Prop :=
  exists p m' A' sz' B' fl',
    r = Some (p, m') /\ p <> NULL /\ allocated (heap_request_size ps size) bs A' sz' B' /\
    heap_rep m' h start ps (A' ++ (sz', true) :: B') fl' /\
    owns m' (start + total A') sz' p size /\ p mod ps = 0 /\
    forall w, user_word start bs w -> ld m' w = ld m w /\ (w < p - 4 \/ p + size <= w).

(** The search found the free block of [sz] bytes between [A] and [B]. *)
Section Found.
Context (fuel : nat) (m : mem) (h start ps k : Z) (A : list block) (sz : Z) (B : list block) (fl : list Z) (size : Z).
Context (HR : heap_rep m h start ps (A ++ (sz, false) :: B) fl) (Hps : ps = 2 ^ k) (Hk : 3 <= k) (Hs : 0 <= size).
Context (Hp : 8 <= ps) (Hov : size + 2 * ps + 8 < two32).
Notation t := (heap_request_size ps size).
Notation b := (start + total A).
Context (Hle : t <= sz) (Hse : heap_search fuel m h (heap_first m h) t = Some b).
Context (R1 : size + ps + 8 <= t) (R2 : t <= size + 2 * ps + 8) (R3 : t mod 4 = 0).

Lemma found_block : b =? NULL = false /\ front_flag m b = sz /\ u32 (sz - t) /\ u32 (ps + 8).
Proof using HR Hle Hk Hp Hs Hov R1 R2.
  destruct (split_ok _ _ _ _ _ _ HR A sz false B eq_refl) as (HA & ? & ? & HB & ? & ? & HM & ? & ET).
  destruct (split_tiles _ _ _ _ _ _ HR A sz false B eq_refl) as (_ & _ & T3 & _).
  pose proof (hr_low _ _ _ _ _ _ HR) as Hlow. unfold front_flag, flag_of, NULL, u32, two32 in *.
  split_and!; [apply Z.eqb_neq; lia|rewrite T3|..]; lia.
Qed.

(** The end of the block is split off. *)
Lemma allocate_carves : ps + 8 < sz - t -> placed m h start ps (A ++ (sz, false) :: B) size (_Heap_Allocate fuel m h size).
Proof using All.
  intros Hbig. destruct found_block as (Hb & EF & U1 & U2).
  destruct (split_ok _ _ _ _ _ _ HR A sz false B eq_refl) as (HA & ? & ? & HB & ? & ? & HM & ? & ET).
  pose proof (hr_low _ _ _ _ _ _ HR) as Hlow. unfold _Heap_Allocate. rewrite (hr_page_size _ _ _ _ _ _ HR), Hse, Hb, EF. unfold HEAP_BLOCK_USED_OVERHEAD, sizeof_pointer.
  replace (4 * 2) with 8 by lia. rewrite (wrap32_small (sz - t) U1), (wrap32_small (ps + 8) U2), (proj2 (Z.ltb_lt _ _) Hbig).
  clear Hse Hb. set (t := heap_request_size ps size) in *. set (b := start + total A) in *.
  pose proof (carve_rep _ _ _ _ _ _ _ _ t HR ltac:(lia) R3 ltac:(lia)) as HC.
  unfold _Heap_Next_block, _Heap_Block_at, _Addresses_Add_offset, front_flag, set_front_flag, set_back_flag.
  rewrite !ld_st_eq, size_mask by (Z.div_mod_to_equations; unfold two32 in *; lia).
  rewrite (wrap32_small (b + (sz - t))) by (unfold u32, two32 in *; lia).
  rewrite (wrap32_small (b + (sz - t) + t)) by (unfold u32, two32 in *; lia).
  rewrite build_flag_used by (done || (unfold two32 in *; lia)).
  set (m2 := st _ (b + (sz - t) + t) _) in *.
  replace (A ++ (sz - t, false) :: (t, true) :: B) with ((A ++ [(sz - t, false)]) ++ (t, true) :: B)
    in HC by by rewrite <- app_assoc.
  destruct (finish_allocate _ _ _ _ k _ _ _ _ size HC Hps Hk ltac:(unfold two32 in *; lia) Hs ltac:(lia)) as (X1 & X2 & X3 & X4).
  assert (start + total (A ++ [(sz - t, false)]) = b + (sz - t)) as EA by (rewrite total_app; simpl; lia). rewrite EA in *.
  eexists _, _, _, t, B, fl. split; [reflexivity|]. split; [exact X4|]. split; [constructor; lia|]. split; [exact X1|].
  split_and!; [rewrite EA; exact X2|exact X3|].
  intros w Hw. destruct X2 as (Y1 & Y2 & _). apply user_word_out in Hw; [|apply HR].
  revert Y1 Y2. unfold _Addresses_Add_offset. set (p := _Heap_Start_of_user_area _ +w _). intros Y1 Y2.
  split; [|lia]. subst m2. by rewrite !ld_st_ne by lia.
Qed.

(** The whole block is used. *)
Lemma allocate_occupies : sz - t <= ps + 8 -> placed m h start ps (A ++ (sz, false) :: B) size (_Heap_Allocate fuel m h size).
Proof using All.
  intros Hsmall. destruct found_block as (Hb & EF & U1 & U2).
  destruct (split_ok _ _ _ _ _ _ HR A sz false B eq_refl) as (HA & ? & ? & HB & ? & ? & HM & ? & ET).
  pose proof (hr_low _ _ _ _ _ _ HR) as Hlow. unfold _Heap_Allocate. rewrite (hr_page_size _ _ _ _ _ _ HR), Hse, Hb, EF. unfold HEAP_BLOCK_USED_OVERHEAD, sizeof_pointer.
  replace (4 * 2) with 8 by lia. rewrite (wrap32_small (sz - t) U1), (wrap32_small (ps + 8) U2), (proj2 (Z.ltb_ge _ _) Hsmall).
  assert (b ∈ fl) as Hin by (rewrite (hr_free _ _ _ _ _ _ HR); apply free_addrs_split; eauto).
  apply list_elem_of_split in Hin as (k1 & k2 & Efl). rewrite Efl in HR.
  rewrite (split_next_block _ _ _ _ _ _ HR A sz false B eq_refl : _Heap_Next_block m b = b + sz).
  destruct (occupy_rep _ _ _ _ _ _ _ _ _ HR) as (E1 & E2 & HD & HO).
  unfold front_flag, back_flag, set_front_flag, set_back_flag, set_block_next, set_block_previous,
    block_next, block_previous in *. rewrite (ld_st_eq m).
  rewrite build_flag_used by (done || (unfold two32 in *; lia)).
  set (x := List.last k1 (_Heap_Head h)) in *. set (y := hd (_Heap_Tail h) k2) in *.
  set (m1 := st (st m _ _) _ _) in *.
  assert (x + 8 <> b + 8 /\ y + 12 <> b + 8 /\ x + 8 <> b + 12 /\ y + 12 <> b + 12) as
    (D1 & D2 & D3 & D4) by (clear -HD; nodup_solve).
  rewrite E1, E2, (ld_st_ne m1 _ (b + 8)), (ld_st_ne m1 _ (b + 12)), E1, E2 by done.
  destruct (finish_allocate _ _ _ _ k _ _ _ _ size HO Hps Hk ltac:(unfold two32 in *; lia) Hs ltac:(lia)) as (X1 & X2 & X3 & X4).
  eexists _, _, A, sz, B, (k1 ++ k2). split; [reflexivity|]. split; [exact X4|]. split; [by constructor|]. split_and!; try done.
  intros w Hw. destruct X2 as (Y1 & Y2 & _).
  destruct (user_word_safe _ _ _ _ _ _ _ HR Hw) as [S1 _].
  destruct (cut_words h k1 b k2 (k1 ++ b :: k2)) as [C1 C2]; [by right|]. fold x y in C1, C2.
  apply user_word_out in Hw; [|apply HR].
  revert Y1 Y2. unfold _Addresses_Add_offset. set (p := _Heap_Start_of_user_area _ +w _). intros Y1 Y2.
  assert (x + 8 <> w /\ y + 12 <> w) as [? ?] by (clear -S1 C1 C2; set_solver).
  split; [|lia]. subst m1. by rewrite !ld_st_ne by lia.
Qed.
End Found.

Lemma page_size_pow ps k : ps = 2 ^ k -> 3 <= k -> ps mod 8 = 0 /\ 8 <= ps.
Proof.
  intros -> Hk. assert (2 ^ k = 2 ^ (k - 3) * 8) as ->.
  { change 8 with (2 ^ 3). rewrite <- Z.pow_add_r by lia. f_equal. lia. }
  assert (0 < 2 ^ (k - 3)) by (apply Z.pow_pos_nonneg; lia). split; [apply Z.mod_mul; lia|lia].
Qed.

Lemma allocate_spec fuel m h start ps k bs fl size :
  heap_rep m h start ps bs fl -> ps = 2 ^ k -> 3 <= k -> 0 <= size ->
  size + 2 * ps + 8 < two32 -> (length fl < fuel)%nat ->
  placed m h start ps bs size (_Heap_Allocate fuel m h size) \/
  (_Heap_Allocate fuel m h size = Some (NULL, m) /\
   forall A sz B, bs = A ++ (sz, false) :: B -> sz < heap_request_size ps size).
Proof.
  intros HR Hps Hk Hs Hov Hf. destruct (page_size_pow ps k Hps Hk) as [Hp8 Hp].
  destruct (request_size ps size) as (R1 & R2 & R3); try done.
  destruct (search_spec _ _ _ _ _ _ HR (heap_request_size ps size) fuel Hf) as [(A & sz & B & Ebs & Hle & E)|(Hno & E)].
  - left. subst bs. destruct (Z.lt_ge_cases (ps + 8) (sz - heap_request_size ps size)) as [Hbig|Hsmall].
    + by apply (allocate_carves fuel m h start ps k A sz B fl).
    + by apply (allocate_occupies fuel m h start ps k A sz B fl).
  - right. split; [|exact Hno]. unfold _Heap_Allocate. by rewrite (hr_page_size _ _ _ _ _ _ HR), E.
Qed.

(** ** [_Heap_Free] *)

(** The block structure after freeing the used block of [sz] bytes between [A]
    and [B], merged with its free neighbours. *)
Definition freed (A : list block) (sz : Z) (B : list block) : list block :=
  match rev A, B with
  | (s0, false) :: rA, (s1, false) :: B0 => rev rA ++ (s0 + (s1 + sz), false) :: B0
  | (s0, false) :: rA, _ => rev rA ++ (s0 + sz, false) :: B
  | _, (s1, false) :: B0 => A ++ (sz + s1, false) :: B0
  | _, _ => A ++ (sz, false) :: B
  end.

(** The blocks around [A] and [B] are used, so freeing creates no new pair of
    free neighbours. *)
Definition ends_used (A : list block) : Prop :=
  match rev A with (_, false) :: _ => False | _ => True end.
Definition starts_used (B : list block) : Prop :=
  match B with (_, false) :: _ => False | _ => True end.

Lemma coalesced_between A sz sz' u B :
  coalesced (A ++ (sz, true) :: B) -> (u = false -> ends_used A /\ starts_used B) ->
  coalesced (A ++ (sz', u) :: B).
Proof.
  rewrite (coalesced_app A (sz, true)), (coalesced_app A (sz', u)). intros [H1 H2] Hu. split.
  - clear H2. destruct A as [|[s x] A _] using rev_ind; [done|]. rewrite <- app_assoc in *.
    simpl app in *. rewrite coalesced_app in *. destruct H1 as [H1 _]. split; [done|].
    simpl. split; [|done]. destruct u; [apply orb_true_r|].
    destruct (Hu eq_refl) as [He _]. unfold ends_used in He. rewrite rev_app_distr in He.
    simpl in He. by destruct x.
  - destruct B as [|[s x] B]; [done|]. simpl in *. split; [|tauto].
    destruct u; [done|]. destruct (Hu eq_refl) as [_ Hs]. simpl in Hs. by destruct x.
Qed.

(** The words around the place of [b] in the free list. *)
Lemma cut_links h k1 b k2 :
  let x := List.last k1 (_Heap_Head h) in let y := hd (_Heap_Tail h) k2 in
  let W := link_words 8 (_Heap_Head h :: (k1 ++ b :: k2) ++ [_Heap_Tail h]) in
  (forall w, w ∈ [x + 8; y + 12; b + 8; b + 12] -> w ∈ W) /\ (NoDup W -> NoDup [x + 8; b + 12; b + 8; y + 12]).
Proof.
  intros x y W. destruct (heap_cut h k1 k2) as (K & K' & EQ). fold x y in EQ. specialize (EQ [b]). simpl app in EQ. unfold W.
  rewrite EQ, link_words_app, !link_words_cons2. replace (y + 8 + 4) with (y + 12) by lia. replace (b + 8 + 4) with (b + 12) by lia.
  split; [set_solver|]. intros HN. nodup_solve.
Qed.

(** The user area of a used block holds no links. *)
Lemma used_not_linked m h start ps A sz B fl w : heap_rep m h start ps (A ++ (sz, true) :: B) fl ->
  start + total A + 8 <= w < start + total A + sz -> w ∉ link_words 8 (_Heap_Head h :: fl ++ [_Heap_Tail h]).
Proof.
  intros HR Hw. destruct (split_ok _ _ _ _ _ _ HR A sz true B eq_refl) as (HA & ? & ? & HB & ? & ? & ? & ? & ET).
  pose proof (hr_apart _ _ _ _ _ _ HR) as HP. unfold apart in HP. rewrite ET in HP. pose proof (total_nonneg _ HB).
  rewrite link_words_free, !elem_of_cons, elem_of_free_words.
  unfold _Heap_Head, _Heap_Tail. intros [E|[E|(z & Hz & E)]]; [lia..|].
  rewrite (hr_free _ _ _ _ _ _ HR), free_addrs_app in Hz. simpl in Hz.
  apply elem_of_app in Hz as [Hz|Hz]; apply free_addrs_range in Hz; try done; lia.
Qed.

(** A block that is first in the free list comes right after the head. *)
Lemma first_is_head m h start ps bs k1 b k2 : heap_rep m h start ps bs (k1 ++ b :: k2) -> heap_first m h = b ->
  List.last k1 (_Heap_Head h) = h.
Proof.
  intros HR Ef. pose proof (rep_links_nodup _ _ _ _ _ _ HR) as HN. rewrite (heap_rep_first _ _ _ _ _ _ HR) in Ef.
  destruct k1 as [|z k1]; [done|]. simpl in Ef. subst z. exfalso.
  rewrite link_words_free in HN. simpl in HN. rewrite flat_map_app in HN. simpl in HN. clear -HN. nodup_simp. set_solver.
Qed.

Lemma coalesced_grow A s s' x : coalesced (A ++ [(s, x)]) -> coalesced (A ++ [(s', x)]).
Proof.
  destruct A as [|[q u] A _] using rev_ind; [done|]. rewrite <- !app_assoc. simpl app.
  rewrite (coalesced_app A (q, u) [(s, x)]), (coalesced_app A (q, u) [(s', x)]). done.
Qed.

Lemma coalesced_merge A sz s1 B : ends_used A -> coalesced (A ++ (sz, true) :: (s1, false) :: B) -> coalesced (A ++ (sz + s1, false) :: B).
Proof.
  intros HeA HC. change (A ++ (sz, true) :: (s1, false) :: B) with (A ++ [(sz, true)] ++ (s1, false) :: B) in HC.
  rewrite app_assoc, coalesced_app in HC. destruct HC as [HC1 HC2]. rewrite coalesced_app. split; [|by destruct B as [|[]]].
  apply (coalesced_between A sz); [|done]. rewrite <- app_assoc in HC1. simpl app in HC1. by apply coalesced_app in HC1 as [? _].
Qed.

Lemma release_none m h start ps A sz B fl :
  heap_rep m h start ps (A ++ (sz, true) :: B) fl -> ends_used A -> starts_used B ->
  let b := start + total A in
  let m1 := st (st (st (st (st m (b + 4) sz) (b + sz) sz) (b + 12) h)
                  (b + 8) (hd (_Heap_Tail h) fl)) (h + 8) b in
  heap_rep (st m1 (hd (_Heap_Tail h) fl + 12) b) h start ps (A ++ (sz, false) :: B) (b :: fl).
Proof.
  intros HR HeA HsB b m1.
  destruct (split_ok _ _ _ _ _ _ HR A sz true B eq_refl) as (HA & ? & ? & HB & ? & ? & ? & ? & ET).
  destruct (split_tiles _ _ _ _ _ _ HR A sz true B eq_refl) as (T1 & T2 & T3 & T4).
  fold b in T2, T3, T4.
  pose proof (hr_apart _ _ _ _ _ _ HR) as HP. unfold apart in HP. rewrite ET in HP.
  assert (Forall block_ok (A ++ (sz, false) :: B)) as HF.
  { apply Forall_app. split; [done|]. repeat constructor; simpl; try done. }
  assert (apart h start (A ++ (sz, false) :: B)) as HAp.
  { unfold apart. rewrite total_app. simpl. lia. }
  assert (b :: fl ≡ₚ free_addrs start (A ++ (sz, false) :: B)) as EP.
  { rewrite (hr_free _ _ _ _ _ _ HR), !free_addrs_app. simpl. fold b. apply Permutation_middle. }
  pose proof (free_links_nodup _ _ _ _ HF HAp EP) as HN.
  assert (forall w, w ∈ link_words 8 (_Heap_Head h :: (b :: fl) ++ [_Heap_Tail h]) ->
     w ∉ tile_words start (A ++ (sz, false) :: B) /\ w <> h /\ w <> h + 4 /\ w <> h + 12 /\ w <> h + 20) as HW.
  { intros w. apply free_links_words; try done. intros z. by rewrite EP. }
  set (y := hd (_Heap_Tail h) fl) in *.
  destruct (cut_links h [] b fl) as [HI HD]. simpl app in HI, HD. specialize (HD HN). fold y in HI, HD.
  change (List.last [] (_Heap_Head h)) with h in HI, HD.
  assert (y + 12 <> h + 8 /\ y + 12 <> b + 8 /\ y + 12 <> b + 12) as (D1 & D2 & D3) by (clear -HD; nodup_solve).
  destruct (HW _ (HI (y + 12) ltac:(set_solver))) as (W1 & W1').
  destruct (HW _ (HI (h + 8) ltac:(set_solver))) as (W2 & _).
  destruct (HW _ (HI (b + 8) ltac:(set_solver))) as (W3 & _).
  destruct (HW _ (HI (b + 12) ltac:(set_solver))) as (W4 & _).
  subst m1.
  eapply (heap_rep_intro _ _ _ _ _ _ _ _ _ HR); try (rewrite !ld_st_ne by lia; done); try done.
  - rewrite !total_app. done.
  - rewrite !tiles_frame by done. apply tiles_app. simpl. fold b. split_and!; ld_simpl; try done.
    + rewrite !tseg_frame by out_tile. done.
    + unfold flag_of. lia.
    + replace (flag_of sz false) with sz by (unfold flag_of; lia).
      apply (tiles_back _ _ (flag_of sz true)); [done|]. rewrite tiles_frame by out_tile. done.
  - assert (links 8 (st (st m (b + 4) sz) (b + sz) sz) (_Heap_Head h :: fl ++ [_Heap_Tail h])) as HL.
    { rewrite !(links_tile_store _ h start (A ++ (sz, true) :: B)); try apply HR.
      - intros z. by rewrite (hr_free _ _ _ _ _ _ HR).
      - apply elem_of_tile_words. fold b. tauto.
      - intros z. by rewrite (hr_free _ _ _ _ _ _ HR).
      - apply elem_of_tile_words. right; right. apply tile_words_start. }
    eapply (free_push h _ _ b fl HL HN); fold y; ld_simpl; try done.
    intros a Ha. clear -Ha. rewrite !not_elem_of_cons in Ha. destruct Ha as (? & ? & ? & ? & _).
    by rewrite 4!(ld_st_ne _ _ a) by congruence.
  - eapply coalesced_between; [apply HR|done].
Qed.

Lemma release_prev m h start ps A s0 sz B fl :
  heap_rep m h start ps (A ++ (s0, false) :: (sz, true) :: B) fl -> starts_used B ->
  let b0 := start + total A in
  heap_rep (st (st m (b0 + s0 + sz) (s0 + sz)) (b0 + 4) (s0 + sz)) h start ps
    (A ++ (s0 + sz, false) :: B) fl.
Proof.
  intros HR HsB b0.
  destruct (split_ok _ _ _ _ _ _ HR A s0 false _ eq_refl) as (HA & ? & ? & HB & ? & ? & ? & ? & ET).
  destruct (split_tiles _ _ _ _ _ _ HR A s0 false _ eq_refl) as (T1 & T2 & T3 & T4).
  fold b0 in T2, T3, T4. apply Forall_cons in HB as [[Hz1 Hz2] HB]. simpl in *.
  pose proof (total_nonneg _ HB).
  pose proof (hr_apart _ _ _ _ _ _ HR) as HP. unfold apart in HP. rewrite ET in HP.
  assert (Forall block_ok (A ++ (s0 + sz, false) :: B)) as HF.
  { apply Forall_app. split; [done|]. repeat constructor; simpl; try done; [lia|].
    Z.div_mod_to_equations; lia. }
  assert (apart h start (A ++ (s0 + sz, false) :: B)) as HAp.
  { unfold apart. rewrite total_app. simpl. lia. }
  assert (fl ≡ₚ free_addrs start (A ++ (s0 + sz, false) :: B)) as EP.
  { rewrite (hr_free _ _ _ _ _ _ HR), !free_addrs_app. simpl. rewrite !Z.add_assoc. done. }
  eapply (heap_rep_intro _ _ _ _ _ _ _ _ _ HR); try (rewrite !ld_st_ne by lia; done); try done.
  - rewrite !total_app. simpl. lia.
  - apply tiles_app. simpl. fold b0.
    replace (flag_of (s0 + sz) false) with (s0 + sz) by (unfold flag_of; lia).
    split_and!; ld_simpl; try done.
    + rewrite !tseg_frame by out_tile. done.
    + rewrite tiles_frame by out_tile. rewrite Z.add_assoc.
      apply (tiles_back _ _ (flag_of sz true)); [done|apply T4].
  - rewrite !(links_tile_store _ h start (A ++ (s0 + sz, false) :: B)); try done; try apply HR;
      try (intros z; by rewrite EP).
    + apply elem_of_tile_words. right; right. fold b0. rewrite Z.add_assoc. apply tile_words_start.
    + apply elem_of_tile_words. fold b0. tauto.
  - pose proof (hr_coalesced _ _ _ _ _ _ HR) as HC. rewrite coalesced_app in HC.
    rewrite coalesced_app. destruct HC as [HC1 HC2]. split.
    + exact (coalesced_grow _ _ _ _ HC1).
    + simpl in HC2 |- *. destruct B as [|[s x] B]; [done|]. simpl in HsB |- *.
      destruct x; [|done]. tauto.
Qed.

Lemma release_both m h start ps A s0 sz s1 B k1 k2 :
  let b0 := start + total A in
  let nb := b0 + s0 + sz in
  heap_rep m h start ps (A ++ (s0, false) :: (sz, true) :: (s1, false) :: B) (k1 ++ nb :: k2) ->
  let m1 := st (st m (b0 + 4) (s0 + (s1 + sz))) (b0 + (s0 + (s1 + sz))) (s0 + (s1 + sz)) in
  let x := List.last k1 (_Heap_Head h) in
  let y := hd (_Heap_Tail h) k2 in
  block_next m1 nb = y /\ block_previous m1 nb = x /\ NoDup [nb + 8; nb + 12; x + 8; y + 12] /\
  heap_rep (st (st m1 (y + 12) x) (x + 8) y) h start ps (A ++ (s0 + (s1 + sz), false) :: B) (k1 ++ k2).
Proof.
  intros b0 nb HR m1 x y.
  destruct (split_ok _ _ _ _ _ _ HR A s0 false _ eq_refl) as (HA & ? & ? & HB & ? & ? & ? & ? & ET).
  destruct (split_tiles _ _ _ _ _ _ HR A s0 false _ eq_refl) as (T1 & T2 & T3 & T4).
  fold b0 in T2, T3, T4. apply Forall_cons in HB as [[Hz1 Hz2] HB].
  apply Forall_cons in HB as [[Hy1 Hy2] HB]. simpl in *. pose proof (total_nonneg _ HB).
  destruct T4 as (_ & _ & _ & _ & T4). fold nb in T4.
  pose proof (hr_apart _ _ _ _ _ _ HR) as HP. unfold apart in HP. rewrite ET in HP.
  set (s := s0 + (s1 + sz)) in *.
  assert (Forall block_ok (A ++ (s, false) :: B)) as HF.
  { apply Forall_app. split; [done|]. repeat constructor; simpl; try done; [lia|].
    subst s. Z.div_mod_to_equations; lia. }
  assert (apart h start (A ++ (s, false) :: B)) as HAp.
  { unfold apart. rewrite total_app. simpl. lia. }
  pose proof (rep_links_nodup _ _ _ _ _ _ HR) as HN.
  assert (links 8 m1 (_Heap_Head h :: (k1 ++ nb :: k2) ++ [_Heap_Tail h])) as HL1.
  { subst m1. rewrite !(links_tile_store _ h start (A ++ (s0, false) :: (sz, true) :: (s1, false) :: B));
      try apply HR; try (intros z; by rewrite (hr_free _ _ _ _ _ _ HR)).
    - apply elem_of_tile_words. fold b0. tauto.
    - apply elem_of_tile_words. right; right. apply (elem_of_tile_words _ []). right; right.
      apply (elem_of_tile_words _ []). right; right. simpl. fold b0. rewrite !Z.add_0_r.
      replace (b0 + s0 + sz + s1) with (b0 + s) by (subst s; lia). apply tile_words_start. }
  destruct (free_unlink h m1 k1 nb k2 HL1 HN) as (E1 & E2 & HD & HL2 & W1 & W2).
  fold x y in E1, E2, HD, HL2, W1, W2.
  assert (k1 ++ k2 ≡ₚ free_addrs start (A ++ (s, false) :: B)) as EP.
  { apply (Permutation_cons_inv (a := nb)). rewrite Permutation_middle, (hr_free _ _ _ _ _ _ HR).
    rewrite !free_addrs_app. simpl. fold b0 nb.
    replace (b0 + s) with (nb + s1) by (subst nb s; lia).
    solve_Permutation. }
  assert (forall w, w ∈ link_words 8 (_Heap_Head h :: (k1 ++ k2) ++ [_Heap_Tail h]) ->
     w ∉ tile_words start (A ++ (s, false) :: B) /\ w <> h /\ w <> h + 4 /\ w <> h + 12 /\ w <> h + 20) as HW.
  { intros w. apply free_links_words; try done. intros z. by rewrite EP. }
  destruct (HW _ W1) as (V1 & ?). destruct (HW _ W2) as (V2 & ?).
  split_and!; try done. subst m1.
  eapply (heap_rep_intro _ _ _ _ _ _ _ _ _ HR); try (rewrite !ld_st_ne by lia; done); try done.
  - rewrite !total_app. simpl. lia.
  - rewrite !tiles_frame by done. apply tiles_app. simpl. fold b0.
    replace (flag_of s false) with s by (unfold flag_of; lia). split_and!; ld_simpl; try done.
    + rewrite !tseg_frame by out_tile. done.
    + apply (tiles_back _ _ (flag_of s1 false)); [done|]. rewrite tiles_frame by out_tile.
      replace (b0 + s) with (nb + s1) by (subst nb s; lia). apply T4.
  - pose proof (hr_coalesced _ _ _ _ _ _ HR) as HC. rewrite coalesced_app in HC.
    rewrite coalesced_app. destruct HC as [HC1 HC2]. split.
    + exact (coalesced_grow _ _ _ _ HC1).
    + simpl in HC2 |- *. destruct B as [|[q u] B]; [done|]. tauto.
Qed.

Lemma release_next m h start ps A sz s1 B k1 k2 :
  let b := start + total A in
  let nb := b + sz in
  heap_rep m h start ps (A ++ (sz, true) :: (s1, false) :: B) (k1 ++ nb :: k2) -> ends_used A ->
  let m1 := st (st m (b + 4) (sz + s1)) (b + (sz + s1)) (sz + s1) in
  let x := List.last k1 (_Heap_Head h) in
  let y := hd (_Heap_Tail h) k2 in
  block_next m1 nb = y /\ block_previous m1 nb = x /\
  NoDup [b + 8; b + 12; nb + 8; nb + 12; x + 8; y + 12] /\ (heap_first m h = nb -> x = h) /\
  heap_rep (st (st (st (st m1 (b + 8) y) (b + 12) x) (x + 8) b) (y + 12) b)
    h start ps (A ++ (sz + s1, false) :: B) (k1 ++ b :: k2).
Proof.
  intros b nb HR HeA m1 x y.
  destruct (split_ok _ _ _ _ _ _ HR A sz true _ eq_refl) as (HA & ? & ? & HB & ? & ? & ? & ? & ET).
  destruct (split_tiles _ _ _ _ _ _ HR A sz true _ eq_refl) as (T1 & T2 & T3 & T4).
  fold b in T2, T3, T4. apply Forall_cons in HB as [[Hy1 Hy2] HB]. simpl in *.
  pose proof (total_nonneg _ HB). destruct T4 as (_ & _ & T4). fold nb in T4.
  pose proof (hr_apart _ _ _ _ _ _ HR) as HP. unfold apart in HP. rewrite ET in HP.
  set (s := sz + s1) in *.
  assert (Forall block_ok (A ++ (s, false) :: B)) as HF.
  { apply Forall_app. split; [done|]. repeat constructor; simpl; try done; [lia|].
    subst s. Z.div_mod_to_equations; lia. }
  assert (apart h start (A ++ (s, false) :: B)) as HAp.
  { unfold apart. rewrite total_app. simpl. lia. }
  pose proof (rep_links_nodup _ _ _ _ _ _ HR) as HN.
  assert (links 8 m1 (_Heap_Head h :: (k1 ++ nb :: k2) ++ [_Heap_Tail h])) as HL1.
  { subst m1. rewrite !(links_tile_store _ h start (A ++ (sz, true) :: (s1, false) :: B));
      try apply HR; try (intros z; by rewrite (hr_free _ _ _ _ _ _ HR)).
    - apply elem_of_tile_words. fold b. tauto.
    - apply elem_of_tile_words. right; right. apply (elem_of_tile_words _ []). right; right.
      simpl. fold b. rewrite !Z.add_0_r.
      replace (b + sz + s1) with (b + s) by (subst s; lia). apply tile_words_start. }
  destruct (free_unlink h m1 k1 nb k2 HL1 HN) as (E1 & E2 & HD & _ & W1 & W2).
  fold x y in E1, E2, HD, W1, W2.
  assert (k1 ++ b :: k2 ≡ₚ free_addrs start (A ++ (s, false) :: B)) as EP.
  { rewrite <- Permutation_middle.
    assert (k1 ++ k2 ≡ₚ free_addrs start A ++ free_addrs (b + s) B) as EQ.
    { apply (Permutation_cons_inv (a := nb)). rewrite Permutation_middle, (hr_free _ _ _ _ _ _ HR).
      rewrite !free_addrs_app. simpl. fold b nb.
      replace (b + s) with (nb + s1) by (subst nb s; lia). by rewrite Permutation_middle. }
    rewrite EQ, free_addrs_app. simpl. fold b. apply Permutation_middle. }
  pose proof (free_links_nodup _ _ _ _ HF HAp EP) as HN'.
  assert (forall w, w ∈ link_words 8 (_Heap_Head h :: (k1 ++ b :: k2) ++ [_Heap_Tail h]) ->
     w ∉ tile_words start (A ++ (s, false) :: B) /\ w <> h /\ w <> h + 4 /\ w <> h + 12 /\ w <> h + 20) as HW.
  { intros w. apply free_links_words; try done. intros z. by rewrite EP. }
  pose proof (fun w => used_not_linked _ _ _ _ _ _ _ _ w HR) as Hb. fold b in Hb.
  destruct (cut_links h k1 b k2) as [HI HD2]. specialize (HD2 HN'). fold x y in HI, HD2.
  destruct (HW _ (HI (x + 8) ltac:(set_solver))) as (V1 & V1').
  destruct (HW _ (HI (y + 12) ltac:(set_solver))) as (V2 & V2').
  destruct (HW _ (HI (b + 8) ltac:(set_solver))) as (V3 & _).
  destruct (HW _ (HI (b + 12) ltac:(set_solver))) as (V4 & _).
  assert (x + 8 <> b + 12 /\ x + 8 <> b + 8 /\ x + 8 <> y + 12 /\ y + 12 <> b + 12 /\ y + 12 <> b + 8)
    as (D1 & D2 & D3 & D4 & D5) by (clear -HD2; nodup_solve).
  split_and!; try done.
  - assert (b + 8 <> nb + 8 /\ b + 8 <> nb + 12 /\ b + 12 <> nb + 8 /\ b + 12 <> nb + 12) by lia.
    clear -HD HD2 H6. nodup_solve.
  - by apply (first_is_head _ _ _ _ _ _ _ _ HR).
  - subst m1.
    eapply (heap_rep_intro _ _ _ _ _ _ _ _ _ HR); try (rewrite !ld_st_ne by lia; done); try done.
    + rewrite !total_app. simpl. lia.
    + rewrite !tiles_frame by done. apply tiles_app. simpl. fold b.
      replace (flag_of s false) with s by (unfold flag_of; lia). split_and!; ld_simpl; try done.
      * rewrite !tseg_frame by out_tile. done.
      * apply (tiles_back _ _ (flag_of s1 false)); [done|]. rewrite tiles_frame by out_tile.
        replace (b + s) with (nb + s1) by (subst nb s; lia). apply T4.
    + eapply (free_replace h _ _ k1 nb k2 b HL1 HN); fold x y; try (apply Hb; lia); ld_simpl; try done.
      intros a Ha. clear -Ha. rewrite !not_elem_of_cons in Ha. destruct Ha as (? & ? & ? & ? & _).
      by rewrite 4!(ld_st_ne _ _ a) by congruence.
    + by apply coalesced_merge, HR.
Qed.


(** The four cases of the neighbours of a block being freed. *)
Lemma neighbours A B :
  (ends_used A \/ exists A0 s0, A = A0 ++ [(s0, false)]) /\
  (starts_used B \/ exists s1 B0, B = (s1, false) :: B0).
Proof.
  split.
  - destruct A as [|[s x] A _] using rev_ind; [by left|]. unfold ends_used.
    rewrite rev_app_distr. simpl. destruct x; [by left|right; eauto].
  - destruct B as [|[s x] B]; [by left|]. destruct x; [by left|right; eauto].
Qed.

Lemma freed_none A sz B : ends_used A -> starts_used B -> freed A sz B = A ++ (sz, false) :: B.
Proof.
  unfold ends_used, freed. intros H1 H2.
  destruct (rev A) as [|[s []] r]; destruct B as [|[s' []] B]; done.
Qed.
Lemma freed_next A sz s1 B :
  ends_used A -> freed A sz ((s1, false) :: B) = A ++ (sz + s1, false) :: B.
Proof. unfold ends_used, freed. intros H1. destruct (rev A) as [|[s []] r]; done. Qed.
Lemma freed_prev A s0 sz B :
  starts_used B -> freed (A ++ [(s0, false)]) sz B = A ++ (s0 + sz, false) :: B.
Proof.
  unfold freed. rewrite rev_app_distr. simpl. rewrite rev_involutive.
  destruct B as [|[s' []] B]; done.
Qed.
Lemma freed_both A s0 sz s1 B :
  freed (A ++ [(s0, false)]) sz ((s1, false) :: B) = A ++ (s0 + (s1 + sz), false) :: B.
Proof. unfold freed. rewrite rev_app_distr. simpl. by rewrite rev_involutive. Qed.

Section Release.
Context (m : mem) (h start ps : Z) (A : list block) (sz : Z) (B : list block) (fl : list Z).
Context (p size : Z).
Context (HR : heap_rep m h start ps (A ++ (sz, true) :: B) fl).
Context (HO : owns m (start + total A) sz p size).
Abbreviation b := (start + total A).

(** The pointer leads back to its block, and the block passes the sanity checks
    of [_Heap_Free] and [_Heap_Size_of_user_area]. *)
Lemma owned_block :
  _Heap_User_block_at m p = b /\ _Heap_Is_block_in m h b = true /\
  _Heap_Is_block_free m b = false /\ _Heap_Block_size m b = sz /\
  _Heap_Block_at b sz = b + sz /\ _Heap_Is_block_in m h (b + sz) = true /\
  (front_flag m b =? back_flag m (b + sz)) = true.
Proof.
  destruct (split_ok _ _ _ _ _ _ HR A sz true B eq_refl) as (? & ? & ? & ? & ? & ? & ? & ? & ?).
  destruct (split_tiles _ _ _ _ _ _ HR A sz true B eq_refl) as (_ & _ & T3 & _).
  destruct (split_block_in _ _ _ _ _ _ HR A sz true B eq_refl) as [I1 I2].
  pose proof (hr_low _ _ _ _ _ _ HR). destruct HO as (O1 & O2 & O3 & O4).
  split_and!; try done.
  - unfold _Heap_User_block_at, _Heap_Block_at, _Addresses_Add_offset. rewrite O3.
    unfold wrap32, HEAP_BLOCK_USED_OVERHEAD, sizeof_pointer. rewrite Zplus_mod_idemp_r.
    replace (p + (- (p - b - 8) + - (4 * 2))) with b by lia.
    apply Z.mod_small. lia.
  - exact (split_is_free _ _ _ _ _ _ HR A sz true B eq_refl).
  - unfold _Heap_Block_size, front_flag. rewrite T3. apply flag_size; [done|unfold two32 in *; lia].
  - apply wrap32_small. unfold u32. lia.
  - unfold front_flag, back_flag. rewrite T3, (split_next_back _ _ _ _ _ _ HR A sz true B eq_refl).
    apply Z.eqb_refl.
Qed.

Lemma size_of_user_area_owned : _Heap_Size_of_user_area m h p = Some sz.
Proof.
  destruct owned_block as (E1 & E2 & E3 & E4 & E5 & E6 & E7).
  unfold _Heap_Size_of_user_area. by rewrite E1, E2, E3, E4, E5, E6, E7.
Qed.

Lemma next_used : starts_used B -> _Heap_Is_block_free m (b + sz) = false.
Proof using HR.
  clear p size HO.
  intros HsB. destruct B as [|[s1 []] B0]; [|..].
  - destruct (split_tiles _ _ _ _ _ _ HR A sz true [] eq_refl) as (_ & _ & _ & T4).
    simpl in T4. unfold _Heap_Is_block_free, front_flag. by rewrite (proj2 T4).
  - pose proof (split_is_free _ _ _ _ _ _ HR (A ++ [(sz, true)]) s1 true B0) as E.
    rewrite <- app_assoc, total_app in E. simpl in E. rewrite Z.add_0_r, Z.add_assoc in E.
    by apply E.
  - done.
Qed.

Lemma next_free s1 B0 :
  B = (s1, false) :: B0 ->
  _Heap_Is_block_free m (b + sz) = true /\ front_flag m (b + sz) = s1 /\ b + sz ∈ fl.
Proof using HR.
  clear p size HO.
  intros EB. assert (A ++ (sz, true) :: B = (A ++ [(sz, true)]) ++ (s1, false) :: B0) as E.
  { by rewrite EB, <- app_assoc. }
  pose proof (split_is_free _ _ _ _ _ _ HR _ s1 false B0 E) as E1.
  destruct (split_tiles _ _ _ _ _ _ HR _ s1 false B0 E) as (_ & _ & E2 & _).
  assert (start + total (A ++ [(sz, true)]) = b + sz) as ET by (rewrite total_app; simpl; lia).
  rewrite ET in E1, E2. split_and!; [done| |].
  - unfold front_flag. rewrite E2. unfold flag_of. lia.
  - rewrite (hr_free _ _ _ _ _ _ HR). apply free_addrs_split.
    exists (A ++ [(sz, true)]), s1, B0. by rewrite ET.
Qed.

Lemma previous_used : ends_used A -> _Heap_Is_previous_block_free m b = false.
Proof using HR.
  clear p size HO.
  intros HeA. destruct (split_tiles _ _ _ _ _ _ HR A sz true B eq_refl) as (_ & T2 & _).
  unfold _Heap_Is_previous_block_free, back_flag. rewrite T2. clear T2.
  destruct A as [|[s x] A0 _] eqn:EA using rev_ind; [done|]. unfold ends_used in HeA.
  rewrite rev_app_distr in HeA. simpl in HeA. destruct x; [|done].
  rewrite out_flag_app. simpl.
  assert (block_ok (s, true)) as [? ?].
  { pose proof (hr_ok _ _ _ _ _ _ HR) as HF. rewrite <- app_assoc in HF.
    apply Forall_app in HF as [_ HF]. by apply Forall_cons in HF as [? _]. }
  destruct (split_ok _ _ _ _ _ _ HR (A0 ++ [(s, true)]) sz true B eq_refl)
    as (HA & ? & ? & ? & ? & ? & ? & ? & ?).
  rewrite total_app in *. simpl in *. apply Forall_app in HA as [HA _].
  pose proof (total_nonneg _ HA). pose proof (hr_low _ _ _ _ _ _ HR).
  apply flag_used; [done|unfold two32 in *; lia].
Qed.

Lemma previous_free A0 s0 :
  A = A0 ++ [(s0, false)] ->
  let b0 := start + total A0 in
  _Heap_Is_previous_block_free m b = true /\ _Heap_Previous_block m b = b0 /\
  _Heap_Is_block_in m h b0 = true /\ front_flag m b0 = s0 /\ b = b0 + s0.
Proof using HR.
  clear p size HO.
  intros EA b0. assert (A ++ (sz, true) :: B = A0 ++ (s0, false) :: (sz, true) :: B) as E.
  { by rewrite EA, <- app_assoc. }
  destruct (split_ok _ _ _ _ _ _ HR A0 s0 false _ E) as (? & ? & ? & ? & ? & ? & ? & ? & ?).
  destruct (split_tiles _ _ _ _ _ _ HR A0 s0 false _ E) as (_ & _ & E2 & _).
  destruct (split_block_in _ _ _ _ _ _ HR A0 s0 false _ E) as [I1 _].
  pose proof (split_next_back _ _ _ _ _ _ HR A0 s0 false _ E) as E3.
  pose proof (hr_low _ _ _ _ _ _ HR).
  assert (b = b0 + s0) as Eb by (rewrite EA, total_app; subst b0; simpl; lia).
  rewrite Eb. fold b0 in E2, E3, I1. split_and!; try done.
  - unfold _Heap_Is_previous_block_free, back_flag. rewrite E3.
    apply flag_used; [done|unfold two32 in *; lia].
  - unfold _Heap_Previous_block, _Addresses_Subtract_offset, back_flag. rewrite E3.
    rewrite flag_size by (done || unfold two32 in *; lia). 
    rewrite wrap32_small by (unfold u32; subst b0; lia). lia.
  - unfold front_flag. rewrite E2. unfold flag_of. lia.
Qed.
End Release.
