(* ===== verification/HeapSpec.v ===== *)
(** * What the heap handler promises

    The theorems on [_Heap_Initialize], [_Heap_Allocate], [_Heap_Free],
    [_Heap_Size_of_user_area] and [_Heap_Extend], on a heap whose memory
    represents a sequence of blocks ([HeapProofs.heap_rep]). *)
From S2P Require Import Prelude Chain Heap HeapProofs HeapOps.

Lemma last_elem (x : Z) l : List.last l x ∈ x :: l.
Proof.
  revert x. induction l as [|y l IH]; intros x; [set_solver|].
  rewrite last_cons_default. specialize (IH y). set_solver.
Qed.

Section Free.
Context (m : mem) (h start ps : Z) (A : list block) (sz : Z) (B : list block).
Context (p size : Z).
Context (HO : owns m (start + total A) sz p size).
Abbreviation b := (start + total A).

(** [enter_free HR] runs [_Heap_Free] up to the choice of the coalescing. *)
Ltac enter_free HR :=
  destruct (owned_block _ _ _ _ _ _ _ _ _ _ HR HO) as (E1 & E2 & E3 & E4 & E5 & E6 & E7);
  unfold _Heap_Free; rewrite E1, E2, E3, E4, E5, E6, E7; simpl negb; cbv iota; simpl orb; cbv iota.

(** A word of another used block is apart from the block, from its free
    neighbours and from the links of the free list. *)
Lemma other_words fl w :
  heap_rep m h start ps (A ++ (sz, true) :: B) fl -> user_word start (A ++ (sz, false) :: B) w ->
  w ∉ link_words 8 (_Heap_Head h :: fl ++ [_Heap_Tail h]) /\
  (w < b \/ b + sz + 8 <= w) /\
  (forall A0 s0, A = A0 ++ [(s0, false)] -> w < start + total A0 \/ start + total A0 + s0 + 8 <= w) /\
  (forall s1 B0, B = (s1, false) :: B0 -> w < b + sz \/ b + sz + s1 + 8 <= w).
Proof using.
  clear p size HO. intros HR Hw.
  destruct (user_word_safe _ _ _ _ _ _ w HR) as [S1 _]; [by apply user_word_used|].
  assert (Forall block_ok (A ++ (sz, false) :: B)) as HF.
  { pose proof (hr_ok _ _ _ _ _ _ HR) as HF. rewrite Forall_app, Forall_cons in *. done. }
  split_and!; [done|by apply user_word_out in Hw|..].
  - intros A0 s0 ->. rewrite <- app_assoc in Hw, HF. simpl app in *. by apply user_word_out in Hw.
  - intros s1 B0 ->. change (A ++ (sz, false) :: (s1, false) :: B0) with
      (A ++ [(sz, false)] ++ (s1, false) :: B0) in *. rewrite app_assoc in Hw, HF.
    apply user_word_out in Hw; [|done]. rewrite total_app in Hw. simpl in Hw. lia.
Qed.

Ltac frame_user :=
  unfold set_front_flag, set_back_flag; rewrite !ld_st_ne; [done|..]; first [ lia | by intros <- | set_solver ].

Lemma free_none fl :
  heap_rep m h start ps (A ++ (sz, true) :: B) fl -> ends_used A -> starts_used B ->
  exists m', _Heap_Free m h p = (true, m') /\
    heap_rep m' h start ps (A ++ (sz, false) :: B) (b :: fl) /\
    forall w, user_word start (A ++ (sz, false) :: B) w -> ld m' w = ld m w.
Proof.
  intros HR HeA HsB. enter_free HR.
  rewrite (previous_used _ _ _ _ _ _ _ _ HR HeA), (next_used _ _ _ _ _ _ _ _ HR HsB).
  pose proof (release_none _ _ _ _ _ _ _ _ HR HeA HsB) as HX.
  destruct (split_ok _ _ _ _ _ _ HR A sz true B eq_refl) as (? & ? & ? & ? & ? & ? & ? & ? & ET).
  pose proof (hr_apart _ _ _ _ _ _ HR) as HP. unfold apart in HP. rewrite ET in HP.
  eexists. split; [reflexivity|].
  unfold set_front_flag, set_back_flag, set_block_previous, set_block_next, set_heap_first,
    heap_first, block_next, _Heap_Head. 
  assert (ld (st (st (st m (b + 4) sz) (b + sz) sz) (b + 12) h) (h + 8) = hd (_Heap_Tail h) fl) as EF.
  { ld_simpl. apply (heap_rep_first _ _ _ _ _ _ HR). }
  rewrite EF. rewrite (ld_st_ne _ (h + 8) (b + 8)) by lia. rewrite ld_st_eq.
  split; [exact HX|]. intros w Hw. destruct (other_words _ _ HR Hw) as (S1 & S2 & _).
  destruct (cut_words h [] 0 fl fl) as [C1 C2]; [by left|]. simpl in C1. frame_user.
Qed.

Lemma free_prev A0 s0 fl :
  A = A0 ++ [(s0, false)] ->
  heap_rep m h start ps (A ++ (sz, true) :: B) fl -> starts_used B ->
  exists m', _Heap_Free m h p = (true, m') /\
    heap_rep m' h start ps (A0 ++ (s0 + sz, false) :: B) fl /\
    forall w, user_word start (A ++ (sz, false) :: B) w -> ld m' w = ld m w.
Proof.
  intros EA HR HsB. enter_free HR.
  destruct (previous_free _ _ _ _ _ _ _ _ HR A0 s0 EA) as (P1 & P2 & P3 & P4 & P5).
  rewrite P1, P2, P3, P4, (next_used _ _ _ _ _ _ _ _ HR HsB).
  pose proof HR as HR0. rewrite EA, <- app_assoc in HR. simpl app in HR.
  destruct (split_ok _ _ _ _ _ _ HR A0 s0 false _ eq_refl) as (? & ? & ? & HB & ? & ? & ? & ? & ET).
  simpl in *. apply Forall_cons in HB as [[Hz1 Hz2] HB]. pose proof (total_nonneg _ HB).
  simpl in *.
  pose proof (hr_low _ _ _ _ _ _ HR).
  rewrite (wrap32_small (s0 + sz)) by (unfold u32; lia).
  eexists. split; [reflexivity|]. rewrite P5. split; [exact (release_prev _ _ _ _ _ _ _ _ _ HR HsB)|].
  intros w Hw. destruct (other_words _ _ HR0 Hw) as (S1 & S2 & S3 & _). specialize (S3 _ _ EA).
  frame_user.
Qed.

Lemma free_next s1 B0 fl :
  B = (s1, false) :: B0 ->
  heap_rep m h start ps (A ++ (sz, true) :: B) fl -> ends_used A ->
  exists m' fl', _Heap_Free m h p = (true, m') /\
    heap_rep m' h start ps (A ++ (sz + s1, false) :: B0) fl' /\
    forall w, user_word start (A ++ (sz, false) :: B) w -> ld m' w = ld m w.
Proof.
  intros EB HR HeA. enter_free HR.
  rewrite (previous_used _ _ _ _ _ _ _ _ HR HeA).
  destruct (next_free _ _ _ _ _ _ _ _ HR s1 B0 EB) as (N1 & N2 & N3). rewrite N1, N2.
  pose proof HR as HR0. rewrite EB in HR. destruct (split_ok _ _ _ _ _ _ HR A sz true _ eq_refl) as (? & ? & ? & HB & ? & ? & ? & ? & ET).
  simpl in *. apply Forall_cons in HB as [[Hs1 Hs2] HB]. pose proof (total_nonneg _ HB). simpl in *.
  pose proof (hr_low _ _ _ _ _ _ HR).
  apply list_elem_of_split in N3 as (k1 & k2 & ->).
  destruct (release_next _ _ _ _ _ _ _ _ _ _ HR HeA) as (X1 & X2 & X3 & X4 & X5).
  rewrite (wrap32_small (sz + s1)) by (unfold u32; lia).
  set (x := List.last k1 (_Heap_Head h)) in *. set (y := hd (_Heap_Tail h) k2) in *.
  assert (_Heap_Next_block (set_front_flag m b (sz + s1)) b = b + (sz + s1)) as ->.
  { unfold _Heap_Next_block, set_front_flag, front_flag, _Addresses_Add_offset. rewrite ld_st_eq.
    rewrite size_mask by (Z.div_mod_to_equations; unfold two32 in *; lia).
    apply wrap32_small. unfold u32. lia. }
  unfold front_flag, back_flag, set_front_flag, set_back_flag, set_block_next, set_block_previous,
    block_next, block_previous in *. rewrite (ld_st_eq m).
  set (m1 := st (st m _ _) _ _) in *.
  assert (heap_first (st (st (st (st m1 (b + 8) y) (b + 12) x) (x + 8) b) (y + 12) b) h <> b + sz) as HF.
  { rewrite (heap_rep_first _ _ _ _ _ _ X5). destruct k1 as [|z k1]; simpl hd; [lia|]. intros ->.
    pose proof (heap_rep_first _ _ _ _ _ _ HR) as EF. simpl in EF. specialize (X4 EF).
    destruct (free_block_not_special _ _ _ _ _ _ HR x) as (_ & _ & []); [|done].
    apply elem_of_app. left. subst x. rewrite last_cons_default.
    apply last_elem. }
  assert (x + 8 <> b + sz + 8 /\ b + 8 <> b + sz + 8 /\ b + 12 <> b + sz + 8 /\
    b + 8 <> b + sz + 12 /\ b + 12 <> b + sz + 12 /\ x + 8 <> b + sz + 12)
    as (D1 & D2 & D3 & D4 & D5 & D6) by (clear -X3; nodup_solve).
  eexists _, (k1 ++ b :: k2). split; [reflexivity|].
  ld_simpl. rewrite X1, X2. ld_simpl.
  replace (_ =? _) with false by (symmetry; apply Z.eqb_neq; exact HF). split; [exact X5|].
  intros w Hw. destruct (other_words _ _ HR0 Hw) as (S1 & S2 & _ & S4). specialize (S4 _ _ EB).
  destruct (cut_words h k1 (b + sz) k2 _ (or_intror eq_refl)) as [C1 C2]. fold x y in C1, C2.
  subst m1. frame_user.
Qed.

Lemma free_both A0 s0 s1 B0 fl :
  A = A0 ++ [(s0, false)] -> B = (s1, false) :: B0 ->
  heap_rep m h start ps (A ++ (sz, true) :: B) fl ->
  exists m' fl', _Heap_Free m h p = (true, m') /\
    heap_rep m' h start ps (A0 ++ (s0 + (s1 + sz), false) :: B0) fl' /\
    forall w, user_word start (A ++ (sz, false) :: B) w -> ld m' w = ld m w.
Proof.
  intros EA EB HR. enter_free HR.
  destruct (previous_free _ _ _ _ _ _ _ _ HR A0 s0 EA) as (P1 & P2 & P3 & P4 & P5).
  destruct (next_free _ _ _ _ _ _ _ _ HR s1 B0 EB) as (N1 & N2 & N3).
  rewrite P1, P2, P3, P4, N1, N2. simpl negb. cbv iota.
  pose proof HR as HR0. rewrite P5 in *. rewrite EA, EB, <- app_assoc in HR. simpl app in HR.
  destruct (split_ok _ _ _ _ _ _ HR A0 s0 false _ eq_refl) as (? & ? & ? & HB & ? & ? & ? & ? & ET).
  simpl in *. apply Forall_cons in HB as [[Hz1 Hz2] HB]. apply Forall_cons in HB as [[Hs1 Hs2] HB].
  pose proof (total_nonneg _ HB). pose proof (hr_low _ _ _ _ _ _ HR). simpl in *.
  set (b0 := start + total A0) in *.
  rewrite (wrap32_small (s1 + sz)), wrap32_small by (unfold u32; lia).
  apply list_elem_of_split in N3 as (k1 & k2 & ->).
  destruct (release_both _ _ _ _ _ _ _ _ _ _ _ HR) as (X1 & X2 & X3 & X4).
  fold b0 in X1, X2, X3, X4.
  assert (_Heap_Next_block (set_front_flag m b0 (s0 + (s1 + sz))) b0 = b0 + (s0 + (s1 + sz))) as ->.
  { unfold _Heap_Next_block, set_front_flag, front_flag, _Addresses_Add_offset. rewrite ld_st_eq.
    rewrite size_mask by (Z.div_mod_to_equations; unfold two32 in *; lia).
    apply wrap32_small. unfold u32. lia. }
  unfold front_flag, back_flag, set_front_flag, set_back_flag, set_block_next, set_block_previous,
    block_next, block_previous in *. rewrite (ld_st_eq m).
  set (m1 := st (st m _ _) _ _) in *.
  set (x := List.last k1 (_Heap_Head h)) in *. set (y := hd (_Heap_Tail h) k2) in *.
  set (nb := b0 + s0 + sz) in *.
  assert (y + 12 <> nb + 8 /\ y + 12 <> nb + 12) as (D1 & D2) by (clear -X3; nodup_solve).
  eexists _, (k1 ++ k2). split; [reflexivity|]. ld_simpl. rewrite X1, X2. split; [exact X4|].
  intros w Hw. destruct (other_words _ _ HR0 Hw) as (S1 & S2 & S3 & S4).
  specialize (S3 _ _ EA). specialize (S4 _ _ EB). rewrite P5 in S2, S4. fold b0 in S2, S3, S4.
  destruct (cut_words h k1 nb k2 _ (or_intror eq_refl)) as [C1 C2]. fold x y in C1, C2.
  subst m1. frame_user.
Qed.

Lemma free_spec fl :
  heap_rep m h start ps (A ++ (sz, true) :: B) fl ->
  exists m' fl', _Heap_Free m h p = (true, m') /\ heap_rep m' h start ps (freed A sz B) fl' /\
    forall w, user_word start (A ++ (sz, false) :: B) w -> ld m' w = ld m w.
Proof.
  intros HR. destruct (neighbours A B) as [[HA|(A0 & s0 & EA)] [HB|(s1 & B0 & EB)]].
  - assert (freed A sz B = A ++ (sz, false) :: B) as -> by by apply freed_none.
    destruct (free_none _ HR HA HB) as (m' & ? & ? & ?). eauto 6.
  - assert (freed A sz B = A ++ (sz + s1, false) :: B0) as -> by (rewrite EB; by apply freed_next).
    exact (free_next _ _ _ EB HR HA).
  - assert (freed A sz B = A0 ++ (s0 + sz, false) :: B) as -> by (rewrite EA; by apply freed_prev).
    destruct (free_prev _ _ _ EA HR HB) as (m' & ? & ? & ?). eauto 6.
  - assert (freed A sz B = A0 ++ (s0 + (s1 + sz), false) :: B0) as ->
      by (rewrite EA, EB; apply freed_both).
    exact (free_both _ _ _ _ _ EA EB HR).
Qed.
End Free.

(** ** [_Heap_Extend] *)

Lemma coalesced_snoc_used bs sz : coalesced bs -> coalesced (bs ++ [(sz, true)]).
Proof.
  induction bs as [|[s x] bs IH]; [done|]. destruct bs as [|[s' x'] bs].
  - intros _. simpl. by rewrite orb_true_r.
  - intros [H1 H2]. split; [done|]. by apply IH.
Qed.

(** Making the area behind the heap look like a used block. *)
Lemma extend_rep m h start ps bs fl size :
  heap_rep m h start ps bs fl -> 16 <= size -> size mod 4 = 0 ->
  let f := start + total bs in
  f + size + 8 <= two32 -> apart h start (bs ++ [(size, true)]) ->
  heap_rep (st (st (st (st (st m (h + 4) (f + size)) (f + size) (flag_of size true))
                  (f + 4) (flag_of size true)) (f + size + 4) HEAP_DUMMY_FLAG) (f + 8) 4)
    h start ps (bs ++ [(size, true)]) fl.
Proof.
  intros HR Hs Hm f Hhi HAp.
  pose proof (total_nonneg _ (hr_ok _ _ _ _ _ _ HR)) as Ht.
  pose proof HAp as HAp'. unfold apart in HAp'. rewrite total_app in HAp'. simpl in HAp'.
  fold f in HAp'. assert (Forall block_ok bs) as Hok by apply HR.
  split; try apply HR; unfold heap_start, heap_final, heap_page_size; try done.
  - ld_simpl. apply HR.
  - ld_simpl. rewrite total_app. subst f. simpl. lia.
  - ld_simpl. apply HR.
  - ld_simpl. apply HR.
  - apply tiles_app. fold f. simpl. split_and!; ld_simpl; try done.
    + rewrite !tseg_frame by (out_tile || lia). pose proof (hr_tiles _ _ _ _ _ _ HR) as HT.
      rewrite <- (app_nil_r bs), tiles_app in HT. apply HT.
    + pose proof (hr_tiles _ _ _ _ _ _ HR) as HT.
      rewrite <- (app_nil_r bs), tiles_app in HT. apply HT.
  - rewrite 5!links_frame; [apply HR|..]; intros Hw;
      rewrite link_words_free, !elem_of_cons, elem_of_free_words in Hw;
      unfold _Heap_Head, _Heap_Tail in Hw; destruct Hw as [E|[E|(z & Hz & E)]]; try lia;
      rewrite (hr_free _ _ _ _ _ _ HR) in Hz; apply free_addrs_range in Hz; try done; lia.
  - rewrite free_addrs_app. simpl. rewrite app_nil_r. apply HR.
  - apply Forall_app. split; [done|]. repeat constructor; simpl; done.
  - apply coalesced_snoc_used, HR.
  - rewrite total_app. simpl. subst f. lia.
Qed.

(** ** The theorems *)

(** [_Heap_Initialize] on a valid page size and an area of whole words of at
    least [HEAP_MINIMUM_SIZE] bytes apart from the control block turns the area
    into a heap of one free block and returns the area less the overhead of the
    dummy flags and of one used block; on an invalid page size or too small an
    area it returns 0 and writes nothing. *)
Theorem heap_initialize_correct m h start size ps :
  (_Heap_Is_page_size_valid ps = true -> HEAP_MINIMUM_SIZE <= size ->
   size mod 4 = 0 -> start mod 4 = 0 -> 8 <= start -> start + size <= two32 ->
   0 < h -> h + 28 <= start \/ start + size <= h ->
   let '(r, m') := _Heap_Initialize m h start size ps in
   r = size - 16 /\ heap_rep m' h start ps [(size - 8, false)] [start]) /\
  (_Heap_Is_page_size_valid ps = false \/ size < HEAP_MINIMUM_SIZE ->
   _Heap_Initialize m h start size ps = (0, m)).
Proof.
  split; [apply heap_initialize_rep|]. intros [E|E]; unfold _Heap_Initialize.
  - by rewrite E.
  - apply Z.ltb_lt in E. by rewrite E, orb_true_r.
Qed.

Lemma heap_initialize_witness :
  heap_rep (snd (_Heap_Initialize ∅ 64 1024 512 8)) 64 1024 8 [(504, false)] [1024] /\
  _Heap_Initialize ∅ 64 1024 512 12 = (0, ∅) /\ _Heap_Initialize ∅ 64 1024 16 8 = (0, ∅).
Proof.
  split_and!.
  - apply (heap_initialize_correct ∅ 64 1024 512 8); vm_compute; auto; try discriminate.
    left. discriminate.
  - apply (heap_initialize_correct ∅ 64 1024 512 12). left. reflexivity.
  - apply (heap_initialize_correct ∅ 64 1024 16 8). right. reflexivity.
Defined.

(** A small heap to instantiate the theorems on: 512 bytes at 1024, the control
    block at 64, pages of 8 bytes. *)
Definition small_heap : mem := snd (_Heap_Initialize ∅ 64 1024 512 8).
Lemma small_heap_rep : heap_rep small_heap 64 1024 8 [(504, false)] [1024].
Proof.
  apply (heap_initialize_rep ∅ 64 1024 512 8); vm_compute; auto; try discriminate.
  left. discriminate.
Qed.

(** C25: [_Heap_Allocate], for a page size that is a power of two and a request
    that does not overflow 32 bits, with more fuel than the free list is long:
    when some free block is large enough it returns a pointer, aligned to the
    page size, to [size] bytes inside a block that was free and is now used, cut
    off the end of the free block when the remainder is worth keeping; the heap
    stays well formed, no word of a block that was already used changes, and the
    new area is disjoint from all of them.  Otherwise it returns [NULL], writes
    nothing, and every free block is smaller than the request. *)
Theorem heap_allocate_correct fuel m h start ps k bs fl size :
  heap_rep m h start ps bs fl -> ps = 2 ^ k -> 3 <= k -> 0 <= size ->
  size + 2 * ps + 8 < two32 -> (length fl < fuel)%nat ->
  (exists p m' A' sz' B' fl',
     _Heap_Allocate fuel m h size = Some (p, m') /\ p <> NULL /\
     allocated (heap_request_size ps size) bs A' sz' B' /\
     heap_rep m' h start ps (A' ++ (sz', true) :: B') fl' /\
     owns m' (start + total A') sz' p size /\ p mod ps = 0 /\
     forall w, user_word start bs w -> ld m' w = ld m w /\ (w < p - 4 \/ p + size <= w)) \/
  (_Heap_Allocate fuel m h size = Some (NULL, m) /\
   forall A sz B, bs = A ++ (sz, false) :: B -> sz < heap_request_size ps size).
Proof. apply allocate_spec. Qed.

Lemma heap_allocate_witness :
  exists p m' A' sz' B' fl',
     _Heap_Allocate 2 small_heap 64 100 = Some (p, m') /\ p = 1424 /\
     heap_rep m' 64 1024 8 (A' ++ (sz', true) :: B') fl'.
Proof.
  destruct (heap_allocate_correct 2 small_heap 64 1024 8 3 _ _ 100 small_heap_rep)
    as [(p & m' & A' & sz' & B' & fl' & E & _ & _ & HR & _)|(E & _)];
    [reflexivity|discriminate|discriminate|reflexivity|simpl; lia|..].
  - exists p, m', A', sz', B', fl'. split_and!; [done| |done].
    vm_compute in E. congruence.
  - exfalso. vm_compute in E. discriminate.
Defined.

(** C26: [_Heap_Free] on the pointer of a used block returns TRUE and leaves a well
    formed heap in which the block is free and merged with whichever of its
    neighbours were free (all four cases of the code); no word of another used
    block changes. *)
Theorem heap_free_correct m h start ps A sz B fl p size :
  owns m (start + total A) sz p size ->
  heap_rep m h start ps (A ++ (sz, true) :: B) fl ->
  exists m' fl', _Heap_Free m h p = (true, m') /\
    heap_rep m' h start ps (freed A sz B) fl' /\
    forall w, user_word start (A ++ (sz, false) :: B) w -> ld m' w = ld m w.
Proof. intros HO HR. by eapply free_spec. Qed.

Lemma small_heap_allocated :
  exists p m' A sz B fl, _Heap_Allocate 2 small_heap 64 100 = Some (p, m') /\
    heap_rep m' 64 1024 8 (A ++ (sz, true) :: B) fl /\ owns m' (1024 + total A) sz p 100.
Proof.
  destruct (allocate_spec 2 small_heap 64 1024 8 3 _ _ 100 small_heap_rep)
    as [(p & m' & A & sz & B & fl & E & _ & _ & HR & HO & _)|(E & _)];
    [reflexivity|discriminate|discriminate|reflexivity|simpl; lia|..].
  - exists p, m', A, sz, B, fl. exact (conj E (conj HR HO)).
  - exfalso. vm_compute in E. discriminate.
Qed.

Lemma heap_free_witness :
  exists p m' m'' , _Heap_Allocate 2 small_heap 64 100 = Some (p, m') /\
    _Heap_Free m' 64 p = (true, m'').
Proof.
  destruct small_heap_allocated as (p & m' & A & sz & B & fl & E & HR & HO).
  destruct (heap_free_correct _ _ _ _ _ _ _ _ _ _ HO HR) as (m'' & fl' & EF & _).
  exists p, m', m''. exact (conj E EF).
Defined.

Lemma coalesced_neighbours A sz B :
  coalesced (A ++ (sz, false) :: B) -> ends_used A /\ starts_used B.
Proof.
  rewrite coalesced_app. intros [H1 H2]. split.
  - destruct (neighbours A B) as [[?|(A0 & s0 & ->)] _]; [done|].
    rewrite <- app_assoc in H1. simpl app in H1. rewrite coalesced_app in H1.
    destruct H1 as [_ H1]. simpl in H1. by destruct H1.
  - destruct B as [|[s []] B]; [done..|]. simpl in H2. by destruct H2.
Qed.

Lemma allocated_freed t bs A sz B :
  allocated t bs A sz B -> coalesced bs -> freed A sz B = bs.
Proof.
  intros [A1 s1 B1 Hle|A1 s1 B1 Hle] HC; apply coalesced_neighbours in HC as [H1 H2].
  - by apply freed_none.
  - rewrite freed_prev by done. do 3 f_equal. lia.
Qed.

Lemma total_freed A sz B : total (freed A sz B) = total (A ++ (sz, true) :: B).
Proof.
  destruct (neighbours A B) as [[HA|(A0 & s0 & ->)] [HB|(s1 & B0 & ->)]];
    rewrite ?freed_none, ?freed_next, ?freed_prev, ?freed_both by done; rewrite ?total_app; simpl; rewrite ?total_app; simpl; lia.
Qed.



Lemma user_word_below start bs w : Forall block_ok bs -> user_word start bs w ->
  start + 8 <= w < start + total bs.
Proof.
  intros HF (A & s & B & -> & Hw). apply Forall_app in HF as [HA HB]. apply Forall_cons in HB as [_ HB].
  rewrite total_app. simpl. pose proof (total_nonneg _ HA). pose proof (total_nonneg _ HB). lia.
Qed.

Lemma user_word_snoc start bs sz w : user_word start bs w -> user_word start (bs ++ [(sz, false)]) w.
Proof.
  intros (A & s & B & -> & Hw). exists A, s, (B ++ [(sz, false)]). by rewrite <- app_assoc.
Qed.

(** [_Heap_Extend].  An area that starts inside the heap is refused with
    [HEAP_EXTEND_ERROR], any other area that does not start right behind the
    heap's final dummy block with [HEAP_EXTEND_NOT_IMPLEMENTED], in both cases
    without a write.  An area of whole words right behind the heap (that does not
    wrap around and does not overlap the control block) is added: the heap stays
    well formed, grows by one free block of [size] bytes, merged with the last
    block when that one is free, and no used block changes. *)
Theorem heap_extend_correct m h start ps bs fl a size :
  heap_rep m h start ps bs fl -> u32 a ->
  let f := start + total bs in
  (start <= a <= f -> _Heap_Extend m h a size = (HEAP_EXTEND_ERROR, 0, m)) /\
  (a < start \/ (f < a /\ a <> f + 8) ->
   _Heap_Extend m h a size = (HEAP_EXTEND_NOT_IMPLEMENTED, 0, m)) /\
  (a = f + 8 -> 16 <= size -> size mod 4 = 0 -> f + size + 8 <= two32 ->
   apart h start (bs ++ [(size, true)]) ->
   exists m' fl', _Heap_Extend m h a size = (HEAP_EXTEND_SUCCESSFUL, size, m') /\
     heap_rep m' h start ps (freed bs size []) fl' /\
     forall w, user_word start bs w -> ld m' w = ld m w).
Proof.
  intros HR Ha f. unfold _Heap_Extend. rewrite (hr_start _ _ _ _ _ _ HR), (hr_final _ _ _ _ _ _ HR).
  fold f. pose proof (hr_low _ _ _ _ _ _ HR). pose proof (hr_high _ _ _ _ _ _ HR).
  pose proof (total_nonneg _ (hr_ok _ _ _ _ _ _ HR)) as Ht.
  unfold _Addresses_Subtract_offset, HEAP_OVERHEAD, sizeof_unsigned32. replace (4 * 2) with 8 by lia.
  split_and!.
  - intros [H1 H2]. apply Z.leb_le in H1, H2. by rewrite H1, H2.
  - intros HC. replace ((start <=? a) && (a <=? f)) with false
      by (symmetry; apply andb_false_iff; rewrite !Z.leb_gt; lia).
    destruct (Z.ltb_spec a start); [done|]. unfold u32 in Ha.
    rewrite wrap32_small by (unfold u32; lia).
    replace (a - 8 =? f) with false by (symmetry; apply Z.eqb_neq; lia). done.
  - intros -> Hs Hm Hhi HAp.
    replace ((start <=? f + 8) && (f + 8 <=? f)) with false
      by (symmetry; apply andb_false_iff; rewrite !Z.leb_gt; lia).
    replace (f + 8 <? start) with false by (symmetry; apply Z.ltb_ge; lia).
    unfold u32 in Ha. rewrite (wrap32_small (f + 8 - 8)) by (unfold u32; lia).
    replace (f + 8 - 8 =? f) with true by (symmetry; apply Z.eqb_eq; lia). simpl negb. cbv iota.
    unfold _Addresses_Add_offset. rewrite wrap32_small by (unfold u32; lia).
    rewrite build_flag_used by (done || unfold two32 in *; lia).
    pose proof (extend_rep _ _ _ _ _ _ _ HR Hs Hm Hhi HAp) as HE. fold f in HE.
    unfold set_heap_final, set_back_flag, set_front_flag.
    set (m1 := st (st (st (st m (h + 4) _) _ _) _ _) _ _).
    change (st m1 (f + 8) 4) with (st m1 (f + 8) 4) in HE.
    destruct (free_spec (st m1 (f + 8) 4) h start ps bs size [] (f + 8 + 4) 4) with (fl := fl)
      as (m' & fl' & E & HR' & HF); [|done|].
    { unfold owns. fold f. split_and!; [lia|lia| |].
      - replace (f + 8 + 4 - 4) with (f + 8) by lia. rewrite ld_st_eq. lia.
      - pose proof (total_mod4 _ (hr_ok _ _ _ _ _ _ HR)). pose proof (hr_align _ _ _ _ _ _ HR).
        subst f. Z.div_mod_to_equations; lia. }
    rewrite E. exists m', fl'. split_and!; [done|done|]. intros w Hw.
    rewrite HF by by apply user_word_snoc. apply user_word_below in Hw; [|apply HR]. fold f in Hw.
    unfold apart in HAp. rewrite total_app in HAp. simpl in HAp. subst m1.
    by rewrite !ld_st_ne by lia.
Qed.

Lemma heap_extend_witness :
  _Heap_Extend small_heap 64 1024 64 = (HEAP_EXTEND_ERROR, 0, small_heap) /\
  _Heap_Extend small_heap 64 2048 64 = (HEAP_EXTEND_NOT_IMPLEMENTED, 0, small_heap) /\
  exists m' fl', _Heap_Extend small_heap 64 1536 64 = (HEAP_EXTEND_SUCCESSFUL, 64, m') /\
    heap_rep m' 64 1024 8 [(568, false)] fl'.
Proof.
  split_and!.
  - apply (heap_extend_correct _ _ _ _ _ _ 1024 64 small_heap_rep); by_decide.
  - apply (heap_extend_correct _ _ _ _ _ _ 2048 64 small_heap_rep); [by_decide|right; by_decide].
  - destruct (heap_extend_correct _ _ _ _ _ _ 1536 64 small_heap_rep) as (_ & _ & HS); [by_decide|].
    destruct HS as (m' & fl' & E & HR & _); [by_decide..|left; by_decide|].
    exists m', fl'. split; [exact E|exact HR].
Defined.

(** A call of [_Heap_Free] that returns FALSE has written nothing, whatever the
    memory and the pointer. *)
Theorem heap_free_false_unchanged m h p :
  fst (_Heap_Free m h p) = false -> snd (_Heap_Free m h p) = m.
Proof. unfold _Heap_Free. repeat case_match; done. Qed.

Lemma heap_free_false_unchanged_witness : snd (_Heap_Free small_heap 64 1036) = small_heap.
Proof. apply heap_free_false_unchanged. reflexivity. Defined.

(** [_Heap_Size_of_user_area] succeeds on the pointer of a used block, but what
    it reports is the size of the whole block: counted from the pointer it always
    reaches beyond the end of the block. *)
Theorem heap_size_of_user_area_overstates m h start ps A sz B fl p size :
  owns m (start + total A) sz p size ->
  heap_rep m h start ps (A ++ (sz, true) :: B) fl ->
  _Heap_Size_of_user_area m h p = Some sz /\ start + total A + sz < p + sz.
Proof.
  intros HO HR. split; [by apply (size_of_user_area_owned _ _ _ _ _ _ _ _ _ _ HR HO)|].
  destruct HO. lia.
Qed.

Lemma heap_size_of_user_area_witness :
  exists p m' sz, _Heap_Allocate 2 small_heap 64 100 = Some (p, m') /\
    _Heap_Size_of_user_area m' 64 p = Some sz.
Proof.
  destruct small_heap_allocated as (p & m' & A & sz & B & fl & E & HR & HO).
  destruct (heap_size_of_user_area_overstates _ _ _ _ _ _ _ _ _ _ HO HR) as [ES _].
  exists p, m', sz. exact (conj E ES).
Defined.

(** A request so large that its rounded size overflows 32 bits is not refused:
    on a fresh 512-byte heap a request for 4294967290 bytes returns a pointer. *)
Theorem heap_allocate_overflow :
  exists m, _Heap_Allocate 2 small_heap 64 4294967290 = Some (1528, m) /\
    _Heap_Size_of_user_area m 64 1528 = Some 16.
Proof. eexists. split; [vm_compute; reflexivity|reflexivity]. Qed.
