(* ===== verification/Watchdog.v ===== *)
(** * Watchdog Handler (score/src/watchdog.c, score/inline/watchdog.inl,
    score/headers/watchdog.h)

    A watchdog is named by the address of its control block.  The two delta
    chains are lists of watchdogs (the pointer representation of chains is refined
    to lists in [Chain]), and [wd] holds the control blocks.  The operations that
    can be interrupted ([_ISR_Flash] in [_Watchdog_Insert]) or that call out to
    service routines ([_Watchdog_Tickle]) work on any state that contains a
    watchdog state ([HasWatchdog]), with the interrupts taken at the flash point
    and the service routines as arguments. *)
From S2P Require Import Prelude Chain.

(** ** Types (headers/watchdog.h) *)

Inductive Watchdog_States : Type :=
| WATCHDOG_INACTIVE
| WATCHDOG_BEING_INSERTED
| WATCHDOG_ACTIVE
| WATCHDOG_REMOVE_IT.

#[export] Instance Watchdog_States_eq_dec : EqDecision Watchdog_States.
Proof. solve_decision. Defined.

Inductive Watchdog_Adjust_directions : Type :=
| WATCHDOG_FORWARD
| WATCHDOG_BACKWARD.

Definition WATCHDOG_NO_TIMEOUT : Z := 0.

Record Watchdog_Control : Type := {
  wd_state : Watchdog_States;
  initial : Z;
  delta_interval : Z;
  start_time : Z;
  stop_time : Z;
  routine : Z;
  wd_id : Z;
  user_data : Z
}.

(** Storage that was never initialised reads as zero. *)
#[export] Instance Watchdog_Control_inhabited : Inhabited Watchdog_Control :=
  populate {| wd_state := WATCHDOG_INACTIVE; initial := 0; delta_interval := 0;
              start_time := 0; stop_time := 0; routine := 0; wd_id := 0; user_data := 0 |}.

Definition set_state (v : Watchdog_States) (c : Watchdog_Control) : Watchdog_Control :=
  {| wd_state := v; initial := initial c; delta_interval := delta_interval c;
     start_time := start_time c; stop_time := stop_time c;
     routine := routine c; wd_id := wd_id c; user_data := user_data c |}.
Definition set_initial (v : Z) (c : Watchdog_Control) : Watchdog_Control :=
  {| wd_state := wd_state c; initial := v; delta_interval := delta_interval c;
     start_time := start_time c; stop_time := stop_time c;
     routine := routine c; wd_id := wd_id c; user_data := user_data c |}.
Definition set_delta (v : Z) (c : Watchdog_Control) : Watchdog_Control :=
  {| wd_state := wd_state c; initial := initial c; delta_interval := v;
     start_time := start_time c; stop_time := stop_time c;
     routine := routine c; wd_id := wd_id c; user_data := user_data c |}.
Definition set_start_time (v : Z) (c : Watchdog_Control) : Watchdog_Control :=
  {| wd_state := wd_state c; initial := initial c; delta_interval := delta_interval c;
     start_time := v; stop_time := stop_time c;
     routine := routine c; wd_id := wd_id c; user_data := user_data c |}.
Definition set_stop_time (v : Z) (c : Watchdog_Control) : Watchdog_Control :=
  {| wd_state := wd_state c; initial := initial c; delta_interval := delta_interval c;
     start_time := start_time c; stop_time := v;
     routine := routine c; wd_id := wd_id c; user_data := user_data c |}.

(** The two headers, [&_Watchdog_Ticks_chain] and [&_Watchdog_Seconds_chain]. *)
Inductive wd_header : Type := Ticks | Seconds.

#[export] Instance wd_header_eq_dec : EqDecision wd_header.
Proof. solve_decision. Defined.

Record Watchdog_State : Type := {
  _Watchdog_Sync_level : Z;
  _Watchdog_Sync_count : Z;
  _Watchdog_Ticks_since_boot : Z;
  _ISR_Nest_level : Z;
  _Watchdog_Ticks_chain : list Z;
  _Watchdog_Seconds_chain : list Z;
  wd : gmap Z Watchdog_Control
}.

Definition chain_of (h : wd_header) (s : Watchdog_State) : list Z :=
  match h with Ticks => _Watchdog_Ticks_chain s | Seconds => _Watchdog_Seconds_chain s end.

Definition set_chains (t sc : list Z) (s : Watchdog_State) : Watchdog_State :=
  {| _Watchdog_Sync_level := _Watchdog_Sync_level s; _Watchdog_Sync_count := _Watchdog_Sync_count s;
     _Watchdog_Ticks_since_boot := _Watchdog_Ticks_since_boot s;
     _ISR_Nest_level := _ISR_Nest_level s;
     _Watchdog_Ticks_chain := t; _Watchdog_Seconds_chain := sc; wd := wd s |}.
Definition set_chain (h : wd_header) (l : list Z) (s : Watchdog_State) : Watchdog_State :=
  match h with
  | Ticks => set_chains l (_Watchdog_Seconds_chain s) s
  | Seconds => set_chains (_Watchdog_Ticks_chain s) l s
  end.
Definition set_sync_level (v : Z) (s : Watchdog_State) : Watchdog_State :=
  {| _Watchdog_Sync_level := v; _Watchdog_Sync_count := _Watchdog_Sync_count s;
     _Watchdog_Ticks_since_boot := _Watchdog_Ticks_since_boot s;
     _ISR_Nest_level := _ISR_Nest_level s; _Watchdog_Ticks_chain := _Watchdog_Ticks_chain s;
     _Watchdog_Seconds_chain := _Watchdog_Seconds_chain s; wd := wd s |}.
Definition set_sync_count (v : Z) (s : Watchdog_State) : Watchdog_State :=
  {| _Watchdog_Sync_level := _Watchdog_Sync_level s; _Watchdog_Sync_count := v;
     _Watchdog_Ticks_since_boot := _Watchdog_Ticks_since_boot s;
     _ISR_Nest_level := _ISR_Nest_level s; _Watchdog_Ticks_chain := _Watchdog_Ticks_chain s;
     _Watchdog_Seconds_chain := _Watchdog_Seconds_chain s; wd := wd s |}.
Definition set_wd (f : gmap Z Watchdog_Control) (s : Watchdog_State) : Watchdog_State :=
  {| _Watchdog_Sync_level := _Watchdog_Sync_level s; _Watchdog_Sync_count := _Watchdog_Sync_count s;
     _Watchdog_Ticks_since_boot := _Watchdog_Ticks_since_boot s;
     _ISR_Nest_level := _ISR_Nest_level s; _Watchdog_Ticks_chain := _Watchdog_Ticks_chain s;
     _Watchdog_Seconds_chain := _Watchdog_Seconds_chain s; wd := f |}.

Definition ctl (s : Watchdog_State) (w : Z) : Watchdog_Control := wd s !!! w.
Definition upd (w : Z) (f : Watchdog_Control -> Watchdog_Control) (s : Watchdog_State)
  : Watchdog_State := set_wd (<[w := f (ctl s w)]> (wd s)) s.

(** ** Chain traversal

    [next_on l a] is the node after [a] ([None]: the tail pseudo-node), and
    [previous_on l after] the node before [after] ([None] as a result: the head). *)
Fixpoint next_on (l : list Z) (a : Z) : option Z :=
  match l with
  | [] => None
  | x :: r => if decide (x = a) then head r else next_on r a
  end.
Fixpoint previous_on (l : list Z) (after : option Z) : option Z :=
  match l with
  | [] => None
  | x :: r => if decide (head r = after) then Some x else previous_on r after
  end.

(** The list that contains a watchdog's node. *)
Definition header_of (s : Watchdog_State) (w : Z) : wd_header :=
  if decide (w ∈ _Watchdog_Ticks_chain s) then Ticks else Seconds.

(** ** Inlined routines that do not call watchdog.c *)

Definition _Watchdog_Initialize (the_watchdog routine id user_data : Z) (s : Watchdog_State)
  : Watchdog_State :=
  upd the_watchdog (fun c =>
    {| wd_state := WATCHDOG_INACTIVE; initial := initial c; delta_interval := delta_interval c;
       start_time := start_time c; stop_time := stop_time c;
       routine := routine; wd_id := id; user_data := user_data |}) s.

Definition _Watchdog_Is_active (s : Watchdog_State) (the_watchdog : Z) : bool :=
  bool_decide (wd_state (ctl s the_watchdog) = WATCHDOG_ACTIVE).
Definition _Watchdog_Activate (the_watchdog : Z) : Watchdog_State -> Watchdog_State :=
  upd the_watchdog (set_state WATCHDOG_ACTIVE).
Definition _Watchdog_Deactivate (the_watchdog : Z) : Watchdog_State -> Watchdog_State :=
  upd the_watchdog (set_state WATCHDOG_REMOVE_IT).

(** ** watchdog.c: initialization and removal *)

Definition _Watchdog_Handler_initialization (s : Watchdog_State) : Watchdog_State :=
  {| _Watchdog_Sync_level := 0; _Watchdog_Sync_count := 0; _Watchdog_Ticks_since_boot := 0;
     _ISR_Nest_level := _ISR_Nest_level s; _Watchdog_Ticks_chain := [];
     _Watchdog_Seconds_chain := []; wd := wd s |}.

Definition _Watchdog_Remove (the_watchdog : Z) (s : Watchdog_State)
  : Watchdog_States * Watchdog_State :=
  let previous_state := wd_state (ctl s the_watchdog) in
  let s :=
    match previous_state with
    | WATCHDOG_INACTIVE => s
    | WATCHDOG_BEING_INSERTED => upd the_watchdog (set_state WATCHDOG_INACTIVE) s
    | WATCHDOG_ACTIVE | WATCHDOG_REMOVE_IT =>
        let s := upd the_watchdog (set_state WATCHDOG_INACTIVE) s in
        let h := header_of s the_watchdog in
        let s := match next_on (chain_of h s) the_watchdog with
                 | Some next_watchdog =>
                     upd next_watchdog (fun c =>
                       set_delta (delta_interval c +w delta_interval (ctl s the_watchdog)) c) s
                 | None => s
                 end in
        let s := if negb (_Watchdog_Sync_count s =? 0)
                 then set_sync_level (_ISR_Nest_level s) s else s in
        set_chain h (ListChain.extract (chain_of h s) the_watchdog) s
    end in
  (previous_state, upd the_watchdog (set_stop_time (_Watchdog_Ticks_since_boot s)) s).

(** ** States that contain a watchdog state *)

Class HasWatchdog (S : Type) : Type := {
  wd_get : S -> Watchdog_State;
  wd_put : Watchdog_State -> S -> S;
  wd_get_put : forall w s, wd_get (wd_put w s) = w;
  wd_put_put : forall w w' s, wd_put w (wd_put w' s) = wd_put w s;
  wd_put_get : forall s, wd_put (wd_get s) s = s
}.

#[export] Instance HasWatchdog_self : HasWatchdog Watchdog_State := {|
  wd_get := fun s => s; wd_put := fun w _ => w;
  wd_get_put := fun _ _ => eq_refl; wd_put_put := fun _ _ _ => eq_refl; wd_put_get := fun _ => eq_refl
|}.

Definition wd_mod {S} `{HasWatchdog S} (f : Watchdog_State -> Watchdog_State) (s : S) : S :=
  wd_put (f (wd_get s)) s.

(** ** watchdog.c: insertion, tickling and adjustment *)

Section Operations.
Context {S : Type} `{HasWatchdog S}.

(** The end of [_Watchdog_Insert]: the watchdog becomes active in front of
    [after] ([None]: the tail pseudo-node). *)
Definition insert_before (h : wd_header) (the_watchdog : Z) (after : option Z) (delta : Z)
    (s : Watchdog_State) : Watchdog_State :=
  let s := _Watchdog_Activate the_watchdog s in
  let s := upd the_watchdog (set_delta delta) s in
  let l := chain_of h s in
  let s := set_chain h (ListChain.insert_after l (previous_on l after) the_watchdog) s in
  upd the_watchdog (set_start_time (_Watchdog_Ticks_since_boot s)) s.

(** [exit_insert:] *)
Definition exit_insert (insert_isr_nest_level : Z) (s : Watchdog_State) : Watchdog_State :=
  let s := set_sync_level insert_isr_nest_level s in
  set_sync_count (_Watchdog_Sync_count s -w 1) s.

(** The search loop.  [isr] stands for the interrupts serviced while interrupts
    are enabled: at the flash point, and between [_ISR_Enable] and
    [_ISR_Disable] on the way through [restart]. *)
Fixpoint insert_loop (fuel : nat) (isr : S -> S) (h : wd_header) (the_watchdog nest : Z)
    (after : option Z) (delta : Z) (s : S) : option S :=
  match fuel with
  | O => None
  | Datatypes.S fuel =>
      match after with
      | None => Some (wd_mod (exit_insert nest ∘ insert_before h the_watchdog None delta) s)
      | Some a =>
          let da := delta_interval (ctl (wd_get s) a) in
          if delta =? 0 then
            Some (wd_mod (exit_insert nest ∘ insert_before h the_watchdog after delta) s)
          else if delta <? da then
            Some (wd_mod (exit_insert nest ∘ insert_before h the_watchdog after delta
                          ∘ upd a (set_delta (da -w delta))) s)
          else
            let delta := delta -w da in
            let s := isr s in
            let ws := wd_get s in
            if negb (bool_decide (wd_state (ctl ws the_watchdog) = WATCHDOG_BEING_INSERTED))
            then Some (wd_mod (exit_insert nest) s)
            else if nest <? _Watchdog_Sync_level ws then
              let s := isr (wd_mod (set_sync_level nest) s) in
              let ws := wd_get s in
              insert_loop fuel isr h the_watchdog nest (head (chain_of h ws))
                (initial (ctl ws the_watchdog)) s
            else insert_loop fuel isr h the_watchdog nest (next_on (chain_of h ws) a) delta s
      end
  end.

Definition _Watchdog_Insert (fuel : nat) (isr : S -> S) (h : wd_header) (the_watchdog : Z) (s : S)
  : option S :=
  let insert_isr_nest_level := _ISR_Nest_level (wd_get s) in
  let s := wd_mod (upd the_watchdog (set_state WATCHDOG_BEING_INSERTED)) s in
  let s := wd_mod (fun ws => set_sync_count (_Watchdog_Sync_count ws +w 1) ws) s in
  let s := isr s in
  let ws := wd_get s in
  insert_loop fuel isr h the_watchdog insert_isr_nest_level (head (chain_of h ws))
    (initial (ctl ws the_watchdog)) s.

(** [run routine id user_data] calls a service routine. *)
Context (run : Z -> Z -> Z -> S -> S).

Definition fire (the_watchdog : Z) (s : S) : S :=
  let '(previous_state, ws) := _Watchdog_Remove the_watchdog (wd_get s) in
  let s := wd_put ws s in
  match previous_state with
  | WATCHDOG_ACTIVE =>
      let c := ctl ws the_watchdog in run (routine c) (wd_id c) (user_data c) s
  | WATCHDOG_INACTIVE | WATCHDOG_BEING_INSERTED | WATCHDOG_REMOVE_IT => s
  end.

(** The do-while loop of [_Watchdog_Tickle]. *)
Fixpoint tickle_loop (fuel : nat) (h : wd_header) (the_watchdog : Z) (s : S) : option S :=
  match fuel with
  | O => None
  | Datatypes.S fuel =>
      let s := fire the_watchdog s in
      match chain_of h (wd_get s) with
      | [] => Some s
      | next_watchdog :: _ =>
          if delta_interval (ctl (wd_get s) next_watchdog) =? 0
          then tickle_loop fuel h next_watchdog s else Some s
      end
  end.

Definition _Watchdog_Tickle (fuel : nat) (h : wd_header) (s : S) : option S :=
  match chain_of h (wd_get s) with
  | [] => Some s
  | the_watchdog :: _ =>
      let s := wd_mod (upd the_watchdog (fun c => set_delta (delta_interval c -w 1) c)) s in
      if negb (delta_interval (ctl (wd_get s) the_watchdog) =? 0) then Some s
      else tickle_loop fuel h the_watchdog s
  end.

(** The [WATCHDOG_FORWARD] loop of [_Watchdog_Adjust]. *)
Fixpoint adjust_forward (fuel : nat) (h : wd_header) (units : Z) (s : S) : option S :=
  match fuel with
  | O => None
  | Datatypes.S fuel =>
      if units =? 0 then Some s
      else
        match chain_of h (wd_get s) with
        | [] => Some s
        | first :: _ =>
            let d := delta_interval (ctl (wd_get s) first) in
            if units <? d then Some (wd_mod (upd first (set_delta (d -w units))) s)
            else
              let s := wd_mod (upd first (set_delta 1)) s in
              match _Watchdog_Tickle fuel h s with
              | None => None
              | Some s => adjust_forward fuel h (units -w d) s
              end
        end
  end.

Definition _Watchdog_Adjust (fuel : nat) (h : wd_header) (direction : Watchdog_Adjust_directions)
    (units : Z) (s : S) : option S :=
  match chain_of h (wd_get s) with
  | [] => Some s
  | first :: _ =>
      match direction with
      | WATCHDOG_BACKWARD =>
          Some (wd_mod (upd first (fun c => set_delta (delta_interval c +w units) c)) s)
      | WATCHDOG_FORWARD => adjust_forward fuel h units s
      end
  end.

(** *** The inlined routines of watchdog.inl that use them *)

Definition _Watchdog_Tickle_ticks (fuel : nat) : S -> option S := _Watchdog_Tickle fuel Ticks.
Definition _Watchdog_Tickle_seconds (fuel : nat) : S -> option S := _Watchdog_Tickle fuel Seconds.
Definition _Watchdog_Adjust_ticks (fuel : nat) := _Watchdog_Adjust fuel Ticks.
Definition _Watchdog_Adjust_seconds (fuel : nat) := _Watchdog_Adjust fuel Seconds.
End Operations.

Section InlinedInsert.
Context {S : Type} `{HasWatchdog S}.
Context (fuel : nat) (isr : S -> S) (the_watchdog : Z).

Definition _Watchdog_Insert_ticks (units : Z) (s : S) : option S :=
  _Watchdog_Insert fuel isr Ticks the_watchdog (wd_mod (upd the_watchdog (set_initial units)) s).
Definition _Watchdog_Insert_seconds (units : Z) (s : S) : option S :=
  _Watchdog_Insert fuel isr Seconds the_watchdog (wd_mod (upd the_watchdog (set_initial units)) s).
Definition _Watchdog_Reset (s : S) : option S :=
  _Watchdog_Insert fuel isr Ticks the_watchdog (wd_mod (fun ws => snd (_Watchdog_Remove the_watchdog ws)) s).
End InlinedInsert.
