(* ===== verification/WatchdogProofs.v ===== *)
(** * Correctness of the Watchdog Handler

    A delta chain stands for the list of its watchdogs with the number of ticks
    each has left ([expiries]).  Insertion puts a watchdog at its time without
    changing anybody else's, removal takes one out without changing anybody
    else's, a tick takes one off everybody's and fires those that reach zero, and
    a forward adjustment is that many ticks at once. *)
From S2P Require Import Prelude Chain Watchdog.

(** ** Access lemmas *)

Lemma ctl_upd_eq w f s : ctl (upd w f s) w = f (ctl s w).
Proof. unfold ctl, upd. simpl. by rewrite lookup_total_insert_eq. Qed.
Lemma ctl_upd_ne w w' f s : w <> w' -> ctl (upd w f s) w' = ctl s w'.
Proof. intros. unfold ctl, upd. simpl. by rewrite lookup_total_insert_ne. Qed.
Lemma chain_of_upd h w f s : chain_of h (upd w f s) = chain_of h s.
Proof. by destruct h. Qed.
Lemma chain_of_set_chain h l s : chain_of h (set_chain h l s) = l.
Proof. by destruct h. Qed.
Lemma chain_of_set_chain_ne h h' l s : h <> h' -> chain_of h' (set_chain h l s) = chain_of h' s.
Proof. by destruct h, h'. Qed.
Lemma ctl_set_chain h l s w : ctl (set_chain h l s) w = ctl s w.
Proof. by destruct h. Qed.

#[export] Hint Rewrite ctl_upd_eq chain_of_upd chain_of_set_chain ctl_set_chain : wd.
#[export] Hint Rewrite @wd_get_put @wd_put_put @wd_put_get : wd.

(** [wd_simpl] evaluates field accesses after updates. *)
Ltac wd_simpl :=
  repeat first [ progress (autorewrite with wd)
               | rewrite ctl_upd_ne by (done || congruence)
               | rewrite chain_of_set_chain_ne by (done || congruence) ].

(** ** Delta chains as expiry times *)

Definition dl (s : Watchdog_State) (w : Z) : Z := delta_interval (ctl s w).

Fixpoint sum (f : Z -> Z) (l : list Z) : Z :=
  match l with [] => 0 | w :: l => f w + sum f l end.

Fixpoint remaining (f : Z -> Z) (acc : Z) (l : list Z) : list (Z * Z) :=
  match l with
  | [] => []
  | w :: l => (w, acc + f w) :: remaining f (acc + f w) l
  end.

Definition expiries (h : wd_header) (s : Watchdog_State) : list (Z * Z) :=
  remaining (dl s) 0 (chain_of h s).

Lemma sum_app f l1 l2 : sum f (l1 ++ l2) = sum f l1 + sum f l2.
Proof. induction l1 as [|w l1 IH]; simpl; lia. Qed.

Lemma sum_nonneg f l : Forall (fun w => 0 <= f w) l -> 0 <= sum f l.
Proof. induction 1; simpl; lia. Qed.

Lemma sum_ext f g l : (forall w, w ∈ l -> f w = g w) -> sum f l = sum g l.
Proof.
  induction l as [|w l IH]; intros E; [done|]. simpl. rewrite E, IH by set_solver. done.
Qed.

Lemma remaining_app f acc l1 l2 :
  remaining f acc (l1 ++ l2) = remaining f acc l1 ++ remaining f (acc + sum f l1) l2.
Proof.
  revert acc. induction l1 as [|w l1 IH]; intros acc; simpl; [by rewrite Z.add_0_r|].
  by rewrite IH, Z.add_assoc.
Qed.

Lemma remaining_ext f g acc l : (forall w, w ∈ l -> f w = g w) -> remaining f acc l = remaining g acc l.
Proof.
  revert acc. induction l as [|w l IH]; intros acc E; [done|]. simpl.
  rewrite (E w) by set_solver. rewrite (IH (acc + g w)); [done|set_solver].
Qed.

Lemma remaining_shift f acc k l :
  remaining f (acc + k) l = map (fun p => (p.1, p.2 + k)) (remaining f acc l).
Proof.
  revert acc. induction l as [|w l IH]; intros acc; [done|]. simpl.
  replace (acc + k + f w) with (acc + f w + k) by lia. by rewrite IH.
Qed.

(** Moving [k] units between the head of a list and the time it starts from. *)
Lemma remaining_head f g acc k w l :
  g w = f w - k -> (forall x, x ∈ l -> g x = f x) ->
  remaining g (acc + k) (w :: l) = remaining f acc (w :: l).
Proof.
  intros Ew El. simpl. rewrite Ew. replace (acc + k + (f w - k)) with (acc + f w) by lia.
  f_equal. by apply remaining_ext.
Qed.

Lemma remaining_ge f acc l :
  Forall (fun w => 0 <= f w) l -> Forall (fun p => acc <= p.2) (remaining f acc l).
Proof.
  intros H. revert acc. induction H as [|w l Hw _ IH]; intros acc; simpl; constructor.
  - simpl. lia.
  - eapply Forall_impl; [apply IH|]. simpl. intros. lia.
Qed.

Lemma remaining_le f acc l :
  Forall (fun w => 0 <= f w) l -> Forall (fun p => p.2 <= acc + sum f l) (remaining f acc l).
Proof.
  intros H. revert acc. induction H as [|w l Hw Hl IH]; intros acc; simpl; constructor.
  - simpl. pose proof (sum_nonneg _ _ Hl). lia.
  - rewrite Z.add_assoc. apply IH.
Qed.

Lemma remaining_fst f acc l : (remaining f acc l).*1 = l.
Proof. revert acc. induction l as [|w l IH]; intros acc; [done|]. simpl. by f_equal. Qed.

(** ** The invariant of the handler *)

Definition on_chain (st : Watchdog_States) : Prop := st = WATCHDOG_ACTIVE \/ st = WATCHDOG_REMOVE_IT.

Record wd_ok (s : Watchdog_State) : Prop := {
  ok_nodup : NoDup (_Watchdog_Ticks_chain s ++ _Watchdog_Seconds_chain s);
  ok_on : forall w, w ∈ _Watchdog_Ticks_chain s ++ _Watchdog_Seconds_chain s <->
                    on_chain (wd_state (ctl s w));
  ok_delta : forall h, Forall (fun w => 0 <= dl s w) (chain_of h s);
  ok_sum : forall h, sum (dl s) (chain_of h s) < two32
}.

Lemma ok_chain_nodup s h : wd_ok s -> NoDup (chain_of h s).
Proof. intros [H _ _ _]. apply NoDup_app in H as (? & _ & ?). by destruct h. Qed.

Lemma ok_member s h w : wd_ok s -> w ∈ chain_of h s -> on_chain (wd_state (ctl s w)).
Proof. intros HS Hw. apply HS. destruct h; set_solver. Qed.

Lemma ok_other s h h' w : wd_ok s -> w ∈ chain_of h s -> h <> h' -> w ∉ chain_of h' s.
Proof.
  intros [H _ _ _]. apply NoDup_app in H as (_ & H & _). destruct h, h'; try done; set_solver.
Qed.

(** What an operation on one chain must re-establish: the other chain and its
    deltas are untouched. *)
Lemma wd_ok_intro s s' h h' :
  wd_ok s -> h <> h' ->
  chain_of h' s' = chain_of h' s -> (forall x, x ∈ chain_of h' s -> dl s' x = dl s x) ->
  NoDup (chain_of h s') -> (forall x, x ∈ chain_of h s' -> x ∉ chain_of h' s) ->
  (forall x, x ∈ chain_of h s' \/ x ∈ chain_of h' s <-> on_chain (wd_state (ctl s' x))) ->
  Forall (fun x => 0 <= dl s' x) (chain_of h s') -> sum (dl s') (chain_of h s') < two32 ->
  wd_ok s'.
Proof.
  intros HS Hh E1 E2 HN HD HO HF HM.
  assert (Forall (fun x => 0 <= dl s' x) (chain_of h' s')) as HF'.
  { rewrite E1. pose proof (ok_delta _ HS h') as HF0. rewrite Forall_forall in *.
    intros x Hx. rewrite E2 by done. by apply HF0. }
  assert (sum (dl s') (chain_of h' s') < two32) as HM'.
  { rewrite E1, (sum_ext _ _ _ E2). apply HS. }
  pose proof (ok_chain_nodup _ h' HS) as HN'. rewrite <- E1 in HN', HD, HO.
  destruct h, h'; try done; simpl in *;
    (split; [apply NoDup_app; split_and!; try done; set_solver|
             intros x; rewrite elem_of_app, <- HO; tauto|by intros []|by intros []]).
Qed.

(** ** Removal *)

Lemma next_on_middle l1 a l2 : a ∉ l1 -> next_on (l1 ++ a :: l2) a = head l2.
Proof.
  induction l1 as [|x l1 IH]; intros Ha; simpl; [by rewrite decide_True|].
  apply not_elem_of_cons in Ha as []. rewrite decide_False by congruence. by apply IH.
Qed.

Lemma header_of_chain s h w : wd_ok s -> w ∈ chain_of h s -> header_of s w = h.
Proof.
  intros HS Hw. unfold header_of. case_decide as E.
  - destruct h; [done|]. exfalso. by apply (ok_other s Ticks Seconds w HS).
  - by destruct h.
Qed.

(** Everything but the time left and the chain position of the others. *)
Definition same_but_delta (c c' : Watchdog_Control) : Prop :=
  c' = set_delta (delta_interval c') c.

Lemma same_but_delta_refl c : same_but_delta c c.
Proof. by destruct c. Qed.
#[export] Hint Resolve same_but_delta_refl : wd.

Section Removal.
Context (s : Watchdog_State) (HS : wd_ok s) (h : wd_header) (l1 : list Z) (w : Z) (l2 : list Z).
Context (El : chain_of h s = l1 ++ w :: l2).
Abbreviation s' := (snd (_Watchdog_Remove w s)).

Lemma remove_nodup : NoDup (l1 ++ w :: l2).
Proof. rewrite <- El. by apply ok_chain_nodup. Qed.

Lemma remove_unfold :
  _Watchdog_Remove w s =
    (wd_state (ctl s w),
     let s0 := upd w (set_state WATCHDOG_INACTIVE) s in
     let s1 := match head l2 with
               | Some n => upd n (fun c => set_delta (delta_interval c +w dl s w) c) s0
               | None => s0 end in
     let s2 := if negb (_Watchdog_Sync_count s =? 0) then set_sync_level (_ISR_Nest_level s) s1 else s1 in
     upd w (set_stop_time (_Watchdog_Ticks_since_boot s)) (set_chain h (l1 ++ l2) s2)).
Proof.
  pose proof remove_nodup as HN. apply NoDup_app in HN as (HN1 & HN2 & HN3).
  apply NoDup_cons in HN3 as [HN3 HN4].
  assert (w ∉ l1) as Hw1 by set_solver.
  assert (on_chain (wd_state (ctl s w))) as HO.
  { apply (ok_member s h); [done|]. rewrite El. set_solver. }
  assert (header_of (upd w (set_state WATCHDOG_INACTIVE) s) w = h) as EH.
  { change (header_of s w = h). apply header_of_chain; [done|]. rewrite El. set_solver. }
  unfold _Watchdog_Remove.
  replace (dl s w) with (delta_interval (ctl (upd w (set_state WATCHDOG_INACTIVE) s) w))
    by (rewrite ctl_upd_eq; done).
  destruct HO as [-> | ->]; rewrite EH, chain_of_upd, El, next_on_middle by done;
    (destruct (head l2); simpl negb; case_match; rewrite ?chain_of_upd;
     (replace (chain_of h _) with (l1 ++ w :: l2) by (rewrite <- El; by destruct h));
     rewrite ListChain.extract_middle by done; by destruct h).
Qed.

Lemma remove_chain : chain_of h s' = l1 ++ l2.
Proof. rewrite remove_unfold. simpl. by wd_simpl. Qed.

Lemma remove_chain_ne h' : h <> h' -> chain_of h' s' = chain_of h' s.
Proof.
  intros Hh. rewrite remove_unfold. simpl. wd_simpl.
  repeat case_match; destruct h'; done.
Qed.

Lemma remove_ctl_self :
  ctl s' w = set_stop_time (_Watchdog_Ticks_since_boot s) (set_state WATCHDOG_INACTIVE (ctl s w)).
Proof.
  pose proof remove_nodup as HN. apply NoDup_app in HN as (_ & _ & HN).
  rewrite remove_unfold. simpl. wd_simpl. f_equal.
  assert (forall n, head l2 = Some n -> n <> w) as Hn.
  { intros n En ->. destruct l2; simpl in En; [done|]. injection En as ->.
    apply NoDup_cons in HN. set_solver. }
  destruct (head l2) as [n|] eqn:En; case_match; unfold ctl; simpl;
    try (rewrite lookup_total_insert_ne by (by apply Hn)); by rewrite lookup_total_insert_eq.
Qed.

Lemma remove_ctl x : x <> w ->
  ctl s' x = if decide (head l2 = Some x)
             then set_delta (dl s x +w dl s w) (ctl s x) else ctl s x.
Proof.
  intros Hx. rewrite remove_unfold. simpl. rewrite ctl_upd_ne by done. wd_simpl.
  destruct (head l2) as [n|]; [destruct (decide (n = x)) as [-> |]|];
    destruct (_Watchdog_Sync_count s =? 0); unfold ctl, dl; simpl;
    rewrite ?lookup_total_insert_eq, ?lookup_total_insert_ne by done; try case_decide;
    simplify_eq; by rewrite ?ctl_upd_ne by done.
Qed.

Lemma remove_delta : forall x, x ∈ l1 ++ l2 ->
  dl s' x = if decide (head l2 = Some x) then dl s x + dl s w else dl s x.
Proof.
  intros x Hx. pose proof remove_nodup as HN.
  assert (x <> w) by (intros ->; apply NoDup_app_3 in HN as [_ HN]; set_solver).
  unfold dl at 1. rewrite remove_ctl by done. case_decide as E; [|done]. simpl.
  pose proof (ok_delta s HS h) as HF. pose proof (ok_sum s HS h) as HM. rewrite El in HF, HM.
  destruct l2 as [|y l2']; simpl in E; [done|]. injection E as ->.
  rewrite sum_app in HM. simpl in HM. apply Forall_app in HF as [HF1 HF2].
  apply Forall_cons in HF2 as [? HF2]. apply Forall_cons in HF2 as [? HF2].
  pose proof (sum_nonneg _ _ HF1). pose proof (sum_nonneg _ _ HF2).
  apply wrap32_small. unfold u32. lia.
Qed.

Lemma remove_remaining acc :
  remaining (dl s') acc (l1 ++ l2) =
  remaining (dl s) acc l1 ++ remaining (dl s) (acc + sum (dl s) l1 + dl s w) l2.
Proof.
  pose proof remove_nodup as HN. apply NoDup_app in HN as (_ & HN1 & HN2).
  pose proof remove_delta as HD.
  assert (forall x, x ∈ l1 -> dl s' x = dl s x) as E1.
  { intros x Hx. rewrite HD by set_solver. rewrite decide_False; [done|].
    intros E. destruct l2; [done|]. simpl in E. injection E as ->. set_solver. }
  rewrite remaining_app. f_equal; [by apply remaining_ext|].
  rewrite (sum_ext _ _ _ E1). destruct l2 as [|y l2']; [done|].
  symmetry. apply (remaining_head (dl s')).
  - rewrite HD by set_solver. simpl. rewrite decide_True by done. lia.
  - intros x Hx. rewrite HD by set_solver. rewrite decide_False; [done|].
    simpl. intros [= ->]. apply NoDup_cons in HN2 as [_ HN2]. apply NoDup_cons in HN2. set_solver.
Qed.

Lemma remove_sum : sum (dl s') (l1 ++ l2) <= sum (dl s) (l1 ++ w :: l2).
Proof.
  pose proof remove_nodup as HN. apply NoDup_app in HN as (_ & HN1 & HN2).
  pose proof remove_delta as HD. pose proof (ok_delta s HS h) as HF. rewrite El, Forall_app in HF.
  destruct HF as [_ HF]. apply Forall_cons in HF as [Hw _].
  assert (forall x, x ∈ l1 -> dl s' x = dl s x) as E1.
  { intros x Hx. rewrite HD by set_solver. rewrite decide_False; [done|].
    intros E. destruct l2; [done|]. simpl in E. injection E as ->. set_solver. }
  rewrite !sum_app, (sum_ext _ _ _ E1). destruct l2 as [|y l2']; simpl; [lia|].
  rewrite (sum_ext _ (dl s) l2').
  - rewrite HD by set_solver. simpl. rewrite decide_True by done. lia.
  - intros x Hx. rewrite HD by set_solver. rewrite decide_False; [done|].
    simpl. intros [= ->]. apply NoDup_cons in HN2 as [_ HN2]. apply NoDup_cons in HN2. set_solver.
Qed.
End Removal.

Definition other (h : wd_header) : wd_header := match h with Ticks => Seconds | Seconds => Ticks end.
Lemma other_ne h : h <> other h.
Proof. by destruct h. Qed.

Lemma remove_ok_on s h l1 w l2 :
  wd_ok s -> chain_of h s = l1 ++ w :: l2 -> wd_ok (snd (_Watchdog_Remove w s)).
Proof.
  intros HS El. pose proof (remove_nodup s HS h l1 w l2 El) as HN.
  pose proof (remove_delta s HS h l1 w l2 El) as HD.
  pose proof (ok_delta s HS h) as HF. pose proof (ok_sum s HS h) as HM. rewrite El in HF, HM.
  apply Forall_app in HF as [HF1 HF2]. apply Forall_cons in HF2 as [Hw HF2].
  assert (Hout : forall x, x ∈ l1 ++ w :: l2 -> x ∉ chain_of (other h) s).
  { intros x Hx. apply (ok_other s h); [done| |apply other_ne]. by rewrite El. }
  assert (head l2 <> Some w /\ w ∉ l1 ++ l2) as [Hhd Hwl].
  { apply NoDup_app_3 in HN as [_ HN]. split; [|done]. destruct l2; [done|]. intros [= ->]. set_solver. }
  apply (wd_ok_intro s _ h (other h) HS (other_ne h)); rewrite ?(remove_chain s HS h l1 w l2 El).
  - apply (remove_chain_ne s HS h l1 w l2 El), other_ne.
  - intros x Hx. assert (x <> w) by (intros ->; apply (Hout w); set_solver).
    unfold dl. rewrite (remove_ctl s HS h l1 w l2 El) by done. rewrite decide_False; [done|].
    intros E. destruct l2; [done|]. injection E as ->. apply (Hout x); set_solver.
  - by apply NoDup_app_3 in HN as [? _].
  - set_solver.
  - intros x. destruct (decide (x = w)) as [-> |Hx].
    + rewrite (remove_ctl_self s HS h l1 w l2 El). unfold on_chain. simpl.
      split; [|intros [? | ?]; done]. intros [?|?]; [done|]. exfalso. apply (Hout w); set_solver.
    + rewrite (remove_ctl s HS h l1 w l2 El) by done.
      replace (wd_state _) with (wd_state (ctl s x)) by by case_decide.
      rewrite <- (ok_on s HS x). destruct h; simpl in *; rewrite El; set_solver.
  - rewrite Forall_forall in *. intros x Hx. rewrite HD by done.
    assert (0 <= dl s x) by (apply elem_of_app in Hx as []; auto). case_decide; lia.
  - pose proof (remove_sum s HS h l1 w l2 El). lia.
Qed.
