(* ===== verification/WatchdogOps.v ===== *)
(** * Insertion, tickling and adjustment of delta chains *)
From S2P Require Import Prelude Chain Watchdog WatchdogProofs.

(** ** Where a watchdog is put *)

Lemma previous_on_none l x : x ∉ tail l -> previous_on l (Some x) = None.
Proof.
  induction l as [|y l IH]; intros Hx; [done|]. simpl in *. rewrite decide_False.
  - apply IH. destruct l; [done|]. set_solver.
  - destruct l; [done|]. intros [= ->]. set_solver.
Qed.

Lemma previous_on_split la lb : NoDup (la ++ lb) -> previous_on (la ++ lb) (head lb) = last la.
Proof.
  induction la as [|y la IH]; intros HN.
  - simpl. destruct lb as [|x lb]; [done|]. simpl in HN. apply NoDup_cons in HN as [HN _].
    by apply previous_on_none.
  - simpl in HN. apply NoDup_cons in HN as [_ HN]. simpl. destruct la as [|z la].
    + simpl. by rewrite decide_True.
    + rewrite decide_False; [by apply IH|]. simpl. intros E. destruct lb as [|x lb]; [done|].
      injection E as ->. simpl in HN. apply NoDup_cons in HN. set_solver.
Qed.

Lemma insert_after_split la lb w :
  NoDup (la ++ lb) ->
  ListChain.insert_after (la ++ lb) (previous_on (la ++ lb) (head lb)) w = la ++ w :: lb.
Proof.
  intros HN. rewrite previous_on_split by done. destruct la as [|a la _] using rev_ind; [done|].
  rewrite last_snoc. simpl. rewrite <- !app_assoc in *. simpl in *.
  apply NoDup_app_3 in HN as [_ HN]. rewrite ListChain.insert_node_middle by set_solver. done.
Qed.

(** ** The search, when no interrupt interferes *)

Section Insertion.
Context {S : Type} `{HasWatchdog S}.
Context (h : wd_header) (w : Z) (ws : Watchdog_State) (n nest : Z).
Abbreviation l := (chain_of h ws).
Context (HN : NoDup l) (Hw : w ∉ l).
Context (HF : Forall (fun x => 0 <= dl ws x) l) (HM : sum (dl ws) l < two32).
Context (Hn : 0 <= n < two32).
Context (Hst : wd_state (ctl ws w) = WATCHDOG_BEING_INSERTED).

(** The state in which the search stops in front of the rest [lb] of the chain. *)
Definition inserted (la lb : list Z) : Watchdog_State :=
  let delta := n - sum (dl ws) la in
  let ws0 := match lb with
             | a :: _ => if (delta =? 0) then ws else upd a (set_delta (dl ws a -w delta)) ws
             | [] => ws
             end in
  exit_insert nest (insert_before h w (head lb) delta ws0).

(** The right place: everything in front expires no later, everything behind no
    earlier. *)
Definition place (la lb : list Z) : Prop :=
  l = la ++ lb /\ sum (dl ws) la <= n /\
  (forall a lb', lb = a :: lb' -> sum (dl ws) la = n \/ n < sum (dl ws) la + dl ws a).

Lemma insert_search fuel s la lb :
  wd_get s = ws -> _Watchdog_Sync_level ws <= nest -> l = la ++ lb -> sum (dl ws) la <= n ->
  (length lb < fuel)%nat ->
  exists la' lb', place la' lb' /\
    insert_loop fuel id h w nest (head lb) (n - sum (dl ws) la) s =
      Some (wd_put (inserted la' lb') s).
Proof.
  intros Es Hlev. revert la lb. induction fuel as [|fuel IH]; intros la lb El Hle Hf; [lia|].
  destruct lb as [|a lb]; cbn [insert_loop].
  - exists la, []. split; [by split_and!|]. unfold wd_mod, inserted. simpl. by rewrite Es.
  - change (head (a :: lb)) with (Some a). cbv iota. rewrite Es. fold (dl ws a).
    assert (0 <= dl ws a /\ 0 <= sum (dl ws) la) as [Ha Hs].
    { rewrite El in HF. apply Forall_app in HF as [HF1 HF2]. apply Forall_cons in HF2 as [? _].
      split; [done|]. by apply sum_nonneg. }
    destruct (Z.eqb_spec (n - sum (dl ws) la) 0) as [E0|E0].
    { exists la, (a :: lb). split; [split_and!; [done..|intros; left; lia]|].
      unfold wd_mod, inserted. rewrite Es.
      replace (n - sum (dl ws) la =? 0) with true by (symmetry; apply Z.eqb_eq; lia). done. }
    destruct (Z.ltb_spec (n - sum (dl ws) la) (dl ws a)) as [Hlt|Hge].
    { exists la, (a :: lb). split; [split_and!; [done..|intros ? ? [= -> ->]; right; lia]|].
      unfold wd_mod, inserted. rewrite Es.
      replace (n - sum (dl ws) la =? 0) with false by (symmetry; apply Z.eqb_neq; lia). done. }
    change (id s) with s. rewrite Es, Hst, bool_decide_eq_true_2 by done. simpl negb. cbv iota.
    replace (nest <? _Watchdog_Sync_level ws) with false by (symmetry; apply Z.ltb_ge; lia).
    rewrite El, next_on_middle
      by (rewrite El in HN; apply NoDup_app_3 in HN as [_ HN]; set_solver).
    rewrite wrap32_small by (unfold u32; lia).
    destruct (IH (la ++ [a]) lb) as (la' & lb' & HP & HL).
    + by rewrite El, <- app_assoc.
    + rewrite sum_app. simpl. lia.
    + simpl in Hf. lia.
    + exists la', lb'. split; [done|]. rewrite <- HL, sum_app. simpl.
      replace (n - (sum (dl ws) la + (dl ws a + 0))) with (n - sum (dl ws) la - dl ws a) by lia.
      done.
Qed.

Section Inserted.
Context (la lb : list Z) (HP : place la lb).

Lemma inserted_chain : chain_of h (inserted la lb) = la ++ w :: lb.
Proof.
  unfold inserted, exit_insert, insert_before, _Watchdog_Activate. destruct HP as (E & _ & _).
  set (ws0 := match lb with [] => _ | _ :: _ => _ end).
  assert (chain_of h ws0 = la ++ lb) as E0.
  { subst ws0. rewrite <- E. destruct lb; [done|]. case_match; by rewrite ?chain_of_upd. }
  assert (forall s, chain_of h (exit_insert nest s) = chain_of h s) as EX by by destruct h.
  unfold exit_insert in EX. rewrite EX. wd_simpl. rewrite E0. apply insert_after_split.
  by rewrite <- E.
Qed.

Lemma inserted_chain_ne h' : h <> h' -> chain_of h' (inserted la lb) = chain_of h' ws.
Proof.
  intros Hh. unfold inserted, insert_before, _Watchdog_Activate.
  assert (forall s, chain_of h' (exit_insert nest s) = chain_of h' s) as EX by by destruct h'.
  rewrite EX. wd_simpl. destruct lb; [done|]. case_match; by rewrite ?chain_of_upd.
Qed.

Lemma inserted_ctl x : x <> w ->
  ctl (inserted la lb) x =
    if decide (head lb = Some x)
    then set_delta (dl ws x - (n - sum (dl ws) la)) (ctl ws x) else ctl ws x.
Proof.
  intros Hx. destruct HP as (E & Hle & Hgt).
  assert (forall s, ctl (exit_insert nest s) x = ctl s x) as EX by done.
  unfold inserted, insert_before, _Watchdog_Activate. rewrite EX. wd_simpl.
  destruct lb as [|a lb']; [done|]. simpl. specialize (Hgt a lb' eq_refl).
  assert (0 <= dl ws a /\ dl ws a < two32) as Ha.
  { pose proof HF as HF'. pose proof HM as HM'. rewrite E in HF', HM'. rewrite sum_app in HM'.
    apply Forall_app in HF' as [H1 H2]. apply Forall_cons in H2 as [? H2]. simpl in HM'.
    pose proof (sum_nonneg _ _ H1). pose proof (sum_nonneg _ _ H2). lia. }
  destruct (Z.eqb_spec (n - sum (dl ws) la) 0) as [E0|E0].
  - case_decide; [|done]. rewrite E0, Z.sub_0_r. unfold dl. by destruct (ctl ws x).
  - rewrite wrap32_small by (unfold u32; lia). case_decide as Ex; simplify_eq.
    + by rewrite ctl_upd_eq.
    + by rewrite ctl_upd_ne by congruence.
Qed.

Lemma inserted_ctl_self :
  ctl (inserted la lb) w =
    set_start_time (_Watchdog_Ticks_since_boot ws)
      (set_delta (n - sum (dl ws) la) (set_state WATCHDOG_ACTIVE (ctl ws w))).
Proof.
  destruct HP as (E & Hle & Hgt).
  assert (forall s, ctl (exit_insert nest s) w = ctl s w) as EX by done.
  unfold inserted, insert_before, _Watchdog_Activate. rewrite EX. wd_simpl.
  set (ws0 := match lb with [] => _ | _ :: _ => _ end).
  assert (ctl ws0 w = ctl ws w /\ _Watchdog_Ticks_since_boot ws0 = _Watchdog_Ticks_since_boot ws)
    as [-> <-].
  { subst ws0. destruct lb as [|a lb']; [done|]. case_match; [done|]. split; [|done].
    apply ctl_upd_ne. intros ->. rewrite E in Hw. set_solver. }
  f_equal. by destruct h.
Qed.

Lemma inserted_dl x : x ∈ la ++ lb ->
  dl (inserted la lb) x = if decide (head lb = Some x) then dl ws x - (n - sum (dl ws) la) else dl ws x.
Proof.
  intros Hx. destruct HP as (E & _ & _). unfold dl at 1. rewrite inserted_ctl.
  - by case_decide.
  - intros ->. rewrite E in Hw. done.
Qed.

Lemma inserted_dl_front x : x ∈ la -> dl (inserted la lb) x = dl ws x.
Proof.
  intros Hx. rewrite inserted_dl by set_solver. rewrite decide_False; [done|].
  intros Eh. destruct HP as (E & _ & _). destruct lb as [|a lb']; [done|]. injection Eh as ->.
  rewrite E in HN. apply NoDup_app_3 in HN. set_solver.
Qed.

Lemma inserted_remaining :
  remaining (dl (inserted la lb)) 0 (la ++ w :: lb) =
    remaining (dl ws) 0 la ++ (w, n) :: remaining (dl ws) (sum (dl ws) la) lb.
Proof.
  pose proof HP as (E & _ & _).
  rewrite remaining_app. f_equal; [apply remaining_ext; apply inserted_dl_front|].
  rewrite (sum_ext _ _ _ inserted_dl_front). simpl.
  assert (dl (inserted la lb) w = n - sum (dl ws) la) as -> by by unfold dl at 1; rewrite inserted_ctl_self.
  rewrite Z.add_0_l. f_equal; [f_equal; lia|].
  pose proof inserted_dl as HD. destruct lb as [|a lb']; [done|].
  apply remaining_head.
  - rewrite HD by set_solver. by rewrite decide_True by done.
  - intros x Hx. rewrite HD by set_solver. rewrite decide_False; [done|]. intros [= ->].
    rewrite E in HN. apply NoDup_app in HN as (_ & _ & HN). apply NoDup_cons in HN. set_solver.
Qed.
End Inserted.
End Insertion.

Section InsertOk.
Context (h : wd_header) (w : Z) (ws : Watchdog_State) (n nest : Z).
Context (HS : wd_ok ws) (Hn : 0 <= n < two32).
Context (Hst : wd_state (ctl ws w) = WATCHDOG_BEING_INSERTED).
Abbreviation l := (chain_of h ws).

Lemma being_inserted_off h' : w ∉ chain_of h' ws.
Proof. intros Hw. apply (ok_member ws h' w HS) in Hw as []; congruence. Qed.

Lemma insert_search_ok {S} `{HasWatchdog S} fuel (s : S) :
  wd_get s = ws -> _Watchdog_Sync_level ws <= nest -> (length l < fuel)%nat ->
  exists la lb, place h ws n la lb /\
    insert_loop fuel id h w nest (head l) n s = Some (wd_put (inserted h w ws n nest la lb) s).
Proof.
  intros Es Hlev Hf. pose proof (ok_chain_nodup ws h HS). pose proof (being_inserted_off h).
  pose proof (ok_delta ws HS h). pose proof (ok_sum ws HS h).
  destruct (insert_search h w ws n nest) with (fuel := fuel) (s := s) (la := @nil Z) (lb := l)
    as (la & lb & HP & E); try done; [simpl; lia|].
  simpl sum in E. rewrite Z.sub_0_r in E. eauto.
Qed.

Context (la lb : list Z) (HP : place h ws n la lb).
Abbreviation ws' := (inserted h w ws n nest la lb).

Lemma insert_place_bounds :
  Forall (fun p => p.2 <= n) (remaining (dl ws) 0 la) /\
  Forall (fun p => n <= p.2) (remaining (dl ws) (sum (dl ws) la) lb).
Proof.
  destruct HP as (E & Hle & Hgt). pose proof (ok_delta ws HS h) as HF. rewrite E in HF.
  apply Forall_app in HF as [HF1 HF2]. split.
  - eapply Forall_impl; [by apply remaining_le|]. simpl. intros. lia.
  - destruct lb as [|a lb']; [constructor|]. specialize (Hgt a lb' eq_refl).
    apply Forall_cons in HF2 as [Ha HF2]. simpl. constructor; [simpl; lia|].
    eapply Forall_impl; [by apply remaining_ge|]. simpl. intros. lia.
Qed.

Lemma inserted_dl_nonneg : Forall (fun x => 0 <= dl ws' x) (la ++ w :: lb).
Proof.
  pose proof (ok_chain_nodup ws h HS) as HN. pose proof (being_inserted_off h) as Hw.
  pose proof (ok_delta ws HS h) as HF. pose proof (ok_sum ws HS h) as HM.
  destruct HP as (E & Hle & Hgt). apply Forall_forall. intros x Hx.
  destruct (decide (x = w)) as [-> |Hxw].
  - unfold dl. erewrite inserted_ctl_self by done. simpl. lia.
  - erewrite inserted_dl by (done || set_solver). rewrite Forall_forall in HF.
    assert (0 <= dl ws x) by (apply HF; rewrite E; set_solver).
    case_decide as Eh; [|done]. destruct lb as [|a lb']; [done|]. injection Eh as ->.
    specialize (Hgt x lb' eq_refl). lia.
Qed.

Lemma inserted_sum : sum (dl ws') (la ++ w :: lb) < two32.
Proof.
  pose proof (ok_chain_nodup ws h HS) as HN. pose proof (being_inserted_off h) as Hw.
  pose proof (ok_delta ws HS h) as HF. pose proof (ok_sum ws HS h) as HM.
  pose proof HP as (E & Hle & Hgt). rewrite sum_app. simpl.
  rewrite (sum_ext _ (dl ws) la) by (intros; eapply inserted_dl_front; done).
  assert (dl ws' w = n - sum (dl ws) la) as ->
    by (unfold dl at 1; erewrite inserted_ctl_self by done; done).
  destruct lb as [|a lb']; simpl; [lia|].
  assert (a ∉ lb') by (rewrite E in HN; apply NoDup_app in HN as (_ & _ & HN);
    apply NoDup_cons in HN; tauto).
  rewrite (sum_ext _ (dl ws) lb').
  - erewrite inserted_dl by (done || set_solver). rewrite decide_True by done.
    rewrite E, sum_app in HM. simpl in HM. lia.
  - intros x Hx. erewrite inserted_dl by (done || set_solver).
    rewrite decide_False; [done|]. intros [= ->]. done.
Qed.

Lemma inserted_state x :
  wd_state (ctl ws' x) = if decide (x = w) then WATCHDOG_ACTIVE else wd_state (ctl ws x).
Proof.
  pose proof (ok_chain_nodup ws h HS) as HN. pose proof (being_inserted_off h) as Hw.
  pose proof (ok_delta ws HS h) as HF. pose proof (ok_sum ws HS h) as HM.
  case_decide as E; [subst; by erewrite inserted_ctl_self|].
  erewrite inserted_ctl by done. by case_decide.
Qed.

Lemma inserted_ok : wd_ok ws'.
Proof.
  pose proof (ok_chain_nodup ws h HS) as HN. pose proof (being_inserted_off h) as Hw.
  pose proof (ok_delta ws HS h) as HF. pose proof (ok_sum ws HS h) as HM.
  pose proof HP as (E & Hle & Hgt).
  assert (forall x, x ∈ l -> x ∉ chain_of (other h) ws) as Hout.
  { intros x Hx. apply (ok_other ws h); [done..|apply other_ne]. }
  assert (chain_of h ws' = la ++ w :: lb) as Ech by by eapply inserted_chain.
  apply (wd_ok_intro ws _ h (other h) HS (other_ne h)); rewrite ?Ech.
  - by eapply inserted_chain_ne, other_ne.
  - intros x Hx. assert (x <> w) by (intros ->; by apply (being_inserted_off (other h))).
    unfold dl. erewrite inserted_ctl by done. rewrite decide_False; [done|].
    intros Eh. destruct lb; [done|]. injection Eh as ->. apply (Hout x); [rewrite E; set_solver|done].
  - apply NoDup_app_3. rewrite <- E. done.
  - intros x Hx. apply elem_of_app in Hx as [Hx|Hx]; [apply Hout; rewrite E; set_solver|].
    apply elem_of_cons in Hx as [-> |Hx]; [apply being_inserted_off|].
    apply Hout; rewrite E; set_solver.
  - intros x. rewrite inserted_state. case_decide as Ex.
    + subst. unfold on_chain. split; [tauto|]. set_solver.
    + rewrite <- (ok_on ws HS x). destruct h; simpl in *; rewrite E; set_solver.
  - apply inserted_dl_nonneg.
  - apply inserted_sum.
Qed.

Lemma inserted_expiries :
  expiries h ws = remaining (dl ws) 0 la ++ remaining (dl ws) (sum (dl ws) la) lb /\
  expiries h ws' = remaining (dl ws) 0 la ++ (w, n) :: remaining (dl ws) (sum (dl ws) la) lb.
Proof.
  pose proof (ok_chain_nodup ws h HS) as HN. pose proof (being_inserted_off h) as Hw.
  pose proof (ok_delta ws HS h) as HF. pose proof (ok_sum ws HS h) as HM.
  unfold expiries. split.
  - destruct HP as (E & _ & _). by rewrite E, remaining_app.
  - assert (chain_of h ws' = la ++ w :: lb) as -> by by eapply inserted_chain.
    by eapply inserted_remaining.
Qed.

Lemma inserted_other x : x <> w -> same_but_delta (ctl ws x) (ctl ws' x).
Proof.
  pose proof (ok_chain_nodup ws h HS) as HN. pose proof (being_inserted_off h) as Hw.
  pose proof (ok_delta ws HS h) as HF. pose proof (ok_sum ws HS h) as HM.
  intros Hx. erewrite inserted_ctl by done. unfold same_but_delta. case_decide; by destruct (ctl ws x).
Qed.

Lemma inserted_expiries_other : expiries (other h) ws' = expiries (other h) ws.
Proof.
  pose proof (ok_chain_nodup ws h HS) as HN. pose proof (being_inserted_off h) as Hw.
  pose proof (ok_delta ws HS h) as HF. pose proof (ok_sum ws HS h) as HM.
  unfold expiries. assert (chain_of (other h) ws' = chain_of (other h) ws) as ->
    by by eapply inserted_chain_ne, other_ne.
  apply remaining_ext. intros x Hx.
  assert (x <> w) by (intros ->; by apply (being_inserted_off (other h))). unfold dl.
  erewrite inserted_ctl by done. rewrite decide_False; [done|].
  intros Eh. destruct lb as [|a lb']; [done|]. injection Eh as ->. destruct HP as (El & _ & _).
  apply (ok_other ws h (other h) x HS); [rewrite El; set_solver|apply other_ne|done].
Qed.

Lemma inserted_self :
  wd_state (ctl ws' w) = WATCHDOG_ACTIVE /\ start_time (ctl ws' w) = _Watchdog_Ticks_since_boot ws /\
  _Watchdog_Sync_count ws' = _Watchdog_Sync_count ws -w 1.
Proof.
  pose proof (ok_chain_nodup ws h HS) as HN. pose proof (being_inserted_off h) as Hw.
  pose proof (ok_delta ws HS h) as HF. pose proof (ok_sum ws HS h) as HM.
  erewrite inserted_ctl_self by done. split_and!; [done..|].
  unfold inserted, exit_insert, insert_before, _Watchdog_Activate. simpl.
  f_equal. f_equal. destruct lb as [|a lb']; [by destruct h|]. case_match; by destruct h.
Qed.
End InsertOk.

(** ** [_Watchdog_Insert] *)

(** The state in which the search of [_Watchdog_Insert] starts. *)
Definition inserting (w lev : Z) (ws : Watchdog_State) : Watchdog_State :=
  set_sync_level lev (set_sync_count (_Watchdog_Sync_count ws +w 1)
    (upd w (set_state WATCHDOG_BEING_INSERTED) ws)).

Lemma inserting_dl w lev ws x : dl (inserting w lev ws) x = dl ws x.
Proof.
  unfold dl, inserting. change (ctl (set_sync_level _ (set_sync_count _ ?s)) x) with (ctl s x).
  destruct (decide (x = w)) as [-> |]; [by rewrite ctl_upd_eq|by rewrite ctl_upd_ne].
Qed.

Lemma inserting_chain h w lev ws : chain_of h (inserting w lev ws) = chain_of h ws.
Proof. by destruct h. Qed.

Lemma inserting_ctl_ne w lev ws x : x <> w -> ctl (inserting w lev ws) x = ctl ws x.
Proof.
  intros Hx. unfold inserting. change (ctl (set_sync_level _ (set_sync_count _ ?s)) x) with (ctl s x).
  by rewrite ctl_upd_ne.
Qed.

Lemma inserting_ctl w lev ws :
  ctl (inserting w lev ws) w = set_state WATCHDOG_BEING_INSERTED (ctl ws w).
Proof.
  unfold inserting. change (ctl (set_sync_level _ (set_sync_count _ ?s)) w) with (ctl s w).
  by rewrite ctl_upd_eq.
Qed.

Lemma inserting_ok w lev ws :
  wd_ok ws -> ~ on_chain (wd_state (ctl ws w)) -> wd_ok (inserting w lev ws).
Proof.
  intros [H1 H2 H3 H4] Hw. split; [done|..].
  - intros x. change (_Watchdog_Ticks_chain (inserting w lev ws)) with (_Watchdog_Ticks_chain ws).
    change (_Watchdog_Seconds_chain (inserting w lev ws)) with (_Watchdog_Seconds_chain ws).
    rewrite H2. destruct (decide (x = w)) as [-> |].
    + rewrite inserting_ctl. simpl. unfold on_chain in *. split; [tauto|]. by intros [].
    + by rewrite inserting_ctl_ne.
  - intros h. rewrite inserting_chain. eapply Forall_impl; [apply H3|]. intros x. by rewrite inserting_dl.
  - intros h. rewrite inserting_chain, (sum_ext _ (dl ws)); [apply H4|]. intros. apply inserting_dl.
Qed.

Lemma insert_quiet {S} `{HasWatchdog S} fuel h w (s : S) :
  let ws := wd_get s in
  let n := initial (ctl ws w) in
  let nest := _ISR_Nest_level ws in
  wd_ok ws -> ~ on_chain (wd_state (ctl ws w)) -> 0 <= n < two32 ->
  (length (chain_of h ws) + 1 < fuel)%nat ->
  exists lev la lb, place h (inserting w lev ws) n la lb /\
    _Watchdog_Insert fuel id h w s =
      Some (wd_put (inserted h w (inserting w lev ws) n nest la lb) s).
Proof.
  intros ws n nest HS Hw Hn Hf. unfold _Watchdog_Insert. fold ws nest.
  unfold wd_mod. rewrite !wd_get_put, !wd_put_put.
  set (ws1 := inserting w (_Watchdog_Sync_level ws) ws).
  change (set_sync_count _ _) with ws1. change (id (wd_put ws1 s)) with (wd_put ws1 s).
  rewrite !wd_get_put.
  assert (initial (ctl ws1 w) = n) as -> by (unfold ws1; by rewrite inserting_ctl).
  pose proof (inserting_ok w (_Watchdog_Sync_level ws) ws HS Hw) as HS1. fold ws1 in HS1.
  assert (wd_state (ctl ws1 w) = WATCHDOG_BEING_INSERTED) as Hst1
    by (unfold ws1; by rewrite inserting_ctl).
  destruct (Z.le_gt_cases (_Watchdog_Sync_level ws) nest) as [Hlev|Hlev].
  - destruct (insert_search_ok h w ws1 n nest HS1 Hn Hst1 fuel (wd_put ws1 s)) as (la & lb & HP & E);
      [apply wd_get_put|done|unfold ws1; rewrite inserting_chain; lia|].
    exists (_Watchdog_Sync_level ws), la, lb. split; [done|]. rewrite E. by rewrite wd_put_put.
  - (* a stale synchronization level costs one restart *)
    set (ws2 := inserting w nest ws).
    pose proof (inserting_ok w nest ws HS Hw) as HS2. fold ws2 in HS2.
    assert (wd_state (ctl ws2 w) = WATCHDOG_BEING_INSERTED) as Hst2
      by (unfold ws2; by rewrite inserting_ctl).
    assert (chain_of h ws1 = chain_of h ws) as Ec by apply inserting_chain.
    destruct fuel as [|fuel]; [lia|]. cbn [insert_loop]. rewrite wd_get_put.
    destruct (chain_of h ws1) as [|a r] eqn:El;
      [change (head (@nil Z)) with (@None Z)|change (head (a :: r)) with (Some a)]; cbv iota.
    { exists (_Watchdog_Sync_level ws), [], []. split.
      - split_and!; [done|simpl; lia|done].
      - unfold wd_mod. rewrite wd_get_put, wd_put_put. unfold inserted. fold ws1. simpl sum.
        by rewrite Z.sub_0_r. }
    fold (dl ws1 a). destruct (Z.eqb_spec n 0) as [E0|E0].
    { exists (_Watchdog_Sync_level ws), [], (a :: r). split.
      - split_and!; [done|simpl; lia|]. intros. left. simpl. lia.
      - unfold wd_mod. rewrite wd_get_put, wd_put_put. unfold inserted. fold ws1. simpl sum.
        rewrite Z.sub_0_r. by rewrite (proj2 (Z.eqb_eq n 0) E0). }
    destruct (Z.ltb_spec n (dl ws1 a)) as [Hlt|Hge].
    { exists (_Watchdog_Sync_level ws), [], (a :: r). split.
      - split_and!; [done|simpl; lia|]. intros ? ? [= <- <-]. right. fold ws1. simpl. lia.
      - unfold wd_mod. rewrite wd_get_put, wd_put_put. unfold inserted. fold ws1. simpl sum.
        rewrite Z.sub_0_r. by rewrite (proj2 (Z.eqb_neq n 0) E0). }
    change (id (wd_put ws1 s)) with (wd_put ws1 s). rewrite wd_get_put, Hst1, bool_decide_eq_true_2 by done.
    simpl negb. cbv iota. replace (nest <? _Watchdog_Sync_level ws1) with true
      by (symmetry; apply Z.ltb_lt; exact Hlev).
    unfold wd_mod. rewrite wd_get_put, wd_put_put. change (set_sync_level nest ws1) with ws2.
    change (id (wd_put ws2 s)) with (wd_put ws2 s). rewrite wd_get_put.
    assert (initial (ctl ws2 w) = n) as -> by (unfold ws2; by rewrite inserting_ctl).
    destruct (insert_search_ok h w ws2 n nest HS2 Hn Hst2 fuel (wd_put ws2 s)) as (la & lb & HP & E);
      [apply wd_get_put|done|unfold ws2; rewrite inserting_chain; lia|].
    exists nest, la, lb. split; [done|]. rewrite E. by rewrite wd_put_put.
Qed.
