(* ===== verification/WatchdogSpec.v ===== *)
(** * What the watchdog handler promises *)
From S2P Require Import Prelude Chain Watchdog WatchdogProofs WatchdogOps.

(** ** Expired watchdogs *)

Definition exps (l : list (Z * Z)) (P : Z -> bool) : list Z :=
  (List.filter (fun p => P p.2) l).*1.

(** The watchdogs of a chain with nothing left. *)
Definition zeros (h : wd_header) (ws : Watchdog_State) : list Z :=
  exps (expiries h ws) (fun t => t =? 0).

Lemma exps_none l P : Forall (fun p => P p.2 = false) l -> exps l P = [].
Proof. unfold exps. induction 1 as [|p l Hp _ IH]; [done|]. simpl. by rewrite Hp. Qed.

Lemma zeros_nil h ws : chain_of h ws = [] -> zeros h ws = [].
Proof. intros E. unfold zeros, expiries. by rewrite E. Qed.

Lemma zeros_first h ws w l :
  wd_ok ws -> chain_of h ws = w :: l ->
  zeros h ws = if dl ws w =? 0 then w :: exps (remaining (dl ws) 0 l) (fun t => t =? 0) else [].
Proof.
  intros HS El. pose proof (ok_delta ws HS h) as HF. rewrite El in HF.
  apply Forall_cons in HF as [Hw HF]. unfold zeros, expiries. rewrite El. simpl.
  destruct (Z.eqb_spec (dl ws w) 0) as [E|E].
  - rewrite E. unfold exps. simpl. done.
  - apply exps_none. constructor; [simpl; apply Z.eqb_neq; lia|].
    eapply Forall_impl; [by apply remaining_ge|]. simpl. intros. apply Z.eqb_neq. lia.
Qed.

(** Removing an expired watchdog from the front. *)
Lemma zeros_remove h ws w l :
  wd_ok ws -> chain_of h ws = w :: l -> dl ws w = 0 ->
  zeros h ws = w :: zeros h (snd (_Watchdog_Remove w ws)).
Proof.
  intros HS El E0. rewrite (zeros_first h ws w l) by done. rewrite E0, Z.eqb_refl. f_equal.
  unfold zeros, expiries. rewrite (remove_chain ws HS h [] w l El).
  rewrite (remove_remaining ws HS h [] w l El 0), E0. done.
Qed.

(** ** The loop of [_Watchdog_Tickle] *)

Section Callbacks.
Context {S : Type} `{HasWatchdog S} (run : Z -> Z -> Z -> S -> S) (h : wd_header).

(** What [_Watchdog_Tickle] relies on: a service routine may start, stop and
    change any watchdog, as long as the handler's invariant holds again when it
    returns and the watchdogs of this chain that have expired are the same ones
    as before the call. *)
Definition callbacks_ok : Prop :=
  forall r i u s, wd_ok (wd_get s) ->
    wd_ok (wd_get (run r i u s)) /\ zeros h (wd_get (run r i u s)) = zeros h (wd_get s).

Context (Hrun : callbacks_ok).

Lemma fire_zeros s w l :
  wd_ok (wd_get s) -> chain_of h (wd_get s) = w :: l -> dl (wd_get s) w = 0 ->
  wd_ok (wd_get (fire run w s)) /\
  zeros h (wd_get s) = w :: zeros h (wd_get (fire run w s)).
Proof.
  intros HS El E0. rewrite (zeros_remove _ _ _ _ HS El E0).
  pose proof (remove_ok_on _ h [] w l HS El) as HR.
  unfold fire. destruct (_Watchdog_Remove w (wd_get s)) as [p ws'] eqn:ER. simpl in HR |- *.
  destruct p; rewrite ?wd_get_put; try done.
  edestruct Hrun as [HO ->]; [|split; [exact HO|by rewrite wd_get_put]]. by rewrite wd_get_put.
Qed.

Lemma tickle_loop_spec fuel s w :
  wd_ok (wd_get s) -> head (zeros h (wd_get s)) = Some w -> (length (zeros h (wd_get s)) <= fuel)%nat ->
  tickle_loop run fuel h w s = Some (fold_left (fun s w => fire run w s) (zeros h (wd_get s)) s) /\
  wd_ok (wd_get (fold_left (fun s w => fire run w s) (zeros h (wd_get s)) s)) /\
  zeros h (wd_get (fold_left (fun s w => fire run w s) (zeros h (wd_get s)) s)) = [].
Proof.
  revert s w. induction fuel as [|fuel IH]; intros s w HS Hw Hf.
  { destruct (zeros h (wd_get s)); simpl in *; [done|lia]. }
  destruct (chain_of h (wd_get s)) as [|w0 l] eqn:El; [by rewrite (zeros_nil _ _ El) in Hw|].
  pose proof (zeros_first _ _ _ _ HS El) as Z0.
  destruct (Z.eqb_spec (dl (wd_get s) w0) 0) as [E0|E0]; [|by rewrite Z0 in Hw].
  rewrite Z0 in Hw. injection Hw as ->.
  destruct (fire_zeros s w l HS El E0) as [HS' EZ]. rewrite EZ in Hf |- *. cbn [tickle_loop fold_left].
  destruct (chain_of h (wd_get (fire run w s))) as [|w1 l'] eqn:El'.
  { rewrite (zeros_nil _ _ El'). split_and!; [done..|]. exact (zeros_nil _ _ El'). }
  pose proof (zeros_first _ _ _ _ HS' El') as Z1. unfold dl at 1 in Z1.
  destruct (delta_interval _ =? 0).
  - apply IH; [done|by rewrite Z1|]. simpl in Hf. lia.
  - rewrite Z1. split_and!; [done..|]. exact Z1.
Qed.
End Callbacks.

(** ** Changing the time left of the first watchdog *)

Definition later (k : Z) (l : list (Z * Z)) : list (Z * Z) := map (fun p => (p.1, p.2 + k)) l.

Lemma later_later k k' l : later k (later k' l) = later (k' + k) l.
Proof. unfold later. rewrite map_map. apply map_ext. intros []. simpl. f_equal. lia. Qed.
Lemma later_0 l : later 0 l = l.
Proof.
  unfold later. rewrite <- (map_id l) at 2. apply map_ext. intros []. simpl. f_equal. lia.
Qed.

Section SetHead.
Context (ws : Watchdog_State) (HS : wd_ok ws) (h : wd_header) (w : Z) (l : list Z) (v : Z).
Context (El : chain_of h ws = w :: l) (Hv : 0 <= v) (Hsum : v + sum (dl ws) l < two32).
Abbreviation ws' := (upd w (set_delta v) ws).

Lemma set_head_dl x : dl ws' x = if decide (x = w) then v else dl ws x.
Proof.
  unfold dl. case_decide as E; [subst; by rewrite ctl_upd_eq|by rewrite ctl_upd_ne by congruence].
Qed.

Lemma set_head_tail x : x ∈ l -> dl ws' x = dl ws x.
Proof.
  intros Hx. rewrite set_head_dl. case_decide; [|done]. subst.
  pose proof (ok_chain_nodup ws h HS) as HN. rewrite El in HN. apply NoDup_cons in HN. tauto.
Qed.

Lemma set_head_expiries : expiries h ws' = later (v - dl ws w) (expiries h ws).
Proof.
  unfold expiries, later. rewrite chain_of_upd, El, <- remaining_shift. simpl.
  rewrite set_head_dl, decide_True by done. f_equal; [f_equal; lia|].
  replace (0 + (v - dl ws w) + dl ws w) with (0 + v) by lia. apply remaining_ext. apply set_head_tail.
Qed.

Lemma set_head_other h' : h <> h' -> expiries h' ws' = expiries h' ws.
Proof.
  intros Hh. unfold expiries. rewrite chain_of_upd. apply remaining_ext. intros x Hx.
  rewrite set_head_dl. case_decide; [|done]. subst. exfalso.
  apply (ok_other ws h h' w HS); [rewrite El; set_solver|done|done].
Qed.

Lemma set_head_ok : wd_ok ws'.
Proof.
  pose proof (ok_delta ws HS h) as HF. rewrite El in HF. apply Forall_cons in HF as [_ HF].
  apply (wd_ok_intro ws _ h (other h) HS (other_ne h)); rewrite ?chain_of_upd, ?El.
  - done.
  - intros x Hx. rewrite set_head_dl. case_decide; [|done]. subst. exfalso.
    apply (ok_other ws h (other h) w HS); [rewrite El; set_solver|apply other_ne|done].
  - rewrite <- El. by apply ok_chain_nodup.
  - intros x Hx. apply (ok_other ws h); [done|by rewrite El|apply other_ne].
  - intros x. replace (wd_state (ctl ws' x)) with (wd_state (ctl ws x)).
    + rewrite <- (ok_on ws HS x). rewrite <- El. destruct h; simpl; set_solver.
    + destruct (decide (x = w)) as [-> |]; [by rewrite ctl_upd_eq|by rewrite ctl_upd_ne].
  - constructor; [rewrite set_head_dl; by case_decide|].
    rewrite Forall_forall in *. intros x Hx. rewrite set_head_tail by done. by apply HF.
  - simpl. rewrite set_head_dl, decide_True, (sum_ext _ (dl ws)) by (done || apply set_head_tail). lia.
Qed.
End SetHead.

Lemma upd_upd w f g ws : upd w f (upd w g ws) = upd w (f ∘ g) ws.
Proof.
  unfold upd at 1. rewrite ctl_upd_eq. unfold upd, set_wd. simpl. by rewrite insert_insert_eq.
Qed.
Lemma upd_set_delta w v f ws :
  f (ctl ws w) = set_delta v (ctl ws w) -> upd w f ws = upd w (set_delta v) ws.
Proof. intros E. unfold upd. by rewrite E. Qed.

(** ** [_Watchdog_Tickle] *)

Section Tickle.
Context {S : Type} `{HasWatchdog S} (run : Z -> Z -> Z -> S -> S) (h : wd_header).

(** The state right after the head has been decremented. *)
Definition ticked (s : S) : S :=
  match chain_of h (wd_get s) with
  | [] => s
  | w :: _ => wd_mod (upd w (set_delta (dl (wd_get s) w - 1))) s
  end.

(** Nobody on the chain has expired. *)
Definition pending (ws : Watchdog_State) : Prop := zeros h ws = [].

Lemma pending_head ws w l : wd_ok ws -> pending ws -> chain_of h ws = w :: l -> 1 <= dl ws w.
Proof.
  intros HS HP El. unfold pending in HP. rewrite (zeros_first _ _ _ _ HS El) in HP.
  pose proof (ok_delta ws HS h) as HF. rewrite El in HF. apply Forall_cons in HF as [? _].
  destruct (Z.eqb_spec (dl ws w) 0); [done|lia].
Qed.

Lemma head_sum ws w l : wd_ok ws -> chain_of h ws = w :: l ->
  dl ws w + sum (dl ws) l < two32 /\ 0 <= sum (dl ws) l.
Proof.
  intros HS El. pose proof (ok_sum ws HS h) as HM. pose proof (ok_delta ws HS h) as HF.
  rewrite El in *. apply Forall_cons in HF as [_ HF]. split; [done|by apply sum_nonneg].
Qed.

Lemma ticked_ok s :
  wd_ok (wd_get s) -> pending (wd_get s) ->
  wd_ok (wd_get (ticked s)) /\
  expiries h (wd_get (ticked s)) = later (-1) (expiries h (wd_get s)) /\
  forall h', h <> h' -> expiries h' (wd_get (ticked s)) = expiries h' (wd_get s).
Proof.
  intros HS HP. unfold ticked. destruct (chain_of h (wd_get s)) as [|w l] eqn:El.
  { split_and!; try done. unfold expiries. by rewrite El. }
  pose proof (pending_head _ _ _ HS HP El). destruct (head_sum _ _ _ HS El).
  unfold wd_mod. rewrite wd_get_put. split_and!.
  - eapply set_head_ok; [done|done|lia|lia].
  - rewrite (set_head_expiries _ HS h w l) by (done || lia). f_equal. lia.
  - intros h' Hh. eapply (set_head_other _ HS h w l); done || lia.
Qed.

Lemma tickle_unfold fuel s :
  wd_ok (wd_get s) -> pending (wd_get s) ->
  _Watchdog_Tickle run fuel h s =
    match head (zeros h (wd_get (ticked s))) with
    | None => Some (ticked s)
    | Some w => tickle_loop run fuel h w (ticked s)
    end.
Proof.
  intros HS HP. destruct (ticked_ok s HS HP) as (HT & _ & _). revert HT.
  unfold _Watchdog_Tickle, ticked. destruct (chain_of h (wd_get s)) as [|w l] eqn:El.
  { intros _. by rewrite (zeros_nil _ _ El). }
  pose proof (pending_head _ _ _ HS HP El). destruct (head_sum _ _ _ HS El).
  set (s' := wd_mod (upd w (set_delta _)) s).
  assert (wd_mod (upd w (fun c => set_delta (delta_interval c -w 1) c)) s = s') as ->.
  { subst s'. unfold wd_mod. f_equal. apply upd_set_delta. unfold dl. f_equal.
    apply wrap32_small. unfold u32, dl in *. lia. }
  assert (chain_of h (wd_get s') = w :: l) as El'.
  { subst s'. unfold wd_mod. by rewrite wd_get_put, chain_of_upd. }
  intros HT. rewrite (zeros_first _ _ _ _ HT El'). fold (dl (wd_get s') w). by destruct (dl (wd_get s') w =? 0).
Qed.

Lemma tickle_spec fuel s :
  callbacks_ok run h -> wd_ok (wd_get s) -> pending (wd_get s) ->
  (length (chain_of h (wd_get s)) <= fuel)%nat ->
  let due := zeros h (wd_get (ticked s)) in
  let s' := fold_left (fun s w => fire run w s) due (ticked s) in
  _Watchdog_Tickle run fuel h s = Some s' /\ wd_ok (wd_get s') /\ pending (wd_get s').
Proof.
  intros Hrun HS HP Hf due s'. destruct (ticked_ok s HS HP) as (HT & EE & _).
  rewrite tickle_unfold by done. fold due. destruct (head due) as [w|] eqn:Ed.
  - apply tickle_loop_spec; try done. fold due.
    transitivity (length (expiries h (wd_get (ticked s)))).
    + unfold due, zeros, exps. rewrite length_fmap. apply List.filter_length_le.
    + rewrite EE. unfold later. rewrite length_map. unfold expiries.
      by rewrite <- (length_fmap fst), remaining_fst.
  - destruct due eqn:E0; [|done]. subst s'. simpl. done.
Qed.
End Tickle.

(** ** Ticks, when the service routines leave the watchdogs alone *)

Section Quiet.
Context {S : Type} `{HasWatchdog S} (run : Z -> Z -> Z -> S -> S) (h : wd_header).

Definition quiet : Prop := forall r i u s, wd_get (run r i u s) = wd_get s.
Context (Hq : quiet).

Lemma quiet_callbacks_ok : callbacks_ok run h.
Proof. intros r i u s HS. by rewrite Hq. Qed.

Lemma quiet_fire s w : wd_get (fire run w s) = snd (_Watchdog_Remove w (wd_get s)).
Proof.
  unfold fire. destruct (_Watchdog_Remove w (wd_get s)) as [[] ws']; by rewrite ?Hq, wd_get_put.
Qed.

Lemma quiet_fire_expiries s w l :
  wd_ok (wd_get s) -> chain_of h (wd_get s) = w :: l -> dl (wd_get s) w = 0 ->
  expiries h (wd_get s) = (w, 0) :: expiries h (wd_get (fire run w s)) /\
  forall h', h <> h' -> expiries h' (wd_get (fire run w s)) = expiries h' (wd_get s).
Proof.
  intros HS El E0. rewrite quiet_fire. split.
  - unfold expiries. rewrite El, (remove_chain _ HS h [] w l El), (remove_remaining _ HS h [] w l El 0).
    simpl. by rewrite E0.
  - intros h' Hh. unfold expiries. rewrite (remove_chain_ne _ HS h [] w l El) by done.
    apply remaining_ext. intros x Hx.
    assert (x ∉ w :: l) as Hxl.
    { rewrite <- El. intros Hx'. by apply (ok_other _ h h' x HS). }
    unfold dl. rewrite (remove_ctl _ HS h [] w l El) by set_solver.
    rewrite decide_False; [done|]. intros E. destruct l; [done|]. injection E as ->. set_solver.
Qed.

Lemma quiet_fire_all s :
  wd_ok (wd_get s) ->
  let s' := fold_left (fun s w => fire run w s) (zeros h (wd_get s)) s in
  expiries h (wd_get s') = List.filter (fun p => negb (p.2 =? 0)) (expiries h (wd_get s)) /\
  forall h', h <> h' -> expiries h' (wd_get s') = expiries h' (wd_get s).
Proof.
  remember (zeros h (wd_get s)) as z eqn:Ez. revert s Ez. induction z as [|w z IH]; intros s Ez HS.
  - simpl. split; [|done]. symmetry. revert Ez. unfold zeros, exps.
    generalize (expiries h (wd_get s)) as l. induction l as [|[x t] l IHl]; [done|]. simpl.
    destruct (t =? 0); simpl; [done|]. intros E. by rewrite IHl.
  - destruct (chain_of h (wd_get s)) as [|w0 l] eqn:El; [by rewrite (zeros_nil _ _ El) in Ez|].
    pose proof (zeros_first _ _ _ _ HS El) as Z0.
    destruct (Z.eqb_spec (dl (wd_get s) w0) 0) as [E0|E0]; [|congruence].
    assert (w0 = w) as -> by congruence.
    destruct (fire_zeros run h quiet_callbacks_ok s w l HS El E0) as [HS' EZ].
    destruct (quiet_fire_expiries s w l HS El E0) as [E1 E2].
    destruct (IH (fire run w s)) as [I1 I2]; [congruence|done|]. simpl. split.
    + rewrite I1, E1. done.
    + intros h' Hh. rewrite I2, E2 by done. done.
Qed.

Lemma pending_pos ws : wd_ok ws -> pending h ws -> Forall (fun p => 1 <= p.2) (expiries h ws).
Proof.
  intros HS HP. unfold expiries. destruct (chain_of h ws) as [|w l] eqn:El; [constructor|].
  pose proof (pending_head h _ _ _ HS HP El). pose proof (ok_delta _ HS h) as HF. rewrite El in HF.
  apply Forall_cons in HF as [_ HF]. simpl. constructor; [simpl; lia|].
  eapply Forall_impl; [by apply remaining_ge|]. simpl. intros. lia.
Qed.

Lemma filter_all_lt k (l : list (Z * Z)) :
  Forall (fun p => k < p.2) l -> List.filter (fun p => k <? p.2) l = l.
Proof.
  induction 1 as [|[w t] l Hp _ IH]; [done|]. simpl in *.
  replace (k <? t) with true by lia. by rewrite IH.
Qed.

(** One tick. *)
Lemma quiet_tickle fuel s :
  wd_ok (wd_get s) -> pending h (wd_get s) -> (length (chain_of h (wd_get s)) <= fuel)%nat ->
  exists s', _Watchdog_Tickle run fuel h s = Some s' /\ wd_ok (wd_get s') /\ pending h (wd_get s') /\
    s' = fold_left (fun s w => fire run w s) (exps (expiries h (wd_get s)) (fun t => t =? 1))
           (ticked h s) /\
    expiries h (wd_get s') =
      later (-1) (List.filter (fun p => 1 <? p.2) (expiries h (wd_get s))) /\
    forall h', h <> h' -> expiries h' (wd_get s') = expiries h' (wd_get s).
Proof.
  intros HS HP Hf.
  destruct (tickle_spec run h fuel s quiet_callbacks_ok HS HP Hf) as (E1 & E2 & E3).
  destruct (ticked_ok h s HS HP) as (T1 & T2 & T3).
  destruct (quiet_fire_all _ T1) as [Q1 Q2].
  assert (zeros h (wd_get (ticked h s)) = exps (expiries h (wd_get s)) (fun t => t =? 1)) as EZ.
  { unfold zeros, exps, later in *. rewrite T2. clear.
    induction (expiries h (wd_get s)) as [|[w t] l IH]; [done|]. simpl.
    replace (t + -1 =? 0) with (t =? 1) by lia. destruct (t =? 1); [|exact IH].
    cbn [fmap list_fmap]. f_equal. exact IH. }
  rewrite EZ in *. eexists. split_and!; [exact E1|exact E2|exact E3|done| |].
  - rewrite Q1, T2. pose proof (pending_pos _ HS HP) as HF.
    unfold later. clear -HF. induction HF as [|[w t] l Hp _ IH]; [done|]. simpl in *.
    replace (t + -1 =? 0) with (negb (1 <? t)) by lia. rewrite negb_involutive.
    destruct (1 <? t); simpl; by rewrite IH.
  - intros h' Hh. by rewrite Q2, T3.
Qed.

(** [k] ticks in a row. *)
Fixpoint ticks (k : nat) (fuel : nat) (s : S) : option S :=
  match k with
  | O => Some s
  | Datatypes.S k => match _Watchdog_Tickle run fuel h s with
                     | Some s => ticks k fuel s
                     | None => None
                     end
  end.

Lemma expiries_length ws : length (expiries h ws) = length (chain_of h ws).
Proof. unfold expiries. by rewrite <- (length_fmap fst), remaining_fst. Qed.

Lemma filter_later k j l :
  List.filter (fun p => k <? p.2) (later j l) = later j (List.filter (fun p => k - j <? p.2) l).
Proof.
  unfold later. induction l as [|[w t] l IH]; [done|]. simpl.
  replace (k <? t + j) with (k - j <? t) by lia. destruct (k - j <? t); simpl; by rewrite IH.
Qed.

Lemma filter_filter_lt (a b : Z) (l : list (Z * Z)) : a <= b ->
  List.filter (fun p => b <? p.2) (List.filter (fun p => a <? p.2) l) =
  List.filter (fun p => b <? p.2) l.
Proof.
  intros Hab. induction l as [|[w t] l IH]; [done|]. simpl.
  destruct (Z.ltb_spec a t); simpl; rewrite IH; [done|].
  by replace (b <? t) with false by lia.
Qed.

Lemma quiet_ticks k fuel s :
  wd_ok (wd_get s) -> pending h (wd_get s) -> (length (chain_of h (wd_get s)) <= fuel)%nat ->
  exists s', ticks k fuel s = Some s' /\ wd_ok (wd_get s') /\ pending h (wd_get s') /\
    (length (chain_of h (wd_get s')) <= length (chain_of h (wd_get s)))%nat /\
    expiries h (wd_get s') =
      later (- Z.of_nat k) (List.filter (fun p => Z.of_nat k <? p.2) (expiries h (wd_get s))).
Proof.
  revert s. induction k as [|k IH]; intros s HS HP Hf.
  - exists s. split_and!; try done. rewrite later_0. symmetry.
    apply (filter_all_lt 0). eapply Forall_impl; [by apply pending_pos|]. simpl. intros. lia.
  - destruct (quiet_tickle fuel s HS HP Hf) as (s1 & E1 & HS1 & HP1 & _ & EE & _).
    assert (length (chain_of h (wd_get s1)) <= length (chain_of h (wd_get s)))%nat as HL.
    { rewrite <- !expiries_length, EE. unfold later. rewrite length_map. apply List.filter_length_le. }
    destruct (IH s1) as (s2 & E2 & HS2 & HP2 & HL2 & EE2); [done|done|lia|].
    exists s2. simpl. rewrite E1. split_and!; try done; [lia|].
    rewrite EE2, EE, filter_later, later_later, filter_filter_lt by lia.
    replace (Z.of_nat k - -1) with (Z.of_nat (Datatypes.S k)) by lia.
    f_equal. lia.
Qed.

(** ** [_Watchdog_Adjust] forward *)

Lemma ticks_app a b fuel s :
  ticks (a + b) fuel s = match ticks a fuel s with Some s => ticks b fuel s | None => None end.
Proof.
  revert s. induction a as [|a IH]; intros s; [done|]. simpl.
  destruct (_Watchdog_Tickle run fuel h s); [apply IH|done].
Qed.

Lemma ticks_empty k fuel s : chain_of h (wd_get s) = [] -> ticks k fuel s = Some s.
Proof.
  intros El. induction k as [|k IH]; [done|]. simpl. unfold _Watchdog_Tickle. by rewrite El.
Qed.

(** Setting the first watchdog to [v] before a tick. *)
Definition set_first (v : Z) (s : S) : S :=
  match chain_of h (wd_get s) with
  | [] => s
  | w :: _ => wd_mod (upd w (set_delta v)) s
  end.

Section First.
Context (s : S) (w : Z) (l : list Z) (v : Z).
Context (HS : wd_ok (wd_get s)) (El : chain_of h (wd_get s) = w :: l).
Context (Hv : 1 <= v <= dl (wd_get s) w).

Lemma set_first_facts :
  wd_ok (wd_get (set_first v s)) /\ pending h (wd_get (set_first v s)) /\
  chain_of h (wd_get (set_first v s)) = w :: l /\ dl (wd_get (set_first v s)) w = v /\
  forall v', set_first v' (set_first v s) = set_first v' s.
Proof.
  destruct (head_sum h _ _ _ HS El). unfold set_first at 1 2 3 4. rewrite El.
  unfold wd_mod. rewrite wd_get_put.
  assert (wd_ok (upd w (set_delta v) (wd_get s))) as HS' by (eapply set_head_ok; (done || lia)).
  assert (dl (upd w (set_delta v) (wd_get s)) w = v) as Ed by (unfold dl; by rewrite ctl_upd_eq).
  split_and!; [done| |by rewrite chain_of_upd|done|].
  - unfold pending. rewrite (zeros_first h _ w l HS') by by rewrite chain_of_upd.
    rewrite Ed. by replace (v =? 0) with false by lia.
  - intros v'. unfold set_first. rewrite !El. unfold wd_mod. rewrite !wd_get_put, chain_of_upd, El.
    by rewrite wd_put_put, upd_upd.
Qed.

Lemma tickle_set_first fuel :
  1 < v -> _Watchdog_Tickle run fuel h (set_first v s) = Some (set_first (v - 1) s).
Proof.
  intros H1. destruct set_first_facts as (HS' & HP' & El' & Ed & Ess).
  rewrite tickle_unfold by done.
  assert (ticked h (set_first v s) = set_first (v - 1) s) as ET.
  { rewrite <- (Ess (v - 1)). revert El' Ed. generalize (set_first v s) as s1. intros s1 El' Ed.
    unfold ticked, set_first. by rewrite El', Ed. }
  rewrite ET, (zeros_first h _ w l).
  - unfold set_first. rewrite El. unfold wd_mod, dl. rewrite !wd_get_put, ctl_upd_eq. simpl.
    by replace (v - 1 =? 0) with false by lia.
  - rewrite <- ET. by apply ticked_ok.
  - unfold set_first. rewrite El. unfold wd_mod. by rewrite !wd_get_put, chain_of_upd.
Qed.
End First.

Lemma tickle_set_one fuel s w l :
  wd_ok (wd_get s) -> chain_of h (wd_get s) = w :: l -> dl (wd_get s) w = 1 ->
  _Watchdog_Tickle run fuel h (set_first 1 s) = _Watchdog_Tickle run fuel h s.
Proof.
  intros HS El Ed. destruct (set_first_facts s w l 1 HS El) as (HS' & HP' & El' & Ed' & Ess); [lia|].
  assert (pending h (wd_get s)) as HP.
  { unfold pending. rewrite (zeros_first h _ w l HS El), Ed. done. }
  rewrite !tickle_unfold by done.
  assert (ticked h (set_first 1 s) = ticked h s) as ->; [|done].
  transitivity (set_first 0 s); [|unfold ticked, set_first; by rewrite El, Ed].
  rewrite <- (Ess 0). revert El' Ed'. generalize (set_first 1 s) as s1. intros s1 El' Ed'.
  unfold ticked, set_first. by rewrite El', Ed'.
Qed.

(** Ticks that do not reach the first expiry only count it down. *)
Lemma ticks_below k fuel s w l :
  wd_ok (wd_get s) -> pending h (wd_get s) -> chain_of h (wd_get s) = w :: l ->
  Z.of_nat k < dl (wd_get s) w -> (1 <= k)%nat ->
  ticks k fuel s = Some (set_first (dl (wd_get s) w - Z.of_nat k) s).
Proof.
  intros HS HP El Hk H1. destruct k as [|k]; [lia|]. clear H1.
  set (d := dl (wd_get s) w) in *.
  assert (_Watchdog_Tickle run fuel h s = Some (set_first (d - 1) s)) as E1.
  { rewrite tickle_unfold by done. destruct (ticked_ok h s HS HP) as (HT & _).
    assert (ticked h s = set_first (d - 1) s) as ET by (unfold ticked, set_first; by rewrite El).
    rewrite ET in *. rewrite (zeros_first h _ w l HT).
    - unfold set_first. rewrite El. unfold wd_mod, dl. rewrite !wd_get_put, ctl_upd_eq. simpl.
      by replace (d - 1 =? 0) with false by lia.
    - unfold set_first. rewrite El. unfold wd_mod. by rewrite !wd_get_put, chain_of_upd. }
  induction k as [|k IH]; [by cbn [ticks]; rewrite E1|].
  replace (Datatypes.S (Datatypes.S k)) with (Datatypes.S k + 1)%nat by lia.
  rewrite ticks_app, IH by lia. cbn [ticks].
  rewrite (tickle_set_first s w l) by (done || lia). do 2 f_equal. lia.
Qed.

Lemma tickle_fuel fuel fuel' s :
  wd_ok (wd_get s) -> pending h (wd_get s) -> (length (chain_of h (wd_get s)) <= fuel)%nat ->
  (length (chain_of h (wd_get s)) <= fuel')%nat ->
  _Watchdog_Tickle run fuel h s = _Watchdog_Tickle run fuel' h s.
Proof.
  intros HS HP H1 H2. destruct (tickle_spec run h fuel s quiet_callbacks_ok HS HP H1) as (-> & _).
  by destruct (tickle_spec run h fuel' s quiet_callbacks_ok HS HP H2) as (-> & _).
Qed.

(** The ticks up to the first expiry, taken at once. *)
Lemma ticks_to_first fuel fuel' s w l :
  wd_ok (wd_get s) -> pending h (wd_get s) -> chain_of h (wd_get s) = w :: l ->
  (length (w :: l) <= fuel)%nat -> (length (w :: l) <= fuel')%nat ->
  ticks (Z.to_nat (dl (wd_get s) w)) fuel' s = _Watchdog_Tickle run fuel h (set_first 1 s).
Proof.
  intros HS HP El Hf Hf'. pose proof (pending_head h _ _ _ HS HP El) as Hd.
  destruct (set_first_facts s w l 1 HS El) as (HS' & HP' & El' & Ed' & Ess); [lia|].
  rewrite (tickle_fuel fuel fuel') by (done || by rewrite El').
  destruct (Z.eq_dec (dl (wd_get s) w) 1) as [E|E].
  - rewrite E, (tickle_set_one fuel' s w l) by done. simpl.
    by destruct (_Watchdog_Tickle run fuel' h s).
  - replace (Z.to_nat (dl (wd_get s) w)) with (Z.to_nat (dl (wd_get s) w - 1) + 1)%nat by lia.
    rewrite ticks_app, (ticks_below _ fuel' s w l) by (done || lia).
    replace (dl (wd_get s) w - Z.of_nat _) with 1 by lia. cbn [ticks].
    by destruct (_Watchdog_Tickle run fuel' h (set_first 1 s)).
Qed.

Lemma adjust_forward_ticks fuel fuel' u s :
  wd_ok (wd_get s) -> pending h (wd_get s) -> 0 <= u < two32 ->
  (length (chain_of h (wd_get s)) + 1 < fuel)%nat -> (length (chain_of h (wd_get s)) <= fuel')%nat ->
  adjust_forward run fuel h u s = ticks (Z.to_nat u) fuel' s.
Proof.
  revert u s. induction fuel as [|fuel IH]; intros u s HS HP Hu Hf Hf'; [lia|].
  cbn [adjust_forward]. destruct (Z.eqb_spec u 0) as [-> |Hu0]; [done|].
  destruct (chain_of h (wd_get s)) as [|w l] eqn:El; [by rewrite ticks_empty|].
  fold (dl (wd_get s) w). pose proof (pending_head h _ _ _ HS HP El) as Hd.
  destruct (Z.ltb_spec u (dl (wd_get s) w)) as [Hlt|Hge].
  - rewrite (ticks_below _ fuel' s w l) by (done || lia). destruct (head_sum h _ _ _ HS El).
    rewrite wrap32_small by (unfold u32; lia). unfold set_first. rewrite El. do 4 f_equal. lia.
  - replace (Z.to_nat u) with (Z.to_nat (dl (wd_get s) w) + Z.to_nat (u - dl (wd_get s) w))%nat by lia.
    rewrite ticks_app, (ticks_to_first fuel fuel' s w l) by (done || simpl in *; lia).
    assert (wd_mod (upd w (set_delta 1)) s = set_first 1 s) as -> by (unfold set_first; by rewrite El).
    destruct (set_first_facts s w l 1 HS El) as (HS' & HP' & El' & Ed' & Ess); [lia|].
    destruct (quiet_tickle fuel (set_first 1 s) HS' HP') as (s2 & E2 & HS2 & HP2 & Es2 & EE & _);
      [rewrite El'; simpl in *; lia|].
    rewrite E2, wrap32_small by (unfold u32; lia).
    assert (length (chain_of h (wd_get s2)) <= length l)%nat.
    { rewrite <- expiries_length, EE. unfold later, expiries. rewrite length_map, El'. simpl.
      rewrite Ed'. simpl. rewrite List.filter_length_le.
      by rewrite <- (length_fmap fst), remaining_fst. }
    apply IH; simpl in *; done || lia.
Qed.
End Quiet.

(** ** The theorems *)

(** C36: [_Watchdog_Insert], when no interrupt intervenes (and whatever stale
    synchronization level it starts with): it terminates, activates the watchdog
    and puts it on the delta chain so that it expires after exactly [initial]
    units, behind everything that expires earlier and before everything that
    expires later; no other watchdog's expiry on either chain changes, no other
    control block changes but for its delta, the synchronization count is back
    where it was, and the handler's invariant holds again. *)
Theorem watchdog_insert_correct {S} `{HasWatchdog S} fuel h w (s : S) :
  let ws := wd_get s in
  let n := initial (ctl ws w) in
  wd_ok ws -> ~ on_chain (wd_state (ctl ws w)) -> 0 <= n < two32 -> u32 (_Watchdog_Sync_count ws) ->
  (length (chain_of h ws) + 1 < fuel)%nat ->
  exists ws', _Watchdog_Insert fuel id h w s = Some (wd_put ws' s) /\ wd_ok ws' /\
    wd_state (ctl ws' w) = WATCHDOG_ACTIVE /\
    start_time (ctl ws' w) = _Watchdog_Ticks_since_boot ws /\
    (exists E1 E2, expiries h ws = E1 ++ E2 /\ expiries h ws' = E1 ++ (w, n) :: E2 /\
       Forall (fun p => p.2 <= n) E1 /\ Forall (fun p => n <= p.2) E2) /\
    expiries (other h) ws' = expiries (other h) ws /\
    (forall x, x <> w -> same_but_delta (ctl ws x) (ctl ws' x)) /\
    _Watchdog_Sync_count ws' = _Watchdog_Sync_count ws.
Proof.
  intros ws n HS Hw Hn Hc Hf.
  destruct (insert_quiet fuel h w s HS Hw Hn Hf) as (lev & la & lb & HP & E). fold ws n in HP, E.
  set (ws1 := inserting w lev ws) in *.
  pose proof (inserting_ok w lev ws HS Hw) as HS1. fold ws1 in HS1.
  assert (wd_state (ctl ws1 w) = WATCHDOG_BEING_INSERTED) as Hst
    by (unfold ws1; by rewrite inserting_ctl).
  assert (forall h, expiries h ws1 = expiries h ws) as Eexp.
  { intros h'. unfold expiries, ws1. rewrite inserting_chain. apply remaining_ext.
    intros. apply inserting_dl. }
  destruct (inserted_self h w ws1 n (_ISR_Nest_level ws) HS1 Hn Hst la lb HP) as (S1 & S2 & S3).
  destruct (inserted_expiries h w ws1 n (_ISR_Nest_level ws) HS1 Hn Hst la lb HP) as (X1 & X2).
  destruct (insert_place_bounds h ws1 n HS1 la lb HP) as [B1 B2].
  eexists. split_and!; [exact E|by apply inserted_ok|done|done|..].
  - eexists _, _. rewrite <- Eexp. split_and!; [exact X1|exact X2|done|done].
  - rewrite <- Eexp. by apply inserted_expiries_other.
  - intros x Hx. rewrite <- (inserting_ctl_ne w lev ws x Hx). by apply inserted_other.
  - rewrite S3. change (_Watchdog_Sync_count ws1) with (_Watchdog_Sync_count ws +w 1).
    unfold wrap32. rewrite Zminus_mod_idemp_l. rewrite Z.mod_small; unfold u32 in *; lia.
Qed.

(** Two watchdogs on the ticks chain, due in 3 and 5 ticks, and an inactive third
    one, with interval 4. *)
Definition wd_three : Watchdog_State :=
  {| _Watchdog_Sync_level := 0; _Watchdog_Sync_count := 0; _Watchdog_Ticks_since_boot := 7;
     _ISR_Nest_level := 0; _Watchdog_Ticks_chain := [10; 20]; _Watchdog_Seconds_chain := [];
     wd := <[10 := {| wd_state := WATCHDOG_ACTIVE; initial := 3; delta_interval := 3;
                      start_time := 0; stop_time := 0; routine := 1; wd_id := 100; user_data := 0 |}]>
          (<[20 := {| wd_state := WATCHDOG_ACTIVE; initial := 5; delta_interval := 2;
                      start_time := 0; stop_time := 0; routine := 1; wd_id := 200; user_data := 0 |}]>
          (<[30 := {| wd_state := WATCHDOG_INACTIVE; initial := 4; delta_interval := 0;
                      start_time := 0; stop_time := 0; routine := 1; wd_id := 300; user_data := 0 |}]>
           ∅)) |}.

Lemma wd_three_ok : wd_ok wd_three.
Proof.
  split; simpl.
  - by_decide.
  - intros x. unfold ctl. simpl.
    destruct (decide (x = 10)) as [-> |]; [|destruct (decide (x = 20)) as [-> |];
      [|destruct (decide (x = 30)) as [-> |]]].
    + rewrite lookup_total_insert_eq. unfold on_chain. simpl. split; [tauto|]. set_solver.
    + rewrite lookup_total_insert_ne, lookup_total_insert_eq by done. unfold on_chain. simpl.
      split; [tauto|]. set_solver.
    + rewrite !lookup_total_insert_ne, lookup_total_insert_eq by done. unfold on_chain. simpl.
      split; [set_solver|]. intros []; done.
    + rewrite !lookup_total_insert_ne, lookup_total_empty by done. unfold on_chain. simpl.
      split; [set_solver|]. intros []; done.
  - intros []; by_decide.
  - intros []; by_decide.
Qed.

Lemma watchdog_insert_witness :
  exists ws', _Watchdog_Insert 4 id Ticks 30 wd_three = Some ws' /\ wd_ok ws' /\
    expiries Ticks ws' = [(10, 3); (30, 4); (20, 5)].
Proof.
  destruct (watchdog_insert_correct (H := HasWatchdog_self) 4 Ticks 30 wd_three wd_three_ok) as (ws' & E & HS & _).
  - vm_compute. intros []; discriminate.
  - by_decide.
  - by_decide.
  - simpl. lia.
  - exists ws'. split_and!; [exact E|exact HS|]. vm_compute in E. injection E as <-. reflexivity.
Defined.

(** [_Watchdog_Remove] of a watchdog that is on a chain returns the state it was
    in and takes it off: it becomes inactive with the stop time recorded, every
    other watchdog of the chain keeps its expiry and its place, the other chain
    is untouched, and the invariant holds again. *)
Theorem watchdog_remove_correct s h w :
  wd_ok s -> w ∈ chain_of h s ->
  let '(previous_state, s') := _Watchdog_Remove w s in
  previous_state = wd_state (ctl s w) /\ wd_ok s' /\
  wd_state (ctl s' w) = WATCHDOG_INACTIVE /\
  stop_time (ctl s' w) = _Watchdog_Ticks_since_boot s /\
  (exists E1 t E2, expiries h s = E1 ++ (w, t) :: E2 /\ expiries h s' = E1 ++ E2) /\
  chain_of (other h) s' = chain_of (other h) s /\
  (forall x, x <> w -> same_but_delta (ctl s x) (ctl s' x)).
Proof.
  intros HS Hw. apply list_elem_of_split in Hw as (l1 & l2 & El).
  pose proof (remove_ok_on s h l1 w l2 HS El) as HO.
  pose proof (remove_ctl_self s HS h l1 w l2 El) as HC.
  pose proof (remove_chain_ne s HS h l1 w l2 El (other h) (other_ne h)) as HN.
  pose proof (remove_remaining s HS h l1 w l2 El 0) as HR.
  pose proof (remove_chain s HS h l1 w l2 El) as HCh.
  pose proof (remove_ctl s HS h l1 w l2 El) as HX.
  destruct (_Watchdog_Remove w s) as [p s'] eqn:E. simpl in *.
  split_and!; [|done|by rewrite HC|by rewrite HC| |done|].
  - pose proof (remove_unfold s HS h l1 w l2 El) as EU. rewrite E in EU. by injection EU as -> _.
  - exists (remaining (dl s) 0 l1), (sum (dl s) l1 + dl s w), (remaining (dl s) (sum (dl s) l1 + dl s w) l2).
    unfold expiries. rewrite HCh, HR, El, remaining_app. done.
  - intros x Hx. rewrite HX by done. unfold same_but_delta. case_decide; by destruct (ctl s x).
Qed.

Lemma watchdog_remove_witness :
  wd_ok (snd (_Watchdog_Remove 10 wd_three)) /\
  expiries Ticks (snd (_Watchdog_Remove 10 wd_three)) = [(20, 5)].
Proof.
  pose proof (watchdog_remove_correct wd_three Ticks 10 wd_three_ok ltac:(by_decide)) as HX.
  destruct (_Watchdog_Remove 10 wd_three) as [p s'] eqn:E. split; [apply HX|].
  vm_compute in E. injection E as _ <-. reflexivity.
Defined.

(** C37: [_Watchdog_Tickle] on a chain where nobody has expired yet, with service
    routines that may start, stop and restart watchdogs but leave alone the ones
    due at this very tick: it terminates, takes one unit off every expiry, and
    then fires exactly the watchdogs that reach zero, each once, in chain order;
    afterwards nobody on the chain is left expired. *)
Theorem watchdog_tickle_correct {S} `{HasWatchdog S} (run : Z -> Z -> Z -> S -> S) h fuel (s : S) :
  callbacks_ok run h -> wd_ok (wd_get s) -> pending h (wd_get s) ->
  (length (chain_of h (wd_get s)) <= fuel)%nat ->
  let s0 := ticked h s in
  let s' := fold_left (fun s w => fire run w s) (zeros h (wd_get s0)) s0 in
  expiries h (wd_get s0) = later (-1) (expiries h (wd_get s)) /\
  _Watchdog_Tickle run fuel h s = Some s' /\ wd_ok (wd_get s') /\ pending h (wd_get s').
Proof.
  intros Hrun HS HP Hf. split; [by apply ticked_ok|]. by apply tickle_spec.
Qed.

(** A service routine that restarts watchdog 30 for 4 ticks unless it is running. *)
Definition restart_30 (_ _ _ : Z) (s : Watchdog_State) : Watchdog_State :=
  match wd_state (ctl s 30) with
  | WATCHDOG_ACTIVE | WATCHDOG_REMOVE_IT => s
  | _ => default s (_Watchdog_Insert_ticks (length (chain_of Ticks s) + 2) id 30 4 s)
  end.

Lemma set_initial_dl w n s x : dl (upd w (set_initial n) s) x = dl s x.
Proof.
  unfold dl. destruct (decide (x = w)) as [-> |]; [by rewrite ctl_upd_eq|by rewrite ctl_upd_ne].
Qed.

Lemma set_initial_ok w n s : wd_ok s -> wd_ok (upd w (set_initial n) s).
Proof.
  intros [H1 H2 H3 H4]. split; [done|..].
  - intros x. rewrite (H2 x : x ∈ _Watchdog_Ticks_chain (upd w (set_initial n) s) ++
      _Watchdog_Seconds_chain (upd w (set_initial n) s) <-> _).
    destruct (decide (x = w)) as [-> |]; [by rewrite ctl_upd_eq|by rewrite ctl_upd_ne].
  - intros h. rewrite chain_of_upd. eapply Forall_impl; [apply H3|]. intros x. by rewrite set_initial_dl.
  - intros h. rewrite chain_of_upd, (sum_ext _ (dl s)); [apply H4|]. intros. apply set_initial_dl.
Qed.

(** Starting a watchdog with a non-zero interval leaves the expired ones alone. *)
Lemma insert_ticks_zeros w n s :
  wd_ok s -> ~ on_chain (wd_state (ctl s w)) -> 1 <= n < two32 ->
  exists s', _Watchdog_Insert_ticks (length (chain_of Ticks s) + 2) id w n s = Some s' /\
    wd_ok s' /\ zeros Ticks s' = zeros Ticks s.
Proof.
  intros HS Hw Hn. unfold _Watchdog_Insert_ticks, wd_mod. simpl.
  set (s0 := upd w (set_initial n) s).
  assert (ctl s0 w = set_initial n (ctl s w)) as Ec by apply ctl_upd_eq.
  destruct (insert_quiet (length (chain_of Ticks s) + 2) Ticks w s0) as (lev & la & lb & HP & E);
    simpl wd_get in *; rewrite ?Ec in *; try done; [by apply set_initial_ok|simpl; lia| |].
  { change (chain_of Ticks s0) with (chain_of Ticks s). lia. }
  simpl initial in *.
  assert (wd_ok (inserting w lev s0)) as HS1 by (apply inserting_ok; [by apply set_initial_ok|by rewrite Ec]).
  assert (wd_state (ctl (inserting w lev s0) w) = WATCHDOG_BEING_INSERTED) as Hst
    by by rewrite inserting_ctl.
  eexists. split_and!; [exact E|apply inserted_ok; (done || lia)|].
  change (zeros Ticks (inserted Ticks w (inserting w lev s0) n (_ISR_Nest_level s0) la lb) = zeros Ticks s).
  unfold zeros. destruct (inserted_expiries Ticks w _ n (_ISR_Nest_level s0) HS1 ltac:(lia) Hst la lb HP)
    as [X1 X2]. rewrite X2.
  assert (expiries Ticks s = expiries Ticks (inserting w lev s0)) as ->.
  { unfold expiries. rewrite inserting_chain. apply remaining_ext. intros.
    rewrite inserting_dl. symmetry. apply set_initial_dl. }
  rewrite X1. unfold exps. rewrite !List.filter_app. simpl.
  by replace (n =? 0) with false by lia.
Qed.

Lemma restart_ok : callbacks_ok restart_30 Ticks.
Proof.
  intros r i u s HS. simpl in *. unfold restart_30.
  assert (~ on_chain (wd_state (ctl s 30)) -> exists s',
    _Watchdog_Insert_ticks (length (chain_of Ticks s) + 2) id 30 4 s = Some s' /\
    wd_ok s' /\ zeros Ticks s' = zeros Ticks s) as HI.
  { intros Hw. by apply insert_ticks_zeros. }
  unfold on_chain in HI. destruct (wd_state (ctl s 30)); try done;
    (destruct HI as (s' & -> & ? & ?); [intros []; done|]; done).
Qed.

Lemma watchdog_tickle_witness :
  exists s', _Watchdog_Tickle restart_30 2 Ticks (upd 10 (set_delta 1) wd_three) = Some s' /\
    wd_ok s' /\ chain_of Ticks s' = [20; 30].
Proof.
  assert (wd_ok (upd 10 (set_delta 1) wd_three)) as HS.
  { apply (set_head_ok _ wd_three_ok Ticks 10 [20]); reflexivity || discriminate. }
  destruct (watchdog_tickle_correct (H := HasWatchdog_self) restart_30 Ticks 2 _ restart_ok HS)
    as (_ & E & HO & _); [reflexivity|simpl; lia|].
  eexists. split_and!; [exact E|exact HO|reflexivity].
Defined.

(** Watchdogs fire on time.  With service routines that leave the watchdogs
    alone, [k] ticks run to completion, everybody that was due within them is off
    the chain and the rest have [k] units less to go; and tick number [k + 1]
    then fires exactly the watchdogs that had [k + 1] units left at the start. *)
Theorem watchdog_fires_on_time {S} `{HasWatchdog S} (run : Z -> Z -> Z -> S -> S) h fuel (s : S) k :
  quiet run -> wd_ok (wd_get s) -> pending h (wd_get s) ->
  (length (chain_of h (wd_get s)) <= fuel)%nat ->
  exists sk, ticks run h k fuel s = Some sk /\
    expiries h (wd_get sk) =
      later (- Z.of_nat k) (List.filter (fun p => Z.of_nat k <? p.2) (expiries h (wd_get s))) /\
    _Watchdog_Tickle run fuel h sk =
      Some (fold_left (fun s w => fire run w s)
              (exps (expiries h (wd_get s)) (fun t => t =? Z.of_nat k + 1)) (ticked h sk)).
Proof.
  intros Hq HS HP Hf. destruct (quiet_ticks run h Hq k fuel s HS HP Hf) as (sk & E & HSk & HPk & HL & EE).
  exists sk. split_and!; [done|done|].
  destruct (quiet_tickle run h Hq fuel sk HSk HPk) as (s' & E' & _ & _ & Es' & _); [lia|].
  rewrite E', Es'. do 2 f_equal. rewrite EE. unfold exps, later. clear.
  induction (expiries h (wd_get s)) as [|[w t] l IH]; [done|]. simpl.
  destruct (Z.ltb_spec (Z.of_nat k) t); simpl.
  - replace (t + - Z.of_nat k =? 1) with (t =? Z.of_nat k + 1) by lia.
    destruct (t =? Z.of_nat k + 1); simpl; [f_equal|]; exact IH.
  - replace (t =? Z.of_nat k + 1) with false by lia. exact IH.
Qed.

(** A service routine that records the watchdogs that fired. *)
#[local] Instance HasWatchdog_log : HasWatchdog (Watchdog_State * list Z) := {|
  wd_get := fst; wd_put := fun w s => (w, s.2);
  wd_get_put := fun _ _ => eq_refl; wd_put_put := fun _ _ _ => eq_refl;
  wd_put_get := fun '(w, l) => eq_refl
|}.
Definition log_id (_ id _ : Z) (s : Watchdog_State * list Z) : Watchdog_State * list Z :=
  (s.1, s.2 ++ [id]).

Lemma watchdog_fires_on_time_witness :
  exists sk, ticks log_id Ticks 4 2 (wd_three, []) = Some sk /\ sk.2 = [100] /\
    exists s', _Watchdog_Tickle log_id 2 Ticks sk = Some s' /\ s'.2 = [100; 200].
Proof.
  destruct (watchdog_fires_on_time (H := HasWatchdog_log) log_id Ticks 2 (wd_three, []) 4) as (sk & E & _ & E');
    [done|exact wd_three_ok|reflexivity|simpl; lia|].
  exists sk. split_and!; [exact E| |].
  - vm_compute in E. injection E as <-. reflexivity.
  - eexists. split; [exact E'|]. vm_compute in E. injection E as <-. reflexivity.
Defined.

(** A forward adjustment of [units] is [units] ticks: with service routines that
    leave the watchdogs alone, [_Watchdog_Adjust] in the direction
    [WATCHDOG_FORWARD] ends in exactly the state that many calls of
    [_Watchdog_Tickle] would. *)
Theorem watchdog_adjust_forward_is_ticks {S} `{HasWatchdog S} (run : Z -> Z -> Z -> S -> S)
    h fuel (s : S) units :
  quiet run -> wd_ok (wd_get s) -> pending h (wd_get s) -> u32 units ->
  (length (chain_of h (wd_get s)) + 1 < fuel)%nat ->
  _Watchdog_Adjust run fuel h WATCHDOG_FORWARD units s = ticks run h (Z.to_nat units) fuel s.
Proof.
  intros Hq HS HP Hu Hf. unfold _Watchdog_Adjust.
  destruct (chain_of h (wd_get s)) as [|w l] eqn:El; [by rewrite ticks_empty|].
  rewrite <- El in Hf. apply adjust_forward_ticks; (done || lia).
Qed.

Lemma watchdog_adjust_forward_witness :
  _Watchdog_Adjust log_id 4 Ticks WATCHDOG_FORWARD 4 (wd_three, []) = ticks log_id Ticks 4 4 (wd_three, []).
Proof.
  apply (watchdog_adjust_forward_is_ticks (H := HasWatchdog_log) log_id Ticks 4 (wd_three, []) 4);
    [done|exact wd_three_ok|reflexivity|by_decide|simpl; lia].
Defined.

(** A removal can be lost.  [_Watchdog_Insert] marks the watchdog
    [WATCHDOG_BEING_INSERTED] and only later disables interrupts, and it looks at
    the mark again only after the flash point.  A service routine that removes
    the watchdog in between is told that the insertion will be aborted, yet the
    watchdog ends up active on the chain. *)
Theorem watchdog_insert_ignores_removal :
  let isr := fun s => snd (_Watchdog_Remove 30 s) in
  let before := upd 30 (set_initial 2) wd_three in
  fst (_Watchdog_Remove 30 (upd 30 (set_state WATCHDOG_BEING_INSERTED) before)) =
    WATCHDOG_BEING_INSERTED /\
  exists s', _Watchdog_Insert 4 isr Ticks 30 before = Some s' /\
    wd_state (ctl s' 30) = WATCHDOG_ACTIVE /\ chain_of Ticks s' = [30; 10; 20].
Proof.
  split; [reflexivity|]. eexists. split; [vm_compute; reflexivity|]. split; reflexivity.
Qed.
