(* ===== verification/Tod.v ===== *)
(** * Time of Day Handler (score/src/tod.c, score/inline/tod.inl, score/headers/tod.h)

    The calendar arithmetic on [unsigned32] fields, and the operations that drive
    it through the watchdog handler. *)
From S2P Require Import Prelude Chain Watchdog WatchdogProofs WatchdogOps WatchdogSpec.

(** ** Constants, tables and types (headers/tod.h) *)

Definition TOD_SECONDS_PER_MINUTE : Z := 60.
Definition TOD_MINUTES_PER_HOUR : Z := 60.
Definition TOD_MONTHS_PER_YEAR : Z := 12.
Definition TOD_DAYS_PER_YEAR : Z := 365.
Definition TOD_HOURS_PER_DAY : Z := 24.
Definition TOD_SECONDS_PER_DAY : Z :=
  TOD_SECONDS_PER_MINUTE * TOD_MINUTES_PER_HOUR * TOD_HOURS_PER_DAY.
Definition TOD_MICROSECONDS_PER_SECOND : Z := 1000000.
Definition TOD_BASE_YEAR : Z := 1988.

Record TOD_Control : Type := {
  year : Z;
  month : Z;
  day : Z;
  hour : Z;
  minute : Z;
  second : Z;
  tod_ticks : Z
}.

Definition table (t : list Z) (i : Z) : Z := nth (Z.to_nat i) t 0.

(** [leap] selects the row: 1 for leap years, 0 otherwise. *)
Definition _TOD_Days_per_month (leap : bool) : list Z :=
  if leap then [0; 31; 29; 31; 30; 31; 30; 31; 31; 30; 31; 30; 31]
  else [0; 31; 28; 31; 30; 31; 30; 31; 31; 30; 31; 30; 31].
Definition _TOD_Days_to_date (leap : bool) : list Z :=
  if leap then [0; 0; 31; 60; 91; 121; 152; 182; 213; 244; 274; 305; 335]
  else [0; 0; 31; 59; 90; 120; 151; 181; 212; 243; 273; 304; 334].
Definition _TOD_Days_since_last_leap_year : list Z := [0; 366; 731; 1096].

(** The variables of the handler. *)
Record TOD_State : Type := {
  _TOD_Is_set : bool;
  _TOD_Current : TOD_Control;
  _TOD_Seconds_since_epoch : Z;
  _TOD_Microseconds_per_tick : Z;
  _TOD_Ticks_per_second : Z
}.

(** ** Calendar arithmetic *)

Definition _TOD_Validate (ticks_per_second : Z) (the_tod : TOD_Control) : bool :=
  if (ticks_per_second <=? tod_ticks the_tod)
     || (TOD_SECONDS_PER_MINUTE <=? second the_tod)
     || (TOD_MINUTES_PER_HOUR <=? minute the_tod)
     || (TOD_HOURS_PER_DAY <=? hour the_tod)
     || (month the_tod =? 0)
     || (TOD_MONTHS_PER_YEAR <? month the_tod)
     || (year the_tod <? TOD_BASE_YEAR)
     || (day the_tod =? 0)
  then false
  else
    let days_in_month :=
      if year the_tod mod 4 =? 0 then table (_TOD_Days_per_month true) (month the_tod)
      else table (_TOD_Days_per_month false) (month the_tod) in
    negb (days_in_month <? day the_tod).

Definition _TOD_To_seconds (the_tod : TOD_Control) : Z :=
  let time := day the_tod -w 1 in
  let year_mod_4 := Z.land (year the_tod) 3 in
  let time :=
    if year_mod_4 =? 0 then time +w table (_TOD_Days_to_date true) (month the_tod)
    else time +w table (_TOD_Days_to_date false) (month the_tod) in
  let time := time +w (((year the_tod -w TOD_BASE_YEAR) / 4) *w ((TOD_DAYS_PER_YEAR *w 4) +w 1)) in
  let time := time +w table _TOD_Days_since_last_leap_year year_mod_4 in
  let time := time *w TOD_SECONDS_PER_DAY in
  let time := time +w (((hour the_tod *w TOD_MINUTES_PER_HOUR) +w minute the_tod)
                       *w TOD_SECONDS_PER_MINUTE) in
  time +w second the_tod.

(** The calendar part of [_TOD_Tickle]: the carries from second to year. *)
Definition tod_next_second (c : TOD_Control) : TOD_Control :=
  let mk y mo d h mi s :=
    {| year := y; month := mo; day := d; hour := h; minute := mi; second := s; tod_ticks := 0 |} in
  let s := second c +w 1 in
  if s <? TOD_SECONDS_PER_MINUTE then mk (year c) (month c) (day c) (hour c) (minute c) s else
  let mi := minute c +w 1 in
  if mi <? TOD_MINUTES_PER_HOUR then mk (year c) (month c) (day c) (hour c) mi 0 else
  let h := hour c +w 1 in
  if h <? TOD_HOURS_PER_DAY then mk (year c) (month c) (day c) h 0 0 else
  let leap := Z.land (year c) 3 =? 0 in
  let d := day c +w 1 in
  if d <=? table (_TOD_Days_per_month leap) (month c) then mk (year c) (month c) d 0 0 0 else
  let mo := month c +w 1 in
  if mo <=? TOD_MONTHS_PER_YEAR then mk (year c) mo 1 0 0 0 else
  mk (year c +w 1) 1 1 0 0 0.

(** ** Operations on the system state *)

Class HasTod (S : Type) : Type := {
  tod_get : S -> TOD_State;
  tod_put : TOD_State -> S -> S;
  tod_get_put : forall t s, tod_get (tod_put t s) = t
}.

Section TodOperations.
Context {S : Type} `{HasWatchdog S} `{HasTod S}.
(** The addresses of [_TOD_Seconds_watchdog] and of the code of [_TOD_Tickle]. *)
Context (_TOD_Seconds_watchdog tod_tickle_entry : Z).
(** Interrupts and service routines, as in [Watchdog]; disabling and enabling of
    dispatching, from the thread handler. *)
Context (fuel : nat) (isr : S -> S) (run : Z -> Z -> Z -> S -> S).
Context (_Thread_Disable_dispatch _Thread_Enable_dispatch : S -> S).

Definition tod_mod (f : TOD_State -> TOD_State) (s : S) : S := tod_put (f (tod_get s)) s.

Definition _TOD_Activate (ticks : Z) : S -> option S :=
  _Watchdog_Insert_ticks fuel isr _TOD_Seconds_watchdog ticks.

Definition _TOD_Deactivate (s : S) : S :=
  wd_mod (fun ws => snd (_Watchdog_Remove _TOD_Seconds_watchdog ws)) s.

Definition _TOD_Tickle_ticks (s : S) : S :=
  let s := tod_mod (fun t =>
    let c := _TOD_Current t in
    {| _TOD_Is_set := _TOD_Is_set t;
       _TOD_Current := {| year := year c; month := month c; day := day c; hour := hour c;
                          minute := minute c; second := second c; tod_ticks := tod_ticks c +w 1 |};
       _TOD_Seconds_since_epoch := _TOD_Seconds_since_epoch t;
       _TOD_Microseconds_per_tick := _TOD_Microseconds_per_tick t;
       _TOD_Ticks_per_second := _TOD_Ticks_per_second t |}) s in
  wd_mod (fun ws =>
    {| _Watchdog_Sync_level := _Watchdog_Sync_level ws; _Watchdog_Sync_count := _Watchdog_Sync_count ws;
       _Watchdog_Ticks_since_boot := _Watchdog_Ticks_since_boot ws +w 1;
       _ISR_Nest_level := _ISR_Nest_level ws; _Watchdog_Ticks_chain := _Watchdog_Ticks_chain ws;
       _Watchdog_Seconds_chain := _Watchdog_Seconds_chain ws; wd := wd ws |}) s.

Definition _TOD_Handler_initialization (microseconds_per_tick : Z) (s : S) : option S :=
  let ticks_per_second :=
    if microseconds_per_tick =? 0 then 0 else TOD_MICROSECONDS_PER_SECOND / microseconds_per_tick in
  let s := tod_mod (fun _ =>
    {| _TOD_Is_set := false;
       _TOD_Current := {| year := TOD_BASE_YEAR; month := 1; day := 1; hour := 0; minute := 0;
                          second := 0; tod_ticks := 0 |};
       _TOD_Seconds_since_epoch := 0;
       _TOD_Microseconds_per_tick := microseconds_per_tick;
       _TOD_Ticks_per_second := ticks_per_second |}) s in
  let s := wd_mod (_Watchdog_Initialize _TOD_Seconds_watchdog tod_tickle_entry 0 NULL) s in
  _TOD_Activate ticks_per_second s.

Definition _TOD_Set (the_tod : TOD_Control) (seconds_since_epoch : Z) (s : S) : option S :=
  let s := _Thread_Disable_dispatch s in
  let s := _TOD_Deactivate s in
  let now := _TOD_Seconds_since_epoch (tod_get s) in
  match
    (if seconds_since_epoch <? now
     then _Watchdog_Adjust_seconds run fuel WATCHDOG_BACKWARD (now -w seconds_since_epoch) s
     else _Watchdog_Adjust_seconds run fuel WATCHDOG_FORWARD (seconds_since_epoch -w now) s)
  with
  | None => None
  | Some s =>
      let t := tod_get s in
      let ticks_until_next_second := _TOD_Ticks_per_second t in
      let ticks_until_next_second :=
        if tod_ticks (_TOD_Current t) <? ticks_until_next_second
        then ticks_until_next_second -w tod_ticks (_TOD_Current t) else ticks_until_next_second in
      let s := tod_put
        {| _TOD_Is_set := true; _TOD_Current := the_tod;
           _TOD_Seconds_since_epoch := seconds_since_epoch;
           _TOD_Microseconds_per_tick := _TOD_Microseconds_per_tick t;
           _TOD_Ticks_per_second := _TOD_Ticks_per_second t |} s in
      match _TOD_Activate ticks_until_next_second s with
      | None => None
      | Some s => Some (_Thread_Enable_dispatch s)
      end
  end.

Definition _TOD_Tickle (s : S) : option S :=
  let s := tod_mod (fun t =>
    {| _TOD_Is_set := _TOD_Is_set t;
       _TOD_Current := tod_next_second (_TOD_Current t);
       _TOD_Seconds_since_epoch := _TOD_Seconds_since_epoch t +w 1;
       _TOD_Microseconds_per_tick := _TOD_Microseconds_per_tick t;
       _TOD_Ticks_per_second := _TOD_Ticks_per_second t |}) s in
  match _Watchdog_Tickle_seconds run fuel s with
  | None => None
  | Some s => _Watchdog_Insert_ticks fuel isr _TOD_Seconds_watchdog (_TOD_Ticks_per_second (tod_get s)) s
  end.
End TodOperations.
