(* ===== verification/TodSpec.v ===== *)
(** * Correctness of the calendar and of the one-second tick *)
From S2P Require Import Prelude Chain Watchdog WatchdogProofs WatchdogOps WatchdogSpec Tod.

(** ** The reference calendar

    Days and seconds since the epoch, counted year by year and month by month. *)

Definition is_leap (y : Z) : bool := y mod 4 =? 0.
Definition days_in_month (y m : Z) : Z := table (_TOD_Days_per_month (is_leap y)) m.

Fixpoint days_before_month (leap : bool) (m : nat) : Z :=
  match m with
  | O | 1%nat => 0
  | S m => days_before_month leap m + table (_TOD_Days_per_month leap) (Z.of_nat m)
  end.
Fixpoint days_before_year (n : nat) : Z :=
  match n with
  | O => 0
  | S n => days_before_year n + (if is_leap (TOD_BASE_YEAR + Z.of_nat n) then 366 else 365)
  end.

Definition day_number (c : TOD_Control) : Z :=
  days_before_year (Z.to_nat (year c - TOD_BASE_YEAR)) +
  days_before_month (is_leap (year c)) (Z.to_nat (month c)) + (day c - 1).
Definition tod_seconds (c : TOD_Control) : Z :=
  ((day_number c * 24 + hour c) * 60 + minute c) * 60 + second c.

(** A date and time that the calendar has, with its fields in range. *)
Record tod_valid (c : TOD_Control) : Prop := {
  tv_year : TOD_BASE_YEAR <= year c < two32 - 1;
  tv_month : 1 <= month c <= 12;
  tv_day : 1 <= day c <= days_in_month (year c) (month c);
  tv_hour : 0 <= hour c < 24;
  tv_minute : 0 <= minute c < 60;
  tv_second : 0 <= second c < 60
}.

Lemma land_3 y : Z.land y 3 = y mod 4.
Proof. change 3 with (Z.ones 2). by rewrite Z.land_ones by lia. Qed.

(** [eval_table] computes closed table entries and closed tests in the goal. *)
Ltac eval_table :=
  repeat match goal with
  | |- context [table ?t ?k] =>
      let v := eval vm_compute in (table t k) in is_ground v; change (table t k) with v
  | |- context [if ?b then _ else _] =>
      let v := eval vm_compute in b in is_ground v; change b with v; cbv iota
  end.

Lemma days_since_leap n :
  days_before_year n =
    (Z.of_nat n / 4) * 1461 + table _TOD_Days_since_last_leap_year (Z.of_nat n mod 4).
Proof.
  induction n as [|n IH]; [done|]. cbn [days_before_year]. rewrite IH. clear IH.
  unfold is_leap, TOD_BASE_YEAR.
  assert (exists q r, Z.of_nat n = 4 * q + r /\ 0 <= r < 4) as (q & r & E & Hr).
  { exists (Z.of_nat n / 4), (Z.of_nat n mod 4). split; [apply Z.div_mod; lia|apply Z.mod_pos_bound; lia]. }
  assert (r = 0 \/ r = 1 \/ r = 2 \/ r = 3) as Hc by lia.
  replace (Z.of_nat (S n)) with (4 * q + (r + 1)) by lia. rewrite E.
  assert (1988 + (4 * q + r) = r + (497 + q) * 4) as -> by lia. rewrite Z.mod_add by lia.
  assert (forall p k, 0 <= k < 4 -> (4 * p + k) / 4 = p /\ (4 * p + k) mod 4 = k) as HD.
  { intros p k Hk. split; [symmetry; apply (Z.div_unique _ _ _ k)|symmetry; apply (Z.mod_unique _ _ p)]; lia. }
  destruct (HD q r Hr) as [-> ->].
  destruct Hc as [-> | [-> | [-> | ->]]];
    [destruct (HD q (0 + 1)) as [-> ->]|destruct (HD q (1 + 1)) as [-> ->]
    |destruct (HD q (2 + 1)) as [-> ->]|replace (4 * q + (3 + 1)) with (4 * (q + 1) + 0) by lia;
     destruct (HD (q + 1) 0) as [-> ->]]; try lia; eval_table; lia.
Qed.

Lemma month_cases m (P : Z -> Prop) :
  Forall P [1; 2; 3; 4; 5; 6; 7; 8; 9; 10; 11; 12] -> 1 <= m <= 12 -> P m.
Proof.
  intros HF Hm. rewrite Forall_forall in HF. apply HF. rewrite !elem_of_cons. lia.
Qed.

Lemma days_to_date leap m :
  1 <= m <= 12 -> table (_TOD_Days_to_date leap) m = days_before_month leap (Z.to_nat m).
Proof. intros Hm. pattern m. apply month_cases; [|done]. destruct leap; repeat constructor. Qed.

Lemma days_before_next_month leap m :
  1 <= m <= 11 -> days_before_month leap (Z.to_nat (m + 1)) =
    days_before_month leap (Z.to_nat m) + table (_TOD_Days_per_month leap) m.
Proof.
  intros [H1 H2]. assert (1 <= m <= 12) as Hm by lia. revert H2. pattern m.
  apply month_cases; [|done].
  destruct leap; repeat constructor; intros; try reflexivity; lia.
Qed.

Lemma days_of_year leap :
  days_before_month leap 12 + table (_TOD_Days_per_month leap) 12 = if leap then 366 else 365.
Proof. by destruct leap. Qed.

(** ** Validation *)

Lemma validate_valid tps c :
  0 <= hour c -> 0 <= minute c -> 0 <= second c -> 0 <= month c -> 0 <= day c -> year c < two32 - 1 ->
  _TOD_Validate tps c = true -> tod_valid c /\ tod_ticks c < tps.
Proof.
  intros ? ? ? ? ? ?. unfold _TOD_Validate. case_match eqn:E; [done|]. bool_simp.
  unfold TOD_SECONDS_PER_MINUTE, TOD_MINUTES_PER_HOUR, TOD_HOURS_PER_DAY, TOD_MONTHS_PER_YEAR in *.
  intros HV. split; [|lia]. split; try lia. unfold days_in_month, is_leap.
  destruct (year c mod 4 =? 0); bool_simp; lia.
Qed.

Lemma valid_validate tps c : tod_valid c -> tod_ticks c < tps -> _TOD_Validate tps c = true.
Proof.
  intros [] Ht. unfold _TOD_Validate, TOD_SECONDS_PER_MINUTE, TOD_MINUTES_PER_HOUR,
    TOD_HOURS_PER_DAY, TOD_MONTHS_PER_YEAR.
  unfold days_in_month, is_leap in *.
  case_match eqn:E.
  - exfalso. rewrite !orb_true_iff in E. unfold TOD_BASE_YEAR in *. lia.
  - apply negb_true_iff, Z.ltb_ge. destruct (year c mod 4 =? 0); lia.
Qed.

(** ** [_TOD_To_seconds] *)

Lemma to_seconds_reference c : tod_valid c -> _TOD_To_seconds c = wrap32 (tod_seconds c).
Proof.
  intros [[Hy1 Hy2] Hm Hd Hh Hmi Hs]. unfold _TOD_To_seconds. rewrite land_3.
  set (time1 := if year c mod 4 =? 0 then _ else _).
  assert (time1 = (day c - 1) +w days_before_month (is_leap (year c)) (Z.to_nat (month c))) as ->.
  { subst time1. rewrite <- days_to_date by done. unfold is_leap.
    destruct (year c mod 4 =? 0); apply wrap32_eqm; by rewrite eqm32_wrap. }
  unfold TOD_DAYS_PER_YEAR, TOD_SECONDS_PER_DAY, TOD_SECONDS_PER_MINUTE, TOD_MINUTES_PER_HOUR,
    TOD_HOURS_PER_DAY in *.
  change ((365 *w 4) +w 1) with 1461. change (60 * 60 * 24) with 86400.
  rewrite (wrap32_small (year c - TOD_BASE_YEAR)) by (unfold u32, TOD_BASE_YEAR in *; lia).
  apply wrap32_eqm. rewrite !eqm32_wrap. apply eq_subrelation; [typeclasses eauto|].
  unfold tod_seconds, day_number. rewrite days_since_leap, !Z2Nat.id by lia.
  replace (year c mod 4) with ((year c - TOD_BASE_YEAR) mod 4); [lia|].
  unfold TOD_BASE_YEAR. replace (year c) with (year c - 1988 + 497 * 4) at 2 by lia.
  by rewrite Z.mod_add.
Qed.

(** ** One second later *)

Lemma days_in_month_range y m : 1 <= m <= 12 -> 28 <= days_in_month y m <= 31.
Proof.
  intros Hm. unfold days_in_month. pattern m. apply month_cases; [|done].
  destruct (is_leap y); by_decide.
Qed.

Lemma next_second_correct c :
  tod_valid c -> year c + 1 < two32 - 1 ->
  tod_valid (tod_next_second c) /\ tod_seconds (tod_next_second c) = tod_seconds c + 1 /\
  tod_ticks (tod_next_second c) = 0.
Proof.
  intros [[Hy1 Hy2] Hm Hd Hh Hmi Hs] Hy. pose proof (days_in_month_range (year c) _ Hm) as Hr.
  unfold tod_next_second, TOD_SECONDS_PER_MINUTE, TOD_MINUTES_PER_HOUR, TOD_HOURS_PER_DAY,
    TOD_MONTHS_PER_YEAR. rewrite land_3. fold (is_leap (year c)).
  change (table (_TOD_Days_per_month (is_leap (year c))) (month c)) with (days_in_month (year c) (month c)).
  rewrite !wrap32_small by (unfold u32, two32, TOD_BASE_YEAR in *; lia).
  unfold tod_seconds, day_number.
  repeat case_match; bool_simp; cbn [year month day hour minute second tod_ticks];
    (split; [split; cbn [year month day hour minute second]; try lia|split; [|done]]); try lia.
  - pose proof (days_in_month_range (year c) (month c + 1)). lia.
  - rewrite days_before_next_month by lia. fold (days_in_month (year c) (month c)). lia.
  - pose proof (days_in_month_range (year c + 1) 1). lia.
  - assert (month c = 12) as E12 by lia. rewrite E12 in *.
    replace (Z.to_nat (year c + 1 - TOD_BASE_YEAR)) with (S (Z.to_nat (year c - TOD_BASE_YEAR))) by lia.
    cbn [days_before_year]. replace (TOD_BASE_YEAR + _) with (year c) by lia.
    pose proof (days_of_year (is_leap (year c))) as HY. fold (days_in_month (year c) 12) in HY.
    change (Z.to_nat 12) with 12%nat. change (days_before_month _ (Z.to_nat 1)) with 0. lia.
Qed.

(** The calendar agrees with the seconds counter. *)
Definition tod_agrees (t : TOD_State) : Prop :=
  tod_valid (_TOD_Current t) /\ _TOD_Seconds_since_epoch t = wrap32 (tod_seconds (_TOD_Current t)).

(** ** The one-second service routine *)

Section Second.
Context {S : Type} `{HasWatchdog S} `{HasTod S}.
Context (tod_wd : Z) (fuel : nat) (run : Z -> Z -> Z -> S -> S).
(** The two parts of the state are separate, and service routines leave both
    alone. *)
Context (Hsep1 : forall w s, tod_get (wd_put w s) = tod_get s).
Context (Hsep2 : forall t s, wd_get (tod_put t s) = wd_get s).
Context (Hq : quiet run) (Hqt : forall r i u s, tod_get (run r i u s) = tod_get s).

Lemma fire_tod w s : tod_get (fire run w s) = tod_get s.
Proof.
  unfold fire. destruct (_Watchdog_Remove w (wd_get s)) as [[] ws']; by rewrite ?Hqt, Hsep1.
Qed.

Lemma fire_all_tod l s : tod_get (fold_left (fun s w => fire run w s) l s) = tod_get s.
Proof. revert s. induction l as [|w l IH]; intros s; [done|]. simpl. by rewrite IH, fire_tod. Qed.

Lemma ticked_tod h s : tod_get (ticked h s) = tod_get s.
Proof. unfold ticked, wd_mod. case_match; [done|]. by rewrite Hsep1. Qed.

Lemma insert_ticks_spec w n (s : S) :
  wd_ok (wd_get s) -> (forall h, w ∉ chain_of h (wd_get s)) -> 0 <= n < two32 ->
  (length (chain_of Ticks (wd_get s)) + 1 < fuel)%nat ->
  exists ws', _Watchdog_Insert_ticks fuel id w n s = Some (wd_put ws' s) /\ wd_ok ws' /\
    (w, n) ∈ expiries Ticks ws' /\ wd_state (ctl ws' w) = WATCHDOG_ACTIVE.
Proof.
  intros HS Hw Hn Hf. unfold _Watchdog_Insert_ticks, wd_mod.
  set (s0 := wd_put _ s). assert (wd_get s0 = upd w (set_initial n) (wd_get s)) as E0 by apply wd_get_put.
  assert (ctl (wd_get s0) w = set_initial n (ctl (wd_get s) w)) as Ec by (rewrite E0; apply ctl_upd_eq).
  assert (wd_ok (wd_get s0)) as HS0 by (rewrite E0; by apply set_initial_ok).
  assert (~ on_chain (wd_state (ctl (wd_get s) w))) as Hoff.
  { intros HO. apply (ok_on _ HS) in HO. apply elem_of_app in HO as [HO|HO].
    - by apply (Hw Ticks).
    - by apply (Hw Seconds). }
  destruct (insert_quiet fuel Ticks w s0 HS0) as (lev & la & lb & HP & E);
    [by rewrite Ec|by rewrite Ec|by rewrite E0, chain_of_upd|].
  assert (wd_ok (inserting w lev (wd_get s0))) as HS1 by (apply inserting_ok; [done|by rewrite Ec]).
  assert (wd_state (ctl (inserting w lev (wd_get s0)) w) = WATCHDOG_BEING_INSERTED) as Hst
    by by rewrite inserting_ctl.
  rewrite Ec in HP, E. simpl initial in HP, E.
  destruct (inserted_expiries Ticks w _ n (_ISR_Nest_level (wd_get s0)) HS1 Hn Hst la lb HP) as [_ X2].
  destruct (inserted_self Ticks w _ n (_ISR_Nest_level (wd_get s0)) HS1 Hn Hst la lb HP) as (X3 & _).
  eexists. rewrite E. unfold s0 at 3. rewrite wd_put_put.
  split_and!; [done|by apply inserted_ok|rewrite X2; set_solver|done].
Qed.

Lemma tod_tickle_spec (s : S) :
  let t := tod_get s in
  let ws := wd_get s in
  wd_ok ws -> pending Seconds ws -> (forall h, tod_wd ∉ chain_of h ws) ->
  (length (chain_of Seconds ws) <= fuel)%nat -> (length (chain_of Ticks ws) + 1 < fuel)%nat ->
  0 <= _TOD_Ticks_per_second t < two32 ->
  exists s', _TOD_Tickle tod_wd fuel id run s = Some s' /\
    tod_get s' =
      {| _TOD_Is_set := _TOD_Is_set t; _TOD_Current := tod_next_second (_TOD_Current t);
         _TOD_Seconds_since_epoch := _TOD_Seconds_since_epoch t +w 1;
         _TOD_Microseconds_per_tick := _TOD_Microseconds_per_tick t;
         _TOD_Ticks_per_second := _TOD_Ticks_per_second t |} /\
    wd_ok (wd_get s') /\ (tod_wd, _TOD_Ticks_per_second t) ∈ expiries Ticks (wd_get s') /\
    wd_state (ctl (wd_get s') tod_wd) = WATCHDOG_ACTIVE.
Proof.
  intros t ws HS HP Hw Hf1 Hf2 Ht. unfold _TOD_Tickle, _Watchdog_Tickle_seconds, tod_mod.
  set (s0 := tod_put _ s). assert (wd_get s0 = ws) as E0 by apply Hsep2.
  destruct (quiet_tickle run Seconds Hq fuel s0) as (s1 & E1 & HS1 & _ & Es1 & EX & EO);
    rewrite ?E0; try done.
  assert (tod_get s1 = tod_get s0) as ET by (rewrite Es1; by rewrite fire_all_tod, ticked_tod).
  rewrite E1, ET. rewrite E0 in EX, EO.
  assert (chain_of Ticks (wd_get s1) = chain_of Ticks ws) as EC.
  { rewrite <- (remaining_fst (dl (wd_get s1)) 0 (chain_of Ticks (wd_get s1))).
    fold (expiries Ticks (wd_get s1)). rewrite EO by done. apply remaining_fst. }
  destruct (insert_ticks_spec tod_wd (_TOD_Ticks_per_second t) s1) as (ws' & EI & HS' & HI & HA);
    [done| |done|by rewrite EC|].
  - intros []; [rewrite EC; apply Hw|]. intros Hin. apply (Hw Seconds).
    rewrite <- (remaining_fst (dl ws) 0 (chain_of Seconds ws)). fold (expiries Seconds ws).
    rewrite <- (remaining_fst (dl (wd_get s1)) 0 (chain_of Seconds (wd_get s1))) in Hin.
    fold (expiries Seconds (wd_get s1)) in Hin. rewrite EX in Hin. unfold later in Hin.
    apply list_elem_of_fmap in Hin as ([x y] & -> & Hin). apply list_elem_of_fmap in Hin as ([x' y'] & E & Hin).
    simplify_eq. apply list_elem_of_In, List.filter_In in Hin as [Hin _].
    apply list_elem_of_fmap. exists (x', y'). split; [done|by apply list_elem_of_In].
  - assert (_TOD_Ticks_per_second (tod_get s0) = _TOD_Ticks_per_second t) as ->
      by (unfold s0; by rewrite tod_get_put).
    rewrite EI. eexists. split; [done|]. rewrite Hsep1, ET, wd_get_put. unfold s0.
    by rewrite tod_get_put.
Qed.
End Second.

(** ** The theorems *)

(** The Gregorian calendar, counted from the start of 1988 with its own month lengths and
    the full rule for leap years. *)
Definition gregorian_leap (y : Z) : bool := (y mod 4 =? 0) && (negb (y mod 100 =? 0) || (y mod 400 =? 0)).
Definition month_length (leap : bool) (m : nat) : Z :=
  match m with
  | 4%nat | 6%nat | 9%nat | 11%nat => 30
  | 2%nat => if leap then 29 else 28
  | _ => 31
  end.
Definition sum_of (f : nat -> Z) (l : list nat) : Z := foldr (fun i z => f i + z) 0 l.
Definition gregorian_day (c : TOD_Control) : Z :=
  sum_of (fun i => if gregorian_leap (1988 + Z.of_nat i) then 366 else 365) (seq 0 (Z.to_nat (year c - 1988))) +
  sum_of (month_length (gregorian_leap (year c))) (seq 1 (Z.to_nat (month c) - 1)) + (day c - 1).
Definition gregorian_seconds (c : TOD_Control) : Z :=
  gregorian_day c * 86400 + hour c * 3600 + minute c * 60 + second c.

Lemma gregorian_leap_4 y : 1988 <= y < 2100 -> gregorian_leap y = is_leap y.
Proof.
  intros Hy. unfold gregorian_leap, is_leap. destruct (y mod 4 =? 0); [|done].
  destruct (Z.eqb_spec (y mod 100) 0) as [E|]; [|done].
  assert (y = 2000) as -> by (Z.div_mod_to_equations; lia). done.
Qed.

Lemma sum_of_snoc f l x : sum_of f (l ++ [x]) = sum_of f l + f x.
Proof. unfold sum_of. induction l as [|a l IH]; simpl; lia. Qed.

Lemma gregorian_years n : Z.of_nat n <= 112 ->
  sum_of (fun i => if gregorian_leap (1988 + Z.of_nat i) then 366 else 365) (seq 0 n) = days_before_year n.
Proof.
  induction n as [|n IH]; [done|]. intros Hn. rewrite seq_S, sum_of_snoc, IH, gregorian_leap_4 by lia. done.
Qed.

Lemma gregorian_months leap m : 1 <= m <= 12 ->
  sum_of (month_length leap) (seq 1 (Z.to_nat m - 1)) = days_before_month leap (Z.to_nat m).
Proof. intros Hm. pattern m. apply month_cases; [|done]. destruct leap; repeat constructor. Qed.

Lemma gregorian_until_2100 c : tod_valid c -> year c < 2100 -> gregorian_seconds c = tod_seconds c.
Proof.
  intros [[Hy1 _] Hm _ _ _ _] Hy. unfold gregorian_seconds, gregorian_day, tod_seconds, day_number, TOD_BASE_YEAR in *.
  rewrite gregorian_years, gregorian_leap_4, gregorian_months by lia. lia.
Qed.

(** The count fits into 32 bits until the end of 2123. *)
Lemma tod_seconds_fits c : tod_valid c -> year c < 2124 -> u32 (tod_seconds c).
Proof.
  intros [[Hy1 _] Hm Hd Hh Hmi Hs] Hy. unfold tod_seconds, day_number.
  assert (0 <= days_before_month (is_leap (year c)) (Z.to_nat (month c)) + (day c - 1) < 366) as HM.
  { revert Hd. unfold days_in_month. pattern (month c). apply month_cases; [|done].
    rewrite !Forall_cons. destruct (is_leap (year c)); split_and!; try apply Forall_nil_2; intros Hd;
      match type of Hd with context [table ?l ?m] => let v := eval vm_compute in (table l m) in change (table l m) with v in Hd end;
      match goal with |- context [days_before_month ?l ?m] =>
        let v := eval vm_compute in (days_before_month l m) in change (days_before_month l m) with v end; lia. }
  set (D := days_before_month _ _) in *. clearbody D.
  rewrite days_since_leap, Z2Nat.id by (unfold TOD_BASE_YEAR in *; lia). unfold TOD_BASE_YEAR in *.
  set (n := year c - 1988) in *. assert (0 <= n < 136) as Hn by lia. clearbody n.
  assert (0 <= table _TOD_Days_since_last_leap_year (n mod 4) <= 1096) as HT.
  { assert (n mod 4 = 0 \/ n mod 4 = 1 \/ n mod 4 = 2 \/ n mod 4 = 3) as [-> |[-> |[-> | ->]]]
      by (pose proof (Z.mod_pos_bound n 4); lia); vm_compute; split; discriminate. }
  set (T := table _ _) in *. clearbody T. assert (0 <= n / 4 <= 33) as HQ by (Z.div_mod_to_equations; lia).
  unfold u32, two32. lia.
Qed.

(** C39: [_TOD_To_seconds] of a valid date (every fourth year a leap year, as everywhere in the
    handler) computes the number of seconds since the start of 1988, counted year by year and
    month by month, modulo 2^32.  Up to the end of 2123 that number fits into 32 bits, so that
    nothing overflows; and up to the end of 2099, the limit that the comments of tod.c give, it
    is that of the Gregorian calendar.  Beyond these years the closed formula counts 29
    February 2100, or wraps around. *)
Theorem tod_to_seconds_correct c : tod_valid c ->
  _TOD_To_seconds c = wrap32 (tod_seconds c) /\
  (year c < 2124 -> _TOD_To_seconds c = tod_seconds c /\ tod_seconds c < two32) /\
  (year c < 2100 -> _TOD_To_seconds c = gregorian_seconds c).
Proof.
  intros HV. pose proof (to_seconds_reference c HV) as E. split; [done|].
  assert (year c < 2124 -> _TOD_To_seconds c = tod_seconds c) as H.
  { intros Hy. rewrite E. apply wrap32_small. by apply tod_seconds_fits. }
  split; intros Hy; [split; [by apply H|by apply tod_seconds_fits]|].
  rewrite gregorian_until_2100 by done. apply H. lia.
Qed.

Definition feb28_1992 : TOD_Control :=
  {| year := 1992; month := 2; day := 28; hour := 23; minute := 59; second := 59; tod_ticks := 3 |}.
Lemma feb28_1992_valid : tod_valid feb28_1992.
Proof. split; by_decide. Qed.

(** Four years, one of them a leap year, and 59 days before midnight. *)
Lemma tod_to_seconds_witness : _TOD_To_seconds feb28_1992 = (4 * 365 + 1 + 59) * 86400 - 1.
Proof.
  destruct (tod_to_seconds_correct feb28_1992 feb28_1992_valid) as (_ & _ & H). rewrite H by reflexivity.
  vm_compute. reflexivity.
Defined.

(** [_TOD_Validate] accepts exactly the dates and times of the calendar: for
    fields in the range of their type, TRUE is returned if and only if the date
    exists, the time of day is in range and the tick count is below the number of
    ticks per second. *)
Theorem tod_validate_correct tps c :
  0 <= hour c -> 0 <= minute c -> 0 <= second c -> 0 <= month c -> 0 <= day c -> year c < two32 - 1 ->
  _TOD_Validate tps c = true <-> tod_valid c /\ tod_ticks c < tps.
Proof.
  intros. split; [by apply validate_valid|]. intros [? ?]. by apply valid_validate.
Qed.

Lemma tod_validate_witness : _TOD_Validate 100 feb28_1992 = true.
Proof.
  apply tod_validate_correct; [discriminate..|reflexivity|]. split; [exact feb28_1992_valid|reflexivity].
Defined.

(** [_TOD_Tickle] advances the clock by one second and rearms itself.  Starting
    from a calendar that agrees with the seconds counter, and with service
    routines that leave watchdogs and calendar alone, it completes, the calendar is
    again a valid date that agrees with the counter (carries through minutes,
    hours, days, months and leap years included) and is one second later, and the
    one-second watchdog is active again, due after [_TOD_Ticks_per_second] ticks. *)
Theorem tod_tickle_correct {S} `{HasWatchdog S} `{HasTod S} tod_wd fuel
    (run : Z -> Z -> Z -> S -> S) (s : S) :
  (forall w s, tod_get (wd_put w s) = tod_get s) -> (forall t s, wd_get (tod_put t s) = wd_get s) ->
  quiet run -> (forall r i u s, tod_get (run r i u s) = tod_get s) ->
  wd_ok (wd_get s) -> pending Seconds (wd_get s) -> (forall h, tod_wd ∉ chain_of h (wd_get s)) ->
  (length (chain_of Seconds (wd_get s)) <= fuel)%nat ->
  (length (chain_of Ticks (wd_get s)) + 1 < fuel)%nat ->
  u32 (_TOD_Ticks_per_second (tod_get s)) ->
  tod_agrees (tod_get s) -> year (_TOD_Current (tod_get s)) + 1 < two32 - 1 ->
  exists s', _TOD_Tickle tod_wd fuel id run s = Some s' /\ tod_agrees (tod_get s') /\
    tod_seconds (_TOD_Current (tod_get s')) = tod_seconds (_TOD_Current (tod_get s)) + 1 /\
    wd_ok (wd_get s') /\
    (tod_wd, _TOD_Ticks_per_second (tod_get s)) ∈ expiries Ticks (wd_get s') /\
    wd_state (ctl (wd_get s') tod_wd) = WATCHDOG_ACTIVE.
Proof.
  intros Hsep1 Hsep2 Hq Hqt HS HP Hw Hf1 Hf2 Ht [HV HE] Hy.
  destruct (tod_tickle_spec tod_wd fuel run Hsep1 Hsep2 Hq Hqt s HS HP Hw Hf1 Hf2 Ht)
    as (s' & E & ET & HS' & HI & HA).
  destruct (next_second_correct _ HV Hy) as (HV' & EV & _).
  exists s'. split_and!; try done.
  - rewrite ET. split; simpl; [done|]. rewrite EV, HE. apply wrap32_eqm. by rewrite eqm32_wrap.
  - by rewrite ET.
Qed.

(** The two handlers side by side. *)
#[local] Instance HasWatchdog_tod : HasWatchdog (Watchdog_State * TOD_State) := {|
  wd_get := fst; wd_put := fun w s => (w, s.2);
  wd_get_put := fun _ _ => eq_refl; wd_put_put := fun _ _ _ => eq_refl;
  wd_put_get := fun '(w, l) => eq_refl
|}.
#[local] Instance HasTod_tod : HasTod (Watchdog_State * TOD_State) := {|
  tod_get := snd; tod_put := fun t s => (s.1, t); tod_get_put := fun _ _ => eq_refl
|}.

Lemma tod_tickle_witness :
  exists s', _TOD_Tickle 30 4 id (fun _ _ _ s => s)
      (wd_three, {| _TOD_Is_set := true; _TOD_Current := feb28_1992;
                    _TOD_Seconds_since_epoch := _TOD_To_seconds feb28_1992;
                    _TOD_Microseconds_per_tick := 10000; _TOD_Ticks_per_second := 100 |}) = Some s' /\
    _TOD_Current (tod_get s') =
      {| year := 1992; month := 2; day := 29; hour := 0; minute := 0; second := 0; tod_ticks := 0 |} /\
    chain_of Ticks (wd_get s') = [10; 20; 30].
Proof.
  destruct (tod_tickle_correct (H := HasWatchdog_tod) (H0 := HasTod_tod) 30 4 (fun _ _ _ s => s)
      (wd_three, {| _TOD_Is_set := true; _TOD_Current := feb28_1992;
                    _TOD_Seconds_since_epoch := _TOD_To_seconds feb28_1992;
                    _TOD_Microseconds_per_tick := 10000; _TOD_Ticks_per_second := 100 |}))
    as (s' & E & _).
  - done.
  - done.
  - done.
  - done.
  - exact wd_three_ok.
  - reflexivity.
  - intros []; by_decide.
  - simpl. lia.
  - simpl. lia.
  - by_decide.
  - split; [exact feb28_1992_valid|reflexivity].
  - reflexivity.
  - exists s'. split; [exact E|]. vm_compute in E. injection E as <-. split; reflexivity.
Defined.
