(* ===== verification/Priority.v ===== *)
(** * Priority and Bitfield Handlers (score/inline/priority.inl,
    score/headers/priority.h, score/headers/bitfield.h)

    The two-level bit map of the priorities that have ready threads, with the
    generic bit-field code (the SPARC port's choice), and its refinement to a set
    of priorities. *)
From S2P Require Import Prelude.

(** ** Data *)

Definition PRIORITY_MINIMUM : Z := 0.
Definition PRIORITY_MAXIMUM : Z := 255.

(** [Priority_Bit_map_control] is [unsigned16]; [minor] is the index of the slot
    of [_Priority_Bit_map] that the pointer of the structure designates. *)
Record Priority_Information : Type := {
  minor : Z;
  ready_major : Z;
  ready_minor : Z;
  block_major : Z;
  block_minor : Z
}.

Record Priority_State : Type := {
  _Priority_Major_bit_map : Z;
  _Priority_Bit_map : gmap Z Z
}.

Definition minor_map (s : Priority_State) (i : Z) : Z := _Priority_Bit_map s !!! i.

(** ** Bit fields *)

Definition __log2table : list Z :=
  [7; 7; 6; 6] ++ replicate 4 5 ++ replicate 8 4 ++ replicate 16 3 ++ replicate 32 2
  ++ replicate 64 1 ++ replicate 128 0.

Definition _Bitfield_Find_first_bit (value : Z) : Z :=
  if value <? 256 then nth (Z.to_nat value) __log2table 0 + 8
  else nth (Z.to_nat (Z.shiftr value 8)) __log2table 0.

(** ** Operations *)

Definition _Priority_Handler_initialization (s : Priority_State) : Priority_State :=
  {| _Priority_Major_bit_map := 0;
     _Priority_Bit_map :=
       foldl (fun m i => <[Z.of_nat i := 0]> m) (_Priority_Bit_map s) (seq 0 16) |}.

Definition _Priority_Is_valid (the_priority : Z) : bool := the_priority <=? PRIORITY_MAXIMUM.
Definition _Priority_Major (the_priority : Z) : Z := the_priority / 16.
Definition _Priority_Minor (the_priority : Z) : Z := the_priority mod 16.
Definition _Priority_Mask (bit_number : Z) : Z := Z.shiftr 32768 bit_number.
Definition _Priority_Bits_index (bit_number : Z) : Z := bit_number.

(** [~mask] stored in an [unsigned16]. *)
Definition not16 (z : Z) : Z := 65535 - z.

Definition _Priority_Add_to_bit_map (the_priority_map : Priority_Information) (s : Priority_State)
  : Priority_State :=
  {| _Priority_Bit_map :=
       <[minor the_priority_map := Z.lor (minor_map s (minor the_priority_map)) (ready_minor the_priority_map)]>
         (_Priority_Bit_map s);
     _Priority_Major_bit_map := Z.lor (_Priority_Major_bit_map s) (ready_major the_priority_map) |}.

Definition _Priority_Remove_from_bit_map (the_priority_map : Priority_Information) (s : Priority_State)
  : Priority_State :=
  let v := Z.land (minor_map s (minor the_priority_map)) (block_minor the_priority_map) in
  {| _Priority_Bit_map := <[minor the_priority_map := v]> (_Priority_Bit_map s);
     _Priority_Major_bit_map :=
       if v =? 0 then Z.land (_Priority_Major_bit_map s) (block_major the_priority_map)
       else _Priority_Major_bit_map s |}.

Definition _Priority_Get_highest (s : Priority_State) : Z :=
  let major := _Bitfield_Find_first_bit (_Priority_Major_bit_map s) in
  let minor := _Bitfield_Find_first_bit (minor_map s major) in
  Z.shiftl (_Priority_Bits_index major) 4 + _Priority_Bits_index minor.

Definition _Priority_Initialize_information (new_priority : Z) : Priority_Information :=
  let major := _Priority_Major new_priority in
  let minor := _Priority_Minor new_priority in
  {| minor := _Priority_Bits_index major;
     ready_major := _Priority_Mask major; block_major := not16 (_Priority_Mask major);
     ready_minor := _Priority_Mask minor; block_minor := not16 (_Priority_Mask minor) |}.

Definition _Priority_Is_group_empty (the_priority : Z) : bool := the_priority =? 0.

(** ** The set a bit map stands for *)

Definition prio (p : Z) : Prop := 0 <= p <= PRIORITY_MAXIMUM.

(** Priority [p] is in the map. *)
Definition is_set (s : Priority_State) (p : Z) : bool :=
  Z.testbit (minor_map s (p / 16)) (15 - p mod 16).

Record map_ok (s : Priority_State) : Prop := {
  mo_major : 0 <= _Priority_Major_bit_map s < 65536;
  mo_minor : forall i, 0 <= i < 16 -> 0 <= minor_map s i < 65536;
  mo_agree : forall i, 0 <= i < 16 ->
    Z.testbit (_Priority_Major_bit_map s) (15 - i) = negb (minor_map s i =? 0)
}.

(** *** Masks *)

Lemma mask_pow n : 0 <= n < 16 -> _Priority_Mask n = 2 ^ (15 - n).
Proof.
  intros Hn. unfold _Priority_Mask. change 32768 with (2 ^ 15).
  rewrite Z.shiftr_div_pow2 by lia. symmetry. apply Z.pow_sub_r; lia.
Qed.

Lemma mask_bit n k : 0 <= n < 16 -> Z.testbit (_Priority_Mask n) k = (k =? 15 - n).
Proof.
  intros Hn. rewrite mask_pow by done.
  destruct (Z.eqb_spec k (15 - n)) as [-> |Hk]; [apply Z.pow2_bits_true; lia|].
  apply Z.pow2_bits_false. lia.
Qed.

Lemma not16_bit n k :
  0 <= n < 16 -> 0 <= k < 16 -> Z.testbit (not16 (_Priority_Mask n)) k = negb (k =? 15 - n).
Proof.
  intros Hn Hk. unfold not16. rewrite mask_pow by done.
  replace (65535 - 2 ^ (15 - n)) with (Z.ldiff (Z.ones 16) (2 ^ (15 - n))).
  - rewrite Z.ldiff_spec, Z.ones_spec_low, Z.pow2_bits_eqb by lia. simpl. f_equal. lia.
  - rewrite <- Z.sub_nocarry_ldiff; [done|]. apply Z.bits_inj'. intros j Hj.
    rewrite Z.ldiff_spec, Z.bits_0, Z.pow2_bits_eqb by lia.
    destruct (Z.eqb_spec (15 - n) j) as [<- |]; [|done].
    by rewrite Z.ones_spec_low by lia.
Qed.

Lemma bits_16 a b : 0 <= a < 65536 -> 0 <= b < 65536 ->
  (forall k, 0 <= k < 16 -> Z.testbit a k = Z.testbit b k) -> a = b.
Proof.
  intros Ha Hb E. apply Z.bits_inj'. intros k Hk. destruct (Z.lt_ge_cases k 16) as [Hl|Hl]; [by apply E|].
  rewrite !Z.bits_above_log2; try done; try lia.
  - assert (b = 0 \/ 0 < b) as [-> | Hp] by lia; [simpl; lia|].
    assert (Z.log2 b < 16); [|lia]. apply Z.log2_lt_pow2; [done|]. change (2 ^ 16) with 65536. lia.
  - assert (a = 0 \/ 0 < a) as [-> | Hp] by lia; [simpl; lia|].
    assert (Z.log2 a < 16); [|lia]. apply Z.log2_lt_pow2; [done|]. change (2 ^ 16) with 65536. lia.
Qed.

Lemma bits_16_zero a : 0 <= a < 65536 -> a = 0 <-> forall k, 0 <= k < 16 -> Z.testbit a k = false.
Proof.
  intros Ha. split; [intros -> k _; apply Z.bits_0|]. intros E. apply bits_16; [done|lia|].
  intros k Hk. by rewrite E, Z.bits_0.
Qed.

(** *** The first bit *)

Lemma log2table_spec v : 1 <= v < 256 -> nth (Z.to_nat v) __log2table 0 = 7 - Z.log2 v.
Proof.
  intros Hv.
  assert (Forall (fun n => nth n __log2table 0 = 7 - Z.log2 (Z.of_nat n)) (seq 1 255)) as HF by by_decide.
  rewrite Forall_forall in HF. rewrite HF; [f_equal; f_equal; lia|].
  apply elem_of_seq. lia.
Qed.

Lemma find_first_bit_spec v : 1 <= v < 65536 -> _Bitfield_Find_first_bit v = 15 - Z.log2 v.
Proof.
  intros Hv. unfold _Bitfield_Find_first_bit. destruct (Z.ltb_spec v 256).
  - rewrite log2table_spec by lia. lia.
  - assert (1 <= Z.shiftr v 8 < 256).
    { rewrite Z.shiftr_div_pow2 by lia. change (2 ^ 8) with 256. Z.div_mod_to_equations; lia. }
    rewrite log2table_spec by done. rewrite Z.log2_shiftr by lia.
    assert (8 <= Z.log2 v) by (apply Z.log2_le_pow2; lia). lia.
Qed.

(** The first bit is the one with the lowest number. *)
Lemma find_first_bit_first v : 1 <= v < 65536 ->
  let n := _Bitfield_Find_first_bit v in
  0 <= n < 16 /\ Z.testbit v (15 - n) = true /\
  forall k, 0 <= k < 16 -> Z.testbit v (15 - k) = true -> n <= k.
Proof.
  intros Hv n. subst n. rewrite find_first_bit_spec by done.
  assert (0 <= Z.log2 v < 16).
  { split; [apply Z.log2_nonneg|]. apply Z.log2_lt_pow2; [lia|]. change (2 ^ 16) with 65536. lia. }
  split_and!; [lia..| |].
  - replace (15 - (15 - Z.log2 v)) with (Z.log2 v) by lia. apply Z.bit_log2. lia.
  - intros k Hk Hb. destruct (Z.lt_ge_cases (Z.log2 v) (15 - k)) as [Hl|]; [|lia].
    rewrite Z.bits_above_log2 in Hb by lia. done.
Qed.

(** *** The operations on the set *)

Lemma minor_map_insert i j v m z :
  minor_map {| _Priority_Bit_map := <[i := v]> m; _Priority_Major_bit_map := z |} j =
  if decide (i = j) then v else m !!! j.
Proof.
  unfold minor_map. simpl. case_decide as E; [subst; apply lookup_total_insert_eq|].
  by apply lookup_total_insert_ne.
Qed.

Lemma prio_split p : prio p -> 0 <= p / 16 < 16 /\ 0 <= p mod 16 < 16.
Proof. unfold prio, PRIORITY_MAXIMUM. intros. Z.div_mod_to_equations; lia. Qed.

Lemma prio_eq p q : p / 16 = q / 16 -> p mod 16 = q mod 16 -> p = q.
Proof. intros H1 H2. rewrite (Z.div_mod p 16), (Z.div_mod q 16) by lia. congruence. Qed.

Lemma lor_range a b : 0 <= a < 65536 -> 0 <= b < 65536 -> 0 <= Z.lor a b < 65536.
Proof.
  intros Ha Hb. split; [apply Z.lor_nonneg; lia|].
  assert (Z.lor a b = 0 \/ 0 < Z.lor a b) as [-> | Hp] by (assert (0 <= Z.lor a b) by (apply Z.lor_nonneg; lia); lia);
    [lia|].
  change 65536 with (2 ^ 16). apply Z.log2_lt_pow2; [done|]. rewrite Z.log2_lor by lia.
  apply Z.max_lub_lt.
  - assert (a = 0 \/ 0 < a) as [-> | ] by lia; [done|]. apply Z.log2_lt_pow2; [done|apply Ha || apply Hb].
  - assert (b = 0 \/ 0 < b) as [-> | ] by lia; [done|]. apply Z.log2_lt_pow2; [done|apply Ha || apply Hb].
Qed.

Lemma land_range a b : 0 <= a < 65536 -> 0 <= Z.land a b < 65536.
Proof.
  intros Ha. replace (Z.land a b) with (Z.land (Z.land a b) (Z.ones 16)).
  - rewrite Z.land_ones by lia. apply Z.mod_pos_bound. done.
  - rewrite <- Z.land_assoc, (Z.land_comm b), Z.land_assoc. f_equal.
    rewrite Z.land_ones by lia. by apply Z.mod_small.
Qed.

Lemma mask_range n : 0 <= n < 16 -> 0 < _Priority_Mask n < 65536.
Proof.
  intros Hn. rewrite mask_pow by done. split; [apply Z.pow_pos_nonneg; lia|].
  change 65536 with (2 ^ 16). apply Z.pow_lt_mono_r; lia.
Qed.

Section SetOperations.
Context (s : Priority_State) (Hs : map_ok s) (p : Z) (Hp : prio p).
Abbreviation info := (_Priority_Initialize_information p).

Lemma add_minor i : 0 <= i < 16 ->
  minor_map (_Priority_Add_to_bit_map info s) i =
  if decide (p / 16 = i) then Z.lor (minor_map s i) (_Priority_Mask (p mod 16)) else minor_map s i.
Proof.
  intros Hi. unfold _Priority_Add_to_bit_map. rewrite minor_map_insert. simpl.
  unfold _Priority_Bits_index, _Priority_Major. case_decide; by subst.
Qed.

Lemma add_set q : prio q ->
  is_set (_Priority_Add_to_bit_map info s) q = is_set s q || (q =? p).
Proof.
  intros Hq. destruct (prio_split p Hp), (prio_split q Hq). unfold is_set. rewrite add_minor by done.
  case_decide as E.
  - rewrite Z.lor_spec, mask_bit by done. f_equal.
    destruct (Z.eqb_spec q p) as [-> |Hne]; [by apply Z.eqb_eq|]. apply Z.eqb_neq.
    intros E2. apply Hne, prio_eq; [done|lia].
  - rewrite (proj2 (Z.eqb_neq q p)); [by rewrite orb_false_r|]. intros ->. done.
Qed.

Lemma add_ok : map_ok (_Priority_Add_to_bit_map info s).
Proof.
  destruct (prio_split p Hp) as [H1 H2]. pose proof (mask_range _ H1). pose proof (mask_range _ H2).
  split.
  - simpl. apply lor_range; [apply Hs|unfold _Priority_Major; lia].
  - intros i Hi. rewrite add_minor by done. case_decide; [|by apply Hs].
    apply lor_range; [by apply Hs|lia].
  - intros i Hi. rewrite add_minor by done. simpl. unfold _Priority_Major.
    rewrite Z.lor_spec, mask_bit, (mo_agree s Hs) by done. case_decide as E.
    + replace (15 - i =? 15 - p / 16) with true by lia. rewrite orb_true_r. symmetry.
      apply negb_true_iff, Z.eqb_neq. intros E0. apply Z.lor_eq_0_iff in E0. lia.
    + replace (15 - i =? 15 - p / 16) with false by lia. apply orb_false_r.
Qed.

Lemma remove_minor i : 0 <= i < 16 ->
  minor_map (_Priority_Remove_from_bit_map info s) i =
  if decide (p / 16 = i) then Z.land (minor_map s i) (not16 (_Priority_Mask (p mod 16)))
  else minor_map s i.
Proof.
  intros Hi. unfold _Priority_Remove_from_bit_map. rewrite minor_map_insert. simpl.
  unfold _Priority_Bits_index, _Priority_Major. case_decide; by subst.
Qed.

Lemma remove_set q : prio q ->
  is_set (_Priority_Remove_from_bit_map info s) q = is_set s q && negb (q =? p).
Proof.
  intros Hq. destruct (prio_split p Hp), (prio_split q Hq). unfold is_set. rewrite remove_minor by done.
  case_decide as E.
  - rewrite Z.land_spec, not16_bit by lia. f_equal. f_equal.
    destruct (Z.eqb_spec q p) as [-> |Hne]; [by apply Z.eqb_eq|]. apply Z.eqb_neq.
    intros E2. apply Hne, prio_eq; [done|lia].
  - rewrite (proj2 (Z.eqb_neq q p)); [by rewrite andb_true_r|]. intros ->. done.
Qed.

Lemma remove_ok : map_ok (_Priority_Remove_from_bit_map info s).
Proof.
  destruct (prio_split p Hp) as [H1 H2].
  set (v := Z.land (minor_map s (p / 16)) (not16 (_Priority_Mask (p mod 16)))).
  assert (_Priority_Major_bit_map (_Priority_Remove_from_bit_map info s) =
    if v =? 0 then Z.land (_Priority_Major_bit_map s) (not16 (_Priority_Mask (p / 16)))
    else _Priority_Major_bit_map s) as EM by done.
  split.
  - rewrite EM. case_match; [apply land_range|]; apply Hs.
  - intros i Hi. rewrite remove_minor by done. case_decide; [apply land_range|]; by apply Hs.
  - intros i Hi. rewrite remove_minor, EM by done. case_decide as E.
    + subst i. fold v. destruct (Z.eqb_spec v 0) as [E0|E0].
      * rewrite Z.land_spec, not16_bit by lia. replace (15 - p / 16 =? 15 - p / 16) with true by lia.
        apply andb_false_r.
      * rewrite (mo_agree s Hs) by done. f_equal. apply Z.eqb_neq. intros E1. apply E0.
        unfold v. by rewrite E1, Z.land_0_l.
    + rewrite <- (mo_agree s Hs) by done. destruct (v =? 0); [|done].
      rewrite Z.land_spec, not16_bit by lia. replace (15 - i =? 15 - p / 16) with false by lia.
      apply andb_true_r.
Qed.
End SetOperations.

Lemma initialization_minor s i : 0 <= i < 16 -> minor_map (_Priority_Handler_initialization s) i = 0.
Proof.
  intros Hi. unfold minor_map. simpl.
  assert (i = 0 \/ i = 1 \/ i = 2 \/ i = 3 \/ i = 4 \/ i = 5 \/ i = 6 \/ i = 7 \/ i = 8 \/ i = 9 \/ i = 10
    \/ i = 11 \/ i = 12 \/ i = 13 \/ i = 14 \/ i = 15) as Hc by lia.
  repeat (destruct Hc as [-> |Hc]); [..|rewrite Hc];
    repeat (rewrite lookup_total_insert_eq || rewrite lookup_total_insert_ne by done); done.
Qed.

Lemma initialization_ok s : map_ok (_Priority_Handler_initialization s).
Proof.
  split; [done|intros i Hi..]; rewrite initialization_minor by done; [lia|].
  simpl. apply Z.bits_0.
Qed.

Lemma initialization_set s q : prio q -> is_set (_Priority_Handler_initialization s) q = false.
Proof.
  intros Hq. destruct (prio_split q Hq) as [H1 _]. unfold is_set.
  rewrite initialization_minor by done. apply Z.bits_0.
Qed.

(** The highest priority of a non-empty map is its least element. *)
Lemma get_highest_least s q :
  map_ok s -> prio q -> is_set s q = true ->
  let p := _Priority_Get_highest s in
  prio p /\ is_set s p = true /\ forall r, prio r -> is_set s r = true -> p <= r.
Proof.
  intros Hs Hq Hset p. subst p. unfold _Priority_Get_highest, _Priority_Bits_index.
  assert (forall r, prio r -> is_set s r = true ->
    Z.testbit (_Priority_Major_bit_map s) (15 - r / 16) = true) as Hmaj.
  { intros r Hr Hsr. destruct (prio_split r Hr) as [H1 H2]. rewrite (mo_agree s Hs) by done.
    apply negb_true_iff, Z.eqb_neq. intros E. unfold is_set in Hsr. by rewrite E, Z.bits_0 in Hsr. }
  assert (1 <= _Priority_Major_bit_map s < 65536) as HM.
  { pose proof (mo_major s Hs). destruct (Z.eq_dec (_Priority_Major_bit_map s) 0) as [E|]; [|lia].
    specialize (Hmaj q Hq Hset). by rewrite E, Z.bits_0 in Hmaj. }
  destruct (find_first_bit_first _ HM) as (M1 & M2 & M3).
  set (mj := _Bitfield_Find_first_bit (_Priority_Major_bit_map s)) in *.
  assert (1 <= minor_map s mj < 65536) as HN.
  { pose proof (mo_minor s Hs mj M1). rewrite (mo_agree s Hs) in M2 by done.
    apply negb_true_iff, Z.eqb_neq in M2. lia. }
  destruct (find_first_bit_first _ HN) as (N1 & N2 & N3).
  set (mn := _Bitfield_Find_first_bit (minor_map s mj)) in *.
  rewrite Z.shiftl_mul_pow2 by lia. change (2 ^ 4) with 16.
  assert ((mj * 16 + mn) / 16 = mj /\ (mj * 16 + mn) mod 16 = mn) as [E1 E2]
    by (Z.div_mod_to_equations; lia).
  split_and!.
  - unfold prio, PRIORITY_MAXIMUM. lia.
  - unfold is_set. by rewrite E1, E2.
  - intros r Hr Hsr. destruct (prio_split r Hr) as [R1 R2]. specialize (M3 _ R1 (Hmaj r Hr Hsr)).
    rewrite (Z.div_mod r 16) by lia. destruct (Z.eq_dec mj (r / 16)) as [E|E]; [|lia].
    assert (mn <= r mod 16); [|lia]. apply N3; [done|]. unfold is_set in Hsr. by rewrite <- E in Hsr.
Qed.

(** ** The theorem *)

Inductive priority_op : Type := Op_add (p : Z) | Op_remove (p : Z).
Definition op_prio (op : priority_op) : Z := match op with Op_add p | Op_remove p => p end.
Definition run_bit_map (s : Priority_State) (op : priority_op) : Priority_State :=
  match op with
  | Op_add p => _Priority_Add_to_bit_map (_Priority_Initialize_information p) s
  | Op_remove p => _Priority_Remove_from_bit_map (_Priority_Initialize_information p) s
  end.
Definition run_set (S : gset Z) (op : priority_op) : gset Z :=
  match op with Op_add p => {[p]} ∪ S | Op_remove p => S ∖ {[p]} end.

Lemma run_bit_map_ok ops s S :
  map_ok s -> (forall p, prio p -> is_set s p = bool_decide (p ∈ S)) -> Forall (prio ∘ op_prio) ops ->
  map_ok (foldl run_bit_map s ops) /\
  forall p, prio p -> is_set (foldl run_bit_map s ops) p = bool_decide (p ∈ foldl run_set S ops).
Proof.
  revert s S. induction ops as [|op ops IH]; intros s S Hs HR HF; [done|].
  apply Forall_cons in HF as [Hop HF]. simpl in Hop |- *. apply IH; [| |done].
  - destruct op; [by apply add_ok|by apply remove_ok].
  - intros q Hq. destruct op as [p|p]; simpl in *.
    + rewrite add_set, HR by done.
      destruct (Z.eqb_spec q p); do 2 case_bool_decide; simpl; try done; set_solver.
    + rewrite remove_set, HR by done.
      destruct (Z.eqb_spec q p); do 2 case_bool_decide; simpl; try done; set_solver.
Qed.

(** C27: The two-level bit map implements a set of priorities.  After any sequence of
    additions and removals of valid priorities to an initialised map, exactly the
    members of the corresponding set are in the map, and on a non-empty set
    [_Priority_Get_highest], with its two table look-ups, returns the least
    member, that is the most important priority. *)
Theorem priority_bit_map_refines_set s ops :
  Forall (prio ∘ op_prio) ops ->
  let s' := foldl run_bit_map (_Priority_Handler_initialization s) ops in
  let S := foldl run_set ∅ ops in
  (forall p, prio p -> is_set s' p = bool_decide (p ∈ S)) /\
  (forall p, prio p -> p ∈ S ->
     _Priority_Get_highest s' ∈ S /\ _Priority_Get_highest s' <= p).
Proof.
  intros HF s' S.
  destruct (run_bit_map_ok ops (_Priority_Handler_initialization s) ∅) as [Hs HR];
    [apply initialization_ok|intros; by rewrite initialization_set|done|].
  fold s' S in Hs, HR. split; [done|]. intros p Hp Hin.
  destruct (get_highest_least s' p Hs Hp) as (H1 & H2 & H3); [rewrite HR by done; by apply bool_decide_eq_true|].
  rewrite HR in H2 by done. apply bool_decide_eq_true in H2. split; [done|].
  apply H3; [done|]. rewrite HR by done. by apply bool_decide_eq_true.
Qed.

Lemma priority_bit_map_witness :
  let s' := foldl run_bit_map
              (_Priority_Handler_initialization {| _Priority_Major_bit_map := 7; _Priority_Bit_map := ∅ |})
              [Op_add 200; Op_add 17; Op_add 3; Op_remove 3] in
  _Priority_Get_highest s' <= 200 /\ _Priority_Get_highest s' = 17.
Proof.
  intros s'. split; [|vm_compute; reflexivity].
  apply (priority_bit_map_refines_set _ [Op_add 200; Op_add 17; Op_add 3; Op_remove 3]);
    [repeat constructor; by_decide|by_decide|by_decide].
Defined.
