(* ===== verification/Object.v ===== *)
(** * Object Handler (score/src/object.c, score/src/objectmp.c, score/inline/object.inl,
    score/inline/objectmp.inl, score/headers/object.h)

    Object ids, the table of the objects of one class and the pool of its free
    control blocks, names, and the table of the global objects of other nodes.
    The table of a class is a list of pointers, [0] standing for [NULL]; names are
    bytes in memory.  The effects on dispatching that the look-ups have are
    arguments, supplied by the thread handler. *)
From S2P Require Import Prelude Chain.

(** ** Ids *)

Definition OBJECTS_NODE_START_BIT : Z := 16.
Definition OBJECTS_CLASS_START_BIT : Z := 26.
Definition OBJECTS_INDEX_VALID_BITS : Z := 65535.
Definition OBJECTS_NODE_VALID_BITS : Z := 1023.
Definition OBJECTS_CLASS_VALID_BITS : Z := 207.
Definition OBJECTS_CLASSES_LAST : Z := 17.
Definition OBJECTS_ID_OF_SELF : Z := 0.
Definition OBJECTS_SEARCH_ALL_NODES : Z := 0.
Definition OBJECTS_SEARCH_OTHER_NODES : Z := 2147483646.
Definition OBJECTS_SEARCH_LOCAL_NODE : Z := 2147483647.
Definition OBJECTS_ID_INITIAL_INDEX : Z := 0.
Definition OBJECTS_ID_FINAL : Z := two32 - 1.
Definition OBJECTS_NAME_ALIGNMENT : Z := 4.

Definition _Objects_Build_id (the_class node index : Z) : Z :=
  Z.lor (Z.lor (wrap32 (Z.shiftl the_class OBJECTS_CLASS_START_BIT))
               (wrap32 (Z.shiftl node OBJECTS_NODE_START_BIT))) index.
Definition _Objects_Get_class (id : Z) : Z :=
  Z.land (Z.shiftr id OBJECTS_CLASS_START_BIT) OBJECTS_CLASS_VALID_BITS.
Definition _Objects_Get_node (id : Z) : Z :=
  Z.land (Z.shiftr id OBJECTS_NODE_START_BIT) OBJECTS_NODE_VALID_BITS.
Definition _Objects_Get_index (id : Z) : Z := Z.land id OBJECTS_INDEX_VALID_BITS.
Definition _Objects_Is_class_valid (the_class : Z) : bool :=
  negb (the_class =? 0) && (the_class <=? OBJECTS_CLASSES_LAST).
Definition _Objects_Are_ids_equal (left right : Z) : bool := left =? right.

(** ** Data *)

Inductive Objects_Locations : Type := OBJECTS_LOCAL | OBJECTS_REMOTE | OBJECTS_ERROR.
Inductive Objects_Name_to_id_errors : Type :=
| OBJECTS_SUCCESSFUL (id : Z)
| OBJECTS_INVALID_NAME
| OBJECTS_INVALID_NODE.

Record Objects_Control : Type := { obj_id : Z; obj_name : Z }.
#[export] Instance Objects_Control_inhabited : Inhabited Objects_Control :=
  populate {| obj_id := 0; obj_name := 0 |}.

(** A global object: its control block, id and (one-word) name. *)
Record Objects_MP_Control : Type := { mp_object : Z; mp_id : Z; mp_name : Z }.

(** [global_table] is [None] when the pointer is [NULL]. *)
Record Objects_Information : Type := {
  the_class : Z;
  minimum_id : Z;
  maximum_id : Z;
  maximum : Z;
  local_table : list Z;
  name_table : Z;
  global_table : option (gmap Z (list Objects_MP_Control));
  Inactive : list Z;
  is_string : bool;
  name_length : Z;
  is_thread : bool
}.

(** The objects of a class: the information record, the control blocks and the
    memory of the names. *)
Record Objects_State : Type := {
  info : Objects_Information;
  objects : gmap Z Objects_Control;
  names : mem
}.

Definition set_info (i : Objects_Information) (s : Objects_State) : Objects_State :=
  {| info := i; objects := objects s; names := names s |}.
Definition set_names (m : mem) (s : Objects_State) : Objects_State :=
  {| info := info s; objects := objects s; names := m |}.
Definition set_local_table (t : list Z) (i : Objects_Information) : Objects_Information :=
  {| the_class := the_class i; minimum_id := minimum_id i; maximum_id := maximum_id i;
     maximum := maximum i; local_table := t; name_table := name_table i;
     global_table := global_table i; Inactive := Inactive i; is_string := is_string i;
     name_length := name_length i; is_thread := is_thread i |}.
Definition set_Inactive (l : list Z) (i : Objects_Information) : Objects_Information :=
  {| the_class := the_class i; minimum_id := minimum_id i; maximum_id := maximum_id i;
     maximum := maximum i; local_table := local_table i; name_table := name_table i;
     global_table := global_table i; Inactive := l; is_string := is_string i;
     name_length := name_length i; is_thread := is_thread i |}.

(** ** Names

    Words are copied, compared and cleared four bytes at a time. *)

Fixpoint clear_words (n : nat) (m : mem) (a : Z) : mem :=
  match n with
  | O => m
  | S n => clear_words n (st (st (st (st m a 0) (a + 1) 0) (a + 2) 0) (a + 3) 0) (a + 4)
  end.
Definition _Objects_Clear_name (m : mem) (name length : Z) : mem :=
  clear_words (Z.to_nat (length / OBJECTS_NAME_ALIGNMENT)) m name.

(** Copies up to and including the terminating zero byte, however far that is. *)
Fixpoint _Objects_Copy_name_string (fuel : nat) (m : mem) (source destination : Z) : option mem :=
  match fuel with
  | O => None
  | S fuel =>
      let c := ld m source in
      let m := st m destination c in
      if ld m source =? 0 then Some m
      else _Objects_Copy_name_string fuel m (source + 1) (destination + 1)
  end.

Fixpoint copy_words (n : nat) (m : mem) (source destination : Z) : mem :=
  match n with
  | O => m
  | S n =>
      let '(a, b, c, d) := (ld m source, ld m (source + 1), ld m (source + 2), ld m (source + 3)) in
      let m := st (st (st (st m destination a) (destination + 1) b) (destination + 2) c)
                 (destination + 3) d in
      copy_words n m (source + 4) (destination + 4)
  end.
Definition _Objects_Copy_name_raw (m : mem) (source destination length : Z) : mem :=
  copy_words (Z.to_nat (length / OBJECTS_NAME_ALIGNMENT)) m source destination.

(** [tmp_length] counts down from [length]; the loop ends at the latest when it
    reaches zero. *)
Fixpoint compare_string (tmp_length : nat) (m : mem) (name_1 name_2 : Z) : bool :=
  if negb (ld m name_1 =? ld m name_2) then false
  else
    match tmp_length with
    | O => false
    | S tmp_length =>
        if negb (ld m (name_1 + 1) =? 0) then compare_string tmp_length m (name_1 + 1) (name_2 + 1)
        else true
    end.
Definition _Objects_Compare_name_string (m : mem) (name_1 name_2 length : Z) : bool :=
  compare_string (Z.to_nat length) m name_1 name_2.

Definition word_eq (m : mem) (a b : Z) : bool :=
  (ld m a =? ld m b) && (ld m (a + 1) =? ld m (b + 1)) && (ld m (a + 2) =? ld m (b + 2))
  && (ld m (a + 3) =? ld m (b + 3)).
Fixpoint compare_words (n : nat) (m : mem) (name_1 name_2 : Z) : bool :=
  match n with
  | O => true
  | S n => if negb (word_eq m name_1 name_2) then false
           else compare_words n m (name_1 + 4) (name_2 + 4)
  end.
Definition _Objects_Compare_name_raw (m : mem) (name_1 name_2 length : Z) : bool :=
  compare_words (Z.to_nat (length / OBJECTS_NAME_ALIGNMENT)) m name_1 name_2.

(** ** The pool and the table of a class *)

(** A read of [local_table] outside its [maximum + 1] entries has no value. *)
Definition table_read (i : Objects_Information) (index : Z) : option Z :=
  if index <? 0 then None else local_table i !! Z.to_nat index.

Definition _Objects_Allocate (s : Objects_State) : Z * Objects_State :=
  match Inactive (info s) with
  | [] => (NULL, s)
  | o :: l => (o, set_info (set_Inactive l (info s)) s)
  end.

Definition _Objects_Free (the_object : Z) (s : Objects_State) : Objects_State :=
  set_info (set_Inactive (Inactive (info s) ++ [the_object]) (info s)) s.

Definition _Objects_Open (fuel : nat) (the_object name : Z) (s : Objects_State) : option Objects_State :=
  let o := objects s !!! the_object in
  let index := _Objects_Get_index (obj_id o) in
  let s := set_info (set_local_table (<[Z.to_nat index := the_object]> (local_table (info s))) (info s)) s in
  if is_string (info s) then
    match _Objects_Copy_name_string fuel (names s) name (obj_name o) with
    | Some m => Some (set_names m s)
    | None => None
    end
  else Some (set_names (_Objects_Copy_name_raw (names s) name (obj_name o) (name_length (info s))) s).

Definition _Objects_Close (the_object : Z) (s : Objects_State) : Objects_State :=
  let o := objects s !!! the_object in
  let index := _Objects_Get_index (obj_id o) in
  let s := set_info (set_local_table (<[Z.to_nat index := NULL]> (local_table (info s))) (info s)) s in
  set_names (_Objects_Clear_name (names s) (obj_name o) (name_length (info s))) s.

(** ** Nodes and look-ups *)

Section Lookup.
Context (_Objects_Local_node _Objects_Maximum_nodes : Z).

Definition _Objects_Is_local_node (node : Z) : bool := node =? _Objects_Local_node.
Definition _Objects_Is_local_id (id : Z) : bool := _Objects_Is_local_node (_Objects_Get_node id).

(** The loop over the chain of a node: the entry with the given id. *)
Fixpoint mp_find_id (l : list Objects_MP_Control) (the_id : Z) : option Objects_MP_Control :=
  match l with
  | [] => None
  | g :: l => if _Objects_Are_ids_equal (mp_id g) the_id then Some g else mp_find_id l the_id
  end.
Fixpoint mp_find_name (l : list Objects_MP_Control) (name : Z) : option Objects_MP_Control :=
  match l with
  | [] => None
  | g :: l => if mp_name g =? name then Some g else mp_find_name l name
  end.

Section Dispatching.
Context {T : Type} (_Thread_Disable_dispatch _Thread_Enable_dispatch _Thread_Unnest_dispatch : T -> T).

Definition _Objects_MP_Is_remote (i : Objects_Information) (the_id : Z) (t : T)
  : Objects_Locations * Z * T :=
  let node := _Objects_Get_node the_id in
  match global_table i with
  | Some g =>
      if (node =? 0) || _Objects_Is_local_node node || (_Objects_Maximum_nodes <? node)
      then (OBJECTS_ERROR, NULL, t)
      else
        let t := _Thread_Disable_dispatch t in
        match mp_find_id (g !!! node) the_id with
        | Some o => (OBJECTS_REMOTE, mp_object o, _Thread_Unnest_dispatch t)
        | None => (OBJECTS_ERROR, NULL, _Thread_Enable_dispatch t)
        end
  | None => (OBJECTS_ERROR, NULL, t)
  end.

(** [None]: the look-up reads outside the table. *)
Definition _Objects_Get (i : Objects_Information) (id : Z) (t : T)
  : option (Objects_Locations * Z * T) :=
  let index := id -w minimum_id i in
  if index <=? maximum i then
    let t := _Thread_Disable_dispatch t in
    match table_read i (index + 1) with
    | None => None
    | Some the_object =>
        if negb (the_object =? NULL) then Some (OBJECTS_LOCAL, the_object, t)
        else Some (OBJECTS_ERROR, NULL, _Thread_Enable_dispatch t)
    end
  else Some (_Objects_MP_Is_remote i id t).

(** The loop over the nodes [low_node .. high_node]. *)
Fixpoint global_search (n : nat) (g : gmap Z (list Objects_MP_Control)) (node_index name : Z)
  : option Objects_MP_Control :=
  match n with
  | O => None
  | S n =>
      match (if negb (_Objects_Is_local_node node_index) then mp_find_name (g !!! node_index) name
             else None) with
      | Some o => Some o
      | None => global_search n g (node_index + 1) name
      end
  end.

(** [name] is the word the name pointer designates. *)
Definition _Objects_MP_Global_name_search (i : Objects_Information) (name nodes_to_search : Z) (t : T)
  : Objects_Name_to_id_errors * T :=
  if _Objects_Maximum_nodes <? nodes_to_search then (OBJECTS_INVALID_NODE, t)
  else
    match global_table i with
    | None => (OBJECTS_INVALID_NAME, t)
    | Some g =>
        let '(low_node, high_node) :=
          if (nodes_to_search =? OBJECTS_SEARCH_ALL_NODES)
             || (nodes_to_search =? OBJECTS_SEARCH_OTHER_NODES)
          then (1, _Objects_Maximum_nodes) else (nodes_to_search, nodes_to_search) in
        let t := _Thread_Disable_dispatch t in
        match global_search (Z.to_nat (high_node - low_node + 1)) g low_node name with
        | Some o => (OBJECTS_SUCCESSFUL (mp_id o), _Thread_Enable_dispatch t)
        | None => (OBJECTS_INVALID_NAME, _Thread_Enable_dispatch t)
        end
    end.

(** The loop over the local table in [_Objects_Name_to_id]. *)
Fixpoint local_search (n : nat) (s : Objects_State) (index name : Z) : option Z :=
  match n with
  | O => None
  | S n =>
      let the_object := default NULL (table_read (info s) index) in
      let o := objects s !!! the_object in
      let compare := if is_string (info s) then _Objects_Compare_name_string else _Objects_Compare_name_raw in
      if (the_object =? NULL) || (obj_name o =? 0) then local_search n s (index + 1) name
      else if compare (names s) name (obj_name o) (name_length (info s)) then Some (obj_id o)
      else local_search n s (index + 1) name
  end.

Definition _Objects_Name_to_id (s : Objects_State) (name name_word node : Z) (t : T)
  : Objects_Name_to_id_errors * T :=
  if name =? 0 then (OBJECTS_INVALID_NAME, t)
  else
    let search_local_node :=
      negb (maximum (info s) =? 0)
      && ((node =? OBJECTS_SEARCH_ALL_NODES) || (node =? OBJECTS_SEARCH_LOCAL_NODE)
          || _Objects_Is_local_node node) in
    match (if search_local_node then local_search (Z.to_nat (maximum (info s))) s 1 name else None) with
    | Some id => (OBJECTS_SUCCESSFUL id, t)
    | None =>
        if _Objects_Is_local_node node || (node =? OBJECTS_SEARCH_LOCAL_NODE)
        then (OBJECTS_INVALID_NAME, t)
        else _Objects_MP_Global_name_search (info s) name_word node t
    end.

(** The do-while loop of [_Objects_Get_next]: the object and the next id. *)
Fixpoint get_next_loop (fuel : nat) (i : Objects_Information) (next_id : Z) (t : T)
  : option (Z * Z * T) :=
  match fuel with
  | O => None
  | S fuel =>
      if maximum i <? _Objects_Get_index next_id then Some (0, OBJECTS_ID_FINAL, t)
      else
        match _Objects_Get i next_id t with
        | None => None
        | Some (OBJECTS_LOCAL, object, t) => Some (object, next_id +w 1, t)
        | Some (_, _, t) => get_next_loop fuel i (next_id +w 1) t
        end
  end.
Definition _Objects_Get_next (fuel : nat) (i : Objects_Information) (id : Z) (t : T)
  : option (Z * Z * T) :=
  get_next_loop fuel i
    (if _Objects_Get_index id =? OBJECTS_ID_INITIAL_INDEX then minimum_id i else id) t.
End Dispatching.
End Lookup.

(** ** Initialization

    [alloc] hands out workspace memory ([_Workspace_Allocate_or_fatal_error]) from
    an allocator state: [None] is the fatal error. *)

Definition round_name_length (maximum_name_length : Z) : Z :=
  if negb (Z.land maximum_name_length (OBJECTS_NAME_ALIGNMENT - 1) =? 0)
  then Z.land (maximum_name_length +w OBJECTS_NAME_ALIGNMENT) (not32 (OBJECTS_NAME_ALIGNMENT - 1))
  else maximum_name_length.

(** The loop that numbers the control blocks. *)
Fixpoint number_objects (l : list Z) (the_class node index name_area name_length : Z)
    (m : gmap Z Objects_Control) : gmap Z Objects_Control :=
  match l with
  | [] => m
  | o :: l =>
      number_objects l the_class node (index + 1) (_Addresses_Add_offset name_area name_length) name_length
        (<[o := {| obj_id := _Objects_Build_id the_class node index; obj_name := name_area |}]> m)
  end.

Fixpoint block_array (start size : Z) (n : nat) : list Z :=
  match n with
  | O => []
  | S n => start :: block_array (_Addresses_Add_offset start size) size n
  end.

Section Initialize.
Context {A : Type} (alloc : Z -> A -> option (Z * A)).
Context (_Objects_Local_node _Objects_Maximum_nodes : Z) (is_multiprocessing : bool).

(** A sequence of allocations, in order. *)
Fixpoint alloc_all (sizes : list Z) (a : A) : option (list Z * A) :=
  match sizes with
  | [] => Some ([], a)
  | size :: sizes =>
      match alloc size a with
      | None => None
      | Some (p, a) =>
          match alloc_all sizes a with
          | None => None
          | Some (ps, a) => Some (p :: ps, a)
          end
      end
  end.

(** The local table, the names, the control blocks (unless there are none) and the
    global table (when there is one) are allocated in this order. *)
Definition _Objects_Initialize_information (class : Z) (supports_global : bool) (max size : Z)
    (is_str : bool) (maximum_name_length : Z) (is_thr : bool) (s : Objects_State) (a : A)
  : option (Objects_State * A) :=
  let minimum_index := if max =? 0 then 0 else 1 in
  let nl := round_name_length maximum_name_length in
  let global := supports_global && is_multiprocessing in
  let requests := [(max +w 1) *w 4; (max +w 1) *w nl] ++
                  (if max =? 0 then [] else [max *w size]) ++
                  (if global then [(_Objects_Maximum_nodes +w 1) *w 12] else []) in
  match alloc_all requests a with
  | None => None
  | Some (areas, a) =>
      let name_area := nth 1 areas NULL in
      let blocks := if max =? 0 then [] else block_array (nth 2 areas NULL) size (Z.to_nat max) in
      Some ({| info :=
                 {| the_class := class;
                    minimum_id := _Objects_Build_id class _Objects_Local_node minimum_index;
                    maximum_id := _Objects_Build_id class _Objects_Local_node max;
                    maximum := max;
                    local_table := replicate (Z.to_nat (max + 1)) NULL;
                    name_table := name_area;
                    global_table := if global then Some ∅ else None;
                    Inactive := blocks;
                    is_string := is_str; name_length := nl; is_thread := is_thr |};
               objects := number_objects blocks class _Objects_Local_node 1 name_area nl (objects s);
               names := names s |}, a)
  end.
End Initialize.
