(* ===== verification/ObjectSpec.v ===== *)
(** * Correctness of object ids, look-ups and names *)
From S2P Require Import Prelude Chain Object.

(** ** Ids *)

Lemma lor_add a b n : 0 <= n -> 0 <= b < 2 ^ n -> Z.lor (a * 2 ^ n) b = a * 2 ^ n + b.
Proof.
  intros Hn Hb.
  assert (Z.land (a * 2 ^ n) b = 0) as E.
  { apply Z.bits_inj'. intros k Hk. rewrite Z.land_spec, Z.bits_0.
    destruct (Z.lt_ge_cases k n).
    - by rewrite Z.mul_pow2_bits_low.
    - assert (b = 0 \/ 0 < b) as [-> | Hp] by lia; [by rewrite Z.bits_0, andb_false_r|].
      rewrite (Z.bits_above_log2 b); [apply andb_false_r|lia|].
      assert (Z.log2 b < n) by (apply Z.log2_lt_pow2; lia). lia. }
  by rewrite <- Z.lxor_lor, <- Z.add_nocarry_lxor.
Qed.

Lemma build_id_sum c n i :
  0 <= c < 64 -> 0 <= n < 1024 -> 0 <= i < 65536 ->
  _Objects_Build_id c n i = c * 67108864 + n * 65536 + i.
Proof.
  intros Hc Hn Hi. unfold _Objects_Build_id, OBJECTS_CLASS_START_BIT, OBJECTS_NODE_START_BIT.
  rewrite !Z.shiftl_mul_pow2 by lia.
  change (2 ^ 26) with 67108864. change (2 ^ 16) with 65536.
  rewrite !wrap32_small by (unfold u32, two32; lia).
  change 67108864 with (2 ^ 26). rewrite (lor_add c (n * 65536) 26) by (change (2 ^ 26) with 67108864; lia).
  change (2 ^ 26) with (1024 * 65536). replace (c * (1024 * 65536) + n * 65536) with ((c * 1024 + n) * 2 ^ 16)
    by (change (2 ^ 16) with 65536; lia).
  rewrite lor_add by (change (2 ^ 16) with 65536; lia). change (2 ^ 16) with 65536. lia.
Qed.

Section Decode.
Context (c n i : Z) (Hc : 0 <= c < 64) (Hn : 0 <= n < 1024) (Hi : 0 <= i < 65536).

Lemma get_index_build : _Objects_Get_index (_Objects_Build_id c n i) = i.
Proof.
  rewrite build_id_sum by done. unfold _Objects_Get_index, OBJECTS_INDEX_VALID_BITS.
  change 65535 with (Z.ones 16). rewrite Z.land_ones by lia. change (2 ^ 16) with 65536.
  Z.div_mod_to_equations; lia.
Qed.

Lemma get_node_build : _Objects_Get_node (_Objects_Build_id c n i) = n.
Proof.
  rewrite build_id_sum by done. unfold _Objects_Get_node, OBJECTS_NODE_VALID_BITS, OBJECTS_NODE_START_BIT.
  change 1023 with (Z.ones 10). rewrite Z.land_ones, Z.shiftr_div_pow2 by lia.
  change (2 ^ 16) with 65536. change (2 ^ 10) with 1024. Z.div_mod_to_equations; lia.
Qed.

Lemma get_class_build : _Objects_Get_class (_Objects_Build_id c n i) = Z.land c OBJECTS_CLASS_VALID_BITS.
Proof.
  rewrite build_id_sum by done. unfold _Objects_Get_class, OBJECTS_CLASS_START_BIT.
  rewrite Z.shiftr_div_pow2 by lia. change (2 ^ 26) with 67108864. f_equal.
  Z.div_mod_to_equations; lia.
Qed.
End Decode.

(** An id built from a class, a node and an index gives back the node and the
    index, and the class when the class is below 16. *)
Theorem objects_id_roundtrip c n i :
  0 <= c < 16 -> 0 <= n < 1024 -> 0 <= i < 65536 ->
  _Objects_Get_class (_Objects_Build_id c n i) = c /\
  _Objects_Get_node (_Objects_Build_id c n i) = n /\
  _Objects_Get_index (_Objects_Build_id c n i) = i.
Proof.
  intros Hc Hn Hi. rewrite get_class_build, get_node_build, get_index_build by lia.
  split_and!; [|done|done]. revert Hc. unfold OBJECTS_CLASS_VALID_BITS. intros Hc.
  assert (Forall (fun k => Z.land (Z.of_nat k) 207 = Z.of_nat k) (seq 0 16)) as HF by by_decide.
  rewrite Forall_forall in HF. specialize (HF (Z.to_nat c)). rewrite Z2Nat.id in HF by lia.
  apply HF, elem_of_seq. lia.
Qed.

Lemma objects_id_roundtrip_witness : _Objects_Get_class (_Objects_Build_id 2 1 5) = 2.
Proof. apply (objects_id_roundtrip 2 1 5); by_decide. Defined.

(** The class of a POSIX semaphore (16) or condition variable (17) cannot be
    read back from its id: the class mask 0xcf has a hole at bit 4, and the ids
    decode as classes 0 and 1. *)
Theorem objects_class_16_17_lost n i :
  0 <= n < 1024 -> 0 <= i < 65536 ->
  _Objects_Get_class (_Objects_Build_id 16 n i) = 0 /\
  _Objects_Get_class (_Objects_Build_id 17 n i) = 1.
Proof. intros Hn Hi. by rewrite !get_class_build. Qed.

Lemma objects_class_lost_witness : _Objects_Get_class (_Objects_Build_id 16 1 1) = 0.
Proof. apply (objects_class_16_17_lost 1 1); by_decide. Defined.

(** ** Look-ups *)

(** The table of a class of [maximum] objects on a single-node system. *)
Record table_ok (node : Z) (i : Objects_Information) : Prop := {
  to_class : 0 <= the_class i < 64;
  to_node : 0 <= node < 1024;
  to_max : 1 <= maximum i < 65535;
  to_min : minimum_id i = _Objects_Build_id (the_class i) node 1;
  to_table : Z.of_nat (length (local_table i)) = maximum i + 1;
  to_global : global_table i = None
}.

Section GetSpec.
Context (node max_nodes : Z) (i : Objects_Information) (Hi : table_ok node i).
Context {T : Type} (dis en un : T -> T).

Lemma min_id_value : minimum_id i = the_class i * 67108864 + node * 65536 + 1.
Proof. destruct Hi. rewrite to_min0. apply build_id_sum; lia. Qed.

Lemma get_spec k t :
  1 <= k <= maximum i ->
  _Objects_Get node max_nodes dis en un i (_Objects_Build_id (the_class i) node k) t =
    let o := nth (Z.to_nat k) (local_table i) NULL in
    Some (if o =? NULL then (OBJECTS_ERROR, NULL, en (dis t)) else (OBJECTS_LOCAL, o, dis t)).
Proof.
  intros Hk. unfold _Objects_Get. pose proof min_id_value as EM. destruct Hi.
  rewrite build_id_sum, EM by lia.
  replace (_ - _) with (k - 1) by lia. rewrite wrap32_small by (unfold u32, two32; lia).
  replace (k - 1 <=? maximum i) with true by lia. replace (k - 1 + 1) with k by lia.
  unfold table_read. replace (k <? 0) with false by lia.
  destruct (local_table i !! Z.to_nat k) as [o|] eqn:Eo.
  - rewrite (nth_lookup_Some _ _ _ _ Eo). destruct (Z.eqb_spec o NULL); done.
  - apply lookup_ge_None in Eo. lia.
Qed.

Lemma get_outside id t :
  u32 id -> maximum i < wrap32 (id - minimum_id i) ->
  _Objects_Get node max_nodes dis en un i id t = Some (OBJECTS_ERROR, NULL, t).
Proof.
  intros Hid Hout. unfold _Objects_Get. replace (wrap32 (id - minimum_id i) <=? maximum i) with false by lia.
  unfold _Objects_MP_Is_remote. by rewrite (to_global _ _ Hi).
Qed.

Lemma get_overrun t :
  _Objects_Get node max_nodes dis en un i (_Objects_Build_id (the_class i) node (maximum i + 1)) t = None.
Proof.
  unfold _Objects_Get. pose proof min_id_value as EM. destruct Hi. rewrite build_id_sum, EM by lia.
  replace (_ - _) with (maximum i) by lia. rewrite wrap32_small by (unfold u32, two32; lia).
  rewrite Z.leb_refl. unfold table_read. replace (maximum i + 1 <? 0) with false by lia.
  rewrite lookup_ge_None_2; [done|lia].
Qed.
End GetSpec.

(** [_Objects_Get] on a single-node system: the id of an object of the class
    finds the object that is open at its index, with dispatching left disabled;
    the id of an index where nothing is open is an error with dispatching enabled
    again; and an id outside the range of the class (another class or another node
    included) is an error that leaves dispatching alone. *)
Theorem objects_get_correct node max_nodes i {T} (dis en un : T -> T) t :
  table_ok node i ->
  (forall k, 1 <= k <= maximum i ->
     _Objects_Get node max_nodes dis en un i (_Objects_Build_id (the_class i) node k) t =
       let o := nth (Z.to_nat k) (local_table i) NULL in
       Some (if o =? NULL then (OBJECTS_ERROR, NULL, en (dis t)) else (OBJECTS_LOCAL, o, dis t))) /\
  (forall id, u32 id -> maximum i < wrap32 (id - minimum_id i) ->
     _Objects_Get node max_nodes dis en un i id t = Some (OBJECTS_ERROR, NULL, t)).
Proof. intros Hi. split; [intros; by apply get_spec|intros; by apply get_outside]. Qed.

Definition small_class : Objects_Information :=
  {| the_class := 2; minimum_id := _Objects_Build_id 2 1 1; maximum_id := _Objects_Build_id 2 1 3;
     maximum := 3; local_table := [0; 4096; 0; 4256]; name_table := 0; global_table := None;
     Inactive := [4176]; is_string := false; name_length := 4; is_thread := true |}.
Lemma small_class_ok : table_ok 1 small_class.
Proof. split; (reflexivity || by_decide). Qed.

Lemma objects_get_witness :
  _Objects_Get 1 1 (Z.add 1) Z.pred Z.pred small_class (_Objects_Build_id 2 1 3) 0 =
    Some (OBJECTS_LOCAL, 4256, 1) /\
  _Objects_Get 1 1 (Z.add 1) Z.pred Z.pred small_class (_Objects_Build_id 2 1 2) 0 =
    Some (OBJECTS_ERROR, NULL, 0).
Proof.
  destruct (objects_get_correct 1 1 small_class (Z.add 1) Z.pred Z.pred 0 small_class_ok) as [H _].
  split; [apply (H 3); by_decide|apply (H 2); by_decide].
Defined.

(** The bound check of [_Objects_Get] is off by one: for every class, the id one
    past the last object of the class passes the check and the look-up reads the
    entry one past the end of the table. *)
Theorem objects_get_reads_past_table node max_nodes i {T} (dis en un : T -> T) t :
  table_ok node i ->
  _Objects_Get node max_nodes dis en un i (_Objects_Build_id (the_class i) node (maximum i + 1)) t = None.
Proof. intros Hi. by apply get_overrun. Qed.

Lemma objects_get_reads_past_witness :
  _Objects_Get 1 1 (Z.add 1) Z.pred Z.pred small_class (_Objects_Build_id 2 1 4) 0 = None.
Proof. exact (objects_get_reads_past_table 1 1 small_class (Z.add 1) Z.pred Z.pred 0 small_class_ok). Defined.

(** ** Names *)

(** [_Objects_Compare_name_string] on a search name of [k] characters, at least
    one and no more than the length of a name, answers TRUE exactly when these
    [k] characters agree, whatever follows them in the object's name: a search for
    a name also finds every object whose name starts with it. *)
Theorem objects_compare_name_is_prefix m a b k len :
  (1 <= k)%nat -> Z.of_nat k <= len ->
  (forall j, (j < k)%nat -> ld m (a + Z.of_nat j) <> 0) -> ld m (a + Z.of_nat k) = 0 ->
  _Objects_Compare_name_string m a b len = true <->
  forall j, (j < k)%nat -> ld m (a + Z.of_nat j) = ld m (b + Z.of_nat j).
Proof.
  intros Hk Hlen Hnz H0. unfold _Objects_Compare_name_string.
  assert (exists n, Z.to_nat len = n /\ (k <= n)%nat) as (n & -> & Hn) by (exists (Z.to_nat len); lia).
  clear Hlen len. revert a b k Hk Hnz H0 Hn. induction n as [|n IH]; intros a b k Hk Hnz H0 Hn; [lia|].
  simpl. destruct (Z.eqb_spec (ld m a) (ld m b)) as [E|E]; simpl.
  - destruct (Z.eqb_spec (ld m (a + 1)) 0) as [E1|E1]; simpl.
    + assert (k = 1%nat) as ->.
      { destruct (Nat.eq_dec k 1) as [|Hne]; [done|]. by destruct (Hnz 1%nat ltac:(lia)). }
      split; [|done]. intros _ j Hj. assert (j = 0%nat) as -> by lia. by rewrite !Z.add_0_r.
    + destruct k as [|k]; [lia|]. destruct k as [|k]; [done|].
      rewrite (IH (a + 1) (b + 1) (S k)).
      * split; intros Hall j Hj.
        -- destruct j as [|j]; [by rewrite !Z.add_0_r|]. specialize (Hall j ltac:(lia)).
           replace (a + 1 + Z.of_nat j) with (a + Z.of_nat (S j)) in Hall by lia.
           by replace (b + 1 + Z.of_nat j) with (b + Z.of_nat (S j)) in Hall by lia.
        -- specialize (Hall (S j) ltac:(lia)).
           replace (a + 1 + Z.of_nat j) with (a + Z.of_nat (S j)) by lia.
           by replace (b + 1 + Z.of_nat j) with (b + Z.of_nat (S j)) by lia.
      * lia.
      * intros j Hj. replace (a + 1 + Z.of_nat j) with (a + Z.of_nat (S j)) by lia. apply Hnz. lia.
      * by replace (a + 1 + Z.of_nat (S k)) with (a + Z.of_nat (S (S k))) by lia.
      * lia.
  - split; [done|]. intros Hall. specialize (Hall 0%nat ltac:(lia)). by rewrite !Z.add_0_r in Hall.
Qed.

(** Searching for "TA" finds "TA1". *)
Definition two_names : mem :=
  <[100 := 84]> (<[101 := 65]> (<[102 := 0]> (<[200 := 84]> (<[201 := 65]> (<[202 := 49]> (<[203 := 0]> ∅)))))).

Lemma objects_compare_name_witness : _Objects_Compare_name_string two_names 100 200 8 = true.
Proof.
  apply (objects_compare_name_is_prefix two_names 100 200 2 8); [lia|lia| |reflexivity|].
  - intros [|[|j]] Hj; [discriminate|discriminate|lia].
  - intros [|[|j]] Hj; [reflexivity|reflexivity|lia].
Defined.

(** A search restricted to the other nodes never finds anything: the constant
    [OBJECTS_SEARCH_OTHER_NODES] is larger than any number of nodes, so the search
    is refused as an invalid node before the tables are looked at. *)
Theorem objects_search_other_nodes_refused node max_nodes i {T} (dis en : T -> T) name t :
  0 <= max_nodes < 1024 ->
  _Objects_MP_Global_name_search node max_nodes dis en i name OBJECTS_SEARCH_OTHER_NODES t =
    (OBJECTS_INVALID_NODE, t).
Proof.
  intros Hm. unfold _Objects_MP_Global_name_search, OBJECTS_SEARCH_OTHER_NODES.
  by replace (max_nodes <? 2147483646) with true by lia.
Qed.

Lemma objects_search_other_nodes_witness :
  _Objects_MP_Global_name_search 1 4 (Z.add 1) Z.pred small_class 65 OBJECTS_SEARCH_OTHER_NODES 0 =
    (OBJECTS_INVALID_NODE, 0).
Proof. apply objects_search_other_nodes_refused. lia. Defined.
