(* ===== verification/ApiTypes.v ===== *)
(** * The control blocks of the APIs (rtems/headers, posix/headers)

    Objects are named by the addresses of their control blocks.  The members that other
    handlers work on - watchdogs, thread queues, core objects, heaps - are at fixed offsets
    in them and kept in the states of those handlers.  The words of the memory that regions
    manage are in [region_memory]. *)
From S2P Require Import Prelude.

(** ** Asynchronous signals and the API part of a thread (asr.h, tasks.h) *)

Record ASR_Information : Type := {
  is_enabled : bool;
  handler : Z;
  asr_mode_set : Z;
  signals_posted : Z;
  signals_pending : Z;
  nest_level : Z
}.

Record RTEMS_API_Control : Type := {
  Notepads : list Z;
  pending_events : Z;
  event_condition : Z;
  Signal : ASR_Information
}.

Inductive Event_Sync_states : Type :=
| EVENT_SYNC_SYNCHRONIZED
| EVENT_SYNC_NOTHING_HAPPENED
| EVENT_SYNC_TIMEOUT
| EVENT_SYNC_SATISFIED.

#[export] Instance Event_Sync_states_eq_dec : EqDecision Event_Sync_states.
Proof. solve_decision. Defined.

(** ** Rate monotonic periods (ratemon.h); the [Timer] is at offset 16 *)

Inductive rtems_rate_monotonic_period_states : Type :=
| RATE_MONOTONIC_INACTIVE
| RATE_MONOTONIC_OWNER_IS_BLOCKING
| RATE_MONOTONIC_ACTIVE
| RATE_MONOTONIC_EXPIRED_WHILE_BLOCKING
| RATE_MONOTONIC_EXPIRED.

#[export] Instance period_states_eq_dec : EqDecision rtems_rate_monotonic_period_states.
Proof. solve_decision. Defined.

Record Rate_monotonic_Control : Type := {
  period_state : rtems_rate_monotonic_period_states;
  owner_ticks_executed_at_period : Z;
  time_at_period : Z;
  owner : Z
}.

(** ** Timers (timer.h); the [Ticker] is at offset 16 *)

Inductive Timer_Classes : Type :=
| TIMER_INTERVAL
| TIMER_TIME_OF_DAY
| TIMER_DORMANT.

#[export] Instance Timer_Classes_eq_dec : EqDecision Timer_Classes.
Proof. solve_decision. Defined.

Record Timer_Control : Type := {
  timer_class : Timer_Classes
}.

(** ** Regions (region.h); the [Wait_queue] is at offset 16 and the heap [Memory] at 104 *)

Record Region_Control : Type := {
  region_starting_address : Z;
  region_length : Z;
  region_page_size : Z;
  maximum_segment_size : Z;
  region_attribute_set : Z;
  region_used_blocks : Z
}.

(** ** Partitions (part.h): the free buffers are a chain *)

Record Partition_Control : Type := {
  partition_starting_address : Z;
  partition_length : Z;
  buffer_size : Z;
  partition_attribute_set : Z;
  number_of_used_blocks : Z;
  partition_Memory : list Z
}.

(** ** Dual-ported memory (dpmem.h) *)

Record Dual_ported_memory_Control : Type := {
  internal_base : Z;
  external_base : Z;
  port_length : Z
}.

(** ** Semaphores and message queues (sem.h, message.h); the core object is at offset 20 *)

Record Semaphore_Control : Type := {
  semaphore_attribute_set : Z
}.

Record Message_queue_Control : Type := {
  message_queue_attribute_set : Z
}.

(** ** Extensions of an API (score/headers/apiext.h): the addresses of routines *)

Record API_extensions_Control : Type := {
  predriver_hook : Z;
  postdriver_hook : Z;
  postswitch_hook : Z
}.

(** ** Keys, mutexes and condition variables of the POSIX API (posix/headers); the core mutex and the
    thread queue are at offset 20 and 24 *)

Record POSIX_Keys_Control : Type := {
  key_is_active : bool;
  destructor : Z;
  Values : gmap Z Z
}.

Record POSIX_Mutex_Control : Type := {
  mutex_process_shared : Z
}.

Record POSIX_Condition_variables_Control : Type := {
  cond_process_shared : Z;
  cond_Mutex : Z
}.

(** ** Semaphores of the POSIX API (posix/headers/semaphore.h); the core semaphore is at offset 32 *)

Record POSIX_Semaphore_Control : Type := {
  sem_process_shared : Z;
  sem_named : bool;
  sem_linked : bool;
  sem_open_count : Z
}.

(** ** Message queues of the POSIX API (posix/headers/mqueue.h); the core message queue is at offset 40, a
    [struct sigevent] is a list of words *)

Record POSIX_Message_queue_Control : Type := {
  pmq_process_shared : Z;
  pmq_flags : Z;
  pmq_named : bool;
  pmq_linked : bool;
  pmq_blocking : bool;
  pmq_open_count : Z;
  pmq_notification : list Z
}.

(** ** Times, scheduling parameters and threads of the POSIX API (posix/headers/threadsup.h)

    The queue [Join_List] and the watchdog [Sporadic_timer] are at fixed offsets. *)

Record timespec : Type := {
  tv_sec : Z;
  tv_nsec : Z
}.

Record sched_param : Type := {
  sched_priority : Z;
  ss_low_priority : Z;
  ss_replenish_period : timespec;
  ss_initial_budget : timespec
}.

Record pthread_attr_t : Type := {
  attr_is_initialized : bool;
  attr_stackaddr : Z;
  attr_stacksize : Z;
  attr_contentionscope : Z;
  attr_inheritsched : Z;
  attr_schedpolicy : Z;
  attr_schedparam : sched_param;
  attr_detachstate : Z;
  attr_cputime_clock_allowed : Z
}.

Record POSIX_API_Control : Type := {
  api_Attributes : pthread_attr_t;
  api_detachstate : Z;
  api_schedpolicy : Z;
  api_schedparam : sched_param;
  ss_high_priority : Z;
  signals_blocked : Z;
  thread_signals_pending : Z
}.

(** ** Signals of the POSIX API (posix/src/psignal.c, posix/headers/psignal.h)

    A value is the word of the union; a queued signal is the node that holds its information. *)

Record siginfo_t : Type := {
  si_signo : Z;
  si_code : Z;
  si_value : Z
}.

Record sigaction_t : Type := {
  sa_flags : Z;
  sa_mask : Z;
  sa_handler : Z
}.

Record POSIX_signals_State : Type := {
  _POSIX_signals_Pending : Z;
  _POSIX_signals_Vectors : gmap Z sigaction_t;
  _POSIX_signals_Inactive_siginfo : list Z;
  _POSIX_signals_Siginfo : gmap Z (list Z);
  siginfo_nodes : gmap Z siginfo_t
}.

(** ** The state of the APIs

    The threads whose [is_global] is set are [global_threads]. *)

Record RTEMS_State : Type := {
  apis : gmap Z RTEMS_API_Control;
  _Event_Sync_state : Event_Sync_states;
  _ISR_Signals_to_thread_executing : bool;
  region_memory : mem;
  partitions : gmap Z Partition_Control;
  ports : gmap Z Dual_ported_memory_Control;
  timers : gmap Z Timer_Control;
  periods : gmap Z Rate_monotonic_Control;
  regions : gmap Z Region_Control;
  api_semaphores : gmap Z Semaphore_Control;
  api_message_queues : gmap Z Message_queue_Control;
  global_threads : gset Z;
  _API_extensions_List : list Z;
  api_extensions : gmap Z API_extensions_Control;
  posix_keys : gmap Z POSIX_Keys_Control;
  posix_mutexes : gmap Z POSIX_Mutex_Control;
  posix_conditions : gmap Z POSIX_Condition_variables_Control;
  posix_semaphores : gmap Z POSIX_Semaphore_Control;
  posix_message_queues : gmap Z POSIX_Message_queue_Control;
  API_Extensions_POSIX : gmap Z Z;
  posix_apis : gmap Z POSIX_API_Control;
  posix_signals : POSIX_signals_State
}.

(** ** Zero-initialised storage *)

Definition zero_asr : ASR_Information :=
  {| is_enabled := false; handler := 0; asr_mode_set := 0; signals_posted := 0; signals_pending := 0; nest_level := 0 |}.
#[export] Instance RTEMS_API_Control_inhabited : Inhabited RTEMS_API_Control := populate
  {| Notepads := replicate 16 0; pending_events := 0; event_condition := 0; Signal := zero_asr |}.
#[export] Instance Rate_monotonic_Control_inhabited : Inhabited Rate_monotonic_Control := populate
  {| period_state := RATE_MONOTONIC_INACTIVE; owner_ticks_executed_at_period := 0; time_at_period := 0; owner := 0 |}.
#[export] Instance Timer_Control_inhabited : Inhabited Timer_Control := populate {| timer_class := TIMER_INTERVAL |}.
#[export] Instance Region_Control_inhabited : Inhabited Region_Control := populate
  {| region_starting_address := 0; region_length := 0; region_page_size := 0; maximum_segment_size := 0;
     region_attribute_set := 0; region_used_blocks := 0 |}.
#[export] Instance Partition_Control_inhabited : Inhabited Partition_Control := populate
  {| partition_starting_address := 0; partition_length := 0; buffer_size := 0; partition_attribute_set := 0;
     number_of_used_blocks := 0; partition_Memory := [] |}.
#[export] Instance Dual_ported_memory_Control_inhabited : Inhabited Dual_ported_memory_Control := populate
  {| internal_base := 0; external_base := 0; port_length := 0 |}.
#[export] Instance Semaphore_Control_inhabited : Inhabited Semaphore_Control := populate {| semaphore_attribute_set := 0 |}.
#[export] Instance Message_queue_Control_inhabited : Inhabited Message_queue_Control := populate
  {| message_queue_attribute_set := 0 |}.
#[export] Instance API_extensions_Control_inhabited : Inhabited API_extensions_Control := populate
  {| predriver_hook := 0; postdriver_hook := 0; postswitch_hook := 0 |}.
#[export] Instance POSIX_Keys_Control_inhabited : Inhabited POSIX_Keys_Control := populate
  {| key_is_active := false; destructor := 0; Values := ∅ |}.
#[export] Instance POSIX_Mutex_Control_inhabited : Inhabited POSIX_Mutex_Control := populate {| mutex_process_shared := 0 |}.
#[export] Instance POSIX_Condition_variables_Control_inhabited : Inhabited POSIX_Condition_variables_Control := populate
  {| cond_process_shared := 0; cond_Mutex := 0 |}.
#[export] Instance POSIX_Semaphore_Control_inhabited : Inhabited POSIX_Semaphore_Control := populate
  {| sem_process_shared := 0; sem_named := false; sem_linked := false; sem_open_count := 0 |}.
#[export] Instance POSIX_Message_queue_Control_inhabited : Inhabited POSIX_Message_queue_Control := populate
  {| pmq_process_shared := 0; pmq_flags := 0; pmq_named := false; pmq_linked := false; pmq_blocking := false; pmq_open_count := 0;
     pmq_notification := [] |}.
Definition zero_sched_param : sched_param :=
  {| sched_priority := 0; ss_low_priority := 0; ss_replenish_period := {| tv_sec := 0; tv_nsec := 0 |};
     ss_initial_budget := {| tv_sec := 0; tv_nsec := 0 |} |}.
Definition zero_pthread_attr : pthread_attr_t :=
  {| attr_is_initialized := false; attr_stackaddr := 0; attr_stacksize := 0; attr_contentionscope := 0; attr_inheritsched := 0;
     attr_schedpolicy := 0; attr_schedparam := zero_sched_param; attr_detachstate := 0; attr_cputime_clock_allowed := 0 |}.
#[export] Instance POSIX_API_Control_inhabited : Inhabited POSIX_API_Control := populate
  {| api_Attributes := zero_pthread_attr; api_detachstate := 0; api_schedpolicy := 0; api_schedparam := zero_sched_param;
     ss_high_priority := 0; signals_blocked := 0; thread_signals_pending := 0 |}.
#[export] Instance siginfo_t_inhabited : Inhabited siginfo_t := populate {| si_signo := 0; si_code := 0; si_value := 0 |}.
#[export] Instance sigaction_t_inhabited : Inhabited sigaction_t := populate {| sa_flags := 0; sa_mask := 0; sa_handler := 0 |}.
Definition zero_posix_signals : POSIX_signals_State :=
  {| _POSIX_signals_Pending := 0; _POSIX_signals_Vectors := ∅; _POSIX_signals_Inactive_siginfo := [];
     _POSIX_signals_Siginfo := ∅; siginfo_nodes := ∅ |}.
Definition zero_rtems : RTEMS_State :=
  {| apis := ∅; _Event_Sync_state := EVENT_SYNC_SYNCHRONIZED; _ISR_Signals_to_thread_executing := false;
     region_memory := ∅; partitions := ∅; ports := ∅; timers := ∅; periods := ∅; regions := ∅;
     api_semaphores := ∅; api_message_queues := ∅; global_threads := ∅; _API_extensions_List := [];
     api_extensions := ∅; posix_keys := ∅; posix_mutexes := ∅; posix_conditions := ∅;
     posix_semaphores := ∅; posix_message_queues := ∅; API_Extensions_POSIX := ∅; posix_apis := ∅; posix_signals := zero_posix_signals |}.

(** ** Field updates *)

Definition set_is_enabled (v : bool) (a : ASR_Information) : ASR_Information :=
  {| is_enabled := v; handler := handler a; asr_mode_set := asr_mode_set a;
     signals_posted := signals_posted a; signals_pending := signals_pending a; nest_level := nest_level a |}.
Definition set_handler (v : Z) (a : ASR_Information) : ASR_Information :=
  {| is_enabled := is_enabled a; handler := v; asr_mode_set := asr_mode_set a;
     signals_posted := signals_posted a; signals_pending := signals_pending a; nest_level := nest_level a |}.
Definition set_asr_mode_set (v : Z) (a : ASR_Information) : ASR_Information :=
  {| is_enabled := is_enabled a; handler := handler a; asr_mode_set := v;
     signals_posted := signals_posted a; signals_pending := signals_pending a; nest_level := nest_level a |}.
Definition set_signals_posted (v : Z) (a : ASR_Information) : ASR_Information :=
  {| is_enabled := is_enabled a; handler := handler a; asr_mode_set := asr_mode_set a;
     signals_posted := v; signals_pending := signals_pending a; nest_level := nest_level a |}.
Definition set_signals_pending (v : Z) (a : ASR_Information) : ASR_Information :=
  {| is_enabled := is_enabled a; handler := handler a; asr_mode_set := asr_mode_set a;
     signals_posted := signals_posted a; signals_pending := v; nest_level := nest_level a |}.
Definition set_nest_level (v : Z) (a : ASR_Information) : ASR_Information :=
  {| is_enabled := is_enabled a; handler := handler a; asr_mode_set := asr_mode_set a;
     signals_posted := signals_posted a; signals_pending := signals_pending a; nest_level := v |}.
Definition set_Notepads (v : list Z) (a : RTEMS_API_Control) : RTEMS_API_Control :=
  {| Notepads := v; pending_events := pending_events a; event_condition := event_condition a;
     Signal := Signal a |}.
Definition set_pending_events (v : Z) (a : RTEMS_API_Control) : RTEMS_API_Control :=
  {| Notepads := Notepads a; pending_events := v; event_condition := event_condition a;
     Signal := Signal a |}.
Definition set_Signal (v : ASR_Information) (a : RTEMS_API_Control) : RTEMS_API_Control :=
  {| Notepads := Notepads a; pending_events := pending_events a; event_condition := event_condition a;
     Signal := v |}.
Definition set_period_state (v : rtems_rate_monotonic_period_states) (p : Rate_monotonic_Control) : Rate_monotonic_Control :=
  {| period_state := v; owner_ticks_executed_at_period := owner_ticks_executed_at_period p; time_at_period := time_at_period p;
     owner := owner p |}.
Definition set_owner_ticks (v : Z) (p : Rate_monotonic_Control) : Rate_monotonic_Control :=
  {| period_state := period_state p; owner_ticks_executed_at_period := v; time_at_period := time_at_period p;
     owner := owner p |}.
Definition set_time_at_period (v : Z) (p : Rate_monotonic_Control) : Rate_monotonic_Control :=
  {| period_state := period_state p; owner_ticks_executed_at_period := owner_ticks_executed_at_period p; time_at_period := v;
     owner := owner p |}.
Definition set_owner (v : Z) (p : Rate_monotonic_Control) : Rate_monotonic_Control :=
  {| period_state := period_state p; owner_ticks_executed_at_period := owner_ticks_executed_at_period p; time_at_period := time_at_period p;
     owner := v |}.
Definition set_timer_class (v : Timer_Classes) (t : Timer_Control) : Timer_Control :=
  {| timer_class := v |}.
Definition set_region_length (v : Z) (r : Region_Control) : Region_Control :=
  {| region_starting_address := region_starting_address r; region_length := v; region_page_size := region_page_size r;
     maximum_segment_size := maximum_segment_size r; region_attribute_set := region_attribute_set r; region_used_blocks := region_used_blocks r |}.
Definition set_maximum_segment_size (v : Z) (r : Region_Control) : Region_Control :=
  {| region_starting_address := region_starting_address r; region_length := region_length r; region_page_size := region_page_size r;
     maximum_segment_size := v; region_attribute_set := region_attribute_set r; region_used_blocks := region_used_blocks r |}.
Definition set_region_used_blocks (v : Z) (r : Region_Control) : Region_Control :=
  {| region_starting_address := region_starting_address r; region_length := region_length r; region_page_size := region_page_size r;
     maximum_segment_size := maximum_segment_size r; region_attribute_set := region_attribute_set r; region_used_blocks := v |}.
Definition set_number_of_used_blocks (v : Z) (p : Partition_Control) : Partition_Control :=
  {| partition_starting_address := partition_starting_address p; partition_length := partition_length p; buffer_size := buffer_size p;
     partition_attribute_set := partition_attribute_set p; number_of_used_blocks := v; partition_Memory := partition_Memory p |}.
Definition set_partition_Memory (v : list Z) (p : Partition_Control) : Partition_Control :=
  {| partition_starting_address := partition_starting_address p; partition_length := partition_length p; buffer_size := buffer_size p;
     partition_attribute_set := partition_attribute_set p; number_of_used_blocks := number_of_used_blocks p; partition_Memory := v |}.
Definition set_key_is_active (v : bool) (c : POSIX_Keys_Control) : POSIX_Keys_Control :=
  {| key_is_active := v; destructor := destructor c; Values := Values c |}.
Definition set_Values (v : gmap Z Z) (c : POSIX_Keys_Control) : POSIX_Keys_Control :=
  {| key_is_active := key_is_active c; destructor := destructor c; Values := v |}.
Definition set_cond_Mutex (v : Z) (c : POSIX_Condition_variables_Control) : POSIX_Condition_variables_Control :=
  {| cond_process_shared := cond_process_shared c; cond_Mutex := v |}.
Definition set_sem_process_shared (v : Z) (c : POSIX_Semaphore_Control) : POSIX_Semaphore_Control :=
  {| sem_process_shared := v; sem_named := sem_named c; sem_linked := sem_linked c;
     sem_open_count := sem_open_count c |}.
Definition set_sem_named (v : bool) (c : POSIX_Semaphore_Control) : POSIX_Semaphore_Control :=
  {| sem_process_shared := sem_process_shared c; sem_named := v; sem_linked := sem_linked c;
     sem_open_count := sem_open_count c |}.
Definition set_sem_linked (v : bool) (c : POSIX_Semaphore_Control) : POSIX_Semaphore_Control :=
  {| sem_process_shared := sem_process_shared c; sem_named := sem_named c; sem_linked := v;
     sem_open_count := sem_open_count c |}.
Definition set_sem_open_count (v : Z) (c : POSIX_Semaphore_Control) : POSIX_Semaphore_Control :=
  {| sem_process_shared := sem_process_shared c; sem_named := sem_named c; sem_linked := sem_linked c;
     sem_open_count := v |}.
Definition set_pmq_process_shared (v : Z) (c : POSIX_Message_queue_Control) : POSIX_Message_queue_Control :=
  {| pmq_process_shared := v; pmq_flags := pmq_flags c; pmq_named := pmq_named c;
     pmq_linked := pmq_linked c; pmq_blocking := pmq_blocking c; pmq_open_count := pmq_open_count c;
     pmq_notification := pmq_notification c |}.
Definition set_pmq_flags (v : Z) (c : POSIX_Message_queue_Control) : POSIX_Message_queue_Control :=
  {| pmq_process_shared := pmq_process_shared c; pmq_flags := v; pmq_named := pmq_named c;
     pmq_linked := pmq_linked c; pmq_blocking := pmq_blocking c; pmq_open_count := pmq_open_count c;
     pmq_notification := pmq_notification c |}.
Definition set_pmq_named (v : bool) (c : POSIX_Message_queue_Control) : POSIX_Message_queue_Control :=
  {| pmq_process_shared := pmq_process_shared c; pmq_flags := pmq_flags c; pmq_named := v;
     pmq_linked := pmq_linked c; pmq_blocking := pmq_blocking c; pmq_open_count := pmq_open_count c;
     pmq_notification := pmq_notification c |}.
Definition set_pmq_linked (v : bool) (c : POSIX_Message_queue_Control) : POSIX_Message_queue_Control :=
  {| pmq_process_shared := pmq_process_shared c; pmq_flags := pmq_flags c; pmq_named := pmq_named c;
     pmq_linked := v; pmq_blocking := pmq_blocking c; pmq_open_count := pmq_open_count c;
     pmq_notification := pmq_notification c |}.
Definition set_pmq_blocking (v : bool) (c : POSIX_Message_queue_Control) : POSIX_Message_queue_Control :=
  {| pmq_process_shared := pmq_process_shared c; pmq_flags := pmq_flags c; pmq_named := pmq_named c;
     pmq_linked := pmq_linked c; pmq_blocking := v; pmq_open_count := pmq_open_count c;
     pmq_notification := pmq_notification c |}.
Definition set_pmq_open_count (v : Z) (c : POSIX_Message_queue_Control) : POSIX_Message_queue_Control :=
  {| pmq_process_shared := pmq_process_shared c; pmq_flags := pmq_flags c; pmq_named := pmq_named c;
     pmq_linked := pmq_linked c; pmq_blocking := pmq_blocking c; pmq_open_count := v;
     pmq_notification := pmq_notification c |}.
Definition set_pmq_notification (v : list Z) (c : POSIX_Message_queue_Control) : POSIX_Message_queue_Control :=
  {| pmq_process_shared := pmq_process_shared c; pmq_flags := pmq_flags c; pmq_named := pmq_named c;
     pmq_linked := pmq_linked c; pmq_blocking := pmq_blocking c; pmq_open_count := pmq_open_count c;
     pmq_notification := v |}.
Definition set_sched_priority (v : Z) (p : sched_param) : sched_param :=
  {| sched_priority := v; ss_low_priority := ss_low_priority p; ss_replenish_period := ss_replenish_period p;
     ss_initial_budget := ss_initial_budget p |}.
Definition set_attr_is_initialized (v : bool) (a : pthread_attr_t) : pthread_attr_t :=
  {| attr_is_initialized := v; attr_stackaddr := attr_stackaddr a; attr_stacksize := attr_stacksize a;
     attr_contentionscope := attr_contentionscope a; attr_inheritsched := attr_inheritsched a; attr_schedpolicy := attr_schedpolicy a;
     attr_schedparam := attr_schedparam a; attr_detachstate := attr_detachstate a; attr_cputime_clock_allowed := attr_cputime_clock_allowed a |}.
Definition set_attr_stackaddr (v : Z) (a : pthread_attr_t) : pthread_attr_t :=
  {| attr_is_initialized := attr_is_initialized a; attr_stackaddr := v; attr_stacksize := attr_stacksize a;
     attr_contentionscope := attr_contentionscope a; attr_inheritsched := attr_inheritsched a; attr_schedpolicy := attr_schedpolicy a;
     attr_schedparam := attr_schedparam a; attr_detachstate := attr_detachstate a; attr_cputime_clock_allowed := attr_cputime_clock_allowed a |}.
Definition set_attr_stacksize (v : Z) (a : pthread_attr_t) : pthread_attr_t :=
  {| attr_is_initialized := attr_is_initialized a; attr_stackaddr := attr_stackaddr a; attr_stacksize := v;
     attr_contentionscope := attr_contentionscope a; attr_inheritsched := attr_inheritsched a; attr_schedpolicy := attr_schedpolicy a;
     attr_schedparam := attr_schedparam a; attr_detachstate := attr_detachstate a; attr_cputime_clock_allowed := attr_cputime_clock_allowed a |}.
Definition set_attr_contentionscope (v : Z) (a : pthread_attr_t) : pthread_attr_t :=
  {| attr_is_initialized := attr_is_initialized a; attr_stackaddr := attr_stackaddr a; attr_stacksize := attr_stacksize a;
     attr_contentionscope := v; attr_inheritsched := attr_inheritsched a; attr_schedpolicy := attr_schedpolicy a;
     attr_schedparam := attr_schedparam a; attr_detachstate := attr_detachstate a; attr_cputime_clock_allowed := attr_cputime_clock_allowed a |}.
Definition set_attr_inheritsched (v : Z) (a : pthread_attr_t) : pthread_attr_t :=
  {| attr_is_initialized := attr_is_initialized a; attr_stackaddr := attr_stackaddr a; attr_stacksize := attr_stacksize a;
     attr_contentionscope := attr_contentionscope a; attr_inheritsched := v; attr_schedpolicy := attr_schedpolicy a;
     attr_schedparam := attr_schedparam a; attr_detachstate := attr_detachstate a; attr_cputime_clock_allowed := attr_cputime_clock_allowed a |}.
Definition set_attr_schedpolicy (v : Z) (a : pthread_attr_t) : pthread_attr_t :=
  {| attr_is_initialized := attr_is_initialized a; attr_stackaddr := attr_stackaddr a; attr_stacksize := attr_stacksize a;
     attr_contentionscope := attr_contentionscope a; attr_inheritsched := attr_inheritsched a; attr_schedpolicy := v;
     attr_schedparam := attr_schedparam a; attr_detachstate := attr_detachstate a; attr_cputime_clock_allowed := attr_cputime_clock_allowed a |}.
Definition set_attr_schedparam (v : sched_param) (a : pthread_attr_t) : pthread_attr_t :=
  {| attr_is_initialized := attr_is_initialized a; attr_stackaddr := attr_stackaddr a; attr_stacksize := attr_stacksize a;
     attr_contentionscope := attr_contentionscope a; attr_inheritsched := attr_inheritsched a; attr_schedpolicy := attr_schedpolicy a;
     attr_schedparam := v; attr_detachstate := attr_detachstate a; attr_cputime_clock_allowed := attr_cputime_clock_allowed a |}.
Definition set_attr_detachstate (v : Z) (a : pthread_attr_t) : pthread_attr_t :=
  {| attr_is_initialized := attr_is_initialized a; attr_stackaddr := attr_stackaddr a; attr_stacksize := attr_stacksize a;
     attr_contentionscope := attr_contentionscope a; attr_inheritsched := attr_inheritsched a; attr_schedpolicy := attr_schedpolicy a;
     attr_schedparam := attr_schedparam a; attr_detachstate := v; attr_cputime_clock_allowed := attr_cputime_clock_allowed a |}.
Definition set_attr_cputime_clock_allowed (v : Z) (a : pthread_attr_t) : pthread_attr_t :=
  {| attr_is_initialized := attr_is_initialized a; attr_stackaddr := attr_stackaddr a; attr_stacksize := attr_stacksize a;
     attr_contentionscope := attr_contentionscope a; attr_inheritsched := attr_inheritsched a; attr_schedpolicy := attr_schedpolicy a;
     attr_schedparam := attr_schedparam a; attr_detachstate := attr_detachstate a; attr_cputime_clock_allowed := v |}.
Definition set_api_Attributes (v : pthread_attr_t) (a : POSIX_API_Control) : POSIX_API_Control :=
  {| api_Attributes := v; api_detachstate := api_detachstate a; api_schedpolicy := api_schedpolicy a;
     api_schedparam := api_schedparam a; ss_high_priority := ss_high_priority a; signals_blocked := signals_blocked a;
     thread_signals_pending := thread_signals_pending a |}.
Definition set_api_detachstate (v : Z) (a : POSIX_API_Control) : POSIX_API_Control :=
  {| api_Attributes := api_Attributes a; api_detachstate := v; api_schedpolicy := api_schedpolicy a;
     api_schedparam := api_schedparam a; ss_high_priority := ss_high_priority a; signals_blocked := signals_blocked a;
     thread_signals_pending := thread_signals_pending a |}.
Definition set_api_schedpolicy (v : Z) (a : POSIX_API_Control) : POSIX_API_Control :=
  {| api_Attributes := api_Attributes a; api_detachstate := api_detachstate a; api_schedpolicy := v;
     api_schedparam := api_schedparam a; ss_high_priority := ss_high_priority a; signals_blocked := signals_blocked a;
     thread_signals_pending := thread_signals_pending a |}.
Definition set_api_schedparam (v : sched_param) (a : POSIX_API_Control) : POSIX_API_Control :=
  {| api_Attributes := api_Attributes a; api_detachstate := api_detachstate a; api_schedpolicy := api_schedpolicy a;
     api_schedparam := v; ss_high_priority := ss_high_priority a; signals_blocked := signals_blocked a;
     thread_signals_pending := thread_signals_pending a |}.
Definition set_ss_high_priority (v : Z) (a : POSIX_API_Control) : POSIX_API_Control :=
  {| api_Attributes := api_Attributes a; api_detachstate := api_detachstate a; api_schedpolicy := api_schedpolicy a;
     api_schedparam := api_schedparam a; ss_high_priority := v; signals_blocked := signals_blocked a;
     thread_signals_pending := thread_signals_pending a |}.
Definition set_signals_blocked (v : Z) (a : POSIX_API_Control) : POSIX_API_Control :=
  {| api_Attributes := api_Attributes a; api_detachstate := api_detachstate a; api_schedpolicy := api_schedpolicy a;
     api_schedparam := api_schedparam a; ss_high_priority := ss_high_priority a; signals_blocked := v;
     thread_signals_pending := thread_signals_pending a |}.
Definition set_thread_signals_pending (v : Z) (a : POSIX_API_Control) : POSIX_API_Control :=
  {| api_Attributes := api_Attributes a; api_detachstate := api_detachstate a; api_schedpolicy := api_schedpolicy a;
     api_schedparam := api_schedparam a; ss_high_priority := ss_high_priority a; signals_blocked := signals_blocked a;
     thread_signals_pending := v |}.
Definition set_signals_Pending (v : Z) (s : POSIX_signals_State) : POSIX_signals_State :=
  {| _POSIX_signals_Pending := v; _POSIX_signals_Vectors := _POSIX_signals_Vectors s; _POSIX_signals_Inactive_siginfo := _POSIX_signals_Inactive_siginfo s;
     _POSIX_signals_Siginfo := _POSIX_signals_Siginfo s; siginfo_nodes := siginfo_nodes s |}.
Definition set_signals_Vectors (v : gmap Z sigaction_t) (s : POSIX_signals_State) : POSIX_signals_State :=
  {| _POSIX_signals_Pending := _POSIX_signals_Pending s; _POSIX_signals_Vectors := v; _POSIX_signals_Inactive_siginfo := _POSIX_signals_Inactive_siginfo s;
     _POSIX_signals_Siginfo := _POSIX_signals_Siginfo s; siginfo_nodes := siginfo_nodes s |}.
Definition set_Inactive_siginfo (v : list Z) (s : POSIX_signals_State) : POSIX_signals_State :=
  {| _POSIX_signals_Pending := _POSIX_signals_Pending s; _POSIX_signals_Vectors := _POSIX_signals_Vectors s; _POSIX_signals_Inactive_siginfo := v;
     _POSIX_signals_Siginfo := _POSIX_signals_Siginfo s; siginfo_nodes := siginfo_nodes s |}.
Definition set_signals_Siginfo (v : gmap Z (list Z)) (s : POSIX_signals_State) : POSIX_signals_State :=
  {| _POSIX_signals_Pending := _POSIX_signals_Pending s; _POSIX_signals_Vectors := _POSIX_signals_Vectors s; _POSIX_signals_Inactive_siginfo := _POSIX_signals_Inactive_siginfo s;
     _POSIX_signals_Siginfo := v; siginfo_nodes := siginfo_nodes s |}.
Definition set_siginfo_nodes (v : gmap Z siginfo_t) (s : POSIX_signals_State) : POSIX_signals_State :=
  {| _POSIX_signals_Pending := _POSIX_signals_Pending s; _POSIX_signals_Vectors := _POSIX_signals_Vectors s; _POSIX_signals_Inactive_siginfo := _POSIX_signals_Inactive_siginfo s;
     _POSIX_signals_Siginfo := _POSIX_signals_Siginfo s; siginfo_nodes := v |}.
Definition set_apis (v : gmap Z RTEMS_API_Control) (r : RTEMS_State) : RTEMS_State :=
  {| apis := v; _Event_Sync_state := _Event_Sync_state r; _ISR_Signals_to_thread_executing := _ISR_Signals_to_thread_executing r;
     region_memory := region_memory r; partitions := partitions r; ports := ports r;
     timers := timers r; periods := periods r; regions := regions r;
     api_semaphores := api_semaphores r; api_message_queues := api_message_queues r; global_threads := global_threads r;
     _API_extensions_List := _API_extensions_List r; api_extensions := api_extensions r; posix_keys := posix_keys r;
     posix_mutexes := posix_mutexes r; posix_conditions := posix_conditions r; posix_semaphores := posix_semaphores r;
     posix_message_queues := posix_message_queues r; API_Extensions_POSIX := API_Extensions_POSIX r; posix_apis := posix_apis r;
     posix_signals := posix_signals r |}.
Definition set_Event_Sync_state (v : Event_Sync_states) (r : RTEMS_State) : RTEMS_State :=
  {| apis := apis r; _Event_Sync_state := v; _ISR_Signals_to_thread_executing := _ISR_Signals_to_thread_executing r;
     region_memory := region_memory r; partitions := partitions r; ports := ports r;
     timers := timers r; periods := periods r; regions := regions r;
     api_semaphores := api_semaphores r; api_message_queues := api_message_queues r; global_threads := global_threads r;
     _API_extensions_List := _API_extensions_List r; api_extensions := api_extensions r; posix_keys := posix_keys r;
     posix_mutexes := posix_mutexes r; posix_conditions := posix_conditions r; posix_semaphores := posix_semaphores r;
     posix_message_queues := posix_message_queues r; API_Extensions_POSIX := API_Extensions_POSIX r; posix_apis := posix_apis r;
     posix_signals := posix_signals r |}.
Definition set_Signals_to_thread_executing (v : bool) (r : RTEMS_State) : RTEMS_State :=
  {| apis := apis r; _Event_Sync_state := _Event_Sync_state r; _ISR_Signals_to_thread_executing := v;
     region_memory := region_memory r; partitions := partitions r; ports := ports r;
     timers := timers r; periods := periods r; regions := regions r;
     api_semaphores := api_semaphores r; api_message_queues := api_message_queues r; global_threads := global_threads r;
     _API_extensions_List := _API_extensions_List r; api_extensions := api_extensions r; posix_keys := posix_keys r;
     posix_mutexes := posix_mutexes r; posix_conditions := posix_conditions r; posix_semaphores := posix_semaphores r;
     posix_message_queues := posix_message_queues r; API_Extensions_POSIX := API_Extensions_POSIX r; posix_apis := posix_apis r;
     posix_signals := posix_signals r |}.
Definition set_region_memory (v : mem) (r : RTEMS_State) : RTEMS_State :=
  {| apis := apis r; _Event_Sync_state := _Event_Sync_state r; _ISR_Signals_to_thread_executing := _ISR_Signals_to_thread_executing r;
     region_memory := v; partitions := partitions r; ports := ports r;
     timers := timers r; periods := periods r; regions := regions r;
     api_semaphores := api_semaphores r; api_message_queues := api_message_queues r; global_threads := global_threads r;
     _API_extensions_List := _API_extensions_List r; api_extensions := api_extensions r; posix_keys := posix_keys r;
     posix_mutexes := posix_mutexes r; posix_conditions := posix_conditions r; posix_semaphores := posix_semaphores r;
     posix_message_queues := posix_message_queues r; API_Extensions_POSIX := API_Extensions_POSIX r; posix_apis := posix_apis r;
     posix_signals := posix_signals r |}.
Definition set_partitions (v : gmap Z Partition_Control) (r : RTEMS_State) : RTEMS_State :=
  {| apis := apis r; _Event_Sync_state := _Event_Sync_state r; _ISR_Signals_to_thread_executing := _ISR_Signals_to_thread_executing r;
     region_memory := region_memory r; partitions := v; ports := ports r;
     timers := timers r; periods := periods r; regions := regions r;
     api_semaphores := api_semaphores r; api_message_queues := api_message_queues r; global_threads := global_threads r;
     _API_extensions_List := _API_extensions_List r; api_extensions := api_extensions r; posix_keys := posix_keys r;
     posix_mutexes := posix_mutexes r; posix_conditions := posix_conditions r; posix_semaphores := posix_semaphores r;
     posix_message_queues := posix_message_queues r; API_Extensions_POSIX := API_Extensions_POSIX r; posix_apis := posix_apis r;
     posix_signals := posix_signals r |}.
Definition set_ports (v : gmap Z Dual_ported_memory_Control) (r : RTEMS_State) : RTEMS_State :=
  {| apis := apis r; _Event_Sync_state := _Event_Sync_state r; _ISR_Signals_to_thread_executing := _ISR_Signals_to_thread_executing r;
     region_memory := region_memory r; partitions := partitions r; ports := v;
     timers := timers r; periods := periods r; regions := regions r;
     api_semaphores := api_semaphores r; api_message_queues := api_message_queues r; global_threads := global_threads r;
     _API_extensions_List := _API_extensions_List r; api_extensions := api_extensions r; posix_keys := posix_keys r;
     posix_mutexes := posix_mutexes r; posix_conditions := posix_conditions r; posix_semaphores := posix_semaphores r;
     posix_message_queues := posix_message_queues r; API_Extensions_POSIX := API_Extensions_POSIX r; posix_apis := posix_apis r;
     posix_signals := posix_signals r |}.
Definition set_timers (v : gmap Z Timer_Control) (r : RTEMS_State) : RTEMS_State :=
  {| apis := apis r; _Event_Sync_state := _Event_Sync_state r; _ISR_Signals_to_thread_executing := _ISR_Signals_to_thread_executing r;
     region_memory := region_memory r; partitions := partitions r; ports := ports r;
     timers := v; periods := periods r; regions := regions r;
     api_semaphores := api_semaphores r; api_message_queues := api_message_queues r; global_threads := global_threads r;
     _API_extensions_List := _API_extensions_List r; api_extensions := api_extensions r; posix_keys := posix_keys r;
     posix_mutexes := posix_mutexes r; posix_conditions := posix_conditions r; posix_semaphores := posix_semaphores r;
     posix_message_queues := posix_message_queues r; API_Extensions_POSIX := API_Extensions_POSIX r; posix_apis := posix_apis r;
     posix_signals := posix_signals r |}.
Definition set_periods (v : gmap Z Rate_monotonic_Control) (r : RTEMS_State) : RTEMS_State :=
  {| apis := apis r; _Event_Sync_state := _Event_Sync_state r; _ISR_Signals_to_thread_executing := _ISR_Signals_to_thread_executing r;
     region_memory := region_memory r; partitions := partitions r; ports := ports r;
     timers := timers r; periods := v; regions := regions r;
     api_semaphores := api_semaphores r; api_message_queues := api_message_queues r; global_threads := global_threads r;
     _API_extensions_List := _API_extensions_List r; api_extensions := api_extensions r; posix_keys := posix_keys r;
     posix_mutexes := posix_mutexes r; posix_conditions := posix_conditions r; posix_semaphores := posix_semaphores r;
     posix_message_queues := posix_message_queues r; API_Extensions_POSIX := API_Extensions_POSIX r; posix_apis := posix_apis r;
     posix_signals := posix_signals r |}.
Definition set_regions (v : gmap Z Region_Control) (r : RTEMS_State) : RTEMS_State :=
  {| apis := apis r; _Event_Sync_state := _Event_Sync_state r; _ISR_Signals_to_thread_executing := _ISR_Signals_to_thread_executing r;
     region_memory := region_memory r; partitions := partitions r; ports := ports r;
     timers := timers r; periods := periods r; regions := v;
     api_semaphores := api_semaphores r; api_message_queues := api_message_queues r; global_threads := global_threads r;
     _API_extensions_List := _API_extensions_List r; api_extensions := api_extensions r; posix_keys := posix_keys r;
     posix_mutexes := posix_mutexes r; posix_conditions := posix_conditions r; posix_semaphores := posix_semaphores r;
     posix_message_queues := posix_message_queues r; API_Extensions_POSIX := API_Extensions_POSIX r; posix_apis := posix_apis r;
     posix_signals := posix_signals r |}.
Definition set_api_semaphores (v : gmap Z Semaphore_Control) (r : RTEMS_State) : RTEMS_State :=
  {| apis := apis r; _Event_Sync_state := _Event_Sync_state r; _ISR_Signals_to_thread_executing := _ISR_Signals_to_thread_executing r;
     region_memory := region_memory r; partitions := partitions r; ports := ports r;
     timers := timers r; periods := periods r; regions := regions r;
     api_semaphores := v; api_message_queues := api_message_queues r; global_threads := global_threads r;
     _API_extensions_List := _API_extensions_List r; api_extensions := api_extensions r; posix_keys := posix_keys r;
     posix_mutexes := posix_mutexes r; posix_conditions := posix_conditions r; posix_semaphores := posix_semaphores r;
     posix_message_queues := posix_message_queues r; API_Extensions_POSIX := API_Extensions_POSIX r; posix_apis := posix_apis r;
     posix_signals := posix_signals r |}.
Definition set_api_message_queues (v : gmap Z Message_queue_Control) (r : RTEMS_State) : RTEMS_State :=
  {| apis := apis r; _Event_Sync_state := _Event_Sync_state r; _ISR_Signals_to_thread_executing := _ISR_Signals_to_thread_executing r;
     region_memory := region_memory r; partitions := partitions r; ports := ports r;
     timers := timers r; periods := periods r; regions := regions r;
     api_semaphores := api_semaphores r; api_message_queues := v; global_threads := global_threads r;
     _API_extensions_List := _API_extensions_List r; api_extensions := api_extensions r; posix_keys := posix_keys r;
     posix_mutexes := posix_mutexes r; posix_conditions := posix_conditions r; posix_semaphores := posix_semaphores r;
     posix_message_queues := posix_message_queues r; API_Extensions_POSIX := API_Extensions_POSIX r; posix_apis := posix_apis r;
     posix_signals := posix_signals r |}.
Definition set_global_threads (v : gset Z) (r : RTEMS_State) : RTEMS_State :=
  {| apis := apis r; _Event_Sync_state := _Event_Sync_state r; _ISR_Signals_to_thread_executing := _ISR_Signals_to_thread_executing r;
     region_memory := region_memory r; partitions := partitions r; ports := ports r;
     timers := timers r; periods := periods r; regions := regions r;
     api_semaphores := api_semaphores r; api_message_queues := api_message_queues r; global_threads := v;
     _API_extensions_List := _API_extensions_List r; api_extensions := api_extensions r; posix_keys := posix_keys r;
     posix_mutexes := posix_mutexes r; posix_conditions := posix_conditions r; posix_semaphores := posix_semaphores r;
     posix_message_queues := posix_message_queues r; API_Extensions_POSIX := API_Extensions_POSIX r; posix_apis := posix_apis r;
     posix_signals := posix_signals r |}.
Definition set_API_extensions_List (v : list Z) (r : RTEMS_State) : RTEMS_State :=
  {| apis := apis r; _Event_Sync_state := _Event_Sync_state r; _ISR_Signals_to_thread_executing := _ISR_Signals_to_thread_executing r;
     region_memory := region_memory r; partitions := partitions r; ports := ports r;
     timers := timers r; periods := periods r; regions := regions r;
     api_semaphores := api_semaphores r; api_message_queues := api_message_queues r; global_threads := global_threads r;
     _API_extensions_List := v; api_extensions := api_extensions r; posix_keys := posix_keys r;
     posix_mutexes := posix_mutexes r; posix_conditions := posix_conditions r; posix_semaphores := posix_semaphores r;
     posix_message_queues := posix_message_queues r; API_Extensions_POSIX := API_Extensions_POSIX r; posix_apis := posix_apis r;
     posix_signals := posix_signals r |}.
Definition set_api_extensions (v : gmap Z API_extensions_Control) (r : RTEMS_State) : RTEMS_State :=
  {| apis := apis r; _Event_Sync_state := _Event_Sync_state r; _ISR_Signals_to_thread_executing := _ISR_Signals_to_thread_executing r;
     region_memory := region_memory r; partitions := partitions r; ports := ports r;
     timers := timers r; periods := periods r; regions := regions r;
     api_semaphores := api_semaphores r; api_message_queues := api_message_queues r; global_threads := global_threads r;
     _API_extensions_List := _API_extensions_List r; api_extensions := v; posix_keys := posix_keys r;
     posix_mutexes := posix_mutexes r; posix_conditions := posix_conditions r; posix_semaphores := posix_semaphores r;
     posix_message_queues := posix_message_queues r; API_Extensions_POSIX := API_Extensions_POSIX r; posix_apis := posix_apis r;
     posix_signals := posix_signals r |}.
Definition set_posix_keys (v : gmap Z POSIX_Keys_Control) (r : RTEMS_State) : RTEMS_State :=
  {| apis := apis r; _Event_Sync_state := _Event_Sync_state r; _ISR_Signals_to_thread_executing := _ISR_Signals_to_thread_executing r;
     region_memory := region_memory r; partitions := partitions r; ports := ports r;
     timers := timers r; periods := periods r; regions := regions r;
     api_semaphores := api_semaphores r; api_message_queues := api_message_queues r; global_threads := global_threads r;
     _API_extensions_List := _API_extensions_List r; api_extensions := api_extensions r; posix_keys := v;
     posix_mutexes := posix_mutexes r; posix_conditions := posix_conditions r; posix_semaphores := posix_semaphores r;
     posix_message_queues := posix_message_queues r; API_Extensions_POSIX := API_Extensions_POSIX r; posix_apis := posix_apis r;
     posix_signals := posix_signals r |}.
Definition set_posix_mutexes (v : gmap Z POSIX_Mutex_Control) (r : RTEMS_State) : RTEMS_State :=
  {| apis := apis r; _Event_Sync_state := _Event_Sync_state r; _ISR_Signals_to_thread_executing := _ISR_Signals_to_thread_executing r;
     region_memory := region_memory r; partitions := partitions r; ports := ports r;
     timers := timers r; periods := periods r; regions := regions r;
     api_semaphores := api_semaphores r; api_message_queues := api_message_queues r; global_threads := global_threads r;
     _API_extensions_List := _API_extensions_List r; api_extensions := api_extensions r; posix_keys := posix_keys r;
     posix_mutexes := v; posix_conditions := posix_conditions r; posix_semaphores := posix_semaphores r;
     posix_message_queues := posix_message_queues r; API_Extensions_POSIX := API_Extensions_POSIX r; posix_apis := posix_apis r;
     posix_signals := posix_signals r |}.
Definition set_posix_conditions (v : gmap Z POSIX_Condition_variables_Control) (r : RTEMS_State) : RTEMS_State :=
  {| apis := apis r; _Event_Sync_state := _Event_Sync_state r; _ISR_Signals_to_thread_executing := _ISR_Signals_to_thread_executing r;
     region_memory := region_memory r; partitions := partitions r; ports := ports r;
     timers := timers r; periods := periods r; regions := regions r;
     api_semaphores := api_semaphores r; api_message_queues := api_message_queues r; global_threads := global_threads r;
     _API_extensions_List := _API_extensions_List r; api_extensions := api_extensions r; posix_keys := posix_keys r;
     posix_mutexes := posix_mutexes r; posix_conditions := v; posix_semaphores := posix_semaphores r;
     posix_message_queues := posix_message_queues r; API_Extensions_POSIX := API_Extensions_POSIX r; posix_apis := posix_apis r;
     posix_signals := posix_signals r |}.
Definition set_posix_semaphores (v : gmap Z POSIX_Semaphore_Control) (r : RTEMS_State) : RTEMS_State :=
  {| apis := apis r; _Event_Sync_state := _Event_Sync_state r; _ISR_Signals_to_thread_executing := _ISR_Signals_to_thread_executing r;
     region_memory := region_memory r; partitions := partitions r; ports := ports r;
     timers := timers r; periods := periods r; regions := regions r;
     api_semaphores := api_semaphores r; api_message_queues := api_message_queues r; global_threads := global_threads r;
     _API_extensions_List := _API_extensions_List r; api_extensions := api_extensions r; posix_keys := posix_keys r;
     posix_mutexes := posix_mutexes r; posix_conditions := posix_conditions r; posix_semaphores := v;
     posix_message_queues := posix_message_queues r; API_Extensions_POSIX := API_Extensions_POSIX r; posix_apis := posix_apis r;
     posix_signals := posix_signals r |}.
Definition set_posix_message_queues (v : gmap Z POSIX_Message_queue_Control) (r : RTEMS_State) : RTEMS_State :=
  {| apis := apis r; _Event_Sync_state := _Event_Sync_state r; _ISR_Signals_to_thread_executing := _ISR_Signals_to_thread_executing r;
     region_memory := region_memory r; partitions := partitions r; ports := ports r;
     timers := timers r; periods := periods r; regions := regions r;
     api_semaphores := api_semaphores r; api_message_queues := api_message_queues r; global_threads := global_threads r;
     _API_extensions_List := _API_extensions_List r; api_extensions := api_extensions r; posix_keys := posix_keys r;
     posix_mutexes := posix_mutexes r; posix_conditions := posix_conditions r; posix_semaphores := posix_semaphores r;
     posix_message_queues := v; API_Extensions_POSIX := API_Extensions_POSIX r; posix_apis := posix_apis r;
     posix_signals := posix_signals r |}.
Definition set_API_Extensions_POSIX (v : gmap Z Z) (r : RTEMS_State) : RTEMS_State :=
  {| apis := apis r; _Event_Sync_state := _Event_Sync_state r; _ISR_Signals_to_thread_executing := _ISR_Signals_to_thread_executing r;
     region_memory := region_memory r; partitions := partitions r; ports := ports r;
     timers := timers r; periods := periods r; regions := regions r;
     api_semaphores := api_semaphores r; api_message_queues := api_message_queues r; global_threads := global_threads r;
     _API_extensions_List := _API_extensions_List r; api_extensions := api_extensions r; posix_keys := posix_keys r;
     posix_mutexes := posix_mutexes r; posix_conditions := posix_conditions r; posix_semaphores := posix_semaphores r;
     posix_message_queues := posix_message_queues r; API_Extensions_POSIX := v; posix_apis := posix_apis r;
     posix_signals := posix_signals r |}.
Definition set_posix_apis (v : gmap Z POSIX_API_Control) (r : RTEMS_State) : RTEMS_State :=
  {| apis := apis r; _Event_Sync_state := _Event_Sync_state r; _ISR_Signals_to_thread_executing := _ISR_Signals_to_thread_executing r;
     region_memory := region_memory r; partitions := partitions r; ports := ports r;
     timers := timers r; periods := periods r; regions := regions r;
     api_semaphores := api_semaphores r; api_message_queues := api_message_queues r; global_threads := global_threads r;
     _API_extensions_List := _API_extensions_List r; api_extensions := api_extensions r; posix_keys := posix_keys r;
     posix_mutexes := posix_mutexes r; posix_conditions := posix_conditions r; posix_semaphores := posix_semaphores r;
     posix_message_queues := posix_message_queues r; API_Extensions_POSIX := API_Extensions_POSIX r; posix_apis := v;
     posix_signals := posix_signals r |}.
Definition set_posix_signals (v : POSIX_signals_State) (r : RTEMS_State) : RTEMS_State :=
  {| apis := apis r; _Event_Sync_state := _Event_Sync_state r; _ISR_Signals_to_thread_executing := _ISR_Signals_to_thread_executing r;
     region_memory := region_memory r; partitions := partitions r; ports := ports r;
     timers := timers r; periods := periods r; regions := regions r;
     api_semaphores := api_semaphores r; api_message_queues := api_message_queues r; global_threads := global_threads r;
     _API_extensions_List := _API_extensions_List r; api_extensions := api_extensions r; posix_keys := posix_keys r;
     posix_mutexes := posix_mutexes r; posix_conditions := posix_conditions r; posix_semaphores := posix_semaphores r;
     posix_message_queues := posix_message_queues r; API_Extensions_POSIX := API_Extensions_POSIX r; posix_apis := posix_apis r;
     posix_signals := v |}.
