(* ===== verification/Kernel.v ===== *)
(** * The state of the executive

    The control blocks of threads, thread queues and core objects, the variables of the thread
    handler (score/headers/thread.h, tqdata.h, states.h) and the states of the
    handlers below it, in one record.  Threads, thread queues and watchdogs are
    named by their addresses; the [ready] pointer of a thread is the index of its
    ready chain.  The floating point registers of the processor and the areas they
    are saved to are part of the state, as one value each. *)
From S2P Require Import Prelude Chain Watchdog Tod Object Priority ApiTypes.

(** ** Thread states (headers/states.h, inline/states.inl) *)

Definition STATES_READY : Z := 0.
Definition STATES_DORMANT : Z := 1.
Definition STATES_SUSPENDED : Z := 2.
Definition STATES_TRANSIENT : Z := 4.
Definition STATES_DELAYING : Z := 8.
Definition STATES_WAITING_FOR_TIME : Z := 16.
Definition STATES_WAITING_FOR_BUFFER : Z := 32.
Definition STATES_WAITING_FOR_SEGMENT : Z := 64.
Definition STATES_WAITING_FOR_MESSAGE : Z := 128.
Definition STATES_WAITING_FOR_EVENT : Z := 256.
Definition STATES_WAITING_FOR_SEMAPHORE : Z := 512.
Definition STATES_WAITING_FOR_MUTEX : Z := 1024.
Definition STATES_WAITING_FOR_CONDITION_VARIABLE : Z := 2048.
Definition STATES_WAITING_FOR_JOIN_AT_EXIT : Z := 4096.
Definition STATES_WAITING_FOR_RPC_REPLY : Z := 8192.
Definition STATES_WAITING_FOR_PERIOD : Z := 16384.
Definition STATES_WAITING_FOR_SIGNAL : Z := 32768.
Definition STATES_INTERRUPTIBLE_BY_SIGNAL : Z := 65536.
Definition STATES_LOCALLY_BLOCKED : Z :=
  Z.lor (Z.lor (Z.lor (Z.lor (Z.lor (Z.lor (Z.lor STATES_WAITING_FOR_BUFFER
    STATES_WAITING_FOR_SEGMENT) STATES_WAITING_FOR_MESSAGE) STATES_WAITING_FOR_SEMAPHORE)
    STATES_WAITING_FOR_MUTEX) STATES_WAITING_FOR_CONDITION_VARIABLE)
    STATES_WAITING_FOR_JOIN_AT_EXIT) STATES_WAITING_FOR_SIGNAL.
Definition STATES_WAITING_ON_THREAD_QUEUE : Z :=
  Z.lor STATES_LOCALLY_BLOCKED STATES_WAITING_FOR_RPC_REPLY.
Definition STATES_BLOCKED : Z :=
  Z.lor (Z.lor (Z.lor (Z.lor (Z.lor STATES_DELAYING STATES_WAITING_FOR_TIME)
    STATES_WAITING_FOR_PERIOD) STATES_WAITING_FOR_EVENT) STATES_WAITING_ON_THREAD_QUEUE)
    STATES_INTERRUPTIBLE_BY_SIGNAL.

Definition _States_Set (states_to_set current_state : Z) : Z := Z.lor current_state states_to_set.
Definition _States_Clear (states_to_clear current_state : Z) : Z :=
  Z.land current_state (not32 states_to_clear).
Definition _States_Is_ready (the_states : Z) : bool := the_states =? STATES_READY.
Definition _States_Is_dormant (the_states : Z) : bool := negb (Z.land the_states STATES_DORMANT =? 0).
Definition _States_Is_only_dormant (the_states : Z) : bool := the_states =? STATES_DORMANT.
Definition _States_Is_suspended (the_states : Z) : bool := negb (Z.land the_states STATES_SUSPENDED =? 0).
Definition _States_Is_transient (the_states : Z) : bool := negb (Z.land the_states STATES_TRANSIENT =? 0).
Definition _States_Is_delaying (the_states : Z) : bool := negb (Z.land the_states STATES_DELAYING =? 0).
Definition _States_Is_waiting_for_buffer (the_states : Z) : bool := negb (Z.land the_states STATES_WAITING_FOR_BUFFER =? 0).
Definition _States_Is_waiting_for_segment (the_states : Z) : bool := negb (Z.land the_states STATES_WAITING_FOR_SEGMENT =? 0).
Definition _States_Is_waiting_for_message (the_states : Z) : bool := negb (Z.land the_states STATES_WAITING_FOR_MESSAGE =? 0).
Definition _States_Is_waiting_for_event (the_states : Z) : bool := negb (Z.land the_states STATES_WAITING_FOR_EVENT =? 0).
Definition _States_Is_waiting_for_mutex (the_states : Z) : bool := negb (Z.land the_states STATES_WAITING_FOR_MUTEX =? 0).
Definition _States_Is_waiting_for_semaphore (the_states : Z) : bool := negb (Z.land the_states STATES_WAITING_FOR_SEMAPHORE =? 0).
Definition _States_Is_waiting_for_time (the_states : Z) : bool := negb (Z.land the_states STATES_WAITING_FOR_TIME =? 0).
Definition _States_Is_waiting_for_period (the_states : Z) : bool := negb (Z.land the_states STATES_WAITING_FOR_PERIOD =? 0).
Definition _States_Is_waiting_for_rpc_reply (the_states : Z) : bool :=
  negb (Z.land the_states STATES_WAITING_FOR_RPC_REPLY =? 0).
Definition _States_Is_locally_blocked (the_states : Z) : bool :=
  negb (Z.land the_states STATES_LOCALLY_BLOCKED =? 0).
Definition _States_Is_blocked (the_states : Z) : bool := negb (Z.land the_states STATES_BLOCKED =? 0).
Definition _States_Is_waiting_on_thread_queue (the_states : Z) : bool :=
  negb (Z.land the_states STATES_WAITING_ON_THREAD_QUEUE =? 0).
Definition _States_Are_set (the_states mask : Z) : bool := negb (Z.land the_states mask =? STATES_READY).

(** ** Threads (headers/thread.h) *)

Inductive Thread_CPU_budget_algorithms : Type :=
| THREAD_CPU_BUDGET_ALGORITHM_NONE
| THREAD_CPU_BUDGET_ALGORITHM_RESET_TIMESLICE
| THREAD_CPU_BUDGET_ALGORITHM_EXHAUST_TIMESLICE
| THREAD_CPU_BUDGET_ALGORITHM_CALLOUT.

Inductive Thread_Start_types : Type :=
| THREAD_START_NUMERIC
| THREAD_START_POINTER
| THREAD_START_BOTH_POINTER_FIRST
| THREAD_START_BOTH_NUMERIC_FIRST.

Record Thread_Wait_information : Type := {
  Wait_id : Z;
  Wait_count : Z;
  Wait_return_argument : Z;
  Wait_return_argument_1 : Z;
  Wait_option : Z;
  Wait_return_code : Z;
  Block2n : list Z;
  Wait_queue : Z
}.

Record Thread_Start_information : Type := {
  entry_point : Z;
  prototype : Thread_Start_types;
  pointer_argument : Z;
  numeric_argument : Z;
  start_is_preemptible : bool;
  start_budget_algorithm : Thread_CPU_budget_algorithms;
  start_budget_callout : Z;
  isr_level : Z;
  initial_priority : Z;
  core_allocated_stack : bool;
  Initial_stack_size : Z;
  Initial_stack_area : Z;
  start_fp_context : Z;
  start_stack : Z
}.

(** The timer of the thread at [t] is the watchdog at [Timer t]. *)
Record Thread_Control : Type := {
  Object_id : Z;
  current_state : Z;
  current_priority : Z;
  real_priority : Z;
  resource_count : Z;
  Wait : Thread_Wait_information;
  do_post_task_switch_extension : bool;
  is_preemptible : bool;
  cpu_time_budget : Z;
  budget_algorithm : Thread_CPU_budget_algorithms;
  budget_callout : Z;
  ticks_executed : Z;
  ready : Z;
  Priority_map : Priority_Information;
  Start : Thread_Start_information;
  fp_context : Z;
  API_Extensions_RTEMS : Z;
  extensions : Z
}.

Definition Timer (the_thread : Z) : Z := the_thread + 64.

(** ** Thread queues (headers/tqdata.h)

    [Queues] is the union of the FIFO chain (index 0) and the four priority chains. *)

Inductive Thread_queue_Disciplines : Type :=
| THREAD_QUEUE_DISCIPLINE_FIFO
| THREAD_QUEUE_DISCIPLINE_PRIORITY.

Inductive Thread_queue_States : Type :=
| THREAD_QUEUE_SYNCHRONIZED
| THREAD_QUEUE_NOTHING_HAPPENED
| THREAD_QUEUE_TIMEOUT
| THREAD_QUEUE_SATISFIED.

#[export] Instance Thread_queue_States_eq_dec : EqDecision Thread_queue_States.
Proof. solve_decision. Defined.

Record Thread_queue_Control : Type := {
  Queues : gmap Z (list Z);
  sync_state : Thread_queue_States;
  discipline : Thread_queue_Disciplines;
  tq_state : Z;
  timeout_status : Z
}.

(** ** Core objects (headers/coresem.h, coremutex.h, coremsg.h)

    The thread queue of a semaphore, mutex or message queue is the first member of its
    control block: object and queue have the same address.  [Attributes] are in place;
    those of a message queue are never stored.  A message buffer is named by its address:
    the node takes 8 bytes, the size is the word behind it and the contents follow. *)

Inductive CORE_semaphore_Disciplines : Type :=
| CORE_SEMAPHORE_DISCIPLINES_FIFO
| CORE_SEMAPHORE_DISCIPLINES_PRIORITY.

Record CORE_semaphore_Control : Type := {
  sem_discipline : CORE_semaphore_Disciplines;
  sem_count : Z
}.

Inductive CORE_mutex_Disciplines : Type :=
| CORE_MUTEX_DISCIPLINES_FIFO
| CORE_MUTEX_DISCIPLINES_PRIORITY
| CORE_MUTEX_DISCIPLINES_PRIORITY_INHERIT
| CORE_MUTEX_DISCIPLINES_PRIORITY_CEILING.

Record CORE_mutex_Control : Type := {
  allow_nesting : bool;
  mutex_discipline : CORE_mutex_Disciplines;
  priority_ceiling : Z;
  lock : Z;
  nest_count : Z;
  holder : Z;
  holder_id : Z
}.

Record CORE_message_queue_Control : Type := {
  maximum_pending_messages : Z;
  number_of_pending_messages : Z;
  maximum_message_size : Z;
  Pending_messages : list Z;
  message_buffers : Z;
  notify_handler : Z;
  notify_argument : Z;
  Inactive_messages : list Z
}.

(** ** User extensions (headers/userext.h)

    The callouts are the addresses of routines. *)

Record User_extensions_Table : Type := {
  thread_create : Z;
  thread_start : Z;
  thread_restart : Z;
  thread_delete : Z;
  thread_switch : Z;
  thread_begin : Z;
  thread_exitted : Z;
  fatal : Z
}.

(** ** The state

    [_Workspace_Area] holds the words of the workspace heap, [memory] the bytes of buffers. *)

Record Kernel : Type := {
  _Thread_Executing : Z;
  _Thread_Heir : Z;
  _Thread_Idle : Z;
  _Context_Switch_necessary : bool;
  _Thread_Dispatch_disable_level : Z;
  _Thread_Allocated_fp : Z;
  _Thread_Ticks_per_timeslice : Z;
  _Thread_Do_post_task_switch_extension : Z;
  _Thread_Ready_chain : gmap Z (list Z);
  bit_map : Priority_State;
  threads : gmap Z Thread_Control;
  queues : gmap Z Thread_queue_Control;
  watchdogs : Watchdog_State;
  fp_registers : Z;
  fp_areas : mem;
  information_table : gmap Z Objects_State;
  _Thread_queue_Extract_table : gmap Z Z;
  _Thread_Maximum_extensions : Z;
  semaphores : gmap Z CORE_semaphore_Control;
  mutexes : gmap Z CORE_mutex_Control;
  message_queues : gmap Z CORE_message_queue_Control;
  _Workspace_Area : mem;
  memory : mem;
  _User_extensions_List : list Z;
  user_extensions : gmap Z User_extensions_Table;
  tod : TOD_State;
  rtems : RTEMS_State
}.

(** ** Zero-initialised storage *)

Definition zero_wait : Thread_Wait_information :=
  {| Wait_id := 0; Wait_count := 0; Wait_return_argument := 0; Wait_return_argument_1 := 0;
     Wait_option := 0; Wait_return_code := 0; Block2n := []; Wait_queue := 0 |}.
Definition zero_start : Thread_Start_information :=
  {| entry_point := 0; prototype := THREAD_START_NUMERIC; pointer_argument := 0; numeric_argument := 0;
     start_is_preemptible := false; start_budget_algorithm := THREAD_CPU_BUDGET_ALGORITHM_NONE;
     start_budget_callout := 0; isr_level := 0; initial_priority := 0;
     core_allocated_stack := false; Initial_stack_size := 0; Initial_stack_area := 0; start_fp_context := 0;
     start_stack := 0 |}.
#[export] Instance Thread_Control_inhabited : Inhabited Thread_Control := populate
  {| Object_id := 0; current_state := 0; current_priority := 0; real_priority := 0;
     resource_count := 0; Wait := zero_wait; do_post_task_switch_extension := false;
     is_preemptible := false; cpu_time_budget := 0;
     budget_algorithm := THREAD_CPU_BUDGET_ALGORITHM_NONE; budget_callout := 0; ticks_executed := 0;
     ready := 0; Priority_map := _Priority_Initialize_information 0; Start := zero_start;
     fp_context := 0; API_Extensions_RTEMS := 0; extensions := 0 |}.
#[export] Instance Thread_queue_Control_inhabited : Inhabited Thread_queue_Control := populate
  {| Queues := ∅; sync_state := THREAD_QUEUE_SYNCHRONIZED;
     discipline := THREAD_QUEUE_DISCIPLINE_FIFO; tq_state := 0; timeout_status := 0 |}.

Definition zero_tod : TOD_State :=
  {| _TOD_Is_set := false;
     _TOD_Current := {| year := 0; month := 0; day := 0; hour := 0; minute := 0; second := 0; tod_ticks := 0 |};
     _TOD_Seconds_since_epoch := 0; _TOD_Microseconds_per_tick := 0; _TOD_Ticks_per_second := 0 |}.
#[export] Instance User_extensions_Table_inhabited : Inhabited User_extensions_Table := populate
  {| thread_create := 0; thread_start := 0; thread_restart := 0; thread_delete := 0; thread_switch := 0;
     thread_begin := 0; thread_exitted := 0; fatal := 0 |}.
#[export] Instance CORE_semaphore_Control_inhabited : Inhabited CORE_semaphore_Control := populate
  {| sem_discipline := CORE_SEMAPHORE_DISCIPLINES_FIFO; sem_count := 0 |}.
#[export] Instance CORE_mutex_Control_inhabited : Inhabited CORE_mutex_Control := populate
  {| allow_nesting := false; mutex_discipline := CORE_MUTEX_DISCIPLINES_FIFO; priority_ceiling := 0; lock := 0;
     nest_count := 0; holder := 0; holder_id := 0 |}.
#[export] Instance CORE_message_queue_Control_inhabited : Inhabited CORE_message_queue_Control := populate
  {| maximum_pending_messages := 0; number_of_pending_messages := 0; maximum_message_size := 0;
     Pending_messages := []; message_buffers := 0; notify_handler := 0; notify_argument := 0;
     Inactive_messages := [] |}.

(** ** Field updates *)

Definition set_Wait_id (v : Z) (w : Thread_Wait_information) : Thread_Wait_information :=
  {| Wait_id := v; Wait_count := Wait_count w; Wait_return_argument := Wait_return_argument w;
     Wait_return_argument_1 := Wait_return_argument_1 w; Wait_option := Wait_option w; Wait_return_code := Wait_return_code w;
     Block2n := Block2n w; Wait_queue := Wait_queue w |}.
Definition set_Wait_count (v : Z) (w : Thread_Wait_information) : Thread_Wait_information :=
  {| Wait_id := Wait_id w; Wait_count := v; Wait_return_argument := Wait_return_argument w;
     Wait_return_argument_1 := Wait_return_argument_1 w; Wait_option := Wait_option w; Wait_return_code := Wait_return_code w;
     Block2n := Block2n w; Wait_queue := Wait_queue w |}.
Definition set_Wait_return_argument (v : Z) (w : Thread_Wait_information) : Thread_Wait_information :=
  {| Wait_id := Wait_id w; Wait_count := Wait_count w; Wait_return_argument := v;
     Wait_return_argument_1 := Wait_return_argument_1 w; Wait_option := Wait_option w; Wait_return_code := Wait_return_code w;
     Block2n := Block2n w; Wait_queue := Wait_queue w |}.
Definition set_Wait_return_argument_1 (v : Z) (w : Thread_Wait_information) : Thread_Wait_information :=
  {| Wait_id := Wait_id w; Wait_count := Wait_count w; Wait_return_argument := Wait_return_argument w;
     Wait_return_argument_1 := v; Wait_option := Wait_option w; Wait_return_code := Wait_return_code w;
     Block2n := Block2n w; Wait_queue := Wait_queue w |}.
Definition set_Wait_option (v : Z) (w : Thread_Wait_information) : Thread_Wait_information :=
  {| Wait_id := Wait_id w; Wait_count := Wait_count w; Wait_return_argument := Wait_return_argument w;
     Wait_return_argument_1 := Wait_return_argument_1 w; Wait_option := v; Wait_return_code := Wait_return_code w;
     Block2n := Block2n w; Wait_queue := Wait_queue w |}.
Definition set_Wait_return_code (v : Z) (w : Thread_Wait_information) : Thread_Wait_information :=
  {| Wait_id := Wait_id w; Wait_count := Wait_count w; Wait_return_argument := Wait_return_argument w;
     Wait_return_argument_1 := Wait_return_argument_1 w; Wait_option := Wait_option w; Wait_return_code := v;
     Block2n := Block2n w; Wait_queue := Wait_queue w |}.
Definition set_Block2n (v : list Z) (w : Thread_Wait_information) : Thread_Wait_information :=
  {| Wait_id := Wait_id w; Wait_count := Wait_count w; Wait_return_argument := Wait_return_argument w;
     Wait_return_argument_1 := Wait_return_argument_1 w; Wait_option := Wait_option w; Wait_return_code := Wait_return_code w;
     Block2n := v; Wait_queue := Wait_queue w |}.
Definition set_Wait_queue (v : Z) (w : Thread_Wait_information) : Thread_Wait_information :=
  {| Wait_id := Wait_id w; Wait_count := Wait_count w; Wait_return_argument := Wait_return_argument w;
     Wait_return_argument_1 := Wait_return_argument_1 w; Wait_option := Wait_option w; Wait_return_code := Wait_return_code w;
     Block2n := Block2n w; Wait_queue := v |}.
Definition set_entry_point (v : Z) (st : Thread_Start_information) : Thread_Start_information :=
  {| entry_point := v; prototype := prototype st; pointer_argument := pointer_argument st;
     numeric_argument := numeric_argument st; start_is_preemptible := start_is_preemptible st; start_budget_algorithm := start_budget_algorithm st;
     start_budget_callout := start_budget_callout st; isr_level := isr_level st; initial_priority := initial_priority st;
     core_allocated_stack := core_allocated_stack st; Initial_stack_size := Initial_stack_size st; Initial_stack_area := Initial_stack_area st;
     start_fp_context := start_fp_context st; start_stack := start_stack st |}.
Definition set_prototype (v : Thread_Start_types) (st : Thread_Start_information) : Thread_Start_information :=
  {| entry_point := entry_point st; prototype := v; pointer_argument := pointer_argument st;
     numeric_argument := numeric_argument st; start_is_preemptible := start_is_preemptible st; start_budget_algorithm := start_budget_algorithm st;
     start_budget_callout := start_budget_callout st; isr_level := isr_level st; initial_priority := initial_priority st;
     core_allocated_stack := core_allocated_stack st; Initial_stack_size := Initial_stack_size st; Initial_stack_area := Initial_stack_area st;
     start_fp_context := start_fp_context st; start_stack := start_stack st |}.
Definition set_pointer_argument (v : Z) (st : Thread_Start_information) : Thread_Start_information :=
  {| entry_point := entry_point st; prototype := prototype st; pointer_argument := v;
     numeric_argument := numeric_argument st; start_is_preemptible := start_is_preemptible st; start_budget_algorithm := start_budget_algorithm st;
     start_budget_callout := start_budget_callout st; isr_level := isr_level st; initial_priority := initial_priority st;
     core_allocated_stack := core_allocated_stack st; Initial_stack_size := Initial_stack_size st; Initial_stack_area := Initial_stack_area st;
     start_fp_context := start_fp_context st; start_stack := start_stack st |}.
Definition set_numeric_argument (v : Z) (st : Thread_Start_information) : Thread_Start_information :=
  {| entry_point := entry_point st; prototype := prototype st; pointer_argument := pointer_argument st;
     numeric_argument := v; start_is_preemptible := start_is_preemptible st; start_budget_algorithm := start_budget_algorithm st;
     start_budget_callout := start_budget_callout st; isr_level := isr_level st; initial_priority := initial_priority st;
     core_allocated_stack := core_allocated_stack st; Initial_stack_size := Initial_stack_size st; Initial_stack_area := Initial_stack_area st;
     start_fp_context := start_fp_context st; start_stack := start_stack st |}.
Definition set_Object_id (v : Z) (t : Thread_Control) : Thread_Control :=
  {| Object_id := v; current_state := current_state t; current_priority := current_priority t;
     real_priority := real_priority t; resource_count := resource_count t; Wait := Wait t;
     do_post_task_switch_extension := do_post_task_switch_extension t; is_preemptible := is_preemptible t; cpu_time_budget := cpu_time_budget t;
     budget_algorithm := budget_algorithm t; budget_callout := budget_callout t; ticks_executed := ticks_executed t;
     ready := ready t; Priority_map := Priority_map t; Start := Start t;
     fp_context := fp_context t; API_Extensions_RTEMS := API_Extensions_RTEMS t; extensions := extensions t |}.
Definition set_current_state (v : Z) (t : Thread_Control) : Thread_Control :=
  {| Object_id := Object_id t; current_state := v; current_priority := current_priority t;
     real_priority := real_priority t; resource_count := resource_count t; Wait := Wait t;
     do_post_task_switch_extension := do_post_task_switch_extension t; is_preemptible := is_preemptible t; cpu_time_budget := cpu_time_budget t;
     budget_algorithm := budget_algorithm t; budget_callout := budget_callout t; ticks_executed := ticks_executed t;
     ready := ready t; Priority_map := Priority_map t; Start := Start t;
     fp_context := fp_context t; API_Extensions_RTEMS := API_Extensions_RTEMS t; extensions := extensions t |}.
Definition set_current_priority (v : Z) (t : Thread_Control) : Thread_Control :=
  {| Object_id := Object_id t; current_state := current_state t; current_priority := v;
     real_priority := real_priority t; resource_count := resource_count t; Wait := Wait t;
     do_post_task_switch_extension := do_post_task_switch_extension t; is_preemptible := is_preemptible t; cpu_time_budget := cpu_time_budget t;
     budget_algorithm := budget_algorithm t; budget_callout := budget_callout t; ticks_executed := ticks_executed t;
     ready := ready t; Priority_map := Priority_map t; Start := Start t;
     fp_context := fp_context t; API_Extensions_RTEMS := API_Extensions_RTEMS t; extensions := extensions t |}.
Definition set_real_priority (v : Z) (t : Thread_Control) : Thread_Control :=
  {| Object_id := Object_id t; current_state := current_state t; current_priority := current_priority t;
     real_priority := v; resource_count := resource_count t; Wait := Wait t;
     do_post_task_switch_extension := do_post_task_switch_extension t; is_preemptible := is_preemptible t; cpu_time_budget := cpu_time_budget t;
     budget_algorithm := budget_algorithm t; budget_callout := budget_callout t; ticks_executed := ticks_executed t;
     ready := ready t; Priority_map := Priority_map t; Start := Start t;
     fp_context := fp_context t; API_Extensions_RTEMS := API_Extensions_RTEMS t; extensions := extensions t |}.
Definition set_resource_count (v : Z) (t : Thread_Control) : Thread_Control :=
  {| Object_id := Object_id t; current_state := current_state t; current_priority := current_priority t;
     real_priority := real_priority t; resource_count := v; Wait := Wait t;
     do_post_task_switch_extension := do_post_task_switch_extension t; is_preemptible := is_preemptible t; cpu_time_budget := cpu_time_budget t;
     budget_algorithm := budget_algorithm t; budget_callout := budget_callout t; ticks_executed := ticks_executed t;
     ready := ready t; Priority_map := Priority_map t; Start := Start t;
     fp_context := fp_context t; API_Extensions_RTEMS := API_Extensions_RTEMS t; extensions := extensions t |}.
Definition set_Wait (v : Thread_Wait_information) (t : Thread_Control) : Thread_Control :=
  {| Object_id := Object_id t; current_state := current_state t; current_priority := current_priority t;
     real_priority := real_priority t; resource_count := resource_count t; Wait := v;
     do_post_task_switch_extension := do_post_task_switch_extension t; is_preemptible := is_preemptible t; cpu_time_budget := cpu_time_budget t;
     budget_algorithm := budget_algorithm t; budget_callout := budget_callout t; ticks_executed := ticks_executed t;
     ready := ready t; Priority_map := Priority_map t; Start := Start t;
     fp_context := fp_context t; API_Extensions_RTEMS := API_Extensions_RTEMS t; extensions := extensions t |}.
Definition set_do_post (v : bool) (t : Thread_Control) : Thread_Control :=
  {| Object_id := Object_id t; current_state := current_state t; current_priority := current_priority t;
     real_priority := real_priority t; resource_count := resource_count t; Wait := Wait t;
     do_post_task_switch_extension := v; is_preemptible := is_preemptible t; cpu_time_budget := cpu_time_budget t;
     budget_algorithm := budget_algorithm t; budget_callout := budget_callout t; ticks_executed := ticks_executed t;
     ready := ready t; Priority_map := Priority_map t; Start := Start t;
     fp_context := fp_context t; API_Extensions_RTEMS := API_Extensions_RTEMS t; extensions := extensions t |}.
Definition set_is_preemptible (v : bool) (t : Thread_Control) : Thread_Control :=
  {| Object_id := Object_id t; current_state := current_state t; current_priority := current_priority t;
     real_priority := real_priority t; resource_count := resource_count t; Wait := Wait t;
     do_post_task_switch_extension := do_post_task_switch_extension t; is_preemptible := v; cpu_time_budget := cpu_time_budget t;
     budget_algorithm := budget_algorithm t; budget_callout := budget_callout t; ticks_executed := ticks_executed t;
     ready := ready t; Priority_map := Priority_map t; Start := Start t;
     fp_context := fp_context t; API_Extensions_RTEMS := API_Extensions_RTEMS t; extensions := extensions t |}.
Definition set_cpu_time_budget (v : Z) (t : Thread_Control) : Thread_Control :=
  {| Object_id := Object_id t; current_state := current_state t; current_priority := current_priority t;
     real_priority := real_priority t; resource_count := resource_count t; Wait := Wait t;
     do_post_task_switch_extension := do_post_task_switch_extension t; is_preemptible := is_preemptible t; cpu_time_budget := v;
     budget_algorithm := budget_algorithm t; budget_callout := budget_callout t; ticks_executed := ticks_executed t;
     ready := ready t; Priority_map := Priority_map t; Start := Start t;
     fp_context := fp_context t; API_Extensions_RTEMS := API_Extensions_RTEMS t; extensions := extensions t |}.
Definition set_budget_algorithm (v : Thread_CPU_budget_algorithms) (t : Thread_Control) : Thread_Control :=
  {| Object_id := Object_id t; current_state := current_state t; current_priority := current_priority t;
     real_priority := real_priority t; resource_count := resource_count t; Wait := Wait t;
     do_post_task_switch_extension := do_post_task_switch_extension t; is_preemptible := is_preemptible t; cpu_time_budget := cpu_time_budget t;
     budget_algorithm := v; budget_callout := budget_callout t; ticks_executed := ticks_executed t;
     ready := ready t; Priority_map := Priority_map t; Start := Start t;
     fp_context := fp_context t; API_Extensions_RTEMS := API_Extensions_RTEMS t; extensions := extensions t |}.
Definition set_budget_callout (v : Z) (t : Thread_Control) : Thread_Control :=
  {| Object_id := Object_id t; current_state := current_state t; current_priority := current_priority t;
     real_priority := real_priority t; resource_count := resource_count t; Wait := Wait t;
     do_post_task_switch_extension := do_post_task_switch_extension t; is_preemptible := is_preemptible t; cpu_time_budget := cpu_time_budget t;
     budget_algorithm := budget_algorithm t; budget_callout := v; ticks_executed := ticks_executed t;
     ready := ready t; Priority_map := Priority_map t; Start := Start t;
     fp_context := fp_context t; API_Extensions_RTEMS := API_Extensions_RTEMS t; extensions := extensions t |}.
Definition set_ticks_executed (v : Z) (t : Thread_Control) : Thread_Control :=
  {| Object_id := Object_id t; current_state := current_state t; current_priority := current_priority t;
     real_priority := real_priority t; resource_count := resource_count t; Wait := Wait t;
     do_post_task_switch_extension := do_post_task_switch_extension t; is_preemptible := is_preemptible t; cpu_time_budget := cpu_time_budget t;
     budget_algorithm := budget_algorithm t; budget_callout := budget_callout t; ticks_executed := v;
     ready := ready t; Priority_map := Priority_map t; Start := Start t;
     fp_context := fp_context t; API_Extensions_RTEMS := API_Extensions_RTEMS t; extensions := extensions t |}.
Definition set_ready (v : Z) (t : Thread_Control) : Thread_Control :=
  {| Object_id := Object_id t; current_state := current_state t; current_priority := current_priority t;
     real_priority := real_priority t; resource_count := resource_count t; Wait := Wait t;
     do_post_task_switch_extension := do_post_task_switch_extension t; is_preemptible := is_preemptible t; cpu_time_budget := cpu_time_budget t;
     budget_algorithm := budget_algorithm t; budget_callout := budget_callout t; ticks_executed := ticks_executed t;
     ready := v; Priority_map := Priority_map t; Start := Start t;
     fp_context := fp_context t; API_Extensions_RTEMS := API_Extensions_RTEMS t; extensions := extensions t |}.
Definition set_Priority_map (v : Priority_Information) (t : Thread_Control) : Thread_Control :=
  {| Object_id := Object_id t; current_state := current_state t; current_priority := current_priority t;
     real_priority := real_priority t; resource_count := resource_count t; Wait := Wait t;
     do_post_task_switch_extension := do_post_task_switch_extension t; is_preemptible := is_preemptible t; cpu_time_budget := cpu_time_budget t;
     budget_algorithm := budget_algorithm t; budget_callout := budget_callout t; ticks_executed := ticks_executed t;
     ready := ready t; Priority_map := v; Start := Start t;
     fp_context := fp_context t; API_Extensions_RTEMS := API_Extensions_RTEMS t; extensions := extensions t |}.
Definition set_Start (v : Thread_Start_information) (t : Thread_Control) : Thread_Control :=
  {| Object_id := Object_id t; current_state := current_state t; current_priority := current_priority t;
     real_priority := real_priority t; resource_count := resource_count t; Wait := Wait t;
     do_post_task_switch_extension := do_post_task_switch_extension t; is_preemptible := is_preemptible t; cpu_time_budget := cpu_time_budget t;
     budget_algorithm := budget_algorithm t; budget_callout := budget_callout t; ticks_executed := ticks_executed t;
     ready := ready t; Priority_map := Priority_map t; Start := v;
     fp_context := fp_context t; API_Extensions_RTEMS := API_Extensions_RTEMS t; extensions := extensions t |}.
Definition set_fp_context (v : Z) (t : Thread_Control) : Thread_Control :=
  {| Object_id := Object_id t; current_state := current_state t; current_priority := current_priority t;
     real_priority := real_priority t; resource_count := resource_count t; Wait := Wait t;
     do_post_task_switch_extension := do_post_task_switch_extension t; is_preemptible := is_preemptible t; cpu_time_budget := cpu_time_budget t;
     budget_algorithm := budget_algorithm t; budget_callout := budget_callout t; ticks_executed := ticks_executed t;
     ready := ready t; Priority_map := Priority_map t; Start := Start t;
     fp_context := v; API_Extensions_RTEMS := API_Extensions_RTEMS t; extensions := extensions t |}.
Definition set_API_Extensions_RTEMS (v : Z) (t : Thread_Control) : Thread_Control :=
  {| Object_id := Object_id t; current_state := current_state t; current_priority := current_priority t;
     real_priority := real_priority t; resource_count := resource_count t; Wait := Wait t;
     do_post_task_switch_extension := do_post_task_switch_extension t; is_preemptible := is_preemptible t; cpu_time_budget := cpu_time_budget t;
     budget_algorithm := budget_algorithm t; budget_callout := budget_callout t; ticks_executed := ticks_executed t;
     ready := ready t; Priority_map := Priority_map t; Start := Start t;
     fp_context := fp_context t; API_Extensions_RTEMS := v; extensions := extensions t |}.
Definition set_extensions (v : Z) (t : Thread_Control) : Thread_Control :=
  {| Object_id := Object_id t; current_state := current_state t; current_priority := current_priority t;
     real_priority := real_priority t; resource_count := resource_count t; Wait := Wait t;
     do_post_task_switch_extension := do_post_task_switch_extension t; is_preemptible := is_preemptible t; cpu_time_budget := cpu_time_budget t;
     budget_algorithm := budget_algorithm t; budget_callout := budget_callout t; ticks_executed := ticks_executed t;
     ready := ready t; Priority_map := Priority_map t; Start := Start t;
     fp_context := fp_context t; API_Extensions_RTEMS := API_Extensions_RTEMS t; extensions := v |}.
Definition set_Queues (v : gmap Z (list Z)) (q : Thread_queue_Control) : Thread_queue_Control :=
  {| Queues := v; sync_state := sync_state q; discipline := discipline q;
     tq_state := tq_state q; timeout_status := timeout_status q |}.
Definition set_sync_state (v : Thread_queue_States) (q : Thread_queue_Control) : Thread_queue_Control :=
  {| Queues := Queues q; sync_state := v; discipline := discipline q;
     tq_state := tq_state q; timeout_status := timeout_status q |}.
Definition set_sem_count (v : Z) (c : CORE_semaphore_Control) : CORE_semaphore_Control :=
  {| sem_discipline := sem_discipline c; sem_count := v |}.
Definition set_lock (v : Z) (c : CORE_mutex_Control) : CORE_mutex_Control :=
  {| allow_nesting := allow_nesting c; mutex_discipline := mutex_discipline c; priority_ceiling := priority_ceiling c;
     lock := v; nest_count := nest_count c; holder := holder c;
     holder_id := holder_id c |}.
Definition set_nest_count (v : Z) (c : CORE_mutex_Control) : CORE_mutex_Control :=
  {| allow_nesting := allow_nesting c; mutex_discipline := mutex_discipline c; priority_ceiling := priority_ceiling c;
     lock := lock c; nest_count := v; holder := holder c;
     holder_id := holder_id c |}.
Definition set_holder (v : Z) (c : CORE_mutex_Control) : CORE_mutex_Control :=
  {| allow_nesting := allow_nesting c; mutex_discipline := mutex_discipline c; priority_ceiling := priority_ceiling c;
     lock := lock c; nest_count := nest_count c; holder := v;
     holder_id := holder_id c |}.
Definition set_holder_id (v : Z) (c : CORE_mutex_Control) : CORE_mutex_Control :=
  {| allow_nesting := allow_nesting c; mutex_discipline := mutex_discipline c; priority_ceiling := priority_ceiling c;
     lock := lock c; nest_count := nest_count c; holder := holder c;
     holder_id := v |}.
Definition set_number_of_pending (v : Z) (c : CORE_message_queue_Control) : CORE_message_queue_Control :=
  {| maximum_pending_messages := maximum_pending_messages c; number_of_pending_messages := v; maximum_message_size := maximum_message_size c;
     Pending_messages := Pending_messages c; message_buffers := message_buffers c; notify_handler := notify_handler c;
     notify_argument := notify_argument c; Inactive_messages := Inactive_messages c |}.
Definition set_Pending_messages (v : list Z) (c : CORE_message_queue_Control) : CORE_message_queue_Control :=
  {| maximum_pending_messages := maximum_pending_messages c; number_of_pending_messages := number_of_pending_messages c; maximum_message_size := maximum_message_size c;
     Pending_messages := v; message_buffers := message_buffers c; notify_handler := notify_handler c;
     notify_argument := notify_argument c; Inactive_messages := Inactive_messages c |}.
Definition set_notify_handler (v : Z) (c : CORE_message_queue_Control) : CORE_message_queue_Control :=
  {| maximum_pending_messages := maximum_pending_messages c; number_of_pending_messages := number_of_pending_messages c; maximum_message_size := maximum_message_size c;
     Pending_messages := Pending_messages c; message_buffers := message_buffers c; notify_handler := v;
     notify_argument := notify_argument c; Inactive_messages := Inactive_messages c |}.
Definition set_notify_argument (v : Z) (c : CORE_message_queue_Control) : CORE_message_queue_Control :=
  {| maximum_pending_messages := maximum_pending_messages c; number_of_pending_messages := number_of_pending_messages c; maximum_message_size := maximum_message_size c;
     Pending_messages := Pending_messages c; message_buffers := message_buffers c; notify_handler := notify_handler c;
     notify_argument := v; Inactive_messages := Inactive_messages c |}.
Definition set_Inactive_messages (v : list Z) (c : CORE_message_queue_Control) : CORE_message_queue_Control :=
  {| maximum_pending_messages := maximum_pending_messages c; number_of_pending_messages := number_of_pending_messages c; maximum_message_size := maximum_message_size c;
     Pending_messages := Pending_messages c; message_buffers := message_buffers c; notify_handler := notify_handler c;
     notify_argument := notify_argument c; Inactive_messages := v |}.
Definition set_executing (v : Z) (k : Kernel) : Kernel :=
  {| _Thread_Executing := v; _Thread_Heir := _Thread_Heir k; _Thread_Idle := _Thread_Idle k;
     _Context_Switch_necessary := _Context_Switch_necessary k; _Thread_Dispatch_disable_level := _Thread_Dispatch_disable_level k; _Thread_Allocated_fp := _Thread_Allocated_fp k;
     _Thread_Ticks_per_timeslice := _Thread_Ticks_per_timeslice k; _Thread_Do_post_task_switch_extension := _Thread_Do_post_task_switch_extension k; _Thread_Ready_chain := _Thread_Ready_chain k;
     bit_map := bit_map k; threads := threads k; queues := queues k;
     watchdogs := watchdogs k; fp_registers := fp_registers k; fp_areas := fp_areas k;
     information_table := information_table k; _Thread_queue_Extract_table := _Thread_queue_Extract_table k; _Thread_Maximum_extensions := _Thread_Maximum_extensions k;
     semaphores := semaphores k; mutexes := mutexes k; message_queues := message_queues k;
     _Workspace_Area := _Workspace_Area k; memory := memory k; _User_extensions_List := _User_extensions_List k;
     user_extensions := user_extensions k; tod := tod k; rtems := rtems k |}.
Definition set_heir (v : Z) (k : Kernel) : Kernel :=
  {| _Thread_Executing := _Thread_Executing k; _Thread_Heir := v; _Thread_Idle := _Thread_Idle k;
     _Context_Switch_necessary := _Context_Switch_necessary k; _Thread_Dispatch_disable_level := _Thread_Dispatch_disable_level k; _Thread_Allocated_fp := _Thread_Allocated_fp k;
     _Thread_Ticks_per_timeslice := _Thread_Ticks_per_timeslice k; _Thread_Do_post_task_switch_extension := _Thread_Do_post_task_switch_extension k; _Thread_Ready_chain := _Thread_Ready_chain k;
     bit_map := bit_map k; threads := threads k; queues := queues k;
     watchdogs := watchdogs k; fp_registers := fp_registers k; fp_areas := fp_areas k;
     information_table := information_table k; _Thread_queue_Extract_table := _Thread_queue_Extract_table k; _Thread_Maximum_extensions := _Thread_Maximum_extensions k;
     semaphores := semaphores k; mutexes := mutexes k; message_queues := message_queues k;
     _Workspace_Area := _Workspace_Area k; memory := memory k; _User_extensions_List := _User_extensions_List k;
     user_extensions := user_extensions k; tod := tod k; rtems := rtems k |}.
Definition set_idle (v : Z) (k : Kernel) : Kernel :=
  {| _Thread_Executing := _Thread_Executing k; _Thread_Heir := _Thread_Heir k; _Thread_Idle := v;
     _Context_Switch_necessary := _Context_Switch_necessary k; _Thread_Dispatch_disable_level := _Thread_Dispatch_disable_level k; _Thread_Allocated_fp := _Thread_Allocated_fp k;
     _Thread_Ticks_per_timeslice := _Thread_Ticks_per_timeslice k; _Thread_Do_post_task_switch_extension := _Thread_Do_post_task_switch_extension k; _Thread_Ready_chain := _Thread_Ready_chain k;
     bit_map := bit_map k; threads := threads k; queues := queues k;
     watchdogs := watchdogs k; fp_registers := fp_registers k; fp_areas := fp_areas k;
     information_table := information_table k; _Thread_queue_Extract_table := _Thread_queue_Extract_table k; _Thread_Maximum_extensions := _Thread_Maximum_extensions k;
     semaphores := semaphores k; mutexes := mutexes k; message_queues := message_queues k;
     _Workspace_Area := _Workspace_Area k; memory := memory k; _User_extensions_List := _User_extensions_List k;
     user_extensions := user_extensions k; tod := tod k; rtems := rtems k |}.
Definition set_necessary (v : bool) (k : Kernel) : Kernel :=
  {| _Thread_Executing := _Thread_Executing k; _Thread_Heir := _Thread_Heir k; _Thread_Idle := _Thread_Idle k;
     _Context_Switch_necessary := v; _Thread_Dispatch_disable_level := _Thread_Dispatch_disable_level k; _Thread_Allocated_fp := _Thread_Allocated_fp k;
     _Thread_Ticks_per_timeslice := _Thread_Ticks_per_timeslice k; _Thread_Do_post_task_switch_extension := _Thread_Do_post_task_switch_extension k; _Thread_Ready_chain := _Thread_Ready_chain k;
     bit_map := bit_map k; threads := threads k; queues := queues k;
     watchdogs := watchdogs k; fp_registers := fp_registers k; fp_areas := fp_areas k;
     information_table := information_table k; _Thread_queue_Extract_table := _Thread_queue_Extract_table k; _Thread_Maximum_extensions := _Thread_Maximum_extensions k;
     semaphores := semaphores k; mutexes := mutexes k; message_queues := message_queues k;
     _Workspace_Area := _Workspace_Area k; memory := memory k; _User_extensions_List := _User_extensions_List k;
     user_extensions := user_extensions k; tod := tod k; rtems := rtems k |}.
Definition set_disable_level (v : Z) (k : Kernel) : Kernel :=
  {| _Thread_Executing := _Thread_Executing k; _Thread_Heir := _Thread_Heir k; _Thread_Idle := _Thread_Idle k;
     _Context_Switch_necessary := _Context_Switch_necessary k; _Thread_Dispatch_disable_level := v; _Thread_Allocated_fp := _Thread_Allocated_fp k;
     _Thread_Ticks_per_timeslice := _Thread_Ticks_per_timeslice k; _Thread_Do_post_task_switch_extension := _Thread_Do_post_task_switch_extension k; _Thread_Ready_chain := _Thread_Ready_chain k;
     bit_map := bit_map k; threads := threads k; queues := queues k;
     watchdogs := watchdogs k; fp_registers := fp_registers k; fp_areas := fp_areas k;
     information_table := information_table k; _Thread_queue_Extract_table := _Thread_queue_Extract_table k; _Thread_Maximum_extensions := _Thread_Maximum_extensions k;
     semaphores := semaphores k; mutexes := mutexes k; message_queues := message_queues k;
     _Workspace_Area := _Workspace_Area k; memory := memory k; _User_extensions_List := _User_extensions_List k;
     user_extensions := user_extensions k; tod := tod k; rtems := rtems k |}.
Definition set_allocated_fp (v : Z) (k : Kernel) : Kernel :=
  {| _Thread_Executing := _Thread_Executing k; _Thread_Heir := _Thread_Heir k; _Thread_Idle := _Thread_Idle k;
     _Context_Switch_necessary := _Context_Switch_necessary k; _Thread_Dispatch_disable_level := _Thread_Dispatch_disable_level k; _Thread_Allocated_fp := v;
     _Thread_Ticks_per_timeslice := _Thread_Ticks_per_timeslice k; _Thread_Do_post_task_switch_extension := _Thread_Do_post_task_switch_extension k; _Thread_Ready_chain := _Thread_Ready_chain k;
     bit_map := bit_map k; threads := threads k; queues := queues k;
     watchdogs := watchdogs k; fp_registers := fp_registers k; fp_areas := fp_areas k;
     information_table := information_table k; _Thread_queue_Extract_table := _Thread_queue_Extract_table k; _Thread_Maximum_extensions := _Thread_Maximum_extensions k;
     semaphores := semaphores k; mutexes := mutexes k; message_queues := message_queues k;
     _Workspace_Area := _Workspace_Area k; memory := memory k; _User_extensions_List := _User_extensions_List k;
     user_extensions := user_extensions k; tod := tod k; rtems := rtems k |}.
Definition set_ticks_per_timeslice (v : Z) (k : Kernel) : Kernel :=
  {| _Thread_Executing := _Thread_Executing k; _Thread_Heir := _Thread_Heir k; _Thread_Idle := _Thread_Idle k;
     _Context_Switch_necessary := _Context_Switch_necessary k; _Thread_Dispatch_disable_level := _Thread_Dispatch_disable_level k; _Thread_Allocated_fp := _Thread_Allocated_fp k;
     _Thread_Ticks_per_timeslice := v; _Thread_Do_post_task_switch_extension := _Thread_Do_post_task_switch_extension k; _Thread_Ready_chain := _Thread_Ready_chain k;
     bit_map := bit_map k; threads := threads k; queues := queues k;
     watchdogs := watchdogs k; fp_registers := fp_registers k; fp_areas := fp_areas k;
     information_table := information_table k; _Thread_queue_Extract_table := _Thread_queue_Extract_table k; _Thread_Maximum_extensions := _Thread_Maximum_extensions k;
     semaphores := semaphores k; mutexes := mutexes k; message_queues := message_queues k;
     _Workspace_Area := _Workspace_Area k; memory := memory k; _User_extensions_List := _User_extensions_List k;
     user_extensions := user_extensions k; tod := tod k; rtems := rtems k |}.
Definition set_post_task_switch_extension (v : Z) (k : Kernel) : Kernel :=
  {| _Thread_Executing := _Thread_Executing k; _Thread_Heir := _Thread_Heir k; _Thread_Idle := _Thread_Idle k;
     _Context_Switch_necessary := _Context_Switch_necessary k; _Thread_Dispatch_disable_level := _Thread_Dispatch_disable_level k; _Thread_Allocated_fp := _Thread_Allocated_fp k;
     _Thread_Ticks_per_timeslice := _Thread_Ticks_per_timeslice k; _Thread_Do_post_task_switch_extension := v; _Thread_Ready_chain := _Thread_Ready_chain k;
     bit_map := bit_map k; threads := threads k; queues := queues k;
     watchdogs := watchdogs k; fp_registers := fp_registers k; fp_areas := fp_areas k;
     information_table := information_table k; _Thread_queue_Extract_table := _Thread_queue_Extract_table k; _Thread_Maximum_extensions := _Thread_Maximum_extensions k;
     semaphores := semaphores k; mutexes := mutexes k; message_queues := message_queues k;
     _Workspace_Area := _Workspace_Area k; memory := memory k; _User_extensions_List := _User_extensions_List k;
     user_extensions := user_extensions k; tod := tod k; rtems := rtems k |}.
Definition set_ready_chain (v : gmap Z (list Z)) (k : Kernel) : Kernel :=
  {| _Thread_Executing := _Thread_Executing k; _Thread_Heir := _Thread_Heir k; _Thread_Idle := _Thread_Idle k;
     _Context_Switch_necessary := _Context_Switch_necessary k; _Thread_Dispatch_disable_level := _Thread_Dispatch_disable_level k; _Thread_Allocated_fp := _Thread_Allocated_fp k;
     _Thread_Ticks_per_timeslice := _Thread_Ticks_per_timeslice k; _Thread_Do_post_task_switch_extension := _Thread_Do_post_task_switch_extension k; _Thread_Ready_chain := v;
     bit_map := bit_map k; threads := threads k; queues := queues k;
     watchdogs := watchdogs k; fp_registers := fp_registers k; fp_areas := fp_areas k;
     information_table := information_table k; _Thread_queue_Extract_table := _Thread_queue_Extract_table k; _Thread_Maximum_extensions := _Thread_Maximum_extensions k;
     semaphores := semaphores k; mutexes := mutexes k; message_queues := message_queues k;
     _Workspace_Area := _Workspace_Area k; memory := memory k; _User_extensions_List := _User_extensions_List k;
     user_extensions := user_extensions k; tod := tod k; rtems := rtems k |}.
Definition set_bit_map (v : Priority_State) (k : Kernel) : Kernel :=
  {| _Thread_Executing := _Thread_Executing k; _Thread_Heir := _Thread_Heir k; _Thread_Idle := _Thread_Idle k;
     _Context_Switch_necessary := _Context_Switch_necessary k; _Thread_Dispatch_disable_level := _Thread_Dispatch_disable_level k; _Thread_Allocated_fp := _Thread_Allocated_fp k;
     _Thread_Ticks_per_timeslice := _Thread_Ticks_per_timeslice k; _Thread_Do_post_task_switch_extension := _Thread_Do_post_task_switch_extension k; _Thread_Ready_chain := _Thread_Ready_chain k;
     bit_map := v; threads := threads k; queues := queues k;
     watchdogs := watchdogs k; fp_registers := fp_registers k; fp_areas := fp_areas k;
     information_table := information_table k; _Thread_queue_Extract_table := _Thread_queue_Extract_table k; _Thread_Maximum_extensions := _Thread_Maximum_extensions k;
     semaphores := semaphores k; mutexes := mutexes k; message_queues := message_queues k;
     _Workspace_Area := _Workspace_Area k; memory := memory k; _User_extensions_List := _User_extensions_List k;
     user_extensions := user_extensions k; tod := tod k; rtems := rtems k |}.
Definition set_threads (v : gmap Z Thread_Control) (k : Kernel) : Kernel :=
  {| _Thread_Executing := _Thread_Executing k; _Thread_Heir := _Thread_Heir k; _Thread_Idle := _Thread_Idle k;
     _Context_Switch_necessary := _Context_Switch_necessary k; _Thread_Dispatch_disable_level := _Thread_Dispatch_disable_level k; _Thread_Allocated_fp := _Thread_Allocated_fp k;
     _Thread_Ticks_per_timeslice := _Thread_Ticks_per_timeslice k; _Thread_Do_post_task_switch_extension := _Thread_Do_post_task_switch_extension k; _Thread_Ready_chain := _Thread_Ready_chain k;
     bit_map := bit_map k; threads := v; queues := queues k;
     watchdogs := watchdogs k; fp_registers := fp_registers k; fp_areas := fp_areas k;
     information_table := information_table k; _Thread_queue_Extract_table := _Thread_queue_Extract_table k; _Thread_Maximum_extensions := _Thread_Maximum_extensions k;
     semaphores := semaphores k; mutexes := mutexes k; message_queues := message_queues k;
     _Workspace_Area := _Workspace_Area k; memory := memory k; _User_extensions_List := _User_extensions_List k;
     user_extensions := user_extensions k; tod := tod k; rtems := rtems k |}.
Definition set_queues (v : gmap Z Thread_queue_Control) (k : Kernel) : Kernel :=
  {| _Thread_Executing := _Thread_Executing k; _Thread_Heir := _Thread_Heir k; _Thread_Idle := _Thread_Idle k;
     _Context_Switch_necessary := _Context_Switch_necessary k; _Thread_Dispatch_disable_level := _Thread_Dispatch_disable_level k; _Thread_Allocated_fp := _Thread_Allocated_fp k;
     _Thread_Ticks_per_timeslice := _Thread_Ticks_per_timeslice k; _Thread_Do_post_task_switch_extension := _Thread_Do_post_task_switch_extension k; _Thread_Ready_chain := _Thread_Ready_chain k;
     bit_map := bit_map k; threads := threads k; queues := v;
     watchdogs := watchdogs k; fp_registers := fp_registers k; fp_areas := fp_areas k;
     information_table := information_table k; _Thread_queue_Extract_table := _Thread_queue_Extract_table k; _Thread_Maximum_extensions := _Thread_Maximum_extensions k;
     semaphores := semaphores k; mutexes := mutexes k; message_queues := message_queues k;
     _Workspace_Area := _Workspace_Area k; memory := memory k; _User_extensions_List := _User_extensions_List k;
     user_extensions := user_extensions k; tod := tod k; rtems := rtems k |}.
Definition set_watchdogs (v : Watchdog_State) (k : Kernel) : Kernel :=
  {| _Thread_Executing := _Thread_Executing k; _Thread_Heir := _Thread_Heir k; _Thread_Idle := _Thread_Idle k;
     _Context_Switch_necessary := _Context_Switch_necessary k; _Thread_Dispatch_disable_level := _Thread_Dispatch_disable_level k; _Thread_Allocated_fp := _Thread_Allocated_fp k;
     _Thread_Ticks_per_timeslice := _Thread_Ticks_per_timeslice k; _Thread_Do_post_task_switch_extension := _Thread_Do_post_task_switch_extension k; _Thread_Ready_chain := _Thread_Ready_chain k;
     bit_map := bit_map k; threads := threads k; queues := queues k;
     watchdogs := v; fp_registers := fp_registers k; fp_areas := fp_areas k;
     information_table := information_table k; _Thread_queue_Extract_table := _Thread_queue_Extract_table k; _Thread_Maximum_extensions := _Thread_Maximum_extensions k;
     semaphores := semaphores k; mutexes := mutexes k; message_queues := message_queues k;
     _Workspace_Area := _Workspace_Area k; memory := memory k; _User_extensions_List := _User_extensions_List k;
     user_extensions := user_extensions k; tod := tod k; rtems := rtems k |}.
Definition set_fp_registers (v : Z) (k : Kernel) : Kernel :=
  {| _Thread_Executing := _Thread_Executing k; _Thread_Heir := _Thread_Heir k; _Thread_Idle := _Thread_Idle k;
     _Context_Switch_necessary := _Context_Switch_necessary k; _Thread_Dispatch_disable_level := _Thread_Dispatch_disable_level k; _Thread_Allocated_fp := _Thread_Allocated_fp k;
     _Thread_Ticks_per_timeslice := _Thread_Ticks_per_timeslice k; _Thread_Do_post_task_switch_extension := _Thread_Do_post_task_switch_extension k; _Thread_Ready_chain := _Thread_Ready_chain k;
     bit_map := bit_map k; threads := threads k; queues := queues k;
     watchdogs := watchdogs k; fp_registers := v; fp_areas := fp_areas k;
     information_table := information_table k; _Thread_queue_Extract_table := _Thread_queue_Extract_table k; _Thread_Maximum_extensions := _Thread_Maximum_extensions k;
     semaphores := semaphores k; mutexes := mutexes k; message_queues := message_queues k;
     _Workspace_Area := _Workspace_Area k; memory := memory k; _User_extensions_List := _User_extensions_List k;
     user_extensions := user_extensions k; tod := tod k; rtems := rtems k |}.
Definition set_fp_areas (v : mem) (k : Kernel) : Kernel :=
  {| _Thread_Executing := _Thread_Executing k; _Thread_Heir := _Thread_Heir k; _Thread_Idle := _Thread_Idle k;
     _Context_Switch_necessary := _Context_Switch_necessary k; _Thread_Dispatch_disable_level := _Thread_Dispatch_disable_level k; _Thread_Allocated_fp := _Thread_Allocated_fp k;
     _Thread_Ticks_per_timeslice := _Thread_Ticks_per_timeslice k; _Thread_Do_post_task_switch_extension := _Thread_Do_post_task_switch_extension k; _Thread_Ready_chain := _Thread_Ready_chain k;
     bit_map := bit_map k; threads := threads k; queues := queues k;
     watchdogs := watchdogs k; fp_registers := fp_registers k; fp_areas := v;
     information_table := information_table k; _Thread_queue_Extract_table := _Thread_queue_Extract_table k; _Thread_Maximum_extensions := _Thread_Maximum_extensions k;
     semaphores := semaphores k; mutexes := mutexes k; message_queues := message_queues k;
     _Workspace_Area := _Workspace_Area k; memory := memory k; _User_extensions_List := _User_extensions_List k;
     user_extensions := user_extensions k; tod := tod k; rtems := rtems k |}.
Definition set_information_table (v : gmap Z Objects_State) (k : Kernel) : Kernel :=
  {| _Thread_Executing := _Thread_Executing k; _Thread_Heir := _Thread_Heir k; _Thread_Idle := _Thread_Idle k;
     _Context_Switch_necessary := _Context_Switch_necessary k; _Thread_Dispatch_disable_level := _Thread_Dispatch_disable_level k; _Thread_Allocated_fp := _Thread_Allocated_fp k;
     _Thread_Ticks_per_timeslice := _Thread_Ticks_per_timeslice k; _Thread_Do_post_task_switch_extension := _Thread_Do_post_task_switch_extension k; _Thread_Ready_chain := _Thread_Ready_chain k;
     bit_map := bit_map k; threads := threads k; queues := queues k;
     watchdogs := watchdogs k; fp_registers := fp_registers k; fp_areas := fp_areas k;
     information_table := v; _Thread_queue_Extract_table := _Thread_queue_Extract_table k; _Thread_Maximum_extensions := _Thread_Maximum_extensions k;
     semaphores := semaphores k; mutexes := mutexes k; message_queues := message_queues k;
     _Workspace_Area := _Workspace_Area k; memory := memory k; _User_extensions_List := _User_extensions_List k;
     user_extensions := user_extensions k; tod := tod k; rtems := rtems k |}.
Definition set_extract_table (v : gmap Z Z) (k : Kernel) : Kernel :=
  {| _Thread_Executing := _Thread_Executing k; _Thread_Heir := _Thread_Heir k; _Thread_Idle := _Thread_Idle k;
     _Context_Switch_necessary := _Context_Switch_necessary k; _Thread_Dispatch_disable_level := _Thread_Dispatch_disable_level k; _Thread_Allocated_fp := _Thread_Allocated_fp k;
     _Thread_Ticks_per_timeslice := _Thread_Ticks_per_timeslice k; _Thread_Do_post_task_switch_extension := _Thread_Do_post_task_switch_extension k; _Thread_Ready_chain := _Thread_Ready_chain k;
     bit_map := bit_map k; threads := threads k; queues := queues k;
     watchdogs := watchdogs k; fp_registers := fp_registers k; fp_areas := fp_areas k;
     information_table := information_table k; _Thread_queue_Extract_table := v; _Thread_Maximum_extensions := _Thread_Maximum_extensions k;
     semaphores := semaphores k; mutexes := mutexes k; message_queues := message_queues k;
     _Workspace_Area := _Workspace_Area k; memory := memory k; _User_extensions_List := _User_extensions_List k;
     user_extensions := user_extensions k; tod := tod k; rtems := rtems k |}.
Definition set_maximum_extensions (v : Z) (k : Kernel) : Kernel :=
  {| _Thread_Executing := _Thread_Executing k; _Thread_Heir := _Thread_Heir k; _Thread_Idle := _Thread_Idle k;
     _Context_Switch_necessary := _Context_Switch_necessary k; _Thread_Dispatch_disable_level := _Thread_Dispatch_disable_level k; _Thread_Allocated_fp := _Thread_Allocated_fp k;
     _Thread_Ticks_per_timeslice := _Thread_Ticks_per_timeslice k; _Thread_Do_post_task_switch_extension := _Thread_Do_post_task_switch_extension k; _Thread_Ready_chain := _Thread_Ready_chain k;
     bit_map := bit_map k; threads := threads k; queues := queues k;
     watchdogs := watchdogs k; fp_registers := fp_registers k; fp_areas := fp_areas k;
     information_table := information_table k; _Thread_queue_Extract_table := _Thread_queue_Extract_table k; _Thread_Maximum_extensions := v;
     semaphores := semaphores k; mutexes := mutexes k; message_queues := message_queues k;
     _Workspace_Area := _Workspace_Area k; memory := memory k; _User_extensions_List := _User_extensions_List k;
     user_extensions := user_extensions k; tod := tod k; rtems := rtems k |}.
Definition set_semaphores (v : gmap Z CORE_semaphore_Control) (k : Kernel) : Kernel :=
  {| _Thread_Executing := _Thread_Executing k; _Thread_Heir := _Thread_Heir k; _Thread_Idle := _Thread_Idle k;
     _Context_Switch_necessary := _Context_Switch_necessary k; _Thread_Dispatch_disable_level := _Thread_Dispatch_disable_level k; _Thread_Allocated_fp := _Thread_Allocated_fp k;
     _Thread_Ticks_per_timeslice := _Thread_Ticks_per_timeslice k; _Thread_Do_post_task_switch_extension := _Thread_Do_post_task_switch_extension k; _Thread_Ready_chain := _Thread_Ready_chain k;
     bit_map := bit_map k; threads := threads k; queues := queues k;
     watchdogs := watchdogs k; fp_registers := fp_registers k; fp_areas := fp_areas k;
     information_table := information_table k; _Thread_queue_Extract_table := _Thread_queue_Extract_table k; _Thread_Maximum_extensions := _Thread_Maximum_extensions k;
     semaphores := v; mutexes := mutexes k; message_queues := message_queues k;
     _Workspace_Area := _Workspace_Area k; memory := memory k; _User_extensions_List := _User_extensions_List k;
     user_extensions := user_extensions k; tod := tod k; rtems := rtems k |}.
Definition set_mutexes (v : gmap Z CORE_mutex_Control) (k : Kernel) : Kernel :=
  {| _Thread_Executing := _Thread_Executing k; _Thread_Heir := _Thread_Heir k; _Thread_Idle := _Thread_Idle k;
     _Context_Switch_necessary := _Context_Switch_necessary k; _Thread_Dispatch_disable_level := _Thread_Dispatch_disable_level k; _Thread_Allocated_fp := _Thread_Allocated_fp k;
     _Thread_Ticks_per_timeslice := _Thread_Ticks_per_timeslice k; _Thread_Do_post_task_switch_extension := _Thread_Do_post_task_switch_extension k; _Thread_Ready_chain := _Thread_Ready_chain k;
     bit_map := bit_map k; threads := threads k; queues := queues k;
     watchdogs := watchdogs k; fp_registers := fp_registers k; fp_areas := fp_areas k;
     information_table := information_table k; _Thread_queue_Extract_table := _Thread_queue_Extract_table k; _Thread_Maximum_extensions := _Thread_Maximum_extensions k;
     semaphores := semaphores k; mutexes := v; message_queues := message_queues k;
     _Workspace_Area := _Workspace_Area k; memory := memory k; _User_extensions_List := _User_extensions_List k;
     user_extensions := user_extensions k; tod := tod k; rtems := rtems k |}.
Definition set_message_queues (v : gmap Z CORE_message_queue_Control) (k : Kernel) : Kernel :=
  {| _Thread_Executing := _Thread_Executing k; _Thread_Heir := _Thread_Heir k; _Thread_Idle := _Thread_Idle k;
     _Context_Switch_necessary := _Context_Switch_necessary k; _Thread_Dispatch_disable_level := _Thread_Dispatch_disable_level k; _Thread_Allocated_fp := _Thread_Allocated_fp k;
     _Thread_Ticks_per_timeslice := _Thread_Ticks_per_timeslice k; _Thread_Do_post_task_switch_extension := _Thread_Do_post_task_switch_extension k; _Thread_Ready_chain := _Thread_Ready_chain k;
     bit_map := bit_map k; threads := threads k; queues := queues k;
     watchdogs := watchdogs k; fp_registers := fp_registers k; fp_areas := fp_areas k;
     information_table := information_table k; _Thread_queue_Extract_table := _Thread_queue_Extract_table k; _Thread_Maximum_extensions := _Thread_Maximum_extensions k;
     semaphores := semaphores k; mutexes := mutexes k; message_queues := v;
     _Workspace_Area := _Workspace_Area k; memory := memory k; _User_extensions_List := _User_extensions_List k;
     user_extensions := user_extensions k; tod := tod k; rtems := rtems k |}.
Definition set_workspace (v : mem) (k : Kernel) : Kernel :=
  {| _Thread_Executing := _Thread_Executing k; _Thread_Heir := _Thread_Heir k; _Thread_Idle := _Thread_Idle k;
     _Context_Switch_necessary := _Context_Switch_necessary k; _Thread_Dispatch_disable_level := _Thread_Dispatch_disable_level k; _Thread_Allocated_fp := _Thread_Allocated_fp k;
     _Thread_Ticks_per_timeslice := _Thread_Ticks_per_timeslice k; _Thread_Do_post_task_switch_extension := _Thread_Do_post_task_switch_extension k; _Thread_Ready_chain := _Thread_Ready_chain k;
     bit_map := bit_map k; threads := threads k; queues := queues k;
     watchdogs := watchdogs k; fp_registers := fp_registers k; fp_areas := fp_areas k;
     information_table := information_table k; _Thread_queue_Extract_table := _Thread_queue_Extract_table k; _Thread_Maximum_extensions := _Thread_Maximum_extensions k;
     semaphores := semaphores k; mutexes := mutexes k; message_queues := message_queues k;
     _Workspace_Area := v; memory := memory k; _User_extensions_List := _User_extensions_List k;
     user_extensions := user_extensions k; tod := tod k; rtems := rtems k |}.
Definition set_memory (v : mem) (k : Kernel) : Kernel :=
  {| _Thread_Executing := _Thread_Executing k; _Thread_Heir := _Thread_Heir k; _Thread_Idle := _Thread_Idle k;
     _Context_Switch_necessary := _Context_Switch_necessary k; _Thread_Dispatch_disable_level := _Thread_Dispatch_disable_level k; _Thread_Allocated_fp := _Thread_Allocated_fp k;
     _Thread_Ticks_per_timeslice := _Thread_Ticks_per_timeslice k; _Thread_Do_post_task_switch_extension := _Thread_Do_post_task_switch_extension k; _Thread_Ready_chain := _Thread_Ready_chain k;
     bit_map := bit_map k; threads := threads k; queues := queues k;
     watchdogs := watchdogs k; fp_registers := fp_registers k; fp_areas := fp_areas k;
     information_table := information_table k; _Thread_queue_Extract_table := _Thread_queue_Extract_table k; _Thread_Maximum_extensions := _Thread_Maximum_extensions k;
     semaphores := semaphores k; mutexes := mutexes k; message_queues := message_queues k;
     _Workspace_Area := _Workspace_Area k; memory := v; _User_extensions_List := _User_extensions_List k;
     user_extensions := user_extensions k; tod := tod k; rtems := rtems k |}.
Definition set_User_extensions_List (v : list Z) (k : Kernel) : Kernel :=
  {| _Thread_Executing := _Thread_Executing k; _Thread_Heir := _Thread_Heir k; _Thread_Idle := _Thread_Idle k;
     _Context_Switch_necessary := _Context_Switch_necessary k; _Thread_Dispatch_disable_level := _Thread_Dispatch_disable_level k; _Thread_Allocated_fp := _Thread_Allocated_fp k;
     _Thread_Ticks_per_timeslice := _Thread_Ticks_per_timeslice k; _Thread_Do_post_task_switch_extension := _Thread_Do_post_task_switch_extension k; _Thread_Ready_chain := _Thread_Ready_chain k;
     bit_map := bit_map k; threads := threads k; queues := queues k;
     watchdogs := watchdogs k; fp_registers := fp_registers k; fp_areas := fp_areas k;
     information_table := information_table k; _Thread_queue_Extract_table := _Thread_queue_Extract_table k; _Thread_Maximum_extensions := _Thread_Maximum_extensions k;
     semaphores := semaphores k; mutexes := mutexes k; message_queues := message_queues k;
     _Workspace_Area := _Workspace_Area k; memory := memory k; _User_extensions_List := v;
     user_extensions := user_extensions k; tod := tod k; rtems := rtems k |}.
Definition set_user_extensions (v : gmap Z User_extensions_Table) (k : Kernel) : Kernel :=
  {| _Thread_Executing := _Thread_Executing k; _Thread_Heir := _Thread_Heir k; _Thread_Idle := _Thread_Idle k;
     _Context_Switch_necessary := _Context_Switch_necessary k; _Thread_Dispatch_disable_level := _Thread_Dispatch_disable_level k; _Thread_Allocated_fp := _Thread_Allocated_fp k;
     _Thread_Ticks_per_timeslice := _Thread_Ticks_per_timeslice k; _Thread_Do_post_task_switch_extension := _Thread_Do_post_task_switch_extension k; _Thread_Ready_chain := _Thread_Ready_chain k;
     bit_map := bit_map k; threads := threads k; queues := queues k;
     watchdogs := watchdogs k; fp_registers := fp_registers k; fp_areas := fp_areas k;
     information_table := information_table k; _Thread_queue_Extract_table := _Thread_queue_Extract_table k; _Thread_Maximum_extensions := _Thread_Maximum_extensions k;
     semaphores := semaphores k; mutexes := mutexes k; message_queues := message_queues k;
     _Workspace_Area := _Workspace_Area k; memory := memory k; _User_extensions_List := _User_extensions_List k;
     user_extensions := v; tod := tod k; rtems := rtems k |}.
Definition set_tod (v : TOD_State) (k : Kernel) : Kernel :=
  {| _Thread_Executing := _Thread_Executing k; _Thread_Heir := _Thread_Heir k; _Thread_Idle := _Thread_Idle k;
     _Context_Switch_necessary := _Context_Switch_necessary k; _Thread_Dispatch_disable_level := _Thread_Dispatch_disable_level k; _Thread_Allocated_fp := _Thread_Allocated_fp k;
     _Thread_Ticks_per_timeslice := _Thread_Ticks_per_timeslice k; _Thread_Do_post_task_switch_extension := _Thread_Do_post_task_switch_extension k; _Thread_Ready_chain := _Thread_Ready_chain k;
     bit_map := bit_map k; threads := threads k; queues := queues k;
     watchdogs := watchdogs k; fp_registers := fp_registers k; fp_areas := fp_areas k;
     information_table := information_table k; _Thread_queue_Extract_table := _Thread_queue_Extract_table k; _Thread_Maximum_extensions := _Thread_Maximum_extensions k;
     semaphores := semaphores k; mutexes := mutexes k; message_queues := message_queues k;
     _Workspace_Area := _Workspace_Area k; memory := memory k; _User_extensions_List := _User_extensions_List k;
     user_extensions := user_extensions k; tod := v; rtems := rtems k |}.
Definition set_rtems (v : RTEMS_State) (k : Kernel) : Kernel :=
  {| _Thread_Executing := _Thread_Executing k; _Thread_Heir := _Thread_Heir k; _Thread_Idle := _Thread_Idle k;
     _Context_Switch_necessary := _Context_Switch_necessary k; _Thread_Dispatch_disable_level := _Thread_Dispatch_disable_level k; _Thread_Allocated_fp := _Thread_Allocated_fp k;
     _Thread_Ticks_per_timeslice := _Thread_Ticks_per_timeslice k; _Thread_Do_post_task_switch_extension := _Thread_Do_post_task_switch_extension k; _Thread_Ready_chain := _Thread_Ready_chain k;
     bit_map := bit_map k; threads := threads k; queues := queues k;
     watchdogs := watchdogs k; fp_registers := fp_registers k; fp_areas := fp_areas k;
     information_table := information_table k; _Thread_queue_Extract_table := _Thread_queue_Extract_table k; _Thread_Maximum_extensions := _Thread_Maximum_extensions k;
     semaphores := semaphores k; mutexes := mutexes k; message_queues := message_queues k;
     _Workspace_Area := _Workspace_Area k; memory := memory k; _User_extensions_List := _User_extensions_List k;
     user_extensions := user_extensions k; tod := tod k; rtems := v |}.

(** ** Access *)

Definition tcb (k : Kernel) (t : Z) : Thread_Control := threads k !!! t.
Definition tq (k : Kernel) (q : Z) : Thread_queue_Control := queues k !!! q.
Definition chain_at (k : Kernel) (p : Z) : list Z := _Thread_Ready_chain k !!! p.

Definition upd_thread (t : Z) (f : Thread_Control -> Thread_Control) (k : Kernel) : Kernel :=
  set_threads (<[t := f (tcb k t)]> (threads k)) k.
Definition upd_wait (t : Z) (f : Thread_Wait_information -> Thread_Wait_information) : Kernel -> Kernel :=
  upd_thread t (fun c => set_Wait (f (Wait c)) c).
Definition upd_queue (q : Z) (f : Thread_queue_Control -> Thread_queue_Control) (k : Kernel) : Kernel :=
  set_queues (<[q := f (tq k q)]> (queues k)) k.
Definition put_chain (p : Z) (l : list Z) (k : Kernel) : Kernel :=
  set_ready_chain (<[p := l]> (_Thread_Ready_chain k)) k.

Definition sem (k : Kernel) (s : Z) : CORE_semaphore_Control := semaphores k !!! s.
Definition upd_sem (s : Z) (f : CORE_semaphore_Control -> CORE_semaphore_Control) (k : Kernel) : Kernel :=
  set_semaphores (<[s := f (sem k s)]> (semaphores k)) k.
Definition mutex (k : Kernel) (m : Z) : CORE_mutex_Control := mutexes k !!! m.
Definition upd_mutex (m : Z) (f : CORE_mutex_Control -> CORE_mutex_Control) (k : Kernel) : Kernel :=
  set_mutexes (<[m := f (mutex k m)]> (mutexes k)) k.
Definition mq (k : Kernel) (q : Z) : CORE_message_queue_Control := message_queues k !!! q.
Definition upd_mq (q : Z) (f : CORE_message_queue_Control -> CORE_message_queue_Control) (k : Kernel) : Kernel :=
  set_message_queues (<[q := f (mq k q)]> (message_queues k)) k.

#[export] Instance HasWatchdog_Kernel : HasWatchdog Kernel := {|
  wd_get := watchdogs; wd_put := set_watchdogs;
  wd_get_put := fun _ _ => eq_refl; wd_put_put := fun _ _ _ => eq_refl;
  wd_put_get := fun k => match k with Build_Kernel _ _ _ _ _ _ _ _ _ _ _ _ _ _ _ _ _ _ _ _ _ _ _ _ _ _ _ => eq_refl end
|}.

#[export] Instance HasTod_Kernel : HasTod Kernel := {|
  tod_get := tod; tod_put := set_tod; tod_get_put := fun _ _ => eq_refl
|}.
