(* ===== verification/Workspace.v ===== *)
(** * Internal errors and the RTEMS workspace (score/src/interr.c, wkspace.c, score/inline/wkspace.inl)

    The workspace is a heap ([Heap]) whose words are [_Workspace_Area] of the state; the
    address of its control block is a parameter.  A fatal error ends the system: the
    operations that may raise one return [Fatal] with what was recorded. *)
From S2P Require Import Prelude Chain Watchdog Object Priority Heap Kernel.

(** ** Internal errors *)

Inductive Internal_errors_Source : Type :=
| INTERNAL_ERROR_CORE
| INTERNAL_ERROR_RTEMS_API
| INTERNAL_ERROR_POSIX_API.

Definition INTERNAL_ERROR_INVALID_WORKSPACE_ADDRESS : Z := 2.
Definition INTERNAL_ERROR_TOO_LITTLE_WORKSPACE : Z := 3.
Definition INTERNAL_ERROR_WORKSPACE_ALLOCATION : Z := 4.
Definition INTERNAL_ERROR_BAD_STACK_HOOK : Z := 15.

Record Internal_errors_Information : Type := {
  the_source : Internal_errors_Source;
  is_internal : bool;
  the_error : Z
}.

(** The state is that in which the processor is halted. *)
Inductive outcome (A : Type) : Type :=
| Done (a : A)
| Fatal (what_happened : Internal_errors_Information) (k : Kernel)
| OutOfFuel.
Arguments Done {A} a.
Arguments Fatal {A} what_happened k.
Arguments OutOfFuel {A}.

(** [fatal_extensions] stands for [_User_extensions_Fatal]. *)
Definition _Internal_error_Occurred {A} (fatal_extensions : Internal_errors_Information -> Kernel -> Kernel)
    (source : Internal_errors_Source) (internal : bool) (error : Z) (k : Kernel) : outcome A :=
  let what := {| the_source := source; is_internal := internal; the_error := error |} in
  Fatal what (fatal_extensions what k).

(** ** The workspace *)

Section Workspace.
Context (workspace : Z) (hfuel : nat).

Definition _Workspace_Allocate (size : Z) (k : Kernel) : option (Z * Kernel) :=
  match _Heap_Allocate hfuel (_Workspace_Area k) workspace size with
  | None => None
  | Some (ptr, area) => Some (ptr, set_workspace area k)
  end.

Definition _Workspace_Free (block : Z) (k : Kernel) : bool * Kernel :=
  let '(ok, area) := _Heap_Free (_Workspace_Area k) workspace block in
  (ok, set_workspace area k).

Section Fatal.
Context (fatal_extensions : Internal_errors_Information -> Kernel -> Kernel).

Definition _Workspace_Allocate_or_fatal_error (size : Z) (k : Kernel) : outcome (Z * Kernel) :=
  match _Workspace_Allocate size k with
  | None => OutOfFuel
  | Some (ptr, k) =>
      if ptr =? NULL
      then _Internal_error_Occurred fatal_extensions INTERNAL_ERROR_CORE true INTERNAL_ERROR_WORKSPACE_ALLOCATION k
      else Done (ptr, k)
  end.

Fixpoint zero_words (n : nat) (a : Z) (m : mem) : mem :=
  match n with
  | O => m
  | S n => zero_words n (a + 4) (st m a 0)
  end.

Definition _Workspace_Handler_initialization (do_zero_of_workspace : bool) (starting_address size : Z) (k : Kernel)
  : outcome Kernel :=
  if (starting_address =? NULL) || negb (starting_address mod CPU_ALIGNMENT =? 0)
  then _Internal_error_Occurred fatal_extensions INTERNAL_ERROR_CORE true INTERNAL_ERROR_INVALID_WORKSPACE_ADDRESS k
  else
    let k := if do_zero_of_workspace
             then set_workspace (zero_words (Z.to_nat (size / 4)) starting_address (_Workspace_Area k)) k else k in
    let '(memory_available, area) := _Heap_Initialize (_Workspace_Area k) workspace starting_address size CPU_HEAP_ALIGNMENT in
    let k := set_workspace area k in
    if memory_available =? 0
    then _Internal_error_Occurred fatal_extensions INTERNAL_ERROR_CORE true INTERNAL_ERROR_TOO_LITTLE_WORKSPACE k
    else Done k.
End Fatal.
End Workspace.
