(* ===== verification/Thread.v ===== *)
(** * Thread Handler (score/src/thread.c, score/inline/thread.inl)

    The scheduling operations on the executive's state.  A section of code between
    [_ISR_Disable] and [_ISR_Enable] is one step; the interrupts that may be taken
    at the flash points inside it are not interleaved.  The chain operations are
    those on lists ([Chain.ListChain]). *)
From S2P Require Import Prelude Chain Watchdog Object Priority Kernel.

(** ** Inlined routines *)

Definition _Thread_Is_executing (k : Kernel) (the_thread : Z) : bool := the_thread =? _Thread_Executing k.
Definition _Thread_Is_heir (k : Kernel) (the_thread : Z) : bool := the_thread =? _Thread_Heir k.
Definition _Thread_Is_executing_also_the_heir (k : Kernel) : bool := _Thread_Executing k =? _Thread_Heir k.
Definition _Thread_Is_allocated_fp (k : Kernel) (the_thread : Z) : bool :=
  the_thread =? _Thread_Allocated_fp k.
Definition _Thread_Deallocate_fp : Kernel -> Kernel := set_allocated_fp NULL.
Definition _Thread_Disable_dispatch (k : Kernel) : Kernel :=
  set_disable_level (_Thread_Dispatch_disable_level k +w 1) k.
Definition _Thread_Unnest_dispatch (k : Kernel) : Kernel :=
  set_disable_level (_Thread_Dispatch_disable_level k -w 1) k.
Definition _Thread_Is_dispatching_enabled (k : Kernel) : bool := _Thread_Dispatch_disable_level k =? 0.
Definition _Thread_Is_context_switch_necessary (k : Kernel) : bool := _Context_Switch_necessary k.
Definition _Thread_Dispatch_initialization : Kernel -> Kernel := set_disable_level 1.

(** The [first] pointer of a ready chain; of an empty one it is the chain's tail,
    which is no thread ([NULL] here). *)
Definition _Thread_Calculate_heir (k : Kernel) : Kernel :=
  set_heir (hd NULL (chain_at k (_Priority_Get_highest (bit_map k)))) k.

(** ** Priorities *)

Definition _Thread_Set_priority (the_thread new_priority : Z) (k : Kernel) : Kernel :=
  upd_thread the_thread (fun c =>
    set_Priority_map (_Priority_Initialize_information new_priority)
      (set_ready new_priority (set_current_priority new_priority c))) k.

(** ** Ready chains *)

(** The code that puts a thread on the ready chain of its priority. *)
Definition append_ready (the_thread : Z) (k : Kernel) : Kernel :=
  let k := set_bit_map (_Priority_Add_to_bit_map (Priority_map (tcb k the_thread)) (bit_map k)) k in
  let p := ready (tcb k the_thread) in
  put_chain p (ListChain.append (chain_at k p) the_thread) k.

Definition prepend_ready (the_thread : Z) (k : Kernel) : Kernel :=
  let k := set_bit_map (_Priority_Add_to_bit_map (Priority_map (tcb k the_thread)) (bit_map k)) k in
  let p := ready (tcb k the_thread) in
  put_chain p (ListChain.prepend (chain_at k p) the_thread) k.

(** The code that takes a thread off the ready chain [p]. *)
Definition remove_ready (the_thread p : Z) (k : Kernel) : Kernel :=
  if ListChain.has_only_one_node (chain_at k p) then
    let k := put_chain p [] k in
    set_bit_map (_Priority_Remove_from_bit_map (Priority_map (tcb k the_thread)) (bit_map k)) k
  else put_chain p (ListChain.extract (chain_at k p) the_thread) k.

(** ** State changes *)

Definition _Thread_Ready (the_thread : Z) (k : Kernel) : Kernel :=
  let k := upd_thread the_thread (set_current_state STATES_READY) k in
  let k := append_ready the_thread k in
  let k := _Thread_Calculate_heir k in
  let heir := _Thread_Heir k in
  if negb (_Thread_Is_executing k heir) && is_preemptible (tcb k (_Thread_Executing k))
  then set_necessary true k else k.

Definition _Thread_Clear_state (the_thread state : Z) (k : Kernel) : Kernel :=
  let cs := current_state (tcb k the_thread) in
  if negb (Z.land cs state =? 0) then
    let cs := _States_Clear state cs in
    let k := upd_thread the_thread (set_current_state cs) k in
    if _States_Is_ready cs then
      let k := append_ready the_thread k in
      if current_priority (tcb k the_thread) <? current_priority (tcb k (_Thread_Heir k)) then
        let k := set_heir the_thread k in
        if is_preemptible (tcb k (_Thread_Executing k)) || (current_priority (tcb k the_thread) =? 0)
        then set_necessary true k else k
      else k
    else k
  else k.

Definition _Thread_Set_state (the_thread state : Z) (k : Kernel) : Kernel :=
  let p := ready (tcb k the_thread) in
  if negb (_States_Is_ready (current_state (tcb k the_thread))) then
    upd_thread the_thread (fun c => set_current_state (_States_Set state (current_state c)) c) k
  else
    let k := upd_thread the_thread (set_current_state state) k in
    let k := remove_ready the_thread p k in
    let k := if _Thread_Is_heir k the_thread then _Thread_Calculate_heir k else k in
    if _Thread_Is_executing k the_thread then set_necessary true k else k.

Definition _Thread_Set_transient (the_thread : Z) (k : Kernel) : Kernel :=
  let p := ready (tcb k the_thread) in
  let old_state := current_state (tcb k the_thread) in
  let k := upd_thread the_thread (set_current_state (_States_Set STATES_TRANSIENT old_state)) k in
  if _States_Is_ready old_state then remove_ready the_thread p k else k.

Definition _Thread_Resume (the_thread : Z) : Kernel -> Kernel :=
  _Thread_Clear_state the_thread STATES_SUSPENDED.
Definition _Thread_Unblock (the_thread : Z) : Kernel -> Kernel :=
  _Thread_Clear_state the_thread STATES_BLOCKED.

Definition _Thread_Change_priority (the_thread new_priority : Z) (prepend_it : bool) (k : Kernel)
  : Kernel :=
  let k := _Thread_Set_transient the_thread k in
  let k := if negb (current_priority (tcb k the_thread) =? new_priority)
           then _Thread_Set_priority the_thread new_priority k else k in
  let k := upd_thread the_thread
             (fun c => set_current_state (_States_Clear STATES_TRANSIENT (current_state c)) c) k in
  if negb (_States_Is_ready (current_state (tcb k the_thread))) then k
  else
    let k := if prepend_it then prepend_ready the_thread k else append_ready the_thread k in
    let k := _Thread_Calculate_heir k in
    if negb (_Thread_Is_executing_also_the_heir k) && is_preemptible (tcb k (_Thread_Executing k))
    then set_necessary true k else k.

(** ** Time slicing *)

Definition rotate (the_thread p : Z) (k : Kernel) : Kernel :=
  let k := put_chain p (ListChain.extract (chain_at k p) the_thread) k in
  put_chain p (ListChain.append (chain_at k p) the_thread) k.

Definition _Thread_Reset_timeslice (k : Kernel) : Kernel :=
  let executing := _Thread_Executing k in
  let p := ready (tcb k executing) in
  if ListChain.has_only_one_node (chain_at k p) then k
  else
    let k := rotate executing p k in
    let k := if _Thread_Is_heir k executing then set_heir (hd NULL (chain_at k p)) k else k in
    set_necessary true k.

Definition _Thread_Yield_processor (k : Kernel) : Kernel :=
  let executing := _Thread_Executing k in
  let p := ready (tcb k executing) in
  if negb (ListChain.has_only_one_node (chain_at k p)) then
    let k := rotate executing p k in
    let k := if _Thread_Is_heir k executing then set_heir (hd NULL (chain_at k p)) k else k in
    set_necessary true k
  else if negb (_Thread_Is_heir k executing) then set_necessary true k
  else k.

(** [callout] is the routine of a thread that manages its own budget. *)
Definition _Thread_Tickle_timeslice (callout : Z -> Z -> Kernel -> Kernel) (k : Kernel) : Kernel :=
  let executing := _Thread_Executing k in
  let k := upd_thread executing (fun c => set_ticks_executed (ticks_executed c +w 1) c) k in
  let c := tcb k executing in
  if negb (is_preemptible c) then k
  else if negb (_States_Is_ready (current_state c)) then k
  else
    match budget_algorithm c with
    | THREAD_CPU_BUDGET_ALGORITHM_NONE => k
    | THREAD_CPU_BUDGET_ALGORITHM_RESET_TIMESLICE
    | THREAD_CPU_BUDGET_ALGORITHM_EXHAUST_TIMESLICE =>
        let k := upd_thread executing (fun c => set_cpu_time_budget (cpu_time_budget c -w 1) c) k in
        if cpu_time_budget (tcb k executing) =? 0 then
          let k := _Thread_Reset_timeslice k in
          upd_thread executing (set_cpu_time_budget (_Thread_Ticks_per_timeslice k)) k
        else k
    | THREAD_CPU_BUDGET_ALGORITHM_CALLOUT =>
        let k := upd_thread executing (fun c => set_cpu_time_budget (cpu_time_budget c -w 1) c) k in
        if cpu_time_budget (tcb k executing) =? 0
        then callout (budget_callout (tcb k executing)) executing k else k
    end.

Definition _Thread_Evaluate_mode (k : Kernel) : bool * Kernel :=
  let executing := _Thread_Executing k in
  if negb (_States_Is_ready (current_state (tcb k executing)))
     || (negb (_Thread_Is_heir k executing) && is_preemptible (tcb k executing))
  then (true, set_necessary true k)
  else (false, k).

(** ** Dispatching

    [isrs] holds the interrupt processing done during each pass through the loop
    (none in the passes beyond the end of the list), [switch] stands for the user
    extensions run at a switch ([_User_extensions_Thread_switch]) and
    [postswitch] for those run after it ([_API_extensions_Run_postswitch]).  The
    context switch itself saves and restores the processor registers; what the
    model keeps of it is that the code goes on on behalf of the thread switched
    to. *)

Section Dispatch.
Context (switch : Z -> Z -> Kernel -> Kernel) (postswitch : Kernel -> Kernel).

(** Saving the registers to, and loading them from, the area of a thread. *)
Definition _Context_Save_fp (area : Z) (k : Kernel) : Kernel :=
  set_fp_areas (st (fp_areas k) area (fp_registers k)) k.
Definition _Context_Restore_fp (area : Z) (k : Kernel) : Kernel :=
  set_fp_registers (ld (fp_areas k) area) k.

(** The deferred floating point switch. *)
Definition switch_fp (heir : Z) (k : Kernel) : Kernel :=
  if negb (fp_context (tcb k heir) =? NULL) && negb (_Thread_Is_allocated_fp k heir) then
    let k := if negb (_Thread_Allocated_fp k =? NULL)
             then _Context_Save_fp (fp_context (tcb k (_Thread_Allocated_fp k))) k else k in
    let k := _Context_Restore_fp (fp_context (tcb k heir)) k in
    set_allocated_fp heir k
  else k.

(** One pass through the loop of [_Thread_Dispatch]. *)
Definition dispatch_once (isr : Kernel -> Kernel) (executing : Z) (k : Kernel) : Kernel :=
  let heir := _Thread_Heir k in
  let k := set_disable_level 1 k in
  let k := set_necessary false k in
  let k := set_executing heir k in
  let k := isr k in
  let k := upd_thread heir (fun c => set_ticks_executed (ticks_executed c +w 1) c) k in
  let k := switch executing heir k in
  let k := match budget_algorithm (tcb k heir) with
           | THREAD_CPU_BUDGET_ALGORITHM_RESET_TIMESLICE =>
               upd_thread heir (set_cpu_time_budget (_Thread_Ticks_per_timeslice k)) k
           | _ => k
           end in
  switch_fp heir k.

Fixpoint dispatch_loop (fuel : nat) (isrs : list (Kernel -> Kernel)) (executing : Z) (k : Kernel)
  : option (Z * Kernel) :=
  match fuel with
  | O => None
  | S fuel =>
      if _Context_Switch_necessary k then
        let k := dispatch_once (hd id isrs) executing k in
        dispatch_loop fuel (tl isrs) (_Thread_Executing k) k
      else Some (executing, k)
  end.

Definition _Thread_Dispatch (fuel : nat) (isrs : list (Kernel -> Kernel)) (k : Kernel)
  : option Kernel :=
  match dispatch_loop fuel isrs (_Thread_Executing k) k with
  | None => None
  | Some (executing, k) =>
      let k := set_disable_level 0 k in
      if negb (_Thread_Do_post_task_switch_extension k =? 0)
         || do_post_task_switch_extension (tcb k executing)
      then Some (postswitch (upd_thread executing (set_do_post false) k))
      else Some k
  end.

Definition _Thread_Enable_dispatch (fuel : nat) (isrs : list (Kernel -> Kernel)) (k : Kernel)
  : option Kernel :=
  let k := _Thread_Unnest_dispatch k in
  if _Thread_Dispatch_disable_level k =? 0 then _Thread_Dispatch fuel isrs k else Some k.
End Dispatch.

(** ** Starting and restarting *)

Definition _Thread_Load_environment (the_thread : Z) (k : Kernel) : Kernel :=
  upd_thread the_thread (fun c =>
    let c := if negb (start_fp_context (Start c) =? 0)
             then set_fp_context (start_fp_context (Start c)) c else c in
    set_budget_callout (start_budget_callout (Start c))
      (set_budget_algorithm (start_budget_algorithm (Start c))
        (set_is_preemptible (start_is_preemptible (Start c)) (set_do_post false c)))) k.

(** [started] stands for [_User_extensions_Thread_start]. *)
Definition _Thread_Start (started : Z -> Kernel -> Kernel) (the_thread : Z)
    (the_prototype : Thread_Start_types) (entry pointer_arg numeric_arg : Z) (k : Kernel)
  : bool * Kernel :=
  if _States_Is_dormant (current_state (tcb k the_thread)) then
    let k := upd_thread the_thread (fun c =>
               set_Start (set_numeric_argument numeric_arg (set_pointer_argument pointer_arg
                 (set_prototype the_prototype (set_entry_point entry (Start c))))) c) k in
    let k := _Thread_Load_environment the_thread k in
    let k := _Thread_Ready the_thread k in
    (true, started the_thread k)
  else (false, k).

(** ** Look-up by id (local threads of one node) *)

Section Get.
Context (switch : Z -> Z -> Kernel -> Kernel) (postswitch : Kernel -> Kernel).
Context (isrs : list (Kernel -> Kernel)) (fuel : nat) (_Objects_Local_node _Objects_Maximum_nodes : Z).

Definition enable_or_stay (k : Kernel) : Kernel :=
  default k (_Thread_Enable_dispatch switch postswitch fuel isrs k).

Definition _Thread_Get (id : Z) (k : Kernel) : option (Objects_Locations * Z * Kernel) :=
  if _Objects_Are_ids_equal id OBJECTS_ID_OF_SELF
  then Some (OBJECTS_LOCAL, _Thread_Executing k, _Thread_Disable_dispatch k)
  else
    let the_class := _Objects_Get_class id in
    if OBJECTS_CLASSES_LAST <? the_class then Some (OBJECTS_ERROR, NULL, k)
    else
      match information_table k !! the_class with
      | None => Some (OBJECTS_ERROR, NULL, k)
      | Some information =>
          if negb (is_thread (info information)) then Some (OBJECTS_ERROR, NULL, k)
          else _Objects_Get _Objects_Local_node _Objects_Maximum_nodes
                 _Thread_Disable_dispatch enable_or_stay _Thread_Unnest_dispatch (info information) id k
      end.

(** [None]: the look-up leaves the object table. *)
Definition _Thread_Delay_ended (id : Z) (k : Kernel) : option Kernel :=
  match _Thread_Get id k with
  | None => None
  | Some (OBJECTS_LOCAL, the_thread, k) => Some (_Thread_Unnest_dispatch (_Thread_Unblock the_thread k))
  | Some (_, _, k) => Some k
  end.
End Get.
