(* ===== verification/ThreadProofs.v ===== *)
(** * Correctness of the scheduler

    The invariant of the thread handler: the ready chains hold exactly the ready
    threads, each once and on the chain of its priority, the bit map records which
    chains are not empty, the heir is the first thread of the first chain that is not
    empty, and a switch to it is flagged whenever the executing thread has to give
    the processor up.  Every operation of the thread handler preserves it. *)
From S2P Require Import Prelude Chain Watchdog Object Priority Kernel Thread.

(** ** The invariant *)

Definition known (k : Kernel) (t : Z) : Prop := is_Some (threads k !! t).

Definition tcb_ok (c : Thread_Control) : Prop :=
  prio (current_priority c) /\ ready c = current_priority c /\
  Priority_map c = _Priority_Initialize_information (current_priority c).

(** The ready chains agree with the control blocks, the thread in [o] excepted, which
    is on none of them. *)
Record ready_out (o : option Z) (k : Kernel) : Prop := {
  ro_map : map_ok (bit_map k);
  ro_bits : forall p, prio p -> is_set (bit_map k) p = negb (ListChain.is_empty (chain_at k p));
  ro_nodup : forall p, prio p -> NoDup (chain_at k p);
  ro_chain : forall p u, prio p -> u ∈ chain_at k p <->
    known k u /\ Some u <> o /\ current_state (tcb k u) = STATES_READY
    /\ current_priority (tcb k u) = p;
  ro_tcb : forall u, known k u -> tcb_ok (tcb k u)
}.
Definition ready_ok : Kernel -> Prop := ready_out None.

(** [t] is the first ready thread of the highest priority at which one is ready. *)
Definition first_ready (k : Kernel) (t : Z) : Prop :=
  exists p, prio p /\ (forall q, prio q -> q < p -> chain_at k q = []) /\
    head (chain_at k p) = Some t.

Definition is_ready (k : Kernel) (t : Z) : Prop := current_state (tcb k t) = STATES_READY.

Definition switch_ok (k : Kernel) : Prop :=
  _Thread_Executing k <> _Thread_Heir k ->
  is_preemptible (tcb k (_Thread_Executing k)) = true \/ ~ is_ready k (_Thread_Executing k) ->
  _Context_Switch_necessary k = true.

Record sched_ok (k : Kernel) : Prop := {
  so_ready : ready_ok k;
  so_heir : first_ready k (_Thread_Heir k);
  so_switch : switch_ok k;
  so_executing : known k (_Thread_Executing k);
  so_idle : known k (_Thread_Idle k) /\ is_ready k (_Thread_Idle k)
}.

(** ** Access *)

Lemma tcb_upd k t f u : tcb (upd_thread t f k) u = if decide (u = t) then f (tcb k t) else tcb k u.
Proof.
  unfold tcb at 1, upd_thread. simpl. case_decide as E; subst.
  - by rewrite lookup_total_insert_eq.
  - by rewrite lookup_total_insert_ne.
Qed.
Lemma tcb_upd_eq k t f : tcb (upd_thread t f k) t = f (tcb k t).
Proof. rewrite tcb_upd. by rewrite decide_True. Qed.
Lemma tcb_upd_ne k t f u : u <> t -> tcb (upd_thread t f k) u = tcb k u.
Proof. intros. rewrite tcb_upd. by rewrite decide_False. Qed.

Lemma known_upd k t f u : known k t -> known (upd_thread t f k) u <-> known k u.
Proof.
  intros Ht. unfold known, upd_thread in *. simpl. rewrite lookup_insert_is_Some.
  destruct (decide (t = u)); subst; tauto.
Qed.

Lemma chain_put k p l q : chain_at (put_chain p l k) q = if decide (q = p) then l else chain_at k q.
Proof.
  unfold chain_at at 1, put_chain. simpl. case_decide as E; subst.
  - by rewrite lookup_total_insert_eq.
  - by rewrite lookup_total_insert_ne.
Qed.

(** Two records of the state that agree on what the invariant reads. *)
Lemma ready_out_ext o k k' :
  bit_map k' = bit_map k -> _Thread_Ready_chain k' = _Thread_Ready_chain k ->
  (forall u, known k' u <-> known k u) ->
  (forall u, current_state (tcb k' u) = current_state (tcb k u)
     /\ current_priority (tcb k' u) = current_priority (tcb k u)
     /\ ready (tcb k' u) = ready (tcb k u) /\ Priority_map (tcb k' u) = Priority_map (tcb k u)) ->
  ready_out o k -> ready_out o k'.
Proof.
  intros E1 E2 E3 E4 [H1 H2 H3 H4 H5].
  assert (forall p, chain_at k' p = chain_at k p) as EC by (intros p; unfold chain_at; by rewrite E2).
  split.
  - by rewrite E1.
  - intros p Hp. rewrite E1, EC. auto.
  - intros p Hp. rewrite EC. auto.
  - intros p u Hp. destruct (E4 u) as (A & B & _). rewrite EC, H4, E3, A, B by done. done.
  - intros u Hu. destruct (E4 u) as (A & B & C & D). unfold tcb_ok. rewrite B, C, D. by apply H5, E3.
Qed.

(** The variables of the thread handler are free once the chains, the bit map and the
    control blocks are settled. *)
Lemma sched_mk k k' :
  ready_ok k ->
  bit_map k' = bit_map k /\ _Thread_Ready_chain k' = _Thread_Ready_chain k /\ threads k' = threads k ->
  first_ready k (_Thread_Heir k') -> switch_ok k' -> known k (_Thread_Executing k') ->
  known k (_Thread_Idle k') /\ is_ready k (_Thread_Idle k') -> sched_ok k'.
Proof.
  intros H (E1 & E2 & E3) HF HW HE [HI1 HI2].
  assert (forall u, tcb k' u = tcb k u) as ET by (intros; unfold tcb; by rewrite E3).
  assert (forall u, known k' u <-> known k u) as EK by (intros; unfold known; by rewrite E3).
  split.
  - apply (ready_out_ext None k); try done. intros u. by rewrite ET.
  - destruct HF as (p & A & B & C). exists p. unfold chain_at in *. by rewrite E2.
  - done.
  - by apply EK.
  - split; [by apply EK|]. unfold is_ready. by rewrite ET.
Qed.

(** ** Threads off the ready chains *)

Section Out.
Context (t : Z) (k : Kernel).

Lemma open_out : ready_ok k -> ~ is_ready k t -> ready_out (Some t) k.
Proof.
  intros [H1 H2 H3 H4 H5] Ht. split; try done. intros p u Hp. rewrite H4 by done.
  split; intros (A & B & C & D); split_and!; try done. intros [= ->]. done.
Qed.

Lemma close_out : ready_out (Some t) k -> ~ is_ready k t -> ready_ok k.
Proof.
  intros [H1 H2 H3 H4 H5] Ht. split; try done. intros p u Hp. rewrite H4 by done.
  split; intros (A & B & C & D); split_and!; try done. intros [= ->]. done.
Qed.

Lemma out_not_in p : ready_out (Some t) k -> prio p -> t ∉ chain_at k p.
Proof. intros H Hp Hin. apply (ro_chain _ _ H) in Hin as (_ & Hne & _); [|done]. done. Qed.

Lemma upd_out f : ready_out (Some t) k -> known k t -> tcb_ok (f (tcb k t)) ->
  ready_out (Some t) (upd_thread t f k).
Proof.
  intros [H1 H2 H3 H4 H5] Hk Hf. split; try done.
  - intros p u Hp. change (chain_at (upd_thread t f k) p) with (chain_at k p).
    rewrite H4, known_upd by done. destruct (decide (u = t)) as [-> |Hne].
    + split; intros (_ & Hn & _); done.
    + by rewrite tcb_upd_ne.
  - intros u. rewrite known_upd by done. intros Hu. rewrite tcb_upd. case_decide; subst; auto.
Qed.
End Out.

Lemma append_ready_chain t k q :
  chain_at (append_ready t k) q =
  if decide (q = ready (tcb k t)) then chain_at k q ++ [t] else chain_at k q.
Proof.
  unfold append_ready. rewrite chain_put.
  change (tcb (set_bit_map _ k) t) with (tcb k t). case_decide; by subst.
Qed.
Lemma prepend_ready_chain t k q :
  chain_at (prepend_ready t k) q =
  if decide (q = ready (tcb k t)) then t :: chain_at k q else chain_at k q.
Proof.
  unfold prepend_ready. rewrite chain_put.
  change (tcb (set_bit_map _ k) t) with (tcb k t). case_decide; by subst.
Qed.

(** Putting a ready thread on the chain of its priority, at either end. *)
Lemma put_ready_ok t k l :
  ready_out (Some t) k -> known k t -> is_ready k t ->
  l ≡ₚ t :: chain_at k (ready (tcb k t)) ->
  ready_ok (put_chain (ready (tcb k t)) l
    (set_bit_map (_Priority_Add_to_bit_map (Priority_map (tcb k t)) (bit_map k)) k)).
Proof.
  intros H Hk Hr Hl. pose proof H as [H1 H2 H3 H4 H5].
  destruct (H5 t Hk) as (Hp & ER & EM). rewrite EM. rewrite ER in *.
  set (p := current_priority (tcb k t)) in *. split.
  - by apply add_ok.
  - intros q Hq. simpl. rewrite chain_put, add_set, H2 by done. case_decide as E.
    + subst q. rewrite Z.eqb_refl, orb_true_r. destruct l; [|done].
      by apply Permutation_nil_cons in Hl.
    + apply Z.eqb_neq in E. by rewrite E, orb_false_r.
  - intros q Hq. rewrite chain_put. case_decide as E; [|by apply H3]. rewrite Hl.
    apply NoDup_cons; split; [by apply out_not_in|by apply H3].
  - intros q u Hq. rewrite chain_put. change (known _ u) with (known k u).
    change (tcb (put_chain _ _ _) u) with (tcb k u).
    change (chain_at _ q) with (chain_at k q). case_decide as E.
    + subst q. rewrite Hl, elem_of_cons, H4 by done. split.
      * intros [-> |(A & B & C & D)]; done.
      * intros (A & _ & C & D). destruct (decide (u = t)); [by left|right]. split_and!; congruence.
    + rewrite H4 by done. split; intros (A & B & C & D); split_and!; try done.
      intros [= ->]. done.
  - intros u Hu. by apply H5.
Qed.

Lemma append_ready_ok t k :
  ready_out (Some t) k -> known k t -> is_ready k t -> ready_ok (append_ready t k).
Proof. intros. apply (put_ready_ok t k); try done. symmetry. apply Permutation_cons_append. Qed.
Lemma prepend_ready_ok t k :
  ready_out (Some t) k -> known k t -> is_ready k t -> ready_ok (prepend_ready t k).
Proof. intros. by apply (put_ready_ok t k). Qed.

(** Taking a ready thread off its chain. *)
Lemma one_node_extract (l : list Z) t : t ∈ l -> ListChain.has_only_one_node l = true ->
  ListChain.extract l t = [].
Proof.
  destruct l as [|x [|]]; try done. intros Hin _. apply list_elem_of_singleton in Hin as ->.
  simpl. by rewrite decide_True.
Qed.

Section Remove.
Context (t : Z) (k : Kernel) (H : ready_ok k) (Hk : known k t) (Hr : is_ready k t).
Let p := ready (tcb k t).

Lemma ready_in_chain : t ∈ chain_at k p.
Proof.
  destruct (ro_tcb _ _ H t Hk) as (Hp & ER & _). subst p. rewrite ER. by apply (ro_chain _ _ H).
Qed.

Lemma remove_ready_chain q :
  chain_at (remove_ready t p k) q =
  if decide (q = p) then ListChain.extract (chain_at k q) t else chain_at k q.
Proof.
  unfold remove_ready. pose proof ready_in_chain as Hin.
  destruct (ListChain.has_only_one_node (chain_at k p)) eqn:E.
  - change (chain_at (set_bit_map ?b ?x) q) with (chain_at x q). rewrite chain_put.
    case_decide; [subst q|done]. by rewrite one_node_extract.
  - rewrite chain_put. case_decide; by subst.
Qed.

Lemma extract_nonempty (l : list Z) : t ∈ l -> ListChain.has_only_one_node l = false ->
  ListChain.is_empty (ListChain.extract l t) = false.
Proof using.
  clear. destruct l as [|x [|y l]]; try done; [by intros ?%elem_of_nil|].
  intros _ _. simpl. repeat case_decide; done.
Qed.

Lemma remove_ready_out : ready_out (Some t) (remove_ready t p k).
Proof.
  pose proof H as [H1 H2 H3 H4 H5]. destruct (H5 t Hk) as (Hp & ER & EM).
  pose proof ready_in_chain as Hin. pose proof remove_ready_chain as HC.
  assert (prio p) as Hpp by (subst p; by rewrite ER).
  assert (threads (remove_ready t p k) = threads k) as ET
    by (unfold remove_ready; by destruct (ListChain.has_only_one_node _)).
  assert (forall u, tcb (remove_ready t p k) u = tcb k u) as EU by (intros u; unfold tcb; by rewrite ET).
  split.
  - unfold remove_ready. destruct (ListChain.has_only_one_node _); [|done].
    simpl. change (tcb (put_chain _ _ _) t) with (tcb k t). rewrite EM. by apply remove_ok.
  - intros q Hq. rewrite HC. unfold remove_ready.
    destruct (ListChain.has_only_one_node (chain_at k p)) eqn:E; simpl.
    + change (tcb (put_chain _ _ _) t) with (tcb k t). rewrite EM, remove_set, H2 by done.
      fold p in ER. rewrite <- ER. case_decide as Eq.
      * subst q. rewrite Z.eqb_refl, andb_false_r. by rewrite one_node_extract.
      * apply Z.eqb_neq in Eq. by rewrite Eq, andb_true_r.
    + rewrite H2 by done. case_decide as Eq; [subst q|done]. rewrite extract_nonempty by done.
      destruct (chain_at k p); [by apply elem_of_nil in Hin|done].
  - intros q Hq. rewrite HC. case_decide; [|auto]. apply ListChain.NoDup_extract. auto.
  - intros q u Hq. rewrite HC, EU. unfold known. rewrite ET. fold (known k u). case_decide as Eq.
    + subst q. rewrite ListChain.elem_of_extract, H4 by auto. split.
      * intros ((A & _ & C & D) & F). split_and!; congruence.
      * intros (A & B & C & D). split_and!; congruence.
    + rewrite H4 by done. split; intros (A & B & C & D); split_and!; try done.
      intros [= ->]. apply Eq. unfold p. congruence.
  - intros u. unfold known. rewrite ET, EU. by apply H5.
Qed.
End Remove.

Lemma remove_ready_commute t p s k :
  remove_ready t p (upd_thread t (set_current_state s) k) =
  upd_thread t (set_current_state s) (remove_ready t p k).
Proof.
  unfold remove_ready. change (chain_at (upd_thread _ _ _) p) with (chain_at k p).
  destruct (ListChain.has_only_one_node _); [|done].
  replace (Priority_map (tcb (put_chain p [] (upd_thread t (set_current_state s) k)) t))
    with (Priority_map (tcb (put_chain p [] k) t)); [done|].
  change (tcb (put_chain p [] (upd_thread t (set_current_state s) k)) t)
    with (tcb (upd_thread t (set_current_state s) k) t). by rewrite tcb_upd_eq.
Qed.

(** ** The heir *)

Lemma first_ready_ext k k' t :
  (forall q, prio q -> chain_at k' q = chain_at k q) -> first_ready k t -> first_ready k' t.
Proof.
  intros E (p & Hp & Hlow & Hhd). exists p. split_and!; [done|..].
  - intros q Hq Hlt. rewrite E by done. auto.
  - by rewrite E.
Qed.

Lemma calculate_heir_first k u : ready_ok k -> known k u -> is_ready k u ->
  first_ready (_Thread_Calculate_heir k) (_Thread_Heir (_Thread_Calculate_heir k)).
Proof.
  intros [H1 H2 H3 H4 H5] Hk Hr. destruct (H5 u Hk) as (Hp & _ & _).
  assert (u ∈ chain_at k (current_priority (tcb k u))) as Hin by (by apply H4).
  assert (is_set (bit_map k) (current_priority (tcb k u)) = true) as Hs.
  { rewrite H2 by done. destruct (chain_at k _); [by apply elem_of_nil in Hin|done]. }
  destruct (get_highest_least _ _ H1 Hp Hs) as (Hhp & Hset & Hleast).
  exists (_Priority_Get_highest (bit_map k)). split_and!; [done|..].
  - intros q Hq Hlt. change (chain_at _ q) with (chain_at k q). specialize (Hleast q Hq).
    rewrite H2 in Hleast by done. destruct (chain_at k q); [done|]. specialize (Hleast eq_refl). lia.
  - change (chain_at (_Thread_Calculate_heir k)) with (chain_at k). simpl.
    rewrite H2 in Hset by done. by destruct (chain_at k (_Priority_Get_highest (bit_map k))).
Qed.

Lemma head_elem (l : list Z) t : head l = Some t -> t ∈ l.
Proof. destruct l; [done|]. intros [= ->]. apply list_elem_of_here. Qed.

Section First.
Context (k : Kernel) (t : Z) (H : ready_ok k) (HF : first_ready k t).

Lemma first_ready_thread : known k t /\ is_ready k t.
Proof.
  destruct HF as (p & Hp & _ & Hhd). apply head_elem in Hhd.
  apply (ro_chain _ _ H) in Hhd as (A & _ & C & _); done.
Qed.

Lemma first_ready_head : head (chain_at k (current_priority (tcb k t))) = Some t.
Proof.
  destruct HF as (p & Hp & _ & Hhd). pose proof (head_elem _ _ Hhd) as Hin.
  apply (ro_chain _ _ H) in Hin as (_ & _ & _ & ->); done.
Qed.

Lemma first_ready_highest q : prio q -> q < current_priority (tcb k t) -> chain_at k q = [].
Proof.
  destruct HF as (p & Hp & Hlow & Hhd). pose proof (head_elem _ _ Hhd) as Hin.
  apply (ro_chain _ _ H) in Hin as (_ & _ & _ & ->); [|done]. apply Hlow.
Qed.
End First.

(** A thread that is not executing cannot change whether a switch is due, unless the
    heir changes. *)
Lemma executing_not_ready k : ready_ok k -> first_ready k (_Thread_Heir k) ->
  ~ is_ready k (_Thread_Executing k) -> _Thread_Executing k <> _Thread_Heir k.
Proof.
  intros H HF Hn E. destruct (first_ready_thread k _ H HF) as [_ Hr]. by rewrite <- E in Hr.
Qed.

(** ** Blocking *)

Lemma states_set_blocked s c : c <> STATES_READY -> _States_Set s c <> STATES_READY.
Proof. unfold _States_Set, STATES_READY. intros Hc E. apply Z.lor_eq_0_iff in E. tauto. Qed.

Lemma tcb_ok_state s c : tcb_ok c -> tcb_ok (set_current_state s c).
Proof. done. Qed.

Lemma upd_blocked_ok t s k : ready_ok k -> known k t -> ~ is_ready k t -> s <> STATES_READY ->
  ready_ok (upd_thread t (set_current_state s) k).
Proof.
  intros H Hk Hr Hs. apply close_out with t.
  - apply upd_out; [by apply open_out|done|]. by apply tcb_ok_state, (ro_tcb _ _ H).
  - unfold is_ready. by rewrite tcb_upd_eq.
Qed.

Lemma block_ready_ok t s k : ready_ok k -> known k t -> is_ready k t -> s <> STATES_READY ->
  ready_ok (remove_ready t (ready (tcb k t)) (upd_thread t (set_current_state s) k)).
Proof.
  intros H Hk Hr Hs. rewrite remove_ready_commute.
  assert (forall u, tcb (remove_ready t (ready (tcb k t)) k) u = tcb k u) as ET.
  { intros u. unfold remove_ready. by destruct (ListChain.has_only_one_node _). }
  assert (known (remove_ready t (ready (tcb k t)) k) t) as Hk'.
  { unfold remove_ready. by destruct (ListChain.has_only_one_node _). }
  apply close_out with t.
  - apply upd_out; [by apply remove_ready_out|done|]. rewrite ET. by apply tcb_ok_state, (ro_tcb _ _ H).
  - unfold is_ready. by rewrite tcb_upd_eq.
Qed.

(** The state after the blocking of a ready thread, before the heir is looked at. *)
Definition blocked_state (t s : Z) (k : Kernel) : Kernel :=
  remove_ready t (ready (tcb k t)) (upd_thread t (set_current_state s) k).

Section Blocked.
Context (t s : Z) (k : Kernel).

Lemma blocked_frame :
  _Thread_Executing (blocked_state t s k) = _Thread_Executing k /\
  _Thread_Heir (blocked_state t s k) = _Thread_Heir k /\
  _Thread_Idle (blocked_state t s k) = _Thread_Idle k /\
  _Context_Switch_necessary (blocked_state t s k) = _Context_Switch_necessary k /\
  threads (blocked_state t s k) = threads (upd_thread t (set_current_state s) k).
Proof. unfold blocked_state, remove_ready. by destruct (ListChain.has_only_one_node _). Qed.

Lemma blocked_tcb u : tcb (blocked_state t s k) u =
  if decide (u = t) then set_current_state s (tcb k t) else tcb k u.
Proof.
  destruct blocked_frame as (_ & _ & _ & _ & E). unfold tcb at 1. rewrite E.
  apply (tcb_upd k t (set_current_state s) u).
Qed.

Lemma blocked_known u : known k t -> known (blocked_state t s k) u <-> known k u.
Proof.
  intros Hk. destruct blocked_frame as (_ & _ & _ & _ & E). unfold known at 1. rewrite E.
  apply (known_upd k t (set_current_state s) u Hk).
Qed.

Lemma blocked_chain q : ready_ok k -> known k t -> is_ready k t ->
  chain_at (blocked_state t s k) q =
  if decide (q = ready (tcb k t)) then ListChain.extract (chain_at k q) t else chain_at k q.
Proof.
  intros H Hk Hr. unfold blocked_state. rewrite remove_ready_commute.
  change (chain_at (upd_thread _ _ ?x) q) with (chain_at x q). by apply remove_ready_chain.
Qed.

(** A thread other than the heir does not change the head of the heir's chain. *)
Lemma blocked_heir : sched_ok k -> known k t -> is_ready k t -> t <> _Thread_Heir k ->
  first_ready (blocked_state t s k) (_Thread_Heir k).
Proof.
  intros [H (p & Hp & Hlow & Hhd) _ _ _] Hk Hr Hne. exists p. split_and!; [done|..].
  - intros q Hq Hlt. rewrite blocked_chain, Hlow by done. by case_decide.
  - rewrite blocked_chain by done. case_decide; [|done]. destruct (chain_at k p); [done|].
    injection Hhd as ->. simpl. by rewrite decide_False.
Qed.
End Blocked.

Lemma set_state_ok t s k :
  sched_ok k -> known k t -> t <> _Thread_Idle k -> s <> STATES_READY ->
  sched_ok (_Thread_Set_state t s k).
Proof.
  intros HS Hk Hidle Hs. pose proof HS as [H HF HW HE [HI1 HI2]]. unfold _Thread_Set_state.
  destruct (_States_Is_ready (current_state (tcb k t))) eqn:Er; simpl.
  - apply Z.eqb_eq in Er. fold (blocked_state t s k).
    destruct (blocked_frame t s k) as (E1 & E2 & E3 & E4 & _).
    assert (ready_ok (blocked_state t s k)) as H' by (by apply block_ready_ok).
    assert (known (blocked_state t s k) (_Thread_Idle k)) as K' by (by apply blocked_known).
    assert (is_ready (blocked_state t s k) (_Thread_Idle k)) as R'
      by (unfold is_ready; by rewrite blocked_tcb, decide_False).
    pose proof (calculate_heir_first _ _ H' K' R') as HC.
    unfold _Thread_Is_heir. rewrite E2. destruct (Z.eqb_spec t (_Thread_Heir k)) as [Eh|Eh].
    + unfold _Thread_Is_executing. change (_Thread_Executing (_Thread_Calculate_heir ?x))
        with (_Thread_Executing x). rewrite E1.
      destruct (Z.eqb_spec t (_Thread_Executing k)) as [Ee|Ee];
        apply (sched_mk (blocked_state t s k)); simpl; rewrite ?E1, ?E3; try done; try by apply blocked_known.
      intros _ Hor. simpl in *. rewrite E4. apply HW; [congruence|].
      unfold is_ready in *. change (tcb (_Thread_Calculate_heir ?x)) with (tcb x) in Hor.
      by rewrite E1, blocked_tcb, decide_False in Hor.
    + pose proof (blocked_heir t s k HS Hk Er Eh) as HF'.
      unfold _Thread_Is_executing. rewrite E1. destruct (Z.eqb_spec t (_Thread_Executing k)) as [Ee|Ee];
        apply (sched_mk (blocked_state t s k)); simpl; rewrite ?E1, ?E2, ?E3; try done;
        try by apply blocked_known.
      unfold switch_ok, is_ready. rewrite E1, E2, E4, blocked_tcb, decide_False by done. apply HW.
  - apply Z.eqb_neq in Er.
    assert (forall u, current_state (tcb (upd_thread t (fun c => set_current_state
      (_States_Set s (current_state c)) c) k) u) = STATES_READY <-> is_ready k u) as EQ.
    { intros u. rewrite tcb_upd. case_decide; [subst u; simpl|done]. split; [|done].
      by intros ?%states_set_blocked. }
    split.
    + apply (upd_blocked_ok t (_States_Set s (current_state (tcb k t)))); try done.
      by apply states_set_blocked.
    + done.
    + intros Hne Hor. apply HW; [done|]. simpl in Hor. unfold is_ready in *. rewrite EQ in Hor.
      rewrite tcb_upd in Hor. case_decide as E; [|done]. rewrite E. rewrite E in Hor. done.
    + by apply known_upd.
    + split; [by apply known_upd|]. by apply EQ.
Qed.

(** ** Making a thread ready *)

Lemma blocked_executing k : sched_ok k -> ~ is_ready k (_Thread_Executing k) ->
  _Context_Switch_necessary k = true.
Proof. intros [H HF HW _ _] Hn. apply HW; [by apply executing_not_ready|by right]. Qed.

(** The thread at [t], whose control block says it is ready, joins its chain in front
    ([pre]) or at the end. *)
Definition enter (pre : bool) (t : Z) : Kernel -> Kernel :=
  if pre then prepend_ready t else append_ready t.

Section Enter.
Context (pre : bool) (t : Z) (k : Kernel).

Lemma enter_frame :
  _Thread_Executing (enter pre t k) = _Thread_Executing k /\
  _Thread_Heir (enter pre t k) = _Thread_Heir k /\
  _Thread_Idle (enter pre t k) = _Thread_Idle k /\
  _Context_Switch_necessary (enter pre t k) = _Context_Switch_necessary k /\
  threads (enter pre t k) = threads k.
Proof. unfold enter. by destruct pre. Qed.

Lemma enter_tcb u : tcb (enter pre t k) u = tcb k u.
Proof. unfold enter. by destruct pre. Qed.

Lemma enter_ok : ready_out (Some t) k -> known k t -> is_ready k t -> ready_ok (enter pre t k).
Proof. unfold enter. destruct pre; [apply prepend_ready_ok|apply append_ready_ok]. Qed.

Lemma enter_chain q : chain_at (enter pre t k) q =
  if decide (q = ready (tcb k t))
  then (if pre then t :: chain_at k q else chain_at k q ++ [t]) else chain_at k q.
Proof.
  unfold enter. destruct pre; [rewrite prepend_ready_chain|rewrite append_ready_chain]; by case_decide.
Qed.
End Enter.

(** The heir is found anew, and a switch to it flagged. *)
Definition reschedule (k : Kernel) : Kernel :=
  let k := _Thread_Calculate_heir k in
  if negb (_Thread_Is_executing_also_the_heir k) && is_preemptible (tcb k (_Thread_Executing k))
  then set_necessary true k else k.

Lemma reschedule_ok k :
  ready_ok k -> known k (_Thread_Executing k) ->
  known k (_Thread_Idle k) -> is_ready k (_Thread_Idle k) ->
  (~ is_ready k (_Thread_Executing k) -> _Context_Switch_necessary k = true) ->
  sched_ok (reschedule k).
Proof.
  intros H HE HI1 HI2 HN. pose proof (calculate_heir_first _ _ H HI1 HI2) as HF.
  unfold reschedule. destruct (negb _ && _) eqn:E; apply (sched_mk k); try done.
  apply andb_false_iff in E as [E|E].
  - apply negb_false_iff, Z.eqb_eq in E. intros Hne. done.
  - intros _ [Hp|Hn]; [|by apply HN]. simpl in *.
    change (tcb (_Thread_Calculate_heir k)) with (tcb k) in *. congruence.
Qed.

Lemma thread_ready_eq t k :
  _Thread_Ready t k = reschedule (enter false t (upd_thread t (set_current_state STATES_READY) k)).
Proof.
  unfold _Thread_Ready, reschedule, _Thread_Is_executing, _Thread_Is_executing_also_the_heir. simpl.
  by rewrite Z.eqb_sym.
Qed.

Section MakeReady.
Context (t s : Z) (k : Kernel) (HS : sched_ok k) (Hk : known k t) (Hr : ~ is_ready k t).
Context (f : Thread_Control -> Thread_Control).
Context (Hf : forall c, tcb_ok c -> tcb_ok (f c)) (Hs : current_state (f (tcb k t)) = STATES_READY).
Let k1 := upd_thread t f k.

Lemma made_out : ready_out (Some t) k1 /\ known k1 t /\ is_ready k1 t.
Proof.
  split_and!.
  - apply upd_out; [apply open_out; [apply HS|done]|done|]. apply Hf, HS, Hk.
  - by apply known_upd.
  - unfold is_ready, k1. by rewrite tcb_upd_eq.
Qed.

Lemma made_ready_ok pre : ready_ok (enter pre t k1).
Proof. destruct made_out as (A & B & C). by apply enter_ok. Qed.

Lemma made_is_ready u pre : is_ready k u -> is_ready (enter pre t k1) u.
Proof.
  unfold is_ready. rewrite enter_tcb. unfold k1. rewrite tcb_upd. by case_decide.
Qed.

Lemma made_known u pre : known (enter pre t k1) u <-> known k u.
Proof.
  unfold known. destruct (enter_frame pre t k1) as (_ & _ & _ & _ & ->).
  apply (known_upd k t f u Hk).
Qed.

Lemma made_executing pre : ~ is_ready (enter pre t k1) (_Thread_Executing k) ->
  _Context_Switch_necessary k = true.
Proof. intros Hn. apply blocked_executing; [done|]. intros Hr'. by apply Hn, made_is_ready. Qed.

Lemma made_rescheduled pre : sched_ok (reschedule (enter pre t k1)).
Proof.
  destruct HS as [_ _ _ HE [HI1 HI2]]. destruct (enter_frame pre t k1) as (E1 & E2 & E3 & E4 & _).
  apply reschedule_ok; rewrite ?E1, ?E3, ?E4; simpl.
  - apply made_ready_ok.
  - by apply made_known.
  - by apply made_known.
  - by apply made_is_ready.
  - apply made_executing.
Qed.
End MakeReady.

Lemma ready_op_ok t k : sched_ok k -> known k t -> ~ is_ready k t -> sched_ok (_Thread_Ready t k).
Proof. intros. rewrite thread_ready_eq. by apply made_rescheduled. Qed.

(** A blocked thread whose state becomes [cs]. *)
Section ClearState.
Context (t cs : Z) (k : Kernel) (HS : sched_ok k) (Hk : known k t) (Hr : ~ is_ready k t).
Let k1 := upd_thread t (set_current_state cs) k.
Let k2 := enter false t k1.

Lemma still_blocked_ok : cs <> STATES_READY -> sched_ok k1.
Proof.
  intros Hc. destruct HS as [H HF HW HE [HI1 HI2]]. apply (sched_mk k1); try done.
  - by apply upd_blocked_ok.
  - intros Hne Hor. apply HW; [done|]. unfold is_ready, k1 in *. simpl in Hor. rewrite tcb_upd in Hor.
    case_decide as E; [|done]. rewrite E. by right.
  - by apply known_upd.
  - split; [by apply known_upd|]. unfold is_ready, k1 in *. rewrite tcb_upd.
    case_decide as E; [|done]. by rewrite <- E in Hr.
Qed.

Lemma cleared_priority u : current_priority (tcb k2 u) = current_priority (tcb k u).
Proof. unfold k2, k1. rewrite enter_tcb, tcb_upd. case_decide; by subst. Qed.

Lemma cleared_chain q : chain_at k2 q =
  if decide (q = current_priority (tcb k t)) then chain_at k q ++ [t] else chain_at k q.
Proof.
  destruct (ro_tcb _ _ (so_ready _ HS) t Hk) as (_ & <- & _).
  unfold k2, k1. by rewrite enter_chain, tcb_upd_eq.
Qed.

Lemma cleared_higher :
  current_priority (tcb k t) < current_priority (tcb k (_Thread_Heir k)) -> first_ready k2 t.
Proof.
  intros Hlt. destruct HS as [H HF _ _ _]. destruct (ro_tcb _ _ H t Hk) as (Hp & _ & _).
  exists (current_priority (tcb k t)). split_and!; [done|..].
  - intros q Hq Hl. rewrite cleared_chain, decide_False by lia.
    apply (first_ready_highest k _ H HF); [done|lia].
  - rewrite cleared_chain, decide_True by done. by rewrite (first_ready_highest k _ H HF).
Qed.

Lemma cleared_lower :
  current_priority (tcb k (_Thread_Heir k)) <= current_priority (tcb k t) ->
  first_ready k2 (_Thread_Heir k).
Proof.
  intros Hge. destruct HS as [H (p & Ap & Alow & Ahd) _ _ _]. pose proof (head_elem _ _ Ahd) as Hin.
  apply (ro_chain _ _ H) in Hin as (_ & _ & _ & Eh); [|done]. exists p. split_and!; [done|..].
  - intros q Hq Hl. rewrite cleared_chain, decide_False by lia. auto.
  - rewrite cleared_chain. case_decide; [|done]. by destruct (chain_at k p).
Qed.

(** The state that keeps the heir, and the one in which [t] is the heir. *)
Lemma cleared_ok heir k3 : cs = STATES_READY -> first_ready k2 heir ->
  bit_map k3 = bit_map k2 /\ _Thread_Ready_chain k3 = _Thread_Ready_chain k2 /\ threads k3 = threads k2 ->
  _Thread_Executing k3 = _Thread_Executing k /\ _Thread_Idle k3 = _Thread_Idle k /\ _Thread_Heir k3 = heir ->
  (_Context_Switch_necessary k = true -> _Context_Switch_necessary k3 = true) ->
  (_Thread_Executing k <> heir -> _Thread_Executing k <> t ->
    is_preemptible (tcb k (_Thread_Executing k)) = true -> _Context_Switch_necessary k3 = true) ->
  sched_ok k3.
Proof.
  intros Hc HF E (E1 & E2 & E3) HN HP. pose proof (made_executing t k HS (set_current_state cs) Hc false) as HX.
  apply (sched_mk k2); rewrite ?E1, ?E2, ?E3; try done.
  - by apply made_ready_ok.
  - unfold switch_ok, is_ready. rewrite E1, E3. assert (tcb k3 = tcb k2) as -> by (unfold tcb; by destruct E as (_ & _ & ->)).
    intros Hne [Hp|Hn]; [|by apply HN, HX].
    destruct (decide (_Thread_Executing k = t)) as [Et|Et].
    + apply HN, blocked_executing; [done|]. by rewrite Et.
    + apply HP; try done. unfold k2, k1 in Hp. by rewrite enter_tcb, tcb_upd_ne in Hp.
  - apply made_known; [done|apply HS].
  - split; [apply made_known; [done|apply HS]|apply made_is_ready; [done|apply HS]].
Qed.
End ClearState.

Lemma clear_state_ok t s k : sched_ok k -> known k t -> sched_ok (_Thread_Clear_state t s k).
Proof.
  intros HS Hk. unfold _Thread_Clear_state.
  destruct (Z.eqb_spec (Z.land (current_state (tcb k t)) s) 0) as [E0|E0]; cbn [negb]; [done|].
  assert (~ is_ready k t) as Hr.
  { intros E. unfold is_ready, STATES_READY in E. by rewrite E, Z.land_0_l in E0. }
  set (cs := _States_Clear s _). destruct (_States_Is_ready cs) eqn:Ec.
  - apply Z.eqb_eq in Ec. change (append_ready t) with (enter false t).
    destruct (enter_frame false t (upd_thread t (set_current_state cs) k)) as (F1 & F2 & F3 & F4 & _).
    rewrite F2, !(cleared_priority t cs k). change (_Thread_Heir (upd_thread _ _ k)) with (_Thread_Heir k).
    destruct (Z.ltb_spec (current_priority (tcb k t)) (current_priority (tcb k (_Thread_Heir k)))) as [Hlt|Hge].
    + pose proof (cleared_higher t cs k HS Hk Hlt) as HF. destruct (_ || _) eqn:Eb;
        apply (cleared_ok t cs k HS Hk Hr t); simpl; rewrite ?F1, ?F3, ?F4; try done.
      intros _ Hne Hp. apply orb_false_iff in Eb as [Eb _].
      change (tcb (set_heir t ?x)) with (tcb x) in Eb.
      rewrite enter_tcb, tcb_upd_ne in Eb by done. simpl in Eb. congruence.
    + pose proof (cleared_lower t cs k HS Hk Hge) as HF. apply (cleared_ok t cs k HS Hk Hr (_Thread_Heir k));
        rewrite ?F1, ?F2, ?F3, ?F4; try done. intros Hne _ Hp. apply HS; [done|by left].
  - apply Z.eqb_neq in Ec. by apply still_blocked_ok.
Qed.

(** ** Changing the priority of a thread *)

Lemma extract_out (l : list Z) t : t ∉ l -> ListChain.extract l t = l.
Proof. apply ListChain.extract_not_elem. Qed.

Section Change.
Context (t new_priority : Z) (pre : bool) (k : Kernel).
Context (HS : sched_ok k) (Hk : known k t) (Hnew : prio new_priority).

(** The control block once it has the new priority. *)
Definition repriced (c : Thread_Control) : Thread_Control :=
  set_current_state (_States_Clear STATES_TRANSIENT (_States_Set STATES_TRANSIENT (current_state c)))
    (set_Priority_map (_Priority_Initialize_information new_priority)
      (set_ready new_priority (set_current_priority new_priority c))).

(** The state in which [t] is on no chain and has the new priority. *)
Definition lifted : Kernel :=
  let k := _Thread_Set_transient t k in
  let k := if negb (current_priority (tcb k t) =? new_priority)
           then _Thread_Set_priority t new_priority k else k in
  upd_thread t (fun c => set_current_state (_States_Clear STATES_TRANSIENT (current_state c)) c) k.

Lemma change_priority_eq :
  _Thread_Change_priority t new_priority pre k =
  if _States_Is_ready (current_state (tcb lifted t)) then reschedule (enter pre t lifted) else lifted.
Proof.
  change (_Thread_Change_priority t new_priority pre k) with
    (let k := lifted in
     if negb (_States_Is_ready (current_state (tcb k t))) then k
     else reschedule (if pre then prepend_ready t k else append_ready t k)).
  generalize lifted as l. intros l. cbv zeta. unfold enter. by destruct (_States_Is_ready _), pre.
Qed.

Lemma transient_chain q : prio q ->
  chain_at (_Thread_Set_transient t k) q = ListChain.extract (chain_at k q) t.
Proof.
  intros Hq. unfold _Thread_Set_transient. pose proof (so_ready _ HS) as H.
  assert (q <> ready (tcb k t) \/ ~ is_ready k t -> chain_at k q = ListChain.extract (chain_at k q) t) as HX.
  { intros Hor. rewrite extract_out; [done|]. intros Hin.
    apply (ro_chain _ _ H) in Hin as (_ & _ & Hr & Ep); [|done].
    destruct (ro_tcb _ _ H t Hk) as (_ & E & _). destruct Hor; congruence. }
  destruct (_States_Is_ready (current_state (tcb k t))) eqn:Er.
  - apply Z.eqb_eq in Er. fold (blocked_state t (_States_Set STATES_TRANSIENT (current_state (tcb k t))) k).
    rewrite blocked_chain by done. case_decide; [done|auto].
  - apply Z.eqb_neq in Er. apply HX. by right.
Qed.

Lemma transient_frame :
  _Thread_Executing (_Thread_Set_transient t k) = _Thread_Executing k /\
  _Thread_Heir (_Thread_Set_transient t k) = _Thread_Heir k /\
  _Thread_Idle (_Thread_Set_transient t k) = _Thread_Idle k /\
  _Context_Switch_necessary (_Thread_Set_transient t k) = _Context_Switch_necessary k /\
  threads (_Thread_Set_transient t k) =
    threads (upd_thread t (set_current_state (_States_Set STATES_TRANSIENT (current_state (tcb k t)))) k).
Proof.
  unfold _Thread_Set_transient. destruct (_States_Is_ready _); [|done].
  apply (blocked_frame t (_States_Set STATES_TRANSIENT (current_state (tcb k t))) k).
Qed.

Lemma transient_out : ready_out (Some t) (_Thread_Set_transient t k).
Proof.
  pose proof (so_ready _ HS) as H. unfold _Thread_Set_transient.
  assert (_States_Set STATES_TRANSIENT (current_state (tcb k t)) <> STATES_READY) as Hs.
  { unfold _States_Set. intros [_ [=]]%Z.lor_eq_0_iff. }
  destruct (_States_Is_ready (current_state (tcb k t))) eqn:Er.
  - apply Z.eqb_eq in Er. apply open_out; [by apply block_ready_ok|]. unfold is_ready.
    fold (blocked_state t (_States_Set STATES_TRANSIENT (current_state (tcb k t))) k).
    by rewrite blocked_tcb, decide_True.
  - apply Z.eqb_neq in Er. apply open_out; [by apply upd_blocked_ok|]. unfold is_ready. by rewrite tcb_upd_eq.
Qed.

Lemma transient_tcb u : tcb (_Thread_Set_transient t k) u =
  if decide (u = t) then set_current_state (_States_Set STATES_TRANSIENT (current_state (tcb k t))) (tcb k t)
  else tcb k u.
Proof.
  destruct transient_frame as (_ & _ & _ & _ & E). unfold tcb at 1. rewrite E.
  apply (tcb_upd k t (set_current_state (_States_Set STATES_TRANSIENT (current_state (tcb k t)))) u).
Qed.

Lemma transient_known u : known (_Thread_Set_transient t k) u <-> known k u.
Proof.
  destruct transient_frame as (_ & _ & _ & _ & E). unfold known at 1. rewrite E.
  apply (known_upd k t (set_current_state _) u Hk).
Qed.

Lemma lifted_frame :
  _Thread_Executing lifted = _Thread_Executing k /\ _Thread_Heir lifted = _Thread_Heir k /\
  _Thread_Idle lifted = _Thread_Idle k /\
  _Context_Switch_necessary lifted = _Context_Switch_necessary k.
Proof.
  destruct transient_frame as (E1 & E2 & E3 & E4 & _). unfold lifted. by destruct (negb _).
Qed.

Lemma lifted_chain q : prio q -> chain_at lifted q = ListChain.extract (chain_at k q) t.
Proof. intros Hq. rewrite <- transient_chain by done. unfold lifted. by destruct (negb _). Qed.

Lemma lifted_tcb u : tcb lifted u = if decide (u = t) then repriced (tcb k t) else tcb k u.
Proof.
  unfold lifted. rewrite tcb_upd. destruct (decide (u = t)) as [-> |Hne].
  - destruct (Z.eqb_spec (current_priority (tcb (_Thread_Set_transient t k) t)) new_priority) as [E|E]; simpl.
    + rewrite transient_tcb, decide_True in E |- * by done. simpl in E. unfold repriced.
      destruct (ro_tcb _ _ (so_ready _ HS) t Hk) as (_ & E2 & E3). rewrite E in E2, E3.
      destruct (tcb k t). simpl in *. by subst.
    + unfold _Thread_Set_priority. by rewrite tcb_upd_eq, transient_tcb, decide_True.
  - destruct (negb _); unfold _Thread_Set_priority; rewrite ?tcb_upd_ne, transient_tcb, decide_False by done; done.
Qed.

Lemma lifted_known u : known lifted u <-> known k u.
Proof.
  rewrite <- transient_known. assert (known (_Thread_Set_transient t k) t) as Ht by (by apply transient_known).
  unfold lifted. destruct (negb _); [|by apply known_upd].
  unfold _Thread_Set_priority. rewrite known_upd by (by apply known_upd). by apply known_upd.
Qed.

Lemma lifted_out : ready_out (Some t) lifted.
Proof.
  assert (known (_Thread_Set_transient t k) t) as Ht by (by apply transient_known).
  unfold lifted. destruct (Z.eqb_spec (current_priority (tcb (_Thread_Set_transient t k) t)) new_priority) as [E|E]; cbn [negb].
  - apply upd_out; [apply transient_out|done|]. by apply tcb_ok_state, (ro_tcb _ _ transient_out).
  - apply upd_out; [|by apply known_upd|].
    + by apply upd_out; [apply transient_out|..].
    + unfold _Thread_Set_priority. by rewrite tcb_upd_eq.
Qed.

Lemma repriced_ready c : current_state c = STATES_READY -> current_state (repriced c) = STATES_READY.
Proof using. clear. intros E. simpl. by rewrite E. Qed.

Lemma lifted_is_ready u : is_ready k u -> is_ready lifted u.
Proof.
  unfold is_ready. rewrite lifted_tcb. case_decide; [subst u; apply repriced_ready|done].
Qed.

Lemma lifted_blocked_ok : ~ is_ready lifted t -> sched_ok lifted.
Proof.
  intros Hn. destruct lifted_frame as (E1 & E2 & E3 & E4).
  assert (~ is_ready k t) as Hr by (intros Hr; by apply Hn, lifted_is_ready).
  pose proof HS as [H HF HW HE [HI1 HI2]]. apply (sched_mk lifted); try done.
  - by apply close_out with t; [apply lifted_out|].
  - rewrite E2. apply (first_ready_ext k); [|done]. intros q Hq. rewrite lifted_chain by done.
    apply extract_out. by apply out_not_in, Hq; [apply open_out].
  - unfold switch_ok, is_ready. rewrite E1, E2, E4, lifted_tcb. intros Hne Hor. apply HW; [done|].
    case_decide as Ee; [|done]. rewrite Ee. by right.
  - rewrite E1. by apply lifted_known.
  - rewrite E3. split; [by apply lifted_known|by apply lifted_is_ready].
Qed.

Lemma change_priority_ok : sched_ok (_Thread_Change_priority t new_priority pre k).
Proof.
  rewrite change_priority_eq. destruct (_States_Is_ready (current_state (tcb lifted t))) eqn:Er.
  - apply Z.eqb_eq in Er. destruct lifted_frame as (E1 & E2 & E3 & E4).
    destruct (enter_frame pre t lifted) as (F1 & F2 & F3 & F4 & F5).
    pose proof HS as [H HF HW HE [HI1 HI2]].
    apply reschedule_ok; rewrite ?F1, ?F3, ?F4, ?E1, ?E3, ?E4; unfold is_ready, known; rewrite ?F5, ?enter_tcb.
    + apply enter_ok; [apply lifted_out|by apply lifted_known|done].
    + by apply lifted_known.
    + by apply lifted_known.
    + by apply lifted_is_ready.
    + intros Hn. apply blocked_executing; [done|]. intros Hr. by apply Hn, lifted_is_ready.
  - apply Z.eqb_neq in Er. by apply lifted_blocked_ok.
Qed.

(** What became of the chains. *)
Lemma change_priority_chain q : is_ready k t -> prio q ->
  chain_at (_Thread_Change_priority t new_priority pre k) q =
  let rest := ListChain.extract (chain_at k q) t in
  if decide (q = new_priority) then (if pre then t :: rest else rest ++ [t]) else rest.
Proof.
  intros Hr Hq. rewrite change_priority_eq.
  replace (_States_Is_ready (current_state (tcb lifted t))) with true
    by (symmetry; by apply Z.eqb_eq, lifted_is_ready).
  transitivity (chain_at (enter pre t lifted) q).
  { unfold reschedule. by destruct (negb _ && _). }
  rewrite enter_chain, lifted_chain, lifted_tcb by done. destruct (decide (t = t)); [|done].
  simpl. case_decide; [|done]. by destruct pre.
Qed.
End Change.

(** ** Time slicing *)

(** The chains are the same up to the order of one of them. *)
Lemma permute_ok p l k : ready_ok k -> l ≡ₚ chain_at k p -> ready_ok (put_chain p l k).
Proof.
  intros [H1 H2 H3 H4 H5] Hl.
  split; try done; intros q Hq; rewrite ?chain_put; change (bit_map _) with (bit_map k).
  - case_decide; [subst q|by apply H2]. rewrite H2 by done.
    destruct l, (chain_at k p); try done; [by apply Permutation_nil_cons in Hl|].
    by symmetry in Hl; apply Permutation_nil_cons in Hl.
  - case_decide; [subst q|by apply H3]. rewrite Hl. by apply H3.
  - intros Hu. case_decide; [subst|by apply H4].
    etransitivity; [by apply elem_of_Permutation_proper|by apply H4].
Qed.

Lemma rotate_chain t p k q : chain_at (rotate t p k) q =
  if decide (q = p) then ListChain.extract (chain_at k p) t ++ [t] else chain_at k q.
Proof.
  unfold rotate. rewrite !chain_put. case_decide; [|done]. by rewrite decide_True.
Qed.

Lemma extract_perm (l : list Z) t : t ∈ l -> ListChain.extract l t ++ [t] ≡ₚ l.
Proof.
  intros Hin. rewrite <- Permutation_cons_append. induction l as [|x l IH]; [by apply elem_of_nil in Hin|].
  simpl. case_decide as E; [by subst|]. apply elem_of_cons in Hin as [->|Hin]; [done|].
  rewrite Permutation_swap. by rewrite IH.
Qed.

(** The executing thread goes to the end of its chain. *)
Section Rotate.
Context (k : Kernel) (HS : sched_ok k).
Let t := _Thread_Executing k.
Let p := ready (tcb k t).
Context (Hr : is_ready k t).
Let k1 := rotate t p k.
Let k2 := if _Thread_Is_heir k1 t then set_heir (hd NULL (chain_at k1 p)) k1 else k1.

Lemma executing_in_chain : prio p /\ p = current_priority (tcb k t) /\ t ∈ chain_at k p.
Proof.
  destruct HS as [H _ _ HE _]. destruct (ro_tcb _ _ H t HE) as (Hp & ER & _). subst p.
  rewrite ER. split_and!; [done..|]. by apply (ro_chain _ _ H).
Qed.

Lemma rotated_ready_ok : ready_ok k1.
Proof.
  destruct executing_in_chain as (Hp & _ & Hin). unfold k1, rotate.
  rewrite chain_put, decide_True by done.
  assert (forall l l', put_chain p l (put_chain p l' k) = put_chain p l k) as EE.
  { intros l l'. unfold put_chain. simpl. by rewrite insert_insert_eq. }
  rewrite EE. apply permute_ok; [apply HS|by apply extract_perm].
Qed.

Lemma rotated_heir : first_ready k1 (_Thread_Heir k2).
Proof.
  destruct executing_in_chain as (Hp & Ep & Hin). pose proof HS as [H HF _ HE _].
  unfold k2, _Thread_Is_heir. change (_Thread_Heir k1) with (_Thread_Heir k).
  destruct (Z.eqb_spec t (_Thread_Heir k)) as [Eh|Eh].
  - exists p. split_and!; [done|..]; [intros q Hq Hlt|]; unfold k1; rewrite rotate_chain.
    + rewrite decide_False by lia. apply (first_ready_highest k _ H HF); [done|]. rewrite <- Eh. lia.
    + rewrite decide_True by done. change (_Thread_Heir (set_heir ?x _)) with x.
      by destruct (ListChain.extract (chain_at k p) t).
  - change (first_ready k1 (_Thread_Heir k)). destruct HF as (r & Hrp & Hlow & Hhd).
    exists r. split_and!; [done|..]; [intros q Hq Hlt|]; unfold k1; rewrite rotate_chain; case_decide as E; auto.
    + subst q. rewrite Hlow in Hin by done. by apply elem_of_nil in Hin.
    + subst r. destruct (chain_at k p) as [|x l]; [done|]. injection Hhd as ->. simpl.
      by rewrite decide_False by congruence.
Qed.

Lemma rotated_ok : sched_ok (set_necessary true k2).
Proof.
  pose proof HS as [_ _ _ HE HI]. pose proof rotated_heir as HF. pose proof rotated_ready_ok as HR.
  apply (sched_mk k1); try done; unfold k2 in *; by destruct (_Thread_Is_heir k1 t).
Qed.
End Rotate.

Lemma yield_ok k : sched_ok k -> is_ready k (_Thread_Executing k) -> sched_ok (_Thread_Yield_processor k).
Proof.
  intros HS Hr. unfold _Thread_Yield_processor. pose proof (rotated_ok k HS Hr) as HR.
  destruct (ListChain.has_only_one_node _); cbn [negb]; [|exact HR].
  destruct (negb _); [|done]. destruct HS. by apply (sched_mk k).
Qed.

Lemma reset_timeslice_ok k : sched_ok k -> is_ready k (_Thread_Executing k) ->
  sched_ok (_Thread_Reset_timeslice k).
Proof.
  intros HS Hr. unfold _Thread_Reset_timeslice. pose proof (rotated_ok k HS Hr) as HR.
  destruct (ListChain.has_only_one_node _); [done|exact HR].
Qed.

(** *** Updates that do not matter to the scheduler *)

Definition inert (f : Thread_Control -> Thread_Control) : Prop := forall c,
  current_state (f c) = current_state c /\ current_priority (f c) = current_priority c /\
  ready (f c) = ready c /\ Priority_map (f c) = Priority_map c /\ is_preemptible (f c) = is_preemptible c.

Lemma inert_ok t f k : inert f -> known k t -> sched_ok k -> sched_ok (upd_thread t f k).
Proof.
  intros Hf Hk [H HF HW HE [HI1 HI2]].
  assert (forall u, current_state (tcb (upd_thread t f k) u) = current_state (tcb k u)
    /\ current_priority (tcb (upd_thread t f k) u) = current_priority (tcb k u)
    /\ ready (tcb (upd_thread t f k) u) = ready (tcb k u)
    /\ Priority_map (tcb (upd_thread t f k) u) = Priority_map (tcb k u)
    /\ is_preemptible (tcb (upd_thread t f k) u) = is_preemptible (tcb k u)) as EU.
  { intros u. rewrite tcb_upd. case_decide; [subst u; apply Hf|done]. }
  assert (forall u, is_ready (upd_thread t f k) u <-> is_ready k u) as ER
    by (intros u; unfold is_ready; by rewrite (proj1 (EU u))).
  split; [|done|..].
  - apply (ready_out_ext None k); try done; [intros u; by apply known_upd|intros u; by destruct (EU u) as (?&?&?&?&?)].
  - intros Hne. rewrite ER. destruct (EU (_Thread_Executing k)) as (_ & _ & _ & _ & E).
    simpl. rewrite E. by apply HW.
  - by apply known_upd.
  - split; [by apply known_upd|by apply ER].
Qed.

Lemma inert_ticks g : inert (fun c => set_ticks_executed (g c) c).
Proof. done. Qed.
Lemma inert_budget g : inert (fun c => set_cpu_time_budget (g c) c).
Proof. done. Qed.

Lemma inert_is_ready t f k u : inert f -> is_ready (upd_thread t f k) u <-> is_ready k u.
Proof.
  intros Hf. unfold is_ready. rewrite tcb_upd. case_decide; [subst u|done]. by rewrite (proj1 (Hf _)).
Qed.

Lemma reset_executing k : _Thread_Executing (_Thread_Reset_timeslice k) = _Thread_Executing k.
Proof.
  unfold _Thread_Reset_timeslice. destruct (ListChain.has_only_one_node _); [done|].
  by destruct (_Thread_Is_heir _ _).
Qed.

Lemma tickle_timeslice_ok callout k :
  (forall f t k, sched_ok k -> sched_ok (callout f t k)) ->
  sched_ok k -> sched_ok (_Thread_Tickle_timeslice callout k).
Proof.
  intros HC HS. unfold _Thread_Tickle_timeslice. set (t := _Thread_Executing k).
  assert (known k t) as Hk by apply HS.
  set (k1 := upd_thread t (fun c => set_ticks_executed _ c) k).
  assert (sched_ok k1) as H1 by (by apply inert_ok).
  destruct (is_preemptible (tcb k1 t)); cbn [negb]; [|done].
  destruct (_States_Is_ready (current_state (tcb k1 t))) eqn:Er; cbn [negb]; [|done].
  apply Z.eqb_eq in Er. set (k2 := upd_thread t (fun c => set_cpu_time_budget (cpu_time_budget c -w 1) c) k1).
  assert (sched_ok k2) as H2 by (apply inert_ok; [done|by apply known_upd|done]).
  assert (sched_ok (upd_thread t (set_cpu_time_budget (_Thread_Ticks_per_timeslice (_Thread_Reset_timeslice k2)))
    (_Thread_Reset_timeslice k2))) as H3.
  { assert (is_ready k2 (_Thread_Executing k2)) as Hr by (by apply inert_is_ready).
    pose proof (reset_timeslice_ok k2 H2 Hr) as HR. apply inert_ok; try done.
    replace t with (_Thread_Executing (_Thread_Reset_timeslice k2)); [apply HR|apply (reset_executing k2)]. }
  destruct (budget_algorithm (tcb k1 t)); [done|..]; destruct (cpu_time_budget (tcb k2 t) =? 0); auto.
Qed.

Lemma evaluate_mode_ok k : sched_ok k -> sched_ok (_Thread_Evaluate_mode k).2.
Proof.
  intros HS. unfold _Thread_Evaluate_mode. destruct (_ || _); [|done]. destruct HS. by apply (sched_mk k).
Qed.

(** ** Starting a thread *)

Lemma upd_thread_twice t f g k : upd_thread t f (upd_thread t g k) = upd_thread t (fun c => f (g c)) k.
Proof. unfold upd_thread at 1 3. rewrite tcb_upd_eq. unfold set_threads. simpl. by rewrite insert_insert_eq. Qed.

Lemma thread_start_ok started t proto e pa na k :
  (forall t k, sched_ok k -> sched_ok (started t k)) ->
  sched_ok k -> known k t -> sched_ok (_Thread_Start started t proto e pa na k).2.
Proof.
  intros HX HS Hk. unfold _Thread_Start. destruct (_States_Is_dormant _) eqn:Ed; [|done]. apply HX.
  rewrite thread_ready_eq. unfold _Thread_Load_environment. rewrite !upd_thread_twice. apply made_rescheduled; try done.
  - intros E. unfold is_ready in E. by rewrite E in Ed.
  - intros c. by destruct (negb (start_fp_context _ =? 0)).
Qed.

(** ** Dispatching *)

(** Interrupt processing and extensions keep the invariant and do not switch threads. *)
Definition isr_ok (f : Kernel -> Kernel) : Prop := forall k, sched_ok k ->
  sched_ok (f k) /\ _Thread_Executing (f k) = _Thread_Executing k.
(** Extensions do not ask for a switch either. *)
Definition quiet (f : Kernel -> Kernel) : Prop := forall k, sched_ok k ->
  sched_ok (f k) /\ _Thread_Executing (f k) = _Thread_Executing k /\
  _Context_Switch_necessary (f k) = _Context_Switch_necessary k /\
  _Thread_Dispatch_disable_level (f k) = _Thread_Dispatch_disable_level k.

Section Dispatching.
Context (switch : Z -> Z -> Kernel -> Kernel) (postswitch : Kernel -> Kernel).
Context (Hswitch : forall a b, quiet (switch a b)) (Hpost : quiet postswitch).

Lemma switch_fp_frame heir k :
  _Thread_Executing (switch_fp heir k) = _Thread_Executing k /\
  _Thread_Heir (switch_fp heir k) = _Thread_Heir k /\ _Thread_Idle (switch_fp heir k) = _Thread_Idle k /\
  _Context_Switch_necessary (switch_fp heir k) = _Context_Switch_necessary k /\
  bit_map (switch_fp heir k) = bit_map k /\ threads (switch_fp heir k) = threads k /\
  _Thread_Ready_chain (switch_fp heir k) = _Thread_Ready_chain k.
Proof.
  unfold switch_fp. destruct (negb _ && _); [|done]. by destruct (negb _).
Qed.

Lemma sched_same k k' : sched_ok k ->
  _Thread_Executing k' = _Thread_Executing k -> _Thread_Heir k' = _Thread_Heir k ->
  _Thread_Idle k' = _Thread_Idle k -> _Context_Switch_necessary k' = _Context_Switch_necessary k ->
  bit_map k' = bit_map k -> threads k' = threads k -> _Thread_Ready_chain k' = _Thread_Ready_chain k ->
  sched_ok k'.
Proof using.
  clear. intros [H HF HW HE HI] E1 E2 E3 E4 E5 E6 E7.
  apply (sched_mk k); rewrite ?E1, ?E2, ?E3; try done.
  unfold switch_ok, is_ready, tcb in *. by rewrite E1, E2, E4, E6.
Qed.

(** One pass: the heir of the moment is running, and only an interrupt asks for more. *)
Lemma dispatch_once_ok isr executing k : isr_ok isr -> sched_ok k ->
  let k' := dispatch_once switch isr executing k in
  sched_ok k' /\ _Thread_Executing k' = _Thread_Heir k /\
  (isr = id -> _Context_Switch_necessary k' = false).
Proof.
  intros Hisr HS. unfold dispatch_once. set (k1 := set_executing _ _).
  assert (sched_ok k1) as H1.
  { pose proof HS as [H HF _ _ HI]. apply (sched_mk k); try done; [by intros Hne|by apply first_ready_thread]. }
  destruct (Hisr k1 H1) as [H2 E2]. set (k2 := isr k1) in *. set (h := _Thread_Heir k).
  assert (known k2 h) as Hh by (change h with (_Thread_Executing k1); rewrite <- E2; apply H2).
  set (k3 := upd_thread h _ k2).
  assert (sched_ok k3) as H3 by (by apply inert_ok).
  destruct (Hswitch executing h k3 H3) as (H4 & E4 & N4 & _). set (k4 := switch executing h k3) in *.
  assert (_Thread_Executing k4 = h) as EX by (by rewrite E4; simpl; rewrite E2).
  assert (known k4 h) as Hk4 by (rewrite <- EX; apply H4).
  cbv zeta. match goal with |- context [switch_fp h ?x] => set (k5 := x) end.
  assert (sched_ok k5 /\ _Thread_Executing k5 = h /\
    _Context_Switch_necessary k5 = _Context_Switch_necessary k2) as (H5 & E5 & N5).
  { unfold k5. destruct (budget_algorithm _); split_and!; try done; by apply inert_ok. }
  destruct (switch_fp_frame h k5) as (F1 & F2 & F3 & F4 & F5 & F6 & F7).
  split_and!; [by apply (sched_same k5)|congruence|]. intros ->. by rewrite F4, N5.
Qed.

Lemma dispatch_loop_ok isrs : Forall isr_ok isrs -> forall fuel executing k,
  sched_ok k -> executing = _Thread_Executing k -> (length isrs + 1 < fuel)%nat ->
  exists k', dispatch_loop switch fuel isrs executing k = Some (_Thread_Executing k', k') /\
    sched_ok k' /\ _Context_Switch_necessary k' = false.
Proof.
  intros HI. induction HI as [|isr isrs Hi HI IH]; intros fuel executing k HS -> Hf.
  - destruct fuel as [|[|fuel]]; [simpl in Hf; lia..|]. simpl.
    destruct (_Context_Switch_necessary k) eqn:En; [|by exists k].
    destruct (dispatch_once_ok id (_Thread_Executing k) k (fun k H => conj H eq_refl) HS) as (H' & E' & N').
    rewrite N' by done. eexists. split_and!; [reflexivity|done|by apply N'].
  - destruct fuel as [|fuel]; [lia|]. simpl.
    destruct (_Context_Switch_necessary k) eqn:En; [|by exists k].
    destruct (dispatch_once_ok isr (_Thread_Executing k) k Hi HS) as (H' & E' & _).
    apply IH; [done..|]. simpl in Hf. lia.
Qed.

Definition runs_right (k : Kernel) : Prop :=
  _Thread_Executing k = _Thread_Heir k \/
  (is_ready k (_Thread_Executing k) /\ is_preemptible (tcb k (_Thread_Executing k)) = false).

Lemma settled k : sched_ok k -> _Context_Switch_necessary k = false -> runs_right k.
Proof using.
  clear. intros [H HF HW HE HI] En. unfold runs_right.
  destruct (decide (_Thread_Executing k = _Thread_Heir k)) as [|Hne]; [by left|right].
  unfold is_ready. destruct (decide (current_state (tcb k (_Thread_Executing k)) = STATES_READY)) as [Er|Er].
  - split; [done|]. destruct (is_preemptible _) eqn:Ep; [|done]. by rewrite HW in En; auto.
  - by rewrite HW in En; auto.
Qed.

Lemma dispatch_ok isrs fuel k : Forall isr_ok isrs -> sched_ok k -> (length isrs + 1 < fuel)%nat ->
  exists k', _Thread_Dispatch switch postswitch fuel isrs k = Some k' /\ sched_ok k' /\
    _Thread_Dispatch_disable_level k' = 0 /\ _Context_Switch_necessary k' = false /\ runs_right k'.
Proof.
  intros HI HS Hf. destruct (dispatch_loop_ok isrs HI fuel _ k HS eq_refl Hf) as (k1 & E1 & H1 & N1).
  unfold _Thread_Dispatch. rewrite E1. set (k2 := set_disable_level 0 k1).
  assert (sched_ok k2) as H2 by (by apply (sched_same k1)).
  assert (sched_ok (upd_thread (_Thread_Executing k1) (set_do_post false) k2)) as H3
    by (apply inert_ok; [done|apply H2|done]).
  destruct (Hpost _ H3) as (H4 & E4 & N4 & L4). destruct (_ || _).
  - eexists. split; [done|]. rewrite N4, L4. split_and!; try done. apply settled; [done|]. by rewrite N4.
  - exists k2. split_and!; try done. by apply settled.
Qed.
End Dispatching.
