(* ===== verification/ThreadSpec.v ===== *)
(** * Correctness of the thread handler

    The scheduler's invariant over every sequence of operations from the start of the
    idle thread, the effect of the operations on the ready chains, the dispatcher and
    the deferred floating point switch. *)
From stdpp Require Import relations.
From S2P Require Import Prelude Chain Watchdog Object Priority ApiTypes Kernel Thread ThreadProofs.

(** ** The operations as steps *)

Section Steps.
Context (switch : Z -> Z -> Kernel -> Kernel) (postswitch : Kernel -> Kernel).
Context (started : Z -> Kernel -> Kernel) (callout : Z -> Z -> Kernel -> Kernel).

Inductive sched_step : Kernel -> Kernel -> Prop :=
| Step_start t proto e pa na k :
    known k t -> sched_step k (_Thread_Start started t proto e pa na k).2
| Step_set_state t s k :
    known k t -> t <> _Thread_Idle k -> s <> STATES_READY -> sched_step k (_Thread_Set_state t s k)
| Step_clear_state t s k :
    known k t -> sched_step k (_Thread_Clear_state t s k)
| Step_change_priority t p pre k :
    known k t -> prio p -> sched_step k (_Thread_Change_priority t p pre k)
| Step_yield k :
    is_ready k (_Thread_Executing k) -> sched_step k (_Thread_Yield_processor k)
| Step_tickle k : sched_step k (_Thread_Tickle_timeslice callout k)
| Step_evaluate_mode k : sched_step k (_Thread_Evaluate_mode k).2
| Step_dispatch isrs fuel k k' :
    Forall isr_ok isrs -> (length isrs + 1 < fuel)%nat ->
    _Thread_Dispatch switch postswitch fuel isrs k = Some k' -> sched_step k k'.

Context (Hswitch : forall a b, quiet (switch a b)) (Hpost : quiet postswitch).
Context (Hstarted : forall t k, sched_ok k -> sched_ok (started t k)).
Context (Hcallout : forall f t k, sched_ok k -> sched_ok (callout f t k)).

Lemma sched_step_ok k k' : sched_step k k' -> sched_ok k -> sched_ok k'.
Proof.
  intros HX HS. destruct HX.
  - by apply thread_start_ok.
  - by apply set_state_ok.
  - by apply clear_state_ok.
  - by apply change_priority_ok.
  - by apply yield_ok.
  - by apply tickle_timeslice_ok.
  - by apply evaluate_mode_ok.
  - destruct (dispatch_ok _ _ Hswitch Hpost isrs fuel k) as (k2 & E & H2 & _); [done..|]. congruence.
Qed.

Lemma sched_steps_ok k k' : rtc sched_step k k' -> sched_ok k -> sched_ok k'.
Proof. induction 1; eauto using sched_step_ok. Qed.
End Steps.

(** ** The start of the idle thread *)

(** No thread is ready, the tables are as [_Priority_Handler_initialization] and
    [_Thread_Handler_initialization] leave them, and the idle thread is both executing
    and heir. *)
Record initialised (k : Kernel) : Prop := {
  in_map : exists s, bit_map k = _Priority_Handler_initialization s;
  in_chain : forall p, prio p -> chain_at k p = [];
  in_tcb : forall t, known k t -> tcb_ok (tcb k t) /\ _States_Is_dormant (current_state (tcb k t)) = true;
  in_idle : known k (_Thread_Idle k) /\ _Thread_Executing k = _Thread_Idle k
}.

Lemma initialised_ready k : initialised k -> ready_ok k.
Proof.
  intros [[s Hm] Hc Ht _]. split.
  - rewrite Hm. apply initialization_ok.
  - intros p Hp. by rewrite Hm, initialization_set, Hc.
  - intros p Hp. rewrite Hc by done. constructor.
  - intros p u Hp. rewrite Hc by done. split; [by intros ?%elem_of_nil|].
    intros (Hu & _ & E & _). destruct (Ht u Hu) as [_ Hd]. by rewrite E in Hd.
  - intros u Hu. by apply Ht.
Qed.

Lemma start_idle_ok started proto e pa na k :
  (forall t k, sched_ok k -> sched_ok (started t k)) -> initialised k ->
  sched_ok (_Thread_Start started (_Thread_Idle k) proto e pa na k).2.
Proof.
  intros HX HI. pose proof (initialised_ready k HI) as HR. destruct HI as [_ _ Ht [Hk EI]].
  destruct (Ht _ Hk) as [Hok Hd]. unfold _Thread_Start. rewrite Hd. apply HX.
  rewrite thread_ready_eq. unfold _Thread_Load_environment. rewrite !upd_thread_twice.
  match goal with |- sched_ok (reschedule (enter _ _ (upd_thread _ ?g k))) => set (f := g) end.
  assert (current_state (f (tcb k (_Thread_Idle k))) = STATES_READY) as Ef by done.
  assert (ready_out (Some (_Thread_Idle k)) (upd_thread (_Thread_Idle k) f k)) as HO.
  { apply upd_out; [apply open_out; [done|]|done|].
    - intros E. unfold is_ready in E. by rewrite E in Hd.
    - unfold f. by destruct (negb (start_fp_context _ =? 0)). }
  assert (is_ready (upd_thread (_Thread_Idle k) f k) (_Thread_Idle k)) as Hr
    by (unfold is_ready; by rewrite tcb_upd_eq).
  apply reschedule_ok; simpl; rewrite ?EI; try (by apply known_upd); try done.
  apply (enter_ok false (_Thread_Idle k)); [done|by apply known_upd|done].
Qed.

(** ** A small system *)

Module ThreadExample.
(** Three threads: the idle thread at 100 and two more at 200 and 300, dormant. *)
Definition thread_at (id p : Z) : Thread_Control :=
  set_current_state STATES_DORMANT (set_Object_id id (set_real_priority p
    (set_Priority_map (_Priority_Initialize_information p)
      (set_ready p (set_current_priority p
        (set_Start {| entry_point := 0; prototype := THREAD_START_NUMERIC; pointer_argument := 0;
          numeric_argument := 0; start_is_preemptible := true;
          start_budget_algorithm := THREAD_CPU_BUDGET_ALGORITHM_NONE; start_budget_callout := 0;
          isr_level := 0; initial_priority := p; core_allocated_stack := false; Initial_stack_size := 0;
          Initial_stack_area := 0; start_fp_context := p + 5000; start_stack := 0 |} inhabitant)))))).
Definition no_watchdogs : Watchdog_State :=
  {| _Watchdog_Sync_level := 0; _Watchdog_Sync_count := 0; _Watchdog_Ticks_since_boot := 0;
     _ISR_Nest_level := 0; _Watchdog_Ticks_chain := []; _Watchdog_Seconds_chain := []; wd := ∅ |}.
Definition k0 : Kernel :=
  {| _Thread_Executing := 100; _Thread_Heir := 100; _Thread_Idle := 100;
     _Context_Switch_necessary := false; _Thread_Dispatch_disable_level := 1;
     _Thread_Allocated_fp := NULL; _Thread_Ticks_per_timeslice := 5;
     _Thread_Do_post_task_switch_extension := 0; _Thread_Ready_chain := ∅;
     bit_map := _Priority_Handler_initialization
       {| _Priority_Major_bit_map := 0; _Priority_Bit_map := ∅ |};
     threads := <[100 := thread_at 1 255]> (<[200 := thread_at 2 10]> (<[300 := thread_at 3 10]> ∅));
     queues := ∅; watchdogs := no_watchdogs; fp_registers := 7; fp_areas := ∅;
     information_table := ∅; _Thread_queue_Extract_table := ∅; _Thread_Maximum_extensions := 0;
     semaphores := ∅; mutexes := ∅; message_queues := ∅; _Workspace_Area := ∅; memory := ∅;
     _User_extensions_List := []; user_extensions := ∅; tod := zero_tod; rtems := zero_rtems |}.
Definition started : Z -> Kernel -> Kernel := fun _ k => k.
Definition start (t : Z) (k : Kernel) : Kernel :=
  (_Thread_Start started t THREAD_START_NUMERIC 0 0 0 k).2.

(** All three are started and the processor is at 200. *)
Definition k1 : Kernel := start 300 (start 200 (start 100 k0)).
Definition k2 : Kernel := default k1 (_Thread_Dispatch (fun _ _ k => k) id 2 [] k1).

Lemma known_k0 t : known k0 t -> t = 100 \/ t = 200 \/ t = 300.
Proof.
  unfold known, k0. cbn [threads]. rewrite !lookup_insert_is_Some, lookup_empty.
  intros [-> |[_ [-> |[_ [-> |[_ [? [=]]]]]]]]; auto.
Qed.

Lemma k0_initialised : initialised k0.
Proof.
  split.
  - by eexists.
  - done.
  - intros t Ht. destruct (known_k0 t Ht) as [-> |[-> | ->]]; split; vm_compute; try done;
      (split_and!; [split; done|done|done]).
  - split; [by exists (thread_at 1 255)|done].
Qed.

Lemma k1_ok : sched_ok k1.
Proof.
  assert (sched_ok (start 100 k0)) as H0 by (apply (start_idle_ok started); [done|apply k0_initialised]).
  assert (sched_ok (start 200 (start 100 k0))) as H1
    by (apply thread_start_ok; [done|done|by vm_compute; eexists]).
  apply thread_start_ok; [done|done|by vm_compute; eexists].
Qed.

Lemma quiet_id : quiet id.
Proof. done. Qed.

Lemma k2_ok : sched_ok k2.
Proof.
  destruct (dispatch_ok (fun _ _ k => k) id (fun _ _ => quiet_id) quiet_id [] 2 k1) as (k & E & H & _);
    [constructor|apply k1_ok|simpl; lia|]. unfold k2. by rewrite E.
Qed.
End ThreadExample.

(** ** The claims *)

(** C1: From the start of the idle thread on, any sequence of thread starts, blockings,
    unblockings, priority changes, yields, clock ticks, mode evaluations and dispatches
    leaves the ready chains exact, the bit map in agreement with them, the heir the
    first thread of the highest priority that has a ready thread, and a switch flagged
    whenever the executing thread is blocked or is preemptible and not the heir. *)
Theorem scheduler_invariant switch postswitch started callout k0 proto e pa na k :
  (forall a b, quiet (switch a b)) -> quiet postswitch ->
  (forall t k, sched_ok k -> sched_ok (started t k)) ->
  (forall f t k, sched_ok k -> sched_ok (callout f t k)) ->
  initialised k0 ->
  rtc (sched_step switch postswitch started callout)
    (_Thread_Start started (_Thread_Idle k0) proto e pa na k0).2 k ->
  sched_ok k.
Proof.
  intros Hs Hp Hst Hc HI HR. eapply sched_steps_ok; try done. by apply start_idle_ok.
Qed.

Lemma scheduler_invariant_witness :
  sched_ok (_Thread_Yield_processor ThreadExample.k2).
Proof.
  apply (scheduler_invariant (fun _ _ k => k) id ThreadExample.started (fun _ _ k => k)
    ThreadExample.k0 THREAD_START_NUMERIC 0 0 0).
  - done.
  - done.
  - done.
  - done.
  - exact ThreadExample.k0_initialised.
  - apply (rtc_l _ _ (ThreadExample.start 200 (ThreadExample.start 100 ThreadExample.k0))).
    { apply (Step_start (fun _ _ k => k) id ThreadExample.started (fun _ _ k => k) 200
        THREAD_START_NUMERIC 0 0 0). by vm_compute; eexists. }
    apply (rtc_l _ _ ThreadExample.k1).
    { apply (Step_start (fun _ _ k => k) id ThreadExample.started (fun _ _ k => k) 300
        THREAD_START_NUMERIC 0 0 0). by vm_compute; eexists. }
    apply (rtc_l _ _ ThreadExample.k2).
    { apply (Step_dispatch _ _ _ _ [] 2); [constructor|simpl; lia|by vm_compute]. }
    apply rtc_once, Step_yield. by vm_compute.
Defined.

(** C3: [_Thread_Dispatch] comes back once the interrupts do, however many threads it
    switches to on the way, and then dispatching is enabled, no switch is pending, and
    the thread that runs is the heir, unless it is a ready thread that turned
    preemption off. *)
Theorem thread_dispatch_correct switch postswitch isrs fuel k :
  (forall a b, quiet (switch a b)) -> quiet postswitch -> Forall isr_ok isrs ->
  sched_ok k -> (length isrs + 1 < fuel)%nat ->
  exists k', _Thread_Dispatch switch postswitch fuel isrs k = Some k' /\ sched_ok k' /\
    _Thread_Dispatch_disable_level k' = 0 /\ _Context_Switch_necessary k' = false /\
    (_Thread_Executing k' = _Thread_Heir k' \/
     is_ready k' (_Thread_Executing k') /\ is_preemptible (tcb k' (_Thread_Executing k')) = false).
Proof. intros. by apply dispatch_ok. Qed.

(** An interrupt that readies the thread at 300 with the highest priority. *)
Lemma thread_dispatch_witness :
  exists k', _Thread_Dispatch (fun _ _ k => k) id 3 [_Thread_Clear_state 300 STATES_SUSPENDED] ThreadExample.k1
    = Some k' /\ _Thread_Executing k' = _Thread_Heir k'.
Proof.
  destruct (thread_dispatch_correct (fun _ _ k => k) id [_Thread_Clear_state 300 STATES_SUSPENDED] 3
    ThreadExample.k1) as (k' & E & _ & _ & _ & H).
  - done.
  - done.
  - constructor; [|constructor]. intros k HS. split.
    + destruct (decide (known k 300)) as [Hk|Hk]; [by apply clear_state_ok|].
      unfold _Thread_Clear_state, tcb at 1. rewrite lookup_total_alt.
      unfold known in Hk. destruct (threads k !! 300); [by destruct Hk|]. simpl. done.
    + unfold _Thread_Clear_state. destruct (negb _); [|done]. destruct (_States_Is_ready _); [|done].
      destruct (_ <? _); [|done]. by destruct (_ || _).
  - exact ThreadExample.k1_ok.
  - simpl. lia.
  - exists k'. split; [done|]. vm_compute in E. injection E as <-. by vm_compute.
Defined.

(** C38: Changing the priority of a ready thread takes it off its chain and puts it in
    front of ([prepend_it]) or behind the ready threads of the new priority, moves no
    other thread, and leaves the invariant with its heir; a blocked thread gets the new
    priority, and no chain changes. *)
Theorem thread_change_priority_correct t p prepend_it k :
  sched_ok k -> known k t -> prio p ->
  let k' := _Thread_Change_priority t p prepend_it k in
  sched_ok k' /\ current_priority (tcb k' t) = p /\ (is_ready k t -> is_ready k' t) /\
  (forall u, u <> t -> tcb k' u = tcb k u) /\
  forall q, prio q ->
    let rest := ListChain.extract (chain_at k q) t in
    chain_at k' q =
      if _States_Is_ready (current_state (tcb k' t)) && (q =? p)
      then (if prepend_it then t :: rest else rest ++ [t]) else rest.
Proof.
  intros HS Hk Hp k'. assert (forall u, tcb k' u = tcb (lifted t p k) u) as ET.
  { intros u. unfold k'. rewrite change_priority_eq. destruct (_States_Is_ready _); [|done].
    unfold reschedule, enter. destruct prepend_it, (negb _ && _); done. }
  split_and!.
  - by apply change_priority_ok.
  - by rewrite ET, lifted_tcb, decide_True.
  - unfold is_ready at 2. rewrite ET. by apply lifted_is_ready.
  - intros u Hu. by rewrite ET, lifted_tcb, decide_False.
  - intros q Hq rest. rewrite ET. unfold k'. rewrite change_priority_eq.
    destruct (_States_Is_ready (current_state (tcb (lifted t p k) t))) eqn:Er; simpl; [|by apply lifted_chain].
    transitivity (chain_at (enter prepend_it t (lifted t p k)) q).
    { unfold reschedule. by destruct (negb _ && _). }
    rewrite enter_chain, lifted_chain by done.
    replace (ready (tcb (lifted t p k) t)) with p by (by rewrite lifted_tcb, decide_True).
    destruct (Z.eqb_spec q p); [by rewrite decide_True|by rewrite decide_False].
Qed.

Lemma thread_change_priority_witness :
  chain_at (_Thread_Change_priority 300 4 false ThreadExample.k2) 4 = [300].
Proof.
  destruct (thread_change_priority_correct 300 4 false ThreadExample.k2 ThreadExample.k2_ok) as (_ & _ & _ & _ & H).
  - by vm_compute; eexists.
  - done.
  - rewrite H by done. by vm_compute.
Defined.

Lemma clear_set_states s : u32 s -> _States_Clear s s = STATES_READY.
Proof.
  intros Hs. unfold _States_Clear, STATES_READY. apply Z.bits_inj'. intros n Hn.
  rewrite Z.land_spec, Z.bits_0, not32_testbit by done.
  by destruct (Z.testbit s n), (n <? 32).
Qed.

Lemma clear_state_effect t s k : Z.land (current_state (tcb k t)) s <> 0 ->
  let cs := _States_Clear s (current_state (tcb k t)) in
  let k' := _Thread_Clear_state t s k in
  (forall u, tcb k' u = if decide (u = t) then set_current_state cs (tcb k t) else tcb k u) /\
  (forall q, chain_at k' q =
    if _States_Is_ready cs && (q =? ready (tcb k t)) then chain_at k q ++ [t] else chain_at k q).
Proof.
  intros Hl cs k'. unfold k', _Thread_Clear_state. rewrite (proj2 (Z.eqb_neq _ _) Hl). cbn [negb]. fold cs.
  set (k1 := upd_thread t (set_current_state cs) k).
  assert (forall u, tcb k1 u = if decide (u = t) then set_current_state cs (tcb k t) else tcb k u) as T1
    by (intros u; apply tcb_upd).
  destruct (_States_Is_ready cs); simpl; [|done].
  assert (forall q, chain_at (append_ready t k1) q =
    if q =? ready (tcb k t) then chain_at k q ++ [t] else chain_at k q) as C1.
  { intros q. rewrite append_ready_chain, T1, (decide_True (P := t = t)) by done. simpl.
    destruct (Z.eqb_spec q (ready (tcb k t))); [by rewrite decide_True|by rewrite decide_False]. }
  destruct (_ <? _); [destruct (_ || _)|]; done.
Qed.

(** A ready thread that is blocked leaves its chain and no other thread is touched;
    when the same state is cleared again it is ready, at the end of the chain of its
    priority.  The invariant holds in between and after. *)
Theorem thread_block_unblock_correct t s k :
  sched_ok k -> known k t -> is_ready k t -> t <> _Thread_Idle k -> s <> STATES_READY -> u32 s ->
  let k1 := _Thread_Set_state t s k in
  let k2 := _Thread_Clear_state t s k1 in
  sched_ok k1 /\ sched_ok k2 /\
  (forall u, tcb k1 u = if decide (u = t) then set_current_state s (tcb k t) else tcb k u) /\
  (forall u, tcb k2 u = tcb k u) /\
  (forall q, chain_at k1 q =
    if decide (q = current_priority (tcb k t)) then ListChain.extract (chain_at k q) t else chain_at k q) /\
  (forall q, chain_at k2 q =
    if decide (q = current_priority (tcb k t)) then ListChain.extract (chain_at k q) t ++ [t]
    else chain_at k q).
Proof.
  intros HS Hk Hr Hi Hs Hu k1 k2. pose proof (set_state_ok t s k HS Hk Hi Hs) as H1.
  destruct (ro_tcb _ _ (so_ready _ HS) t Hk) as (Hp & ER & _).
  assert (exists k1', k1' = blocked_state t s k /\ tcb k1 = tcb k1' /\ chain_at k1 = chain_at k1' /\
    threads k1 = threads k1') as (kb & -> & ET & EC & ETH).
  { exists (blocked_state t s k). unfold k1, _Thread_Set_state.
    rewrite (proj2 (Z.eqb_eq _ _) Hr : _States_Is_ready _ = true). cbn [negb]. fold (blocked_state t s k).
    destruct (_Thread_Is_heir _ _), (_Thread_Is_executing _ _); done. }
  assert (known k1 t) as Hk1 by (unfold known; rewrite ETH; by apply blocked_known).
  assert (forall u, tcb k1 u = if decide (u = t) then set_current_state s (tcb k t) else tcb k u) as T1
    by (intros u; rewrite ET; apply blocked_tcb).
  assert (forall q, chain_at k1 q = if decide (q = current_priority (tcb k t))
    then ListChain.extract (chain_at k q) t else chain_at k q) as C1
    by (intros q; rewrite EC, blocked_chain, ER by (done || apply HS); done).
  split_and!; [done|by apply clear_state_ok|done| |done|].
  - intros u. unfold k2. destruct (clear_state_effect t s k1) as [-> _];
      rewrite T1, (decide_True (P := t = t)) by done.
    { simpl. by rewrite Z.land_diag. }
    rewrite !T1. simpl. rewrite clear_set_states by done. case_decide; [subst u|done]. by rewrite <- Hr; destruct (tcb k t).
  - intros q. unfold k2. destruct (clear_state_effect t s k1) as [_ ->];
      rewrite T1, (decide_True (P := t = t)) by done.
    { simpl. by rewrite Z.land_diag. }
    simpl. rewrite clear_set_states, C1, ER by done. simpl.
    by destruct (Z.eqb_spec q (current_priority (tcb k t))); case_decide.
Qed.

Lemma thread_block_unblock_witness :
  chain_at (_Thread_Clear_state 200 STATES_DELAYING
    (_Thread_Set_state 200 STATES_DELAYING ThreadExample.k2)) 10 = [300; 200].
Proof.
  destruct (thread_block_unblock_correct 200 STATES_DELAYING ThreadExample.k2 ThreadExample.k2_ok)
    as (_ & _ & _ & _ & _ & H).
  - by vm_compute; eexists.
  - by vm_compute.
  - by vm_compute.
  - done.
  - done.
  - rewrite H. by vm_compute.
Defined.

(** When the executing thread yields (or its time slice ends), it goes behind the
    other ready threads of its priority: if it was the heir, the next of them is the
    heir and a switch is flagged; alone at its priority it keeps the processor. *)
Theorem thread_yield_correct k t rest :
  sched_ok k -> t = _Thread_Executing k -> t = _Thread_Heir k ->
  chain_at k (current_priority (tcb k t)) = t :: rest ->
  let k' := _Thread_Yield_processor k in
  _Thread_Reset_timeslice k = k' /\ sched_ok k' /\
  match rest with
  | [] => k' = k
  | next :: more =>
      _Thread_Heir k' = next /\ _Context_Switch_necessary k' = true /\
      forall q, chain_at k' q =
        if decide (q = current_priority (tcb k t)) then next :: more ++ [t] else chain_at k q
  end.
Proof.
  intros HS Et Eh EC k'.
  assert (is_ready k t) as Hr by (rewrite Eh; apply (first_ready_thread k); apply HS).
  destruct (ro_tcb _ _ (so_ready _ HS) t) as (Hp & ER & _); [rewrite Et; apply HS|].
  assert (sched_ok k') as HK by (apply yield_ok; [done|by rewrite <- Et]).
  unfold k', _Thread_Yield_processor, _Thread_Reset_timeslice in *. rewrite <- Et, ER, EC in *.
  destruct rest as [|next more]; simpl in *.
  - unfold _Thread_Is_heir. rewrite (proj2 (Z.eqb_eq _ _) Eh). done.
  - split; [done|]. split; [done|].
    unfold _Thread_Is_heir in *. simpl in *. rewrite (proj2 (Z.eqb_eq _ _) Eh) in *.
    assert (forall q, chain_at (rotate t (current_priority (tcb k t)) k) q =
      if decide (q = current_priority (tcb k t)) then next :: more ++ [t] else chain_at k q) as C1.
    { intros q. rewrite rotate_chain, EC. case_decide; [|done]. simpl. by rewrite decide_True. }
    split_and!; [|done|exact C1]. simpl. by rewrite C1, decide_True.
Qed.

Lemma thread_yield_witness : _Thread_Heir (_Thread_Yield_processor ThreadExample.k2) = 300.
Proof.
  destruct (thread_yield_correct ThreadExample.k2 200 [300] ThreadExample.k2_ok) as (_ & _ & H & _).
  - by vm_compute.
  - by vm_compute.
  - by vm_compute.
  - exact H.
Defined.

(** ** The deferred floating point switch *)

(** The floating point registers as the thread at [t] sees them: those of the processor
    if they are its own, and else those in its save area. *)
Definition fp_value (k : Kernel) (t : Z) : Z :=
  if _Thread_Is_allocated_fp k t then fp_registers k else ld (fp_areas k) (fp_context (tcb k t)).

Record fp_ok (k : Kernel) : Prop := {
  fo_owner : _Thread_Allocated_fp k <> NULL -> fp_context (tcb k (_Thread_Allocated_fp k)) <> NULL;
  fo_areas : forall t u, fp_context (tcb k t) <> NULL -> fp_context (tcb k t) = fp_context (tcb k u) -> t = u
}.

(** The deferred floating point switch loses no registers: whatever thread is
    switched to, every floating point thread still sees the values it had, and a
    floating point thread that is switched to has its own in the processor. *)
Theorem thread_fp_switch_correct heir k :
  fp_ok k -> heir <> NULL ->
  let k' := switch_fp heir k in
  fp_ok k' /\ threads k' = threads k /\
  (forall t, t <> NULL -> fp_context (tcb k t) <> NULL -> fp_value k' t = fp_value k t) /\
  (fp_context (tcb k heir) <> NULL ->
    _Thread_Allocated_fp k' = heir /\ fp_registers k' = fp_value k heir) /\
  (fp_context (tcb k heir) = NULL -> k' = k).
Proof.
  intros [HO HA] Hh k'. unfold k', switch_fp, fp_value, _Thread_Is_allocated_fp.
  destruct (Z.eqb_spec (fp_context (tcb k heir)) NULL) as [En|En]; cbn [negb andb];
    [split_and!; done|].
  destruct (Z.eqb_spec heir (_Thread_Allocated_fp k)) as [Ea|Ea]; cbn [negb].
  { split_and!; done. }
  destruct (Z.eqb_spec (_Thread_Allocated_fp k) NULL) as [E0|E0]; cbn [negb]; simpl.
  - split_and!; try done. intros t Ht Hf. simpl. rewrite E0.
    change (tcb (set_allocated_fp _ _)) with (tcb k).
    rewrite (proj2 (Z.eqb_neq t NULL) Ht). by destruct (Z.eqb_spec t heir) as [-> |].
  - assert (forall t, t <> _Thread_Allocated_fp k -> fp_context (tcb k t) <> NULL ->
      ld (st (fp_areas k) (fp_context (tcb k (_Thread_Allocated_fp k))) (fp_registers k)) (fp_context (tcb k t))
      = ld (fp_areas k) (fp_context (tcb k t))) as EL.
    { intros t Ht Hf. apply ld_st_ne. intros E. by apply Ht, HA. }
    split_and!; try done.
    + intros t Ht Hf. simpl. change (tcb (set_allocated_fp _ _)) with (tcb k).
      change (tcb (_Context_Save_fp _ _)) with (tcb k).
      destruct (Z.eqb_spec t (_Thread_Allocated_fp k)) as [-> |Hne].
      * destruct (Z.eqb_spec (_Thread_Allocated_fp k) heir); [congruence|]. apply ld_st_eq.
      * destruct (Z.eqb_spec t heir) as [-> |]; by apply EL.
    + intros _. split; [done|]. change (tcb (_Context_Save_fp _ _)) with (tcb k). by apply EL.
Qed.

(** The threads at 200 and 300 with areas of their own, the registers owned by 300. *)
Definition fp_example : Kernel :=
  upd_thread 200 (set_fp_context 5010) (upd_thread 300 (set_fp_context 5020)
    (set_allocated_fp 300 (set_threads ∅ ThreadExample.k0))).

Lemma thread_fp_switch_witness :
  fp_value (switch_fp 200 fp_example) 300 = 7 /\ fp_registers (switch_fp 200 fp_example) = 0.
Proof.
  assert (fp_ok fp_example) as HF.
  { split; [by vm_compute|]. intros t u. unfold fp_example. rewrite !tcb_upd.
    change (tcb (set_allocated_fp 300 (set_threads ∅ ThreadExample.k0)))
      with (fun t : Z => (∅ : gmap Z Thread_Control) !!! t).
    cbv beta. rewrite !lookup_total_empty. repeat case_decide; subst; simpl; try done; by intros H. }
  destruct (thread_fp_switch_correct 200 fp_example HF) as (_ & _ & H & H2 & _); [done|]. split.
  - rewrite H; by vm_compute.
  - destruct H2 as [_ ->]; by vm_compute.
Defined.
