(* ===== verification/Threadq.v ===== *)
(** * Thread Queue Handler (score/src/threadq.c, score/inline/tqdata.inl)

    The chains of a queue and the [Block2n] chains of the threads on it are lists; the
    links that the source sets by hand are those of the same insertions and removals.
    A priority queue has four chains, each with one thread per priority; the other
    threads of that priority are on the [Block2n] chain of that thread.  Threads are
    local to the node, so no proxies are allocated or freed. *)
From S2P Require Import Prelude Chain Watchdog Object Priority Kernel Thread.

Definition TASK_QUEUE_DATA_NUMBER_OF_PRIORITY_HEADERS : Z := 4.
Definition TASK_QUEUE_DATA_PRIORITIES_PER_HEADER : Z := 64.
Definition TASK_QUEUE_DATA_REVERSE_SEARCH_MASK : Z := 32.

Definition _Thread_queue_Header_number (the_priority : Z) : Z :=
  the_priority / TASK_QUEUE_DATA_PRIORITIES_PER_HEADER.
Definition _Thread_queue_Is_reverse_search (the_priority : Z) : bool :=
  negb (Z.land the_priority TASK_QUEUE_DATA_REVERSE_SEARCH_MASK =? 0).
Definition _Thread_queue_Enter_critical_section (q : Z) : Kernel -> Kernel :=
  upd_queue q (set_sync_state THREAD_QUEUE_NOTHING_HAPPENED).

(** ** Access to the chains *)

Definition queue_chain (k : Kernel) (q i : Z) : list Z := Queues (tq k q) !!! i.
Definition set_queue_chain (q i : Z) (l : list Z) : Kernel -> Kernel :=
  upd_queue q (fun c => set_Queues (<[i := l]> (Queues c)) c).
Definition block2n (k : Kernel) (t : Z) : list Z := Block2n (Wait (tcb k t)).
Definition put_block2n (t : Z) (l : list Z) : Kernel -> Kernel := upd_wait t (set_Block2n l).

(** ** Initialization *)

Definition _Thread_queue_Initialize (q the_class : Z) (the_discipline : Thread_queue_Disciplines)
    (state proxy_extract_callout timeout_status : Z) (k : Kernel) : Kernel :=
  let k := set_extract_table (<[the_class := proxy_extract_callout]> (_Thread_queue_Extract_table k)) k in
  let chains :=
    match the_discipline with
    | THREAD_QUEUE_DISCIPLINE_FIFO => <[0 := []]> (Queues (tq k q))
    | THREAD_QUEUE_DISCIPLINE_PRIORITY =>
        foldl (fun m i => <[i := []]> m) (Queues (tq k q))
          (seqZ 0 TASK_QUEUE_DATA_NUMBER_OF_PRIORITY_HEADERS)
    end in
  upd_queue q (fun _ =>
    {| Queues := chains; sync_state := THREAD_QUEUE_SYNCHRONIZED; discipline := the_discipline;
       tq_state := state; timeout_status := timeout_status |}) k.

(** ** Ends of a wait *)

(** Stops the timer of a thread whose wait is over. *)
Definition stop_timer (the_thread : Z) (k : Kernel) : Kernel :=
  if _Watchdog_Is_active (watchdogs k) (Timer the_thread) then
    let k := wd_mod (_Watchdog_Deactivate (Timer the_thread)) k in
    wd_mod (fun w => (_Watchdog_Remove (Timer the_thread) w).2) k
  else k.

(** The timeout or the release that came while the thread was on its way in. *)
Definition synchronize (q the_thread : Z) (k : Kernel) : Kernel :=
  let state := sync_state (tq k q) in
  let k := upd_queue q (set_sync_state THREAD_QUEUE_SYNCHRONIZED) k in
  let k :=
    match state with
    | THREAD_QUEUE_SYNCHRONIZED | THREAD_QUEUE_NOTHING_HAPPENED => k
    | THREAD_QUEUE_TIMEOUT =>
        upd_wait the_thread (set_Wait_return_code
          (timeout_status (tq k (Wait_queue (Wait (tcb k the_thread)))))) k
    | THREAD_QUEUE_SATISFIED => stop_timer the_thread k
    end in
  _Thread_Unblock the_thread k.

(** An empty queue: the thread that is on its way in, if any, is released. *)
Definition dequeue_empty (q : Z) (k : Kernel) : Z * Kernel :=
  match sync_state (tq k q) with
  | THREAD_QUEUE_SYNCHRONIZED | THREAD_QUEUE_SATISFIED => (NULL, k)
  | THREAD_QUEUE_NOTHING_HAPPENED | THREAD_QUEUE_TIMEOUT =>
      (_Thread_Executing k, upd_queue q (set_sync_state THREAD_QUEUE_SATISFIED) k)
  end.

(** ** The FIFO discipline *)

Definition _Thread_queue_Enqueue_fifo (q the_thread : Z) (k : Kernel) : Kernel :=
  match sync_state (tq k q) with
  | THREAD_QUEUE_NOTHING_HAPPENED =>
      let k := upd_queue q (set_sync_state THREAD_QUEUE_SYNCHRONIZED) k in
      set_queue_chain q 0 (ListChain.append (queue_chain k q 0) the_thread) k
  | _ => synchronize q the_thread k
  end.

Definition _Thread_queue_Dequeue_fifo (q : Z) (k : Kernel) : Z * Kernel :=
  match queue_chain k q 0 with
  | the_thread :: rest =>
      let k := set_queue_chain q 0 rest k in
      let k := stop_timer the_thread k in
      (the_thread, _Thread_Unblock the_thread k)
  | [] => dequeue_empty q k
  end.

Definition _Thread_queue_Extract_fifo (q the_thread : Z) (k : Kernel) : Kernel :=
  if negb (_States_Is_waiting_on_thread_queue (current_state (tcb k the_thread))) then k
  else
    let k := set_queue_chain q 0 (ListChain.extract (queue_chain k q 0) the_thread) k in
    let k := stop_timer the_thread k in
    _Thread_Unblock the_thread k.

Definition _Thread_queue_First_fifo (k : Kernel) (q : Z) : Z := hd NULL (queue_chain k q 0).

(** ** The priority discipline *)

(** The searches return the priority looked at last and where they stopped ([None]: the
    end of the chain).  At each flash point the next of [isrs] runs, after which the
    thread looked at may not be on the chain any more. *)
Section Search.
Context (q header_index priority block_state : Z).

Fixpoint forward_search (fuel : nat) (isrs : list (Kernel -> Kernel)) (search_priority : Z)
    (search_thread : option Z) (k : Kernel) : option (Z * option Z * Kernel) :=
  match fuel with
  | O => None
  | S fuel =>
      match search_thread with
      | None => Some (search_priority, None, k)
      | Some u =>
          let search_priority := current_priority (tcb k u) in
          if priority <=? search_priority then Some (search_priority, Some u, k)
          else
            match next_on (queue_chain k q header_index) u with
            | None => Some (search_priority, None, k)
            | Some u =>
                let search_priority := current_priority (tcb k u) in
                if priority <=? search_priority then Some (search_priority, Some u, k)
                else
                  let k := hd id isrs k in
                  if negb (_States_Are_set (current_state (tcb k u)) block_state)
                  then forward_search fuel (tl isrs) (PRIORITY_MINIMUM -w 1)
                         (head (queue_chain k q header_index)) k
                  else forward_search fuel (tl isrs) search_priority
                         (next_on (queue_chain k q header_index) u) k
            end
      end
  end.

Fixpoint reverse_search (fuel : nat) (isrs : list (Kernel -> Kernel)) (search_priority : Z)
    (search_thread : option Z) (k : Kernel) : option (Z * option Z * Kernel) :=
  match fuel with
  | O => None
  | S fuel =>
      match search_thread with
      | None => Some (search_priority, None, k)
      | Some u =>
          let search_priority := current_priority (tcb k u) in
          if search_priority <=? priority then Some (search_priority, Some u, k)
          else
            match previous_on (queue_chain k q header_index) (Some u) with
            | None => Some (search_priority, None, k)
            | Some u =>
                let search_priority := current_priority (tcb k u) in
                if search_priority <=? priority then Some (search_priority, Some u, k)
                else
                  let k := hd id isrs k in
                  if negb (_States_Are_set (current_state (tcb k u)) block_state)
                  then reverse_search fuel (tl isrs) (PRIORITY_MAXIMUM +w 1)
                         (last (queue_chain k q header_index)) k
                  else reverse_search fuel (tl isrs) search_priority
                         (previous_on (queue_chain k q header_index) (Some u)) k
            end
      end
  end.
End Search.

(** [l] with [n] in front of [before] ([None]: at the end). *)
Fixpoint insert_in_front (l : list Z) (before : option Z) (n : Z) : list Z :=
  match l with
  | [] => [n]
  | x :: r => if decide (before = Some x) then n :: x :: r else x :: insert_in_front r before n
  end.

Definition _Thread_queue_Enqueue_priority (fuel : nat) (isrs : list (Kernel -> Kernel))
    (q the_thread : Z) (k : Kernel) : option Kernel :=
  let k := put_block2n the_thread [] k in
  let priority := current_priority (tcb k the_thread) in
  let header_index := _Thread_queue_Header_number priority in
  let block_state := tq_state (tq k q) in
  let place (search : Z * option Z * Kernel) (insert : option Z -> list Z -> list Z) :=
    let '(search_priority, search_thread, k) := search in
    match sync_state (tq k q) with
    | THREAD_QUEUE_NOTHING_HAPPENED =>
        let k := upd_queue q (set_sync_state THREAD_QUEUE_SYNCHRONIZED) k in
        match search_thread with
        | Some u =>
            if priority =? search_priority
            then put_block2n u (ListChain.append (block2n k u) the_thread) k
            else set_queue_chain q header_index (insert search_thread (queue_chain k q header_index)) k
        | None => set_queue_chain q header_index (insert search_thread (queue_chain k q header_index)) k
        end
    | _ => synchronize q the_thread k
    end in
  if _Thread_queue_Is_reverse_search priority then
    match reverse_search q header_index priority block_state fuel isrs (PRIORITY_MAXIMUM +w 1)
            (last (queue_chain k q header_index)) k with
    | None => None
    | Some search => Some (place search (fun u l => ListChain.insert_after l u the_thread))
    end
  else
    match forward_search q header_index priority block_state fuel isrs (PRIORITY_MINIMUM -w 1)
            (head (queue_chain k q header_index)) k with
    | None => None
    | Some search => Some (place search (fun u l => insert_in_front l u the_thread))
    end.

(** The first thread of the first chain that is not empty. *)
Fixpoint first_of_headers (k : Kernel) (q : Z) (headers : list Z) : option (Z * Z) :=
  match headers with
  | [] => None
  | i :: headers =>
      match queue_chain k q i with
      | t :: _ => Some (i, t)
      | [] => first_of_headers k q headers
      end
  end.
Definition priority_headers : list Z := seqZ 0 TASK_QUEUE_DATA_NUMBER_OF_PRIORITY_HEADERS.

(** Unlinks a thread from a chain with one thread per priority: the first thread of its
    [Block2n] chain takes its place and inherits the rest of that chain. *)
Definition replace_in_chain (l : list Z) (t : Z) (by_ : list Z) : list Z :=
  flat_map (fun x => if decide (x = t) then by_ else [x]) l.

Definition unlink_first (q i the_thread : Z) (k : Kernel) : Kernel :=
  match block2n k the_thread with
  | [] => set_queue_chain q i (ListChain.extract (queue_chain k q i) the_thread) k
  | new_first :: rest =>
      let k := set_queue_chain q i (replace_in_chain (queue_chain k q i) the_thread [new_first]) k in
      match rest with
      | [] => k
      | _ => put_block2n new_first rest k
      end
  end.

Definition _Thread_queue_Dequeue_priority (q : Z) (k : Kernel) : Z * Kernel :=
  match first_of_headers k q priority_headers with
  | Some (i, the_thread) =>
      let k := unlink_first q i the_thread k in
      let k := stop_timer the_thread k in
      (the_thread, _Thread_Unblock the_thread k)
  | None => dequeue_empty q k
  end.

(** The chain that the node of a thread is linked into: one of the queue's, or the
    [Block2n] chain of a thread on one of them. *)
Inductive tq_place : Type := On_header (i : Z) | On_block2n (first : Z) | Nowhere.

Definition place_in (k : Kernel) (q the_thread : Z) : tq_place :=
  match list_find (fun i => the_thread ∈ queue_chain k q i) priority_headers with
  | Some (_, i) => On_header i
  | None =>
      match list_find (fun u => the_thread ∈ block2n k u)
              (flat_map (queue_chain k q) priority_headers) with
      | Some (_, u) => On_block2n u
      | None => Nowhere
      end
  end.

Definition _Thread_queue_Extract_priority (q the_thread : Z) (k : Kernel) : Kernel :=
  if _States_Is_waiting_on_thread_queue (current_state (tcb k the_thread)) then
    let k :=
      match place_in k q the_thread with
      | On_header i => unlink_first q i the_thread k
      | On_block2n u => put_block2n u (ListChain.extract (block2n k u) the_thread) k
      | Nowhere => k
      end in
    let k := stop_timer the_thread k in
    _Thread_Unblock the_thread k
  else k.

Definition _Thread_queue_First_priority (k : Kernel) (q : Z) : Z :=
  match first_of_headers k q priority_headers with Some (_, t) => t | None => NULL end.

(** ** Operations on queues of either discipline *)

(** [timeout_routine] is the address of [_Thread_queue_Timeout]; [wfuel] and [wisr] are
    the fuel and the interrupts of the timer's insertion. *)
Section Enqueue.
Context (timeout_routine : Z) (wfuel : nat) (wisr : Kernel -> Kernel).
Context (fuel : nat) (isrs : list (Kernel -> Kernel)).

Definition start_timer (the_thread timeout : Z) (k : Kernel) : option Kernel :=
  if negb (timeout =? 0) then
    let k := wd_mod (_Watchdog_Initialize (Timer the_thread) timeout_routine
                       (Object_id (tcb k the_thread)) NULL) k in
    _Watchdog_Insert_ticks wfuel wisr (Timer the_thread) timeout k
  else Some k.

Definition _Thread_queue_Enqueue (q timeout : Z) (k : Kernel) : option Kernel :=
  let the_thread := _Thread_Executing k in
  let k := _Thread_Set_state the_thread (tq_state (tq k q)) k in
  match start_timer the_thread timeout k with
  | None => None
  | Some k =>
      match discipline (tq k q) with
      | THREAD_QUEUE_DISCIPLINE_FIFO => Some (_Thread_queue_Enqueue_fifo q the_thread k)
      | THREAD_QUEUE_DISCIPLINE_PRIORITY => _Thread_queue_Enqueue_priority fuel isrs q the_thread k
      end
  end.
End Enqueue.

Definition _Thread_queue_Dequeue (q : Z) (k : Kernel) : Z * Kernel :=
  match discipline (tq k q) with
  | THREAD_QUEUE_DISCIPLINE_FIFO => _Thread_queue_Dequeue_fifo q k
  | THREAD_QUEUE_DISCIPLINE_PRIORITY => _Thread_queue_Dequeue_priority q k
  end.

Definition _Thread_queue_Extract (q the_thread : Z) (k : Kernel) : Kernel :=
  match discipline (tq k q) with
  | THREAD_QUEUE_DISCIPLINE_FIFO => _Thread_queue_Extract_fifo q the_thread k
  | THREAD_QUEUE_DISCIPLINE_PRIORITY => _Thread_queue_Extract_priority q the_thread k
  end.

Definition _Thread_queue_First (k : Kernel) (q : Z) : Z :=
  match discipline (tq k q) with
  | THREAD_QUEUE_DISCIPLINE_FIFO => _Thread_queue_First_fifo k q
  | THREAD_QUEUE_DISCIPLINE_PRIORITY => _Thread_queue_First_priority k q
  end.

(** [run_callout] runs the routine at an address. *)
Definition _Thread_queue_Extract_with_proxy (run_callout : Z -> Z -> Kernel -> Kernel) (the_thread : Z)
    (k : Kernel) : bool * Kernel :=
  let state := current_state (tcb k the_thread) in
  if _States_Is_waiting_on_thread_queue state then
    let k :=
      if _States_Is_waiting_for_rpc_reply state && _States_Is_locally_blocked state then
        let the_class := _Objects_Get_class (Wait_id (Wait (tcb k the_thread))) in
        let proxy_extract_callout := _Thread_queue_Extract_table k !!! the_class in
        if negb (proxy_extract_callout =? NULL) then run_callout proxy_extract_callout the_thread k else k
      else k in
    (true, _Thread_queue_Extract (Wait_queue (Wait (tcb k the_thread))) the_thread k)
  else (false, k).

Fixpoint _Thread_queue_Flush (fuel : nat) (q status : Z) (k : Kernel) : option Kernel :=
  match fuel with
  | O => None
  | S fuel =>
      let '(the_thread, k) := _Thread_queue_Dequeue q k in
      if the_thread =? NULL then Some k
      else _Thread_queue_Flush fuel q status (upd_wait the_thread (set_Wait_return_code status) k)
  end.

(** The routine of the timer of a waiting thread. *)
Section Timeout.
Context (switch : Z -> Z -> Kernel -> Kernel) (postswitch : Kernel -> Kernel).
Context (isrs : list (Kernel -> Kernel)) (fuel : nat) (_Objects_Local_node _Objects_Maximum_nodes : Z).

Definition timed_out (the_thread : Z) (k : Kernel) : Kernel :=
  let q := Wait_queue (Wait (tcb k the_thread)) in
  if negb (bool_decide (sync_state (tq k q) = THREAD_QUEUE_SYNCHRONIZED))
     && _Thread_Is_executing k the_thread
  then
    if negb (bool_decide (sync_state (tq k q) = THREAD_QUEUE_SATISFIED))
    then upd_queue q (set_sync_state THREAD_QUEUE_TIMEOUT) k else k
  else
    let k := upd_wait the_thread (set_Wait_return_code (timeout_status (tq k q))) k in
    _Thread_queue_Extract q the_thread k.

Definition _Thread_queue_Timeout (id : Z) (k : Kernel) : option Kernel :=
  match _Thread_Get switch postswitch isrs fuel _Objects_Local_node _Objects_Maximum_nodes id k with
  | None => None
  | Some (OBJECTS_LOCAL, the_thread, k) => Some (_Thread_Unnest_dispatch (timed_out the_thread k))
  | Some (_, _, k) => Some k
  end.
End Timeout.
