(* ===== verification/ThreadqProofs.v ===== *)
(** * The contents of a thread queue

    [tq_list] is the list of the threads on a queue in the order they are served;
    [tq_ok] is the handler's invariant.  The lemmas say what the searches find and what
    the linking and unlinking of a thread does to the list. *)
From S2P Require Import Prelude Chain Watchdog WatchdogProofs WatchdogOps Object Priority Kernel Thread.
From S2P Require Import ThreadProofs Threadq.

(** ** Lists *)

Lemma sorted_impl {A} (R R' : relation A) (l : list A) :
  (forall x y, x ∈ l -> y ∈ l -> R x y -> R' x y) -> StronglySorted R l -> StronglySorted R' l.
Proof.
  intros HR. induction 1 as [|x l HS IH HF]; constructor.
  - apply IH. intros a b Ha Hb. apply HR; by right.
  - rewrite Forall_forall in *. intros y Hy. apply HR; [left|by right|by apply HF].
Qed.

(** ** Access *)

Lemma tq_upd q f k q' : tq (upd_queue q f k) q' = if decide (q' = q) then f (tq k q) else tq k q'.
Proof.
  unfold tq at 1, upd_queue. simpl. case_decide as E; subst.
  - by rewrite lookup_total_insert_eq.
  - by rewrite lookup_total_insert_ne.
Qed.

Lemma queue_chain_set q i l k q' j : queue_chain (set_queue_chain q i l k) q' j =
  if decide (q' = q /\ j = i) then l else queue_chain k q' j.
Proof.
  unfold queue_chain, set_queue_chain. rewrite tq_upd. destruct (decide (q' = q)) as [-> |Hq].
  - simpl. destruct (decide (j = i)) as [-> |Hj].
    + rewrite lookup_total_insert_eq. by rewrite decide_True.
    + rewrite lookup_total_insert_ne by congruence. by rewrite decide_False by tauto.
  - by rewrite decide_False by tauto.
Qed.

Lemma block2n_put t l k u : block2n (put_block2n t l k) u = if decide (u = t) then l else block2n k u.
Proof. unfold block2n, put_block2n, upd_wait. rewrite tcb_upd. by case_decide. Qed.

(** ** Contents *)

(** The threads of one priority. *)
Definition group (k : Kernel) (h : Z) : list Z := h :: block2n k h.

Definition tq_list (k : Kernel) (q : Z) : list Z :=
  match discipline (tq k q) with
  | THREAD_QUEUE_DISCIPLINE_FIFO => queue_chain k q 0
  | THREAD_QUEUE_DISCIPLINE_PRIORITY =>
      flat_map (fun i => flat_map (group k) (queue_chain k q i)) priority_headers
  end.

Record priority_ok (k : Kernel) (q : Z) : Prop := {
  po_sorted : forall i, i ∈ priority_headers ->
    StronglySorted (fun u v => current_priority (tcb k u) < current_priority (tcb k v)) (queue_chain k q i);
  po_header : forall i h, i ∈ priority_headers -> h ∈ queue_chain k q i ->
    prio (current_priority (tcb k h)) /\ _Thread_queue_Header_number (current_priority (tcb k h)) = i;
  po_block : forall i h m, i ∈ priority_headers -> h ∈ queue_chain k q i -> m ∈ block2n k h ->
    current_priority (tcb k m) = current_priority (tcb k h) /\ block2n k m = []
}.

(** The state of a queue blocks its threads; part of it is that they are on a thread queue,
    and a thread on the queue has that part. *)
Definition queue_state (s : Z) : Prop :=
  Z.land s STATES_BLOCKED = s /\ (s <> 0 -> Z.land s STATES_WAITING_ON_THREAD_QUEUE <> 0).
Definition waits_in (s state : Z) : bool := _States_Are_set state (Z.land s STATES_WAITING_ON_THREAD_QUEUE).

Lemma waits_in_set s state : waits_in s state = true -> _States_Are_set state s = true /\ _States_Is_waiting_on_thread_queue state = true.
Proof.
  intros H%negb_true_iff%Z.eqb_neq. split; apply negb_true_iff, Z.eqb_neq; intros E; apply H.
  - by rewrite Z.land_assoc, E, Z.land_0_l.
  - by rewrite (Z.land_comm s), Z.land_assoc, E, Z.land_0_l.
Qed.

Lemma waits_in_self s : queue_state s -> s <> 0 -> waits_in s s = true.
Proof. intros [_ H] Hs. apply negb_true_iff, Z.eqb_neq. rewrite Z.land_assoc, Z.land_diag. auto. Qed.

Record tq_ok (k : Kernel) (q : Z) : Prop := {
  to_nodup : NoDup (tq_list k q);
  to_known : forall u, u ∈ tq_list k q -> known k u;
  to_state : queue_state (tq_state (tq k q));
  to_blocked : forall u, u ∈ tq_list k q -> waits_in (tq_state (tq k q)) (current_state (tcb k u)) = true;
  to_priority : discipline (tq k q) = THREAD_QUEUE_DISCIPLINE_PRIORITY -> priority_ok k q
}.

(** *** States that agree on the queues *)

Record tq_same (k k' : Kernel) : Prop := {
  ts_queue : forall q, tq k' q = tq k q;
  ts_wait : forall u, Wait (tcb k' u) = Wait (tcb k u);
  ts_priority : forall u, current_priority (tcb k' u) = current_priority (tcb k u)
}.
#[export] Instance tq_same_equivalence : Equivalence tq_same.
Proof.
  split.
  - done.
  - intros k k' [A B C]. split; intros; by rewrite ?A, ?B, ?C.
  - intros k k' k'' [A B C] [A' B' C']. split; intros; by rewrite ?A', ?B', ?C'.
Qed.
#[export] Instance block2n_proper : Proper (tq_same ==> eq ==> eq) block2n.
Proof. intros k k' [A B C] u ? <-. unfold block2n. by rewrite B. Qed.
#[export] Instance queue_chain_proper : Proper (tq_same ==> eq ==> eq ==> eq) queue_chain.
Proof. intros k k' [A B C] q ? <- i ? <-. unfold queue_chain. by rewrite A. Qed.
#[export] Instance tq_list_proper : Proper (tq_same ==> eq ==> eq) tq_list.
Proof.
  intros k k' HS q ? <-. unfold tq_list. rewrite (ts_queue _ _ HS). destruct (discipline _).
  - by rewrite HS.
  - apply flat_map_ext. intros i. replace (queue_chain k' q i) with (queue_chain k q i) by (by rewrite HS).
    apply flat_map_ext. intros h. unfold group. by rewrite HS.
Qed.
#[export] Instance priority_ok_proper : Proper (tq_same ==> eq ==> impl) priority_ok.
Proof.
  intros k k' HS q ? <- [A B C].
  assert (forall i, queue_chain k' q i = queue_chain k q i) as EC by (intros i; by rewrite HS).
  assert (forall u, block2n k' u = block2n k u) as EB by (intros u; by rewrite HS).
  split.
  - intros i Hi. rewrite EC. eapply sorted_impl; [|by apply A].
    intros u v _ _. by rewrite !(ts_priority _ _ HS).
  - intros i h Hi. rewrite EC, (ts_priority _ _ HS). by apply B.
  - intros i h m Hi. rewrite EC, !EB, !(ts_priority _ _ HS). by apply C.
Qed.

(** ** The searches *)

Definition run_isrs (isrs : list (Kernel -> Kernel)) (k : Kernel) : Kernel := foldl (fun k f => f k) k isrs.

Section Search.
Context (q i p : Z) (Hp : prio p).
Notation cp k u := (current_priority (tcb k u)).
Notation chain k := (queue_chain k q i).

(** What a search needs of the chain it walks. *)
Definition searchable (k : Kernel) : Prop :=
  StronglySorted (fun u v => cp k u < cp k v) (chain k) /\
  forall u, u ∈ chain k -> _States_Are_set (current_state (tcb k u)) (tq_state (tq k q)) = true.

Lemma searchable_nodup k : searchable k -> NoDup (chain k).
Proof.
  intros [HS _]. induction HS as [|x l HS IH HF]; constructor; [|done].
  intros Hin. rewrite Forall_forall in HF. specialize (HF x Hin). lia.
Qed.

Lemma searchable_before k A u B : searchable k -> chain k = A ++ u :: B ->
  (forall v, v ∈ A -> cp k v < cp k u) /\ (forall v, v ∈ B -> cp k u < cp k v).
Proof.
  intros [HS _] E. rewrite E in HS. apply StronglySorted_app in HS as (HR & _ & HS). split.
  - intros v Hv. apply HR; [done|left].
  - apply StronglySorted_cons in HS as [HF _]. by rewrite Forall_forall in HF.
Qed.

(** The chain splits where a search stopped. *)
Definition forward_found (k : Kernel) (sp : Z) (st : option Z) : Prop := exists A B,
  chain k = A ++ B /\ head B = st /\ (forall u, u ∈ A -> cp k u < p) /\ (forall u, u ∈ B -> p <= cp k u) /\
  match st with Some u => sp = cp k u | None => sp <> p end.
Definition reverse_found (k : Kernel) (sp : Z) (st : option Z) : Prop := exists A B,
  chain k = A ++ B /\ last A = st /\ (forall u, u ∈ A -> cp k u <= p) /\ (forall u, u ∈ B -> p < cp k u) /\
  match st with Some u => sp = cp k u | None => sp <> p end.

Lemma forward_stop k A u B : searchable k -> chain k = A ++ u :: B ->
  (forall v, v ∈ A -> cp k v < p) -> p <= cp k u -> forward_found k (cp k u) (Some u).
Proof.
  intros HS E HA Hu. destruct (searchable_before k A u B HS E) as [_ HB].
  exists A, (u :: B). split_and!; try done. intros v [-> |Hv]%elem_of_cons; [done|]. specialize (HB v Hv). lia.
Qed.

(** One pass of the loop: it stops, or it goes on behind [v] after the interrupts. *)
Lemma forward_pass bs fuel isrs sp k A B :
  searchable k -> chain k = A ++ B -> (forall v, v ∈ A -> cp k v < p) -> (B = [] -> sp <> p) ->
  (exists sp' st', forward_search q i p bs (S fuel) isrs sp (head B) k = Some (sp', st', k) /\
     forward_found k sp' st') \/
  (exists u v B', B = u :: v :: B' /\ cp k v < p /\
     forward_search q i p bs (S fuel) isrs sp (head B) k =
     let k' := hd id isrs k in
     if negb (_States_Are_set (current_state (tcb k' v)) bs)
     then forward_search q i p bs fuel (tl isrs) (PRIORITY_MINIMUM -w 1) (head (chain k')) k'
     else forward_search q i p bs fuel (tl isrs) (cp k v) (next_on (chain k') v) k').
Proof.
  intros HS E HA HB. pose proof (searchable_nodup k HS) as HN. rewrite E in HN.
  destruct B as [|u B]; [left|]; simpl.
  { exists sp, None. split; [done|]. exists A, []. split_and!; [done|done|done|set_solver|auto]. }
  destruct (Z.leb_spec p (cp k u)) as [Hu|Hu].
  { left. eexists _, _. split; [done|]. by apply (forward_stop k A u B). }
  assert (u ∉ A) as HuA by (intros Hin; apply NoDup_app in HN as (_ & HD & _); apply (HD u Hin); left).
  rewrite E, next_on_middle by done. destruct B as [|v B]; simpl.
  { left. eexists _, _. split; [done|]. exists (A ++ [u]), []. split_and!; try done.
    - by rewrite app_nil_r.
    - intros w [Hw| ->%list_elem_of_singleton]%elem_of_app; auto.
    - set_solver.
    - lia. }
  destruct (Z.leb_spec p (cp k v)) as [Hv|Hv]; [left|right].
  - eexists _, _. split; [done|]. apply (forward_stop k (A ++ [u]) v B); try done.
    + by rewrite E, <- app_assoc.
    + intros w [Hw| ->%list_elem_of_singleton]%elem_of_app; auto.
  - by exists u, v, B.
Qed.

Lemma forward_search_quiet bs k : searchable k -> tq_state (tq k q) = bs -> forall fuel A B sp,
  chain k = A ++ B -> (forall v, v ∈ A -> cp k v < p) -> (B = [] -> sp <> p) -> (length B < fuel)%nat ->
  exists sp' st', forward_search q i p bs fuel [] sp (head B) k = Some (sp', st', k) /\ forward_found k sp' st'.
Proof.
  intros HS Hbs fuel. induction fuel as [|fuel IH]; intros A B sp0 E HA HB Hf; [lia|].
  destruct (forward_pass bs fuel [] sp0 k A B HS E HA HB) as [H|(u & v & B' & -> & Hv & ->)]; [done|].
  cbv zeta. change (hd id [] k) with k.
  assert (v ∈ chain k) as Hin by (rewrite E; set_solver).
  pose proof (proj2 HS v Hin) as Hb. rewrite Hbs in Hb. rewrite Hb. cbn [negb].
  assert (chain k = (A ++ [u]) ++ v :: B') as E2 by (by rewrite E, <- app_assoc).
  pose proof (searchable_nodup k HS) as HN. rewrite E2 in HN.
  destruct (searchable_before k _ _ _ HS E2) as [HL _].
  rewrite E2, next_on_middle by (intros Hin2; apply NoDup_app in HN as (_ & HD & _); apply (HD v Hin2); left).
  apply (IH (A ++ [u; v])).
  - by rewrite E, <- app_assoc.
  - intros w [Hw|Hw]%elem_of_app; [auto|]. apply elem_of_cons in Hw as [-> |Hw].
    + assert (cp k u < cp k v); [|lia]. apply HL. set_solver.
    + by apply list_elem_of_singleton in Hw as ->.
  - lia.
  - simpl in Hf. lia.
Qed.


Lemma reverse_stop k A u B : searchable k -> chain k = (A ++ [u]) ++ B ->
  (forall v, v ∈ B -> p < cp k v) -> cp k u <= p -> reverse_found k (cp k u) (Some u).
Proof.
  intros HS E HB Hu. pose proof E as E2. rewrite <- app_assoc in E2.
  destruct (searchable_before k A u B HS E2) as [HA _].
  exists (A ++ [u]), B. split_and!; try done; [apply last_snoc|].
  intros v [Hv| ->%list_elem_of_singleton]%elem_of_app; [|done]. specialize (HA v Hv). lia.
Qed.

Lemma previous_on_middle k A u B : searchable k -> chain k = A ++ u :: B ->
  previous_on (A ++ u :: B) (Some u) = last A.
Proof.
  intros HS E. pose proof (searchable_nodup k HS) as HN. rewrite E in HN.
  apply (previous_on_split A (u :: B) HN).
Qed.

Lemma reverse_pass bs fuel isrs sp k A B :
  searchable k -> chain k = A ++ B -> (forall v, v ∈ B -> p < cp k v) -> (A = [] -> sp <> p) ->
  (exists sp' st', reverse_search q i p bs (S fuel) isrs sp (last A) k = Some (sp', st', k) /\
     reverse_found k sp' st') \/
  (exists A' v u, A = A' ++ [v; u] /\ p < cp k v /\
     reverse_search q i p bs (S fuel) isrs sp (last A) k =
     let k' := hd id isrs k in
     if negb (_States_Are_set (current_state (tcb k' v)) bs)
     then reverse_search q i p bs fuel (tl isrs) (PRIORITY_MAXIMUM +w 1) (last (chain k')) k'
     else reverse_search q i p bs fuel (tl isrs) (cp k v) (previous_on (chain k') (Some v)) k').
Proof.
  intros HS E HB HA. destruct A as [|u A _] using rev_ind; [left|].
  { exists sp, None. split; [done|]. exists [], B. split_and!; [done|done|set_solver|done|auto]. }
  rewrite last_snoc. cbn [reverse_search]. destruct (Z.leb_spec (cp k u) p) as [Hu|Hu].
  { left. eexists _, _. split; [done|]. by apply (reverse_stop k A u B). }
  assert (chain k = A ++ u :: B) as E2 by (by rewrite E, <- app_assoc).
  rewrite E2, (previous_on_middle k) by done.
  assert (forall w, w ∈ u :: B -> p < cp k w) as HB2 by (intros w [-> |Hw]%elem_of_cons; auto).
  destruct A as [|v A _] using rev_ind; [left|rewrite last_snoc].
  { eexists _, _. split; [done|]. exists [], (u :: B). split_and!; try done; [set_solver|lia]. }
  destruct (Z.leb_spec (cp k v) p) as [Hv|Hv]; [left|right].
  - eexists _, _. split; [done|]. by apply (reverse_stop k A v (u :: B)).
  - exists A, v, u. by rewrite <- app_assoc.
Qed.

Lemma reverse_search_quiet bs k : searchable k -> tq_state (tq k q) = bs -> forall fuel A B sp,
  chain k = A ++ B -> (forall v, v ∈ B -> p < cp k v) -> (A = [] -> sp <> p) -> (length A < fuel)%nat ->
  exists sp' st', reverse_search q i p bs fuel [] sp (last A) k = Some (sp', st', k) /\ reverse_found k sp' st'.
Proof.
  intros HS Hbs fuel. induction fuel as [|fuel IH]; intros A B sp0 E HB HA Hf; [lia|].
  destruct (reverse_pass bs fuel [] sp0 k A B HS E HB HA) as [H|(A' & v & u & -> & Hv & ->)]; [done|].
  cbv zeta. change (hd id [] k) with k.
  assert (v ∈ chain k) as Hin by (rewrite E; set_solver).
  pose proof (proj2 HS v Hin) as Hb. rewrite Hbs in Hb. rewrite Hb. cbn [negb].
  assert (chain k = A' ++ v :: u :: B) as E2 by (by rewrite E, <- app_assoc).
  destruct (searchable_before k _ _ _ HS E2) as [_ HL].
  rewrite E2, (previous_on_middle k) by done. apply (IH A' (v :: u :: B)).
  - done.
  - intros w [-> |Hw]%elem_of_cons; [done|]. specialize (HL w Hw). lia.
  - lia.
  - rewrite length_app in Hf. simpl in Hf. lia.
Qed.

(** Interrupt processing during a search: an invariant of the queue is kept, and the chain
    may lose threads, which are then no longer in the state of a thread that waits. *)
Section Interrupted.
Context (Inv : Kernel -> Prop) (bs : Z).
Context (HInv : forall k, Inv k -> searchable k /\ tq_state (tq k q) = bs).

Definition search_isr (f : Kernel -> Kernel) : Prop := forall k, Inv k ->
  Inv (f k) /\ (length (chain (f k)) <= length (chain k))%nat /\
  forall u, u ∈ chain k -> _States_Are_set (current_state (tcb (f k) u)) bs = true ->
    u ∈ chain (f k) /\ cp (f k) u = cp k u.

Lemma forward_search_found L : forall isrs, Forall search_isr isrs -> forall fuel k A B sp,
  Inv k -> (length (chain k) <= L)%nat ->
  chain k = A ++ B -> (forall v, v ∈ A -> cp k v < p) -> (B = [] -> sp <> p) ->
  (length isrs + L < fuel)%nat ->
  exists n sp' st', let k' := run_isrs (take n isrs) k in
    forward_search q i p bs fuel isrs sp (head B) k = Some (sp', st', k') /\ forward_found k' sp' st' /\ Inv k'.
Proof.
  intros isrs HI. induction HI as [|f isrs Hi HI IH]; intros fuel k A B sp HK0 HL E HA HB Hf.
  - destruct (HInv k HK0) as [HS Hbs]. exists 0%nat. simpl in *.
    edestruct (forward_search_quiet bs k HS Hbs fuel A B sp) as (sp' & st' & X1 & X2); try done; [|by exists sp', st'].
    apply (f_equal length) in E. rewrite length_app in E. lia.
  - destruct (HInv k HK0) as [HS Hbs]. destruct fuel as [|fuel]; [lia|].
    destruct (forward_pass bs fuel (f :: isrs) sp k A B HS E HA HB)
      as [(sp' & st' & H1 & H2)|(u & v & B' & -> & Hv & Eq)]; [by exists 0%nat, sp', st'|].
    destruct (Hi k HK0) as (HK' & HL' & HK). destruct (HInv _ HK') as [HS' Hbs']. simpl in Hf. cbv zeta in Eq.
    change (hd id (f :: isrs) k) with (f k) in Eq. change (tl (f :: isrs)) with isrs in Eq.
    rewrite Eq. destruct (_States_Are_set _ bs) eqn:Es; cbn [negb].
    + destruct (HK v) as [Hin EP]; [rewrite E; set_solver|done|].
      apply list_elem_of_split in Hin as (A' & B'' & E').
      destruct (searchable_before _ _ _ _ HS' E') as [HA' _].
      pose proof (searchable_nodup _ HS') as HN. rewrite E' in HN.
      rewrite E', next_on_middle by (intros Hin2; apply NoDup_app in HN as (_ & HD & _); apply (HD v Hin2); left).
      destruct (IH fuel (f k) (A' ++ [v]) B'' (cp k v)) as (n & sp' & st' & H); try done.
      * lia.
      * by rewrite E', <- app_assoc.
      * intros w [Hw| ->%list_elem_of_singleton]%elem_of_app; [|lia]. specialize (HA' w Hw). lia.
      * lia.
      * lia.
      * by exists (S n), sp', st'.
    + destruct (IH fuel (f k) [] (chain (f k)) (PRIORITY_MINIMUM -w 1)) as (n & sp' & st' & H); try done.
      * lia.
      * set_solver.
      * intros _. unfold prio, PRIORITY_MAXIMUM, PRIORITY_MINIMUM in *.
        change (0 -w 1) with 4294967295. lia.
      * lia.
      * by exists (S n), sp', st'.
Qed.

Lemma reverse_search_found L : forall isrs, Forall search_isr isrs -> forall fuel k A B sp,
  Inv k -> (length (chain k) <= L)%nat ->
  chain k = A ++ B -> (forall v, v ∈ B -> p < cp k v) -> (A = [] -> sp <> p) ->
  (length isrs + L < fuel)%nat ->
  exists n sp' st', let k' := run_isrs (take n isrs) k in
    reverse_search q i p bs fuel isrs sp (last A) k = Some (sp', st', k') /\ reverse_found k' sp' st' /\ Inv k'.
Proof.
  intros isrs HI. induction HI as [|f isrs Hi HI IH]; intros fuel k A B sp HK0 HL E HB HA Hf.
  - destruct (HInv k HK0) as [HS Hbs]. exists 0%nat. simpl in *.
    edestruct (reverse_search_quiet bs k HS Hbs fuel A B sp) as (sp' & st' & X1 & X2); try done; [|by exists sp', st'].
    apply (f_equal length) in E. rewrite length_app in E. lia.
  - destruct (HInv k HK0) as [HS Hbs]. destruct fuel as [|fuel]; [lia|].
    destruct (reverse_pass bs fuel (f :: isrs) sp k A B HS E HB HA)
      as [(sp' & st' & H1 & H2)|(A' & v & u & -> & Hv & Eq)]; [by exists 0%nat, sp', st'|].
    destruct (Hi k HK0) as (HK' & HL' & HK). destruct (HInv _ HK') as [HS' Hbs']. simpl in Hf. cbv zeta in Eq.
    change (hd id (f :: isrs) k) with (f k) in Eq. change (tl (f :: isrs)) with isrs in Eq.
    rewrite Eq. destruct (_States_Are_set _ bs) eqn:Es; cbn [negb].
    + destruct (HK v) as [Hin EP]; [rewrite E; set_solver|done|].
      apply list_elem_of_split in Hin as (A2 & B2 & E').
      destruct (searchable_before _ _ _ _ HS' E') as [_ HB'].
      rewrite E', (previous_on_middle (f k)) by done.
      destruct (IH fuel (f k) A2 (v :: B2) (cp k v)) as (n & sp' & st' & H); try done.
      * lia.
      * intros w [-> |Hw]%elem_of_cons; [lia|]. specialize (HB' w Hw). lia.
      * lia.
      * lia.
      * by exists (S n), sp', st'.
    + destruct (IH fuel (f k) (chain (f k)) [] (PRIORITY_MAXIMUM +w 1)) as (n & sp' & st' & H); try done.
      * lia.
      * by rewrite app_nil_r.
      * set_solver.
      * intros _. unfold prio, PRIORITY_MAXIMUM in *. change (255 +w 1) with 256. lia.
      * lia.
      * by exists (S n), sp', st'.
Qed.
End Interrupted.
End Search.

(** ** Where the searches put a thread *)

Lemma insert_in_front_split A B t : (forall u, head B = Some u -> u ∉ A) ->
  insert_in_front (A ++ B) (head B) t = A ++ t :: B.
Proof.
  intros HA. induction A as [|x A IH]; simpl.
  - destruct B; simpl; [done|]. by rewrite decide_True.
  - rewrite decide_False.
    + f_equal. apply IH. intros u Hu Hin. apply (HA u Hu). by right.
    + intros E. apply (HA x E). left.
Qed.

(** A search found the thread of the same priority, or the gap between the lower and the
    higher ones. *)
Definition found (k : Kernel) (q i p t : Z) (insert : option Z -> list Z -> list Z) (sp : Z) (st : option Z)
  : Prop :=
  (exists A h B, queue_chain k q i = A ++ h :: B /\ current_priority (tcb k h) = p /\ st = Some h /\ sp = p) \/
  (exists A B, queue_chain k q i = A ++ B /\ (forall u, u ∈ A -> current_priority (tcb k u) < p) /\
     (forall u, u ∈ B -> p < current_priority (tcb k u)) /\
     insert st (queue_chain k q i) = A ++ t :: B /\ (st = None \/ sp <> p)).

Lemma forward_place q i p k t sp st : searchable q i k -> forward_found q i p k sp st ->
  found k q i p t (fun u l => insert_in_front l u t) sp st.
Proof.
  intros HS (A & B & E & Hst & HA & HB & Hsp). pose proof (searchable_nodup q i k HS) as HN. rewrite E in HN.
  assert ((exists h B', B = h :: B' /\ current_priority (tcb k h) = p) \/
    ~ exists h B', B = h :: B' /\ current_priority (tcb k h) = p) as [Hd|Hd].
  { destruct B as [|h B]; [right; naive_solver|].
    destruct (decide (current_priority (tcb k h) = p)); [left|right]; naive_solver. }
  - destruct Hd as (h & B' & -> & Hd). left. exists A, h, B'. simpl in Hst. subst st. by rewrite Hsp.
  - right. exists A, B. split_and!; try done.
    + intros u Hu. destruct B as [|h B]; [by apply elem_of_nil in Hu|].
      destruct (searchable_before q i k A h B HS E) as [_ HL].
      assert (p <= current_priority (tcb k h)) by (apply HB; left).
      assert (current_priority (tcb k h) <> p) by naive_solver.
      apply elem_of_cons in Hu as [-> |Hu]; [lia|]. specialize (HL u Hu). lia.
    + rewrite E, <- Hst. apply insert_in_front_split. intros u Hu Hin.
      destruct B; [done|]. injection Hu as ->. apply NoDup_app in HN as (_ & HD & _). apply (HD u Hin). left.
    + destruct st as [u|]; [right|by left]. destruct B as [|h B]; [done|]. injection Hst as ->.
      rewrite Hsp. naive_solver.
Qed.

Lemma reverse_place q i p k t sp st : searchable q i k -> reverse_found q i p k sp st ->
  found k q i p t (fun u l => ListChain.insert_after l u t) sp st.
Proof.
  intros HS (A & B & E & Hst & HA & HB & Hsp). pose proof (searchable_nodup q i k HS) as HN. rewrite E in HN.
  assert (ListChain.insert_after (A ++ B) (last A) t = A ++ t :: B) as EI
    by (rewrite <- (previous_on_split A B HN); by apply insert_after_split).
  destruct A as [|h A _] using rev_ind.
  - right. exists [], B. simpl in Hst. subst st. rewrite E. split_and!; try done; [set_solver|by left].
  - rewrite last_snoc in Hst. subst st. destruct (decide (current_priority (tcb k h) = p)) as [Hd|Hd].
    + left. exists A, h, B. rewrite E, <- app_assoc. split_and!; try done. congruence.
    + right. exists (A ++ [h]), B. rewrite E. rewrite last_snoc in EI. split_and!; try done; [|right; congruence].
      intros u Hu. rewrite <- app_assoc in E. destruct (searchable_before q i k A h B HS E) as [HL _].
      specialize (HA h ltac:(set_solver)). apply elem_of_app in Hu as [Hu| ->%list_elem_of_singleton]; [|lia].
      specialize (HL u Hu). lia.
Qed.

(** ** Queues with the priority discipline *)

Lemma priority_headers_eq : priority_headers = [0; 1; 2; 3].
Proof. done. Qed.

Lemma header_range p : prio p -> _Thread_queue_Header_number p ∈ priority_headers.
Proof.
  intros Hp. rewrite priority_headers_eq. unfold prio, PRIORITY_MAXIMUM in Hp.
  unfold _Thread_queue_Header_number, TASK_QUEUE_DATA_PRIORITIES_PER_HEADER.
  assert (p / 64 = 0 \/ p / 64 = 1 \/ p / 64 = 2 \/ p / 64 = 3) as [-> |[-> |[-> | ->]]]
    by (Z.div_mod_to_equations; lia); set_solver.
Qed.

Lemma headers_split i : i ∈ priority_headers ->
  exists H1 H2, priority_headers = H1 ++ i :: H2 /\ (forall j, j ∈ H1 -> j < i) /\ (forall j, j ∈ H2 -> i < j).
Proof.
  rewrite priority_headers_eq. intros Hi.
  repeat (apply elem_of_cons in Hi as [-> |Hi]); [..|by apply elem_of_nil in Hi].
  - exists [], [1; 2; 3]. split_and!; [done|set_solver|]. intros j Hj.
    repeat (apply elem_of_cons in Hj as [-> |Hj]); [lia..|by apply elem_of_nil in Hj].
  - exists [0], [2; 3]. split_and!; [done|..]; intros j Hj;
      repeat (apply elem_of_cons in Hj as [-> |Hj]); try lia; by apply elem_of_nil in Hj.
  - exists [0; 1], [3]. split_and!; [done|..]; intros j Hj;
      repeat (apply elem_of_cons in Hj as [-> |Hj]); try lia; by apply elem_of_nil in Hj.
  - exists [0; 1; 2], []. split_and!; [done|..]; intros j Hj;
      repeat (apply elem_of_cons in Hj as [-> |Hj]); try lia; by apply elem_of_nil in Hj.
Qed.

(** The threads on one header. *)
Definition on_header (k : Kernel) (q i : Z) : list Z := flat_map (group k) (queue_chain k q i).

Lemma elem_of_flat_map (f : Z -> list Z) l u : u ∈ flat_map f l <-> exists h, h ∈ l /\ u ∈ f h.
Proof.
  rewrite list_elem_of_In, in_flat_map. split; intros (h & A & B); exists h; by rewrite ?list_elem_of_In in *.
Qed.

Lemma flat_map_cong (f g : Z -> list Z) l : (forall x, x ∈ l -> f x = g x) -> flat_map f l = flat_map g l.
Proof.
  induction l as [|x l IH]; intros E; [done|]. simpl. rewrite E by left. f_equal. apply IH.
  intros y Hy. apply E. by right.
Qed.

Section PriorityQueue.
Context (q : Z) (k : Kernel) (HD : discipline (tq k q) = THREAD_QUEUE_DISCIPLINE_PRIORITY).
Notation cp u := (current_priority (tcb k u)).

Lemma tq_list_headers : tq_list k q = flat_map (on_header k q) priority_headers.
Proof. unfold tq_list. by rewrite HD. Qed.

Lemma on_header_in u : u ∈ tq_list k q <-> exists i, i ∈ priority_headers /\ u ∈ on_header k q i.
Proof. rewrite tq_list_headers. apply elem_of_flat_map. Qed.

Lemma on_header_head i h : h ∈ queue_chain k q i -> h ∈ on_header k q i.
Proof. intros Hh. apply elem_of_flat_map. exists h. split; [done|left]. Qed.

Lemma on_header_split i u : u ∈ on_header k q i ->
  u ∈ queue_chain k q i \/ exists h, h ∈ queue_chain k q i /\ u ∈ block2n k h.
Proof.
  intros (h & Hh & Hu)%elem_of_flat_map. apply elem_of_cons in Hu as [-> |Hu]; [by left|right; eauto].
Qed.

Context (HP : priority_ok k q).

Lemma group_priority i h u : i ∈ priority_headers -> h ∈ queue_chain k q i -> u ∈ group k h -> cp u = cp h.
Proof. intros Hi Hh [-> |Hu]%elem_of_cons; [done|]. by apply (po_block _ _ HP i h u). Qed.

Lemma on_header_priority i u : i ∈ priority_headers -> u ∈ on_header k q i ->
  prio (cp u) /\ _Thread_queue_Header_number (cp u) = i.
Proof.
  intros Hi (h & Hh & Hu)%elem_of_flat_map. rewrite (group_priority i h u Hi Hh Hu). by apply (po_header _ _ HP).
Qed.
End PriorityQueue.

(** *** Insertion *)

Lemma filter_all (P : Z -> Prop) `{forall x, Decision (P x)} (l : list Z) : (forall x, x ∈ l -> P x) -> filter P l = l.
Proof.
  induction l as [|x l IH]; intros HP; [done|]. rewrite filter_cons_True by (apply HP; left).
  f_equal. apply IH. intros y Hy. apply HP. by right.
Qed.
Lemma filter_none (P : Z -> Prop) `{forall x, Decision (P x)} (l : list Z) : (forall x, x ∈ l -> ~ P x) -> filter P l = [].
Proof.
  induction l as [|x l IH]; intros HP; [done|]. rewrite filter_cons_False by (apply HP; left).
  apply IH. intros y Hy. apply HP. by right.
Qed.

(** [l] with [t] behind the threads of priority [p] or higher. *)
Definition stable_insert (f : Z -> Z) (p t : Z) (l : list Z) : list Z :=
  filter (fun u => f u <= p) l ++ t :: filter (fun u => p < f u) l.

Lemma stable_insert_between f p t L1 L2 l :
  (forall u, u ∈ L1 -> f u <= p) -> (forall u, u ∈ L2 -> p < f u) ->
  stable_insert f p t (L1 ++ l ++ L2) = L1 ++ stable_insert f p t l ++ L2.
Proof.
  intros H1 H2. unfold stable_insert. rewrite !filter_app.
  rewrite (filter_all (fun u => f u <= p) L1), (filter_none (fun u => f u <= p) L2),
    (filter_none (fun u => p < f u) L1), (filter_all (fun u => p < f u) L2)
    by (intros u Hu; (specialize (H1 u Hu) || specialize (H2 u Hu)); lia).
  by rewrite app_nil_r, app_nil_l, <- !app_assoc.
Qed.

Lemma stable_insert_perm f p t l : stable_insert f p t l ≡ₚ t :: l.
Proof.
  unfold stable_insert. rewrite <- Permutation_middle. f_equiv.
  induction l as [|x l IH]; [done|].
  destruct (decide (f x <= p)).
  - rewrite filter_cons_True, filter_cons_False by lia. simpl. by rewrite IH.
  - rewrite filter_cons_False, filter_cons_True by lia. by rewrite <- Permutation_middle, IH.
Qed.

Section Place.
Context (q : Z) (k : Kernel) (HD : discipline (tq k q) = THREAD_QUEUE_DISCIPLINE_PRIORITY).
Context (HP : priority_ok k q) (t p : Z) (Hp : prio p).
Notation cp u := (current_priority (tcb k u)).
Notation i := (_Thread_queue_Header_number p).

Lemma chain_priority_inj j u v : j ∈ priority_headers -> u ∈ queue_chain k q j -> v ∈ queue_chain k q j ->
  cp u = cp v -> u = v.
Proof.
  intros Hj. pose proof (po_sorted _ _ HP j Hj) as HS. induction HS as [|x l HS IH HF]; [by intros ?%elem_of_nil|].
  rewrite Forall_forall in HF. intros [-> |Hu]%elem_of_cons [-> |Hv]%elem_of_cons E; auto.
  - specialize (HF v Hv). lia.
  - specialize (HF u Hu). lia.
Qed.

Lemma head_not_member j j' h h' : j ∈ priority_headers -> j' ∈ priority_headers ->
  h ∈ queue_chain k q j -> h' ∈ queue_chain k q j' -> h ∈ block2n k h' -> block2n k h = [].
Proof. intros Hj Hj' Hh Hh' Hm. by apply (po_block _ _ HP j' h' h). Qed.

(** A state that differs from [k] on one header only. *)
Section OneHeader.
Context (k' : Kernel) (X : list Z).
Context (HD' : discipline (tq k' q) = THREAD_QUEUE_DISCIPLINE_PRIORITY).
Context (HO : forall j, j ∈ priority_headers -> j <> i -> on_header k' q j = on_header k q j).
Context (HX : on_header k' q i = X).

Lemma one_header_insert : X = stable_insert (fun u => cp u) p t (on_header k q i) ->
  tq_list k' q = stable_insert (fun u => cp u) p t (tq_list k q).
Proof.
  intros ->. pose proof (header_range p Hp) as Hi. rewrite (tq_list_headers q k' HD'), (tq_list_headers q k HD).
  destruct (headers_split i Hi) as (H1 & H2 & E & L1 & L2). rewrite E, !flat_map_app. simpl. rewrite HX.
  rewrite stable_insert_between.
  - f_equal; [|f_equal]; apply flat_map_cong; intros j Hj; apply HO; try (rewrite E; set_solver).
    + specialize (L1 j Hj). lia.
    + specialize (L2 j Hj). lia.
  - intros u (j & Hj & Hu)%elem_of_flat_map. destruct (on_header_priority q k HP j u) as [Hpu Hnu];
      [rewrite E; set_solver|done|]. specialize (L1 j Hj). rewrite <- Hnu in L1.
    unfold _Thread_queue_Header_number, TASK_QUEUE_DATA_PRIORITIES_PER_HEADER in L1. Z.div_mod_to_equations; lia.
  - intros u (j & Hj & Hu)%elem_of_flat_map. destruct (on_header_priority q k HP j u) as [Hpu Hnu];
      [rewrite E; set_solver|done|]. specialize (L2 j Hj). rewrite <- Hnu in L2.
    unfold _Thread_queue_Header_number, TASK_QUEUE_DATA_PRIORITIES_PER_HEADER in L2. Z.div_mod_to_equations; lia.
Qed.
End OneHeader.

Lemma groups_priority A B (P : Z -> Prop) : queue_chain k q i = A ++ B ->
  (forall u, u ∈ A -> P (cp u)) -> forall u, u ∈ flat_map (group k) A -> P (cp u).
Proof.
  intros E HA u (h & Hh & Hu)%elem_of_flat_map. rewrite (group_priority q k HP i h u);
    [by apply HA|by apply header_range|rewrite E; set_solver|done].
Qed.

Lemma groups_priority_r A B (P : Z -> Prop) : queue_chain k q i = A ++ B ->
  (forall u, u ∈ B -> P (cp u)) -> forall u, u ∈ flat_map (group k) B -> P (cp u).
Proof.
  intros E HA u (h & Hh & Hu)%elem_of_flat_map. rewrite (group_priority q k HP i h u);
    [by apply HA|by apply header_range|rewrite E; set_solver|done].
Qed.

Lemma insert_group A h B : queue_chain k q i = A ++ h :: B -> cp h = p ->
  stable_insert (fun u => cp u) p t (on_header k q i) =
  flat_map (group k) A ++ (group k h ++ [t]) ++ flat_map (group k) B.
Proof.
  intros E Hh. pose proof (header_range p Hp) as Hi. pose proof (po_sorted _ _ HP i Hi) as HS. rewrite E in HS.
  apply StronglySorted_app in HS as (HR & _ & HS). apply StronglySorted_cons in HS as [HF _].
  rewrite Forall_forall in HF.
  assert (forall u, u ∈ A -> cp u < p) as HA by (intros u Hu; rewrite <- Hh; apply HR; [done|left]).
  assert (forall u, u ∈ B -> p < cp u) as HB by (intros u Hu; rewrite <- Hh; by apply HF).
  unfold on_header. rewrite E, flat_map_app. simpl flat_map at 2. change (h :: block2n k h ++ ?x) with (group k h ++ x).
  rewrite stable_insert_between.
  - f_equal. f_equal. unfold stable_insert.
    assert (forall u, u ∈ group k h -> cp u = p) as HG
      by (intros u Hu; rewrite (group_priority q k HP i h u); [done|done|rewrite E; set_solver|done]).
    rewrite filter_all, filter_none; [done|intros u Hu; rewrite HG by done; lia..].
  - intros u Hu. apply Z.lt_le_incl. revert u Hu. by apply (groups_priority A (h :: B) (fun x => x < p)).
  - apply (groups_priority_r (A ++ [h]) B (fun x => p < x)); [by rewrite E, <- app_assoc|done].
Qed.

Lemma insert_alone A B : queue_chain k q i = A ++ B ->
  (forall u, u ∈ A -> cp u < p) -> (forall u, u ∈ B -> p < cp u) ->
  stable_insert (fun u => cp u) p t (on_header k q i) = flat_map (group k) A ++ t :: flat_map (group k) B.
Proof.
  intros E HA HB. unfold on_header. rewrite E, flat_map_app.
  rewrite <- (app_nil_l (flat_map (group k) B)) at 1. rewrite stable_insert_between; [done|..].
  - intros u Hu. apply Z.lt_le_incl. revert u Hu. by apply (groups_priority A B (fun x => x < p)).
  - by apply (groups_priority_r A B (fun x => p < x)).
Qed.

(** The two ways the thread is linked in. *)
Context (Ht : t ∉ tq_list k q) (Hb : block2n k t = []) (Hcp : cp t = p).

Section InGroup.
Context (A : list Z) (h : Z) (B : list Z) (E : queue_chain k q i = A ++ h :: B) (Hh : cp h = p).
Let k' := put_block2n h (block2n k h ++ [t]) k.

Lemma grouped_priority u : current_priority (tcb k' u) = cp u.
Proof. unfold k', put_block2n, upd_wait. rewrite tcb_upd. case_decide; by subst. Qed.

Lemma grouped_head : h ∈ queue_chain k q i.
Proof. rewrite E. set_solver. Qed.

Lemma grouped_list : tq_list k' q = stable_insert (fun u => cp u) p t (tq_list k q).
Proof.
  pose proof grouped_head as Hin. pose proof (header_range p Hp) as Hi.
  apply (one_header_insert k' (on_header k' q i)); [done| |done|].
  - intros j Hj Hne. apply flat_map_cong. intros u Hu. unfold group, k'. rewrite block2n_put, decide_False; [done|].
    intros ->. apply Hne. destruct (po_header _ _ HP j h Hj Hu) as [_ <-]. by rewrite Hh.
  - rewrite (insert_group A h B E Hh). unfold on_header.
    change (queue_chain k' q i) with (queue_chain k q i). rewrite E, flat_map_app. simpl.
    assert (forall u, u ∈ A ++ B -> group k' u = group k u) as EG.
    { intros u Hu. unfold group, k'. rewrite block2n_put, decide_False; [done|]. intros ->.
      pose proof (po_sorted _ _ HP i Hi) as HS. rewrite E in HS.
      apply StronglySorted_app in HS as (HR & _ & HS). apply StronglySorted_cons in HS as [HF _].
      rewrite Forall_forall in HF. apply elem_of_app in Hu as [Hu|Hu].
      - specialize (HR h h Hu ltac:(left)). lia.
      - specialize (HF h Hu). lia. }
    rewrite (flat_map_cong (group k') (group k) A), (flat_map_cong (group k') (group k) B)
      by (intros u Hu; apply EG; set_solver).
    unfold k' at 1. rewrite block2n_put, decide_True by done. by rewrite <- !app_assoc.
Qed.

Lemma grouped_ok : priority_ok k' q.
Proof.
  pose proof grouped_head as Hin. pose proof (header_range p Hp) as Hi. split.
  - intros j Hj. eapply sorted_impl; [|by apply HP]. intros u v _ _. by rewrite !grouped_priority.
  - intros j u Hj Hu. rewrite grouped_priority. by apply (po_header _ _ HP).
  - intros j u m Hj Hu. rewrite !grouped_priority. unfold k'. rewrite !block2n_put.
    change (queue_chain k' q j) with (queue_chain k q j) in Hu.
    assert (m ∈ block2n k u -> m <> h \/ block2n k h = []) as Hmh.
    { intros Hm. destruct (decide (m = h)) as [-> |]; [right|by left]. by apply (head_not_member i j h u). }
    assert (t <> h) as Hth by (intros ->; apply Ht, (on_header_in q k HD); exists i; split; [done|by apply on_header_head]).
    case_decide as Eu.
    + subst u. intros [Hm| ->%list_elem_of_singleton]%elem_of_app.
      * destruct (po_block _ _ HP j h m Hj Hu Hm) as [E1 E2]. split; [done|].
        rewrite decide_False; [done|]. intros ->. by rewrite E2 in Hm; apply elem_of_nil in Hm.
      * rewrite decide_False by done. split; [congruence|done].
    + intros Hm. destruct (po_block _ _ HP j u m Hj Hu Hm) as [E1 E2]. split; [done|].
      rewrite decide_False; [done|]. intros ->.
      destruct (po_header _ _ HP j u Hj Hu) as [_ N1]. rewrite <- E1, Hh in N1. subst j.
      apply Eu. symmetry. by apply (chain_priority_inj i).
Qed.
End InGroup.

Section Alone.
Context (A B : list Z) (E : queue_chain k q i = A ++ B).
Context (HA : forall u, u ∈ A -> cp u < p) (HB : forall u, u ∈ B -> p < cp u).
Let k' := set_queue_chain q i (A ++ t :: B) k.

Lemma alone_chain j : queue_chain k' q j = if decide (j = i) then A ++ t :: B else queue_chain k q j.
Proof.
  unfold k'. rewrite queue_chain_set. destruct (decide (j = i)); [by rewrite decide_True|].
  by rewrite decide_False by tauto.
Qed.

Lemma alone_discipline : discipline (tq k' q) = THREAD_QUEUE_DISCIPLINE_PRIORITY.
Proof. unfold k', set_queue_chain. rewrite tq_upd, decide_True by done. exact HD. Qed.

Lemma alone_list : tq_list k' q = stable_insert (fun u => cp u) p t (tq_list k q).
Proof.
  apply (one_header_insert k' (on_header k' q i)); [apply alone_discipline| |done|].
  - intros j Hj Hne. unfold on_header. rewrite alone_chain, decide_False by done. by apply flat_map_cong.
  - rewrite (insert_alone A B E HA HB). unfold on_header. rewrite alone_chain, decide_True by done.
    rewrite flat_map_app. simpl. change (block2n k' t) with (block2n k t). rewrite Hb. done.
Qed.

Lemma alone_ok : priority_ok k' q.
Proof.
  pose proof (header_range p Hp) as Hi. split.
  - intros j Hj. rewrite alone_chain. change (tcb k') with (tcb k). case_decide as Ej; [subst j|by apply HP].
    pose proof (po_sorted _ _ HP i Hi) as HS. rewrite E in HS. apply StronglySorted_app in HS as (HR & S1 & S2).
    apply StronglySorted_app. split_and!; [|done|].
    + intros u v Hu [-> |Hv]%elem_of_cons; [|by apply HR]. rewrite Hcp. by apply HA.
    + apply StronglySorted_cons. split; [|done]. rewrite Forall_forall. intros u Hu. rewrite Hcp. by apply HB.
  - intros j u Hj. rewrite alone_chain. change (tcb k') with (tcb k). case_decide as Ej; [subst j|by apply HP].
    rewrite elem_of_app, elem_of_cons. intros [Hu|[-> |Hu]]; [|by rewrite Hcp|];
      apply (po_header _ _ HP i u Hi); rewrite E; set_solver.
  - intros j u m Hj. rewrite alone_chain. change (tcb k') with (tcb k). change (block2n k') with (block2n k).
    case_decide as Ej; [subst j|by apply HP].
    rewrite elem_of_app, elem_of_cons. intros [Hu|[-> |Hu]]; [|rewrite Hb; by intros ?%elem_of_nil|];
      apply (po_block _ _ HP i u m Hi); rewrite E; set_solver.
Qed.
End Alone.
End Place.

(** *** Removal *)

Section Unlink.
Context (q : Z) (k : Kernel) (HD : discipline (tq k q) = THREAD_QUEUE_DISCIPLINE_PRIORITY).
Context (HP : priority_ok k q) (HN : NoDup (tq_list k q)).
Notation cp u := (current_priority (tcb k u)).

Lemma member_not_head j j' h m : j ∈ priority_headers -> j' ∈ priority_headers ->
  h ∈ queue_chain k q j -> m ∈ block2n k h -> m ∉ queue_chain k q j'.
Proof.
  intros Hj Hj' Hh Hm Hin. destruct (po_block _ _ HP j h m Hj Hh Hm) as [E1 E2].
  destruct (po_header _ _ HP j h Hj Hh) as [_ N1], (po_header _ _ HP j' m Hj' Hin) as [_ N2].
  assert (j' = j) as -> by congruence.
  assert (m = h) as -> by (by apply (chain_priority_inj q k HP j)).
  rewrite E2 in Hm. by apply elem_of_nil in Hm.
Qed.

(** Removing [t] from one header's threads removes it from the queue. *)
Lemma one_header_remove i k' t l1 l2 :
  i ∈ priority_headers -> discipline (tq k' q) = THREAD_QUEUE_DISCIPLINE_PRIORITY ->
  (forall j, j ∈ priority_headers -> j <> i -> on_header k' q j = on_header k q j) ->
  on_header k q i = l1 ++ t :: l2 -> on_header k' q i = l1 ++ l2 ->
  tq_list k' q = ListChain.extract (tq_list k q) t.
Proof.
  intros Hi HD' HO E E'. rewrite (tq_list_headers q k' HD'). rewrite (tq_list_headers q k HD) in HN |- *.
  destruct (headers_split i Hi) as (H1 & H2 & EH & L1 & L2).
  assert (forall j, j ∈ H1 \/ j ∈ H2 -> j ∈ priority_headers) as HJ by (intros j; rewrite EH; set_solver).
  clear Hi. rewrite EH in HN |- *.
  assert (forall k0, flat_map (on_header k0 q) (H1 ++ i :: H2) =
    flat_map (on_header k0 q) H1 ++ on_header k0 q i ++ flat_map (on_header k0 q) H2) as EF
    by (intros k0; apply flat_map_app).
  rewrite EF, E in HN. rewrite !EF, E, E'. rewrite <- !app_assoc in *. simpl in *.
  rewrite !(app_assoc (flat_map _ H1)) in *.
  rewrite ListChain.extract_middle by (intros Hin; apply NoDup_app in HN as (_ & HX & _); apply (HX t Hin); left).
  f_equal; [f_equal|f_equal]; apply flat_map_cong; intros j Hj; (apply HO; [auto|]).
  - specialize (L1 j Hj). lia.
  - specialize (L2 j Hj). lia.
Qed.

Section First.
Context (i t : Z) (Hi : i ∈ priority_headers) (Ht : t ∈ queue_chain k q i).
Let k' := unlink_first q i t k.

Lemma chain_around : exists A B, queue_chain k q i = A ++ t :: B /\ t ∉ A /\ t ∉ B.
Proof.
  apply list_elem_of_split in Ht as (A & B & E). exists A, B. split; [done|].
  pose proof (po_sorted _ _ HP i Hi) as HS. rewrite E in HS.
  apply StronglySorted_app in HS as (HR & _ & HS). apply StronglySorted_cons in HS as [HF _].
  rewrite Forall_forall in HF. split; intros Hin.
  - specialize (HR t t Hin ltac:(left)). lia.
  - specialize (HF t Hin). lia.
Qed.

(** The chain that takes the place of the removed thread. *)
Definition successor : list Z := match block2n k t with [] => [] | f :: _ => [f] end.

Lemma replace_middle (A B by_ : list Z) : t ∉ A -> t ∉ B ->
  replace_in_chain (A ++ t :: B) t by_ = A ++ by_ ++ B.
Proof using.
  clear. intros HA HB. unfold replace_in_chain. rewrite flat_map_app. simpl. rewrite decide_True by done.
  assert (forall l, t ∉ l -> flat_map (fun x => if decide (x = t) then by_ else [x]) l = l) as EQ.
  { induction l as [|x l IH]; intros Hl; [done|]. apply not_elem_of_cons in Hl as [Hx Hl]. simpl.
    rewrite decide_False by congruence. simpl. by rewrite IH. }
  by rewrite !EQ.
Qed.

Lemma unlinked_chain A B : queue_chain k q i = A ++ t :: B -> t ∉ A -> t ∉ B -> forall j,
  queue_chain k' q j = if decide (j = i) then A ++ successor ++ B else queue_chain k q j.
Proof.
  intros E HA HB j. unfold k', unlink_first, successor. rewrite E.
  assert (forall l k0, queue_chain (set_queue_chain q i l k0) q j =
    if decide (j = i) then l else queue_chain k0 q j) as EC.
  { intros l k0. rewrite queue_chain_set. destruct (decide (j = i)); [by rewrite decide_True|].
    by rewrite decide_False by tauto. }
  destruct (block2n k t) as [|f [|m rest]].
  - rewrite EC. by rewrite ListChain.extract_middle.
  - rewrite EC. by rewrite replace_middle.
  - change (queue_chain (put_block2n f _ ?x) q j) with (queue_chain x q j). rewrite EC. by rewrite replace_middle.
Qed.

Lemma unlinked_frame :
  discipline (tq k' q) = THREAD_QUEUE_DISCIPLINE_PRIORITY /\ forall u, cp u = current_priority (tcb k' u).
Proof.
  assert (forall l, discipline (tq (set_queue_chain q i l k) q) = THREAD_QUEUE_DISCIPLINE_PRIORITY) as ED
    by (intros l; unfold set_queue_chain; rewrite tq_upd, decide_True by done; exact HD).
  unfold k', unlink_first. destruct (block2n k t) as [|f [|m rest]]; [split; [apply ED|done]..|].
  split; [apply ED|]. intros u. unfold put_block2n, upd_wait. rewrite tcb_upd. case_decide; by subst.
Qed.

Lemma unlinked_block2n u : block2n k' u =
  match block2n k t with f :: rest => if decide (u = f) then rest else block2n k u | [] => block2n k u end.
Proof.
  unfold k', unlink_first. destruct (block2n k t) as [|f [|m rest]] eqn:Eb; [done| |].
  - case_decide; [subst u|done].
    change (block2n k f = []). apply (po_block _ _ HP i t f Hi Ht). rewrite Eb. left.
  - rewrite block2n_put. by case_decide.
Qed.

Lemma unlinked_heads j u : j ∈ priority_headers -> u ∈ queue_chain k q j -> block2n k' u = block2n k u.
Proof.
  intros Hj Hu. rewrite unlinked_block2n. destruct (block2n k t) as [|f rest] eqn:Eb; [done|].
  case_decide; [subst u|done]. exfalso. apply (member_not_head i j t f Hi Hj Ht); [rewrite Eb; left|done].
Qed.

Lemma unlinked_list : tq_list k' q = ListChain.extract (tq_list k q) t.
Proof.
  destruct chain_around as (A & B & E & HA & HB). pose proof (unlinked_chain A B E HA HB) as EC.
  destruct unlinked_frame as [HD' _].
  assert (forall l, (forall u, u ∈ l -> exists j, j ∈ priority_headers /\ u ∈ queue_chain k q j) ->
    flat_map (group k') l = flat_map (group k) l) as EG.
  { intros l Hl. apply flat_map_cong. intros u Hu. destruct (Hl u Hu) as (j & Hj & Hin). unfold group.
    by rewrite (unlinked_heads j). }
  apply (one_header_remove i k' t (flat_map (group k) A) (block2n k t ++ flat_map (group k) B)); try done.
  - intros j Hj Hne. unfold on_header. rewrite EC, decide_False by done. apply EG. eauto.
  - unfold on_header. rewrite E, flat_map_app. done.
  - unfold on_header. rewrite EC, decide_True, !flat_map_app by done. f_equal; [|f_equal].
    + apply EG. intros u Hu. exists i. split; [done|]. rewrite E. set_solver.
    + unfold successor. destruct (block2n k t) as [|f rest] eqn:Eb; [done|]. simpl.
      rewrite unlinked_block2n, Eb, decide_True by done. by rewrite app_nil_r.
    + apply EG. intros u Hu. exists i. split; [done|]. rewrite E. set_solver.
Qed.

Lemma successor_priority u : u ∈ successor -> cp u = cp t.
Proof.
  unfold successor. destruct (block2n k t) as [|f rest] eqn:Eb; [by intros ?%elem_of_nil|].
  intros ->%list_elem_of_singleton. apply (po_block _ _ HP i t f Hi Ht). rewrite Eb. left.
Qed.

Lemma unlinked_sorted A B : queue_chain k q i = A ++ t :: B ->
  StronglySorted (fun u v => cp u < cp v) (A ++ successor ++ B).
Proof.
  intros E. pose proof (po_sorted _ _ HP i Hi) as HS. rewrite E in HS. pose proof successor_priority as HX.
  apply StronglySorted_app in HS as (HR & S1 & HS). apply StronglySorted_cons in HS as [HF S2].
  rewrite Forall_forall in HF. apply StronglySorted_app. split_and!; [|done|].
  - intros u v Hu [Hv|Hv]%elem_of_app; [rewrite (HX v Hv)|]; apply HR; set_solver.
  - apply StronglySorted_app. split_and!; [|unfold successor; destruct (block2n k t); repeat constructor|done].
    intros u v Hu Hv. rewrite (HX u Hu). by apply HF.
Qed.

Lemma unlinked_ok : priority_ok k' q.
Proof.
  destruct chain_around as (A & B & E & HA & HB). pose proof (unlinked_chain A B E HA HB) as EC.
  destruct unlinked_frame as [HD' EP].
  assert (forall j u, u ∈ queue_chain k' q j -> u ∈ queue_chain k q j \/ (j = i /\ u ∈ successor)) as HU.
  { intros j u. rewrite EC. case_decide; [subst j|by left]. rewrite E, !elem_of_app, elem_of_cons. tauto. }
  split.
  - intros j Hj. apply sorted_impl with (fun u v => cp u < cp v); [intros u v _ _; by rewrite !EP|].
    rewrite EC. case_decide; [subst j; by apply unlinked_sorted|by apply HP].
  - intros j u Hj [Hu|[-> Hu]]%HU; rewrite <- EP; [by apply HP|]. rewrite (successor_priority u Hu). by apply HP.
  - intros j u m Hj Hu Hm. rewrite <- !EP. rewrite unlinked_block2n in Hm |- *.
    unfold successor in HU. destruct (block2n k t) as [|f rest] eqn:Eb.
    { destruct (HU j u Hu) as [Hu'|[_ Hu']]; [by apply (po_block _ _ HP j)|by apply elem_of_nil in Hu']. }
    assert (forall m, m ∈ f :: rest -> cp m = cp t /\ block2n k m = []) as HM
      by (intros m' Hm'; apply (po_block _ _ HP i); [done|done|by rewrite Eb]).
    assert (NoDup (f :: rest)) as HNf.
    { rewrite (tq_list_headers q k HD) in HN. destruct (headers_split i Hi) as (H1 & H2 & EH & _).
      rewrite EH, flat_map_app in HN. simpl in HN. unfold on_header in HN at 2. rewrite E, flat_map_app in HN.
      simpl in HN. rewrite Eb in HN. apply NoDup_app in HN as (_ & _ & HN'). apply NoDup_app in HN' as (HN' & _ & _).
      apply NoDup_app in HN' as (_ & _ & HN'). apply NoDup_cons in HN' as [_ HN'].
      by apply NoDup_app in HN' as (HN' & _ & _). }
    apply NoDup_cons in HNf as [Hf _]. case_decide as Euf.
    + subst u. destruct (HM m) as [E1 E2]; [by right|]. destruct (HM f) as [E3 _]; [left|].
      split; [congruence|]. rewrite decide_False; [done|]. by intros ->.
    + destruct (HU j u Hu) as [Hu'|[_ Hu']]; [|by apply list_elem_of_singleton in Hu'].
      destruct (po_block _ _ HP j u m Hj Hu' Hm) as [E1 E2]. split; [done|].
      case_decide as Em; [subst m|done]. destruct (HM f) as [E3 _]; [left|].
      destruct (po_header _ _ HP j u Hj Hu') as [_ N1], (po_header _ _ HP i t Hi Ht) as [_ N2].
      assert (j = i) as -> by congruence.
      assert (u = t) as -> by (apply (chain_priority_inj q k HP i); congruence).
      exfalso. destruct (HU i t Hu) as [_|[_ X]]; [|apply list_elem_of_singleton in X; congruence].
      rewrite EC, decide_True in Hu by done. apply elem_of_app in Hu as [Hu|Hu]; [done|].
      apply elem_of_app in Hu as [Hu|Hu]; [|done]. unfold successor in Hu. rewrite Eb in Hu.
      apply list_elem_of_singleton in Hu. congruence.
Qed.
End First.
End Unlink.

Section Block.
Context (q : Z) (k : Kernel) (HD : discipline (tq k q) = THREAD_QUEUE_DISCIPLINE_PRIORITY).
Context (HP : priority_ok k q) (HN : NoDup (tq_list k q)).
Context (i h t : Z) (Hi : i ∈ priority_headers) (Hh : h ∈ queue_chain k q i) (Ht : t ∈ block2n k h).
Let k' := put_block2n h (ListChain.extract (block2n k h) t) k.

Lemma blocked_out_list : tq_list k' q = ListChain.extract (tq_list k q) t.
Proof.
  destruct (chain_around q k HP i h Hi Hh) as (A & B & E & HA & HB).
  apply list_elem_of_split in Ht as (b1 & b2 & Eb).
  assert (t ∉ b1) as Hb1.
  { rewrite (tq_list_headers q k HD) in HN. destruct (headers_split i Hi) as (H1 & H2 & EH & _).
    rewrite EH, flat_map_app in HN. simpl in HN. unfold on_header in HN at 2. rewrite E, flat_map_app in HN.
    simpl in HN. rewrite Eb in HN. apply NoDup_app in HN as (_ & _ & HN'). apply NoDup_app in HN' as (HN' & _ & _).
    apply NoDup_app in HN' as (_ & _ & HN'). apply NoDup_cons in HN' as [_ HN'].
    apply NoDup_app in HN' as (HN' & _ & _). apply NoDup_app in HN' as (_ & HX & _).
    intros Hin. apply (HX t Hin). left. }
  assert (forall u, u <> h -> group k' u = group k u) as EG.
  { intros u Hu. unfold group, k'. by rewrite block2n_put, decide_False. }
  assert (forall l, h ∉ l -> flat_map (group k') l = flat_map (group k) l) as EF.
  { intros l Hl. apply flat_map_cong. intros u Hu. apply EG. by intros ->. }
  apply (one_header_remove q k HD HP HN i k' t (flat_map (group k) A ++ h :: b1) (b2 ++ flat_map (group k) B)); try done.
  - intros j Hj Hne. apply EF. intros Hin. apply Hne.
    destruct (po_header _ _ HP j h Hj Hin) as [_ <-], (po_header _ _ HP i h Hi Hh) as [_ <-]. done.
  - unfold on_header. rewrite E, flat_map_app. simpl. rewrite Eb. by rewrite <- !app_assoc.
  - unfold on_header. change (queue_chain k' q i) with (queue_chain k q i). rewrite E, flat_map_app. simpl.
    rewrite !EF by done. unfold k'. rewrite block2n_put, decide_True by done. rewrite Eb.
    rewrite ListChain.extract_middle by done. by rewrite <- !app_assoc.
Qed.

Lemma blocked_out_ok : priority_ok k' q.
Proof.
  assert (forall u, current_priority (tcb k' u) = current_priority (tcb k u)) as EP.
  { intros u. unfold k', put_block2n, upd_wait. rewrite tcb_upd. case_decide; by subst. }
  split.
  - intros j Hj. eapply sorted_impl; [|by apply HP]. intros u v _ _. by rewrite !EP.
  - intros j u Hj Hu. rewrite EP. by apply (po_header _ _ HP).
  - intros j u m Hj Hu. rewrite !EP. unfold k'. rewrite !block2n_put.
    assert (m ∈ block2n k u -> current_priority (tcb k m) = current_priority (tcb k u) /\
      (if decide (m = h) then ListChain.extract (block2n k h) t else block2n k m) = []) as HM.
    { intros Hm. destruct (po_block _ _ HP j u m Hj Hu Hm) as [E1 E2]. split; [done|].
      case_decide; [subst m; by rewrite E2|done]. }
    destruct (decide (u = h)) as [Eu|Eu]; [|exact HM]. subst u. intros Hm. apply HM.
    apply list_elem_of_In. apply list_elem_of_In in Hm. clear -Hm.
    induction (block2n k h) as [|x l IH]; simpl in *; [done|]. case_decide; [by right|].
    destruct Hm; [by left|right; auto].
Qed.
End Block.

(** *** Finding a thread *)

Lemma first_of_headers_spec k q headers :
  match first_of_headers k q headers with
  | Some (i, t) => exists H1 H2 B, headers = H1 ++ i :: H2 /\ (forall j, j ∈ H1 -> queue_chain k q j = []) /\
      queue_chain k q i = t :: B
  | None => forall j, j ∈ headers -> queue_chain k q j = []
  end.
Proof.
  induction headers as [|i headers IH]; simpl; [by intros j ?%elem_of_nil|].
  destruct (queue_chain k q i) as [|t B] eqn:E.
  - destruct (first_of_headers k q headers) as [[j t]|].
    + destruct IH as (H1 & H2 & B & -> & HE & HC). exists (i :: H1), H2, B. split_and!; [done| |done].
      intros j' [-> |Hj]%elem_of_cons; auto.
    + intros j [-> |Hj]%elem_of_cons; auto.
  - exists [], headers, B. split_and!; [done| |done]. by intros j ?%elem_of_nil.
Qed.

Lemma first_of_headers_list k q : discipline (tq k q) = THREAD_QUEUE_DISCIPLINE_PRIORITY ->
  match first_of_headers k q priority_headers with
  | Some (i, t) => i ∈ priority_headers /\ t ∈ queue_chain k q i /\ exists rest, tq_list k q = t :: rest
  | None => tq_list k q = []
  end.
Proof.
  intros HD. rewrite (tq_list_headers q k HD). pose proof (first_of_headers_spec k q priority_headers) as HF.
  assert (forall l, (forall j, j ∈ l -> queue_chain k q j = []) -> flat_map (on_header k q) l = []) as HZ.
  { induction l as [|x l IH]; intros Hl; [done|]. simpl. unfold on_header at 1. rewrite Hl by left. simpl.
    apply IH. intros j Hj. apply Hl. by right. }
  destruct (first_of_headers k q priority_headers) as [[i t]|]; [|auto].
  destruct HF as (H1 & H2 & B & -> & HE & HC). split_and!; [set_solver|rewrite HC; left|].
  rewrite flat_map_app, HZ by done. simpl. unfold on_header at 1. rewrite HC. simpl. eauto.
Qed.

Lemma place_in_spec k q t : discipline (tq k q) = THREAD_QUEUE_DISCIPLINE_PRIORITY -> t ∈ tq_list k q ->
  match place_in k q t with
  | On_header i => i ∈ priority_headers /\ t ∈ queue_chain k q i
  | On_block2n u => exists i, i ∈ priority_headers /\ u ∈ queue_chain k q i /\ t ∈ block2n k u
  | Nowhere => False
  end.
Proof.
  intros HD Hin. apply (on_header_in q k HD) in Hin as (j & Hj & Hu). unfold place_in.
  destruct (list_find (fun i => t ∈ queue_chain k q i) priority_headers) as [[n i]|] eqn:E1.
  { apply list_find_Some in E1 as (E1 & Ht & _). split; [by eapply list_elem_of_lookup_2|done]. }
  destruct (list_find (fun u => t ∈ block2n k u) _) as [[n u]|] eqn:E2.
  - apply list_find_Some in E2 as (E2 & Ht & _). apply list_elem_of_lookup_2, elem_of_flat_map in E2 as (i & Hi & Hu').
    eauto.
  - apply list_find_None in E1, E2. rewrite Forall_forall in E1, E2.
    apply on_header_split in Hu as [Hu|(h & Hh & Hm)]; [by apply (E1 j)|].
    apply (E2 h); [|done]. apply elem_of_flat_map. eauto.
Qed.

(** ** What the handlers below leave alone *)

Lemma state_tq_same t s k : tq_same k (upd_thread t (set_current_state s) k).
Proof. split; intros; [done|..]; rewrite tcb_upd; case_decide; by subst. Qed.

Lemma clear_state_tq_same t s k : tq_same k (_Thread_Clear_state t s k).
Proof.
  unfold _Thread_Clear_state. destruct (negb _); [|done]. destruct (_States_Is_ready _); [|apply state_tq_same].
  etransitivity; [apply state_tq_same|]. destruct (_ <? _); [destruct (_ || _)|]; done.
Qed.

Lemma set_state_tq_same t s k : tq_same k (_Thread_Set_state t s k).
Proof.
  unfold _Thread_Set_state. destruct (negb _).
  - split; intros; [done|..]; rewrite tcb_upd; case_decide; by subst.
  - etransitivity; [apply (state_tq_same t s)|]. unfold remove_ready.
    destruct (ListChain.has_only_one_node _), (_Thread_Is_heir _ _), (_Thread_Is_executing _ _); done.
Qed.

Lemma stop_timer_same t k : exists w, stop_timer t k = set_watchdogs w k.
Proof.
  unfold stop_timer. destruct (_Watchdog_Is_active _ _).
  - eexists. unfold wd_mod. simpl. reflexivity.
  - exists (watchdogs k). by destruct k.
Qed.
Lemma stop_timer_tq_same t k : tq_same k (stop_timer t k).
Proof. destruct (stop_timer_same t k) as [w ->]. done. Qed.
