(* ===== verification/ThreadqSpec.v ===== *)
(** * Correctness of the thread queue handler

    A queue serves its threads in the order of [tq_list]: first come first served, or by
    priority and first come first served within a priority.  Enqueueing, releasing,
    timing out and flushing do to that list what they promise, and keep the invariants
    of the queue and of the scheduler. *)
From S2P Require Import Prelude Chain Watchdog WatchdogProofs WatchdogOps Object Priority Kernel Thread.
From S2P Require Import ThreadProofs ThreadSpec Threadq ThreadqProofs.

(** ** Frames *)

(** A control block up to its [Block2n] chain. *)
Definition but_block2n (c : Thread_Control) : Thread_Control := set_Wait (set_Block2n [] (Wait c)) c.

(** The state that the operations on threads and their queues do not touch. *)
Record core_same (k k' : Kernel) : Prop := {
  cs_semaphores : semaphores k' = semaphores k;
  cs_mutexes : mutexes k' = mutexes k;
  cs_message_queues : message_queues k' = message_queues k;
  cs_workspace : _Workspace_Area k' = _Workspace_Area k;
  cs_memory : memory k' = memory k;
  cs_information : information_table k' = information_table k;
  cs_user_extensions : _User_extensions_List k' = _User_extensions_List k /\ user_extensions k' = user_extensions k;
  cs_tod : tod k' = tod k;
  cs_rtems : rtems k' = rtems k;
  cs_known : forall u, known k u -> known k' u
}.
#[export] Instance core_same_preorder : PreOrder core_same.
Proof. split; [done|]. intros k k' k'' [] []. split; first [intuition congruence|auto]. Qed.

Lemma known_mono t f k u : known k u -> known (upd_thread t f k) u.
Proof. unfold known, upd_thread. simpl. intros Hu. destruct (decide (u = t)) as [-> |]; [by rewrite lookup_insert_eq|by rewrite lookup_insert_ne]. Qed.
#[export] Hint Resolve known_mono : rtems.

Lemma core_upd_thread t f k : core_same k (upd_thread t f k).
Proof. split; auto with rtems. Qed.

(** The operations on queues leave the scheduler's variables and, up to [Block2n], the
    control blocks alone. *)
Record links_only (k k' : Kernel) : Prop := {
  lo_executing : _Thread_Executing k' = _Thread_Executing k;
  lo_heir : _Thread_Heir k' = _Thread_Heir k;
  lo_idle : _Thread_Idle k' = _Thread_Idle k;
  lo_necessary : _Context_Switch_necessary k' = _Context_Switch_necessary k;
  lo_bits : bit_map k' = bit_map k;
  lo_chain : _Thread_Ready_chain k' = _Thread_Ready_chain k;
  lo_known : forall u, known k' u <-> known k u;
  lo_tcb : forall u, but_block2n (tcb k' u) = but_block2n (tcb k u);
  lo_core : core_same k k'
}.
#[export] Instance links_only_preorder : PreOrder links_only.
Proof.
  split; [done|]. intros k k' k'' [A B C D E F G H I] [A' B' C' D' E' F' G' H' I'].
  split; [congruence..|intros u; by rewrite G'|intros u; by rewrite H'|by etransitivity].
Qed.

Lemma but_block2n_fields c c' : but_block2n c = but_block2n c' ->
  current_state c = current_state c' /\ current_priority c = current_priority c' /\ ready c = ready c' /\
  Priority_map c = Priority_map c' /\ is_preemptible c = is_preemptible c'.
Proof. destruct c, c'. unfold but_block2n. simpl. by intros [=]. Qed.

Lemma links_only_sched k k' : links_only k k' -> sched_ok k -> sched_ok k'.
Proof.
  intros [A B C D E F G H _] [SR SH SW SE [SI1 SI2]].
  assert (forall u, current_state (tcb k' u) = current_state (tcb k u) /\ current_priority (tcb k' u) = current_priority (tcb k u)
    /\ ready (tcb k' u) = ready (tcb k u) /\ Priority_map (tcb k' u) = Priority_map (tcb k u)
    /\ is_preemptible (tcb k' u) = is_preemptible (tcb k u)) as HF by (intros u; by apply but_block2n_fields).
  split.
  - apply (ready_out_ext None k); try done. intros u. by destruct (HF u) as (?&?&?&?&_).
  - rewrite B. apply (first_ready_ext k); [|done]. intros p _. unfold chain_at. by rewrite F.
  - unfold switch_ok, is_ready in *. rewrite A, B, D. destruct (HF (_Thread_Executing k)) as (-> & _ & _ & _ & ->).
    done.
  - rewrite A. by apply G.
  - unfold is_ready in *. rewrite C. split; [by apply G|]. by rewrite (proj1 (HF _)).
Qed.

Lemma put_block2n_links h l k : known k h -> links_only k (put_block2n h l k).
Proof.
  intros Hk. split; try done.
  - intros u. by apply known_upd.
  - intros u. unfold put_block2n, upd_wait. rewrite tcb_upd. case_decide; by subst.
  - apply core_upd_thread.
Qed.

Lemma queue_links k k' : threads k' = threads k -> _Thread_Executing k' = _Thread_Executing k ->
  _Thread_Heir k' = _Thread_Heir k -> _Thread_Idle k' = _Thread_Idle k ->
  _Context_Switch_necessary k' = _Context_Switch_necessary k -> bit_map k' = bit_map k ->
  _Thread_Ready_chain k' = _Thread_Ready_chain k -> core_same k k' -> links_only k k'.
Proof. intros E. split; try done; intros u; unfold known, tcb; by rewrite E. Qed.

(** ** States *)

Lemma set_state_core t s k :
  core_same k (_Thread_Set_state t s k) /\ _Thread_Executing (_Thread_Set_state t s k) = _Thread_Executing k.
Proof.
  unfold _Thread_Set_state, remove_ready, enter.
  destruct (negb _); [split; [apply core_upd_thread|done]|].
  destruct (ListChain.has_only_one_node _), (_Thread_Is_heir _ _); cbn zeta;
    destruct (_Thread_Is_executing _ _); (split; [split; try done; apply known_mono|done]).
Qed.

Lemma clear_state_core t s k :
  core_same k (_Thread_Clear_state t s k) /\ _Thread_Executing (_Thread_Clear_state t s k) = _Thread_Executing k.
Proof.
  unfold _Thread_Clear_state, enter. destruct (negb _); [|done].
  destruct (_States_Is_ready _); [|split; [apply core_upd_thread|done]].
  destruct (_ <? _); [destruct (_ || _)|]; (split; [split; try done; apply known_mono|done]).
Qed.

(** ** Releasing a thread *)

Definition release (t : Z) (k : Kernel) : Kernel := _Thread_Unblock t (stop_timer t k).

Lemma states_subset s a b : Z.land a b = a -> Z.land s a <> 0 -> Z.land s b <> 0.
Proof.
  intros E Ha Hb. apply Ha. rewrite <- E. rewrite (Z.land_comm a b), Z.land_assoc, Hb. apply Z.land_0_l.
Qed.

Section Release.
Context (t : Z) (k : Kernel).

Lemma release_tq_same : tq_same k (release t k).
Proof. etransitivity; [apply (stop_timer_tq_same t)|apply clear_state_tq_same]. Qed.

Lemma stop_timer_links : links_only k (stop_timer t k).
Proof. destruct (stop_timer_same t k) as [w ->]. by apply queue_links. Qed.

Lemma release_tcb u : Z.land (current_state (tcb k t)) STATES_BLOCKED <> 0 ->
  tcb (release t k) u =
  if decide (u = t) then set_current_state (_States_Clear STATES_BLOCKED (current_state (tcb k t))) (tcb k t)
  else tcb k u.
Proof.
  intros Hb. unfold release. destruct (stop_timer_same t k) as [w ->].
  by rewrite (proj1 (clear_state_effect t STATES_BLOCKED (set_watchdogs w k) Hb)).
Qed.

Lemma clear_state_threads s k0 : exists c, threads (_Thread_Clear_state t s k0) = threads (upd_thread t c k0)
  \/ threads (_Thread_Clear_state t s k0) = threads k0.
Proof.
  unfold _Thread_Clear_state. exists (set_current_state (_States_Clear s (current_state (tcb k0 t)))).
  destruct (negb _); [left|by right]. destruct (_States_Is_ready _); [|done].
  destruct (_ <? _); [destruct (_ || _)|]; done.
Qed.

Lemma release_known u : known k t -> known (release t k) u <-> known k u.
Proof.
  intros Hk. unfold release, _Thread_Unblock. destruct (stop_timer_same t k) as [w ->].
  destruct (clear_state_threads STATES_BLOCKED (set_watchdogs w k)) as (c & [E|E]); unfold known; rewrite E; [|done].
  by apply (known_upd (set_watchdogs w k) t c u).
Qed.

Lemma release_core : core_same k (release t k) /\ _Thread_Executing (release t k) = _Thread_Executing k.
Proof.
  unfold release, _Thread_Unblock. destruct (clear_state_core t STATES_BLOCKED (stop_timer t k)) as [A B].
  destruct stop_timer_links as [C _ _ _ _ _ _ _ D]. split; [by etransitivity|congruence].
Qed.

Lemma release_sched : sched_ok k -> known k t -> sched_ok (release t k).
Proof.
  intros HS Hk. unfold release. apply clear_state_ok.
  - apply (links_only_sched k); [apply stop_timer_links|done].
  - apply (lo_known _ _ stop_timer_links). done.
Qed.
End Release.

(** ** Taking a thread off its queue *)

(** [k1] is [k] with the thread at [t] off the queue. *)
Record taken (q t : Z) (k k1 : Kernel) : Prop := {
  ta_list : tq_list k1 q = ListChain.extract (tq_list k q) t;
  ta_priority : discipline (tq k1 q) = THREAD_QUEUE_DISCIPLINE_PRIORITY -> priority_ok k1 q;
  ta_fields : sync_state (tq k1 q) = sync_state (tq k q) /\ discipline (tq k1 q) = discipline (tq k q) /\
    tq_state (tq k1 q) = tq_state (tq k q) /\ timeout_status (tq k1 q) = timeout_status (tq k q);
  ta_links : links_only k k1
}.

Lemma set_queue_chain_fields q i l k :
  sync_state (tq (set_queue_chain q i l k) q) = sync_state (tq k q) /\
  discipline (tq (set_queue_chain q i l k) q) = discipline (tq k q) /\
  tq_state (tq (set_queue_chain q i l k) q) = tq_state (tq k q) /\
  timeout_status (tq (set_queue_chain q i l k) q) = timeout_status (tq k q).
Proof. unfold set_queue_chain. rewrite tq_upd. by rewrite decide_True. Qed.

Lemma taken_fifo q t k : discipline (tq k q) = THREAD_QUEUE_DISCIPLINE_FIFO ->
  taken q t k (set_queue_chain q 0 (ListChain.extract (queue_chain k q 0) t) k).
Proof.
  intros HD. destruct (set_queue_chain_fields q 0 (ListChain.extract (queue_chain k q 0) t) k) as (A & B & C & D).
  split; try done.
  - unfold tq_list. rewrite B, HD. rewrite queue_chain_set. by rewrite decide_True.
  - rewrite B. by rewrite HD.
Qed.

Lemma taken_first q i t k : tq_ok k q -> discipline (tq k q) = THREAD_QUEUE_DISCIPLINE_PRIORITY ->
  i ∈ priority_headers -> t ∈ queue_chain k q i -> taken q t k (unlink_first q i t k).
Proof.
  intros HQ HD Hi Ht. pose proof (to_priority _ _ HQ HD) as HP. pose proof (to_nodup _ _ HQ) as HN.
  assert (forall l, links_only k (set_queue_chain q i l k)) as HL by (intros l; by apply queue_links).
  split.
  - by apply unlinked_list.
  - intros _. by apply unlinked_ok.
  - unfold unlink_first. destruct (block2n k t) as [|f [|m rest]]; apply set_queue_chain_fields.
  - unfold unlink_first. destruct (block2n k t) as [|f [|m rest]] eqn:Eb; try apply HL.
    etransitivity; [apply HL|]. apply put_block2n_links. change (known k f). apply (to_known _ _ HQ).
    apply (on_header_in q k HD). exists i. split; [done|]. apply elem_of_flat_map. exists t.
    split; [done|]. unfold group. rewrite Eb. set_solver.
Qed.

Lemma taken_block2n q i h t k : tq_ok k q -> discipline (tq k q) = THREAD_QUEUE_DISCIPLINE_PRIORITY ->
  i ∈ priority_headers -> h ∈ queue_chain k q i -> t ∈ block2n k h ->
  taken q t k (put_block2n h (ListChain.extract (block2n k h) t) k).
Proof.
  intros HQ HD Hi Hh Ht. pose proof (to_priority _ _ HQ HD) as HP. pose proof (to_nodup _ _ HQ) as HN. split.
  - by apply (blocked_out_list q k HD HP HN i).
  - intros _. by apply (blocked_out_ok q k HP).
  - done.
  - apply put_block2n_links, (to_known _ _ HQ), (on_header_in q k HD). exists i.
    split; [done|by apply on_header_head].
Qed.

(** The thread is taken off and released. *)
Section TakeRelease.
Context (q t : Z) (k k1 : Kernel) (HQ : tq_ok k q) (Ht : t ∈ tq_list k q) (HT : taken q t k k1).
Let k' := release t k1.

Lemma taken_blocked : Z.land (current_state (tcb k t)) STATES_BLOCKED <> 0.
Proof.
  apply (states_subset _ STATES_WAITING_ON_THREAD_QUEUE); [done|].
  by destruct (waits_in_set _ _ (to_blocked _ _ HQ t Ht)) as [_ Hb%negb_true_iff%Z.eqb_neq].
Qed.

Lemma taken_state u : current_state (tcb k1 u) = current_state (tcb k u).
Proof. by destruct (but_block2n_fields _ _ (lo_tcb _ _ (ta_links _ _ _ _ HT) u)) as (-> & _). Qed.

Lemma released_list : tq_list k' q = ListChain.extract (tq_list k q) t.
Proof. unfold k'. rewrite <- (release_tq_same t k1). apply HT. Qed.

Lemma released_tcb u : but_block2n (tcb k' u) =
  if decide (u = t)
  then but_block2n (set_current_state (_States_Clear STATES_BLOCKED (current_state (tcb k t))) (tcb k t))
  else but_block2n (tcb k u).
Proof.
  unfold k'. rewrite release_tcb by (rewrite taken_state; apply taken_blocked).
  pose proof (lo_tcb _ _ (ta_links _ _ _ _ HT)) as HL. rewrite taken_state. case_decide; [|apply HL].
  assert (forall s c, but_block2n (set_current_state s c) = set_current_state s (but_block2n c)) as EB by done.
  by rewrite !EB, HL.
Qed.

Lemma released_queue : sync_state (tq k' q) = sync_state (tq k q) /\ discipline (tq k' q) = discipline (tq k q) /\
  tq_state (tq k' q) = tq_state (tq k q) /\ timeout_status (tq k' q) = timeout_status (tq k q).
Proof. unfold k'. rewrite (ts_queue _ _ (release_tq_same t k1)). apply HT. Qed.

Lemma released_tq_ok : tq_ok k' q.
Proof.
  destruct released_queue as (_ & HD & HST & _).
  assert (forall u, u ∈ tq_list k' q -> u ∈ tq_list k q /\ u <> t) as HU.
  { intros u. rewrite released_list. intros Hu. by apply ListChain.elem_of_extract in Hu; [|apply HQ]. }
  assert (known k1 t) as Hk1 by (apply (ta_links _ _ _ _ HT), HQ, Ht).
  split.
  - rewrite released_list. apply ListChain.NoDup_extract, HQ.
  - intros u [Hu _]%HU. unfold k'. rewrite release_known by done. apply (ta_links _ _ _ _ HT). by apply HQ.
  - rewrite HST. apply HQ.
  - intros u [Hu Hne]%HU. rewrite HST.
    destruct (but_block2n_fields (tcb k' u) (tcb k u)) as (-> & _); [|by apply HQ].
    by rewrite released_tcb, decide_False.
  - intros HPD. unfold k' in *. rewrite (ts_queue _ _ (release_tq_same t k1)) in HPD.
    eapply priority_ok_proper; [apply release_tq_same|done|by apply HT].
Qed.

Lemma released_core : core_same k k' /\ _Thread_Executing k' = _Thread_Executing k.
Proof.
  destruct (release_core t k1) as [A B]. destruct (ta_links _ _ _ _ HT) as [C _ _ _ _ _ _ _ D].
  split; [by etransitivity|]. unfold k'. congruence.
Qed.

Lemma released_sched : sched_ok k -> sched_ok k'.
Proof.
  intros HS. apply release_sched.
  - by apply (links_only_sched k); [apply HT|].
  - apply (ta_links _ _ _ _ HT), HQ, Ht.
Qed.
End TakeRelease.

(** ** The timer of a wait *)

Lemma wd_upd_off w f ws : wd_ok ws -> ~ on_chain (wd_state (ctl ws w)) ->
  ~ on_chain (wd_state (f (ctl ws w))) -> wd_ok (upd w f ws).
Proof.
  intros [H1 H2 H3 H4] Hw Hf.
  assert (forall h x, x ∈ chain_of h ws -> dl (upd w f ws) x = dl ws x) as ED.
  { intros h x Hx. unfold dl. rewrite ctl_upd_ne; [done|]. intros ->. apply Hw, H2. destruct h; set_solver. }
  split; [done|..].
  - intros x. rewrite (H2 x : x ∈ _Watchdog_Ticks_chain (upd w f ws) ++ _Watchdog_Seconds_chain (upd w f ws) <-> _).
    destruct (decide (w = x)) as [-> |]; [by rewrite ctl_upd_eq|by rewrite ctl_upd_ne].
  - intros h. rewrite chain_of_upd. rewrite Forall_forall. intros x Hx. rewrite (ED h) by done.
    specialize (H3 h). rewrite Forall_forall in H3. by apply H3.
  - intros h. rewrite chain_of_upd, (sum_ext _ (dl ws)); [apply H4|]. apply ED.
Qed.

Lemma start_timer_quiet routine wfuel t timeout k :
  (timeout = 0 \/ wd_ok (watchdogs k) /\ ~ on_chain (wd_state (ctl (watchdogs k) (Timer t))) /\
     u32 timeout /\ (length (chain_of Ticks (watchdogs k)) + 1 < wfuel)%nat) ->
  exists w, start_timer routine wfuel id t timeout k = Some (set_watchdogs w k) /\
    (timeout = 0 -> w = watchdogs k) /\
    (timeout <> 0 -> wd_ok w /\ _Watchdog_Is_active w (Timer t) = true /\
      exists E1 E2, expiries Ticks w = E1 ++ (Timer t, timeout) :: E2).
Proof.
  intros Hor. unfold start_timer. destruct (Z.eqb_spec timeout 0) as [E0|E0]; cbn [negb].
  { exists (watchdogs k). split_and!; [by destruct k|done|done]. }
  destruct Hor as [?|(HW & Hoff & Hu & Hf)]; [done|]. unfold _Watchdog_Insert_ticks, wd_mod. simpl.
  set (c0 := _Watchdog_Initialize _ _ _ _ _). set (ws := upd (Timer t) (set_initial timeout) c0).
  assert (wd_ok c0) as H0 by (apply wd_upd_off; [done|done|simpl; intros [?|?]; done]).
  assert (wd_state (ctl c0 (Timer t)) = WATCHDOG_INACTIVE) as HI
    by (unfold c0, _Watchdog_Initialize; by rewrite ctl_upd_eq).
  assert (wd_ok ws) as H1 by (apply wd_upd_off; [done|..]; simpl; rewrite HI; intros [?|?]; done).
  assert (ctl ws (Timer t) = set_initial timeout (ctl c0 (Timer t))) as EC by (unfold ws; apply ctl_upd_eq).
  set (k1 := set_watchdogs ws (set_watchdogs c0 k)).
  destruct (insert_quiet wfuel Ticks (Timer t) k1) as (lev & la & lb & HP & E);
    simpl wd_get in *; rewrite ?EC in *; simpl wd_state in *; simpl initial in *; try done.
  { rewrite HI. by intros [?|?]. }
  assert (wd_state (ctl (inserting (Timer t) lev ws) (Timer t)) = WATCHDOG_BEING_INSERTED) as Hst
    by by rewrite inserting_ctl.
  assert (wd_ok (inserting (Timer t) lev ws)) as HS1
    by (apply inserting_ok; [done|]; rewrite EC; simpl; rewrite HI; by intros [?|?]).
  destruct (inserted_self Ticks (Timer t) _ timeout (_ISR_Nest_level ws) HS1 Hu Hst la lb HP) as (S1 & _ & _).
  destruct (inserted_expiries Ticks (Timer t) _ timeout (_ISR_Nest_level ws) HS1 Hu Hst la lb HP) as (_ & X2).
  eexists. split_and!; [exact E|done|]. intros _. split_and!; [by apply inserted_ok| |].
  - unfold _Watchdog_Is_active. by apply bool_decide_eq_true.
  - eexists _, _. exact X2.
Qed.

Lemma stop_timer_inactive t k : _Watchdog_Is_active (watchdogs (stop_timer t k)) (Timer t) = false.
Proof.
  unfold stop_timer. destruct (_Watchdog_Is_active (watchdogs k) (Timer t)) eqn:E; [|done].
  unfold wd_mod. simpl. unfold _Watchdog_Remove, _Watchdog_Deactivate. rewrite ctl_upd_eq. simpl.
  unfold _Watchdog_Is_active. rewrite ctl_upd_eq. apply bool_decide_eq_false. simpl.
  rewrite ctl_set_chain. set (s := upd (Timer t) (set_state WATCHDOG_INACTIVE) _).
  assert (wd_state (ctl s (Timer t)) = WATCHDOG_INACTIVE) as ES by (unfold s; by rewrite ctl_upd_eq).
  assert (forall s0 v, ctl (set_sync_level v s0) (Timer t) = ctl s0 (Timer t)) as ESL by done.
  destruct (next_on _ _) as [n|].
  - assert (forall f, wd_state (ctl (upd n (fun c => set_delta (f c) c) s) (Timer t)) = WATCHDOG_INACTIVE) as EN.
    { intros f. destruct (decide (n = Timer t)) as [-> |Hn]; [by rewrite ctl_upd_eq|by rewrite ctl_upd_ne]. }
    destruct (negb _); rewrite ?ESL, EN; done.
  - destruct (negb _); rewrite ?ESL, ES; done.
Qed.

Lemma release_inactive t k : _Watchdog_Is_active (watchdogs (release t k)) (Timer t) = false.
Proof.
  unfold release, _Thread_Unblock. rewrite <- (stop_timer_inactive t k). f_equal.
  unfold _Thread_Clear_state. destruct (negb _); [|done]. destruct (_States_Is_ready _); [|done].
  destruct (_ <? _); [destruct (_ || _)|]; done.
Qed.

(** ** Dequeue and extraction *)

Lemma dequeue_spec q k : tq_ok k q ->
  match tq_list k q with
  | [] => _Thread_queue_Dequeue q k = dequeue_empty q k
  | t :: _ => exists k1, taken q t k k1 /\ _Thread_queue_Dequeue q k = (t, release t k1)
  end.
Proof.
  intros HQ. unfold _Thread_queue_Dequeue. destruct (discipline (tq k q)) eqn:HD.
  - unfold tq_list. rewrite HD. pose proof (fun t => taken_fifo q t k HD) as HT.
    unfold _Thread_queue_Dequeue_fifo. destruct (queue_chain k q 0) as [|t rest]; [done|].
    specialize (HT t). simpl in HT. rewrite decide_True in HT by done. by eexists.
  - unfold _Thread_queue_Dequeue_priority. pose proof (first_of_headers_list k q HD) as HF.
    destruct (first_of_headers k q priority_headers) as [[i t]|]; [|by rewrite HF].
    destruct HF as (Hi & Ht & rest & ->). eexists. split; [by apply taken_first|done].
Qed.

Lemma extract_spec q t k : tq_ok k q -> t ∈ tq_list k q ->
  exists k1, taken q t k k1 /\ _Thread_queue_Extract q t k = release t k1.
Proof.
  intros HQ Ht. assert (_States_Is_waiting_on_thread_queue (current_state (tcb k t)) = true) as HW.
  { apply (waits_in_set (tq_state (tq k q))). by apply HQ. }
  unfold _Thread_queue_Extract. destruct (discipline (tq k q)) eqn:HD.
  - unfold _Thread_queue_Extract_fifo. rewrite HW. cbn [negb]. eexists. split; [by apply taken_fifo|done].
  - unfold _Thread_queue_Extract_priority. rewrite HW. pose proof (place_in_spec k q t HD Ht) as HF.
    destruct (place_in k q t) as [i|u|]; [|destruct HF as (i & Hi & Hu & Hb)|done].
    + destruct HF as [Hi Hin]. eexists. split; [by apply taken_first|done].
    + eexists. split; [by apply (taken_block2n q i)|done].
Qed.

(** ** Enqueueing *)

Lemma tq_list_sync q s k : tq_list (upd_queue q (set_sync_state s) k) q = tq_list k q.
Proof.
  unfold tq_list. rewrite tq_upd, decide_True by done.
  change (discipline (set_sync_state s (tq k q))) with (discipline (tq k q)).
  assert (forall i, queue_chain (upd_queue q (set_sync_state s) k) q i = queue_chain k q i) as EC
    by (intros i; unfold queue_chain; by rewrite tq_upd, decide_True).
  destruct (discipline (tq k q)); [apply EC|]. apply flat_map_ext. intros i. rewrite EC. by apply flat_map_ext.
Qed.

Lemma priority_ok_sync q s k : priority_ok k q -> priority_ok (upd_queue q (set_sync_state s) k) q.
Proof.
  intros [A B C].
  assert (forall i, queue_chain (upd_queue q (set_sync_state s) k) q i = queue_chain k q i) as EC
    by (intros i; unfold queue_chain; by rewrite tq_upd, decide_True).
  split; intros i; rewrite EC; [apply A|apply B|apply C].
Qed.

(** Where a queue puts a thread that joins it. *)
Definition joined (k : Kernel) (q t : Z) : list Z :=
  match discipline (tq k q) with
  | THREAD_QUEUE_DISCIPLINE_FIFO => tq_list k q ++ [t]
  | THREAD_QUEUE_DISCIPLINE_PRIORITY =>
      stable_insert (fun u => current_priority (tcb k u)) (current_priority (tcb k t)) t (tq_list k q)
  end.

(** The thread at [t], blocked and not yet on the queue, is linked in. *)
Record linked (q t : Z) (k k' : Kernel) : Prop := {
  li_list : tq_list k' q = joined k q t;
  li_ok : tq_ok k' q;
  li_fields : sync_state (tq k' q) = THREAD_QUEUE_SYNCHRONIZED /\ tq_state (tq k' q) = tq_state (tq k q) /\
    discipline (tq k' q) = discipline (tq k q) /\ timeout_status (tq k' q) = timeout_status (tq k q);
  li_links : links_only k k';
  li_watchdogs : watchdogs k' = watchdogs k
}.

Section Link.
Context (q t : Z) (k : Kernel) (HQ : tq_ok k q) (Ht : t ∉ tq_list k q) (Hk : known k t).
Context (Hs : waits_in (tq_state (tq k q)) (current_state (tcb k t)) = true).

Lemma joined_perm : joined k q t ≡ₚ t :: tq_list k q.
Proof.
  unfold joined. destruct (discipline _); [symmetry; apply Permutation_cons_append|apply stable_insert_perm].
Qed.

Lemma linked_intro k' : tq_list k' q = joined k q t ->
  (discipline (tq k' q) = THREAD_QUEUE_DISCIPLINE_PRIORITY -> priority_ok k' q) ->
  sync_state (tq k' q) = THREAD_QUEUE_SYNCHRONIZED /\ tq_state (tq k' q) = tq_state (tq k q) /\
    discipline (tq k' q) = discipline (tq k q) /\ timeout_status (tq k' q) = timeout_status (tq k q) ->
  links_only k k' -> watchdogs k' = watchdogs k -> linked q t k k'.
Proof.
  intros EL HP (ES & EST & ED & ETO) HL EW.
  assert (forall u, u ∈ tq_list k' q -> u = t \/ u ∈ tq_list k q) as HU
    by (intros u; rewrite EL, joined_perm; by rewrite elem_of_cons).
  split; try done. split; try done.
  - rewrite EL, joined_perm. apply NoDup_cons. split; [done|apply HQ].
  - intros u Hu. apply (lo_known _ _ HL). destruct (HU u Hu) as [-> |]; [done|by apply HQ].
  - rewrite EST. apply HQ.
  - intros u Hu. rewrite EST. destruct (but_block2n_fields _ _ (lo_tcb _ _ HL u)) as (-> & _).
    destruct (HU u Hu) as [-> |]; [done|by apply HQ].
Qed.

Lemma linked_fifo : discipline (tq k q) = THREAD_QUEUE_DISCIPLINE_FIFO ->
  sync_state (tq k q) = THREAD_QUEUE_NOTHING_HAPPENED -> linked q t k (_Thread_queue_Enqueue_fifo q t k).
Proof.
  intros HD Hsy. unfold _Thread_queue_Enqueue_fifo. rewrite Hsy.
  set (k1 := upd_queue q (set_sync_state THREAD_QUEUE_SYNCHRONIZED) k).
  destruct (set_queue_chain_fields q 0 (ListChain.append (queue_chain k1 q 0) t) k1) as (A & B & C & D).
  assert (tq k1 q = set_sync_state THREAD_QUEUE_SYNCHRONIZED (tq k q)) as E1
    by (unfold k1; by rewrite tq_upd, decide_True).
  apply linked_intro.
  - unfold joined, tq_list. rewrite B, E1. simpl. rewrite HD, queue_chain_set, decide_True by done.
    unfold queue_chain. by rewrite E1.
  - rewrite B, E1. simpl. by rewrite HD.
  - by rewrite A, B, C, D, E1.
  - by apply queue_links.
  - done.
Qed.

Section Priority.
Context (HD : discipline (tq k q) = THREAD_QUEUE_DISCIPLINE_PRIORITY).
Context (Hp : prio (current_priority (tcb k t))) (Hb : block2n k t = []).
Notation p := (current_priority (tcb k t)).
Notation i := (_Thread_queue_Header_number p).
Let k1 := upd_queue q (set_sync_state THREAD_QUEUE_SYNCHRONIZED) k.

Lemma synced_queue : tq k1 q = set_sync_state THREAD_QUEUE_SYNCHRONIZED (tq k q).
Proof. unfold k1. by rewrite tq_upd, decide_True. Qed.

(** The part of [_Thread_queue_Enqueue_priority] behind a search. *)
Definition place_found (insert : option Z -> list Z -> list Z) (sp : Z) (st : option Z) : Kernel :=
  match st with
  | Some u =>
      if p =? sp then put_block2n u (ListChain.append (block2n k1 u) t) k1
      else set_queue_chain q i (insert st (queue_chain k1 q i)) k1
  | None => set_queue_chain q i (insert st (queue_chain k1 q i)) k1
  end.

Lemma linked_priority insert sp st : found k q i p t insert sp st -> linked q t k (place_found insert sp st).
Proof.
  intros HF. pose proof synced_queue as E1. pose proof (to_priority _ _ HQ HD) as HP.
  assert (discipline (tq k1 q) = THREAD_QUEUE_DISCIPLINE_PRIORITY) as HD1 by (by rewrite E1).
  pose proof (priority_ok_sync q THREAD_QUEUE_SYNCHRONIZED k HP) as HP1. fold k1 in HP1.
  assert (tq_list k1 q = tq_list k q) as EL by apply tq_list_sync.
  assert (t ∉ tq_list k1 q) as Ht1 by (by rewrite EL).
  assert (forall j, queue_chain k1 q j = queue_chain k q j) as EC by (intros j; unfold queue_chain; by rewrite E1).
  assert (joined k q t = stable_insert (fun u => current_priority (tcb k1 u)) p t (tq_list k1 q)) as EJ
    by (unfold joined; by rewrite HD, EL).
  assert (links_only k k1) as HL by (by apply queue_links).
  destruct HF as [(A & h & B & E & Eh & -> & ->)|(A & B & E & HA & HB & EI & Hne)].
  - unfold place_found. rewrite Z.eqb_refl. rewrite <- EC in E.
    apply linked_intro; rewrite ?EJ.
    + by apply (grouped_list q k1 HD1 HP1 t p Hp Ht1 Hb eq_refl A h B).
    + intros _. by apply (grouped_ok q k1 HD1 HP1 t p Hp Ht1 Hb eq_refl A h B).
    + change (tq (put_block2n _ _ ?x) q) with (tq x q). by rewrite E1.
    + etransitivity; [apply HL|]. apply put_block2n_links. change (known k h). apply (to_known _ _ HQ).
      rewrite <- EL. apply (on_header_in q k1 HD1). exists i. split; [by apply header_range|].
      apply on_header_head. rewrite E. set_solver.
    + done.
  - assert (place_found insert sp st = set_queue_chain q i (A ++ t :: B) k1) as ->.
    { unfold place_found. rewrite <- EI, EC. destruct st as [u|]; [|done].
      destruct Hne as [?|Hne]; [done|]. by rewrite (proj2 (Z.eqb_neq p sp)) by congruence. }
    rewrite <- EC in E. destruct (set_queue_chain_fields q i (A ++ t :: B) k1) as (F1 & F2 & F3 & F4).
    apply linked_intro; rewrite ?EJ.
    + by apply (alone_list q k1 HD1 HP1 t p Hp Hb A B).
    + intros _. by apply (alone_ok q k1 HD1 HP1 t p Hp Ht1 Hb eq_refl A B).
    + by rewrite F1, F2, F3, F4, E1.
    + etransitivity; [apply HL|by apply queue_links].
    + done.
Qed.
End Priority.
End Link.

(** ** Enqueueing by priority, with interrupts *)

(** The thread at [t] of priority [p] is blocked on the queue but not yet linked in. *)
Record joining (q t p : Z) (k : Kernel) : Prop := {
  jo_ok : tq_ok k q;
  jo_discipline : discipline (tq k q) = THREAD_QUEUE_DISCIPLINE_PRIORITY;
  jo_off : t ∉ tq_list k q;
  jo_known : known k t;
  jo_blocked : waits_in (tq_state (tq k q)) (current_state (tcb k t)) = true;
  jo_block2n : block2n k t = [];
  jo_priority : current_priority (tcb k t) = p
}.

(** Interrupts during the search may release threads that wait, and may note in the
    queue's [sync_state] what happened to the one that is joining. *)
Definition enqueue_isr (q t p bs : Z) : (Kernel -> Kernel) -> Prop :=
  search_isr q (_Thread_queue_Header_number p) (fun k => joining q t p k /\ tq_state (tq k q) = bs) bs.

Lemma joining_searchable q t p k : prio p -> joining q t p k ->
  searchable q (_Thread_queue_Header_number p) k.
Proof.
  intros Hp [HQ HD _ _ _ _ _]. pose proof (header_range p Hp) as Hi. split.
  - by apply (to_priority _ _ HQ HD).
  - intros u Hu. apply waits_in_set, (to_blocked _ _ HQ). apply (on_header_in q k HD). eexists.
    split; [done|by apply on_header_head].
Qed.

Section Off.
Context (q t : Z) (l : list Z) (k : Kernel) (HQ : tq_ok k q) (Ht : t ∉ tq_list k q) (Hk : known k t).
Context (HD : discipline (tq k q) = THREAD_QUEUE_DISCIPLINE_PRIORITY).
Let k' := put_block2n t l k.

Lemma off_block2n u : u ∈ tq_list k q -> block2n k' u = block2n k u.
Proof. intros Hu. unfold k'. rewrite block2n_put, decide_False; [done|]. by intros ->. Qed.

Lemma off_head i h : i ∈ priority_headers -> h ∈ queue_chain k q i -> h ∈ tq_list k q.
Proof.
  intros Hi Hh. apply (on_header_in q k HD). exists i. split; [done|by apply on_header_head].
Qed.

Lemma off_list : tq_list k' q = tq_list k q.
Proof.
  rewrite (tq_list_headers q k' HD), (tq_list_headers q k HD). apply flat_map_cong. intros i Hi.
  apply flat_map_cong. intros h Hh. unfold group. by rewrite off_block2n by (by apply (off_head i)).
Qed.

Lemma off_priority u : current_priority (tcb k' u) = current_priority (tcb k u).
Proof. unfold k', put_block2n, upd_wait. rewrite tcb_upd. case_decide; by subst. Qed.

Lemma off_ok : tq_ok k' q.
Proof.
  pose proof (to_priority _ _ HQ HD) as HP. pose proof (put_block2n_links t l k Hk) as HL. fold k' in HL. split.
  - rewrite off_list. apply HQ.
  - intros u. rewrite off_list, (lo_known _ _ HL). apply HQ.
  - apply HQ.
  - intros u. rewrite off_list. intros Hu. destruct (but_block2n_fields _ _ (lo_tcb _ _ HL u)) as (-> & _).
    by apply (to_blocked _ _ HQ).
  - intros _. split.
    + intros i Hi. eapply sorted_impl; [|by apply HP]. intros u v _ _. by rewrite !off_priority.
    + intros i h Hi Hh. rewrite off_priority. by apply HP.
    + intros i h m Hi Hh. rewrite !off_priority, off_block2n by (by apply (off_head i)). intros Hm.
      destruct (po_block _ _ HP i h m Hi Hh Hm) as [E1 E2]. split; [done|]. rewrite off_block2n; [done|].
      apply (on_header_in q k HD). exists i. split; [done|]. apply elem_of_flat_map. exists h. split; [done|by right].
Qed.
End Off.

(** What the end of [_Thread_queue_Enqueue_priority] does with a search's result. *)
Lemma enqueue_place q t k insert sp st :
  found k q (_Thread_queue_Header_number (current_priority (tcb k t))) (current_priority (tcb k t)) t insert sp st ->
  joining q t (current_priority (tcb k t)) k -> prio (current_priority (tcb k t)) ->
  let k' := match sync_state (tq k q) with
    | THREAD_QUEUE_NOTHING_HAPPENED => place_found q t k insert sp st
    | _ => synchronize q t k
    end in
  (sync_state (tq k q) = THREAD_QUEUE_NOTHING_HAPPENED -> linked q t k k') /\
  (sync_state (tq k q) <> THREAD_QUEUE_NOTHING_HAPPENED -> k' = synchronize q t k).
Proof.
  intros HF [HQ HD Ht Hk Hb He _] Hp k'. split; intros Hs.
  - unfold k'. rewrite Hs. by apply linked_priority.
  - unfold k'. by destruct (sync_state (tq k q)).
Qed.

Lemma enqueue_priority_spec fuel isrs q t k :
  let p := current_priority (tcb k t) in
  tq_ok k q -> discipline (tq k q) = THREAD_QUEUE_DISCIPLINE_PRIORITY -> t ∉ tq_list k q -> known k t ->
  waits_in (tq_state (tq k q)) (current_state (tcb k t)) = true -> prio p ->
  Forall (enqueue_isr q t p (tq_state (tq k q))) isrs ->
  (length isrs + length (tq_list k q) < fuel)%nat ->
  exists n k', _Thread_queue_Enqueue_priority fuel isrs q t k = Some k' /\
    let k1 := run_isrs (take n isrs) (put_block2n t [] k) in
    joining q t p k1 /\
    (sync_state (tq k1 q) = THREAD_QUEUE_NOTHING_HAPPENED -> linked q t k1 k') /\
    (sync_state (tq k1 q) <> THREAD_QUEUE_NOTHING_HAPPENED -> k' = synchronize q t k1).
Proof.
  intros p HQ HD Ht Hk Hs Hp HI Hf. set (bs := tq_state (tq k q)) in *. set (k0 := put_block2n t [] k).
  set (i := _Thread_queue_Header_number p). pose proof (header_range p Hp) as Hi. fold i in Hi.
  assert (current_priority (tcb k0 t) = p) as EP by apply off_priority.
  assert (joining q t p k0) as HJ.
  { pose proof (put_block2n_links t [] k Hk) as HL. split; try done.
    - by apply off_ok.
    - unfold k0. by rewrite off_list.
    - by apply HL.
    - unfold k0. by destruct (but_block2n_fields _ _ (lo_tcb _ _ HL t)) as (-> & _).
    - unfold k0. rewrite block2n_put. by rewrite decide_True. }
  assert (length (queue_chain k0 q i) <= length (tq_list k q))%nat as HL.
  { rewrite (tq_list_headers q k HD). destruct (headers_split i Hi) as (H1 & H2 & -> & _).
    rewrite flat_map_app. simpl. rewrite !length_app. change (queue_chain k0 q i) with (queue_chain k q i).
    assert (forall l, (length l <= length (flat_map (group k) l))%nat) as HX.
    { induction l as [|x l IH]; [done|]. simpl. rewrite length_app. lia. }
    specialize (HX (queue_chain k q i)). unfold on_header at 2. lia. }
  assert (forall k, joining q t p k /\ tq_state (tq k q) = bs -> searchable q i k /\ tq_state (tq k q) = bs) as HInv
    by (intros k1 [HJ1 E1]; split; [by apply (joining_searchable q t p)|done]).
  unfold _Thread_queue_Enqueue_priority. fold k0. rewrite EP. fold i.
  change (tq_state (tq k0 q)) with bs. destruct (_Thread_queue_Is_reverse_search p).
  - destruct (reverse_search_found q i p Hp _ bs HInv (length (tq_list k q)) isrs HI fuel k0 (queue_chain k0 q i) []
      (PRIORITY_MAXIMUM +w 1)) as (n & sp & st & E & HF & HJ1 & _); try done.
    { by rewrite app_nil_r. } { set_solver. } { unfold prio, PRIORITY_MAXIMUM in Hp. change (PRIORITY_MAXIMUM +w 1) with 256. lia. }
    rewrite E. eexists n, _. split; [reflexivity|]. set (k1 := run_isrs (take n isrs) k0) in *. split; [done|].
    pose proof (jo_priority _ _ _ _ HJ1) as E1. unfold i in HF |- *. rewrite <- E1 in HF, HJ1, Hp |- *.
    apply (enqueue_place q t k1 (fun u l => ListChain.insert_after l u t) sp st); [|done|done].
    apply reverse_place; [|done]. by apply (joining_searchable q t).
  - destruct (forward_search_found q i p Hp _ bs HInv (length (tq_list k q)) isrs HI fuel k0 [] (queue_chain k0 q i)
      (PRIORITY_MINIMUM -w 1)) as (n & sp & st & E & HF & HJ1 & _); try done.
    { set_solver. } { unfold prio, PRIORITY_MAXIMUM in Hp. change (PRIORITY_MINIMUM -w 1) with 4294967295. lia. }
    rewrite E. eexists n, _. split; [reflexivity|]. set (k1 := run_isrs (take n isrs) k0) in *. split; [done|].
    pose proof (jo_priority _ _ _ _ HJ1) as E1. unfold i in HF |- *. rewrite <- E1 in HF, HJ1, Hp |- *.
    apply (enqueue_place q t k1 (fun u l => insert_in_front l u t) sp st); [|done|done].
    apply forward_place; [|done]. by apply (joining_searchable q t).
Qed.

(** ** The blocking of the thread that joins *)

Lemma set_state_ready t s k : is_ready k t ->
  threads (_Thread_Set_state t s k) = threads (upd_thread t (set_current_state s) k) /\
  watchdogs (_Thread_Set_state t s k) = watchdogs k /\
  (t = _Thread_Executing k -> _Context_Switch_necessary (_Thread_Set_state t s k) = true).
Proof.
  intros Hr. unfold _Thread_Set_state. rewrite (proj2 (Z.eqb_eq _ _) Hr : _States_Is_ready _ = true). cbn [negb].
  unfold remove_ready, _Thread_Is_executing.
  destruct (ListChain.has_only_one_node _), (_Thread_Is_heir _ _); simpl; split_and!; try done;
    destruct (Z.eqb_spec t (_Thread_Executing k)); done.
Qed.

Lemma tq_ok_frame q t k k' : tq_ok k q -> t ∉ tq_list k q -> tq_same k k' ->
  (forall u, known k u -> known k' u) -> (forall u, u <> t -> current_state (tcb k' u) = current_state (tcb k u)) ->
  tq_ok k' q.
Proof.
  intros HQ Ht HS HK HC. assert (tq_list k' q = tq_list k q) as EL by (by rewrite HS).
  split; rewrite ?EL, ?(ts_queue _ _ HS); try apply HQ.
  - intros u Hu. by apply HK, HQ.
  - intros u Hu. rewrite HC; [by apply HQ|]. by intros ->.
  - intros HD. eapply priority_ok_proper; [done|done|by apply HQ].
Qed.

Lemma blocked_thread_ok q t s k : tq_ok k q -> t ∉ tq_list k q -> known k t -> is_ready k t ->
  tq_ok (_Thread_Set_state t s k) q /\ known (_Thread_Set_state t s k) t.
Proof.
  intros HQ Ht Hk Hr. destruct (set_state_ready t s k Hr) as [ET _].
  assert (forall u, known k u -> known (_Thread_Set_state t s k) u) as HK.
  { intros u Hu. unfold known. rewrite ET. by apply (known_upd k t (set_current_state s)). }
  split; [|auto]. apply (tq_ok_frame q t k); [done|done|apply set_state_tq_same|done|].
  intros u Hu. unfold tcb at 1. rewrite ET. pose proof (tcb_upd_ne k t (set_current_state s) u Hu) as EU.
  unfold tcb at 1 in EU. by rewrite EU.
Qed.

Lemma joined_same k k' q t : tq_same k k' -> joined k' q t = joined k q t.
Proof.
  intros HS. assert (tq_list k' q = tq_list k q) as EL by (by rewrite HS).
  unfold joined. rewrite (ts_queue _ _ HS), EL.
  assert (forall u, current_priority (tcb k' u) = current_priority (tcb k u)) as EP by apply HS.
  destruct (discipline _); [done|].
  unfold stable_insert. rewrite EP. f_equal; [|f_equal]; apply list_filter_iff; intros u; by rewrite EP.
Qed.

Lemma linked_off q t k k' : tq_ok k q -> t ∉ tq_list k q -> known k t ->
  discipline (tq k q) = THREAD_QUEUE_DISCIPLINE_PRIORITY ->
  linked q t (put_block2n t [] k) k' -> linked q t k k'.
Proof.
  intros HQ Ht Hk HD [A B C D E]. split; try done.
  - rewrite A. unfold joined. change (discipline (tq (put_block2n t [] k) q)) with (discipline (tq k q)).
    rewrite HD, (off_list q t [] k Ht HD). unfold stable_insert. rewrite off_priority.
    f_equal; [|f_equal]; apply list_filter_iff; intros u; by rewrite off_priority.
  - etransitivity; [|exact D]. by apply put_block2n_links.
Qed.

(** The state in which the executing thread is blocked and its timer started. *)
Section Blocked.
Context (q : Z) (k : Kernel) (w : Watchdog_State).
Notation t := (_Thread_Executing k).
Notation s := (tq_state (tq k q)).
Context (HS : sched_ok k) (HQ : tq_ok k q) (Ht : t ∉ tq_list k q) (Hr : is_ready k t).
Context (Hi : t <> _Thread_Idle k) (Hst : s <> STATES_READY).
Let k2 := set_watchdogs w (_Thread_Set_state t s k).

Lemma blocked_same : tq_same k k2.
Proof. etransitivity; [apply set_state_tq_same|done]. Qed.

Lemma blocked_for_tcb u : tcb k2 u = if decide (u = t) then set_current_state s (tcb k t) else tcb k u.
Proof.
  unfold tcb at 1, k2. simpl. rewrite (proj1 (set_state_ready t s k Hr)).
  apply (tcb_upd k t (set_current_state s) u).
Qed.

Lemma blocked_for_known u : known k u -> known k2 u.
Proof.
  intros Hu. unfold known, k2. simpl. rewrite (proj1 (set_state_ready t s k Hr)).
  apply (known_upd k t (set_current_state s) u); [apply HS|done].
Qed.

Lemma blocked_for_ok :
  tq_ok k2 q /\ t ∉ tq_list k2 q /\ known k2 t /\ sched_ok k2 /\ _Context_Switch_necessary k2 = true /\
  current_state (tcb k2 t) = s /\ waits_in (tq_state (tq k2 q)) (current_state (tcb k2 t)) = true.
Proof.
  assert (current_state (tcb k2 t) = s) as ES by (by rewrite blocked_for_tcb, decide_True).
  split_and!.
  - apply (tq_ok_frame q t k); [done|done|apply blocked_same|apply blocked_for_known|].
    intros u Hu. by rewrite blocked_for_tcb, decide_False.
  - by rewrite <- blocked_same.
  - apply blocked_for_known, HS.
  - apply (sched_same (_Thread_Set_state t s k)); try done. apply set_state_ok; try done. apply HS.
  - by apply (set_state_ready t s k Hr).
  - done.
  - rewrite ES, (ts_queue _ _ blocked_same). by apply waits_in_self; [apply HQ|].
Qed.

Lemma blocked_core : core_same k k2 /\ _Thread_Executing k2 = t.
Proof. destruct (set_state_core t s k) as [[] E]. split; [by split|exact E]. Qed.

Lemma linked_frame k' : linked q t k2 k' ->
  core_same k k' /\ _Thread_Executing k' = t /\
  (tq_state (tq k' q) = s /\ discipline (tq k' q) = discipline (tq k q) /\
   timeout_status (tq k' q) = timeout_status (tq k q)) /\
  forall u,
    but_block2n (tcb k' u) = but_block2n (if decide (u = t) then set_current_state s (tcb k t) else tcb k u).
Proof.
  intros [_ _ (_ & C) D _]. destruct blocked_core as [A B]. rewrite (ts_queue _ _ blocked_same) in C.
  split; [etransitivity; [exact A|apply D]|]. split; [by rewrite (lo_executing _ _ D)|]. split; [exact C|].
  intros u. by rewrite (lo_tcb _ _ D), blocked_for_tcb.
Qed.

Lemma linked_result k' : linked q t k2 k' ->
  tq_list k' q = joined k q t /\ tq_ok k' q /\ sched_ok k' /\ current_state (tcb k' t) = s /\
  _Context_Switch_necessary k' = true /\ sync_state (tq k' q) = THREAD_QUEUE_SYNCHRONIZED /\ watchdogs k' = w.
Proof.
  intros [A B (C & _) D F]. destruct blocked_for_ok as (_ & _ & _ & H4 & H5 & H6 & _). split_and!; try done.
  - rewrite A. apply joined_same, blocked_same.
  - by apply (links_only_sched k2).
  - by destruct (but_block2n_fields _ _ (lo_tcb _ _ D t)) as (-> & _).
  - by rewrite (lo_necessary _ _ D).
Qed.
End Blocked.

Lemma enqueue_spec routine wfuel fuel q timeout k :
  let t := _Thread_Executing k in
  sched_ok k -> tq_ok k q -> t ∉ tq_list k q -> is_ready k t -> t <> _Thread_Idle k ->
  tq_state (tq k q) <> STATES_READY -> sync_state (tq k q) = THREAD_QUEUE_NOTHING_HAPPENED ->
  (timeout = 0 \/ wd_ok (watchdogs k) /\ ~ on_chain (wd_state (ctl (watchdogs k) (Timer t))) /\
     u32 timeout /\ (length (chain_of Ticks (watchdogs k)) + 1 < wfuel)%nat) ->
  (length (tq_list k q) < fuel)%nat ->
  exists k', _Thread_queue_Enqueue routine wfuel id fuel [] q timeout k = Some k' /\
    tq_list k' q = joined k q t /\ tq_ok k' q /\ sched_ok k' /\
    current_state (tcb k' t) = tq_state (tq k q) /\ _Context_Switch_necessary k' = true /\
    sync_state (tq k' q) = THREAD_QUEUE_SYNCHRONIZED /\
    (timeout = 0 -> watchdogs k' = watchdogs k) /\
    (timeout <> 0 -> wd_ok (watchdogs k') /\ _Watchdog_Is_active (watchdogs k') (Timer t) = true /\
       exists E1 E2, expiries Ticks (watchdogs k') = E1 ++ (Timer t, timeout) :: E2) /\
    core_same k k' /\ _Thread_Executing k' = t /\
    (tq_state (tq k' q) = tq_state (tq k q) /\ discipline (tq k' q) = discipline (tq k q) /\
     timeout_status (tq k' q) = timeout_status (tq k q)) /\
    forall u, but_block2n (tcb k' u) =
      but_block2n (if decide (u = t) then set_current_state (tq_state (tq k q)) (tcb k t) else tcb k u).
Proof.
  intros t HS HQ Ht Hr Hi Hst Hsy HT Hf. unfold _Thread_queue_Enqueue. fold t.
  destruct (start_timer_quiet routine wfuel t timeout (_Thread_Set_state t (tq_state (tq k q)) k)) as (w & E & W0 & W1).
  { by rewrite (proj1 (proj2 (set_state_ready t (tq_state (tq k q)) k Hr))). }
  rewrite E. set (k2 := set_watchdogs w _) in *.
  destruct (blocked_for_ok q k w HS HQ Ht Hr Hi Hst) as (H1 & H2 & H3 & _ & _ & _ & H7). fold t k2 in H1, H2, H3, H7.
  pose proof (ts_queue _ _ (blocked_same q k w) q : tq k2 q = tq k q) as EQ.
  rewrite (proj1 (proj2 (set_state_ready t (tq_state (tq k q)) k Hr))) in W0.
  assert (exists k', match discipline (tq k2 q) with
    | THREAD_QUEUE_DISCIPLINE_FIFO => Some (_Thread_queue_Enqueue_fifo q t k2)
    | THREAD_QUEUE_DISCIPLINE_PRIORITY => _Thread_queue_Enqueue_priority fuel [] q t k2
    end = Some k' /\ linked q t k2 k') as (k' & -> & HL).
  { destruct (discipline (tq k2 q)) eqn:HD.
    - eexists. split; [done|]. apply linked_fifo; try done. by rewrite EQ.
    - destruct (enqueue_priority_spec fuel [] q t k2) as (n & k' & E' & _ & HX & _); try done.
      + rewrite (ts_priority _ _ (blocked_same q k w)). by apply (ro_tcb _ _ (so_ready _ HS) t), HS.
      + assert (tq_list k2 q = tq_list k q) as ->
          by (symmetry; exact (tq_list_proper _ _ (blocked_same q k w) q q eq_refl)). simpl. lia.
      + exists k'. split; [done|]. rewrite take_nil in HX. apply linked_off; try done. apply HX.
        by rewrite <- EQ in Hsy. }
  destruct (linked_result q k w HS HQ Ht Hr Hi Hst k' HL) as (L1 & L2 & L3 & L4 & L5 & L6 & L7).
  destruct (linked_frame q k w Hr k' HL) as (F1 & F2 & F3 & F4).
  exists k'. rewrite L7. destruct F3 as (?&?&?). by split_and!.
Qed.

(** ** The other operations, and the queue's invariant *)

Lemma tq_ok_sync q s k : tq_ok k q -> tq_ok (upd_queue q (set_sync_state s) k) q.
Proof.
  intros HQ. assert (tq (upd_queue q (set_sync_state s) k) q = set_sync_state s (tq k q)) as E
    by (rewrite tq_upd; by rewrite decide_True).
  split; rewrite ?tq_list_sync, ?E; simpl; try apply HQ. intros HD. by apply priority_ok_sync, HQ.
Qed.

Lemma sched_ok_queue q f k : sched_ok k -> sched_ok (upd_queue q f k).
Proof. apply links_only_sched. by apply queue_links. Qed.

(** Of the control block, the state, the priority and [Block2n] are what the queue knows. *)
Section ThreadFields.
Context (t : Z) (g : Thread_Control -> Thread_Control) (k : Kernel) (Hk : known k t).
Context (Hb : forall c, Block2n (Wait (g c)) = Block2n (Wait c)) (Hs : forall c, current_state (g c) = current_state c).
Context (Hp : forall c, current_priority (g c) = current_priority c).
Let k' := upd_thread t g k.

Lemma field_block2n u : block2n k' u = block2n k u.
Proof. unfold block2n, k'. rewrite tcb_upd. case_decide; subst; [apply Hb|done]. Qed.

Lemma field_list q : tq_list k' q = tq_list k q.
Proof.
  unfold tq_list. change (tq k' q) with (tq k q). destruct (discipline _); [done|].
  apply flat_map_ext. intros i. apply flat_map_ext. intros h. unfold group. by rewrite field_block2n.
Qed.

Lemma field_fields u : current_state (tcb k' u) = current_state (tcb k u) /\
  current_priority (tcb k' u) = current_priority (tcb k u).
Proof. unfold k'. rewrite tcb_upd. case_decide; subst; by rewrite ?Hs, ?Hp. Qed.

Lemma field_tq_ok q : tq_ok k q -> tq_ok k' q.
Proof.
  intros HQ. split; rewrite ?field_list; try apply HQ.
  - intros u Hu. apply known_upd; [done|by apply HQ].
  - intros u Hu. rewrite (proj1 (field_fields u)). by apply HQ.
  - intros HD. destruct (to_priority _ _ HQ HD) as [A B C]. split.
    + intros i Hi. eapply sorted_impl; [|by apply A]. intros u v _ _.
      by rewrite (proj2 (field_fields u)), (proj2 (field_fields v)).
    + intros i h Hi Hh. rewrite (proj2 (field_fields h)). by apply B.
    + intros i h m Hi Hh. rewrite !field_block2n, (proj2 (field_fields h)), (proj2 (field_fields m)).
      by apply (C i).
Qed.
End ThreadFields.

(** Of what a thread waits with, only [Block2n] is part of the queue. *)
Section WaitFields.
Context (t : Z) (f : Thread_Wait_information -> Thread_Wait_information) (k : Kernel) (Hk : known k t).
Context (Hf : forall w, Block2n (f w) = Block2n w).
Let g (c : Thread_Control) : Thread_Control := set_Wait (f (Wait c)) c.
Let k' := upd_wait t f k.

Lemma code_tcb u : tcb k' u = if decide (u = t) then set_Wait (f (Wait (tcb k t))) (tcb k t) else tcb k u.
Proof. unfold k', upd_wait. by rewrite tcb_upd. Qed.

Lemma code_list q : tq_list k' q = tq_list k q.
Proof. exact (field_list t g k (fun c => Hf (Wait c)) q). Qed.

Lemma code_fields u : current_state (tcb k' u) = current_state (tcb k u) /\
  current_priority (tcb k' u) = current_priority (tcb k u).
Proof. exact (field_fields t g k (fun _ => eq_refl) (fun _ => eq_refl) u). Qed.

Lemma code_tq_ok q : tq_ok k q -> tq_ok k' q.
Proof. exact (field_tq_ok t g k Hk (fun c => Hf (Wait c)) (fun _ => eq_refl) (fun _ => eq_refl) q). Qed.

Lemma code_sched : sched_ok k -> sched_ok k'.
Proof. intros HS. by apply inert_ok. Qed.
End WaitFields.

(** *** Flushing *)

(** A thread that was flushed: no longer blocked, with the status for a return code. *)
Definition flushed (status : Z) (c : Thread_Control) : Thread_Control :=
  set_Wait (set_Wait_return_code status (Wait c))
    (set_current_state (_States_Clear STATES_BLOCKED (current_state c)) c).

Definition with_code (status : Z) (c : Thread_Control) : Thread_Control :=
  set_Wait (set_Wait_return_code status (Wait c)) c.
Lemma but_block2n_code status c : but_block2n (set_Wait (set_Wait_return_code status (Wait c)) c) =
  with_code status (but_block2n c).
Proof. done. Qed.
Lemma but_block2n_flushed status c : but_block2n (flushed status c) = flushed status (but_block2n c).
Proof. done. Qed.

Lemma flushed_code status c c' : but_block2n c = but_block2n (flushed status c') ->
  Wait_return_code (Wait c) = status.
Proof. intros E. exact (f_equal (fun c => Wait_return_code (Wait c)) E). Qed.

Lemma flush_spec q status : forall l fuel k,
  tq_list k q = l -> tq_ok k q -> sched_ok k -> sync_state (tq k q) = THREAD_QUEUE_SYNCHRONIZED ->
  NULL ∉ l -> (length l < fuel)%nat ->
  exists k', _Thread_queue_Flush fuel q status k = Some k' /\ tq_list k' q = [] /\ tq_ok k' q /\ sched_ok k' /\
    forall u, but_block2n (tcb k' u) = but_block2n (if decide (u ∈ l) then flushed status (tcb k u) else tcb k u).
Proof.
  induction l as [|t l IH]; intros fuel k EL HQ HS Hsy HN Hf; (destruct fuel as [|fuel]; [simpl in Hf; lia|]); simpl;
    pose proof (dequeue_spec q k HQ) as HD; rewrite EL in HD.
  - rewrite HD. unfold dequeue_empty. rewrite Hsy. simpl. exists k. split_and!; try done.
  - destruct HD as (k1 & HT & ->). apply not_elem_of_cons in HN as [Ht HN].
    rewrite (proj2 (Z.eqb_neq t NULL)) by congruence.
    assert (t ∈ tq_list k q) as Hin by (rewrite EL; left).
    pose proof (released_list q t k k1 HT) as RL. rewrite EL in RL. simpl in RL. rewrite decide_True in RL by done.
    pose proof (released_tq_ok q t k k1 HQ Hin HT) as RQ. pose proof (released_sched q t k k1 HQ Hin HT HS) as RS.
    destruct (released_queue q t k k1 HT) as (QS & _).
    assert (known (release t k1) t) as Hk by (apply release_known; apply (ta_links _ _ _ _ HT), HQ, Hin).
    destruct (IH fuel (upd_wait t (set_Wait_return_code status) (release t k1))) as (k' & E & E1 & E2 & E3 & E4).
    + by rewrite code_list.
    + by apply code_tq_ok.
    + by apply code_sched.
    + change (sync_state (tq (release t k1) q) = THREAD_QUEUE_SYNCHRONIZED). by rewrite QS.
    + done.
    + simpl in Hf. lia.
    + exists k'. split_and!; try done. intros u. rewrite E4, code_tcb.
      pose proof (released_tcb q t k k1 HQ Hin HT u) as RT.
      assert (t ∉ l) as Hl by (pose proof (to_nodup _ _ HQ) as HX; rewrite EL in HX; by apply NoDup_cons in HX as [HX _]).
      destruct (decide (u = t)) as [-> |Hne].
      * rewrite (decide_False (P := t ∈ l)), (decide_True (P := t ∈ t :: l)) by (done || left).
        by rewrite but_block2n_code, RT.
      * destruct (decide (u ∈ l)) as [Hul|Hul].
        -- rewrite (decide_True (P := u ∈ t :: l)) by (by right). by rewrite !but_block2n_flushed, RT.
        -- rewrite (decide_False (P := u ∈ t :: l)) by (rewrite elem_of_cons; tauto). done.
Qed.

(** *** Timing out *)

Lemma timed_out_waiting t k :
  let q := Wait_queue (Wait (tcb k t)) in
  let k' := timed_out t k in
  tq_ok k q -> sched_ok k -> t ∈ tq_list k q ->
  sync_state (tq k q) = THREAD_QUEUE_SYNCHRONIZED \/ t <> _Thread_Executing k ->
  tq_ok k' q /\ sched_ok k' /\ tq_list k' q = ListChain.extract (tq_list k q) t /\
  _Watchdog_Is_active (watchdogs k') (Timer t) = false /\
  (sync_state (tq k' q) = sync_state (tq k q) /\ discipline (tq k' q) = discipline (tq k q) /\
   tq_state (tq k' q) = tq_state (tq k q) /\ timeout_status (tq k' q) = timeout_status (tq k q)) /\
  core_same k k' /\ _Thread_Executing k' = _Thread_Executing k /\
  forall v, but_block2n (tcb k' v) =
    but_block2n (if decide (v = t) then flushed (timeout_status (tq k q)) (tcb k t) else tcb k v).
Proof.
  intros q k' HQ HS Hin Hor. unfold k', timed_out. fold q. unfold _Thread_Is_executing.
  replace (negb _ && _) with false.
  2:{ symmetry. apply andb_false_iff. destruct Hor as [-> |Hne]; [by left|right; by apply Z.eqb_neq]. }
  assert (known k t) as Hk by by apply HQ.
  set (k1 := upd_wait t (set_Wait_return_code (timeout_status (tq k q))) k).
  assert (tq_ok k1 q) as HQ1 by by apply code_tq_ok.
  assert (sched_ok k1) as HS1 by by apply code_sched.
  assert (tq_list k1 q = tq_list k q) as EL by (by apply code_list).
  assert (t ∈ tq_list k1 q) as Hin1 by by rewrite EL.
  destruct (extract_spec q t k1 HQ1 Hin1) as (k2 & HT & ->). destruct (released_core q t k1 k2 HT) as [RC RE].
  split; [by apply (released_tq_ok q t k1)|]. split; [by apply (released_sched q t k1)|].
  split; [rewrite <- EL; by apply released_list|]. split; [apply release_inactive|].
  split; [by apply (released_queue q t k1)|]. split; [etransitivity; [apply core_upd_thread|exact RC]|]. split; [done|].
  intros v. rewrite (released_tcb q t k1) by done. unfold k1. rewrite !code_tcb.
  case_decide; subst; by rewrite ?decide_True.
Qed.

(** ** A fresh queue *)

Lemma initialize_fresh q cls d s proxy status k :
  queue_state s ->
  let k1 := _Thread_queue_Initialize q cls d s proxy status k in
  tq_list k1 q = [] /\ tq_ok k1 q /\ links_only k k1 /\
  tq k1 q = {| Queues := Queues (tq k1 q); sync_state := THREAD_QUEUE_SYNCHRONIZED; discipline := d;
    tq_state := s; timeout_status := status |}.
Proof.
  intros Hs. cbn zeta.
  set (k1 := _Thread_queue_Initialize q cls d s proxy status k).
  assert (forall i, i ∈ match d with THREAD_QUEUE_DISCIPLINE_FIFO => [0] | _ => priority_headers end ->
    queue_chain k1 q i = []) as HC.
  { intros i Hi. unfold queue_chain, k1, _Thread_queue_Initialize. rewrite tq_upd, decide_True by done. simpl.
    destruct d.
    - apply list_elem_of_singleton in Hi as ->. apply lookup_total_insert_eq.
    - rewrite priority_headers_eq in Hi. repeat (apply elem_of_cons in Hi as [-> |Hi]); try by apply elem_of_nil in Hi.
      all: simpl; repeat (rewrite lookup_total_insert_eq || rewrite lookup_total_insert_ne by done); done. }
  assert (tq k1 q = {| Queues := Queues (tq k1 q); sync_state := THREAD_QUEUE_SYNCHRONIZED; discipline := d;
    tq_state := s; timeout_status := status |}) as E1
    by (unfold k1, _Thread_queue_Initialize; by rewrite tq_upd, decide_True).
  assert (tq_list k1 q = []) as EL.
  { unfold tq_list. rewrite E1. simpl discipline. destruct d; [apply HC; left|].
    rewrite (flat_map_cong _ (fun _ => [])); [done|]. intros i Hi. by rewrite HC. }
  assert (tq_ok k1 q) as H1.
  { split; rewrite ?EL; try (intros u ?%elem_of_nil; done); [constructor|by rewrite E1|].
    rewrite E1. simpl discipline. intros ->.
    split; intros i; intros; [rewrite HC by done; constructor|..];
      match goal with H : _ ∈ queue_chain k1 q i |- _ => rewrite HC in H by done; by apply elem_of_nil in H end. }
  split_and!; [done|done|by apply queue_links|done].
Qed.

Lemma initialize_ok q cls d s proxy status k :
  queue_state s ->
  let k' := _Thread_queue_Enter_critical_section q (_Thread_queue_Initialize q cls d s proxy status k) in
  tq_list k' q = [] /\ tq_ok k' q /\ links_only k k' /\ watchdogs k' = watchdogs k /\
  discipline (tq k' q) = d /\ tq_state (tq k' q) = s /\ timeout_status (tq k' q) = status /\
  sync_state (tq k' q) = THREAD_QUEUE_NOTHING_HAPPENED.
Proof.
  intros Hs k'. unfold k', _Thread_queue_Enter_critical_section.
  destruct (initialize_fresh q cls d s proxy status k Hs) as (EL & H1 & _ & E1).
  split_and!; [by rewrite tq_list_sync|by apply tq_ok_sync|by apply queue_links|done|..];
    rewrite tq_upd, decide_True by done; simpl; try rewrite E1; done.
Qed.

(** ** A small system with a queue *)

Module ThreadqExample.
Import ThreadExample.
(** The queue at 50 serves by priority; its state is that of a semaphore's. *)
Definition k3 : Kernel := _Thread_queue_Enter_critical_section 50
  (_Thread_queue_Initialize 50 1 THREAD_QUEUE_DISCIPLINE_PRIORITY STATES_WAITING_FOR_SEMAPHORE NULL 7 k2).
(** The thread at 200 waits on it. *)
Definition k4 : Kernel := default k3 (_Thread_queue_Enqueue 1 5 id 5 [] 50 9 k3).

Lemma no_watchdogs_ok : wd_ok no_watchdogs.
Proof.
  split.
  - constructor.
  - intros w. split; [intros H; by apply elem_of_nil in H|].
    unfold ctl. simpl wd. rewrite lookup_total_empty. intros [[=]|[=]].
  - intros h. destruct h; constructor.
  - intros h. destruct h; reflexivity.
Qed.

Lemma k3_ok : sched_ok k3 /\ tq_ok k3 50 /\ tq_list k3 50 = [] /\ wd_ok (watchdogs k3).
Proof.
  destruct (initialize_ok 50 1 THREAD_QUEUE_DISCIPLINE_PRIORITY STATES_WAITING_FOR_SEMAPHORE NULL 7 k2)
    as (E & HQ & HL & _); [done|]. split_and!; [by apply (links_only_sched k2); [|apply k2_ok]|done|done|].
  assert (watchdogs k3 = no_watchdogs) as -> by (vm_compute; reflexivity). exact no_watchdogs_ok.
Qed.

Lemma k4_ok : sched_ok k4 /\ tq_ok k4 50 /\ tq_list k4 50 = [200].
Proof.
  destruct k3_ok as (HS & HQ & EL & HW).
  destruct (enqueue_spec 1 5 5 50 9 k3) as (k' & E & A & B & C & _).
  - exact HS.
  - exact HQ.
  - rewrite EL. apply not_elem_of_nil.
  - vm_compute. reflexivity.
  - vm_compute. discriminate.
  - vm_compute. discriminate.
  - vm_compute. reflexivity.
  - right. split_and!; [exact HW|vm_compute; intros [?|?]; discriminate|split; [lia|reflexivity]|vm_compute; lia].
  - rewrite EL. simpl. lia.
  - unfold k4. rewrite E. change (default k3 (Some k')) with k'.
    split_and!; [exact C|exact B|]. rewrite A. vm_compute. reflexivity.
Qed.
End ThreadqExample.

(** ** The claims *)

(** C4: A thread that waits: [_Thread_queue_Enqueue] blocks the executing thread in the
    queue's state, flags a switch, starts its timer when there is a timeout (it is due in
    exactly that many ticks), and puts the thread on the queue: behind all others if the
    discipline is FIFO, and else behind those of its own or a higher priority and in
    front of those of a lower one.  No other thread changes.  The invariants of the queue
    and of the scheduler hold afterwards. *)
Theorem threadq_enqueue_correct routine wfuel fuel q timeout k :
  let t := _Thread_Executing k in
  sched_ok k -> tq_ok k q -> t ∉ tq_list k q -> is_ready k t -> t <> _Thread_Idle k ->
  tq_state (tq k q) <> STATES_READY -> sync_state (tq k q) = THREAD_QUEUE_NOTHING_HAPPENED ->
  (timeout = 0 \/ wd_ok (watchdogs k) /\ ~ on_chain (wd_state (ctl (watchdogs k) (Timer t))) /\
     u32 timeout /\ (length (chain_of Ticks (watchdogs k)) + 1 < wfuel)%nat) ->
  (length (tq_list k q) < fuel)%nat ->
  exists k', _Thread_queue_Enqueue routine wfuel id fuel [] q timeout k = Some k' /\
    tq_list k' q = joined k q t /\ tq_ok k' q /\ sched_ok k' /\
    current_state (tcb k' t) = tq_state (tq k q) /\ _Context_Switch_necessary k' = true /\
    sync_state (tq k' q) = THREAD_QUEUE_SYNCHRONIZED /\
    (timeout = 0 -> watchdogs k' = watchdogs k) /\
    (timeout <> 0 -> wd_ok (watchdogs k') /\ _Watchdog_Is_active (watchdogs k') (Timer t) = true /\
       exists E1 E2, expiries Ticks (watchdogs k') = E1 ++ (Timer t, timeout) :: E2) /\
    core_same k k' /\ _Thread_Executing k' = t /\
    (tq_state (tq k' q) = tq_state (tq k q) /\ discipline (tq k' q) = discipline (tq k q) /\
     timeout_status (tq k' q) = timeout_status (tq k q)) /\
    forall u, but_block2n (tcb k' u) =
      but_block2n (if decide (u = t) then set_current_state (tq_state (tq k q)) (tcb k t) else tcb k u).
Proof. apply enqueue_spec. Qed.

Lemma threadq_enqueue_witness :
  exists k', _Thread_queue_Enqueue 1 5 id 5 [] 50 9 ThreadqExample.k3 = Some k' /\
    tq_list k' 50 = joined ThreadqExample.k3 50 200.
Proof.
  destruct ThreadqExample.k3_ok as (HS & HQ & EL & HW).
  destruct (threadq_enqueue_correct 1 5 5 50 9 ThreadqExample.k3) as (k' & E & A & _).
  - exact HS.
  - exact HQ.
  - rewrite EL. apply not_elem_of_nil.
  - vm_compute. reflexivity.
  - vm_compute. discriminate.
  - vm_compute. discriminate.
  - vm_compute. reflexivity.
  - right. split_and!; [exact HW|vm_compute; intros [?|?]; discriminate|split; [lia|reflexivity]|vm_compute; lia].
  - rewrite EL. simpl. lia.
  - exists k'. exact (conj E A).
Defined.

(** C6: The search of a priority queue under interrupts: however many interrupts are
    taken at its flash points, and whichever waiting threads they release, the search
    ends, and the thread is linked in behind those of its own or a higher priority that
    still wait and in front of those of a lower one; if an interrupt released or timed
    out the thread itself before it was linked in, it is unblocked instead. *)
Theorem threadq_priority_search_interrupted fuel isrs q t k :
  let p := current_priority (tcb k t) in
  tq_ok k q -> discipline (tq k q) = THREAD_QUEUE_DISCIPLINE_PRIORITY -> t ∉ tq_list k q -> known k t ->
  waits_in (tq_state (tq k q)) (current_state (tcb k t)) = true -> prio p ->
  Forall (enqueue_isr q t p (tq_state (tq k q))) isrs ->
  (length isrs + length (tq_list k q) < fuel)%nat ->
  exists n k', _Thread_queue_Enqueue_priority fuel isrs q t k = Some k' /\
    let k1 := run_isrs (take n isrs) (put_block2n t [] k) in
    joining q t p k1 /\
    (sync_state (tq k1 q) = THREAD_QUEUE_NOTHING_HAPPENED ->
       tq_ok k' q /\ tq_list k' q =
         stable_insert (fun u => current_priority (tcb k1 u)) p t (tq_list k1 q)) /\
    (sync_state (tq k1 q) <> THREAD_QUEUE_NOTHING_HAPPENED -> k' = synchronize q t k1).
Proof.
  intros p HQ HD Ht Hk Hs Hp HI Hf.
  destruct (enqueue_priority_spec fuel isrs q t k HQ HD Ht Hk Hs Hp HI Hf) as (n & k' & E & HJ & HL & HX).
  exists n, k'. split; [exact E|]. intros k1. split_and!; [exact HJ| |exact HX].
  intros Hsy. destruct (HL Hsy) as [A B _ _ _]. split; [exact B|].
  rewrite A. unfold joined. rewrite (jo_discipline _ _ _ _ HJ), (jo_priority _ _ _ _ HJ). done.
Qed.

(** An interrupt that times the joining thread out. *)
Lemma timeout_isr q t p bs : enqueue_isr q t p bs (upd_queue q (set_sync_state THREAD_QUEUE_TIMEOUT)).
Proof.
  intros k [[A B C D E F G] H].
  assert (tq (upd_queue q (set_sync_state THREAD_QUEUE_TIMEOUT) k) q = set_sync_state THREAD_QUEUE_TIMEOUT (tq k q)) as EQ
    by (rewrite tq_upd; by rewrite decide_True).
  split_and!.
  - split; rewrite ?tq_list_sync, ?EQ; try done. by apply tq_ok_sync.
  - by rewrite EQ.
  - unfold queue_chain. by rewrite EQ.
  - intros u Hu _. unfold queue_chain in *. by rewrite EQ.
Qed.

Lemma threadq_priority_search_witness :
  exists n k', _Thread_queue_Enqueue_priority 5
      [upd_queue 50 (set_sync_state THREAD_QUEUE_TIMEOUT)] 50 300
      (_Thread_Set_state 300 STATES_WAITING_FOR_SEMAPHORE ThreadqExample.k4) = Some k' /\
    joining 50 300 10 (run_isrs (take n [upd_queue 50 (set_sync_state THREAD_QUEUE_TIMEOUT)])
      (put_block2n 300 [] (_Thread_Set_state 300 STATES_WAITING_FOR_SEMAPHORE ThreadqExample.k4))).
Proof.
  destruct ThreadqExample.k4_ok as (HS & HQ & EL).
  set (k5 := _Thread_Set_state 300 STATES_WAITING_FOR_SEMAPHORE ThreadqExample.k4).
  assert (tq_list k5 50 = [200]) as EL5 by (vm_compute; reflexivity).
  assert (known ThreadqExample.k4 300) as Hk by (vm_compute; eexists; reflexivity).
  assert (is_ready ThreadqExample.k4 300) as Hr by (vm_compute; reflexivity).
  assert (300 ∉ tq_list ThreadqExample.k4 50) as Ht
    by (rewrite EL; apply not_elem_of_cons; split; [discriminate|apply not_elem_of_nil]).
  destruct (blocked_thread_ok 50 300 STATES_WAITING_FOR_SEMAPHORE ThreadqExample.k4 HQ Ht Hk Hr) as [HQ5 Hk5].
  destruct (threadq_priority_search_interrupted 5 [upd_queue 50 (set_sync_state THREAD_QUEUE_TIMEOUT)] 50 300 k5)
    as (n & k' & E & HJ & _).
  - exact HQ5.
  - vm_compute. reflexivity.
  - rewrite EL5. apply not_elem_of_cons. split; [discriminate|apply not_elem_of_nil].
  - exact Hk5.
  - vm_compute. reflexivity.
  - vm_compute. split; discriminate.
  - constructor; [|constructor]. apply timeout_isr.
  - rewrite EL5. simpl. lia.
  - exists n, k'. replace 10 with (current_priority (tcb k5 300)) by (vm_compute; reflexivity). exact (conj E HJ).
Defined.

(** C5: A release: [_Thread_queue_Dequeue] takes the first thread off a queue that has
    one, stops its timer and unblocks it, and changes no other thread; on an empty queue
    it gives the release to a thread that is on its way in, or else to none.  The
    invariants of the queue and of the scheduler hold afterwards. *)
Theorem threadq_dequeue_correct q k :
  tq_ok k q -> sched_ok k ->
  let (u, k') := _Thread_queue_Dequeue q k in
  tq_ok k' q /\ sched_ok k' /\
  match tq_list k q with
  | t :: rest =>
      u = t /\ tq_list k' q = rest /\ sync_state (tq k' q) = sync_state (tq k q) /\
      _Watchdog_Is_active (watchdogs k') (Timer t) = false /\
      but_block2n (tcb k' t) =
        but_block2n (set_current_state (_States_Clear STATES_BLOCKED (current_state (tcb k t))) (tcb k t)) /\
      (forall v, v <> t -> but_block2n (tcb k' v) = but_block2n (tcb k v))
  | [] =>
      match sync_state (tq k q) with
      | THREAD_QUEUE_NOTHING_HAPPENED | THREAD_QUEUE_TIMEOUT =>
          u = _Thread_Executing k /\ k' = upd_queue q (set_sync_state THREAD_QUEUE_SATISFIED) k
      | THREAD_QUEUE_SYNCHRONIZED | THREAD_QUEUE_SATISFIED => u = NULL /\ k' = k
      end
  end.
Proof.
  intros HQ HS. pose proof (dequeue_spec q k HQ) as HD. destruct (tq_list k q) as [|t rest] eqn:EL.
  - rewrite HD. unfold dequeue_empty.
    destruct (sync_state (tq k q)); split_and!; try done; (by apply tq_ok_sync) || by apply sched_ok_queue.
  - destruct HD as (k1 & HT & ->). assert (t ∈ tq_list k q) as Hin by (rewrite EL; left).
    pose proof (released_list q t k k1 HT) as RL. rewrite EL in RL. simpl in RL. rewrite decide_True in RL by done.
    destruct (released_queue q t k k1 HT) as (QS & _).
    split_and!; try done.
    + by apply (released_tq_ok q t k).
    + by apply (released_sched q t k).
    + apply release_inactive.
    + by rewrite (released_tcb q t k), decide_True.
    + intros v Hv. by rewrite (released_tcb q t k), decide_False.
Qed.

Lemma threadq_dequeue_witness :
  (_Thread_queue_Dequeue 50 ThreadqExample.k4).1 = 200 /\
  is_ready (_Thread_queue_Dequeue 50 ThreadqExample.k4).2 200.
Proof.
  destruct ThreadqExample.k4_ok as (HS & HQ & EL).
  pose proof (threadq_dequeue_correct 50 ThreadqExample.k4 HQ HS) as H. rewrite EL in H.
  destruct (_Thread_queue_Dequeue 50 ThreadqExample.k4) as [u k'].
  destruct H as (_ & _ & -> & _ & _ & _ & H & _). split; [reflexivity|].
  apply but_block2n_fields in H as (H & _). unfold is_ready. cbn [snd]. rewrite H. vm_compute. reflexivity.
Defined.

(** A timeout: a thread that waits on its queue gets the queue's timeout status for
    a return code, leaves the queue wherever it is on it, and is unblocked; no other
    thread changes.  If it is the executing thread on its way in, the timeout is noted
    in the queue, unless a release came first. *)
Theorem threadq_timeout_correct t k :
  let q := Wait_queue (Wait (tcb k t)) in
  let k' := timed_out t k in
  tq_ok k q -> sched_ok k ->
  (t ∈ tq_list k q -> sync_state (tq k q) = THREAD_QUEUE_SYNCHRONIZED \/ t <> _Thread_Executing k ->
    tq_ok k' q /\ sched_ok k' /\ tq_list k' q = ListChain.extract (tq_list k q) t /\
    _Watchdog_Is_active (watchdogs k') (Timer t) = false /\
    but_block2n (tcb k' t) = but_block2n (flushed (timeout_status (tq k q)) (tcb k t)) /\
    (forall v, v <> t -> but_block2n (tcb k' v) = but_block2n (tcb k v))) /\
  (t = _Thread_Executing k ->
    match sync_state (tq k q) with
    | THREAD_QUEUE_NOTHING_HAPPENED | THREAD_QUEUE_TIMEOUT =>
        k' = upd_queue q (set_sync_state THREAD_QUEUE_TIMEOUT) k
    | THREAD_QUEUE_SATISFIED => k' = k
    | THREAD_QUEUE_SYNCHRONIZED => True
    end).
Proof.
  intros q k' HQ HS. unfold k', timed_out. fold q. unfold _Thread_Is_executing. split.
  - intros Hin Hor. destruct (timed_out_waiting t k HQ HS Hin Hor) as (A & B & C & D & _ & _ & _ & E).
    fold q in A, C, E. unfold timed_out, _Thread_Is_executing in A, B, C, D, E. fold q in A, B, C, D, E.
    split_and!; try done.
    + by rewrite E, decide_True.
    + intros v Hv. by rewrite E, decide_False.
  - intros Et. rewrite (proj2 (Z.eqb_eq _ _) Et). by destruct (sync_state (tq k q)).
Qed.

Lemma threadq_timeout_witness :
  let k := upd_wait 200 (set_Wait_queue 50) ThreadqExample.k4 in
  Wait_return_code (Wait (tcb (timed_out 200 k) 200)) = 7.
Proof.
  intros k.
  destruct ThreadqExample.k4_ok as (HS & HQ & EL).
  assert (known ThreadqExample.k4 200) as Hk by (vm_compute; eexists; reflexivity).
  pose proof (code_tq_ok 200 (set_Wait_queue 50) ThreadqExample.k4 Hk (fun _ => eq_refl) 50 HQ : tq_ok k 50) as HQ'.
  pose proof (code_sched 200 (set_Wait_queue 50) ThreadqExample.k4 Hk HS : sched_ok k) as HS'.
  assert (tq_list k 50 = [200]) as EL' by (vm_compute; reflexivity).
  destruct (threadq_timeout_correct 200 k) as [H _].
  - replace (Wait_queue (Wait (tcb k 200))) with 50 by (vm_compute; reflexivity). exact HQ'.
  - exact HS'.
  - destruct H as (_ & _ & _ & _ & H & _).
    + replace (Wait_queue (Wait (tcb k 200))) with 50 by (vm_compute; reflexivity). rewrite EL'. left.
    + left. vm_compute. reflexivity.
    + rewrite (flushed_code _ _ _ H). vm_compute. reflexivity.
Defined.

(** [_Thread_queue_Flush] ends, empties the queue and unblocks every thread that
    waited on it with the status for a return code, and changes no other thread. *)
Theorem threadq_flush_correct fuel q status k :
  tq_ok k q -> sched_ok k -> sync_state (tq k q) = THREAD_QUEUE_SYNCHRONIZED ->
  NULL ∉ tq_list k q -> (length (tq_list k q) < fuel)%nat ->
  exists k', _Thread_queue_Flush fuel q status k = Some k' /\ tq_list k' q = [] /\ tq_ok k' q /\ sched_ok k' /\
    forall u, but_block2n (tcb k' u) =
      but_block2n (if decide (u ∈ tq_list k q) then flushed status (tcb k u) else tcb k u).
Proof. intros. by apply flush_spec. Qed.

Lemma threadq_flush_witness :
  exists k', _Thread_queue_Flush 2 50 3 ThreadqExample.k4 = Some k' /\ tq_list k' 50 = [].
Proof.
  destruct ThreadqExample.k4_ok as (HS & HQ & EL).
  destruct (threadq_flush_correct 2 50 3 ThreadqExample.k4) as (k' & E & H & _).
  - exact HQ.
  - exact HS.
  - vm_compute. reflexivity.
  - rewrite EL. apply not_elem_of_cons. split; [discriminate|apply not_elem_of_nil].
  - rewrite EL. simpl. lia.
  - exists k'. exact (conj E H).
Defined.
