(* ===== verification/CoreWait.v ===== *)
(** * Waiting on a core object

    What semaphores, mutexes and message queues share: the executing thread enters the
    critical section of the object's thread queue, notes in its control block what it
    waits for, and enqueues itself; a release or a timeout that comes in between is not
    lost.  The lemmas here are the interface between the thread queue handler and the
    core objects. *)
From S2P Require Import Prelude Chain Watchdog WatchdogProofs WatchdogOps Object Priority Kernel Thread.
From S2P Require Import ThreadProofs ThreadSpec Threadq ThreadqProofs ThreadqSpec.

(** ** A thread that may wait *)

(** The timer of a thread can be started with a timeout. *)
Definition timer_free (wfuel : nat) (t timeout : Z) (k : Kernel) : Prop :=
  timeout = 0 \/ wd_ok (watchdogs k) /\ ~ on_chain (wd_state (ctl (watchdogs k) (Timer t))) /\
     u32 timeout /\ (length (chain_of Ticks (watchdogs k)) + 1 < wfuel)%nat.

(** The executing thread may wait on the queue at [q]. *)
Record can_wait (q : Z) (k : Kernel) : Prop := {
  cw_sched : sched_ok k;
  cw_queue : tq_ok k q;
  cw_off : _Thread_Executing k ∉ tq_list k q;
  cw_ready : is_ready k (_Thread_Executing k);
  cw_idle : _Thread_Executing k <> _Thread_Idle k;
  cw_state : tq_state (tq k q) <> STATES_READY
}.

Lemma enter_tq q k : tq (_Thread_queue_Enter_critical_section q k) q =
  set_sync_state THREAD_QUEUE_NOTHING_HAPPENED (tq k q).
Proof. unfold _Thread_queue_Enter_critical_section. rewrite tq_upd. by rewrite decide_True. Qed.

Lemma can_wait_sync q s k : can_wait q k -> can_wait q (upd_queue q (set_sync_state s) k).
Proof.
  intros [A B C D E F]. split; try done.
  - by apply sched_ok_queue.
  - by apply tq_ok_sync.
  - by rewrite tq_list_sync.
  - rewrite tq_upd, decide_True by done. exact F.
Qed.

Lemma can_wait_enter q k : can_wait q k -> can_wait q (_Thread_queue_Enter_critical_section q k).
Proof. apply can_wait_sync. Qed.

Section WaitField.
Context (f : Thread_Wait_information -> Thread_Wait_information) (Hf : forall w, Block2n (f w) = Block2n w).

Lemma can_wait_code q t k : known k t -> can_wait q k -> can_wait q (upd_wait t f k).
Proof using Hf.
  intros Hk [A B C D E F]. split; try done.
  - by apply code_sched.
  - by apply code_tq_ok.
  - by rewrite (code_list t f k Hf).
  - unfold is_ready. change (_Thread_Executing (upd_wait t f k)) with (_Thread_Executing k).
    by rewrite (proj1 (code_fields t f k _)).
Qed.
End WaitField.

(** States with the same threads, queues and scheduler variables. *)
Record same_threads (k k' : Kernel) : Prop := {
  st_threads : threads k' = threads k;
  st_queues : queues k' = queues k;
  st_executing : _Thread_Executing k' = _Thread_Executing k;
  st_heir : _Thread_Heir k' = _Thread_Heir k;
  st_idle : _Thread_Idle k' = _Thread_Idle k;
  st_necessary : _Context_Switch_necessary k' = _Context_Switch_necessary k;
  st_bits : bit_map k' = bit_map k;
  st_chain : _Thread_Ready_chain k' = _Thread_Ready_chain k
}.

Lemma same_threads_trans k k1 k2 : same_threads k k1 -> same_threads k1 k2 -> same_threads k k2.
Proof. intros [] []. split; congruence. Qed.

Lemma same_threads_tcb k k' u : same_threads k k' -> tcb k' u = tcb k u.
Proof. intros H. unfold tcb. by rewrite (st_threads _ _ H). Qed.

Lemma same_threads_tq k k' : same_threads k k' -> tq_same k k'.
Proof.
  intros H. pose proof (fun u => same_threads_tcb k k' u H) as HT.
  split; intros; unfold tq, block2n; rewrite ?(st_queues _ _ H), ?HT; done.
Qed.

Lemma same_threads_sched k k' : same_threads k k' -> sched_ok k -> sched_ok k'.
Proof. intros [A B C D E F G H] HS. by apply (sched_same k). Qed.

Lemma same_threads_list k k' q : same_threads k k' -> tq_list k' q = tq_list k q.
Proof. intros H%same_threads_tq. by rewrite H. Qed.

Lemma same_threads_tq_ok k k' q : same_threads k k' -> tq_ok k q -> tq_ok k' q.
Proof.
  intros H HQ. pose proof (same_threads_tq _ _ H) as HS. pose proof (fun u => same_threads_tcb k k' u H) as HT.
  split; rewrite ?(same_threads_list _ _ _ H), ?(ts_queue _ _ HS); try apply HQ.
  - intros u Hu. unfold known. rewrite (st_threads _ _ H). by apply HQ.
  - intros u Hu. rewrite HT. by apply HQ.
  - intros HD. eapply priority_ok_proper; [done|done|by apply HQ].
Qed.

Lemma same_threads_can_wait q k k' : same_threads k k' -> can_wait q k -> can_wait q k'.
Proof.
  intros H [A B C D E F]. pose proof (fun u => same_threads_tcb k k' u H) as HT. split.
  - by apply (same_threads_sched k).
  - by apply (same_threads_tq_ok k).
  - by rewrite (same_threads_list _ _ _ H), (st_executing _ _ H).
  - unfold is_ready. by rewrite HT, (st_executing _ _ H).
  - by rewrite (st_executing _ _ H), (st_idle _ _ H).
  - by rewrite (ts_queue _ _ (same_threads_tq _ _ H)).
Qed.

(** ** Waiting *)

Section Wait.
Context (routine : Z) (wfuel fuel : nat) (q timeout : Z) (k : Kernel).
Notation t := (_Thread_Executing k).
Notation s := (tq_state (tq k q)).
Context (HW : can_wait q k) (HT : timer_free wfuel t timeout k) (Hf : (length (tq_list k q) < fuel)%nat).

Lemma wait_spec : sync_state (tq k q) = THREAD_QUEUE_NOTHING_HAPPENED ->
  exists k', _Thread_queue_Enqueue routine wfuel id fuel [] q timeout k = Some k' /\
    tq_list k' q = joined k q t /\ tq_ok k' q /\ sched_ok k' /\
    _Context_Switch_necessary k' = true /\ sync_state (tq k' q) = THREAD_QUEUE_SYNCHRONIZED /\
    core_same k k' /\ _Thread_Executing k' = t /\
    (tq_state (tq k' q) = s /\ discipline (tq k' q) = discipline (tq k q) /\
     timeout_status (tq k' q) = timeout_status (tq k q)) /\
    forall u, but_block2n (tcb k' u) =
      but_block2n (if decide (u = t) then set_current_state s (tcb k t) else tcb k u).
Proof using HW HT Hf.
  destruct HW as [A B C D E F]. intros Hs.
  destruct (enqueue_spec routine wfuel fuel q timeout k)
    as (k' & X & X1 & X2 & X3 & _ & X4 & X5 & _ & _ & X6 & X7 & X8 & X9); try done.
  exists k'. destruct X8 as (?&?&?). by split_and!.
Qed.

(** The release or the timeout came before the thread was on the queue. *)
Lemma state_blocked : Z.land s STATES_BLOCKED = s.
Proof using HW. apply (to_state _ _ (cw_queue _ _ HW)). Qed.

Lemma state_cleared : _States_Clear STATES_BLOCKED s = STATES_READY.
Proof using HW.
  unfold _States_Clear, STATES_READY. rewrite <- state_blocked at 1. rewrite <- Z.land_assoc.
  change (Z.land STATES_BLOCKED (not32 STATES_BLOCKED)) with 0. apply Z.land_0_r.
Qed.

(** The thread is blocked and about to be linked in. *)
Record way_in (k3 : Kernel) : Prop := {
  wi_list : tq_list k3 q = tq_list k q;
  wi_queue : forall q', tq k3 q' = tq k q';
  wi_tq_ok : tq_ok k3 q;
  wi_known : known k3 t;
  wi_sched : sched_ok k3;
  wi_core : core_same k k3;
  wi_executing : _Thread_Executing k3 = t;
  wi_tcb : forall u, but_block2n (tcb k3 u) =
    but_block2n (if decide (u = t) then set_current_state s (tcb k t) else tcb k u)
}.

Lemma way_in_blocked w : way_in (set_watchdogs w (_Thread_Set_state t s k)).
Proof using HW.
  destruct HW as [HS HQ Ht Hr Hi Hst].
  destruct (blocked_for_ok q k w HS HQ Ht Hr Hi Hst) as (H1 & H2 & H3 & H4 & _).
  destruct (blocked_core q k w) as [C E]. pose proof (blocked_same q k w) as HB. split; try done.
  - by rewrite <- HB.
  - apply HB.
  - intros u. by rewrite blocked_for_tcb.
Qed.

Lemma way_in_off k2 : discipline (tq k2 q) = THREAD_QUEUE_DISCIPLINE_PRIORITY ->
  way_in k2 -> way_in (put_block2n t [] k2).
Proof using HW.
  intros HD [A B C D E F G H]. assert (t ∉ tq_list k2 q) as Ht by (rewrite A; apply HW).
  pose proof (put_block2n_links t [] k2 D) as HL. split; try done.
  - by rewrite off_list.
  - by apply off_ok.
  - by apply HL.
  - by apply (links_only_sched k2).
  - etransitivity; [exact F|apply HL].
  - intros u. by rewrite (lo_tcb _ _ HL).
Qed.

Lemma interrupted_enqueue : sync_state (tq k q) <> THREAD_QUEUE_NOTHING_HAPPENED ->
  exists k3, way_in k3 /\
    _Thread_queue_Enqueue routine wfuel id fuel [] q timeout k = Some (synchronize q t k3).
Proof using HW HT Hf.
  intros Hs. destruct (HW) as [HS HQ Ht Hr Hi Hst].
  unfold _Thread_queue_Enqueue.
  destruct (start_timer_quiet routine wfuel t timeout (_Thread_Set_state t s k)) as (w & E & _).
  { by rewrite (proj1 (proj2 (set_state_ready t s k Hr))). }
  rewrite E. pose proof (way_in_blocked w) as HWI. set (k2 := set_watchdogs w _) in *.
  destruct (blocked_for_ok q k w HS HQ Ht Hr Hi Hst) as (H1 & H2 & H3 & _ & _ & _ & H7).
  pose proof (wi_queue _ HWI q) as EQ.
  destruct (discipline (tq k2 q)) eqn:HD.
  - exists k2. split; [done|]. f_equal. unfold _Thread_queue_Enqueue_fifo. rewrite EQ.
    by destruct (sync_state (tq k q)).
  - destruct (enqueue_priority_spec fuel [] q t k2) as (n & k' & E' & _ & _ & HX); try done.
    + rewrite (ts_priority _ _ (blocked_same q k w)). by apply (ro_tcb _ _ (so_ready _ HS) t), HS.
    + rewrite (wi_list _ HWI). simpl. exact Hf.
    + rewrite take_nil in HX. exists (put_block2n t [] k2). split; [by apply way_in_off|].
      rewrite E'. f_equal. apply HX. change (sync_state (tq k2 q) <> THREAD_QUEUE_NOTHING_HAPPENED). by rewrite EQ.
Qed.

(** The control block of the thread when it goes on at once. *)
Definition resumed : Thread_Control :=
  match sync_state (tq k q) with
  | THREAD_QUEUE_TIMEOUT => with_code (timeout_status (tq k (Wait_queue (Wait (tcb k t))))) (tcb k t)
  | _ => tcb k t
  end.

(** Giving up the critical section and noting the outcome. *)
Record synced (k4 : Kernel) : Prop := {
  sy_list : tq_list k4 q = tq_list k q;
  sy_tq_ok : tq_ok k4 q;
  sy_known : known k4 t;
  sy_sched : sched_ok k4;
  sy_core : core_same k k4;
  sy_executing : _Thread_Executing k4 = t;
  sy_state : tq k4 q = set_sync_state THREAD_QUEUE_SYNCHRONIZED (tq k q);
  sy_tcb : forall u, but_block2n (tcb k4 u) =
    but_block2n (if decide (u = t) then set_current_state s resumed else tcb k u)
}.

Lemma synchronize_synced k3 : way_in k3 -> exists k4, synced k4 /\ synchronize q t k3 = _Thread_Unblock t k4.
Proof using HW.
  intros [A B C D E F G H]. set (k4 := upd_queue q (set_sync_state THREAD_QUEUE_SYNCHRONIZED) k3).
  assert (tq_list k4 q = tq_list k q) as E1 by (unfold k4; by rewrite tq_list_sync).
  assert (tq_ok k4 q) as E2 by (by apply tq_ok_sync).
  assert (sched_ok k4) as E3 by (by apply sched_ok_queue).
  assert (core_same k k4) as E4 by (destruct F; by split).
  assert (tq k4 q = set_sync_state THREAD_QUEUE_SYNCHRONIZED (tq k q)) as E5
    by (unfold k4; by rewrite tq_upd, decide_True, B).
  assert (forall q', timeout_status (tq k4 q') = timeout_status (tq k q')) as E6.
  { intros q'. unfold k4. rewrite tq_upd. case_decide; subst; by rewrite B. }
  unfold synchronize. rewrite B. fold k4. unfold resumed. destruct (sync_state (tq k q)) eqn:Hs.
  1-2: by exists k4; split; [split; unfold resumed; rewrite ?Hs|].
  - eexists. split; [|done]. set (code := timeout_status _).
    assert (code = timeout_status (tq k (Wait_queue (Wait (tcb k t))))) as EC.
    { unfold code. rewrite E6. do 2 f_equal. change (tcb k4 t) with (tcb k3 t). specialize (H t).
      rewrite decide_True in H by done. exact (f_equal (fun c => Wait_queue (Wait c)) H). }
    split; unfold resumed; rewrite ?Hs; try done.
    + by rewrite code_list.
    + by apply code_tq_ok.
    + by apply known_upd.
    + by apply code_sched.
    + etransitivity; [exact E4|apply core_upd_thread].
    + intros u. rewrite code_tcb. specialize (H u). change (tcb k4) with (tcb k3). rewrite <- EC.
      case_decide; subst; [|done]. rewrite but_block2n_code, H. done.
  - eexists. split; [|done]. pose proof (stop_timer_links t k4) as HL.
    split; unfold resumed; rewrite ?Hs.
    + rewrite <- E1. symmetry. exact (tq_list_proper _ _ (stop_timer_tq_same t k4) q q eq_refl).
    + destruct (stop_timer_same t k4) as [w ->]. by apply (same_threads_tq_ok k4).
    + by apply HL.
    + by apply (links_only_sched k4).
    + etransitivity; [exact E4|apply HL].
    + by rewrite (lo_executing _ _ HL).
    + by rewrite (ts_queue _ _ (stop_timer_tq_same t k4)).
    + intros u. rewrite (lo_tcb _ _ HL). exact (H u).
Qed.

Lemma interrupted_spec : sync_state (tq k q) <> THREAD_QUEUE_NOTHING_HAPPENED ->
  exists k', _Thread_queue_Enqueue routine wfuel id fuel [] q timeout k = Some k' /\
    tq_list k' q = tq_list k q /\ tq_ok k' q /\ sched_ok k' /\ is_ready k' t /\
    tq k' q = set_sync_state THREAD_QUEUE_SYNCHRONIZED (tq k q) /\ core_same k k' /\
    _Thread_Executing k' = t /\
    forall u, but_block2n (tcb k' u) = but_block2n (if decide (u = t) then resumed else tcb k u).
Proof using HW HT Hf.
  intros Hs. destruct (interrupted_enqueue Hs) as (k3 & HI & ->).
  destruct (synchronize_synced k3 HI) as (k4 & [A B C D E F G H] & ->).
  exists (_Thread_Unblock t k4). unfold _Thread_Unblock.
  destruct (clear_state_core t STATES_BLOCKED k4) as [HC HE].
  pose proof (clear_state_tq_same t STATES_BLOCKED k4) as HQ.
  assert (current_state (tcb k4 t) = s) as ES.
  { specialize (H t). rewrite decide_True in H by done. by apply but_block2n_fields in H as (-> & _). }
  destruct (clear_state_effect t STATES_BLOCKED k4) as [HT4 _].
  { rewrite ES, state_blocked. apply HW. }
  rewrite ES, state_cleared in HT4.
  assert (forall u, but_block2n (tcb (_Thread_Clear_state t STATES_BLOCKED k4) u) =
    but_block2n (if decide (u = t) then resumed else tcb k u)) as HR.
  { intros u. rewrite HT4. specialize (H u). destruct (decide (u = t)) as [-> |]; [|done].
    transitivity (set_current_state STATES_READY (but_block2n (tcb k4 t))); [done|]. rewrite H.
    assert (current_state resumed = STATES_READY) as ER
      by (unfold resumed; pose proof (cw_ready _ _ HW) as X; unfold is_ready in X; by destruct (sync_state _)).
    rewrite <- ER. by destruct resumed. }
  split_and!; try done.
  - rewrite <- A. symmetry. exact (tq_list_proper _ _ HQ q q eq_refl).
  - apply (tq_ok_frame q t k4); [done|rewrite A; apply HW|done| |].
    + intros u Hu. destruct (clear_state_threads t STATES_BLOCKED k4) as (c & [E'|E']); unfold known; rewrite E'; [|done].
      by apply (known_upd k4 t c u).
    + intros u Hu. by rewrite HT4, decide_False.
  - by apply clear_state_ok.
  - unfold is_ready. by rewrite HT4, decide_True.
  - by rewrite (ts_queue _ _ HQ).
  - by etransitivity.
  - by rewrite HE.
Qed.
End Wait.

(** ** Noting what the thread waits for *)

(** [k1] is [k] after the executing thread changed its wait information by [g] and the
    synchronization state of the queue at [q] became [ss]. *)
Record noted (q : Z) (g : Thread_Wait_information -> Thread_Wait_information) (ss : Thread_queue_States)
    (k k1 : Kernel) : Prop := {
  no_wait : can_wait q k1;
  no_list : tq_list k1 q = tq_list k q;
  no_queue : tq k1 q = set_sync_state ss (tq k q);
  no_core : core_same k k1;
  no_executing : _Thread_Executing k1 = _Thread_Executing k;
  no_timers : watchdogs k1 = watchdogs k;
  no_tcb : forall u, tcb k1 u = if decide (u = _Thread_Executing k)
    then set_Wait (g (Wait (tcb k u))) (tcb k u) else tcb k u
}.

Lemma noted_refl q k : can_wait q k -> noted q id (sync_state (tq k q)) k k.
Proof.
  intros HW. split; try done.
  - by destruct (tq k q).
  - intros u. case_decide; [|done]. unfold id. by destruct (tcb k u).
Qed.

Lemma noted_code q g f ss k k1 : (forall w, Block2n (f w) = Block2n w) -> noted q g ss k k1 ->
  noted q (fun w => f (g w)) ss k (upd_wait (_Thread_Executing k) f k1).
Proof.
  intros Hf [A B C D E F G]. rewrite <- E. assert (known k1 (_Thread_Executing k1)) as Hk by (apply A). split; try done.
  - by apply can_wait_code.
  - by rewrite code_list.
  - etransitivity; [exact D|apply core_upd_thread].
  - intros u. rewrite code_tcb, E. destruct (decide (u = _Thread_Executing k)) as [-> |Hu];
      rewrite G, ?decide_True, ?decide_False by done; done.
Qed.

Lemma noted_enter q g ss k k1 : noted q g ss k k1 ->
  noted q g THREAD_QUEUE_NOTHING_HAPPENED k (_Thread_queue_Enter_critical_section q k1).
Proof.
  intros [A B C D E F G]. split; try done.
  - by apply can_wait_enter.
  - unfold _Thread_queue_Enter_critical_section. by rewrite tq_list_sync.
  - by rewrite enter_tq, C.
  - destruct D. by split.
Qed.

Lemma noted_joined q g ss k k1 t : noted q g ss k k1 -> joined k1 q t = joined k q t.
Proof.
  intros [A B C D E F G]. assert (forall u, current_priority (tcb k1 u) = current_priority (tcb k u)) as EP
    by (intros u; rewrite G; by case_decide).
  unfold joined. rewrite B, C. simpl. destruct (discipline _); [done|].
  unfold stable_insert. rewrite EP. f_equal; [|f_equal]; apply list_filter_iff; intros u; by rewrite EP.
Qed.

(** The executing thread's control block after it noted [g]. *)
Definition noted_thread (g : Thread_Wait_information -> Thread_Wait_information) (c : Thread_Control) : Thread_Control :=
  set_Wait (g (Wait c)) c.

Lemma noted_wait_spec routine wfuel fuel q timeout g k k1 :
  let t := _Thread_Executing k in
  noted q g THREAD_QUEUE_NOTHING_HAPPENED k k1 -> timer_free wfuel t timeout k ->
  (length (tq_list k q) < fuel)%nat ->
  exists k', _Thread_queue_Enqueue routine wfuel id fuel [] q timeout k1 = Some k' /\
    tq_list k' q = joined k q t /\ tq_ok k' q /\ sched_ok k' /\
    _Context_Switch_necessary k' = true /\ sync_state (tq k' q) = THREAD_QUEUE_SYNCHRONIZED /\
    core_same k k' /\ _Thread_Executing k' = t /\
    (tq_state (tq k' q) = tq_state (tq k q) /\ discipline (tq k' q) = discipline (tq k q) /\
     timeout_status (tq k' q) = timeout_status (tq k q)) /\
    forall u, but_block2n (tcb k' u) = but_block2n (if decide (u = t)
      then set_current_state (tq_state (tq k q)) (noted_thread g (tcb k t)) else tcb k u).
Proof.
  intros t HN HT Hf. destruct (HN) as [A B C D E F G].
  destruct (wait_spec routine wfuel fuel q timeout k1) as (k' & X0 & X1 & X2 & X3 & X4 & X5 & X6 & X7 & X8 & X9);
    rewrite ?E, ?B; try done.
  - unfold timer_free. rewrite F. exact HT.
  - by rewrite C.
  - exists k'. rewrite C in X8. simpl in X8. rewrite E in X1, X7. rewrite (noted_joined _ _ _ _ _ _ HN) in X1.
    split; [done|]. split; [done|]. split; [done|]. split; [done|]. split; [done|]. split; [done|].
    split; [by etransitivity|]. split; [done|]. split; [done|].
    intros u. rewrite X9, E, C. simpl. fold t. destruct (decide (u = t)) as [-> |];
        rewrite G, ?decide_True, ?decide_False by done; done.
Qed.

(** ** Releasing the first thread *)

(** A thread that was released. *)
Definition unblocked (c : Thread_Control) : Thread_Control :=
  set_current_state (_States_Clear STATES_BLOCKED (current_state c)) c.

Lemma dequeue_none q k : tq_ok k q -> sync_state (tq k q) = THREAD_QUEUE_SYNCHRONIZED -> tq_list k q = [] ->
  _Thread_queue_Dequeue q k = (NULL, k).
Proof.
  intros HQ Hs EL. pose proof (dequeue_spec q k HQ) as HD. rewrite EL in HD. rewrite HD.
  unfold dequeue_empty. by rewrite Hs.
Qed.

Lemma dequeue_first q k u rest : tq_ok k q -> sched_ok k -> tq_list k q = u :: rest ->
  exists k', _Thread_queue_Dequeue q k = (u, k') /\
    tq_list k' q = rest /\ tq_ok k' q /\ sched_ok k' /\
    (sync_state (tq k' q) = sync_state (tq k q) /\ discipline (tq k' q) = discipline (tq k q) /\
     tq_state (tq k' q) = tq_state (tq k q) /\ timeout_status (tq k' q) = timeout_status (tq k q)) /\
    core_same k k' /\ _Thread_Executing k' = _Thread_Executing k /\
    forall v, but_block2n (tcb k' v) = but_block2n (if decide (v = u) then unblocked (tcb k u) else tcb k v).
Proof.
  intros HQ HS EL. pose proof (dequeue_spec q k HQ) as HD. rewrite EL in HD. destruct HD as (k1 & HT & ->).
  assert (u ∈ tq_list k q) as Hin by (rewrite EL; left).
  pose proof (released_list q u k k1 HT) as RL. rewrite EL in RL. simpl in RL. rewrite decide_True in RL by done.
  destruct (released_core q u k k1 HT) as [RC RE].
  exists (release u k1). split; [done|]. split; [done|]. split; [by apply (released_tq_ok q u k)|].
  split; [by apply (released_sched q u k)|]. split; [by apply released_queue|]. split; [done|]. split; [done|].
  intros v. rewrite (released_tcb q u k) by done. by case_decide.
Qed.

(** ** Frames of a queue *)

Lemma tq_ok_steady q k k' : tq_ok k q -> tq_same k k' -> (forall u, known k u -> known k' u) ->
  (forall u, current_state (tcb k' u) = current_state (tcb k u)) -> tq_ok k' q.
Proof.
  intros HQ HS HK HC. assert (tq_list k' q = tq_list k q) as EL by (by rewrite HS).
  split; rewrite ?EL, ?(ts_queue _ _ HS); try apply HQ.
  - intros u Hu. by apply HK, HQ.
  - intros u Hu. rewrite HC. by apply HQ.
  - intros HD. eapply priority_ok_proper; [done|done|by apply HQ].
Qed.

(** Changes of a thread that neither the scheduler nor the queues look at. *)
Definition unseen (f : Thread_Control -> Thread_Control) : Prop := forall c,
  inert f /\ Wait (f c) = Wait c /\ current_priority (f c) = current_priority c /\ current_state (f c) = current_state c /\
  Object_id (f c) = Object_id c.

Section Unseen.
Context (t : Z) (f : Thread_Control -> Thread_Control) (k : Kernel) (Hf : unseen f) (Hk : known k t).
Let k' := upd_thread t f k.

Lemma unseen_tcb u : Wait (tcb k' u) = Wait (tcb k u) /\ current_priority (tcb k' u) = current_priority (tcb k u) /\
  current_state (tcb k' u) = current_state (tcb k u) /\ Object_id (tcb k' u) = Object_id (tcb k u).
Proof using Hf. unfold k'. rewrite tcb_upd. case_decide; [subst; apply Hf|done]. Qed.

Lemma unseen_tq_same : tq_same k k'.
Proof using Hf. split; intros; [done|apply unseen_tcb..]. Qed.

Lemma unseen_list q : tq_list k' q = tq_list k q.
Proof using Hf. by rewrite <- unseen_tq_same. Qed.

Lemma unseen_tq_ok q : tq_ok k q -> tq_ok k' q.
Proof using Hf.
  intros HQ. apply (tq_ok_steady q k); [done|apply unseen_tq_same|intros u; apply known_mono|].
  intros u. apply unseen_tcb.
Qed.

Lemma unseen_sched : sched_ok k -> sched_ok k'.
Proof using Hf Hk. intros HS. by apply inert_ok; [apply (Hf inhabitant)| |]. Qed.
End Unseen.

Lemma filter_ext_in (P Q : Z -> Prop) `{forall x, Decision (P x)} `{forall x, Decision (Q x)} (l : list Z) :
  (forall u, u ∈ l -> P u <-> Q u) -> filter P l = filter Q l.
Proof.
  induction l as [|y l IH]; [done|]. intros HPQ. rewrite !filter_cons.
  assert (P y <-> Q y) as Hy by (apply HPQ; left). rewrite IH by (intros u Hu; apply HPQ; by right).
  destruct (decide (P y)), (decide (Q y)); tauto.
Qed.

(** Where a thread joins depends on the priorities of those that wait and on its own. *)
Lemma joined_ext q t k k' : tq k' q = tq k q -> tq_list k' q = tq_list k q ->
  current_priority (tcb k' t) = current_priority (tcb k t) ->
  (forall u, u ∈ tq_list k q -> current_priority (tcb k' u) = current_priority (tcb k u)) -> joined k' q t = joined k q t.
Proof.
  intros EQ EL Et EU. unfold joined. rewrite EQ, EL, Et. destruct (discipline _); [done|]. unfold stable_insert.
  f_equal; [|f_equal]; apply filter_ext_in; intros u Hu; by rewrite EU.
Qed.

(** ** Priorities *)

Section ChangePriority.
Context (t p : Z) (pre : bool) (k : Kernel) (HS : sched_ok k) (Hk : known k t) (Hp : prio p).
Let k' := _Thread_Change_priority t p pre k.

Lemma change_priority_lifted : threads k' = threads (lifted t p k) /\ queues k' = queues (lifted t p k) /\
  watchdogs k' = watchdogs (lifted t p k) /\ core_same (lifted t p k) k' /\
  _Thread_Executing k' = _Thread_Executing (lifted t p k) /\ _Thread_Idle k' = _Thread_Idle (lifted t p k).
Proof using.
  unfold k'. rewrite change_priority_eq. destruct (_States_Is_ready _); [|done].
  unfold reschedule, enter. by destruct pre, (negb _ && _).
Qed.

Lemma lifted_same : queues (lifted t p k) = queues k /\ watchdogs (lifted t p k) = watchdogs k /\
  core_same k (lifted t p k) /\ _Thread_Executing (lifted t p k) = _Thread_Executing k /\
  _Thread_Idle (lifted t p k) = _Thread_Idle k.
Proof using Hk.
  pose proof (fun u => proj2 (lifted_known t p k Hk u)) as HK. split_and!; [..|split; [..|exact HK]| |]; clear HK;
    unfold lifted, _Thread_Set_transient, _Thread_Set_priority, remove_ready; repeat case_match; done.
Qed.

Lemma change_priority_tcb u : tcb k' u = if decide (u = t) then repriced p (tcb k t) else tcb k u.
Proof using HS Hk.
  unfold tcb at 1. rewrite (proj1 change_priority_lifted). exact (lifted_tcb t p k HS Hk u).
Qed.

Lemma change_priority_known u : known k' u <-> known k u.
Proof using HS Hk. unfold known. rewrite (proj1 change_priority_lifted). exact (lifted_known t p k Hk u). Qed.

Lemma change_priority_frame :
  core_same k k' /\ watchdogs k' = watchdogs k /\ _Thread_Executing k' = _Thread_Executing k /\
  _Thread_Idle k' = _Thread_Idle k /\ forall q, tq k' q = tq k q.
Proof using Hk.
  destruct change_priority_lifted as (_ & A & B & C & D & E). destruct lifted_same as (A' & B' & C' & D' & E').
  split_and!; [by etransitivity|congruence..|]. intros q. unfold tq. by rewrite A, A'.
Qed.

Lemma change_priority_list q : tq_list k' q = tq_list k q.
Proof using HS Hk.
  destruct change_priority_frame as (_ & _ & _ & _ & EQ). unfold tq_list, queue_chain. rewrite EQ.
  destruct (discipline _); [done|]. apply flat_map_ext. intros i. apply flat_map_ext. intros h.
  unfold group, block2n. rewrite change_priority_tcb. by case_decide; subst.
Qed.

Lemma change_priority_tq_ok q : tq_ok k q -> t ∉ tq_list k q -> tq_ok k' q.
Proof using HS Hk.
  intros HQ Ht. destruct change_priority_frame as (_ & _ & _ & _ & EQ).
  assert (forall u, u ∈ tq_list k q -> tcb k' u = tcb k u) as ET.
  { intros u Hu. rewrite change_priority_tcb, decide_False; [done|]. by intros ->. }
  split; rewrite ?change_priority_list, ?EQ; try apply HQ.
  - intros u Hu. by apply change_priority_known, HQ.
  - intros u Hu. rewrite ET by done. by apply HQ.
  - intros HD. assert (forall i h, i ∈ priority_headers -> h ∈ queue_chain k q i -> h ∈ tq_list k q) as HH
      by (intros i h Hi Hh; apply (on_header_in q k HD); exists i; split; [done|by apply on_header_head]).
    assert (forall i h m, i ∈ priority_headers -> h ∈ queue_chain k q i -> m ∈ block2n k h -> m ∈ tq_list k q) as HM.
    { intros i h m Hi Hh Hm. apply (on_header_in q k HD). exists i. split; [done|]. apply elem_of_flat_map.
      exists h. split; [done|by right]. }
    destruct (to_priority _ _ HQ HD) as [A B C]. split; unfold queue_chain in *; setoid_rewrite EQ.
    + intros i Hi. eapply sorted_impl; [|by apply A]. intros u v Hu Hv. by rewrite !ET by (by apply (HH i)).
    + intros i h Hi Hh. rewrite ET by (by apply (HH i)). by apply B.
    + intros i h m Hi Hh. assert (block2n k' h = block2n k h) as -> by (unfold block2n; by rewrite ET by (by apply (HH i))).
      intros Hm. rewrite (ET m) by (by apply (HM i h)). rewrite (ET h) by (by apply (HH i)).
      assert (block2n k' m = block2n k m) as -> by (unfold block2n; by rewrite ET by (by apply (HM i h))).
      by apply (C i).
Qed.

Lemma change_priority_sched : sched_ok k'.
Proof using HS Hk Hp. by apply change_priority_ok. Qed.
End ChangePriority.

(** A priority queue is in the order of priorities. *)
Lemma flat_map_sorted {A B} (S : relation A) (R : relation B) (f : A -> list B) l :
  StronglySorted S l -> (forall x, x ∈ l -> StronglySorted R (f x)) ->
  (forall x y a b, x ∈ l -> y ∈ l -> S x y -> a ∈ f x -> b ∈ f y -> R a b) -> StronglySorted R (flat_map f l).
Proof.
  induction 1 as [|x l HS IH HF]; intros H1 H2; [constructor|]. simpl. rewrite Forall_forall in HF.
  apply StronglySorted_app. split_and!.
  - intros a b Ha Hb. rewrite list_elem_of_In, in_flat_map in Hb. destruct Hb as (y & Hy & Hb).
    rewrite <- !list_elem_of_In in *. apply (H2 x y); try done; [left|by right|by apply HF].
  - apply H1. left.
  - apply IH; [intros y Hy; apply H1; by right|]. intros y z a b Hy Hz. apply H2; by right.
Qed.

Lemma tq_list_sorted q k : tq_ok k q -> discipline (tq k q) = THREAD_QUEUE_DISCIPLINE_PRIORITY ->
  StronglySorted (fun a b => current_priority (tcb k a) <= current_priority (tcb k b)) (tq_list k q).
Proof.
  intros HQ HD. pose proof (to_priority _ _ HQ HD) as HP. rewrite (tq_list_headers q k HD).
  assert (forall i h a, i ∈ priority_headers -> h ∈ queue_chain k q i -> a ∈ group k h ->
    current_priority (tcb k a) = current_priority (tcb k h)) as HG.
  { intros i h a Hi Hh [-> |Ha]%elem_of_cons; [done|]. by apply (po_block _ _ HP i h a). }
  apply (flat_map_sorted Z.lt).
  - rewrite priority_headers_eq. repeat constructor; lia.
  - intros i Hi. apply (flat_map_sorted (fun a b => current_priority (tcb k a) < current_priority (tcb k b))).
    + by apply HP.
    + intros h Hh. pose proof (HG i h) as HGh. induction (group k h) as [|a l IH]; [constructor|].
      constructor; [apply IH; intros b Hi' Hh' Hb; apply HGh; try done; by right|].
      apply Forall_forall. intros b Hb. rewrite (HGh a), (HGh b); (done || by left || by right).
    + intros h h' a b Hh Hh' Hlt Ha Hb. rewrite (HG i h a), (HG i h' b) by done. lia.
  - intros i j a b Hi Hj Hlt Ha Hb.
    destruct (on_header_priority q k HP i a Hi Ha) as [_ Ea]. destruct (on_header_priority q k HP j b Hj Hb) as [_ Eb].
    unfold _Thread_queue_Header_number, TASK_QUEUE_DATA_PRIORITIES_PER_HEADER in *. Z.div_mod_to_equations; lia.
Qed.

Lemma head_highest q k u rest w : tq_ok k q -> discipline (tq k q) = THREAD_QUEUE_DISCIPLINE_PRIORITY ->
  tq_list k q = u :: rest -> w ∈ rest -> current_priority (tcb k u) <= current_priority (tcb k w).
Proof.
  intros HQ HD EL Hw. pose proof (tq_list_sorted q k HQ HD) as HS. rewrite EL in HS.
  apply StronglySorted_cons in HS as [HF _]. rewrite Forall_forall in HF. by apply HF.
Qed.
