(* ===== verification/CoreSem.v ===== *)
(** * Core Semaphore Handler (score/src/coresem.c, score/inline/coresem.inl)

    Counting semaphores.  The control block at [s] is [sem k s]; its thread queue has the
    same address. *)
From S2P Require Import Prelude Chain Watchdog WatchdogProofs WatchdogOps Object Priority Kernel Thread.
From S2P Require Import ThreadProofs ThreadSpec Threadq ThreadqProofs ThreadqSpec CoreWait.

(** ** Statuses (headers/coresem.h) *)

Definition CORE_SEMAPHORE_STATUS_SUCCESSFUL : Z := 0.
Definition CORE_SEMAPHORE_STATUS_UNSATISFIED_NOWAIT : Z := 1.
Definition CORE_SEMAPHORE_WAS_DELETED : Z := 2.
Definition CORE_SEMAPHORE_TIMEOUT : Z := 3.

(** ** Operations *)

Definition _CORE_semaphore_Is_priority (the_attribute : CORE_semaphore_Disciplines) : bool :=
  match the_attribute with CORE_SEMAPHORE_DISCIPLINES_PRIORITY => true | _ => false end.
Definition _CORE_semaphore_Get_count (k : Kernel) (s : Z) : Z := sem_count (sem k s).

Definition _CORE_semaphore_Initialize (s the_class : Z) (attributes : CORE_semaphore_Disciplines)
    (initial_value proxy_extract_callout : Z) (k : Kernel) : Kernel :=
  let k := upd_sem s (fun _ => {| sem_discipline := attributes; sem_count := initial_value |}) k in
  _Thread_queue_Initialize s the_class
    (if _CORE_semaphore_Is_priority attributes
     then THREAD_QUEUE_DISCIPLINE_PRIORITY else THREAD_QUEUE_DISCIPLINE_FIFO)
    STATES_WAITING_FOR_SEMAPHORE proxy_extract_callout CORE_SEMAPHORE_TIMEOUT k.

(** [mp_support] is the callout for a thread of another node. *)
Section Surrender.
Context (_Objects_Local_node : Z) (mp_support : Z -> Z -> Kernel -> Kernel).

Definition _CORE_semaphore_Surrender (s id : Z) (k : Kernel) : Z * Kernel :=
  let '(the_thread, k) := _Thread_queue_Dequeue s k in
  let k :=
    if negb (the_thread =? NULL) then
      if negb (_Objects_Is_local_id _Objects_Local_node (Object_id (tcb k the_thread)))
      then mp_support the_thread id k else k
    else upd_sem s (fun c => set_sem_count (sem_count c +w 1) c) k in
  (CORE_SEMAPHORE_STATUS_SUCCESSFUL, k).
End Surrender.

(** [isr] is the interrupts that are taken once they are enabled again, before the thread
    is enqueued; the other parameters are those of [_Thread_queue_Enqueue]. *)
Section Seize.
Context (timeout_routine : Z) (wfuel : nat) (wisr : Kernel -> Kernel).
Context (fuel : nat) (isrs : list (Kernel -> Kernel)) (isr : Kernel -> Kernel).

Definition _CORE_semaphore_Seize (s id : Z) (wait : bool) (timeout : Z) (k : Kernel) : option Kernel :=
  let executing := _Thread_Executing k in
  let k := upd_wait executing (set_Wait_return_code CORE_SEMAPHORE_STATUS_SUCCESSFUL) k in
  if negb (sem_count (sem k s) =? 0)
  then Some (upd_sem s (fun c => set_sem_count (sem_count c -w 1) c) k)
  else if negb wait
  then Some (upd_wait executing (set_Wait_return_code CORE_SEMAPHORE_STATUS_UNSATISFIED_NOWAIT) k)
  else
    let k := _Thread_queue_Enter_critical_section s k in
    let k := upd_wait executing (set_Wait_queue s) k in
    let k := upd_wait executing (set_Wait_id id) k in
    let k := isr k in
    _Thread_queue_Enqueue timeout_routine wfuel wisr fuel isrs s timeout k.
End Seize.

Definition _CORE_semaphore_Flush (fuel : nat) (s status : Z) (k : Kernel) : option Kernel :=
  _Thread_queue_Flush fuel s status k.

(** ** The invariant *)

(** Units are available only while no thread waits. *)
Record sem_ok (s : Z) (k : Kernel) : Prop := {
  so_queue : tq_ok k s;
  so_sched : sched_ok k;
  so_sync : sync_state (tq k s) = THREAD_QUEUE_SYNCHRONIZED;
  so_state : tq_state (tq k s) = STATES_WAITING_FOR_SEMAPHORE;
  so_count : u32 (sem_count (sem k s));
  so_null : NULL ∉ tq_list k s;
  so_units : sem_count (sem k s) <> 0 -> tq_list k s = []
}.

Lemma sem_upd k s f : sem (upd_sem s f k) s = f (sem k s).
Proof. unfold sem at 1, upd_sem. simpl. apply lookup_total_insert_eq. Qed.

Lemma upd_sem_threads s f k : same_threads k (upd_sem s f k).
Proof. by split. Qed.

Lemma core_sem k k' s : core_same k k' -> sem k' s = sem k s.
Proof. intros H. unfold sem. by rewrite (cs_semaphores _ _ H). Qed.

(** The executing thread notes what it waits for. *)
Definition noting (s id : Z) (k : Kernel) : Kernel :=
  let executing := _Thread_Executing k in
  let k := upd_wait executing (set_Wait_return_code CORE_SEMAPHORE_STATUS_SUCCESSFUL) k in
  upd_wait executing (set_Wait_id id) (upd_wait executing (set_Wait_queue s)
    (_Thread_queue_Enter_critical_section s k)).

Lemma noting_noted s id k : can_wait s k ->
  noted s (fun w => set_Wait_id id (set_Wait_queue s (set_Wait_return_code CORE_SEMAPHORE_STATUS_SUCCESSFUL w)))
    THREAD_QUEUE_NOTHING_HAPPENED k (noting s id k).
Proof.
  intros HW. apply noted_refl in HW. unfold noting. cbn zeta.
  apply (noted_code s (fun w => set_Wait_queue s (set_Wait_return_code CORE_SEMAPHORE_STATUS_SUCCESSFUL w))); [done|].
  apply (noted_code s (set_Wait_return_code CORE_SEMAPHORE_STATUS_SUCCESSFUL)); [done|].
  eapply noted_enter. apply (noted_code s Datatypes.id (set_Wait_return_code CORE_SEMAPHORE_STATUS_SUCCESSFUL)); done.
Qed.

(** What the operations leave behind, for a caller with a status [code]. *)
Definition with_status (t code : Z) (k : Kernel) (u : Z) : Thread_Control :=
  if decide (u = t) then with_code code (tcb k u) else tcb k u.

Section Operations.
Context (s : Z) (k : Kernel) (HO : sem_ok s k).
Notation t := (_Thread_Executing k).
Notation count := (sem_count (sem k s)).

(** *** Seizing *)

Section Seizing.
Context (routine : Z) (wfuel fuel : nat) (isr : Kernel -> Kernel) (id timeout : Z).
Let seize (wait : bool) := _CORE_semaphore_Seize routine wfuel Datatypes.id fuel [] isr s id wait timeout k.

Lemma seize_available wait : count <> 0 -> exists k', seize wait = Some k' /\ sem_ok s k' /\
  sem_count (sem k' s) = count - 1 /\ tq_list k' s = [] /\ _Thread_Executing k' = t /\
  forall u, tcb k' u = with_status t CORE_SEMAPHORE_STATUS_SUCCESSFUL k u.
Proof using HO.
  intros Hc. destruct HO as [A B C D E F G]. unfold seize, _CORE_semaphore_Seize. cbn zeta.
  set (k1 := upd_wait t _ k). change (sem k1 s) with (sem k s). rewrite (proj2 (Z.eqb_neq _ _) Hc). cbn [negb].
  eexists. split; [reflexivity|]. set (k2 := upd_sem s _ k1).
  assert (known k t) as Hk by apply B.
  assert (sem_count (sem k2 s) = count - 1) as EC.
  { unfold k2. rewrite sem_upd. simpl. change (sem k1 s) with (sem k s).
    apply wrap32_small. unfold u32 in *. lia. }
  pose proof (upd_sem_threads s (fun c => set_sem_count (sem_count c -w 1) c) k1) as HT. fold k2 in HT.
  assert (tq_list k2 s = tq_list k s) as EL by (rewrite (same_threads_list _ _ _ HT); unfold k1; by rewrite code_list).
  split_and!; try done.
  - split; rewrite ?EL, ?EC; try done.
    + apply (same_threads_tq_ok k1); [done|]. by apply code_tq_ok.
    + apply (same_threads_sched k1); [done|]. by apply code_sched.
    + unfold u32 in *. lia.
    + intros _. by apply G.
  - rewrite EL. by apply G.
  - intros u. rewrite (same_threads_tcb _ _ _ HT). unfold k1, with_status. rewrite code_tcb.
    case_decide; by subst.
Qed.

Lemma upd_status_twice t0 a b k0 u : tcb (upd_wait t0 (set_Wait_return_code b) (upd_wait t0 (set_Wait_return_code a) k0)) u =
  with_status t0 b k0 u.
Proof using. unfold with_status. rewrite !code_tcb. case_decide; [subst; by rewrite decide_True|done]. Qed.

Lemma sem_seize_refused : count = 0 -> exists k', seize false = Some k' /\ sem_ok s k' /\
  sem k' s = sem k s /\ tq_list k' s = tq_list k s /\ _Thread_Executing k' = t /\
  forall u, tcb k' u = with_status t CORE_SEMAPHORE_STATUS_UNSATISFIED_NOWAIT k u.
Proof using HO.
  intros Hc. destruct HO as [A B C D E F G]. unfold seize, _CORE_semaphore_Seize. cbn zeta.
  set (k1 := upd_wait t _ k). change (sem k1 s) with (sem k s). rewrite (proj2 (Z.eqb_eq _ _) Hc). cbn [negb].
  eexists. split; [reflexivity|]. set (k2 := upd_wait t _ k1).
  assert (known k t) as Hk by apply B. assert (known k1 t) as Hk1 by by apply known_upd.
  assert (tq_list k2 s = tq_list k s) as EL by (unfold k2, k1; by rewrite !code_list).
  split_and!; try done.
  - split; rewrite ?EL; try done.
    + by apply code_tq_ok, code_tq_ok.
    + by apply code_sched, code_sched.
  - intros u. apply upd_status_twice.
Qed.

Lemma sem_seize_waits : count = 0 -> isr = Datatypes.id -> can_wait s k -> timer_free wfuel t timeout k -> t <> NULL ->
  (length (tq_list k s) < fuel)%nat ->
  exists k', seize true = Some k' /\ sem_ok s k' /\ sem k' s = sem k s /\ tq_list k' s = joined k s t /\
    _Thread_Executing k' = t /\ _Context_Switch_necessary k' = true /\
    forall u, but_block2n (tcb k' u) = but_block2n (if decide (u = t)
      then set_current_state STATES_WAITING_FOR_SEMAPHORE (noted_thread (fun w => set_Wait_id id (set_Wait_queue s
             (set_Wait_return_code CORE_SEMAPHORE_STATUS_SUCCESSFUL w))) (tcb k t)) else tcb k u).
Proof using HO.
  intros Hc -> HW HT Hn Hf. unfold seize, _CORE_semaphore_Seize. cbn zeta.
  change (sem (upd_wait t _ k) s) with (sem k s). rewrite (proj2 (Z.eqb_eq _ _) Hc). cbn [negb].
  change (Datatypes.id _) with (noting s id k).
  destruct (noted_wait_spec routine wfuel fuel s timeout _ k (noting s id k) (noting_noted s id k HW) HT Hf)
    as (k' & X0 & X1 & X2 & X3 & X4 & X5 & X6 & X7 & (X8 & _) & X9).
  assert (tq_state (tq k s) = STATES_WAITING_FOR_SEMAPHORE) as ES by apply HO.
  exists k'. rewrite ES in X8, X9. split_and!; try done; [|by apply core_sem].
  split; try done; rewrite ?(core_sem _ _ _ X6).
  - apply HO.
  - rewrite X1, joined_perm. apply not_elem_of_cons. split; [done|apply HO].
  - intros Hc'. by rewrite Hc in Hc'.
Qed.
End Seizing.

(** *** Surrendering *)

Section Surrendering.
Context (node : Z) (mp : Z -> Z -> Kernel -> Kernel) (id : Z).
Let surrender := _CORE_semaphore_Surrender node mp s id k.

Lemma surrender_returned : tq_list k s = [] -> count < two32 - 1 ->
  surrender = (CORE_SEMAPHORE_STATUS_SUCCESSFUL, upd_sem s (fun c => set_sem_count (sem_count c +w 1) c) k) /\
  sem_ok s surrender.2 /\ sem_count (sem surrender.2 s) = count + 1 /\ tq_list surrender.2 s = [].
Proof using HO.
  intros EL Hc. destruct HO as [A B C D E F G]. unfold surrender, _CORE_semaphore_Surrender.
  rewrite (dequeue_none s k A C EL). cbn [negb]. rewrite Z.eqb_refl. cbn [negb snd].
  set (f := fun c => set_sem_count _ c). pose proof (upd_sem_threads s f k) as HT.
  assert (sem_count (sem (upd_sem s f k) s) = count + 1) as EC.
  { rewrite sem_upd. apply wrap32_small. unfold u32 in *. lia. }
  assert (tq_list (upd_sem s f k) s = []) as EL' by (by rewrite (same_threads_list _ _ _ HT)).
  split_and!; try done. split; rewrite ?EL', ?EC; try done.
  - by apply (same_threads_tq_ok k).
  - by apply (same_threads_sched k).
  - unfold u32 in *. lia.
  - apply not_elem_of_nil.
Qed.

Lemma surrender_granted u rest : tq_list k s = u :: rest ->
  _Objects_Is_local_id node (Object_id (tcb k u)) = true ->
  surrender.1 = CORE_SEMAPHORE_STATUS_SUCCESSFUL /\ sem_ok s surrender.2 /\ sem surrender.2 s = sem k s /\
  tq_list surrender.2 s = rest /\ _Thread_Executing surrender.2 = t /\
  forall v, but_block2n (tcb surrender.2 v) = but_block2n (if decide (v = u) then unblocked (tcb k u) else tcb k v).
Proof using HO.
  intros EL Hl. destruct HO as [A B C D E F G].
  destruct (dequeue_first s k u rest A B EL) as (k' & X0 & X1 & X2 & X3 & (X4 & _ & X5 & _) & X6 & X7 & X8).
  unfold surrender, _CORE_semaphore_Surrender. rewrite X0.
  assert (u <> NULL) as Hu by (intros ->; apply F; rewrite EL; left).
  rewrite (proj2 (Z.eqb_neq _ _) Hu). cbn [negb].
  assert (Object_id (tcb k' u) = Object_id (tcb k u)) as EO.
  { specialize (X8 u). rewrite decide_True in X8 by done. exact (f_equal Object_id X8). }
  rewrite EO, Hl. cbn [negb fst snd].
  split_and!; try done; [|by apply core_sem]. split; rewrite ?X1, ?(core_sem _ _ s X6); try done.
  - by rewrite X4.
  - by rewrite X5.
  - intros HN. apply F. rewrite EL. by right.
  - intros Hc. rewrite (G Hc) in EL. done.
Qed.
End Surrendering.
End Operations.

Lemma semaphore_fresh s cls attributes n proxy k : sched_ok k -> u32 n ->
  sem_ok s (_CORE_semaphore_Initialize s cls attributes n proxy k) /\
  sem_count (sem (_CORE_semaphore_Initialize s cls attributes n proxy k) s) = n /\
  tq_list (_CORE_semaphore_Initialize s cls attributes n proxy k) s = [].
Proof.
  intros HS Hn. unfold _CORE_semaphore_Initialize. cbn zeta. set (k1 := upd_sem s _ k).
  set (d := if _CORE_semaphore_Is_priority _ then _ else _).
  destruct (initialize_fresh s cls d STATES_WAITING_FOR_SEMAPHORE proxy CORE_SEMAPHORE_TIMEOUT k1) as (A & B & C & D);
    [done|]. set (k2 := _Thread_queue_Initialize _ _ _ _ _ _ _) in *.
  assert (sem_count (sem k2 s) = n) as EC.
  { rewrite (core_sem k1 k2 s) by apply C. unfold k1. by rewrite sem_upd. }
  assert (sync_state (tq k2 s) = THREAD_QUEUE_SYNCHRONIZED) as E1 by (by rewrite D).
  assert (tq_state (tq k2 s) = STATES_WAITING_FOR_SEMAPHORE) as E2 by (by rewrite D).
  split_and!; try done. split; rewrite ?A, ?EC; try done.
  - apply (links_only_sched k1); [done|]. apply (same_threads_sched k); [apply upd_sem_threads|done].
  - apply not_elem_of_nil.
Qed.

(** ** Sequences of operations *)

(** What a step does to the units of a semaphore and to its waiting threads. *)
Inductive sem_event : Type :=
  Seized | Refused | Waits | Granted | Returned | Expired | Flushed (released : nat) | Elsewhere.

Inductive sem_step (s : Z) : Kernel -> sem_event -> Kernel -> Prop :=
| do_seize routine wfuel fuel id wait timeout k k' :
    can_wait s k -> timer_free wfuel (_Thread_Executing k) timeout k -> _Thread_Executing k <> NULL ->
    (length (tq_list k s) < fuel)%nat ->
    _CORE_semaphore_Seize routine wfuel Datatypes.id fuel [] Datatypes.id s id wait timeout k = Some k' ->
    sem_step s k (if sem_count (sem k s) =? 0 then if wait then Waits else Refused else Seized) k'
| do_surrender node mp id k :
    (forall u, u ∈ tq_list k s -> _Objects_Is_local_id node (Object_id (tcb k u)) = true) ->
    sem_step s k (match tq_list k s with [] => Returned | _ => Granted end)
      (_CORE_semaphore_Surrender node mp s id k).2
| do_timeout u k :
    u ∈ tq_list k s -> Wait_queue (Wait (tcb k u)) = s -> sem_step s k Expired (timed_out u k)
| do_flush fuel status k k' :
    (length (tq_list k s) < fuel)%nat -> _CORE_semaphore_Flush fuel s status k = Some k' ->
    sem_step s k (Flushed (length (tq_list k s))) k'
| do_elsewhere k k' :
    tq_ok k' s -> sched_ok k' -> tq k' s = tq k s -> tq_list k' s = tq_list k s -> sem k' s = sem k s ->
    sem_step s k Elsewhere k'.

Inductive sem_run (s : Z) : Kernel -> list sem_event -> Kernel -> Prop :=
| run_nil k : sem_run s k [] k
| run_cons k e k1 es k2 : sem_step s k e k1 -> sem_run s k1 es k2 -> sem_run s k (e :: es) k2.

Definition units_taken (e : sem_event) : Z := match e with Seized | Granted => 1 | _ => 0 end.
Definition units_given (e : sem_event) : Z := match e with Returned | Granted => 1 | _ => 0 end.
Definition waits_begun (e : sem_event) : Z := match e with Waits => 1 | _ => 0 end.
Definition waits_ended (e : sem_event) : Z := match e with Granted | Expired => 1 | Flushed n => Z.of_nat n | _ => 0 end.
Definition total (f : sem_event -> Z) (es : list sem_event) : Z := foldr (fun e z => f e + z) 0 es.

Lemma total_given_nonneg es : 0 <= total units_given es.
Proof. induction es as [|[] es IH]; simpl; lia. Qed.

Lemma extract_length (l : list Z) u : u ∈ l -> Z.of_nat (length (ListChain.extract l u)) + 1 = Z.of_nat (length l).
Proof.
  induction l as [|x l IH]; [intros H; by apply elem_of_nil in H|]. intros Hu. simpl. case_decide as Hx; [lia|].
  apply elem_of_cons in Hu as [-> |Hu]; [done|]. simpl. specialize (IH Hu). lia.
Qed.

Lemma extract_sub (l : list Z) u v : v ∈ ListChain.extract l u -> v ∈ l.
Proof.
  induction l as [|x l IH]; [done|]. simpl. case_decide as Hx; [by right|].
  intros [-> |Hv]%elem_of_cons; [left|right; by apply IH].
Qed.

(** A flush changes nothing but the queue and the threads that waited. *)
Lemma flush_frame q status : forall fuel k k', _Thread_queue_Flush fuel q status k = Some k' ->
  tq_ok k q -> sched_ok k -> sync_state (tq k q) = THREAD_QUEUE_SYNCHRONIZED ->
  core_same k k' /\ sync_state (tq k' q) = sync_state (tq k q) /\ tq_state (tq k' q) = tq_state (tq k q).
Proof.
  induction fuel as [|fuel IH]; intros k k' HF HQ HS Hsy; [done|]. simpl in HF. destruct (tq_list k q) as [|u rest] eqn:EL.
  - rewrite (dequeue_none q k HQ Hsy EL) in HF. rewrite Z.eqb_refl in HF. by simplify_eq.
  - destruct (dequeue_first q k u rest HQ HS EL) as (k1 & X0 & X1 & X2 & X3 & (X4 & _ & X5 & _) & X6 & _).
    rewrite X0 in HF. destruct (u =? NULL); [by simplify_eq|].
    assert (known k1 u) as Hk by (apply X6, HQ; rewrite EL; left).
    destruct (IH _ _ HF) as (Y1 & Y2 & Y3); [by apply code_tq_ok|by apply code_sched|by change (sync_state (tq k1 q) = THREAD_QUEUE_SYNCHRONIZED); rewrite X4|].
    split_and!; [|by rewrite Y2|by rewrite Y3].
    etransitivity; [exact X6|]. etransitivity; [|exact Y1]. apply core_upd_thread.
Qed.

Lemma sem_step_ok s k e k' : sem_ok s k -> sem_step s k e k' -> sem_count (sem k s) + units_given e < two32 ->
  sem_ok s k' /\ sem_count (sem k' s) + units_taken e = sem_count (sem k s) + units_given e /\
  Z.of_nat (length (tq_list k' s)) + waits_ended e = Z.of_nat (length (tq_list k s)) + waits_begun e.
Proof.
  intros HO HS. destruct HS as [routine wfuel fuel id wait timeout k k' HW HT Hn Hf E|node mp id k Hl|u k Hu Hq|fuel status k k' Hf HF|k k' A B C D E];
    intros Hb.
  - destruct (Z.eqb_spec (sem_count (sem k s)) 0) as [Hc|Hc]; [destruct wait|].
    + destruct (sem_seize_waits s k HO routine wfuel fuel Datatypes.id id timeout Hc eq_refl HW HT Hn Hf)
        as (k1 & E1 & A & B & C & _). simplify_eq. rewrite B, C, joined_perm. simpl. split_and!; [done|lia|lia].
    + destruct (sem_seize_refused s k HO routine wfuel fuel Datatypes.id id timeout Hc) as (k1 & E1 & A & B & C & _).
      simplify_eq. by rewrite B, C.
    + destruct (seize_available s k HO routine wfuel fuel Datatypes.id id timeout wait Hc) as (k1 & E1 & A & B & C & _).
      simplify_eq. rewrite B, C, (so_units _ _ HO Hc). simpl. split_and!; [done|lia|lia].
  - destruct (tq_list k s) as [|u rest] eqn:EL.
    + destruct (surrender_returned s k HO node mp id EL) as (_ & A & B & C); [simpl in Hb; lia|].
      rewrite B, C. simpl. split_and!; [done|lia|lia].
    + destruct (surrender_granted s k HO node mp id u rest EL) as (_ & A & B & C & _); [apply Hl; left|].
      rewrite B, C. simpl. split_and!; [done|lia|lia].
  - destruct HO as [A B C D E F G].
    destruct (timed_out_waiting u k) as (X1 & X2 & X3 & _ & (X4 & _ & X5 & _) & X6 & _); rewrite ?Hq; try done; [by left|].
    rewrite Hq in *. rewrite (core_sem _ _ _ X6). split_and!; simpl.
    + split; rewrite ?X3, ?X4, ?X5, ?(core_sem _ _ _ X6); try done.
      * intros HN. by apply F, (extract_sub _ u).
      * intros Hc. rewrite (G Hc) in Hu. by apply elem_of_nil in Hu.
    + lia.
    + rewrite X3. rewrite <- (extract_length _ _ Hu). lia.
  - destruct HO as [A B C D E F G].
    destruct (flush_spec s status _ fuel k eq_refl A B C F Hf) as (k1 & X0 & X1 & X2 & X3 & _).
    assert (k1 = k') as -> by (unfold _CORE_semaphore_Flush in HF; congruence).
    destruct (flush_frame s status fuel k k' X0 A B C) as (Y1 & Y2 & Y3).
    rewrite (core_sem _ _ _ Y1), X1. simpl. split_and!; [|lia|lia].
    split; rewrite ?X1, ?Y2, ?Y3, ?(core_sem _ _ _ Y1); try done. apply not_elem_of_nil.
  - destruct HO as [A' B' C' D' E' F' G']. rewrite D, E. simpl. split_and!; [|lia|lia]. split; rewrite ?D, ?C, ?E; done.
Qed.

(** ** The claims *)

(** C9: the units of a semaphore: over any sequence of operations on it (seizures, with or
    without waiting, releases, timeouts of waiting threads, flushes, and anything else that
    leaves the semaphore and its queue alone) the units that are available plus those that
    were taken are those it had plus those that were given back, and every thread that
    began to wait is either still waiting, was granted a unit, timed out or was released by
    a flush.  In every state reached, units are available only while no thread waits, and
    the invariants of the queue and of the scheduler hold.  The operations run one after
    the other: interrupts within a seizure are the matter of [semaphore_no_lost_wakeup]. *)
Theorem semaphore_accounting s k es k' :
  sem_ok s k -> sem_run s k es k' -> sem_count (sem k s) + total units_given es < two32 ->
  sem_ok s k' /\
  sem_count (sem k' s) + total units_taken es = sem_count (sem k s) + total units_given es /\
  Z.of_nat (length (tq_list k' s)) + total waits_ended es =
    Z.of_nat (length (tq_list k s)) + total waits_begun es.
Proof.
  intros HO HR. revert HO. induction HR as [k|k e k1 es k2 HS HR IH]; intros HO Hb; [by split_and!|].
  simpl in Hb |- *. pose proof (total_given_nonneg es) as Hp.
  destruct (sem_step_ok s k e k1 HO HS) as (H1 & H2 & H3); [lia|].
  assert (0 <= units_taken e) by (destruct e; simpl; lia).
  destruct (IH H1) as (J1 & J2 & J3); [lia|]. split_and!; [done|lia|lia].
Qed.

(** ** A small system with a semaphore *)

Module SemExample.
Import ThreadExample.
(** The semaphore at 60 has one unit and serves by priority. *)
Definition s0 : Kernel := _CORE_semaphore_Initialize 60 3 CORE_SEMAPHORE_DISCIPLINES_PRIORITY 1 NULL k2.
Definition seize (k : Kernel) : Kernel := default k (_CORE_semaphore_Seize 1 5 id 5 [] id 60 77 true 9 k).
(** The thread at 200 takes the unit, and then waits for another. *)
Definition s1 : Kernel := seize s0.
Definition s2 : Kernel := seize s1.
Definition s3 : Kernel := (_CORE_semaphore_Surrender 0 (fun _ _ k => k) 60 77 s2).2.

Lemma s0_ok : sem_ok 60 s0 /\ tq_list s0 60 = [].
Proof.
  destruct (semaphore_fresh 60 3 CORE_SEMAPHORE_DISCIPLINES_PRIORITY 1 NULL k2 k2_ok) as (A & _ & B);
    [by split|exact (conj A B)].
Qed.

Lemma may_wait k : sem_ok 60 k -> tq_list k 60 = [] -> _Thread_Executing k = 200 -> _Thread_Idle k = 100 ->
  is_ready k 200 -> can_wait 60 k.
Proof.
  intros HO EL E1 E2 Hr. split; rewrite ?E1, ?E2, ?EL; try done; try apply HO.
  - apply not_elem_of_nil.
  - by rewrite (so_state _ _ HO).
Qed.

Lemma s0_wait : can_wait 60 s0.
Proof.
  destruct s0_ok as [A B]. apply may_wait; [exact A|exact B|vm_compute; reflexivity..].
Qed.

Lemma s1_ok : sem_ok 60 s1 /\ tq_list s1 60 = [] /\ watchdogs s1 = no_watchdogs.
Proof.
  destruct s0_ok as [A B].
  destruct (seize_available 60 s0 A 1 5 5 id 77 9 true) as (k' & E & C & _ & D & _); [vm_compute; discriminate|].
  assert (s1 = k') as -> by (unfold s1, seize; by rewrite E). split_and!; [exact C|exact D|].
  assert (_CORE_semaphore_Seize 1 5 id 5 [] id 60 77 true 9 s0 = Some s1) as E' by (vm_compute; reflexivity).
  assert (k' = s1) as -> by congruence. vm_compute. reflexivity.
Qed.

Lemma s1_wait : can_wait 60 s1 /\ timer_free 5 200 9 s1.
Proof.
  destruct s1_ok as (A & B & C). split; [apply may_wait; [exact A|exact B|vm_compute; reflexivity..]|].
  right. rewrite C. split_and!; [exact ThreadqExample.no_watchdogs_ok|vm_compute; intros [?|?]; discriminate
    |split; [lia|reflexivity]|vm_compute; lia].
Qed.
End SemExample.

(** The fields of a thread that a [but_block2n] equation determines. *)
Lemma but_block2n_code_of c c' : but_block2n c = but_block2n c' ->
  Wait_return_code (Wait c) = Wait_return_code (Wait c').
Proof. intros H. exact (f_equal (fun c => Wait_return_code (Wait c)) H). Qed.

(** [_CORE_semaphore_Seize] on every path: a unit that is available is taken and the
    status is successful; without one, a caller that will not wait is told so and
    nothing else changes; a caller that will is blocked on the semaphore, in its place
    among the waiting threads (by priority or first come first served), with the
    successful status that a release leaves in place.  It ends, and keeps the
    invariant. *)
Theorem semaphore_seize_correct routine wfuel fuel s id wait timeout k :
  let t := _Thread_Executing k in
  sem_ok s k -> can_wait s k -> timer_free wfuel t timeout k -> t <> NULL -> (length (tq_list k s) < fuel)%nat ->
  exists k', _CORE_semaphore_Seize routine wfuel Datatypes.id fuel [] Datatypes.id s id wait timeout k = Some k' /\
    sem_ok s k' /\ _Thread_Executing k' = t /\
    if negb (sem_count (sem k s) =? 0) then
      sem_count (sem k' s) = sem_count (sem k s) - 1 /\ tq_list k' s = tq_list k s /\
      forall u, tcb k' u = with_status t CORE_SEMAPHORE_STATUS_SUCCESSFUL k u
    else if negb wait then
      sem k' s = sem k s /\ tq_list k' s = tq_list k s /\
      forall u, tcb k' u = with_status t CORE_SEMAPHORE_STATUS_UNSATISFIED_NOWAIT k u
    else
      sem k' s = sem k s /\ tq_list k' s = joined k s t /\ _Context_Switch_necessary k' = true /\
      current_state (tcb k' t) = STATES_WAITING_FOR_SEMAPHORE /\
      Wait_return_code (Wait (tcb k' t)) = CORE_SEMAPHORE_STATUS_SUCCESSFUL /\
      forall u, u <> t -> but_block2n (tcb k' u) = but_block2n (tcb k u).
Proof.
  intros t HO HW HT Hn Hf. destruct (Z.eqb_spec (sem_count (sem k s)) 0) as [Hc|Hc]; cbn [negb]; [destruct wait; cbn [negb]|].
  - destruct (sem_seize_waits s k HO routine wfuel fuel Datatypes.id id timeout Hc eq_refl HW HT Hn Hf)
      as (k' & E & A & B & C & D & F & G).
    exists k'. pose proof (G t) as Gt. rewrite decide_True in Gt by done. split_and!; try done.
    + by apply but_block2n_fields in Gt as (-> & _).
    + by apply but_block2n_code_of in Gt as ->.
    + intros u Hu. by rewrite G, decide_False.
  - destruct (sem_seize_refused s k HO routine wfuel fuel Datatypes.id id timeout Hc) as (k' & E & A & B & C & D & F).
    exists k'. by split_and!.
  - destruct (seize_available s k HO routine wfuel fuel Datatypes.id id timeout wait Hc) as (k' & E & A & B & C & D & F).
    exists k'. split_and!; try done. by rewrite C, (so_units _ _ HO Hc).
Qed.

Lemma semaphore_seize_witness :
  exists k', _CORE_semaphore_Seize 1 5 Datatypes.id 5 [] Datatypes.id 60 77 true 9 SemExample.s1 = Some k' /\
    tq_list k' 60 = [200].
Proof.
  destruct SemExample.s1_ok as (A & B & C). destruct SemExample.s1_wait as [D E].
  destruct (semaphore_seize_correct 1 5 5 60 77 true 9 SemExample.s1) as (k' & X & _ & _ & Y).
  - exact A.
  - exact D.
  - exact E.
  - vm_compute. discriminate.
  - rewrite B. simpl. lia.
  - exists k'. split; [exact X|].
    assert ((sem_count (sem SemExample.s1 60) =? 0) = true) as EC by (vm_compute; reflexivity).
    rewrite EC in Y. cbn [negb] in Y. destruct Y as (_ & Y & _). rewrite Y. vm_compute. reflexivity.
Defined.

(** [_CORE_semaphore_Surrender] hands the unit to the first waiting thread, which
    is unblocked while the count stays, and otherwise adds it to the count; it keeps the
    invariant and is always successful. *)
Theorem semaphore_surrender_correct node mp s id k :
  sem_ok s k -> sem_count (sem k s) < two32 - 1 ->
  (forall u, u ∈ tq_list k s -> _Objects_Is_local_id node (Object_id (tcb k u)) = true) ->
  let (status, k') := _CORE_semaphore_Surrender node mp s id k in
  status = CORE_SEMAPHORE_STATUS_SUCCESSFUL /\ sem_ok s k' /\
  match tq_list k s with
  | [] => sem_count (sem k' s) = sem_count (sem k s) + 1 /\ tq_list k' s = [] /\ threads k' = threads k
  | u :: rest =>
      sem k' s = sem k s /\ tq_list k' s = rest /\
      forall v, but_block2n (tcb k' v) = but_block2n (if decide (v = u) then unblocked (tcb k u) else tcb k v)
  end.
Proof.
  intros HO Hc Hl. destruct (_CORE_semaphore_Surrender node mp s id k) as [status k'] eqn:E.
  destruct (tq_list k s) as [|u rest] eqn:EL.
  - destruct (surrender_returned s k HO node mp id EL Hc) as (A & B & C & D). rewrite E in A, B, C, D. simplify_eq.
    by split_and!.
  - destruct (surrender_granted s k HO node mp id u rest EL) as (A & B & C & D & _ & F); [apply Hl; left|].
    rewrite E in A, B, C, D, F. by split_and!.
Qed.

Lemma semaphore_surrender_witness :
  tq_list (_CORE_semaphore_Surrender 0 (fun _ _ k => k) 60 77 SemExample.s2).2 60 = [].
Proof.
  destruct SemExample.s1_ok as (A & B & C). destruct SemExample.s1_wait as [D E].
  destruct (sem_seize_waits 60 SemExample.s1 A 1 5 5 Datatypes.id 77 9) as (k' & X & Y & _).
  - vm_compute. reflexivity.
  - reflexivity.
  - exact D.
  - exact E.
  - vm_compute. discriminate.
  - rewrite B. simpl. lia.
  - assert (SemExample.s2 = k') as H by (unfold SemExample.s2, SemExample.seize; rewrite X; reflexivity).
    rewrite <- H in Y. assert (tq_list SemExample.s2 60 = [200]) as EL by (vm_compute; reflexivity).
    pose proof (semaphore_surrender_correct 0 (fun _ _ k => k) 60 77 SemExample.s2 Y) as HS.
    rewrite EL in HS. destruct (_CORE_semaphore_Surrender _ _ _ _ _) as [status k''].
    destruct HS as (_ & _ & _ & HS & _).
    + vm_compute. reflexivity.
    + intros u Hu. apply list_elem_of_singleton in Hu. rewrite Hu. vm_compute. reflexivity.
    + exact HS.
Defined.

(** C10: No release is lost: if an interrupt surrenders the semaphore after the caller of
    [_CORE_semaphore_Seize] saw no unit and before it is on the queue, the unit is handed
    to the caller, which goes on without having waited: it is ready, its status is
    successful, and no unit and no waiting thread is left over. *)
Theorem semaphore_no_lost_wakeup routine wfuel fuel s id timeout node mp id' k :
  let t := _Thread_Executing k in
  let isr := fun k => (_CORE_semaphore_Surrender node mp s id' k).2 in
  sem_ok s k -> sem_count (sem k s) = 0 -> tq_list k s = [] ->
  can_wait s k -> timer_free wfuel t timeout k -> t <> NULL -> (0 < fuel)%nat ->
  _Objects_Is_local_id node (Object_id (tcb k t)) = true ->
  exists k', _CORE_semaphore_Seize routine wfuel Datatypes.id fuel [] isr s id true timeout k = Some k' /\
    sem_ok s k' /\ sem_count (sem k' s) = 0 /\ tq_list k' s = [] /\
    is_ready k' t /\ Wait_return_code (Wait (tcb k' t)) = CORE_SEMAPHORE_STATUS_SUCCESSFUL.
Proof.
  intros t isr HO Hc EL HW HT Hn Hf Hl. unfold _CORE_semaphore_Seize. cbn zeta. fold t.
  change (sem (upd_wait t _ k) s) with (sem k s). rewrite (proj2 (Z.eqb_eq _ _) Hc). cbn [negb].
  change (isr _) with (isr (noting s id k)). pose proof (noting_noted s id k HW) as HN.
  set (k1 := noting s id k) in *. clearbody k1. destruct HN as [A B C D E F G]. fold t in E, G.
  rewrite EL in B.
  assert (isr k1 = upd_queue s (set_sync_state THREAD_QUEUE_SATISFIED) k1) as EI.
  { unfold isr, _CORE_semaphore_Surrender. pose proof (dequeue_spec s k1 (cw_queue _ _ A)) as HD. rewrite B in HD.
    rewrite HD. unfold dequeue_empty. rewrite C. cbn [sync_state set_sync_state].
    rewrite E, (proj2 (Z.eqb_neq _ _) Hn). cbn [negb snd].
    change (tcb (upd_queue _ _ k1) t) with (tcb k1 t). rewrite G, decide_True by done. change (Object_id (set_Wait _ ?c)) with (Object_id c). by rewrite Hl. }
  rewrite EI. set (k2 := upd_queue s _ k1).
  assert (tq k2 s = set_sync_state THREAD_QUEUE_SATISFIED (tq k s)) as EQ
    by (unfold k2; by rewrite tq_upd, decide_True, C).
  assert (tq_list k2 s = []) as EL2 by (unfold k2; by rewrite tq_list_sync).
  destruct (interrupted_spec routine wfuel fuel s timeout k2) as (k' & X0 & X1 & X2 & X3 & X4 & X5 & X6 & X7 & X8).
  - by apply can_wait_sync.
  - change (_Thread_Executing k2) with (_Thread_Executing k1). rewrite E. unfold timer_free.
    change (watchdogs k2) with (watchdogs k1). rewrite F. exact HT.
  - rewrite EL2. done.
  - by rewrite EQ.
  - change (_Thread_Executing k2) with (_Thread_Executing k1) in *. rewrite E in *.
    assert (sem k' s = sem k s) as ES by (rewrite (core_sem _ _ _ X6); exact (core_sem _ _ _ D)).
    exists k'. rewrite ES. split_and!; try done.
    + split; rewrite ?X1, ?EL2, ?X5, ?ES, ?EQ; try done; try apply HO. apply not_elem_of_nil.
    + by rewrite X1.
    + specialize (X8 t). rewrite decide_True in X8 by done. apply but_block2n_code_of in X8 as ->.
      unfold resumed. rewrite EQ. simpl. change (_Thread_Executing k2) with (_Thread_Executing k1). rewrite E.
      change (tcb k2 t) with (tcb k1 t). rewrite G, decide_True by done. done.
Qed.

Lemma semaphore_no_lost_wakeup_witness :
  exists k', _CORE_semaphore_Seize 1 5 Datatypes.id 5 []
      (fun k => (_CORE_semaphore_Surrender 0 (fun _ _ k => k) 60 77 k).2) 60 77 true 9 SemExample.s1 = Some k' /\
    is_ready k' 200.
Proof.
  destruct SemExample.s1_ok as (A & B & C). destruct SemExample.s1_wait as [D E].
  destruct (semaphore_no_lost_wakeup 1 5 5 60 77 9 0 (fun _ _ k => k) 77 SemExample.s1) as (k' & X & _ & _ & _ & Y & _).
  - exact A.
  - vm_compute. reflexivity.
  - exact B.
  - exact D.
  - exact E.
  - vm_compute. discriminate.
  - lia.
  - vm_compute. reflexivity.
  - exists k'. exact (conj X Y).
Defined.

(** The unit is taken; the next seizure waits; a release grants it, or a flush ends it. *)
Lemma semaphore_accounting_witness :
  (sem_run 60 SemExample.s0 [Seized; Waits; Granted] SemExample.s3 /\
   sem_count (sem SemExample.s3 60) + 2 = 1 + 1 /\ sem_ok 60 SemExample.s3) /\
  exists k', sem_run 60 SemExample.s0 [Seized; Waits; Flushed 1] k' /\
    sem_count (sem k' 60) + 1 = 1 /\ Z.of_nat (length (tq_list k' 60)) + 1 = 1.
Proof.
  destruct SemExample.s0_ok as [A0 B0]. pose proof SemExample.s0_wait as W0.
  destruct SemExample.s1_ok as (A & B & C). destruct SemExample.s1_wait as [D E].
  assert (tq_list SemExample.s2 60 = [200]) as EL by (vm_compute; reflexivity).
  assert (forall e k', sem_step 60 SemExample.s2 e k' -> sem_run 60 SemExample.s0 [Seized; Waits; e] k') as R.
  { intros e k' HX. eapply run_cons.
    { refine (do_seize 60 1 5 5 77 true 9 SemExample.s0 SemExample.s1 W0 _ _ _ _).
      - right. assert (watchdogs SemExample.s0 = ThreadExample.no_watchdogs) as EW by (vm_compute; reflexivity).
        rewrite EW. split_and!; [exact ThreadqExample.no_watchdogs_ok|vm_compute; intros [?|?]; discriminate
          |split; [lia|reflexivity]|vm_compute; lia].
      - vm_compute. discriminate.
      - rewrite B0. simpl. lia.
      - vm_compute. reflexivity. }
    eapply run_cons.
    { refine (do_seize 60 1 5 5 77 true 9 SemExample.s1 SemExample.s2 D E _ _ _).
      - vm_compute. discriminate.
      - rewrite B. simpl. lia.
      - vm_compute. reflexivity. }
    eapply run_cons; [exact HX|apply run_nil]. }
  assert (sem_count (sem SemExample.s0 60) = 1) as E0 by (vm_compute; reflexivity). split.
  - assert (sem_run 60 SemExample.s0 [Seized; Waits; Granted] SemExample.s3) as R3.
    { apply R. refine (do_surrender 60 0 (fun _ _ k => k) 77 SemExample.s2 _).
      intros u Hu. rewrite EL in Hu. apply list_elem_of_singleton in Hu. rewrite Hu. vm_compute. reflexivity. }
    destruct (semaphore_accounting 60 _ _ _ A0 R3) as (H1 & H2 & _); [vm_compute; reflexivity|].
    split_and!; [exact R3|exact H2|exact H1].
  - assert (is_Some (_CORE_semaphore_Flush 2 60 CORE_SEMAPHORE_WAS_DELETED SemExample.s2)) as [k' EF]
      by (vm_compute; eexists; reflexivity).
    exists k'. assert (sem_run 60 SemExample.s0 [Seized; Waits; Flushed 1] k') as R3.
    { apply R. change 1%nat with (length [200]). rewrite <- EL. refine (do_flush 60 2 _ _ _ _ EF). rewrite EL. simpl. lia. }
    destruct (semaphore_accounting 60 _ _ _ A0 R3) as (_ & H2 & H3); [rewrite E0; reflexivity|].
    rewrite E0 in H2. rewrite B0 in H3. split; [exact R3|]. split; [exact H2|exact H3].
Defined.
