(* ===== verification/CoreMutex.v ===== *)
(** * Core Mutex Handler (score/src/coremutex.c, score/inline/coremutex.inl)

    Mutexes with the disciplines FIFO, priority, priority inheritance and priority
    ceiling.  The control block at [m] is [mutex k m]; its thread queue has the same
    address. *)
From S2P Require Import Prelude Chain Watchdog WatchdogProofs WatchdogOps Object Priority Kernel Thread.
From S2P Require Import ThreadProofs ThreadSpec Threadq ThreadqProofs ThreadqSpec CoreWait.

(** ** Statuses and locks (headers/coremutex.h) *)

Definition CORE_MUTEX_STATUS_SUCCESSFUL : Z := 0.
Definition CORE_MUTEX_STATUS_UNSATISFIED_NOWAIT : Z := 1.
Definition CORE_MUTEX_STATUS_NESTING_NOT_ALLOWED : Z := 2.
Definition CORE_MUTEX_STATUS_NOT_OWNER_OF_RESOURCE : Z := 3.
Definition CORE_MUTEX_WAS_DELETED : Z := 4.
Definition CORE_MUTEX_TIMEOUT : Z := 5.
Definition CORE_MUTEX_STATUS_CEILING_VIOLATED : Z := 6.
Definition CORE_MUTEX_UNLOCKED : Z := 1.
Definition CORE_MUTEX_LOCKED : Z := 0.

(** ** Inlined routines *)

Definition _CORE_mutex_Is_locked (the_mutex : CORE_mutex_Control) : bool := lock the_mutex =? CORE_MUTEX_LOCKED.
Definition _CORE_mutex_Is_fifo (d : CORE_mutex_Disciplines) : bool :=
  match d with CORE_MUTEX_DISCIPLINES_FIFO => true | _ => false end.
Definition _CORE_mutex_Is_priority (d : CORE_mutex_Disciplines) : bool :=
  match d with CORE_MUTEX_DISCIPLINES_PRIORITY => true | _ => false end.
Definition _CORE_mutex_Is_inherit_priority (d : CORE_mutex_Disciplines) : bool :=
  match d with CORE_MUTEX_DISCIPLINES_PRIORITY_INHERIT => true | _ => false end.
Definition _CORE_mutex_Is_priority_ceiling (d : CORE_mutex_Disciplines) : bool :=
  match d with CORE_MUTEX_DISCIPLINES_PRIORITY_CEILING => true | _ => false end.
Definition _CORE_mutex_Is_nesting_allowed (the_mutex : CORE_mutex_Control) : bool := allow_nesting the_mutex.

(** ** Operations *)

Definition take_resource (t : Z) : Kernel -> Kernel :=
  upd_thread t (fun c => set_resource_count (resource_count c +w 1) c).
Definition give_resource (t : Z) : Kernel -> Kernel :=
  upd_thread t (fun c => set_resource_count (resource_count c -w 1) c).
Definition owned_by (t id : Z) (c : CORE_mutex_Control) : CORE_mutex_Control :=
  set_nest_count 1 (set_holder_id id (set_holder t c)).

Definition _CORE_mutex_Initialize (m the_class : Z) (nesting : bool) (d : CORE_mutex_Disciplines)
    (ceiling initial_lock proxy_extract_callout : Z) (k : Kernel) : Kernel :=
  let executing := _Thread_Executing k in
  let k := upd_mutex m (fun c =>
    {| allow_nesting := nesting; mutex_discipline := d; priority_ceiling := ceiling; lock := initial_lock;
       nest_count := nest_count c; holder := holder c; holder_id := holder_id c |}) k in
  let k :=
    if initial_lock =? CORE_MUTEX_LOCKED
    then take_resource executing (upd_mutex m (owned_by executing (Object_id (tcb k executing))) k)
    else upd_mutex m (fun c => set_holder_id 0 (set_holder NULL (set_nest_count 0 c))) k in
  _Thread_queue_Initialize m the_class
    (if _CORE_mutex_Is_fifo d then THREAD_QUEUE_DISCIPLINE_FIFO else THREAD_QUEUE_DISCIPLINE_PRIORITY)
    STATES_WAITING_FOR_MUTEX proxy_extract_callout CORE_MUTEX_TIMEOUT k.

(** [isr] is the interrupts that are taken once they are enabled again, before the thread
    is enqueued; the other parameters are those of [_Thread_queue_Enqueue]. *)
Section Seize.
Context (timeout_routine : Z) (wfuel : nat) (wisr : Kernel -> Kernel).
Context (fuel : nat) (isrs : list (Kernel -> Kernel)) (isr : Kernel -> Kernel).

(** The ceiling: a thread of a lower priority is raised to it. *)
Definition raise_to_ceiling (m t : Z) (k : Kernel) : Kernel :=
  match mutex_discipline (mutex k m) with
  | CORE_MUTEX_DISCIPLINES_FIFO | CORE_MUTEX_DISCIPLINES_PRIORITY
  | CORE_MUTEX_DISCIPLINES_PRIORITY_INHERIT => k
  | CORE_MUTEX_DISCIPLINES_PRIORITY_CEILING =>
      if priority_ceiling (mutex k m) <? current_priority (tcb k t)
      then _Thread_Change_priority t (priority_ceiling (mutex k m)) false k else k
  end.

(** The holder inherits the priority of a thread that waits. *)
Definition inherit_priority (m executing : Z) (k : Kernel) : Kernel :=
  match mutex_discipline (mutex k m) with
  | CORE_MUTEX_DISCIPLINES_FIFO | CORE_MUTEX_DISCIPLINES_PRIORITY
  | CORE_MUTEX_DISCIPLINES_PRIORITY_CEILING => k
  | CORE_MUTEX_DISCIPLINES_PRIORITY_INHERIT =>
      if current_priority (tcb k executing) <? current_priority (tcb k (holder (mutex k m)))
      then _Thread_Change_priority (holder (mutex k m)) (current_priority (tcb k executing)) false k else k
  end.

Definition ceiling_violated (m t : Z) (k : Kernel) : bool :=
  _CORE_mutex_Is_priority_ceiling (mutex_discipline (mutex k m))
  && (current_priority (tcb k t) <? priority_ceiling (mutex k m)).

Definition _CORE_mutex_Seize (m id : Z) (wait : bool) (timeout : Z) (k : Kernel) : option Kernel :=
  let executing := _Thread_Executing k in
  if ceiling_violated m executing k
  then Some (upd_wait executing (set_Wait_return_code CORE_MUTEX_STATUS_CEILING_VIOLATED) k)
  else
    let k := upd_wait executing (set_Wait_return_code CORE_MUTEX_STATUS_SUCCESSFUL) k in
    if negb (_CORE_mutex_Is_locked (mutex k m)) then
      let k := upd_mutex m (fun c => owned_by executing (Object_id (tcb k executing)) (set_lock CORE_MUTEX_LOCKED c)) k in
      let k := take_resource executing k in
      Some (raise_to_ceiling m (holder (mutex k m)) k)
    else if _Objects_Are_ids_equal (Object_id (tcb k (_Thread_Executing k))) (holder_id (mutex k m)) then
      if _CORE_mutex_Is_nesting_allowed (mutex k m)
      then Some (upd_mutex m (fun c => set_nest_count (nest_count c +w 1) c) k)
      else Some (upd_wait executing (set_Wait_return_code CORE_MUTEX_STATUS_NESTING_NOT_ALLOWED) k)
    else if negb wait
    then Some (upd_wait executing (set_Wait_return_code CORE_MUTEX_STATUS_UNSATISFIED_NOWAIT) k)
    else
      let k := _Thread_queue_Enter_critical_section m k in
      let k := upd_wait executing (set_Wait_queue m) k in
      let k := upd_wait executing (set_Wait_id id) k in
      let k := isr k in
      let k := inherit_priority m executing k in
      match _Thread_queue_Enqueue timeout_routine wfuel wisr fuel isrs m timeout k with
      | None => None
      | Some k =>
          if Wait_return_code (Wait (tcb k (_Thread_Executing k))) =? CORE_MUTEX_STATUS_SUCCESSFUL
          then Some (raise_to_ceiling m executing k) else Some k
      end.
End Seize.

(** [mp_support] is the callout for a thread of another node. *)
Section Surrender.
Context (_Objects_Local_node : Z) (mp_support : Z -> Z -> Kernel -> Kernel).

(** A thread that holds no mutex any more gets its own priority back. *)
Definition restore_priority (m executing : Z) (k : Kernel) : Kernel :=
  match mutex_discipline (mutex k m) with
  | CORE_MUTEX_DISCIPLINES_FIFO | CORE_MUTEX_DISCIPLINES_PRIORITY => k
  | CORE_MUTEX_DISCIPLINES_PRIORITY_CEILING | CORE_MUTEX_DISCIPLINES_PRIORITY_INHERIT =>
      let c := tcb k executing in
      if (resource_count c =? 0) && negb (real_priority c =? current_priority c)
      then _Thread_Change_priority executing (real_priority c) true k else k
  end.

Definition must_own (d : CORE_mutex_Disciplines) : bool :=
  match d with
  | CORE_MUTEX_DISCIPLINES_FIFO | CORE_MUTEX_DISCIPLINES_PRIORITY => false
  | CORE_MUTEX_DISCIPLINES_PRIORITY_CEILING | CORE_MUTEX_DISCIPLINES_PRIORITY_INHERIT => true
  end.

Definition _CORE_mutex_Surrender (m id : Z) (k : Kernel) : Z * Kernel :=
  let executing := _Thread_Executing k in
  if negb (_Objects_Are_ids_equal (Object_id (tcb k executing)) (holder_id (mutex k m)))
     && must_own (mutex_discipline (mutex k m))
  then (CORE_MUTEX_STATUS_NOT_OWNER_OF_RESOURCE, k)
  else
    let k := upd_mutex m (fun c => set_nest_count (nest_count c -w 1) c) k in
    if negb (nest_count (mutex k m) =? 0) then (CORE_MUTEX_STATUS_SUCCESSFUL, k)
    else
      let k := give_resource executing k in
      let k := upd_mutex m (fun c => set_holder_id 0 (set_holder NULL c)) k in
      let k := restore_priority m executing k in
      let '(the_thread, k) := _Thread_queue_Dequeue m k in
      let k :=
        if negb (the_thread =? NULL) then
          let the_id := Object_id (tcb k the_thread) in
          if negb (_Objects_Is_local_id _Objects_Local_node the_id)
          then mp_support the_thread id (upd_mutex m (owned_by NULL the_id) k)
          else take_resource the_thread (upd_mutex m (owned_by the_thread the_id) k)
        else upd_mutex m (set_lock CORE_MUTEX_UNLOCKED) k in
      (CORE_MUTEX_STATUS_SUCCESSFUL, k).
End Surrender.

Definition _CORE_mutex_Flush (fuel : nat) (m status : Z) (k : Kernel) : option Kernel :=
  _Thread_queue_Flush fuel m status k.
