(* ===== verification/CoreMutexSpec.v ===== *)
(** * Correctness of the core mutex handler

    A mutex has at most one holder, which is not among the threads that wait for it; an
    unlocked mutex has none and nobody waits; under priority inheritance the holder's
    priority is at least that of every thread that waits.  Seizing and surrendering keep
    this and do what they promise. *)
From S2P Require Import Prelude Chain Watchdog WatchdogProofs WatchdogOps Object Priority Kernel Thread.
From S2P Require Import ThreadProofs ThreadSpec Threadq ThreadqProofs ThreadqSpec CoreWait CoreMutex.

(** ** The invariant *)

(** The ids of threads are unique and not zero. *)
Record ids_ok (k : Kernel) : Prop := {
  ids_unique : forall u v, known k u -> known k v -> Object_id (tcb k u) = Object_id (tcb k v) -> u = v;
  ids_nonzero : forall u, known k u -> Object_id (tcb k u) <> 0
}.

Record held (m : Z) (k : Kernel) : Prop := {
  he_known : known k (holder (mutex k m));
  he_null : holder (mutex k m) <> NULL;
  he_id : holder_id (mutex k m) = Object_id (tcb k (holder (mutex k m)));
  he_nest : 1 <= nest_count (mutex k m) < two32;
  he_off : holder (mutex k m) ∉ tq_list k m;
  he_inherit : mutex_discipline (mutex k m) = CORE_MUTEX_DISCIPLINES_PRIORITY_INHERIT ->
    forall w, w ∈ tq_list k m -> current_priority (tcb k (holder (mutex k m))) <= current_priority (tcb k w)
}.

Definition queue_discipline (d : CORE_mutex_Disciplines) : Thread_queue_Disciplines :=
  if _CORE_mutex_Is_fifo d then THREAD_QUEUE_DISCIPLINE_FIFO else THREAD_QUEUE_DISCIPLINE_PRIORITY.

(** The part of the invariant about the queue, and about the lock. *)
Record mutex_queue_ok (m : Z) (k : Kernel) : Prop := {
  mq_queue : tq_ok k m;
  mq_sched : sched_ok k;
  mq_sync : sync_state (tq k m) = THREAD_QUEUE_SYNCHRONIZED;
  mq_state : tq_state (tq k m) = STATES_WAITING_FOR_MUTEX;
  mq_discipline : discipline (tq k m) = queue_discipline (mutex_discipline (mutex k m));
  mq_null : NULL ∉ tq_list k m
}.

Record mutex_ok (m : Z) (k : Kernel) : Prop := {
  mo_queue : mutex_queue_ok m k;
  mo_lock : lock (mutex k m) = CORE_MUTEX_UNLOCKED \/ lock (mutex k m) = CORE_MUTEX_LOCKED;
  mo_free : lock (mutex k m) = CORE_MUTEX_UNLOCKED ->
    holder (mutex k m) = NULL /\ holder_id (mutex k m) = 0 /\ nest_count (mutex k m) = 0 /\ tq_list k m = [];
  mo_held : lock (mutex k m) = CORE_MUTEX_LOCKED -> held m k
}.

(** ** Frames *)

Lemma mutex_upd k m f : mutex (upd_mutex m f k) m = f (mutex k m).
Proof. unfold mutex at 1, upd_mutex. simpl. apply lookup_total_insert_eq. Qed.

Lemma upd_mutex_threads m f k : same_threads k (upd_mutex m f k).
Proof. by split. Qed.

Lemma core_mutex k k' m : core_same k k' -> mutex k' m = mutex k m.
Proof. intros H. unfold mutex. by rewrite (cs_mutexes _ _ H). Qed.

Lemma resource_unseen g : unseen (fun c => set_resource_count (g c) c).
Proof. intros c. by split_and!. Qed.

(** The invariant of the queue depends only on it, on the threads and on the discipline. *)
Lemma mutex_queue_frame m k k' : mutex_queue_ok m k -> tq_ok k' m -> sched_ok k' ->
  tq k' m = tq k m -> tq_list k' m = tq_list k m ->
  mutex_discipline (mutex k' m) = mutex_discipline (mutex k m) -> mutex_queue_ok m k'.
Proof. intros [A B C D E F] HQ HS EQ EL ED. split; rewrite ?EQ, ?EL, ?ED; done. Qed.

Lemma held_frame m k k' : held m k -> mutex k' m = mutex k m -> tq_list k' m = tq_list k m ->
  (forall u, known k u -> known k' u) ->
  (forall u, Object_id (tcb k' u) = Object_id (tcb k u) /\ current_priority (tcb k' u) = current_priority (tcb k u)) ->
  held m k'.
Proof.
  intros [A B C D E F] EM EL HK HT. split; rewrite ?EM, ?EL; try done.
  - auto.
  - rewrite C. symmetry. apply HT.
  - intros Hd w Hw. rewrite !(proj2 (HT _)). by apply F.
Qed.

(** A status for the caller changes nothing else. *)
Lemma status_ok m k code : mutex_ok m k ->
  let k' := upd_wait (_Thread_Executing k) (set_Wait_return_code code) k in
  mutex_ok m k' /\ tq_list k' m = tq_list k m.
Proof.
  intros [A B C D]. cbn zeta. set (k' := upd_wait _ _ _).
  assert (known k (_Thread_Executing k)) as Hk by (apply (mq_sched _ _ A)).
  assert (tq_list k' m = tq_list k m) as EL by (by apply code_list). split; [|done]. split; rewrite ?EL; try done.
  - apply (mutex_queue_frame m k); try done; [apply code_tq_ok; try done; apply A|apply code_sched; [done|apply A]].
  - intros HL. apply (held_frame m k); try done; [by apply D|intros u; apply known_mono|].
    intros u. unfold k'. rewrite code_tcb. case_decide; by subst.
Qed.

(** ** Changing a priority *)

Lemma repriced_fields p c : Object_id (repriced p c) = Object_id c /\ current_priority (repriced p c) = p /\
  Wait (repriced p c) = Wait c /\ resource_count (repriced p c) = resource_count c /\
  real_priority (repriced p c) = real_priority c.
Proof. done. Qed.

Lemma repriced_ok m t p pre k : mutex_ok m k -> known k t -> prio p -> t ∉ tq_list k m ->
  (t = holder (mutex k m) -> p <= current_priority (tcb k t)) ->
  mutex_ok m (_Thread_Change_priority t p pre k).
Proof.
  intros [A B C D] Hk Hp Ht Hh. pose proof (mq_sched _ _ A) as HS.
  destruct (change_priority_frame t p pre k Hk) as (HC & _ & _ & _ & EQ).
  pose proof (core_mutex _ _ m HC) as EM. pose proof (change_priority_list t p pre k HS Hk m) as EL.
  pose proof (change_priority_tcb t p pre k HS Hk) as ET.
  split; rewrite ?EM, ?EL; try done.
  - apply (mutex_queue_frame m k); try done; [|by apply change_priority_sched|by rewrite EM].
    by apply change_priority_tq_ok; [| |apply A|].
  - intros HL. destruct (D HL) as [D1 D2 D3 D4 D5 D6]. split; rewrite ?EM, ?EL; try done.
    + by apply HC.
    + rewrite ET, D3. by case_decide as E; [rewrite E|].
    + intros Hd w Hw. specialize (D6 Hd w Hw). rewrite !ET. rewrite (decide_False (P := w = t)) by (by intros ->).
      case_decide as E; [|done]. simpl. specialize (Hh (eq_sym E)). rewrite E in D6. lia.
Qed.

(** ** Seizing *)

Section Seizing.
Context (routine : Z) (wfuel fuel : nat) (m id timeout : Z) (k : Kernel) (HO : mutex_ok m k) (HI : ids_ok k).
Notation t := (_Thread_Executing k).
Notation M := (mutex k m).
Let seize (wait : bool) := _CORE_mutex_Seize routine wfuel Datatypes.id fuel [] Datatypes.id m id wait timeout k.
Notation k1 := (upd_wait t (set_Wait_return_code CORE_MUTEX_STATUS_SUCCESSFUL) k).

Lemma seize_violated wait : ceiling_violated m t k = true ->
  seize wait = Some (upd_wait t (set_Wait_return_code CORE_MUTEX_STATUS_CEILING_VIOLATED) k).
Proof using. intros H. unfold seize, _CORE_mutex_Seize. cbn zeta. by rewrite H. Qed.

(** *** A mutex that is free *)

Definition acquired : Kernel :=
  take_resource t (upd_mutex m (fun c => owned_by t (Object_id (tcb k t)) (set_lock CORE_MUTEX_LOCKED c)) k1).

Lemma acquired_mutex : mutex acquired m = owned_by t (Object_id (tcb k t)) (set_lock CORE_MUTEX_LOCKED M).
Proof using. unfold acquired. change (mutex (take_resource _ ?x) m) with (mutex x m). apply mutex_upd. Qed.

Lemma acquired_tcb u : tcb acquired u = if decide (u = t)
  then set_resource_count (resource_count (tcb k t) +w 1) (with_code CORE_MUTEX_STATUS_SUCCESSFUL (tcb k t)) else tcb k u.
Proof using.
  unfold acquired, take_resource. rewrite tcb_upd, !(same_threads_tcb _ _ _ (upd_mutex_threads m _ _)), !code_tcb.
  case_decide; [|done]. by rewrite decide_True.
Qed.

Lemma acquired_list : tq_list acquired m = tq_list k m.
Proof using.
  unfold acquired, take_resource. rewrite unseen_list by apply resource_unseen.
  rewrite (same_threads_list _ _ _ (upd_mutex_threads m _ _)). by rewrite code_list.
Qed.

Lemma acquired_ok : lock M = CORE_MUTEX_UNLOCKED -> t <> NULL -> mutex_ok m acquired.
Proof using HO.
  intros HL Hn. destruct (HO) as [HQ _ HF _]. destruct (HF HL) as (F1 & F2 & F3 & F4).
  assert (known k t) as Hk by (apply (mq_sched _ _ HQ)). assert (known k1 t) as Hk1 by (by apply known_mono).
  assert (tq_ok acquired m) as A1.
  { apply unseen_tq_ok; [apply resource_unseen|]. eapply same_threads_tq_ok; [apply upd_mutex_threads|].
    apply code_tq_ok; try done. apply HQ. }
  assert (sched_ok acquired) as A2.
  { apply unseen_sched; [apply resource_unseen|done|]. eapply same_threads_sched; [apply upd_mutex_threads|].
    apply code_sched; [done|apply HQ]. }
  split; rewrite ?acquired_mutex; simpl.
  - apply (mutex_queue_frame m k); try done; [apply acquired_list|by rewrite acquired_mutex].
  - by right.
  - done.
  - intros _. split; rewrite ?acquired_mutex, ?acquired_list, ?F4; simpl; try done.
    + by apply known_mono.
    + by rewrite acquired_tcb, decide_True.
    + apply not_elem_of_nil.
    + intros _ w Hw. by apply elem_of_nil in Hw.
Qed.

(** The code unfolds to this. *)
Lemma seize_unfold wait : ceiling_violated m t k = false ->
  seize wait =
    if negb (lock M =? CORE_MUTEX_LOCKED) then Some (raise_to_ceiling m t acquired)
    else if Object_id (tcb k t) =? holder_id M then
      if allow_nesting M then Some (upd_mutex m (fun c => set_nest_count (nest_count c +w 1) c) k1)
      else Some (upd_wait t (set_Wait_return_code CORE_MUTEX_STATUS_NESTING_NOT_ALLOWED) k1)
    else if negb wait then Some (upd_wait t (set_Wait_return_code CORE_MUTEX_STATUS_UNSATISFIED_NOWAIT) k1)
    else
      match _Thread_queue_Enqueue routine wfuel Datatypes.id fuel [] m timeout (inherit_priority m t
              (upd_wait t (set_Wait_id id) (upd_wait t (set_Wait_queue m)
                (_Thread_queue_Enter_critical_section m k1)))) with
      | None => None
      | Some k' => if Wait_return_code (Wait (tcb k' (_Thread_Executing k'))) =? CORE_MUTEX_STATUS_SUCCESSFUL
                   then Some (raise_to_ceiling m t k') else Some k'
      end.
Proof using.
  intros HC. unfold seize, _CORE_mutex_Seize. cbn zeta. rewrite HC.
  unfold _CORE_mutex_Is_locked, _CORE_mutex_Is_nesting_allowed, _Objects_Are_ids_equal.
  change (mutex k1 m) with M. change (_Thread_Executing k1) with t.
  assert (Object_id (tcb k1 t) = Object_id (tcb k t)) as EO by (by rewrite code_tcb, decide_True).
  rewrite EO. destruct (negb (lock M =? CORE_MUTEX_LOCKED)); [|done].
  do 2 f_equal. change (mutex (take_resource _ ?x) m) with (mutex x m). by rewrite mutex_upd.
Qed.

(** The priority of a thread that has seized the mutex. *)
Definition seized_priority : Z :=
  match mutex_discipline M with
  | CORE_MUTEX_DISCIPLINES_PRIORITY_CEILING => Z.min (priority_ceiling M) (current_priority (tcb k t))
  | _ => current_priority (tcb k t)
  end.

Lemma seize_free wait : ceiling_violated m t k = false -> lock M = CORE_MUTEX_UNLOCKED -> t <> NULL ->
  prio (priority_ceiling M) ->
  exists k', seize wait = Some k' /\ mutex_ok m k' /\ tq_list k' m = [] /\ _Thread_Executing k' = t /\
    mutex k' m = owned_by t (Object_id (tcb k t)) (set_lock CORE_MUTEX_LOCKED M) /\
    current_priority (tcb k' t) = seized_priority /\ resource_count (tcb k' t) = resource_count (tcb k t) +w 1 /\
    Wait_return_code (Wait (tcb k' t)) = CORE_MUTEX_STATUS_SUCCESSFUL /\
    forall u, u <> t -> tcb k' u = tcb k u.
Proof using HO.
  intros HV HL Hn Hp. rewrite seize_unfold by done. rewrite HL. cbn [negb].
  pose proof (acquired_ok HL Hn) as HA. pose proof acquired_mutex as EM.
  assert (tq_list acquired m = []) as EL by (rewrite acquired_list; by apply HO).
  assert (known acquired t) as Hk
    by (apply known_mono, (known_mono t _ k), (so_executing _ (mq_sched _ _ (mo_queue _ _ HO)))).
  pose proof (acquired_tcb t) as ET. rewrite decide_True in ET by done.
  eexists. split; [reflexivity|]. unfold raise_to_ceiling, seized_priority. rewrite EM.
  change (mutex_discipline (owned_by _ _ _)) with (mutex_discipline M).
  change (priority_ceiling (owned_by _ _ _)) with (priority_ceiling M).
  assert (current_priority (tcb acquired t) = current_priority (tcb k t)) as EP by (by rewrite ET).
  assert (forall u, u <> t -> tcb acquired u = tcb k u) as EU by (intros u Hu; by rewrite acquired_tcb, decide_False).
  destruct (mutex_discipline M) eqn:Ed; try (rewrite ET; split_and!; done). rewrite EP. destruct (Z.ltb_spec (priority_ceiling M) (current_priority (tcb k t))).
  2:{ rewrite ET. split_and!; try done. simpl. lia. }
  pose proof (mq_sched _ _ (mo_queue _ _ HA)) as HS.
  destruct (change_priority_frame t (priority_ceiling M) false acquired Hk) as (HC & _ & EX & _ & _).
  pose proof (change_priority_tcb t (priority_ceiling M) false acquired HS Hk) as EC.
  split_and!.
  - apply repriced_ok; try done; [rewrite EL; apply not_elem_of_nil|]. intros _. rewrite EP. lia.
  - by rewrite change_priority_list.
  - by rewrite EX.
  - by rewrite (core_mutex _ _ _ HC).
  - rewrite EC, decide_True by done. simpl. lia.
  - rewrite EC, decide_True by done. by rewrite ET.
  - rewrite EC, decide_True by done. by rewrite ET.
  - intros u Hu. rewrite EC, decide_False by done. by apply EU.
Qed.

(** *** A mutex that the caller holds *)

Lemma holder_ids : lock M = CORE_MUTEX_LOCKED -> (Object_id (tcb k t) =? holder_id M) = true <-> holder M = t.
Proof using HO HI.
  intros HL. destruct (mo_held _ _ HO HL) as [A B C _ _ _]. rewrite Z.eqb_eq, C. split; [|by intros ->].
  intros E. symmetry. apply HI; try done. apply (mq_sched _ _ (mo_queue _ _ HO)).
Qed.

Lemma seize_nested wait : ceiling_violated m t k = false -> lock M = CORE_MUTEX_LOCKED -> holder M = t ->
  allow_nesting M = true -> nest_count M + 1 < two32 ->
  exists k', seize wait = Some k' /\ mutex_ok m k' /\ tq_list k' m = tq_list k m /\
    mutex k' m = set_nest_count (nest_count M + 1) M /\
    k' = upd_mutex m (fun c => set_nest_count (nest_count c +w 1) c) k1.
Proof using HO HI.
  intros HV HL Hh Ha Hn. rewrite seize_unfold by done. rewrite HL. cbn [negb].
  rewrite (proj2 (holder_ids HL) Hh), Ha.
  destruct (status_ok m k CORE_MUTEX_STATUS_SUCCESSFUL HO) as [[A B C D] EL]. set (f := fun c => set_nest_count _ _).
  assert (mutex (upd_mutex m f k1) m = set_nest_count (nest_count M + 1) M) as EM.
  { rewrite mutex_upd. change (mutex k1 m) with M. unfold f. f_equal. apply wrap32_small.
    destruct (mo_held _ _ HO HL) as [_ _ _ Hr _ _]. unfold u32. lia. }
  pose proof (upd_mutex_threads m f k1) as HT. pose proof (same_threads_list _ _ m HT) as EL2.
  eexists. split; [reflexivity|]. split; [|by rewrite EL2].
  split; rewrite ?EM, ?EL2; simpl; rewrite ?HL; try done; [|by right|].
  - apply (mutex_queue_frame m k1); try done.
    + apply (same_threads_tq_ok k1); [done|apply A].
    + apply (same_threads_sched k1); [done|apply A].
    + by rewrite EM.
  - intros _. destruct (D HL) as [D1 D2 D3 D4 D5 D6]. change (mutex k1 m) with M in *.
    split; rewrite ?EM, ?EL2; simpl; try done. lia.
Qed.
(** *** Refusals *)

Lemma seize_refused_status wait : ceiling_violated m t k = false -> lock M = CORE_MUTEX_LOCKED ->
  (holder M = t /\ allow_nesting M = false \/ holder M <> t /\ wait = false) ->
  exists k' code, seize wait = Some k' /\ mutex_ok m k' /\ tq_list k' m = tq_list k m /\ mutex k' m = M /\
    k' = upd_wait t (set_Wait_return_code code) k1 /\
    code = if decide (holder M = t) then CORE_MUTEX_STATUS_NESTING_NOT_ALLOWED
           else CORE_MUTEX_STATUS_UNSATISFIED_NOWAIT.
Proof using HO HI.
  intros HV HL HR. rewrite seize_unfold by done. rewrite HL. cbn [negb].
  assert (forall code, mutex_ok m (upd_wait t (set_Wait_return_code code) k1) /\
    tq_list (upd_wait t (set_Wait_return_code code) k1) m = tq_list k m) as HX.
  { intros code. destruct (status_ok m k CORE_MUTEX_STATUS_SUCCESSFUL HO) as [A EL].
    destruct (status_ok m k1 code A) as [A' EL']. split; [exact A'|by rewrite <- EL]. }
  destruct HR as [[Hh Ha]|[Hh ->]].
  - rewrite (proj2 (holder_ids HL) Hh), Ha, decide_True by done. eexists _, _. split; [reflexivity|].
    split; [apply HX|]. split; [apply HX|]. done.
  - destruct (Object_id (tcb k t) =? holder_id M) eqn:E; [by apply (holder_ids HL) in E|].
    rewrite decide_False by done. eexists _, _. split; [reflexivity|]. split; [apply HX|]. split; [apply HX|]. done.
Qed.

(** *** Waiting *)

Section Waiting.
Context (HW : can_wait m k) (HT : timer_free wfuel t timeout k) (Hn : t <> NULL).
Context (Hf : (length (tq_list k m) < fuel)%nat) (HL : lock M = CORE_MUTEX_LOCKED) (Hh : holder M <> t).
Context (Hd : _CORE_mutex_Is_priority_ceiling (mutex_discipline M) = false).
Notation h := (holder M).
Let g (w : Thread_Wait_information) :=
  set_Wait_id id (set_Wait_queue m (set_Wait_return_code CORE_MUTEX_STATUS_SUCCESSFUL w)).
Let k2 := upd_wait t (set_Wait_id id) (upd_wait t (set_Wait_queue m) (_Thread_queue_Enter_critical_section m k1)).
Let k3 := inherit_priority m t k2.

Lemma noted2 : noted m g THREAD_QUEUE_NOTHING_HAPPENED k k2.
Proof using HW.
  pose proof (noted_refl m k HW) as N0.
  apply (noted_code m (fun w => set_Wait_queue m (set_Wait_return_code CORE_MUTEX_STATUS_SUCCESSFUL w))); [done|].
  apply (noted_code m (set_Wait_return_code CORE_MUTEX_STATUS_SUCCESSFUL)); [done|].
  eapply noted_enter. by apply (noted_code m Datatypes.id (set_Wait_return_code CORE_MUTEX_STATUS_SUCCESSFUL)).
Qed.

(** The holder's priority while the caller waits. *)
Definition inherited_priority : Z :=
  match mutex_discipline M with
  | CORE_MUTEX_DISCIPLINES_PRIORITY_INHERIT => Z.min (current_priority (tcb k t)) (current_priority (tcb k h))
  | _ => current_priority (tcb k h)
  end.

Record inherited (k3 : Kernel) : Prop := {
  ih_wait : can_wait m k3;
  ih_list : tq_list k3 m = tq_list k m;
  ih_queue : tq k3 m = set_sync_state THREAD_QUEUE_NOTHING_HAPPENED (tq k m);
  ih_core : core_same k k3;
  ih_executing : _Thread_Executing k3 = t;
  ih_timers : watchdogs k3 = watchdogs k;
  ih_joined : joined k3 m t = joined k m t;
  ih_holder : current_priority (tcb k3 h) = inherited_priority /\ Object_id (tcb k3 h) = Object_id (tcb k h);
  ih_tcb : forall u, u <> h -> tcb k3 u = if decide (u = t) then noted_thread g (tcb k u) else tcb k u
}.

Lemma inherited_plain : inherited_priority = current_priority (tcb k h) -> k3 = k2 -> inherited k3.
Proof using HW Hh.
  intros EI E3. destruct noted2 as [A B C D E F G]. rewrite E3. split; try done.
  - by apply (noted_joined _ _ _ _ _ _ noted2).
  - rewrite EI, G, decide_False by done. done.
Qed.

Lemma inherited_ok : inherited k3.
Proof using HO HW HL Hh Hd Hf.
  destruct (mo_held _ _ HO HL) as [A B C D E F]. destruct noted2 as [N1 N2 N3 N4 N5 N6 N7].
  pose proof (core_mutex _ _ m N4) as EM.
  assert (tcb k2 h = tcb k h) as Eh by (by rewrite N7, decide_False).
  assert (current_priority (tcb k2 t) = current_priority (tcb k t)) as Et by (by rewrite N7, decide_True).
  assert (k3 = k2 -> inherited_priority = current_priority (tcb k h) -> inherited k3) as HP
    by (intros; by apply inherited_plain).
  unfold k3, inherit_priority in *. rewrite EM in *. rewrite Eh, Et in *. unfold inherited_priority in *.
  destruct (mutex_discipline M) eqn:ED; [by apply HP..| |by apply HP].
  destruct (Z.ltb_spec (current_priority (tcb k t)) (current_priority (tcb k h))) as [Hlt|Hge]; [|apply HP; [done|lia]].
  clear HP. set (p := current_priority (tcb k t)) in *.
  pose proof (cw_sched _ _ N1) as S2. assert (known k2 h) as K2 by (by apply N4).
  assert (prio p) as Hp by (unfold p; apply (ro_tcb _ _ (so_ready _ (cw_sched _ _ HW)) t), (cw_sched _ _ HW)).
  destruct (change_priority_frame h p false k2 K2) as (HC & EW & EX & EI & EQ).
  pose proof (change_priority_tcb h p false k2 S2 K2) as ET. pose proof (change_priority_list h p false k2 S2 K2 m) as EL.
  assert (h ∉ tq_list k2 m) as Hh2 by (by rewrite N2).
  assert (forall u, u <> h -> tcb (_Thread_Change_priority h p false k2) u = tcb k2 u) as EU
    by (intros u Hu; by rewrite ET, decide_False).
  split.
  - destruct N1 as [W1 W2 W3 W4 W5 W6]. split; rewrite ?EX, ?EL, ?EQ, ?EI; try done.
    + by apply change_priority_sched.
    + by apply change_priority_tq_ok.
    + unfold is_ready. rewrite N5 in *. by rewrite EU.
  - by rewrite EL.
  - by rewrite EQ.
  - by etransitivity.
  - by rewrite EX.
  - by rewrite EW.
  - rewrite <- (noted_joined _ _ _ _ _ t noted2). apply joined_ext; [apply EQ|done|by rewrite EU|].
    intros u Hu. rewrite EU; [done|]. by intros ->.
  - rewrite ET, decide_True by done. rewrite Eh. unfold inherited_priority. rewrite ED. simpl. fold p. split; [lia|done].
  - intros u Hu. by rewrite EU, N7.
Qed.

Lemma mutex_seize_waits : ceiling_violated m t k = false ->
  exists k', seize true = Some k' /\ mutex_ok m k' /\ mutex k' m = M /\ tq_list k' m = joined k m t /\
    _Thread_Executing k' = t /\ _Context_Switch_necessary k' = true /\
    current_priority (tcb k' h) = inherited_priority /\
    but_block2n (tcb k' t) = but_block2n (set_current_state STATES_WAITING_FOR_MUTEX (noted_thread g (tcb k t))) /\
    forall u, u <> t -> u <> h -> but_block2n (tcb k' u) = but_block2n (tcb k u).
Proof using HO HI HW HT Hn Hf HL Hh Hd.
  intros HV. rewrite seize_unfold by done. rewrite HL. cbn [negb].
  destruct (Object_id (tcb k t) =? holder_id M) eqn:E; [by apply (holder_ids HL) in E|]. cbn [negb]. fold k2 k3.
  destruct inherited_ok as [I1 I2 I3 I4 I5 I6 I7 [I8 I8'] I9].
  destruct (wait_spec routine wfuel fuel m timeout k3) as (k' & X0 & X1 & X2 & X3 & X4 & X5 & X6 & X7 & X8 & X9);
    rewrite ?I5, ?I2; try done.
  { unfold timer_free. rewrite I6. exact HT. } { by rewrite I3. }
  rewrite I5 in *. rewrite I3 in X8, X9. rewrite I7 in X1. cbn [tq_state set_sync_state discipline] in X8, X9.
  assert (tq_state (tq k m) = STATES_WAITING_FOR_MUTEX) as ES by apply (mo_queue _ _ HO).
  assert (core_same k k') as HC by (by etransitivity). pose proof (core_mutex _ _ m HC) as EM.
  assert (but_block2n (tcb k' t) = but_block2n (set_current_state STATES_WAITING_FOR_MUTEX (noted_thread g (tcb k t)))) as Bt
    by (rewrite X9, decide_True, ES, I9, decide_True by done; done).
  assert (forall u, u <> t -> u <> h -> but_block2n (tcb k' u) = but_block2n (tcb k u)) as Bu
    by (intros u Hu Hu'; by rewrite X9, decide_False, I9, decide_False).
  assert (but_block2n (tcb k' h) = but_block2n (tcb k3 h)) as Bh by (by rewrite X9, decide_False).
  assert (current_priority (tcb k' h) = inherited_priority) as EP
    by (by apply but_block2n_fields in Bh as (_ & -> & _)).
  assert (Wait_return_code (Wait (tcb k' t)) = CORE_MUTEX_STATUS_SUCCESSFUL) as EC
    by exact (f_equal (fun c => Wait_return_code (Wait c)) Bt).
  exists k'. rewrite X0, X7, EC.
  cbn [Z.eqb CORE_MUTEX_STATUS_SUCCESSFUL]. split_and!; try done.
  { unfold raise_to_ceiling. rewrite EM. by destruct (mutex_discipline M). }
  destruct (mo_held _ _ HO HL) as [A B C D F G]. destruct (mo_queue _ _ HO) as [Q1 Q2 Q3 Q4 Q5 Q6].
  destruct X8 as (X8 & X8' & _).
  assert (forall w, w ∈ tq_list k' m <-> w = t \/ w ∈ tq_list k m) as HU
    by (intros w; rewrite X1, joined_perm; by rewrite elem_of_cons).
  split; rewrite ?EM, ?HL; try done; [|by right|].
  - split; rewrite ?EM; try done; [by rewrite X8|by rewrite X8'|]. rewrite HU. intros [?|?]; done.
  - intros _. split; rewrite ?EM; try done.
    + by apply HC.
    + rewrite C, <- I8'. symmetry. exact (f_equal Object_id Bh).
    + rewrite HU. intros [?|?]; done.
    + intros Hin w Hw. rewrite EP. unfold inherited_priority. rewrite Hin. simpl.
      assert (current_priority (tcb k' w) = current_priority (tcb k w)) as ->.
      { destruct (decide (w = t)) as [-> |Hwt].
        - by apply but_block2n_fields in Bt as (_ & -> & _).
        - assert (w <> h) as Hwh by (intros ->; apply HU in Hw as [?|?]; done).
          by destruct (but_block2n_fields _ _ (Bu w Hwt Hwh)) as (_ & -> & _). }
      apply HU in Hw as [-> |Hw]; [lia|]. specialize (G Hin w Hw). lia.
Qed.

End Waiting.

(** Under a ceiling the caller has the ceiling's priority as soon as it waits. *)
Lemma seize_waits_ceiling : can_wait m k -> timer_free wfuel t timeout k -> (length (tq_list k m) < fuel)%nat ->
  lock M = CORE_MUTEX_LOCKED -> holder M <> t -> prio (priority_ceiling M) ->
  mutex_discipline M = CORE_MUTEX_DISCIPLINES_PRIORITY_CEILING -> ceiling_violated m t k = false ->
  exists k', seize true = Some k' /\ mutex k' m = M /\ tq_list k' m = joined k m t /\ sched_ok k' /\
    _Thread_Executing k' = t /\ current_state (tcb k' t) = STATES_WAITING_FOR_MUTEX /\
    current_priority (tcb k' t) = Z.min (priority_ceiling M) (current_priority (tcb k t)) /\
    forall u, u <> t -> but_block2n (tcb k' u) = but_block2n (tcb k u).
Proof using HO HI.
  intros HW HT Hf HL Hh Hp Hd HV. rewrite seize_unfold by done. rewrite HL. cbn [negb].
  destruct (Object_id (tcb k t) =? holder_id M) eqn:E; [by apply (holder_ids HL) in E|]. cbn [negb].
  pose proof (noted2 HW) as HN. set (k2 := upd_wait t (set_Wait_id id) _) in *.
  assert (inherit_priority m t k2 = k2) as ->
    by (unfold inherit_priority; rewrite (core_mutex _ _ m (no_core _ _ _ _ _ HN)), Hd; done).
  destruct (noted_wait_spec routine wfuel fuel m timeout _ k k2 HN HT Hf)
    as (k' & X0 & X1 & X2 & X3 & X4 & X5 & X6 & X7 & X8 & X9).
  pose proof (core_mutex _ _ m X6) as EM.
  assert (forall u, u <> t -> but_block2n (tcb k' u) = but_block2n (tcb k u)) as Xu
    by (intros u Hu; by rewrite X9, decide_False).
  specialize (X9 t). rewrite decide_True in X9 by done.
  rewrite X0, X7.
  assert (Wait_return_code (Wait (tcb k' t)) = CORE_MUTEX_STATUS_SUCCESSFUL) as EC
    by exact (f_equal (fun c => Wait_return_code (Wait c)) X9).
  rewrite EC. change (CORE_MUTEX_STATUS_SUCCESSFUL =? CORE_MUTEX_STATUS_SUCCESSFUL) with true. cbv iota.
  eexists. split; [reflexivity|]. unfold raise_to_ceiling. rewrite EM, Hd.
  destruct (but_block2n_fields _ _ X9) as (ES & EP & _). cbn [current_priority set_current_state noted_thread set_Wait] in EP.
  change (current_state (set_current_state ?x _)) with x in ES. rewrite (mq_state _ _ (mo_queue _ _ HO)) in ES.
  assert (known k' t) as Hk by (rewrite <- X7; apply X3).
  destruct (Z.ltb_spec (priority_ceiling M) (current_priority (tcb k' t))) as [Hlt|Hge].
  - destruct (change_priority_frame t (priority_ceiling M) false k' Hk) as (HC & _ & EX & _ & _).
    split_and!; [by rewrite (core_mutex _ _ _ HC)|by rewrite change_priority_list|by apply change_priority_sched|by rewrite EX|..].
    + rewrite change_priority_tcb, decide_True by done. unfold repriced. cbn [current_state set_current_state]. by rewrite ES.
    + rewrite change_priority_tcb, decide_True by done. simpl. lia.
    + intros u Hu. rewrite change_priority_tcb, decide_False by done. by apply Xu.
  - split_and!; try done. rewrite EP in *. lia.
Qed.
End Seizing.

(** ** Surrendering *)

Section Surrendering.
Context (node : Z) (mp : Z -> Z -> Kernel -> Kernel) (m id : Z) (k : Kernel) (HO : mutex_ok m k) (HI : ids_ok k).
Notation t := (_Thread_Executing k).
Notation M := (mutex k m).
Let surrender := _CORE_mutex_Surrender node mp m id k.

Lemma surrender_not_owner : Object_id (tcb k t) <> holder_id M -> must_own (mutex_discipline M) = true ->
  surrender = (CORE_MUTEX_STATUS_NOT_OWNER_OF_RESOURCE, k).
Proof using.
  intros H Hm. unfold surrender, _CORE_mutex_Surrender, _Objects_Are_ids_equal.
  by rewrite (proj2 (Z.eqb_neq _ _) H), Hm.
Qed.

Lemma not_holder_id : holder M <> t -> Object_id (tcb k t) <> holder_id M.
Proof using HO HI.
  intros Hh. assert (known k t) as Hk by apply (mq_sched _ _ (mo_queue _ _ HO)). destruct (mo_lock _ _ HO) as [HL|HL].
  - destruct (mo_free _ _ HO HL) as (_ & -> & _). by apply HI.
  - destruct (mo_held _ _ HO HL) as [A _ -> _ _ _]. intros E. apply Hh. symmetry. by apply HI.
Qed.

(** Releasing a mutex that nobody holds. *)
Lemma surrender_unlocked : lock M = CORE_MUTEX_UNLOCKED -> must_own (mutex_discipline M) = false ->
  surrender = (CORE_MUTEX_STATUS_SUCCESSFUL, upd_mutex m (set_nest_count (two32 - 1)) k).
Proof using HO.
  intros HL Hm. destruct (mo_free _ _ HO HL) as (_ & _ & EN & _).
  unfold surrender, _CORE_mutex_Surrender. rewrite Hm, andb_false_r, mutex_upd, EN.
  change (nest_count (set_nest_count (0 -w 1) M) =? 0) with false. cbn [negb].
  unfold upd_mutex. by rewrite EN.
Qed.

(** The caller may release it: it holds it, or anybody may (and the caller does not wait for it). *)
Context (HL : lock M = CORE_MUTEX_LOCKED).
Context (Hh : holder M = t \/ (must_own (mutex_discipline M) = false /\ t ∉ tq_list k m)).

Lemma caller_off : t ∉ tq_list k m.
Proof using HO HL Hh. destruct Hh as [<-|[_ ?]]; [|done]. apply (mo_held _ _ HO HL). Qed.

Lemma owner_id : negb (Object_id (tcb k t) =? holder_id M) && must_own (mutex_discipline M) = false.
Proof using HO HL Hh.
  destruct Hh as [E|[-> _]]; [|apply andb_false_r]. destruct (mo_held _ _ HO HL) as [_ _ C _ _ _].
  by rewrite C, E, Z.eqb_refl.
Qed.

(** *** An inner release *)

Lemma surrender_nested : 1 < nest_count M ->
  surrender = (CORE_MUTEX_STATUS_SUCCESSFUL, upd_mutex m (fun c => set_nest_count (nest_count c -w 1) c) k) /\
  mutex surrender.2 m = set_nest_count (nest_count M - 1) M /\ mutex_ok m surrender.2.
Proof using HO HL Hh.
  intros Hn. destruct (mo_held _ _ HO HL) as [A B C D E F].
  unfold surrender, _CORE_mutex_Surrender, _Objects_Are_ids_equal. rewrite owner_id.
  set (f := fun c => set_nest_count _ c).
  assert (mutex (upd_mutex m f k) m = set_nest_count (nest_count M - 1) M) as EM.
  { rewrite mutex_upd. unfold f. f_equal. apply wrap32_small. unfold u32. lia. }
  rewrite EM. cbn [nest_count set_nest_count]. rewrite (proj2 (Z.eqb_neq _ _)) by lia. cbn [negb snd].
  split; [done|]. split; [exact EM|].
  pose proof (upd_mutex_threads m f k) as HT. pose proof (same_threads_list _ _ m HT) as EL.
  destruct (HO) as [Q _ _ _]. split; rewrite ?EM, ?EL; simpl; rewrite ?HL; try done; [|by right|].
  - apply (mutex_queue_frame m k); try done.
    + apply (same_threads_tq_ok k); [done|apply Q].
    + apply (same_threads_sched k); [done|apply Q].
    + by rewrite EM.
  - intros _. split; rewrite ?EM, ?EL; simpl; try done. lia.
Qed.

(** *** The last release *)

Context (Hn : nest_count M = 1) (Hr : prio (real_priority (tcb k t))).
Let freed := upd_mutex m (fun c => set_holder_id 0 (set_holder NULL c))
  (give_resource t (upd_mutex m (fun c => set_nest_count (nest_count c -w 1) c) k)).

(** The priority that the caller is left with. *)
Definition restored_priority : Z :=
  match mutex_discipline M with
  | CORE_MUTEX_DISCIPLINES_FIFO | CORE_MUTEX_DISCIPLINES_PRIORITY => current_priority (tcb k t)
  | _ => if resource_count (tcb k t) -w 1 =? 0 then real_priority (tcb k t) else current_priority (tcb k t)
  end.

Record given (k4 : Kernel) : Prop := {
  gi_tq_ok : tq_ok k4 m;
  gi_sched : sched_ok k4;
  gi_queue : tq k4 m = tq k m;
  gi_list : tq_list k4 m = tq_list k m;
  gi_mutex : mutex k4 m = set_holder_id 0 (set_holder NULL (set_nest_count 0 M));
  gi_executing : _Thread_Executing k4 = t;
  gi_known : forall u, known k u -> known k4 u;
  gi_caller : current_priority (tcb k4 t) = restored_priority /\
    resource_count (tcb k4 t) = resource_count (tcb k t) -w 1;
  gi_tcb : forall u, u <> t -> tcb k4 u = tcb k u;
  gi_ready : is_ready k t -> is_ready k4 t
}.

Lemma freed_facts : tq_ok freed m /\ sched_ok freed /\ tq freed m = tq k m /\ tq_list freed m = tq_list k m /\
  mutex freed m = set_holder_id 0 (set_holder NULL (set_nest_count 0 M)) /\
  forall u, tcb freed u = if decide (u = t) then set_resource_count (resource_count (tcb k t) -w 1) (tcb k t) else tcb k u.
Proof using HO Hn.
  destruct (HO) as [[Q1 Q2 _ _ _ _] _ _ _]. assert (known k t) as Hk by apply Q2.
  pose proof (upd_mutex_threads m (fun c => set_nest_count (nest_count c -w 1) c) k) as T1.
  split_and!.
  - eapply same_threads_tq_ok; [apply upd_mutex_threads|]. apply unseen_tq_ok; [apply resource_unseen|].
    by apply (same_threads_tq_ok k).
  - eapply same_threads_sched; [apply upd_mutex_threads|]. apply unseen_sched; [apply resource_unseen|done|].
    by apply (same_threads_sched k).
  - done.
  - unfold freed. rewrite (same_threads_list _ _ _ (upd_mutex_threads m _ _)). unfold give_resource.
    rewrite unseen_list by apply resource_unseen. by apply same_threads_list.
  - unfold freed. rewrite mutex_upd. change (mutex (give_resource t ?x) m) with (mutex x m). rewrite mutex_upd. by rewrite Hn.
  - intros u. unfold freed. rewrite (same_threads_tcb _ _ _ (upd_mutex_threads m _ _)). unfold give_resource.
    rewrite tcb_upd, !(same_threads_tcb _ _ _ T1). done.
Qed.

Lemma given_ok : given (restore_priority m t freed).
Proof using HO HL Hh Hn Hr.
  destruct freed_facts as (F1 & F2 & F3 & F4 & F5 & F6). destruct (mo_held _ _ HO HL) as [_ _ _ _ E _].
  assert (known freed t) as Hk by (apply known_mono, (so_executing _ (mq_sched _ _ (mo_queue _ _ HO)))).
  assert (forall u, known k u -> known freed u) as HK by (intros u Hu; apply (known_mono t); exact Hu).
  pose proof (F6 t) as Ft. rewrite decide_True in Ft by done.
  assert (forall u, u <> t -> tcb freed u = tcb k u) as Fu by (intros u Hu; by rewrite F6, decide_False).
  assert (given freed \/ restored_priority <> current_priority (tcb k t)) as HG.
  { destruct (Z.eq_dec restored_priority (current_priority (tcb k t))) as [EP|]; [left|by right].
    split; try done; [by rewrite Ft, EP|]. unfold is_ready. by rewrite Ft. }
  unfold restore_priority. rewrite F5, Ft. cbn [mutex_discipline set_holder_id set_holder set_nest_count
    resource_count real_priority current_priority set_resource_count].
  assert (restored_priority <> current_priority (tcb k t) -> given (_Thread_Change_priority t (real_priority (tcb k t)) true freed)) as HC.
  { intros Hne. assert (restored_priority = real_priority (tcb k t)) as ER
      by (unfold restored_priority in *; destruct (mutex_discipline M); try done; by destruct (_ =? 0)).
    destruct (change_priority_frame t (real_priority (tcb k t)) true freed Hk) as (HC & _ & EX & _ & EQ).
    pose proof (change_priority_tcb t (real_priority (tcb k t)) true freed F2 Hk) as ET.
    split.
    - apply change_priority_tq_ok; try done. rewrite F4. exact caller_off.
    - by apply change_priority_sched.
    - by rewrite EQ.
    - by rewrite change_priority_list.
    - by rewrite (core_mutex _ _ _ HC).
    - by rewrite EX.
    - intros u Hu. apply HC. by apply HK.
    - rewrite ET, decide_True, Ft, ER by done. done.
    - intros u Hu. rewrite ET, decide_False by done. by apply Fu.
    - unfold is_ready. rewrite ET, decide_True, Ft by done. unfold repriced. simpl. by intros ->. }
  unfold restored_priority in *. destruct (mutex_discipline M); cbn [must_own andb] in *;
    try (destruct HG as [?|HG]; [done|by destruct HG]);
    (destruct (resource_count (tcb k t) -w 1 =? 0); cbn [andb] in *; [|by destruct HG as [?|HG]; [|destruct HG]]);
    (destruct (Z.eqb_spec (real_priority (tcb k t)) (current_priority (tcb k t))) as [EE|EE]; cbn [negb];
      [by destruct HG as [?|HG]; [|destruct HG]|by apply HC]).
Qed.

Lemma surrender_unfold :
  surrender = (CORE_MUTEX_STATUS_SUCCESSFUL,
    let '(u, k5) := _Thread_queue_Dequeue m (restore_priority m t freed) in
    if negb (u =? NULL) then
      if negb (_Objects_Is_local_id node (Object_id (tcb k5 u)))
      then mp u id (upd_mutex m (owned_by NULL (Object_id (tcb k5 u))) k5)
      else take_resource u (upd_mutex m (owned_by u (Object_id (tcb k5 u))) k5)
    else upd_mutex m (set_lock CORE_MUTEX_UNLOCKED) k5).
Proof using HO HL Hh Hn.
  unfold surrender, _CORE_mutex_Surrender, _Objects_Are_ids_equal. rewrite owner_id.
  rewrite mutex_upd. cbn [nest_count set_nest_count]. rewrite Hn. change (1 -w 1) with 0. cbn [Z.eqb negb].
  fold freed. by destruct (_Thread_queue_Dequeue m (restore_priority m t freed)).
Qed.

(** The thread that the last release wakes, if any, and the caller stays ready. *)
Lemma surrender_result : (forall u, u ∈ tq_list k m -> _Objects_Is_local_id node (Object_id (tcb k u)) = true) ->
  let k4 := restore_priority m t freed in
  exists f : Kernel -> Kernel, surrender.2 = f ((_Thread_queue_Dequeue m k4).2) /\
    (f = upd_mutex m (set_lock CORE_MUTEX_UNLOCKED) \/
     exists u o, u ∈ tq_list k m /\ f = (fun x => take_resource u (upd_mutex m o x))) /\
    (is_ready k t -> is_ready surrender.2 t).
Proof using HO HL Hh Hn Hr.
  intros Hl k4. rewrite surrender_unfold. fold k4. destruct given_ok as [G1 G2 G3 G4 G5 G6 G7 _ G9 G10]. fold k4 in G1, G2, G3, G4, G5, G6, G7, G9, G10.
  clearbody k4. destruct (mo_queue _ _ HO) as [_ _ Q3 Q4 Q5 Q6]. pose proof caller_off as HF.
  destruct (tq_list k m) as [|u rest] eqn:EL.
  - rewrite (dequeue_none m k4 G1) by (by rewrite ?G3). rewrite Z.eqb_refl. cbn [negb fst snd]. eexists. split; [done|]. split; [by left|exact G10].
  - destruct (dequeue_first m k4 u rest G1 G2 G4) as (k5 & X0 & _ & _ & _ & _ & _ & _ & X8). rewrite X0.
    assert (u <> NULL) as Hu0 by (intros ->; apply Q6; left).
    assert (u <> t) as Hut by (intros ->; apply HF; left).
    rewrite (proj2 (Z.eqb_neq _ _) Hu0). cbn [negb]. pose proof (X8 u) as Xu. rewrite decide_True, G9 in Xu by done.
    assert (Object_id (tcb k5 u) = Object_id (tcb k u)) as EO by exact (f_equal Object_id Xu).
    rewrite EO, Hl by left. cbn [negb fst snd]. eexists (fun x => take_resource u (upd_mutex m _ x)). split; [done|]. split.
    + right. exists u, (owned_by u (Object_id (tcb k u))). split; [left|done].
    + intros HR. unfold is_ready, take_resource. rewrite tcb_upd, decide_False by done.
      rewrite (same_threads_tcb _ _ _ (upd_mutex_threads m _ k5)). pose proof (X8 t) as Xt. rewrite decide_False in Xt by done.
      assert (current_state (tcb k5 t) = current_state (tcb k4 t)) as -> by exact (f_equal current_state Xt). by apply G10.
Qed.

Lemma surrender_unlocks : tq_list k m = [] ->
  surrender.1 = CORE_MUTEX_STATUS_SUCCESSFUL /\ mutex_ok m surrender.2 /\
  mutex surrender.2 m = set_lock CORE_MUTEX_UNLOCKED (set_holder_id 0 (set_holder NULL (set_nest_count 0 M))) /\
  tq_list surrender.2 m = [] /\ current_priority (tcb surrender.2 t) = restored_priority /\
  resource_count (tcb surrender.2 t) = resource_count (tcb k t) -w 1 /\
  forall u, u <> t -> tcb surrender.2 u = tcb k u.
Proof using HO HL Hh Hn Hr.
  intros EL. rewrite surrender_unfold. destruct given_ok as [G1 G2 G3 G4 G5 G6 G7 [G8 G8'] G9 _].
  set (k4 := restore_priority m t freed) in *. clearbody k4. destruct (mo_queue _ _ HO) as [_ _ Q3 Q4 Q5 _].
  rewrite EL in G4. rewrite (dequeue_none m k4 G1) by (by rewrite ?G3). rewrite Z.eqb_refl. cbn [negb fst snd].
  pose proof (upd_mutex_threads m (set_lock CORE_MUTEX_UNLOCKED) k4) as HT.
  pose proof (same_threads_list _ _ m HT) as EL'. pose proof (fun u => same_threads_tcb _ _ u HT) as ET.
  assert (mutex (upd_mutex m (set_lock CORE_MUTEX_UNLOCKED) k4) m =
    set_lock CORE_MUTEX_UNLOCKED (set_holder_id 0 (set_holder NULL (set_nest_count 0 M)))) as EM by (by rewrite mutex_upd, G5).
  rewrite EM, EL', !ET. split_and!; try done.
  split; rewrite ?EM, ?EL', ?G4; simpl; try done; [|by left].
  split; rewrite ?EM, ?EL', ?G4; try done.
  - by apply (same_threads_tq_ok k4).
  - by apply (same_threads_sched k4).
  - change (tq _ m) with (tq k4 m). by rewrite G3.
  - change (tq _ m) with (tq k4 m). by rewrite G3.
  - change (tq _ m) with (tq k4 m). by rewrite G3.
  - apply not_elem_of_nil.
Qed.

Lemma surrender_passes u rest : tq_list k m = u :: rest -> _Objects_Is_local_id node (Object_id (tcb k u)) = true ->
  surrender.1 = CORE_MUTEX_STATUS_SUCCESSFUL /\ mutex_ok m surrender.2 /\
  mutex surrender.2 m = owned_by u (Object_id (tcb k u)) M /\
  tq_list surrender.2 m = rest /\ current_priority (tcb surrender.2 t) = restored_priority /\
  resource_count (tcb surrender.2 t) = resource_count (tcb k t) -w 1 /\
  but_block2n (tcb surrender.2 u) =
    but_block2n (set_resource_count (resource_count (tcb k u) +w 1) (unblocked (tcb k u))) /\
  forall v, v <> t -> v <> u -> but_block2n (tcb surrender.2 v) = but_block2n (tcb k v).
Proof using HO HL Hh Hn Hr.
  intros EL Hl. rewrite surrender_unfold. destruct given_ok as [G1 G2 G3 G4 G5 G6 G7 [G8 G8'] G9 _].
  set (k4 := restore_priority m t freed) in *. clearbody k4. destruct (mo_queue _ _ HO) as [Q1 _ Q3 Q4 Q5 Q6].
  destruct (mo_held _ _ HO HL) as [_ _ _ _ E F].
  assert (u ∈ tq_list k m) as Hu by (rewrite EL; left).
  assert (u <> t) as Hut by (intros ->; by apply caller_off).
  assert (u <> NULL) as Hu0 by (intros ->; done).
  assert (u ∉ rest) as Hur by (pose proof (to_nodup _ _ Q1) as X; rewrite EL in X; by apply NoDup_cons in X as [X _]).
  pose proof G4 as G4'. rewrite EL in G4.
  destruct (dequeue_first m k4 u rest G1 G2 G4) as (k5 & X0 & X1 & X2 & X3 & (X4 & X4' & X5 & _) & X6 & X7 & X8).
  rewrite X0. rewrite (proj2 (Z.eqb_neq _ _) Hu0). cbn [negb].
  pose proof (X8 u) as Xu. rewrite decide_True in Xu by done.
  assert (forall v, v <> u -> but_block2n (tcb k5 v) = but_block2n (tcb k4 v)) as Xv by (intros v Hv; by rewrite X8, decide_False).
  rewrite G9 in Xu by done.
  assert (Object_id (tcb k5 u) = Object_id (tcb k u)) as EO by exact (f_equal Object_id Xu).
  rewrite EO, Hl. cbn [negb fst snd].
  set (o := owned_by u (Object_id (tcb k u))).
  assert (mutex k5 m = set_holder_id 0 (set_holder NULL (set_nest_count 0 M))) as EM5 by (by rewrite (core_mutex _ _ _ X6), G5).
  pose proof (upd_mutex_threads m o k5) as HT. set (k6 := take_resource u (upd_mutex m o k5)).
  assert (mutex k6 m = owned_by u (Object_id (tcb k u)) M) as EM.
  { change (mutex k6 m) with (mutex (upd_mutex m o k5) m). by rewrite mutex_upd, EM5. }
  assert (tq_list k6 m = rest) as EL6.
  { unfold k6, take_resource. rewrite unseen_list by apply resource_unseen. by rewrite (same_threads_list _ _ _ HT). }
  assert (forall v, tcb k6 v = if decide (v = u) then set_resource_count (resource_count (tcb k5 u) +w 1) (tcb k5 u) else tcb k5 v) as ET.
  { intros v. unfold k6, take_resource. rewrite tcb_upd, !(same_threads_tcb _ _ _ HT). done. }
  assert (known k5 u) as Hk5 by (apply X6, G7; by apply Q1).
  assert (forall v, v <> u -> tcb k6 v = tcb k5 v) as ETv by (intros v Hv; by rewrite ET, decide_False).
  pose proof (ET u) as ETu. rewrite decide_True in ETu by done.
  assert (but_block2n (tcb k6 u) =
    but_block2n (set_resource_count (resource_count (tcb k u) +w 1) (unblocked (tcb k u)))) as BU.
  { rewrite ETu. assert (resource_count (tcb k5 u) = resource_count (tcb k u)) as -> by exact (f_equal resource_count Xu).
    transitivity (set_resource_count (resource_count (tcb k u) +w 1) (but_block2n (tcb k5 u))); [done|]. by rewrite Xu. }
  assert (forall v, v <> t -> v <> u -> but_block2n (tcb k6 v) = but_block2n (tcb k v)) as BV
    by (intros v Hv Hv'; by rewrite ETv, Xv, G9).
  assert (but_block2n (tcb k6 t) = but_block2n (tcb k4 t)) as BT by (by rewrite ETv, Xv).
  split_and!; try done.
  - split; rewrite ?EM; try done; [|right; exact HL|by simpl; rewrite HL|].
    + split; rewrite ?EM, ?EL6; try done.
      * apply unseen_tq_ok; [apply resource_unseen|]. by apply (same_threads_tq_ok k5).
      * apply unseen_sched; [apply resource_unseen|done|]. by apply (same_threads_sched k5).
      * change (tq k6 m) with (tq k5 m). by rewrite X4, G3.
      * change (tq k6 m) with (tq k5 m). by rewrite X5, G3.
      * change (tq k6 m) with (tq k5 m). rewrite X4', G3. done.
      * intros HN. apply Q6. rewrite EL. by right.
    + intros _. split; rewrite ?EM, ?EL6; simpl; try done.
      * by apply known_mono.
      * symmetry. exact (f_equal Object_id BU).
      * intros Hd w Hw. assert (w <> u) as Hwu by (by intros ->).
        assert (w <> t) as Hwt by (intros ->; apply caller_off; rewrite EL; by right).
        destruct (but_block2n_fields _ _ BU) as (_ & -> & _).
        destruct (but_block2n_fields _ _ (BV w Hwt Hwu)) as (_ & -> & _). simpl.
        apply (head_highest m k u rest w); try done. rewrite Q5, Hd. done.
  - by destruct (but_block2n_fields _ _ BT) as (_ & -> & _).
  - rewrite <- G8'. exact (f_equal resource_count BT).
Qed.
End Surrendering.

(** ** Fresh mutexes *)

(** A mutex that is created locked belongs to the executing thread, whoever it is. *)
Lemma handed_ok m cls nesting d ceiling proxy t k : sched_ok k -> known k t -> t <> NULL ->
  let k' := set_executing (_Thread_Executing k)
    (_CORE_mutex_Initialize m cls nesting d ceiling CORE_MUTEX_LOCKED proxy (set_executing t k)) in
  mutex_ok m k' /\ holder (mutex k' m) = t /\ tq_list k' m = [] /\ lock (mutex k' m) = CORE_MUTEX_LOCKED /\
  _Thread_Executing k' = _Thread_Executing k /\ _Thread_Idle k' = _Thread_Idle k /\ watchdogs k' = watchdogs k /\
  mutex_discipline (mutex k' m) = d /\ priority_ceiling (mutex k' m) = ceiling /\
  forall u, tcb k' u = if decide (u = t) then set_resource_count (resource_count (tcb k t) +w 1) (tcb k t) else tcb k u.
Proof.
  intros HS Hk Hn. cbn zeta. unfold _CORE_mutex_Initialize. cbn zeta.
  change (CORE_MUTEX_LOCKED =? CORE_MUTEX_LOCKED) with true. cbn [_Thread_Executing set_executing].
  set (k1 := take_resource t _). fold (queue_discipline d).
  destruct (initialize_fresh m cls (queue_discipline d) STATES_WAITING_FOR_MUTEX proxy CORE_MUTEX_TIMEOUT k1) as (A & B & C & D);
    [done|].
  assert (watchdogs (_Thread_queue_Initialize m cls (queue_discipline d) STATES_WAITING_FOR_MUTEX proxy CORE_MUTEX_TIMEOUT k1) =
    watchdogs k) as EW by done.
  set (k2 := _Thread_queue_Initialize _ _ _ _ _ _ k1) in *.
  assert (forall u, tcb k2 u = if decide (u = t) then set_resource_count (resource_count (tcb k t) +w 1) (tcb k t) else tcb k u) as ET.
  { intros u. change (tcb k2 u) with (tcb k1 u). unfold k1, take_resource. rewrite tcb_upd. done. }
  assert (sched_ok (take_resource t k)) as HS1 by (by apply unseen_sched; [apply resource_unseen| |]).
  set (k3 := set_executing (_Thread_Executing k) k2).
  assert (sched_ok k3) as HS3 by (by apply (sched_same (take_resource t k))).
  assert (tq_list k3 m = []) as EL by exact A.
  assert (tq_ok k3 m) as HQ by (by apply (tq_ok_steady m k2)).
  assert (mutex k3 m = {| allow_nesting := nesting; mutex_discipline := d; priority_ceiling := ceiling;
    lock := CORE_MUTEX_LOCKED; nest_count := 1; holder := t; holder_id := Object_id (tcb k t) |}) as EM.
  { change (mutex k3 m) with (mutex k1 m). unfold k1. change (mutex (take_resource _ ?x) m) with (mutex x m).
    by rewrite !mutex_upd. }
  assert (sync_state (tq k3 m) = THREAD_QUEUE_SYNCHRONIZED) as E1 by (change (tq k3 m) with (tq k2 m); by rewrite D).
  assert (tq_state (tq k3 m) = STATES_WAITING_FOR_MUTEX) as E2 by (change (tq k3 m) with (tq k2 m); by rewrite D).
  assert (discipline (tq k3 m) = queue_discipline d) as E3 by (change (tq k3 m) with (tq k2 m); by rewrite D).
  rewrite EM. split_and!; try done. split; rewrite ?EM; simpl; try done; [|by right|].
  - split; rewrite ?EM, ?EL; try done. apply not_elem_of_nil.
  - intros _. split; rewrite ?EM, ?EL; simpl; try done.
    + exact (known_mono t (fun c => set_resource_count (resource_count c +w 1) c) k t Hk).
    + change (tcb k3) with (tcb k2). rewrite ET, decide_True by done. done.
    + apply not_elem_of_nil.
    + intros _ w Hw. by apply elem_of_nil in Hw.
Qed.

(** A second status replaces the first. *)
Lemma answered_twice t a b k : threads (upd_wait t (set_Wait_return_code a) (upd_wait t (set_Wait_return_code b) k)) =
  threads (upd_wait t (set_Wait_return_code a) k).
Proof. unfold upd_wait, upd_thread, tcb. simpl. by rewrite lookup_total_insert_eq, insert_insert_eq. Qed.

(** ** The claims *)

(** What a mutex looks like while [u], whose id is [id], holds it, and while nobody does. *)
Definition held_with (c : CORE_mutex_Control) (u id nests : Z) : CORE_mutex_Control :=
  {| allow_nesting := allow_nesting c; mutex_discipline := mutex_discipline c; priority_ceiling := priority_ceiling c;
     lock := CORE_MUTEX_LOCKED; nest_count := nests; holder := u; holder_id := id |}.
Definition unheld (c : CORE_mutex_Control) : CORE_mutex_Control :=
  {| allow_nesting := allow_nesting c; mutex_discipline := mutex_discipline c; priority_ceiling := priority_ceiling c;
     lock := CORE_MUTEX_UNLOCKED; nest_count := 0; holder := NULL; holder_id := 0 |}.

(** C11: [_CORE_mutex_Seize] by a running thread, with no interrupt in its windows, on
    every path.  Let [t] be the caller and [M] the mutex as it is found.
    - Under the ceiling discipline a caller whose priority is numerically less than the
      ceiling is refused with CORE_MUTEX_STATUS_CEILING_VIOLATED, and that status is all
      that changes; a caller at the ceiling or below it is not refused.
    - A free mutex is taken: [t] holds it once, has one more resource, and is raised to
      the ceiling if the discipline is the ceiling one and its priority is lower; other
      threads are unchanged.
    - The holder nests, or is told that it may not.
    - A caller that will not wait is told so and nothing else changes.
    - A caller that will waits in its place in the queue, blocked.  Under inheritance the
      holder gets its priority if that is higher; under a ceiling the caller gets the
      ceiling's priority as soon as it is in the queue; other threads are unchanged but
      for the links of the queue.
    On every path but the wait under a ceiling the invariant of the mutex is shown to hold
    again. *)
Theorem mutex_seize_correct routine wfuel fuel m id wait timeout k :
  let t := _Thread_Executing k in
  let M := mutex k m in
  let violated := match mutex_discipline M with
    | CORE_MUTEX_DISCIPLINES_PRIORITY_CEILING => current_priority (tcb k t) <? priority_ceiling M
    | _ => false
    end in
  let answered code := upd_wait t (set_Wait_return_code code) k in
  mutex_ok m k -> ids_ok k -> can_wait m k -> timer_free wfuel t timeout k -> t <> NULL ->
  (length (tq_list k m) < fuel)%nat -> prio (priority_ceiling M) -> nest_count M + 1 < two32 ->
  exists k', _CORE_mutex_Seize routine wfuel Datatypes.id fuel [] Datatypes.id m id wait timeout k = Some k' /\
    if violated then
      mutex_ok m k' /\ k' = answered CORE_MUTEX_STATUS_CEILING_VIOLATED
    else if lock M =? CORE_MUTEX_UNLOCKED then
      mutex_ok m k' /\ mutex k' m = held_with M t (Object_id (tcb k t)) 1 /\
      current_priority (tcb k' t) = seized_priority m k /\
      resource_count (tcb k' t) = resource_count (tcb k t) +w 1 /\
      Wait_return_code (Wait (tcb k' t)) = CORE_MUTEX_STATUS_SUCCESSFUL /\
      forall u, u <> t -> tcb k' u = tcb k u
    else if holder M =? t then
      mutex_ok m k' /\
      if allow_nesting M then
        mutex k' m = held_with M t (Object_id (tcb k t)) (nest_count M + 1) /\
        threads k' = threads (answered CORE_MUTEX_STATUS_SUCCESSFUL)
      else mutex k' m = M /\ threads k' = threads (answered CORE_MUTEX_STATUS_NESTING_NOT_ALLOWED)
    else if negb wait then
      mutex_ok m k' /\ mutex k' m = M /\ tq_list k' m = tq_list k m /\
      threads k' = threads (answered CORE_MUTEX_STATUS_UNSATISFIED_NOWAIT)
    else
      mutex k' m = M /\ tq_list k' m = joined k m t /\ sched_ok k' /\
      current_state (tcb k' t) = STATES_WAITING_FOR_MUTEX /\
      match mutex_discipline M with
      | CORE_MUTEX_DISCIPLINES_PRIORITY_CEILING =>
          current_priority (tcb k' t) = Z.min (priority_ceiling M) (current_priority (tcb k t)) /\
          forall u, u <> t -> but_block2n (tcb k' u) = but_block2n (tcb k u)
      | _ =>
          mutex_ok m k' /\ current_priority (tcb k' (holder M)) = inherited_priority m k /\
          current_priority (tcb k' t) = current_priority (tcb k t) /\
          forall u, u <> t -> u <> holder M -> but_block2n (tcb k' u) = but_block2n (tcb k u)
      end.
Proof.
  intros t M violated answered HO HI HW HT Hn Hf Hp Hc.
  assert (ceiling_violated m t k = violated) as HV
    by (unfold ceiling_violated, violated; fold M; by destruct (mutex_discipline M)).
  destruct violated.
  { rewrite (seize_violated routine wfuel fuel m id timeout k wait HV). eexists. split; [done|].
    split; [by apply status_ok|done]. }
  destruct (mo_lock _ _ HO) as [HL|HL]; fold M in HL; rewrite HL; cbn [Z.eqb CORE_MUTEX_UNLOCKED CORE_MUTEX_LOCKED].
  { destruct (seize_free routine wfuel fuel m id timeout k HO wait HV HL Hn Hp) as (k' & E & A & _ & _ & B & C & D & F & G).
    exists k'. by split_and!. }
  change (CORE_MUTEX_LOCKED =? CORE_MUTEX_UNLOCKED) with false. cbv iota.
  destruct (Z.eqb_spec (holder M) t) as [Hh|Hh].
  { destruct (allow_nesting M) eqn:Ha.
    - destruct (seize_nested routine wfuel fuel m id timeout k HO HI wait HV HL Hh Ha Hc) as (k' & E & A & _ & B & EK).
      exists k'. split; [done|]. split; [done|]. split; [|by rewrite EK].
      pose proof (he_id _ _ (mo_held _ _ HO HL)) as EI. fold M in EI. rewrite Hh in EI.
      rewrite B. unfold held_with, set_nest_count. by rewrite <- HL, <- Hh at 1; rewrite <- EI.
    - destruct (seize_refused_status routine wfuel fuel m id timeout k HO HI wait HV HL (or_introl (conj Hh Ha)))
        as (k' & code & E & A & _ & B & -> & ->). eexists. split; [exact E|]. split; [done|]. split; [done|].
      rewrite decide_True by done. apply answered_twice. }
  destruct wait; cbn [negb].
  - destruct (_CORE_mutex_Is_priority_ceiling (mutex_discipline M)) eqn:Hd.
    + assert (mutex_discipline M = CORE_MUTEX_DISCIPLINES_PRIORITY_CEILING) as Hd' by (by destruct (mutex_discipline M)).
      destruct (seize_waits_ceiling routine wfuel fuel m id timeout k HO HI HW HT Hf HL Hh Hp Hd' HV)
        as (k' & E & A & B & C & _ & D & F & G). exists k'. rewrite Hd'. by split_and!.
    + destruct (mutex_seize_waits routine wfuel fuel m id timeout k HO HI HW HT Hn Hf HL Hh Hd HV)
        as (k' & E & A & B & C & _ & _ & D & F & G).
      destruct (but_block2n_fields _ _ F) as (F1 & F2 & _).
      exists k'. split; [exact E|]. split; [done|]. split; [done|]. split; [apply A|]. split; [exact F1|].
      destruct (mutex_discipline M); try done.
  - destruct (seize_refused_status routine wfuel fuel m id timeout k HO HI false HV HL (or_intror (conj Hh eq_refl)))
      as (k' & code & E & A & C & B & -> & ->). eexists. split; [exact E|]. split_and!; try done.
    rewrite decide_False by done. apply answered_twice.
Qed.

(** C12: [_CORE_mutex_Surrender] by a running thread [t] that does not itself wait for the
    mutex [M], all the waiting threads being of this node, on every path.
    - A caller that does not hold a mutex with inheritance or ceiling is refused and
      nothing changes.  A FIFO or priority mutex may be released by any thread.
    - Releasing a FIFO or priority mutex that nobody holds is answered as a success; its
      nest count becomes 2^32-1, and nothing else changes.
    - An inner release only counts down.
    - The last one takes a resource from the caller (whether or not it is the holder), and
      gives a caller that has no other its own priority back (inheritance and ceiling).
      The mutex goes to the first waiting thread, which becomes its only holder, is
      unblocked and has one more resource; with nobody waiting it is unlocked.  Other
      threads are unchanged but for the links of the queue.
    On every path but the second the invariant of the mutex holds afterwards: under
    inheritance the new holder's priority is at least that of every thread still
    waiting. *)
Theorem mutex_surrender_correct node mp m id k :
  let t := _Thread_Executing k in
  let M := mutex k m in
  let owner_only := match mutex_discipline M with
    | CORE_MUTEX_DISCIPLINES_PRIORITY_INHERIT | CORE_MUTEX_DISCIPLINES_PRIORITY_CEILING => true
    | CORE_MUTEX_DISCIPLINES_FIFO | CORE_MUTEX_DISCIPLINES_PRIORITY => false
    end in
  mutex_ok m k -> ids_ok k -> t <> NULL -> t ∉ tq_list k m -> prio (real_priority (tcb k t)) ->
  (forall u, u ∈ tq_list k m -> _Objects_Is_local_id node (Object_id (tcb k u)) = true) ->
  let (status, k') := _CORE_mutex_Surrender node mp m id k in
  if negb (holder M =? t) && owner_only then
    status = CORE_MUTEX_STATUS_NOT_OWNER_OF_RESOURCE /\ k' = k
  else
    status = CORE_MUTEX_STATUS_SUCCESSFUL /\
    if lock M =? CORE_MUTEX_UNLOCKED then k' = upd_mutex m (set_nest_count (two32 - 1)) k
    else if 1 <? nest_count M then
      mutex_ok m k' /\ mutex k' m = held_with M (holder M) (holder_id M) (nest_count M - 1) /\
      threads k' = threads k
    else
      mutex_ok m k' /\ current_priority (tcb k' t) = restored_priority m k /\
      resource_count (tcb k' t) = resource_count (tcb k t) -w 1 /\
      match tq_list k m with
      | [] => mutex k' m = unheld M /\ forall u, u <> t -> tcb k' u = tcb k u
      | u :: rest =>
          mutex k' m = held_with M u (Object_id (tcb k u)) 1 /\ tq_list k' m = rest /\
          but_block2n (tcb k' u) =
            but_block2n (set_resource_count (resource_count (tcb k u) +w 1) (unblocked (tcb k u))) /\
          forall v, v <> t -> v <> u -> but_block2n (tcb k' v) = but_block2n (tcb k v)
      end.
Proof.
  intros t M owner_only HO HI Ht Hoff Hr Hl.
  assert (must_own (mutex_discipline M) = owner_only) as EO by (unfold owner_only; by destruct (mutex_discipline M)).
  destruct (_CORE_mutex_Surrender node mp m id k) as [status k'] eqn:ES.
  destruct (negb (holder M =? t) && owner_only) eqn:ER.
  { apply andb_prop in ER as [Hh Hm]. rewrite (surrender_not_owner node mp m id k) in ES; [by simplify_eq| |exact (eq_trans EO Hm)].
    apply negb_true_iff, Z.eqb_neq in Hh. by apply not_holder_id. }
  destruct (mo_lock _ _ HO) as [HL|HL]; fold M in HL; rewrite HL.
  { destruct (mo_free _ _ HO HL) as (F1 & _). fold M in F1. rewrite (proj2 (Z.eqb_neq _ _)) in ER by (by rewrite F1).
    rewrite (surrender_unlocked node mp m id k HO HL (eq_trans EO ER)) in ES. by simplify_eq. }
  assert (holder M = t \/ (must_own (mutex_discipline M) = false /\ t ∉ tq_list k m)) as Hh.
  { destruct (Z.eqb_spec (holder M) t); [by left|right]. by rewrite EO. }
  change (CORE_MUTEX_LOCKED =? CORE_MUTEX_UNLOCKED) with false. cbv iota.
  destruct (Z.ltb_spec 1 (nest_count M)) as [Hn|Hn].
  - destruct (surrender_nested node mp m id k HO HL Hh Hn) as (E & A & B). rewrite E in A, B.
    rewrite E in ES. simplify_eq. split_and!; try done. etransitivity; [exact A|]. unfold held_with. by rewrite <- HL.
  - assert (nest_count M = 1) as Hn1 by (pose proof (he_nest _ _ (mo_held _ _ HO HL)); unfold M in *; lia).
    destruct (tq_list k m) as [|u rest] eqn:EL.
    + rewrite <- EL in Hh. destruct (surrender_unlocks node mp m id k HO HL Hh Hn1 Hr EL) as (A & B & C & _ & D & E & F).
      rewrite ES in A, B, C, D, E, F. cbn [fst snd] in *. by split_and!.
    + rewrite <- EL in Hh. destruct (surrender_passes node mp m id k HO HL Hh Hn1 Hr u rest EL) as (A & B & C & D & E & F & G & H);
        [apply Hl; left|].
      rewrite ES in A, B, C, D, E, F, G, H. cbn [fst snd] in *. split_and!; try done.
      rewrite C. unfold held_with, owned_by, set_nest_count, set_holder_id, set_holder. simpl. by rewrite <- HL.
Qed.

(** ** A small system with a mutex *)

Module MutexExample.
Import ThreadExample.
(** The thread at 300, of a lower priority than the executing one at 200, holds the
    mutex at 70. *)
Definition low : Kernel := _Thread_Change_priority 300 20 false k2.
Definition held_by (t : Z) (d : CORE_mutex_Disciplines) (ceiling : Z) (k : Kernel) : Kernel :=
  set_executing (_Thread_Executing k)
    (_CORE_mutex_Initialize 70 3 true d ceiling CORE_MUTEX_LOCKED NULL (set_executing t k)).
Definition m0 : Kernel := held_by 300 CORE_MUTEX_DISCIPLINES_PRIORITY_INHERIT 0 low.

Lemma low_known : known low 300 /\ known low 200.
Proof. split; vm_compute; eexists; reflexivity. Qed.

Lemma low_ok : sched_ok low.
Proof.
  apply change_priority_ok; [exact k2_ok|vm_compute; eexists; reflexivity|split; [lia|vm_compute; discriminate]].
Qed.

Lemma m0_ok : mutex_ok 70 m0 /\ tq_list m0 70 = [] /\ watchdogs m0 = no_watchdogs.
Proof.
  destruct (handed_ok 70 3 true CORE_MUTEX_DISCIPLINES_PRIORITY_INHERIT 0 NULL 300 low low_ok (proj1 low_known))
    as (A & _ & B & _ & _ & _ & C & _); [discriminate|].
  split_and!; [exact A|exact B|]. transitivity (watchdogs low); [exact C|vm_compute; reflexivity].
Qed.

Lemma three_ids k : dom (threads k) = {[100; 200; 300]} -> Object_id (tcb k 100) = 1 ->
  Object_id (tcb k 200) = 2 -> Object_id (tcb k 300) = 3 -> ids_ok k.
Proof.
  intros ED E1 E2 E3. assert (forall u, known k u -> u = 100 \/ u = 200 \/ u = 300) as HD.
  { intros u Hu. apply elem_of_dom in Hu. rewrite ED in Hu. set_solver. }
  split.
  - intros u v [-> |[-> | ->]]%HD [-> |[-> | ->]]%HD; rewrite ?E1, ?E2, ?E3; done.
  - intros u [-> |[-> | ->]]%HD; rewrite ?E1, ?E2, ?E3; done.
Qed.

Lemma m0_ids : ids_ok m0.
Proof. apply three_ids; [by_decide|vm_compute; reflexivity..]. Qed.

Lemma m0_wait : can_wait 70 m0.
Proof.
  destruct m0_ok as (A & B & _). pose proof (mo_queue _ _ A) as [Q1 Q2 Q3 Q4 Q5 Q6]. split.
  - exact Q2.
  - exact Q1.
  - rewrite B. apply not_elem_of_nil.
  - vm_compute. reflexivity.
  - vm_compute. discriminate.
  - rewrite Q4. discriminate.
Qed.

Lemma counted_fields t n k k' :
  (forall u, tcb k' u = if decide (u = t) then set_resource_count n (tcb k t) else tcb k u) ->
  forall u, Object_id (tcb k' u) = Object_id (tcb k u) /\ current_state (tcb k' u) = current_state (tcb k u).
Proof. intros ET u. rewrite ET. by case_decide; subst. Qed.

(** The same of any holder, discipline and ceiling: all that seizing asks for. *)
Definition seizable (k : Kernel) : Prop :=
  mutex_ok 70 k /\ ids_ok k /\ can_wait 70 k /\ timer_free 5 (_Thread_Executing k) 9 k /\ tq_list k 70 = [] /\
  lock (mutex k 70) = CORE_MUTEX_LOCKED.

Lemma held_seizable t d c : t = 200 \/ t = 300 -> seizable (held_by t d c low).
Proof.
  intros Ht. assert (known low t) as Hk by (destruct Ht as [-> | ->]; apply low_known).
  assert (t <> NULL) as Hn by (destruct Ht as [-> | ->]; discriminate).
  pose proof (handed_ok 70 3 true d c NULL t low low_ok Hk Hn) as HH. cbv zeta in HH. fold (held_by t d c low) in HH.
  destruct HH as (A & _ & B & D & EX & EI & EW & _ & _ & ET). set (k := held_by t d c low) in *.
  assert (dom (threads k) = {[100; 200; 300]}) as ED by (destruct Ht as [-> | ->]; by_decide).
  pose proof (counted_fields _ _ _ _ ET) as EO.
  clearbody k. unfold seizable. split; [exact A|]. split; [|split; [|split; [|by split]]].
  - apply three_ids; [exact ED|rewrite (proj1 (EO _)); vm_compute; reflexivity..].
  - pose proof (mo_queue _ _ A) as [Q1 Q2 Q3 Q4 Q5 Q6]. split.
    + exact Q2.
    + exact Q1.
    + rewrite B. apply not_elem_of_nil.
    + unfold is_ready. rewrite (proj2 (EO _)), EX. vm_compute. reflexivity.
    + rewrite EX, EI. vm_compute. discriminate.
    + rewrite Q4. discriminate.
  - assert (watchdogs low = no_watchdogs) as EL by (vm_compute; reflexivity). right. rewrite EX, EW, EL.
    split_and!; [exact ThreadqExample.no_watchdogs_ok|vm_compute; intros [?|?]; discriminate
      |split; [lia|reflexivity]|vm_compute; lia].
Qed.

(** The executing thread waits for the mutex; the holder has inherited its priority. *)
Definition seize (k : Kernel) : option Kernel := _CORE_mutex_Seize 1 5 id 5 [] id 70 77 true 9 k.
Definition after (k : Kernel) : Kernel := default k (seize k).
End MutexExample.

(** A caller of priority 10 waits for the mutex, and its holder inherits that; at a ceiling
    of 10 it nests; a ceiling of 11 refuses it. *)
Lemma mutex_seize_witness :
  let at_ceiling c := MutexExample.held_by 200 CORE_MUTEX_DISCIPLINES_PRIORITY_CEILING c MutexExample.low in
  (exists k', _CORE_mutex_Seize 1 5 Datatypes.id 5 [] Datatypes.id 70 77 true 9 MutexExample.m0 = Some k' /\
     tq_list k' 70 = [200] /\ current_priority (tcb k' 300) = 10) /\
  (exists k', _CORE_mutex_Seize 1 5 Datatypes.id 5 [] Datatypes.id 70 77 true 9 (at_ceiling 10) = Some k' /\
     nest_count (mutex k' 70) = 2 /\ Wait_return_code (Wait (tcb k' 200)) = CORE_MUTEX_STATUS_SUCCESSFUL) /\
  (exists k', _CORE_mutex_Seize 1 5 Datatypes.id 5 [] Datatypes.id 70 77 true 9 (at_ceiling 11) = Some k' /\
     nest_count (mutex k' 70) = 1 /\ Wait_return_code (Wait (tcb k' 200)) = CORE_MUTEX_STATUS_CEILING_VIOLATED).
Proof.
  intros at_ceiling.
  assert (forall t d c, t = 200 \/ t = 300 -> 0 <= c <= 255 -> let k := MutexExample.held_by t d c MutexExample.low in
    _Thread_Executing k <> NULL -> priority_ceiling (mutex k 70) = c -> nest_count (mutex k 70) = 1 ->
    exists k', _CORE_mutex_Seize 1 5 Datatypes.id 5 [] Datatypes.id 70 77 true 9 k = Some k' /\ k' = MutexExample.after k) as H.
  { intros t d c Ht Hc k H1 H2 H3. destruct (MutexExample.held_seizable t d c Ht) as (A & B & C & D & E & _).
    destruct (mutex_seize_correct 1 5 5 70 77 true 9 k A B C D H1) as (k' & X & _).
    - fold k in E. rewrite E. simpl. lia.
    - rewrite H2. exact Hc.
    - rewrite H3. reflexivity.
    - exists k'. split; [exact X|]. unfold MutexExample.after, MutexExample.seize. fold k. by rewrite X. }
  split; [|split].
  - destruct (H 300 CORE_MUTEX_DISCIPLINES_PRIORITY_INHERIT 0) as (k' & X & ->);
      [by right|lia|vm_compute; discriminate|vm_compute; reflexivity..|].
    eexists. split; [exact X|]. split; vm_compute; reflexivity.
  - destruct (H 200 CORE_MUTEX_DISCIPLINES_PRIORITY_CEILING 10) as (k' & X & ->);
      [by left|lia|vm_compute; discriminate|vm_compute; reflexivity..|].
    eexists. split; [exact X|]. split; vm_compute; reflexivity.
  - destruct (H 200 CORE_MUTEX_DISCIPLINES_PRIORITY_CEILING 11) as (k' & X & ->);
      [by left|lia|vm_compute; discriminate|vm_compute; reflexivity..|].
    eexists. split; [exact X|]. split; vm_compute; reflexivity.
Defined.

(** The owner unlocks the mutex; a thread that does not hold it unlocks a FIFO mutex, and
    its resource count wraps around while that of the former holder stays. *)
Lemma mutex_surrender_witness :
  let surrender k := _CORE_mutex_Surrender 0 (fun _ _ k => k) 70 77 k in
  let k := MutexExample.held_by 200 CORE_MUTEX_DISCIPLINES_PRIORITY_INHERIT 0 MutexExample.low in
  let k1 := MutexExample.held_by 300 CORE_MUTEX_DISCIPLINES_FIFO 0 MutexExample.low in
  ((surrender k).1 = CORE_MUTEX_STATUS_SUCCESSFUL /\ mutex (surrender k).2 70 = unheld (mutex k 70)) /\
  ((surrender k1).1 = CORE_MUTEX_STATUS_SUCCESSFUL /\ mutex (surrender k1).2 70 = unheld (mutex k1 70) /\
   resource_count (tcb (surrender k1).2 200) = 4294967295 /\ resource_count (tcb (surrender k1).2 300) = 1).
Proof.
  intros surrender k k1.
  assert (forall t d, t = 200 \/ t = 300 -> (t = 200 \/ d = CORE_MUTEX_DISCIPLINES_FIFO) ->
    let k := MutexExample.held_by t d 0 MutexExample.low in
    _Thread_Executing k = 200 -> holder (mutex k 70) = t -> mutex_discipline (mutex k 70) = d ->
    nest_count (mutex k 70) = 1 -> real_priority (tcb k 200) = 10 ->
    (surrender k).1 = CORE_MUTEX_STATUS_SUCCESSFUL /\ mutex (surrender k).2 70 = unheld (mutex k 70) /\
    resource_count (tcb (surrender k).2 200) = resource_count (tcb k 200) -w 1 /\
    forall u, u <> 200 -> tcb (surrender k).2 u = tcb k u) as H.
  { intros t d Ht Hd q H1 H2 H3 H4 H5. destruct (MutexExample.held_seizable t d 0 Ht) as (A & B & _ & _ & C & D).
    pose proof (mutex_surrender_correct 0 (fun _ _ k => k) 70 77 q A B) as X. fold q in C, D.
    unfold surrender. clearbody q. rewrite H1, H2, H3, H4, C, D in X.
    destruct (_CORE_mutex_Surrender 0 (fun _ _ k => k) 70 77 q) as [status k'].
    assert (negb (t =? 200) && match d with
      | CORE_MUTEX_DISCIPLINES_PRIORITY_INHERIT | CORE_MUTEX_DISCIPLINES_PRIORITY_CEILING => true
      | _ => false end = false) as EB by (destruct Hd as [-> | ->]; [reflexivity|apply andb_false_r]).
    rewrite EB in X. destruct X as (X0 & _ & _ & X1 & X2 & X3).
    - discriminate.
    - apply not_elem_of_nil.
    - rewrite H5. by split.
    - intros u Hu. destruct (not_elem_of_nil u Hu).
    - split; [exact X0|]. split; [exact X2|]. split; [exact X1|exact X3]. }
  split.
  - destruct (H 200 CORE_MUTEX_DISCIPLINES_PRIORITY_INHERIT) as (X1 & X2 & _);
      [by left|by left|vm_compute; reflexivity..|]. by split.
  - destruct (H 300 CORE_MUTEX_DISCIPLINES_FIFO) as (X1 & X2 & X3 & X4); [by right|by right|vm_compute; reflexivity..|].
    split; [exact X1|]. split; [exact X2|]. split.
    + etransitivity; [exact X3|]. vm_compute. reflexivity.
    + etransitivity; [exact (f_equal resource_count (X4 300 ltac:(discriminate)))|]. vm_compute. reflexivity.
Defined.

(** The priority ceiling and a wait that times out: the caller is raised to the
    ceiling when it starts to wait.  If its timeout comes first it runs on at the
    ceiling's priority, although it holds no mutex and its own priority is lower. *)
Theorem mutex_ceiling_kept_after_timeout :
  let k := MutexExample.held_by 300 CORE_MUTEX_DISCIPLINES_PRIORITY_CEILING 5 MutexExample.low in
  let k' := default k (_CORE_mutex_Seize 1 5 Datatypes.id 5 [] Datatypes.id 70 77 true 9 k) in
  let k'' := timed_out 200 k' in
  holder (mutex k'' 70) = 300 /\ resource_count (tcb k'' 200) = 0 /\ is_ready k'' 200 /\
  Wait_return_code (Wait (tcb k'' 200)) = CORE_MUTEX_TIMEOUT /\
  current_priority (tcb k'' 200) = 5 /\ real_priority (tcb k'' 200) = 10.
Proof. vm_compute. repeat split. Qed.

(** Inheritance and a holder that is blocked: the holder of the mutex waits on
    another queue, which serves by priority, behind the thread at 400.  It inherits a
    higher priority than that thread has, but keeps its place: the queue is no longer in
    the order of priorities and the next release goes to the thread at 400. *)
Theorem mutex_inheritance_keeps_queue_place :
  let k := set_threads (<[400 := ThreadExample.thread_at 4 15]> (threads MutexExample.m0)) MutexExample.m0 in
  let k := ThreadExample.start 400 k in
  let wait t k := set_executing 200 (default k (_Thread_queue_Enqueue 1 5 Datatypes.id 5 [] 50 0
    (_Thread_queue_Enter_critical_section 50 (set_executing t k)))) in
  let k := wait 400 (wait 300
    (_Thread_queue_Initialize 50 1 THREAD_QUEUE_DISCIPLINE_PRIORITY STATES_WAITING_FOR_SEMAPHORE NULL 7 k)) in
  let k' := default k (_CORE_mutex_Seize 1 5 Datatypes.id 5 [] Datatypes.id 70 77 true 9 k) in
  tq_list k 50 = [400; 300] /\ current_priority (tcb k 300) = 20 /\
  holder (mutex k' 70) = 300 /\ current_priority (tcb k' 300) = 10 /\ current_priority (tcb k' 400) = 15 /\
  tq_list k' 50 = [400; 300] /\ (_Thread_queue_Dequeue 50 k').1 = 400.
Proof. vm_compute. repeat split. Qed.
