(* ===== verification/CoreMsg.v ===== *)
(** * Core Message Queue Handler (score/src/coremsg.c, score/inline/coremsg.inl)

    The control block at [q] is [mq k q]; its thread queue has the same address.  The
    chains of message buffers are lists of their addresses; contents and sizes are in the
    byte memory of the state, where the buffers of the callers are too.  Words are stored
    with the most significant byte first. *)
From S2P Require Import Prelude Chain Watchdog WatchdogProofs WatchdogOps Object Priority Heap Kernel Thread Workspace.
From S2P Require Import ThreadProofs ThreadSpec Threadq ThreadqProofs ThreadqSpec CoreWait.

(** ** Byte memory *)

Fixpoint memcpy (n : nat) (m : mem) (destination source : Z) : mem :=
  match n with
  | O => m
  | S n => memcpy n (st m destination (ld m source)) (destination + 1) (source + 1)
  end.
Definition st32 (m : mem) (a v : Z) : mem :=
  st (st (st (st m a (v / 16777216 mod 256)) (a + 1) (v / 65536 mod 256)) (a + 2) (v / 256 mod 256)) (a + 3) (v mod 256).
Definition ld32 (m : mem) (a : Z) : Z :=
  ld m a * 16777216 + ld m (a + 1) * 65536 + ld m (a + 2) * 256 + ld m (a + 3).

(** ** Types and statuses (headers/coremsg.h) *)

Inductive CORE_message_queue_Disciplines : Type :=
| CORE_MESSAGE_QUEUE_DISCIPLINES_FIFO
| CORE_MESSAGE_QUEUE_DISCIPLINES_PRIORITY.
Inductive CORE_message_queue_Submit_types : Type :=
| CORE_MESSAGE_QUEUE_SEND_REQUEST
| CORE_MESSAGE_QUEUE_URGENT_REQUEST.

Definition CORE_MESSAGE_QUEUE_STATUS_SUCCESSFUL : Z := 0.
Definition CORE_MESSAGE_QUEUE_STATUS_INVALID_SIZE : Z := 1.
Definition CORE_MESSAGE_QUEUE_STATUS_TOO_MANY : Z := 2.
Definition CORE_MESSAGE_QUEUE_STATUS_UNSATISFIED : Z := 3.
Definition CORE_MESSAGE_QUEUE_STATUS_UNSATISFIED_NOWAIT : Z := 4.
Definition CORE_MESSAGE_QUEUE_STATUS_WAS_DELETED : Z := 5.
Definition CORE_MESSAGE_QUEUE_STATUS_TIMEOUT : Z := 6.

(** A buffer: the chain node (8 bytes), the size, and the contents. *)
Definition sizeof_Buffer_control : Z := 16.
Definition Contents_size (the_message : Z) : Z := the_message + 8.
Definition Contents_buffer (the_message : Z) : Z := the_message + 12.

(** ** Inlined routines *)

Definition _CORE_message_queue_Copy_buffer (source destination size : Z) (k : Kernel) : Kernel :=
  set_memory (memcpy (Z.to_nat size) (memory k) destination source) k.
Definition put_word (a v : Z) (k : Kernel) : Kernel := set_memory (st32 (memory k) a v) k.

(** [NULL] when the chain is empty. *)
Definition _CORE_message_queue_Allocate_message_buffer (q : Z) (k : Kernel) : Z * Kernel :=
  match Inactive_messages (mq k q) with
  | [] => (NULL, k)
  | the_message :: rest => (the_message, upd_mq q (set_Inactive_messages rest) k)
  end.
Definition _CORE_message_queue_Free_message_buffer (q the_message : Z) (k : Kernel) : Kernel :=
  upd_mq q (fun c => set_Inactive_messages (ListChain.append (Inactive_messages c) the_message) c) k.
Definition _CORE_message_queue_Get_pending_message (q : Z) (k : Kernel) : Z * Kernel :=
  match Pending_messages (mq k q) with
  | [] => (NULL, k)
  | the_message :: rest => (the_message, upd_mq q (set_Pending_messages rest) k)
  end.
Definition _CORE_message_queue_Append (q the_message : Z) (k : Kernel) : Kernel :=
  upd_mq q (fun c => set_Pending_messages (ListChain.append (Pending_messages c) the_message) c) k.
Definition _CORE_message_queue_Prepend (q the_message : Z) (k : Kernel) : Kernel :=
  upd_mq q (fun c => set_Pending_messages (ListChain.prepend (Pending_messages c) the_message) c) k.
Definition _CORE_message_queue_Is_priority (d : CORE_message_queue_Disciplines) : bool :=
  match d with CORE_MESSAGE_QUEUE_DISCIPLINES_PRIORITY => true | _ => false end.
Definition _CORE_message_queue_Is_null (q : Z) : bool := q =? NULL.
Definition _CORE_message_queue_Is_notify_enabled (k : Kernel) (q : Z) : bool := negb (notify_handler (mq k q) =? NULL).
Definition _CORE_message_queue_Set_notify (q the_handler the_argument : Z) (k : Kernel) : Kernel :=
  upd_mq q (fun c => set_notify_argument the_argument (set_notify_handler the_handler c)) k.

(** ** Creation and deletion *)

Definition allocated_message_size (maximum_message_size : Z) : Z :=
  if negb (Z.land maximum_message_size 3 =? 0)
  then Z.land (maximum_message_size +w 4) (not32 3) else maximum_message_size.
Definition message_buffering_required (maximum_pending_messages maximum_message_size : Z) : Z :=
  maximum_pending_messages *w (allocated_message_size maximum_message_size +w sizeof_Buffer_control).

Section Workspace.
Context (workspace : Z) (hfuel : nat).

Definition _CORE_message_queue_Initialize (q the_class : Z) (d : CORE_message_queue_Disciplines)
    (max_pending max_size proxy_extract_callout : Z) (k : Kernel) : option (bool * Kernel) :=
  let k := upd_mq q (fun c =>
    {| maximum_pending_messages := max_pending; number_of_pending_messages := 0; maximum_message_size := max_size;
       Pending_messages := Pending_messages c; message_buffers := message_buffers c;
       notify_handler := notify_handler c; notify_argument := notify_argument c;
       Inactive_messages := Inactive_messages c |}) k in
  let k := _CORE_message_queue_Set_notify q NULL NULL k in
  match _Workspace_Allocate workspace hfuel (message_buffering_required max_pending max_size) k with
  | None => None
  | Some (buffers, k) =>
      let k := upd_mq q (fun c =>
        {| maximum_pending_messages := maximum_pending_messages c;
           number_of_pending_messages := number_of_pending_messages c;
           maximum_message_size := maximum_message_size c; Pending_messages := Pending_messages c;
           message_buffers := buffers; notify_handler := notify_handler c;
           notify_argument := notify_argument c; Inactive_messages := Inactive_messages c |}) k in
      if buffers =? 0 then Some (false, k)
      else
        let k := upd_mq q (set_Inactive_messages (block_array buffers
                   (allocated_message_size max_size +w sizeof_Buffer_control) (Z.to_nat max_pending))) k in
        let k := upd_mq q (set_Pending_messages []) k in
        Some (true, _Thread_queue_Initialize q the_class
          (if _CORE_message_queue_Is_priority d
           then THREAD_QUEUE_DISCIPLINE_PRIORITY else THREAD_QUEUE_DISCIPLINE_FIFO)
          STATES_WAITING_FOR_MESSAGE proxy_extract_callout CORE_MESSAGE_QUEUE_STATUS_TIMEOUT k)
  end.

(** The links that it sets by hand: the chain controls are at [inactive] and [pending]. *)
Definition flush_links (m : mem) (inactive pending : Z) : mem :=
  let inactive_first := Chain_first m inactive in
  let message_queue_first := Chain_first m pending in
  let message_queue_last := Chain_last m pending in
  let m := set_Chain_first m inactive message_queue_first in
  let m := set_Node_next m message_queue_last inactive_first in
  let m := set_Node_previous m inactive_first message_queue_last in
  let m := set_Node_previous m message_queue_first (_Chain_Head inactive) in
  _Chain_Initialize_empty m pending.

(** The pending messages go to the front of the inactive ones. *)
Definition _CORE_message_queue_Flush_support (q : Z) (k : Kernel) : Z * Kernel :=
  let count := number_of_pending_messages (mq k q) in
  (count, upd_mq q (fun c => set_number_of_pending 0 (set_Pending_messages []
    (set_Inactive_messages (Pending_messages c ++ Inactive_messages c) c))) k).

Definition _CORE_message_queue_Flush (q : Z) (k : Kernel) : Z * Kernel :=
  if negb (number_of_pending_messages (mq k q) =? 0) then _CORE_message_queue_Flush_support q k else (0, k).

Definition _CORE_message_queue_Close (fuel : nat) (q status : Z) (k : Kernel) : option Kernel :=
  let r :=
    if negb (number_of_pending_messages (mq k q) =? 0)
    then Some (_CORE_message_queue_Flush_support q k).2
    else _Thread_queue_Flush fuel q status k in
  match r with
  | None => None
  | Some k => Some (_Workspace_Free workspace (message_buffers (mq k q)) k).2
  end.
End Workspace.

(** ** Sending *)

Section Send.
Context (_Objects_Local_node : Z) (mp_support : Z -> Z -> Kernel -> Kernel).

Definition notify_remote (the_thread id : Z) (k : Kernel) : Kernel :=
  if negb (_Objects_Is_local_id _Objects_Local_node (Object_id (tcb k the_thread)))
  then mp_support the_thread id k else k.

Definition _CORE_message_queue_Submit (q buffer size id : Z) (submit_type : CORE_message_queue_Submit_types) (k : Kernel)
  : Z * Kernel :=
  if maximum_message_size (mq k q) <? size then (CORE_MESSAGE_QUEUE_STATUS_INVALID_SIZE, k)
  else
    let '(the_thread, k) := _Thread_queue_Dequeue q k in
    if negb (the_thread =? NULL) then
      let k := _CORE_message_queue_Copy_buffer buffer (Wait_return_argument (Wait (tcb k the_thread))) size k in
      let k := put_word (Wait_return_argument_1 (Wait (tcb k the_thread))) size k in
      (CORE_MESSAGE_QUEUE_STATUS_SUCCESSFUL, notify_remote the_thread id k)
    else if number_of_pending_messages (mq k q) =? maximum_pending_messages (mq k q)
    then (CORE_MESSAGE_QUEUE_STATUS_TOO_MANY, k)
    else
      let '(the_message, k) := _CORE_message_queue_Allocate_message_buffer q k in
      if the_message =? 0 then (CORE_MESSAGE_QUEUE_STATUS_UNSATISFIED, k)
      else
        let k := _CORE_message_queue_Copy_buffer buffer (Contents_buffer the_message) size k in
        let k := put_word (Contents_size the_message) size k in
        let k := upd_mq q (fun c => set_number_of_pending (number_of_pending_messages c +w 1) c) k in
        (CORE_MESSAGE_QUEUE_STATUS_SUCCESSFUL,
         match submit_type with
         | CORE_MESSAGE_QUEUE_SEND_REQUEST => _CORE_message_queue_Append q the_message k
         | CORE_MESSAGE_QUEUE_URGENT_REQUEST => _CORE_message_queue_Prepend q the_message k
         end).

Definition _CORE_message_queue_Send (q buffer size id : Z) : Kernel -> Z * Kernel :=
  _CORE_message_queue_Submit q buffer size id CORE_MESSAGE_QUEUE_SEND_REQUEST.
Definition _CORE_message_queue_Urgent (q buffer size id : Z) : Kernel -> Z * Kernel :=
  _CORE_message_queue_Submit q buffer size id CORE_MESSAGE_QUEUE_URGENT_REQUEST.

(** The loop: every waiting thread gets the message. *)
Fixpoint broadcast_loop (fuel : nat) (q buffer size id number_broadcasted : Z) (k : Kernel) : option (Z * Kernel) :=
  match fuel with
  | O => None
  | S fuel =>
      let '(the_thread, k) := _Thread_queue_Dequeue q k in
      if the_thread =? NULL then Some (number_broadcasted, k)
      else
        let constrained_size :=
          if maximum_message_size (mq k q) <? size then maximum_message_size (mq k q) else size in
        let k := _CORE_message_queue_Copy_buffer buffer (Wait_return_argument (Wait (tcb k the_thread))) constrained_size k in
        let k := put_word (Wait_return_argument_1 (Wait (tcb k the_thread))) size k in
        broadcast_loop fuel q buffer size id (number_broadcasted +w 1) (notify_remote the_thread id k)
  end.

(** The status, the count and the state. *)
Definition _CORE_message_queue_Broadcast (fuel : nat) (q buffer size id : Z) (k : Kernel) : option (Z * Z * Kernel) :=
  match broadcast_loop fuel q buffer size id 0 k with
  | None => None
  | Some (count, k) => Some (CORE_MESSAGE_QUEUE_STATUS_SUCCESSFUL, count, k)
  end.
End Send.

(** ** Receiving

    [isr] is the interrupts that are taken once they are enabled again, before the
    message is copied out or the thread is enqueued. *)
Section Seize.
Context (timeout_routine : Z) (wfuel : nat) (wisr : Kernel -> Kernel).
Context (fuel : nat) (isrs : list (Kernel -> Kernel)) (isr : Kernel -> Kernel).

Definition _CORE_message_queue_Seize (q id buffer size : Z) (wait : bool) (timeout : Z) (k : Kernel) : option Kernel :=
  let executing := _Thread_Executing k in
  let k := upd_wait executing (set_Wait_return_code CORE_MESSAGE_QUEUE_STATUS_SUCCESSFUL) k in
  if negb (number_of_pending_messages (mq k q) =? 0) then
    let k := upd_mq q (fun c => set_number_of_pending (number_of_pending_messages c -w 1) c) k in
    let '(the_message, k) := _CORE_message_queue_Get_pending_message q k in
    let k := isr k in
    let k := put_word size (ld32 (memory k) (Contents_size the_message)) k in
    let k := _CORE_message_queue_Copy_buffer (Contents_buffer the_message) buffer (ld32 (memory k) size) k in
    Some (_CORE_message_queue_Free_message_buffer q the_message k)
  else if negb wait
  then Some (upd_wait executing (set_Wait_return_code CORE_MESSAGE_QUEUE_STATUS_UNSATISFIED_NOWAIT) k)
  else
    let k := _Thread_queue_Enter_critical_section q k in
    let k := upd_wait executing (set_Wait_queue q) k in
    let k := upd_wait executing (set_Wait_id id) k in
    let k := upd_wait executing (set_Wait_return_argument buffer) k in
    let k := upd_wait executing (set_Wait_return_argument_1 size) k in
    let k := isr k in
    _Thread_queue_Enqueue timeout_routine wfuel wisr fuel isrs q timeout k.
End Seize.
