(* ===== verification/CoreMsgSpec.v ===== *)
(** * Correctness of the core message queue handler

    A message queue is a bounded queue of byte strings ([messages]): sending appends,
    urgent sending prepends, receiving takes the first.  Every buffer of the queue is
    either pending or inactive, and messages are pending only while no thread waits. *)
From S2P Require Import Prelude Chain Watchdog WatchdogProofs WatchdogOps Object Priority Heap Kernel Thread Workspace.
From S2P Require Import ThreadProofs ThreadSpec Threadq ThreadqProofs ThreadqSpec CoreWait CoreMsg.

(** ** Byte memory *)

(** The areas of [n] bytes at [a] and of [l] bytes at [b] do not overlap. *)
Definition apart (a n b l : Z) : Prop := a + n <= b \/ b + l <= a.
Definition bytes (m : mem) (a n : Z) : list Z := map (ld m) (seqZ a n).
(** [m'] agrees with [m] on the [n] bytes at [a]. *)
Definition agrees (a n : Z) (m m' : mem) : Prop := forall i, a <= i < a + n -> ld m' i = ld m i.

Lemma ld_memcpy n : forall m d s a, apart d (Z.of_nat n) s (Z.of_nat n) ->
  ld (memcpy n m d s) a = if decide (d <= a < d + Z.of_nat n) then ld m (s + (a - d)) else ld m a.
Proof.
  induction n as [|n IH]; intros m d s a Hap; simpl memcpy.
  - rewrite decide_False by lia. done.
  - unfold apart in *. rewrite IH by lia. destruct (decide (a = d)) as [-> |Had].
    + rewrite decide_False, decide_True, ld_st_eq by lia. f_equal. lia.
    + destruct (decide (d <= a < d + Z.of_nat (S n))).
      * rewrite decide_True by lia. rewrite ld_st_ne by lia. f_equal. lia.
      * rewrite decide_False by lia. by rewrite ld_st_ne by lia.
Qed.

Lemma ld_st32 m a v i : i < a \/ a + 4 <= i -> ld (st32 m a v) i = ld m i.
Proof. intros H. unfold st32. by rewrite !ld_st_ne by lia. Qed.

Lemma ld32_st32 m a v : u32 v -> ld32 (st32 m a v) a = v.
Proof.
  intros Hv. unfold ld32, st32. ld_simpl. unfold u32, two32 in Hv. Z.div_mod_to_equations; lia.
Qed.

Lemma bytes_length m a n : 0 <= n -> Z.of_nat (length (bytes m a n)) = n.
Proof. intros Hn. unfold bytes. rewrite length_map, length_seqZ. lia. Qed.

Lemma bytes_ext m m' a b n : (forall i, 0 <= i < n -> ld m' (b + i) = ld m (a + i)) -> bytes m' b n = bytes m a n.
Proof.
  intros H. unfold bytes. apply list_eq. intros i. rewrite !list_lookup_fmap.
  destruct (decide (Z.of_nat i < n)) as [Hi|Hi].
  - rewrite !lookup_seqZ_lt by lia. simpl. f_equal. apply H. lia.
  - rewrite !lookup_seqZ_ge by lia. done.
Qed.

Lemma agrees_bytes a n m m' : agrees a n m m' -> bytes m' a n = bytes m a n.
Proof. intros H. apply bytes_ext. intros i Hi. apply H. lia. Qed.

Lemma agrees_ld32 a m m' : agrees a 4 m m' -> ld32 m' a = ld32 m a.
Proof. intros H. unfold ld32. by rewrite !H by lia. Qed.

Lemma agrees_sub a n b l m m' : agrees a n m m' -> a <= b -> b + l <= a + n -> agrees b l m m'.
Proof. intros H ? ? i Hi. apply H. lia. Qed.

Lemma agrees_trans a n m1 m2 m3 : agrees a n m1 m2 -> agrees a n m2 m3 -> agrees a n m1 m3.
Proof. intros H1 H2 i Hi. by rewrite H2, H1. Qed.

Lemma agrees_memcpy a l n m d s : apart d (Z.of_nat n) s (Z.of_nat n) -> apart d (Z.of_nat n) a l ->
  agrees a l m (memcpy n m d s).
Proof. intros H1 H2 i Hi. rewrite ld_memcpy by done. rewrite decide_False; [done|]. unfold apart in H2. lia. Qed.

Lemma agrees_st32 a l m b v : apart b 4 a l -> agrees a l m (st32 m b v).
Proof. intros H i Hi. apply ld_st32. unfold apart in H. lia. Qed.

Lemma bytes_memcpy n m d s : 0 <= n -> apart d n s n -> bytes (memcpy (Z.to_nat n) m d s) d n = bytes m s n.
Proof.
  intros Hn H. apply bytes_ext. intros i Hi. rewrite ld_memcpy by (by rewrite Z2Nat.id).
  rewrite Z2Nat.id, decide_True by lia. f_equal. lia.
Qed.

(** ** The invariant *)

Definition pool (k : Kernel) (q : Z) : list Z := Pending_messages (mq k q) ++ Inactive_messages (mq k q).
(** The bytes of a buffer that hold the size and the contents. *)
Definition span (k : Kernel) (q : Z) : Z := 4 + maximum_message_size (mq k q).
(** The area is no part of a message buffer. *)
Definition clear_of (q : Z) (k : Kernel) (a n : Z) : Prop :=
  forall b, b ∈ pool k q -> apart a n (Contents_size b) (span k q).

Definition message (k : Kernel) (a : Z) : list Z :=
  bytes (memory k) (Contents_buffer a) (ld32 (memory k) (Contents_size a)).
Definition messages (k : Kernel) (q : Z) : list (list Z) := map (message k) (Pending_messages (mq k q)).

Record buffers_ok (q : Z) (k : Kernel) : Prop := {
  bo_count : number_of_pending_messages (mq k q) = Z.of_nat (length (Pending_messages (mq k q)));
  bo_pool : Z.of_nat (length (pool k q)) = maximum_pending_messages (mq k q);
  bo_maximum : u32 (maximum_pending_messages (mq k q)) /\ u32 (maximum_message_size (mq k q));
  bo_nodup : NoDup (pool k q);
  bo_null : NULL ∉ pool k q;
  bo_apart : forall a b, a ∈ pool k q -> b ∈ pool k q -> a <> b -> apart (Contents_size a) (span k q) (Contents_size b) (span k q);
  bo_sizes : forall a, a ∈ Pending_messages (mq k q) ->
    0 <= ld32 (memory k) (Contents_size a) <= maximum_message_size (mq k q)
}.

Record msgq_ok (q : Z) (k : Kernel) : Prop := {
  ms_queue : tq_ok k q;
  ms_sched : sched_ok k;
  ms_sync : sync_state (tq k q) = THREAD_QUEUE_SYNCHRONIZED;
  ms_state : tq_state (tq k q) = STATES_WAITING_FOR_MESSAGE;
  ms_null : NULL ∉ tq_list k q;
  ms_buffers : buffers_ok q k;
  ms_idle : Pending_messages (mq k q) <> [] -> tq_list k q = []
}.

(** ** Frames *)

Lemma mq_upd k q f : mq (upd_mq q f k) q = f (mq k q).
Proof. unfold mq at 1, upd_mq. simpl. apply lookup_total_insert_eq. Qed.

Lemma core_mq k k' q : core_same k k' -> mq k' q = mq k q.
Proof. intros H. unfold mq. by rewrite (cs_message_queues _ _ H). Qed.

Lemma upd_mq_threads q f k : same_threads k (upd_mq q f k).
Proof. by split. Qed.
Lemma set_memory_threads m k : same_threads k (set_memory m k).
Proof. by split. Qed.
Lemma contents_behind_size a : Contents_buffer a = Contents_size a + 4.
Proof. unfold Contents_buffer, Contents_size. lia. Qed.

(** The pending messages are those of a memory that agrees on their buffers. *)
Lemma message_frame k k' a : agrees (Contents_size a) (4 + ld32 (memory k) (Contents_size a)) (memory k) (memory k') ->
  0 <= ld32 (memory k) (Contents_size a) -> message k' a = message k a.
Proof.
  intros H Hn. unfold message. rewrite (agrees_ld32 _ (memory k) (memory k'))
    by (eapply agrees_sub; [exact H|lia..]).
  apply agrees_bytes. eapply agrees_sub; [exact H|rewrite contents_behind_size; lia..].
Qed.

Lemma messages_frame k k' q : buffers_ok q k -> mq k' q = mq k q ->
  (forall a, a ∈ Pending_messages (mq k q) -> agrees (Contents_size a) (span k q) (memory k) (memory k')) ->
  messages k' q = messages k q.
Proof.
  intros HB EQ H. unfold messages. rewrite EQ. apply map_ext_in. intros a Ha%list_elem_of_In.
  destruct (bo_sizes _ _ HB a Ha) as [H1 H2]. apply message_frame; [|done].
  eapply agrees_sub; [by apply H|lia|unfold span; lia].
Qed.

Lemma buffers_frame k k' q : buffers_ok q k -> mq k' q = mq k q ->
  (forall a, a ∈ Pending_messages (mq k q) -> agrees (Contents_size a) (span k q) (memory k) (memory k')) ->
  buffers_ok q k'.
Proof.
  intros HB EQ H. pose proof HB as [A B C D E F G]. split; unfold pool, span in *; rewrite ?EQ; try done.
  intros a Ha. rewrite (agrees_ld32 _ (memory k) (memory k')); [by apply G|].
  eapply agrees_sub; [by apply H|lia|]. destruct (G a Ha). lia.
Qed.

(** ** Storing a message *)

Section Store.
Context (q buffer size : Z) (submit_type : CORE_message_queue_Submit_types) (k : Kernel) (HB : buffers_ok q k).
Context (Hs : 0 <= size <= maximum_message_size (mq k q)) (Hc : clear_of q k buffer size).
Context (a : Z) (rest : list Z) (EI : Inactive_messages (mq k q) = a :: rest).
Notation Q := (mq k q).
Notation P := (Pending_messages (mq k q)).

Definition place (P : list Z) : list Z :=
  match submit_type with
  | CORE_MESSAGE_QUEUE_SEND_REQUEST => P ++ [a]
  | CORE_MESSAGE_QUEUE_URGENT_REQUEST => a :: P
  end.

Definition stored : Kernel :=
  let k := upd_mq q (set_Inactive_messages rest) k in
  let k := _CORE_message_queue_Copy_buffer buffer (Contents_buffer a) size k in
  let k := put_word (Contents_size a) size k in
  let k := upd_mq q (fun c => set_number_of_pending (number_of_pending_messages c +w 1) c) k in
  match submit_type with
  | CORE_MESSAGE_QUEUE_SEND_REQUEST => _CORE_message_queue_Append q a k
  | CORE_MESSAGE_QUEUE_URGENT_REQUEST => _CORE_message_queue_Prepend q a k
  end.

Lemma place_perm P0 : place P0 ≡ₚ a :: P0.
Proof using. unfold place. destruct submit_type; [symmetry; apply Permutation_cons_append|done]. Qed.

Lemma stored_memory : memory stored = st32 (memcpy (Z.to_nat size) (memory k) (Contents_buffer a) buffer) (Contents_size a) size.
Proof using. unfold stored. by destruct submit_type. Qed.

Lemma stored_threads : same_threads k stored.
Proof using. unfold stored. destruct submit_type; by split. Qed.

Lemma in_pool : a ∈ pool k q.
Proof using EI. unfold pool. rewrite EI. apply elem_of_app. right. left. Qed.

Lemma stored_mq : mq stored q =
  set_Pending_messages (place P) (set_number_of_pending (number_of_pending_messages Q + 1) (set_Inactive_messages rest Q)).
Proof using HB EI.
  assert (number_of_pending_messages Q +w 1 = number_of_pending_messages Q + 1) as EN.
  { destruct HB as [A B [C _] _ _ _ _]. unfold pool in B. rewrite length_app, EI in B. simpl in B.
    apply wrap32_small. rewrite A. unfold u32 in *. lia. }
  unfold stored, _CORE_message_queue_Append, _CORE_message_queue_Prepend, place, put_word, _CORE_message_queue_Copy_buffer.
  destruct submit_type; rewrite mq_upd; cbn zeta; rewrite mq_upd;
    change (mq (set_memory _ ?x) q) with (mq x q); change (mq (set_memory _ ?x) q) with (mq x q); rewrite mq_upd;
    cbn [number_of_pending_messages set_Inactive_messages set_number_of_pending Pending_messages]; by rewrite EN.
Qed.

Lemma stored_pool : pool stored q ≡ₚ pool k q.
Proof using HB EI. unfold pool. rewrite stored_mq, EI. simpl. rewrite place_perm. by rewrite <- Permutation_middle. Qed.

Lemma buffer_apart : apart (Contents_buffer a) size buffer size.
Proof using Hs Hc EI.
  specialize (Hc a in_pool). unfold apart, span in *. rewrite contents_behind_size. lia.
Qed.

Lemma stored_elsewhere b n : apart (Contents_size a) (4 + size) b n -> agrees b n (memory k) (memory stored).
Proof using Hs Hc EI.
  intros H. rewrite stored_memory. eapply agrees_trans; [|apply agrees_st32; unfold apart in *; lia].
  apply agrees_memcpy; rewrite Z2Nat.id by lia; [apply buffer_apart|].
  unfold apart in *. rewrite contents_behind_size. lia.
Qed.

Lemma stored_others b : b ∈ P -> agrees (Contents_size b) (span k q) (memory k) (memory stored).
Proof using HB Hs Hc EI.
  intros Hb. apply stored_elsewhere. assert (b <> a) as Hne.
  { intros ->. pose proof (bo_nodup _ _ HB) as HN. unfold pool in HN. rewrite EI in HN.
    apply NoDup_app in HN as (_ & HN & _). apply (HN a Hb). left. }
  pose proof (bo_apart _ _ HB a b in_pool) as HA. unfold pool in HA. specialize (HA ltac:(apply elem_of_app; by left) ltac:(done)).
  unfold apart, span in *. lia.
Qed.

Lemma stored_size : ld32 (memory stored) (Contents_size a) = size.
Proof using HB Hs. rewrite stored_memory. apply ld32_st32. destruct HB as [_ _ [_ C] _ _ _ _]. unfold u32 in *. lia. Qed.

Lemma stored_message : message stored a = bytes (memory k) buffer size.
Proof using HB Hs Hc EI.
  unfold message. rewrite stored_size, stored_memory.
  rewrite <- (bytes_memcpy size (memory k) (Contents_buffer a) buffer) by (apply buffer_apart || lia).
  apply agrees_bytes, agrees_st32. unfold apart. rewrite contents_behind_size. lia.
Qed.

Lemma stored_messages : messages stored q =
  match submit_type with
  | CORE_MESSAGE_QUEUE_SEND_REQUEST => messages k q ++ [bytes (memory k) buffer size]
  | CORE_MESSAGE_QUEUE_URGENT_REQUEST => bytes (memory k) buffer size :: messages k q
  end.
Proof using HB Hs Hc EI.
  assert (map (message stored) P = messages k q) as EM.
  { unfold messages. apply map_ext_in. intros b Hb%list_elem_of_In.
    destruct (bo_sizes _ _ HB b Hb) as [H1 H2]. apply message_frame; [|done].
    eapply agrees_sub; [by apply stored_others|lia|unfold span; lia]. }
  unfold messages at 1. rewrite stored_mq. cbn [Pending_messages set_Pending_messages]. unfold place.
  destruct submit_type; rewrite ?map_app; cbn [map]; by rewrite stored_message, EM.
Qed.

Lemma stored_buffers : buffers_ok q stored.
Proof using HB Hs Hc EI.
  pose proof HB as [A B C D E F G]. pose proof stored_pool as HP. split.
  - rewrite stored_mq. cbn [number_of_pending_messages Pending_messages set_Pending_messages set_number_of_pending].
    rewrite (Permutation_length (place_perm P)), A. simpl. lia.
  - rewrite HP. rewrite stored_mq. exact B.
  - rewrite stored_mq. exact C.
  - by rewrite HP.
  - by rewrite HP.
  - intros b c Hb Hd. rewrite HP in Hb, Hd. unfold span. rewrite stored_mq. by apply F.
  - intros b Hb. rewrite stored_mq in Hb |- *. cbn [Pending_messages set_Pending_messages] in Hb.
    change (maximum_message_size (set_Pending_messages _ _)) with (maximum_message_size Q).
    rewrite place_perm in Hb. apply elem_of_cons in Hb as [-> |Hb]; [by rewrite stored_size|].
    rewrite (agrees_ld32 _ (memory k) (memory stored)); [by apply G|].
    eapply agrees_sub; [by apply stored_others|lia|unfold span; destruct (G b Hb); lia].
Qed.
End Store.

(** ** Sending *)

(** Where a waiting thread wants the message and its size, apart from each other and from
    the sender's buffer. *)
Definition receiver_ok (k : Kernel) (u buffer size : Z) : Prop :=
  let arg := Wait_return_argument (Wait (tcb k u)) in
  let arg1 := Wait_return_argument_1 (Wait (tcb k u)) in
  apart arg size buffer size /\ apart arg1 4 arg size.

Lemma same_threads_msgq q k k' : same_threads k k' -> msgq_ok q k -> buffers_ok q k' ->
  (Pending_messages (mq k' q) <> [] -> tq_list k q = []) -> msgq_ok q k'.
Proof.
  intros HT [A B C D E _ _] HB HI. pose proof (same_threads_list _ _ q HT) as EL.
  pose proof (ts_queue _ _ (same_threads_tq _ _ HT) q) as EQ.
  split; rewrite ?EL, ?EQ; try done.
  - by apply (same_threads_tq_ok k).
  - by apply (same_threads_sched k).
Qed.

Section Submitting.
Context (node : Z) (mp : Z -> Z -> Kernel -> Kernel) (q buffer size id : Z) (submit_type : CORE_message_queue_Submit_types).
Context (k : Kernel) (HO : msgq_ok q k) (Hs : 0 <= size <= maximum_message_size (mq k q)).
Let submit := _CORE_message_queue_Submit node mp q buffer size id submit_type k.

Lemma submit_unfold : submit =
  let '(u, k1) := _Thread_queue_Dequeue q k in
  if negb (u =? NULL) then
    let k2 := _CORE_message_queue_Copy_buffer buffer (Wait_return_argument (Wait (tcb k1 u))) size k1 in
    (CORE_MESSAGE_QUEUE_STATUS_SUCCESSFUL,
     notify_remote node mp u id (put_word (Wait_return_argument_1 (Wait (tcb k2 u))) size k2))
  else if number_of_pending_messages (mq k1 q) =? maximum_pending_messages (mq k1 q)
  then (CORE_MESSAGE_QUEUE_STATUS_TOO_MANY, k1)
  else match Inactive_messages (mq k1 q) with
       | [] => (CORE_MESSAGE_QUEUE_STATUS_UNSATISFIED, k1)
       | a :: rest => if a =? 0 then (CORE_MESSAGE_QUEUE_STATUS_UNSATISFIED, upd_mq q (set_Inactive_messages rest) k1)
                      else (CORE_MESSAGE_QUEUE_STATUS_SUCCESSFUL, stored q buffer size submit_type k1 a rest)
       end.
Proof using Hs.
  unfold submit, _CORE_message_queue_Submit. rewrite (proj2 (Z.ltb_ge _ _)) by lia.
  destruct (_Thread_queue_Dequeue q k) as [u k1]. destruct (negb (u =? NULL)); [done|].
  destruct (_ =? _); [done|]. unfold _CORE_message_queue_Allocate_message_buffer.
  destruct (Inactive_messages (mq k1 q)) as [|a rest]; [done|]. by destruct (a =? 0).
Qed.

Lemma submit_delivers u rest : tq_list k q = u :: rest -> receiver_ok k u buffer size ->
  _Objects_Is_local_id node (Object_id (tcb k u)) = true ->
  submit.1 = CORE_MESSAGE_QUEUE_STATUS_SUCCESSFUL /\ msgq_ok q submit.2 /\ mq submit.2 q = mq k q /\
  tq_list submit.2 q = rest /\
  bytes (memory submit.2) (Wait_return_argument (Wait (tcb k u))) size = bytes (memory k) buffer size /\
  ld32 (memory submit.2) (Wait_return_argument_1 (Wait (tcb k u))) = size /\
  (forall b n, apart (Wait_return_argument (Wait (tcb k u))) size b n ->
     apart (Wait_return_argument_1 (Wait (tcb k u))) 4 b n -> agrees b n (memory k) (memory submit.2)) /\
  forall v, but_block2n (tcb submit.2 v) = but_block2n (if decide (v = u) then unblocked (tcb k u) else tcb k v).
Proof using HO Hs.
  intros EL [R1 R2] Hl. rewrite submit_unfold. pose proof HO as [A B C D E F G].
  destruct (dequeue_first q k u rest A B EL) as (k1 & X0 & X1 & X2 & X3 & (X4 & _ & X5 & _) & X6 & X7 & X8).
  rewrite X0. assert (u <> NULL) as Hu by (intros ->; apply E; rewrite EL; left).
  rewrite (proj2 (Z.eqb_neq _ _) Hu). cbn [negb]. pose proof (X8 u) as Xu. rewrite decide_True in Xu by done.
  assert (Wait_return_argument (Wait (tcb k1 u)) = Wait_return_argument (Wait (tcb k u))) as E1
    by exact (f_equal (fun c => Wait_return_argument (Wait c)) Xu).
  assert (Wait_return_argument_1 (Wait (tcb k1 u)) = Wait_return_argument_1 (Wait (tcb k u))) as E2
    by exact (f_equal (fun c => Wait_return_argument_1 (Wait c)) Xu).
  assert (Object_id (tcb k1 u) = Object_id (tcb k u)) as E3 by exact (f_equal Object_id Xu).
  unfold _CORE_message_queue_Copy_buffer, put_word, notify_remote. cbn zeta.
  change (tcb (set_memory _ ?x) u) with (tcb x u). change (tcb (set_memory _ ?x) u) with (tcb x u).
  rewrite E1, E2, E3, Hl. cbn [negb fst snd].
  set (arg := Wait_return_argument (Wait (tcb k u))) in *. set (arg1 := Wait_return_argument_1 (Wait (tcb k u))) in *.
  set (k2 := set_memory _ (set_memory _ k1)).
  assert (memory k2 = st32 (memcpy (Z.to_nat size) (memory k) arg buffer) arg1 size) as EM.
  { unfold k2. simpl. by rewrite (cs_memory _ _ X6). }
  assert (same_threads k1 k2) as HT by (by split). pose proof (core_mq _ _ q X6 : mq k2 q = mq k q) as EQ.
  assert (Pending_messages (mq k q) = []) as EP.
  { destruct (Pending_messages (mq k q)) eqn:EP; [done|]. rewrite G in EL by done. done. }
  assert (u32 size) as Hu32 by (destruct (bo_maximum _ _ F) as [_ HM]; unfold u32 in *; lia).
  split_and!; try done.
  - assert (buffers_ok q k2) as HB2 by (apply (buffers_frame k); [done|done|intros b Hb; rewrite EP in Hb; by apply elem_of_nil in Hb]).
    assert (msgq_ok q k1) as HO1.
    { split; rewrite ?X4, ?X5, ?X1; try done.
      - intros HN. apply E. rewrite EL. by right.
      - apply (buffers_frame k); [done|exact (core_mq _ _ q X6)|]. intros b Hb. rewrite EP in Hb. by apply elem_of_nil in Hb.
      - rewrite (core_mq _ _ q X6), EP. done. }
    apply (same_threads_msgq q k1); [done|done|done|]. rewrite EQ, EP. done.
  - rewrite EM. rewrite <- (bytes_memcpy size (memory k) arg buffer) by (done || lia).
    apply agrees_bytes, agrees_st32. exact R2.
  - rewrite EM. by apply ld32_st32.
  - intros b n H1 H2. rewrite EM. eapply agrees_trans; [|by apply agrees_st32].
    apply agrees_memcpy; rewrite Z2Nat.id by lia; done.
Qed.

Lemma submit_refused : tq_list k q = [] -> number_of_pending_messages (mq k q) = maximum_pending_messages (mq k q) ->
  submit = (CORE_MESSAGE_QUEUE_STATUS_TOO_MANY, k).
Proof using HO Hs.
  intros EL EN. rewrite submit_unfold. rewrite dequeue_none; [|apply HO..|done]. rewrite Z.eqb_refl. cbn [negb].
  by rewrite (proj2 (Z.eqb_eq _ _) EN).
Qed.

Lemma submit_stores : tq_list k q = [] -> number_of_pending_messages (mq k q) <> maximum_pending_messages (mq k q) ->
  clear_of q k buffer size ->
  exists a rest, Inactive_messages (mq k q) = a :: rest /\
    submit = (CORE_MESSAGE_QUEUE_STATUS_SUCCESSFUL, stored q buffer size submit_type k a rest) /\
    msgq_ok q submit.2.
Proof using HO Hs.
  intros EL EN Hc. rewrite submit_unfold. rewrite dequeue_none; [|apply HO..|done]. rewrite Z.eqb_refl. cbn [negb].
  rewrite (proj2 (Z.eqb_neq _ _) EN). pose proof (ms_buffers _ _ HO) as HB.
  destruct (Inactive_messages (mq k q)) as [|a rest] eqn:EI.
  { destruct HB as [A B _ _ _ _ _]. unfold pool in B. rewrite EI, app_nil_r in B. lia. }
  assert (a <> 0) as Ha by (intros ->; apply (bo_null _ _ HB); unfold pool; rewrite EI; apply elem_of_app; right; left).
  rewrite (proj2 (Z.eqb_neq _ _) Ha). exists a, rest. split_and!; try done.
  apply (same_threads_msgq q k); [by apply stored_threads|done|by apply stored_buffers|done].
Qed.
End Submitting.

(** ** Receiving *)

Section Receiving.
Context (routine : Z) (wfuel fuel : nat) (q id buffer size timeout : Z) (k : Kernel) (HO : msgq_ok q k).
Notation t := (_Thread_Executing k).
Notation k1 := (upd_wait t (set_Wait_return_code CORE_MESSAGE_QUEUE_STATUS_SUCCESSFUL) k).
Let seize (wait : bool) := _CORE_message_queue_Seize routine wfuel Datatypes.id fuel [] Datatypes.id q id buffer size wait timeout k.

Lemma msgq_code u code k0 : known k0 u -> msgq_ok q k0 -> msgq_ok q (upd_wait u (set_Wait_return_code code) k0) /\
  tq_list (upd_wait u (set_Wait_return_code code) k0) q = tq_list k0 q.
Proof using.
  intros Hk [O1 O2 O3 O4 O5 O6 O7].
  assert (tq_list (upd_wait u (set_Wait_return_code code) k0) q = tq_list k0 q) as EL by (by apply code_list).
  split; [|done]. split; rewrite ?EL; try done.
  - by apply code_tq_ok.
  - by apply code_sched.
  - by apply (buffers_frame k0).
Qed.

Lemma msgq_status code : msgq_ok q (upd_wait t (set_Wait_return_code code) k) /\
  tq_list (upd_wait t (set_Wait_return_code code) k) q = tq_list k q.
Proof using HO. apply msgq_code; [apply (ms_sched _ _ HO)|exact HO]. Qed.

Lemma msgq_status_twice c1 c2 :
  let k2 := upd_wait t (set_Wait_return_code c2) (upd_wait t (set_Wait_return_code c1) k) in
  msgq_ok q k2 /\ tq_list k2 q = tq_list k q.
Proof using HO.
  destruct (msgq_status c1) as [A B]. destruct (msgq_code t c2 _ (so_executing _ (ms_sched _ _ A)) A) as [C D].
  split; [exact C|congruence].
Qed.

(** *** A pending message *)

Section Pending.
Context (a : Z) (rest : list Z) (EP : Pending_messages (mq k q) = a :: rest).
Context (Hsize : clear_of q k size 4) (Hbuffer : clear_of q k buffer (maximum_message_size (mq k q))).
Context (Hap : apart size 4 buffer (maximum_message_size (mq k q))).
Notation n := (ld32 (memory k) (Contents_size a)).

Definition received : Kernel :=
  _CORE_message_queue_Free_message_buffer q a
    (set_memory (memcpy (Z.to_nat n) (st32 (memory k) size n) buffer (Contents_buffer a))
      (upd_mq q (set_Pending_messages rest)
        (upd_mq q (fun c => set_number_of_pending (number_of_pending_messages c -w 1) c) k1))).

Lemma size_bounds : 0 <= n <= maximum_message_size (mq k q) /\ u32 n.
Proof using HO EP.
  destruct (bo_sizes _ _ (ms_buffers _ _ HO) a) as [A B]; [rewrite EP; left|].
  destruct (bo_maximum _ _ (ms_buffers _ _ HO)) as [_ C]. unfold u32 in *. lia.
Qed.

Lemma seize_received wait : seize wait = Some received.
Proof using HO EP.
  unfold seize, _CORE_message_queue_Seize. cbn zeta. change (mq k1 q) with (mq k q).
  rewrite (proj2 (Z.eqb_neq _ _)).
  2:{ rewrite (bo_count _ _ (ms_buffers _ _ HO)), EP. simpl. lia. }
  cbn [negb]. unfold _CORE_message_queue_Get_pending_message. rewrite mq_upd.
  change (mq k1 q) with (mq k q). cbn [Pending_messages set_number_of_pending]. rewrite EP.
  unfold put_word, _CORE_message_queue_Copy_buffer, Datatypes.id, received. cbn [memory set_memory].
  change (memory (upd_mq _ _ _)) with (memory k). rewrite ld32_st32 by apply size_bounds. done.
Qed.

Lemma received_memory : memory received = memcpy (Z.to_nat n) (st32 (memory k) size n) buffer (Contents_buffer a).
Proof using. done. Qed.

Lemma received_mq : mq received q = set_Inactive_messages (Inactive_messages (mq k q) ++ [a])
  (set_Pending_messages rest (set_number_of_pending (number_of_pending_messages (mq k q) - 1) (mq k q))).
Proof using HO EP.
  unfold received, _CORE_message_queue_Free_message_buffer. rewrite mq_upd.
  change (mq (set_memory _ ?x) q) with (mq x q). rewrite !mq_upd. change (mq k1 q) with (mq k q).
  assert (number_of_pending_messages (mq k q) -w 1 = number_of_pending_messages (mq k q) - 1) as ->; [|done].
  destruct (ms_buffers _ _ HO) as [A B [C _] _ _ _ _]. unfold pool in B. rewrite length_app, EP in B. rewrite EP in A.
  simpl in A, B. apply wrap32_small. unfold u32 in *. lia.
Qed.

Lemma received_pool : pool received q ≡ₚ pool k q.
Proof using HO EP.
  unfold pool. rewrite received_mq, EP. simpl. rewrite app_assoc. symmetry. apply Permutation_cons_append.
Qed.

Lemma in_pool_pending b : b ∈ a :: rest -> b ∈ pool k q.
Proof using EP. intros Hb. unfold pool. rewrite EP. apply elem_of_app. by left. Qed.

Lemma copy_apart : apart buffer n (Contents_buffer a) n /\ apart size 4 (Contents_buffer a) n /\ apart size 4 buffer n.
Proof using HO EP Hsize Hbuffer Hap.
  destruct size_bounds as [Hn _]. specialize (Hsize a (in_pool_pending a ltac:(left))).
  specialize (Hbuffer a (in_pool_pending a ltac:(left))).
  unfold apart, span in *. rewrite contents_behind_size. lia.
Qed.

Lemma received_elsewhere b l : apart size 4 b l -> apart buffer n b l -> agrees b l (memory k) (memory received).
Proof using HO EP Hsize Hbuffer Hap.
  intros H1 H2. destruct size_bounds as [Hn _]. destruct copy_apart as (C1 & _). rewrite received_memory.
  eapply agrees_trans; [apply agrees_st32; exact H1|]. apply agrees_memcpy; rewrite Z2Nat.id by lia; done.
Qed.

Lemma received_bytes : bytes (memory received) buffer n = message k a.
Proof using HO EP Hsize Hbuffer Hap.
  destruct size_bounds as [Hn _]. destruct copy_apart as (C1 & C2 & _). rewrite received_memory, bytes_memcpy by (done || lia).
  by apply agrees_bytes, agrees_st32.
Qed.

Lemma received_size : ld32 (memory received) size = n.
Proof using HO EP Hsize Hbuffer Hap.
  destruct size_bounds as [Hn Hu]. destruct copy_apart as (C1 & _ & C3). rewrite received_memory.
  rewrite (agrees_ld32 size (st32 (memory k) size n)); [by apply ld32_st32|].
  apply agrees_memcpy; rewrite Z2Nat.id by lia; [done|]. unfold apart in *. lia.
Qed.

Lemma received_others b : b ∈ rest -> agrees (Contents_size b) (span k q) (memory k) (memory received).
Proof using HO EP Hsize Hbuffer Hap.
  intros Hb. destruct size_bounds as [Hn _]. pose proof (in_pool_pending b ltac:(by right)) as Hb'.
  apply received_elsewhere; [by apply Hsize|]. specialize (Hbuffer b Hb'). unfold apart in *. lia.
Qed.

Lemma received_messages : messages received q = map (message k) rest.
Proof using HO EP Hsize Hbuffer Hap.
  unfold messages. rewrite received_mq. cbn [Pending_messages set_Inactive_messages set_Pending_messages].
  apply map_ext_in. intros b Hb%list_elem_of_In.
  destruct (bo_sizes _ _ (ms_buffers _ _ HO) b) as [A B]; [rewrite EP; by right|].
  apply message_frame; [|done]. eapply agrees_sub; [by apply received_others|lia|unfold span; lia].
Qed.

Lemma received_ok : msgq_ok q received.
Proof using HO EP Hsize Hbuffer Hap.
  pose proof (ms_buffers _ _ HO) as [A B C D E F G]. pose proof received_pool as HP.
  assert (known k t) as Hk by apply (ms_sched _ _ HO).
  assert (same_threads k1 received) as HT by (by split).
  pose proof (proj1 (msgq_status CORE_MESSAGE_QUEUE_STATUS_SUCCESSFUL)) as HO1.
  assert (tq_list k q = []) as EL by (apply (ms_idle _ _ HO); by rewrite EP).
  apply (same_threads_msgq q k1); [done|done| |by intros _; rewrite code_list].
  split.
  - rewrite received_mq. cbn. rewrite A, EP. simpl. lia.
  - rewrite HP, received_mq. exact B.
  - rewrite received_mq. exact C.
  - by rewrite HP.
  - by rewrite HP.
  - intros b c Hb Hd. rewrite HP in Hb, Hd. unfold span. rewrite received_mq. by apply F.
  - intros b Hb. rewrite received_mq in Hb |- *. cbn [Pending_messages set_Inactive_messages set_Pending_messages] in Hb.
    change (maximum_message_size (set_Inactive_messages _ _)) with (maximum_message_size (mq k q)).
    assert (b ∈ Pending_messages (mq k q)) as Hb' by (rewrite EP; by right).
    rewrite (agrees_ld32 _ (memory k) (memory received)); [by apply G|].
    eapply agrees_sub; [by apply received_others|lia|unfold span; destruct (G b Hb'); lia].
Qed.
End Pending.

(** *** No message *)

Context (EP : Pending_messages (mq k q) = []).

Lemma no_message : (number_of_pending_messages (mq k q) =? 0) = true.
Proof using HO EP. by rewrite (bo_count _ _ (ms_buffers _ _ HO)), EP. Qed.

Lemma msg_seize_refused : exists k', seize false = Some k' /\ msgq_ok q k' /\ tq_list k' q = tq_list k q /\
  mq k' q = mq k q /\ memory k' = memory k /\
  forall u, tcb k' u = if decide (u = t) then with_code CORE_MESSAGE_QUEUE_STATUS_UNSATISFIED_NOWAIT (tcb k u) else tcb k u.
Proof using HO EP.
  unfold seize, _CORE_message_queue_Seize. cbn zeta. change (mq k1 q) with (mq k q). rewrite no_message. cbn [negb].
  destruct (msgq_status_twice CORE_MESSAGE_QUEUE_STATUS_SUCCESSFUL CORE_MESSAGE_QUEUE_STATUS_UNSATISFIED_NOWAIT) as [A B].
  eexists. split; [reflexivity|]. split_and!; [exact A|exact B|done..|]. intros u. rewrite !code_tcb.
  destruct (decide (u = t)); [subst; by rewrite decide_True|done].
Qed.

Lemma msg_seize_waits : can_wait q k -> timer_free wfuel t timeout k -> t <> NULL -> (length (tq_list k q) < fuel)%nat ->
  exists k', seize true = Some k' /\ msgq_ok q k' /\ mq k' q = mq k q /\ memory k' = memory k /\
    tq_list k' q = joined k q t /\
    current_state (tcb k' t) = STATES_WAITING_FOR_MESSAGE /\
    Wait_return_argument (Wait (tcb k' t)) = buffer /\ Wait_return_argument_1 (Wait (tcb k' t)) = size /\
    Wait_return_code (Wait (tcb k' t)) = CORE_MESSAGE_QUEUE_STATUS_SUCCESSFUL.
Proof using HO EP.
  intros HW HT Hn Hf. unfold seize, _CORE_message_queue_Seize. cbn zeta. change (mq k1 q) with (mq k q).
  rewrite no_message. cbn [negb].
  set (g := fun w => set_Wait_return_argument_1 size (set_Wait_return_argument buffer (set_Wait_id id (set_Wait_queue q
    (set_Wait_return_code CORE_MESSAGE_QUEUE_STATUS_SUCCESSFUL w))))).
  match goal with |- context [_Thread_queue_Enqueue _ _ _ _ _ _ _ (Datatypes.id ?x)] =>
    change (Datatypes.id x) with x; assert (noted q g THREAD_QUEUE_NOTHING_HAPPENED k x) as HN end.
  { pose proof (noted_refl q k HW) as N.
    apply (noted_code q _ (set_Wait_return_code CORE_MESSAGE_QUEUE_STATUS_SUCCESSFUL)) in N; [|done].
    apply noted_enter in N. apply (noted_code q _ (set_Wait_queue q)) in N; [|done].
    apply (noted_code q _ (set_Wait_id id)) in N; [|done].
    apply (noted_code q _ (set_Wait_return_argument buffer)) in N; [|done].
    apply (noted_code q _ (set_Wait_return_argument_1 size)) in N; [|done]. exact N. }
  destruct (noted_wait_spec routine wfuel fuel q timeout g k _ HN HT Hf)
    as (k' & X0 & X1 & X2 & X3 & X4 & X5 & X6 & X7 & (X8 & _) & X9).
  specialize (X9 t). rewrite decide_True in X9 by done. pose proof (core_mq _ _ q X6) as EQ.
  pose proof HO as [O1 O2 O3 O4 O5 O6 O7].
  exists k'. split; [exact X0|]. split.
  { split; rewrite ?X8; try done.
    - rewrite X1, joined_perm. apply not_elem_of_cons. by split.
    - apply (buffers_frame k); [done|done|]. intros b Hb. rewrite EP in Hb. by apply elem_of_nil in Hb.
    - rewrite EQ, EP. done. }
  split; [done|]. split; [apply X6|]. split; [done|]. rewrite O4 in X9.
  split; [exact (f_equal current_state X9)|].
  split; [exact (f_equal (fun c => Wait_return_argument (Wait c)) X9)|].
  split; [exact (f_equal (fun c => Wait_return_argument_1 (Wait c)) X9)|].
  exact (f_equal (fun c => Wait_return_code (Wait c)) X9).
Qed.
End Receiving.

(** ** Flushing *)

Section FlushLinks.
Context (m : mem) (ci cp : Z) (li lp : list Z) (f z y : Z) (A L : list Z).
Context (EA : lp = A ++ [z]) (Ef : lp = f :: tl lp) (Ey : li ++ [_Chain_Tail ci] = y :: L).

Lemma pending_links : links 0 m (_Chain_Head cp :: lp ++ [_Chain_Tail cp]) -> links 0 m lp.
Proof using EA Ef.
  rewrite EA, <- app_assoc. simpl app. rewrite (links_app 0 m (_Chain_Head cp :: A) z [_Chain_Tail cp]). intros [H _].
  change ((_Chain_Head cp :: A) ++ [z]) with (_Chain_Head cp :: (A ++ [z])) in H. rewrite <- EA in H |- *. rewrite Ef in H |- *.
  apply H.
Qed.

Lemma flush_words : chain_words ci li ++ chain_words cp lp ≡ₚ
  [ci; z; y + 4; f + 4; cp; cp + 4; cp + 8; ci + 4] ++ link_words 0 (y :: L) ++ link_words 0 lp.
Proof using EA Ef Ey.
  rewrite !chain_words_links, Ey, link_words_cons2.
  assert (link_words 0 (_Chain_Head cp :: lp ++ [_Chain_Tail cp]) = cp :: (f + 4) :: link_words 0 lp ++ [z; cp + 8]) as ->.
  { rewrite Ef at 1. simpl app. rewrite link_words_cons2.
    change (f :: tl lp ++ [_Chain_Tail cp]) with ((f :: tl lp) ++ [_Chain_Tail cp]). rewrite <- Ef.
    rewrite EA at 1. rewrite <- app_assoc. simpl app. rewrite link_words_app, link_words_cons2, <- EA. simpl.
    unfold _Chain_Head, _Chain_Tail. rewrite !Z.add_0_r, <- Z.add_assoc. done. }
  unfold _Chain_Head. rewrite !Z.add_0_r. generalize (link_words 0 (y :: L)) as W1, (link_words 0 lp) as W2.
  intros W1 W2. transitivity (([ci + 4; ci; y + 4] ++ W1) ++ [cp + 4; cp; f + 4] ++ W2 ++ [z; cp + 8]); [done|]. solve_Permutation.
Qed.
End FlushLinks.

Lemma flush_links_rep m ci cp li lp :
  chain_rep m ci li -> chain_rep m cp lp -> lp <> [] -> NoDup (chain_words ci li ++ chain_words cp lp) ->
  chain_rep (flush_links m ci cp) ci (lp ++ li) /\ chain_rep (flush_links m ci cp) cp [].
Proof.
  intros HI HP Hne HN. split; [|apply initialize_empty_rep].
  destruct (exists_last Hne) as (A & z & EA). destruct lp as [|f lp']; [done|]. set (lp := f :: lp') in *.
  assert (exists y L, li ++ [_Chain_Tail ci] = y :: L /\ y = hd (_Chain_Tail ci) li) as (y & L & Ey & Ey')
    by (destruct li; eexists _, _; split; reflexivity).
  pose proof HN as HW. rewrite (flush_words ci cp li lp f z y A L EA eq_refl Ey) in HW.
  apply NoDup_app in HW as (HS & HD & _).
  pose proof (chain_rep_first ci m li HI) as F1. rewrite <- Ey' in F1.
  pose proof (chain_rep_first cp m lp HP) as F2. pose proof (chain_rep_last cp m lp HP) as F3.
  assert (Chain_last m cp = z) as F3' by (rewrite F3, EA; by rewrite List.last_last).
  destruct HI as (I1 & I2 & I3). destruct HP as (P1 & P2 & P3).
  pose proof (pending_links m cp lp f z A EA eq_refl P1) as PL. rewrite Ey, links_cons2 in I1. destruct I1 as (_ & _ & IL).
  assert (forall a, a ∉ [ci; z; y + 4; f + 4; cp; cp + 4; cp + 8] -> ld (flush_links m ci cp) a = ld m a) as HF.
  { intros a Ha. unfold flush_links, _Chain_Initialize_empty, set_Chain_first, set_Chain_permanent_null, set_Chain_last,
      set_Node_next, set_Node_previous. rewrite F1, F2, F3'. simpl hd. rewrite !ld_st_ne by set_solver. done. }
  assert (ld (flush_links m ci cp) ci = f /\ ld (flush_links m ci cp) (f + 4) = ci /\
    ld (flush_links m ci cp) z = y /\ ld (flush_links m ci cp) (y + 4) = z) as (S1 & S2 & S3 & S4).
  { unfold flush_links, _Chain_Initialize_empty, set_Chain_first, set_Chain_permanent_null, set_Chain_last,
      set_Node_next, set_Node_previous, _Chain_Head. rewrite F1, F2, F3'. simpl hd.
    rewrite !NoDup_cons, !not_elem_of_cons in HS. destruct_and?.
    split_and!; repeat first [rewrite ld_st_eq | rewrite ld_st_ne by congruence]; done. }
  set (m' := flush_links m ci cp) in *. clearbody m'. split_and!.
  - rewrite <- app_assoc, Ey, EA, <- app_assoc. simpl app.
    apply (links_app 0 m' (_Chain_Head ci :: A) z (y :: L)).
    change ((_Chain_Head ci :: A) ++ [z]) with (_Chain_Head ci :: (A ++ [z])). rewrite <- EA. unfold lp.
    rewrite !links_cons2, !Z.add_0_r. fold lp. split_and!; try done.
    + apply (links_ext 0 m); [|done]. intros a Ha. apply HF. intros Hin. apply (HD a); [|apply elem_of_app; by right].
      by apply (elem_of_app [ci; z; y + 4; f + 4; cp; cp + 4; cp + 8] [ci + 4]); left.
    + apply (links_ext 0 m); [|done]. intros a Ha. apply HF. intros Hin. apply (HD a); [|apply elem_of_app; by left].
      by apply (elem_of_app [ci; z; y + 4; f + 4; cp; cp + 4; cp + 8] [ci + 4]); left.
  - unfold Chain_permanent_null in *. rewrite HF; [done|]. intros Hin.
    apply (NoDup_app [ci; z; y + 4; f + 4; cp; cp + 4; cp + 8] [ci + 4]) in HS as (_ & HX & _). apply (HX _ Hin). left.
  - rewrite chain_words_app. unfold chain_words in *. clear -HN. rewrite <- app_assoc, (Permutation_app_comm (flat_map _ lp)), app_assoc.
    apply NoDup_app in HN as (N1 & N2 & N3). apply NoDup_app in N3 as (_ & _ & N3). apply NoDup_app.
    split_and!; [done| |done]. intros x Hx Hx'. apply (N2 x Hx). apply elem_of_app. by right.
Qed.

(** ** Broadcasting to one thread *)

Lemma broadcast_one node mp fuel q buffer size id k u :
  msgq_ok q k -> tq_list k q = [u] -> (2 <= fuel)%nat -> maximum_message_size (mq k q) < size -> u32 size ->
  receiver_ok k u buffer (maximum_message_size (mq k q)) ->
  _Objects_Is_local_id node (Object_id (tcb k u)) = true ->
  exists k', _CORE_message_queue_Broadcast node mp fuel q buffer size id k =
      Some (CORE_MESSAGE_QUEUE_STATUS_SUCCESSFUL, 1, k') /\ tq_list k' q = [] /\
    memory k' = st32 (memcpy (Z.to_nat (maximum_message_size (mq k q))) (memory k)
      (Wait_return_argument (Wait (tcb k u))) buffer) (Wait_return_argument_1 (Wait (tcb k u))) size.
Proof.
  intros HO EL Hf Hlt Hs _ Hl. destruct fuel as [|[|fuel]]; [lia..|]. pose proof HO as [A B C D E F G].
  destruct (dequeue_first q k u [] A B EL) as (k1 & X0 & X1 & X2 & X3 & (X4 & _ & X5 & _) & X6 & X7 & X8).
  assert (u <> NULL) as Hu by (intros ->; apply E; rewrite EL; left).
  pose proof (X8 u) as Xu. rewrite decide_True in Xu by done.
  assert (Wait_return_argument (Wait (tcb k1 u)) = Wait_return_argument (Wait (tcb k u))) as E1
    by exact (f_equal (fun c => Wait_return_argument (Wait c)) Xu).
  assert (Wait_return_argument_1 (Wait (tcb k1 u)) = Wait_return_argument_1 (Wait (tcb k u))) as E2
    by exact (f_equal (fun c => Wait_return_argument_1 (Wait c)) Xu).
  assert (Object_id (tcb k1 u) = Object_id (tcb k u)) as E3 by exact (f_equal Object_id Xu).
  unfold _CORE_message_queue_Broadcast. cbn [broadcast_loop]. rewrite X0, (proj2 (Z.eqb_neq _ _) Hu), (core_mq _ _ q X6).
  rewrite (proj2 (Z.ltb_lt _ _) Hlt). unfold _CORE_message_queue_Copy_buffer, put_word, notify_remote.
  change (tcb (set_memory _ ?x) u) with (tcb x u). change (tcb (set_memory _ ?x) u) with (tcb x u).
  rewrite E1, E2, E3, Hl. cbn [negb]. set (k2 := set_memory _ (set_memory _ k1)).
  assert (same_threads k1 k2) as HT by (by split). pose proof (same_threads_list _ _ q HT) as EL2. rewrite X1 in EL2.
  rewrite (dequeue_none q k2); [|by apply (same_threads_tq_ok k1)|by change (tq k2 q) with (tq k1 q); rewrite X4|done].
  rewrite Z.eqb_refl. exists k2. split; [done|]. split; [done|]. unfold k2. simpl. by rewrite (cs_memory _ _ X6).
Qed.

(** ** Buffer sizes *)

Lemma allocated_size_div s : u32 s -> s + 4 <= two32 ->
  allocated_message_size s = 4 * ((s + 3) / 4).
Proof.
  intros Hs Hlt. unfold allocated_message_size.
  assert (Z.land s 3 = s mod 4) as -> by exact (Z.land_ones s 2 ltac:(lia)).
  destruct (Z.eqb_spec (s mod 4) 0) as [E|E]; cbn [negb].
  - Z.div_mod_to_equations; lia.
  - assert (s + 4 < two32) as Hlt' by (unfold u32, two32 in *; Z.div_mod_to_equations; lia).
    rewrite wrap32_small by (unfold u32 in *; lia).
    assert (Z.land (s + 4) (not32 3) = s + 4 - (s + 4) mod 4) as ->.
    { assert (Z.land (s + 4) (not32 3) = Z.ldiff (s + 4) (Z.ones 2)) as ->.
      { apply Z.bits_inj'. intros i Hi. rewrite Z.land_spec, Z.ldiff_spec, not32_testbit by (done || by split).
        destruct (Z.ltb_spec i 32); [done|]. assert (Z.testbit (s + 4) i = false) as ->; [|done].
        apply Z.testbit_false; [done|]. rewrite Z.div_small; [done|]. split; [unfold u32 in *; lia|].
        apply Z.lt_le_trans with (2 ^ 32); [unfold u32, two32 in *; lia|]. apply Z.pow_le_mono_r; lia. }
      rewrite Z.ldiff_ones_r by lia. rewrite Z.shiftl_mul_pow2, Z.shiftr_div_pow2 by lia. change (2 ^ 2) with 4.
      rewrite (Z.mod_eq (s + 4) 4) by lia. lia. }
    Z.div_mod_to_equations; lia.
Qed.

(** ** A fresh message queue *)

Lemma block_array_seq sz n : forall b, 0 < sz -> 0 <= b -> b + Z.of_nat n * sz <= two32 ->
  block_array b sz n = map (fun i => b + i * sz) (seqZ 0 (Z.of_nat n)).
Proof.
  induction n as [|n IH]; intros b Hsz Hb Hlt; [done|].
  rewrite seqZ_cons by lia. cbn [block_array map]. f_equal; [lia|].
  destruct n as [|n]; [done|]. unfold _Addresses_Add_offset. rewrite wrap32_small by (unfold u32; lia).
  rewrite IH by lia. replace (Z.pred (Z.of_nat (S (S n)))) with (Z.of_nat (S n)) by lia.
  change (Z.succ 0) with (1 + 0). rewrite <- (fmap_add_seqZ 1 0).
  change (Z.add 1 <$> seqZ 0 (Z.of_nat (S n))) with (map (Z.add 1) (seqZ 0 (Z.of_nat (S n)))). rewrite map_map.
  apply map_ext. intros i. lia.
Qed.

Lemma elem_block_array sz n b a : 0 < sz -> 0 <= b -> b + Z.of_nat n * sz <= two32 ->
  a ∈ block_array b sz n <-> exists i, 0 <= i < Z.of_nat n /\ a = b + i * sz.
Proof.
  intros H1 H2 H3. rewrite block_array_seq, list_elem_of_In, in_map_iff by done.
  setoid_rewrite <- list_elem_of_In. setoid_rewrite elem_of_seqZ. split; intros (i & A & B); exists i; (split; [lia|done]).
Qed.

Section Fresh.
Context (workspace : Z) (hfuel : nat) (q cls : Z) (d : CORE_message_queue_Disciplines) (n size proxy : Z) (k : Kernel).
Context (HS : sched_ok k) (Hn : u32 n) (Hsize : u32 size /\ size + 20 <= two32).
Notation sz := (allocated_message_size size +w sizeof_Buffer_control).

Lemma stride_size : sz = 4 * ((size + 3) / 4) + 16 /\ size + 16 <= sz.
Proof using Hsize.
  clear Hn. destruct Hsize as [H1 H2]. rewrite allocated_size_div by (done || lia). unfold sizeof_Buffer_control.
  assert (4 * ((size + 3) / 4) + 16 < two32 /\ size <= 4 * ((size + 3) / 4)) as [A B]
    by (unfold u32, two32 in *; Z.div_mod_to_equations; lia).
  rewrite wrap32_small by (unfold u32 in *; lia). lia.
Qed.

Context (b : Z) (k' : Kernel) (Hb : 0 <= b) (Hfit : b + n * sz <= two32).
Context (EI : _CORE_message_queue_Initialize workspace hfuel q cls d n size proxy k = Some (true, k')).
Context (EB : message_buffers (mq k' q) = b).

Lemma fresh_mq : mq k' q = {| maximum_pending_messages := n; number_of_pending_messages := 0; maximum_message_size := size;
    Pending_messages := []; message_buffers := b; notify_handler := NULL; notify_argument := NULL;
    Inactive_messages := block_array b sz (Z.to_nat n) |} /\
  tq_list k' q = [] /\ tq_ok k' q /\ sched_ok k' /\ sync_state (tq k' q) = THREAD_QUEUE_SYNCHRONIZED /\
  tq_state (tq k' q) = STATES_WAITING_FOR_MESSAGE /\ b <> 0.
Proof using HS EI EB.
  clear Hb Hfit. unfold _CORE_message_queue_Initialize in EI. cbn zeta in EI.
  destruct (_Workspace_Allocate _ _ _ _) as [[p k1]|] eqn:EA; [|done].
  destruct (Z.eqb_spec p 0) as [|Hp]; [done|]. injection EI as EK.
  match type of EK with _Thread_queue_Initialize _ _ ?d0 _ _ _ ?x = _ => set (dd := d0) in EK; set (k2 := x) in EK end.
  assert (same_threads k k1) as HT1.
  { unfold _Workspace_Allocate in EA. destruct (_Heap_Allocate _ _ _ _) as [[? ?]|]; [|done]. simplify_eq. by split. }
  assert (same_threads k k2) as HT2 by (eapply same_threads_trans; [exact HT1|by split]).
  assert (mq k1 q = {| maximum_pending_messages := n; number_of_pending_messages := 0; maximum_message_size := size;
    Pending_messages := Pending_messages (mq k q); message_buffers := message_buffers (mq k q); notify_handler := NULL;
    notify_argument := NULL; Inactive_messages := Inactive_messages (mq k q) |}) as E1.
  { unfold _Workspace_Allocate in EA. destruct (_Heap_Allocate _ _ _ _) as [[? ?]|]; [|done]. simplify_eq.
    change (mq (set_workspace _ ?x) q) with (mq x q). unfold _CORE_message_queue_Set_notify. by rewrite !mq_upd. }
  assert (mq k2 q = {| maximum_pending_messages := n; number_of_pending_messages := 0; maximum_message_size := size;
    Pending_messages := []; message_buffers := p; notify_handler := NULL; notify_argument := NULL;
    Inactive_messages := block_array p sz (Z.to_nat n) |}) as E2 by (unfold k2; by rewrite !mq_upd, E1).
  destruct (initialize_fresh q cls dd STATES_WAITING_FOR_MESSAGE proxy CORE_MESSAGE_QUEUE_STATUS_TIMEOUT k2) as (A & B & C & D);
    [done|]. rewrite EK in A, B, C, D.
  assert (mq k' q = mq k2 q) as E3 by (apply core_mq, C). rewrite E3, E2 in EB |- *. simpl in EB. subst p.
  assert (sched_ok k') as HS' by (apply (links_only_sched k2); [done|by apply (same_threads_sched k)]).
  assert (sync_state (tq k' q) = THREAD_QUEUE_SYNCHRONIZED) as F1 by (by rewrite D).
  assert (tq_state (tq k' q) = STATES_WAITING_FOR_MESSAGE) as F2 by (by rewrite D).
  by split_and!.
Qed.

Lemma fresh_ok : msgq_ok q k' /\ messages k' q = [].
Proof using All.
  destruct fresh_mq as (EM & EL & HQ & HS' & E1 & E2 & Hb0). destruct stride_size as [_ Hsz]. destruct Hsize as [Hs1 Hs2].
  assert (0 < sz) as Hpos by (unfold u32 in *; lia).
  assert (b + Z.of_nat (Z.to_nat n) * sz <= two32) as Hfit' by (rewrite Z2Nat.id by (unfold u32 in *; lia); exact Hfit).
  assert (pool k' q = block_array b sz (Z.to_nat n)) as EP by (unfold pool; by rewrite EM).
  split; [|unfold messages; by rewrite EM]. split; rewrite ?EL; try done; [apply not_elem_of_nil|].
  split; unfold span; rewrite ?EP, ?EM; simpl; try done.
  - rewrite block_array_seq by done. rewrite length_map, length_seqZ. unfold u32 in *. lia.
  - rewrite block_array_seq by done. apply NoDup_fmap_2; [|apply NoDup_seqZ]. intros i j Hij. nia.
  - rewrite elem_block_array by done. intros (i & Hi & Ei). unfold NULL in Ei. nia.
  - intros x y. rewrite !elem_block_array by done. intros (i & Hi & ->) (j & Hj & ->) Hne.
    unfold apart, Contents_size. assert (i < j \/ j < i) as [?|?] by (assert (i <> j) by congruence; lia); nia.
  - intros x Hx. by apply elem_of_nil in Hx.
Qed.
End Fresh.
