(* ===== verification/CoreMsgTheorems.v ===== *)
(** * The contract of the core message queue handler

    Creation from the workspace, sending, receiving, flushing, and the refinement of a
    bounded queue of byte strings by any sequence of sends and receives. *)
From S2P Require Import Prelude Chain Watchdog WatchdogProofs WatchdogOps Object Priority Heap HeapProofs HeapOps.
From S2P Require Import HeapSpec Kernel Thread Workspace ThreadProofs ThreadSpec Threadq ThreadqProofs ThreadqSpec.
From S2P Require Import CoreWait CoreMsg CoreMsgSpec.

(** ** Creation *)

Notation buffer_stride size := (4 * ((size + 3) / 4) + 16).

Lemma required_size n size : u32 n -> u32 size -> size + 20 <= two32 -> n * buffer_stride size < two32 ->
  message_buffering_required n size = n * buffer_stride size.
Proof.
  intros Hn Hs H1 H2. unfold message_buffering_required. destruct (stride_size size (conj Hs H1)) as [-> Hb].
  apply wrap32_small. unfold u32 in *. split; [|done]. apply Z.mul_nonneg_nonneg; [lia|]. Z.div_mod_to_equations; lia.
Qed.

Lemma initialize_result workspace hfuel q cls d n size proxy k p area :
  _Heap_Allocate hfuel (_Workspace_Area k) workspace (message_buffering_required n size) = Some (p, area) ->
  exists k', _CORE_message_queue_Initialize workspace hfuel q cls d n size proxy k = Some (negb (p =? 0), k') /\
    _Workspace_Area k' = area /\ message_buffers (mq k' q) = p /\
    (p = 0 -> same_threads k k').
Proof.
  intros EA. unfold _CORE_message_queue_Initialize. cbn zeta. unfold _Workspace_Allocate.
  change (_Workspace_Area (_CORE_message_queue_Set_notify _ _ _ _)) with (_Workspace_Area k). rewrite EA.
  destruct (Z.eqb_spec p 0) as [E|E]; cbn [negb].
  - eexists. split; [reflexivity|]. split; [done|]. split; [by rewrite mq_upd|]. intros _. by split.
  - eexists. split; [reflexivity|].
    match goal with |- context [_Thread_queue_Initialize _ _ ?d0 _ _ _ ?x] => set (dd := d0); set (k2 := x) end.
    destruct (initialize_fresh q cls dd STATES_WAITING_FOR_MESSAGE proxy CORE_MESSAGE_QUEUE_STATUS_TIMEOUT k2) as (_ & _ & C & _);
      [done|]. pose proof (lo_core _ _ C) as CC. split; [by rewrite (cs_workspace _ _ CC)|].
    split; [|done]. rewrite (core_mq _ _ q CC). unfold k2. by rewrite !mq_upd.
Qed.

(** [_CORE_message_queue_Initialize] with sizes whose product fits a word: when the
    workspace has a large enough block it returns TRUE, the queue is empty and well
    formed, every buffer is in the block that the workspace gave, and the workspace heap
    is well formed with that block in use; otherwise it returns FALSE, no free block was
    large enough, and no thread or queue changed. *)
Theorem message_queue_initialize_correct workspace hfuel q cls d n size proxy k start bs fl :
  sched_ok k -> heap_rep (_Workspace_Area k) workspace start CPU_HEAP_ALIGNMENT bs fl ->
  u32 n -> u32 size -> size + 20 <= two32 -> n * buffer_stride size + 24 < two32 -> (length fl < hfuel)%nat ->
  (exists k' A sz B fl', _CORE_message_queue_Initialize workspace hfuel q cls d n size proxy k = Some (true, k') /\
     msgq_ok q k' /\ messages k' q = [] /\ tq_list k' q = [] /\
     maximum_pending_messages (mq k' q) = n /\ maximum_message_size (mq k' q) = size /\
     heap_rep (_Workspace_Area k') workspace start CPU_HEAP_ALIGNMENT (A ++ (sz, true) :: B) fl' /\
     forall a, a ∈ pool k' q -> start + total A < a /\ Contents_buffer a + size <= start + total A + sz) \/
  (exists k', _CORE_message_queue_Initialize workspace hfuel q cls d n size proxy k = Some (false, k') /\
     same_threads k k' /\ _Workspace_Area k' = _Workspace_Area k /\
     forall A sz B, bs = A ++ (sz, false) :: B -> sz < heap_request_size CPU_HEAP_ALIGNMENT (n * buffer_stride size)).
Proof.
  intros HS HR Hn Hs H20 Hfit Hf.
  pose proof (required_size n size Hn Hs H20 ltac:(unfold two32 in *; lia)) as ER.
  destruct (stride_size size (conj Hs H20)) as [EZ Hb].
  assert (0 <= n * buffer_stride size) as Hpos
    by (apply Z.mul_nonneg_nonneg; [apply Hn|unfold u32 in *; Z.div_mod_to_equations; lia]).
  destruct (allocate_spec hfuel _ workspace start CPU_HEAP_ALIGNMENT 3 bs fl (n * buffer_stride size) HR)
    as [(p & m' & A & sz & B & fl' & E & Hp & _ & HR' & HO & _)|(E & Hno)];
    [done|done|exact Hpos|change (2 * CPU_HEAP_ALIGNMENT) with 16; lia|exact Hf| |].
  - left. rewrite <- ER in E. destruct (initialize_result _ _ q cls d n size proxy k p m' E) as (k' & EI & EW & EB & _).
    rewrite (proj2 (Z.eqb_neq p 0) Hp) in EI. cbn [negb] in EI. destruct HO as (O1 & O2 & _).
    assert (0 <= p /\ p + n * (allocated_message_size size +w sizeof_Buffer_control) <= two32) as [P1 P2].
    { rewrite EZ. pose proof (split_ok _ _ _ _ _ _ HR' A sz true B eq_refl) as (? & ? & ? & ? & ? & ? & ? & ? & ?).
      pose proof (hr_high _ _ _ _ _ _ HR'). pose proof (hr_low _ _ _ _ _ _ HR'). lia. }
    destruct (fresh_mq _ _ q cls d n size proxy k HS p k' EI EB) as (EM & EL & _).
    destruct (fresh_ok _ _ q cls d n size proxy k HS Hn (conj Hs H20) p k' P1 P2 EI EB) as [F1 F2].
    exists k', A, sz, B, fl'. rewrite EW, EM. split_and!; try done.
    intros a. unfold pool. rewrite EM. cbn [Pending_messages Inactive_messages app]. rewrite EZ.
    assert (Z.of_nat (Z.to_nat n) = n) as En by (apply Z2Nat.id, Hn).
    rewrite elem_block_array, En; [|unfold u32 in *; Z.div_mod_to_equations; lia|done|by rewrite En, <- EZ].
    intros (i & Hi & ->). unfold Contents_buffer. split; [unfold u32 in *; Z.div_mod_to_equations; nia|].
    rewrite EZ in Hb. nia.
  - right. pose proof E as E0. rewrite <- ER in E. destruct (initialize_result _ _ q cls d n size proxy k NULL _ E) as (k' & EI & EW & _ & HT).
    exists k'. split_and!; [exact EI|by apply HT|exact EW|exact Hno].
Qed.

(** The queues of the examples: three buffers of ten bytes at 50, whose receivers and
    senders use the memory below 1000. *)
Module MsgExample.
Import ThreadExample.
Definition with_workspace (k : Kernel) : Kernel :=
  match _Workspace_Handler_initialization 64 (fun _ k => k) true 1024 512 k with Done k => k | _ => k end.
Definition w0 : Kernel := with_workspace (set_memory (list_to_map [(500, 11); (501, 12); (502, 13); (510, 99)]) k2).
Definition create (n size : Z) : option (bool * Kernel) :=
  _CORE_message_queue_Initialize 64 2 50 3 CORE_MESSAGE_QUEUE_DISCIPLINES_PRIORITY n size NULL w0.
Definition q0 : Kernel := match create 3 10 with Some (_, k) => k | None => w0 end.

Lemma w0_sched : sched_ok w0.
Proof.
  assert (same_threads k2 w0) as H by (split; vm_compute; reflexivity).
  apply (same_threads_sched _ _ H k2_ok).
Qed.

Lemma w0_heap : heap_rep (_Workspace_Area w0) 64 1024 CPU_HEAP_ALIGNMENT [(504, false)] [1024].
Proof.
  assert (_Workspace_Area w0 = (_Heap_Initialize (zero_words 128 1024 ∅) 64 1024 512 CPU_HEAP_ALIGNMENT).2) as ->
    by (vm_compute; reflexivity).
  apply (heap_initialize_rep (zero_words 128 1024 ∅) 64 1024 512 CPU_HEAP_ALIGNMENT); try (vm_compute; congruence).
  left. lia.
Qed.

Lemma created : _CORE_message_queue_Initialize 64 2 50 3 CORE_MESSAGE_QUEUE_DISCIPLINES_PRIORITY 3 10 NULL w0 = Some (true, q0).
Proof. vm_compute. reflexivity. Qed.

Lemma q0_mq : mq q0 50 = {| maximum_pending_messages := 3; number_of_pending_messages := 0; maximum_message_size := 10;
    Pending_messages := []; message_buffers := 1440; notify_handler := NULL; notify_argument := NULL;
    Inactive_messages := [1440; 1468; 1496] |}.
Proof. vm_compute. reflexivity. Qed.

Lemma q0_ok : msgq_ok 50 q0 /\ messages q0 50 = [] /\ tq_list q0 50 = [].
Proof.
  pose proof created as E. pose proof q0_mq as EQ. pose proof w0_sched as HS.
  generalize dependent q0. generalize dependent w0. intros k HS k' E EQ.
  assert (message_buffers (mq k' 50) = 1440) as EB by (by rewrite EQ).
  destruct (fresh_mq 64 2 50 3 CORE_MESSAGE_QUEUE_DISCIPLINES_PRIORITY 3 10 NULL k HS 1440 k' E EB) as (_ & EL & _).
  destruct (fresh_ok 64 2 50 3 CORE_MESSAGE_QUEUE_DISCIPLINES_PRIORITY 3 10 NULL k HS ltac:(by split) ltac:(by split)
    1440 k' ltac:(done) ltac:(vm_compute; discriminate) E EB) as [A B]. done.
Qed.

Lemma q0_clear a n : a + n <= 1000 -> clear_of 50 q0 a n.
Proof.
  pose proof q0_mq as EQ. generalize dependent q0. intros k EQ H b Hb. unfold pool, span in *. rewrite EQ in *.
  left. unfold Contents_size. assert (1440 <= b); [|lia]. revert b Hb. apply Forall_forall. by repeat constructor.
Qed.
End MsgExample.

Lemma message_queue_initialize_witness : exists k' : Kernel,
  _CORE_message_queue_Initialize 64 2 50 3 CORE_MESSAGE_QUEUE_DISCIPLINES_PRIORITY 3 10 NULL MsgExample.w0 = Some (true, k') /\
  msgq_ok 50 k' /\ messages k' 50 = [].
Proof.
  destruct (message_queue_initialize_correct 64 2 50 3 CORE_MESSAGE_QUEUE_DISCIPLINES_PRIORITY 3 10 NULL MsgExample.w0
    1024 [(504, false)] [1024] MsgExample.w0_sched MsgExample.w0_heap)
    as [(k' & A & sz & B & fl & E & H1 & H2 & _)|(k' & E & _)]; [by split|by split|done|done|simpl; lia| |].
  - exists k'. split_and!; assumption.
  - exfalso. pose proof MsgExample.created as E'. congruence.
Defined.

(** ** Sending *)

(** [_CORE_message_queue_Submit] on every path: a message over the maximum size is
    refused; the first waiting thread gets the message and its size where it asked for
    them and is unblocked; with nobody waiting a full queue refuses, and otherwise the
    message goes to the back of the queue (to the front when urgent).  The queue stays
    well formed. *)
Theorem message_submit_correct node mp q buffer size id submit_type k :
  msgq_ok q k -> 0 <= size -> clear_of q k buffer size ->
  (forall u, u ∈ tq_list k q -> receiver_ok k u buffer size /\ _Objects_Is_local_id node (Object_id (tcb k u)) = true) ->
  let (status, k') := _CORE_message_queue_Submit node mp q buffer size id submit_type k in
  msgq_ok q k' /\
  if maximum_message_size (mq k q) <? size then status = CORE_MESSAGE_QUEUE_STATUS_INVALID_SIZE /\ k' = k
  else match tq_list k q with
  | u :: rest =>
      status = CORE_MESSAGE_QUEUE_STATUS_SUCCESSFUL /\ tq_list k' q = rest /\ mq k' q = mq k q /\
      bytes (memory k') (Wait_return_argument (Wait (tcb k u))) size = bytes (memory k) buffer size /\
      ld32 (memory k') (Wait_return_argument_1 (Wait (tcb k u))) = size /\
      forall v, but_block2n (tcb k' v) = but_block2n (if decide (v = u) then unblocked (tcb k u) else tcb k v)
  | [] =>
      if Z.of_nat (length (messages k q)) =? maximum_pending_messages (mq k q)
      then status = CORE_MESSAGE_QUEUE_STATUS_TOO_MANY /\ k' = k
      else status = CORE_MESSAGE_QUEUE_STATUS_SUCCESSFUL /\ same_threads k k' /\
           messages k' q = match submit_type with
                           | CORE_MESSAGE_QUEUE_SEND_REQUEST => messages k q ++ [bytes (memory k) buffer size]
                           | CORE_MESSAGE_QUEUE_URGENT_REQUEST => bytes (memory k) buffer size :: messages k q
                           end
  end.
Proof.
  intros HO Hs Hc Hr. destruct (_CORE_message_queue_Submit _ _ _ _ _ _ _ _) as [status k'] eqn:E.
  destruct (Z.ltb_spec (maximum_message_size (mq k q)) size) as [Hlt|Hle].
  { unfold _CORE_message_queue_Submit in E. rewrite (proj2 (Z.ltb_lt _ _) Hlt) in E. by simplify_eq. }
  assert (Z.of_nat (length (messages k q)) = number_of_pending_messages (mq k q)) as EN
    by (unfold messages; by rewrite length_map, (bo_count _ _ (ms_buffers _ _ HO))).
  rewrite EN. destruct (tq_list k q) as [|u rest] eqn:EL.
  - destruct (Z.eqb_spec (number_of_pending_messages (mq k q)) (maximum_pending_messages (mq k q))) as [Ee|Ene].
    + rewrite (submit_refused node mp q buffer size id submit_type k HO (conj Hs Hle) EL Ee) in E. by simplify_eq.
    + destruct (submit_stores node mp q buffer size id submit_type k HO (conj Hs Hle) EL Ene Hc) as (a & rest & EI & ES & HO').
      rewrite E in ES, HO'. simplify_eq ES. intros -> ->. split_and!; [exact HO'|done|by apply stored_threads|].
      apply stored_messages; [apply HO|done|done|exact EI].
  - destruct (Hr u ltac:(left)) as [R1 R2].
    destruct (submit_delivers node mp q buffer size id submit_type k HO (conj Hs Hle) u rest EL R1 R2)
      as (X1 & X2 & X3 & X4 & X5 & X6 & _ & X7). rewrite E in *. simpl in *. by split_and!.
Qed.

Lemma message_submit_witness :
  let (status, k') := _CORE_message_queue_Submit 0 (fun _ _ k => k) 50 500 3 7 CORE_MESSAGE_QUEUE_SEND_REQUEST MsgExample.q0 in
  status = CORE_MESSAGE_QUEUE_STATUS_SUCCESSFUL /\ messages k' 50 = [[11; 12; 13]].
Proof.
  destruct MsgExample.q0_ok as (A & B & C). pose proof MsgExample.q0_mq as EQ.
  pose proof (MsgExample.q0_clear 500 3 ltac:(done)) as HC.
  assert (bytes (memory MsgExample.q0) 500 3 = [11; 12; 13]) as EB by (vm_compute; reflexivity).
  set (k := MsgExample.q0) in *. clearbody k.
  pose proof (message_submit_correct 0 (fun _ _ k => k) 50 500 3 7 CORE_MESSAGE_QUEUE_SEND_REQUEST k A ltac:(done) HC) as H.
  destruct (_CORE_message_queue_Submit _ _ _ _ _ _ _ _) as [status k'].
  rewrite B, C, EQ, EB in H. simpl in H.
  destruct H as (_ & H1 & _ & H2); [by intros u Hu%elem_of_nil|]. exact (conj H1 H2).
Defined.

(** ** Receiving *)

(** [_CORE_message_queue_Seize] on every path: the first pending message is copied
    to the caller with its size, and its buffer is free again; with none pending, a
    caller that will not wait is told so, and one that will is blocked on the queue in
    its place, with the destination of the message noted.  It ends, and the queue stays
    well formed. *)
Theorem message_seize_correct routine wfuel fuel q id buffer size wait timeout k :
  let t := _Thread_Executing k in
  msgq_ok q k -> can_wait q k -> timer_free wfuel t timeout k -> t <> NULL -> (length (tq_list k q) < fuel)%nat ->
  clear_of q k size 4 -> clear_of q k buffer (maximum_message_size (mq k q)) ->
  apart size 4 buffer (maximum_message_size (mq k q)) ->
  exists k', _CORE_message_queue_Seize routine wfuel Datatypes.id fuel [] Datatypes.id q id buffer size wait timeout k = Some k' /\
    msgq_ok q k' /\
    match messages k q with
    | message :: rest =>
        messages k' q = rest /\ tq_list k' q = [] /\
        ld32 (memory k') size = Z.of_nat (length message) /\
        bytes (memory k') buffer (ld32 (memory k') size) = message /\
        Wait_return_code (Wait (tcb k' t)) = CORE_MESSAGE_QUEUE_STATUS_SUCCESSFUL
    | [] =>
        messages k' q = [] /\ memory k' = memory k /\
        if negb wait then
          tq_list k' q = tq_list k q /\ Wait_return_code (Wait (tcb k' t)) = CORE_MESSAGE_QUEUE_STATUS_UNSATISFIED_NOWAIT
        else
          tq_list k' q = joined k q t /\ current_state (tcb k' t) = STATES_WAITING_FOR_MESSAGE /\
          Wait_return_argument (Wait (tcb k' t)) = buffer /\ Wait_return_argument_1 (Wait (tcb k' t)) = size
    end.
Proof.
  intros t HO HW HT Hn Hf C1 C2 C3. unfold messages at 1. destruct (Pending_messages (mq k q)) as [|a rest] eqn:EP; cbn [map].
  - destruct wait; cbn [negb].
    + destruct (msg_seize_waits routine wfuel fuel q id buffer size timeout k HO EP HW HT Hn Hf)
        as (k' & E & A & B & C & D & F & G & H & _).
      exists k'. unfold messages. rewrite B, EP. by split_and!.
    + destruct (msg_seize_refused routine wfuel fuel q id buffer size timeout k HO EP) as (k' & E & A & B & C & D & F).
      exists k'. rewrite F, decide_True by done. unfold messages. rewrite C, EP. by split_and!.
  - set (k' := received q buffer size k a rest). destruct (size_bounds q k HO a rest EP) as [Hz _].
    pose proof (received_size q buffer size k HO a rest EP C1 C2 C3) as ES. fold k' in ES.
    exists k'. rewrite ES. split_and!.
    + by apply seize_received.
    + by apply received_ok.
    + by apply received_messages.
    + pose proof (ms_idle _ _ HO ltac:(by rewrite EP)) as EL. rewrite <- EL.
      exact (proj2 (msgq_status q k HO CORE_MESSAGE_QUEUE_STATUS_SUCCESSFUL)).
    + unfold message. rewrite bytes_length; [done|lia].
    + by apply received_bytes.
    + change (tcb k' t) with (tcb (upd_wait t (set_Wait_return_code CORE_MESSAGE_QUEUE_STATUS_SUCCESSFUL) k) t).
      by rewrite code_tcb, decide_True.
Qed.

Module MsgWaiting.
Import MsgExample.
Lemma q0_wait : can_wait 50 q0 /\ timer_free 5 (_Thread_Executing q0) 9 q0 /\ _Thread_Executing q0 = 200.
Proof.
  destruct q0_ok as (A & _ & C).
  assert (_Thread_Executing q0 = 200 /\ _Thread_Idle q0 = 100) as [E1 E4] by (split; vm_compute; reflexivity).
  assert (is_ready q0 200) as E3 by (vm_compute; reflexivity).
  assert (watchdogs q0 = ThreadExample.no_watchdogs) as EW by (vm_compute; reflexivity).
  set (k := q0) in *. clearbody k. rewrite E1. split_and!; [|right|done].
  - split; rewrite ?E1, ?E4, ?C, ?(ms_state _ _ A); [apply A|apply A|apply not_elem_of_nil|exact E3|done|done].
  - rewrite EW. split_and!; [exact ThreadqExample.no_watchdogs_ok|vm_compute; intros [?|?]; discriminate
      |split; [lia|reflexivity]|vm_compute; lia].
Qed.

(** The thread at 200 waits for a message into 510, and for its size at 600. *)
Definition q1 : Kernel := default q0 (_CORE_message_queue_Seize 1 5 id 5 [] id 50 7 510 600 true 9 q0).

Lemma q1_ok : msgq_ok 50 q1 /\ tq_list q1 50 = [200] /\ maximum_message_size (mq q1 50) = 10.
Proof.
  destruct q0_ok as (A & B & C). pose proof q0_mq as EQ. destruct q0_wait as (W1 & W2 & W3).
  assert (joined q0 50 (_Thread_Executing q0) = [200]) as EJ by (vm_compute; reflexivity). unfold q1.
  set (k := q0) in *. clearbody k.
  destruct (msg_seize_waits 1 5 5 50 7 510 600 9 k A ltac:(by rewrite EQ) W1 W2) as (k' & E & HO & EM & _ & EL & _);
    [rewrite W3; done|rewrite C; simpl; lia|].
  unfold id in *. rewrite E. cbn [default]. rewrite EM, EL, EJ, EQ. done.
Qed.
End MsgWaiting.

Lemma message_seize_witness :
  exists k', _CORE_message_queue_Seize 1 5 Datatypes.id 5 [] Datatypes.id 50 7 510 600 true 9 MsgExample.q0 = Some k' /\
    tq_list k' 50 = [200].
Proof.
  destruct MsgExample.q0_ok as (A & B & C). pose proof MsgExample.q0_mq as EQ. destruct MsgWaiting.q0_wait as (W1 & W2 & W3).
  pose proof (MsgExample.q0_clear 600 4 ltac:(done)) as H1. pose proof (MsgExample.q0_clear 510 10 ltac:(done)) as H2.
  assert (joined MsgExample.q0 50 200 = [200]) as E2 by (vm_compute; reflexivity).
  set (k := MsgExample.q0) in *. clearbody k.
  destruct (message_seize_correct 1 5 5 50 7 510 600 true 9 k A W1 W2) as (k' & E & _ & X).
  - rewrite W3. done.
  - rewrite C. simpl. lia.
  - exact H1.
  - rewrite EQ. exact H2.
  - rewrite EQ. right. vm_compute. discriminate.
  - exists k'. rewrite B, W3, E2 in X. cbn [negb] in X. destruct X as (_ & _ & X1 & _). by split_and!.
Defined.

(** ** Flushing *)

(** [_CORE_message_queue_Flush] returns the number of pending messages and leaves
    none; the buffers are all inactive, the waiting threads wait on, and the queue stays
    well formed.  The links that [_CORE_message_queue_Flush_support] sets by hand are
    those of the two chains that result. *)
Theorem message_flush_correct q k :
  msgq_ok q k ->
  let (count, k') := _CORE_message_queue_Flush q k in
  count = Z.of_nat (length (messages k q)) /\ messages k' q = [] /\ msgq_ok q k' /\ same_threads k k' /\
  Inactive_messages (mq k' q) ≡ₚ pool k q /\
  forall m inactive pending, messages k q <> [] ->
    chain_rep m inactive (Inactive_messages (mq k q)) -> chain_rep m pending (Pending_messages (mq k q)) ->
    NoDup (chain_words inactive (Inactive_messages (mq k q)) ++ chain_words pending (Pending_messages (mq k q))) ->
    chain_rep (flush_links m inactive pending) inactive (Inactive_messages (mq k' q)) /\
    chain_rep (flush_links m inactive pending) pending (Pending_messages (mq k' q)).
Proof.
  intros HO. pose proof (ms_buffers _ _ HO) as [A B C D E F G]. unfold _CORE_message_queue_Flush, messages, pool in *.
  rewrite A, length_map. destruct (Pending_messages (mq k q)) as [|a rest] eqn:EP.
  - simpl. rewrite EP. by split_and!.
  - destruct (Z.eqb_spec (Z.of_nat (length (a :: rest))) 0) as [|_]; [simpl in *; lia|]. cbn [negb].
    unfold _CORE_message_queue_Flush_support. rewrite A.
    set (k' := upd_mq _ _ k).
    assert (mq k' q = set_number_of_pending 0 (set_Pending_messages [] (set_Inactive_messages ((a :: rest) ++ Inactive_messages (mq k q)) (mq k q)))) as EM
      by (unfold k'; by rewrite mq_upd, EP).
    rewrite EM. split; [done|]. split; [done|]. split; [|split; [by split|split; [done|]]].
    + apply (same_threads_msgq q k); [by split|done| |by rewrite EM]. split; unfold pool, span; rewrite ?EM; try done.
      cbn [Pending_messages set_number_of_pending set_Pending_messages]. intros b Hb. by apply elem_of_nil in Hb.
    + intros m ci cp _ H1 H2 H3. by apply flush_links_rep.
Qed.

Lemma message_flush_witness :
  let k := (_CORE_message_queue_Submit 0 (fun _ _ k => k) 50 500 3 7 CORE_MESSAGE_QUEUE_SEND_REQUEST MsgExample.q0).2 in
  (_CORE_message_queue_Flush 50 k).1 = 1.
Proof.
  destruct MsgExample.q0_ok as (A & B & C). pose proof MsgExample.q0_mq as EQ.
  pose proof (MsgExample.q0_clear 500 3 ltac:(done)) as HC.
  set (k := MsgExample.q0) in *. clearbody k.
  destruct (submit_stores 0 (fun _ _ k => k) 50 500 3 7 CORE_MESSAGE_QUEUE_SEND_REQUEST k A ltac:(rewrite EQ; done) C
    ltac:(rewrite EQ; done) HC) as (a & rest & EI & ES & HO). cbn zeta.
  pose proof (message_flush_correct 50 _ HO) as H. rewrite ES in H |- *. cbn [snd] in *.
  destruct (_CORE_message_queue_Flush 50 _) as [count k']. destruct H as (-> & _). cbn [fst].
  rewrite stored_messages; [|apply A|rewrite EQ; done|exact HC|exact EI]. rewrite B. done.
Defined.

(** ** Broadcasting *)

(** [_CORE_message_queue_Broadcast] of a message longer than the maximum copies only
    the maximum to the waiting thread, but tells it the full length. *)
Theorem message_broadcast_overstates_size node mp fuel q buffer size id k u :
  msgq_ok q k -> tq_list k q = [u] -> (2 <= fuel)%nat -> maximum_message_size (mq k q) < size -> u32 size ->
  receiver_ok k u buffer (maximum_message_size (mq k q)) ->
  _Objects_Is_local_id node (Object_id (tcb k u)) = true ->
  let maximum := maximum_message_size (mq k q) in
  let arg := Wait_return_argument (Wait (tcb k u)) in
  let arg1 := Wait_return_argument_1 (Wait (tcb k u)) in
  exists k', _CORE_message_queue_Broadcast node mp fuel q buffer size id k =
      Some (CORE_MESSAGE_QUEUE_STATUS_SUCCESSFUL, 1, k') /\ tq_list k' q = [] /\
    bytes (memory k') arg maximum = bytes (memory k) buffer maximum /\
    (forall i, arg + maximum <= i -> i < arg1 \/ arg1 + 4 <= i -> ld (memory k') i = ld (memory k) i) /\
    ld32 (memory k') arg1 = size.
Proof.
  intros HO EL Hf Hlt Hs Hr Hl maximum arg arg1.
  destruct (broadcast_one node mp fuel q buffer size id k u HO EL Hf Hlt Hs Hr Hl) as (k' & E & EL' & EM).
  fold maximum arg arg1 in EM. destruct Hr as [R1 R2]. fold maximum arg arg1 in R1, R2.
  destruct (bo_maximum _ _ (ms_buffers _ _ HO)) as [_ Hm]. fold maximum in Hm. unfold u32 in Hm.
  exists k'. rewrite EM. split_and!; try done.
  - rewrite <- (bytes_memcpy maximum (memory k) arg buffer) by (done || lia). by apply agrees_bytes, agrees_st32.
  - intros i Hi Hi'. rewrite ld_st32 by lia. rewrite ld_memcpy by (rewrite Z2Nat.id by lia; exact R1).
    rewrite decide_False; [done|lia].
  - by apply ld32_st32.
Qed.

Lemma message_broadcast_witness :
  exists k', _CORE_message_queue_Broadcast 0 (fun _ _ k => k) 5 50 500 12 7 MsgWaiting.q1 =
    Some (CORE_MESSAGE_QUEUE_STATUS_SUCCESSFUL, 1, k') /\ ld32 (memory k') 600 = 12.
Proof.
  destruct MsgWaiting.q1_ok as (A & B & C).
  assert (Wait_return_argument (Wait (tcb MsgWaiting.q1 200)) = 510) as E1 by (vm_compute; reflexivity).
  assert (Wait_return_argument_1 (Wait (tcb MsgWaiting.q1 200)) = 600) as E2 by (vm_compute; reflexivity).
  assert (_Objects_Is_local_id 0 (Object_id (tcb MsgWaiting.q1 200)) = true) as E3 by (vm_compute; reflexivity).
  set (k := MsgWaiting.q1) in *. clearbody k.
  destruct (message_broadcast_overstates_size 0 (fun _ _ k => k) 5 50 500 12 7 k 200 A B ltac:(lia)) as (k' & E & _ & _ & _ & X).
  - rewrite C. done.
  - by split.
  - unfold receiver_ok. rewrite C, E1, E2. split; [right|right]; vm_compute; discriminate.
  - exact E3.
  - exists k'. rewrite E2 in X. done.
Defined.

(** The sizes that [_CORE_message_queue_Initialize] computes wrap around: with a
    maximum message size of 4294967293 bytes the rounded size is 0 and creation of a
    queue of two messages succeeds, with its buffers 16 bytes apart. *)
Theorem message_buffering_overflow :
  allocated_message_size 4294967293 = 0 /\ message_buffering_required 268435456 0 = 0 /\
  exists k', MsgExample.create 2 4294967293 = Some (true, k') /\
    maximum_message_size (mq k' 50) = 4294967293 /\ Inactive_messages (mq k' 50) = [1496; 1512].
Proof.
  assert (exists k', MsgExample.create 2 4294967293 = Some (true, k')) as (k' & E)
    by (eexists; vm_compute; reflexivity).
  split_and!; [vm_compute; reflexivity..|]. exists k'. split; [exact E|].
  assert (match MsgExample.create 2 4294967293 with Some (_, k') =>
    maximum_message_size (mq k' 50) = 4294967293 /\ Inactive_messages (mq k' 50) = [1496; 1512] | None => False end) as H
    by (vm_compute; split; reflexivity).
  rewrite E in H. exact H.
Qed.

(** ** A bounded queue of byte strings

    The abstract queue of at most [capacity] messages of at most [largest] bytes. *)
Inductive queue_command : Type :=
| QSend (urgent : bool) (m : list Z)
| QReceive.
Inductive queue_result : Type :=
| QStatus (status : Z)
| QMessage (m : option (list Z)).

Section Abstract.
Context (capacity largest : Z).

Definition queue_step (c : queue_command) (l : list (list Z)) : queue_result * list (list Z) :=
  match c, l with
  | QSend urgent m, _ =>
      if largest <? Z.of_nat (length m) then (QStatus CORE_MESSAGE_QUEUE_STATUS_INVALID_SIZE, l)
      else if Z.of_nat (length l) =? capacity then (QStatus CORE_MESSAGE_QUEUE_STATUS_TOO_MANY, l)
      else (QStatus CORE_MESSAGE_QUEUE_STATUS_SUCCESSFUL, if urgent then m :: l else l ++ [m])
  | QReceive, [] => (QMessage None, [])
  | QReceive, m :: l => (QMessage (Some m), l)
  end.

Fixpoint queue_run (cs : list queue_command) (l : list (list Z)) : list queue_result * list (list Z) :=
  match cs with
  | [] => ([], l)
  | c :: cs => let (r, l) := queue_step c l in let (rs, l) := queue_run cs l in (r :: rs, l)
  end.
End Abstract.

(** Calls of the handler that do not wait, with what the abstract queue sees of them. *)
Inductive msg_call : Type :=
| MSubmit (submit_type : CORE_message_queue_Submit_types) (buffer size : Z)
| MSeize (buffer size : Z).

Section Calls.
Context (node : Z) (mp : Z -> Z -> Kernel -> Kernel) (routine : Z) (wfuel fuel : nat) (q id : Z).

Definition is_urgent (ty : CORE_message_queue_Submit_types) : bool :=
  match ty with CORE_MESSAGE_QUEUE_URGENT_REQUEST => true | _ => false end.

Definition msg_step (c : msg_call) (k : Kernel) : option (queue_command * queue_result * Kernel) :=
  match c with
  | MSubmit ty buffer size =>
      let (status, k') := _CORE_message_queue_Submit node mp q buffer size id ty k in
      Some (QSend (is_urgent ty) (bytes (memory k) buffer size), QStatus status, k')
  | MSeize buffer size =>
      match _CORE_message_queue_Seize routine wfuel Datatypes.id fuel [] Datatypes.id q id buffer size false 0 k with
      | None => None
      | Some k' =>
          Some (QReceive, QMessage (if Wait_return_code (Wait (tcb k' (_Thread_Executing k'))) =? CORE_MESSAGE_QUEUE_STATUS_SUCCESSFUL
            then Some (bytes (memory k') buffer (ld32 (memory k') size)) else None), k')
      end
  end.

Fixpoint msg_run (cs : list msg_call) (k : Kernel) : option (list (queue_command * queue_result) * Kernel) :=
  match cs with
  | [] => Some ([], k)
  | c :: cs =>
      match msg_step c k with
      | None => None
      | Some (e, r, k) =>
          match msg_run cs k with
          | None => None
          | Some (tr, k) => Some ((e, r) :: tr, k)
          end
      end
  end.

(** The memory of the callers is none of the queue's, and the two areas of a receiver are
    apart. *)
Definition call_ok (k : Kernel) (c : msg_call) : Prop :=
  match c with
  | MSubmit _ buffer size => 0 <= size /\ clear_of q k buffer size
  | MSeize buffer size => clear_of q k size 4 /\ clear_of q k buffer (maximum_message_size (mq k q)) /\
      apart size 4 buffer (maximum_message_size (mq k q))
  end.

Record same_store (k k' : Kernel) : Prop := {
  ss_pool : pool k' q ≡ₚ pool k q;
  ss_size : maximum_message_size (mq k' q) = maximum_message_size (mq k q);
  ss_capacity : maximum_pending_messages (mq k' q) = maximum_pending_messages (mq k q)
}.
#[local] Instance same_store_preorder : PreOrder same_store.
Proof. split; [done|]. intros k k' k'' [] []. split; [by etrans|congruence..]. Qed.

Lemma call_ok_same k k' c : same_store k k' -> call_ok k c -> call_ok k' c.
Proof using.
  intros [H1 H2 H3]. assert (forall a n, clear_of q k a n -> clear_of q k' a n) as HC.
  { intros a n H b Hb. unfold span. rewrite H2. apply H. by rewrite <- H1. }
  destruct c; simpl; rewrite ?H2; [intros [A B]; auto|intros (A & B & C); auto].
Qed.

Lemma submit_refines ty buffer size k : msgq_ok q k -> tq_list k q = [] -> call_ok k (MSubmit ty buffer size) ->
  exists r k', msg_step (MSubmit ty buffer size) k = Some (QSend (is_urgent ty) (bytes (memory k) buffer size), r, k') /\
    queue_step (maximum_pending_messages (mq k q)) (maximum_message_size (mq k q))
      (QSend (is_urgent ty) (bytes (memory k) buffer size)) (messages k q) = (r, messages k' q) /\
    msgq_ok q k' /\ tq_list k' q = [] /\ same_store k k'.
Proof using.
  intros HO EL [Hs Hc]. cbn [msg_step queue_step]. rewrite bytes_length by done.
  assert (Z.of_nat (length (messages k q)) = number_of_pending_messages (mq k q)) as EN
    by (unfold messages; by rewrite length_map, (bo_count _ _ (ms_buffers _ _ HO))).
  rewrite EN. destruct (Z.ltb_spec (maximum_message_size (mq k q)) size) as [Hlt|Hle].
  { unfold _CORE_message_queue_Submit. rewrite (proj2 (Z.ltb_lt _ _) Hlt). by eexists _, k. }
  destruct (Z.eqb_spec (number_of_pending_messages (mq k q)) (maximum_pending_messages (mq k q))) as [Ee|Ene].
  { rewrite (submit_refused node mp q buffer size id ty k HO (conj Hs Hle) EL Ee). by eexists _, k. }
  destruct (submit_stores node mp q buffer size id ty k HO (conj Hs Hle) EL Ene Hc) as (a & rest & EI & ES & HO').
  rewrite ES in *. pose proof (ms_buffers _ _ HO) as HB. eexists _, _. split; [reflexivity|].
  rewrite stored_messages by done. split; [by destruct ty|]. split; [exact HO'|]. split.
  - by rewrite (same_threads_list k _ q (stored_threads _ _ _ _ _ _ _)).
  - split; [by apply stored_pool|by rewrite stored_mq..].
Qed.

Lemma seize_refines buffer size k : msgq_ok q k -> tq_list k q = [] -> call_ok k (MSeize buffer size) ->
  exists r k', msg_step (MSeize buffer size) k = Some (QReceive, r, k') /\
    queue_step (maximum_pending_messages (mq k q)) (maximum_message_size (mq k q)) QReceive (messages k q) = (r, messages k' q) /\
    msgq_ok q k' /\ tq_list k' q = [] /\ same_store k k'.
Proof using.
  intros HO EL (C1 & C2 & C3). cbn [msg_step]. unfold messages at 1.
  destruct (Pending_messages (mq k q)) as [|a rest] eqn:EP; cbn [map queue_step].
  - destruct (msg_seize_refused routine wfuel fuel q id buffer size 0 k HO EP) as (k' & E & A & B & C & D & F).
    assert (_Thread_Executing k' = _Thread_Executing k) as EX.
    { revert E. unfold _CORE_message_queue_Seize. cbn zeta. change (mq (upd_wait _ _ k) q) with (mq k q).
      rewrite (no_message q k HO EP). cbn [negb]. by intros [= <-]. }
    rewrite E. eexists _, k'. split; [reflexivity|]. rewrite EX, F, decide_True by done. split.
    + unfold messages. by rewrite C, EP.
    + split; [exact A|]. split; [congruence|]. split; [unfold pool|..]; by rewrite C.
  - rewrite (seize_received routine wfuel fuel q id buffer size 0 k HO a rest EP).
    pose proof (received_pool q buffer size k HO a rest EP) as HP.
    pose proof (received_mq q buffer size k HO a rest EP) as EM.
    pose proof (received_size q buffer size k HO a rest EP C1 C2 C3) as ES.
    pose proof (received_ok q buffer size k HO a rest EP C1 C2 C3) as HR.
    pose proof (received_messages q buffer size k HO a rest EP C1 C2 C3) as ER.
    pose proof (received_bytes q buffer size k HO a rest EP C1 C2 C3) as EB.
    assert (Wait_return_code (Wait (tcb (received q buffer size k a rest) (_Thread_Executing (received q buffer size k a rest))))
      = CORE_MESSAGE_QUEUE_STATUS_SUCCESSFUL) as EC.
    { change (tcb (received q buffer size k a rest) ?x) with
        (tcb (upd_wait (_Thread_Executing k) (set_Wait_return_code CORE_MESSAGE_QUEUE_STATUS_SUCCESSFUL) k) x).
      change (_Thread_Executing (received q buffer size k a rest)) with (_Thread_Executing k).
      by rewrite code_tcb, decide_True. }
    assert (tq_list (received q buffer size k a rest) q = []) as EL'.
    { rewrite <- EL. exact (proj2 (msgq_status q k HO CORE_MESSAGE_QUEUE_STATUS_SUCCESSFUL)). }
    eexists _, _. split; [reflexivity|]. rewrite EC, Z.eqb_refl, ES, EB, ER. split; [done|]. split; [done|]. split; [done|].
    split; [done|by rewrite EM..].
Qed.
End Calls.

(** C15: any sequence of sends, urgent sends and receives that do not wait, on a queue
    that no thread waits on, terminates and is a run of the abstract bounded queue: each
    call has the abstract result (refusals of long messages and of a full queue, the
    message received) and the pending messages are the abstract contents at the end. *)
Theorem message_queue_refines_bounded_queue node mp routine wfuel fuel q id cs k :
  msgq_ok q k -> tq_list k q = [] -> Forall (call_ok q k) cs ->
  exists tr k', msg_run node mp routine wfuel fuel q id cs k = Some (tr, k') /\ msgq_ok q k' /\ tq_list k' q = [] /\
    queue_run (maximum_pending_messages (mq k q)) (maximum_message_size (mq k q)) (map fst tr) (messages k q) =
      (map snd tr, messages k' q).
Proof.
  revert k. induction cs as [|c cs IH]; intros k HO EL HF; [by exists [], k|].
  apply Forall_cons in HF as [HC HF].
  assert (exists e r k1, msg_step node mp routine wfuel fuel q id c k = Some (e, r, k1) /\
    queue_step (maximum_pending_messages (mq k q)) (maximum_message_size (mq k q)) e (messages k q) = (r, messages k1 q) /\
    msgq_ok q k1 /\ tq_list k1 q = [] /\ same_store q k k1) as (e & r & k1 & E1 & E2 & HO1 & EL1 & HS).
  { destruct c as [ty buffer size|buffer size].
    - eexists. by apply submit_refines.
    - eexists. by apply seize_refines. }
  destruct (IH k1 HO1 EL1) as (tr & k' & E3 & HO' & EL' & E4).
  { eapply Forall_impl; [exact HF|]. intros c' Hc'. by eapply call_ok_same. }
  exists ((e, r) :: tr), k'. cbn [msg_run]. rewrite E1, E3. split_and!; [done..|]. cbn [map fst snd queue_run].
  rewrite E2, <- (ss_capacity _ _ _ HS), <- (ss_size _ _ _ HS), E4. done.
Qed.

(** Two sends, the second urgent, and three receives. *)
Lemma message_queue_refines_witness : exists tr k',
  msg_run 0 (fun _ _ k => k) 1 5 5 50 7 [MSubmit CORE_MESSAGE_QUEUE_SEND_REQUEST 500 2; MSubmit CORE_MESSAGE_QUEUE_URGENT_REQUEST 501 2;
    MSeize 520 600; MSeize 540 600; MSeize 540 600] MsgExample.q0 = Some (tr, k') /\
  map snd tr = [QStatus 0; QStatus 0; QMessage (Some [12; 13]); QMessage (Some [11; 12]); QMessage None] /\
  messages k' 50 = [].
Proof.
  destruct MsgExample.q0_ok as (A & B & C). pose proof MsgExample.q0_mq as EQ.
  destruct (message_queue_refines_bounded_queue 0 (fun _ _ k => k) 1 5 5 50 7
    [MSubmit CORE_MESSAGE_QUEUE_SEND_REQUEST 500 2; MSubmit CORE_MESSAGE_QUEUE_URGENT_REQUEST 501 2;
    MSeize 520 600; MSeize 540 600; MSeize 540 600] MsgExample.q0 A C) as (tr & k' & E & _ & _ & X).
  - pose proof MsgExample.q0_clear as HC. set (k := MsgExample.q0) in *. clearbody k.
    repeat first [apply Forall_nil_2 | apply Forall_cons_2]; simpl; rewrite ?EQ; split_and!;
      first [apply HC; vm_compute; discriminate | right; vm_compute; discriminate | vm_compute; discriminate].
  - assert (match msg_run 0 (fun _ _ k => k) 1 5 5 50 7 [MSubmit CORE_MESSAGE_QUEUE_SEND_REQUEST 500 2;
      MSubmit CORE_MESSAGE_QUEUE_URGENT_REQUEST 501 2; MSeize 520 600; MSeize 540 600; MSeize 540 600] MsgExample.q0 with
      Some (tr, k') => map snd tr = [QStatus 0; QStatus 0; QMessage (Some [12; 13]); QMessage (Some [11; 12]); QMessage None] /\
        messages k' 50 = [] | None => False end) as H by (vm_compute; split; reflexivity).
    rewrite E in H. exists tr, k'. exact (conj E H).
Defined.
