(* ===== verification/Rtems.v ===== *)
(** * The common part of the RTEMS API (rtems/headers, rtems/inline)

    Status codes, options, attributes and modes, access to the API part of a thread, and
    event sets. *)
From S2P Require Import Prelude Chain Watchdog Object Priority ApiTypes Kernel Thread Workspace CoreMsg.

(** ** Status codes (status.h) *)

Definition RTEMS_SUCCESSFUL : Z := 0.
Definition RTEMS_TASK_EXITTED : Z := 1.
Definition RTEMS_MP_NOT_CONFIGURED : Z := 2.
Definition RTEMS_INVALID_NAME : Z := 3.
Definition RTEMS_INVALID_ID : Z := 4.
Definition RTEMS_TOO_MANY : Z := 5.
Definition RTEMS_TIMEOUT : Z := 6.
Definition RTEMS_OBJECT_WAS_DELETED : Z := 7.
Definition RTEMS_INVALID_SIZE : Z := 8.
Definition RTEMS_INVALID_ADDRESS : Z := 9.
Definition RTEMS_INVALID_NUMBER : Z := 10.
Definition RTEMS_NOT_DEFINED : Z := 11.
Definition RTEMS_RESOURCE_IN_USE : Z := 12.
Definition RTEMS_UNSATISFIED : Z := 13.
Definition RTEMS_INCORRECT_STATE : Z := 14.
Definition RTEMS_ALREADY_SUSPENDED : Z := 15.
Definition RTEMS_ILLEGAL_ON_SELF : Z := 16.
Definition RTEMS_ILLEGAL_ON_REMOTE_OBJECT : Z := 17.
Definition RTEMS_CALLED_FROM_ISR : Z := 18.
Definition RTEMS_INVALID_PRIORITY : Z := 19.
Definition RTEMS_INVALID_CLOCK : Z := 20.
Definition RTEMS_INVALID_NODE : Z := 21.
Definition RTEMS_NOT_CONFIGURED : Z := 22.
Definition RTEMS_NOT_OWNER_OF_RESOURCE : Z := 23.
Definition RTEMS_NOT_IMPLEMENTED : Z := 24.
Definition RTEMS_INTERNAL_ERROR : Z := 25.
Definition RTEMS_NO_MEMORY : Z := 26.
Definition RTEMS_IO_ERROR : Z := 27.
Definition RTEMS_PROXY_BLOCKING : Z := 28.

Definition _Status_Object_name_errors_to_status (e : Objects_Name_to_id_errors) : Z :=
  match e with
  | OBJECTS_SUCCESSFUL _ => RTEMS_SUCCESSFUL
  | OBJECTS_INVALID_NAME => RTEMS_INVALID_NAME
  | OBJECTS_INVALID_NODE => RTEMS_INVALID_NODE
  end.

Definition rtems_is_name_valid (name : Z) : bool := negb (name =? 0).

(** ** Options (options.h, options.inl) *)

Definition RTEMS_NO_WAIT : Z := 1.
Definition RTEMS_EVENT_ANY : Z := 2.
Definition _Options_Is_no_wait (option_set : Z) : bool := negb (Z.land option_set RTEMS_NO_WAIT =? 0).
Definition _Options_Is_any (option_set : Z) : bool := negb (Z.land option_set RTEMS_EVENT_ANY =? 0).

(** ** Attributes (attr.h, attr.inl) *)

Definition RTEMS_FLOATING_POINT : Z := 1.
Definition RTEMS_GLOBAL : Z := 2.
Definition RTEMS_PRIORITY : Z := 4.
Definition RTEMS_BINARY_SEMAPHORE : Z := 16.
Definition RTEMS_INHERIT_PRIORITY : Z := 32.
Definition RTEMS_PRIORITY_CEILING : Z := 64.
Definition RTEMS_SYSTEM_TASK : Z := 128.
Definition _Attributes_Set (new_attributes attribute_set : Z) : Z := Z.lor attribute_set new_attributes.
Definition _Attributes_Clear (attribute_set mask : Z) : Z := Z.land attribute_set (not32 mask).
Definition _Attributes_Is_floating_point (s : Z) : bool := negb (Z.land s RTEMS_FLOATING_POINT =? 0).
Definition _Attributes_Is_global (s : Z) : bool := negb (Z.land s RTEMS_GLOBAL =? 0).
Definition _Attributes_Is_priority (s : Z) : bool := negb (Z.land s RTEMS_PRIORITY =? 0).
Definition _Attributes_Is_binary_semaphore (s : Z) : bool := negb (Z.land s RTEMS_BINARY_SEMAPHORE =? 0).
Definition _Attributes_Is_inherit_priority (s : Z) : bool := negb (Z.land s RTEMS_INHERIT_PRIORITY =? 0).
Definition _Attributes_Is_priority_ceiling (s : Z) : bool := negb (Z.land s RTEMS_PRIORITY_CEILING =? 0).
Definition _Attributes_Is_system_task (s : Z) : bool := negb (Z.land s RTEMS_PRIORITY_CEILING =? 0).

(** ** Modes (modes.h, modes.inl) *)

Definition RTEMS_ALL_MODE_MASKS : Z := 65535.
Definition RTEMS_DEFAULT_MODES : Z := 0.
Definition RTEMS_PREEMPT_MASK : Z := 256.
Definition RTEMS_TIMESLICE_MASK : Z := 512.
Definition RTEMS_ASR_MASK : Z := 1024.
Definition RTEMS_INTERRUPT_MASK : Z := 15.
Definition RTEMS_PREEMPT : Z := 0.
Definition RTEMS_NO_PREEMPT : Z := 256.
Definition RTEMS_NO_TIMESLICE : Z := 0.
Definition RTEMS_TIMESLICE : Z := 512.
Definition RTEMS_ASR : Z := 0.
Definition RTEMS_NO_ASR : Z := 1024.
Definition _Modes_Mask_changed (mode_set masks : Z) : bool := negb (Z.land mode_set masks =? 0).
Definition _Modes_Is_asr_disabled (mode_set : Z) : bool := Z.land mode_set RTEMS_ASR_MASK =? RTEMS_NO_ASR.
Definition _Modes_Is_preempt (mode_set : Z) : bool := Z.land mode_set RTEMS_PREEMPT_MASK =? RTEMS_PREEMPT.
Definition _Modes_Is_timeslice (mode_set : Z) : bool := Z.land mode_set RTEMS_TIMESLICE_MASK =? RTEMS_TIMESLICE.
Definition _Modes_Get_interrupt_level (mode_set : Z) : Z := Z.land mode_set RTEMS_INTERRUPT_MASK.
Definition _Modes_Change (old_mode_set new_mode_set mask : Z) : Z * Z :=
  let _out_mode := Z.lor (Z.land old_mode_set (not32 mask)) (Z.land new_mode_set mask) in
  (_out_mode, Z.lxor _out_mode old_mode_set).

(** ** Event sets (eventset.h, eventset.inl) *)

Definition EVENT_SETS_NONE_PENDING : Z := 0.
Definition _Event_sets_Is_empty (the_event_set : Z) : bool := the_event_set =? 0.
Definition _Event_sets_Post (the_new_events the_event_set : Z) : Z := Z.lor the_event_set the_new_events.
Definition _Event_sets_Get (the_event_set the_event_condition : Z) : Z := Z.land the_event_set the_event_condition.
Definition _Event_sets_Clear (the_event_set the_mask : Z) : Z := Z.land the_event_set (not32 the_mask).

(** ** The state *)

Definition upd_rtems (f : RTEMS_State -> RTEMS_State) (k : Kernel) : Kernel := set_rtems (f (rtems k)) k.
(** [the_thread->API_Extensions[ THREAD_API_RTEMS ]]. *)
Definition api (k : Kernel) (the_thread : Z) : RTEMS_API_Control :=
  apis (rtems k) !!! API_Extensions_RTEMS (tcb k the_thread).
Definition upd_api (the_thread : Z) (f : RTEMS_API_Control -> RTEMS_API_Control) (k : Kernel) : Kernel :=
  upd_rtems (fun r => set_apis (<[API_Extensions_RTEMS (tcb k the_thread) := f (api k the_thread)]> (apis r)) r) k.

(** ** Objects of a class

    The information record, control blocks and names of the class [c] are the entry of
    [_Objects_Information_table].  The name of an object is an argument of the directives:
    the object handler gets its address, [name_argument]. *)

Definition OBJECTS_RTEMS_TASKS : Z := 2.
Definition OBJECTS_RTEMS_TIMERS : Z := 4.
Definition OBJECTS_RTEMS_SEMAPHORES : Z := 5.
Definition OBJECTS_RTEMS_MESSAGE_QUEUES : Z := 6.
Definition OBJECTS_RTEMS_PARTITIONS : Z := 7.
Definition OBJECTS_RTEMS_REGIONS : Z := 8.
Definition OBJECTS_RTEMS_PORTS : Z := 9.
Definition OBJECTS_RTEMS_PERIODS : Z := 10.

Definition zero_objects : Objects_State :=
  {| info := {| the_class := 0; minimum_id := 0; maximum_id := 0; maximum := 0; local_table := []; name_table := 0;
                global_table := None; Inactive := []; is_string := false; name_length := 0; is_thread := false |};
     objects := ∅; names := ∅ |}.
Definition objects_of (k : Kernel) (c : Z) : Objects_State := default zero_objects (information_table k !! c).
Definition put_objects (c : Z) (s : Objects_State) (k : Kernel) : Kernel :=
  set_information_table (<[c := s]> (information_table k)) k.
Definition object_id (k : Kernel) (c the_object : Z) : Z := obj_id (objects (objects_of k c) !!! the_object).

Definition object_allocate (c : Z) (k : Kernel) : Z * Kernel :=
  let '(the_object, s) := _Objects_Allocate (objects_of k c) in (the_object, put_objects c s k).
Definition object_free (c the_object : Z) (k : Kernel) : Kernel :=
  put_objects c (_Objects_Free the_object (objects_of k c)) k.
Definition object_close (c the_object : Z) (k : Kernel) : Kernel :=
  put_objects c (_Objects_Close the_object (objects_of k c)) k.

Section Objects.
Context (switch : Z -> Z -> Kernel -> Kernel) (postswitch : Kernel -> Kernel).
Context (isrs : list (Kernel -> Kernel)) (fuel : nat) (_Objects_Local_node _Objects_Maximum_nodes name_argument : Z).

Definition object_get (c id : Z) (k : Kernel) : option (Objects_Locations * Z * Kernel) :=
  _Objects_Get _Objects_Local_node _Objects_Maximum_nodes _Thread_Disable_dispatch
    (enable_or_stay switch postswitch isrs fuel) _Thread_Unnest_dispatch (info (objects_of k c)) id k.

Definition object_open (c the_object name : Z) (k : Kernel) : option Kernel :=
  let s := objects_of k c in
  match _Objects_Open fuel the_object name_argument (set_names (st32 (names s) name_argument name) s) with
  | None => None
  | Some s => Some (put_objects c s k)
  end.

(** The status and, on success, the id stored at [id]. *)
Definition object_ident (c name node id : Z) (k : Kernel) : Z * Kernel :=
  let s := objects_of k c in
  let s := set_names (st32 (names s) name_argument name) s in
  let '(status, k) := _Objects_Name_to_id _Objects_Local_node _Objects_Maximum_nodes _Thread_Disable_dispatch
    (enable_or_stay switch postswitch isrs fuel) s name_argument name node (put_objects c s k) in
  (_Status_Object_name_errors_to_status status,
   match status with OBJECTS_SUCCESSFUL found => put_word id found k | _ => k end).
End Objects.
