(* ===== verification/Event.v ===== *)
(** * Event Manager (rtems/src/event.c)

    Each thread has a set of pending events.  [_Event_Seize] takes the events a thread asks
    for or blocks it; the windows in which interrupts are enabled while it does so are
    [isr_entry] (before the timer is started), [isr_armed] (before the state of the thread
    is changed) and [isr_blocked] (before the synchronization state is read).  The window of
    [_ISR_Flash] in [_Event_Surrender] is [flash]. *)
From S2P Require Import Prelude Chain Watchdog Object Priority ApiTypes Kernel Thread Workspace Threadq CoreMsg Rtems.

Definition set_sync (s : Event_Sync_states) : Kernel -> Kernel := upd_rtems (set_Event_Sync_state s).

Definition _Event_Manager_initialization : Kernel -> Kernel := set_sync EVENT_SYNC_SYNCHRONIZED.

(** ** Receiving *)

Section Seize.
Context (event_timeout_routine : Z) (wfuel : nat) (wisr isr_entry isr_armed isr_blocked : Kernel -> Kernel).

(** What the synchronization state says happened on the way. *)
Definition event_synchronize (executing : Z) (k : Kernel) : Kernel :=
  let sync_state := _Event_Sync_state (rtems k) in
  let k := set_sync EVENT_SYNC_SYNCHRONIZED k in
  match sync_state with
  | EVENT_SYNC_SYNCHRONIZED | EVENT_SYNC_NOTHING_HAPPENED => k
  | EVENT_SYNC_TIMEOUT =>
      let k := upd_wait executing (set_Wait_return_code RTEMS_TIMEOUT) k in
      _Thread_Unblock executing k
  | EVENT_SYNC_SATISFIED => _Thread_Unblock executing (stop_timer executing k)
  end.

Definition _Event_Seize (event_in option_set ticks event_out : Z) (k : Kernel) : option Kernel :=
  let executing := _Thread_Executing k in
  let k := upd_wait executing (set_Wait_return_code RTEMS_SUCCESSFUL) k in
  let pending := pending_events (api k executing) in
  let seized_events := _Event_sets_Get pending event_in in
  if negb (_Event_sets_Is_empty seized_events)
     && ((seized_events =? event_in) || _Options_Is_any option_set) then
    let k := upd_api executing (set_pending_events (_Event_sets_Clear pending seized_events)) k in
    Some (put_word event_out seized_events (isr_entry k))
  else if _Options_Is_no_wait option_set then
    let k := upd_wait executing (set_Wait_return_code RTEMS_UNSATISFIED) (isr_entry k) in
    Some (put_word event_out seized_events k)
  else
    let k := set_sync EVENT_SYNC_NOTHING_HAPPENED k in
    let k := upd_wait executing (set_Wait_option option_set) k in
    let k := upd_wait executing (set_Wait_count event_in) k in
    let k := upd_wait executing (set_Wait_return_argument event_out) k in
    let k := isr_entry k in
    match start_timer event_timeout_routine wfuel wisr executing ticks k with
    | None => None
    | Some k =>
        let k := isr_armed k in
        let k := _Thread_Set_state executing STATES_WAITING_FOR_EVENT k in
        let k := isr_blocked k in
        Some (event_synchronize executing k)
    end.
End Seize.

(** ** Sending *)

Definition _Event_Surrender (flash : Kernel -> Kernel) (the_thread : Z) (k : Kernel) : Kernel :=
  let option_set := Wait_option (Wait (tcb k the_thread)) in
  let pending := pending_events (api k the_thread) in
  let event_condition := Wait_count (Wait (tcb k the_thread)) in
  let seized_events := _Event_sets_Get pending event_condition in
  let satisfied := (seized_events =? event_condition) || _Options_Is_any option_set in
  let deliver k :=
    put_word (Wait_return_argument (Wait (tcb k the_thread))) seized_events
      (upd_api the_thread (set_pending_events (_Event_sets_Clear pending seized_events)) k) in
  if negb (_Event_sets_Is_empty seized_events) then
    if _States_Is_waiting_for_event (current_state (tcb k the_thread)) && satisfied then
      let k := flash (deliver k) in
      if negb (_Watchdog_Is_active (watchdogs k) (Timer the_thread))
      then _Thread_Unblock the_thread k
      else
        let k := wd_mod (_Watchdog_Deactivate (Timer the_thread)) k in
        let k := wd_mod (fun w => (_Watchdog_Remove (Timer the_thread) w).2) k in
        _Thread_Unblock the_thread k
    else
      match _Event_Sync_state (rtems k) with
      | EVENT_SYNC_SYNCHRONIZED | EVENT_SYNC_SATISFIED => k
      | EVENT_SYNC_NOTHING_HAPPENED | EVENT_SYNC_TIMEOUT =>
          if negb (_Thread_Is_executing k the_thread) then k
          else if satisfied then set_sync EVENT_SYNC_SATISFIED (deliver k)
          else k
      end
  else k.

(** The local case of [rtems_event_send], before dispatching is enabled again. *)
Definition event_post (flash : Kernel -> Kernel) (the_thread event_in : Z) (k : Kernel) : Kernel :=
  let k := upd_api the_thread (fun a => set_pending_events (_Event_sets_Post event_in (pending_events a)) a) k in
  _Event_Surrender flash the_thread k.

(** The local case of [_Event_Timeout]. *)
Definition event_timed_out (the_thread : Z) (k : Kernel) : Kernel :=
  if negb (bool_decide (_Event_Sync_state (rtems k) = EVENT_SYNC_SYNCHRONIZED)) && _Thread_Is_executing k the_thread
  then
    if negb (bool_decide (_Event_Sync_state (rtems k) = EVENT_SYNC_SATISFIED))
    then set_sync EVENT_SYNC_TIMEOUT k else k
  else
    let k := upd_wait the_thread (set_Wait_return_code RTEMS_TIMEOUT) k in
    _Thread_Unblock the_thread k.

(** ** Directives

    Look-ups and dispatching as in [_Thread_Get]; [remote] is the request to another
    node. *)
Section Directives.
Context (switch : Z -> Z -> Kernel -> Kernel) (postswitch : Kernel -> Kernel).
Context (isrs : list (Kernel -> Kernel)) (fuel : nat) (_Objects_Local_node _Objects_Maximum_nodes : Z).
Context (_Event_MP_Send_request_packet : Z -> Z -> Kernel -> Z * Kernel).

Notation Get := (_Thread_Get switch postswitch isrs fuel _Objects_Local_node _Objects_Maximum_nodes).
Notation Enable := (_Thread_Enable_dispatch switch postswitch fuel isrs).

Definition rtems_event_send (flash : Kernel -> Kernel) (id event_in : Z) (k : Kernel) : option (Z * Kernel) :=
  match Get id k with
  | None => None
  | Some (OBJECTS_ERROR, _, k) => Some (RTEMS_INVALID_ID, k)
  | Some (OBJECTS_REMOTE, _, k) => Some (_Event_MP_Send_request_packet id event_in k)
  | Some (OBJECTS_LOCAL, the_thread, k) =>
      match Enable (event_post flash the_thread event_in k) with
      | None => None
      | Some k => Some (RTEMS_SUCCESSFUL, k)
      end
  end.

Definition _Event_Timeout (id : Z) (k : Kernel) : option Kernel :=
  match Get id k with
  | None => None
  | Some (OBJECTS_LOCAL, the_thread, k) => Some (_Thread_Unnest_dispatch (event_timed_out the_thread k))
  | Some (_, _, k) => Some k
  end.

Section Receive.
Context (event_timeout_routine : Z) (wfuel : nat) (wisr isr_entry isr_armed isr_blocked resume : Kernel -> Kernel).

(** The code behind [_Thread_Enable_dispatch] runs when the caller is executing again:
    [resume] is what happens until then. *)
Definition rtems_event_receive (event_in option_set ticks event_out : Z) (k : Kernel) : option (Z * Kernel) :=
  if _Event_sets_Is_empty event_in
  then Some (RTEMS_SUCCESSFUL, put_word event_out (pending_events (api k (_Thread_Executing k))) k)
  else
    match _Event_Seize event_timeout_routine wfuel wisr isr_entry isr_armed isr_blocked event_in option_set ticks event_out
            (_Thread_Disable_dispatch k) with
    | None => None
    | Some k =>
        match Enable k with
        | None => None
        | Some k => let k := resume k in Some (Wait_return_code (Wait (tcb k (_Thread_Executing k))), k)
        end
    end.
End Receive.
End Directives.
