(* ===== verification/EventSpec.v ===== *)
(** * Correctness of the event manager

    Events are bits of a word.  A receive takes what it asks for when its condition holds;
    otherwise the thread blocks, and the events and the timeout that come while it is on
    its way are accounted for.  No event is lost, except in the two windows that a theorem
    shows. *)
From S2P Require Import Prelude Chain Watchdog WatchdogProofs WatchdogOps Object Priority ApiTypes Kernel Thread Workspace.
From S2P Require Import ThreadProofs ThreadSpec Threadq ThreadqProofs ThreadqSpec CoreWait CoreMsg CoreMsgSpec Rtems Event.

(** ** Event sets as words *)

Lemma lor_u32 a b : u32 a -> u32 b -> u32 (Z.lor a b).
Proof.
  intros [H1 H2] [H3 H4]. split; [by apply Z.lor_nonneg|].
  destruct (Z.eq_dec (Z.lor a b) 0) as [->|Hne]; [done|].
  assert (0 < Z.lor a b) as Hpos by (assert (0 <= Z.lor a b) by (by apply Z.lor_nonneg); lia).
  change two32 with (2 ^ 32) in *. apply Z.log2_lt_pow2; [done|]. rewrite Z.log2_lor by done.
  assert (forall x, 0 <= x < 2 ^ 32 -> Z.log2 x < 32) as HL.
  { intros x [Hx1 Hx2]. destruct (Z.eq_dec x 0) as [->|]; [done|]. apply Z.log2_lt_pow2; lia. }
  apply Z.max_lub_lt; apply HL; lia.
Qed.

(** What is taken out of a set and what is left make up the set. *)
Lemma clear_get P s : u32 P -> u32 s -> Z.lor (_Event_sets_Clear P (Z.land P s)) (Z.land P s) = P.
Proof.
  intros HP Hs. unfold _Event_sets_Clear. apply Z.bits_inj'. intros i Hi.
  rewrite Z.lor_spec, !Z.land_spec, not32_testbit, Z.land_spec by (done || by apply land_u32; [|apply Hs]).
  destruct (Z.ltb_spec i 32) as [Hlt|Hge]; [by destruct (Z.testbit P i), (Z.testbit s i)|].
  assert (Z.testbit P i = false) as ->; [|done]. destruct (Z.eq_dec P 0) as [->|]; [apply Z.bits_0|].
  apply Z.bits_above_log2; [apply HP|]. apply Z.lt_le_trans with 32; [|done].
  apply Z.log2_lt_pow2; [unfold u32 in HP; lia|]. apply HP.
Qed.

Lemma clear_disjoint P s : u32 P -> u32 s -> Z.land (_Event_sets_Clear P (Z.land P s)) s = 0.
Proof.
  intros HP Hs. unfold _Event_sets_Clear. apply Z.bits_inj'. intros i Hi.
  rewrite Z.bits_0, !Z.land_spec, not32_testbit, Z.land_spec by (done || by apply land_u32; [|apply Hs]).
  by destruct (i <? 32), (Z.testbit P i), (Z.testbit s i).
Qed.

Lemma clear_u32 P s : u32 P -> 0 <= s < two32 -> u32 (_Event_sets_Clear P s).
Proof. intros HP Hs. apply land_u32; [done|]. unfold not32, two32 in *. lia. Qed.

(** ** The condition of a receive *)

Definition satisfies (option_set condition seized : Z) : bool :=
  negb (_Event_sets_Is_empty seized) && ((seized =? condition) || _Options_Is_any option_set).

(** ** Interrupts on the way in

    The abstract state of a receive that is under way, and what an interrupt does to it. *)
Record receiving : Type := { rc_pending : Z; rc_sync : Event_Sync_states; rc_out : Z }.

Inductive event_interrupt : Type :=
| Sends (events : Z)
| Expires (w : Watchdog_State).

Section Abstract.
Context (option_set condition : Z).

Definition interrupted (i : event_interrupt) (a : receiving) : receiving :=
  match i with
  | Sends events =>
      let p := _Event_sets_Post events (rc_pending a) in
      let s := _Event_sets_Get p condition in
      if negb (bool_decide (rc_sync a = EVENT_SYNC_SATISFIED)) && satisfies option_set condition s
      then {| rc_pending := _Event_sets_Clear p s; rc_sync := EVENT_SYNC_SATISFIED; rc_out := s |}
      else {| rc_pending := p; rc_sync := rc_sync a; rc_out := rc_out a |}
  | Expires _ =>
      if bool_decide (rc_sync a = EVENT_SYNC_SATISFIED) then a
      else {| rc_pending := rc_pending a; rc_sync := EVENT_SYNC_TIMEOUT; rc_out := rc_out a |}
  end.
Definition all_interrupts (l : list event_interrupt) (a : receiving) : receiving := foldl (fun a i => interrupted i a) a l.

(** The events that a list of interrupts sends. *)
Definition sent_by (l : list event_interrupt) : Z :=
  foldl (fun p i => match i with Sends e => Z.lor p e | Expires _ => p end) 0 l.
Definition interrupt_ok (i : event_interrupt) : Prop := match i with Sends e => u32 e | Expires _ => True end.

(** The receive was not satisfied before, or what it took is what was asked for. *)
Record receiving_ok (a : receiving) : Prop := {
  ro_pending : u32 (rc_pending a);
  ro_out : u32 (rc_out a);
  ro_sync : rc_sync a <> EVENT_SYNC_SYNCHRONIZED;
  ro_open : rc_sync a <> EVENT_SYNC_SATISFIED ->
    rc_out a = 0 /\ satisfies option_set condition (Z.land (rc_pending a) condition) = false;
  ro_taken : rc_sync a = EVENT_SYNC_SATISFIED ->
    satisfies option_set condition (rc_out a) = true /\ Z.land (rc_out a) condition = rc_out a
}.

Context (Hc : u32 condition).

Lemma interrupted_ok i a : interrupt_ok i -> receiving_ok a -> receiving_ok (interrupted i a) /\
  Z.lor (rc_pending (interrupted i a)) (rc_out (interrupted i a)) =
  Z.lor (Z.lor (rc_pending a) (rc_out a)) (sent_by [i]).
Proof using Hc.
  intros Hi [H1 H2 H3 H4 H5]. destruct i as [e|w]; simpl.
  - set (p := _Event_sets_Post e (rc_pending a)). assert (u32 p) as Hp by (by apply lor_u32).
    set (s := _Event_sets_Get p condition). assert (u32 s) as Hs by (apply land_u32; [done|apply Hc]).
    assert (forall x, Z.lor p x = Z.lor (Z.lor (rc_pending a) x) e) as EP.
    { intros x. unfold p, _Event_sets_Post. rewrite <- !Z.lor_assoc. f_equal. apply Z.lor_comm. }
    destruct (bool_decide_reflect (rc_sync a = EVENT_SYNC_SATISFIED)) as [Es|Es]; cbn [negb andb].
    + split; [|simpl; apply EP]. by split.
    + destruct (H4 Es) as [E0 _]. destruct (satisfies option_set condition s) eqn:ES; cbn [rc_pending rc_out rc_sync].
      * split; [split; try done|].
        -- by apply clear_u32.
        -- intros _. cbn [rc_out]. split; [done|]. unfold s, _Event_sets_Get. by rewrite <- Z.land_assoc, Z.land_diag.
        -- pose proof (clear_get p condition Hp Hc) as EG. fold (_Event_sets_Get p condition) in EG. fold s in EG.
           rewrite EG, E0, Z.lor_0_r. done.
      * split; [split; try done; by intros _|apply EP].
  - rewrite Z.lor_0_r. destruct (bool_decide_reflect (rc_sync a = EVENT_SYNC_SATISFIED)) as [Es|Es]; [done|].
    split; [|done]. split; cbn [rc_pending rc_out rc_sync]; try done. intros _. by apply H4.
Qed.

Lemma all_interrupts_ok l : forall a, Forall interrupt_ok l -> receiving_ok a ->
  receiving_ok (all_interrupts l a) /\
  Z.lor (rc_pending (all_interrupts l a)) (rc_out (all_interrupts l a)) =
  Z.lor (Z.lor (rc_pending a) (rc_out a)) (sent_by l).
Proof using Hc.
  induction l as [|i l IH] using rev_ind; intros a HF HR; [by rewrite Z.lor_0_r|].
  apply Forall_app in HF as [HF Hi]. apply Forall_inv in Hi. destruct (IH a HF HR) as [A B].
  unfold all_interrupts, sent_by in *. rewrite !foldl_snoc. destruct (interrupted_ok i _ Hi A) as [C D]. split; [exact C|].
  rewrite D, B, <- Z.lor_assoc. f_equal. destruct i; [done|apply Z.lor_0_r].
Qed.
End Abstract.

(** ** Interrupts on the state *)

Definition take (t : Z) (i : event_interrupt) (k : Kernel) : Kernel :=
  match i with
  | Sends events => event_post id t events k
  | Expires w => event_timed_out t (set_watchdogs w k)
  end.
Definition take_all (t : Z) (l : list event_interrupt) (k : Kernel) : Kernel := foldl (fun k i => take t i k) k l.

Lemma upd_rtems_threads f k : same_threads k (upd_rtems f k).
Proof. by split. Qed.

Lemma api_upd t f k : api (upd_api t f k) t = f (api k t).
Proof. unfold api at 1. unfold upd_api, upd_rtems. simpl. apply lookup_total_insert_eq. Qed.

Lemma api_frame t k k' : threads k' = threads k -> apis (rtems k') = apis (rtems k) -> api k' t = api k t.
Proof. intros H1 H2. unfold api, tcb. by rewrite H1, H2. Qed.

Section Window.
Context (t option_set condition out : Z) (k0 : Kernel).
Context (Hex : _Thread_Executing k0 = t) (Hr : is_ready k0 t) (Hc : u32 condition).
Context (Ho : Wait_option (Wait (tcb k0 t)) = option_set) (Hcond : Wait_count (Wait (tcb k0 t)) = condition).
Context (Hout : Wait_return_argument (Wait (tcb k0 t)) = out).

(** [k] is [k0] after the interrupts that [a] accounts for. *)
Record window (k : Kernel) (a : receiving) : Prop := {
  wn_threads : same_threads k0 k;
  wn_pending : pending_events (api k t) = rc_pending a;
  wn_sync : _Event_Sync_state (rtems k) = rc_sync a;
  wn_out : rc_sync a = EVENT_SYNC_SATISFIED -> ld32 (memory k) out = rc_out a;
  wn_ok : receiving_ok option_set condition a
}.

Lemma take_window i k a : interrupt_ok i -> window k a -> window (take t i k) (interrupted option_set condition i a).
Proof using All.
  intros Hi [HT HP HS HO HR]. pose proof (proj1 (interrupted_ok option_set condition Hc i a Hi HR)) as HR'.
  assert (tcb k t = tcb k0 t) as ET by (by apply same_threads_tcb).
  assert (_Thread_Is_executing k t = true) as EX.
  { unfold _Thread_Is_executing. rewrite (st_executing _ _ HT), Hex. apply Z.eqb_refl. }
  destruct i as [e|w]; simpl in *.
  - unfold event_post. set (k1 := upd_api t _ k).
    assert (same_threads k0 k1) as HT1 by (eapply same_threads_trans; [exact HT|by split]).
    assert (tcb k1 t = tcb k0 t) as ET1 by (by apply same_threads_tcb).
    assert (pending_events (api k1 t) = _Event_sets_Post e (rc_pending a)) as EP.
    { unfold k1. rewrite api_upd. simpl. by rewrite HP. }
    unfold _Event_Surrender. rewrite EP, ET1, Ho, Hcond, Hr. cbn zeta.
    change (_States_Is_waiting_for_event STATES_READY) with false. cbn [andb].
    change (_Event_Sync_state (rtems k1)) with (_Event_Sync_state (rtems k)).
    change (_Thread_Is_executing k1 t) with (_Thread_Is_executing k t). rewrite EX, HS. cbn [negb].
    set (p := _Event_sets_Post e (rc_pending a)) in *. set (s := _Event_sets_Get p condition) in *.
    unfold satisfies in *.
    destruct (_Event_sets_Is_empty s) eqn:EE; cbn [negb andb] in *; rewrite ?andb_false_r in *.
    { by split. }
    destruct (rc_sync a) eqn:Esy; cbn [negb andb] in *.
    + by destruct (ro_sync _ _ _ HR).
    + rewrite bool_decide_eq_false_2 in * by done. cbn [negb andb] in *.
      destruct (_ || _) eqn:EO; [|by split].
      split; try done; [by eapply same_threads_trans; [exact HT1|split]| |].
      * change (api (set_sync ?x ?y) t) with (api y t). change (api (put_word ?x ?y ?z) t) with (api z t).
        by rewrite api_upd.
      * intros _. simpl. rewrite Hout. apply ld32_st32, HR'.
    + rewrite bool_decide_eq_false_2 in * by done. cbn [negb andb] in *.
      destruct (_ || _) eqn:EO; [|by split].
      split; try done; [by eapply same_threads_trans; [exact HT1|split]| |].
      * change (api (set_sync ?x ?y) t) with (api y t). change (api (put_word ?x ?y ?z) t) with (api z t).
        by rewrite api_upd.
      * intros _. simpl. rewrite Hout. apply ld32_st32, HR'.
    + by split.
  - unfold event_timed_out. change (_Event_Sync_state (rtems (set_watchdogs w k))) with (_Event_Sync_state (rtems k)).
    change (_Thread_Is_executing (set_watchdogs w k) t) with (_Thread_Is_executing k t). rewrite EX, HS.
    rewrite (bool_decide_eq_false_2 (rc_sync a = EVENT_SYNC_SYNCHRONIZED)) by apply HR. cbn [negb andb].
    assert (same_threads k0 (set_watchdogs w k)) as HT1 by (eapply same_threads_trans; [exact HT|by split]).
    destruct (bool_decide_reflect (rc_sync a = EVENT_SYNC_SATISFIED)); cbn [negb].
    + by split.
    + split; try done. by eapply same_threads_trans; [exact HT1|split].
Qed.

Lemma take_all_window l : forall k a, Forall interrupt_ok l -> window k a ->
  window (take_all t l k) (all_interrupts option_set condition l a).
Proof using All.
  induction l as [|i l IH]; intros k a HF HW; [done|]. apply Forall_cons in HF as [Hi HF]. simpl.
  apply IH; [done|]. by apply take_window.
Qed.
End Window.

(** ** Receiving *)

(** The fields of the executing thread that a receive sets before it blocks. *)
Definition event_wait (option_set event_in event_out : Z) (w : Thread_Wait_information) : Thread_Wait_information :=
  set_Wait_return_argument event_out (set_Wait_count event_in (set_Wait_option option_set (set_Wait_return_code RTEMS_SUCCESSFUL w))).

Section Blocking.
Context (routine : Z) (wfuel : nat) (event_in option_set ticks event_out : Z) (k : Kernel).
Notation t := (_Thread_Executing k).
Notation P := (pending_events (api k t)).
Context (HS : sched_ok k) (Hr : is_ready k t) (Hidle : t <> _Thread_Idle k) (HP : u32 P) (Hin : u32 event_in).
Context (HT : timer_free wfuel t ticks k).

Definition started_wait : Kernel :=
  upd_wait t (set_Wait_return_argument event_out) (upd_wait t (set_Wait_count event_in) (upd_wait t (set_Wait_option option_set)
    (set_sync EVENT_SYNC_NOTHING_HAPPENED (upd_wait t (set_Wait_return_code RTEMS_SUCCESSFUL) k)))).

Lemma started_tcb u : tcb started_wait u =
  if decide (u = t) then set_Wait (event_wait option_set event_in event_out (Wait (tcb k t))) (tcb k t) else tcb k u.
Proof using.
  unfold started_wait. rewrite !code_tcb. change (tcb (set_sync ?s ?x) ?y) with (tcb x y). rewrite !code_tcb.
  destruct (decide (u = t)) as [-> |]; rewrite ?(decide_True (P := t = t)) by done; done.
Qed.

Lemma started_known : known started_wait t.
Proof using HS. unfold started_wait. do 3 apply known_mono. apply (known_mono t _ k). apply HS. Qed.

Lemma started_ok : sched_ok started_wait /\ _Thread_Executing started_wait = t /\ _Thread_Idle started_wait = _Thread_Idle k /\
  is_ready started_wait t /\ pending_events (api started_wait t) = P /\ watchdogs started_wait = watchdogs k.
Proof using HS Hr.
  assert (known k t) as Hk by apply HS. split; [|split_and!; try done].
  - unfold started_wait. do 3 (apply code_sched; [apply known_mono; repeat apply known_mono; done|]).
    apply (same_threads_sched (upd_wait t (set_Wait_return_code RTEMS_SUCCESSFUL) k)); [by split|]. by apply code_sched.
  - unfold is_ready. rewrite started_tcb, decide_True by done. exact Hr.
  - unfold api. rewrite started_tcb, decide_True by done. done.
Qed.
End Blocking.

Lemma waiting_blocked c : Z.land (current_state (set_current_state STATES_WAITING_FOR_EVENT c)) STATES_BLOCKED <> 0.
Proof. simpl. by vm_compute. Qed.

Lemma unblocked_ready c : current_state c = STATES_READY ->
  set_current_state (_States_Clear STATES_BLOCKED (current_state (set_current_state STATES_WAITING_FOR_EVENT c)))
    (set_current_state STATES_WAITING_FOR_EVENT c) = c.
Proof. intros E. destruct c; simpl in *. by subst. Qed.

(** The end of a receive whose thread has been through the window. *)
Section Settle.
Context (t option_set condition out : Z) (k3 k4 : Kernel) (a : receiving).
Context (HS : sched_ok k3) (Hex : _Thread_Executing k3 = t) (Hr : is_ready k3 t) (Hidle : t <> _Thread_Idle k3).
Context (HW : window t option_set condition out k3 k4 a).
Notation k5 := (_Thread_Set_state t STATES_WAITING_FOR_EVENT k4).

Lemma blocked_k5 : sched_ok k5 /\ known k5 t /\ rtems k5 = rtems k4 /\ memory k5 = memory k4 /\
  _Context_Switch_necessary k5 = true /\
  forall u, tcb k5 u = if decide (u = t) then set_current_state STATES_WAITING_FOR_EVENT (tcb k3 t) else tcb k3 u.
Proof using HS Hex Hr Hidle HW.
  pose proof (wn_threads _ _ _ _ _ _ _ HW) as HT. pose proof (fun u => same_threads_tcb _ _ u HT) as ET.
  assert (sched_ok k4) as HS4 by (by apply (same_threads_sched k3)).
  assert (_Thread_Executing k4 = t) as Hex4 by (by rewrite (st_executing _ _ HT)).
  assert (known k4 t) as Hk by (rewrite <- Hex4; apply HS4).
  assert (is_ready k4 t) as Hr4 by (unfold is_ready; by rewrite ET).
  assert (t <> _Thread_Idle k4) as Hi by (by rewrite (st_idle _ _ HT)).
  destruct (set_state_core t STATES_WAITING_FOR_EVENT k4) as [C _].
  destruct (set_state_ready t STATES_WAITING_FOR_EVENT k4 Hr4) as (TH & _ & NE).
  split_and!; [by apply set_state_ok|by apply (cs_known _ _ C)|by apply C|by apply C|by apply NE|].
  intros u. unfold tcb at 1. rewrite TH. fold (tcb (upd_thread t (set_current_state STATES_WAITING_FOR_EVENT) k4) u).
  rewrite tcb_upd, !ET. done.
Qed.

Lemma settle :
  let k' := event_synchronize t k5 in
  sched_ok k' /\ _Event_Sync_state (rtems k') = EVENT_SYNC_SYNCHRONIZED /\
  pending_events (api k' t) = rc_pending a /\ memory k' = memory k4 /\
  (forall u, u <> t -> tcb k' u = tcb k3 u) /\
  match rc_sync a with
  | EVENT_SYNC_SATISFIED => tcb k' t = tcb k3 t /\ _Watchdog_Is_active (watchdogs k') (Timer t) = false
  | EVENT_SYNC_TIMEOUT => tcb k' t = set_Wait (set_Wait_return_code RTEMS_TIMEOUT (Wait (tcb k3 t))) (tcb k3 t)
  | _ => tcb k' t = set_current_state STATES_WAITING_FOR_EVENT (tcb k3 t) /\ _Context_Switch_necessary k' = true
  end.
Proof using HS Hex Hr Hidle HW.
  cbn zeta. destruct blocked_k5 as (B1 & B2 & B3 & B4 & B5 & B6).
  pose proof (wn_threads _ _ _ _ _ _ _ HW) as HT. pose proof (same_threads_tcb _ _ t HT) as ET4.
  pose proof (wn_pending _ _ _ _ _ _ _ HW) as EP. pose proof (wn_sync _ _ _ _ _ _ _ HW) as ES.
  pose proof (wn_ok _ _ _ _ _ _ _ HW) as HR.
  unfold event_synchronize. rewrite B3, ES. set (k6 := set_sync EVENT_SYNC_SYNCHRONIZED k5).
  assert (same_threads k5 k6) as HT6 by (by split). assert (sched_ok k6) as S6 by (by apply (same_threads_sched k5)).
  pose proof (fun u => same_threads_tcb _ _ u HT6) as ET6.
  assert (known k6 t) as Hk6 by exact B2.
  assert (forall c, API_Extensions_RTEMS (set_current_state STATES_WAITING_FOR_EVENT c) = API_Extensions_RTEMS c) as EA by done.
  assert (forall k', rtems k' = rtems k6 -> API_Extensions_RTEMS (tcb k' t) = API_Extensions_RTEMS (tcb k3 t) ->
    _Event_Sync_state (rtems k') = EVENT_SYNC_SYNCHRONIZED /\ pending_events (api k' t) = rc_pending a) as HA.
  { intros k' E1 E2. unfold api. rewrite E1, E2. split; [done|]. rewrite <- EP. unfold api. simpl. rewrite B3, ET4. done. }
  assert (memory k6 = memory k4 /\ _Context_Switch_necessary k6 = true) as [EM6 EN6] by (split; [exact B4|exact B5]).
  assert (tcb k6 t = set_current_state STATES_WAITING_FOR_EVENT (tcb k3 t)) as ETt by (rewrite ET6, B6; by rewrite decide_True).
  assert (forall u, u <> t -> tcb k6 u = tcb k3 u) as ETu by (intros u Hu; rewrite ET6, B6; by rewrite decide_False).
  clearbody k6. destruct (rc_sync a) eqn:Esy.
  - by destruct (ro_sync _ _ _ HR).
  - destruct (HA k6 eq_refl ltac:(by rewrite ETt)) as [A1 A2]. by split_and!.
  - set (k7 := upd_wait t _ k6).
    assert (forall u, tcb k7 u = if decide (u = t) then set_Wait (set_Wait_return_code RTEMS_TIMEOUT (Wait (tcb k6 t))) (tcb k6 t)
      else tcb k6 u) as E7 by (intros u; apply code_tcb).
    assert (tcb k7 t = set_current_state STATES_WAITING_FOR_EVENT
      (set_Wait (set_Wait_return_code RTEMS_TIMEOUT (Wait (tcb k3 t))) (tcb k3 t))) as E7t
      by (rewrite E7, decide_True, ETt by done; by destruct (tcb k3 t)).
    assert (known k7 t) as Hk7 by (by apply known_mono). assert (sched_ok k7) as S7 by (by apply code_sched).
    destruct (clear_state_core t STATES_BLOCKED k7) as [C _].
    destruct (clear_state_effect t STATES_BLOCKED k7) as [ET _]; [rewrite E7t; apply waiting_blocked|].
    assert (tcb (_Thread_Unblock t k7) t = set_Wait (set_Wait_return_code RTEMS_TIMEOUT (Wait (tcb k3 t))) (tcb k3 t)) as E8
      by (unfold _Thread_Unblock; rewrite ET, decide_True, E7t by done; by apply unblocked_ready).
    destruct (HA (_Thread_Unblock t k7)) as [A1 A2]; [apply C|by rewrite E8|].
    split_and!; [by apply clear_state_ok|done|done|etransitivity; [apply C|exact EM6]| |exact E8].
    intros u Hu. unfold _Thread_Unblock. rewrite ET, decide_False, E7, decide_False by done. by apply ETu.
  - change (_Thread_Unblock t (stop_timer t k6)) with (release t k6).
    destruct (release_core t k6) as [C _].
    assert (forall u, tcb (release t k6) u = if decide (u = t) then tcb k3 t else tcb k6 u) as ET.
    { intros u. rewrite release_tcb by (rewrite ETt; apply waiting_blocked). rewrite ETt, unblocked_ready by exact Hr. done. }
    destruct (HA (release t k6)) as [A1 A2]; [apply C|by rewrite ET, decide_True|].
    split_and!; [by apply release_sched|done|done|etransitivity; [apply C|exact EM6]| |by rewrite ET, decide_True|apply release_inactive].
    intros u Hu. rewrite ET, decide_False by done. by apply ETu.
Qed.
End Settle.

(** ** The three ends of a receive *)

Section Ends.
Context (event_in option_set event_out : Z) (k : Kernel).
Notation t := (_Thread_Executing k).
Notation P := (pending_events (api k t)).
Context (HS : sched_ok k) (Hr : is_ready k t) (HP : u32 P) (Hin : u32 event_in).

Definition successful : Kernel := upd_wait t (set_Wait_return_code RTEMS_SUCCESSFUL) k.

Lemma successful_tcb u : tcb successful u =
  if decide (u = t) then set_Wait (set_Wait_return_code RTEMS_SUCCESSFUL (Wait (tcb k t))) (tcb k t) else tcb k u.
Proof using. apply code_tcb. Qed.
Lemma successful_sched : sched_ok successful.
Proof using HS. apply code_sched; [apply HS|exact HS]. Qed.
Lemma successful_pending : pending_events (api successful t) = P.
Proof using. unfold api. rewrite successful_tcb. by rewrite decide_True. Qed.

(** The condition holds: the events are taken. *)
Lemma receive_satisfied : let s := Z.land P event_in in
  let k' := put_word event_out s (upd_api t (set_pending_events (_Event_sets_Clear P s)) successful) in
  sched_ok k' /\ (forall u, u <> t -> tcb k' u = tcb k u) /\ Z.lor (pending_events (api k' t)) s = P /\
  Z.land (pending_events (api k' t)) event_in = 0 /\ ld32 (memory k') event_out = s /\
  Wait_return_code (Wait (tcb k' t)) = RTEMS_SUCCESSFUL /\ is_ready k' t.
Proof using HS Hr HP Hin.
  intros s k'. assert (u32 s) as Hsz by (apply land_u32; [exact HP|apply Hin]).
  assert (same_threads successful k') as HT by (by split). pose proof (fun u => same_threads_tcb _ _ u HT) as E.
  assert (pending_events (api k' t) = _Event_sets_Clear P s) as ->.
  { unfold k'. change (api (put_word ?x ?y ?z) t) with (api z t). by rewrite api_upd. }
  unfold is_ready. rewrite !E, successful_tcb, decide_True by done.
  split_and!; [apply (same_threads_sched successful); [exact HT|exact successful_sched]| |by apply clear_get|by apply clear_disjoint|
    by apply ld32_st32|done|exact Hr].
  intros u Hu. by rewrite E, successful_tcb, decide_False.
Qed.

(** It does not, and the caller will not wait. *)
Lemma receive_refused s : let k' := put_word event_out s (upd_wait t (set_Wait_return_code RTEMS_UNSATISFIED) successful) in
  sched_ok k' /\ (forall u, u <> t -> tcb k' u = tcb k u) /\ pending_events (api k' t) = P /\
  Wait_return_code (Wait (tcb k' t)) = RTEMS_UNSATISFIED /\ is_ready k' t.
Proof using HS Hr.
  set (k2 := upd_wait t (set_Wait_return_code RTEMS_UNSATISFIED) successful). intros k'. assert (same_threads k2 k') as HT by (by split).
  assert (sched_ok k2) as HS2 by (apply code_sched; [apply known_mono, HS|exact successful_sched]).
  assert (forall u, tcb k' u = if decide (u = t) then set_Wait (set_Wait_return_code RTEMS_UNSATISFIED (Wait (tcb successful t))) (tcb successful t)
    else tcb successful u) as E by (intros u; rewrite (same_threads_tcb _ _ u HT); apply code_tcb).
  unfold is_ready. rewrite !E, decide_True, successful_tcb, decide_True by done. split_and!; [by apply (same_threads_sched k2)| | |done|exact Hr].
  - intros u Hu. by rewrite E, decide_False, successful_tcb, decide_False.
  - rewrite <- successful_pending. unfold api. change (rtems k') with (rtems successful). by rewrite E, decide_True.
Qed.

(** The outcome of the interrupts [l] for a thread that is about to wait. *)
Definition outcome_of (l : list event_interrupt) : receiving :=
  all_interrupts option_set event_in l {| rc_pending := P; rc_sync := EVENT_SYNC_NOTHING_HAPPENED; rc_out := 0 |}.

(** The caller waits, or an interrupt came first. *)
Lemma receive_waits routine wfuel l ticks : t <> _Thread_Idle k -> timer_free wfuel t ticks k -> Forall interrupt_ok l ->
  satisfies option_set event_in (Z.land P event_in) = false ->
  let a := outcome_of l in
  exists k3, start_timer routine wfuel Datatypes.id t ticks (started_wait event_in option_set event_out k) = Some k3 /\
    let k' := event_synchronize t (_Thread_Set_state t STATES_WAITING_FOR_EVENT (take_all t l k3)) in
    let P' := pending_events (api k' t) in
    let code := Wait_return_code (Wait (tcb k' t)) in
    sched_ok k' /\ (forall u, u <> t -> tcb k' u = tcb k u) /\ P' = rc_pending a /\ Z.lor P' (rc_out a) = Z.lor P (sent_by l) /\
    _Event_Sync_state (rtems k') = EVENT_SYNC_SYNCHRONIZED /\
    match rc_sync a with
    | EVENT_SYNC_SATISFIED =>
        is_ready k' t /\ code = RTEMS_SUCCESSFUL /\ ld32 (memory k') event_out = rc_out a /\
        satisfies option_set event_in (rc_out a) = true /\ Z.land (rc_out a) event_in = rc_out a /\
        _Watchdog_Is_active (watchdogs k') (Timer t) = false
    | EVENT_SYNC_TIMEOUT => is_ready k' t /\ code = RTEMS_TIMEOUT /\ rc_out a = 0
    | _ =>
        current_state (tcb k' t) = STATES_WAITING_FOR_EVENT /\ _Context_Switch_necessary k' = true /\
        code = RTEMS_SUCCESSFUL /\ rc_out a = 0 /\ satisfies option_set event_in (Z.land P' event_in) = false
    end.
Proof using HS Hr HP Hin.
  intros Hidle HT HF EQ a. destruct (started_ok event_in option_set event_out k HS Hr) as (S1 & S2 & S3 & S4 & S5 & S6).
  pose proof (started_tcb event_in option_set event_out k) as ET. set (k2 := started_wait event_in option_set event_out k) in *.
  assert (_Event_Sync_state (rtems k2) = EVENT_SYNC_NOTHING_HAPPENED) as ES2 by done.
  destruct (start_timer_quiet routine wfuel t ticks k2) as (w & EW & _ & _).
  { rewrite S6. exact HT. }
  clearbody k2. set (k3 := set_watchdogs w k2). exists k3. split; [exact EW|].
  unfold outcome_of in a. set (a0 := {| rc_pending := P; rc_sync := _; rc_out := 0 |}) in a.
  pose proof (ET t) as ETt. rewrite decide_True in ETt by done.
  assert (window t option_set event_in event_out k3 k3 a0) as HW by (by split).
  assert (window t option_set event_in event_out k3 (take_all t l k3) a) as HW4.
  { apply take_all_window; try done; change (tcb k3 t) with (tcb k2 t); by rewrite ETt. }
  destruct (settle t option_set event_in event_out k3 (take_all t l k3) a) as (T1 & T2 & T3 & T4 & T5 & T6); try done.
  { by apply (same_threads_sched k2); [split|]. }
  { change (_Thread_Idle k3) with (_Thread_Idle k2). rewrite S3. exact Hidle. }
  destruct (all_interrupts_ok option_set event_in Hin l a0 HF (wn_ok _ _ _ _ _ _ _ HW)) as [R1 R2]. fold a in R1, R2.
  set (k' := event_synchronize t _) in *. cbn zeta. split; [exact T1|]. split.
  { intros u Hu. rewrite T5 by done. change (tcb k3 u) with (tcb k2 u). by rewrite ET, decide_False. }
  rewrite T3. split; [done|]. split; [rewrite R2; unfold a0; simpl; by rewrite Z.lor_0_r|]. split; [exact T2|].
  change (tcb k3 t) with (tcb k2 t) in T6. rewrite ETt in T6. unfold is_ready. destruct (rc_sync a) eqn:Ea.
  - by destruct (ro_sync _ _ _ R1).
  - destruct T6 as [-> T7]. destruct (ro_open _ _ _ R1 ltac:(by rewrite Ea)) as [O1 O2]. done.
  - destruct (ro_open _ _ _ R1 ltac:(by rewrite Ea)) as [O1 O2]. by rewrite T6.
  - destruct T6 as [-> T7]. destruct (ro_taken _ _ _ R1 Ea) as [O1 O2].
    rewrite T4, (wn_out _ _ _ _ _ _ _ HW4 Ea). by split_and!.
Qed.
End Ends.


(** ** Sending *)

(** C19: sending events to a thread while no receive is on its way: a waiting thread whose
    condition now holds gets the events it asked for and is released, its timer off;
    otherwise the events are pending and nothing else changes.  No event is lost. *)
Theorem event_send_correct u events k :
  let w := Wait (tcb k u) in
  sched_ok k -> known k u -> u32 (pending_events (api k u)) -> u32 events -> u32 (Wait_count w) ->
  _Event_Sync_state (rtems k) = EVENT_SYNC_SYNCHRONIZED ->
  let p := Z.lor (pending_events (api k u)) events in
  let s := Z.land p (Wait_count w) in
  let k' := event_post Datatypes.id u events k in
  let P' := pending_events (api k' u) in
  sched_ok k' /\ _Event_Sync_state (rtems k') = EVENT_SYNC_SYNCHRONIZED /\ (forall v, v <> u -> tcb k' v = tcb k v) /\
  if _States_Is_waiting_for_event (current_state (tcb k u)) && satisfies (Wait_option w) (Wait_count w) s then
    Z.lor P' s = p /\ Z.land P' (Wait_count w) = 0 /\ ld32 (memory k') (Wait_return_argument w) = s /\
    tcb k' u = set_current_state (_States_Clear STATES_BLOCKED (current_state (tcb k u))) (tcb k u) /\
    _Watchdog_Is_active (watchdogs k') (Timer u) = false
  else P' = p /\ memory k' = memory k /\ tcb k' u = tcb k u.
Proof.
  intros w HS Hk HP He Hw Hsy p s k' P'. unfold P', k', event_post. set (k1 := upd_api u _ k).
  assert (same_threads k k1) as HT1 by (by split). pose proof (fun v => same_threads_tcb _ _ v HT1) as ET1.
  assert (sched_ok k1) as HS1 by (by apply (same_threads_sched k)). assert (known k1 u) as Hk1 by exact Hk.
  assert (pending_events (api k1 u) = p) as EP by (unfold k1; by rewrite api_upd).
  assert (_Event_Sync_state (rtems k1) = EVENT_SYNC_SYNCHRONIZED) as Hsy1 by exact Hsy.
  assert (memory k1 = memory k) as EM1 by done. clearbody k1.
  unfold _Event_Surrender. rewrite EP, !ET1. fold w. unfold _Event_sets_Get. fold s. cbn zeta. unfold satisfies.
  rewrite Hsy1. assert (u32 p) as Hp by (by apply lor_u32). assert (u32 s) as Hs by (apply land_u32; [done|apply Hw]).
  destruct (_Event_sets_Is_empty s); cbn [negb andb]; rewrite ?andb_false_r.
  { rewrite EP. split_and!; try done. }
  destruct (_States_Is_waiting_for_event (current_state (tcb k u)) && _) eqn:EQ.
  2:{ rewrite EP. split_and!; try done. }
  change (Datatypes.id ?x) with x. set (k2 := put_word _ _ _).
  assert (same_threads k1 k2) as HT2 by (by split). pose proof (fun v => same_threads_tcb _ _ v HT2) as ET2.
  assert (forall x, (if negb (_Watchdog_Is_active (watchdogs x) (Timer u)) then _Thread_Unblock u x else
    _Thread_Unblock u (wd_mod (fun w0 => (_Watchdog_Remove (Timer u) w0).2) (wd_mod (_Watchdog_Deactivate (Timer u)) x)))
    = release u x) as ->.
  { intros x. unfold release, stop_timer. by destruct (_Watchdog_Is_active _ _). }
  assert (tcb k2 u = tcb k u) as Eu by (by rewrite ET2).
  assert (Z.land (current_state (tcb k2 u)) STATES_BLOCKED <> 0) as HB.
  { rewrite Eu. apply (states_subset _ STATES_WAITING_FOR_EVENT); [done|]. apply andb_true_iff in EQ as [EQ _].
    unfold _States_Is_waiting_for_event in EQ. by apply negb_true_iff, Z.eqb_neq in EQ. }
  assert (pending_events (api k2 u) = _Event_sets_Clear p s) as EP2.
  { unfold k2. change (api (put_word ?x ?y ?z) u) with (api z u). by rewrite api_upd. }
  assert (ld32 (memory k2) (Wait_return_argument w) = s) as EM2.
  { unfold k2. by apply ld32_st32. }
  destruct (release_core u k2) as [C _]. pose proof (fun v => release_tcb u k2 v HB) as ER.
  assert (pending_events (api (release u k2) u) = _Event_sets_Clear p s) as EPR.
  { rewrite <- EP2. unfold api. rewrite (cs_rtems _ _ C), ER, decide_True by done. done. }
  rewrite EPR, (cs_rtems _ _ C), (cs_memory _ _ C). split_and!; try done.
  - apply release_sched; [by apply (same_threads_sched k1)|exact Hk1].
  - intros v Hv. rewrite ER, decide_False by done. by rewrite ET2, ET1.
  - by apply clear_get.
  - by apply clear_disjoint.
  - by rewrite ER, decide_True, Eu.
  - apply release_inactive.
Qed.

(** ** Examples *)

Module EventExample.
Import ThreadExample.
(** The executing thread at 200 has an API block at 5000. *)
Definition e0 : Kernel := upd_thread 200 (set_API_Extensions_RTEMS 5000) k2.
(** It waits for event 1. *)
Definition e1 : Kernel :=
  event_synchronize 200 (_Thread_Set_state 200 STATES_WAITING_FOR_EVENT (started_wait 1 0 500 e0)).
(** The thread at 300 runs. *)
Definition e2 : Kernel := default e1 (_Thread_Dispatch (fun _ _ k => k) id 2 [] e1).

Lemma e0_ok : sched_ok e0.
Proof. apply inert_ok; [by repeat split|vm_compute; eexists; reflexivity|exact k2_ok]. Qed.

Lemma e1_ok : sched_ok e1.
Proof.
  assert (_Thread_Executing e0 = 200) as Ex by (vm_compute; reflexivity).
  assert (is_ready e0 200) as Hr by (vm_compute; reflexivity). rewrite <- Ex in Hr.
  destruct (started_ok 1 0 500 e0 e0_ok Hr) as (S1 & S2 & S3 & S4 & S5 & _).
  assert (pending_events (api e0 (_Thread_Executing e0)) = 0) as EP by (vm_compute; reflexivity).
  assert (200 <> _Thread_Idle (started_wait 1 0 500 e0)) as Hi by (vm_compute; discriminate).
  unfold e1. set (k := started_wait 1 0 500 e0) in *. rewrite EP, Ex in *.
  assert (_Event_Sync_state (rtems k) = EVENT_SYNC_NOTHING_HAPPENED) as ES by (vm_compute; reflexivity).
  clearbody k. clear EP Hr Ex.
  destruct (settle 200 0 1 500 k k {| rc_pending := 0; rc_sync := EVENT_SYNC_NOTHING_HAPPENED; rc_out := 0 |}) as [A _];
    [done|done|done|done| |exact A].
  split; [by split|exact S5|exact ES|done|]. split; [by split|by split|done| |done]. intros _. split; reflexivity.
Qed.
End EventExample.


Lemma event_send_witness :
  let k' := event_post Datatypes.id 200 1 EventExample.e1 in
  ld32 (memory k') 500 = 1 /\ current_state (tcb k' 200) = STATES_READY.
Proof.
  assert (current_state (tcb EventExample.e1 200) = STATES_WAITING_FOR_EVENT) as E1 by (vm_compute; reflexivity).
  assert (pending_events (api EventExample.e1 200) = 0) as EP by (vm_compute; reflexivity).
  assert (Wait_count (Wait (tcb EventExample.e1 200)) = 1) as E2 by (vm_compute; reflexivity).
  assert (Wait_return_argument (Wait (tcb EventExample.e1 200)) = 500) as E3 by (vm_compute; reflexivity).
  assert (_Event_Sync_state (rtems EventExample.e1) = EVENT_SYNC_SYNCHRONIZED) as E4 by (vm_compute; reflexivity).
  assert (known EventExample.e1 200) as Hk by (vm_compute; eexists; reflexivity).
  pose proof EventExample.e1_ok as HS.
  set (k := EventExample.e1) in *. clearbody k.
  pose proof (event_send_correct 200 1 k HS Hk) as H. rewrite EP, E2, E4 in H.
  specialize (H ltac:(by split) ltac:(by split) ltac:(by split) eq_refl). cbn zeta in *.
  destruct H as (_ & _ & _ & H). rewrite E1, E3 in H.
  change (_States_Is_waiting_for_event STATES_WAITING_FOR_EVENT && _) with true in H. cbv iota in H.
  destruct H as (_ & _ & H1 & H2 & _). rewrite H2. split; [exact H1|reflexivity].
Defined.

(** The two windows in which events are lost.  A timeout that comes when the thread is
    blocked but has not yet read the synchronization state, followed by the events it waits
    for, and a timeout in the window of [_ISR_Flash] of the send: either way the events are
    taken from the pending set, and the receive reports a timeout. *)
Theorem event_lost_on_timeout :
  (exists k', _Event_Seize 9 5 Datatypes.id Datatypes.id Datatypes.id
      (take_all 200 [Expires (watchdogs EventExample.e0); Sends 1]) 1 0 10 500 EventExample.e0 = Some k' /\
    pending_events (api k' 200) = 0 /\ is_ready k' 200 /\ Wait_return_code (Wait (tcb k' 200)) = RTEMS_TIMEOUT) /\
  let k' := event_post (fun k => take 200 (Expires (watchdogs k)) k) 200 1 EventExample.e2 in
  _Thread_Executing EventExample.e2 = 300 /\ pending_events (api k' 200) = 0 /\ is_ready k' 200 /\ Wait_return_code (Wait (tcb k' 200)) = RTEMS_TIMEOUT.
Proof. split; [eexists; vm_compute; split_and!; reflexivity|vm_compute; split_and!; reflexivity]. Qed.
