(* ===== verification/Partition.v ===== *)
(** * Partition and Dual-Ported Memory Managers (rtems/src/part.c, dpmem.c)

    A partition is an area of memory cut into buffers of one size; the free buffers are a
    chain.  A dual-ported memory area has an internal and an external base address.  The
    directives are modelled for one node: the packets to other nodes and the global object
    table are parameters. *)
From S2P Require Import Prelude Chain Watchdog Object Priority ApiTypes Heap Kernel Thread Workspace CoreMsg Rtems.

Definition CPU_PARTITION_ALIGNMENT : Z := CPU_ALIGNMENT.
Definition _Addresses_Is_aligned (address : Z) : bool := address mod CPU_ALIGNMENT =? 0.

(** ** Partitions (inline/part.inl) *)

Definition partition (k : Kernel) (p : Z) : Partition_Control := partitions (rtems k) !!! p.
Definition upd_partition (p : Z) (f : Partition_Control -> Partition_Control) (k : Kernel) : Kernel :=
  upd_rtems (fun r => set_partitions (<[p := f (partition k p)]> (partitions r)) r) k.

Definition _Partition_Allocate_buffer (p : Z) (k : Kernel) : Z * Kernel :=
  match partition_Memory (partition k p) with
  | [] => (NULL, k)
  | b :: rest => (b, upd_partition p (set_partition_Memory rest) k)
  end.
Definition _Partition_Free_buffer (p the_buffer : Z) (k : Kernel) : Kernel :=
  upd_partition p (fun c => set_partition_Memory (ListChain.append (partition_Memory c) the_buffer) c) k.
Definition _Partition_Is_buffer_on_boundary (the_buffer : Z) (c : Partition_Control) : bool :=
  let offset := _Addresses_Subtract the_buffer (partition_starting_address c) in
  offset mod buffer_size c =? 0.
Definition _Partition_Is_buffer_valid (the_buffer : Z) (c : Partition_Control) : bool :=
  let starting := partition_starting_address c in
  let ending := _Addresses_Add_offset starting (partition_length c) in
  _Addresses_Is_in_range the_buffer starting ending && _Partition_Is_buffer_on_boundary the_buffer c.
Definition _Partition_Is_buffer_size_aligned (buffer_size : Z) : bool := buffer_size mod CPU_PARTITION_ALIGNMENT =? 0.

Section Directives.
Context (switch : Z -> Z -> Kernel -> Kernel) (postswitch : Kernel -> Kernel).
Context (isrs : list (Kernel -> Kernel)) (fuel : nat) (_Objects_Local_node _Objects_Maximum_nodes name_argument : Z).
Context (is_multiprocessing : bool).
(** [_Objects_MP_Allocate_and_open], [_Objects_MP_Close] and the packets. *)
Context (mp_allocate_and_open : Z -> Z -> Kernel -> bool * Kernel) (mp_close : Z -> Kernel -> Kernel).
Context (mp_announce : Z -> Kernel -> Kernel) (mp_request : Z -> Z -> Kernel -> Z * Kernel).

Notation Enable := (_Thread_Enable_dispatch switch postswitch fuel isrs).
Notation Get := (object_get switch postswitch isrs fuel _Objects_Local_node _Objects_Maximum_nodes).
Notation Open := (object_open fuel name_argument).

(** A directive that ends with [_Thread_Enable_dispatch(); return status]. *)
Definition enable_return (status : Z) (k : Kernel) : option (Z * Kernel) :=
  match Enable k with None => None | Some k => Some (status, k) end.

Definition rtems_partition_create (name starting_address length buffer_size attribute_set id : Z) (k : Kernel)
  : option (Z * Kernel) :=
  if negb (rtems_is_name_valid name) then Some (RTEMS_INVALID_NAME, k)
  else if (length =? 0) || (buffer_size =? 0) || (length <? buffer_size)
          || negb (_Partition_Is_buffer_size_aligned buffer_size)
  then Some (RTEMS_INVALID_SIZE, k)
  else if negb (_Addresses_Is_aligned starting_address) then Some (RTEMS_INVALID_ADDRESS, k)
  else if _Attributes_Is_global attribute_set && negb is_multiprocessing then Some (RTEMS_MP_NOT_CONFIGURED, k)
  else
    let k := _Thread_Disable_dispatch k in
    let '(the_partition, k) := object_allocate OBJECTS_RTEMS_PARTITIONS k in
    if the_partition =? NULL then enable_return RTEMS_TOO_MANY k
    else
      let '(global_ok, k) :=
        if _Attributes_Is_global attribute_set
        then mp_allocate_and_open name (object_id k OBJECTS_RTEMS_PARTITIONS the_partition) k else (true, k) in
      if negb global_ok then enable_return RTEMS_TOO_MANY (object_free OBJECTS_RTEMS_PARTITIONS the_partition k)
      else
        let k := upd_partition the_partition (fun _ =>
          {| partition_starting_address := starting_address; partition_length := length; buffer_size := buffer_size;
             partition_attribute_set := attribute_set; number_of_used_blocks := 0;
             partition_Memory := block_array starting_address buffer_size (Z.to_nat (length / buffer_size)) |}) k in
        match Open OBJECTS_RTEMS_PARTITIONS the_partition name k with
        | None => None
        | Some k =>
            let the_id := object_id k OBJECTS_RTEMS_PARTITIONS the_partition in
            let k := put_word id the_id k in
            let k := if _Attributes_Is_global attribute_set then mp_announce the_id k else k in
            enable_return RTEMS_SUCCESSFUL k
        end.

Definition rtems_partition_ident (name node id : Z) (k : Kernel) : Z * Kernel :=
  object_ident switch postswitch isrs fuel _Objects_Local_node _Objects_Maximum_nodes name_argument
    OBJECTS_RTEMS_PARTITIONS name node id k.

(** [_Thread_Dispatch] is called for a remote object. *)
Definition rtems_partition_delete (id : Z) (k : Kernel) : option (Z * Kernel) :=
  match Get OBJECTS_RTEMS_PARTITIONS id k with
  | None => None
  | Some (OBJECTS_ERROR, _, k) => Some (RTEMS_INVALID_ID, k)
  | Some (OBJECTS_REMOTE, _, k) =>
      match _Thread_Dispatch switch postswitch fuel isrs k with
      | None => None
      | Some k => Some (RTEMS_ILLEGAL_ON_REMOTE_OBJECT, k)
      end
  | Some (OBJECTS_LOCAL, the_partition, k) =>
      if number_of_used_blocks (partition k the_partition) =? 0 then
        let k := object_close OBJECTS_RTEMS_PARTITIONS the_partition k in
        let k := object_free OBJECTS_RTEMS_PARTITIONS the_partition k in
        let k := if _Attributes_Is_global (partition_attribute_set (partition k the_partition))
                 then let the_id := object_id k OBJECTS_RTEMS_PARTITIONS the_partition in mp_announce the_id (mp_close the_id k)
                 else k in
        enable_return RTEMS_SUCCESSFUL k
      else enable_return RTEMS_RESOURCE_IN_USE k
  end.

(** The local case of [rtems_partition_get_buffer]: the buffer, [NULL] when there is none. *)
Definition partition_get (the_partition : Z) (k : Kernel) : Z * Kernel :=
  let '(the_buffer, k) := _Partition_Allocate_buffer the_partition k in
  if negb (the_buffer =? NULL)
  then (the_buffer, upd_partition the_partition
                      (fun c => set_number_of_used_blocks (number_of_used_blocks c +w 1) c) k)
  else (the_buffer, k).

Definition rtems_partition_get_buffer (id buffer : Z) (k : Kernel) : option (Z * Kernel) :=
  match Get OBJECTS_RTEMS_PARTITIONS id k with
  | None => None
  | Some (OBJECTS_ERROR, _, k) => Some (RTEMS_INVALID_ID, k)
  | Some (OBJECTS_REMOTE, _, k) =>
      Some (mp_request id 0 (upd_wait (_Thread_Executing k) (set_Wait_return_argument buffer) k))
  | Some (OBJECTS_LOCAL, the_partition, k) =>
      let '(the_buffer, k) := partition_get the_partition k in
      if negb (the_buffer =? NULL)
      then match Enable k with None => None | Some k => Some (RTEMS_SUCCESSFUL, put_word buffer the_buffer k) end
      else enable_return RTEMS_UNSATISFIED k
  end.

(** The local case of [rtems_partition_return_buffer]. *)
Definition partition_return (the_partition buffer : Z) (k : Kernel) : bool * Kernel :=
  if _Partition_Is_buffer_valid buffer (partition k the_partition) then
    let k := _Partition_Free_buffer the_partition buffer k in
    (true, upd_partition the_partition (fun c => set_number_of_used_blocks (number_of_used_blocks c -w 1) c) k)
  else (false, k).

Definition rtems_partition_return_buffer (id buffer : Z) (k : Kernel) : option (Z * Kernel) :=
  match Get OBJECTS_RTEMS_PARTITIONS id k with
  | None => None
  | Some (OBJECTS_ERROR, _, k) => Some (RTEMS_INVALID_ID, k)
  | Some (OBJECTS_REMOTE, _, k) => Some (mp_request id buffer k)
  | Some (OBJECTS_LOCAL, the_partition, k) =>
      let '(ok, k) := partition_return the_partition buffer k in
      enable_return (if ok : bool then RTEMS_SUCCESSFUL else RTEMS_INVALID_ADDRESS) k
  end.

(** ** Dual-ported memory *)

Definition port (k : Kernel) (p : Z) : Dual_ported_memory_Control := ports (rtems k) !!! p.

Definition rtems_port_create (name internal_start external_start length id : Z) (k : Kernel) : option (Z * Kernel) :=
  if negb (rtems_is_name_valid name) then Some (RTEMS_INVALID_NAME, k)
  else if negb (_Addresses_Is_aligned internal_start) || negb (_Addresses_Is_aligned external_start)
  then Some (RTEMS_INVALID_ADDRESS, k)
  else
    let k := _Thread_Disable_dispatch k in
    let '(the_port, k) := object_allocate OBJECTS_RTEMS_PORTS k in
    if the_port =? NULL then enable_return RTEMS_TOO_MANY k
    else
      let k := upd_rtems (fun r => set_ports (<[the_port :=
        {| internal_base := internal_start; external_base := external_start; port_length := length -w 1 |}]> (ports r)) r) k in
      match Open OBJECTS_RTEMS_PORTS the_port name k with
      | None => None
      | Some k => enable_return RTEMS_SUCCESSFUL (put_word id (object_id k OBJECTS_RTEMS_PORTS the_port) k)
      end.

Definition rtems_port_ident (name id : Z) (k : Kernel) : Z * Kernel :=
  object_ident switch postswitch isrs fuel _Objects_Local_node _Objects_Maximum_nodes name_argument
    OBJECTS_RTEMS_PORTS name OBJECTS_SEARCH_ALL_NODES id k.

Definition rtems_port_delete (id : Z) (k : Kernel) : option (Z * Kernel) :=
  match Get OBJECTS_RTEMS_PORTS id k with
  | None => None
  | Some (OBJECTS_ERROR, _, k) => Some (RTEMS_INVALID_ID, k)
  | Some (OBJECTS_REMOTE, _, k) => Some (RTEMS_INTERNAL_ERROR, k)
  | Some (OBJECTS_LOCAL, the_port, k) =>
      let k := object_close OBJECTS_RTEMS_PORTS the_port k in
      enable_return RTEMS_SUCCESSFUL (object_free OBJECTS_RTEMS_PORTS the_port k)
  end.

(** The translation of an address from one side to the other. *)
Definition port_translate (from to length address : Z) : Z :=
  let ending := _Addresses_Subtract address from in
  if length <? ending then address else _Addresses_Add_offset to ending.

Definition rtems_port_internal_to_external (id internal external : Z) (k : Kernel) : option (Z * Kernel) :=
  match Get OBJECTS_RTEMS_PORTS id k with
  | None => None
  | Some (OBJECTS_ERROR, _, k) => Some (RTEMS_INVALID_ID, k)
  | Some (OBJECTS_REMOTE, _, k) => Some (RTEMS_INTERNAL_ERROR, k)
  | Some (OBJECTS_LOCAL, the_port, k) =>
      let c := port k the_port in
      enable_return RTEMS_SUCCESSFUL
        (put_word external (port_translate (internal_base c) (external_base c) (port_length c) internal) k)
  end.

Definition rtems_port_external_to_internal (id external internal : Z) (k : Kernel) : option (Z * Kernel) :=
  match Get OBJECTS_RTEMS_PORTS id k with
  | None => None
  | Some (OBJECTS_ERROR, _, k) => Some (RTEMS_INVALID_ID, k)
  | Some (OBJECTS_REMOTE, _, k) => Some (RTEMS_INTERNAL_ERROR, k)
  | Some (OBJECTS_LOCAL, the_port, k) =>
      let c := port k the_port in
      enable_return RTEMS_SUCCESSFUL
        (put_word internal (port_translate (external_base c) (internal_base c) (port_length c) external) k)
  end.
End Directives.
