(* ===== verification/PartitionSpec.v ===== *)
(** * Correctness of partitions and dual-ported memory *)
From S2P Require Import Prelude Chain Watchdog WatchdogProofs WatchdogOps Object Priority ApiTypes Heap Kernel Thread Workspace.
From S2P Require Import ThreadProofs ThreadSpec Threadq ThreadqProofs ThreadqSpec CoreWait CoreMsg CoreMsgSpec Rtems Partition.

(** ** Partitions

    [out] are the buffers that have been handed out: with the free ones they are the
    buffers of the partition. *)

Definition all_buffers (c : Partition_Control) : list Z :=
  block_array (partition_starting_address c) (buffer_size c) (Z.to_nat (partition_length c / buffer_size c)).

Record partition_ok (p : Z) (out : list Z) (k : Kernel) : Prop := {
  po_size : 0 < buffer_size (partition k p);
  po_start : 0 < partition_starting_address (partition k p);
  po_length : 0 <= partition_length (partition k p);
  po_end : partition_starting_address (partition k p) + partition_length (partition k p) < two32;
  po_buffers : partition_Memory (partition k p) ++ out ≡ₚ all_buffers (partition k p);
  po_used : number_of_used_blocks (partition k p) = Z.of_nat (length out)
}.

Lemma partition_upd p f k : partition (upd_partition p f k) p = f (partition k p).
Proof. unfold partition at 1. unfold upd_partition, upd_rtems. simpl. apply lookup_total_insert_eq. Qed.

Section Partition.
Context (p : Z) (out : list Z) (k : Kernel) (HO : partition_ok p out k).
Notation c := (partition k p).
Notation n := (partition_length c / buffer_size c).

Lemma partition_fits : 0 <= n /\ n * buffer_size c <= partition_length c.
Proof using HO.
  destruct HO as [H1 H2 H3 H4 _ _]. split; [apply Z.div_pos; lia|].
  rewrite Z.mul_comm. apply Z.mul_div_le. lia.
Qed.

Lemma buffer_address b : b ∈ all_buffers c <->
  exists i, 0 <= i < n /\ b = partition_starting_address c + i * buffer_size c.
Proof using HO.
  destruct partition_fits as [F1 F2]. destruct HO as [H1 H2 H3 H4 _ _]. unfold all_buffers.
  rewrite elem_block_array; [|done|lia|rewrite Z2Nat.id by done; lia]. by rewrite Z2Nat.id.
Qed.

Lemma buffers_nodup : NoDup (all_buffers c).
Proof using HO.
  destruct partition_fits as [F1 F2]. destruct HO as [H1 H2 H3 H4 _ _]. unfold all_buffers.
  rewrite block_array_seq; [|done|lia|rewrite Z2Nat.id by done; lia].
  apply NoDup_fmap_2; [|apply NoDup_seqZ]. intros i j Hij. nia.
Qed.

Lemma buffers_length : Z.of_nat (length (all_buffers c)) = n.
Proof using HO.
  destruct partition_fits as [F1 F2]. destruct HO as [H1 H2 H3 H4 _ _]. unfold all_buffers.
  rewrite block_array_seq; [|done|lia|rewrite Z2Nat.id by done; lia]. rewrite length_map, length_seqZ, !Z2Nat.id by lia. lia.
Qed.

Lemma used_bounds : Z.of_nat (length out) <= n /\ n < two32.
Proof using HO.
  destruct partition_fits as [F1 F2]. pose proof buffers_length as EL.
  rewrite <- (Permutation_length (po_buffers _ _ _ HO)), length_app in EL. destruct HO as [H1 H2 H3 H4 _ _]. split; [lia|nia].
Qed.

(** An address is accepted when it is returned if it is on a boundary, the one behind the
    last whole buffer included. *)
Lemma accepted_address b : _Partition_Is_buffer_valid b c = true <->
  exists i, 0 <= i <= n /\ b = partition_starting_address c + i * buffer_size c.
Proof using HO.
  destruct partition_fits as [F1 F2]. destruct HO as [H1 H2 H3 H4 _ _].
  unfold _Partition_Is_buffer_valid, _Addresses_Is_in_range, _Partition_Is_buffer_on_boundary, _Addresses_Add_offset, _Addresses_Subtract.
  rewrite (wrap32_small (partition_starting_address c + _)) by (unfold u32; lia).
  rewrite !andb_true_iff, !Z.leb_le, Z.eqb_eq. split.
  - intros [[Hge Hle] Hm]. rewrite wrap32_small in Hm by (unfold u32; lia).
    exists ((b - partition_starting_address c) / buffer_size c). apply Z.div_exact in Hm; [|lia].
    split; [split; [apply Z.div_pos; lia|apply Z.div_le_mono; lia]|lia].
  - intros (i & Hi & ->). rewrite wrap32_small by (unfold u32; nia).
    replace (partition_starting_address c + i * buffer_size c - partition_starting_address c) with (i * buffer_size c) by lia.
    rewrite Z.mod_mul by lia. split; [split|]; nia.
Qed.

Lemma buffer_valid b : b ∈ all_buffers c -> _Partition_Is_buffer_valid b c = true.
Proof using HO. intros (i & Hi & ->)%buffer_address. apply accepted_address. exists i. split; [lia|done]. Qed.

(** What [rtems_partition_return_buffer] answers for any address. *)
Lemma return_answer b :
  ((partition_return p b k).1 = true <-> exists i, 0 <= i <= n /\ b = partition_starting_address c + i * buffer_size c) /\
  ((partition_return p b k).1 = false -> (partition_return p b k).2 = k).
Proof using HO.
  rewrite <- accepted_address. unfold partition_return. by destruct (_Partition_Is_buffer_valid b c).
Qed.

Lemma get_buffer_some b rest : partition_Memory c = b :: rest ->
  exists k', partition_get p k = (b, k') /\ b <> NULL /\ b ∈ all_buffers c /\ b ∉ out /\
    partition k' p = set_number_of_used_blocks (number_of_used_blocks c + 1) (set_partition_Memory rest c) /\
    partition_ok p (b :: out) k' /\ same_threads k k'.
Proof using HO.
  intros EM. pose proof HO as [H1 H2 H3 H4 H5 H6]. rewrite EM in H5.
  assert (b ∈ all_buffers c) as Hb by (rewrite <- H5; left).
  pose proof buffers_nodup as HN. rewrite <- H5 in HN. apply NoDup_cons in HN as [Hnot _].
  assert (b <> NULL) as Hnull by (apply buffer_address in Hb as (i & Hi & ->); unfold NULL; nia).
  destruct used_bounds as [U1 U2]. pose proof buffers_length as UL. rewrite <- (Permutation_length H5) in UL. simpl in UL.
  rewrite length_app in UL.
  unfold partition_get, _Partition_Allocate_buffer. rewrite EM, (proj2 (Z.eqb_neq b NULL) Hnull). cbn [negb].
  eexists. split; [reflexivity|]. set (k' := upd_partition _ _ _).
  assert (partition k' p = set_number_of_used_blocks (number_of_used_blocks c + 1) (set_partition_Memory rest c)) as EP.
  { unfold k'. rewrite !partition_upd. cbn [number_of_used_blocks set_partition_Memory].
    by rewrite wrap32_small by (unfold u32; lia). }
  split_and!; [done|done| |done| |by split].
  - intros Hin. apply Hnot. apply elem_of_app. by right.
  - split; rewrite ?EP; try done.
    + unfold all_buffers in *. cbn [partition_Memory set_number_of_used_blocks set_partition_Memory].
      change (partition_starting_address (set_number_of_used_blocks _ _)) with (partition_starting_address c).
      change (partition_length (set_number_of_used_blocks _ _)) with (partition_length c).
      change (buffer_size (set_number_of_used_blocks _ _)) with (buffer_size c). rewrite <- H5.
      symmetry. apply Permutation_middle.
    + cbn. rewrite H6. simpl. lia.
Qed.

Lemma return_buffer_out b l : out ≡ₚ b :: l ->
  exists k', partition_return p b k = (true, k') /\
    partition k' p = set_number_of_used_blocks (number_of_used_blocks c - 1) (set_partition_Memory (partition_Memory c ++ [b]) c) /\
    partition_ok p l k' /\ same_threads k k'.
Proof using HO.
  intros EO. pose proof HO as [H1 H2 H3 H4 H5 H6].
  assert (b ∈ all_buffers c) as Hb by (rewrite <- H5, EO; apply elem_of_app; right; left).
  destruct used_bounds as [U1 U2]. pose proof (Permutation_length EO) as EL. simpl in EL.
  unfold partition_return. rewrite buffer_valid by done. eexists. split; [reflexivity|].
  set (k' := upd_partition _ _ _).
  assert (partition k' p = set_number_of_used_blocks (number_of_used_blocks c - 1)
    (set_partition_Memory (partition_Memory c ++ [b]) c)) as EP.
  { unfold k', _Partition_Free_buffer. rewrite !partition_upd. cbn [number_of_used_blocks set_partition_Memory].
    by rewrite wrap32_small by (unfold u32; lia). }
  split; [done|]. split; [|by split]. split; rewrite ?EP; try done.
  - unfold all_buffers in *. cbn [partition_Memory set_number_of_used_blocks set_partition_Memory].
    change (partition_starting_address (set_number_of_used_blocks _ _)) with (partition_starting_address c).
    change (partition_length (set_number_of_used_blocks _ _)) with (partition_length c).
    change (buffer_size (set_number_of_used_blocks _ _)) with (buffer_size c). rewrite <- H5, EO, <- app_assoc. done.
  - cbn. rewrite H6. lia.
Qed.
End Partition.

(** Handing out and taking back: [out] are the buffers that are out.  An address may be
    returned that is on no boundary of a buffer, or outside. *)
Definition on_boundary (c : Partition_Control) (b : Z) : Prop :=
  exists i, 0 <= i <= partition_length c / buffer_size c /\ b = partition_starting_address c + i * buffer_size c.

Inductive partition_step (p : Z) : list Z * Kernel -> list Z * Kernel -> Prop :=
| step_get out k b k' : partition_get p k = (b, k') ->
    partition_step p (out, k) (if b =? NULL then out else b :: out, k')
| step_return out l b k ok k' : out ≡ₚ b :: l -> partition_return p b k = (ok, k') ->
    partition_step p (out, k) (l, k')
| step_refused out b k ok k' : ~ on_boundary (partition k p) b -> partition_return p b k = (ok, k') ->
    partition_step p (out, k) (out, k').

Definition area (c : Partition_Control) : Z * Z * Z := (partition_starting_address c, partition_length c, buffer_size c).

Lemma get_buffer_none p k : partition_Memory (partition k p) = [] -> partition_get p k = (NULL, k).
Proof. intros E. unfold partition_get, _Partition_Allocate_buffer. by rewrite E. Qed.

Lemma partition_step_ok p s s' : partition_step p s s' -> partition_ok p s.1 s.2 ->
  partition_ok p s'.1 s'.2 /\ area (partition s'.2 p) = area (partition s.2 p).
Proof.
  intros [out k b k' E|out l b k ok k' HP E|out b k ok k' HB E] HO; simpl in *.
  - destruct (partition_Memory (partition k p)) as [|b0 rest] eqn:EM.
    + rewrite get_buffer_none in E by done. by simplify_eq.
    + destruct (get_buffer_some p out k HO b0 rest EM) as (k1 & E1 & Hn & _ & _ & EP & HO1 & _).
      rewrite E1 in E. simplify_eq. rewrite (proj2 (Z.eqb_neq _ _) Hn). split; [done|]. by rewrite EP.
  - destruct (return_buffer_out p out k HO b l HP) as (k1 & E1 & EP & HO1 & _). rewrite E1 in E. simplify_eq.
    split; [done|]. by rewrite EP.
  - destruct (return_answer p out k HO b) as [HT HF]. rewrite E in HT, HF. simpl in *.
    destruct ok; [by destruct HB; apply HT|]. by rewrite HF.
Qed.


(** A partition takes back an address that is no buffer of it: the end of the area is
    accepted, and handed out again as a buffer. *)
Theorem partition_accepts_end p out k :
  partition_ok p out k -> partition_length (partition k p) mod buffer_size (partition k p) = 0 ->
  partition_Memory (partition k p) = [] ->
  let ending := partition_starting_address (partition k p) + partition_length (partition k p) in
  let (ok, k') := partition_return p ending k in
  ok = true /\ (partition_get p k').1 = ending.
Proof.
  intros [H1 H2 H3 H4 H5 H6] Hm EM ending. unfold partition_return.
  assert (_Partition_Is_buffer_valid ending (partition k p) = true) as ->.
  { unfold _Partition_Is_buffer_valid, _Addresses_Is_in_range, _Partition_Is_buffer_on_boundary, _Addresses_Add_offset,
      _Addresses_Subtract, ending. rewrite !wrap32_small by (unfold u32; lia).
    replace (partition_starting_address (partition k p) + partition_length (partition k p) - partition_starting_address (partition k p))
      with (partition_length (partition k p)) by lia. rewrite Hm.
    apply andb_true_iff. split; [|done]. apply andb_true_iff. split; apply Z.leb_le; lia. }
  split; [done|]. unfold partition_get, _Partition_Allocate_buffer, _Partition_Free_buffer. rewrite !partition_upd.
  cbn [partition_Memory set_number_of_used_blocks set_partition_Memory]. rewrite EM. simpl.
  rewrite (proj2 (Z.eqb_neq _ _)) by (unfold NULL, ending; lia). done.
Qed.

(** ** Dual-ported memory *)

(** An address of the window is translated to the other side at the same offset and
    back to itself, also where the addresses wrap around; any other address is left
    alone. *)
Theorem port_translation_roundtrip from to length address :
  u32 from -> u32 to -> u32 length -> u32 address ->
  let there := port_translate from to length address in
  if _Addresses_Subtract address from <=? length
  then _Addresses_Subtract there to = _Addresses_Subtract address from /\ port_translate to from length there = address
  else there = address.
Proof.
  intros H1 H2 H3 H4 there. unfold there, port_translate, _Addresses_Subtract, _Addresses_Add_offset.
  destruct (Z.leb_spec (address -w from) length) as [Hle|Hgt].
  - rewrite (proj2 (Z.ltb_ge _ _) Hle).
    assert ((to +w (address -w from)) -w to = address -w from) as E.
    { assert (u32 (address -w from)) as He by (apply Z.mod_pos_bound; done). set (e := address -w from) in *.
      unfold wrap32. rewrite Zminus_mod_idemp_l. replace (to + e - to) with e by lia. by apply Z.mod_small. }
    rewrite E, (proj2 (Z.ltb_ge _ _) Hle). split; [done|].
    unfold wrap32. rewrite Zplus_mod_idemp_r. replace (from + (address - from)) with address by lia. by apply Z.mod_small.
  - by rewrite (proj2 (Z.ltb_lt _ _) Hgt).
Qed.

Lemma port_translation_witness :
  port_translate 4096 1073741824 1023 4608 = 1073742336 /\ port_translate 1073741824 4096 1023 1073742336 = 4608.
Proof.
  split; [reflexivity|].
  destruct (port_translation_roundtrip 4096 1073741824 1023 4608) as [_ H]; [by split..|exact H].
Defined.

Module PartitionExample.
(** Two buffers of 64 bytes at 4096. *)
Definition c0 : Partition_Control :=
  {| partition_starting_address := 4096; partition_length := 128; buffer_size := 64; partition_attribute_set := 0;
     number_of_used_blocks := 0; partition_Memory := [4096; 4160] |}.
Definition p0 : Kernel := upd_partition 9 (fun _ => c0) ThreadExample.k0.

Lemma p0_partition : partition p0 9 = c0.
Proof. apply partition_upd. Qed.

Lemma p0_ok : partition_ok 9 [] p0.
Proof. split; rewrite p0_partition; try done. Qed.
End PartitionExample.


Lemma partition_accepts_end_witness :
  let k := upd_partition 9 (fun c => set_number_of_used_blocks 2 (set_partition_Memory [] c)) PartitionExample.p0 in
  let (ok, k') := partition_return 9 4224 k in ok = true /\ (partition_get 9 k').1 = 4224.
Proof.
  intros k. assert (partition k 9 = set_number_of_used_blocks 2 (set_partition_Memory [] PartitionExample.c0)) as EP
    by (unfold k; rewrite partition_upd; by rewrite PartitionExample.p0_partition).
  assert (partition_ok 9 [4096; 4160] k) as HO by (split; rewrite EP; done).
  pose proof (partition_accepts_end 9 [4096; 4160] k HO) as H. rewrite EP in H. exact (H eq_refl eq_refl).
Defined.
