(* ===== verification/Region.v ===== *)
(** * Region Manager (rtems/src/region.c, rtems/inline/region.inl)

    A region hands out segments of any size from a heap of its own; a thread whose request
    cannot be met may wait on the region's thread queue.  The control block at [r] has its
    thread queue at [r + 16] and its heap at [r + 104]; the words of the memory of all
    regions are [region_memory].  [_Region_Debug_Walk] is empty without [RTEMS_DEBUG]. *)
From S2P Require Import Prelude Chain Watchdog Object Priority ApiTypes Heap Kernel Thread Threadq Workspace CoreMsg Rtems Partition.

Definition region (k : Kernel) (r : Z) : Region_Control := regions (rtems k) !!! r.
Definition upd_region (r : Z) (f : Region_Control -> Region_Control) (k : Kernel) : Kernel :=
  upd_rtems (fun s => set_regions (<[r := f (region k r)]> (regions s)) s) k.
Definition region_words (k : Kernel) : mem := region_memory (rtems k).
Definition put_words (m : mem) (k : Kernel) : Kernel := upd_rtems (set_region_memory m) k.

Definition Wait_queue_of (r : Z) : Z := r + 16.
Definition Memory_of (r : Z) : Z := r + 104.

(** ** Segments (inline/region.inl) *)

Section Segments.
Context (hfuel : nat).

Definition _Region_Allocate_segment (r size : Z) (k : Kernel) : option (Z * Kernel) :=
  match _Heap_Allocate hfuel (region_words k) (Memory_of r) size with
  | None => None
  | Some (the_segment, m) => Some (the_segment, put_words m k)
  end.
Definition _Region_Free_segment (r the_segment : Z) (k : Kernel) : bool * Kernel :=
  let '(status, m) := _Heap_Free (region_words k) (Memory_of r) the_segment in (status, put_words m k).

(** The loop of [rtems_region_return_segment]: the waiting threads are served in order until
    the first of them cannot be.  [isr] is the interrupts that are taken between the
    allocation and the extraction; they may time the thread out. *)
Fixpoint serve_waiting (isr : Kernel -> Kernel) (fuel : nat) (r : Z) (k : Kernel) : option Kernel :=
  match fuel with
  | O => None
  | S fuel =>
      let the_thread := _Thread_queue_First k (Wait_queue_of r) in
      if the_thread =? NULL then Some k
      else
        match _Region_Allocate_segment r (Wait_count (Wait (tcb k the_thread))) k with
        | None => None
        | Some (the_segment, k) =>
            if the_segment =? NULL then Some k
            else
              let k := put_word (Wait_return_argument (Wait (tcb k the_thread))) the_segment k in
              let k := upd_region r (fun c => set_region_used_blocks (region_used_blocks c +w 1) c) k in
              let k := isr k in
              let k := _Thread_queue_Extract (Wait_queue_of r) the_thread k in
              let k := upd_wait the_thread (set_Wait_return_code RTEMS_SUCCESSFUL) k in
              serve_waiting isr fuel r k
        end
  end.

(** The local case of [rtems_region_return_segment]: whether the segment was one. *)
Definition region_return (isr : Kernel -> Kernel) (fuel : nat) (r segment : Z) (k : Kernel) : option (bool * Kernel) :=
  let '(status, k) := _Region_Free_segment r segment k in
  if negb status then Some (false, k)
  else
    let k := upd_region r (fun c => set_region_used_blocks (region_used_blocks c -w 1) c) k in
    match serve_waiting isr fuel r k with None => None | Some k => Some (true, k) end.

(** The local case of [rtems_region_get_segment] up to [_Thread_Enable_dispatch]: how it
    ends.  [Served] has the segment, stored after dispatching was enabled again. *)
Inductive get_outcome : Type :=
| Too_large
| Served (the_segment : Z)
| Refused
| Waiting.

Section Get.
Context (timeout_routine : Z) (wfuel : nat) (wisr : Kernel -> Kernel) (fuel : nat) (isrs : list (Kernel -> Kernel)).

Definition region_get (r id size option_set timeout segment : Z) (k : Kernel) : option (get_outcome * Kernel) :=
  let executing := _Thread_Executing k in
  if maximum_segment_size (region k r) <? size then Some (Too_large, k)
  else
    match _Region_Allocate_segment r size k with
    | None => None
    | Some (the_segment, k) =>
        if negb (the_segment =? NULL)
        then Some (Served the_segment,
                   upd_region r (fun c => set_region_used_blocks (region_used_blocks c +w 1) c) k)
        else if _Options_Is_no_wait option_set then Some (Refused, k)
        else
          let k := upd_wait executing (set_Wait_queue (Wait_queue_of r)) k in
          let k := upd_wait executing (set_Wait_id id) k in
          let k := upd_wait executing (set_Wait_count size) k in
          let k := upd_wait executing (set_Wait_return_argument segment) k in
          let k := _Thread_queue_Enter_critical_section (Wait_queue_of r) k in
          match _Thread_queue_Enqueue timeout_routine wfuel wisr fuel isrs (Wait_queue_of r) timeout k with
          | None => None
          | Some k => Some (Waiting, k)
          end
    end.
End Get.
End Segments.

(** The part of [rtems_region_create] that fills in the control block: the size of the
    largest segment, 0 when the area or the page size is not valid. *)
Definition region_set_up (extract_proxy r starting_address length page_size attribute_set : Z) (k : Kernel) : Z * Kernel :=
  let '(maximum, m) := _Heap_Initialize (region_words k) (Memory_of r) starting_address length page_size in
  let k := upd_region r (set_maximum_segment_size maximum) (put_words m k) in
  if maximum =? 0 then (maximum, k)
  else
    let k := upd_region r (fun c =>
      {| region_starting_address := starting_address; region_length := length; region_page_size := page_size;
         maximum_segment_size := maximum_segment_size c; region_attribute_set := attribute_set;
         region_used_blocks := 0 |}) k in
    (maximum, _Thread_queue_Initialize (Wait_queue_of r) OBJECTS_RTEMS_REGIONS
      (if _Attributes_Is_priority attribute_set
       then THREAD_QUEUE_DISCIPLINE_PRIORITY else THREAD_QUEUE_DISCIPLINE_FIFO)
      STATES_WAITING_FOR_SEGMENT extract_proxy RTEMS_TIMEOUT k).

(** ** Directives *)

Section Directives.
Context (switch : Z -> Z -> Kernel -> Kernel) (postswitch : Kernel -> Kernel).
Context (isrs : list (Kernel -> Kernel)) (fuel : nat) (_Objects_Local_node _Objects_Maximum_nodes name_argument : Z).
Context (hfuel : nat) (extract_proxy : Z).

Notation Get := (object_get switch postswitch isrs fuel _Objects_Local_node _Objects_Maximum_nodes).
Notation Open := (object_open fuel name_argument).
Notation finish := (enable_return switch postswitch isrs fuel).

Definition rtems_region_create (name starting_address length page_size attribute_set id : Z) (k : Kernel)
  : option (Z * Kernel) :=
  if negb (rtems_is_name_valid name) then Some (RTEMS_INVALID_NAME, k)
  else if negb (_Addresses_Is_aligned starting_address) then Some (RTEMS_INVALID_ADDRESS, k)
  else
    let k := _Thread_Disable_dispatch k in
    let '(the_region, k) := object_allocate OBJECTS_RTEMS_REGIONS k in
    if the_region =? NULL then finish RTEMS_TOO_MANY k
    else
      let '(maximum, k) := region_set_up extract_proxy the_region starting_address length page_size attribute_set k in
      if maximum =? 0 then finish RTEMS_INVALID_SIZE (object_free OBJECTS_RTEMS_REGIONS the_region k)
      else
        match Open OBJECTS_RTEMS_REGIONS the_region name k with
        | None => None
        | Some k => finish RTEMS_SUCCESSFUL (put_word id (object_id k OBJECTS_RTEMS_REGIONS the_region) k)
        end.

Definition rtems_region_ident (name id : Z) (k : Kernel) : Z * Kernel :=
  object_ident switch postswitch isrs fuel _Objects_Local_node _Objects_Maximum_nodes name_argument
    OBJECTS_RTEMS_REGIONS name OBJECTS_SEARCH_LOCAL_NODE id k.

Definition rtems_region_delete (id : Z) (k : Kernel) : option (Z * Kernel) :=
  match Get OBJECTS_RTEMS_REGIONS id k with
  | None => None
  | Some (OBJECTS_ERROR, _, k) => Some (RTEMS_INVALID_ID, k)
  | Some (OBJECTS_REMOTE, _, k) => Some (RTEMS_INTERNAL_ERROR, k)
  | Some (OBJECTS_LOCAL, the_region, k) =>
      if region_used_blocks (region k the_region) =? 0 then
        let k := object_close OBJECTS_RTEMS_REGIONS the_region k in
        finish RTEMS_SUCCESSFUL (object_free OBJECTS_RTEMS_REGIONS the_region k)
      else finish RTEMS_RESOURCE_IN_USE k
  end.

(** The local case of [rtems_region_extend]. *)
Definition region_extend (r starting_address length : Z) (k : Kernel) : Z * Kernel :=
  let '(heap_status, amount_extended, m) := _Heap_Extend (region_words k) (Memory_of r) starting_address length in
  let k := put_words m k in
  match heap_status with
  | HEAP_EXTEND_SUCCESSFUL =>
      (RTEMS_SUCCESSFUL, upd_region r (fun c =>
         set_maximum_segment_size (maximum_segment_size c +w amount_extended)
           (set_region_length (region_length c +w amount_extended) c)) k)
  | HEAP_EXTEND_ERROR => (RTEMS_INVALID_ADDRESS, k)
  | HEAP_EXTEND_NOT_IMPLEMENTED => (RTEMS_NOT_IMPLEMENTED, k)
  end.

Definition rtems_region_extend (id starting_address length : Z) (k : Kernel) : option (Z * Kernel) :=
  match Get OBJECTS_RTEMS_REGIONS id k with
  | None => None
  | Some (OBJECTS_ERROR, _, k) => Some (RTEMS_INVALID_ID, k)
  | Some (OBJECTS_REMOTE, _, k) => Some (RTEMS_INTERNAL_ERROR, k)
  | Some (OBJECTS_LOCAL, the_region, k) =>
      let '(status, k) := region_extend the_region starting_address length k in finish status k
  end.

(** [resume] is what happens until the caller is executing again. *)
Definition rtems_region_get_segment (timeout_routine : Z) (wfuel : nat) (wisr resume : Kernel -> Kernel)
    (qisrs : list (Kernel -> Kernel)) (id size option_set timeout segment : Z) (k : Kernel) : option (Z * Kernel) :=
  let k := put_word segment NULL k in
  if size =? 0 then Some (RTEMS_INVALID_SIZE, k)
  else
    let executing := _Thread_Executing k in
    match Get OBJECTS_RTEMS_REGIONS id k with
    | None => None
    | Some (OBJECTS_ERROR, _, k) => Some (RTEMS_INVALID_ID, k)
    | Some (OBJECTS_REMOTE, _, k) => Some (RTEMS_INTERNAL_ERROR, k)
    | Some (OBJECTS_LOCAL, the_region, k) =>
        match region_get hfuel timeout_routine wfuel wisr fuel qisrs the_region id size option_set timeout segment k with
        | None => None
        | Some (Too_large, k) => finish RTEMS_INVALID_SIZE k
        | Some (Served the_segment, k) =>
            match finish RTEMS_SUCCESSFUL k with
            | None => None
            | Some (status, k) => Some (status, put_word segment the_segment k)
            end
        | Some (Refused, k) => finish RTEMS_UNSATISFIED k
        | Some (Waiting, k) =>
            match finish RTEMS_SUCCESSFUL k with
            | None => None
            | Some (_, k) => let k := resume k in Some (Wait_return_code (Wait (tcb k executing)), k)
            end
        end
    end.

Definition rtems_region_get_segment_size (id segment size : Z) (k : Kernel) : option (Z * Kernel) :=
  match Get OBJECTS_RTEMS_REGIONS id k with
  | None => None
  | Some (OBJECTS_ERROR, _, k) => Some (RTEMS_INVALID_ID, k)
  | Some (OBJECTS_REMOTE, _, k) => Some (RTEMS_INTERNAL_ERROR, k)
  | Some (OBJECTS_LOCAL, the_region, k) =>
      match _Heap_Size_of_user_area (region_words k) (Memory_of the_region) segment with
      | Some the_size => finish RTEMS_SUCCESSFUL (put_word size the_size k)
      | None => finish RTEMS_INVALID_ADDRESS k
      end
  end.

Definition rtems_region_return_segment (isr : Kernel -> Kernel) (id segment : Z) (k : Kernel) : option (Z * Kernel) :=
  match Get OBJECTS_RTEMS_REGIONS id k with
  | None => None
  | Some (OBJECTS_ERROR, _, k) => Some (RTEMS_INVALID_ID, k)
  | Some (OBJECTS_REMOTE, _, k) => Some (RTEMS_INTERNAL_ERROR, k)
  | Some (OBJECTS_LOCAL, the_region, k) =>
      match region_return hfuel isr fuel the_region segment k with
      | None => None
      | Some (status, k) => finish (if status : bool then RTEMS_SUCCESSFUL else RTEMS_INVALID_ADDRESS) k
      end
  end.
End Directives.
