(* ===== verification/RegionSpec.v ===== *)
(** * Correctness of regions

    The composition of the heap and of a thread queue: segments are accounted for, and the
    threads that wait are served in the order of the queue. *)
From S2P Require Import Prelude Chain Heap HeapProofs HeapOps HeapSpec Watchdog WatchdogProofs WatchdogOps Object Priority ApiTypes.
From S2P Require Import Kernel Thread ThreadProofs ThreadSpec Threadq ThreadqProofs ThreadqSpec CoreWait Workspace CoreMsg Rtems Partition Region.

(** ** Blocks and segments *)

Definition used_blocks (bs : list block) : Z := Z.of_nat (length (List.filter snd bs)).

Lemma used_app A B : used_blocks (A ++ B) = used_blocks A + used_blocks B.
Proof. unfold used_blocks. rewrite List.filter_app, length_app. lia. Qed.

Lemma used_cons sz u B : used_blocks ((sz, u) :: B) = (if u : bool then 1 else 0) + used_blocks B.
Proof. unfold used_blocks. simpl. destruct u; simpl; lia. Qed.

Lemma used_allocated t bs A sz B : allocated t bs A sz B ->
  used_blocks (A ++ (sz, true) :: B) = used_blocks bs + 1 /\ total (A ++ (sz, true) :: B) = total bs.
Proof. intros [A0 s0 B0 H|A0 s0 B0 H]; rewrite !used_app, ?used_app, !used_cons, !total_app;
  change (used_blocks []) with 0; simpl; rewrite ?total_app; simpl; lia.
Qed.

Lemma used_freed A sz B : used_blocks (freed A sz B) = used_blocks A + used_blocks B.
Proof.
  destruct (neighbours A B) as [[HA|(A0 & s0 & ->)] [HB|(s1 & B0 & ->)]].
  - rewrite freed_none, used_app, used_cons by done. lia.
  - rewrite freed_next, used_app, !used_cons by done. lia.
  - rewrite freed_prev, !used_app, !used_cons by done. change (used_blocks []) with 0. lia.
  - rewrite freed_both, !used_app, !used_cons. change (used_blocks []) with 0. lia.
Qed.

Lemma blocks_total bs : Forall block_ok bs -> 16 * Z.of_nat (length bs) <= total bs.
Proof. induction 1 as [|[sz u] bs [H1 H2] _ IH]; simpl in *; lia. Qed.

Lemma used_bound bs : Forall block_ok bs -> 0 <= used_blocks bs /\ 16 * used_blocks bs <= total bs.
Proof.
  intros H%blocks_total. unfold used_blocks. pose proof (List.filter_length_le snd bs). lia.
Qed.

Lemma free_list_bound m h start ps bs fl : heap_rep m h start ps bs fl -> 16 * Z.of_nat (length fl) <= total bs.
Proof.
  intros HR. rewrite (Permutation_length (hr_free _ _ _ _ _ _ HR)). etransitivity; [|apply blocks_total, HR].
  clear. revert start. induction bs as [|[sz []] bs IH]; intros start; simpl; [lia|..]; specialize (IH (start + sz)); lia.
Qed.

(** [p] points to [size] bytes of a used block. *)
Definition segment (m : mem) (start : Z) (bs : list block) (p size : Z) : Prop :=
  exists A sz B, bs = A ++ (sz, true) :: B /\ owns m (start + total A) sz p size.

Lemma segment_words m h start ps bs fl p size w : heap_rep m h start ps bs fl ->
  segment m start bs p size -> p - 4 <= w < p + size -> user_word start bs w.
Proof.
  intros HR (A & sz & B & -> & H1 & H2 & _ & H4) Hw. exists A, sz, B. split; [done|].
  pose proof (hr_align _ _ _ _ _ _ HR) as Ha. pose proof (hr_ok _ _ _ _ _ _ HR) as Hb. apply Forall_app in Hb as [Hb _].
  apply total_mod4 in Hb. assert (start + total A + 12 <= p) by (Z.div_mod_to_equations; lia). lia.
Qed.

(** Two areas with their offset words. *)
Definition disjoint (p size p' size' : Z) : Prop := p + size <= p' - 4 \/ p' + size' <= p - 4.

Lemma disjoint_words p size p' size' : 0 <= size -> 0 <= size' ->
  (forall w, p - 4 <= w < p + size -> w < p' - 4 \/ p' + size' <= w) -> disjoint p size p' size'.
Proof. intros H1 H2 H. unfold disjoint. pose proof (H (p' - 4)). pose proof (H (p - 4)). lia. Qed.

(** A used block stays where it is when another is allocated. *)
Lemma allocated_keeps t bs A' sz' B' A sz B : allocated t bs A' sz' B' -> bs = A ++ (sz, true) :: B ->
  exists A2 B2, A' ++ (sz', true) :: B' = A2 ++ (sz, true) :: B2 /\ total A2 = total A.
Proof.
  intros [A0 s0 B0 H|A0 s0 B0 H] E; symmetry in E; apply List.app_eq_app in E as (l & [[-> E]|[-> E]]);
    (destruct l as [|[s1 x] l]; simpl in E; [congruence|]); injection E as <- <- E; subst.
  - eexists (_ ++ (s0, true) :: l), _. rewrite <- app_assoc. split; [done|]. rewrite !total_app. simpl. lia.
  - eexists A, _. rewrite <- !app_assoc. split; [done|lia].
  - exists (A0 ++ (s0 - t, false) :: (t, true) :: l), B. rewrite <- !app_assoc. split; [done|].
    rewrite !total_app. simpl. lia.
  - eexists A, _. rewrite <- !app_assoc. simpl. split; [done|lia].
Qed.

(** ** The invariant of a region *)

(** The heap is the sequence [bs] of blocks from [start]; as many are used as the region
    counts; the requests of the threads that wait are at most [maximum_segment_size]. *)
Record region_ok (r start : Z) (bs : list block) (k : Kernel) : Prop := {
  rg_heap : exists fl, heap_rep (region_words k) (Memory_of r) start (region_page_size (region k r)) bs fl;
  rg_page : exists j, region_page_size (region k r) = 2 ^ j /\ 3 <= j;
  rg_maximum : maximum_segment_size (region k r) + 2 * region_page_size (region k r) + 8 < two32;
  rg_used : region_used_blocks (region k r) = used_blocks bs;
  rg_queue : tq_ok k (Wait_queue_of r);
  rg_sched : sched_ok k;
  rg_sync : sync_state (tq k (Wait_queue_of r)) = THREAD_QUEUE_SYNCHRONIZED;
  rg_state : tq_state (tq k (Wait_queue_of r)) = STATES_WAITING_FOR_SEGMENT;
  rg_null : NULL ∉ tq_list k (Wait_queue_of r);
  rg_requests : forall u, u ∈ tq_list k (Wait_queue_of r) ->
    0 <= Wait_count (Wait (tcb k u)) <= maximum_segment_size (region k r)
}.

Lemma region_upd k r f : region (upd_region r f k) r = f (region k r).
Proof. unfold region at 1, upd_region, upd_rtems. simpl. apply lookup_total_insert_eq. Qed.

Lemma put_words_threads m k : same_threads k (put_words m k).
Proof. by split. Qed.
Lemma upd_region_threads r f k : same_threads k (upd_region r f k).
Proof. by split. Qed.
Lemma put_word_threads a v k : same_threads k (put_word a v k).
Proof. by split. Qed.

(** The memory and the count of a region change, the threads do not. *)
Lemma region_ok_memory r start bs bs' k k' : region_ok r start bs k -> same_threads k k' ->
  (exists fl, heap_rep (region_words k') (Memory_of r) start (region_page_size (region k r)) bs' fl) ->
  region k' r = set_region_used_blocks (used_blocks bs') (region k r) -> region_ok r start bs' k'.
Proof.
  intros [A B C D E F G H I J] HT HR EC. pose proof (fun u => same_threads_tcb k k' u HT) as ET.
  pose proof (same_threads_list k k' (Wait_queue_of r) HT) as EL.
  split; rewrite ?EC, ?EL, ?(ts_queue _ _ (same_threads_tq _ _ HT)); try done.
  - by apply (same_threads_tq_ok k).
  - by apply (same_threads_sched k).
  - intros u Hu. rewrite ET. by apply J.
Qed.

(** The threads change and the region does not. *)
Lemma region_ok_threads r start bs k k' : region_ok r start bs k -> core_same k k' ->
  tq_ok k' (Wait_queue_of r) -> sched_ok k' ->
  sync_state (tq k' (Wait_queue_of r)) = THREAD_QUEUE_SYNCHRONIZED ->
  tq_state (tq k' (Wait_queue_of r)) = STATES_WAITING_FOR_SEGMENT ->
  NULL ∉ tq_list k' (Wait_queue_of r) ->
  (forall u, u ∈ tq_list k' (Wait_queue_of r) ->
    0 <= Wait_count (Wait (tcb k' u)) <= maximum_segment_size (region k r)) -> region_ok r start bs k'.
Proof.
  intros [A B C D E F G H I J] HC. assert (region k' r = region k r) as ER by (unfold region; by rewrite (cs_rtems _ _ HC)).
  assert (region_words k' = region_words k) as EW by (unfold region_words; by rewrite (cs_rtems _ _ HC)).
  intros. split; rewrite ?ER, ?EW; done.
Qed.

Lemma first_head k q : tq_ok k q -> _Thread_queue_First k q = hd NULL (tq_list k q).
Proof.
  intros HQ. unfold _Thread_queue_First. destruct (discipline (tq k q)) eqn:HD.
  - unfold tq_list. by rewrite HD.
  - unfold _Thread_queue_First_priority. pose proof (first_of_headers_list k q HD) as HF.
    destruct (first_of_headers k q priority_headers) as [[i t]|]; [|by rewrite HF].
    by destruct HF as (_ & _ & rest & ->).
Qed.

Lemma extract_first q k u rest : tq_ok k q -> sched_ok k -> tq_list k q = u :: rest ->
  let k' := _Thread_queue_Extract q u k in
    tq_list k' q = rest /\ tq_ok k' q /\ sched_ok k' /\
    (sync_state (tq k' q) = sync_state (tq k q) /\ discipline (tq k' q) = discipline (tq k q) /\
     tq_state (tq k' q) = tq_state (tq k q) /\ timeout_status (tq k' q) = timeout_status (tq k q)) /\
    core_same k k' /\ _Thread_Executing k' = _Thread_Executing k /\
    forall v, but_block2n (tcb k' v) = but_block2n (if decide (v = u) then unblocked (tcb k u) else tcb k v).
Proof.
  intros HQ HS EL. assert (u ∈ tq_list k q) as Hin by (rewrite EL; left).
  destruct (extract_spec q u k HQ Hin) as (k1 & HT & ->). cbv zeta.
  pose proof (released_list q u k k1 HT) as RL. rewrite EL in RL. simpl in RL. rewrite decide_True in RL by done.
  destruct (released_core q u k k1 HT) as [RC RE].
  split; [done|]. split; [by apply (released_tq_ok q u k)|].
  split; [by apply (released_sched q u k)|]. split; [by apply released_queue|]. split; [done|]. split; [done|].
  intros v. rewrite (released_tcb q u k) by done. by case_decide.
Qed.

(** ** Allocation *)

(** No free block is large enough for a request of [size] bytes. *)
Definition no_fit (bs : list block) (ps size : Z) : Prop :=
  forall A sz B, bs = A ++ (sz, false) :: B -> sz < heap_request_size ps size.

(** What holds of the words [m] of a heap still holds of [m'] when segments were added. *)
Record grown (start : Z) (m : mem) (bs : list block) (m' : mem) (bs' : list block) : Prop := {
  gr_total : total bs' = total bs;
  gr_words : forall w, user_word start bs w -> user_word start bs' w /\ ld m' w = ld m w;
  gr_segments : forall p size, 0 <= size -> segment m start bs p size -> segment m' start bs' p size
}.
Lemma grown_refl start m bs : grown start m bs m bs.
Proof. by split. Qed.
Lemma grown_trans start m bs m1 bs1 m2 bs2 : grown start m bs m1 bs1 -> grown start m1 bs1 m2 bs2 -> grown start m bs m2 bs2.
Proof.
  intros [A B C] [D E F]. split; [congruence| |auto].
  intros w Hw. destruct (B w Hw) as [B1 B2]. destruct (E w B1) as [E1 E2]. split; congruence.
Qed.

(** A new segment at [p], apart from all the others. *)
Record added (start : Z) (m : mem) (bs : list block) (p size : Z) (m' : mem) (bs' : list block) : Prop := {
  ad_grown : grown start m bs m' bs';
  ad_segment : segment m' start bs' p size;
  ad_pointer : p <> NULL;
  ad_disjoint : forall p' size', 0 <= size' -> segment m start bs p' size' -> disjoint p' size' p size;
  ad_used : used_blocks bs' = used_blocks bs + 1
}.

Lemma put_same_words k : put_words (region_words k) k = k.
Proof.
  unfold put_words, upd_rtems, region_words. assert (forall s, set_region_memory (region_memory s) s = s) as E by (by intros []).
  rewrite E. by destruct k.
Qed.

Section Allocate.
Context (hfuel : nat) (r start size : Z) (bs : list block) (k : Kernel) (HO : region_ok r start bs k).
Notation ps := (region_page_size (region k r)).
Context (Hs : 0 <= size <= maximum_segment_size (region k r)) (Hf : total bs < 16 * Z.of_nat hfuel).

Lemma region_allocate :
  (exists p m bs', _Region_Allocate_segment hfuel r size k = Some (p, put_words m k) /\
     (exists fl, heap_rep m (Memory_of r) start ps bs' fl) /\ added start (region_words k) bs p size m bs') \/
  (_Region_Allocate_segment hfuel r size k = Some (NULL, k) /\ no_fit bs ps size).
Proof using HO Hs Hf.
  destruct (rg_heap _ _ _ _ HO) as [fl HR]. destruct (rg_page _ _ _ _ HO) as (j & Hj & Hj3).
  pose proof (rg_maximum _ _ _ _ HO) as Hmax. pose proof (free_list_bound _ _ _ _ _ _ HR) as HF.
  unfold _Region_Allocate_segment.
  destruct (allocate_spec hfuel (region_words k) (Memory_of r) start ps j bs fl size HR Hj Hj3)
    as [(p & m & A & sz & B & fl' & E & Hp & HA & HR' & HW & _ & HU)|(E & HN)]; try lia.
  - left. exists p, m, (A ++ (sz, true) :: B). rewrite E. split; [done|]. split; [by eexists|].
    destruct (used_allocated _ _ _ _ _ HA) as [HU1 HU2].
    assert (forall w, user_word start bs w -> user_word start (A ++ (sz, true) :: B) w) as HUW.
    { intros w (A0 & s0 & B0 & EB & Hw). destruct (allocated_keeps _ _ _ _ _ _ _ _ HA EB) as (A2 & B2 & E2 & Ht).
      exists A2, s0, B2. by rewrite Ht. }
    split; try done; [split; [done| |]|exists A, sz, B; done|].
    + intros w Hw. split; [by apply HUW|by apply HU].
    + intros p0 s0 Hs0 HS. destruct (HS) as (A0 & z0 & B0 & EB & H1 & H2 & H3 & H4).
      destruct (allocated_keeps _ _ _ _ _ _ _ _ HA EB) as (A2 & B2 & E2 & Ht).
      exists A2, z0, B2. split; [done|]. rewrite Ht. split; [done|]. split; [done|]. split; [|done].
      rewrite <- H3. apply HU. eapply segment_words; [exact HR|exact HS|lia].
    + intros p0 s0 Hs0 HS. apply disjoint_words; [done|lia|]. intros w Hw. apply HU.
      eapply segment_words; [exact HR|exact HS|lia].
  - right. rewrite E, put_same_words. done.
Qed.

Lemma no_fit_refuses : no_fit bs ps size -> _Region_Allocate_segment hfuel r size k = Some (NULL, k).
Proof using HO Hs Hf.
  intros Hfit. destruct (rg_heap _ _ _ _ HO) as [fl HK]. destruct (rg_page _ _ _ _ HO) as (j & Hj & Hj3).
  pose proof (rg_maximum _ _ _ _ HO) as Hmax. pose proof (free_list_bound _ _ _ _ _ _ HK) as HFB.
  unfold _Region_Allocate_segment.
  destruct (allocate_spec hfuel (region_words k) (Memory_of r) start ps j bs fl size HK Hj Hj3)
    as [(p' & m' & A & sz & B & fl' & E' & Hp & HAl & _)|(E' & _)]; try lia.
  - exfalso. destruct HAl as [A0 s0 B0 Hle|A0 s0 B0 Hle]; specialize (Hfit A0 s0 B0 eq_refl); lia.
  - by rewrite E', put_same_words.
Qed.
End Allocate.

(** ** Serving the threads that wait *)

Notation count k u := (Wait_count (Wait (tcb k u))).
Definition apart_in (k : Kernel) (a b : Z * Z) : Prop := disjoint (snd a) (count k (fst a)) (snd b) (count k (fst b)).

(** The threads and segments [l] were served: [rest] still waits. *)
Record served (r start : Z) (bs : list block) (k : Kernel) (l : list (Z * Z)) (rest : list Z) (bs' : list block) (k' : Kernel)
  : Prop := {
  sv_ok : region_ok r start bs' k';
  sv_grown : grown start (region_words k) bs (region_words k') bs';
  sv_queue : tq_list k (Wait_queue_of r) = map fst l ++ rest;
  sv_rest : tq_list k' (Wait_queue_of r) = rest;
  sv_used : used_blocks bs' = used_blocks bs + Z.of_nat (length l);
  sv_segments : forall u p, (u, p) ∈ l -> p <> NULL /\ segment (region_words k') start bs' p (count k u);
  sv_others : forall p size, 0 <= size -> segment (region_words k) start bs p size ->
    forall u q, (u, q) ∈ l -> disjoint p size q (count k u);
  sv_disjoint : List.ForallOrdPairs (apart_in k) l;
  sv_memory : memory k' = fold_left (fun m '(u, p) => st32 m (Wait_return_argument (Wait (tcb k u))) p) l (memory k);
  sv_region : region k' r = set_region_used_blocks (used_blocks bs') (region k r);
  sv_executing : _Thread_Executing k' = _Thread_Executing k;
  sv_tcb : forall v, but_block2n (tcb k' v) = but_block2n (if decide (v ∈ map fst l)
    then with_code RTEMS_SUCCESSFUL (unblocked (tcb k v)) else tcb k v)
}.

Lemma served_nil r start bs k : region_ok r start bs k -> served r start bs k [] (tq_list k (Wait_queue_of r)) bs k.
Proof.
  intros HO. split; try done.
  - simpl. lia.
  - intros u p H. by apply elem_of_nil in H.
  - intros p size _ _ u q H. by apply elem_of_nil in H.
  - constructor.
  - simpl. rewrite <- (rg_used _ _ _ _ HO). by destruct (region k r).
Qed.

Section Step.
Context (r start : Z) (bs : list block) (k : Kernel) (HO : region_ok r start bs k).
Notation q := (Wait_queue_of r).
Context (u : Z) (rest : list Z) (EL : tq_list k q = u :: rest).
Context (p : Z) (m : mem) (bs' : list block) (HR : exists fl, heap_rep m (Memory_of r) start (region_page_size (region k r)) bs' fl).
Context (HA : added start (region_words k) bs p (count k u) m bs').

Definition given : Kernel :=
  upd_region r (fun c => set_region_used_blocks (region_used_blocks c +w 1) c)
    (put_word (Wait_return_argument (Wait (tcb k u))) p (put_words m k)).
Definition given_out : Kernel :=
  upd_wait u (set_Wait_return_code RTEMS_SUCCESSFUL) (_Thread_queue_Extract q u given).

Lemma given_threads : same_threads k given.
Proof using.
  eapply same_threads_trans; [|apply upd_region_threads]. eapply same_threads_trans; [|apply put_word_threads].
  apply put_words_threads.
Qed.

Lemma used_small : used_blocks bs' < two32.
Proof using HR.
  destruct HR as [fl HR']. destruct (used_bound bs' (hr_ok _ _ _ _ _ _ HR')) as [H1 H2].
  pose proof (hr_high _ _ _ _ _ _ HR'). pose proof (hr_low _ _ _ _ _ _ HR'). lia.
Qed.

Lemma given_region : region given r = set_region_used_blocks (used_blocks bs') (region k r).
Proof using HO HR HA.
  unfold given. rewrite region_upd. change (region (put_word _ _ _) r) with (region k r).
  pose proof used_small. destruct (rg_heap _ _ _ _ HO) as [fl HK].
  destruct (used_bound bs (hr_ok _ _ _ _ _ _ HK)) as [H1 _]. rewrite (rg_used _ _ _ _ HO).
  rewrite wrap32_small by (rewrite <- (ad_used _ _ _ _ _ _ _ HA); pose proof (ad_used _ _ _ _ _ _ _ HA); unfold u32; lia).
  by rewrite <- (ad_used _ _ _ _ _ _ _ HA).
Qed.

Lemma given_region_ok : region_ok r start bs' given.
Proof using HO HR HA. apply (region_ok_memory r start bs bs' k); [done|apply given_threads|exact HR|apply given_region]. Qed.
Lemma given_out_tcb v : but_block2n (tcb given_out v) =
  but_block2n (if decide (v = u) then with_code RTEMS_SUCCESSFUL (unblocked (tcb k u)) else tcb k v).
Proof using HO HR HA EL.
  pose proof given_threads as HT. pose proof (fun v => same_threads_tcb _ _ v HT) as ET.
  pose proof given_region_ok as HG. assert (tq_list given q = u :: rest) as EG by (by rewrite (same_threads_list _ _ _ HT)).
  destruct (extract_first q given u rest (rg_queue _ _ _ _ HG) (rg_sched _ _ _ _ HG) EG) as (_ & _ & _ & _ & _ & _ & ETC).
  unfold given_out. rewrite code_tcb. pose proof (ETC u) as Eu. specialize (ETC v). rewrite !ET in *.
  rewrite decide_True in Eu by done. case_decide; [|done]. subst v.
  exact (f_equal (with_code RTEMS_SUCCESSFUL) Eu).
Qed.

Lemma given_out_spec : tq_list given_out q = rest /\ region_ok r start bs' given_out /\ region_words given_out = m /\
  region given_out r = set_region_used_blocks (used_blocks bs') (region k r) /\
  memory given_out = st32 (memory k) (Wait_return_argument (Wait (tcb k u))) p /\ _Thread_Executing given_out = _Thread_Executing k.
Proof using HO HR HA EL.
  pose proof given_threads as HT. pose proof given_region_ok as HG.
  assert (tq_list given q = u :: rest) as EG by (by rewrite (same_threads_list _ _ _ HT)).
  destruct (extract_first q given u rest (rg_queue _ _ _ _ HG) (rg_sched _ _ _ _ HG) EG) as (X1 & X2 & X3 & (X4 & _ & X5 & _) & X6 & X7 & _).
  set (k1 := _Thread_queue_Extract q u given) in *.
  assert (core_same given given_out) as HC by (etransitivity; [exact X6|apply core_upd_thread]).
  assert (tq_list given_out q = rest) as EL2 by (unfold given_out; by rewrite code_list).
  assert (known k1 u) as Hku by (apply X6, (to_known _ _ (rg_queue _ _ _ _ HG)); rewrite EG; left).
  split; [done|]. split; [|split_and!].
  - eapply (region_ok_threads r start bs' given); try done.
    + by apply code_tq_ok.
    + by apply code_sched.
    + change (tq given_out q) with (tq k1 q). rewrite X4. apply HG.
    + change (tq given_out q) with (tq k1 q). rewrite X5. apply HG.
    + rewrite EL2. intros Hn. apply (rg_null _ _ _ _ HO). rewrite EL. by right.
    + rewrite EL2. intros v Hv. rewrite given_region. change (maximum_segment_size (set_region_used_blocks _ _))
        with (maximum_segment_size (region k r)).
      assert (count given_out v = count k v) as ->; [|apply (rg_requests _ _ _ _ HO); rewrite EL; by right].
      pose proof (f_equal (fun c => Wait_count (Wait c)) (given_out_tcb v)) as E. simpl in E. rewrite E. by case_decide; subst.
  - unfold region_words. by rewrite (cs_rtems _ _ HC).
  - rewrite <- given_region. unfold region. by rewrite (cs_rtems _ _ HC).
  - by rewrite (cs_memory _ _ HC).
  - change (_Thread_Executing given_out) with (_Thread_Executing k1). by rewrite X7.
Qed.

Lemma given_out_wait v : count given_out v = count k v /\
  Wait_return_argument (Wait (tcb given_out v)) = Wait_return_argument (Wait (tcb k v)).
Proof using HO HR HA EL.
  pose proof (given_out_tcb v) as E. split.
  - pose proof (f_equal (fun c => Wait_count (Wait c)) E) as E'. simpl in E'. rewrite E'. by case_decide; subst.
  - pose proof (f_equal (fun c => Wait_return_argument (Wait c)) E) as E'. simpl in E'. rewrite E'. by case_decide; subst.
Qed.

Lemma served_cons l rest' bs2 k2 : served r start bs' given_out l rest' bs2 k2 -> served r start bs k ((u, p) :: l) rest' bs2 k2.
Proof using HO HR HA EL.
  intros [A B C D E F G H I J K L]. destruct given_out_spec as (S1 & S2 & S3 & S4 & S5 & S6).
  pose proof given_out_wait as SW. destruct HA as [AG AS AP AD AU]. rewrite S3 in *.
  assert (forall v, v ∈ tq_list k q -> 0 <= count k v) as Hpos by (intros v Hv; by apply (rg_requests _ _ _ _ HO)).
  assert (forall v x, (v, x) ∈ l -> v ∈ rest) as Hin.
  { intros v x Hv. rewrite <- S1, C. apply elem_of_app. left. apply list_elem_of_fmap. by exists (v, x). }
  assert (u ∉ rest) as Hu.
  { pose proof (to_nodup _ _ (rg_queue _ _ _ _ HO)) as HN. rewrite EL in HN. by apply NoDup_cons in HN as [HN _]. }
  assert (0 <= count k u) as Hcu by (apply Hpos; rewrite EL; left).
  split; try done.
  - by eapply grown_trans.
  - rewrite EL. simpl. f_equal. by rewrite <- C.
  - rewrite E, AU. simpl. lia.
  - intros v x [[= -> ->]|Hv]%elem_of_cons.
    + split; [done|]. apply B; done.
    + rewrite <- (proj1 (SW v)). by apply F.
  - intros x size Hx HS v y [[= -> ->]|Hv]%elem_of_cons; [by apply AD|].
    rewrite <- (proj1 (SW v)). apply G; [done|by apply AG|done].
  - constructor.
    + apply Forall_forall. intros [v x] Hv. unfold apart_in. simpl. rewrite <- (proj1 (SW v)). by apply (G p (count k u)).
    + clear -H SW. induction H as [|a l Ha Hl IH]; constructor; [|done]. eapply Forall_impl; [exact Ha|].
      intros b Hb. unfold apart_in in *. by rewrite !(proj1 (SW _)) in Hb.
  - rewrite I, S5. simpl. clear -SW. generalize (st32 (memory k) (Wait_return_argument (Wait (tcb k u))) p).
    induction l as [|[v x] l IH]; intros mm; [done|]. simpl. by rewrite IH, (proj2 (SW v)).
  - rewrite J, S4. by destruct (region k r).
  - by rewrite K.
  - intros v. rewrite L. simpl map. pose proof (given_out_tcb v) as Ev. destruct (decide (v = u)) as [-> |Hv].
    + rewrite decide_False, decide_True; [done|left|].
      intros Hx. apply Hu. apply list_elem_of_fmap in Hx as ([w x] & -> & Hx). by apply (Hin w x).
    + destruct (decide (v ∈ map fst l)) as [Hl|Hl].
      * rewrite decide_True by (by right). exact (f_equal (fun c => with_code RTEMS_SUCCESSFUL (unblocked c)) Ev).
      * rewrite decide_False by (by intros [?|?]%elem_of_cons). done.
Qed.
End Step.

(** The loop: the head of the threads that are left cannot be served. *)
Lemma serve_spec hfuel r start fuel bs k : region_ok r start bs k -> total bs < 16 * Z.of_nat hfuel ->
  (length (tq_list k (Wait_queue_of r)) < fuel)%nat ->
  exists k' bs' l rest, serve_waiting hfuel id fuel r k = Some k' /\ served r start bs k l rest bs' k' /\
    match rest with [] => True | u :: _ => no_fit bs' (region_page_size (region k r)) (count k u) end.
Proof.
  revert bs k. induction fuel as [|fuel IH]; intros bs k HO Hh Hf; [lia|]. simpl.
  rewrite first_head by apply HO. destruct (tq_list k (Wait_queue_of r)) as [|u rest] eqn:EL.
  - exists k, bs, [], []. split; [done|]. split; [|done]. rewrite <- EL. by apply served_nil.
  - simpl hd. assert (u <> NULL) as Hu by (intros ->; apply (rg_null _ _ _ _ HO); rewrite EL; left).
    rewrite (proj2 (Z.eqb_neq _ _) Hu).
    assert (0 <= count k u <= maximum_segment_size (region k r)) as Hc by (apply (rg_requests _ _ _ _ HO); rewrite EL; left).
    destruct (region_allocate hfuel r start _ bs k HO Hc Hh) as [(p & m & bs' & E & HR & HA)|(E & HN)]; rewrite E.
    + rewrite (proj2 (Z.eqb_neq _ _) (ad_pointer _ _ _ _ _ _ _ HA)).
      change (tcb (put_words m k) u) with (tcb k u). unfold id at 1. fold (given r k u p m). fold (given_out r k u p m).
      destruct (given_out_spec r start bs k HO u rest EL p m bs' HR HA) as (S1 & S2 & _ & S4 & _).
      destruct (IH bs' (given_out r k u p m) S2) as (k' & bs2 & l & rest' & E' & HS & HM).
      { by rewrite (gr_total _ _ _ _ _ (ad_grown _ _ _ _ _ _ _ HA)). }
      { rewrite S1. simpl in Hf. lia. }
      exists k', bs2, ((u, p) :: l), rest'. split; [done|]. split; [by eapply served_cons|].
      destruct rest' as [|v rest']; [done|]. rewrite S4 in HM.
      by rewrite (proj1 (given_out_wait r start bs k HO u rest EL p m bs' HR HA v)) in HM.
    + exists k, bs, [], (u :: rest). change (NULL =? NULL) with true. split; [done|]. split; [|done].
      rewrite <- EL. by apply served_nil.
Qed.

(** ** Returning a segment *)

Lemma user_word_merge start A s0 s1 B w :
  user_word start (A ++ (s0, false) :: (s1, false) :: B) w -> user_word start (A ++ (s0 + s1, false) :: B) w.
Proof.
  intros (A1 & s & B1 & E & Hw). symmetry in E. apply List.app_eq_app in E as (l & [[-> E]|[-> E]]);
    (destruct l as [|[s2 x] l]; simpl in E; [congruence|]); injection E as <- <- E.
  - destruct l as [|[s3 x] l]; simpl in E; [congruence|]. injection E as <- <- ->.
    exists (A ++ (s0 + s1, false) :: l), s, B1. rewrite <- app_assoc. split; [done|].
    rewrite !total_app in *. simpl in *. lia.
  - subst B1. exists A1, s, (l ++ (s0 + s1, false) :: B). by rewrite <- app_assoc.
Qed.

Lemma user_word_freed start A sz B w : user_word start (A ++ (sz, false) :: B) w -> user_word start (freed A sz B) w.
Proof.
  destruct (neighbours A B) as [[HA|(A0 & s0 & ->)] [HB|(s1 & B0 & ->)]].
  - by rewrite freed_none.
  - rewrite freed_next by done. apply user_word_merge.
  - rewrite freed_prev by done. rewrite <- app_assoc. apply user_word_merge.
  - rewrite freed_both, <- app_assoc. simpl. intros Hw. rewrite (Z.add_comm s1).
    apply user_word_merge. change (A0 ++ (s0, false) :: (sz + s1, false) :: B0) with (A0 ++ [(s0, false)] ++ (sz + s1, false) :: B0).
    rewrite app_assoc. apply user_word_merge. rewrite <- app_assoc. exact Hw.
Qed.

Lemma region_return_spec hfuel fuel r start A sz B k p size :
  region_ok r start (A ++ (sz, true) :: B) k -> owns (region_words k) (start + total A) sz p size ->
  total (A ++ (sz, true) :: B) < 16 * Z.of_nat hfuel -> (length (tq_list k (Wait_queue_of r)) < fuel)%nat ->
  exists k0 k' bs' l rest, region_return hfuel id fuel r p k = Some (true, k') /\ same_threads k k0 /\ memory k0 = memory k /\
    region k0 r = set_region_used_blocks (region_used_blocks (region k r) - 1) (region k r) /\
    (forall w, user_word start (A ++ (sz, false) :: B) w -> ld (region_words k0) w = ld (region_words k) w) /\
    served r start (freed A sz B) k0 l rest bs' k' /\
    match rest with [] => True | u :: _ => no_fit bs' (region_page_size (region k r)) (count k u) end.
Proof.
  intros HO HW Hh Hf. destruct (rg_heap _ _ _ _ HO) as [fl HR].
  destruct (free_spec _ _ _ _ _ _ _ _ _ HW _ HR) as (m & fl' & E & HR' & HU).
  unfold region_return, _Region_Free_segment. rewrite E. cbn [negb].
  set (k0 := upd_region r _ _). assert (same_threads k k0) as HT.
  { eapply same_threads_trans; [|apply upd_region_threads]. apply put_words_threads. }
  assert (region k0 r = set_region_used_blocks (region_used_blocks (region k r) - 1) (region k r)) as ER.
  { unfold k0. rewrite region_upd. change (region (put_words _ _) r) with (region k r).
    destruct (used_bound _ (hr_ok _ _ _ _ _ _ HR)) as [H1 H2].
    pose proof (hr_high _ _ _ _ _ _ HR). pose proof (hr_low _ _ _ _ _ _ HR). rewrite (rg_used _ _ _ _ HO).
    rewrite !used_app, !used_cons in *. rewrite wrap32_small; [done|]. unfold used_blocks in *. unfold u32. lia. }
  assert (region_ok r start (freed A sz B) k0) as HO0.
  { apply (region_ok_memory r start (A ++ (sz, true) :: B) _ k); [done|done|by exists fl'|].
    rewrite ER, (rg_used _ _ _ _ HO), used_freed, used_app, used_cons. f_equal. lia. }
  destruct (serve_spec hfuel r start fuel (freed A sz B) k0 HO0) as (k' & bs' & l & rest & E' & HS & HM).
  { by rewrite total_freed. }
  { by rewrite (same_threads_list _ _ _ HT). }
  rewrite E'. exists k0, k', bs', l, rest. split_and!; try done.
  destruct rest; [done|]. rewrite ER in HM. by rewrite (same_threads_tcb _ _ _ HT) in HM.
Qed.

(** C21: returning a segment gives its block back to the heap, merged with its free
    neighbours, and then serves the threads that wait, in the order of the queue, until
    there are none or the first cannot be served: no free block is large enough for it.
    Every thread served gets a segment of the size it asked for, stored where it asked,
    apart from those of the others and from all that were in use, is ready and sees
    RTEMS_SUCCESSFUL; the others are as before.  The words of all other segments keep
    their values, and the region counts the blocks in use. *)
Theorem region_return_correct hfuel fuel r start A sz B k p size :
  region_ok r start (A ++ (sz, true) :: B) k -> owns (region_words k) (start + total A) sz p size ->
  total (A ++ (sz, true) :: B) < 16 * Z.of_nat hfuel -> (length (tq_list k (Wait_queue_of r)) < fuel)%nat ->
  exists k' bs' l rest, region_return hfuel id fuel r p k = Some (true, k') /\ region_ok r start bs' k' /\
    tq_list k (Wait_queue_of r) = map fst l ++ rest /\ tq_list k' (Wait_queue_of r) = rest /\
    match rest with [] => True | u :: _ => no_fit bs' (region_page_size (region k r)) (count k u) end /\
    region_used_blocks (region k' r) = region_used_blocks (region k r) - 1 + Z.of_nat (length l) /\
    (forall u s, (u, s) ∈ l -> s <> NULL /\ segment (region_words k') start bs' s (count k u)) /\
    List.ForallOrdPairs (apart_in k) l /\
    (forall w, user_word start (A ++ (sz, false) :: B) w ->
       user_word start bs' w /\ ld (region_words k') w = ld (region_words k) w) /\
    memory k' = fold_left (fun m '(u, s) => st32 m (Wait_return_argument (Wait (tcb k u))) s) l (memory k) /\
    forall v, but_block2n (tcb k' v) = but_block2n (if decide (v ∈ map fst l)
      then with_code RTEMS_SUCCESSFUL (unblocked (tcb k v)) else tcb k v).
Proof.
  intros HO HW Hh Hf.
  destruct (region_return_spec _ _ _ _ _ _ _ _ _ _ HO HW Hh Hf) as (k0 & k' & bs' & l & rest & E & HT & EM & ER & HU & HS & HM).
  pose proof (fun u => same_threads_tcb _ _ u HT) as ET. destruct HS as [S1 S2 S3 S4 S5 S6 S7 S8 S9 S10 S11 S12].
  exists k', bs', l, rest. rewrite (same_threads_list _ _ _ HT) in S3.
  split_and!; try done.
  - rewrite S10. simpl. rewrite S5, used_freed, (rg_used _ _ _ _ HO), used_app, used_cons. lia.
  - intros u s Hl. rewrite <- ET. by apply S6.
  - clear -S8 ET. induction S8 as [|a l Ha Hl IH]; constructor; [|done]. eapply Forall_impl; [exact Ha|].
    intros b Hb. unfold apart_in in *. by rewrite !ET in Hb.
  - intros w Hw. destruct (gr_words _ _ _ _ _ S2 w) as [W1 W2]; [by apply user_word_freed|]. split; [done|]. by rewrite W2, HU.
  - rewrite S9, EM. clear -ET. generalize (memory k). induction l as [|[u s] l IH]; intros m; [done|]. simpl. by rewrite IH, ET.
  - intros v. rewrite S12. by rewrite ET.
Qed.

(** ** Creation *)

Lemma page_power ps j : ps = 2 ^ j -> 3 <= j -> 8 <= ps /\ ps mod 8 = 0.
Proof.
  intros -> Hj. assert (2 ^ j = 2 ^ (j - 3) * 8) as -> by (change 8 with (2 ^ 3); rewrite <- Z.pow_add_r by lia; f_equal; lia).
  assert (0 < 2 ^ (j - 3)) by (apply Z.pow_pos_nonneg; lia). rewrite Z.mod_mul by lia. lia.
Qed.

Lemma region_set_up_ok proxy r start length ps attr k j :
  sched_ok k -> ps = 2 ^ j -> 3 <= j -> HEAP_MINIMUM_SIZE <= length -> length mod 4 = 0 -> start mod 4 = 0 ->
  8 <= start -> start + length <= two32 -> 0 < Memory_of r ->
  Memory_of r + 28 <= start \/ start + length <= Memory_of r -> length + 2 * ps <= two32 ->
  let '(maximum, k') := region_set_up proxy r start length ps attr k in
    maximum = length - 16 /\ region_ok r start [(length - 8, false)] k' /\ tq_list k' (Wait_queue_of r) = [] /\
    region k' r = {| region_starting_address := start; region_length := length; region_page_size := ps;
      maximum_segment_size := length - 16; region_attribute_set := attr; region_used_blocks := 0 |} /\
    threads k' = threads k /\ watchdogs k' = watchdogs k /\ _Thread_Executing k' = _Thread_Executing k /\ _Thread_Idle k' = _Thread_Idle k.
Proof.
  intros HS Hps Hj H1 H2 H3 H4 H5 H6 H7 H8. unfold region_set_up.
  assert (_Heap_Is_page_size_valid ps = true) as Hv.
  { destruct (page_power ps j Hps Hj) as [P1 P2]. unfold _Heap_Is_page_size_valid, CPU_HEAP_ALIGNMENT, CPU_ALIGNMENT.
    rewrite P2, (proj2 (Z.eqb_neq _ _)) by lia. done. }
  pose proof (heap_initialize_rep (region_words k) (Memory_of r) start length ps Hv H1 H2 H3 H4 H5 H6 H7) as HR.
  destruct (_Heap_Initialize _ _ _ _ _) as [maximum m]. destruct HR as [-> HR].
  unfold HEAP_MINIMUM_SIZE, HEAP_OVERHEAD, sizeof_unsigned32, sizeof_Heap_Block in H1.
  rewrite (proj2 (Z.eqb_neq (length - 16) 0)) by lia. set (k1 := upd_region r _ (upd_region r _ _)).
  assert (same_threads k k1) as HT by by split. set (d := if _Attributes_Is_priority attr then _ else _).
  destruct (initialize_fresh (Wait_queue_of r) OBJECTS_RTEMS_REGIONS d STATES_WAITING_FOR_SEGMENT proxy RTEMS_TIMEOUT k1)
    as (EL & HQ & HL & E1); [done|].
  set (k2 := _Thread_queue_Initialize _ _ _ _ _ _ _) in *.
  assert (region k2 r = {| region_starting_address := start; region_length := length; region_page_size := ps;
      maximum_segment_size := length - 16; region_attribute_set := attr; region_used_blocks := 0 |}) as ER.
  { change (region k2 r) with (region k1 r). unfold k1. by rewrite !region_upd. }
  assert (region_words k2 = m) as EW by done. assert (sched_ok k2) as HS2.
  { apply (links_only_sched k1); [done|]. by apply (same_threads_sched k). }
  assert (threads k2 = threads k /\ watchdogs k2 = watchdogs k /\ _Thread_Executing k2 = _Thread_Executing k /\
    _Thread_Idle k2 = _Thread_Idle k) as HX by done.
  assert (sync_state (tq k2 (Wait_queue_of r)) = THREAD_QUEUE_SYNCHRONIZED /\
    tq_state (tq k2 (Wait_queue_of r)) = STATES_WAITING_FOR_SEGMENT) as [EY EZ] by (by rewrite E1).
  clearbody k2. split; [done|]. split; [|done]. split; rewrite ?ER, ?EL, ?EW; simpl.
  - by exists [start].
  - by exists j.
  - lia.
  - done.
  - done.
  - done.
  - done.
  - done.
  - by intros ?%elem_of_nil.
  - by intros u ?%elem_of_nil.
Qed.

(** ** Getting a segment *)

Section GetSegment.
Context (hfuel wfuel fuel : nat) (routine r start id size option_set timeout seg : Z) (bs : list block) (k : Kernel).
Notation q := (Wait_queue_of r).
Notation t := (_Thread_Executing k).
Notation ps := (region_page_size (region k r)).
Context (HO : region_ok r start bs k) (Hs : 0 <= size) (Hf : total bs < 16 * Z.of_nat hfuel).
Let get := region_get hfuel routine wfuel Datatypes.id fuel [] r id size option_set timeout seg k.

(** What a thread that waits has noted. *)
Definition request (w : Thread_Wait_information) : Thread_Wait_information :=
  set_Wait_return_argument seg (set_Wait_count size (set_Wait_id id (set_Wait_queue q w))).

Lemma get_served : size <= maximum_segment_size (region k r) -> ~ no_fit bs ps size ->
  exists p k' bs', get = Some (Served p, k') /\ region_ok r start bs' k' /\
    added start (region_words k) bs p size (region_words k') bs' /\ same_threads k k'.
Proof using HO Hs Hf.
  intros Hm Hfit. unfold get, region_get. rewrite (proj2 (Z.ltb_ge _ _) Hm).
  destruct (region_allocate hfuel r start size bs k HO (conj Hs Hm) Hf) as [(p & m & bs' & E & HR & HA)|(E & HN)]; [|done].
  rewrite E, (proj2 (Z.eqb_neq _ _) (ad_pointer _ _ _ _ _ _ _ HA)). cbn [negb].
  eexists p, _, bs'. split; [reflexivity|]. set (k' := upd_region r _ _).
  assert (same_threads k k') as HT by by split.
  split; [|by split]. apply (region_ok_memory r start bs bs' k); [done|done|done|].
  unfold k'. rewrite region_upd. change (region (put_words _ _) r) with (region k r).
  destruct HR as [fl HR]. destruct (rg_heap _ _ _ _ HO) as [fl0 HK].
  destruct (used_bound _ (hr_ok _ _ _ _ _ _ HR)) as [_ U2]. destruct (used_bound _ (hr_ok _ _ _ _ _ _ HK)) as [U1 _].
  pose proof (hr_high _ _ _ _ _ _ HR). pose proof (hr_low _ _ _ _ _ _ HR). pose proof (ad_used _ _ _ _ _ _ _ HA) as U3.
  rewrite (rg_used _ _ _ _ HO), <- U3. rewrite wrap32_small; [done|unfold u32; lia].
Qed.

Lemma get_noting : can_wait q k -> noted q request THREAD_QUEUE_NOTHING_HAPPENED k
  (_Thread_queue_Enter_critical_section q (upd_wait t (set_Wait_return_argument seg) (upd_wait t (set_Wait_count size)
     (upd_wait t (set_Wait_id id) (upd_wait t (set_Wait_queue q) k))))).
Proof using.
  intros HW%noted_refl. eapply noted_enter. unfold request.
  apply (noted_code q (fun w => set_Wait_count size (set_Wait_id id (set_Wait_queue q w)))); [done|].
  apply (noted_code q (fun w => set_Wait_id id (set_Wait_queue q w))); [done|].
  apply (noted_code q (set_Wait_queue q)); [done|].
  apply (noted_code q Datatypes.id (set_Wait_queue q)); done.
Qed.

Lemma get_waits : size <= maximum_segment_size (region k r) -> no_fit bs ps size -> _Options_Is_no_wait option_set = false ->
  can_wait q k -> t <> NULL -> timer_free wfuel t timeout k -> (length (tq_list k q) < fuel)%nat ->
  exists k', get = Some (Waiting, k') /\ region_ok r start bs k' /\ region k' r = region k r /\
    tq_list k' q = joined k q t /\ region_words k' = region_words k /\ _Context_Switch_necessary k' = true /\
    forall u, but_block2n (tcb k' u) = but_block2n (if decide (u = t)
      then set_current_state STATES_WAITING_FOR_SEGMENT (noted_thread request (tcb k t)) else tcb k u).
Proof using HO Hs Hf.
  intros Hm Hfit Ho HW Hnull HT Hfu. unfold get, region_get. rewrite (proj2 (Z.ltb_ge _ _) Hm).
  destruct (region_allocate hfuel r start size bs k HO (conj Hs Hm) Hf) as [(p & m & bs' & E & HR & HA)|(E & HN)].
  { exfalso. rewrite (no_fit_refuses hfuel r start size bs k HO (conj Hs Hm) Hf Hfit) in E. injection E as Ep _.
    by apply (ad_pointer _ _ _ _ _ _ _ HA). }
  rewrite E. change (NULL =? NULL) with true. cbn [negb]. rewrite Ho.
  pose proof (get_noting HW) as HN'. set (k1 := _Thread_queue_Enter_critical_section q _) in *.
  destruct (noted_wait_spec routine wfuel fuel q timeout request k k1 HN' HT Hfu)
    as (k' & E' & X1 & X2 & X3 & X4 & X5 & X6 & X7 & (X8 & X9 & X10) & X11).
  change (_Thread_queue_Enqueue _ _ _ _ _ _ _ _) with (_Thread_queue_Enqueue routine wfuel Datatypes.id fuel [] q timeout k1).
  rewrite E'. exists k'. split; [done|]. rewrite (rg_state _ _ _ _ HO) in X8, X11.
  assert (region k' r = region k r) as ER by (unfold region; by rewrite (cs_rtems _ _ X6)).
  assert (region_words k' = region_words k) as EW by (unfold region_words; by rewrite (cs_rtems _ _ X6)).
  assert (forall u, u ∈ tq_list k' q -> u = t \/ u ∈ tq_list k q) as HU.
  { intros u. rewrite X1, joined_perm. by intros ?%elem_of_cons. }
  split; [|done]. apply (region_ok_threads r start bs k); try done.
  - intros [Hn|Hn]%HU; [congruence|]. by apply (rg_null _ _ _ _ HO).
  - intros u Hu. pose proof (f_equal (fun c => Wait_count (Wait c)) (X11 u)) as EC. simpl in EC. rewrite EC.
    case_decide; [simpl; lia|]. destruct (HU u Hu) as [?|Hu']; [done|]. by apply (rg_requests _ _ _ _ HO).
Qed.
End GetSegment.

(** A request for a segment.  More than the largest segment is refused.  Otherwise, when
    a free block is large enough the caller gets a segment of a block of its own, apart
    from all others, which keep their contents, and the region counts one block more; when
    none is, the request is refused without a change or, if the caller may wait, the caller
    is blocked on the region's queue, at the place of the queue's discipline, with its
    request noted, and nothing else changes. *)
Theorem region_get_correct hfuel wfuel fuel routine r start id size option_set timeout seg bs k :
  let t := _Thread_Executing k in
  let q := Wait_queue_of r in
  let get := region_get hfuel routine wfuel Datatypes.id fuel [] r id size option_set timeout seg k in
  region_ok r start bs k -> 0 <= size -> total bs < 16 * Z.of_nat hfuel -> can_wait q k -> t <> NULL ->
  timer_free wfuel t timeout k -> (length (tq_list k q) < fuel)%nat ->
  (maximum_segment_size (region k r) < size -> get = Some (Too_large, k)) /\
  (size <= maximum_segment_size (region k r) ->
   (exists p k' bs', get = Some (Served p, k') /\ region_ok r start bs' k' /\
      added start (region_words k) bs p size (region_words k') bs' /\ same_threads k k') \/
   no_fit bs (region_page_size (region k r)) size /\
   (_Options_Is_no_wait option_set = true -> get = Some (Refused, k)) /\
   (_Options_Is_no_wait option_set = false ->
    exists k', get = Some (Waiting, k') /\ region_ok r start bs k' /\ region k' r = region k r /\
      tq_list k' q = joined k q t /\ region_words k' = region_words k /\ _Context_Switch_necessary k' = true /\
      forall u, but_block2n (tcb k' u) = but_block2n (if decide (u = t)
        then set_current_state STATES_WAITING_FOR_SEGMENT (noted_thread (request r id size seg) (tcb k t)) else tcb k u))).
Proof.
  intros t q get HO Hs Hf HW Hn HT Hfu. split; [intros Hm; unfold get, region_get; by rewrite (proj2 (Z.ltb_lt _ _) Hm)|].
  intros Hm. destruct (region_allocate hfuel r start size bs k HO (conj Hs Hm) Hf) as [(p & m & bs' & E & HR & HA)|(E & HN)].
  - left. apply get_served; try done. intros HN.
    destruct (ad_grown _ _ _ _ _ _ _ HA) as [Ht _ _]. apply (no_fit_refuses hfuel r start size bs k HO) in HN; try done.
    rewrite E in HN. injection HN as Hp _. by apply (ad_pointer _ _ _ _ _ _ _ HA).
  - right. split; [done|]. split.
    + intros Ho. unfold get, region_get. rewrite (proj2 (Z.ltb_ge _ _) Hm), E, Ho. done.
    + intros Ho. by apply get_waits.
Qed.

(** A request that is at most the largest segment that the region reports, but within a
    page of it, can never be met: with no segment in use at all the caller is blocked, no
    state of the heap has a block that is large enough, and the region, with a thread on
    its queue, counts no block in use, which is the condition under which it is deleted. *)
Theorem region_request_never_met hfuel wfuel fuel routine r start id size option_set timeout seg bs k :
  let t := _Thread_Executing k in
  let q := Wait_queue_of r in
  let ps := region_page_size (region k r) in
  region_ok r start bs k -> total bs = maximum_segment_size (region k r) + 8 -> used_blocks bs = 0 ->
  maximum_segment_size (region k r) - ps < size <= maximum_segment_size (region k r) -> 0 <= size ->
  _Options_Is_no_wait option_set = false -> total bs < 16 * Z.of_nat hfuel -> can_wait q k -> t <> NULL ->
  timer_free wfuel t timeout k -> (length (tq_list k q) < fuel)%nat ->
  (forall bs', Forall block_ok bs' -> total bs' = total bs -> no_fit bs' ps size) /\
  exists k', region_get hfuel routine wfuel Datatypes.id fuel [] r id size option_set timeout seg k = Some (Waiting, k') /\
    t ∈ tq_list k' q /\ region_ok r start bs k' /\ region_used_blocks (region k' r) = 0.
Proof.
  intros t q ps HO Ht Hu Hs Hs0 Ho Hf HW Hn HT Hfu.
  assert (forall bs', Forall block_ok bs' -> total bs' = total bs -> no_fit bs' ps size) as HN.
  { intros bs' Hok Etot A sz B ->. rewrite total_app in Etot. simpl in Etot. apply Forall_app in Hok as [HA HB].
    apply Forall_cons in HB as [_ HB]. pose proof (total_nonneg _ HA). pose proof (total_nonneg _ HB).
    destruct (rg_page _ _ _ _ HO) as (j & Hj & Hj3). pose proof (rg_maximum _ _ _ _ HO).
    destruct (page_power ps j Hj Hj3) as [P1 P2].
    destruct (request_size ps size P1 P2 Hs0) as (R1 & _ & _); subst ps; lia. }
  split; [done|]. destruct (rg_heap _ _ _ _ HO) as [fl HR].
  destruct (get_waits hfuel wfuel fuel routine r start id size option_set timeout seg bs k HO Hs0 Hf)
    as (k' & E & HO' & ER & EL & _); try done; [lia|apply HN; [apply HR|done]|].
  exists k'. split; [exact E|]. split; [unfold q; rewrite EL, joined_perm; left|]. split; [done|]. by rewrite (rg_used _ _ _ _ HO').
Qed.

(** ** A region of 512 bytes *)

Module RegionExample.
Import ThreadExample.
(** The region at 64 has its memory at 1024, in pages of 8 bytes.  The thread at 200 gets
    300 bytes and waits for 300 more. *)
Definition r0 : Kernel := (region_set_up NULL 64 1024 512 8 0 k2).2.
Definition get (k : Kernel) : option (get_outcome * Kernel) := region_get 32 1 5 id 5 [] 64 77 300 0 0 600 k.
Definition after (o : option (get_outcome * Kernel)) : Kernel := match o with Some (_, k) => k | None => r0 end.
Definition r1 : Kernel := after (get r0).
Definition r2 : Kernel := after (get r1).

Lemma r0_ok : region_ok 64 1024 [(504, false)] r0 /\ tq_list r0 (Wait_queue_of 64) = [] /\
  maximum_segment_size (region r0 64) = 496 /\ region_page_size (region r0 64) = 8.
Proof.
  pose proof (region_set_up_ok NULL 64 1024 512 8 0 k2 3 k2_ok) as H. unfold r0.
  destruct (region_set_up NULL 64 1024 512 8 0 k2) as [m k]. cbn [snd].
  destruct H as (_ & A & B & ER & _); try (unfold Memory_of; vm_compute; congruence); [left; vm_compute; discriminate|].
  rewrite ER. done.
Qed.

Lemma waiting k bs : region_ok 64 1024 bs k -> tq_list k (Wait_queue_of 64) = [] -> _Thread_Executing k = 200 ->
  _Thread_Idle k = 100 -> is_ready k 200 -> can_wait (Wait_queue_of 64) k.
Proof.
  intros HO EL E1 E2 Hr. split; rewrite ?E1, ?E2, ?EL; try done; try apply HO.
  - apply not_elem_of_nil.
  - by rewrite (rg_state _ _ _ _ HO).
Qed.

Lemma r0_wait : can_wait (Wait_queue_of 64) r0.
Proof. destruct r0_ok as (A & B & _). eapply waiting; [exact A|exact B|vm_compute; reflexivity..]. Qed.

Lemma served_once : get r0 = Some (Served 1224, r1) /\ get r1 = Some (Waiting, r2).
Proof. split; vm_compute; reflexivity. Qed.

Lemma r1_served : exists bs, region_ok 64 1024 bs r1 /\ segment (region_words r1) 1024 bs 1224 300 /\ total bs = 504 /\
  tq_list r1 (Wait_queue_of 64) = [].
Proof.
  destruct r0_ok as (A & B & EM & EP). destruct served_once as [E _]. unfold get in E.
  set (k := r0) in *. set (k1 := r1) in *. clearbody k k1.
  destruct (get_served 32 5 5 1 64 1024 77 300 0 0 600 [(504, false)] k A) as (p & k' & bs & E' & HO & HA & HT);
    [lia|simpl; lia|lia| |].
  { rewrite EP. intros HN. specialize (HN [] 504 [] eq_refl). vm_compute in HN. discriminate. }
  rewrite E in E'. injection E' as <- <-. exists bs. split; [done|].
  split; [exact (ad_segment _ _ _ _ _ _ _ HA)|]. split; [by rewrite (gr_total _ _ _ _ _ (ad_grown _ _ _ _ _ _ _ HA))|].
  by rewrite (same_threads_list _ _ _ HT).
Qed.

Lemma r2_waits bs : region_ok 64 1024 bs r1 -> total bs = 504 -> tq_list r1 (Wait_queue_of 64) = [] ->
  region_ok 64 1024 bs r2 /\ tq_list r2 (Wait_queue_of 64) = [200] /\ region_words r2 = region_words r1.
Proof.
  intros HO ET EL. destruct served_once as [_ E]. unfold get in E.
  assert (fst <$> _Region_Allocate_segment 32 64 300 r1 = Some NULL) as EA by (vm_compute; reflexivity).
  assert (maximum_segment_size (region r1 64) = 496) as EM by (vm_compute; reflexivity).
  assert (can_wait (Wait_queue_of 64) r1) as HW by (eapply waiting; [exact HO|exact EL|vm_compute; reflexivity..]).
  assert (_Thread_Executing r1 = 200) as Et by (vm_compute; reflexivity).
  assert (joined r1 (Wait_queue_of 64) 200 = [200]) as EJ by (vm_compute; reflexivity).
  set (k1 := r1) in *. set (k2 := r2) in *. clearbody k1 k2.
  destruct (region_allocate 32 64 1024 300 bs k1 HO) as [(p & m & bs' & E' & _ & HA)|(_ & HN)]; [lia|lia|..].
  { exfalso. rewrite E' in EA. injection EA as EA. by apply (ad_pointer _ _ _ _ _ _ _ HA). }
  destruct (get_waits 32 5 5 1 64 1024 77 300 0 0 600 bs k1 HO) as (k' & E' & HO' & _ & EL' & EW & _);
    try done; [lia|lia|by rewrite Et|by left|rewrite EL; simpl; lia|].
  rewrite E in E'. injection E' as <-. rewrite EL', Et, EJ. done.
Qed.
End RegionExample.

Lemma region_get_witness : exists p bs', RegionExample.get RegionExample.r0 = Some (Served p, RegionExample.r1) /\
  region_ok 64 1024 bs' RegionExample.r1 /\ segment (region_words RegionExample.r1) 1024 bs' p 300.
Proof.
  destruct RegionExample.r0_ok as (A & B & EM & EP). destruct RegionExample.served_once as [E _].
  pose proof RegionExample.r0_wait as HW. assert (_Thread_Executing RegionExample.r0 <> NULL) as Hn by (vm_compute; discriminate).
  unfold RegionExample.get in *. set (k := RegionExample.r0) in *. set (k1 := RegionExample.r1) in *. clearbody k k1.
  destruct (region_get_correct 32 5 5 1 64 1024 77 300 0 0 600 [(504, false)] k A) as [_ H];
    [lia|simpl; lia|exact HW|exact Hn|by left|rewrite B; simpl; lia|].
  rewrite EM, EP in H. destruct (H ltac:(lia)) as [(p' & k' & bs' & E' & HO & HA & _)|(HN & _)].
  - rewrite E in E'. injection E' as <- <-. exists 1224, bs'. split; [done|]. split; [done|exact (ad_segment _ _ _ _ _ _ _ HA)].
  - exfalso. specialize (HN [] 504 [] eq_refl). vm_compute in HN. discriminate.
Defined.

Lemma region_return_witness : exists k', region_return 32 id 5 64 1224 RegionExample.r2 = Some (true, k') /\
  tq_list RegionExample.r2 (Wait_queue_of 64) = [200] /\ tq_list k' (Wait_queue_of 64) = [] /\
  Wait_return_code (Wait (tcb k' 200)) = RTEMS_SUCCESSFUL.
Proof.
  destruct RegionExample.r1_served as (bs & HO & HS & ET & EL1).
  destruct (RegionExample.r2_waits bs HO ET EL1) as (HO2 & EL2 & EW).
  assert ((fun o => tq_list o.2 (Wait_queue_of 64)) <$> region_return 32 id 5 64 1224 RegionExample.r2 = Some []) as ER
    by (vm_compute; reflexivity).
  set (k1 := RegionExample.r1) in *. set (k2 := RegionExample.r2) in *. clearbody k1 k2.
  destruct HS as (A & sz & B & -> & HW). rewrite <- EW in HW.
  destruct (region_return_correct 32 5 64 1024 A sz B k2 1224 300 HO2 HW)
    as (k' & bs' & l & rest & E & _ & EQ & EQ' & _ & _ & _ & _ & _ & _ & HC);
    [rewrite ET; simpl; lia|rewrite EL2; simpl; lia|].
  rewrite E in ER. injection ER as ER. rewrite EQ' in ER. rewrite ER, app_nil_r, EL2 in EQ.
  exists k'. split; [exact E|]. split; [exact EL2|]. split; [rewrite EQ'; exact ER|].
  pose proof (f_equal (fun c => Wait_return_code (Wait c)) (HC 200)) as EC. rewrite <- EQ in EC.
  rewrite decide_True in EC by left. exact EC.
Defined.

Lemma region_request_never_met_witness : exists k',
  region_get 32 1 5 id 5 [] 64 77 496 0 0 600 RegionExample.r0 = Some (Waiting, k') /\
  200 ∈ tq_list k' (Wait_queue_of 64) /\ region_used_blocks (region k' 64) = 0.
Proof.
  destruct RegionExample.r0_ok as (A & B & EM & EP). pose proof RegionExample.r0_wait as HW.
  assert (_Thread_Executing RegionExample.r0 = 200) as Ht by (vm_compute; reflexivity).
  set (k := RegionExample.r0) in *. clearbody k.
  destruct (region_request_never_met 32 5 5 1 64 1024 77 496 0 0 600 [(504, false)] k A) as (_ & k' & E & Hin & _ & Hu);
    rewrite ?EM, ?EP, ?B, ?Ht; try done; try (simpl; lia); [by left|].
  rewrite Ht in Hin. by exists k'.
Defined.
