(* ===== verification/RateMon.v ===== *)
(** * Rate Monotonic Manager (rtems/src/ratemon.c)

    A period belongs to the thread that created it.  Its timer runs down while it is
    active; the owner that asks for the next period before that waits for the end of this
    one, and the owner that asks later is told so.  The period at [p] has its timer at
    [p + 16].  The windows in which the timer may run down while the owner is about to wait
    are [isr_entry], [isr_noted] and [isr_blocked]. *)
From S2P Require Import Prelude Chain Watchdog Object Priority ApiTypes Heap Kernel Thread Workspace CoreMsg Rtems Partition.

Definition period (k : Kernel) (p : Z) : Rate_monotonic_Control := periods (rtems k) !!! p.
Definition upd_period (p : Z) (f : Rate_monotonic_Control -> Rate_monotonic_Control) (k : Kernel) : Kernel :=
  upd_rtems (fun s => set_periods (<[p := f (period k p)]> (periods s)) s) k.
Definition period_timer (p : Z) : Z := p + 16.
Definition period_id (k : Kernel) (p : Z) : Z := object_id k OBJECTS_RTEMS_PERIODS p.
Definition RTEMS_PERIOD_STATUS : Z := WATCHDOG_NO_TIMEOUT.

(** The figures that are taken when a period begins. *)
Definition begin_period (p the_thread : Z) (k : Kernel) : Kernel :=
  let k := upd_period p (set_owner_ticks (ticks_executed (tcb k the_thread))) k in
  upd_period p (set_time_at_period (_Watchdog_Ticks_since_boot (watchdogs k))) k.

(** ** The end of a period: the local case of [_Rate_monotonic_Timeout] *)

Section Timeout.
Context (wfuel : nat) (wisr : Kernel -> Kernel).

Definition period_timed_out (p : Z) (k : Kernel) : option Kernel :=
  let the_thread := owner (period k p) in
  if _States_Is_waiting_for_period (current_state (tcb k the_thread))
     && (Wait_id (Wait (tcb k the_thread)) =? period_id k p)
  then
    let k := _Thread_Unblock the_thread k in
    let k := begin_period p the_thread k in
    _Watchdog_Reset wfuel wisr (period_timer p) k
  else if bool_decide (period_state (period k p) = RATE_MONOTONIC_OWNER_IS_BLOCKING) then
    let k := upd_period p (set_period_state RATE_MONOTONIC_EXPIRED_WHILE_BLOCKING) k in
    let k := begin_period p the_thread k in
    _Watchdog_Reset wfuel wisr (period_timer p) k
  else Some (upd_period p (set_period_state RATE_MONOTONIC_EXPIRED) k).
End Timeout.

(** ** Asking for the next period: the local case of [rtems_rate_monotonic_period]

    The status, and whether dispatching is still to be enabled. *)
Section Period.
Context (timeout_routine : Z) (wfuel : nat) (wisr isr_entry isr_noted isr_blocked : Kernel -> Kernel).

Definition block_on_period (p : Z) (k : Kernel) : Kernel :=
  let k := upd_period p (set_period_state RATE_MONOTONIC_OWNER_IS_BLOCKING) k in
  let k := isr_entry k in
  let k := upd_wait (_Thread_Executing k) (set_Wait_id (period_id k p)) k in
  let k := isr_noted k in
  let k := _Thread_Set_state (_Thread_Executing k) STATES_WAITING_FOR_PERIOD k in
  let k := isr_blocked k in
  let local_state := period_state (period k p) in
  let k := upd_period p (set_period_state RATE_MONOTONIC_ACTIVE) k in
  if bool_decide (local_state = RATE_MONOTONIC_EXPIRED_WHILE_BLOCKING)
  then _Thread_Clear_state (_Thread_Executing k) STATES_WAITING_FOR_PERIOD k
  else k.

Definition next_period (p id length : Z) (k : Kernel) : option (Z * bool * Kernel) :=
  if negb (_Thread_Is_executing k (owner (period k p))) then Some (RTEMS_NOT_OWNER_OF_RESOURCE, true, k)
  else if length =? RTEMS_PERIOD_STATUS then
    Some (match period_state (period k p) with
          | RATE_MONOTONIC_INACTIVE => RTEMS_NOT_DEFINED
          | RATE_MONOTONIC_ACTIVE => RTEMS_SUCCESSFUL
          | RATE_MONOTONIC_EXPIRED => RTEMS_TIMEOUT
          | _ => RTEMS_INTERNAL_ERROR
          end, true, k)
  else
    match period_state (period k p) with
    | RATE_MONOTONIC_INACTIVE =>
        let k := upd_period p (set_period_state RATE_MONOTONIC_ACTIVE) k in
        let k := wd_mod (_Watchdog_Initialize (period_timer p) timeout_routine id NULL) k in
        let k := begin_period p (_Thread_Executing k) k in
        match _Watchdog_Insert_ticks wfuel wisr (period_timer p) length k with
        | None => None
        | Some k => Some (RTEMS_SUCCESSFUL, true, k)
        end
    | RATE_MONOTONIC_ACTIVE => Some (RTEMS_SUCCESSFUL, true, block_on_period p k)
    | RATE_MONOTONIC_EXPIRED =>
        let k := upd_period p (set_period_state RATE_MONOTONIC_ACTIVE) k in
        let k := begin_period p (_Thread_Executing k) k in
        match _Watchdog_Insert_ticks wfuel wisr (period_timer p) length k with
        | None => None
        | Some k => Some (RTEMS_TIMEOUT, true, k)
        end
    | RATE_MONOTONIC_OWNER_IS_BLOCKING | RATE_MONOTONIC_EXPIRED_WHILE_BLOCKING => Some (RTEMS_INTERNAL_ERROR, false, k)
    end.
End Period.

(** The timer is stopped and the period is inactive. *)
Definition stop_period (p : Z) (k : Kernel) : Kernel :=
  let k := wd_mod (fun w => (_Watchdog_Remove (period_timer p) w).2) k in
  upd_period p (set_period_state RATE_MONOTONIC_INACTIVE) k.

(** The local case of [rtems_rate_monotonic_get_status]: the number of the state, the ticks
    since the period began and those that the owner executed. *)
Definition period_state_number (s : rtems_rate_monotonic_period_states) : Z :=
  match s with
  | RATE_MONOTONIC_INACTIVE => 0
  | RATE_MONOTONIC_OWNER_IS_BLOCKING => 1
  | RATE_MONOTONIC_ACTIVE => 2
  | RATE_MONOTONIC_EXPIRED_WHILE_BLOCKING => 3
  | RATE_MONOTONIC_EXPIRED => 4
  end.
Definition period_figures (p : Z) (k : Kernel) : Z * Z * Z :=
  let c := period k p in
  (period_state_number (period_state c),
   if bool_decide (period_state c = RATE_MONOTONIC_INACTIVE) then 0
   else _Watchdog_Ticks_since_boot (watchdogs k) -w time_at_period c,
   if bool_decide (period_state c = RATE_MONOTONIC_INACTIVE) then 0
   else ticks_executed (tcb k (owner c)) -w owner_ticks_executed_at_period c).

(** ** Directives *)

Section Directives.
Context (switch : Z -> Z -> Kernel -> Kernel) (postswitch : Kernel -> Kernel).
Context (isrs : list (Kernel -> Kernel)) (fuel : nat) (_Objects_Local_node _Objects_Maximum_nodes name_argument : Z).

Notation Get := (object_get switch postswitch isrs fuel _Objects_Local_node _Objects_Maximum_nodes).
Notation finish := (enable_return switch postswitch isrs fuel).

Definition rtems_rate_monotonic_create (name id : Z) (k : Kernel) : option (Z * Kernel) :=
  if negb (rtems_is_name_valid name) then Some (RTEMS_INVALID_NAME, k)
  else
    let k := _Thread_Disable_dispatch k in
    let '(the_period, k) := object_allocate OBJECTS_RTEMS_PERIODS k in
    if the_period =? NULL then finish RTEMS_TOO_MANY k
    else
      let k := upd_period the_period (set_owner (_Thread_Executing k)) k in
      let k := upd_period the_period (set_period_state RATE_MONOTONIC_INACTIVE) k in
      match object_open fuel name_argument OBJECTS_RTEMS_PERIODS the_period name k with
      | None => None
      | Some k => finish RTEMS_SUCCESSFUL (put_word id (period_id k the_period) k)
      end.

Definition rtems_rate_monotonic_ident (name id : Z) (k : Kernel) : Z * Kernel :=
  object_ident switch postswitch isrs fuel _Objects_Local_node _Objects_Maximum_nodes name_argument
    OBJECTS_RTEMS_PERIODS name OBJECTS_SEARCH_LOCAL_NODE id k.

Definition rtems_rate_monotonic_cancel (id : Z) (k : Kernel) : option (Z * Kernel) :=
  match Get OBJECTS_RTEMS_PERIODS id k with
  | None => None
  | Some (OBJECTS_ERROR, _, k) => Some (RTEMS_INVALID_ID, k)
  | Some (OBJECTS_REMOTE, _, k) => Some (RTEMS_INTERNAL_ERROR, k)
  | Some (OBJECTS_LOCAL, the_period, k) =>
      if negb (_Thread_Is_executing k (owner (period k the_period))) then finish RTEMS_NOT_OWNER_OF_RESOURCE k
      else finish RTEMS_SUCCESSFUL (stop_period the_period k)
  end.

Definition rtems_rate_monotonic_delete (id : Z) (k : Kernel) : option (Z * Kernel) :=
  match Get OBJECTS_RTEMS_PERIODS id k with
  | None => None
  | Some (OBJECTS_ERROR, _, k) => Some (RTEMS_INVALID_ID, k)
  | Some (OBJECTS_REMOTE, _, k) => Some (RTEMS_INTERNAL_ERROR, k)
  | Some (OBJECTS_LOCAL, the_period, k) =>
      let k := object_close OBJECTS_RTEMS_PERIODS the_period k in
      finish RTEMS_SUCCESSFUL (object_free OBJECTS_RTEMS_PERIODS the_period (stop_period the_period k))
  end.

Definition rtems_rate_monotonic_get_status (id status : Z) (k : Kernel) : option (Z * Kernel) :=
  if status =? NULL then Some (RTEMS_INVALID_ADDRESS, k)
  else
    match Get OBJECTS_RTEMS_PERIODS id k with
    | None => None
    | Some (OBJECTS_ERROR, _, k) => Some (RTEMS_INVALID_ID, k)
    | Some (OBJECTS_REMOTE, _, k) => Some (RTEMS_INTERNAL_ERROR, k)
    | Some (OBJECTS_LOCAL, the_period, k) =>
        let '(state, ticks, executed) := period_figures the_period k in
        finish RTEMS_SUCCESSFUL (put_word (status + 8) executed (put_word (status + 4) ticks (put_word status state k)))
    end.

Definition rtems_rate_monotonic_period (timeout_routine : Z) (wfuel : nat) (wisr isr_entry isr_noted isr_blocked : Kernel -> Kernel)
    (id length : Z) (k : Kernel) : option (Z * Kernel) :=
  match Get OBJECTS_RTEMS_PERIODS id k with
  | None => None
  | Some (OBJECTS_ERROR, _, k) => Some (RTEMS_INVALID_ID, k)
  | Some (OBJECTS_REMOTE, _, k) => Some (RTEMS_INTERNAL_ERROR, k)
  | Some (OBJECTS_LOCAL, the_period, k) =>
      match next_period timeout_routine wfuel wisr isr_entry isr_noted isr_blocked the_period id length k with
      | None => None
      | Some (status, true, k) => finish status k
      | Some (status, false, k) => Some (status, k)
      end
  end.

Definition _Rate_monotonic_Timeout (wfuel : nat) (wisr : Kernel -> Kernel) (id : Z) (k : Kernel) : option Kernel :=
  match Get OBJECTS_RTEMS_PERIODS id k with
  | None => None
  | Some (OBJECTS_LOCAL, the_period, k) =>
      match period_timed_out wfuel wisr the_period k with
      | None => None
      | Some k => Some (_Thread_Unnest_dispatch k)
      end
  | Some (_, _, k) => Some k
  end.
End Directives.
