(* ===== verification/RateMonSpec.v ===== *)
(** * Correctness of rate monotonic periods

    The timer of a period runs as long as the period is active.  The theorems show each
    branch of asking for the next period, the end of a period, and what happens when the
    timer runs down while the owner is about to wait. *)
From S2P Require Import Prelude Chain Watchdog WatchdogProofs WatchdogOps Object Priority ApiTypes Heap Kernel Thread Workspace.
From S2P Require Import ThreadProofs ThreadSpec Threadq ThreadqProofs ThreadqSpec CoreWait CoreMsg Rtems Partition RateMon.

(** ** A timer on the tick chain *)

(** The timer at [w] was started for [n] ticks. *)
Record armed (w n : Z) (ws : Watchdog_State) : Prop := {
  ar_ok : wd_ok ws;
  ar_active : wd_state (ctl ws w) = WATCHDOG_ACTIVE;
  ar_chain : w ∈ chain_of Ticks ws;
  ar_initial : initial (ctl ws w) = n
}.

(** The timer at [w] is off. *)
Record disarmed (w n : Z) (ws : Watchdog_State) : Prop := {
  di_ok : wd_ok ws;
  di_inactive : wd_state (ctl ws w) = WATCHDOG_INACTIVE;
  di_initial : initial (ctl ws w) = n
}.

(** [n] ticks are left. *)
Definition left_to_go (w n : Z) (ws : Watchdog_State) : Prop := exists E1 E2, expiries Ticks ws = E1 ++ (w, n) :: E2.

Lemma disarmed_off w n ws : disarmed w n ws -> ~ on_chain (wd_state (ctl ws w)).
Proof. intros [_ E _]. rewrite E. intros [?|?]; done. Qed.

Lemma remove_boot w ws : _Watchdog_Ticks_since_boot (_Watchdog_Remove w ws).2 = _Watchdog_Ticks_since_boot ws.
Proof.
  unfold _Watchdog_Remove. destruct (wd_state (ctl ws w)); try done; simpl;
    (destruct (next_on _ _); simpl; destruct (_Watchdog_Sync_count ws =? 0); simpl; unfold set_chain; by destruct (header_of _ _)).
Qed.

Lemma remove_armed w n ws : armed w n ws -> exists ws', _Watchdog_Remove w ws = (WATCHDOG_ACTIVE, ws') /\ disarmed w n ws' /\
  (length (chain_of Ticks ws') + 1 = length (chain_of Ticks ws))%nat /\
  _Watchdog_Ticks_since_boot ws' = _Watchdog_Ticks_since_boot ws.
Proof.
  intros [HO HA HC HI]. apply list_elem_of_split in HC as (l1 & l2 & El).
  pose proof (remove_unfold ws HO Ticks l1 w l2 El) as E. rewrite HA in E.
  exists (_Watchdog_Remove w ws).2. split; [rewrite E; done|].
  pose proof (remove_ctl_self ws HO Ticks l1 w l2 El) as ES. pose proof (remove_chain ws HO Ticks l1 w l2 El) as EC.
  split; [split|split].
  - by apply (remove_ok_on ws Ticks l1 w l2).
  - by rewrite ES.
  - by rewrite ES.
  - rewrite EC, El, !length_app. simpl. lia.
  - apply remove_boot.
Qed.

Lemma remove_disarmed w n ws : disarmed w n ws -> exists ws', (_Watchdog_Remove w ws).2 = ws' /\ disarmed w n ws' /\
  chain_of Ticks ws' = chain_of Ticks ws /\ _Watchdog_Ticks_since_boot ws' = _Watchdog_Ticks_since_boot ws.
Proof.
  intros [HO HA HI]. unfold _Watchdog_Remove. rewrite HA. eexists. split; [reflexivity|]. simpl snd.
  split; [|done]. split; rewrite ?ctl_upd_eq; try done.
  apply wd_upd_off; [done|..]; simpl; rewrite HA; intros [?|?]; done.
Qed.

Section Insert.
Context (wfuel : nat) (w n : Z) (k : Kernel) (Hn : u32 n).

Lemma insert_armed : disarmed w n (watchdogs k) -> (length (chain_of Ticks (watchdogs k)) + 1 < wfuel)%nat ->
  exists ws, _Watchdog_Insert wfuel id Ticks w k = Some (set_watchdogs ws k) /\ armed w n ws /\ left_to_go w n ws /\
    (length (chain_of Ticks ws) = length (chain_of Ticks (watchdogs k)) + 1)%nat /\
    _Watchdog_Ticks_since_boot ws = _Watchdog_Ticks_since_boot (watchdogs k).
Proof using Hn.
  intros HD Hf. pose proof (disarmed_off _ _ _ HD) as Hoff. destruct HD as [HO HI HN].
  destruct (insert_quiet wfuel Ticks w k) as (lev & la & lb & HP & E); simpl wd_get in *; rewrite ?HN; try done.
  rewrite HN in HP, E. set (ws := watchdogs k) in *.
  assert (wd_ok (inserting w lev ws)) as HS1 by (by apply inserting_ok).
  assert (wd_state (ctl (inserting w lev ws) w) = WATCHDOG_BEING_INSERTED) as Hst by by rewrite inserting_ctl.
  destruct (inserted_self Ticks w _ n (_ISR_Nest_level ws) HS1 Hn Hst la lb HP) as (S1 & _ & _).
  destruct (inserted_expiries Ticks w _ n (_ISR_Nest_level ws) HS1 Hn Hst la lb HP) as (_ & X2).
  pose proof (being_inserted_off w _ HS1 Hst Ticks) as Hw.
  pose proof (ok_chain_nodup _ Ticks HS1) as HND. pose proof (ok_delta _ HS1 Ticks) as HF. pose proof (ok_sum _ HS1 Ticks) as HM.
  assert (chain_of Ticks (inserted Ticks w (inserting w lev ws) n (_ISR_Nest_level ws) la lb) = la ++ w :: lb) as EC
    by (by eapply inserted_chain).
  eexists. split; [exact E|]. set (ws' := inserted _ _ _ _ _ _ _) in *. split; [split|split_and!].
  - by apply inserted_ok.
  - done.
  - rewrite EC. apply elem_of_app. right. left.
  - unfold ws'. erewrite inserted_ctl_self by done. simpl. by rewrite inserting_ctl.
  - by eexists _, _.
  - rewrite EC. destruct HP as (EL & _). rewrite inserting_chain in EL. rewrite EL, !length_app. simpl. lia.
  - unfold ws', inserted, exit_insert, insert_before. destruct lb as [|a lb']; [done|]. by destruct (_ =? _).
Qed.
End Insert.

Lemma reset_armed wfuel w n k : u32 n -> disarmed w n (watchdogs k) -> (length (chain_of Ticks (watchdogs k)) + 1 < wfuel)%nat ->
  exists ws, _Watchdog_Reset wfuel id w k = Some (set_watchdogs ws k) /\ armed w n ws /\ left_to_go w n ws /\
    (length (chain_of Ticks ws) = length (chain_of Ticks (watchdogs k)) + 1)%nat /\
    _Watchdog_Ticks_since_boot ws = _Watchdog_Ticks_since_boot (watchdogs k).
Proof.
  intros Hn HD Hf. destruct (remove_disarmed _ _ _ HD) as (ws1 & E1 & HD1 & EC & EB).
  unfold _Watchdog_Reset, wd_mod. cbn [wd_get wd_put HasWatchdog_Kernel]. rewrite E1.
  destruct (insert_armed wfuel w n (set_watchdogs ws1 k) Hn HD1) as (ws & E & A & B & C & D).
  { cbn [watchdogs set_watchdogs]. by rewrite EC. }
  exists ws. cbn [watchdogs set_watchdogs] in *. rewrite <- EB, <- EC. by split_and!.
Qed.

(** ** A period and its owner *)

Definition owner_state (blocked : bool) : Z := if blocked then STATES_WAITING_FOR_PERIOD else STATES_READY.
Definition timer_is (on : bool) (w n : Z) (ws : Watchdog_State) : Prop := if on then armed w n ws else disarmed w n ws.

(** The period at [p], of length [L], is in the state [st]; [x] is executing, and the owner [t]
    may have [noted] that it waits for it, and have been [blocked] on it; the timer is [on]. *)
Record on_period (wfuel : nat) (x p t L : Z) (st : rtems_rate_monotonic_period_states)
    (noted blocked on : bool) (k : Kernel) : Prop := {
  op_state : period_state (period k p) = st;
  op_owner : owner (period k p) = t;
  op_executing : _Thread_Executing k = x;
  op_known : known k t;
  op_idle : t <> _Thread_Idle k;
  op_sched : sched_ok k;
  op_blocked : current_state (tcb k t) = owner_state blocked;
  op_id : noted = true -> Wait_id (Wait (tcb k t)) = period_id k p;
  op_timer : timer_is on (period_timer p) L (watchdogs k);
  op_length : u32 L;
  op_fuel : (length (chain_of Ticks (watchdogs k)) + (if on then 0 else 1) < wfuel)%nat
}.

(** What the operations on the period leave alone. *)
Record elsewhere (p t : Z) (k k' : Kernel) : Prop := {
  el_threads : forall u, u <> t -> tcb k' u = tcb k u;
  el_periods : forall p', p' <> p -> period k' p' = period k p';
  el_memory : memory k' = memory k;
  el_boot : _Watchdog_Ticks_since_boot (watchdogs k') = _Watchdog_Ticks_since_boot (watchdogs k);
  el_executed : ticks_executed (tcb k' t) = ticks_executed (tcb k t);
  el_information : information_table k' = information_table k
}.
#[export] Instance elsewhere_preorder p t : PreOrder (elsewhere p t).
Proof.
  split; [done|]. intros k1 k2 k3 [A B C D E F] [A' B' C' D' E' F'].
  split; try congruence; intros x Hx; [rewrite A' by done; by apply A|rewrite B' by done; by apply B].
Qed.

(** The figures of the period are those of now. *)
Definition begun (p t : Z) (k : Kernel) : Prop :=
  time_at_period (period k p) = _Watchdog_Ticks_since_boot (watchdogs k) /\
  owner_ticks_executed_at_period (period k p) = ticks_executed (tcb k t).

Lemma period_upd k p f : period (upd_period p f k) p = f (period k p).
Proof. unfold period at 1, upd_period, upd_rtems. simpl. apply lookup_total_insert_eq. Qed.
Lemma period_upd_ne k p p' f : p' <> p -> period (upd_period p f k) p' = period k p'.
Proof. intros H. unfold period at 1, upd_period, upd_rtems. simpl. by rewrite lookup_total_insert_ne. Qed.

Lemma upd_period_threads p f k : same_threads k (upd_period p f k).
Proof. by split. Qed.

Lemma clear_state_frame t s k : watchdogs (_Thread_Clear_state t s k) = watchdogs k /\
  _Thread_Idle (_Thread_Clear_state t s k) = _Thread_Idle k.
Proof.
  unfold _Thread_Clear_state, enter. destruct (negb _); [|done].
  destruct (_States_Is_ready _); [|done]. destruct (_ <? _); [destruct (_ || _)|]; done.
Qed.

Section Period.
Context (wfuel : nat) (x p t L : Z).

(** Changes of the period's record and of the watchdogs. *)
Lemma upd_period_on st st' noted blocked on f k : (forall c, period_state (f c) = st' /\ owner (f c) = owner c) ->
  on_period wfuel x p t L st noted blocked on k ->
  on_period wfuel x p t L st' noted blocked on (upd_period p f k) /\ elsewhere p t k (upd_period p f k).
Proof using.
  intros Hf [A B C C' D E F G H I J]. pose proof (upd_period_threads p f k) as HT.
  split; split; try done; rewrite ?period_upd; try (by apply Hf).
  - by rewrite (proj2 (Hf _)).
  - by apply (same_threads_sched k).
  - intros p' Hp. by apply period_upd_ne.
Qed.

Lemma set_period_state_on st st' noted blocked on k : on_period wfuel x p t L st noted blocked on k ->
  on_period wfuel x p t L st' noted blocked on (upd_period p (set_period_state st') k) /\
  elsewhere p t k (upd_period p (set_period_state st') k).
Proof using. apply upd_period_on. done. Qed.

Lemma begin_period_on st noted blocked on k : on_period wfuel x p t L st noted blocked on k ->
  on_period wfuel x p t L st noted blocked on (begin_period p t k) /\ elsewhere p t k (begin_period p t k) /\ begun p t (begin_period p t k).
Proof using.
  intros HO. unfold begin_period. set (k1 := upd_period p _ k). set (k2 := upd_period p _ k1).
  assert (forall n (k0 : Kernel), on_period wfuel x p t L st noted blocked on k0 ->
    on_period wfuel x p t L st noted blocked on (upd_period p (set_owner_ticks n) k0) /\
    on_period wfuel x p t L st noted blocked on (upd_period p (set_time_at_period n) k0)) as HX.
  { intros n k0 [A B C C' D E F G H I J]. pose proof (fun f => upd_period_threads p f k0) as HT.
    split; (split; rewrite ?period_upd; try done; by apply (same_threads_sched k0)). }
  destruct (HX (ticks_executed (tcb k t)) k HO) as [H1 _]. fold k1 in H1.
  destruct (HX (_Watchdog_Ticks_since_boot (watchdogs k1)) k1 H1) as [_ H2]. fold k2 in H2. split; [done|]. split.
  - split; try done. intros p' Hp. unfold k2, k1. by rewrite !period_upd_ne.
  - unfold begun, k2, k1. by rewrite !period_upd.
Qed.
Lemma set_watchdogs_on st noted blocked on on' ws k : on_period wfuel x p t L st noted blocked on k ->
  timer_is on' (period_timer p) L ws -> (length (chain_of Ticks ws) + (if on' then 0 else 1) < wfuel)%nat ->
  _Watchdog_Ticks_since_boot ws = _Watchdog_Ticks_since_boot (watchdogs k) ->
  on_period wfuel x p t L st noted blocked on' (set_watchdogs ws k) /\ elsewhere p t k (set_watchdogs ws k).
Proof using.
  intros [A B C C' D E F G H I J] HT Hf HB. split; split; try done. by apply (same_threads_sched k).
Qed.

(** The clock tick takes the timer off its chain and calls the service routine. *)
Definition expire (k : Kernel) : Kernel :=
  fire (fun _ _ _ k => default k (period_timed_out wfuel id p k)) (period_timer p) k.

Lemma expire_enter st noted blocked k : on_period wfuel x p t L st noted blocked true k ->
  exists k1, expire k = default k1 (period_timed_out wfuel id p k1) /\ on_period wfuel x p t L st noted blocked false k1 /\ elsewhere p t k k1.
Proof using.
  intros HO. destruct (remove_armed _ _ _ (op_timer _ _ _ _ _ _ _ _ _ _ HO)) as (ws & E & HD & HL & HB).
  exists (set_watchdogs ws k). split.
  - unfold expire, fire. cbn [wd_get wd_put HasWatchdog_Kernel]. by rewrite E.
  - apply (set_watchdogs_on st noted blocked true false); try done. pose proof (op_fuel _ _ _ _ _ _ _ _ _ _ HO) as HF. simpl in *. lia.
Qed.

Lemma reset_on st noted blocked k : on_period wfuel x p t L st noted blocked false k ->
  exists k', _Watchdog_Reset wfuel id (period_timer p) k = Some k' /\ on_period wfuel x p t L st noted blocked true k' /\
    elsewhere p t k k' /\ left_to_go (period_timer p) L (watchdogs k') /\ period k' p = period k p /\ tcb k' t = tcb k t.
Proof using.
  intros HO. destruct (reset_armed wfuel (period_timer p) L k) as (ws & E & A & B & C & D);
    [exact (op_length _ _ _ _ _ _ _ _ _ _ HO)|exact (op_timer _ _ _ _ _ _ _ _ _ _ HO)|exact (op_fuel _ _ _ _ _ _ _ _ _ _ HO)|].
  exists (set_watchdogs ws k). split; [done|].
  destruct (set_watchdogs_on st noted blocked false true ws k HO A) as [X Y];
    [pose proof (op_fuel _ _ _ _ _ _ _ _ _ _ HO) as HF; simpl in *; lia|done|]. by split_and!.
Qed.

Lemma begun_reset k k' : begun p t k -> elsewhere p t k k' -> period k' p = period k p -> begun p t k'.
Proof using. intros [A B] HE EP. split; rewrite EP; [by rewrite (el_boot _ _ _ _ HE)|by rewrite (el_executed _ _ _ _ HE)]. Qed.

(** The owner becomes ready. *)
Lemma clear_on s st noted on k : Z.land STATES_WAITING_FOR_PERIOD s <> 0 -> _States_Clear s STATES_WAITING_FOR_PERIOD = STATES_READY ->
  on_period wfuel x p t L st noted true on k ->
  on_period wfuel x p t L st noted false on (_Thread_Clear_state t s k) /\ elsewhere p t k (_Thread_Clear_state t s k).
Proof using.
  intros Hs Hc [A B C C' D E F G H I J]. pose proof C' as Hk. simpl in F.
  destruct (clear_state_core t s k) as [HC HX]. destruct (clear_state_frame t s k) as [HW HI].
  destruct (clear_state_effect t s k) as [HT _]; [by rewrite F|]. rewrite F, Hc in HT.
  pose proof (HT t) as Ht. rewrite decide_True in Ht by done.
  assert (forall p', period (_Thread_Clear_state t s k) p' = period k p') as EP
    by (intros p'; unfold period; by rewrite (cs_rtems _ _ HC)).
  split; split; rewrite ?EP, ?HW, ?HI, ?HX, ?Ht; try done.
  - by apply (cs_known _ _ HC).
  - by apply clear_state_ok.
  - intros Hn. unfold period_id, object_id, objects_of. rewrite (cs_information _ _ HC). by apply G.
  - intros u Hu. by rewrite HT, decide_False.
  - apply HC.
  - apply HC.
Qed.

(** A thread that is ready has nothing to clear. *)
Lemma clear_ready s k : current_state (tcb k t) = STATES_READY -> _Thread_Clear_state t s k = k.
Proof using. intros E. unfold _Thread_Clear_state. rewrite E. done. Qed.

Lemma expire_waiting st k : on_period wfuel x p t L st true true true k ->
  on_period wfuel x p t L st true false true (expire k) /\ elsewhere p t k (expire k) /\ begun p t (expire k) /\
  left_to_go (period_timer p) L (watchdogs (expire k)).
Proof using.
  intros HO. destruct (expire_enter _ _ _ _ HO) as (k1 & -> & H1 & E1). unfold period_timed_out.
  rewrite (op_owner _ _ _ _ _ _ _ _ _ _ H1), (op_blocked _ _ _ _ _ _ _ _ _ _ H1), (op_id _ _ _ _ _ _ _ _ _ _ H1 eq_refl), Z.eqb_refl.
  change (_States_Is_waiting_for_period (owner_state true)) with true. cbn [andb]. unfold _Thread_Unblock.
  destruct (clear_on STATES_BLOCKED _ _ _ _ ltac:(done) ltac:(done) H1) as [H2 E2].
  destruct (begin_period_on _ _ _ _ _ H2) as (H3 & E3 & B3).
  destruct (reset_on _ _ _ _ H3) as (k' & -> & H4 & E4 & LG & EP & _). cbn [default].
  split; [done|]. split; [by do 3 (etransitivity; [eassumption|])|]. split; [|done]. by eapply begun_reset.
Qed.

Lemma expire_blocking noted k : on_period wfuel x p t L RATE_MONOTONIC_OWNER_IS_BLOCKING noted false true k ->
  on_period wfuel x p t L RATE_MONOTONIC_EXPIRED_WHILE_BLOCKING noted false true (expire k) /\ elsewhere p t k (expire k) /\
  begun p t (expire k) /\ left_to_go (period_timer p) L (watchdogs (expire k)).
Proof using.
  intros HO. destruct (expire_enter _ _ _ _ HO) as (k1 & -> & H1 & E1). unfold period_timed_out.
  rewrite (op_owner _ _ _ _ _ _ _ _ _ _ H1), (op_blocked _ _ _ _ _ _ _ _ _ _ H1), (op_state _ _ _ _ _ _ _ _ _ _ H1).
  change (_States_Is_waiting_for_period (owner_state false)) with false. cbn [andb].
  rewrite bool_decide_eq_true_2 by done.
  destruct (set_period_state_on _ RATE_MONOTONIC_EXPIRED_WHILE_BLOCKING noted false false k1 H1) as [H2 E2].
  destruct (begin_period_on _ _ _ _ _ H2) as (H3 & E3 & B3).
  destruct (reset_on _ _ _ _ H3) as (k' & -> & H4 & E4 & LG & EP & _). cbn [default].
  split; [done|]. split; [by do 3 (etransitivity; [eassumption|])|]. split; [|done]. by eapply begun_reset.
Qed.

Lemma expire_missed st noted k : st <> RATE_MONOTONIC_OWNER_IS_BLOCKING -> on_period wfuel x p t L st noted false true k ->
  on_period wfuel x p t L RATE_MONOTONIC_EXPIRED noted false false (expire k) /\ elsewhere p t k (expire k).
Proof using.
  intros Hst HO. destruct (expire_enter _ _ _ _ HO) as (k1 & -> & H1 & E1). unfold period_timed_out.
  rewrite (op_owner _ _ _ _ _ _ _ _ _ _ H1), (op_blocked _ _ _ _ _ _ _ _ _ _ H1), (op_state _ _ _ _ _ _ _ _ _ _ H1).
  change (_States_Is_waiting_for_period (owner_state false)) with false. cbn [andb default].
  rewrite bool_decide_eq_false_2 by done. cbn [default].
  destruct (set_period_state_on _ RATE_MONOTONIC_EXPIRED noted false false k1 H1) as [H2 E2].
  split; [done|]. by etransitivity.
Qed.

(** *** The owner about to wait *)

(** The timer runs down in a window, or not. *)
Definition window (e : bool) : Kernel -> Kernel := if e then expire else id.

Lemma begun_keep k k' : begun p t k -> elsewhere p t k k' ->
  time_at_period (period k' p) = time_at_period (period k p) ->
  owner_ticks_executed_at_period (period k' p) = owner_ticks_executed_at_period (period k p) -> begun p t k'.
Proof using. intros [A B] HE E1 E2. split; [by rewrite E1, (el_boot _ _ _ _ HE)|by rewrite E2, (el_executed _ _ _ _ HE)]. Qed.

Lemma note_on st noted on k : on_period wfuel x p t L st noted false on k ->
  let k' := upd_wait t (set_Wait_id (period_id k p)) k in
  on_period wfuel x p t L st true false on k' /\ elsewhere p t k k' /\ period k' p = period k p.
Proof using.
  intros [A B C C' D E F G H I J]. cbv zeta. set (k' := upd_wait t _ k).
  assert (forall u, tcb k' u = if decide (u = t) then set_Wait (set_Wait_id (period_id k p) (Wait (tcb k t))) (tcb k t) else tcb k u) as HT
    by (intros u; apply code_tcb).
  pose proof (HT t) as Ht. rewrite decide_True in Ht by done.
  split; [split|split; [split|]]; rewrite ?Ht; try done.
  - by apply known_mono.
  - by apply code_sched.
  - intros u Hu. by rewrite HT, decide_False.
Qed.

Lemma block_on st on k : on_period wfuel x p t L st true false on k ->
  let k' := _Thread_Set_state t STATES_WAITING_FOR_PERIOD k in
  on_period wfuel x p t L st true true on k' /\ elsewhere p t k k' /\ period k' p = period k p.
Proof using.
  intros [A B C C' D E F G H I J]. cbv zeta. pose proof C' as Hk.
  destruct (set_state_core t STATES_WAITING_FOR_PERIOD k) as [HC HX].
  destruct (set_state_ready t STATES_WAITING_FOR_PERIOD k F) as (HT & HW & _).
  assert (sched_ok (_Thread_Set_state t STATES_WAITING_FOR_PERIOD k)) as HS by (by apply set_state_ok).
  assert (_Thread_Idle (_Thread_Set_state t STATES_WAITING_FOR_PERIOD k) = _Thread_Idle k) as HI.
  { unfold _Thread_Set_state, remove_ready. destruct (negb _); [done|].
    destruct (ListChain.has_only_one_node _), (_Thread_Is_heir _ _); cbn zeta; by destruct (_Thread_Is_executing _ _). }
  set (k' := _Thread_Set_state t STATES_WAITING_FOR_PERIOD k) in *.
  assert (forall u, tcb k' u = if decide (u = t) then set_current_state STATES_WAITING_FOR_PERIOD (tcb k t) else tcb k u) as HTC
    by (intros u; unfold tcb at 1; rewrite HT; apply tcb_upd).
  assert (forall p', period k' p' = period k p') as EP by (intros p'; unfold period; by rewrite (cs_rtems _ _ HC)).
  pose proof (HTC t) as Ht. rewrite decide_True in Ht by done. clearbody k'.
  split; [split|split; [split|]]; rewrite ?Ht, ?EP, ?HW, ?HI, ?HX; try done.
  - by apply (cs_known _ _ HC).
  - intros Hn. unfold period_id, object_id, objects_of. rewrite (cs_information _ _ HC). by apply G.
  - intros u Hu. by rewrite HTC, decide_False.
  - apply HC.
  - apply HC.
Qed.

(** Up to the point where the owner is made to wait. *)
Definition on_the_way (e1 e2 : bool) (k : Kernel) : Kernel :=
  let k := window e1 k in window e2 (upd_wait t (set_Wait_id (period_id k p)) k).

Lemma on_the_way_spec e1 e2 noted k : on_period wfuel x p t L RATE_MONOTONIC_OWNER_IS_BLOCKING noted false true k ->
  let k' := on_the_way e1 e2 k in
  elsewhere p t k k' /\
  match e1, e2 with
  | false, false => on_period wfuel x p t L RATE_MONOTONIC_OWNER_IS_BLOCKING true false true k'
  | true, true => on_period wfuel x p t L RATE_MONOTONIC_EXPIRED true false false k'
  | _, _ => on_period wfuel x p t L RATE_MONOTONIC_EXPIRED_WHILE_BLOCKING true false true k' /\ begun p t k'
  end.
Proof using.
  intros HO. cbv zeta. unfold on_the_way. destruct e1; cbn [window].
  - destruct (expire_blocking _ _ HO) as (H1 & E1 & B1 & _). destruct (note_on _ _ _ _ H1) as (H2 & E2 & P2).
    set (k2 := upd_wait t _ _) in *. destruct e2; cbn [window].
    + destruct (expire_missed RATE_MONOTONIC_EXPIRED_WHILE_BLOCKING _ k2 ltac:(done) H2) as (H3 & E3).
      split; [|done]. by do 2 (etransitivity; [eassumption|]).
    + unfold id. split; [by etransitivity|]. split; [done|]. by eapply begun_reset.
  - unfold id at 1 2. destruct (note_on _ _ _ _ HO) as (H2 & E2 & P2). set (k2 := upd_wait t _ _) in *. destruct e2; cbn [window].
    + destruct (expire_blocking _ _ H2) as (H3 & E3 & B3 & _). split; [by etransitivity|]. done.
    + done.
Qed.

(** From there on. *)
Definition arrived (e3 : bool) (k : Kernel) : Kernel :=
  let k := window e3 (_Thread_Set_state t STATES_WAITING_FOR_PERIOD k) in
  let local_state := period_state (period k p) in
  let k := upd_period p (set_period_state RATE_MONOTONIC_ACTIVE) k in
  if bool_decide (local_state = RATE_MONOTONIC_EXPIRED_WHILE_BLOCKING) then _Thread_Clear_state t STATES_WAITING_FOR_PERIOD k else k.

Lemma arrived_running st e3 k : st = RATE_MONOTONIC_OWNER_IS_BLOCKING \/ st = RATE_MONOTONIC_EXPIRED_WHILE_BLOCKING ->
  on_period wfuel x p t L st true false true k ->
  let expired := e3 || bool_decide (st = RATE_MONOTONIC_EXPIRED_WHILE_BLOCKING) in
  let k' := arrived e3 k in
  elsewhere p t k k' /\ on_period wfuel x p t L RATE_MONOTONIC_ACTIVE true (negb expired) true k' /\
  (e3 = true \/ begun p t k -> begun p t k').
Proof using.
  intros Hst HO. cbv zeta. unfold arrived. destruct (block_on _ _ _ HO) as (H1 & E1 & P1). set (k1 := _Thread_Set_state t _ k) in *.
  assert (exists k2, window e3 k1 = k2 /\ on_period wfuel x p t L st true (negb e3) true k2 /\ elsewhere p t k1 k2 /\
    (e3 = true \/ begun p t k -> begun p t k2)) as (k2 & -> & H2 & E2 & B2).
  { eexists. split; [reflexivity|]. destruct e3; cbn [window negb].
    - destruct (expire_waiting _ _ H1) as (X1 & X2 & X3 & _). done.
    - unfold id. split; [done|]. split; [done|]. intros [?|HB]; [done|]. by eapply begun_reset. }
  rewrite (op_state _ _ _ _ _ _ _ _ _ _ H2).
  destruct (set_period_state_on st RATE_MONOTONIC_ACTIVE true (negb e3) true k2 H2) as [H3 E3].
  assert (begun p t k2 -> begun p t (upd_period p (set_period_state RATE_MONOTONIC_ACTIVE) k2)) as B3
    by (intros HB; eapply begun_keep; [exact HB|exact E3|by rewrite period_upd..]).
  set (k3 := upd_period p _ k2) in *. destruct (bool_decide_reflect (st = RATE_MONOTONIC_EXPIRED_WHILE_BLOCKING)) as [->|Hne].
  - rewrite orb_true_r. destruct e3; cbn [negb orb] in *.
    + rewrite clear_ready by apply H3. split; [by do 2 (etransitivity; [eassumption|])|]. split; [done|]. auto.
    + destruct (clear_on STATES_WAITING_FOR_PERIOD _ _ _ _ ltac:(done) ltac:(done) H3) as [H4 E4].
      split; [by do 3 (etransitivity; [eassumption|])|]. split; [done|]. intros HB. eapply begun_reset; [by apply B3, B2|done|].
      unfold period. destruct (clear_state_core t STATES_WAITING_FOR_PERIOD k3) as [HC _]. by rewrite (cs_rtems _ _ HC).
  - rewrite orb_false_r. split; [by do 2 (etransitivity; [eassumption|])|]. split; [done|]. auto.
Qed.

(** A timer that is off does not run down. *)
Lemma expire_off st noted blocked k : on_period wfuel x p t L st noted blocked false k ->
  exists ws, expire k = set_watchdogs ws k /\ on_period wfuel x p t L st noted blocked false (set_watchdogs ws k) /\
    elsewhere p t k (set_watchdogs ws k).
Proof using.
  intros HO. pose proof (op_timer _ _ _ _ _ _ _ _ _ _ HO) as HD. simpl in HD.
  destruct (remove_disarmed _ _ _ HD) as (ws & E & HD' & EC & EB). exists ws.
  split; [|apply (set_watchdogs_on st noted blocked false false); try done; rewrite EC; apply HO].
  unfold expire, fire. cbn [wd_get wd_put HasWatchdog_Kernel]. destruct (_Watchdog_Remove _ _) as [st' ws'] eqn:ER.
  assert (st' = WATCHDOG_INACTIVE) as ->.
  { pose proof (f_equal fst ER) as EF. unfold _Watchdog_Remove in EF. simpl in EF. rewrite <- EF. apply HD. }
  simpl in E. by subst.
Qed.

End Period.

Section Executing.
Context (wfuel : nat) (p t L : Z).
Notation window := (window wfuel p).
Notation expire := (expire wfuel p).
Notation on_the_way := (on_the_way wfuel p t).
Notation arrived := (arrived wfuel p t).

Lemma on_the_way_executing e1 e2 noted k : on_period wfuel t p t L RATE_MONOTONIC_OWNER_IS_BLOCKING noted false true k ->
  _Thread_Executing (window e1 k) = t /\ _Thread_Executing (on_the_way e1 e2 k) = t.
Proof using.
  intros HO. pose proof (on_the_way_spec wfuel t p t L e1 e2 noted k HO) as [_ H]. split.
  - destruct e1; cbn [window]; [apply (proj1 (expire_blocking wfuel t p t L _ _ HO))|apply HO].
  - destruct e1, e2; apply H.
Qed.

Lemma block_on_period_parts e1 e2 e3 noted k : on_period wfuel t p t L RATE_MONOTONIC_ACTIVE noted false true k ->
  block_on_period (window e1) (window e2) (window e3) p k =
  arrived e3 (on_the_way e1 e2 (upd_period p (set_period_state RATE_MONOTONIC_OWNER_IS_BLOCKING) k)).
Proof using.
  intros HO. unfold block_on_period.
  destruct (set_period_state_on wfuel t p t L _ RATE_MONOTONIC_OWNER_IS_BLOCKING noted false true k HO) as [H1 _]. set (k1 := upd_period p _ k) in *.
  destruct (on_the_way_executing e1 e2 noted k1 H1) as [X1 X2]. rewrite X1.
  fold (on_the_way e1 e2 k1). rewrite X2. unfold arrived.
  assert (_Thread_Executing (window e3 (_Thread_Set_state t STATES_WAITING_FOR_PERIOD (on_the_way e1 e2 k1))) = t) as X3.
  { assert (exists st on, on_period wfuel t p t L st true false on (on_the_way e1 e2 k1)) as (st & on & H2)
      by (destruct (on_the_way_spec wfuel t p t L e1 e2 noted k1 H1) as [_ H]; destruct e1, e2; [eauto|destruct H; eauto..|eauto]).
    destruct (block_on wfuel t p t L _ _ _ H2) as (H3 & _). destruct e3; cbn [window]; [|apply H3].
    destruct on; [apply (proj1 (expire_waiting wfuel t p t L _ _ H3))|]. destruct (expire_off wfuel t p t L _ _ _ _ H3) as (ws & -> & H4 & _). apply H4. }
  cbv zeta. change (_Thread_Executing (upd_period p (set_period_state RATE_MONOTONIC_ACTIVE) ?x)) with (_Thread_Executing x).
  by rewrite X3.
Qed.
End Executing.


(** ** The theorems *)

(** The owner blocks on a period whose timer ran down twice and is off. *)
Lemma arrived_stopped wfuel t p L e3 k : on_period wfuel t p t L RATE_MONOTONIC_EXPIRED true false false k ->
  elsewhere p t k (arrived wfuel p t e3 k) /\
  on_period wfuel t p t L RATE_MONOTONIC_ACTIVE true true false (arrived wfuel p t e3 k).
Proof.
  intros H2. destruct (block_on wfuel t p t L _ _ _ H2) as (H3 & E3 & _). unfold arrived.
  set (k3 := _Thread_Set_state t _ k) in *.
  assert (on_period wfuel t p t L RATE_MONOTONIC_EXPIRED true true false (window wfuel p e3 k3) /\
    elsewhere p t k3 (window wfuel p e3 k3)) as [H4 E4].
  { destruct e3; cbn [window]; [|by split]. by destruct (expire_off wfuel t p t L _ _ _ _ H3) as (ws & -> & H4 & E4). }
  rewrite (op_state _ _ _ _ _ _ _ _ _ _ H4). rewrite bool_decide_eq_false_2 by done.
  destruct (set_period_state_on wfuel t p t L _ RATE_MONOTONIC_ACTIVE _ _ _ _ H4) as [H5 E5].
  split; [|done]. by do 2 (etransitivity; [eassumption|]).
Qed.


(** If the timer runs down twice before the owner is made to wait, the owner waits
    forever: it is blocked on the period, which claims to be active, and the timer that
    would release it is off, whether or not there are further clock ticks. *)
Theorem rate_monotonic_wakeup_lost wfuel p t L noted e3 k :
  on_period wfuel t p t L RATE_MONOTONIC_ACTIVE noted false true k ->
  let k' := block_on_period (expire wfuel p) (expire wfuel p) (window wfuel p e3) p k in
  on_period wfuel t p t L RATE_MONOTONIC_ACTIVE true true false k' /\ ~ on_chain (wd_state (ctl (watchdogs k') (period_timer p))).
Proof.
  intros HO. cbv zeta. pose proof (block_on_period_parts wfuel p t L true true e3 noted k HO) as E. cbn [window] in E. rewrite E.
  destruct (set_period_state_on wfuel t p t L _ RATE_MONOTONIC_OWNER_IS_BLOCKING noted false true k HO) as [H1 _]. set (k1 := upd_period p _ k) in *.
  destruct (on_the_way_spec wfuel t p t L true true noted k1 H1) as [_ H2].
  destruct (arrived_stopped wfuel t p L e3 _ H2) as [_ H3].
  split; [done|]. eapply disarmed_off, (op_timer _ _ _ _ _ _ _ _ _ _ H3).
Qed.

(** *** Starting a period *)

Lemma insert_ticks_on wfuel p t L L' st noted k : on_period wfuel t p t L st noted false false k -> u32 L' ->
  exists k', _Watchdog_Insert_ticks wfuel id (period_timer p) L' k = Some k' /\
    on_period wfuel t p t L' st noted false true k' /\ left_to_go (period_timer p) L' (watchdogs k') /\
    elsewhere p t k k' /\ period k' p = period k p.
Proof.
  intros HO HL. destruct HO as [A B C C' D E F G H I J]. unfold _Watchdog_Insert_ticks, wd_mod.
  cbn [wd_get wd_put HasWatchdog_Kernel]. set (ws := upd (period_timer p) (set_initial L') (watchdogs k)).
  assert (disarmed (period_timer p) L' ws) as HD.
  { destruct H as [H1 H2 H3]. split; unfold ws; rewrite ?ctl_upd_eq; try done.
    apply wd_upd_off; [done|..]; simpl; rewrite H2; intros [?|?]; done. }
  destruct (insert_armed wfuel (period_timer p) L' (set_watchdogs ws k) HL HD J) as (ws' & E' & X1 & X2 & X3 & X4).
  exists (set_watchdogs ws' k). split; [exact E'|]. split; [|done]. split; try done.
  - by apply (same_threads_sched k).
  - simpl in *. rewrite X3. change (_Watchdog_Ticks_chain ws) with (_Watchdog_Ticks_chain (watchdogs k)). lia.
Qed.

Lemma initialize_on wfuel p t L st noted blocked routine id k : on_period wfuel t p t L st noted blocked false k ->
  let k' := wd_mod (_Watchdog_Initialize (period_timer p) routine id NULL) k in
  on_period wfuel t p t L st noted blocked false k' /\ elsewhere p t k k' /\ period k' p = period k p.
Proof.
  intros HO. cbv zeta. pose proof (op_timer _ _ _ _ _ _ _ _ _ _ HO) as [H1 H2 H3].
  destruct (set_watchdogs_on wfuel t p t L st noted blocked false false (_Watchdog_Initialize (period_timer p) routine id NULL (watchdogs k)) k HO)
    as [A B]; [|apply HO|done|done].
  split; unfold _Watchdog_Initialize; rewrite ?ctl_upd_eq; try done.
  apply wd_upd_off; [done|rewrite H2; by intros [?|?]|by intros [?|?]].
Qed.

Lemma start_period wfuel p t L length st noted k : on_period wfuel t p t L st noted false false k -> u32 length ->
  exists k', _Watchdog_Insert_ticks wfuel id (period_timer p) length (begin_period p t k) = Some k' /\
    on_period wfuel t p t length st noted false true k' /\ begun p t k' /\
    left_to_go (period_timer p) length (watchdogs k') /\ elsewhere p t k k'.
Proof.
  intros HO Hl. destruct (begin_period_on wfuel t p t L _ _ _ _ _ HO) as (H1 & E1 & B1).
  destruct (insert_ticks_on _ _ _ _ length _ _ _ H1 Hl) as (k' & E & H2 & LG & E2 & EP).
  exists k'. split; [done|]. split; [done|]. split; [by eapply begun_reset|]. split; [done|]. by etransitivity.
Qed.

(** Asking for the next period.  Only the owner may.  With a length of 0 the state is
    reported and nothing changes.  A period that is inactive begins now, with its timer set
    to the length: RTEMS_SUCCESSFUL.  One that has expired begins now too, and the owner is
    told with RTEMS_TIMEOUT.  One that is active makes the owner wait for its end. *)
Theorem rate_monotonic_period_correct routine wfuel p t L st noted on id length k :
  let next i1 i2 i3 := next_period routine wfuel Datatypes.id i1 i2 i3 p id length k in
  let none := Datatypes.id in
  on_period wfuel t p t L st noted false on k -> u32 length ->
  (on = true <-> st = RATE_MONOTONIC_ACTIVE) -> st <> RATE_MONOTONIC_OWNER_IS_BLOCKING ->
  st <> RATE_MONOTONIC_EXPIRED_WHILE_BLOCKING ->
  if length =? RTEMS_PERIOD_STATUS then
    forall i1 i2 i3, next i1 i2 i3 = Some (match st with RATE_MONOTONIC_INACTIVE => RTEMS_NOT_DEFINED
      | RATE_MONOTONIC_ACTIVE => RTEMS_SUCCESSFUL | _ => RTEMS_TIMEOUT end, true, k)
  else match st with
  | RATE_MONOTONIC_ACTIVE => exists k', next none none none = Some (RTEMS_SUCCESSFUL, true, k') /\
      on_period wfuel t p t L RATE_MONOTONIC_ACTIVE true true true k' /\ elsewhere p t k k'
  | _ => forall i1 i2 i3, exists k',
      next i1 i2 i3 = Some (if bool_decide (st = RATE_MONOTONIC_EXPIRED) then RTEMS_TIMEOUT else RTEMS_SUCCESSFUL, true, k') /\
      on_period wfuel t p t length RATE_MONOTONIC_ACTIVE noted false true k' /\ begun p t k' /\
      left_to_go (period_timer p) length (watchdogs k') /\ elsewhere p t k k'
  end.
Proof.
  intros next none HO Hl Hon N1 N2. unfold next, next_period.
  rewrite (op_owner _ _ _ _ _ _ _ _ _ _ HO), (op_state _ _ _ _ _ _ _ _ _ _ HO).
  assert (_Thread_Is_executing k t = true) as -> by (apply Z.eqb_eq; symmetry; apply HO). cbn [negb].
  destruct (length =? RTEMS_PERIOD_STATUS); [by destruct st|].
  assert (st <> RATE_MONOTONIC_ACTIVE -> on = false) as Hoff by (destruct on; [tauto|done]).
  destruct st; try done.
  - rewrite Hoff in HO by done. intros i1 i2 i3.
    destruct (set_period_state_on wfuel t p t L _ RATE_MONOTONIC_ACTIVE noted false false k HO)
      as [H1 E1]. set (k1 := upd_period p _ k) in *.
    destruct (initialize_on wfuel p t L _ _ _ routine id k1 H1) as (H2 & E2 & _). set (k2 := wd_mod _ k1) in *.
    rewrite (op_executing _ _ _ _ _ _ _ _ _ _ H2).
    destruct (start_period _ _ _ _ length _ _ _ H2 Hl) as (k' & -> & H3 & B3 & LG & E3).
    exists k'. split_and!; try done. by do 2 (etransitivity; [eassumption|]).
  - rewrite (proj2 Hon) in HO by done. eexists. split; [reflexivity|].
    pose proof (block_on_period_parts wfuel p t L false false false noted k HO) as EB. cbn [window] in EB. unfold none. rewrite EB.
    destruct (set_period_state_on wfuel t p t L _ RATE_MONOTONIC_OWNER_IS_BLOCKING noted false true k HO) as [H1 E1].
    destruct (on_the_way_spec wfuel t p t L false false noted _ H1) as [E2 H2].
    destruct (arrived_running wfuel t p t L _ false _ (or_introl eq_refl) H2) as (E3 & H3 & _).
    split; [exact H3|]. by do 2 (etransitivity; [eassumption|]).
  - rewrite Hoff in HO by done. intros i1 i2 i3.
    destruct (set_period_state_on wfuel t p t L _ RATE_MONOTONIC_ACTIVE noted false false k HO)
      as [H1 E1]. set (k1 := upd_period p _ k) in *. rewrite (op_executing _ _ _ _ _ _ _ _ _ _ H1).
    destruct (start_period _ _ _ _ length _ _ _ H1 Hl) as (k' & -> & H3 & B3 & LG & E3).
    exists k'. split_and!; try done. by etransitivity.
Qed.

(** The end of a period, whatever thread is executing.  An owner that waits for it is
    released, the next period begins at that tick and its timer has the whole length to go,
    so that a thread that always waits in time runs once every [L] ticks, without drift.
    For an owner that does not wait the period expires and its timer stays off. *)
Theorem rate_monotonic_timeout_correct wfuel x p t L noted blocked k :
  on_period wfuel x p t L RATE_MONOTONIC_ACTIVE noted blocked true k -> (blocked = true -> noted = true) ->
  let k' := expire wfuel p k in
  elsewhere p t k k' /\
  if blocked then on_period wfuel x p t L RATE_MONOTONIC_ACTIVE true false true k' /\ begun p t k' /\
    left_to_go (period_timer p) L (watchdogs k')
  else on_period wfuel x p t L RATE_MONOTONIC_EXPIRED noted false false k'.
Proof.
  intros HO Hn. cbv zeta. destruct blocked.
  - rewrite Hn in HO by done. destruct (expire_waiting _ _ _ _ _ _ _ HO) as (A & B & C & D). done.
  - destruct (expire_missed _ _ _ _ _ RATE_MONOTONIC_ACTIVE noted k ltac:(done) HO) as [A B]. done.
Qed.

(** ** A period of 5 ticks *)

Module PeriodExample.
Import ThreadExample.
(** The period at 900 belongs to the thread at 200, which is executing. *)
Definition p0 : Kernel := upd_period 900 (set_owner 200) k2.
Definition start (k : Kernel) : Kernel :=
  match next_period 1 9 id id id id 900 55 5 k with Some (_, _, k) => k | None => k end.
Definition p1 : Kernel := start p0.

Lemma inactive_ok : on_period 9 200 900 200 0 RATE_MONOTONIC_INACTIVE false false false p0.
Proof.
  assert (watchdogs p0 = no_watchdogs) as EW by (vm_compute; reflexivity).
  split.
  - vm_compute. reflexivity.
  - vm_compute. reflexivity.
  - vm_compute. reflexivity.
  - vm_compute. eexists. reflexivity.
  - vm_compute. discriminate.
  - apply (same_threads_sched k2); [apply upd_period_threads|apply k2_ok].
  - vm_compute. reflexivity.
  - discriminate.
  - rewrite EW. split; [exact ThreadqExample.no_watchdogs_ok|vm_compute; reflexivity..].
  - by split.
  - rewrite EW. simpl. lia.
Qed.

Lemma running_ok : on_period 9 200 900 200 5 RATE_MONOTONIC_ACTIVE false false true p1.
Proof.
  assert (p1 = match _Watchdog_Insert_ticks 9 id (period_timer 900) 5 (begin_period 900 200
    (wd_mod (_Watchdog_Initialize (period_timer 900) 1 55 NULL) (upd_period 900 (set_period_state RATE_MONOTONIC_ACTIVE) p0)))
    with Some k => k | None => p0 end) as -> by (vm_compute; reflexivity).
  pose proof inactive_ok as H0. generalize dependent p0. intros k H0.
  destruct (set_period_state_on _ _ _ _ _ _ RATE_MONOTONIC_ACTIVE _ _ _ _ H0) as [H1 _].
  destruct (initialize_on _ _ _ _ _ _ _ 1 55 _ H1) as (H2 & _).
  destruct (start_period _ _ _ _ 5 _ _ _ H2 ltac:(by split)) as (k' & E & H3 & _). rewrite E. exact H3.
Qed.
End PeriodExample.


Lemma rate_monotonic_wakeup_lost_witness :
  on_period 9 200 900 200 5 RATE_MONOTONIC_ACTIVE true true false
    (block_on_period (expire 9 900) (expire 9 900) id 900 PeriodExample.p1).
Proof.
  pose proof PeriodExample.running_ok as H. generalize dependent PeriodExample.p1. intros k H.
  exact (proj1 (rate_monotonic_wakeup_lost 9 900 200 5 false false k H)).
Defined.

Lemma rate_monotonic_period_witness :
  exists k', next_period 1 9 id id id id 900 55 5 PeriodExample.p0 = Some (RTEMS_SUCCESSFUL, true, k') /\
    left_to_go (period_timer 900) 5 (watchdogs k').
Proof.
  pose proof PeriodExample.inactive_ok as H. generalize dependent PeriodExample.p0. intros k H.
  pose proof (rate_monotonic_period_correct 1 9 900 200 0 RATE_MONOTONIC_INACTIVE false false 55 5 k H) as X.
  cbv zeta in X. change (5 =? RTEMS_PERIOD_STATUS) with false in X. cbv iota in X.
  destruct (X ltac:(by split) ltac:(by split) ltac:(done) ltac:(done) id id id) as (k' & E & _ & _ & LG & _).
  exists k'. split; [exact E|exact LG].
Defined.

Lemma rate_monotonic_timeout_witness :
  on_period 9 200 900 200 5 RATE_MONOTONIC_EXPIRED false false false (expire 9 900 PeriodExample.p1).
Proof.
  pose proof PeriodExample.running_ok as H. generalize dependent PeriodExample.p1. intros k H.
  apply (rate_monotonic_timeout_correct 9 200 900 200 5 false false k H). discriminate.
Defined.
