(* ===== verification/Semaphore.v ===== *)
(** * Semaphore Manager (rtems/src/sem.c)

    A semaphore of the RTEMS API is a core mutex when it is binary and a core semaphore
    when it counts.  The core object, with its thread queue, is at [s + 20] for the control
    block at [s].  Requests to other nodes and the announcement of global objects are
    parameters. *)
From S2P Require Import Prelude Chain Watchdog Object Priority ApiTypes Heap Kernel Thread Threadq Workspace.
From S2P Require Import CoreSem CoreMutex CoreMsg Rtems Partition.

Definition semaphore (k : Kernel) (s : Z) : Semaphore_Control := api_semaphores (rtems k) !!! s.
Definition upd_semaphore (s : Z) (f : Semaphore_Control -> Semaphore_Control) (k : Kernel) : Kernel :=
  upd_rtems (fun r => set_api_semaphores (<[s := f (semaphore k s)]> (api_semaphores r)) r) k.
Definition Core_control (s : Z) : Z := s + 20.
Definition THREAD_STATUS_PROXY_BLOCKING : Z := 17895697.
Definition _Thread_Is_proxy_blocking (code : Z) : bool := code =? THREAD_STATUS_PROXY_BLOCKING.

(** The operations on a semaphore of another node (semmp.h). *)
Inductive Semaphore_MP_Remote_operations : Type :=
| SEMAPHORE_MP_ANNOUNCE_CREATE
| SEMAPHORE_MP_ANNOUNCE_DELETE
| SEMAPHORE_MP_EXTRACT_PROXY
| SEMAPHORE_MP_OBTAIN_REQUEST
| SEMAPHORE_MP_OBTAIN_RESPONSE
| SEMAPHORE_MP_RELEASE_REQUEST
| SEMAPHORE_MP_RELEASE_RESPONSE.
Definition MPCI_DEFAULT_TIMEOUT : Z := 4294967295.

(** ** Status codes *)

Definition _Semaphore_Translate_core_mutex_return_code (the_mutex_status : Z) : Z :=
  if the_mutex_status =? CORE_MUTEX_STATUS_SUCCESSFUL then RTEMS_SUCCESSFUL
  else if the_mutex_status =? CORE_MUTEX_STATUS_UNSATISFIED_NOWAIT then RTEMS_UNSATISFIED
  else if the_mutex_status =? CORE_MUTEX_STATUS_NESTING_NOT_ALLOWED then RTEMS_INTERNAL_ERROR
  else if the_mutex_status =? CORE_MUTEX_STATUS_NOT_OWNER_OF_RESOURCE then RTEMS_NOT_OWNER_OF_RESOURCE
  else if the_mutex_status =? CORE_MUTEX_WAS_DELETED then RTEMS_OBJECT_WAS_DELETED
  else if the_mutex_status =? CORE_MUTEX_TIMEOUT then RTEMS_TIMEOUT
  else if the_mutex_status =? THREAD_STATUS_PROXY_BLOCKING then THREAD_STATUS_PROXY_BLOCKING
  else RTEMS_INTERNAL_ERROR.

Definition _Semaphore_Translate_core_semaphore_return_code (the_semaphore_status : Z) : Z :=
  if the_semaphore_status =? CORE_SEMAPHORE_STATUS_SUCCESSFUL then RTEMS_SUCCESSFUL
  else if the_semaphore_status =? CORE_SEMAPHORE_STATUS_UNSATISFIED_NOWAIT then RTEMS_UNSATISFIED
  else if the_semaphore_status =? CORE_SEMAPHORE_WAS_DELETED then RTEMS_OBJECT_WAS_DELETED
  else if the_semaphore_status =? CORE_SEMAPHORE_TIMEOUT then RTEMS_TIMEOUT
  else if the_semaphore_status =? THREAD_STATUS_PROXY_BLOCKING then THREAD_STATUS_PROXY_BLOCKING
  else RTEMS_INTERNAL_ERROR.

(** ** Creation *)

(** The checks of the arguments: the error, if any. *)
Definition semaphore_attributes_error (is_multiprocessing : bool) (count attribute_set : Z) : option Z :=
  let first :=
    if _Attributes_Is_global attribute_set then
      if negb is_multiprocessing then Some RTEMS_MP_NOT_CONFIGURED
      else if _Attributes_Is_inherit_priority attribute_set then Some RTEMS_NOT_DEFINED
      else None
    else if _Attributes_Is_inherit_priority attribute_set || _Attributes_Is_priority_ceiling attribute_set then
      if negb (_Attributes_Is_binary_semaphore attribute_set && _Attributes_Is_priority attribute_set)
      then Some RTEMS_NOT_DEFINED else None
    else None in
  match first with
  | Some e => Some e
  | None => if _Attributes_Is_binary_semaphore attribute_set && (1 <? count) then Some RTEMS_INVALID_NUMBER else None
  end.

(** The discipline of a binary semaphore. *)
Definition binary_discipline (attribute_set : Z) : CORE_mutex_Disciplines :=
  if _Attributes_Is_inherit_priority attribute_set then CORE_MUTEX_DISCIPLINES_PRIORITY_INHERIT
  else if _Attributes_Is_priority_ceiling attribute_set then CORE_MUTEX_DISCIPLINES_PRIORITY_CEILING
  else if _Attributes_Is_priority attribute_set then CORE_MUTEX_DISCIPLINES_PRIORITY
  else CORE_MUTEX_DISCIPLINES_FIFO.

Definition semaphore_set_up (extract_proxy s count attribute_set ceiling : Z) (k : Kernel) : Kernel :=
  let k := upd_semaphore s (fun _ => {| semaphore_attribute_set := attribute_set |}) k in
  if _Attributes_Is_binary_semaphore attribute_set
  then _CORE_mutex_Initialize (Core_control s) OBJECTS_RTEMS_SEMAPHORES true (binary_discipline attribute_set) ceiling
         (if count =? 1 then CORE_MUTEX_UNLOCKED else CORE_MUTEX_LOCKED) extract_proxy k
  else _CORE_semaphore_Initialize (Core_control s) OBJECTS_RTEMS_SEMAPHORES
         (if _Attributes_Is_priority attribute_set
          then CORE_SEMAPHORE_DISCIPLINES_PRIORITY else CORE_SEMAPHORE_DISCIPLINES_FIFO)
         count extract_proxy k.

(** ** Obtaining and releasing: the local cases, before dispatching is enabled again *)

Section Obtain.
Context (timeout_routine : Z) (wfuel : nat) (wisr : Kernel -> Kernel).
Context (fuel : nat) (isrs : list (Kernel -> Kernel)) (isr : Kernel -> Kernel).

Definition semaphore_obtain (s id option_set timeout : Z) (k : Kernel) : option Kernel :=
  let wait := negb (_Options_Is_no_wait option_set) in
  if _Attributes_Is_binary_semaphore (semaphore_attribute_set (semaphore k s))
  then _CORE_mutex_Seize timeout_routine wfuel wisr fuel isrs isr (Core_control s) id wait timeout k
  else _CORE_semaphore_Seize timeout_routine wfuel wisr fuel isrs isr (Core_control s) id wait timeout k.
End Obtain.

(** The status that a caller sees for a code in its wait information. *)
Definition semaphore_status (binary : bool) (code : Z) : Z :=
  if binary then _Semaphore_Translate_core_mutex_return_code code
  else _Semaphore_Translate_core_semaphore_return_code code.

Section Release.
Context (_Objects_Local_node : Z) (mutex_mp_support semaphore_mp_support : Z -> Z -> Kernel -> Kernel).

Definition semaphore_release (s id : Z) (k : Kernel) : Z * Kernel :=
  if _Attributes_Is_binary_semaphore (semaphore_attribute_set (semaphore k s)) then
    let '(mutex_status, k) := _CORE_mutex_Surrender _Objects_Local_node mutex_mp_support (Core_control s) id k in
    (semaphore_status true mutex_status, k)
  else
    let '(core_status, k) := _CORE_semaphore_Surrender _Objects_Local_node semaphore_mp_support (Core_control s) id k in
    (semaphore_status false core_status, k).
End Release.

(** The flush of [rtems_semaphore_delete]: [None] in the first component when the semaphore
    is in use. *)
Definition semaphore_flush (fuel : nat) (s : Z) (k : Kernel) : option (option Kernel) :=
  if _Attributes_Is_binary_semaphore (semaphore_attribute_set (semaphore k s)) then
    if _CORE_mutex_Is_locked (mutex k (Core_control s)) then Some None
    else match _CORE_mutex_Flush fuel (Core_control s) CORE_MUTEX_WAS_DELETED k with
         | None => None
         | Some k => Some (Some k)
         end
  else match _CORE_semaphore_Flush fuel (Core_control s) CORE_SEMAPHORE_WAS_DELETED k with
       | None => None
       | Some k => Some (Some k)
       end.

(** ** Directives *)

Section Directives.
Context (switch : Z -> Z -> Kernel -> Kernel) (postswitch : Kernel -> Kernel).
Context (isrs : list (Kernel -> Kernel)) (fuel : nat) (_Objects_Local_node _Objects_Maximum_nodes name_argument : Z).
Context (is_multiprocessing : bool) (extract_proxy : Z).
Context (mp_allocate_and_open : Z -> Z -> Kernel -> bool * Kernel) (mp_close : Z -> Kernel -> Kernel).
(** The process packet has the operation, the id and the name; the request packet the
    operation, the id, the options and the timeout. *)
Context (mp_announce : Semaphore_MP_Remote_operations -> Z -> Z -> Kernel -> Kernel).
Context (mp_request : Semaphore_MP_Remote_operations -> Z -> Z -> Z -> Kernel -> Z * Kernel).
Context (mutex_mp_support semaphore_mp_support : Z -> Z -> Kernel -> Kernel).

Notation Get := (object_get switch postswitch isrs fuel _Objects_Local_node _Objects_Maximum_nodes).
Notation finish := (enable_return switch postswitch isrs fuel).

Definition rtems_semaphore_create (name count attribute_set ceiling id : Z) (k : Kernel) : option (Z * Kernel) :=
  if negb (rtems_is_name_valid name) then Some (RTEMS_INVALID_NAME, k)
  else
    match semaphore_attributes_error is_multiprocessing count attribute_set with
    | Some e => Some (e, k)
    | None =>
        let k := _Thread_Disable_dispatch k in
        let '(the_semaphore, k) := object_allocate OBJECTS_RTEMS_SEMAPHORES k in
        if the_semaphore =? NULL then finish RTEMS_TOO_MANY k
        else
          let '(global_ok, k) :=
            if _Attributes_Is_global attribute_set
            then mp_allocate_and_open name (object_id k OBJECTS_RTEMS_SEMAPHORES the_semaphore) k else (true, k) in
          if negb global_ok then finish RTEMS_TOO_MANY (object_free OBJECTS_RTEMS_SEMAPHORES the_semaphore k)
          else
            let k := semaphore_set_up extract_proxy the_semaphore count attribute_set ceiling k in
            match object_open fuel name_argument OBJECTS_RTEMS_SEMAPHORES the_semaphore name k with
            | None => None
            | Some k =>
                let the_id := object_id k OBJECTS_RTEMS_SEMAPHORES the_semaphore in
                let k := put_word id the_id k in
                let k := if _Attributes_Is_global attribute_set then mp_announce SEMAPHORE_MP_ANNOUNCE_CREATE the_id name k else k in
                finish RTEMS_SUCCESSFUL k
            end
    end.

Definition rtems_semaphore_ident (name node id : Z) (k : Kernel) : Z * Kernel :=
  object_ident switch postswitch isrs fuel _Objects_Local_node _Objects_Maximum_nodes name_argument
    OBJECTS_RTEMS_SEMAPHORES name node id k.

Definition rtems_semaphore_delete (id : Z) (k : Kernel) : option (Z * Kernel) :=
  match Get OBJECTS_RTEMS_SEMAPHORES id k with
  | None => None
  | Some (OBJECTS_ERROR, _, k) => Some (RTEMS_INVALID_ID, k)
  | Some (OBJECTS_REMOTE, _, k) =>
      match _Thread_Dispatch switch postswitch fuel isrs k with
      | None => None
      | Some k => Some (RTEMS_ILLEGAL_ON_REMOTE_OBJECT, k)
      end
  | Some (OBJECTS_LOCAL, the_semaphore, k) =>
      match semaphore_flush fuel the_semaphore k with
      | None => None
      | Some None => finish RTEMS_RESOURCE_IN_USE k
      | Some (Some k) =>
          let k := object_close OBJECTS_RTEMS_SEMAPHORES the_semaphore k in
          let k := object_free OBJECTS_RTEMS_SEMAPHORES the_semaphore k in
          let k := if _Attributes_Is_global (semaphore_attribute_set (semaphore k the_semaphore))
                   then let the_id := object_id k OBJECTS_RTEMS_SEMAPHORES the_semaphore in
                        mp_announce SEMAPHORE_MP_ANNOUNCE_DELETE the_id 0 (mp_close the_id k)
                   else k in
          finish RTEMS_SUCCESSFUL k
      end
  end.

(** [resume] is what happens until the caller is executing again. *)
Definition rtems_semaphore_obtain (timeout_routine : Z) (wfuel : nat) (wisr isr resume : Kernel -> Kernel)
    (qisrs : list (Kernel -> Kernel)) (id option_set timeout : Z) (k : Kernel) : option (Z * Kernel) :=
  match Get OBJECTS_RTEMS_SEMAPHORES id k with
  | None => None
  | Some (OBJECTS_ERROR, _, k) => Some (RTEMS_INVALID_ID, k)
  | Some (OBJECTS_REMOTE, _, k) => Some (mp_request SEMAPHORE_MP_OBTAIN_REQUEST id option_set timeout k)
  | Some (OBJECTS_LOCAL, the_semaphore, k) =>
      let binary := _Attributes_Is_binary_semaphore (semaphore_attribute_set (semaphore k the_semaphore)) in
      match semaphore_obtain timeout_routine wfuel wisr fuel qisrs isr the_semaphore id option_set timeout k with
      | None => None
      | Some k =>
          match _Thread_Enable_dispatch switch postswitch fuel isrs k with
          | None => None
          | Some k =>
              let k := resume k in
              Some (semaphore_status binary (Wait_return_code (Wait (tcb k (_Thread_Executing k)))), k)
          end
      end
  end.

Definition rtems_semaphore_release (id : Z) (k : Kernel) : option (Z * Kernel) :=
  match Get OBJECTS_RTEMS_SEMAPHORES id k with
  | None => None
  | Some (OBJECTS_ERROR, _, k) => Some (RTEMS_INVALID_ID, k)
  | Some (OBJECTS_REMOTE, _, k) => Some (mp_request SEMAPHORE_MP_RELEASE_REQUEST id 0 MPCI_DEFAULT_TIMEOUT k)
  | Some (OBJECTS_LOCAL, the_semaphore, k) =>
      let '(status, k) := semaphore_release _Objects_Local_node mutex_mp_support semaphore_mp_support the_semaphore id k in finish status k
  end.
End Directives.
