(* ===== verification/SemaphoreSpec.v ===== *)
(** * Correctness of the semaphore manager

    The attributes of a semaphore decide which core object it has.  Creation establishes
    the invariant of that object, and the directives turn what the core handler leaves in
    the calling thread into a status of the API. *)
From S2P Require Import Prelude Chain Watchdog WatchdogProofs WatchdogOps Object Priority ApiTypes Kernel Thread.
From S2P Require Import ThreadProofs ThreadSpec Threadq ThreadqProofs ThreadqSpec CoreWait CoreSem CoreMutex CoreMutexSpec.
From S2P Require Import Rtems Semaphore.

(** ** What a semaphore is *)

(** The attributes, as bits of the attribute set (rtems/headers/attr.h). *)
Lemma land_bit a n : 0 <= n -> negb (Z.land a (2 ^ n) =? 0) = Z.testbit a n.
Proof.
  intros Hn. destruct (Z.testbit a n) eqn:E.
  - apply negb_true_iff, Z.eqb_neq. intros H. apply (f_equal (fun x => Z.testbit x n)) in H.
    by rewrite Z.land_spec, E, Z.pow2_bits_true, Z.bits_0 in H.
  - apply negb_false_iff, Z.eqb_eq, Z.bits_inj_0. intros i. rewrite Z.land_spec, Z.pow2_bits_eqb by done.
    destruct (Z.eqb_spec n i) as [<-|]; [by rewrite E|apply andb_false_r].
Qed.

Lemma attribute_bits a : _Attributes_Is_global a = Z.testbit a 1 /\ _Attributes_Is_priority a = Z.testbit a 2 /\
  _Attributes_Is_binary_semaphore a = Z.testbit a 4 /\ _Attributes_Is_inherit_priority a = Z.testbit a 5 /\
  _Attributes_Is_priority_ceiling a = Z.testbit a 6 /\ _Options_Is_no_wait a = Z.testbit a 0.
Proof.
  split_and!; [apply (land_bit a 1)|apply (land_bit a 2)|apply (land_bit a 4)|apply (land_bit a 5)|apply (land_bit a 6)
    |apply (land_bit a 0)]; done.
Qed.

Notation binary k s := (Z.testbit (semaphore_attribute_set (semaphore k s)) 4).

Lemma binary_bit s k : _Attributes_Is_binary_semaphore (semaphore_attribute_set (semaphore k s)) = binary k s.
Proof. apply attribute_bits. Qed.

(** The core object of the semaphore at [s] is well formed. *)
Definition core_ok (s : Z) (is_binary : bool) (k : Kernel) : Prop :=
  if is_binary then mutex_ok (Core_control s) k else sem_ok (Core_control s) k.
Definition semaphore_typed (s : Z) (k : Kernel) : Prop :=
  core_ok s (binary k s) k /\ (binary k s = true -> allow_nesting (mutex k (Core_control s)) = true).

Lemma semaphore_upd s f k : semaphore (upd_semaphore s f k) s = f (semaphore k s).
Proof. unfold semaphore at 1, upd_semaphore, upd_rtems. simpl. apply lookup_total_insert_eq. Qed.

Lemma upd_semaphore_threads s f k : same_threads k (upd_semaphore s f k).
Proof. by split. Qed.

(** ** Creation *)

(** A mutex that is created unlocked has no holder. *)
Lemma unlocked_ok m cls nesting d ceiling proxy k : sched_ok k ->
  let k' := _CORE_mutex_Initialize m cls nesting d ceiling CORE_MUTEX_UNLOCKED proxy k in
  mutex_ok m k' /\
  mutex k' m = {| allow_nesting := nesting; mutex_discipline := d; priority_ceiling := ceiling;
    lock := CORE_MUTEX_UNLOCKED; nest_count := 0; holder := NULL; holder_id := 0 |} /\
  tq_list k' m = [] /\ forall u, tcb k' u = tcb k u.
Proof.
  intros HS. cbn zeta. unfold _CORE_mutex_Initialize. cbn zeta.
  change (CORE_MUTEX_UNLOCKED =? CORE_MUTEX_LOCKED) with false. cbv iota. set (k1 := upd_mutex m _ _). fold (queue_discipline d).
  destruct (initialize_fresh m cls (queue_discipline d) STATES_WAITING_FOR_MUTEX proxy CORE_MUTEX_TIMEOUT k1) as (A & B & C & D);
    [done|].
  assert (mutex k1 m = {| allow_nesting := nesting; mutex_discipline := d; priority_ceiling := ceiling;
    lock := CORE_MUTEX_UNLOCKED; nest_count := 0; holder := NULL; holder_id := 0 |}) as EM
    by (unfold k1; by rewrite !mutex_upd).
  set (k2 := _Thread_queue_Initialize _ _ _ _ _ _ k1) in *.
  assert (mutex k2 m = mutex k1 m) as EM2 by done. rewrite EM in EM2.
  assert (sched_ok k2) as HS2 by (apply (links_only_sched k1); [done|]; by apply (same_threads_sched k)).
  assert (sync_state (tq k2 m) = THREAD_QUEUE_SYNCHRONIZED) as E1 by (by rewrite D).
  assert (tq_state (tq k2 m) = STATES_WAITING_FOR_MUTEX) as E2 by (by rewrite D).
  assert (discipline (tq k2 m) = queue_discipline d) as E3 by (by rewrite D).
  rewrite EM2. split_and!; try done. split; rewrite ?EM2; simpl; try done; [|by left].
  split; rewrite ?EM2, ?A; try done. apply not_elem_of_nil.
Qed.

(** One that is created locked belongs to the creator. *)
Lemma locked_ok m cls nesting d ceiling proxy k : sched_ok k -> _Thread_Executing k <> NULL ->
  let t := _Thread_Executing k in
  let k' := _CORE_mutex_Initialize m cls nesting d ceiling CORE_MUTEX_LOCKED proxy k in
  mutex_ok m k' /\
  mutex k' m = {| allow_nesting := nesting; mutex_discipline := d; priority_ceiling := ceiling;
    lock := CORE_MUTEX_LOCKED; nest_count := 1; holder := t; holder_id := Object_id (tcb k t) |} /\
  tq_list k' m = [] /\
  forall u, tcb k' u = if decide (u = t) then set_resource_count (resource_count (tcb k u) +w 1) (tcb k u) else tcb k u.
Proof.
  intros HS Hn. cbn zeta. destruct (handed_ok m cls nesting d ceiling proxy (_Thread_Executing k) k HS) as (A & B & C & D & _ & _ & _ & E & F & G);
    [apply HS|done|].
  assert (forall x, set_executing (_Thread_Executing x) x = x) as ES by (by intros []).
  rewrite !ES in A, B, C, D, E, F, G.
  assert (mutex (_CORE_mutex_Initialize m cls nesting d ceiling CORE_MUTEX_LOCKED proxy k) m =
    {| allow_nesting := nesting; mutex_discipline := d; priority_ceiling := ceiling;
       lock := CORE_MUTEX_LOCKED; nest_count := 1; holder := _Thread_Executing k;
       holder_id := Object_id (tcb k (_Thread_Executing k)) |}) as EM.
  { unfold _CORE_mutex_Initialize. change (mutex (_Thread_queue_Initialize _ _ _ _ _ _ ?x)) with (mutex x).
    change (CORE_MUTEX_LOCKED =? CORE_MUTEX_LOCKED) with true. cbv iota zeta.
    change (mutex (take_resource _ ?x)) with (mutex x). by rewrite !mutex_upd. }
  set (k' := _CORE_mutex_Initialize _ _ _ _ _ _ _ _) in *.
  assert (set_executing (_Thread_Executing k) k' = k') as E' by (exact (ES k')).
  rewrite ?E' in A, B, C, D, E, F, G. split_and!; try done. intros u. rewrite G. by destruct (decide (u = _)) as [-> |].
Qed.

(** The discipline of a binary semaphore, and the order of its queue, by the bits. *)
Lemma discipline_bits a :
  binary_discipline a = (if Z.testbit a 5 then CORE_MUTEX_DISCIPLINES_PRIORITY_INHERIT
    else if Z.testbit a 6 then CORE_MUTEX_DISCIPLINES_PRIORITY_CEILING
    else if Z.testbit a 2 then CORE_MUTEX_DISCIPLINES_PRIORITY else CORE_MUTEX_DISCIPLINES_FIFO) /\
  queue_discipline (binary_discipline a) = (if Z.testbit a 5 || Z.testbit a 6 || Z.testbit a 2
    then THREAD_QUEUE_DISCIPLINE_PRIORITY else THREAD_QUEUE_DISCIPLINE_FIFO).
Proof.
  destruct (attribute_bits a) as (_ & B2 & _ & B5 & B6 & _). unfold binary_discipline. rewrite B2, B5, B6.
  by destruct (Z.testbit a 5), (Z.testbit a 6), (Z.testbit a 2).
Qed.

(** C13: [rtems_semaphore_create] accepts its arguments, or answers them with an error, as
    the bits of the attribute set say: 1 global, 2 priority, 4 binary, 5 inherit priority, 6
    priority ceiling.  A semaphore whose arguments are accepted, global ones included, is
    well formed once it is set up.
    - With bit 4 it is a core mutex that allows nesting and has the given ceiling.  Its
      discipline is inheritance with bit 5, otherwise ceiling with bit 6, otherwise
      priority with bit 2, otherwise FIFO; its queue is in the order of arrival for the
      last and in that of priorities for the others.  With a count of 1 it is free, with
      0 it is locked and held once by its creator, which gets one more resource (and keeps
      its priority, whatever the ceiling); no other count is accepted.
    - Otherwise it is a core semaphore of the given count, with a queue as bit 2 says.
    In both cases nobody waits, and no thread is changed but the creator as said. *)
Theorem semaphore_create_typed mp proxy s count a ceiling k :
  let c := Core_control s in
  let t := _Thread_Executing k in
  let inherits := Z.testbit a 5 in
  let has_ceiling := Z.testbit a 6 in
  sched_ok k -> t <> NULL -> u32 count ->
  semaphore_attributes_error mp count a =
    (if Z.testbit a 1 && negb mp then Some RTEMS_MP_NOT_CONFIGURED
     else if (if Z.testbit a 1 then inherits
              else (inherits || has_ceiling) && negb (Z.testbit a 4 && Z.testbit a 2)) then Some RTEMS_NOT_DEFINED
     else if Z.testbit a 4 && (1 <? count) then Some RTEMS_INVALID_NUMBER else None) /\
  (semaphore_attributes_error mp count a = None ->
   let k' := semaphore_set_up proxy s count a ceiling k in
   semaphore_typed s k' /\ semaphore_attribute_set (semaphore k' s) = a /\ tq_list k' c = [] /\
   if Z.testbit a 4 then
     discipline (tq k' c) = (if inherits || has_ceiling || Z.testbit a 2
       then THREAD_QUEUE_DISCIPLINE_PRIORITY else THREAD_QUEUE_DISCIPLINE_FIFO) /\
     mutex k' c = {| allow_nesting := true;
       mutex_discipline :=
         if inherits then CORE_MUTEX_DISCIPLINES_PRIORITY_INHERIT
         else if has_ceiling then CORE_MUTEX_DISCIPLINES_PRIORITY_CEILING
         else if Z.testbit a 2 then CORE_MUTEX_DISCIPLINES_PRIORITY else CORE_MUTEX_DISCIPLINES_FIFO;
       priority_ceiling := ceiling;
       lock := if count =? 1 then CORE_MUTEX_UNLOCKED else CORE_MUTEX_LOCKED;
       nest_count := 1 - count;
       holder := if count =? 1 then NULL else t;
       holder_id := if count =? 1 then 0 else Object_id (tcb k t) |} /\
     (count = 0 \/ count = 1) /\
     forall u, tcb k' u = if negb (count =? 1) && (u =? t)
       then set_resource_count (resource_count (tcb k u) +w 1) (tcb k u) else tcb k u
   else
     discipline (tq k' c) =
       (if Z.testbit a 2 then THREAD_QUEUE_DISCIPLINE_PRIORITY else THREAD_QUEUE_DISCIPLINE_FIFO) /\
     sem_count (sem k' c) = count /\ forall u, tcb k' u = tcb k u).
Proof.
  intros c t inherits has_ceiling HS Hn Hc. destruct (attribute_bits a) as (B1 & B2 & B4 & B5 & B6 & _).
  split.
  { unfold semaphore_attributes_error. rewrite B1, B2, B4, B5, B6. fold inherits has_ceiling.
    destruct (Z.testbit a 1), mp, inherits, has_ceiling, (Z.testbit a 4), (Z.testbit a 2); done. }
  intros HE k'.
  assert (Z.testbit a 4 = true -> count = 0 \/ count = 1) as HC.
  { intros Hb. unfold semaphore_attributes_error in HE. destruct (if _Attributes_Is_global a then _ else _); [done|].
    rewrite B4, Hb in HE. destruct (Z.ltb_spec 1 count); [done|]. destruct Hc. lia. }
  unfold k', semaphore_set_up. set (k1 := upd_semaphore s _ k).
  assert (semaphore_attribute_set (semaphore k1 s) = a) as EA by (unfold k1; by rewrite semaphore_upd).
  assert (sched_ok k1) as HS1 by (by apply (same_threads_sched k)).
  assert (forall u, tcb k1 u = tcb k u) as ET by done. assert (_Thread_Executing k1 = t) as EX by done.
  clearbody k1. rewrite B4. unfold semaphore_typed, core_ok.
  destruct (Z.testbit a 4) eqn:Hb.
  - pose proof (discipline_bits a) as [HD HQ]. fold inherits has_ceiling in HD, HQ. rewrite <- HD.
    set (d := binary_discipline a) in *.
    set (l := if count =? 1 then CORE_MUTEX_UNLOCKED else CORE_MUTEX_LOCKED).
    set (k2 := _CORE_mutex_Initialize _ _ _ _ _ _ _ _).
    assert (semaphore k2 s = semaphore k1 s) as ES by (unfold k2, _CORE_mutex_Initialize; by destruct (l =? _)).
    rewrite ES, EA, Hb. rewrite <- HQ. specialize (HC eq_refl). unfold l in *.
    destruct HC as [-> | ->]; [change (0 =? 1) with false in *|change (1 =? 1) with true in *]; cbv iota in k2 |- *;
      cbn [negb andb]; fold c in k2.
    + destruct (locked_ok c OBJECTS_RTEMS_SEMAPHORES true d ceiling proxy k1 HS1) as (A & B & C & D); [by rewrite EX|].
      fold k2 in A, B, C, D. rewrite EX in D. rewrite EX, ET in B.
      split; [split; [exact A|intros _; fold c; by rewrite B]|]. split_and!; try done; [by rewrite (mq_discipline _ _ (mo_queue _ _ A)), B|by left|].
      intros u. rewrite D, ET. by destruct (Z.eqb_spec u t), (decide (u = t)).
    + destruct (unlocked_ok c OBJECTS_RTEMS_SEMAPHORES true d ceiling proxy k1 HS1) as (A & B & C & D).
      fold k2 in A, B, C, D.
      split; [split; [exact A|intros _; fold c; by rewrite B]|]. split_and!; try done; [by rewrite (mq_discipline _ _ (mo_queue _ _ A)), B|by right].
  - rewrite B2. set (d := if Z.testbit a 2 then CORE_SEMAPHORE_DISCIPLINES_PRIORITY else _).
    destruct (semaphore_fresh c OBJECTS_RTEMS_SEMAPHORES d count proxy k1 HS1 Hc) as (A & B & C).
    fold c. set (k2 := _CORE_semaphore_Initialize _ _ _ _ _ _) in *.
    assert (semaphore k2 s = semaphore k1 s) as ES by done. rewrite ES, EA, Hb. split_and!; try done.
    destruct (initialize_fresh c OBJECTS_RTEMS_SEMAPHORES
      (if _CORE_semaphore_Is_priority d then THREAD_QUEUE_DISCIPLINE_PRIORITY else THREAD_QUEUE_DISCIPLINE_FIFO)
      STATES_WAITING_FOR_SEMAPHORE proxy CORE_SEMAPHORE_TIMEOUT
      (upd_sem c (fun _ => {| sem_discipline := d; sem_count := count |}) k1)) as (_ & _ & _ & D); [done|].
    unfold k2, _CORE_semaphore_Initialize. rewrite D. unfold d. by destruct (Z.testbit a 2).
Qed.

(** ** Obtaining *)

Notation code_of k t := (Wait_return_code (Wait (tcb k t))).

(** What a caller may rely on for a binary semaphore. *)
Record may_nest (s : Z) (k : Kernel) : Prop := {
  mn_ids : ids_ok k;
  mn_ceiling : prio (priority_ceiling (mutex k (Core_control s)));
  mn_count : nest_count (mutex k (Core_control s)) + 1 < two32
}.

Section Obtaining.
Context (routine : Z) (wfuel fuel : nat) (s id timeout : Z) (wait : bool) (k : Kernel).
Notation t := (_Thread_Executing k).
Notation c := (Core_control s).
Notation M := (mutex k c).
Context (HY : semaphore_typed s k) (HW : can_wait c k) (HT : timer_free wfuel t timeout k) (Hn : t <> NULL).
Context (Hf : (length (tq_list k c) < fuel)%nat).

(** The caller is above the ceiling; what it asks for can be had at once. *)
Definition above_ceiling : bool :=
  binary k s && match mutex_discipline M with
    | CORE_MUTEX_DISCIPLINES_PRIORITY_CEILING => current_priority (tcb k t) <? priority_ceiling M
    | _ => false
    end.
Definition available : bool :=
  if binary k s then (lock M =? CORE_MUTEX_UNLOCKED) || (holder M =? t) else negb (sem_count (sem k c) =? 0).

Definition granted (k' : Kernel) : Prop :=
  if binary k s then holder (mutex k' c) = t /\ nest_count (mutex k' c) = nest_count M + 1
  else sem_count (sem k' c) = sem_count (sem k c) - 1.

Definition answered (k' : Kernel) : Prop :=
  let answer := semaphore_status (binary k s) (code_of k' t) in
  let kept := core_ok s (binary k s) k' /\ tq_list k' c = tq_list k c in
  let same := if binary k s then mutex k' c = M else sem k' c = sem k c in
  if above_ceiling then answer = RTEMS_INTERNAL_ERROR /\ kept /\ same
  else if available then answer = RTEMS_SUCCESSFUL /\ kept /\ granted k'
  else if wait then
    tq_list k' c = joined k c t /\ same /\
    current_state (tcb k' t) = (if binary k s then STATES_WAITING_FOR_MUTEX else STATES_WAITING_FOR_SEMAPHORE)
  else answer = RTEMS_UNSATISFIED /\ kept /\ same.

Lemma obtain_counting : binary k s = false ->
  exists k', _CORE_semaphore_Seize routine wfuel Datatypes.id fuel [] Datatypes.id c id wait timeout k = Some k' /\ answered k'.
Proof using HY HW HT Hn Hf.
  intros Hb. destruct HY as [HC _]. unfold core_ok in HC. rewrite Hb in HC.
  destruct (semaphore_seize_correct routine wfuel fuel c id wait timeout k HC HW HT Hn Hf) as (k' & E & HO & _ & H).
  exists k'. split; [done|]. unfold answered, above_ceiling, available, granted, core_ok. rewrite Hb. cbn [andb].
  destruct (sem_count (sem k c) =? 0); cbn [negb] in *; [destruct wait; cbn [negb] in *|].
  - destruct H as (ES & EL & _ & ET & _). by split_and!.
  - destruct H as (ES & EL & ET). split_and!; try done. rewrite ET. unfold with_status. by rewrite decide_True.
  - destruct H as (ES & EL & ET). split_and!; try done. rewrite ET. unfold with_status. by rewrite decide_True.
Qed.

Lemma obtain_binary : binary k s = true -> may_nest s k ->
  exists k', _CORE_mutex_Seize routine wfuel Datatypes.id fuel [] Datatypes.id c id wait timeout k = Some k' /\ answered k'.
Proof using HY HW HT Hn Hf.
  intros Hb [HI Hp Hc]. destruct HY as [HO Ha]. unfold core_ok in HO. rewrite Hb in HO. specialize (Ha Hb).
  unfold answered, available, granted, core_ok.
  assert (ceiling_violated c t k = above_ceiling) as HV.
  { unfold ceiling_violated, above_ceiling. rewrite Hb. by destruct (mutex_discipline M). }
  destruct above_ceiling; rewrite Hb.
  { rewrite (seize_violated routine wfuel fuel c id timeout k wait HV). eexists. split; [done|].
    destruct (status_ok c k CORE_MUTEX_STATUS_CEILING_VIOLATED HO) as [A EL]. split_and!; try done.
    by rewrite code_tcb, decide_True. }
  destruct (mo_lock _ _ HO) as [HL|HL]; rewrite HL.
  { destruct (seize_free routine wfuel fuel c id timeout k HO wait HV HL Hn Hp) as (k' & E & A & EL & _ & EM & _ & _ & EC & _).
    exists k'. change (CORE_MUTEX_UNLOCKED =? CORE_MUTEX_UNLOCKED) with true. cbn [orb].
    destruct (mo_free _ _ HO HL) as (_ & _ & -> & ->). rewrite EC, EL, EM. by split_and!. }
  change (CORE_MUTEX_LOCKED =? CORE_MUTEX_UNLOCKED) with false. cbn [orb].
  destruct (Z.eqb_spec (holder M) t) as [Hh|Hh].
  { destruct (seize_nested routine wfuel fuel c id timeout k HO HI wait HV HL Hh Ha Hc) as (k' & E & A & EL & EM & EK).
    exists k'. rewrite EM. split_and!; try done. rewrite EK. change (tcb (upd_mutex _ _ ?x) t) with (tcb x t).
    by rewrite code_tcb, decide_True. }
  destruct wait.
  - destruct (_CORE_mutex_Is_priority_ceiling (mutex_discipline M)) eqn:Hd.
    + assert (mutex_discipline M = CORE_MUTEX_DISCIPLINES_PRIORITY_CEILING) as Hd' by (by destruct (mutex_discipline M)).
      destruct (seize_waits_ceiling routine wfuel fuel c id timeout k HO HI HW HT Hf HL Hh Hp Hd' HV)
        as (k' & E & EM & EL & _ & _ & ES & _). exists k'. by split_and!.
    + destruct (mutex_seize_waits routine wfuel fuel c id timeout k HO HI HW HT Hn Hf HL Hh Hd HV)
        as (k' & E & _ & EM & EL & _ & _ & _ & EB & _).
      exists k'. destruct (but_block2n_fields _ _ EB) as (ES & _). by split_and!.
  - destruct (seize_refused_status routine wfuel fuel c id timeout k HO HI false HV HL (or_intror (conj Hh eq_refl)))
      as (k' & code & E & A & EL & EM & EK & EC). exists k'. split_and!; try done.
    rewrite EK, EC, decide_False by done. by rewrite code_tcb, decide_True.
Qed.
End Obtaining.

(** C14: obtaining a local semaphore always ends, and the caller is answered as the core
    object allows (binary with bit 4 of the attributes, not waiting with bit 0 of the
    options; no interrupt in the windows).
    - A caller of a priority above the ceiling of a ceiling semaphore (numerically less)
      gets RTEMS_INTERNAL_ERROR, the answer meant for statuses that cannot occur, and
      nothing changes.
    - A binary semaphore that is free or already held by the caller is granted: the caller
      holds it once more; so is a unit of a counting one.
    - Otherwise a caller that will not wait gets RTEMS_UNSATISFIED and nothing changes.
    - One that will joins the queue in its place, blocked.  What it is answered later is
      the translation of the status that ends its wait.
    Both translations are given for every status that the core objects have: the one of
    mutexes for successful, unsatisfied, nesting not allowed, not the owner, deleted,
    timeout and ceiling violated, that of semaphores for successful, unsatisfied, deleted
    and timeout, and both for a proxy that blocks.  An answer leaves the core object well
    formed. *)
Theorem semaphore_obtain_answers routine wfuel fuel s id option_set timeout k :
  semaphore_typed s k -> (binary k s = true -> may_nest s k) -> can_wait (Core_control s) k ->
  timer_free wfuel (_Thread_Executing k) timeout k -> _Thread_Executing k <> NULL ->
  (length (tq_list k (Core_control s)) < fuel)%nat ->
  (exists k', semaphore_obtain routine wfuel Datatypes.id fuel [] Datatypes.id s id option_set timeout k = Some k' /\
    answered s (negb (Z.testbit option_set 0)) k k') /\
  map (semaphore_status true) [0; 1; 2; 3; 4; 5; 6; 17895697] =
    [RTEMS_SUCCESSFUL; RTEMS_UNSATISFIED; RTEMS_INTERNAL_ERROR; RTEMS_NOT_OWNER_OF_RESOURCE; RTEMS_OBJECT_WAS_DELETED;
     RTEMS_TIMEOUT; RTEMS_INTERNAL_ERROR; 17895697] /\
  map (semaphore_status false) [0; 1; 2; 3; 17895697] =
    [RTEMS_SUCCESSFUL; RTEMS_UNSATISFIED; RTEMS_OBJECT_WAS_DELETED; RTEMS_TIMEOUT; 17895697].
Proof.
  intros HY HM HW HT Hn Hf. split; [|done]. unfold semaphore_obtain. rewrite binary_bit.
  destruct (attribute_bits option_set) as (_ & _ & _ & _ & _ & ->). destruct (binary k s) eqn:Hb.
  - apply obtain_binary; auto.
  - by apply obtain_counting.
Qed.

(** ** A small system with semaphores *)

Module SemaphoreExample.
Import ThreadExample.
(** The semaphore at 40 has its core object at 60: first with one unit and a priority
    queue, then binary with a ceiling that is below the running thread. *)
Definition counting : Kernel := semaphore_set_up NULL 40 1 RTEMS_PRIORITY 0 k2.
Definition ceiled : Kernel :=
  semaphore_set_up NULL 40 1 (Z.lor RTEMS_PRIORITY (Z.lor RTEMS_BINARY_SEMAPHORE RTEMS_PRIORITY_CEILING)) 200 k2.

Lemma k2_running : _Thread_Executing k2 <> NULL.
Proof. vm_compute. discriminate. Qed.
End SemaphoreExample.

(** A counting semaphore; a binary one with a ceiling; one with inheritance that is created
    locked; and arguments that are refused. *)
Lemma semaphore_create_witness :
  let ceiling := Z.lor RTEMS_PRIORITY (Z.lor RTEMS_BINARY_SEMAPHORE RTEMS_PRIORITY_CEILING) in
  let inherit := Z.lor RTEMS_PRIORITY (Z.lor RTEMS_BINARY_SEMAPHORE RTEMS_INHERIT_PRIORITY) in
  let k := ThreadExample.k2 in
  sem_count (sem (semaphore_set_up NULL 40 3 RTEMS_PRIORITY 0 k) 60) = 3 /\
  mutex_discipline (mutex SemaphoreExample.ceiled 60) = CORE_MUTEX_DISCIPLINES_PRIORITY_CEILING /\
  mutex_discipline (mutex (semaphore_set_up NULL 40 0 inherit 0 k) 60) = CORE_MUTEX_DISCIPLINES_PRIORITY_INHERIT /\
  holder (mutex (semaphore_set_up NULL 40 0 inherit 0 k) 60) = 200 /\
  semaphore_attributes_error false 2 inherit = Some RTEMS_INVALID_NUMBER.
Proof.
  intros ceiling inherit k.
  assert (forall count a c, u32 count -> _) as H
    by exact (fun count a c => semaphore_create_typed false NULL 40 count a c k ThreadExample.k2_ok SemaphoreExample.k2_running).
  split; [|split; [|split; [|split]]].
  - destruct (H 3 RTEMS_PRIORITY 0 ltac:(by split)) as [_ X]. destruct (X eq_refl) as (_ & _ & _ & _ & Y & _). exact Y.
  - destruct (H 1 ceiling 200 ltac:(by split)) as [_ X]. destruct (X eq_refl) as (_ & _ & _ & _ & Y & _).
    exact (f_equal mutex_discipline Y).
  - destruct (H 0 inherit 0 ltac:(by split)) as [_ X]. destruct (X eq_refl) as (_ & _ & _ & _ & Y & _).
    exact (f_equal mutex_discipline Y).
  - destruct (H 0 inherit 0 ltac:(by split)) as [_ X]. destruct (X eq_refl) as (_ & _ & _ & _ & Y & _).
    etransitivity; [exact (f_equal holder Y)|vm_compute; reflexivity].
  - destruct (H 2 inherit 0 ltac:(by split)) as [X _]. exact X.
Defined.

Module CeilingExample.
Import SemaphoreExample.
Lemma ceiled_typed : semaphore_typed 40 ceiled /\ mutex_queue_ok 60 ceiled.
Proof.
  set (a := Z.lor RTEMS_PRIORITY (Z.lor RTEMS_BINARY_SEMAPHORE RTEMS_PRIORITY_CEILING)).
  assert (sched_ok (upd_semaphore 40 (fun _ => {| semaphore_attribute_set := a |}) ThreadExample.k2)) as HS
    by (apply (same_threads_sched ThreadExample.k2); [apply upd_semaphore_threads|exact ThreadExample.k2_ok]).
  destruct (unlocked_ok 60 OBJECTS_RTEMS_SEMAPHORES true CORE_MUTEX_DISCIPLINES_PRIORITY_CEILING 200 NULL _ HS)
    as (A & B & _).
  assert (mutex_ok (Core_control 40) ceiled) as A' by exact A.
  assert (binary ceiled 40 = true) as EB by (vm_compute; reflexivity).
  split; [|exact (mo_queue _ _ A')]. unfold semaphore_typed, core_ok. rewrite EB. split.
  - exact A'.
  - intros _. exact (f_equal allow_nesting B).
Qed.

Lemma ceiled_wait : can_wait 60 ceiled /\ may_nest 40 ceiled.
Proof.
  pose proof ceiled_typed as [_ [A1 A2 A3 A4 A5 A6]].
  assert (tq_list ceiled 60 = []) as EL by (vm_compute; reflexivity).
  assert (_Thread_Executing ceiled = 200) as E1 by (vm_compute; reflexivity).
  assert (_Thread_Idle ceiled = 100) as E2 by (vm_compute; reflexivity).
  assert (is_ready ceiled 200) as E3 by (vm_compute; reflexivity).
  assert (ids_ok ceiled) as HI by (apply MutexExample.three_ids; vm_compute; reflexivity).
  assert (priority_ceiling (mutex ceiled 60) = 200 /\ nest_count (mutex ceiled 60) = 0) as [E4 E5] by (vm_compute; split; reflexivity).
  change 60 with (Core_control 40) in *. set (k := ceiled) in *. clearbody k. split; split; rewrite ?E1, ?E2, ?EL, ?E4, ?E5; try done.
  - apply not_elem_of_nil.
  - by rewrite A4.
Qed.
End CeilingExample.

(** A caller above the ceiling is told of an internal error, though it asked not to wait
    for a semaphore that is free. *)
Lemma semaphore_obtain_witness :
  exists k', semaphore_obtain 1 5 Datatypes.id 5 [] Datatypes.id 40 77 RTEMS_NO_WAIT 0 SemaphoreExample.ceiled = Some k' /\
    semaphore_status true (code_of k' 200) = RTEMS_INTERNAL_ERROR.
Proof.
  destruct CeilingExample.ceiled_wait as [A B].
  assert (tq_list SemaphoreExample.ceiled 60 = []) as EL by (vm_compute; reflexivity).
  assert (above_ceiling 40 SemaphoreExample.ceiled = true) as EO by (vm_compute; reflexivity).
  destruct (semaphore_obtain_answers 1 5 5 40 77 RTEMS_NO_WAIT 0 SemaphoreExample.ceiled) as ((k' & E & H) & _).
  - exact (proj1 CeilingExample.ceiled_typed).
  - intros _. exact B.
  - exact A.
  - left. reflexivity.
  - vm_compute. discriminate.
  - change (Core_control 40) with 60. rewrite EL. simpl. lia.
  - exists k'. split; [exact E|]. unfold answered in H. rewrite EO in H. destruct H as [H _]. exact H.
Defined.
