(* ===== verification/MsgQueue.v ===== *)
(** * Message Manager (rtems/src/msg.c)

    The message queue of the RTEMS API at [q] has its core message queue, with its thread
    queue, at [q + 20]. *)
From S2P Require Import Prelude Chain Watchdog Object Priority ApiTypes Heap Kernel Thread Threadq Workspace.
From S2P Require Import CoreMsg Rtems Partition Semaphore.

Definition message_queue (k : Kernel) (q : Z) : Message_queue_Control := api_message_queues (rtems k) !!! q.
Definition upd_message_queue (q : Z) (f : Message_queue_Control -> Message_queue_Control) (k : Kernel) : Kernel :=
  upd_rtems (fun r => set_api_message_queues (<[q := f (message_queue k q)]> (api_message_queues r)) r) k.
Definition core_queue (q : Z) : Z := q + 20.

Inductive Message_queue_Submit_types : Type :=
| MESSAGE_QUEUE_SEND_REQUEST
| MESSAGE_QUEUE_URGENT_REQUEST.

(** The operations on a message queue of another node (msgmp.h). *)
Inductive Message_queue_MP_Remote_operations : Type :=
| MESSAGE_QUEUE_MP_ANNOUNCE_CREATE
| MESSAGE_QUEUE_MP_ANNOUNCE_DELETE
| MESSAGE_QUEUE_MP_EXTRACT_PROXY
| MESSAGE_QUEUE_MP_RECEIVE_REQUEST
| MESSAGE_QUEUE_MP_RECEIVE_RESPONSE
| MESSAGE_QUEUE_MP_SEND_REQUEST
| MESSAGE_QUEUE_MP_SEND_RESPONSE
| MESSAGE_QUEUE_MP_URGENT_REQUEST
| MESSAGE_QUEUE_MP_URGENT_RESPONSE
| MESSAGE_QUEUE_MP_BROADCAST_REQUEST
| MESSAGE_QUEUE_MP_BROADCAST_RESPONSE
| MESSAGE_QUEUE_MP_FLUSH_REQUEST
| MESSAGE_QUEUE_MP_FLUSH_RESPONSE
| MESSAGE_QUEUE_MP_GET_NUMBER_PENDING_REQUEST
| MESSAGE_QUEUE_MP_GET_NUMBER_PENDING_RESPONSE.

(** A status that is none of those listed is a fatal error. *)
Definition _Message_queue_Translate_core_message_queue_return_code
    (fatal_extensions : Internal_errors_Information -> Kernel -> Kernel) (status : Z) (k : Kernel) : outcome (Z * Kernel) :=
  if status =? CORE_MESSAGE_QUEUE_STATUS_SUCCESSFUL then Done (RTEMS_SUCCESSFUL, k)
  else if status =? CORE_MESSAGE_QUEUE_STATUS_INVALID_SIZE then Done (RTEMS_INVALID_SIZE, k)
  else if status =? CORE_MESSAGE_QUEUE_STATUS_TOO_MANY then Done (RTEMS_TOO_MANY, k)
  else if status =? CORE_MESSAGE_QUEUE_STATUS_UNSATISFIED then Done (RTEMS_UNSATISFIED, k)
  else if status =? CORE_MESSAGE_QUEUE_STATUS_UNSATISFIED_NOWAIT then Done (RTEMS_UNSATISFIED, k)
  else if status =? CORE_MESSAGE_QUEUE_STATUS_WAS_DELETED then Done (RTEMS_OBJECT_WAS_DELETED, k)
  else if status =? CORE_MESSAGE_QUEUE_STATUS_TIMEOUT then Done (RTEMS_TIMEOUT, k)
  else if status =? THREAD_STATUS_PROXY_BLOCKING then Done (RTEMS_PROXY_BLOCKING, k)
  else _Internal_error_Occurred fatal_extensions INTERNAL_ERROR_RTEMS_API true status k.

Section Directives.
Context (switch : Z -> Z -> Kernel -> Kernel) (postswitch : Kernel -> Kernel).
Context (isrs : list (Kernel -> Kernel)) (fuel : nat) (_Objects_Local_node _Objects_Maximum_nodes name_argument : Z).
Context (is_multiprocessing : bool) (maximum_packet_size extract_proxy workspace : Z) (hfuel : nat).
Context (mp_allocate_and_open : Z -> Z -> Kernel -> bool * Kernel) (mp_close : Z -> Kernel -> Kernel).
(** The process packet has the operation, the id and the name; the request packet the
    operation, the id, the buffer, the size or where it is stored, the options and the timeout. *)
Context (mp_announce : Message_queue_MP_Remote_operations -> Z -> Z -> Kernel -> Kernel).
Context (mp_request : Message_queue_MP_Remote_operations -> Z -> Z -> Z -> Z -> Z -> Kernel -> Z * Kernel).
Context (mp_support : Z -> Z -> Kernel -> Kernel).
Context (fatal_extensions : Internal_errors_Information -> Kernel -> Kernel).

Notation Get := (object_get switch postswitch isrs fuel _Objects_Local_node _Objects_Maximum_nodes).
Notation finish := (enable_return switch postswitch isrs fuel).
Notation Translate := (_Message_queue_Translate_core_message_queue_return_code fatal_extensions).

(** Enabling dispatching, and then the translated status. *)
Definition enable_translate (status : Kernel -> Z) (resume : Kernel -> Kernel) (k : Kernel) : outcome (Z * Kernel) :=
  match _Thread_Enable_dispatch switch postswitch fuel isrs k with
  | None => OutOfFuel
  | Some k => let k := resume k in Translate (status k) k
  end.

Definition rtems_message_queue_create (name count max_message_size attribute_set id : Z) (k : Kernel) : option (Z * Kernel) :=
  let is_global := _Attributes_Is_global attribute_set in
  if negb (rtems_is_name_valid name) then Some (RTEMS_INVALID_NAME, k)
  else if is_global && negb is_multiprocessing then Some (RTEMS_MP_NOT_CONFIGURED, k)
  else if count =? 0 then Some (RTEMS_INVALID_NUMBER, k)
  else if max_message_size =? 0 then Some (RTEMS_INVALID_SIZE, k)
  else if is_global && (maximum_packet_size <? max_message_size) then Some (RTEMS_INVALID_SIZE, k)
  else
    let k := _Thread_Disable_dispatch k in
    let '(the_message_queue, k) := object_allocate OBJECTS_RTEMS_MESSAGE_QUEUES k in
    if the_message_queue =? NULL then finish RTEMS_TOO_MANY k
    else
      let '(global_ok, k) :=
        if is_global
        then mp_allocate_and_open name (object_id k OBJECTS_RTEMS_MESSAGE_QUEUES the_message_queue) k else (true, k) in
      if negb global_ok then finish RTEMS_TOO_MANY (object_free OBJECTS_RTEMS_MESSAGE_QUEUES the_message_queue k)
      else
        let k := upd_message_queue the_message_queue (fun _ => {| message_queue_attribute_set := attribute_set |}) k in
        match _CORE_message_queue_Initialize workspace hfuel (core_queue the_message_queue) OBJECTS_RTEMS_MESSAGE_QUEUES
                (if _Attributes_Is_priority attribute_set
                 then CORE_MESSAGE_QUEUE_DISCIPLINES_PRIORITY else CORE_MESSAGE_QUEUE_DISCIPLINES_FIFO)
                count max_message_size extract_proxy k with
        | None => None
        | Some (false, k) =>
            let k := if is_global then mp_close (object_id k OBJECTS_RTEMS_MESSAGE_QUEUES the_message_queue) k else k in
            finish RTEMS_TOO_MANY (object_free OBJECTS_RTEMS_MESSAGE_QUEUES the_message_queue k)
        | Some (true, k) =>
            match object_open fuel name_argument OBJECTS_RTEMS_MESSAGE_QUEUES the_message_queue name k with
            | None => None
            | Some k =>
                let the_id := object_id k OBJECTS_RTEMS_MESSAGE_QUEUES the_message_queue in
                let k := put_word id the_id k in
                finish RTEMS_SUCCESSFUL (if is_global then mp_announce MESSAGE_QUEUE_MP_ANNOUNCE_CREATE the_id name k else k)
            end
        end.

Definition rtems_message_queue_ident (name node id : Z) (k : Kernel) : Z * Kernel :=
  object_ident switch postswitch isrs fuel _Objects_Local_node _Objects_Maximum_nodes name_argument
    OBJECTS_RTEMS_MESSAGE_QUEUES name node id k.

Definition rtems_message_queue_delete (id : Z) (k : Kernel) : option (Z * Kernel) :=
  match Get OBJECTS_RTEMS_MESSAGE_QUEUES id k with
  | None => None
  | Some (OBJECTS_ERROR, _, k) => Some (RTEMS_INVALID_ID, k)
  | Some (OBJECTS_REMOTE, _, k) =>
      match _Thread_Dispatch switch postswitch fuel isrs k with
      | None => None
      | Some k => Some (RTEMS_ILLEGAL_ON_REMOTE_OBJECT, k)
      end
  | Some (OBJECTS_LOCAL, the_message_queue, k) =>
      let k := object_close OBJECTS_RTEMS_MESSAGE_QUEUES the_message_queue k in
      match _CORE_message_queue_Close workspace fuel (core_queue the_message_queue) CORE_MESSAGE_QUEUE_STATUS_WAS_DELETED k with
      | None => None
      | Some k =>
          let k := object_free OBJECTS_RTEMS_MESSAGE_QUEUES the_message_queue k in
          let k := if _Attributes_Is_global (message_queue_attribute_set (message_queue k the_message_queue))
                   then let the_id := object_id k OBJECTS_RTEMS_MESSAGE_QUEUES the_message_queue in
                        mp_announce MESSAGE_QUEUE_MP_ANNOUNCE_DELETE the_id 0 (mp_close the_id k)
                   else k in
          finish RTEMS_SUCCESSFUL k
      end
  end.

Definition _Message_queue_Submit (id buffer size : Z) (submit_type : Message_queue_Submit_types) (k : Kernel)
  : outcome (Z * Kernel) :=
  match Get OBJECTS_RTEMS_MESSAGE_QUEUES id k with
  | None => OutOfFuel
  | Some (OBJECTS_ERROR, _, k) => Done (RTEMS_INVALID_ID, k)
  | Some (OBJECTS_REMOTE, _, k) =>
      Done (mp_request (match submit_type with
                        | MESSAGE_QUEUE_SEND_REQUEST => MESSAGE_QUEUE_MP_SEND_REQUEST
                        | MESSAGE_QUEUE_URGENT_REQUEST => MESSAGE_QUEUE_MP_URGENT_REQUEST
                        end) id buffer size 0 MPCI_DEFAULT_TIMEOUT k)
  | Some (OBJECTS_LOCAL, the_message_queue, k) =>
      let '(core_status, k) :=
        match submit_type with
        | MESSAGE_QUEUE_SEND_REQUEST =>
            _CORE_message_queue_Send _Objects_Local_node mp_support (core_queue the_message_queue) buffer size id k
        | MESSAGE_QUEUE_URGENT_REQUEST =>
            _CORE_message_queue_Urgent _Objects_Local_node mp_support (core_queue the_message_queue) buffer size id k
        end in
      enable_translate (fun _ => core_status) Datatypes.id k
  end.

Definition rtems_message_queue_send (id buffer size : Z) : Kernel -> outcome (Z * Kernel) :=
  _Message_queue_Submit id buffer size MESSAGE_QUEUE_SEND_REQUEST.
Definition rtems_message_queue_urgent (id buffer size : Z) : Kernel -> outcome (Z * Kernel) :=
  _Message_queue_Submit id buffer size MESSAGE_QUEUE_URGENT_REQUEST.

(** The executing thread notes where the answer of another node goes. *)
Definition note_answer (count : Z) (k : Kernel) : Kernel := upd_wait (_Thread_Executing k) (set_Wait_return_argument count) k.

Definition rtems_message_queue_broadcast (id buffer size count : Z) (k : Kernel) : outcome (Z * Kernel) :=
  match Get OBJECTS_RTEMS_MESSAGE_QUEUES id k with
  | None => OutOfFuel
  | Some (OBJECTS_ERROR, _, k) => Done (RTEMS_INVALID_ID, k)
  | Some (OBJECTS_REMOTE, _, k) =>
      Done (mp_request MESSAGE_QUEUE_MP_BROADCAST_REQUEST id buffer size 0 MPCI_DEFAULT_TIMEOUT (note_answer count k))
  | Some (OBJECTS_LOCAL, the_message_queue, k) =>
      match _CORE_message_queue_Broadcast _Objects_Local_node mp_support fuel (core_queue the_message_queue) buffer size id k with
      | None => OutOfFuel
      | Some (core_status, number, k) => enable_translate (fun _ => core_status) Datatypes.id (put_word count number k)
      end
  end.

(** [resume] is what happens until the caller is executing again. *)
Definition rtems_message_queue_receive (timeout_routine : Z) (wfuel : nat) (wisr isr resume : Kernel -> Kernel)
    (qisrs : list (Kernel -> Kernel)) (id buffer size option_set timeout : Z) (k : Kernel) : outcome (Z * Kernel) :=
  match Get OBJECTS_RTEMS_MESSAGE_QUEUES id k with
  | None => OutOfFuel
  | Some (OBJECTS_ERROR, _, k) => Done (RTEMS_INVALID_ID, k)
  | Some (OBJECTS_REMOTE, _, k) => Done (mp_request MESSAGE_QUEUE_MP_RECEIVE_REQUEST id buffer size option_set timeout k)
  | Some (OBJECTS_LOCAL, the_message_queue, k) =>
      let wait := negb (_Options_Is_no_wait option_set) in
      match _CORE_message_queue_Seize timeout_routine wfuel wisr fuel qisrs isr (core_queue the_message_queue)
              (object_id k OBJECTS_RTEMS_MESSAGE_QUEUES the_message_queue) buffer size wait timeout k with
      | None => OutOfFuel
      | Some k => enable_translate (fun k => Wait_return_code (Wait (tcb k (_Thread_Executing k)))) resume k
      end
  end.

Definition rtems_message_queue_flush (id count : Z) (k : Kernel) : option (Z * Kernel) :=
  match Get OBJECTS_RTEMS_MESSAGE_QUEUES id k with
  | None => None
  | Some (OBJECTS_ERROR, _, k) => Some (RTEMS_INVALID_ID, k)
  | Some (OBJECTS_REMOTE, _, k) =>
      Some (mp_request MESSAGE_QUEUE_MP_FLUSH_REQUEST id 0 0 0 MPCI_DEFAULT_TIMEOUT (note_answer count k))
  | Some (OBJECTS_LOCAL, the_message_queue, k) =>
      let '(number, k) := _CORE_message_queue_Flush (core_queue the_message_queue) k in
      finish RTEMS_SUCCESSFUL (put_word count number k)
  end.

Definition rtems_message_queue_get_number_pending (id count : Z) (k : Kernel) : option (Z * Kernel) :=
  match Get OBJECTS_RTEMS_MESSAGE_QUEUES id k with
  | None => None
  | Some (OBJECTS_ERROR, _, k) => Some (RTEMS_INVALID_ID, k)
  | Some (OBJECTS_REMOTE, _, k) =>
      Some (mp_request MESSAGE_QUEUE_MP_GET_NUMBER_PENDING_REQUEST id 0 0 0 MPCI_DEFAULT_TIMEOUT (note_answer count k))
  | Some (OBJECTS_LOCAL, the_message_queue, k) =>
      finish RTEMS_SUCCESSFUL (put_word count (number_of_pending_messages (mq k (core_queue the_message_queue))) k)
  end.
End Directives.
