(* ===== verification/MsgQueueSpec.v ===== *)
(** * Correctness of the message manager

    A message sent to a local queue gets the answer that the state of the queue calls for,
    and never the fatal error that an unknown core status leads to. *)
From S2P Require Import Prelude Chain Watchdog WatchdogProofs WatchdogOps Object Priority ApiTypes Heap Kernel Thread.
From S2P Require Import ThreadProofs ThreadSpec Threadq ThreadqProofs ThreadqSpec CoreWait Workspace CoreMsg CoreMsgSpec CoreMsgTheorems.
From S2P Require Import Rtems Partition Semaphore MsgQueue.

(** The core operation behind a request. *)
Definition core_type (submit_type : Message_queue_Submit_types) : CORE_message_queue_Submit_types :=
  match submit_type with
  | MESSAGE_QUEUE_SEND_REQUEST => CORE_MESSAGE_QUEUE_SEND_REQUEST
  | MESSAGE_QUEUE_URGENT_REQUEST => CORE_MESSAGE_QUEUE_URGENT_REQUEST
  end.

(** The answer to a sender. *)
Definition send_status (q size : Z) (k : Kernel) : Z :=
  if maximum_message_size (mq k q) <? size then RTEMS_INVALID_SIZE
  else match tq_list k q with
  | _ :: _ => RTEMS_SUCCESSFUL
  | [] => if Z.of_nat (length (messages k q)) =? maximum_pending_messages (mq k q) then RTEMS_TOO_MANY else RTEMS_SUCCESSFUL
  end.

(** Sending, or sending urgently, to a local queue: the sender is told that the message is
    too large, that the queue is full, or that its message was taken; the fatal error of
    an unknown status is not reached, and the queue stays well formed. *)
Theorem message_queue_send_answers switch postswitch isrs fuel node nodes mp_request mp_support fatal id buffer size st q k k1 :
  object_get switch postswitch isrs fuel node nodes OBJECTS_RTEMS_MESSAGE_QUEUES id k = Some (OBJECTS_LOCAL, q, k1) ->
  msgq_ok (core_queue q) k1 -> 0 <= size -> clear_of (core_queue q) k1 buffer size ->
  (forall u, u ∈ tq_list k1 (core_queue q) ->
     receiver_ok k1 u buffer size /\ _Objects_Is_local_id node (Object_id (tcb k1 u)) = true) ->
  exists k2, msgq_ok (core_queue q) k2 /\
    _Message_queue_Submit switch postswitch isrs fuel node nodes mp_request mp_support fatal id buffer size st k =
    match _Thread_Enable_dispatch switch postswitch fuel isrs k2 with
    | None => OutOfFuel
    | Some k3 => Done (send_status (core_queue q) size k1, k3)
    end.
Proof.
  intros HG HO Hs Hc Hr. unfold _Message_queue_Submit. rewrite HG.
  pose proof (message_submit_correct node mp_support (core_queue q) buffer size id (core_type st) k1 HO Hs Hc Hr) as HM.
  assert (match st with
    | MESSAGE_QUEUE_SEND_REQUEST => _CORE_message_queue_Send node mp_support (core_queue q) buffer size id k1
    | MESSAGE_QUEUE_URGENT_REQUEST => _CORE_message_queue_Urgent node mp_support (core_queue q) buffer size id k1
    end = _CORE_message_queue_Submit node mp_support (core_queue q) buffer size id (core_type st) k1) as -> by (by destruct st).
  destruct (_CORE_message_queue_Submit _ _ _ _ _ _ _ _) as [status k2]. destruct HM as [HO2 HM]. exists k2. split; [done|].
  unfold enable_translate, send_status. destruct (_Thread_Enable_dispatch _ _ _ _ k2) as [k3|]; [|done].
  destruct (maximum_message_size _ <? size); [by destruct HM as [-> _]|].
  destruct (tq_list k1 (core_queue q)); [|by destruct HM as [-> _]].
  destruct (Z.of_nat _ =? _); by destruct HM as [-> _].
Qed.

(** The status of a proxy that waits for a semaphore is recognized as such, that of one that
    waits for a message is not. *)
Lemma proxy_blocking_unrecognized fatal k :
  exists status, _Message_queue_Translate_core_message_queue_return_code fatal THREAD_STATUS_PROXY_BLOCKING k = Done (status, k) /\
    _Thread_Is_proxy_blocking status = false /\
    _Thread_Is_proxy_blocking (_Semaphore_Translate_core_mutex_return_code THREAD_STATUS_PROXY_BLOCKING) = true /\
    _Thread_Is_proxy_blocking (_Semaphore_Translate_core_semaphore_return_code THREAD_STATUS_PROXY_BLOCKING) = true.
Proof. eexists. split; [reflexivity|]. split_and!; reflexivity. Qed.
