(* ===== verification/Timer.v ===== *)
(** * Timer and Clock Managers (rtems/src/timer.c, rtems/src/clock.c)

    A timer of the RTEMS API is a watchdog with a class; the timer at [t] has its watchdog,
    the [Ticker], at [t + 16].  The clock manager sets and reads the time of day and
    announces the clock ticks that drive everything that waits for time. *)
From S2P Require Import Prelude Chain Watchdog Tod Object Priority ApiTypes Heap Kernel Thread Workspace CoreMsg Rtems Partition.

Definition timer (k : Kernel) (t : Z) : Timer_Control := timers (rtems k) !!! t.
Definition upd_timer (t : Z) (f : Timer_Control -> Timer_Control) (k : Kernel) : Kernel :=
  upd_rtems (fun s => set_timers (<[t := f (timer k t)]> (timers s)) s) k.
Definition Ticker (t : Z) : Z := t + 16.

Definition _Timer_Is_interval_class (the_class : Timer_Classes) : bool :=
  match the_class with TIMER_INTERVAL => true | _ => false end.
Definition _Timer_Is_timer_of_day_class (the_class : Timer_Classes) : bool :=
  match the_class with TIMER_TIME_OF_DAY => true | _ => false end.
Definition _Timer_Is_dormant_class (the_class : Timer_Classes) : bool :=
  match the_class with TIMER_DORMANT => true | _ => false end.
Definition _Timer_Is_null (the_timer : Z) : bool := the_timer =? NULL.

(** The time of day at the address [a]. *)
Definition tod_at (k : Kernel) (a : Z) : TOD_Control :=
  let word i := ld32 (memory k) (a + 4 * i) in
  {| year := word 0; month := word 1; day := word 2; hour := word 3; minute := word 4; second := word 5; tod_ticks := word 6 |}.
Definition put_tod (a : Z) (c : TOD_Control) (k : Kernel) : Kernel :=
  put_word (a + 24) (tod_ticks c) (put_word (a + 20) (second c) (put_word (a + 16) (minute c) (put_word (a + 12) (hour c)
    (put_word (a + 8) (day c) (put_word (a + 4) (month c) (put_word a (year c) k)))))).

(** ** The local cases of the timer directives, before dispatching is enabled again *)

Definition stop_ticker (t : Z) : Kernel -> Kernel := wd_mod (fun w => (_Watchdog_Remove (Ticker t) w).2).

Definition timer_cancel (t : Z) (k : Kernel) : Kernel :=
  if negb (_Timer_Is_dormant_class (timer_class (timer k t))) then stop_ticker t k else k.

Section Start.
Context (wfuel : nat) (wisr : Kernel -> Kernel).

(** The timer is stopped and gets its class and its service routine. *)
Definition timer_prepare (the_class : Timer_Classes) (t routine id user_data : Z) (k : Kernel) : Kernel :=
  let k := stop_ticker t k in
  let k := upd_timer t (set_timer_class the_class) k in
  wd_mod (_Watchdog_Initialize (Ticker t) routine id user_data) k.

Definition timer_fire_after (t id ticks routine user_data : Z) (k : Kernel) : option Kernel :=
  _Watchdog_Insert_ticks wfuel wisr (Ticker t) ticks (timer_prepare TIMER_INTERVAL t routine id user_data k).

Definition timer_fire_when (t id seconds routine user_data : Z) (k : Kernel) : option Kernel :=
  let k := timer_prepare TIMER_TIME_OF_DAY t routine id user_data k in
  _Watchdog_Insert_seconds wfuel wisr (Ticker t) (seconds -w _TOD_Seconds_since_epoch (tod k)) k.

(** The status and the state. *)
Definition timer_reset (t : Z) (k : Kernel) : option (Z * Kernel) :=
  if _Timer_Is_interval_class (timer_class (timer k t)) then
    match _Watchdog_Reset wfuel wisr (Ticker t) k with
    | None => None
    | Some k => Some (RTEMS_SUCCESSFUL, k)
    end
  else Some (RTEMS_NOT_DEFINED, k).
End Start.

(** ** Directives *)

Section Directives.
Context (switch : Z -> Z -> Kernel -> Kernel) (postswitch : Kernel -> Kernel).
Context (isrs : list (Kernel -> Kernel)) (fuel : nat) (_Objects_Local_node _Objects_Maximum_nodes name_argument : Z).
Context (wfuel : nat) (wisr : Kernel -> Kernel).

Notation Get := (object_get switch postswitch isrs fuel _Objects_Local_node _Objects_Maximum_nodes).
Notation finish := (enable_return switch postswitch isrs fuel).

Definition rtems_timer_create (name id : Z) (k : Kernel) : option (Z * Kernel) :=
  if negb (rtems_is_name_valid name) then Some (RTEMS_INVALID_NAME, k)
  else
    let k := _Thread_Disable_dispatch k in
    let '(the_timer, k) := object_allocate OBJECTS_RTEMS_TIMERS k in
    if the_timer =? NULL then finish RTEMS_TOO_MANY k
    else
      let k := upd_timer the_timer (set_timer_class TIMER_DORMANT) k in
      match object_open fuel name_argument OBJECTS_RTEMS_TIMERS the_timer name k with
      | None => None
      | Some k => finish RTEMS_SUCCESSFUL (put_word id (object_id k OBJECTS_RTEMS_TIMERS the_timer) k)
      end.

Definition rtems_timer_ident (name id : Z) (k : Kernel) : Z * Kernel :=
  object_ident switch postswitch isrs fuel _Objects_Local_node _Objects_Maximum_nodes name_argument
    OBJECTS_RTEMS_TIMERS name OBJECTS_SEARCH_LOCAL_NODE id k.

Definition rtems_timer_cancel (id : Z) (k : Kernel) : option (Z * Kernel) :=
  match Get OBJECTS_RTEMS_TIMERS id k with
  | None => None
  | Some (OBJECTS_ERROR, _, k) => Some (RTEMS_INVALID_ID, k)
  | Some (OBJECTS_REMOTE, _, k) => Some (RTEMS_INTERNAL_ERROR, k)
  | Some (OBJECTS_LOCAL, the_timer, k) => finish RTEMS_SUCCESSFUL (timer_cancel the_timer k)
  end.

Definition rtems_timer_delete (id : Z) (k : Kernel) : option (Z * Kernel) :=
  match Get OBJECTS_RTEMS_TIMERS id k with
  | None => None
  | Some (OBJECTS_ERROR, _, k) => Some (RTEMS_INVALID_ID, k)
  | Some (OBJECTS_REMOTE, _, k) => Some (RTEMS_INTERNAL_ERROR, k)
  | Some (OBJECTS_LOCAL, the_timer, k) =>
      let k := object_close OBJECTS_RTEMS_TIMERS the_timer k in
      finish RTEMS_SUCCESSFUL (object_free OBJECTS_RTEMS_TIMERS the_timer (stop_ticker the_timer k))
  end.

Definition rtems_timer_fire_after (id ticks routine user_data : Z) (k : Kernel) : option (Z * Kernel) :=
  if ticks =? 0 then Some (RTEMS_INVALID_NUMBER, k)
  else
    match Get OBJECTS_RTEMS_TIMERS id k with
    | None => None
    | Some (OBJECTS_ERROR, _, k) => Some (RTEMS_INVALID_ID, k)
    | Some (OBJECTS_REMOTE, _, k) => Some (RTEMS_INTERNAL_ERROR, k)
    | Some (OBJECTS_LOCAL, the_timer, k) =>
        match timer_fire_after wfuel wisr the_timer id ticks routine user_data k with
        | None => None
        | Some k => finish RTEMS_SUCCESSFUL k
        end
    end.

Definition rtems_timer_fire_when (id wall_time routine user_data : Z) (k : Kernel) : option (Z * Kernel) :=
  if negb (_TOD_Is_set (tod k)) then Some (RTEMS_NOT_DEFINED, k)
  else if negb (_TOD_Validate (_TOD_Ticks_per_second (tod k)) (tod_at k wall_time)) then Some (RTEMS_INVALID_CLOCK, k)
  else
    let seconds := _TOD_To_seconds (tod_at k wall_time) in
    if seconds <=? _TOD_Seconds_since_epoch (tod k) then Some (RTEMS_INVALID_CLOCK, k)
    else
      match Get OBJECTS_RTEMS_TIMERS id k with
      | None => None
      | Some (OBJECTS_ERROR, _, k) => Some (RTEMS_INVALID_ID, k)
      | Some (OBJECTS_REMOTE, _, k) => Some (RTEMS_INTERNAL_ERROR, k)
      | Some (OBJECTS_LOCAL, the_timer, k) =>
          match timer_fire_when wfuel wisr the_timer id seconds routine user_data k with
          | None => None
          | Some k => finish RTEMS_SUCCESSFUL k
          end
      end.

Definition rtems_timer_reset (id : Z) (k : Kernel) : option (Z * Kernel) :=
  match Get OBJECTS_RTEMS_TIMERS id k with
  | None => None
  | Some (OBJECTS_ERROR, _, k) => Some (RTEMS_INVALID_ID, k)
  | Some (OBJECTS_REMOTE, _, k) => Some (RTEMS_INTERNAL_ERROR, k)
  | Some (OBJECTS_LOCAL, the_timer, k) =>
      match timer_reset wfuel wisr the_timer k with
      | None => None
      | Some (status, k) => finish status k
      end
  end.
End Directives.

(** ** The clock (clock.c) *)

Inductive rtems_clock_get_options : Type :=
| RTEMS_CLOCK_GET_TOD
| RTEMS_CLOCK_GET_SECONDS_SINCE_EPOCH
| RTEMS_CLOCK_GET_TICKS_SINCE_BOOT
| RTEMS_CLOCK_GET_TICKS_PER_SECOND
| RTEMS_CLOCK_GET_TIME_VALUE.

(** [isr] is the interrupts taken after the seconds and the ticks have been read together. *)
Definition rtems_clock_get (isr : Kernel -> Kernel) (option : rtems_clock_get_options) (time_buffer : Z) (k : Kernel) : Z * Kernel :=
  match option with
  | RTEMS_CLOCK_GET_TOD =>
      if negb (_TOD_Is_set (tod k)) then (RTEMS_NOT_DEFINED, k)
      else (RTEMS_SUCCESSFUL, put_tod time_buffer (_TOD_Current (tod k)) k)
  | RTEMS_CLOCK_GET_SECONDS_SINCE_EPOCH =>
      if negb (_TOD_Is_set (tod k)) then (RTEMS_NOT_DEFINED, k)
      else (RTEMS_SUCCESSFUL, put_word time_buffer (_TOD_Seconds_since_epoch (tod k)) k)
  | RTEMS_CLOCK_GET_TICKS_SINCE_BOOT =>
      (RTEMS_SUCCESSFUL, put_word time_buffer (_Watchdog_Ticks_since_boot (watchdogs k)) k)
  | RTEMS_CLOCK_GET_TICKS_PER_SECOND =>
      (RTEMS_SUCCESSFUL, put_word time_buffer (_TOD_Ticks_per_second (tod k)) k)
  | RTEMS_CLOCK_GET_TIME_VALUE =>
      if negb (_TOD_Is_set (tod k)) then (RTEMS_NOT_DEFINED, k)
      else
        let k := put_word time_buffer (_TOD_Seconds_since_epoch (tod k)) k in
        let tmp := tod_ticks (_TOD_Current (tod k)) in
        let k := isr k in
        let tmp := wrap32 (tmp * _TOD_Microseconds_per_tick (tod k)) in
        (RTEMS_SUCCESSFUL, put_word (time_buffer + 4) tmp k)
  end.

Section Clock.
Context (switch : Z -> Z -> Kernel -> Kernel) (postswitch : Kernel -> Kernel) (isrs : list (Kernel -> Kernel)) (fuel : nat).
(** The address of [_TOD_Seconds_watchdog]; the service routines of the watchdogs and the
    routine of a thread that manages its own budget. *)
Context (_TOD_Seconds_watchdog : Z) (wfuel : nat) (wisr : Kernel -> Kernel) (run : Z -> Z -> Z -> Kernel -> Kernel).
Context (callout : Z -> Z -> Kernel -> Kernel).

Definition rtems_clock_set (time_buffer : Z) (k : Kernel) : option (Z * Kernel) :=
  let the_tod := tod_at k time_buffer in
  if _TOD_Validate (_TOD_Ticks_per_second (tod k)) the_tod then
    let seconds := _TOD_To_seconds the_tod in
    let k := _Thread_Disable_dispatch k in
    match _TOD_Set _TOD_Seconds_watchdog wfuel wisr run _Thread_Disable_dispatch
            (enable_or_stay switch postswitch isrs fuel) the_tod seconds k with
    | None => None
    | Some k => enable_return switch postswitch isrs fuel RTEMS_SUCCESSFUL k
    end
  else Some (RTEMS_INVALID_CLOCK, k).

Definition rtems_clock_tick (k : Kernel) : option (Z * Kernel) :=
  let k := _TOD_Tickle_ticks k in
  match _Watchdog_Tickle_ticks run wfuel k with
  | None => None
  | Some k =>
      let k := _Thread_Tickle_timeslice callout k in
      if _Thread_Is_context_switch_necessary k && _Thread_Is_dispatching_enabled k then
        match _Thread_Dispatch switch postswitch fuel isrs k with
        | None => None
        | Some k => Some (RTEMS_SUCCESSFUL, k)
        end
      else Some (RTEMS_SUCCESSFUL, k)
  end.
End Clock.
