(* ===== verification/TimerSpec.v ===== *)
(** * Correctness of timers and of the clock tick

    Timers and the clock meet in the watchdogs: [rtems_timer_fire_after] puts the ticker of
    a timer on the tick chain and [rtems_clock_tick] runs the chain down.  Whatever else
    goes on between the ticks and in the service routines of other watchdogs, as long as it
    leaves the ticker alone, the routine of the timer is called at the tick it was set for. *)
From S2P Require Import Prelude Chain Watchdog WatchdogProofs WatchdogOps WatchdogSpec Tod Object Priority ApiTypes Heap Kernel Thread.
From S2P Require Import ThreadProofs ThreadSpec Threadq ThreadqProofs ThreadqSpec Workspace CoreMsg Rtems Partition RateMon RateMonSpec Timer.

(** ** A watchdog that counts down *)

(** The watchdog at [w] has [n] ticks left, and then calls the routine [r] with [i] and [u]. *)
Record counting (w r i u n : Z) (ws : Watchdog_State) : Prop := {
  co_ok : wd_ok ws;
  co_left : (w, n) ∈ expiries Ticks ws;
  co_active : wd_state (ctl ws w) = WATCHDOG_ACTIVE;
  co_routine : routine (ctl ws w) = r;
  co_id : wd_id (ctl ws w) = i;
  co_data : user_data (ctl ws w) = u
}.

Lemma expiry_member h ws w n : (w, n) ∈ expiries h ws -> w ∈ chain_of h ws.
Proof. intros H. unfold expiries in H. rewrite <- (remaining_fst (dl ws) 0). apply list_elem_of_fmap. by exists (w, n). Qed.

Lemma expiry_unique h ws w n m : wd_ok ws -> (w, n) ∈ expiries h ws -> (w, m) ∈ expiries h ws -> n = m.
Proof.
  intros HS H1 H2. pose proof (ok_chain_nodup ws h HS) as HN. rewrite <- (remaining_fst (dl ws) 0) in HN.
  fold (expiries h ws) in HN. apply list_elem_of_split in H1 as (a & b & E). rewrite E in H2, HN.
  rewrite fmap_app, fmap_cons in HN. simpl in HN. apply NoDup_app in HN as (_ & HD & HN). apply NoDup_cons in HN as [HN _].
  apply elem_of_app in H2 as [H2|H2]; [|apply elem_of_cons in H2 as [H2|H2]].
  - exfalso. apply (HD w); [|left]. apply list_elem_of_fmap. by exists (w, m).
  - by injection H2.
  - exfalso. apply HN. apply list_elem_of_fmap. by exists (w, m).
Qed.

Lemma elem_of_exps l P w : w ∈ exps l P <-> exists n, (w, n) ∈ l /\ P n = true.
Proof.
  unfold exps. rewrite list_elem_of_fmap. split.
  - intros ([v n] & -> & H). apply list_elem_of_In, filter_In in H as [H1 H2]. exists n. split; [by apply list_elem_of_In|done].
  - intros (n & H1 & H2). exists (w, n). split; [done|]. apply list_elem_of_In, filter_In. split; [by apply list_elem_of_In|done].
Qed.

Lemma elem_of_zeros h ws w : w ∈ zeros h ws <-> (w, 0) ∈ expiries h ws.
Proof.
  unfold zeros. rewrite elem_of_exps. split.
  - intros (n & H & E). apply Z.eqb_eq in E as ->. done.
  - intros H. by exists 0.
Qed.

Lemma zeros_nodup h ws : wd_ok ws -> NoDup (zeros h ws).
Proof.
  intros HS. pose proof (ok_chain_nodup ws h HS) as HN. rewrite <- (remaining_fst (dl ws) 0) in HN.
  fold (expiries h ws) in HN. unfold zeros, exps. induction (expiries h ws) as [|[v n] l IH]; [constructor|].
  rewrite fmap_cons in HN. apply NoDup_cons in HN as [H1 H2]. simpl. destruct (n =? 0); [|by apply IH].
  rewrite fmap_cons. apply NoDup_cons. split; [|by apply IH]. intros H. apply H1.
  apply list_elem_of_fmap in H as (p & E & H). apply list_elem_of_In, filter_In in H as [H _].
  apply list_elem_of_fmap. exists p. split; [done|by apply list_elem_of_In].
Qed.

(** Taking off the first watchdog, which has nothing left, leaves the others alone. *)
Lemma remove_first_counting w r i u n ws v l : counting w r i u n ws -> chain_of Ticks ws = v :: l -> dl ws v = 0 -> v <> w ->
  counting w r i u n (_Watchdog_Remove v ws).2.
Proof.
  intros [A B C D E F] El E0 Hv. pose proof (remove_ctl ws A Ticks [] v l El w (not_eq_sym Hv)) as EC.
  assert (expiries Ticks ws = (v, 0) :: expiries Ticks (_Watchdog_Remove v ws).2) as EX.
  { unfold expiries. rewrite (remove_chain _ A Ticks [] v l El), (remove_remaining _ A Ticks [] v l El 0), El. simpl. by rewrite E0. }
  split.
  - by apply (remove_ok_on ws Ticks [] v l).
  - rewrite EX in B. apply elem_of_cons in B as [B|B]; [|done]. injection B as ->. done.
  - rewrite EC. by case_decide.
  - rewrite EC. by case_decide.
  - rewrite EC. by case_decide.
  - rewrite EC. by case_decide.
Qed.

Lemma ticked_counting w r i u n k : counting w r i u n (watchdogs k) -> pending Ticks (watchdogs k) ->
  counting w r i u (n - 1) (watchdogs (ticked Ticks k)).
Proof.
  intros [A B C D E F] HP. destruct (ticked_ok (H := HasWatchdog_Kernel) Ticks k A HP) as (HT & EE & _).
  assert (exists d, ctl (watchdogs (ticked Ticks k)) w = set_delta d (ctl (watchdogs k) w)) as (d & EC).
  { unfold ticked. simpl wd_get. destruct (chain_of Ticks (watchdogs k)) as [|v l]; [exists (delta_interval (ctl (watchdogs k) w)); by destruct (ctl (watchdogs k) w)|].
    unfold wd_mod. simpl. destruct (decide (v = w)) as [-> |Hv]; [rewrite ctl_upd_eq; by eexists|].
    rewrite ctl_upd_ne by done. exists (delta_interval (ctl (watchdogs k) w)). by destruct (ctl (watchdogs k) w). }
  split; rewrite ?EC; try done. simpl wd_get in EE. rewrite EE. unfold later. apply list_elem_of_In, in_map_iff.
  exists (w, n). split; [simpl; f_equal; lia|by apply list_elem_of_In].
Qed.

(** ** One clock tick *)

Section Tick.
Context (wfuel : nat) (run : Z -> Z -> Z -> Kernel -> Kernel) (callout : Z -> Z -> Kernel -> Kernel) (w r i u : Z).

(** There is room for the watchdogs on the chain, and dispatching is disabled, as it is in
    an interrupt. *)
Definition room (k : Kernel) : Prop :=
  (length (chain_of Ticks (watchdogs k)) <= wfuel)%nat /\ _Thread_Dispatch_disable_level k <> 0.

(** [n] ticks before the routine is called. *)
Record timely (n : Z) (k : Kernel) : Prop := {
  ti_counting : counting w r i u n (watchdogs k);
  ti_pending : pending Ticks (watchdogs k);
  ti_room : room k
}.

(** Code between the ticks that leaves the watchdog alone. *)
Definition spares (f : Kernel -> Kernel) : Prop := forall n k, timely n k -> timely n (f k).

(** Service routines, called while watchdogs expire, that leave it alone. *)
Record services_spare : Prop := {
  ss_callbacks : callbacks_ok run Ticks;
  ss_counting : forall r' i' u' n k, counting w r i u n (watchdogs k) -> counting w r i u n (watchdogs (run r' i' u' k));
  ss_room : forall r' i' u' k, room k -> room (run r' i' u' k)
}.
Context (HR : services_spare) (HC : forall a t, spares (callout a t)).

Notation fire := (fire run).

Lemma timely_ext n k k' : watchdogs k' = watchdogs k -> _Thread_Dispatch_disable_level k' = _Thread_Dispatch_disable_level k ->
  timely n k -> timely n k'.
Proof using. intros E1 E2 [A B [C D]]. split; [..|split]; by rewrite ?E1, ?E2. Qed.

(** Watchdogs that expire before it. *)
Lemma fire_other n k v rest : counting w r i u n (watchdogs k) -> room k -> zeros Ticks (watchdogs k) = v :: rest -> v <> w ->
  counting w r i u n (watchdogs (fire v k)) /\ room (fire v k) /\ zeros Ticks (watchdogs (fire v k)) = rest.
Proof using HR.
  intros HN [HL HD] EZ Hv. pose proof (co_ok _ _ _ _ _ _ HN) as HS.
  destruct (chain_of Ticks (watchdogs k)) as [|v' l] eqn:El; [by rewrite zeros_nil in EZ|].
  pose proof EZ as EZ'. rewrite (zeros_first Ticks _ v' l HS El) in EZ'.
  destruct (Z.eqb_spec (dl (watchdogs k) v') 0) as [E0|]; [|done]. injection EZ' as <- _.
  destruct (fire_zeros (H := HasWatchdog_Kernel) run Ticks (ss_callbacks HR) k v' l HS El E0) as [HS' EZ'].
  change (wd_get k) with (watchdogs k) in EZ'. rewrite EZ in EZ'. injection EZ' as EZ'. split_and!; [| |done].
  - unfold Watchdog.fire. pose proof (remove_first_counting w r i u n _ v' l HN El E0 Hv) as HN'.
    change (wd_get k) with (watchdogs k). destruct (_Watchdog_Remove v' (watchdogs k)) as [[] ws'];
      simpl in *; try done. by apply HR.
  - unfold Watchdog.fire. pose proof (remove_chain _ HS Ticks [] v' l El) as EC.
    change (wd_get k) with (watchdogs k). destruct (_Watchdog_Remove v' (watchdogs k)) as [st ws']. cbn [snd app] in EC.
    assert (room (wd_put ws' k)) as HR'.
    { split; [|done]. change (watchdogs (wd_put ws' k)) with ws'. rewrite EC. simpl in HL. lia. }
    destruct st; try done. by apply HR.
Qed.

Lemma fire_before n before rest k : counting w r i u n (watchdogs k) -> room k ->
  zeros Ticks (watchdogs k) = before ++ rest -> w ∉ before ->
  let k' := fold_left (fun k v => fire v k) before k in
  counting w r i u n (watchdogs k') /\ room k' /\ zeros Ticks (watchdogs k') = rest.
Proof using HR.
  revert k. induction before as [|v before IH]; intros k HN HM EZ Hw; [done|]. simpl.
  apply not_elem_of_cons in Hw as [Hv Hw].
  destruct (fire_other n k v (before ++ rest) HN HM EZ (not_eq_sym Hv)) as (A & B & C). by apply IH.
Qed.

(** When it expires itself. *)
Lemma fire_self k : counting w r i u 0 (watchdogs k) -> fire w k = run r i u (set_watchdogs (_Watchdog_Remove w (watchdogs k)).2 k).
Proof using.
  intros [A B C D E F]. apply expiry_member, list_elem_of_split in B as (l1 & l2 & El).
  pose proof (remove_ctl_self _ A Ticks l1 w l2 El) as ES. pose proof (remove_unfold _ A Ticks l1 w l2 El) as EU.
  unfold Watchdog.fire. change (wd_get k) with (watchdogs k).
  destruct (_Watchdog_Remove w (watchdogs k)) as [st ws'] eqn:ER. injection EU as Est _. cbn [snd] in *.
  rewrite Est, C, ES. simpl. by rewrite D, E, F.
Qed.

(** The watchdogs that expire with this tick, of which the state right after the count is [kt]. *)
Notation counted k := (ticked Ticks (_TOD_Tickle_ticks k)).
Notation due k := (zeros Ticks (watchdogs (counted k))).

Lemma tod_tick_timely n k : timely n k -> timely n (_TOD_Tickle_ticks k).
Proof using. intros [[A B C D E F] HP [G G']]. split; [|exact HP|by split]. split; try done. by destruct A; split. Qed.

Lemma counted_facts n k : timely n k -> counting w r i u (n - 1) (watchdogs (counted k)) /\ room (counted k).
Proof using.
  intros HT. destruct (tod_tick_timely n k HT) as [A B [C D]]. split; [by apply ticked_counting|].
  unfold ticked. change (wd_get ?x) with (watchdogs x). set (kt := _TOD_Tickle_ticks k) in *. clearbody kt.
  destruct (chain_of Ticks (watchdogs kt)) as [|v l] eqn:El; split; try done.
  - by rewrite El.
  - unfold wd_mod. change (watchdogs (wd_put ?a kt)) with a. rewrite chain_of_upd. change (wd_get kt) with (watchdogs kt). by rewrite El.
Qed.

Lemma clock_tickled n k : timely n k ->
  let k' := fold_left (fun k v => fire v k) (due k) (counted k) in
  _Watchdog_Tickle_ticks run wfuel (_TOD_Tickle_ticks k) = Some k' /\ pending Ticks (watchdogs k').
Proof using HR.
  intros HT. destruct (tod_tick_timely n k HT) as [A B [C D]].
  destruct (tickle_spec (H := HasWatchdog_Kernel) run Ticks wfuel (_TOD_Tickle_ticks k) (ss_callbacks HR)) as (E & _ & P);
    [apply A|exact B|exact C|]. by split.
Qed.

Lemma timeslice_timely n k : timely n k -> timely n (_Thread_Tickle_timeslice callout k).
Proof using HC.
  intros HT. unfold _Thread_Tickle_timeslice. cbn zeta. set (x := _Thread_Executing k). set (k1 := upd_thread x _ k).
  assert (timely n k1) as H1 by (by apply (timely_ext n k)). clearbody k1 x. clear HT k.
  destruct (negb _); [done|]. destruct (negb _); [done|].
  assert (forall f, timely n (upd_thread x f k1)) as H2 by (intros f; by apply (timely_ext n k1)).
  assert (forall f k, timely n k -> timely n (upd_thread x f (_Thread_Reset_timeslice k))) as H3.
  { intros f k' H. unfold _Thread_Reset_timeslice. destruct (ListChain.has_only_one_node _); [by apply (timely_ext n k')|].
    cbn zeta. destruct (_Thread_Is_heir _ _); by apply (timely_ext n k'). }
  destruct (budget_algorithm _); try done; case_match; auto. by apply HC.
Qed.

Context (switch : Z -> Z -> Kernel -> Kernel) (postswitch : Kernel -> Kernel) (isrs : list (Kernel -> Kernel)) (fuel : nat).
Notation clock_tick := (rtems_clock_tick switch postswitch isrs fuel wfuel run callout).

Lemma clock_tick_counts n k : 1 < n -> timely n k -> exists k', clock_tick k = Some (RTEMS_SUCCESSFUL, k') /\ timely (n - 1) k'.
Proof using HR HC.
  intros Hn HT. destruct (clock_tickled n k HT) as [E P]. destruct (counted_facts n k HT) as [HN HM].
  destruct (fire_before (n - 1) (due k) [] (counted k) HN HM) as (A & B & _); [by rewrite app_nil_r| |].
  { rewrite elem_of_zeros. intros H. pose proof (expiry_unique _ _ _ _ _ (co_ok _ _ _ _ _ _ HN) H (co_left _ _ _ _ _ _ HN)). lia. }
  unfold rtems_clock_tick. cbn zeta. rewrite E. set (k' := fold_left _ _ _) in *. clearbody k'.
  pose proof (timeslice_timely (n - 1) k' (Build_timely _ _ A P B)) as HT'.
  exists (_Thread_Tickle_timeslice callout k'). split; [|done]. unfold _Thread_Is_dispatching_enabled.
  rewrite (proj2 (Z.eqb_neq _ _) (proj2 (ti_room _ _ HT'))), andb_false_r. done.
Qed.

Lemma clock_tick_fires k : timely 1 k -> exists before after,
  due k = before ++ w :: after /\ w ∉ before /\ w ∉ after /\
  let km := fold_left (fun k v => fire v k) before (counted k) in
  _Watchdog_Tickle_ticks run wfuel (_TOD_Tickle_ticks k) =
    Some (fold_left (fun k v => fire v k) after (run r i u (set_watchdogs (_Watchdog_Remove w (watchdogs km)).2 km))).
Proof using HR.
  intros HT. destruct (clock_tickled 1 k HT) as [E P]. destruct (counted_facts 1 k HT) as [HN HM].
  assert (w ∈ due k) as Hw by (apply elem_of_zeros; apply HN).
  pose proof (zeros_nodup Ticks _ (co_ok _ _ _ _ _ _ HN)) as HD.
  apply list_elem_of_split in Hw as (before & after & ED). exists before, after. rewrite ED in HD.
  assert (w ∉ before /\ w ∉ after) as [H1 H2].
  { apply NoDup_app in HD as (_ & HD1 & HD2). apply NoDup_cons in HD2 as [HD2 _]. split; [|done]. intros H. apply (HD1 w H). left. }
  destruct (fire_before 0 before (w :: after) (counted k) HN HM ED H1) as (A & _ & _).
  split_and!; try done. rewrite E, ED, fold_left_app. simpl. by rewrite fire_self.
Qed.
End Tick.

(** ** Starting a timer *)

(** Stopping a watchdog, on either chain or on none, brings nobody else's expiry forward. *)
Lemma remove_pending w ws : wd_ok ws -> pending Ticks ws ->
  let ws' := (_Watchdog_Remove w ws).2 in
  wd_ok ws' /\ pending Ticks ws' /\ wd_state (ctl ws' w) = WATCHDOG_INACTIVE /\
  (length (chain_of Ticks ws') <= length (chain_of Ticks ws))%nat.
Proof.
  intros HS HP. cbn zeta. destruct (decide (w ∈ _Watchdog_Ticks_chain ws ++ _Watchdog_Seconds_chain ws)) as [Hw|Hw].
  - apply elem_of_app in Hw as [Hw|Hw].
    + pose proof (watchdog_remove_correct ws Ticks w HS Hw) as HX. destruct (_Watchdog_Remove w ws) as [p ws'].
      destruct HX as (_ & A & B & _ & (E1 & t & E2 & X1 & X2) & _). cbn [snd]. split_and!; try done.
      * unfold pending, zeros, exps in *. rewrite X1 in HP. rewrite X2. rewrite List.filter_app in *. simpl in HP.
        rewrite fmap_app in *. apply app_eq_nil in HP as [HP1 HP2]. rewrite HP1. simpl. by destruct (t =? 0).
      * rewrite <- !(expiries_length Ticks), X1, X2, !length_app. simpl. lia.
    + apply list_elem_of_split in Hw as (l1 & l2 & El). change (chain_of Seconds ws = l1 ++ w :: l2) in El.
      pose proof (remove_chain_ne ws HS Seconds l1 w l2 El Ticks ltac:(done)) as EC.
      assert (expiries Ticks (_Watchdog_Remove w ws).2 = expiries Ticks ws) as EX.
      { unfold expiries. rewrite EC. apply remaining_ext. intros x Hx.
        assert (x <> w) as Hxw by (intros ->; apply (ok_other ws Seconds Ticks w HS); [rewrite El; set_solver|done|done]).
        unfold dl. rewrite (remove_ctl ws HS Seconds l1 w l2 El x Hxw). case_decide as Eh; [|done]. exfalso.
        destruct l2 as [|y l2]; [done|]. injection Eh as ->. apply (ok_other ws Seconds Ticks x HS); [rewrite El; set_solver|done|done]. }
      split_and!; [by eapply remove_ok_on|unfold pending, zeros; by rewrite EX|by rewrite (remove_ctl_self ws HS Seconds l1 w l2 El)|by rewrite EC].
  - assert (~ on_chain (wd_state (ctl ws w))) as Hoff by (intros H; by apply Hw, HS).
    assert (wd_state (ctl ws w) = WATCHDOG_INACTIVE \/ wd_state (ctl ws w) = WATCHDOG_BEING_INSERTED) as Hst.
    { unfold on_chain in Hoff. destruct (wd_state (ctl ws w)); auto; exfalso; apply Hoff; auto. }
    set (ws1 := match wd_state (ctl ws w) with WATCHDOG_BEING_INSERTED => upd w (set_state WATCHDOG_INACTIVE) ws | _ => ws end).
    assert ((_Watchdog_Remove w ws).2 = upd w (set_stop_time (_Watchdog_Ticks_since_boot ws)) ws1) as ->
      by (unfold _Watchdog_Remove, ws1; by destruct Hst as [-> | ->]).
    assert (wd_ok ws1 /\ wd_state (ctl ws1 w) = WATCHDOG_INACTIVE /\ chain_of Ticks ws1 = chain_of Ticks ws /\
      forall x, x <> w -> ctl ws1 x = ctl ws x) as (H1 & H2 & H3 & H4).
    { unfold ws1. destruct Hst as [E|E]; rewrite E; [done|]. rewrite ctl_upd_eq. split_and!; try done.
      - apply wd_upd_off; [done|done|by intros [?|?]].
      - intros x Hx. by rewrite ctl_upd_ne. }
    split_and!.
    + apply wd_upd_off; [done|..]; simpl; rewrite H2; by intros [?|?].
    + unfold pending, zeros, expiries in *. rewrite chain_of_upd, H3. rewrite <- HP. f_equal. apply remaining_ext.
      intros x Hx. assert (x <> w) by (intros ->; apply Hw, elem_of_app; by left). unfold dl. rewrite ctl_upd_ne by done. by rewrite H4.
    + by rewrite ctl_upd_eq.
    + rewrite chain_of_upd, H3. done.
Qed.

(** Changing a watchdog that is off. *)
Lemma upd_pending w f ws : wd_ok ws -> pending Ticks ws -> wd_state (ctl ws w) = WATCHDOG_INACTIVE ->
  wd_state (f (ctl ws w)) = WATCHDOG_INACTIVE ->
  wd_ok (upd w f ws) /\ pending Ticks (upd w f ws).
Proof.
  intros HS HP H1 H2. split; [apply wd_upd_off; [done|..]; rewrite ?H1, ?H2; by intros [?|?]|].
  unfold pending, zeros, expiries in *. rewrite chain_of_upd, <- HP. f_equal. apply remaining_ext. intros x Hx.
  assert (x <> w) by (intros ->; apply (ok_member _ _ _ HS) in Hx; rewrite H1 in Hx; by destruct Hx).
  unfold dl. by rewrite ctl_upd_ne.
Qed.

Lemma insert_pending wfuel w k : wd_ok (watchdogs k) -> pending Ticks (watchdogs k) -> wd_state (ctl (watchdogs k) w) = WATCHDOG_INACTIVE ->
  (length (chain_of Ticks (watchdogs k)) + 1 < wfuel)%nat -> 1 <= initial (ctl (watchdogs k) w) < two32 ->
  let c := ctl (watchdogs k) w in
  exists ws, _Watchdog_Insert wfuel id Ticks w k = Some (set_watchdogs ws k) /\
    counting w (routine c) (wd_id c) (user_data c) (initial c) ws /\ pending Ticks ws /\
    (length (chain_of Ticks ws) = length (chain_of Ticks (watchdogs k)) + 1)%nat.
Proof.
  intros HS HP H1 Hf Hn c. assert (~ on_chain (wd_state (ctl (watchdogs k) w))) as Hoff by (rewrite H1; by intros [?|?]).
  destruct (insert_quiet (H := HasWatchdog_Kernel) wfuel Ticks w k HS Hoff) as (lev & la & lb & HPl & E); [change (wd_get k) with (watchdogs k); lia|done|].
  change (wd_get k) with (watchdogs k) in *. fold c in HPl, E. set (n := initial c) in *. set (ws1 := inserting w lev (watchdogs k)) in *.
  pose proof (inserting_ok w lev _ HS Hoff) as HS1. fold ws1 in HS1.
  assert (1 <= n < two32) as Hn1 by exact Hn. assert (0 <= n < two32) as Hn' by lia.
  assert (wd_state (ctl ws1 w) = WATCHDOG_BEING_INSERTED) as Hst by (unfold ws1; by rewrite inserting_ctl).
  assert (expiries Ticks ws1 = expiries Ticks (watchdogs k)) as EX.
  { unfold expiries, ws1. rewrite inserting_chain. apply remaining_ext. intros. apply inserting_dl. }
  destruct (inserted_expiries Ticks w ws1 n (_ISR_Nest_level (watchdogs k)) HS1 Hn' Hst la lb HPl) as (X1 & X2).
  assert (ctl (inserted Ticks w ws1 n (_ISR_Nest_level (watchdogs k)) la lb) w =
    set_start_time (_Watchdog_Ticks_since_boot ws1) (set_delta (n - sum (dl ws1) la) (set_state WATCHDOG_ACTIVE (ctl ws1 w)))) as EC.
  { pose proof (ok_chain_nodup _ Ticks HS1). pose proof (being_inserted_off w _ HS1 Hst Ticks).
    pose proof (ok_delta _ HS1 Ticks). pose proof (ok_sum _ HS1 Ticks). by eapply inserted_ctl_self. }
  assert (wd_ok (inserted Ticks w ws1 n (_ISR_Nest_level (watchdogs k)) la lb)) as HS2 by (by apply inserted_ok).
  set (ws2 := inserted _ _ _ _ _ _ _) in *. exists ws2. split; [exact E|]. clearbody ws2.
  assert (ctl ws1 w = set_state WATCHDOG_BEING_INSERTED c) as E1 by (unfold ws1; by rewrite inserting_ctl).
  rewrite E1 in EC. split_and!.
  - split; rewrite ?EC; try done. rewrite X2. apply elem_of_app. right. left.
  - unfold pending, zeros, exps in *. rewrite X2. rewrite <- EX, X1 in HP. rewrite List.filter_app in *. simpl.
    rewrite (proj2 (Z.eqb_neq n 0)) by lia. done.
  - rewrite <- !(expiries_length Ticks), X2, <- EX, X1, !length_app. simpl. lia.
Qed.

Lemma fire_after_timely wfuel t id ticks rt data k :
  wd_ok (watchdogs k) -> pending Ticks (watchdogs k) -> 1 <= ticks < two32 ->
  (length (chain_of Ticks (watchdogs k)) + 1 < wfuel)%nat -> _Thread_Dispatch_disable_level k <> 0 ->
  exists k', timer_fire_after wfuel Datatypes.id t id ticks rt data k = Some k' /\
    timely wfuel (Ticker t) rt id data ticks k' /\ timer_class (timer k' t) = TIMER_INTERVAL.
Proof.
  intros HS HP Ht Hf HD. unfold timer_fire_after, timer_prepare, stop_ticker, _Watchdog_Insert_ticks, wd_mod. cbn zeta.
  set (w := Ticker t). change (wd_get k) with (watchdogs k).
  destruct (remove_pending w (watchdogs k) HS HP) as (A & B & C & D). set (ws1 := (_Watchdog_Remove w (watchdogs k)).2) in *.
  set (k1 := upd_timer t _ _). change (wd_get k1) with ws1. set (ws2 := _Watchdog_Initialize w rt id data ws1).
  assert (wd_ok ws2 /\ pending Ticks ws2) as [A2 B2] by (by apply upd_pending).
  assert (wd_state (ctl ws2 w) = WATCHDOG_INACTIVE) as C2 by (unfold ws2, _Watchdog_Initialize; by rewrite ctl_upd_eq).
  change (wd_get (wd_put ws2 k1)) with ws2. set (ws3 := upd w (set_initial ticks) ws2).
  assert (wd_ok ws3 /\ pending Ticks ws3) as [A3 B3] by (by apply upd_pending).
  assert (ctl ws3 w = set_initial ticks (ctl ws2 w)) as E3 by (unfold ws3; by rewrite ctl_upd_eq).
  assert (routine (ctl ws2 w) = rt /\ wd_id (ctl ws2 w) = id /\ user_data (ctl ws2 w) = data) as (F1 & F2 & F3)
    by (unfold ws2, _Watchdog_Initialize; by rewrite ctl_upd_eq).
  set (k3 := wd_put ws3 _). assert (chain_of Ticks (watchdogs k3) = chain_of Ticks ws1) as EC by done.
  destruct (insert_pending wfuel w k3) as (ws & E & G1 & G2 & G3); change (watchdogs k3) with ws3 in *; rewrite ?E3; try done.
  { rewrite EC. lia. }
  exists (set_watchdogs ws k3). split; [exact E|]. rewrite E3 in G1. cbn [routine wd_id user_data initial set_initial] in G1.
  rewrite F1, F2, F3 in G1. split; [split; [done|done|split]|].
  - change (watchdogs (set_watchdogs ws k3)) with ws. rewrite G3, EC. lia.
  - done.
  - change (timer (set_watchdogs ws k3) t) with (timer k1 t). unfold k1, timer, upd_timer, upd_rtems. simpl.
    by rewrite lookup_total_insert_eq.
Qed.

(** ** The claim *)

(** [j] clock ticks; [others j] is everything that happens between tick [j] and the next. *)
Fixpoint elapse (tick : Kernel -> option (Z * Kernel)) (others : nat -> Kernel -> Kernel) (j : nat) (k : Kernel) : option Kernel :=
  match j with
  | O => Some k
  | S j =>
      match elapse tick others j k with
      | None => None
      | Some k => match tick (others j k) with None => None | Some (_, k) => Some k end
      end
  end.

(** C17: a timer that is set to fire after [n] ticks, whether it was running, on whichever
    chain, or not, fires at the [n]-th clock tick.  Before that each tick runs to its end
    and leaves one tick less to go; at the [n]-th, the ticker is among the watchdogs that
    expire, once, and when its turn comes its routine is called with the id and the data
    that were given, the ticker being off the chain.  Other code and the service routines
    of other watchdogs may do anything that leaves this ticker alone; the ticks come from
    an interrupt, with dispatching disabled. *)
Theorem timer_fires_on_time switch postswitch isrs fuel wfuel run callout others t id ticks rt data k :
  let w := Ticker t in
  let tick := rtems_clock_tick switch postswitch isrs fuel wfuel run callout in
  wd_ok (watchdogs k) -> pending Ticks (watchdogs k) -> 1 <= ticks < two32 ->
  (length (chain_of Ticks (watchdogs k)) + 1 < wfuel)%nat -> _Thread_Dispatch_disable_level k <> 0 ->
  services_spare wfuel run w rt id data -> (forall a x, spares wfuel w rt id data (callout a x)) ->
  (forall j, spares wfuel w rt id data (others j)) ->
  exists k0, timer_fire_after wfuel Datatypes.id t id ticks rt data k = Some k0 /\
    (forall j, Z.of_nat j < ticks -> exists kj, elapse tick others j k0 = Some kj /\
       (w, ticks - Z.of_nat j) ∈ expiries Ticks (watchdogs kj)) /\
    exists kl before after, elapse tick others (Z.to_nat (ticks - 1)) k0 = Some kl /\
      let k1 := _TOD_Tickle_ticks (others (Z.to_nat (ticks - 1)) kl) in
      let km := fold_left (fun k v => fire run v k) before (ticked Ticks k1) in
      zeros Ticks (watchdogs (ticked Ticks k1)) = before ++ w :: after /\ w ∉ before /\ w ∉ after /\
      _Watchdog_Tickle_ticks run wfuel k1 =
        Some (fold_left (fun k v => fire run v k) after (run rt id data (set_watchdogs (_Watchdog_Remove w (watchdogs km)).2 km))).
Proof.
  intros w tick HS HP Ht Hf HD HR HC HO.
  destruct (fire_after_timely wfuel t id ticks rt data k HS HP Ht Hf HD) as (k0 & E0 & H0 & _). exists k0. split; [done|]. fold w in H0.
  assert (forall j, Z.of_nat j < ticks -> exists kj, elapse tick others j k0 = Some kj /\
    timely wfuel w rt id data (ticks - Z.of_nat j) kj) as HJ.
  { induction j as [|j IH]; intros Hj; [exists k0; split; [done|]; by replace (ticks - Z.of_nat 0) with ticks by lia|].
    destruct IH as (kj & Ej & Tj); [lia|]. apply (HO j) in Tj.
    destruct (clock_tick_counts wfuel run callout w rt id data HR HC switch postswitch isrs fuel (ticks - Z.of_nat j) (others j kj))
      as (k' & Ek & Tk); [lia|exact Tj|].
    exists k'. simpl. rewrite Ej. unfold tick. rewrite Ek. split; [done|]. by replace (ticks - Z.of_nat (S j)) with (ticks - Z.of_nat j - 1) by lia. }
  split.
  - intros j Hj. destruct (HJ j Hj) as (kj & Ej & Tj). exists kj. split; [done|]. apply Tj.
  - destruct (HJ (Z.to_nat (ticks - 1))) as (kl & El & Tl); [lia|]. apply (HO (Z.to_nat (ticks - 1))) in Tl.
    replace (ticks - Z.of_nat (Z.to_nat (ticks - 1))) with 1 in Tl by lia.
    destruct (clock_tick_fires wfuel run w rt id data HR _ Tl) as (before & after & X). exists kl, before, after. split; [done|]. exact X.
Qed.

(** ** A small system with a timer *)

Module TimerExample.
Import ThreadExample.
(** An interrupt is being served; the timer is at 400. *)
Definition t0 : Kernel := set_disable_level 1 k2.
Lemma t0_watchdogs : watchdogs t0 = no_watchdogs.
Proof. vm_compute. reflexivity. Qed.
End TimerExample.

Lemma timer_fires_witness :
  exists k0 kl, timer_fire_after 5 Datatypes.id 400 9 3 1000 7 TimerExample.t0 = Some k0 /\
    elapse (rtems_clock_tick (fun _ _ k => k) Datatypes.id [] 5 5 (fun _ _ _ k => k) (fun _ _ k => k)) (fun _ k => k) 2 k0 = Some kl /\
    zeros Ticks (watchdogs (ticked Ticks (_TOD_Tickle_ticks kl))) = [416].
Proof.
  pose proof TimerExample.t0_watchdogs as EW.
  assert (chain_of Ticks ThreadExample.no_watchdogs = []) as EC by (vm_compute; reflexivity).
  assert (_Thread_Dispatch_disable_level TimerExample.t0 <> 0) as HD by (vm_compute; discriminate).
  destruct (timer_fires_on_time (fun _ _ k => k) Datatypes.id [] 5 5 (fun _ _ _ k => k) (fun _ _ k => k) (fun _ k => k)
    400 9 3 1000 7 TimerExample.t0) as (k0 & E0 & _ & kl & before & after & El & EZ & _).
  - rewrite EW. exact ThreadqExample.no_watchdogs_ok.
  - rewrite EW. by apply zeros_nil.
  - split; [lia|reflexivity].
  - rewrite EW, EC. simpl. lia.
  - exact HD.
  - split; [intros r i u s HS; split; [exact HS|reflexivity]|intros r i u n k H; exact H|intros r i u k H; exact H].
  - intros a x n k H. exact H.
  - intros j n k H. exact H.
  - exists k0, kl. split; [exact E0|]. split; [exact El|].
    assert (timer_fire_after 5 Datatypes.id 400 9 3 1000 7 TimerExample.t0 =
      Some (default TimerExample.t0 (timer_fire_after 5 Datatypes.id 400 9 3 1000 7 TimerExample.t0))) as E1 by (vm_compute; reflexivity).
    assert (k0 = default TimerExample.t0 (timer_fire_after 5 Datatypes.id 400 9 3 1000 7 TimerExample.t0)) as EK by congruence.
    rewrite EK in El. vm_compute in El. injection El as <-. vm_compute. reflexivity.
Defined.
