(* ===== verification/Signal.v ===== *)
(** * Signal Manager and task modes (rtems/src/signal.c, rtems/inline/asr.inl, rtems/src/tasks.c)

    Signals that are sent to a thread are posted when it takes them and pend while it does
    not; changing the mode swaps the two sets; after a context switch the posted signals
    are handed to the thread's handler.  The interrupt level of the processor, and the
    handler itself, are parameters. *)
From S2P Require Import Prelude Chain Watchdog Object Priority ApiTypes Heap Kernel Thread Workspace CoreMsg Rtems Partition.

(** ** The signals of a thread (asr.inl) *)

Definition asr (k : Kernel) (the_thread : Z) : ASR_Information := Signal (api k the_thread).
Definition upd_asr (the_thread : Z) (f : ASR_Information -> ASR_Information) : Kernel -> Kernel :=
  upd_api the_thread (fun a => set_Signal (f (Signal a)) a).

Definition _ASR_Initialize (information : ASR_Information) : ASR_Information :=
  {| is_enabled := true; handler := NULL; asr_mode_set := RTEMS_DEFAULT_MODES; signals_posted := 0; signals_pending := 0;
     nest_level := 0 |}.
Definition _ASR_Swap_signals (information : ASR_Information) : ASR_Information :=
  set_signals_posted (signals_pending information) (set_signals_pending (signals_posted information) information).
Definition _ASR_Is_null_handler (asr_handler : Z) : bool := asr_handler =? NULL.
Definition _ASR_Are_signals_pending (information : ASR_Information) : bool := negb (signals_posted information =? 0).
Definition _ASR_Post_signals (signals signal_set : Z) : Z := Z.lor signal_set signals.
Definition _ISR_Is_in_progress (k : Kernel) : bool := negb (_ISR_Nest_level (watchdogs k) =? 0).

(** ** Sending: the local case of [rtems_signal_send] *)

Definition signal_post (the_thread signal_set : Z) (k : Kernel) : Z * Kernel :=
  if negb (_ASR_Is_null_handler (handler (asr k the_thread))) then
    (RTEMS_SUCCESSFUL,
     if is_enabled (asr k the_thread) then
       let k := upd_asr the_thread (fun a => set_signals_posted (_ASR_Post_signals signal_set (signals_posted a)) a) k in
       let k := upd_thread the_thread (set_do_post true) k in
       if _ISR_Is_in_progress k && _Thread_Is_executing k the_thread
       then upd_rtems (set_Signals_to_thread_executing true) k else k
     else upd_asr the_thread (fun a => set_signals_pending (_ASR_Post_signals signal_set (signals_pending a)) a) k)
  else (RTEMS_NOT_DEFINED, k).

(** What [rtems_signal_catch] does to the information. *)
Definition signal_handler (asr_handler mode_set : Z) (a : ASR_Information) : ASR_Information :=
  if negb (_ASR_Is_null_handler asr_handler) then set_handler asr_handler (set_asr_mode_set mode_set a) else _ASR_Initialize a.

(** ** The mode of the executing thread (the parts of [rtems_task_mode]) *)

(** The mode it has, with the interrupt level. *)
Definition current_mode (level : Z) (executing : Z) (k : Kernel) : Z :=
  let old_mode := if is_preemptible (tcb k executing) then RTEMS_PREEMPT else RTEMS_NO_PREEMPT in
  let old_mode := Z.lor old_mode (match budget_algorithm (tcb k executing) with
                                  | THREAD_CPU_BUDGET_ALGORITHM_NONE => RTEMS_NO_TIMESLICE
                                  | _ => RTEMS_TIMESLICE
                                  end) in
  let old_mode := Z.lor old_mode (if is_enabled (asr k executing) then RTEMS_ASR else RTEMS_NO_ASR) in
  Z.lor old_mode level.

Section Mode.
(** The interrupt level of the processor; [isr] is the interrupts that are taken between
    enabling or disabling the signals and swapping the two sets. *)
Context (get_level : Kernel -> Z) (set_level : Z -> Kernel -> Kernel) (isr : Kernel -> Kernel).

Definition change_scheduling (mode_set mask executing : Z) (k : Kernel) : Kernel :=
  let k := if negb (Z.land mask RTEMS_PREEMPT_MASK =? 0)
           then upd_thread executing (set_is_preemptible (_Modes_Is_preempt mode_set)) k else k in
  if negb (Z.land mask RTEMS_TIMESLICE_MASK =? 0) then
    upd_thread executing (set_budget_algorithm
      (if _Modes_Is_timeslice mode_set
       then THREAD_CPU_BUDGET_ALGORITHM_RESET_TIMESLICE else THREAD_CPU_BUDGET_ALGORITHM_NONE)) k
  else k.

(** Whether signals are to be dispatched, and the state. *)
Definition change_asr (mode_set mask executing : Z) (k : Kernel) : bool * Kernel :=
  if negb (Z.land mask RTEMS_ASR_MASK =? 0) then
    let is_asr_enabled := negb (_Modes_Is_asr_disabled mode_set) in
    if negb (Bool.eqb is_asr_enabled (is_enabled (asr k executing))) then
      let k := upd_asr executing (set_is_enabled is_asr_enabled) k in
      let k := isr k in
      let k := upd_asr executing _ASR_Swap_signals k in
      if _ASR_Are_signals_pending (asr k executing) then (true, upd_thread executing (set_do_post true) k) else (false, k)
    else (false, k)
  else (false, k).

Definition change_mode (mode_set mask previous_mode_set : Z) (k : Kernel) : bool * Kernel :=
  let executing := _Thread_Executing k in
  let k := put_word previous_mode_set (current_mode (get_level k) executing k) k in
  let k := change_scheduling mode_set mask executing k in
  let k := if negb (Z.land mask RTEMS_INTERRUPT_MASK =? 0) then set_level (_Modes_Get_interrupt_level mode_set) k else k in
  change_asr mode_set mask executing k.
End Mode.

(** ** Directives *)

Section Directives.
Context (switch : Z -> Z -> Kernel -> Kernel) (postswitch : Kernel -> Kernel).
Context (isrs : list (Kernel -> Kernel)) (fuel : nat) (_Objects_Local_node _Objects_Maximum_nodes : Z).
Context (get_level : Kernel -> Z) (set_level : Z -> Kernel -> Kernel) (isr : Kernel -> Kernel).
Context (mp_request : Z -> Z -> Kernel -> Z * Kernel).

Definition rtems_signal_catch (asr_handler mode_set : Z) (k : Kernel) : option (Z * Kernel) :=
  let executing := _Thread_Executing k in
  let k := _Thread_Disable_dispatch k in
  enable_return switch postswitch isrs fuel RTEMS_SUCCESSFUL (upd_asr executing (signal_handler asr_handler mode_set) k).

Definition rtems_signal_send (id signal_set : Z) (k : Kernel) : option (Z * Kernel) :=
  match _Thread_Get switch postswitch isrs fuel _Objects_Local_node _Objects_Maximum_nodes id k with
  | None => None
  | Some (OBJECTS_ERROR, _, k) => Some (RTEMS_INVALID_ID, k)
  | Some (OBJECTS_REMOTE, _, k) => Some (mp_request id signal_set k)
  | Some (OBJECTS_LOCAL, the_thread, k) =>
      let '(status, k) := signal_post the_thread signal_set k in enable_return switch postswitch isrs fuel status k
  end.

Definition rtems_task_mode (mode_set mask previous_mode_set : Z) (k : Kernel) : option (Z * Kernel) :=
  let '(needs_asr_dispatching, k) := change_mode get_level set_level isr mode_set mask previous_mode_set k in
  let '(necessary, k) := _Thread_Evaluate_mode k in
  if necessary || needs_asr_dispatching then
    match _Thread_Dispatch switch postswitch fuel isrs k with
    | None => None
    | Some k => Some (RTEMS_SUCCESSFUL, k)
    end
  else Some (RTEMS_SUCCESSFUL, k).

(** The posted signals are taken. *)
Definition take_signals (executing : Z) (k : Kernel) : Z * Kernel :=
  (signals_posted (asr k executing), upd_asr executing (set_signals_posted 0) k).

(** The extension that runs after a context switch.  [call_asr] calls a handler with its
    signals; the mode of the thread is saved at [prev_mode] while it runs. *)
Definition _RTEMS_tasks_Switch_extension (call_asr : Z -> Z -> Kernel -> Kernel) (prev_mode executing : Z) (k : Kernel)
  : option Kernel :=
  let '(signal_set, k) := take_signals executing k in
  if signal_set =? 0 then Some k
  else
    let k := upd_asr executing (fun a => set_nest_level (nest_level a +w 1) a) k in
    match rtems_task_mode (asr_mode_set (asr k executing)) RTEMS_ALL_MODE_MASKS prev_mode k with
    | None => None
    | Some (_, k) =>
        let k := call_asr (handler (asr k executing)) signal_set k in
        let k := upd_asr executing (fun a => set_nest_level (nest_level a -w 1) a) k in
        match rtems_task_mode (ld32 (memory k) prev_mode) RTEMS_ALL_MODE_MASKS prev_mode k with
        | None => None
        | Some (_, k) => Some k
        end
    end.
End Directives.
