(* ===== verification/SignalSpec.v ===== *)
(** * Correctness of signals and task modes

    Every signal that is sent to a thread with a handler is handed to the handler or waits
    in the set that the thread's mode says; a signal that an interrupt sends while the mode
    is being changed ends up in the other one.  The mode that is saved before a handler
    runs is the one that is restored after it. *)
From S2P Require Import Prelude Chain Watchdog Object Priority ApiTypes Kernel Thread ThreadProofs ThreadSpec.
From S2P Require Import Threadq ThreadqProofs ThreadqSpec CoreWait Workspace CoreMsg CoreMsgSpec Rtems Event EventSpec Signal.

(** ** Frames *)

Lemma asr_upd t f k : asr (upd_asr t f k) t = f (asr k t).
Proof. unfold asr, upd_asr. by rewrite api_upd. Qed.

Lemma asr_upd_thread x f k t : (forall c, API_Extensions_RTEMS (f c) = API_Extensions_RTEMS c) -> asr (upd_thread x f k) t = asr k t.
Proof.
  intros Hf. unfold asr, api. change (rtems (upd_thread x f k)) with (rtems k). rewrite tcb_upd.
  case_decide as E; [|done]. by rewrite Hf, E.
Qed.

(** The processor's interrupt level is not part of a thread. *)
Definition levels_apart (set_level : Z -> Kernel -> Kernel) : Prop :=
  forall l k t, asr (set_level l k) t = asr k t /\ tcb (set_level l k) t = tcb k t /\
    memory (set_level l k) = memory k /\ _Thread_Executing (set_level l k) = _Thread_Executing k.

(** ** Signals are conserved *)

Definition waiting (a : ASR_Information) : Z := Z.lor (signals_posted a) (signals_pending a).

(** Of the signals [S] that were sent to [t], its handler got [D]; the others are posted,
    and a dispatch is to hand them over, if the thread takes signals, and pend otherwise. *)
Record signals_ok (t S D : Z) (k : Kernel) : Prop := {
  sg_sets : if is_enabled (asr k t) then signals_pending (asr k t) = 0 else signals_posted (asr k t) = 0;
  sg_flag : signals_posted (asr k t) <> 0 -> do_post_task_switch_extension (tcb k t) = true;
  sg_all : Z.lor D (waiting (asr k t)) = S
}.

Inductive signal_step (t : Z) : Kernel * Z * Z -> Kernel * Z * Z -> Prop :=
| step_send s k S D : handler (asr k t) <> NULL -> signal_step t (k, S, D) ((signal_post t s k).2, Z.lor S s, D)
| step_unheard s k S D : handler (asr k t) = NULL -> signal_step t (k, S, D) ((signal_post t s k).2, S, D)
| step_mode get_level set_level mode_set mask previous k S D : levels_apart set_level -> _Thread_Executing k = t ->
    signal_step t (k, S, D) ((change_mode get_level set_level Datatypes.id mode_set mask previous k).2, S, D)
| step_catch h mode_set k S D : h <> NULL -> signal_step t (k, S, D) (upd_asr t (signal_handler h mode_set) k, S, D)
| step_deliver k S D :
    let (signals, k') := take_signals t (upd_thread t (set_do_post false) k) in
    signal_step t (k, S, D) (k', S, Z.lor D signals)
| step_elsewhere k k' S D : asr k' t = asr k t -> do_post_task_switch_extension (tcb k' t) = do_post_task_switch_extension (tcb k t) ->
    signal_step t (k, S, D) (k', S, D).

Section Steps.
Context (t S D : Z) (k : Kernel) (HO : signals_ok t S D k).

(** A change of the information of the thread, and perhaps of its flag. *)
Lemma signals_upd f S' D' k' : asr k' t = f (asr k t) ->
  (if is_enabled (f (asr k t)) then signals_pending (f (asr k t)) = 0 else signals_posted (f (asr k t)) = 0) ->
  (signals_posted (f (asr k t)) <> 0 -> do_post_task_switch_extension (tcb k' t) = true) ->
  Z.lor D' (waiting (f (asr k t))) = S' -> signals_ok t S' D' k'.
Proof using. intros E H1 H2 H3. split; by rewrite E. Qed.

Lemma post_ok s : handler (asr k t) <> NULL ->
  (signal_post t s k).1 = RTEMS_SUCCESSFUL /\ signals_ok t (Z.lor S s) D (signal_post t s k).2.
Proof using HO.
  intros Hh. destruct HO as [A B C]. unfold signal_post, _ASR_Is_null_handler. rewrite (proj2 (Z.eqb_neq _ _) Hh).
  cbn [negb fst snd]. split; [done|]. unfold _ASR_Post_signals. unfold waiting in C.
  destruct (is_enabled (asr k t)) eqn:EE.
  - cbv zeta. set (f := fun a => set_signals_posted (Z.lor (signals_posted a) s) a).
    set (k2 := upd_thread t (set_do_post true) (upd_asr t f k)).
    assert (asr k2 t = f (asr k t) /\ do_post_task_switch_extension (tcb k2 t) = true) as [E1 E2].
    { unfold k2. rewrite asr_upd_thread, asr_upd by done. rewrite tcb_upd, decide_True by done. done. }
    assert (forall k3, asr k3 t = asr k2 t -> tcb k3 t = tcb k2 t -> signals_ok t (Z.lor S s) D k3) as H3.
    { intros k3 E3 E4. apply (signals_upd f); rewrite ?E3, ?E4; try done; [by simpl; rewrite EE|].
      unfold waiting, f. simpl. rewrite A, !Z.lor_0_r in *. rewrite Z.lor_assoc. by f_equal. }
    destruct (_ && _); by apply H3.
  - set (f := fun a => set_signals_pending (Z.lor (signals_pending a) s) a).
    apply (signals_upd f); [by rewrite asr_upd|by simpl; rewrite EE|done|].
    unfold waiting, f. simpl. rewrite A in *. rewrite Z.lor_0_l in *. rewrite Z.lor_assoc. by f_equal.
Qed.

Lemma unheard_ok s : handler (asr k t) = NULL -> signal_post t s k = (RTEMS_NOT_DEFINED, k).
Proof using. intros Hh. unfold signal_post, _ASR_Is_null_handler. by rewrite Hh. Qed.

Lemma change_asr_ok mode_set mask : signals_ok t S D (change_asr Datatypes.id mode_set mask t k).2.
Proof using HO.
  destruct HO as [A B C]. unfold change_asr. destruct (negb (Z.land _ _ =? 0)); [|done]. cbv zeta.
  set (e := negb (_Modes_Is_asr_disabled mode_set)). destruct (Bool.eqb_spec e (is_enabled (asr k t))) as [E|E]; [by split|]. cbn [negb].
  change (Datatypes.id ?x) with x. set (f := fun a => _ASR_Swap_signals (set_is_enabled e a)).
  set (k1 := upd_asr t _ _). assert (asr k1 t = f (asr k t)) as E1 by (unfold k1; by rewrite !asr_upd).
  assert (Z.lor D (waiting (f (asr k t))) = S) as HW by (rewrite <- C; unfold waiting, f; simpl; f_equal; apply Z.lor_comm).
  assert (if is_enabled (f (asr k t)) then signals_pending (f (asr k t)) = 0 else signals_posted (f (asr k t)) = 0) as HS.
  { unfold f. simpl. by destruct e, (is_enabled (asr k t)). }
  unfold _ASR_Are_signals_pending. rewrite E1. destruct (Z.eqb_spec (signals_posted (f (asr k t))) 0) as [E0|E0]; cbn [negb snd].
  - by apply (signals_upd f).
  - apply (signals_upd f); try done; [by rewrite asr_upd_thread|]. intros _. by rewrite tcb_upd, decide_True.
Qed.
End Steps.

Lemma signals_elsewhere t S D k k' : signals_ok t S D k -> asr k' t = asr k t ->
  do_post_task_switch_extension (tcb k' t) = do_post_task_switch_extension (tcb k t) -> signals_ok t S D k'.
Proof. intros [A B C] E1 E2. split; by rewrite ?E1, ?E2. Qed.

Lemma change_scheduling_same mode_set mask t k : asr (change_scheduling mode_set mask t k) t = asr k t /\
  do_post_task_switch_extension (tcb (change_scheduling mode_set mask t k) t) = do_post_task_switch_extension (tcb k t).
Proof.
  unfold change_scheduling. destruct (negb (Z.land mask RTEMS_PREEMPT_MASK =? 0)), (negb (Z.land mask RTEMS_TIMESLICE_MASK =? 0)); split;
    rewrite ?asr_upd_thread, ?tcb_upd by done; repeat (rewrite decide_True by done); rewrite ?tcb_upd; try done;
    by rewrite ?decide_True.
Qed.

Lemma change_mode_ok t S D k get_level set_level mode_set mask previous :
  signals_ok t S D k -> levels_apart set_level -> _Thread_Executing k = t ->
  signals_ok t S D (change_mode get_level set_level Datatypes.id mode_set mask previous k).2.
Proof.
  intros HO HL EX. unfold change_mode. rewrite EX. apply change_asr_ok. set (k1 := put_word _ _ k).
  destruct (change_scheduling_same mode_set mask t k1) as [E1 E2]. set (k2 := change_scheduling _ _ _ _) in *.
  assert (signals_ok t S D k2) as H2 by (by apply (signals_elsewhere t S D k)).
  destruct (negb _); [|done]. destruct (HL (_Modes_Get_interrupt_level mode_set) k2 t) as (E3 & E4 & _).
  apply (signals_elsewhere t S D k2); [done|done|by rewrite E4].
Qed.

Lemma deliver_ok t S D k : signals_ok t S D k ->
  let (signals, k') := take_signals t (upd_thread t (set_do_post false) k) in signals_ok t S (Z.lor D signals) k'.
Proof.
  intros [A B C]. unfold take_signals. set (k1 := upd_thread t _ k).
  assert (asr k1 t = asr k t) as E1 by (by apply asr_upd_thread). rewrite E1.
  assert (asr (upd_asr t (set_signals_posted 0) k1) t = set_signals_posted 0 (asr k t)) as E2 by (by rewrite asr_upd, E1).
  split; rewrite E2; simpl; try done; [by destruct (is_enabled (asr k t))|].
  rewrite <- C. unfold waiting. cbn [signals_posted signals_pending set_signals_posted]. by rewrite Z.lor_0_l, <- Z.lor_assoc.
Qed.

Lemma signal_step_ok t s s' : signal_step t s s' -> signals_ok t s.1.2 s.2 s.1.1 -> signals_ok t s'.1.2 s'.2 s'.1.1.
Proof.
  intros H. destruct H as [sg k S D Hh|sg k S D Hh|gl sl m mask p k S D HL EX|h m k S D Hh|k S D|k k' S D E1 E2]; simpl; intros HO.
  - by apply post_ok.
  - by rewrite unheard_ok.
  - by apply change_mode_ok.
  - destruct HO as [A B C]. apply (signals_upd t k (signal_handler h m)); [by rewrite asr_upd|..];
      unfold signal_handler, _ASR_Is_null_handler; rewrite (proj2 (Z.eqb_neq _ _) Hh); simpl; done.
  - by apply deliver_ok.
  - by apply (signals_elsewhere t S D k).
Qed.

(** C20: signals are conserved: over any sequence of signals sent to a thread, changes of
    its mode, new handlers, deliveries and anything else, every signal that was sent while
    it had a handler has been handed to the handler or is waiting, and no other is; those
    that wait are posted, with the thread marked for the next dispatch, exactly when the
    thread takes signals, and pend otherwise. *)
Theorem signals_conserved t k S D k' S' D' :
  signals_ok t S D k -> rtc (signal_step t) (k, S, D) (k', S', D') -> signals_ok t S' D' k'.
Proof.
  intros HO HR. assert (forall s s', rtc (signal_step t) s s' -> signals_ok t s.1.2 s.2 s.1.1 -> signals_ok t s'.1.2 s'.2 s'.1.1) as HI.
  { intros s s' H. induction H as [s|s1 s2 s3 H _ IH]; intros H1; [done|]. apply IH. by apply (signal_step_ok t s1). }
  exact (HI _ _ HR HO).
Qed.

(** A signal that an interrupt sends to the executing thread between the moment its mode
    says that it takes signals and the swap of the two sets is stranded: afterwards the
    thread takes signals, but this one pends; it is not among those that the next dispatch
    hands over, and if none pended before, no dispatch is asked for at all. *)
Theorem signal_stranded t s get_level set_level mode_set mask previous k :
  _Thread_Executing k = t -> handler (asr k t) <> NULL -> is_enabled (asr k t) = false -> levels_apart set_level ->
  signals_posted (asr k t) = 0 -> Z.land mask RTEMS_ASR_MASK <> 0 -> _Modes_Is_asr_disabled mode_set = false ->
  let isr := fun k => (signal_post t s k).2 in
  let (needed, k') := change_mode get_level set_level isr mode_set mask previous k in
  is_enabled (asr k' t) = true /\ signals_pending (asr k' t) = s /\
  (take_signals t k').1 = signals_pending (asr k t) /\ (signals_pending (asr k t) = 0 -> needed = false).
Proof.
  intros EX Hh HE HL HP HM Hm isr. unfold change_mode. rewrite EX. set (k1 := put_word _ _ k).
  destruct (change_scheduling_same mode_set mask t k1) as [E1 _]. set (k2 := change_scheduling _ _ _ _) in *.
  set (k3 := if negb _ then _ else _). assert (asr k3 t = asr k t) as E3.
  { unfold k3. destruct (negb _); [|exact E1]. by rewrite (proj1 (HL _ k2 t)). }
  clearbody k3. unfold change_asr. rewrite (proj2 (Z.eqb_neq _ _) HM), Hm, E3, HE. cbn [negb Bool.eqb].
  set (k4 := upd_asr t (set_is_enabled true) k3).
  assert (asr k4 t = set_is_enabled true (asr k t)) as E4 by (unfold k4; by rewrite asr_upd, E3).
  assert (asr (isr k4) t = set_signals_posted s (set_is_enabled true (asr k t))) as E5.
  { unfold isr, signal_post, _ASR_Is_null_handler. rewrite E4. cbn [handler set_is_enabled is_enabled].
    rewrite (proj2 (Z.eqb_neq _ _) Hh). cbn [negb snd]. set (k5 := upd_thread t _ _).
    assert (asr k5 t = set_signals_posted s (set_is_enabled true (asr k t))) as E5.
    { unfold k5. rewrite asr_upd_thread, asr_upd, E4 by done. unfold _ASR_Post_signals. simpl. rewrite HP. done. }
    by destruct (_ && _). }
  set (k6 := upd_asr t _ASR_Swap_signals (isr k4)).
  assert (asr k6 t = _ASR_Swap_signals (set_signals_posted s (set_is_enabled true (asr k t)))) as E6 by (unfold k6; by rewrite asr_upd, E5).
  unfold _ASR_Are_signals_pending. rewrite E6. simpl. destruct (Z.eqb_spec (signals_pending (asr k t)) 0) as [E0|E0]; cbn [negb].
  - unfold take_signals. cbn [fst]. rewrite E6. done.
  - assert (asr (upd_thread t (set_do_post true) k6) t = asr k6 t) as E7 by (by apply asr_upd_thread).
    unfold take_signals. cbn [fst]. rewrite E7, E6. done.
Qed.

(** ** Modes *)

Definition mode_word (preempt timeslice signals : bool) (level : Z) : Z :=
  Z.lor (Z.lor (Z.lor (if preempt then RTEMS_PREEMPT else RTEMS_NO_PREEMPT) (if timeslice then RTEMS_TIMESLICE else RTEMS_NO_TIMESLICE))
    (if signals then RTEMS_ASR else RTEMS_NO_ASR)) level.

Definition reads_back (p s a : bool) (level : Z) : bool :=
  let m := mode_word p s a level in
  Bool.eqb (_Modes_Is_preempt m) p && Bool.eqb (_Modes_Is_timeslice m) s && Bool.eqb (_Modes_Is_asr_disabled m) (negb a)
  && (_Modes_Get_interrupt_level m =? level) && (0 <=? m) && (m <? two32).

Lemma mode_word_reads p s a level : 0 <= level < 16 -> reads_back p s a level = true.
Proof.
  intros Hl. assert (forallb (reads_back p s a) (seqZ 0 16) = true) as H by (destruct p, s, a; vm_compute; reflexivity).
  apply (proj1 (forallb_forall _ _) H). apply list_elem_of_In, elem_of_seqZ. lia.
Qed.

(** The budget algorithm, as far as the mode tells. *)
Definition timesliced (c : Thread_Control) : bool :=
  match budget_algorithm c with THREAD_CPU_BUDGET_ALGORITHM_NONE => false | _ => true end.

Lemma current_mode_word level t k :
  current_mode level t k = mode_word (is_preemptible (tcb k t)) (timesliced (tcb k t)) (is_enabled (asr k t)) level.
Proof. unfold current_mode, mode_word, timesliced. by destruct (is_preemptible _), (budget_algorithm _), (is_enabled _). Qed.

Section Change.
Context (get_level : Kernel -> Z) (set_level : Z -> Kernel -> Kernel) (HL : levels_apart set_level).

Lemma change_asr_effect mode_set mask t k : let k' := (change_asr Datatypes.id mode_set mask t k).2 in
  (asr k' t = asr k t \/ asr k' t = _ASR_Swap_signals (set_is_enabled (negb (is_enabled (asr k t))) (asr k t))) /\
  (Z.land mask RTEMS_ASR_MASK <> 0 -> is_enabled (asr k' t) = negb (_Modes_Is_asr_disabled mode_set)) /\
  is_preemptible (tcb k' t) = is_preemptible (tcb k t) /\ budget_algorithm (tcb k' t) = budget_algorithm (tcb k t) /\
  memory k' = memory k /\ _Thread_Executing k' = _Thread_Executing k.
Proof using.
  cbv zeta. unfold change_asr. destruct (Z.eqb_spec (Z.land mask RTEMS_ASR_MASK) 0) as [E0|E0]; cbn [negb]; [by split_and!; auto|].
  set (e := negb (_Modes_Is_asr_disabled mode_set)). destruct (Bool.eqb_spec e (is_enabled (asr k t))) as [E|E]; [by split_and!; auto|].
  cbn [negb]. change (Datatypes.id ?x) with x. set (k1 := upd_asr t _ _).
  assert (asr k1 t = _ASR_Swap_signals (set_is_enabled e (asr k t))) as E1 by (unfold k1; by rewrite !asr_upd).
  assert (e = negb (is_enabled (asr k t))) as Ee by (by destruct e, (is_enabled (asr k t))). rewrite <- Ee.
  destruct (_ASR_Are_signals_pending _); cbn [snd]; rewrite ?asr_upd_thread, E1 by done; rewrite ?tcb_upd, ?decide_True by done; by split_and!; auto.
Qed.

Lemma change_scheduling_effect mode_set mask t k : let k' := change_scheduling mode_set mask t k in
  (Z.land mask RTEMS_PREEMPT_MASK <> 0 -> is_preemptible (tcb k' t) = _Modes_Is_preempt mode_set) /\
  (Z.land mask RTEMS_TIMESLICE_MASK <> 0 -> timesliced (tcb k' t) = _Modes_Is_timeslice mode_set) /\
  memory k' = memory k /\ _Thread_Executing k' = _Thread_Executing k.
Proof using.
  cbv zeta. unfold change_scheduling, timesliced.
  destruct (Z.eqb_spec (Z.land mask RTEMS_PREEMPT_MASK) 0), (Z.eqb_spec (Z.land mask RTEMS_TIMESLICE_MASK) 0); cbn [negb];
    split_and!; try done; intros _; rewrite ?tcb_upd, ?decide_True by done; simpl; rewrite ?tcb_upd, ?decide_True by done; try done;
    by destruct (_Modes_Is_timeslice mode_set).
Qed.

(** What a change leaves behind, and what it saves. *)
Lemma change_mode_effect mode_set mask previous k :
  let t := _Thread_Executing k in
  let k' := (change_mode get_level set_level Datatypes.id mode_set mask previous k).2 in
  (asr k' t = asr k t \/ asr k' t = _ASR_Swap_signals (set_is_enabled (negb (is_enabled (asr k t))) (asr k t))) /\
  (Z.land mask RTEMS_ASR_MASK <> 0 -> is_enabled (asr k' t) = negb (_Modes_Is_asr_disabled mode_set)) /\
  (Z.land mask RTEMS_PREEMPT_MASK <> 0 -> is_preemptible (tcb k' t) = _Modes_Is_preempt mode_set) /\
  (Z.land mask RTEMS_TIMESLICE_MASK <> 0 -> timesliced (tcb k' t) = _Modes_Is_timeslice mode_set) /\
  memory k' = st32 (memory k) previous (current_mode (get_level k) t k) /\ _Thread_Executing k' = t.
Proof using HL.
  cbv zeta. unfold change_mode. set (t := _Thread_Executing k). set (k1 := put_word _ _ k).
  destruct (change_scheduling_same mode_set mask t k1) as [E1 _]. destruct (change_scheduling_effect mode_set mask t k1) as (F1 & F2 & F3 & F4).
  set (k2 := change_scheduling _ _ _ _) in *. clearbody k2.
  set (k3 := if negb _ then _ else _).
  assert (asr k3 t = asr k t /\ tcb k3 t = tcb k2 t /\ memory k3 = memory k1 /\ _Thread_Executing k3 = t) as (G1 & G2 & G3 & G4).
  { unfold k3. destruct (negb _); [|by rewrite F3, F4]. destruct (HL (_Modes_Get_interrupt_level mode_set) k2 t) as (-> & -> & -> & ->).
    by rewrite F3, F4. }
  clearbody k3. destruct (change_asr_effect mode_set mask t k3) as (A & B & C & D & E & F). rewrite G1 in A.
  set (k4 := (change_asr _ _ _ _ _).2) in *. clearbody k4. rewrite <- G2 in F1, F2. unfold timesliced in *. rewrite C, D, E, F, G3, G4.
  by split_and!.
Qed.
End Change.

(** Changing the mode of the executing thread, in any way, and then setting all of it to
    what was saved restores it: preemption, the taking of signals, and both sets of signals
    are as before, timeslicing is on if and only if it was, and the saved mode holds the
    interrupt level. *)
Theorem task_mode_roundtrip get_level set_level mode_set mask previous previous' k :
  let t := _Thread_Executing k in
  let k1 := (change_mode get_level set_level Datatypes.id mode_set mask previous k).2 in
  let saved := ld32 (memory k1) previous in
  let k2 := (change_mode get_level set_level Datatypes.id saved RTEMS_ALL_MODE_MASKS previous' k1).2 in
  levels_apart set_level -> 0 <= get_level k < 16 ->
  is_preemptible (tcb k2 t) = is_preemptible (tcb k t) /\ timesliced (tcb k2 t) = timesliced (tcb k t) /\
  asr k2 t = asr k t /\ _Modes_Get_interrupt_level saved = get_level k.
Proof.
  intros t k1 saved k2 HL Hl.
  destruct (change_mode_effect get_level set_level HL mode_set mask previous k) as (A1 & _ & _ & _ & E1 & X1). fold t k1 in A1, E1, X1.
  destruct (change_mode_effect get_level set_level HL saved RTEMS_ALL_MODE_MASKS previous' k1) as (A2 & B2 & C2 & D2 & _ & _).
  fold k2 in A2, B2, C2, D2. rewrite X1 in A2, B2, C2, D2.
  pose proof (mode_word_reads (is_preemptible (tcb k t)) (timesliced (tcb k t)) (is_enabled (asr k t)) _ Hl) as HR.
  unfold reads_back in HR. cbv zeta in HR. rewrite <- current_mode_word in HR. set (w := current_mode (get_level k) t k) in *.
  apply andb_true_iff in HR as [HR R6]. apply andb_true_iff in HR as [HR R5]. apply andb_true_iff in HR as [HR R4].
  apply andb_true_iff in HR as [HR R3]. apply andb_true_iff in HR as [R1 R2].
  apply Bool.eqb_prop in R1, R2, R3. apply Z.eqb_eq in R4. apply Z.leb_le in R5. apply Z.ltb_lt in R6.
  assert (saved = w) as ES by (unfold saved; rewrite E1; apply ld32_st32; by split). rewrite ES in *.
  rewrite R1 in C2. rewrite R2 in D2. rewrite R3, negb_involutive in B2.
  split; [by apply C2|]. split; [by apply D2|]. split; [|done].
  specialize (B2 ltac:(done)).
  destruct A1 as [A1|A1]; rewrite A1 in A2; destruct A2 as [A2|A2]; rewrite A2 in *; try done.
  - simpl in B2. by destruct (is_enabled (asr k t)).
  - simpl in B2. by destruct (is_enabled (asr k t)).
  - destruct (asr k t) as [e h m po pe n]. unfold _ASR_Swap_signals. simpl. by rewrite negb_involutive.
Qed.

(** ** A small system with signals *)

Module SignalExample.
Import ThreadExample.
(** The thread at 200 has its handler at 5000 and takes signals; then it does not. *)
Definition g0 : Kernel := upd_asr 200 (fun a => signal_handler 5000 0 (_ASR_Initialize a)) k2.
Definition g1 : Kernel := upd_asr 200 (set_is_enabled false) g0.

Lemma g0_ok : signals_ok 200 0 0 g0.
Proof. split; vm_compute; [reflexivity|intros H; by destruct H|reflexivity]. Qed.

Lemma same_level : levels_apart (fun _ k => k).
Proof. intros l k t. by split_and!. Qed.
End SignalExample.

Lemma signals_conserved_witness :
  signals_ok 200 6 6 (take_signals 200 (upd_thread 200 (set_do_post false) (signal_post 200 6 SignalExample.g0).2)).2.
Proof.
  apply (signals_conserved 200 SignalExample.g0 0 0 _ 6 6 SignalExample.g0_ok).
  apply rtc_l with ((signal_post 200 6 SignalExample.g0).2, Z.lor 0 6, 0).
  - apply step_send. vm_compute. discriminate.
  - apply rtc_once. pose proof (step_deliver 200 (signal_post 200 6 SignalExample.g0).2 6 0) as H.
    assert ((take_signals 200 (upd_thread 200 (set_do_post false) (signal_post 200 6 SignalExample.g0).2)).1 = 6) as E
      by (vm_compute; reflexivity).
    destruct (take_signals 200 (upd_thread 200 (set_do_post false) (signal_post 200 6 SignalExample.g0).2)) as [signals k'].
    simpl in E. rewrite E in H. exact H.
Defined.

Lemma signal_stranded_witness :
  let (needed, k') := change_mode (fun _ => 0) (fun _ k => k) (fun k => (signal_post 200 6 k).2) RTEMS_ASR RTEMS_ASR_MASK 900 SignalExample.g1 in
  signals_pending (asr k' 200) = 6 /\ needed = false.
Proof.
  assert (_Thread_Executing SignalExample.g1 = 200) as H1 by (vm_compute; reflexivity).
  assert (handler (asr SignalExample.g1 200) <> NULL) as H2 by (vm_compute; discriminate).
  assert (is_enabled (asr SignalExample.g1 200) = false) as H3 by (vm_compute; reflexivity).
  assert (signals_posted (asr SignalExample.g1 200) = 0) as H4 by (vm_compute; reflexivity).
  assert (signals_pending (asr SignalExample.g1 200) = 0) as H5 by (vm_compute; reflexivity).
  assert (Z.land RTEMS_ASR_MASK RTEMS_ASR_MASK <> 0) as H6 by discriminate.
  revert H1 H2 H3 H4 H5. generalize SignalExample.g1 as k. intros k H1 H2 H3 H4 H5.
  pose proof (signal_stranded 200 6 (fun _ => 0) (fun _ k => k) RTEMS_ASR RTEMS_ASR_MASK 900 k H1 H2 H3
    SignalExample.same_level H4 H6 eq_refl) as H. cbv zeta in H.
  destruct (change_mode _ _ _ _ _ _ k) as [needed k']. destruct H as (_ & A & _ & B). split; [exact A|exact (B H5)].
Defined.

Lemma task_mode_witness :
  let k1 := (change_mode (fun _ => 3) (fun _ k => k) Datatypes.id RTEMS_NO_PREEMPT RTEMS_ALL_MODE_MASKS 900 SignalExample.g1).2 in
  _Modes_Get_interrupt_level (ld32 (memory k1) 900) = 3.
Proof.
  assert (0 <= 3 < 16) as Hl by lia.
  generalize SignalExample.g1 as k. intros k.
  destruct (task_mode_roundtrip (fun _ => 3) (fun _ k => k) RTEMS_NO_PREEMPT RTEMS_ALL_MODE_MASKS 900 904 k
    SignalExample.same_level Hl) as (_ & _ & _ & H). exact H.
Defined.
