(* ===== verification/Extension.v ===== *)
(** * User and API extensions (score/src/userext.c, score/inline/userext.inl, score/src/apiext.c, sapi/src/extension.c)

    Sets of routines that are called when threads are created, started, restarted, switched
    to, begun, ended and deleted, and on a fatal error.  A set is named by the address of its
    node on [_User_extensions_List].  The routines are the parameters [call...]; they get
    what the source passes them, and are taken not to add or remove sets while a list is
    being walked. *)
From S2P Require Import Prelude Chain Watchdog Object Priority ApiTypes Heap Kernel Thread Workspace CoreMsg Rtems Partition.

Definition zero_callouts : User_extensions_Table :=
  {| thread_create := 0; thread_start := 0; thread_restart := 0; thread_delete := 0; thread_switch := 0; thread_begin := 0;
     thread_exitted := 0; fatal := 0 |}.
Definition Callouts (k : Kernel) (the_extension : Z) : User_extensions_Table := default zero_callouts (user_extensions k !! the_extension).

(** ** The sets (userext.inl) *)

Section Initialization.
Context (workspace : Z) (hfuel : nat) (fatal_extensions : Internal_errors_Information -> Kernel -> Kernel).

Definition sizeof_User_extensions_Control : Z := 40.

(** One control block for each of the initial sets. *)
Fixpoint add_initial_sets (initial_extensions : list User_extensions_Table) (k : Kernel) : outcome Kernel :=
  match initial_extensions with
  | [] => Done k
  | table :: rest =>
      match _Workspace_Allocate_or_fatal_error workspace hfuel fatal_extensions sizeof_User_extensions_Control k with
      | OutOfFuel => OutOfFuel
      | Fatal what k => Fatal what k
      | Done (extension, k) =>
          let k := set_user_extensions (<[extension := table]> (user_extensions k)) k in
          add_initial_sets rest (set_User_extensions_List (ListChain.append (_User_extensions_List k) extension) k)
      end
  end.

Definition _User_extensions_Handler_initialization (initial_extensions : option (list User_extensions_Table)) (k : Kernel) : outcome Kernel :=
  let k := set_User_extensions_List [] k in
  match initial_extensions with
  | None => Done k
  | Some tables => add_initial_sets tables k
  end.
End Initialization.

Definition _User_extensions_Add_set (the_extension : Z) (extension_table : User_extensions_Table) (k : Kernel) : Kernel :=
  let k := set_user_extensions (<[the_extension := extension_table]> (user_extensions k)) k in
  set_User_extensions_List (ListChain.append (_User_extensions_List k) the_extension) k.
Definition _User_extensions_Add_API_set (the_extension : Z) (k : Kernel) : Kernel :=
  set_User_extensions_List (ListChain.prepend (_User_extensions_List k) the_extension) k.
Definition _User_extensions_Remove_set (the_extension : Z) (k : Kernel) : Kernel :=
  set_User_extensions_List (ListChain.extract (_User_extensions_List k) the_extension) k.

(** ** Calling them (userext.c, userext.inl) *)

(** The loops: [field] selects the routine of a set, [call] calls it; a set without one is
    passed over. *)
Definition call_each (field : User_extensions_Table -> Z) (call : Z -> Kernel -> Kernel) (sets : list Z) (k : Kernel) : Kernel :=
  fold_left (fun k e => if negb (field (Callouts k e) =? NULL) then call (field (Callouts k e)) k else k) sets k.

Section Callouts.
Context (call_create : Z -> Z -> Z -> Kernel -> option (bool * Kernel)).
Context (call2 : Z -> Z -> Z -> Kernel -> Kernel) (call1 : Z -> Z -> Kernel -> Kernel).
Context (call_fatal : Z -> Internal_errors_Information -> Kernel -> Kernel).

(** The first routine that refuses the thread ends the loop.  [None]: a routine ran out of
    the fuel of its model. *)
Fixpoint create_each (the_thread : Z) (sets : list Z) (k : Kernel) : option (bool * Kernel) :=
  match sets with
  | [] => Some (true, k)
  | e :: sets =>
      if negb (thread_create (Callouts k e) =? NULL) then
        match call_create (thread_create (Callouts k e)) (_Thread_Executing k) the_thread k with
        | None => None
        | Some (false, k) => Some (false, k)
        | Some (true, k) => create_each the_thread sets k
        end
      else create_each the_thread sets k
  end.
Definition _User_extensions_Thread_create (the_thread : Z) (k : Kernel) : option (bool * Kernel) :=
  create_each the_thread (_User_extensions_List k) k.

(** Routines that are called with the executing thread and [the_thread]. *)
Definition with_executing (the_thread : Z) (r : Z) (k : Kernel) : Kernel := call2 r (_Thread_Executing k) the_thread k.
Definition _User_extensions_Thread_delete (the_thread : Z) (k : Kernel) : Kernel :=
  call_each thread_delete (with_executing the_thread) (rev (_User_extensions_List k)) k.
Definition _User_extensions_Thread_start (the_thread : Z) (k : Kernel) : Kernel :=
  call_each thread_start (with_executing the_thread) (_User_extensions_List k) k.
Definition _User_extensions_Thread_restart (the_thread : Z) (k : Kernel) : Kernel :=
  call_each thread_restart (with_executing the_thread) (_User_extensions_List k) k.
Definition _User_extensions_Thread_switch (executing heir : Z) (k : Kernel) : Kernel :=
  call_each thread_switch (fun r => call2 r executing heir) (_User_extensions_List k) k.
Definition _User_extensions_Thread_begin (executing : Z) (k : Kernel) : Kernel :=
  call_each thread_begin (fun r => call1 r executing) (_User_extensions_List k) k.
Definition _User_extensions_Thread_exitted (executing : Z) (k : Kernel) : Kernel :=
  call_each thread_exitted (fun r => call1 r executing) (rev (_User_extensions_List k)) k.
Definition _User_extensions_Fatal (what : Internal_errors_Information) (k : Kernel) : Kernel :=
  call_each fatal (fun r => call_fatal r what) (rev (_User_extensions_List k)) k.
End Callouts.

(** ** Extensions of the APIs (apiext.c) *)

Definition api_extension (k : Kernel) (e : Z) : API_extensions_Control := api_extensions (rtems k) !!! e.
Definition _API_extensions_Initialization : Kernel -> Kernel := upd_rtems (set_API_extensions_List []).
Definition _API_extensions_Add (the_extension : Z) : Kernel -> Kernel :=
  upd_rtems (fun r => set_API_extensions_List (ListChain.append (_API_extensions_List r) the_extension) r).

Definition run_each (field : API_extensions_Control -> Z) (call : Z -> Kernel -> Kernel) (k : Kernel) : Kernel :=
  fold_left (fun k e => if negb (field (api_extension k e) =? NULL) then call (field (api_extension k e)) k else k)
    (_API_extensions_List (rtems k)) k.

Section Hooks.
Context (call0 : Z -> Kernel -> Kernel) (call1 : Z -> Z -> Kernel -> Kernel).
Definition _API_extensions_Run_predriver : Kernel -> Kernel := run_each predriver_hook call0.
Definition _API_extensions_Run_postdriver : Kernel -> Kernel := run_each postdriver_hook call0.
Definition _API_extensions_Run_postswitch : Kernel -> Kernel :=
  run_each postswitch_hook (fun r k => call1 r (_Thread_Executing k) k).
End Hooks.

(** ** The directives (extension.c)

    The extension object at [e] has its set at [e + 16]. *)

Definition OBJECTS_RTEMS_EXTENSIONS : Z := 11.
Definition Extension (e : Z) : Z := e + 16.

Section Directives.
Context (switch : Z -> Z -> Kernel -> Kernel) (postswitch : Kernel -> Kernel).
Context (isrs : list (Kernel -> Kernel)) (fuel : nat) (_Objects_Local_node _Objects_Maximum_nodes name_argument : Z).

Notation finish := (enable_return switch postswitch isrs fuel).

Definition rtems_extension_create (name : Z) (extension_table : User_extensions_Table) (id : Z) (k : Kernel) : option (Z * Kernel) :=
  if negb (rtems_is_name_valid name) then Some (RTEMS_INVALID_NAME, k)
  else
    let k := _Thread_Disable_dispatch k in
    let '(the_extension, k) := object_allocate OBJECTS_RTEMS_EXTENSIONS k in
    if the_extension =? NULL then finish RTEMS_TOO_MANY k
    else
      let k := _User_extensions_Add_set (Extension the_extension) extension_table k in
      match object_open fuel name_argument OBJECTS_RTEMS_EXTENSIONS the_extension name k with
      | None => None
      | Some k => finish RTEMS_SUCCESSFUL (put_word id (object_id k OBJECTS_RTEMS_EXTENSIONS the_extension) k)
      end.

Definition rtems_extension_ident (name id : Z) (k : Kernel) : Z * Kernel :=
  object_ident switch postswitch isrs fuel _Objects_Local_node _Objects_Maximum_nodes name_argument
    OBJECTS_RTEMS_EXTENSIONS name OBJECTS_SEARCH_LOCAL_NODE id k.

Definition rtems_extension_delete (id : Z) (k : Kernel) : option (Z * Kernel) :=
  match object_get switch postswitch isrs fuel _Objects_Local_node _Objects_Maximum_nodes OBJECTS_RTEMS_EXTENSIONS id k with
  | None => None
  | Some (OBJECTS_ERROR, _, k) | Some (OBJECTS_REMOTE, _, k) => Some (RTEMS_INVALID_ID, k)
  | Some (OBJECTS_LOCAL, the_extension, k) =>
      let k := _User_extensions_Remove_set (Extension the_extension) k in
      let k := object_close OBJECTS_RTEMS_EXTENSIONS the_extension k in
      finish RTEMS_SUCCESSFUL (object_free OBJECTS_RTEMS_EXTENSIONS the_extension k)
  end.
End Directives.
