(* ===== verification/Init.v ===== *)
(** * Initialization of the managers (the [..._Manager_initialization] routines)

    Every class of objects gets its table, names and control blocks from the workspace; a
    workspace that is too small is a fatal error.  The sizes of the control blocks, and the
    registration of the routines for packets of other nodes, are parameters. *)
From S2P Require Import Prelude Chain Watchdog Object Priority ApiTypes Heap Kernel Thread Workspace CoreMsg Rtems Extension.

Definition RTEMS_MAXIMUM_NAME_LENGTH : Z := 4.

(** The kinds of packets (mppkt.h). *)
Inductive MP_packet_Classes : Type :=
| MP_PACKET_MPCI_INTERNAL
| MP_PACKET_TASKS
| MP_PACKET_MESSAGE_QUEUE
| MP_PACKET_SEMAPHORE
| MP_PACKET_PARTITION
| MP_PACKET_REGION
| MP_PACKET_EVENT
| MP_PACKET_SIGNAL.

Section Initialize.
Context (workspace : Z) (hfuel : nat) (fatal_extensions : Internal_errors_Information -> Kernel -> Kernel).
Context (_Objects_Local_node _Objects_Maximum_nodes : Z) (is_multiprocessing : bool).

(** The allocations that [_Objects_Initialize_information] makes: nothing more happens once
    one of them has failed. *)
Definition allocate_or_stop (size : Z) (o : outcome Kernel) : option (Z * outcome Kernel) :=
  match o with
  | Done k =>
      match _Workspace_Allocate_or_fatal_error workspace hfuel fatal_extensions size k with
      | Done (area, k) => Some (area, Done k)
      | Fatal what k => Some (NULL, Fatal what k)
      | OutOfFuel => None
      end
  | Fatal what k => Some (NULL, Fatal what k)
  | OutOfFuel => None
  end.

Definition initialize_class (c : Z) (supports_global : bool) (max size : Z) (is_string : bool) (maximum_name_length : Z)
    (is_thread : bool) (k : Kernel) : outcome Kernel :=
  match _Objects_Initialize_information allocate_or_stop _Objects_Local_node _Objects_Maximum_nodes is_multiprocessing
          c supports_global max size is_string maximum_name_length is_thread (objects_of k c) (Done k) with
  | Some (s, Done k) => Done (put_objects c s k)
  | Some (_, Fatal what k) => Fatal what k
  | Some (_, OutOfFuel) | None => OutOfFuel
  end.

(** An API class: the objects are not threads and have names of four characters. *)
Definition initialize_api_class (c : Z) (supports_global : bool) (max size : Z) : Kernel -> outcome Kernel :=
  initialize_class c supports_global max size false RTEMS_MAXIMUM_NAME_LENGTH false.

Definition and_then (o : outcome Kernel) (f : Kernel -> Kernel) : outcome Kernel :=
  match o with
  | Done k => Done (f k)
  | Fatal what k => Fatal what k
  | OutOfFuel => OutOfFuel
  end.

Section Managers.
Context (size : Z) (register_packet_processor : MP_packet_Classes -> Kernel -> Kernel).

Definition _Timer_Manager_initialization (maximum_timers : Z) : Kernel -> outcome Kernel :=
  initialize_api_class OBJECTS_RTEMS_TIMERS false maximum_timers size.
Definition _Dual_ported_memory_Manager_initialization (maximum_ports : Z) : Kernel -> outcome Kernel :=
  initialize_api_class OBJECTS_RTEMS_PORTS false maximum_ports size.
Definition _Rate_monotonic_Manager_initialization (maximum_periods : Z) : Kernel -> outcome Kernel :=
  initialize_api_class OBJECTS_RTEMS_PERIODS false maximum_periods size.
Definition _Extension_Manager_initialization (maximum_extensions : Z) : Kernel -> outcome Kernel :=
  initialize_api_class OBJECTS_RTEMS_EXTENSIONS false maximum_extensions size.
Definition _Region_Manager_initialization (maximum_regions : Z) (k : Kernel) : outcome Kernel :=
  and_then (initialize_api_class OBJECTS_RTEMS_REGIONS false maximum_regions size k) (register_packet_processor MP_PACKET_REGION).
Definition _Partition_Manager_initialization (maximum_partitions : Z) (k : Kernel) : outcome Kernel :=
  and_then (initialize_api_class OBJECTS_RTEMS_PARTITIONS true maximum_partitions size k) (register_packet_processor MP_PACKET_PARTITION).
Definition _Semaphore_Manager_initialization (maximum_semaphores : Z) (k : Kernel) : outcome Kernel :=
  and_then (initialize_api_class OBJECTS_RTEMS_SEMAPHORES true maximum_semaphores size k) (register_packet_processor MP_PACKET_SEMAPHORE).
Definition _Message_queue_Manager_initialization (maximum_message_queues : Z) (k : Kernel) : outcome Kernel :=
  and_then (initialize_api_class OBJECTS_RTEMS_MESSAGE_QUEUES true maximum_message_queues size k)
    (register_packet_processor MP_PACKET_MESSAGE_QUEUE).
Definition _Signal_Manager_initialization : Kernel -> Kernel := register_packet_processor MP_PACKET_SIGNAL.
End Managers.
End Initialize.
