(* ===== verification/WorkspaceSpec.v ===== *)
(** * What the workspace promises to the managers

    The abstract workspace is the collection of its used blocks: [U] those of others, [L] those
    of the client, each with the pointer it was given.  Allocation adds a block, freeing
    removes it in whatever order, and a workspace with the same used blocks is the same
    sequence of blocks, because free neighbours are always joined. *)
From S2P Require Import Prelude Chain Watchdog Object Priority Heap HeapProofs HeapOps HeapSpec Kernel Workspace.

(** ** The used blocks of a heap: address and size *)

Fixpoint taken (a : Z) (bs : list block) : list (Z * Z) :=
  match bs with
  | [] => []
  | (sz, u) :: bs => (if u then [(a, sz)] else []) ++ taken (a + sz) bs
  end.

Lemma taken_app a A B : taken a (A ++ B) = taken a A ++ taken (a + total A) B.
Proof.
  revert a. induction A as [|[sz u] A IH]; intros a; simpl; [by rewrite Z.add_0_r|].
  rewrite IH, <- app_assoc. do 2 f_equal. by rewrite Z.add_assoc.
Qed.

Lemma taken_split a bs b sz : (b, sz) ∈ taken a bs <-> exists A B, bs = A ++ (sz, true) :: B /\ b = a + total A.
Proof.
  split.
  - revert a. induction bs as [|[s u] bs IH]; intros a; simpl; [by intros H%elem_of_nil|].
    rewrite elem_of_app. intros [H|H].
    + destruct u; [|by apply elem_of_nil in H]. apply list_elem_of_singleton in H. injection H as -> ->.
      exists [], bs. split; [done|]. simpl. lia.
    + apply IH in H as (A & B & -> & ->). exists ((s, u) :: A), B. split; [done|]. simpl. lia.
  - intros (A & B & -> & ->). rewrite taken_app. simpl. set_solver.
Qed.

Lemma taken_above a bs b sz : Forall block_ok bs -> (b, sz) ∈ taken a bs -> a <= b.
Proof.
  intros HF (A & B & -> & ->)%taken_split. apply Forall_app in HF as [HA _].
  pose proof (total_nonneg _ HA). lia.
Qed.

Lemma taken_free_head a s bs b sz : Forall block_ok ((s, false) :: bs) -> (b, sz) ∈ taken a ((s, false) :: bs) -> a + s <= b.
Proof. intros [_ HF]%Forall_cons H. simpl in H. by eapply taken_above. Qed.

(** A used block right behind a free one is the first used block. *)
Lemma free_head_size a s1 r1 s2 r2 :
  Forall block_ok ((s1, false) :: r1) -> Forall block_ok ((s2, false) :: r2) ->
  coalesced ((s1, false) :: r1) -> total ((s1, false) :: r1) = total ((s2, false) :: r2) ->
  (forall e, e ∈ taken a ((s1, false) :: r1) -> e ∈ taken a ((s2, false) :: r2)) -> s2 <= s1.
Proof.
  intros F1 F2 C ET H. destruct r1 as [|[t []] r1].
  - apply Forall_cons in F2 as [_ F2]. pose proof (total_nonneg _ F2). simpl in ET. lia.
  - enough (a + s2 <= a + s1) by lia. eapply (taken_free_head _ _ _ _ t); [exact F2|]. apply H. simpl. set_solver.
  - simpl in C. by destruct C.
Qed.

(** The head of the second list is taken as soon as that of the first is. *)
Lemma taken_head a s1 r1 bs2 :
  Forall block_ok bs2 -> (forall e, e ∈ taken a ((s1, true) :: r1) -> e ∈ taken a bs2) ->
  exists r2, bs2 = (s1, true) :: r2.
Proof.
  intros F2 H. destruct (proj1 (taken_split a bs2 a s1)) as (A & B & -> & E); [apply H; simpl; set_solver|].
  destruct A as [|[s u] A]; [by eexists|]. apply Forall_app in F2 as [[[Hs _] HA]%Forall_cons _].
  pose proof (total_nonneg _ HA). simpl in *. lia.
Qed.

Lemma coalesced_cons b bs : coalesced (b :: bs) -> coalesced bs.
Proof. destruct b as [s u], bs as [|[s' u'] bs]; [done|]. by intros [_ ?]. Qed.

Lemma taken_determines bs1 : forall a bs2,
  Forall block_ok bs1 -> Forall block_ok bs2 -> coalesced bs1 -> coalesced bs2 -> total bs1 = total bs2 ->
  (forall e, e ∈ taken a bs1 <-> e ∈ taken a bs2) -> bs1 = bs2.
Proof.
  induction bs1 as [|[s1 u1] r1 IH]; intros a bs2 F1 F2 C1 C2 ET HU.
  { destruct bs2 as [|[s2 u2] r2]; [done|]. apply Forall_cons in F2 as [[Hs _] F2].
    pose proof (total_nonneg _ F2). simpl in *. lia. }
  assert (Hrest : forall r2 e, bs2 = (s1, u1) :: r2 -> e ∈ taken (a + s1) r1 <-> e ∈ taken (a + s1) r2).
  { intros r2 [b sz] ->. specialize (HU (b, sz)). apply Forall_cons in F1 as [[Hs _] F1], F2 as [_ F2].
    simpl in HU, Hs. destruct u1; [|exact HU]. rewrite !elem_of_app, !list_elem_of_singleton in HU.
    assert (N : forall r, Forall block_ok r -> (b, sz) ∈ taken (a + s1) r -> (b, sz) <> (a, s1)).
    { intros r Fr Hr [= -> ->]. apply taken_above in Hr; [lia|done]. }
    split; intros He; [destruct (proj1 HU (or_intror He)) as [E|?]|destruct (proj2 HU (or_intror He)) as [E|?]];
      try done; exfalso; [apply (N r1 F1 He E)|apply (N r2 F2 He E)]. }
  assert (exists r2, bs2 = (s1, u1) :: r2) as [r2 ->].
  { destruct u1; [by eapply taken_head; [|intros e; apply (HU e)]|].
    destruct bs2 as [|[s2 []] r2].
    - apply Forall_cons in F1 as [[Hs _] F1]. pose proof (total_nonneg _ F1). simpl in *. lia.
    - destruct (taken_head a s2 r2 _ F1 (fun e => proj2 (HU e))) as [? [=]].
    - assert (s2 = s1) as -> by (apply Z.le_antisymm;
        [apply (free_head_size a s1 r1 s2 r2)|apply (free_head_size a s2 r2 s1 r1)]; try done; intros e; apply (HU e)).
      by eexists. }
  f_equal. apply (IH (a + s1)); eauto using coalesced_cons; try (apply Forall_cons in F1, F2; by destruct F1, F2).
  simpl in ET. lia.
Qed.

Lemma taken_nodup a bs : Forall block_ok bs -> NoDup (taken a bs).
Proof.
  revert a. induction bs as [|[s []] bs IH]; intros a HF; simpl; [constructor| |];
    apply Forall_cons in HF as [[Hs _] HF]; [|by apply IH].
  constructor; [|by apply IH]. intros He%taken_above; [simpl in Hs; lia|done].
Qed.

Lemma taken_allocated t a bs A sz B : allocated t bs A sz B ->
  taken a (A ++ (sz, true) :: B) ≡ₚ (a + total A, sz) :: taken a bs.
Proof.
  intros [A1 s1 B1 Hle|A1 s1 B1 Hle]; rewrite !taken_app; simpl.
  - by rewrite <- Permutation_middle.
  - rewrite total_app. simpl. rewrite app_nil_r, Z.add_0_r, <- Permutation_middle.
    by replace (a + (total A1 + (s1 - t)) + t) with (a + total A1 + s1) by lia.
Qed.

Lemma total_allocated t bs A sz B : allocated t bs A sz B -> total (A ++ (sz, true) :: B) = total bs.
Proof. intros [A1 s1 B1 Hle|A1 s1 B1 Hle]; rewrite !total_app; simpl; lia. Qed.

Lemma neighbours_cases A sz B :
  (freed A sz B = A ++ (sz, false) :: B) \/
  (exists s1 B0, B = (s1, false) :: B0 /\ freed A sz B = A ++ (sz + s1, false) :: B0) \/
  (exists A0 s0, A = A0 ++ [(s0, false)] /\ freed A sz B = A0 ++ (s0 + sz, false) :: B) \/
  (exists A0 s0 s1 B0, A = A0 ++ [(s0, false)] /\ B = (s1, false) :: B0 /\
     freed A sz B = A0 ++ (s0 + (s1 + sz), false) :: B0).
Proof.
  unfold freed. destruct (rev A) as [|[s0 []] rA] eqn:E, B as [|[s1 []] B0]; try (left; reflexivity);
    try (right; left; eauto; fail);
    (assert (A = rev rA ++ [(s0, false)]) as EA by (rewrite <- (rev_involutive A), E; reflexivity));
    [right; right; left..|right; right; right]; eauto 10.
Qed.

Lemma taken_freed a A sz B : taken a (A ++ (sz, true) :: B) ≡ₚ (a + total A, sz) :: taken a (freed A sz B).
Proof.
  destruct (neighbours_cases A sz B) as [-> |[(s1 & B0 & -> & ->)|[(A0 & s0 & -> & ->)|(A0 & s0 & s1 & B0 & -> & -> & ->)]]];
    rewrite !taken_app; simpl; rewrite ?app_nil_r, <- Permutation_middle, ?total_app; simpl;
    rewrite ?Z.add_0_r, ?Z.add_assoc; try done;
    apply Permutation_skip, Permutation_app_head; match goal with |- taken ?x _ ≡ₚ taken ?y _ => by replace x with y by lia end.
Qed.

Lemma free_count a bs : Forall block_ok bs -> 16 * Z.of_nat (length (free_addrs a bs)) <= total bs.
Proof.
  intros HF. revert a. induction HF as [|[s u] bs [Hs _] _ IH]; intros a; simpl in *; [lia|].
  specialize (IH (a + s)). destruct u; simpl; lia.
Qed.

(** ** The client's view *)

Section Client.
Context (workspace : Z) (hfuel : nat) (start T : Z).

(** The words in front of the client's pointers say where its blocks are. *)
Definition points (m : mem) (e : Z * (Z * Z)) : Prop :=
  let '(p, (b, sz)) := e in b + 12 <= p <= b + sz /\ ld m (p - 4) = p - b - 8 /\ p mod 4 = 0.

Record ws (m : mem) (U : list (Z * Z)) (L : list (Z * (Z * Z))) : Prop := {
  ws_blocks : exists bs fl, heap_rep m workspace start CPU_HEAP_ALIGNMENT bs fl /\ total bs = T /\ taken start bs ≡ₚ L.*2 ++ U;
  ws_points : Forall (points m) L;
  ws_fuel : T < 16 * Z.of_nat hfuel
}.

(** The order in which the client's blocks are listed does not matter. *)
#[export] Instance ws_proper : Proper (eq ==> eq ==> (≡ₚ) ==> iff) ws.
Proof.
  intros m ? <- U ? <- L L' HL. split; intros [(bs & fl & HR & ET & HU) HP HF]; split; try done.
  - exists bs, fl. by rewrite <- HL.
  - by rewrite <- HL.
  - exists bs, fl. by rewrite HL.
  - by rewrite HL.
Qed.

Lemma ws_intro m bs fl : heap_rep m workspace start CPU_HEAP_ALIGNMENT bs fl -> total bs = T -> T < 16 * Z.of_nat hfuel ->
  ws m (taken start bs) [].
Proof. intros HR ET HT. split; [by exists bs, fl|constructor|done]. Qed.

(** The same used blocks are the same blocks. *)
Lemma ws_same m bs : Forall block_ok bs -> coalesced bs -> total bs = T -> ws m (taken start bs) [] ->
  exists fl, heap_rep m workspace start CPU_HEAP_ALIGNMENT bs fl.
Proof.
  intros F C ET [(bs' & fl & HR & ET' & HU) _ _]. exists fl. replace bs with bs'; [done|].
  apply (taken_determines bs' start); try done; try apply HR; [congruence|]. intros e. by rewrite HU.
Qed.

(** The client's words are in used blocks. *)
Lemma points_user m U L e bs : ws m U L -> e ∈ L -> taken start bs ≡ₚ L.*2 ++ U -> user_word start bs (e.1 - 4).
Proof.
  intros HW He HU. destruct e as [p [b sz]]. simpl.
  assert ((b, sz) ∈ taken start bs) as Hb.
  { rewrite HU. apply elem_of_app. left. apply list_elem_of_fmap. by exists (p, (b, sz)). }
  apply taken_split in Hb as (A & B & -> & ->). exists A, sz, B. split; [done|].
  pose proof (proj1 (Forall_forall _ _) (ws_points _ _ _ HW) _ He) as (Hp & _). lia.
Qed.

(** The words of the client. *)
Definition client_word (L : list (Z * (Z * Z))) (w : Z) : Prop := exists p b sz, (p, (b, sz)) ∈ L /\ p <= w < b + sz.

Lemma client_user m U L bs w : ws m U L -> taken start bs ≡ₚ L.*2 ++ U -> client_word L w -> user_word start bs w.
Proof.
  intros HW HU (p & b & sz & He & Hw). assert ((b, sz) ∈ taken start bs) as Hb.
  { rewrite HU. apply elem_of_app. left. apply list_elem_of_fmap. by exists (p, (b, sz)). }
  apply taken_split in Hb as (A & B & -> & ->). exists A, sz, B. split; [done|].
  pose proof (proj1 (Forall_forall _ _) (ws_points _ _ _ HW) _ He) as (Hp & _). lia.
Qed.

Lemma points_kept m m' e : ld m' (e.1 - 4) = ld m (e.1 - 4) -> points m e -> points m' e.
Proof. destruct e as [p [b sz]]. simpl. by intros ->. Qed.

Lemma ws_free_count m bs fl : heap_rep m workspace start CPU_HEAP_ALIGNMENT bs fl -> total bs = T -> T < 16 * Z.of_nat hfuel ->
  (length fl < hfuel)%nat.
Proof.
  intros HR ET HT. rewrite (hr_free _ _ _ _ _ _ HR). pose proof (free_count start _ (hr_ok _ _ _ _ _ _ HR)). lia.
Qed.

(** A request the workspace meets adds a block to the client's; one it cannot meet changes
    nothing. *)
Lemma ws_allocate m U L size : ws m U L -> 0 <= size -> size + 24 < two32 ->
  exists p m', _Heap_Allocate hfuel m workspace size = Some (p, m') /\
    (p = NULL /\ m' = m \/
     p <> NULL /\ exists b sz, ws m' U ((p, (b, sz)) :: L) /\ p mod CPU_HEAP_ALIGNMENT = 0 /\ p + size <= b + sz /\
       forall w, client_word L w -> ld m' w = ld m w).
Proof.
  intros HW H0 H1. pose proof HW as [(bs & fl & HR & ET & HU) HP HF].
  destruct (allocate_spec hfuel m workspace start CPU_HEAP_ALIGNMENT 3 bs fl size)
    as [(p & m' & A & sz & B & fl' & EA & Hp & HA & HR' & (O1 & O2 & O3 & O4) & Hm & Hw)|[EA _]];
    try done; [change (size + 2 * 8 + 8 < two32); lia|by eapply ws_free_count| |exists NULL, m; eauto].
  exists p, m'. split; [done|]. right. split; [done|]. exists (start + total A), sz.
  split; [|split_and!; [done|done|intros w Hc; apply Hw; by eapply client_user]]. split; [| |done].
  - exists (A ++ (sz, true) :: B), fl'. split_and!; [done|by rewrite (total_allocated _ _ _ _ _ HA)|].
    by rewrite (taken_allocated _ _ _ _ _ _ HA), HU.
  - constructor.
    + pose proof (hr_ok _ _ _ _ _ _ HR') as HO. apply Forall_app in HO as [HO _].
      pose proof (total_mod4 _ HO). pose proof (hr_align _ _ _ _ _ _ HR'). simpl. split_and!; try done; Z.div_mod_to_equations; lia.
    + apply Forall_forall. intros e He. eapply points_kept; [|by eapply Forall_forall in HP].
      apply Hw. by eapply points_user.
Qed.

(** The client may free its blocks in any order, and keeps what the others hold. *)
Lemma ws_free_words m U L p e L' : ws m U L -> L ≡ₚ (p, e) :: L' ->
  exists m', _Heap_Free m workspace p = (true, m') /\ ws m' U L' /\ forall w, client_word L' w -> ld m' w = ld m w.
Proof.
  intros HW HL. pose proof HW as [(bs & fl & HR & ET & HU) HP HF]. destruct e as [b sz].
  assert (HP' := HP). rewrite HL in HP'. apply Forall_cons in HP' as [(P1 & P2 & P3) HP'].
  assert ((b, sz) ∈ taken start bs) as Hb by (rewrite HU, HL; simpl; set_solver).
  assert (NoDup (taken start bs)) as HN by apply taken_nodup, HR.
  apply taken_split in Hb as (A & B & -> & ->).
  destruct (free_spec m workspace start CPU_HEAP_ALIGNMENT A sz B p 0) with (fl := fl)
    as (m' & fl' & EF & HR' & Hw); [split_and!; try done; lia|done|].
  exists m'. split; [done|].
  assert (taken start (freed A sz B) ≡ₚ L'.*2 ++ U) as HU'.
  { rewrite taken_freed, HL in HU. by apply Permutation_cons_inv in HU. }
  assert (forall q c s w, (q, (c, s)) ∈ L' -> q - 4 <= w < c + s -> ld m' w = ld m w) as HX.
  { intros q c s w Hq Hc'. apply Hw. assert ((c, s) ∈ taken start (A ++ (sz, false) :: B)) as Hc.
    { assert ((c, s) ∈ L'.*2 ++ U) as Hc by (apply elem_of_app; left; apply list_elem_of_fmap; by exists (q, (c, s))).
      rewrite <- HU' in Hc. rewrite taken_app. simpl. rewrite taken_app in HU, HN. simpl in HU, HN.
      rewrite <- Permutation_middle in HU. rewrite HL in HU. apply Permutation_cons_inv in HU. by rewrite HU, <- HU'. }
    apply taken_split in Hc as (A1 & B1 & EL & ->). exists A1, s, B1. split; [done|].
    destruct (proj1 (Forall_forall _ _) HP' _ Hq) as [Q _]. lia. }
  split; [|intros w (q & c & s & Hq & Hc); apply (HX q c s); [done|lia]].
  split; [|apply Forall_forall; intros [q [c s]] Hq|done].
  - exists (freed A sz B), fl'. by rewrite total_freed.
  - pose proof (proj1 (Forall_forall _ _) HP' _ Hq) as HQ. eapply points_kept; [|exact HQ].
    apply (HX q c s); [done|]. destruct HQ. simpl. lia.
Qed.

Lemma ws_free m U L p e L' : ws m U L -> L ≡ₚ (p, e) :: L' ->
  exists m', _Heap_Free m workspace p = (true, m') /\ ws m' U L'.
Proof. intros HW HL. destruct (ws_free_words _ _ _ _ _ _ HW HL) as (m' & E & HW' & _). by exists m'. Qed.

(** Two blocks that are taken do not overlap. *)
Lemma taken_apart bs b sz c s : Forall block_ok bs -> (b, sz) ∈ taken start bs -> (c, s) ∈ taken start bs ->
  (c, s) = (b, sz) \/ c + s <= b \/ b + sz <= c.
Proof.
  intros HF (A & B & -> & ->)%taken_split (A1 & B1 & E & ->)%taken_split.
  assert (forall (X Y Z : list (Z * bool)) x, Forall block_ok ((X ++ x :: Y) ++ Z) -> 0 <= total Y) as Hn.
  { intros X Y Z x H. apply total_nonneg. by rewrite !Forall_app, Forall_cons in H; destruct_and!. }
  apply List.app_eq_app in E as (l & [[-> E]|[-> E]]); destruct l as [|[x y] l]; simplify_eq/=;
    rewrite ?app_nil_r, ?total_app; simpl; try (left; reflexivity); right.
  - specialize (Hn _ _ _ _ HF). left. lia.
  - right. rewrite (app_comm_cons l), (app_assoc A) in HF. specialize (Hn _ _ _ _ HF). lia.
Qed.

(** Different blocks of the client have no word in common. *)
Lemma ws_apart m U p b sz L w : ws m U ((p, (b, sz)) :: L) -> client_word L w -> w < p \/ b + sz <= w.
Proof.
  intros [(bs & fl & HR & ET & HU) HP HF] (q & c & s & Hq & Hw). pose proof (hr_ok _ _ _ _ _ _ HR) as HO.
  pose proof (taken_nodup start bs HO) as HN. rewrite HU in HN. simpl in HU, HN. apply NoDup_cons in HN as [HN _].
  assert ((c, s) ∈ L.*2 ++ U) as Hc by (apply elem_of_app; left; apply list_elem_of_fmap; by exists (q, (c, s))).
  apply Forall_cons in HP as [(P1 & _) HP]. destruct (proj1 (Forall_forall _ _) HP _ Hq) as (Q1 & _).
  destruct (taken_apart bs b sz c s HO) as [[= -> ->]|H]; [rewrite HU; left|rewrite HU; by right|done|lia].
Qed.

Lemma ws_disjoint m U D L w : ws m U (D ++ L) -> client_word D w -> ~ client_word L w.
Proof.
  intros HW (p & b & sz & He & Hw) HL. apply list_elem_of_split in He as (D1 & D2 & ->).
  rewrite <- app_assoc in HW. simpl in HW. rewrite <- Permutation_middle in HW.
  destruct (ws_apart _ _ _ _ _ _ w HW) as [?|?]; [|lia..].
  destruct HL as (q & c & s & Hq & Hc). exists q, c, s. split; [set_solver|done].
Qed.

(** The client may write to its blocks. *)
Lemma ws_store m U L w v : ws m U L -> client_word L w -> ws (st m w v) U L.
Proof.
  intros HW HC. pose proof HW as [(bs & fl & HR & ET & HU) HP HF]. pose proof (client_user _ _ _ _ _ HW HU HC) as HX.
  destruct HC as (p & b & sz & He & Hw). split; [|apply Forall_forall; intros [q [c s]] Hq|done].
  - exists bs, fl. split; [|done]. destruct HX as (A & s & B & -> & Hb). by apply user_store_rep.
  - pose proof (proj1 (Forall_forall _ _) HP _ He) as (P1 & _). pose proof (proj1 (Forall_forall _ _) HP _ Hq) as HQ.
    eapply points_kept; [|exact HQ]. apply ld_st_ne. destruct HQ as (Q1 & _).
    assert (forall e x, (x, e) ∈ L -> e ∈ taken start bs) as Hin.
    { intros e x Hx. rewrite HU. apply elem_of_app. left. apply list_elem_of_fmap. by exists (x, e). }
    destruct (taken_apart bs b sz c s (hr_ok _ _ _ _ _ _ HR) (Hin _ _ He) (Hin _ _ Hq)) as [[= -> ->]|H]; [|simpl; lia].
    assert (q = p) as ->; [|simpl; lia]. pose proof (taken_nodup start bs (hr_ok _ _ _ _ _ _ HR)) as HN. rewrite HU in HN.
    apply NoDup_app in HN as (HN & _ & _). apply list_elem_of_split in He as (l1 & l2 & ->).
    rewrite fmap_app, fmap_cons in HN. simpl in HN. apply NoDup_app in HN as (_ & N1 & N2). apply NoDup_cons in N2 as [N2 _].
    apply elem_of_app in Hq as [Hq|Hq]; [|apply elem_of_cons in Hq as [[= ->]|Hq]; [done|]]; exfalso.
    + apply (N1 (b, sz)); [apply list_elem_of_fmap; by exists (q, (b, sz))|left].
    + apply N2, list_elem_of_fmap. by exists (q, (b, sz)).
Qed.

(** Clearing a block, or a part of it. *)
Lemma ws_zero n : forall m U L p b sz a, ws m U L -> (p, (b, sz)) ∈ L -> p <= a -> a + 4 * Z.of_nat n <= b + sz ->
  ws (zero_words n a m) U L.
Proof.
  induction n as [|n IH]; intros m U L p b sz a HW He H1 H2; [done|]. simpl. apply (IH _ _ _ p b sz); [|done|lia|lia].
  apply ws_store; [done|]. exists p, b, sz. split; [done|lia].
Qed.
End Client.

(** What clearing leaves in memory. *)
Lemma ld_zero_words_out n : forall a m w, w < a \/ a + 4 * Z.of_nat n <= w -> ld (zero_words n a m) w = ld m w.
Proof.
  induction n as [|n IH]; intros a m w H; simpl; [done|]. rewrite IH by lia. apply ld_st_ne. lia.
Qed.

Lemma ld_zero_words_in n : forall a m (i : nat), (i < n)%nat -> ld (zero_words n a m) (a + 4 * Z.of_nat i) = 0.
Proof.
  induction n as [|n IH]; intros a m i H; simpl; [lia|]. destruct i as [|i].
  - rewrite ld_zero_words_out by lia. replace (a + 4 * Z.of_nat 0) with a by lia. apply ld_st_eq.
  - replace (a + 4 * Z.of_nat (S i)) with (a + 4 + 4 * Z.of_nat i) by lia. apply IH. lia.
Qed.
