(* ===== verification/ThreadLife.v ===== *)
(** * The life of a thread (score/src/thread.c, score/inline/stack.inl)

    Creation, restart and deletion, the start of the system and the code in which every
    thread begins.  The stack hooks of the processor table are parameters: [None] where the
    table has none. *)
From S2P Require Import Prelude Chain Watchdog Object Priority ApiTypes Heap Kernel Thread Threadq Workspace CoreMsg Rtems Extension Init.

(** ** Stacks (stack.inl; the sizes are those of the SPARC port) *)

Definition STACK_MINIMUM_SIZE : Z := 2560.
Definition CPU_STACK_ALIGNMENT : Z := 16.
Definition CONTEXT_FP_SIZE : Z := 136.
Definition sizeof_Chain_Control : Z := 12.
Definition _Stack_Is_enough (size : Z) : bool := STACK_MINIMUM_SIZE <=? size.
Definition _Stack_Adjust_size (size : Z) : Z := size +w CPU_STACK_ALIGNMENT.

(** Field updates of the start information. *)
Definition set_start_stack (v : Z) (s : Thread_Start_information) : Thread_Start_information :=
  {| entry_point := entry_point s; prototype := prototype s; pointer_argument := pointer_argument s;
     numeric_argument := numeric_argument s; start_is_preemptible := start_is_preemptible s;
     start_budget_algorithm := start_budget_algorithm s; start_budget_callout := start_budget_callout s;
     isr_level := isr_level s; initial_priority := initial_priority s; core_allocated_stack := core_allocated_stack s;
     Initial_stack_size := Initial_stack_size s; Initial_stack_area := Initial_stack_area s;
     start_fp_context := start_fp_context s; start_stack := v |}.
Definition set_core_allocated (v : bool) (s : Thread_Start_information) : Thread_Start_information :=
  {| entry_point := entry_point s; prototype := prototype s; pointer_argument := pointer_argument s;
     numeric_argument := numeric_argument s; start_is_preemptible := start_is_preemptible s;
     start_budget_algorithm := start_budget_algorithm s; start_budget_callout := start_budget_callout s;
     isr_level := isr_level s; initial_priority := initial_priority s; core_allocated_stack := v;
     Initial_stack_size := Initial_stack_size s; Initial_stack_area := Initial_stack_area s;
     start_fp_context := start_fp_context s; start_stack := start_stack s |}.
Definition _Stack_Initialize (starting_address size : Z) (s : Thread_Start_information) : Thread_Start_information :=
  {| entry_point := entry_point s; prototype := prototype s; pointer_argument := pointer_argument s;
     numeric_argument := numeric_argument s; start_is_preemptible := start_is_preemptible s;
     start_budget_algorithm := start_budget_algorithm s; start_budget_callout := start_budget_callout s;
     isr_level := isr_level s; initial_priority := initial_priority s; core_allocated_stack := core_allocated_stack s;
     Initial_stack_size := size; Initial_stack_area := starting_address;
     start_fp_context := start_fp_context s; start_stack := start_stack s |}.
Definition set_start_fp_context (v : Z) (s : Thread_Start_information) : Thread_Start_information :=
  {| entry_point := entry_point s; prototype := prototype s; pointer_argument := pointer_argument s;
     numeric_argument := numeric_argument s; start_is_preemptible := start_is_preemptible s;
     start_budget_algorithm := start_budget_algorithm s; start_budget_callout := start_budget_callout s;
     isr_level := isr_level s; initial_priority := initial_priority s; core_allocated_stack := core_allocated_stack s;
     Initial_stack_size := Initial_stack_size s; Initial_stack_area := Initial_stack_area s;
     start_fp_context := v; start_stack := start_stack s |}.
Definition set_start_modes (preemptible : bool) (algorithm : Thread_CPU_budget_algorithms) (callout level priority : Z)
    (s : Thread_Start_information) : Thread_Start_information :=
  {| entry_point := entry_point s; prototype := prototype s; pointer_argument := pointer_argument s;
     numeric_argument := numeric_argument s; start_is_preemptible := preemptible;
     start_budget_algorithm := algorithm; start_budget_callout := callout;
     isr_level := level; initial_priority := priority; core_allocated_stack := core_allocated_stack s;
     Initial_stack_size := Initial_stack_size s; Initial_stack_area := Initial_stack_area s;
     start_fp_context := start_fp_context s; start_stack := start_stack s |}.
Definition upd_start (the_thread : Z) (f : Thread_Start_information -> Thread_Start_information) : Kernel -> Kernel :=
  upd_thread the_thread (fun c => set_Start (f (Start c)) c).

Section Life.
Context (workspace : Z) (hfuel : nat).
Context (stack_allocate_hook : option (Z -> Kernel -> Z * Kernel)) (stack_free_hook : option (Z -> Kernel -> Kernel)).

(** ** Creation *)

(** The size of the stack, 0 if there is none. *)
Definition _Thread_Stack_Allocate (the_thread stack_size : Z) (k : Kernel) : option (Z * Kernel) :=
  let stack_size := if negb (_Stack_Is_enough stack_size) then STACK_MINIMUM_SIZE else stack_size in
  let r :=
    match stack_allocate_hook with
    | Some hook => let '(stack_addr, k) := hook stack_size k in Some (stack_addr, stack_size, k)
    | None =>
        let stack_size := _Stack_Adjust_size stack_size in
        match _Workspace_Allocate workspace hfuel stack_size k with
        | None => None
        | Some (stack_addr, k) => Some (stack_addr, stack_size, k)
        end
    end in
  match r with
  | None => None
  | Some (stack_addr, stack_size, k) =>
      let stack_size := if stack_addr =? 0 then 0 else stack_size in
      Some (stack_size, upd_start the_thread (set_start_stack stack_addr) k)
  end.

Definition free_block (block : Z) (k : Kernel) : Kernel := (_Workspace_Free workspace block k).2.

Definition _Thread_Stack_Free (the_thread : Z) (k : Kernel) : Kernel :=
  if negb (core_allocated_stack (Start (tcb k the_thread))) then k
  else
    match stack_free_hook with
    | Some hook => hook (Initial_stack_area (Start (tcb k the_thread))) k
    | None => free_block (Initial_stack_area (Start (tcb k the_thread))) k
    end.

(** The stack of a new thread: [false] if it cannot be allocated. *)
Definition initialize_stack (the_thread stack_area stack_size : Z) (k : Kernel) : option (bool * Kernel) :=
  if stack_area =? NULL then
    let actual_stack_size := if negb (_Stack_Is_enough stack_size) then STACK_MINIMUM_SIZE else stack_size in
    match _Thread_Stack_Allocate the_thread actual_stack_size k with
    | None => None
    | Some (actual_stack_size, k) =>
        if actual_stack_size =? 0 then Some (false, k)
        else
          let stack := start_stack (Start (tcb k the_thread)) in
          let k := upd_start the_thread (set_core_allocated true) k in
          Some (true, upd_start the_thread (_Stack_Initialize stack actual_stack_size) k)
    end
  else
    let k := upd_start the_thread (set_core_allocated false) k in
    Some (true, upd_start the_thread (_Stack_Initialize stack_area stack_size) k).

(** A block of the workspace if one is [wanted], [NULL] otherwise; the flag is [false] if
    there is no room. *)
Definition allocate_if (wanted : bool) (size : Z) (k : Kernel) : option (bool * Z * Kernel) :=
  if wanted then
    match _Workspace_Allocate workspace hfuel size k with
    | None => None
    | Some (area, k) => Some (negb (area =? 0), area, k)
    end
  else Some (true, NULL, k).

Definition free_if (area : Z) (k : Kernel) : Kernel := if negb (area =? NULL) then free_block area k else k.

(** The general initialization of the control block. *)
Definition initialize_control (the_thread priority : Z) (preemptible : bool) (algorithm : Thread_CPU_budget_algorithms)
    (callout level : Z) (k : Kernel) : Kernel :=
  let k := upd_start the_thread (set_start_modes preemptible algorithm callout level priority) k in
  let k := upd_thread the_thread (fun c =>
    set_ticks_executed 0 (set_real_priority priority (set_resource_count 0 (set_current_state STATES_DORMANT c)))) k in
  _Thread_Set_priority the_thread priority k.

(** [create_extensions] is [_User_extensions_Thread_create]; [information] is the class of
    the object. *)
Definition _Thread_Initialize (create_extensions : Z -> Kernel -> option (bool * Kernel)) (fuel : nat) (name_argument : Z)
    (information the_thread stack_area stack_size : Z) (is_fp : bool) (priority : Z) (preemptible : bool)
    (algorithm : Thread_CPU_budget_algorithms) (callout level name : Z) (k : Kernel) : option (bool * Kernel) :=
  match initialize_stack the_thread stack_area stack_size k with
  | None => None
  | Some (false, k) => Some (false, k)
  | Some (true, k) =>
      match allocate_if is_fp CONTEXT_FP_SIZE k with
      | None => None
      | Some (false, _, k) => Some (false, _Thread_Stack_Free the_thread k)
      | Some (true, fp_area, k) =>
          let k := upd_thread the_thread (set_fp_context fp_area) k in
          let k := upd_start the_thread (set_start_fp_context fp_area) k in
          match allocate_if (negb (_Thread_Maximum_extensions k =? 0)) ((_Thread_Maximum_extensions k +w 1) *w sizeof_pointer) k with
          | None => None
          | Some (false, _, k) => Some (false, _Thread_Stack_Free the_thread (free_if fp_area k))
          | Some (true, extensions_area, k) =>
              let k := upd_thread the_thread (set_extensions extensions_area) k in
              let k := initialize_control the_thread priority preemptible algorithm callout level k in
              match object_open fuel name_argument information the_thread name k with
              | None => None
              | Some k =>
                  match create_extensions the_thread k with
                  | None => None
                  | Some (false, k) => Some (false, _Thread_Stack_Free the_thread (free_if fp_area (free_if extensions_area k)))
                  | Some (true, k) => Some (true, k)
                  end
              end
          end
      end
  end.

(** ** Restart and deletion

    [run_callout] is the routine that extracts a proxy of another node. *)

(** The thread is taken off the queue it waits on, or its timer is stopped. *)
Definition stop_waiting (run_callout : Z -> Z -> Kernel -> Kernel) (the_thread : Z) (k : Kernel) : Kernel :=
  let '(extracted, k) := _Thread_queue_Extract_with_proxy run_callout the_thread k in
  if negb extracted then
    if _Watchdog_Is_active (watchdogs k) (Timer the_thread)
    then wd_mod (fun w => (_Watchdog_Remove (Timer the_thread) w).2) k else k
  else k.

(** [restart_self] is the context switch to the beginning of the executing thread. *)
Definition _Thread_Restart (run_callout : Z -> Z -> Kernel -> Kernel) (restarted : Z -> Kernel -> Kernel)
    (restart_self : Kernel -> Kernel) (the_thread pointer numeric : Z) (k : Kernel) : bool * Kernel :=
  if negb (_States_Is_dormant (current_state (tcb k the_thread))) then
    let k := _Thread_Set_transient the_thread k in
    let k := upd_thread the_thread (fun c =>
      set_budget_callout (start_budget_callout (Start c)) (set_budget_algorithm (start_budget_algorithm (Start c))
        (set_is_preemptible (start_is_preemptible (Start c)) (set_resource_count 0 c)))) k in
    let k := upd_start the_thread (fun s => set_numeric_argument numeric (set_pointer_argument pointer s)) k in
    let k := stop_waiting run_callout the_thread k in
    let k :=
      if negb (current_priority (tcb k the_thread) =? initial_priority (Start (tcb k the_thread))) then
        let k := upd_thread the_thread (fun c => set_real_priority (initial_priority (Start c)) c) k in
        _Thread_Set_priority the_thread (initial_priority (Start (tcb k the_thread))) k
      else k in
    let k := _Thread_Load_environment the_thread k in
    let k := _Thread_Ready the_thread k in
    let k := restarted the_thread k in
    (true, if _Thread_Is_executing k the_thread then restart_self k else k)
  else (false, k).

(** [deleted] is [_User_extensions_Thread_delete]. *)
Definition _Thread_Close (run_callout : Z -> Z -> Kernel -> Kernel) (deleted : Z -> Kernel -> Kernel)
    (information the_thread : Z) (k : Kernel) : Kernel :=
  let k := object_close information the_thread k in
  let k := _Thread_Set_state the_thread STATES_TRANSIENT k in
  let k := stop_waiting run_callout the_thread k in
  let k := deleted the_thread k in
  let k := if _Thread_Is_allocated_fp k the_thread then _Thread_Deallocate_fp k else k in
  let k := upd_thread the_thread (set_fp_context NULL) k in
  let k := free_if (start_fp_context (Start (tcb k the_thread))) k in
  let k := _Thread_Stack_Free the_thread k in
  let k := free_if (extensions (tcb k the_thread)) k in
  let k := upd_start the_thread (set_start_stack NULL) k in
  upd_thread the_thread (set_extensions NULL) k.

(** ** The start of the system *)

Definition OBJECTS_NO_CLASS : Z := 0.
Definition OBJECTS_INTERNAL_THREADS : Z := 1.

Section Handler.
Context (fatal_extensions : Internal_errors_Information -> Kernel -> Kernel).
(** [mp_initialize] sets up the proxies of other nodes; [sizeof_Thread_Control] is the size
    of a control block. *)
Context (_Objects_Local_node _Objects_Maximum_nodes : Z) (is_multiprocessing : bool) (sizeof_Thread_Control : Z).
Context (mp_initialize : Kernel -> Kernel).

Definition _Thread_Handler_initialization (ticks_per_timeslice maximum_extensions : Z) (k : Kernel) : outcome Kernel :=
  if negb (Bool.eqb (bool_decide (is_Some stack_allocate_hook)) (bool_decide (is_Some stack_free_hook)))
  then _Internal_error_Occurred fatal_extensions INTERNAL_ERROR_CORE true INTERNAL_ERROR_BAD_STACK_HOOK k
  else
    let k := set_necessary false k in
    let k := set_allocated_fp NULL (set_heir NULL (set_executing NULL k)) in
    let k := set_post_task_switch_extension 0 k in
    let k := set_maximum_extensions maximum_extensions k in
    let k := set_ticks_per_timeslice ticks_per_timeslice k in
    match _Workspace_Allocate_or_fatal_error workspace hfuel fatal_extensions ((PRIORITY_MAXIMUM + 1) * sizeof_Chain_Control) k with
    | OutOfFuel => OutOfFuel
    | Fatal what k => Fatal what k
    | Done (_, k) =>
        let k := mp_initialize (set_ready_chain ∅ k) in
        initialize_class workspace hfuel fatal_extensions _Objects_Local_node _Objects_Maximum_nodes is_multiprocessing
          OBJECTS_INTERNAL_THREADS false (if is_multiprocessing then 2 else 1) sizeof_Thread_Control true 8 true k
    end.
End Handler.

(** [idle] is the entry point, [idle_task_stack_size] the size from the processor table. *)
Definition _Thread_Create_idle (create_extensions : Z -> Kernel -> option (bool * Kernel)) (started : Z -> Kernel -> Kernel)
    (fuel : nat) (name_argument idle idle_task_stack_size name : Z) (k : Kernel) : option Kernel :=
  let '(the_idle, k) := object_allocate OBJECTS_INTERNAL_THREADS k in
  let k := set_idle the_idle k in
  let stack_size := if idle_task_stack_size <? STACK_MINIMUM_SIZE then STACK_MINIMUM_SIZE else idle_task_stack_size in
  match _Thread_Initialize create_extensions fuel name_argument OBJECTS_INTERNAL_THREADS the_idle NULL stack_size false
          PRIORITY_MAXIMUM true THREAD_CPU_BUDGET_ALGORITHM_NONE NULL 0 name k with
  | None => None
  | Some (_, k) =>
      let k := set_heir the_idle (set_executing the_idle k) in
      Some (_Thread_Start started the_idle THREAD_START_NUMERIC idle NULL 0 k).2
  end.

(** Up to the context switch to the heir. *)
Definition _Thread_Start_multitasking (system_up : Kernel -> Kernel) (k : Kernel) : Kernel :=
  let k := system_up k in
  let k := set_necessary false k in
  let k := set_executing (_Thread_Heir k) k in
  if negb (fp_context (tcb k (_Thread_Heir k)) =? NULL) then _Context_Restore_fp (fp_context (tcb k (_Thread_Heir k))) k else k.

(** What a thread executes: [run_entry] calls its entry point with the arguments of its
    prototype, in the given order. *)
Definition start_arguments (s : Thread_Start_information) : list Z :=
  match prototype s with
  | THREAD_START_NUMERIC => [numeric_argument s]
  | THREAD_START_POINTER => [pointer_argument s]
  | THREAD_START_BOTH_POINTER_FIRST => [pointer_argument s; numeric_argument s]
  | THREAD_START_BOTH_NUMERIC_FIRST => [numeric_argument s; pointer_argument s]
  end.

Definition INTERNAL_ERROR_THREAD_EXITTED : Z := 6.

Definition _Thread_Handler {A} (set_level : Z -> Kernel -> Kernel) (begun exitted : Z -> Kernel -> Kernel)
    (enable_dispatch : Kernel -> option Kernel) (run_entry : Z -> list Z -> Kernel -> Kernel)
    (fatal_extensions : Internal_errors_Information -> Kernel -> Kernel) (k : Kernel) : outcome A :=
  let executing := _Thread_Executing k in
  let k := set_level (isr_level (Start (tcb k executing))) k in
  let k := begun executing k in
  match enable_dispatch k with
  | None => OutOfFuel
  | Some k =>
      let s := Start (tcb k executing) in
      let k := run_entry (entry_point s) (start_arguments s) k in
      let k := exitted executing k in
      _Internal_error_Occurred fatal_extensions INTERNAL_ERROR_CORE true INTERNAL_ERROR_THREAD_EXITTED k
  end.
End Life.
