(* ===== verification/ThreadLifeSpec.v ===== *)
(** * What the creation and the deletion of a thread do to the workspace

    A thread holds up to four blocks of the workspace: its stack, its floating point context,
    its extensions area and what the create extensions take for it.  The extensions are known
    by their contract only ([BookKeeping]).  The creation that fails gives back what it took,
    and a thread that is closed leaves the workspace as it was before its creation. *)
From S2P Require Import Prelude Chain Watchdog Object Priority ApiTypes Heap HeapProofs HeapOps HeapSpec Kernel Thread ThreadProofs Threadq.
From S2P Require Import Workspace WorkspaceSpec CoreMsg Rtems Extension Init ThreadLife.

Notation area := _Workspace_Area.
Abbreviation blocks := (list (Z * (Z * Z))).

(** The block behind a pointer that may be [NULL]. *)
Definition block_of (p : Z) (L : blocks) : Prop := (p = NULL /\ L = []) \/ (p <> NULL /\ exists e, L = [(p, e)]).

(** The stack of a thread, if it is from the workspace. *)
Definition stack_of (s : Thread_Start_information) (L : blocks) : Prop :=
  if core_allocated_stack s then exists e, L = [(Initial_stack_area s, e)] else L = [].

(** What the bookkeeping of a thread relies on. *)
Definition books (c : Thread_Control) : Thread_Start_information * Z * Z := (Start c, extensions c, current_state c).

Lemma books_eq c c' : books c' = books c -> Start c' = Start c /\ extensions c' = extensions c /\ current_state c' = current_state c.
Proof. by intros [= -> -> ->]. Qed.

Section Books.
Context (workspace : Z) (hfuel : nat) (start T : Z).
Notation ws := (ws workspace hfuel start T).

(** ** The contract of the create and delete extensions *)

Class BookKeeping (create : Z -> Kernel -> option (bool * Kernel)) (deleted : Z -> Kernel -> Kernel)
    (own : Thread_Control -> blocks -> Prop) : Prop := {
  bk_create : forall t k U L, ws (area k) U L -> exists ok k', create t k = Some (ok, k') /\
    books (tcb k' t) = books (tcb k t) /\
    (if ok then exists La, own (tcb k' t) La /\ ws (area k') U (La ++ L) else ws (area k') U L);
  bk_delete : forall t k U La L, ws (area k) U (La ++ L) -> own (tcb k t) La ->
    books (tcb (deleted t k) t) = books (tcb k t) /\ ws (area (deleted t k)) U L;
  bk_own : forall c c' La, own c La -> API_Extensions_RTEMS c' = API_Extensions_RTEMS c -> own c' La
}.

Lemma ws_perm m U L L' : ws m U L -> L ≡ₚ L' -> ws m U L'.
Proof. intros [(bs & fl & HR & ET & HU) HP HF] E. split; [|by rewrite <- E|done]. exists bs, fl. by rewrite <- E. Qed.

(** ** Allocating and freeing *)

Lemma free_block_spec p e k U L : ws (area k) U ((p, e) :: L) ->
  exists m, free_block workspace p k = set_workspace m k /\ ws m U L.
Proof.
  intros HW. destruct (ws_free _ _ _ _ _ _ _ p e L HW) as (m & EF & HW'); [done|]. exists m.
  unfold free_block, _Workspace_Free. by rewrite EF.
Qed.

Lemma free_if_spec p Lp k U L : ws (area k) U (Lp ++ L) -> block_of p Lp ->
  exists m, free_if workspace p k = set_workspace m k /\ ws m U L.
Proof.
  intros HW [[-> ->]|[Hp [e ->]]]; unfold free_if.
  - exists (area k). simpl. split; [by destruct k|done].
  - rewrite (proj2 (Z.eqb_neq p NULL) Hp). by eapply free_block_spec.
Qed.

Lemma stack_free_spec t Ls k U L : ws (area k) U (Ls ++ L) -> stack_of (Start (tcb k t)) Ls ->
  exists m, _Thread_Stack_Free workspace None t k = set_workspace m k /\ ws m U L.
Proof.
  intros HW HS. unfold _Thread_Stack_Free, stack_of in *.
  destruct (core_allocated_stack _); simpl; [|subst Ls; exists (area k); split; [by destruct k|done]].
  destruct HS as [e ->]. by eapply free_block_spec.
Qed.

Lemma allocate_if_spec wanted size k U L : ws (area k) U L -> 0 <= size -> size + 24 < two32 ->
  exists ok p m, allocate_if workspace hfuel wanted size k = Some (ok, p, set_workspace m k) /\
    (if ok then exists Lp, block_of p Lp /\ ws m U (Lp ++ L) else ws m U L).
Proof.
  intros HW H0 H1. unfold allocate_if, _Workspace_Allocate. destruct wanted.
  - destruct (ws_allocate _ _ _ _ _ _ _ size HW H0 H1) as (p & m & -> & [[-> ->]|(Hp & b & sz & HW' & _)]).
    + exists false, 0, (area k). done.
    + exists true, p, m. rewrite (proj2 (Z.eqb_neq p 0) Hp). split; [done|].
      exists [(p, (b, sz))]. split; [right; eauto|done].
  - exists true, NULL, (area k). split; [by destruct k|]. exists []. split; [by left|done].
Qed.

(** The size that [_Thread_Stack_Allocate] asks the workspace for. *)
Definition stack_request (size : Z) : Z := _Stack_Adjust_size (Z.max STACK_MINIMUM_SIZE size).

Lemma tcb_upd_self t f k : tcb (upd_thread t f k) t = f (tcb k t).
Proof. by rewrite tcb_upd, decide_True. Qed.

Lemma enough_max size : (if negb (_Stack_Is_enough size) then STACK_MINIMUM_SIZE else size) = Z.max STACK_MINIMUM_SIZE size.
Proof. unfold _Stack_Is_enough. destruct (Z.leb_spec STACK_MINIMUM_SIZE size); simpl; lia. Qed.

Lemma initialize_stack_spec t stack_area size k U L : ws (area k) U L -> (stack_area = NULL -> 0 <= size /\ size + 40 < two32) ->
  exists ok k', initialize_stack workspace hfuel None t stack_area size k = Some (ok, k') /\
    information_table k' = information_table k /\ _Thread_Maximum_extensions k' = _Thread_Maximum_extensions k /\
    (if ok then exists Ls, stack_of (Start (tcb k' t)) Ls /\ ws (area k') U (Ls ++ L) /\
       (stack_area = NULL -> core_allocated_stack (Start (tcb k' t)) = true /\
          Initial_stack_size (Start (tcb k' t)) = stack_request size)
     else ws (area k') U L).
Proof.
  intros HW HZ. unfold initialize_stack. destruct (Z.eqb_spec stack_area NULL) as [E|E]; [destruct (HZ E) as [H0 H1]|clear HZ].
  - rewrite enough_max. unfold _Thread_Stack_Allocate. rewrite enough_max, Z.max_assoc, Z.max_id. cbn zeta.
    fold (stack_request size).
    assert (stack_request size = Z.max STACK_MINIMUM_SIZE size + 16) as ER.
    { apply wrap32_small. unfold u32, STACK_MINIMUM_SIZE, CPU_STACK_ALIGNMENT, two32 in *. lia. }
    unfold _Workspace_Allocate.
    destruct (ws_allocate _ _ _ _ _ _ _ (stack_request size) HW) as (p & m & -> & HP);
      [rewrite ER; unfold STACK_MINIMUM_SIZE; lia|rewrite ER; unfold STACK_MINIMUM_SIZE, two32 in *; lia|].
    destruct HP as [[-> ->]|(Hp & b & sz & HW' & _)].
    + exists false. simpl. eexists. split; [reflexivity|done].
    + rewrite (proj2 (Z.eqb_neq p 0) Hp).
      assert (stack_request size =? 0 = false) as -> by (rewrite ER; unfold STACK_MINIMUM_SIZE; apply Z.eqb_neq; lia).
      eexists true, _. split; [reflexivity|]. unfold upd_start. rewrite !tcb_upd_self. split; [done|]. split; [done|].
      exists [(p, (b, sz))]. split; [|done]. by exists (b, sz).
  - eexists true, _. split; [reflexivity|]. unfold upd_start. rewrite !tcb_upd_self. split; [done|]. split; [done|].
    exists []. split; [done|]. split; [exact HW|]. by intros ->.
Qed.

(** ** The whole creation *)

Section Create.
Context (create : Z -> Kernel -> option (bool * Kernel)) (deleted : Z -> Kernel -> Kernel) (own : Thread_Control -> blocks -> Prop).
Context {HB : BookKeeping create deleted own}.
Context (fuel : nat) (name_argument information t stack_area stack_size : Z) (is_fp : bool) (priority : Z) (preemptible : bool)
  (algorithm : Thread_CPU_budget_algorithms) (callout level name : Z).

(** A new thread: which blocks it holds, and how it starts. *)
Record created (k : Kernel) (U : list (Z * Z)) (Ls Lf Le La L : blocks) : Prop := {
  cr_ws : ws (area k) U (La ++ Le ++ Lf ++ Ls ++ L);
  cr_stack : stack_of (Start (tcb k t)) Ls;
  cr_fp : block_of (start_fp_context (Start (tcb k t))) Lf;
  cr_extensions : block_of (extensions (tcb k t)) Le;
  cr_own : own (tcb k t) La;
  cr_state : current_state (tcb k t) = STATES_DORMANT;
  cr_size : stack_area = NULL -> core_allocated_stack (Start (tcb k t)) = true /\
    Initial_stack_size (Start (tcb k t)) = stack_request stack_size
}.

Lemma object_open_spec k : is_string (info (objects_of k information)) = false ->
  exists tbl, object_open fuel name_argument information t name k = Some (set_information_table tbl k).
Proof.
  intros HN. unfold object_open, _Objects_Open. set (s := objects_of k information) in *. cbn zeta.
  change (is_string (info (set_info ?i ?s))) with (is_string i). cbn [set_local_table is_string set_names info].
  rewrite HN. by eexists.
Qed.

(** The state of the books while the thread is put together. *)
Record prepared (k : Kernel) (s : Thread_Start_information) (Ls : blocks) : Prop := {
  pr_stack : stack_of s Ls;
  pr_size : stack_area = NULL -> core_allocated_stack s = true /\ Initial_stack_size s = stack_request stack_size;
  pr_string : is_string (info (objects_of k information)) = false
}.

Lemma fp_noted k m pf Ls : prepared k (Start (tcb k t)) Ls ->
  let k2 := upd_start t (set_start_fp_context pf) (upd_thread t (set_fp_context pf) (set_workspace m k)) in
  area k2 = m /\ _Thread_Maximum_extensions k2 = _Thread_Maximum_extensions k /\ prepared k2 (Start (tcb k2 t)) Ls /\
  start_fp_context (Start (tcb k2 t)) = pf.
Proof.
  intros [A B C] k2. assert (Start (tcb k2 t) = set_start_fp_context pf (Start (tcb k t))) as ES.
  { unfold k2, upd_start. by rewrite !tcb_upd_self. }
  rewrite ES. done.
Qed.

Lemma control_noted k m pe Ls : prepared k (Start (tcb k t)) Ls ->
  let k4 := initialize_control t priority preemptible algorithm callout level (upd_thread t (set_extensions pe) (set_workspace m k)) in
  area k4 = m /\ prepared k4 (Start (tcb k4 t)) Ls /\ start_fp_context (Start (tcb k4 t)) = start_fp_context (Start (tcb k t)) /\
  extensions (tcb k4 t) = pe /\ current_state (tcb k4 t) = STATES_DORMANT.
Proof.
  intros [A B C] k4. assert (tcb k4 t = set_Priority_map (_Priority_Initialize_information priority)
    (set_ready priority (set_current_priority priority (set_ticks_executed 0 (set_real_priority priority (set_resource_count 0
      (set_current_state STATES_DORMANT (set_Start (set_start_modes preemptible algorithm callout level priority (Start (tcb k t)))
        (set_extensions pe (tcb k t)))))))))) as ES.
  { unfold k4, initialize_control, _Thread_Set_priority, upd_start. by rewrite !tcb_upd_self. }
  rewrite ES. done.
Qed.

Lemma thread_initialize_spec k U L : ws (area k) U L -> (stack_area = NULL -> 0 <= stack_size /\ stack_size + 40 < two32) ->
  0 <= _Thread_Maximum_extensions k -> 4 * (_Thread_Maximum_extensions k + 1) + 24 < two32 ->
  is_string (info (objects_of k information)) = false ->
  exists ok k', _Thread_Initialize workspace hfuel None None create fuel name_argument information t stack_area stack_size
      is_fp priority preemptible algorithm callout level name k = Some (ok, k') /\
    (if ok then exists Ls Lf Le La, created k' U Ls Lf Le La L else ws (area k') U L).
Proof using HB.
  intros HW S0 E0 E1 HN. unfold _Thread_Initialize.
  destruct (initialize_stack_spec t stack_area stack_size k U L HW S0) as (ok & k1 & -> & EI & EM & H1).
  destruct ok; [|by eexists false, _]. destruct H1 as (Ls & HSt & HW1 & HSz).
  assert (prepared k1 (Start (tcb k1 t)) Ls) as P1 by (split; try done; unfold objects_of in *; by rewrite EI).
  destruct (allocate_if_spec is_fp CONTEXT_FP_SIZE k1 U (Ls ++ L) HW1) as (ok & pf & m & -> & H2); [done..|].
  destruct ok.
  2: { destruct (stack_free_spec t Ls (set_workspace m k1) U L H2 HSt) as (m' & -> & H3). by eexists false, _. }
  destruct H2 as (Lf & HF & HW2). destruct (fp_noted k1 m pf Ls P1) as (EA2 & EM2 & P2 & EF2).
  set (k2 := upd_start t _ (upd_thread t _ _)) in *. clearbody k2. rewrite EM2, EM. rewrite <- EA2 in HW2.
  destruct (allocate_if_spec (negb (_Thread_Maximum_extensions k =? 0))
    ((_Thread_Maximum_extensions k +w 1) *w sizeof_pointer) k2 U (Lf ++ Ls ++ L) HW2) as (ok & pe & m3 & -> & H3).
  { apply Z.mod_pos_bound. done. }
  { unfold sizeof_pointer. rewrite (wrap32_small (_ + 1)), wrap32_small; unfold u32, two32 in *; lia. }
  destruct ok.
  2: { destruct (free_if_spec pf Lf (set_workspace m3 k2) U (Ls ++ L) H3 HF) as (m' & -> & H4).
       destruct (stack_free_spec t Ls (set_workspace m' (set_workspace m3 k2)) U L H4) as (m5 & -> & H5); [apply P2|].
       by eexists false, _. }
  destruct H3 as (Le & HE & HW3). destruct (control_noted k2 m3 pe Ls P2) as (EA4 & P4 & EF4 & EX4 & EC4).
  set (k4 := initialize_control _ _ _ _ _ _ _) in *. clearbody k4.
  destruct (object_open_spec k4 (pr_string _ _ _ P4)) as (tbl & ->). rewrite <- EA4 in HW3.
  destruct (bk_create t (set_information_table tbl k4) U (Le ++ Lf ++ Ls ++ L) HW3) as (ok & k6 & -> & EB6 & H6).
  change (tcb (set_information_table tbl k4) t) with (tcb k4 t) in EB6. apply books_eq in EB6 as (ES & EX & EC). destruct ok.
  - destruct H6 as (La & HO & HW6). exists true, k6. split; [done|]. exists Ls, Lf, Le, La.
    destruct P4. split; rewrite ?ES, ?EX, ?EC, ?EF4, ?EF2, ?EX4; try done.
  - destruct (free_if_spec pe Le k6 U (Lf ++ Ls ++ L) H6 HE) as (m7 & -> & H7).
    destruct (free_if_spec pf Lf (set_workspace m7 k6) U (Ls ++ L) H7 HF) as (m8 & -> & H8).
    destruct (stack_free_spec t Ls (set_workspace m8 (set_workspace m7 k6)) U L H8) as (m9 & -> & H9);
      [change (tcb _ t) with (tcb k6 t); rewrite ES; apply P4|]. by eexists false, _.
Qed.

(** ** Closing a thread that was not started *)

Lemma dormant_stopped run_callout k : current_state (tcb k t) = Z.lor STATES_TRANSIENT STATES_DORMANT ->
  area (stop_waiting run_callout t k) = area k /\ tcb (stop_waiting run_callout t k) = tcb k.
Proof.
  intros E. unfold stop_waiting, _Thread_queue_Extract_with_proxy. rewrite E. simpl. by destruct (_Watchdog_Is_active _ _).
Qed.

Lemma transient_noted k : current_state (tcb k t) = STATES_DORMANT ->
  let k1 := _Thread_Set_state t STATES_TRANSIENT (object_close information t k) in
  area k1 = area k /\ tcb k1 t = set_current_state (Z.lor STATES_TRANSIENT STATES_DORMANT) (tcb k t).
Proof.
  intros E k1. unfold k1, _Thread_Set_state. change (tcb (object_close information t k) t) with (tcb k t). rewrite E.
  cbn [_States_Is_ready]. change (_States_Is_ready STATES_DORMANT) with false. cbn [negb].
  rewrite tcb_upd_self. change (tcb (object_close information t k) t) with (tcb k t). by rewrite E.
Qed.

Lemma fp_taken_back k :
  let k1 := upd_thread t (set_fp_context NULL) (if _Thread_Is_allocated_fp k t then _Thread_Deallocate_fp k else k) in
  area k1 = area k /\ books (tcb k1 t) = books (tcb k t).
Proof.
  intros k1. unfold k1. destruct (_Thread_Is_allocated_fp k t); rewrite tcb_upd_self; done.
Qed.

Lemma thread_close_spec run_callout k U Ls Lf Le La L : created k U Ls Lf Le La L ->
  ws (area (_Thread_Close workspace None run_callout deleted information t k)) U L.
Proof using HB.
  intros [HW HS HF HE HO HD _]. unfold _Thread_Close. destruct (transient_noted k HD) as [EA1 ET1].
  set (k1 := _Thread_Set_state _ _ _) in *. clearbody k1.
  destruct (dormant_stopped run_callout k1) as [EA2 ET2]; [by rewrite ET1|].
  set (k2 := stop_waiting _ _ _) in *. clearbody k2. rewrite <- EA1, <- EA2 in HW.
  assert (tcb k2 t = tcb k1 t) as E2 by (by rewrite ET2). rewrite ET1 in E2.
  destruct (bk_delete t k2 U La (Le ++ Lf ++ Ls ++ L) HW) as [EB3 HW3]; [rewrite E2; by apply (bk_own _ _ _ HO)|].
  set (k3 := deleted t k2) in *. clearbody k3. apply books_eq in EB3 as (ES3 & EX3 & _). rewrite E2 in ES3, EX3.
  destruct (fp_taken_back k3) as [EA4 EB4]. set (k4 := upd_thread t _ _) in *. clearbody k4.
  apply books_eq in EB4 as (ES4 & EX4 & _). rewrite ES3 in ES4. rewrite EX3 in EX4. rewrite <- EA4 in HW3.
  change (Start (tcb k4 t) = Start (tcb k t)) in ES4. change (extensions (tcb k4 t) = extensions (tcb k t)) in EX4.
  destruct (free_if_spec (start_fp_context (Start (tcb k4 t))) Lf k4 U (Ls ++ Le ++ L)) as (m5 & -> & HW5);
    [eapply ws_perm; [exact HW3|solve_Permutation]|by rewrite ES4|].
  destruct (stack_free_spec t Ls (set_workspace m5 k4) U (Le ++ L) HW5) as (m6 & -> & HW6);
    [change (tcb (set_workspace m5 k4) t) with (tcb k4 t); by rewrite ES4|].
  change (tcb (set_workspace m6 (set_workspace m5 k4)) t) with (tcb k4 t).
  destruct (free_if_spec (extensions (tcb k4 t)) Le (set_workspace m6 (set_workspace m5 k4)) U L HW6) as (m7 & -> & HW7);
    [by rewrite EX4|]. exact HW7.
Qed.
End Create.
End Books.

(** ** Theorems *)


(** C8: Nothing is lost over the life of a thread.  Closing a thread that [_Thread_Initialize]
    has created gives the stack, the floating point context, the extensions area and what the
    create extensions took back to the workspace, which is then the same sequence of blocks
    as before the creation, although the blocks are not freed in the order opposite to
    that of their allocation. *)
Theorem thread_create_close_roundtrip workspace hfuel start create deleted own
    `{BookKeeping workspace hfuel start (total bs) create deleted own}
    fl fuel name_argument information t stack_area stack_size is_fp priority preemptible algorithm callout level name run_callout k k' :
  heap_rep (_Workspace_Area k) workspace start CPU_HEAP_ALIGNMENT bs fl -> total bs < 16 * Z.of_nat hfuel ->
  0 <= stack_size -> stack_size + 40 < two32 ->
  0 <= _Thread_Maximum_extensions k -> 4 * (_Thread_Maximum_extensions k + 1) + 24 < two32 ->
  is_string (info (objects_of k information)) = false ->
  _Thread_Initialize workspace hfuel None None create fuel name_argument information t stack_area stack_size
    is_fp priority preemptible algorithm callout level name k = Some (true, k') ->
  exists fl', heap_rep (_Workspace_Area (_Thread_Close workspace None run_callout deleted information t k'))
    workspace start CPU_HEAP_ALIGNMENT bs fl'.
Proof.
  intros HR HT S0 S1 E0 E1 HN EI.
  destruct (thread_initialize_spec workspace hfuel start (total bs) create deleted own fuel name_argument information t stack_area
    stack_size is_fp priority preemptible algorithm callout level name k (taken start bs) []) as (ok & k1 & E & HO);
    [by eapply ws_intro|by intros _|done..|]. rewrite EI in E. injection E as <- <-. destruct HO as (Ls & Lf & Le & La & HC).
  eapply ws_same; [apply HR|apply HR|done|]. by eapply thread_close_spec.
Qed.

(** The workspace always answers: with a pointer, 0 if there is no room. *)
Lemma workspace_answers workspace hfuel start bs fl size k :
  heap_rep (_Workspace_Area k) workspace start CPU_HEAP_ALIGNMENT bs fl -> total bs < 16 * Z.of_nat hfuel ->
  exists p k1, _Workspace_Allocate workspace hfuel size k = Some (p, k1).
Proof.
  intros HR HT. unfold _Workspace_Allocate, _Heap_Allocate. assert (length fl < hfuel)%nat as Hf by by eapply ws_free_count.
  destruct (search_spec _ _ _ _ _ _ HR (heap_request_size (heap_page_size (_Workspace_Area k) workspace) size) hfuel Hf)
    as [(A & sz & B & _ & _ & ->)|(_ & ->)]; [|by eexists _, _].
  destruct (_ =? NULL); [by eexists _, _|]. destruct (_ <? _); by eexists _, _.
Qed.

(** The request for a stack from the workspace, by cases. *)
Lemma stack_request_cases size : 0 <= size < two32 ->
  stack_request size = (if size <? two32 - CPU_STACK_ALIGNMENT then Z.max STACK_MINIMUM_SIZE size + CPU_STACK_ALIGNMENT
    else size - (two32 - CPU_STACK_ALIGNMENT)).
Proof.
  intros HS. unfold stack_request, _Stack_Adjust_size, STACK_MINIMUM_SIZE, CPU_STACK_ALIGNMENT, wrap32, two32 in *.
  destruct (Z.ltb_spec size (4294967296 - 16)); [rewrite Z.mod_small by lia; lia|].
  rewrite Z.max_r by lia. replace (size + 16) with (size - 4294967280 + 1 * 4294967296) by lia.
  rewrite Z.mod_add, Z.mod_small by lia. lia.
Qed.

(** C40: the stack of a new thread, for every size of 32 bits.  On a well formed workspace
    the answer always comes.
    - A stack of the caller is taken as it is, whatever its size.
    - With a stack hook in the processor table the thread has the memory that the hook
      returns for the size asked for, raised to the minimum; there is no stack exactly when
      the hook returns 0.
    - Otherwise the stack comes from the workspace.  The request is the size asked for,
      raised to the minimum, and the alignment of 16 bytes if the size is below [2^32 - 16];
      from there on the sum wraps around to a request of less than 16 bytes.  The thread
      gets the block, and the request is the size of its stack; it has no stack if the
      workspace has no such block, or if the request is for 0 bytes, which is so for
      [2^32 - 16] exactly, even if a block was allocated for it. *)
Theorem thread_stack_bounds workspace hfuel hook start bs fl t stack_area stack_size k :
  heap_rep (_Workspace_Area k) workspace start CPU_HEAP_ALIGNMENT bs fl -> total bs < 16 * Z.of_nat hfuel ->
  0 <= stack_size < two32 ->
  exists ok k', initialize_stack workspace hfuel hook t stack_area stack_size k = Some (ok, k') /\
    let s := Start (tcb k' t) in
    let wanted := Z.max STACK_MINIMUM_SIZE stack_size in
    let request := if stack_size <? two32 - 16 then wanted + 16 else stack_size - (two32 - 16) in
    if negb (stack_area =? NULL) then
      ok = true /\ core_allocated_stack s = false /\ Initial_stack_area s = stack_area /\ Initial_stack_size s = stack_size
    else
      match hook with
      | Some f =>
          ok = negb ((f wanted k).1 =? 0) /\
          (ok = true -> core_allocated_stack s = true /\ Initial_stack_area s = (f wanted k).1 /\ Initial_stack_size s = wanted)
      | None =>
          exists p k1, _Workspace_Allocate workspace hfuel request k = Some (p, k1) /\
          ok = negb (p =? 0) && negb (request =? 0) /\
          (ok = true -> core_allocated_stack s = true /\ Initial_stack_area s = p /\ Initial_stack_size s = request) /\
          (ok = false -> _Workspace_Area k' = _Workspace_Area k1)
      end.
Proof.
  intros HR HT HS. unfold initialize_stack. cbv zeta. destruct (stack_area =? NULL); cbn [negb].
  2: { eexists true, _. split; [reflexivity|]. unfold upd_start. rewrite !tcb_upd_self. done. }
  unfold _Thread_Stack_Allocate. rewrite !enough_max, Z.max_assoc, Z.max_id. cbv zeta. destruct hook as [f|].
  - destruct (f (Z.max STACK_MINIMUM_SIZE stack_size) k) as [p k1]. cbn [fst].
    assert (Z.max STACK_MINIMUM_SIZE stack_size =? 0 = false) as EZ by (apply Z.eqb_neq; unfold STACK_MINIMUM_SIZE; lia).
    destruct (p =? 0); [by eexists false, _|]. rewrite EZ. eexists true, _. split; [reflexivity|]. split; [done|]. intros _.
    unfold upd_start. rewrite !tcb_upd_self. done.
  - fold (stack_request stack_size). rewrite (stack_request_cases _ HS). change CPU_STACK_ALIGNMENT with 16.
    set (request := if _ <? _ then _ else _).
    destruct (workspace_answers workspace hfuel start bs fl request k HR HT) as (p & k1 & E). rewrite E.
    destruct (p =? 0) eqn:EP.
    { eexists false, _. split; [reflexivity|]. exists p, k1. by rewrite EP. }
    destruct (request =? 0) eqn:EQ.
    { eexists false, _. split; [reflexivity|]. exists p, k1. by rewrite EP. }
    eexists true, _. split; [reflexivity|]. exists p, k1. rewrite EP. split_and!; try done.
    intros _. unfold upd_start. rewrite !tcb_upd_self. done.
Qed.

(** A thread that an extension refuses is not closed again: its id still finds it in the
    table of its class after the control block has been given back. *)
Lemma refused_thread_stays_open workspace (fuel : nat) name_argument information t name k k1 area1 area2 :
  object_open fuel name_argument information t name k = Some k1 -> is_string (info (objects_of k information)) = false ->
  let index := Z.to_nat (_Objects_Get_index (obj_id (objects (objects_of k information) !!! t))) in
  (index < length (local_table (info (objects_of k information))))%nat ->
  let k2 := _Thread_Stack_Free workspace None t (free_if workspace area1 (free_if workspace area2 k1)) in
  local_table (info (objects_of k2 information)) !! index = Some t.
Proof.
  intros EO HN index HL k2.
  assert (information_table k2 = information_table k1) as EI.
  { unfold k2, _Thread_Stack_Free, free_if, free_block, _Workspace_Free. repeat (case_match; try done). }
  unfold objects_of in *. rewrite EI. clear k2 EI. revert EO. unfold object_open, _Objects_Open. cbn zeta.
  fold (objects_of k information). change (is_string (info (set_info ?i ?s))) with (is_string i).
  cbn [set_local_table is_string set_names info]. fold (objects_of k information) in HN, HL, index. rewrite HN. intros [= <-].
  unfold put_objects. cbn [information_table set_information_table]. rewrite lookup_insert_eq. simpl.
  apply list_lookup_insert_eq. exact HL.
Qed.
