(* ===== verification/Tasks.v ===== *)
(** * Task Manager (rtems/src/tasks.c, rtems/inline/tasks.inl)

    Tasks are threads with the API part that the manager's extensions give them.  The modes
    and the delivery of signals are in [Signal].  Requests to other nodes are parameters. *)
From S2P Require Import Prelude Chain Watchdog Tod Object Priority ApiTypes Heap Kernel Thread Threadq Workspace CoreMsg.
From S2P Require Import Rtems Partition Timer Signal Extension Init ThreadLife.

Inductive RTEMS_tasks_MP_Remote_operations : Type :=
| RTEMS_TASKS_MP_ANNOUNCE_CREATE
| RTEMS_TASKS_MP_ANNOUNCE_DELETE
| RTEMS_TASKS_MP_SUSPEND_REQUEST
| RTEMS_TASKS_MP_SUSPEND_RESPONSE
| RTEMS_TASKS_MP_RESUME_REQUEST
| RTEMS_TASKS_MP_RESUME_RESPONSE
| RTEMS_TASKS_MP_SET_PRIORITY_REQUEST
| RTEMS_TASKS_MP_SET_PRIORITY_RESPONSE
| RTEMS_TASKS_MP_GET_NOTE_REQUEST
| RTEMS_TASKS_MP_GET_NOTE_RESPONSE
| RTEMS_TASKS_MP_SET_NOTE_REQUEST
| RTEMS_TASKS_MP_SET_NOTE_RESPONSE.

(** ** Constants and inlined routines (tasks.h, attr.h, tasks.inl) *)

Definition RTEMS_MINIMUM_PRIORITY : Z := PRIORITY_MINIMUM + 1.
Definition RTEMS_MAXIMUM_PRIORITY : Z := PRIORITY_MAXIMUM.
Definition RTEMS_CURRENT_PRIORITY : Z := PRIORITY_MINIMUM.
Definition RTEMS_NOTEPAD_LAST : Z := 15.
Definition ATTRIBUTES_NOT_SUPPORTED : Z := 0.
Definition ATTRIBUTES_REQUIRED : Z := 0.
Definition sizeof_RTEMS_API_Control : Z := 96.
Definition _RTEMS_tasks_Priority_to_Core (priority : Z) : Z := priority.
Definition _RTEMS_tasks_Priority_is_valid (the_priority : Z) : bool :=
  (RTEMS_MINIMUM_PRIORITY <=? the_priority) && (the_priority <=? RTEMS_MAXIMUM_PRIORITY).
Definition _RTEMS_tasks_Allocate : Kernel -> Z * Kernel := object_allocate OBJECTS_RTEMS_TASKS.
(** The class is that of the id. *)
Definition _RTEMS_tasks_Free (the_task : Z) (k : Kernel) : Kernel :=
  object_free (_Objects_Get_class (Object_id (tcb k the_task))) the_task k.

(** ** The extensions of the manager *)

Section Extensions.
Context (workspace : Z) (hfuel : nat).

Definition reset_api (the_thread : Z) (k : Kernel) : Kernel :=
  let k := upd_api the_thread (set_pending_events EVENT_SETS_NONE_PENDING) k in
  upd_asr the_thread _ASR_Initialize k.

(** The notepads are what the area holds. *)
Definition _RTEMS_tasks_Create_extension (executing created : Z) (k : Kernel) : option (bool * Kernel) :=
  match _Workspace_Allocate workspace hfuel sizeof_RTEMS_API_Control k with
  | None => None
  | Some (api, k) =>
      if api =? 0 then Some (false, k)
      else Some (true, reset_api created (upd_thread created (set_API_Extensions_RTEMS api) k))
  end.

Definition _RTEMS_tasks_Start_extension (executing started : Z) (k : Kernel) : Kernel := reset_api started k.

Definition _RTEMS_tasks_Delete_extension (executing deleted : Z) (k : Kernel) : Kernel :=
  let k := (_Workspace_Free workspace (API_Extensions_RTEMS (tcb k deleted)) k).2 in
  upd_thread deleted (set_API_Extensions_RTEMS NULL) k.
End Extensions.

(** ** The local cases, before dispatching is enabled again *)

Definition task_set_priority (the_thread new_priority old_priority : Z) (k : Kernel) : Kernel :=
  let k := put_word old_priority (current_priority (tcb k the_thread)) k in
  if negb (new_priority =? RTEMS_CURRENT_PRIORITY) then
    let k := upd_thread the_thread (set_real_priority new_priority) k in
    if (resource_count (tcb k the_thread) =? 0) || (new_priority <? current_priority (tcb k the_thread))
    then _Thread_Change_priority the_thread new_priority false k else k
  else k.

Definition get_note (the_thread notepad : Z) (k : Kernel) : Z := nth (Z.to_nat notepad) (Notepads (api k the_thread)) 0.
Definition set_note (the_thread notepad note : Z) : Kernel -> Kernel :=
  upd_api the_thread (fun a => set_Notepads (<[Z.to_nat notepad := note]> (Notepads a)) a).

(** Waiting for time: [Delay_ended] is the address of [_Thread_Delay_ended]. *)
Definition delay (state Delay_ended : Z) (insert : Kernel -> option Kernel) (k : Kernel) : option Kernel :=
  let k := _Thread_Set_state (_Thread_Executing k) state k in
  let k := wd_mod (_Watchdog_Initialize (Timer (_Thread_Executing k)) Delay_ended (Object_id (tcb k (_Thread_Executing k))) NULL) k in
  insert k.

(** ** Directives *)

Section Directives.
Context (switch : Z -> Z -> Kernel -> Kernel) (postswitch : Kernel -> Kernel).
Context (isrs : list (Kernel -> Kernel)) (fuel : nat) (_Objects_Local_node _Objects_Maximum_nodes name_argument : Z).
Context (workspace : Z) (hfuel : nat) (is_multiprocessing : bool).
Context (stack_allocate_hook : option (Z -> Kernel -> Z * Kernel)) (stack_free_hook : option (Z -> Kernel -> Kernel)).
(** The user extensions, as in [Extension]; the extraction of proxies; the switch to the
    beginning of a thread that restarts itself. *)
Context (create_extensions : Z -> Kernel -> option (bool * Kernel)) (started restarted deleted : Z -> Kernel -> Kernel).
Context (run_callout : Z -> Z -> Kernel -> Kernel) (restart_self : Kernel -> Kernel).
(** Global objects: allocating, freeing, opening and closing; announcements and requests. *)
Context (mp_allocate : Kernel -> Z * Kernel) (mp_free : Z -> Kernel -> Kernel).
Context (mp_open : Z -> Z -> Z -> Kernel -> Kernel) (mp_close : Z -> Kernel -> Kernel).
Context (mp_announce : RTEMS_tasks_MP_Remote_operations -> Z -> Z -> Kernel -> Kernel).
Context (mp_request : RTEMS_tasks_MP_Remote_operations -> Z -> Z -> Z -> Z -> Kernel -> Z * Kernel).

Notation Get := (_Thread_Get switch postswitch isrs fuel _Objects_Local_node _Objects_Maximum_nodes).
Notation finish := (enable_return switch postswitch isrs fuel).

(** The first reason to refuse the arguments. *)
Definition task_arguments_error (name initial_priority the_attribute_set : Z) : option Z :=
  if negb (rtems_is_name_valid name) then Some RTEMS_INVALID_NAME
  else if negb (_Attributes_Is_system_task the_attribute_set) && negb (_RTEMS_tasks_Priority_is_valid initial_priority)
  then Some RTEMS_INVALID_PRIORITY
  else if _Attributes_Is_global the_attribute_set && negb is_multiprocessing then Some RTEMS_MP_NOT_CONFIGURED
  else None.

Definition rtems_task_create (name initial_priority stack_size initial_modes attribute_set id : Z) (k : Kernel) : option (Z * Kernel) :=
  let the_attribute_set := _Attributes_Clear (_Attributes_Set attribute_set ATTRIBUTES_REQUIRED) ATTRIBUTES_NOT_SUPPORTED in
  match task_arguments_error name initial_priority the_attribute_set with
  | Some e => Some (e, k)
  | None =>
      let is_fp := _Attributes_Is_floating_point the_attribute_set in
      let core_priority := _RTEMS_tasks_Priority_to_Core initial_priority in
      let is_global := _Attributes_Is_global the_attribute_set in
      let k := _Thread_Disable_dispatch k in
      let '(the_thread, k) := _RTEMS_tasks_Allocate k in
      if the_thread =? NULL then finish RTEMS_TOO_MANY k
      else
        let '(the_global_object, k) := if is_global then mp_allocate k else (NULL, k) in
        if is_global && (the_global_object =? NULL) then finish RTEMS_TOO_MANY (_RTEMS_tasks_Free the_thread k)
        else
          match _Thread_Initialize workspace hfuel stack_allocate_hook stack_free_hook create_extensions fuel name_argument
                  OBJECTS_RTEMS_TASKS the_thread NULL stack_size is_fp core_priority (_Modes_Is_preempt initial_modes)
                  (if _Modes_Is_timeslice initial_modes
                   then THREAD_CPU_BUDGET_ALGORITHM_RESET_TIMESLICE else THREAD_CPU_BUDGET_ALGORITHM_NONE)
                  NULL (_Modes_Get_interrupt_level initial_modes) name k with
          | None => None
          | Some (false, k) =>
              let k := if is_global then mp_free the_global_object k else k in
              finish RTEMS_UNSATISFIED (_RTEMS_tasks_Free the_thread k)
          | Some (true, k) =>
              let k := upd_asr the_thread (set_is_enabled (negb (_Modes_Is_asr_disabled initial_modes))) k in
              let the_id := Object_id (tcb k the_thread) in
              let k := put_word id the_id k in
              let k :=
                if is_global then
                  let k := upd_rtems (fun r => set_global_threads (global_threads r ∪ {[the_thread]}) r) k in
                  mp_announce RTEMS_TASKS_MP_ANNOUNCE_CREATE the_id name (mp_open the_global_object name the_id k)
                else k in
              finish RTEMS_SUCCESSFUL k
          end
  end.

Definition rtems_task_ident (name node id : Z) (k : Kernel) : Z * Kernel :=
  if name =? OBJECTS_ID_OF_SELF then (RTEMS_SUCCESSFUL, put_word id (Object_id (tcb k (_Thread_Executing k))) k)
  else object_ident switch postswitch isrs fuel _Objects_Local_node _Objects_Maximum_nodes name_argument
         OBJECTS_RTEMS_TASKS name node id k.

(** A directive that is not allowed on a thread of another node. *)
Definition illegal_on_remote (k : Kernel) : option (Z * Kernel) :=
  match _Thread_Dispatch switch postswitch fuel isrs k with
  | None => None
  | Some k => Some (RTEMS_ILLEGAL_ON_REMOTE_OBJECT, k)
  end.

Definition rtems_task_start (id entry argument : Z) (k : Kernel) : option (Z * Kernel) :=
  if entry =? NULL then Some (RTEMS_INVALID_ADDRESS, k)
  else
    match Get id k with
    | None => None
    | Some (OBJECTS_ERROR, _, k) => Some (RTEMS_INVALID_ID, k)
    | Some (OBJECTS_REMOTE, _, k) => illegal_on_remote k
    | Some (OBJECTS_LOCAL, the_thread, k) =>
        let '(ok, k) := _Thread_Start started the_thread THREAD_START_NUMERIC entry NULL argument k in
        finish (if ok then RTEMS_SUCCESSFUL else RTEMS_INCORRECT_STATE) k
    end.

Definition rtems_task_restart (id argument : Z) (k : Kernel) : option (Z * Kernel) :=
  match Get id k with
  | None => None
  | Some (OBJECTS_ERROR, _, k) => Some (RTEMS_INVALID_ID, k)
  | Some (OBJECTS_REMOTE, _, k) => illegal_on_remote k
  | Some (OBJECTS_LOCAL, the_thread, k) =>
      let '(ok, k) := _Thread_Restart run_callout restarted restart_self the_thread NULL argument k in
      finish (if ok then RTEMS_SUCCESSFUL else RTEMS_INCORRECT_STATE) k
  end.

Definition rtems_task_delete (id : Z) (k : Kernel) : option (Z * Kernel) :=
  match Get id k with
  | None => None
  | Some (OBJECTS_ERROR, _, k) => Some (RTEMS_INVALID_ID, k)
  | Some (OBJECTS_REMOTE, _, k) => illegal_on_remote k
  | Some (OBJECTS_LOCAL, the_thread, k) =>
      let the_class := _Objects_Get_class (Object_id (tcb k the_thread)) in
      match information_table k !! the_class with
      | None => finish RTEMS_INVALID_ID k
      | Some _ =>
          let k := _Thread_Close workspace stack_free_hook run_callout deleted the_class the_thread k in
          let k := _RTEMS_tasks_Free the_thread k in
          let k :=
            if bool_decide (the_thread ∈ global_threads (rtems k)) then
              let the_id := Object_id (tcb k the_thread) in
              mp_announce RTEMS_TASKS_MP_ANNOUNCE_DELETE the_id 0 (mp_close the_id k)
            else k in
          finish RTEMS_SUCCESSFUL k
      end
  end.

Definition rtems_task_suspend (id : Z) (k : Kernel) : option (Z * Kernel) :=
  match Get id k with
  | None => None
  | Some (OBJECTS_ERROR, _, k) => Some (RTEMS_INVALID_ID, k)
  | Some (OBJECTS_REMOTE, _, k) => Some (mp_request RTEMS_TASKS_MP_SUSPEND_REQUEST id 0 0 0 k)
  | Some (OBJECTS_LOCAL, the_thread, k) =>
      if negb (_States_Is_suspended (current_state (tcb k the_thread)))
      then finish RTEMS_SUCCESSFUL (_Thread_Set_state the_thread STATES_SUSPENDED k)
      else finish RTEMS_ALREADY_SUSPENDED k
  end.

Definition rtems_task_resume (id : Z) (k : Kernel) : option (Z * Kernel) :=
  match Get id k with
  | None => None
  | Some (OBJECTS_ERROR, _, k) => Some (RTEMS_INVALID_ID, k)
  | Some (OBJECTS_REMOTE, _, k) => Some (mp_request RTEMS_TASKS_MP_RESUME_REQUEST id 0 0 0 k)
  | Some (OBJECTS_LOCAL, the_thread, k) =>
      if _States_Is_suspended (current_state (tcb k the_thread))
      then finish RTEMS_SUCCESSFUL (_Thread_Resume the_thread k)
      else finish RTEMS_INCORRECT_STATE k
  end.

Definition rtems_task_set_priority (id new_priority old_priority : Z) (k : Kernel) : option (Z * Kernel) :=
  if negb (new_priority =? RTEMS_CURRENT_PRIORITY) && negb (_RTEMS_tasks_Priority_is_valid new_priority)
  then Some (RTEMS_INVALID_PRIORITY, k)
  else
    match Get id k with
    | None => None
    | Some (OBJECTS_ERROR, _, k) => Some (RTEMS_INVALID_ID, k)
    | Some (OBJECTS_REMOTE, _, k) =>
        Some (mp_request RTEMS_TASKS_MP_SET_PRIORITY_REQUEST id new_priority 0 0
                (upd_wait (_Thread_Executing k) (set_Wait_return_argument old_priority) k))
    | Some (OBJECTS_LOCAL, the_thread, k) => finish RTEMS_SUCCESSFUL (task_set_priority the_thread new_priority old_priority k)
    end.

(** The id of the executing thread, or [RTEMS_SELF]. *)
Definition is_self (id : Z) (k : Kernel) : bool :=
  _Objects_Are_ids_equal id OBJECTS_ID_OF_SELF || _Objects_Are_ids_equal id (Object_id (tcb k (_Thread_Executing k))).

Definition rtems_task_get_note (id notepad note : Z) (k : Kernel) : option (Z * Kernel) :=
  if RTEMS_NOTEPAD_LAST <? notepad then Some (RTEMS_INVALID_NUMBER, k)
  else if is_self id k then Some (RTEMS_SUCCESSFUL, put_word note (get_note (_Thread_Executing k) notepad k) k)
  else
    match Get id k with
    | None => None
    | Some (OBJECTS_ERROR, _, k) => Some (RTEMS_INVALID_ID, k)
    | Some (OBJECTS_REMOTE, _, k) =>
        Some (mp_request RTEMS_TASKS_MP_GET_NOTE_REQUEST id 0 notepad 0
                (upd_wait (_Thread_Executing k) (set_Wait_return_argument note) k))
    | Some (OBJECTS_LOCAL, the_thread, k) => finish RTEMS_SUCCESSFUL (put_word note (get_note the_thread notepad k) k)
    end.

Definition rtems_task_set_note (id notepad note : Z) (k : Kernel) : option (Z * Kernel) :=
  if RTEMS_NOTEPAD_LAST <? notepad then Some (RTEMS_INVALID_NUMBER, k)
  else if is_self id k then Some (RTEMS_SUCCESSFUL, set_note (_Thread_Executing k) notepad note k)
  else
    match Get id k with
    | None => None
    | Some (OBJECTS_ERROR, _, k) => Some (RTEMS_INVALID_ID, k)
    | Some (OBJECTS_REMOTE, _, k) => Some (mp_request RTEMS_TASKS_MP_SET_NOTE_REQUEST id 0 notepad note k)
    | Some (OBJECTS_LOCAL, the_thread, k) => finish RTEMS_SUCCESSFUL (set_note the_thread notepad note k)
    end.

Section Wake.
Context (Delay_ended : Z) (wfuel : nat) (wisr : Kernel -> Kernel).

Definition rtems_task_wake_after (ticks : Z) (k : Kernel) : option (Z * Kernel) :=
  if ticks =? 0 then
    match _Thread_Dispatch switch postswitch fuel isrs (_Thread_Yield_processor k) with
    | None => None
    | Some k => Some (RTEMS_SUCCESSFUL, k)
    end
  else
    let k := _Thread_Disable_dispatch k in
    match delay STATES_DELAYING Delay_ended (fun k => _Watchdog_Insert_ticks wfuel wisr (Timer (_Thread_Executing k)) ticks k) k with
    | None => None
    | Some k => finish RTEMS_SUCCESSFUL k
    end.

(** The ticks of the caller's time are cleared, also when it is then refused. *)
Definition rtems_task_wake_when (time_buffer : Z) (k : Kernel) : option (Z * Kernel) :=
  if negb (_TOD_Is_set (tod k)) then Some (RTEMS_NOT_DEFINED, k)
  else
    let k := put_word (time_buffer + 24) 0 k in
    if negb (_TOD_Validate (_TOD_Ticks_per_second (tod k)) (tod_at k time_buffer)) then Some (RTEMS_INVALID_CLOCK, k)
    else
      let seconds := _TOD_To_seconds (tod_at k time_buffer) in
      if seconds <=? _TOD_Seconds_since_epoch (tod k) then Some (RTEMS_INVALID_CLOCK, k)
      else
        let k := _Thread_Disable_dispatch k in
        match delay STATES_WAITING_FOR_TIME Delay_ended
                (fun k => _Watchdog_Insert_seconds wfuel wisr (Timer (_Thread_Executing k))
                            (seconds -w _TOD_Seconds_since_epoch (tod k)) k) k with
        | None => None
        | Some k => finish RTEMS_SUCCESSFUL k
        end.
End Wake.

(** ** Initialization tasks *)

Record rtems_initialization_tasks_table : Type := {
  task_name : Z;
  task_stack_size : Z;
  task_initial_priority : Z;
  task_attribute_set : Z;
  task_entry_point : Z;
  task_mode_set : Z;
  task_argument : Z
}.

(** [id_address] is where the id of each task is stored. *)
Fixpoint create_and_start (fatal_extensions : Internal_errors_Information -> Kernel -> Kernel) (id_address : Z)
    (user_tasks : list rtems_initialization_tasks_table) (k : Kernel) : outcome Kernel :=
  match user_tasks with
  | [] => Done k
  | t :: user_tasks =>
      match rtems_task_create (task_name t) (task_initial_priority t) (task_stack_size t) (task_mode_set t)
              (task_attribute_set t) id_address k with
      | None => OutOfFuel
      | Some (return_value, k) =>
          if negb (return_value =? RTEMS_SUCCESSFUL)
          then _Internal_error_Occurred fatal_extensions INTERNAL_ERROR_RTEMS_API true return_value k
          else
            match rtems_task_start (ld32 (memory k) id_address) (task_entry_point t) (task_argument t) k with
            | None => OutOfFuel
            | Some (return_value, k) =>
                if negb (return_value =? RTEMS_SUCCESSFUL)
                then _Internal_error_Occurred fatal_extensions INTERNAL_ERROR_RTEMS_API true return_value k
                else create_and_start fatal_extensions id_address user_tasks k
            end
      end
  end.

(** No table, or an empty one: nothing to do. *)
Definition _RTEMS_tasks_Initialize_user_tasks (fatal_extensions : Internal_errors_Information -> Kernel -> Kernel) (id_address : Z)
    (user_tasks : option (list rtems_initialization_tasks_table)) (k : Kernel) : outcome Kernel :=
  match user_tasks with
  | None => Done k
  | Some tasks => create_and_start fatal_extensions id_address tasks k
  end.

Definition _RTEMS_tasks_Manager_initialization (fatal_extensions : Internal_errors_Information -> Kernel -> Kernel)
    (register_packet_processor : MP_packet_Classes -> Kernel -> Kernel) (sizeof_Thread_Control : Z)
    (_RTEMS_tasks_User_extensions _RTEMS_tasks_API_extensions maximum_tasks : Z) (k : Kernel) : outcome Kernel :=
  match initialize_class workspace hfuel fatal_extensions _Objects_Local_node _Objects_Maximum_nodes is_multiprocessing
          OBJECTS_RTEMS_TASKS true maximum_tasks sizeof_Thread_Control false RTEMS_MAXIMUM_NAME_LENGTH true k with
  | Done k =>
      let k := _User_extensions_Add_API_set _RTEMS_tasks_User_extensions k in
      let k := _API_extensions_Add _RTEMS_tasks_API_extensions k in
      Done (register_packet_processor MP_PACKET_TASKS k)
  | o => o
  end.
End Directives.
