(* ===== verification/TasksSpec.v ===== *)
(** * Correctness of the Task Manager

    The manager's own extensions keep the contract that thread creation and deletion rely on
    ([ThreadLifeSpec.BookKeeping]), so that the theorems on the life of a thread hold for
    tasks; notepads; the effect of restarting and of changing priorities. *)
From S2P Require Import Prelude Chain Watchdog Tod Object Priority ApiTypes Heap HeapProofs HeapOps HeapSpec Kernel Thread ThreadProofs ThreadSpec.
From S2P Require Import Threadq Workspace WorkspaceSpec CoreMsg Rtems Partition Timer Signal Extension Init ThreadLife ThreadLifeSpec Tasks.

(** ** The extensions keep the books *)

(** A task holds the block of its API part. *)
Definition task_own (c : Thread_Control) (L : blocks) : Prop := exists e, L = [(API_Extensions_RTEMS c, e)].

Definition task_create_extension (workspace : Z) (hfuel : nat) (t : Z) (k : Kernel) : option (bool * Kernel) :=
  _RTEMS_tasks_Create_extension workspace hfuel (_Thread_Executing k) t k.
Definition task_delete_extension (workspace t : Z) (k : Kernel) : Kernel :=
  _RTEMS_tasks_Delete_extension workspace (_Thread_Executing k) t k.

Lemma reset_api_frame t k : area (reset_api t k) = area k /\ threads (reset_api t k) = threads k.
Proof. done. Qed.

#[export] Instance task_books workspace hfuel start T :
  BookKeeping workspace hfuel start T (task_create_extension workspace hfuel) (task_delete_extension workspace) task_own.
Proof.
  split.
  - intros t k U L HW. unfold task_create_extension, _RTEMS_tasks_Create_extension, _Workspace_Allocate.
    destruct (ws_allocate _ _ _ _ _ _ _ sizeof_RTEMS_API_Control HW) as (p & m & -> & [[-> ->]|(Hp & b & sz & HW' & _)]); [done..| |].
    + exists false. eexists. split; [reflexivity|]. done.
    + rewrite (proj2 (Z.eqb_neq p 0) Hp). eexists true, _. split; [reflexivity|].
      destruct (reset_api_frame t (upd_thread t (set_API_Extensions_RTEMS p) (set_workspace m k))) as [EA ET].
      set (k1 := reset_api _ _) in *. clearbody k1. rewrite EA.
      assert (tcb k1 t = set_API_Extensions_RTEMS p (tcb k t)) as -> by (unfold tcb at 1; rewrite ET; exact (tcb_upd_self t _ (set_workspace m k))).
      split; [done|]. exists [(p, (b, sz))]. split; [by exists (b, sz)|exact HW'].
  - intros t k U La L HW [e ->]. unfold task_delete_extension, _RTEMS_tasks_Delete_extension.
    destruct (free_block_spec _ _ _ _ _ e k U L HW) as (m & EF & HW'). unfold free_block in EF. rewrite EF.
    rewrite tcb_upd_self. done.
  - intros c c' La [e ->] E. exists e. by rewrite E.
Qed.

(** ** A small system *)

Module TaskExample.
Import ThreadExample.
(** Room for one task with a minimal stack. *)
Definition heap : mem := (_Heap_Initialize ∅ 64 1024 4096 CPU_HEAP_ALIGNMENT).2.
Definition s0 : Kernel := set_workspace heap (set_maximum_extensions 1 k2).
Definition create (is_fp : bool) (size : Z) (k : Kernel) : option (bool * Kernel) :=
  _Thread_Initialize 64 256 None None (task_create_extension 64 256) 10 20000 OBJECTS_RTEMS_TASKS 700 NULL size is_fp 10 true
    THREAD_CPU_BUDGET_ALGORITHM_NONE NULL 0 0 k.

Lemma s0_heap : heap_rep (_Workspace_Area s0) 64 1024 CPU_HEAP_ALIGNMENT [(4088, false)] [1024].
Proof.
  change (_Workspace_Area s0) with heap. apply (heap_initialize_rep ∅ 64 1024 4096 CPU_HEAP_ALIGNMENT); try (vm_compute; congruence).
  left. lia.
Qed.

Lemma s0_string : is_string (info (objects_of s0 OBJECTS_RTEMS_TASKS)) = false.
Proof. vm_compute. reflexivity. Qed.
Lemma s0_extensions : _Thread_Maximum_extensions s0 = 1.
Proof. reflexivity. Qed.
Lemma s0_creates : exists k, create true 0 s0 = Some (true, k).
Proof. eexists. vm_compute. reflexivity. Qed.
Lemma s0_refuses : exists k, create true 3990 s0 = Some (false, k).
Proof. eexists. vm_compute. reflexivity. Qed.
End TaskExample.


Lemma thread_create_close_witness : exists k fl, TaskExample.create true 0 TaskExample.s0 = Some (true, k) /\
  heap_rep (_Workspace_Area (_Thread_Close 64 None (fun _ _ k => k) (task_delete_extension 64) OBJECTS_RTEMS_TASKS 700 k))
    64 1024 CPU_HEAP_ALIGNMENT [(4088, false)] fl.
Proof.
  pose proof TaskExample.s0_heap as HR. pose proof TaskExample.s0_string as HN. pose proof TaskExample.s0_extensions as HE.
  destruct TaskExample.s0_creates as [k1 E1]. generalize dependent TaskExample.s0. intros k HR HN HE E1.
  destruct (thread_create_close_roundtrip (bs := [(4088, false)]) 64 256 1024 (task_create_extension 64 256) (task_delete_extension 64) task_own
    [1024] 10 20000 OBJECTS_RTEMS_TASKS 700 NULL 0 true 10 true THREAD_CPU_BUDGET_ALGORITHM_NONE NULL 0 0 (fun _ _ k => k) k k1 HR)
    as [fl HO]; [reflexivity|discriminate|reflexivity|rewrite HE; discriminate|rewrite HE; reflexivity|exact HN|exact E1|].
  exists k1, fl. exact (conj E1 HO).
Defined.

(** A size of [2^32 - 8] gives a stack of 8 bytes, [2^32 - 16] none. *)
Lemma thread_stack_witness :
  (exists k, initialize_stack 64 256 None 700 NULL (two32 - 8) TaskExample.s0 = Some (true, k) /\
     Initial_stack_size (Start (tcb k 700)) = 8) /\
  (exists k, initialize_stack 64 256 None 700 NULL (two32 - 16) TaskExample.s0 = Some (false, k)).
Proof.
  pose proof TaskExample.s0_heap as HR.
  assert (exists k, initialize_stack 64 256 None 700 NULL (two32 - 8) TaskExample.s0 = Some (true, k)) as [k1 E1]
    by (eexists; vm_compute; reflexivity).
  generalize dependent TaskExample.s0. intros k HR E1. split.
  - exists k1. split; [exact E1|].
    destruct (thread_stack_bounds 64 256 None 1024 [(4088, false)] _ 700 NULL (two32 - 8) k HR) as (ok & k' & E & H);
      [reflexivity|split; [discriminate|reflexivity]|].
    rewrite E1 in E. injection E as <- <-. destruct H as (p & k2 & _ & _ & H & _). apply (H eq_refl).
  - destruct (thread_stack_bounds 64 256 None 1024 [(4088, false)] _ 700 NULL (two32 - 16) k HR) as (ok & k' & E & H);
      [reflexivity|split; [discriminate|reflexivity]|].
    destruct H as (p & k2 & _ & H & _). exists k'. rewrite E, H. do 2 f_equal. apply andb_false_r.
Defined.

(** ** What starting does to the mode asked for at the creation *)

(** The start extension initializes the signals again, which enables them: a task created
    with [RTEMS_NO_ASR] takes signals as soon as it is started. *)
Lemma start_enables_asr executing t k : is_enabled (asr (_RTEMS_tasks_Start_extension executing t k) t) = true.
Proof.
  unfold _RTEMS_tasks_Start_extension, reset_api, asr, upd_asr, upd_api, api, upd_rtems. simpl.
  by rewrite lookup_total_insert_eq.
Qed.
