(* ===== verification/IO.v ===== *)
(** * I/O Manager (sapi/src/io.c)

    The tables of device drivers and of device names.  A driver entry point is named by its
    address and called by [call]; a name is a pointer to a string in the memory of bytes:
    the table keeps the caller's pointer, and the length at the time of registration. *)
From S2P Require Import Prelude Chain Heap Watchdog Priority Object ApiTypes Kernel Workspace Thread CoreMsg Rtems.

Record rtems_driver_address_table : Type := {
  initialization : Z;
  open : Z;
  close : Z;
  read : Z;
  write : Z;
  control : Z
}.

Record rtems_driver_name_t : Type := {
  device_name : Z;
  device_name_length : Z;
  major : Z;
  minor : Z
}.

Record IO_State : Type := {
  _IO_Number_of_drivers : Z;
  _IO_Driver_address_table : list rtems_driver_address_table;
  _IO_Number_of_devices : Z;
  _IO_Driver_name_table : list rtems_driver_name_t
}.

Definition no_name : rtems_driver_name_t := {| device_name := 0; device_name_length := 0; major := 0; minor := 0 |}.
Definition no_driver : rtems_driver_address_table :=
  {| initialization := 0; open := 0; close := 0; read := 0; write := 0; control := 0 |}.
Definition name_at (s : IO_State) (index : nat) : rtems_driver_name_t := nth index (_IO_Driver_name_table s) no_name.
Definition set_name_at (index : nat) (v : rtems_driver_name_t) (s : IO_State) : IO_State :=
  {| _IO_Number_of_drivers := _IO_Number_of_drivers s; _IO_Driver_address_table := _IO_Driver_address_table s;
     _IO_Number_of_devices := _IO_Number_of_devices s;
     _IO_Driver_name_table := <[index := v]> (_IO_Driver_name_table s) |}.

(** ** Strings (string.h) *)

Fixpoint strlen (fuel : nat) (m : gmap Z Z) (p : Z) : option Z :=
  match fuel with
  | O => None
  | S fuel =>
      if m !!! p =? 0 then Some 0
      else match strlen fuel m (p + 1) with None => None | Some n => Some (n + 1) end
  end.

Fixpoint strncmp (n : nat) (m : gmap Z Z) (p q : Z) : Z :=
  match n with
  | O => 0
  | S n =>
      if negb (m !!! p =? m !!! q) then m !!! p - m !!! q
      else if m !!! p =? 0 then 0
      else strncmp n m (p + 1) (q + 1)
  end.

(** ** Initialization *)

Definition sizeof_rtems_driver_name_t : Z := 16.

(** The table has a row more than it has names. *)
Definition _IO_Manager_initialization (workspace : Z) (hfuel : nat) (fatal_extensions : Internal_errors_Information -> Kernel -> Kernel)
    (driver_table : list rtems_driver_address_table) (number_of_drivers number_of_devices : Z) (k : Kernel) : outcome (IO_State * Kernel) :=
  match _Workspace_Allocate_or_fatal_error workspace hfuel fatal_extensions
          (sizeof_rtems_driver_name_t *w (number_of_devices +w 1)) k with
  | OutOfFuel => OutOfFuel
  | Fatal what k => Fatal what k
  | Done (_, k) =>
      Done ({| _IO_Number_of_drivers := number_of_drivers; _IO_Driver_address_table := driver_table;
               _IO_Number_of_devices := number_of_devices;
               _IO_Driver_name_table := replicate (Z.to_nat number_of_devices) no_name |}, k)
  end.

(** ** Names *)

(** The search for an empty slot, from [index]: each look at a slot is a step of its own,
    [isrs] are the interrupts that are taken before them. *)
Fixpoint find_slot (n : nat) (isrs : list (IO_State -> IO_State)) (index : nat) (v : rtems_driver_name_t) (s : IO_State)
  : Z * IO_State :=
  match n with
  | O => (RTEMS_TOO_MANY, s)
  | S n =>
      let s := hd id isrs s in
      if device_name (name_at s index) =? 0 then (RTEMS_SUCCESSFUL, set_name_at index v s)
      else find_slot n (tl isrs) (S index) v s
  end.

Definition rtems_io_register_name (fuel : nat) (isrs : list (IO_State -> IO_State)) (m : gmap Z Z) (name major minor : Z) (s : IO_State)
  : option (Z * IO_State) :=
  match strlen fuel m name with
  | None => None
  | Some length =>
      Some (find_slot (Z.to_nat (_IO_Number_of_devices s)) isrs 0
              {| device_name := name; device_name_length := length; major := major; minor := minor |} s)
  end.

(** The row with the name, by its index: [None] for the null pointer. *)
Fixpoint find_name (n : nat) (index : nat) (m : gmap Z Z) (name : Z) (s : IO_State) : Z * option nat :=
  match n with
  | O => (RTEMS_UNSATISFIED, None)
  | S n =>
      let np := name_at s index in
      if negb (device_name np =? 0) && (strncmp (Z.to_nat (device_name_length np)) m (device_name np) name =? 0)
      then (RTEMS_SUCCESSFUL, Some index)
      else find_name n (S index) m name s
  end.
Definition rtems_io_lookup_name (m : gmap Z Z) (name : Z) (s : IO_State) : Z * option nat :=
  find_name (Z.to_nat (_IO_Number_of_devices s)) 0 m name s.

(** ** Requests to drivers *)

Section Requests.
Context (call : Z -> Z -> Z -> Z -> Kernel -> Z * Kernel).

Definition io_request (entry : rtems_driver_address_table -> Z) (s : IO_State) (major minor argument : Z) (k : Kernel) : Z * Kernel :=
  if _IO_Number_of_drivers s <=? major then (RTEMS_INVALID_NUMBER, k)
  else
    let callout := entry (nth (Z.to_nat major) (_IO_Driver_address_table s) no_driver) in
    if negb (callout =? 0) then call callout major minor argument k else (RTEMS_SUCCESSFUL, k).

Definition rtems_io_initialize : IO_State -> Z -> Z -> Z -> Kernel -> Z * Kernel := io_request initialization.
Definition rtems_io_open : IO_State -> Z -> Z -> Z -> Kernel -> Z * Kernel := io_request open.
Definition rtems_io_close : IO_State -> Z -> Z -> Z -> Kernel -> Z * Kernel := io_request close.
Definition rtems_io_read : IO_State -> Z -> Z -> Z -> Kernel -> Z * Kernel := io_request read.
Definition rtems_io_write : IO_State -> Z -> Z -> Z -> Kernel -> Z * Kernel := io_request write.
Definition rtems_io_control : IO_State -> Z -> Z -> Z -> Kernel -> Z * Kernel := io_request control.

(** The answers of the drivers are not looked at. *)
Definition _IO_Initialize_all_drivers (s : IO_State) (k : Kernel) : Kernel :=
  fold_left (fun k i => (rtems_io_initialize s (Z.of_nat i) 0 NULL k).2) (seq 0 (Z.to_nat (_IO_Number_of_drivers s))) k.
End Requests.

(** * Correctness of the names: registration under interrupts that register names too, and what a look-up finds *)

(** ** Strings *)

(** The string at [p] is [l]. *)
Fixpoint str (m : gmap Z Z) (p : Z) (l : list Z) : Prop :=
  match l with
  | [] => m !!! p = 0
  | b :: l => b <> 0 /\ m !!! p = b /\ str m (p + 1) l
  end.

Lemma strlen_str m l : forall fuel p, str m p l -> (length l < fuel)%nat -> strlen fuel m p = Some (Z.of_nat (length l)).
Proof.
  induction l as [|b l IH]; intros [|fuel] p HS Hf; simpl in *; try lia; [by rewrite HS|].
  destruct HS as (Hb & E & HS). rewrite E, (proj2 (Z.eqb_neq b 0) Hb), (IH fuel (p + 1) HS) by lia. f_equal. lia.
Qed.

Lemma strncmp_prefix m l : forall l' p q, str m p l -> str m q l' -> strncmp (length l) m p q = 0 <-> l `prefix_of` l'.
Proof.
  induction l as [|b l IH]; intros l' p q HP HQ; simpl; [split; [intros _; apply prefix_nil|done]|].
  destruct HP as (Hb & E & HP). rewrite E. destruct l' as [|b' l'].
  - simpl in HQ. rewrite HQ, (proj2 (Z.eqb_neq b 0) Hb). simpl. split; [lia|]. by intros ?%prefix_nil_inv.
  - destruct HQ as (Hb' & E' & HQ). rewrite E'. destruct (Z.eqb_spec b b') as [<-|Hne]; simpl.
    + rewrite (proj2 (Z.eqb_neq b 0) Hb), (IH l' (p + 1) (q + 1) HP HQ). split; [by apply prefix_cons|by apply prefix_cons_inv_2].
    + split; [lia|]. by intros ?%prefix_cons_inv_1.
Qed.

(** ** Look-up *)

(** [names] are the names in the table, [None] for an empty slot. *)
Definition row_ok (m : gmap Z Z) (np : rtems_driver_name_t) (o : option (list Z)) : Prop :=
  match o with
  | None => device_name np = 0
  | Some l => device_name np <> 0 /\ device_name_length np = Z.of_nat (length l) /\ str m (device_name np) l
  end.
Record names_ok (m : gmap Z Z) (s : IO_State) (names : list (option (list Z))) : Prop := {
  no_rows : Forall2 (row_ok m) (_IO_Driver_name_table s) names;
  no_number : _IO_Number_of_devices s = Z.of_nat (length names)
}.

(** The first name that is the beginning of [name]. *)
Fixpoint owner (name : list Z) (names : list (option (list Z))) : option nat :=
  match names with
  | [] => None
  | Some l :: names => if decide (l `prefix_of` name) then Some 0%nat else S <$> owner name names
  | None :: names => S <$> owner name names
  end.

Lemma find_name_spec m name l s rows names : str m name l -> Forall2 (row_ok m) rows names ->
  forall pre, _IO_Driver_name_table s = pre ++ rows ->
  find_name (length names) (length pre) m name s =
    match owner l names with Some i => (RTEMS_SUCCESSFUL, Some (length pre + i)%nat) | None => (RTEMS_UNSATISFIED, None) end.
Proof.
  intros HS HF. induction HF as [|np o rows names HR HF IH]; intros pre E; [done|]. simpl.
  assert (name_at s (length pre) = np) as -> by (unfold name_at; rewrite E; apply nth_middle).
  assert (find_name (length names) (S (length pre)) m name s =
    match S <$> owner l names with Some i => (RTEMS_SUCCESSFUL, Some (length pre + i)%nat) | None => (RTEMS_UNSATISFIED, None) end) as IH'.
  { specialize (IH (pre ++ [np])). rewrite length_app in IH. simpl in IH. rewrite Nat.add_1_r in IH. rewrite IH by (by rewrite E, <- app_assoc).
    destruct (owner l names); simpl; [|done]. do 2 f_equal. lia. }
  destruct o as [l0|]; simpl in HR; [|by rewrite HR].
  destruct HR as (H0 & HL & H1). rewrite (proj2 (Z.eqb_neq _ _) H0), HL, Nat2Z.id. simpl.
  pose proof (strncmp_prefix m l0 l _ _ H1 HS) as HP. case_decide as HD.
  - rewrite (proj2 HP HD). simpl. by rewrite Nat.add_0_r.
  - destruct (Z.eqb_spec (strncmp (length l0) m (device_name np) name) 0) as [E0|_]; [by apply HP in E0|done].
Qed.

(** A look-up finds the first device whose registered name is the beginning of the name that
    is asked for, not the device with that name: a device that was registered under a
    longer name behind it cannot be found. *)
Theorem io_lookup_first_prefix m name l s names : str m name l -> names_ok m s names ->
  rtems_io_lookup_name m name s =
    match owner l names with Some i => (RTEMS_SUCCESSFUL, Some i) | None => (RTEMS_UNSATISFIED, None) end.
Proof.
  intros HS [HR HN]. unfold rtems_io_lookup_name. rewrite HN, Nat2Z.id.
  exact (find_name_spec m name l s _ names HS HR [] eq_refl).
Qed.

Lemma io_lookup_shadowed :
  let m := list_to_map [(100, 116); (101, 0); (200, 116); (201, 48); (202, 0)] in
  let s := {| _IO_Number_of_drivers := 0; _IO_Driver_address_table := []; _IO_Number_of_devices := 2;
              _IO_Driver_name_table := [{| device_name := 100; device_name_length := 1; major := 1; minor := 0 |};
                                        {| device_name := 200; device_name_length := 2; major := 2; minor := 0 |}] |} in
  rtems_io_lookup_name m 200 s = (RTEMS_SUCCESSFUL, Some 0%nat).
Proof.
  intros m s. assert (forall l, owner [116; 48] (Some [116] :: l) = Some 0%nat) as E.
  { intros l. cbn [owner]. rewrite decide_True; [done|]. by exists [48]. }
  rewrite (io_lookup_first_prefix m 200 [116; 48] s [Some [116]; Some [116; 48]]); [by rewrite E|by vm_compute|].
  split; [|done]. repeat constructor; vm_compute; done.
Qed.

(** ** Registration *)

(** What interrupts may do to the table: register names in empty slots. *)
Definition registers_only (isr : IO_State -> IO_State) : Prop := forall s,
  length (_IO_Driver_name_table (isr s)) = length (_IO_Driver_name_table s) /\
  forall i, device_name (name_at s i) <> 0 -> name_at (isr s) i = name_at s i.

Lemma hd_registers isrs : Forall registers_only isrs -> registers_only (hd id isrs).
Proof. intros [|isr isrs' H _]; [by intros s|done]. Qed.

Lemma name_at_set i j v s : (i < length (_IO_Driver_name_table s))%nat ->
  name_at (set_name_at i v s) j = if decide (j = i) then v else name_at s j.
Proof.
  intros Hi. unfold name_at. simpl. rewrite !nth_lookup. case_decide as E; [subst; by rewrite list_lookup_insert_eq|].
  by rewrite list_lookup_insert_ne.
Qed.

Lemma find_slot_spec v : forall n isrs index s, Forall registers_only isrs ->
  (index + n <= length (_IO_Driver_name_table s))%nat ->
  let '(status, s') := find_slot n isrs index v s in
  (forall j, device_name (name_at s j) <> 0 -> name_at s' j = name_at s j) /\
  (status = RTEMS_SUCCESSFUL /\ (exists i, (index <= i < index + n)%nat /\ device_name (name_at s i) = 0 /\ name_at s' i = v) \/
   status = RTEMS_TOO_MANY /\ forall i, (index <= i < index + n)%nat -> device_name (name_at s' i) <> 0).
Proof.
  induction n as [|n IH]; intros isrs index s HI HL; [split; [done|right; split; [done|lia]]|]. simpl.
  destruct (hd_registers isrs HI s) as [EL HK]. set (s1 := hd id isrs s) in *. clearbody s1.
  destruct (Z.eqb_spec (device_name (name_at s1 index)) 0) as [E0|E0].
  - assert (device_name (name_at s index) = 0) as E1.
    { destruct (decide (device_name (name_at s index) = 0)) as [|H]; [done|]. rewrite (HK _ H) in E0. done. }
    split; [|left; split; [done|]; exists index; split_and!; [lia|lia|done|]].
    + intros j Hj. rewrite name_at_set by lia. case_decide as Ej; [by subst|by apply HK].
    + rewrite name_at_set by lia. by rewrite decide_True.
  - specialize (IH (tl isrs) (S index) s1). destruct (find_slot n (tl isrs) (S index) v s1) as [status s'].
    destruct IH as [H1 H2]; [by destruct HI|lia|]. split; [intros j Hj; rewrite H1; [by apply HK|by rewrite HK]|].
    destruct H2 as [(-> & i & Hi & Hf & Hv)|(-> & Ha)]; [left|right]; (split; [done|]).
    + exists i. split_and!; [lia|lia| |done]. destruct (decide (device_name (name_at s i) = 0)) as [|H]; [done|].
      rewrite (HK _ H) in Hf. done.
    + intros i Hi. destruct (decide (i = index)) as [-> |]; [by rewrite H1|apply Ha; lia].
Qed.

(** Registering a name never overwrites another, whatever is registered by interrupts while
    it looks for a slot: it takes a slot that was empty, or reports that all are taken. *)
Theorem io_register_keeps_names fuel isrs m name l major minor s :
  str m name l -> (length l < fuel)%nat -> Forall registers_only isrs ->
  _IO_Number_of_devices s = Z.of_nat (length (_IO_Driver_name_table s)) ->
  let v := {| device_name := name; device_name_length := Z.of_nat (length l); major := major; minor := minor |} in
  exists status s', rtems_io_register_name fuel isrs m name major minor s = Some (status, s') /\
    (forall j, device_name (name_at s j) <> 0 -> name_at s' j = name_at s j) /\
    (status = RTEMS_SUCCESSFUL /\ (exists i, device_name (name_at s i) = 0 /\ name_at s' i = v) \/
     status = RTEMS_TOO_MANY /\ forall i, (i < length (_IO_Driver_name_table s))%nat -> device_name (name_at s' i) <> 0).
Proof.
  intros HS Hf HI HN v. unfold rtems_io_register_name. rewrite (strlen_str m l fuel name HS Hf), HN, Nat2Z.id. fold v.
  pose proof (find_slot_spec v (length (_IO_Driver_name_table s)) isrs 0 s HI ltac:(lia)) as H.
  destruct (find_slot _ _ _ _ _) as [status s']. exists status, s'. split; [done|]. destruct H as [H1 H2]. split; [done|].
  destruct H2 as [(-> & i & _ & Hf' & Hv)|(-> & Ha)]; [left; eauto|right]. split; [done|]. intros i Hi. apply Ha. lia.
Qed.
