(* ===== verification/ObjectMP.v ===== *)
(** * Global objects (score/src/objectmp.c, score/inline/objectmp.inl)

    Every class keeps, for each node, the chain of that node's global objects
    ([Object.global_table]); their control blocks come from one pool of inactive blocks.
    [MP_State] is the pool.  A control block on a chain is the record of its address, id and
    name; one in the pool is its address. *)
From S2P Require Import Prelude Chain Watchdog Object ObjectSpec Priority Heap Kernel Workspace.

Definition INTERNAL_ERROR_OUT_OF_GLOBAL_OBJECTS : Z := 12.
Definition INTERNAL_ERROR_INVALID_GLOBAL_ID : Z := 14.
Definition INTERNAL_ERROR_INVALID_NODE : Z := 8.
Definition sizeof_Objects_MP_Control : Z := 20.

Record MP_State : Type := {
  _Objects_MP_Maximum_global_objects : Z;
  _Objects_MP_Inactive_global_objects : list Z
}.

Definition set_Inactive_global (l : list Z) (s : MP_State) : MP_State :=
  {| _Objects_MP_Maximum_global_objects := _Objects_MP_Maximum_global_objects s; _Objects_MP_Inactive_global_objects := l |}.
Definition set_global_table (g : gmap Z (list Objects_MP_Control)) (i : Objects_Information) : Objects_Information :=
  {| the_class := the_class i; minimum_id := minimum_id i; maximum_id := maximum_id i; maximum := maximum i;
     local_table := local_table i; name_table := name_table i; global_table := Some g; Inactive := Inactive i;
     is_string := is_string i; name_length := name_length i; is_thread := is_thread i |}.

(** ** The pool (objectmp.inl) *)

Definition _Objects_MP_Allocate_global_object (s : MP_State) : Z * MP_State :=
  match _Objects_MP_Inactive_global_objects s with
  | [] => (NULL, s)
  | g :: l => (g, set_Inactive_global l s)
  end.
Definition _Objects_MP_Free_global_object (the_object : Z) (s : MP_State) : MP_State :=
  set_Inactive_global (ListChain.append (_Objects_MP_Inactive_global_objects s) the_object) s.
Definition _Objects_MP_Is_null_global_object (the_object : Z) : bool := the_object =? NULL.

Section MP.
Context (workspace : Z) (hfuel : nat) (fatal_extensions : Internal_errors_Information -> Kernel -> Kernel).

Definition _Objects_MP_Handler_initialization (maximum_global_objects : Z) (k : Kernel) : outcome (MP_State * Kernel) :=
  if maximum_global_objects =? 0
  then Done ({| _Objects_MP_Maximum_global_objects := 0; _Objects_MP_Inactive_global_objects := [] |}, k)
  else
    match _Workspace_Allocate_or_fatal_error workspace hfuel fatal_extensions (maximum_global_objects *w sizeof_Objects_MP_Control) k with
    | OutOfFuel => OutOfFuel
    | Fatal what k => Fatal what k
    | Done (area, k) =>
        Done ({| _Objects_MP_Maximum_global_objects := maximum_global_objects;
                 _Objects_MP_Inactive_global_objects := block_array area sizeof_Objects_MP_Control (Z.to_nat maximum_global_objects) |}, k)
    end.

(** The nodes of the system, and the pool (object.c). *)
Definition _Objects_Handler_initialization (node maximum_nodes maximum_global_objects : Z) (k : Kernel)
  : outcome (Z * Z * MP_State * Kernel) :=
  if (node <? 1) || (maximum_nodes <? node)
  then _Internal_error_Occurred fatal_extensions INTERNAL_ERROR_CORE true INTERNAL_ERROR_INVALID_NODE k
  else
    match _Objects_MP_Handler_initialization maximum_global_objects k with
    | OutOfFuel => OutOfFuel
    | Fatal what k => Fatal what k
    | Done (s, k) => Done (node, maximum_nodes, s, k)
    end.

(** ** Opening and closing *)

Definition global_chain (i : Objects_Information) (node : Z) : list Objects_MP_Control :=
  match global_table i with Some g => g !!! node | None => [] end.
Definition put_global_chain (node : Z) (l : list Objects_MP_Control) (i : Objects_Information) : Objects_Information :=
  match global_table i with Some g => set_global_table (<[node := l]> g) i | None => i end.

Definition _Objects_MP_Open (the_global_object the_name the_id : Z) (i : Objects_Information) : Objects_Information :=
  let node := _Objects_Get_node the_id in
  put_global_chain node ({| mp_object := the_global_object; mp_id := the_id; mp_name := the_name |} :: global_chain i node) i.

Definition _Objects_MP_Allocate_and_open (the_name the_id : Z) (is_fatal_error : bool) (i : Objects_Information) (s : MP_State) (k : Kernel)
  : outcome (bool * Objects_Information * MP_State) :=
  let '(the_global_object, s) := _Objects_MP_Allocate_global_object s in
  if _Objects_MP_Is_null_global_object the_global_object then
    if negb is_fatal_error then Done (false, i, s)
    else _Internal_error_Occurred fatal_extensions INTERNAL_ERROR_CORE true INTERNAL_ERROR_OUT_OF_GLOBAL_OBJECTS k
  else Done (true, _Objects_MP_Open the_global_object the_name the_id i, s).

(** The chain without the first entry with the id, and the block of that entry. *)
Fixpoint mp_extract (l : list Objects_MP_Control) (the_id : Z) : option (Z * list Objects_MP_Control) :=
  match l with
  | [] => None
  | g :: l =>
      if _Objects_Are_ids_equal (mp_id g) the_id then Some (mp_object g, l)
      else match mp_extract l the_id with None => None | Some (b, l) => Some (b, g :: l) end
  end.

Definition _Objects_MP_Close (the_id : Z) (i : Objects_Information) (s : MP_State) (k : Kernel) : outcome (Objects_Information * MP_State) :=
  let node := _Objects_Get_node the_id in
  match mp_extract (global_chain i node) the_id with
  | None => _Internal_error_Occurred fatal_extensions INTERNAL_ERROR_CORE true INTERNAL_ERROR_INVALID_GLOBAL_ID k
  | Some (the_object, l) => Done (put_global_chain node l i, _Objects_MP_Free_global_object the_object s)
  end.
End MP.

(** ** The pool and the chains share the blocks *)

(** The blocks on the chains of a table. *)
Definition chained (g : gmap Z (list Objects_MP_Control)) : list Z :=
  concat (map (fun e : Z * list Objects_MP_Control => map mp_object e.2) (map_to_list g)).
Definition on_chains (i : Objects_Information) : list Z := match global_table i with Some g => chained g | None => [] end.

(** Every control block of the pool is on the inactive chain or on the chain of one node. *)
Definition mp_conserved (blocks : list Z) (i : Objects_Information) (s : MP_State) : Prop :=
  is_Some (global_table i) /\ _Objects_MP_Inactive_global_objects s ++ on_chains i ≡ₚ blocks.

Lemma chained_perm (g : gmap Z (list Objects_MP_Control)) l : map_to_list g ≡ₚ l ->
  chained g ≡ₚ concat (map (fun e : Z * list Objects_MP_Control => map mp_object e.2) l).
Proof. intros E. unfold chained. by rewrite E. Qed.

Lemma chained_insert node l g : chained (<[node := l]> g) ≡ₚ map mp_object l ++ chained (delete node g).
Proof.
  rewrite <- insert_delete_eq. rewrite (chained_perm _ ((node, l) :: map_to_list (delete node g))); [done|].
  apply map_to_list_insert, lookup_delete_eq.
Qed.

Lemma chained_split node g : chained g ≡ₚ map mp_object (g !!! node) ++ chained (delete node g).
Proof.
  unfold lookup_total, map_lookup_total. destruct (g !! node) as [l|] eqn:E; simpl.
  - rewrite <- (insert_id g node l E) at 1. apply chained_insert.
  - by rewrite delete_id.
Qed.

Lemma put_chain_chained node l i g : global_table i = Some g ->
  on_chains (put_global_chain node l i) ≡ₚ map mp_object l ++ chained (delete node g).
Proof. intros E. unfold put_global_chain, on_chains. rewrite E. simpl. apply chained_insert. Qed.

Lemma mp_extract_spec l id : match mp_extract l id with
  | Some (b, l') => map mp_object l ≡ₚ b :: map mp_object l' /\ exists g, mp_find_id l id = Some g /\ mp_object g = b
  | None => mp_find_id l id = None
  end.
Proof.
  induction l as [|g l IH]; simpl; [done|]. destruct (_Objects_Are_ids_equal (mp_id g) id); [eauto|].
  destruct (mp_extract l id) as [[b l']|]; [|done]. destruct IH as [E (g' & F & Eb)]. split; [|eauto].
  simpl. rewrite E. apply Permutation_swap.
Qed.

Section Conserved.
Context (fatal_extensions : Internal_errors_Information -> Kernel -> Kernel) (blocks : list Z) (i : Objects_Information) (s : MP_State).
Context (HC : mp_conserved blocks i s).

(** Announcing a global object takes a block from the pool, and the id then names a remote
    object. *)
Lemma mp_open_conserved name id fatal k i' s' :
  _Objects_MP_Allocate_and_open fatal_extensions name id fatal i s k = Done (true, i', s') -> mp_conserved blocks i' s'.
Proof using HC.
  destruct HC as [[g EG] HP]. unfold _Objects_MP_Allocate_and_open, _Objects_MP_Allocate_global_object.
  destruct (_Objects_MP_Inactive_global_objects s) as [|b l] eqn:EI; simpl; [by destruct fatal|].
  unfold _Objects_MP_Is_null_global_object. destruct (b =? NULL); [by destruct fatal|]. intros [= <- <-].
  unfold _Objects_MP_Open, global_chain. rewrite EG. set (node := _Objects_Get_node id). clearbody node. split; [unfold put_global_chain; rewrite EG; by eexists|].
  rewrite put_chain_chained by done. simpl. unfold on_chains in HP. rewrite EG, (chained_split node g) in HP.
  rewrite <- HP. simpl. by rewrite <- Permutation_middle.
Qed.

Lemma mp_close_conserved id k i' s' :
  _Objects_MP_Close fatal_extensions id i s k = Done (i', s') -> mp_conserved blocks i' s'.
Proof using HC.
  destruct HC as [[g EG] HP]. unfold _Objects_MP_Close, global_chain. rewrite EG.
  set (node := _Objects_Get_node id). clearbody node. pose proof (mp_extract_spec (g !!! node) id) as HX.
  destruct (mp_extract _ id) as [[b l]|]; [|done]. destruct HX as [EX _]. intros [= <- <-].
  split; [unfold put_global_chain; rewrite EG; by eexists|]. rewrite put_chain_chained by done.
  unfold on_chains in HP. rewrite EG, (chained_split node g), EX in HP. rewrite <- HP. simpl.
  unfold ListChain.append. rewrite <- app_assoc. simpl. done.
Qed.
End Conserved.

(** What a node announces is found: after a global object of another node has been opened,
    its id is that of a remote object, and after it has been closed the id is unknown again,
    if it was before. *)
Theorem mp_announced_is_remote local nodes (T : Type) (disable enable unnest : T -> T) fatal_extensions b name id i s k (t : T) :
  is_Some (global_table i) -> let node := _Objects_Get_node id in
  1 <= node <= nodes -> node <> local ->
  let i1 := _Objects_MP_Open b name id i in
  (_Objects_MP_Is_remote local nodes disable enable unnest i1 id t).1 = (OBJECTS_REMOTE, b) /\
  exists i2, _Objects_MP_Close fatal_extensions id i1 s k = Done (i2, _Objects_MP_Free_global_object b s) /\
    global_chain i2 node = global_chain i node.
Proof.
  intros [g EG] node Hn Hl i1.
  assert (global_table i1 = Some (<[node := {| mp_object := b; mp_id := id; mp_name := name |} :: g !!! node]> g)) as E1.
  { unfold i1, _Objects_MP_Open, put_global_chain, global_chain. by rewrite EG. }
  split.
  - unfold _Objects_MP_Is_remote. rewrite E1. fold node. unfold _Objects_Is_local_node.
    rewrite (proj2 (Z.eqb_neq node 0)), (proj2 (Z.eqb_neq node local) Hl), (proj2 (Z.ltb_ge nodes node)) by lia. cbn [orb].
    rewrite lookup_total_insert_eq. cbn [mp_find_id mp_id]. unfold _Objects_Are_ids_equal. by rewrite Z.eqb_refl.
  - unfold _Objects_MP_Close, global_chain. rewrite E1. fold node. rewrite lookup_total_insert_eq. cbn [mp_extract mp_id].
    unfold _Objects_Are_ids_equal. rewrite Z.eqb_refl. eexists. split; [reflexivity|].
    unfold put_global_chain. rewrite E1, EG. cbn [global_table set_global_table]. by rewrite lookup_total_insert_eq.
Qed.
