(* ===== verification/Exinit.v ===== *)
(** * Executive initialization (sapi/src/exinit.c, rtemsapi.c, debug.c, fatal.c, score/src/isr.c, score/inline/sysstate.inl)

    The start of the system from the configuration tables, for the RTEMS API.  The drivers,
    the hooks of the tables and of the APIs, the sizes of the control blocks and the
    multiprocessing layer are parameters; a fatal error ends the initialization. *)
From S2P Require Import Prelude Chain Watchdog Tod Object Priority ApiTypes Heap Kernel Thread Threadq Workspace CoreMsg Rtems.
From S2P Require Import Extension Init ThreadLife Signal Partition Timer Tasks IO ObjectMP Event.

(** ** The system state (sysstate.inl) *)

Inductive System_state_Codes : Type :=
| SYSTEM_STATE_BEFORE_INITIALIZATION
| SYSTEM_STATE_BEFORE_MULTITASKING
| SYSTEM_STATE_BEGIN_MULTITASKING
| SYSTEM_STATE_UP
| SYSTEM_STATE_SHUTDOWN
| SYSTEM_STATE_FAILED.
#[export] Instance System_state_Codes_dec : EqDecision System_state_Codes.
Proof. solve_decision. Defined.

(** ** The configuration tables (config.h) *)

Record rtems_multiprocessing_table : Type := {
  mp_node : Z;
  mp_maximum_nodes : Z;
  mp_maximum_global_objects : Z;
  mp_maximum_proxies : Z;
  User_mpci_table : bool
}.
Definition _Initialization_Default_multiprocessing_table : rtems_multiprocessing_table :=
  {| mp_node := 1; mp_maximum_nodes := 1; mp_maximum_global_objects := 0; mp_maximum_proxies := 0; User_mpci_table := false |}.

Record rtems_api_configuration_table : Type := {
  maximum_tasks : Z;
  maximum_timers : Z;
  maximum_semaphores : Z;
  maximum_message_queues : Z;
  maximum_partitions : Z;
  maximum_regions : Z;
  maximum_ports : Z;
  maximum_periods : Z;
  User_initialization_tasks_table : option (list rtems_initialization_tasks_table)
}.

Record rtems_configuration_table : Type := {
  work_space_start : Z;
  work_space_size : Z;
  maximum_extensions : Z;
  microseconds_per_tick : Z;
  ticks_per_timeslice : Z;
  maximum_devices : Z;
  number_of_device_drivers : Z;
  Device_driver_table : list rtems_driver_address_table;
  User_extension_table : option (list User_extensions_Table);
  User_multiprocessing_table : option rtems_multiprocessing_table;
  RTEMS_api_configuration : rtems_api_configuration_table
}.

(** The hooks are the addresses of routines, 0 for none. *)
Record rtems_cpu_table : Type := {
  pretasking_hook : Z;
  predriver_hook' : Z;
  postdriver_hook' : Z;
  idle_task : Z;
  do_zero_of_workspace : bool;
  idle_task_stack_size : Z;
  interrupt_stack_size : Z
}.

(** What the initialization sets up beside the state of the executive. *)
Record Executive : Type := {
  _System_state_Current : System_state_Codes;
  _System_state_Is_multiprocessing : bool;
  _Debug_Level : Z;
  local_node : Z;
  maximum_nodes : Z;
  global_objects : MP_State;
  io : IO_State;
  kernel : Kernel
}.
Definition _System_state_Set (state : System_state_Codes) (e : Executive) : Executive :=
  {| _System_state_Current := state; _System_state_Is_multiprocessing := _System_state_Is_multiprocessing e;
     _Debug_Level := _Debug_Level e; local_node := local_node e; maximum_nodes := maximum_nodes e;
     global_objects := global_objects e; io := io e; kernel := kernel e |}.
Definition set_kernel (k : Kernel) (e : Executive) : Executive :=
  {| _System_state_Current := _System_state_Current e; _System_state_Is_multiprocessing := _System_state_Is_multiprocessing e;
     _Debug_Level := _Debug_Level e; local_node := local_node e; maximum_nodes := maximum_nodes e;
     global_objects := global_objects e; io := io e; kernel := k |}.

(** No interrupt is being served. *)
Definition clear_nest_level (ws : Watchdog_State) : Watchdog_State :=
  {| _Watchdog_Sync_level := _Watchdog_Sync_level ws; _Watchdog_Sync_count := _Watchdog_Sync_count ws;
     _Watchdog_Ticks_since_boot := _Watchdog_Ticks_since_boot ws; _ISR_Nest_level := 0;
     _Watchdog_Ticks_chain := _Watchdog_Ticks_chain ws; _Watchdog_Seconds_chain := _Watchdog_Seconds_chain ws; wd := wd ws |}.

(** ** Debugging (debug.c) *)

Definition RTEMS_DEBUG_ALL_MASK : Z := 4294967295.
Definition rtems_debug_enable (to_be_enabled level : Z) : Z := Z.lor level to_be_enabled.
Definition rtems_debug_disable (to_be_disabled level : Z) : Z := Z.ldiff level to_be_disabled.
Definition _Debug_Is_enabled (which level : Z) : Z := Z.land level which.
Definition _Debug_Manager_initialization : Z -> Z := rtems_debug_disable RTEMS_DEBUG_ALL_MASK.

(** ** Sequences of steps that may end in a fatal error *)

Definition obind {A B} (o : outcome A) (f : A -> outcome B) : outcome B :=
  match o with
  | Done a => f a
  | Fatal what k => Fatal what k
  | OutOfFuel => OutOfFuel
  end.
Declare Scope boot_scope.
Delimit Scope boot_scope with boot.
Notation "x <-- o ; f" := (obind o (fun x => f)) (at level 60, o at level 59, f at level 200, right associativity) : boot_scope.
Open Scope boot_scope.

Definition of_option {A} (o : option A) : outcome A := match o with Some a => Done a | None => OutOfFuel end.

Definition INTERNAL_ERROR_NO_CONFIGURATION_TABLE : Z := 0.
Definition INTERNAL_ERROR_NO_CPU_TABLE : Z := 1.
Definition INTERNAL_ERROR_INTERRUPT_STACK_TOO_SMALL : Z := 5.
Definition INTERNAL_ERROR_NO_MPCI : Z := 9.

Section Exinit.
Context (workspace : Z) (hfuel fuel : nat) (fatal_extensions : Internal_errors_Information -> Kernel -> Kernel).
(** [call0] calls the hooks, [call_driver] the drivers. *)
Context (call0 : Z -> Kernel -> Kernel) (call_driver : Z -> Z -> Z -> Z -> Kernel -> Z * Kernel).
Context (sizeof : Z -> Z) (sizeof_Thread_Control : Z) (register_packet_processor : MP_packet_Classes -> Kernel -> Kernel).
(** The rest of the initialization of the multiprocessing layer. *)
Context (mpci_handler mpci_server mpci_start proxies : Kernel -> Kernel).
Context (stack_allocate_hook : option (Z -> Kernel -> Z * Kernel)) (stack_free_hook : option (Z -> Kernel -> Kernel)).
Context (create_extensions : Z -> Kernel -> option (bool * Kernel)) (started : Z -> Kernel -> Kernel).
(** Addresses of static data and code, the name of the idle thread. *)
Context (_RTEMS_tasks_User_extensions _RTEMS_tasks_API_extensions _TOD_Seconds_watchdog tod_tickle_entry name_argument idle_name : Z).

Definition rtems_fatal_error_occurred {A} (the_error : Z) (k : Kernel) : outcome A :=
  _Internal_error_Occurred fatal_extensions INTERNAL_ERROR_RTEMS_API false the_error k.

(** The interrupt stack of the processor (isr.c). *)
Definition _ISR_Handler_initialization (stack_size : Z) (k : Kernel) : outcome Kernel :=
  let k := upd_rtems (set_Signals_to_thread_executing false) k in
  let k := wd_mod clear_nest_level k in
  if stack_size <? STACK_MINIMUM_SIZE
  then _Internal_error_Occurred fatal_extensions INTERNAL_ERROR_CORE true INTERNAL_ERROR_INTERRUPT_STACK_TOO_SMALL k
  else r <-- _Workspace_Allocate_or_fatal_error workspace hfuel fatal_extensions stack_size k; Done r.2.

Definition _MPCI_Handler_initialization (is_multiprocessing users_mpci_table : bool) (k : Kernel) : outcome Kernel :=
  if is_multiprocessing && negb users_mpci_table
  then _Internal_error_Occurred fatal_extensions INTERNAL_ERROR_CORE true INTERNAL_ERROR_NO_MPCI k
  else Done (if negb is_multiprocessing then k else mpci_handler k).

(** The managers of the RTEMS API (rtemsapi.c).  Those of attributes, interrupts and
    multiprocessing have nothing to initialize. *)
Definition _RTEMS_API_Initialize (node nodes : Z) (is_multiprocessing : bool) (c : rtems_api_configuration_table) (k : Kernel)
  : outcome Kernel :=
  k <-- _RTEMS_tasks_Manager_initialization node nodes workspace hfuel is_multiprocessing fatal_extensions register_packet_processor
          sizeof_Thread_Control _RTEMS_tasks_User_extensions _RTEMS_tasks_API_extensions (maximum_tasks c) k;
  k <-- _Timer_Manager_initialization workspace hfuel fatal_extensions node nodes is_multiprocessing (sizeof OBJECTS_RTEMS_TIMERS)
          (maximum_timers c) k;
  let k := _Signal_Manager_initialization register_packet_processor k in
  let k := register_packet_processor MP_PACKET_EVENT (_Event_Manager_initialization k) in
  k <-- _Message_queue_Manager_initialization workspace hfuel fatal_extensions node nodes is_multiprocessing
          (sizeof OBJECTS_RTEMS_MESSAGE_QUEUES) register_packet_processor (maximum_message_queues c) k;
  k <-- _Semaphore_Manager_initialization workspace hfuel fatal_extensions node nodes is_multiprocessing
          (sizeof OBJECTS_RTEMS_SEMAPHORES) register_packet_processor (maximum_semaphores c) k;
  k <-- _Partition_Manager_initialization workspace hfuel fatal_extensions node nodes is_multiprocessing
          (sizeof OBJECTS_RTEMS_PARTITIONS) register_packet_processor (maximum_partitions c) k;
  k <-- _Region_Manager_initialization workspace hfuel fatal_extensions node nodes is_multiprocessing
          (sizeof OBJECTS_RTEMS_REGIONS) register_packet_processor (maximum_regions c) k;
  k <-- _Dual_ported_memory_Manager_initialization workspace hfuel fatal_extensions node nodes is_multiprocessing
          (sizeof OBJECTS_RTEMS_PORTS) (maximum_ports c) k;
  _Rate_monotonic_Manager_initialization workspace hfuel fatal_extensions node nodes is_multiprocessing
    (sizeof OBJECTS_RTEMS_PERIODS) (maximum_periods c) k.

(** The handlers and managers, up to the point where the first thread is created. *)
Definition initialize_handlers (c : rtems_configuration_table) (cpu : rtems_cpu_table) (debug_level : Z) (k : Kernel) : outcome Executive :=
  let is_multiprocessing := bool_decide (is_Some (User_multiprocessing_table c)) in
  let mp := default _Initialization_Default_multiprocessing_table (User_multiprocessing_table c) in
  let debug_level := _Debug_Manager_initialization debug_level in
  let k := _API_extensions_Initialization k in
  let k := _Thread_Dispatch_initialization k in
  k <-- _Workspace_Handler_initialization workspace fatal_extensions (do_zero_of_workspace cpu) (work_space_start c) (work_space_size c) k;
  k <-- _User_extensions_Handler_initialization workspace hfuel fatal_extensions (User_extension_table c) k;
  k <-- _ISR_Handler_initialization (interrupt_stack_size cpu) k;
  o <-- _Objects_Handler_initialization workspace hfuel fatal_extensions (mp_node mp) (mp_maximum_nodes mp) (mp_maximum_global_objects mp) k;
  let '(node, nodes, pool, k) := o in
  let k := set_bit_map (_Priority_Handler_initialization (bit_map k)) k in
  let k := wd_mod _Watchdog_Handler_initialization k in
  k <-- of_option (_TOD_Handler_initialization _TOD_Seconds_watchdog tod_tickle_entry fuel id (microseconds_per_tick c) k);
  k <-- _Thread_Handler_initialization workspace hfuel stack_allocate_hook stack_free_hook fatal_extensions node nodes is_multiprocessing
          sizeof_Thread_Control proxies (ticks_per_timeslice c) (maximum_extensions c) k;
  k <-- _MPCI_Handler_initialization is_multiprocessing (User_mpci_table mp) k;
  k <-- _Extension_Manager_initialization workspace hfuel fatal_extensions node nodes is_multiprocessing (sizeof OBJECTS_RTEMS_EXTENSIONS)
          (maximum_extensions c) k;
  r <-- _IO_Manager_initialization workspace hfuel fatal_extensions (Device_driver_table c) (number_of_device_drivers c) (maximum_devices c) k;
  k <-- _RTEMS_API_Initialize node nodes is_multiprocessing (RTEMS_api_configuration c) r.2;
  Done {| _System_state_Current := SYSTEM_STATE_BEFORE_MULTITASKING; _System_state_Is_multiprocessing := is_multiprocessing;
          _Debug_Level := debug_level; local_node := node; maximum_nodes := nodes; global_objects := pool; io := r.1; kernel := k |}.

Definition call_hook (hook : Z) (k : Kernel) : Kernel := if negb (hook =? 0) then call0 hook k else k.

(** The idle thread. *)
Definition create_idle (cpu : rtems_cpu_table) (k : Kernel) : option Kernel :=
  _Thread_Create_idle workspace hfuel stack_allocate_hook stack_free_hook create_extensions started fuel name_argument
    (idle_task cpu) (idle_task_stack_size cpu) idle_name k.

(** The drivers and the hooks around them. *)
Definition initialize_drivers (cpu : rtems_cpu_table) (e : Executive) : Executive :=
  let k := kernel e in
  let k := if _System_state_Is_multiprocessing e then mpci_server k else k in
  let k := _API_extensions_Run_predriver call0 k in
  let k := call_hook (predriver_hook' cpu) k in
  let k := _IO_Initialize_all_drivers call_driver (io e) k in
  let k := if _System_state_Is_multiprocessing e then mpci_start k else k in
  let k := _API_extensions_Run_postdriver call0 k in
  set_kernel (call_hook (postdriver_hook' cpu) k) e.

(** With interrupts disabled throughout. *)
Definition rtems_initialize_executive_early (configuration_table : option rtems_configuration_table) (cpu_table : option rtems_cpu_table)
    (debug_level : Z) (k : Kernel) : outcome Executive :=
  match configuration_table, cpu_table with
  | None, _ => _Internal_error_Occurred fatal_extensions INTERNAL_ERROR_CORE true INTERNAL_ERROR_NO_CONFIGURATION_TABLE k
  | Some _, None => _Internal_error_Occurred fatal_extensions INTERNAL_ERROR_CORE true INTERNAL_ERROR_NO_CPU_TABLE k
  | Some c, Some cpu =>
      e <-- initialize_handlers c cpu debug_level k;
      let k := call_hook (pretasking_hook cpu) (kernel e) in
      k <-- of_option (create_idle cpu k);
      Done (initialize_drivers cpu (set_kernel k e))
  end.

(** Up to the context switch to the first thread. *)
Definition rtems_initialize_executive_late (e : Executive) : Executive :=
  let e := _System_state_Set SYSTEM_STATE_BEGIN_MULTITASKING e in
  _System_state_Set SYSTEM_STATE_UP (set_kernel (_Thread_Start_multitasking id (kernel e)) e).

Definition rtems_initialize_executive (configuration_table : option rtems_configuration_table) (cpu_table : option rtems_cpu_table)
    (debug_level : Z) (k : Kernel) : outcome Executive :=
  e <-- rtems_initialize_executive_early configuration_table cpu_table debug_level k;
  Done (rtems_initialize_executive_late e).

(** [stop] is the switch back to the context that started the executive. *)
Definition rtems_shutdown_executive (stop : Kernel -> Kernel) (e : Executive) : Executive :=
  if decide (_System_state_Current e <> SYSTEM_STATE_SHUTDOWN)
  then let e := _System_state_Set SYSTEM_STATE_SHUTDOWN e in set_kernel (stop (kernel e)) e
  else e.
End Exinit.
