(* ===== verification/ExinitSpec.v ===== *)
(** * The start of the system

    The initialization leaves the scheduler as it has to be: when it gets to its first
    thread the invariant of the thread handler holds, with the idle thread executing. *)
From S2P Require Import Prelude Chain Watchdog Tod Object Priority ApiTypes Heap HeapProofs HeapOps HeapSpec Kernel Thread ThreadProofs ThreadSpec Threadq.
From S2P Require Import Workspace WorkspaceSpec CoreMsg CoreMsgSpec Rtems Extension Init ThreadLife ThreadLifeSpec Signal Partition Timer Tasks IO ObjectMP Event Exinit.

(** ** What the scheduler sees *)

Definition sched_view (k : Kernel) : gmap Z Thread_Control * gmap Z (list Z) * Priority_State :=
  (threads k, _Thread_Ready_chain k, bit_map k).

(** An initialization step that leaves it alone. *)
Definition views {A} (kernel_of : A -> Kernel) (o : outcome A) (k : Kernel) : Prop :=
  match o with Done a => sched_view (kernel_of a) = sched_view k | _ => True end.

Lemma obind_done {A B} (o : outcome A) (f : A -> outcome B) b : obind o f = Done b -> exists a, o = Done a /\ f a = Done b.
Proof. destruct o; try done. eauto. Qed.

Lemma views_done {A} (kernel_of : A -> Kernel) o k a : views kernel_of o k -> o = Done a -> sched_view (kernel_of a) = sched_view k.
Proof. intros H ->. exact H. Qed.

Section Frames.
Context (workspace : Z) (hfuel : nat) (fatal_extensions : Internal_errors_Information -> Kernel -> Kernel).

Lemma allocate_views size k : views snd (_Workspace_Allocate_or_fatal_error workspace hfuel fatal_extensions size k) k.
Proof.
  unfold _Workspace_Allocate_or_fatal_error, _Workspace_Allocate. destruct (_Heap_Allocate _ _ _ _) as [[p m]|]; [|done].
  by destruct (p =? NULL).
Qed.

Lemma workspace_views zero a size k : views id (_Workspace_Handler_initialization workspace fatal_extensions zero a size k) k.
Proof.
  unfold _Workspace_Handler_initialization. destruct (_ || _); [done|]. destruct zero; destruct (_Heap_Initialize _ _ _ _ _) as [n m];
    by destruct (n =? 0).
Qed.

Lemma initial_sets_views l : forall k, views id (add_initial_sets workspace hfuel fatal_extensions l k) k.
Proof.
  induction l as [|t l IH]; intros k; simpl; [done|]. pose proof (allocate_views sizeof_User_extensions_Control k) as HA.
  destruct (_Workspace_Allocate_or_fatal_error _ _ _ _ _) as [[e k1]| |]; simpl in HA; try done.
  set (k2 := set_User_extensions_List _ _). specialize (IH k2). unfold views in *.
  destruct (add_initial_sets _ _ _ l k2); try done. by rewrite IH.
Qed.

Lemma user_extensions_views o k : views id (_User_extensions_Handler_initialization workspace hfuel fatal_extensions o k) k.
Proof. destruct o as [l|]; [|done]. exact (initial_sets_views l (set_User_extensions_List [] k)). Qed.

(** The allocations of a class of objects. *)
Definition outcome_views (o o' : outcome Kernel) : Prop :=
  match o' with
  | Done k' => match o with Done k => sched_view k' = sched_view k | _ => False end
  | _ => True
  end.

Lemma allocate_or_stop_views size o p o' :
  allocate_or_stop workspace hfuel fatal_extensions size o = Some (p, o') -> outcome_views o o'.
Proof.
  unfold allocate_or_stop. destruct o as [k| |]; [|by intros [= <- <-]|done].
  pose proof (allocate_views size k) as HA. destruct (_Workspace_Allocate_or_fatal_error _ _ _ _ _) as [[a k1]| |]; try done; by intros [= <- <-].
Qed.

Lemma outcome_views_trans o o' o'' : outcome_views o o' -> outcome_views o' o'' -> outcome_views o o''.
Proof.
  unfold outcome_views. destruct o'' as [k''| |]; try done. destruct o' as [k'| |]; try done. destruct o as [k| |]; try done.
  intros -> ->. done.
Qed.

Lemma alloc_all_views sizes : forall o ps o',
  alloc_all (allocate_or_stop workspace hfuel fatal_extensions) sizes o = Some (ps, o') -> outcome_views o o'.
Proof.
  induction sizes as [|size sizes IH]; intros o ps o'; simpl; [intros [= <- <-]; by destruct o|].
  destruct (allocate_or_stop _ _ _ size o) as [[p o1]|] eqn:E; [|done].
  destruct (alloc_all _ sizes o1) as [[ps' o2]|] eqn:E2; [|done]. intros [= <- <-].
  eapply outcome_views_trans; [by eapply allocate_or_stop_views|by eapply IH].
Qed.

Lemma initialize_class_views node nodes mp c g max size s l t k :
  views id (initialize_class workspace hfuel fatal_extensions node nodes mp c g max size s l t k) k.
Proof.
  unfold initialize_class, _Objects_Initialize_information.
  destruct (alloc_all _ _ _) as [[areas o]|] eqn:E; [|done]. apply alloc_all_views in E. by destruct o.
Qed.

Lemma and_then_views o f k : views id o k -> (forall k, sched_view (f k) = sched_view k) -> views id (and_then o f) k.
Proof. intros H Hf. destruct o; simpl in *; try done. by rewrite Hf. Qed.
End Frames.

(** ** The handlers *)

Lemma insert_loop_view fuel h w nest : forall after delta (k k' : Kernel),
  insert_loop fuel id h w nest after delta k = Some k' -> sched_view k' = sched_view k.
Proof.
  induction fuel as [|fuel IH]; intros after delta k k' E; simpl in E; [done|].
  destruct after as [a|]; [|by injection E as <-].
  repeat (case_match; try (by injection E as <-)); apply IH in E; by rewrite E.
Qed.

Lemma tod_initialization_view w e fuel mspt (k k' : Kernel) :
  _TOD_Handler_initialization w e fuel id mspt k = Some k' -> sched_view k' = sched_view k.
Proof.
  unfold _TOD_Handler_initialization, _TOD_Activate, _Watchdog_Insert_ticks, _Watchdog_Insert. intros E.
  apply insert_loop_view in E. by rewrite E.
Qed.

Section Boot.
Context (workspace : Z) (hfuel fuel : nat) (fatal_extensions : Internal_errors_Information -> Kernel -> Kernel).
Context (sizeof : Z -> Z) (sizeof_Thread_Control : Z) (register_packet_processor : MP_packet_Classes -> Kernel -> Kernel).
Context (mpci_handler proxies : Kernel -> Kernel).
Context (stack_allocate_hook : option (Z -> Kernel -> Z * Kernel)) (stack_free_hook : option (Z -> Kernel -> Kernel)).
Context (user_ext api_ext w e : Z).

(** The multiprocessing layer leaves the scheduler alone while it is initialized. *)
Definition keeps (f : Kernel -> Kernel) : Prop := forall k, sched_view (f k) = sched_view k.
Context (Hreg : forall c, keeps (register_packet_processor c)) (Hmp : keeps mpci_handler) (Hpr : keeps proxies).

(** [boot_step H k E]: the next step of the sequence [H], with its result [k] by [E]. *)
Ltac boot_step H k E := apply obind_done in H as (k & E & H).

Lemma isr_initialization_view size k k' :
  _ISR_Handler_initialization workspace hfuel fatal_extensions size k = Done k' -> sched_view k' = sched_view k.
Proof using.
  unfold _ISR_Handler_initialization. destruct (_ <? _); [done|]. intros H. boot_step H r E. injection H as <-.
  by apply (views_done _ _ _ _ (allocate_views _ _ _ _ _)) in E.
Qed.

Lemma objects_initialization_view node nodes n k a b c k' :
  _Objects_Handler_initialization workspace hfuel fatal_extensions node nodes n k = Done (a, b, c, k') -> sched_view k' = sched_view k.
Proof using.
  unfold _Objects_Handler_initialization, _Objects_MP_Handler_initialization. destruct (_ || _); [done|].
  destruct (n =? 0); [by intros [= _ _ _ <-]|].
  pose proof (allocate_views workspace hfuel fatal_extensions (n *w sizeof_Objects_MP_Control) k) as HA.
  destruct (_Workspace_Allocate_or_fatal_error _ _ _ _ _) as [[p k1]| |]; try done. by intros [= _ _ _ <-].
Qed.

Lemma io_initialization_view t n d k a k' :
  _IO_Manager_initialization workspace hfuel fatal_extensions t n d k = Done (a, k') -> sched_view k' = sched_view k.
Proof using.
  unfold _IO_Manager_initialization.
  pose proof (allocate_views workspace hfuel fatal_extensions (sizeof_rtems_driver_name_t *w (d +w 1)) k) as HA.
  destruct (_Workspace_Allocate_or_fatal_error _ _ _ _ _) as [[p k1]| |]; try done. by intros [= _ <-].
Qed.

Lemma tasks_initialization_view node nodes mp max k k' :
  _RTEMS_tasks_Manager_initialization node nodes workspace hfuel mp fatal_extensions register_packet_processor
    sizeof_Thread_Control user_ext api_ext max k = Done k' -> sched_view k' = sched_view k.
Proof using Hreg.
  unfold _RTEMS_tasks_Manager_initialization. pose proof (initialize_class_views workspace hfuel fatal_extensions node nodes mp
    OBJECTS_RTEMS_TASKS true max sizeof_Thread_Control false RTEMS_MAXIMUM_NAME_LENGTH true k) as HC.
  destruct (initialize_class _ _ _ _ _ _ _ _ _ _ _ _ _ _) as [k1| |]; try done. intros [= <-]. by rewrite Hreg.
Qed.

Lemma api_initialization_view node nodes mp c k k' :
  _RTEMS_API_Initialize workspace hfuel fatal_extensions sizeof sizeof_Thread_Control register_packet_processor user_ext api_ext
    node nodes mp c k = Done k' -> sched_view k' = sched_view k.
Proof using Hreg.
  unfold _RTEMS_API_Initialize. intros H. boot_step H k1 E1. boot_step H k2 E2. boot_step H k3 E3. boot_step H k4 E4.
  boot_step H k5 E5. boot_step H k6 E6. boot_step H k7 E7.
  apply tasks_initialization_view in E1.
  apply (views_done id _ _ _ (initialize_class_views _ _ _ _ _ _ _ _ _ _ _ _ _ _)) in E2, E7, H.
  apply (views_done id _ _ _ (and_then_views _ _ _ (initialize_class_views _ _ _ _ _ _ _ _ _ _ _ _ _ _) (Hreg _))) in E3, E4, E5, E6.
  simpl in *. rewrite H, E7, E6, E5, E4, E3. unfold Event._Event_Manager_initialization, _Signal_Manager_initialization.
  rewrite !Hreg. change (sched_view (set_sync ?f ?x)) with (sched_view x). by rewrite Hreg, E2, E1.
Qed.

Lemma thread_initialization_view node nodes mp slice ext k k' :
  _Thread_Handler_initialization workspace hfuel stack_allocate_hook stack_free_hook fatal_extensions node nodes mp
    sizeof_Thread_Control proxies slice ext k = Done k' -> sched_view k' = (threads k, ∅, bit_map k).
Proof using Hpr.
  unfold _Thread_Handler_initialization. destruct (negb _); [done|]. cbn zeta. set (k0 := set_ticks_per_timeslice _ _).
  pose proof (allocate_views workspace hfuel fatal_extensions ((PRIORITY_MAXIMUM + 1) * sizeof_Chain_Control) k0) as HA.
  destruct (_Workspace_Allocate_or_fatal_error _ _ _ _ _) as [[p k1]| |]; try done. simpl in HA.
  intros H%(views_done id _ _ _ (initialize_class_views _ _ _ _ _ _ _ _ _ _ _ _ _ _)). simpl in H. rewrite H, Hpr.
  change (sched_view k0) with (sched_view k) in HA. unfold sched_view in *. injection HA as HA1 _ HA2. simpl. by rewrite HA1, HA2.
Qed.

(** All of them: the ready chains are empty and the bit map is cleared. *)
Lemma handlers_initialised c cpu debug k x :
  initialize_handlers workspace hfuel fuel fatal_extensions sizeof sizeof_Thread_Control register_packet_processor mpci_handler proxies
    stack_allocate_hook stack_free_hook user_ext api_ext w e c cpu debug k = Done x ->
  exists s, sched_view (kernel x) = (threads k, ∅, _Priority_Handler_initialization s).
Proof using Hreg Hmp Hpr.
  unfold initialize_handlers. cbn zeta. intros H. boot_step H k1 E1. boot_step H k2 E2. boot_step H k3 E3.
  boot_step H o E4. destruct o as [[[node nodes] pool] k4]. boot_step H k5 E5. boot_step H k6 E6. boot_step H k7 E7.
  boot_step H k8 E8. boot_step H r E9. destruct r as [tbl k9]. boot_step H k10 E10. injection H as <-. cbn [kernel].
  apply (views_done id _ _ _ (workspace_views _ _ _ _ _ _)) in E1. apply (views_done id _ _ _ (user_extensions_views _ _ _ _ _)) in E2.
  apply isr_initialization_view in E3. apply objects_initialization_view in E4.
  apply thread_initialization_view in E6. apply io_initialization_view in E9. apply api_initialization_view in E10.
  assert (sched_view k7 = sched_view k6) as E7'.
  { unfold _MPCI_Handler_initialization in E7. destruct (_ && _); [done|]. injection E7 as <-. destruct (negb _); [done|apply Hmp]. }
  apply (views_done id _ _ _ (initialize_class_views _ _ _ _ _ _ _ _ _ _ _ _ _ _)) in E8.
  assert (sched_view k5 = (threads k4, _Thread_Ready_chain k4, _Priority_Handler_initialization (bit_map k4))) as E5'.
  { destruct (_TOD_Handler_initialization _ _ _ _ _ _) as [k5'|] eqn:ET in E5; [|done]. injection E5 as ->.
    by apply tod_initialization_view in ET. }
  unfold id in *. cbn [snd] in E10. exists (bit_map k4). rewrite E10, E9, E8, E7', E6. unfold sched_view in E5'. injection E5' as T5 _ B5.
  rewrite T5, B5. assert (sched_view k4 = sched_view k) as EV by (rewrite E4, E3, E2, E1; done).
  unfold sched_view in EV. by injection EV as -> _ _.
Qed.
End Boot.

(** ** The idle thread *)

(** Only the control block at [t] differs, as far as the scheduler is concerned. *)
Record only (t : Z) (k k' : Kernel) : Prop := {
  on_chain : _Thread_Ready_chain k' = _Thread_Ready_chain k;
  on_map : bit_map k' = bit_map k;
  on_idle : _Thread_Idle k' = _Thread_Idle k;
  on_others : forall u, u <> t -> threads k' !! u = threads k !! u
}.

(** What the scheduler reads of a control block. *)
Definition scheduling (c : Thread_Control) : Z * Z * Priority_Information * Z :=
  (current_priority c, ready c, Priority_map c, current_state c).

Lemma only_refl t k : only t k k.
Proof. by split. Qed.

Lemma only_trans t k k' k'' : only t k k' -> only t k' k'' -> only t k k''.
Proof. intros [A B C D] [A' B' C' D']. split; [congruence..|]. intros u Hu. by rewrite D', D. Qed.

Lemma only_upd t f k k' : only t k k' -> only t k (upd_thread t f k').
Proof. intros [A B C D]. split; try done. intros u Hu. unfold upd_thread. simpl. by rewrite lookup_insert_ne, D. Qed.

Section Idle.
Context (workspace : Z) (hfuel : nat).
Context (stack_allocate_hook : option (Z -> Kernel -> Z * Kernel)) (stack_free_hook : option (Z -> Kernel -> Kernel)).

(** The hook for stacks does not interfere with the scheduler. *)
Definition hook_apart : Prop := forall hook size k, stack_allocate_hook = Some hook ->
  sched_view (hook size k).2 = sched_view k /\ _Thread_Idle (hook size k).2 = _Thread_Idle k.

Lemma only_free p t k k' : only t k k' -> only t k (free_if workspace p k').
Proof.
  intros [A B C D]. unfold free_if, free_block, _Workspace_Free. destruct (negb _); [|by split].
  destruct (_Heap_Free _ _ _). by split.
Qed.

Lemma only_allocate t wanted size k ok p k' : allocate_if workspace hfuel wanted size k = Some (ok, p, k') -> only t k k'.
Proof.
  unfold allocate_if, _Workspace_Allocate. destruct wanted; [|by intros [= _ _ <-]].
  destruct (_Heap_Allocate _ _ _ _) as [[a m]|]; [|done]. by intros [= _ _ <-].
Qed.

Lemma only_stack t area size k ok k' : hook_apart ->
  initialize_stack workspace hfuel stack_allocate_hook t area size k = Some (ok, k') -> only t k k'.
Proof.
  intros HA. unfold initialize_stack, _Thread_Stack_Allocate, _Workspace_Allocate. destruct (area =? NULL).
  - destruct stack_allocate_hook as [hook|] eqn:EH.
    + set (n := if negb (_Stack_Is_enough (if negb _ then _ else _)) then _ else _). destruct (HA hook n k EH) as [HV HI].
      destruct (hook n k) as [a k1]. cbn [snd] in HV, HI. unfold sched_view in HV. injection HV as V1 V2 V3. cbn zeta.
      assert (only t k k1) as HO by (split; [done..|]; intros u _; by rewrite V1).
      match goal with |- (if ?b then _ else _) = _ -> _ => destruct b end; intros [= _ <-]; repeat apply only_upd; done.
    + destruct (_Heap_Allocate _ _ _ _) as [[a m]|]; [|done]. cbn zeta.
      match goal with |- (if ?b then _ else _) = _ -> _ => destruct b end; intros [= _ <-]; repeat apply only_upd; by split.
  - intros [= _ <-]. repeat apply only_upd. by split.
Qed.

Lemma only_open fuel arg c t name k k' : object_open fuel arg c t name k = Some k' -> only t k k' /\ threads k' = threads k.
Proof. unfold object_open. destruct (_Objects_Open _ _ _ _); [|done]. intros [= <-]. by split. Qed.

(** The create extensions do not interfere with the scheduler. *)
Definition extensions_apart (create : Z -> Kernel -> option (bool * Kernel)) : Prop :=
  forall t k ok k', create t k = Some (ok, k') -> only t k k' /\ scheduling (tcb k' t) = scheduling (tcb k t) /\ (known k t -> known k' t).

Lemma thread_initialize_schedules create fuel arg info t area size is_fp priority preemptible algorithm callout level name k k' :
  hook_apart -> extensions_apart create -> prio priority ->
  _Thread_Initialize workspace hfuel stack_allocate_hook stack_free_hook create fuel arg info t area size is_fp priority preemptible algorithm callout level name k
    = Some (true, k') ->
  only t k k' /\ known k' t /\ tcb_ok (tcb k' t) /\ current_state (tcb k' t) = STATES_DORMANT.
Proof.
  intros HH HX HP. unfold _Thread_Initialize.
  destruct (initialize_stack _ _ _ _ _ _ _) as [[[] k1]|] eqn:E1; [|done..]. apply only_stack in E1; [|done].
  destruct (allocate_if _ _ is_fp _ _) as [[[[] pf] k2]|] eqn:E2; [|done..]. apply (only_allocate t) in E2.
  set (k3 := upd_start t _ _). assert (only t k k3) as H3 by (repeat apply only_upd; by eapply only_trans). clearbody k3. clear E1 E2.
  destruct (allocate_if _ _ (negb _) _ _) as [[[[] pe] k4]|] eqn:E4; [|done..]. apply (only_allocate t) in E4.
  set (k5 := upd_thread t (set_extensions pe) k4). assert (only t k k5) as H5 by (apply only_upd; by eapply only_trans). clearbody k5.
  assert (only t k (initialize_control t priority preemptible algorithm callout level k5)) as H6 by (repeat apply only_upd; done).
  assert (scheduling (tcb (initialize_control t priority preemptible algorithm callout level k5) t) =
    (priority, priority, _Priority_Initialize_information priority, STATES_DORMANT)) as ES.
  { unfold initialize_control, _Thread_Set_priority, upd_start. by rewrite !tcb_upd_self. }
  assert (known (initialize_control t priority preemptible algorithm callout level k5) t) as HK.
  { unfold known, initialize_control, _Thread_Set_priority, upd_thread. simpl. rewrite lookup_insert_eq. by eexists. }
  set (k6 := initialize_control _ _ _ _ _ _ _) in *. clearbody k6.
  destruct (object_open _ _ _ _ _ _) as [k7|] eqn:E7; [|done]. apply only_open in E7 as [O7 T7].
  destruct (create t k7) as [[[] k8]|] eqn:E8; [|done..]. destruct (HX _ _ _ _ E8) as (O8 & S8 & K8). intros [= <-].
  split; [by eapply only_trans; [eapply only_trans|]|]. split; [apply K8; unfold known; by rewrite T7|].
  assert (tcb k7 t = tcb k6 t) as ET by (unfold tcb; by rewrite T7). rewrite ET, ES in S8. injection S8 as A B C D.
  unfold tcb_ok. by rewrite A, B, C, D.
Qed.

(** The first thread: from a scheduler with nothing in it, to the invariant. *)
Lemma create_idle_schedules create started fuel arg idle size name k k' s :
  hook_apart -> extensions_apart create -> (forall t k, sched_ok k -> sched_ok (started t k)) ->
  sched_view k = (∅, ∅, _Priority_Handler_initialization s) ->
  let '(t, k0) := object_allocate OBJECTS_INTERNAL_THREADS k in
  let stack := if size <? STACK_MINIMUM_SIZE then STACK_MINIMUM_SIZE else size in
  is_Some (_Thread_Initialize workspace hfuel stack_allocate_hook stack_free_hook create fuel arg OBJECTS_INTERNAL_THREADS t NULL stack false
    PRIORITY_MAXIMUM true THREAD_CPU_BUDGET_ALGORITHM_NONE NULL 0 name (set_idle t k0) ≫= fun r => if r.1 : bool then Some () else None) ->
  _Thread_Create_idle workspace hfuel stack_allocate_hook stack_free_hook create started fuel arg idle size name k = Some k' -> sched_ok k'.
Proof.
  intros HH HX HS HV. unfold _Thread_Create_idle. destruct (object_allocate _ k) as [t k0] eqn:EA. cbn zeta.
  assert (sched_view k0 = sched_view k) as E0.
  { unfold object_allocate in EA. destruct (_Objects_Allocate _). by injection EA as <- <-. }
  rewrite HV in E0. injection E0 as ET EC EM. set (stack := if size <? _ then _ else _). clearbody stack. clear EA HV.
  destruct (_Thread_Initialize _ _ _ _ _ _ _ _ _ _ _ _ _ _ _ _ _ _ _) as [[[] k1]|] eqn:EI; simpl; intros [? HI]; try done. clear HI.
  apply thread_initialize_schedules in EI as ([A B C D] & HK & HT & HD); [|done|done|by vm_compute]. intros [= <-].
  set (k2 := set_heir t (set_executing t k1)). assert (_Thread_Idle k2 = t) as EI2 by exact C.
  rewrite <- EI2 at 1. apply start_idle_ok; [done|]. split.
  - exists s. change (bit_map k2) with (bit_map k1). by rewrite B.
  - intros p _. change (chain_at k2 p) with (_Thread_Ready_chain k1 !!! p). rewrite A. simpl. rewrite EC. unfold lookup_total, map_lookup_total. by rewrite lookup_empty.
  - intros u Hu. change (known k1 u) in Hu. change (tcb k2 u) with (tcb k1 u). destruct (decide (u = t)) as [-> |Hne]; [by rewrite HD|].
    exfalso. unfold known in Hu. rewrite D in Hu by done. simpl in Hu. rewrite ET, lookup_empty in Hu. by destruct Hu.
  - rewrite EI2. done.
Qed.
End Idle.

(** ** The start ends

    Every step has a result: a state in which the workspace is well formed, or one of the
    fatal errors of the executive. *)

(** The fatal errors of the initialization. *)
Definition boot_error (what : Internal_errors_Information) : Prop :=
  the_source what = INTERNAL_ERROR_CORE /\ is_internal what = true /\
  the_error what ∈ [INTERNAL_ERROR_INVALID_WORKSPACE_ADDRESS; INTERNAL_ERROR_TOO_LITTLE_WORKSPACE; INTERNAL_ERROR_WORKSPACE_ALLOCATION;
    INTERNAL_ERROR_INTERRUPT_STACK_TOO_SMALL; INTERNAL_ERROR_INVALID_NODE; INTERNAL_ERROR_BAD_STACK_HOOK; INTERNAL_ERROR_NO_MPCI].

Definition lands {A} (P : A -> Prop) (o : outcome A) : Prop :=
  match o with
  | Done a => P a
  | Fatal what _ => boot_error what
  | OutOfFuel => False
  end.

Lemma lands_bind {A B} (P : A -> Prop) (Q : B -> Prop) (o : outcome A) (f : A -> outcome B) :
  lands P o -> (forall a, P a -> lands Q (f a)) -> lands Q (obind o f).
Proof. destruct o; simpl; auto. Qed.

Lemma lands_impl {A} (P Q : A -> Prop) (o : outcome A) : (forall a, P a -> Q a) -> lands P o -> lands Q o.
Proof. destruct o; simpl; auto. Qed.

Ltac fatal := repeat split; unfold boot_error; cbn [the_source is_internal the_error]; clear; set_solver.

Lemma request_cases size : heap_request_size 8 size = two32 - 8 \/
  exists s, 0 <= s /\ s + 24 < two32 /\ heap_request_size 8 s = heap_request_size 8 size /\ (0 <= size -> size + 24 < two32 -> s = size).
Proof.
  destruct (decide (0 <= size /\ size + 24 < two32)) as [[H0 H1]|Hn]; [right; by exists size|].
  set (t := heap_request_size 8 size). assert (t mod 8 = 0 /\ 16 <= t < two32) as [T1 T2].
  { unfold t, heap_request_size, HEAP_BLOCK_USED_OVERHEAD, sizeof_pointer, sizeof_Heap_Block, wrap32, two32.
    destruct (Z.eqb_spec (size mod 8) 0); cbn [negb]; match goal with |- context [?a <? 16] => destruct (Z.ltb_spec a 16) end; Z.div_mod_to_equations; lia. }
  destruct (decide (t = two32 - 8)) as [|Ht]; [by left|]. right. exists (t - 16). clearbody t. unfold two32 in *.
  split; [lia|]. split; [Z.div_mod_to_equations; lia|]. split; [|tauto].
  unfold heap_request_size, HEAP_BLOCK_USED_OVERHEAD, sizeof_pointer, sizeof_Heap_Block.
  assert ((t - 16) mod 8 = 0) as E by (Z.div_mod_to_equations; lia). rewrite E. cbn [Z.eqb negb].
  rewrite (wrap32_small (t - 16 + 8)), (wrap32_small (t - 16 + 8 + 4 * 2)) by (unfold u32, two32; lia).
  destruct (Z.ltb_spec (t - 16 + 8 + 4 * 2) 16); lia.
Qed.

Section Ends.
Context (workspace : Z) (hfuel : nat) (fatal_extensions : Internal_errors_Information -> Kernel -> Kernel).
Context (start T : Z) (HT : T < 16 * Z.of_nat hfuel).

Definition heap_in (k : Kernel) : Prop :=
  exists bs fl, heap_rep (_Workspace_Area k) workspace start CPU_HEAP_ALIGNMENT bs fl /\ total bs = T.

(** An area of [size] bytes of the workspace. *)
Definition area_in (p size : Z) : Prop := start < p /\ p + size <= start + T.

Lemma heap_answers size k : heap_in k -> exists p k', _Workspace_Allocate workspace hfuel size k = Some (p, k') /\ heap_in k' /\
  k' = set_workspace (_Workspace_Area k') k /\ (0 <= size -> size + 24 < two32 -> p <> NULL -> area_in p size).
Proof using HT.
  intros (bs & fl & HR & ET). assert (length fl < hfuel)%nat as Hf by (exact (ws_free_count workspace hfuel start T _ bs fl HR ET HT)).
  unfold _Workspace_Allocate. destruct (request_cases size) as [E|(s & S0 & S1 & ES & Es)].
  - pose proof (search_spec _ _ _ _ _ _ HR (heap_request_size 8 size) hfuel Hf) as HS. unfold _Heap_Allocate.
    rewrite (hr_page_size _ _ _ _ _ _ HR : heap_page_size (_Workspace_Area k) workspace = 8).
    destruct HS as [(A & sz & B & -> & Hle & _)|(_ & ->)].
    + exfalso. pose proof (hr_high _ _ _ _ _ _ HR). pose proof (hr_low _ _ _ _ _ _ HR). rewrite E in Hle. pose proof (hr_ok _ _ _ _ _ _ HR) as HO.
      apply Forall_app in HO as [HA [_ HB]%Forall_cons]. pose proof (total_nonneg _ HA). pose proof (total_nonneg _ HB).
      rewrite total_app in *. simpl in *. unfold two32 in *. lia.
    + exists NULL, (set_workspace (_Workspace_Area k) k). split; [done|]. split; [by exists bs, fl|]. split; [by destruct k|done].
  - assert (_Heap_Allocate hfuel (_Workspace_Area k) workspace size = _Heap_Allocate hfuel (_Workspace_Area k) workspace s) as ->.
    { unfold _Heap_Allocate. by rewrite (hr_page_size _ _ _ _ _ _ HR : heap_page_size (_Workspace_Area k) workspace = 8), ES. }
    destruct (allocate_spec hfuel (_Workspace_Area k) workspace start CPU_HEAP_ALIGNMENT 3 bs fl s)
      as [(p & m & A & sz & B & fl' & -> & _ & HA & HR' & (O1 & O2 & _) & _)|[-> _]]; try done; [change (s + 2 * 8 + 8 < two32); lia|..].
    + exists p, (set_workspace m k). split; [done|]. assert (total (A ++ (sz, true) :: B) = T) as EB by by rewrite (total_allocated _ _ _ _ _ HA).
      split; [by exists (A ++ (sz, true) :: B), fl'|]. split; [done|]. intros Z0 Z1 _. rewrite <- (Es Z0 Z1). unfold area_in.
      pose proof (hr_ok _ _ _ _ _ _ HR') as HO. apply Forall_app in HO as [HA' [_ HB]%Forall_cons].
      pose proof (total_nonneg _ HA'). pose proof (total_nonneg _ HB). rewrite total_app in EB. simpl in EB. lia.
    + exists NULL, (set_workspace (_Workspace_Area k) k). split; [done|]. split; [by exists bs, fl|]. split; [by destruct k|done].
Qed.

(** The other fields of the state stay as they are. *)
Definition allocates (k k' : Kernel) : Prop := heap_in k' /\ information_table k' = information_table k.

Lemma allocate_lands size k : heap_in k ->
  lands (fun r => allocates k r.2 /\ (0 <= size -> size + 24 < two32 -> area_in r.1 size))
    (_Workspace_Allocate_or_fatal_error workspace hfuel fatal_extensions size k).
Proof using HT.
  intros HK. unfold _Workspace_Allocate_or_fatal_error. destruct (heap_answers size k HK) as (p & k' & -> & HK' & EK & HA).
  destruct (Z.eqb_spec p NULL) as [|Hp]; [fatal|]. split; [split; [done|by rewrite EK]|]. intros. by apply HA.
Qed.

Lemma alloc_all_stopped sizes what k : exists ps, alloc_all (allocate_or_stop workspace hfuel fatal_extensions) sizes (Fatal what k) = Some (ps, Fatal what k).
Proof using. induction sizes as [|size sizes [ps IH]]; simpl; [by eexists|]. rewrite IH. by eexists. Qed.

Lemma alloc_all_lands sizes : forall k, heap_in k -> exists ps o, alloc_all (allocate_or_stop workspace hfuel fatal_extensions) sizes (Done k) = Some (ps, o) /\
  lands (fun k' => allocates k k' /\ forall i size, sizes !! i = Some size -> 0 <= size -> size + 24 < two32 -> area_in (nth i ps NULL) size) o.
Proof using HT.
  induction sizes as [|size sizes IH]; intros k HK; simpl.
  { exists [], (Done k). split; [done|]. split; [done|]. intros i. by rewrite lookup_nil. }
  pose proof (allocate_lands size k HK) as HA. destruct (_Workspace_Allocate_or_fatal_error _ _ _ size k) as [[p k1]|what k1|]; simpl in HA.
  - destruct HA as [[HK1 ET] HA]. destruct (IH k1 HK1) as (ps & o & -> & HO). exists (p :: ps), o. split; [done|].
    revert HO. apply lands_impl. intros k2 [[HK2 ET2] HI]. split; [split; [done|congruence]|]. intros [|i] sz; simpl.
    + intros [= <-]. done.
    + apply HI.
  - destruct (alloc_all_stopped sizes what k1) as [ps ->]. by exists (NULL :: ps), (Fatal what k1).
  - done.
Qed.

(** A class of objects: its table is put into the state. *)
Lemma initialize_class_lands node nodes mp c g max size st l t k : heap_in k ->
  lands (fun k' => heap_in k' /\ exists s, information_table k' = <[c := s]> (information_table k) /\
    is_string (info s) = st /\ names s = names (objects_of k c) /\
    exists name_area blocks, Inactive (info s) = (if max =? 0 then [] else block_array blocks size (Z.to_nat max)) /\
      objects s = number_objects (Inactive (info s)) c node 1 name_area (round_name_length l) (objects (objects_of k c)) /\
      (let bytes := (max +w 1) *w round_name_length l in bytes + 24 < two32 -> area_in name_area bytes))
    (initialize_class workspace hfuel fatal_extensions node nodes mp c g max size st l t k).
Proof using HT.
  intros HK. unfold initialize_class, _Objects_Initialize_information. set (sizes := [_; _] ++ _).
  destruct (alloc_all_lands sizes k HK) as (ps & o & -> & HO). destruct o as [k1| |]; simpl in HO; [|done|done].
  destruct HO as [[HK1 ET] HI]. split; [done|]. eexists. unfold put_objects. cbn [information_table set_information_table]. rewrite ET.
  split; [done|]. split; [done|]. split; [done|]. exists (nth 1 ps NULL), (nth 2 ps NULL). split; [done|]. split; [done|].
  cbn zeta. intros Hb. apply (HI 1%nat); [done| |done]. apply wrap32_range.
Qed.
End Ends.

(** *** The name of the idle thread

    It is a string at [arg], of four characters and a zero byte. *)

Lemma copy_string_ends n : forall fuel m src dst, (n < fuel)%nat -> ld m (src + Z.of_nat n) = 0 ->
  ~ (dst <= src + Z.of_nat n < dst + Z.of_nat n) -> is_Some (_Objects_Copy_name_string fuel m src dst).
Proof.
  induction n as [|n IH]; intros [|fuel] m src dst Hf H0 Hd; try lia; cbn [_Objects_Copy_name_string].
  - rewrite Z.add_0_r in H0. rewrite H0. assert (ld (st m dst 0) src = 0) as ->; [|by eexists].
    destruct (decide (dst = src)) as [-> |]; [by rewrite ld_st_eq|by rewrite ld_st_ne].
  - destruct (_ =? 0); [by eexists|]. apply IH; [lia| |lia]. rewrite ld_st_ne by lia. rewrite <- H0. f_equal. lia.
Qed.

Section Handlers.
Context (workspace : Z) (hfuel fuel : nat) (fatal_extensions : Internal_errors_Information -> Kernel -> Kernel).
Context (start T arg name : Z) (HT : T < 16 * Z.of_nat hfuel).
Notation heap_in := (heap_in workspace start T).
Notation lands_in P := (lands (fun k => P k)).

(** The object the class hands out next can be given the name. *)
Definition nameable (s : Objects_State) : Prop := forall t s1, _Objects_Allocate s = (t, s1) ->
  is_Some (_Objects_Open fuel t arg (set_names (st32 (names s1) arg name) s1)).

(** Before and after the handler of threads is initialized. *)
Definition early (k : Kernel) : Prop := heap_in k /\ information_table k !! OBJECTS_INTERNAL_THREADS = None.
Definition late (k : Kernel) : Prop := heap_in k /\ nameable (objects_of k OBJECTS_INTERNAL_THREADS).

(** A routine that uses the workspace through its operations and leaves the class of the
    internal threads alone. *)
Definition tame (f : Kernel -> Kernel) : Prop := forall k, heap_in k ->
  heap_in (f k) /\ information_table (f k) !! OBJECTS_INTERNAL_THREADS = information_table k !! OBJECTS_INTERNAL_THREADS.

Lemma tame_early f k : tame f -> early k -> early (f k).
Proof using. intros Hf [H1 H2]. destruct (Hf k H1) as [H3 H4]. split; [done|congruence]. Qed.
Lemma tame_late f k : tame f -> late k -> late (f k).
Proof using. intros Hf [H1 H2]. destruct (Hf k H1) as [H3 H4]. split; [done|]. unfold objects_of in *. by rewrite H4. Qed.

Lemma allocates_early k k' : early k -> allocates workspace start T k k' -> early k'.
Proof using. intros [_ H] [H1 H2]. split; [done|congruence]. Qed.
Lemma allocates_late k k' : late k -> allocates workspace start T k k' -> late k'.
Proof using. intros [_ H] [H1 H2]. split; [done|]. unfold objects_of in *. by rewrite H2. Qed.

Lemma internal_nameable node size n na blocks s : (5 <= fuel)%nat -> arg + 5 <= start \/ start + T <= arg -> start + T < two32 -> 0 <= start ->
  (n = 1 \/ n = 2) -> names s = ∅ -> Inactive (info s) = block_array blocks size (Z.to_nat n) ->
  objects s = number_objects (Inactive (info s)) OBJECTS_INTERNAL_THREADS node 1 na 8 ∅ -> area_in start T na ((n + 1) * 8) -> nameable s.
Proof using.
  clear HT. intros Hf Ha Hu H0 Hn HN HI HO [A1 A2] t s1. unfold _Objects_Allocate. rewrite HI.
  assert (exists l, block_array blocks size (Z.to_nat n) = blocks :: l /\ length l <= 1)%nat as (l & -> & Hl).
  { destruct Hn as [-> | ->]; eexists; (split; [reflexivity|simpl; lia]). }
  intros [= <- <-]. assert (exists d, obj_name (objects s !!! blocks) = na + d /\ (d = 0 \/ d = 8 /\ n = 2)) as (d & Ed & Hd).
  { rewrite HO, HI. destruct Hn as [-> | ->].
    - exists 0. split; [|by left]. simpl. rewrite lookup_total_insert_eq. simpl. lia.
    - change (block_array blocks size (Z.to_nat 2)) with [blocks; _Addresses_Add_offset blocks size]. cbn [number_objects].
      unfold _Addresses_Add_offset. rewrite (wrap32_small (na + 8)) by (unfold u32; lia).
      destruct (decide (blocks +w size = blocks)) as [E|E]; [exists 8|exists 0].
      + rewrite E, lookup_total_insert_eq. simpl. split; [done|by right].
      + rewrite lookup_total_insert_ne, lookup_total_insert_eq by done. simpl. split; [lia|by left]. }
  unfold _Objects_Open. cbn [objects names info set_names set_info is_string set_local_table set_Inactive]. rewrite Ed, HN.
  destruct (is_string (info s)); [|by eexists].
  destruct (copy_string_ends 4 fuel (st32 ∅ arg name) arg (na + d)) as [m ->]; [lia| |lia|by eexists].
  rewrite ld_st32 by lia. done.
Qed.

(** The classes of the managers. *)
Lemma late_class node nodes mp c g max size st l t k : c <> OBJECTS_INTERNAL_THREADS -> late k ->
  lands late (initialize_class workspace hfuel fatal_extensions node nodes mp c g max size st l t k).
Proof using HT.
  intros Hc [H1 H2]. eapply lands_impl; [|apply (initialize_class_lands workspace hfuel fatal_extensions start T HT node nodes mp c g max size st l t k H1)].
  intros k' (H3 & s & ET & _). split; [done|]. unfold objects_of in *. by rewrite ET, lookup_insert_ne.
Qed.

Lemma late_class_then node nodes mp c g max size f k : c <> OBJECTS_INTERNAL_THREADS -> tame f -> late k ->
  lands late (and_then (initialize_api_class workspace hfuel fatal_extensions node nodes mp c g max size k) f).
Proof using HT.
  intros Hc Hf HL. pose proof (late_class node nodes mp c g max size false RTEMS_MAXIMUM_NAME_LENGTH false k Hc HL) as H.
  unfold initialize_api_class. destruct (initialize_class _ _ _ _ _ _ _ _ _ _ _ _ _ _); try done. by apply tame_late.
Qed.
End Handlers.

Section Start.
Context (workspace : Z) (hfuel fuel : nat) (fatal_extensions : Internal_errors_Information -> Kernel -> Kernel).
Context (sizeof : Z -> Z) (sizeof_Thread_Control : Z) (register_packet_processor : MP_packet_Classes -> Kernel -> Kernel).
Context (mpci_handler proxies : Kernel -> Kernel).
Context (stack_allocate_hook : option (Z -> Kernel -> Z * Kernel)) (stack_free_hook : option (Z -> Kernel -> Kernel)).
Context (user_ext api_ext w e arg name : Z) (c : rtems_configuration_table) (cpu : rtems_cpu_table).
Notation start := (work_space_start c).
Notation T := (work_space_size c - 8).
Notation tame := (tame workspace start T).
Notation early := (early workspace start T).
Notation late := (late workspace fuel start T arg name).

(** The workspace is in the address space, beside its control block and the name of the
    idle thread, and of whole words; the fuel is enough for its blocks. *)
Record placed_well : Prop := {
  pw_words : work_space_size c mod 4 = 0;
  pw_space : 0 <= start /\ start + work_space_size c <= two32;
  pw_control : 0 < workspace /\ (workspace + 28 <= start \/ start + work_space_size c <= workspace);
  pw_name : arg + 5 <= start \/ start + work_space_size c <= arg;
  pw_fuel : work_space_size c <= 16 * Z.of_nat hfuel /\ (5 <= fuel)%nat
}.
Context (HP : placed_well).

Lemma blocks_fuel : T < 16 * Z.of_nat hfuel.
Proof using HP. destruct (pw_fuel HP). lia. Qed.

Lemma workspace_lands zero k : information_table k !! OBJECTS_INTERNAL_THREADS = None ->
  lands early (_Workspace_Handler_initialization workspace fatal_extensions zero start (work_space_size c) k).
Proof using HP sizeof register_packet_processor proxies mpci_handler.
  intros HN. destruct HP as [P1 [P2 P3] [P4 P5] _ _]. unfold _Workspace_Handler_initialization.
  destruct (_ || _) eqn:EV; [fatal|]. apply orb_false_iff in EV as [E1%Z.eqb_neq E2%negb_false_iff%Z.eqb_eq].
  set (k1 := if zero then _ else k). assert (information_table k1 = information_table k) as ET by (unfold k1; by destruct zero).
  destruct (heap_initialize_correct (_Workspace_Area k1) workspace start (work_space_size c) CPU_HEAP_ALIGNMENT) as [H1 H2].
  destruct (Z.lt_ge_cases (work_space_size c) HEAP_MINIMUM_SIZE) as [HL|HL].
  - rewrite H2 by by right. fatal.
  - unfold CPU_ALIGNMENT, NULL in *. specialize (H1 eq_refl HL P1 ltac:(Z.div_mod_to_equations; lia) ltac:(Z.div_mod_to_equations; lia) P3 P4 P5).
    destruct (_Heap_Initialize _ _ _ _ _) as [r m]. destruct H1 as [_ HR]. destruct (r =? 0); [fatal|].
    split; [|cbn [information_table set_workspace]; by rewrite ET]. eexists _, _. split; [exact HR|]. simpl. lia.
Qed.

Lemma initial_sets_land l : forall k, early k -> lands early (add_initial_sets workspace hfuel fatal_extensions l k).
Proof using HP.
  induction l as [|t l IH]; intros k HE; [done|]. cbn [add_initial_sets].
  pose proof (allocate_lands workspace hfuel fatal_extensions start T blocks_fuel sizeof_User_extensions_Control k (proj1 HE)) as HA.
  destruct (_Workspace_Allocate_or_fatal_error _ _ _ _ _) as [[x k1]| |]; try done. destruct HA as [HG _].
  apply IH. exact (allocates_early _ _ _ _ _ HE HG).
Qed.

Lemma user_extensions_lands o k : early k -> lands early (_User_extensions_Handler_initialization workspace hfuel fatal_extensions o k).
Proof using HP. intros HE. destruct o; [by apply initial_sets_land|done]. Qed.

Lemma isr_lands size k : early k -> lands early (_ISR_Handler_initialization workspace hfuel fatal_extensions size k).
Proof using HP.
  intros HE. unfold _ISR_Handler_initialization. cbn zeta. destruct (_ <? _); [fatal|].
  eapply lands_bind; [eapply (allocate_lands workspace hfuel fatal_extensions start T blocks_fuel); exact (proj1 HE)|].
  intros [p k1] [HG _]. eapply allocates_early; [|exact HG]. exact HE.
Qed.

Lemma objects_lands node nodes n k : early k ->
  lands (fun r => early r.2) (_Objects_Handler_initialization workspace hfuel fatal_extensions node nodes n k).
Proof using HP.
  intros HE. unfold _Objects_Handler_initialization, _Objects_MP_Handler_initialization. destruct (_ || _); [fatal|].
  destruct (n =? 0); [done|].
  pose proof (allocate_lands workspace hfuel fatal_extensions start T blocks_fuel (n *w sizeof_Objects_MP_Control) k (proj1 HE)) as HA.
  destruct (_Workspace_Allocate_or_fatal_error _ _ _ _ _) as [[p k1]| |]; try done. destruct HA as [HG _]. exact (allocates_early _ _ _ _ _ HE HG).
Qed.

(** The chains of the watchdogs are empty: the insertion of the clock's looks at nothing. *)
Lemma tod_lands us k : early k ->
  lands early (of_option (_TOD_Handler_initialization w e fuel id us (wd_mod _Watchdog_Handler_initialization k))).
Proof using HP.
  intros HE. destruct (pw_fuel HP) as [_ HF]. unfold _TOD_Handler_initialization, _TOD_Activate, _Watchdog_Insert_ticks, _Watchdog_Insert.
  destruct fuel as [|f]; [lia|]. exact HE.
Qed.

Context (Hreg : forall p, tame (register_packet_processor p)) (Hmp : tame mpci_handler) (Hpr : tame proxies).

Lemma thread_handler_lands node nodes mp slice ext k : early k ->
  lands late (_Thread_Handler_initialization workspace hfuel stack_allocate_hook stack_free_hook fatal_extensions node nodes mp
    sizeof_Thread_Control proxies slice ext k).
Proof using HP Hpr.
  intros HE. unfold _Thread_Handler_initialization. destruct (negb _); [fatal|]. cbn zeta. set (k1 := set_ticks_per_timeslice _ _).
  pose proof (allocate_lands workspace hfuel fatal_extensions start T blocks_fuel ((PRIORITY_MAXIMUM + 1) * sizeof_Chain_Control) k1 (proj1 HE)) as HA.
  destruct (_Workspace_Allocate_or_fatal_error _ _ _ _ k1) as [[p k2]| |]; try done. destruct HA as [HG _].
  assert (early (set_ready_chain ∅ k2)) as HE2 by exact (allocates_early _ _ _ k1 _ HE HG).
  assert (early (proxies (set_ready_chain ∅ k2))) as [H3 H4] by (by apply tame_early). set (k3 := proxies _) in *. clearbody k3.
  set (n := if mp then 2 else 1). assert (n = 1 \/ n = 2) as Hn by (unfold n; destruct mp; auto). clearbody n.
  eapply lands_impl; [|apply (initialize_class_lands workspace hfuel fatal_extensions start T blocks_fuel); exact H3].
  intros k4 (H5 & s & ET & ES & EN & na & bl & EI & EO & HA). split; [done|]. unfold objects_of in *. rewrite ET, lookup_insert_eq. rewrite H4 in EN, EO.
  destruct HP as [_ [P2 P3] _ P4 [_ P5]].
  apply (internal_nameable fuel start T arg name node sizeof_Thread_Control n na bl s); [done|lia|lia|lia|done|done| |exact EO|].
  - rewrite EI. by destruct Hn as [-> | ->].
  - change (round_name_length 8) with 8 in HA. assert ((n +w 1) *w 8 = (n + 1) * 8) as <- by (by destruct Hn as [-> | ->]). apply HA.
    by destruct Hn as [-> | ->].
Qed.

Lemma tasks_lands node nodes mp max k : late k ->
  lands late (_RTEMS_tasks_Manager_initialization node nodes workspace hfuel mp fatal_extensions register_packet_processor
    sizeof_Thread_Control user_ext api_ext max k).
Proof using HP Hreg.
  intros HL. unfold _RTEMS_tasks_Manager_initialization.
  pose proof (late_class workspace hfuel fuel fatal_extensions start T arg name blocks_fuel node nodes mp OBJECTS_RTEMS_TASKS true max
    sizeof_Thread_Control false RTEMS_MAXIMUM_NAME_LENGTH true k ltac:(discriminate) HL) as HC.
  destruct (initialize_class _ _ _ _ _ _ _ _ _ _ _ _ _ _) as [k1| |]; try done. apply tame_late; [done|exact HC].
Qed.

Lemma api_lands node nodes mp a k : late k ->
  lands late (_RTEMS_API_Initialize workspace hfuel fatal_extensions sizeof sizeof_Thread_Control register_packet_processor user_ext api_ext
    node nodes mp a k).
Proof using HP Hreg.
  intros HL. pose proof blocks_fuel as HT. unfold _RTEMS_API_Initialize.
  eapply lands_bind; [by apply tasks_lands|]. intros k1 H1. eapply lands_bind; [by apply late_class|]. intros k2 H2. cbn zeta.
  assert (late (register_packet_processor MP_PACKET_EVENT (_Event_Manager_initialization (_Signal_Manager_initialization register_packet_processor k2)))) as H3.
  { apply tame_late; [done|]. exact (tame_late _ _ _ _ _ _ _ _ (Hreg MP_PACKET_SIGNAL) H2). }
  do 4 (eapply lands_bind; [by apply late_class_then|intros ? ?]). eapply lands_bind; [by apply late_class|]. intros k7 H7. by apply late_class.
Qed.

Lemma handlers_land debug k : information_table k !! OBJECTS_INTERNAL_THREADS = None ->
  lands (fun x => late (kernel x)) (initialize_handlers workspace hfuel fuel fatal_extensions sizeof sizeof_Thread_Control register_packet_processor
    mpci_handler proxies stack_allocate_hook stack_free_hook user_ext api_ext w e c cpu debug k).
Proof using HP Hreg Hmp Hpr.
  intros HN. unfold initialize_handlers. cbn zeta. eapply lands_bind; [by apply workspace_lands|]. intros k1 H1.
  eapply lands_bind; [by apply user_extensions_lands|]. intros k2 H2. eapply lands_bind; [by apply isr_lands|]. intros k3 H3.
  eapply lands_bind; [by apply objects_lands|]. intros [[[node nodes] pool] k4] H4.
  eapply lands_bind; [apply tod_lands; exact H4|]. intros k5 H5. eapply lands_bind; [by apply thread_handler_lands|]. intros k6 H6.
  eapply (lands_bind late). { unfold _MPCI_Handler_initialization. destruct (_ && _); [fatal|]. destruct (negb _); [exact H6|by apply tame_late]. }
  intros k7 H7. eapply lands_bind; [apply (late_class workspace hfuel fuel fatal_extensions start T arg name blocks_fuel); [discriminate|exact H7]|]. intros k8 H8.
  eapply (lands_bind (fun r => late r.2)).
  { unfold _IO_Manager_initialization.
    pose proof (allocate_lands workspace hfuel fatal_extensions start T blocks_fuel (sizeof_rtems_driver_name_t *w (maximum_devices c +w 1)) k8 (proj1 H8)) as HA.
    destruct (_Workspace_Allocate_or_fatal_error _ _ _ _ _) as [[p k9]| |]; try done. destruct HA as [HG _]. exact (allocates_late _ _ _ _ _ _ _ _ H8 HG). }
  intros [tbl k9] H9. eapply lands_bind; [by apply api_lands|]. intros k10 H10. exact H10.
Qed.
End Start.

(** *** The idle thread *)

Section IdleEnds.
Context (workspace : Z) (hfuel fuel : nat) (start T arg name : Z) (HT : T < 16 * Z.of_nat hfuel).
Context (stack_allocate_hook : option (Z -> Kernel -> Z * Kernel)) (stack_free_hook : option (Z -> Kernel -> Kernel)).
Context (create : Z -> Kernel -> option (bool * Kernel)) (started : Z -> Kernel -> Kernel).
Notation heap_in := (heap_in workspace start T).
Notation late := (late workspace fuel start T arg name).

Definition steady (k k' : Kernel) : Prop :=
  heap_in k' /\ information_table k' !! OBJECTS_INTERNAL_THREADS = information_table k !! OBJECTS_INTERNAL_THREADS.
Context (Hhook : forall hook size, stack_allocate_hook = Some hook -> tame workspace start T (fun k => (hook size k).2)).
Context (Hcreate : forall t k, heap_in k -> is_Some (create t k)).

Lemma steady_allocate size k : heap_in k -> exists p k', _Workspace_Allocate workspace hfuel size k = Some (p, k') /\ steady k k'.
Proof using HT.
  intros HK. destruct (heap_answers workspace hfuel start T HT size k HK) as (p & k' & E & HK' & EK & _). exists p, k'. split; [done|].
  split; [done|]. by rewrite EK.
Qed.

Lemma stack_ends t area size k : heap_in k -> exists ok k', initialize_stack workspace hfuel stack_allocate_hook t area size k = Some (ok, k') /\ steady k k'.
Proof using HT Hhook.
  intros HK. unfold initialize_stack, _Thread_Stack_Allocate. destruct (area =? NULL); [|by eexists true, _; split; [reflexivity|]; split].
  destruct stack_allocate_hook as [hook|] eqn:EH.
  - set (n := if negb (_Stack_Is_enough (if negb _ then _ else _)) then _ else _). pose proof (Hhook hook n eq_refl k HK) as HS. cbv beta in HS.
    destruct (hook n k) as [a k1]. cbn [snd] in HS. cbn zeta. match goal with |- context [if ?b then Some (false, _) else _] => destruct b end;
      eexists _, _; (split; [reflexivity|]; exact HS).
  - set (n := _Stack_Adjust_size _). destruct (steady_allocate n k HK) as (a & k1 & -> & HS). cbn zeta.
    match goal with |- context [if ?b then Some (false, _) else _] => destruct b end; eexists _, _; (split; [reflexivity|]; exact HS).
Qed.

Lemma allocate_if_ends wanted size k : heap_in k -> exists ok p k', allocate_if workspace hfuel wanted size k = Some (ok, p, k') /\ steady k k'.
Proof using HT.
  intros HK. unfold allocate_if. destruct wanted; [|by eexists _, _, _].
  destruct (steady_allocate size k HK) as (a & k1 & -> & HS). by eexists _, _, _.
Qed.

Lemma idle_ends t size priority k : heap_in k ->
  is_Some (_Objects_Open fuel t arg (set_names (st32 (names (objects_of k OBJECTS_INTERNAL_THREADS)) arg name) (objects_of k OBJECTS_INTERNAL_THREADS))) ->
  is_Some (_Thread_Initialize workspace hfuel stack_allocate_hook stack_free_hook create fuel arg OBJECTS_INTERNAL_THREADS t NULL size false
    priority true THREAD_CPU_BUDGET_ALGORITHM_NONE NULL 0 name k).
Proof using HT Hhook Hcreate.
  intros HK HO. unfold _Thread_Initialize. destruct (stack_ends t NULL size k HK) as ([] & k1 & -> & [H1 E1]); [|by eexists].
  change (allocate_if workspace hfuel false CONTEXT_FP_SIZE k1) with (Some (true, NULL, k1)). cbv iota. set (k2 := upd_start t _ _).
  assert (heap_in k2) as H2 by exact H1.
  destruct (allocate_if_ends (negb (_Thread_Maximum_extensions k2 =? 0)) ((_Thread_Maximum_extensions k2 +w 1) *w sizeof_pointer) k2 H2)
    as ([] & p & k3 & -> & [H3 E3]); [|by eexists].
  set (k4 := initialize_control _ _ _ _ _ _ _). assert (heap_in k4) as H4 by exact H3.
  assert (objects_of k4 OBJECTS_INTERNAL_THREADS = objects_of k OBJECTS_INTERNAL_THREADS) as E4.
  { unfold objects_of. change (information_table k4) with (information_table k3). rewrite E3. change (information_table k2) with (information_table k1). by rewrite E1. }
  unfold object_open. rewrite E4. destruct HO as [s ->]. set (k5 := put_objects _ _ _). destruct (Hcreate t k5) as [[[] k6] ->]; [exact H4|by eexists..].
Qed.

Lemma create_idle_ends idle size k : late k ->
  is_Some (_Thread_Create_idle workspace hfuel stack_allocate_hook stack_free_hook create started fuel arg idle size name k).
Proof using HT Hhook Hcreate.
  intros [HK HN]. unfold _Thread_Create_idle, object_allocate. destruct (_Objects_Allocate _) as [t s] eqn:EA.
  cbn zeta. set (k1 := set_idle t _). destruct (idle_ends t (if size <? STACK_MINIMUM_SIZE then STACK_MINIMUM_SIZE else size) PRIORITY_MAXIMUM k1) as [[ok k2] ->]; [exact HK| |by eexists].
  assert (objects_of k1 OBJECTS_INTERNAL_THREADS = s) as -> by (unfold objects_of, k1; cbn; by rewrite lookup_insert_eq). by apply HN.
Qed.
End IdleEnds.

(** ** The claims *)

(** [start_multitasking] switches to the heir. *)
Lemma start_multitasking_schedules k : sched_ok k ->
  let k' := _Thread_Start_multitasking id k in
  sched_ok k' /\ _Thread_Executing k' = _Thread_Heir k' /\ _Thread_Heir k' = _Thread_Heir k.
Proof.
  intros HS. unfold _Thread_Start_multitasking, id. cbn zeta. set (k1 := set_executing _ _).
  assert (sched_ok k1) as H1.
  { destruct HS as [A B C D E]. assert (known k (_Thread_Heir k)) as HH.
    { destruct B as (p & Hp & _ & HB).
      assert (_Thread_Heir k ∈ chain_at k p) as Hin by (destruct (chain_at k p); [done|]; injection HB as ->; left).
      by apply (ro_chain _ _ A p _ Hp) in Hin as (? & _). }
    split; [by destruct A; split|done|by intros ?|done|done]. }
  destruct (negb _); [|done]. split; [|done]. destruct H1 as [A B C D E]. split; [by destruct A; split|done|done|done|done].
Qed.

Lemma run_each_keeps (P : Kernel -> Prop) field call k : (forall r k, P k -> P (call r k)) -> P k -> P (run_each field call k).
Proof.
  intros HC. unfold run_each. generalize (_API_extensions_List (rtems k)). intros l. revert k.
  induction l as [|e l IH]; intros k HK; simpl; [done|]. apply IH. destruct (negb _); auto.
Qed.

Lemma drivers_keep (P : Kernel -> Prop) call s k : (forall a b c d k, P k -> P (call a b c d k).2) -> P k -> P (_IO_Initialize_all_drivers call s k).
Proof.
  intros HC. unfold _IO_Initialize_all_drivers. generalize (seq 0 (Z.to_nat (_IO_Number_of_drivers s))). intros l. revert k.
  induction l as [|i l IH]; intros k HK; simpl; [done|]. apply IH. unfold rtems_io_initialize, io_request.
  destruct (_ <=? _); [done|]. cbn zeta. destruct (negb _); [by apply HC|done].
Qed.

Section Claim.
Context (workspace : Z) (hfuel fuel : nat) (fatal_extensions : Internal_errors_Information -> Kernel -> Kernel).
Context (call0 : Z -> Kernel -> Kernel) (call_driver : Z -> Z -> Z -> Z -> Kernel -> Z * Kernel).
Context (sizeof : Z -> Z) (sizeof_Thread_Control : Z) (register_packet_processor : MP_packet_Classes -> Kernel -> Kernel).
Context (mpci_handler mpci_server mpci_start proxies : Kernel -> Kernel).
Context (stack_allocate_hook : option (Z -> Kernel -> Z * Kernel)) (stack_free_hook : option (Z -> Kernel -> Kernel)).
Context (create : Z -> Kernel -> option (bool * Kernel)) (started : Z -> Kernel -> Kernel).
Context (user_ext api_ext w entry name_argument idle_name : Z).

(** The creation of the idle thread, whose answer [_Thread_Create_idle] does not look at. *)
Definition idle_created (cpu : rtems_cpu_table) (k : Kernel) : Prop :=
  let '(t, k0) := object_allocate OBJECTS_INTERNAL_THREADS k in
  let size := idle_task_stack_size cpu in
  let stack := if size <? STACK_MINIMUM_SIZE then STACK_MINIMUM_SIZE else size in
  is_Some (_Thread_Initialize workspace hfuel stack_allocate_hook stack_free_hook create fuel name_argument OBJECTS_INTERNAL_THREADS t NULL stack false
    PRIORITY_MAXIMUM true THREAD_CPU_BUDGET_ALGORITHM_NONE NULL 0 idle_name (set_idle t k0) ≫= fun r => if r.1 : bool then Some () else None).

(** Routines of the application and of the multiprocessing layer use the scheduler through
    its operations. *)
Record well_behaved : Prop := {
  wb_register : forall c, keeps (register_packet_processor c);
  wb_mpci : keeps mpci_handler;
  wb_proxies : keeps proxies;
  wb_extensions : extensions_apart create;
  wb_started : forall t k, sched_ok k -> sched_ok (started t k);
  wb_hooks : forall r k, sched_ok k -> sched_ok (call0 r k);
  wb_drivers : forall a b c d k, sched_ok k -> sched_ok (call_driver a b c d k).2;
  wb_server : forall k, sched_ok k -> sched_ok (mpci_server k);
  wb_start : forall k, sched_ok k -> sched_ok (mpci_start k)
}.

Lemma initialize_drivers_schedules cpu e : well_behaved -> sched_ok (kernel e) ->
  sched_ok (kernel (initialize_drivers call0 call_driver mpci_server mpci_start cpu e)).
Proof.
  intros [_ _ _ _ _ HH HD HS HT] H0. unfold initialize_drivers, _API_extensions_Run_predriver, _API_extensions_Run_postdriver. cbn [kernel set_kernel].
  assert (forall r k, sched_ok k -> sched_ok (call_hook call0 r k)) as HC by (intros r k H; unfold call_hook; destruct (negb _); auto).
  apply HC, (run_each_keeps sched_ok); [done|]. match goal with |- sched_ok (if ?b then _ else ?x) => assert (sched_ok x) end;
    [|destruct (_System_state_Is_multiprocessing e); auto].
  apply (drivers_keep sched_ok); [done|]. apply HC, (run_each_keeps sched_ok); [done|]. destruct (_System_state_Is_multiprocessing e); auto.
Qed.

(** The workspace, too, is used through its operations, and the creation of the idle
    thread's extensions has a result. *)
Record well_fed (c : rtems_configuration_table) (cpu : rtems_cpu_table) : Prop := {
  wf_register : forall p, tame workspace (work_space_start c) (work_space_size c - 8) (register_packet_processor p);
  wf_mpci : tame workspace (work_space_start c) (work_space_size c - 8) mpci_handler;
  wf_proxies : tame workspace (work_space_start c) (work_space_size c - 8) proxies;
  wf_pretasking : tame workspace (work_space_start c) (work_space_size c - 8) (call_hook call0 (pretasking_hook cpu));
  wf_stack : forall hook size, stack_allocate_hook = Some hook ->
    tame workspace (work_space_start c) (work_space_size c - 8) (fun k => (hook size k).2);
  wf_create : forall t k, heap_in workspace (work_space_start c) (work_space_size c - 8) k -> is_Some (create t k)
}.

Lemma handlers_schedule c cpu debug_level k x : well_behaved -> threads k = ∅ -> keeps (call_hook call0 (pretasking_hook cpu)) ->
  initialize_handlers workspace hfuel fuel fatal_extensions sizeof sizeof_Thread_Control register_packet_processor mpci_handler
    proxies stack_allocate_hook stack_free_hook user_ext api_ext w entry c cpu debug_level k = Done x ->
  exists s, sched_view (call_hook call0 (pretasking_hook cpu) (kernel x)) = (∅, ∅, _Priority_Handler_initialization s).
Proof.
  intros HW E0 HK EH. destruct (handlers_initialised _ _ _ _ _ _ _ _ _ _ _ _ _ _ _ (wb_register HW) (wb_mpci HW) (wb_proxies HW) _ _ _ _ _ EH) as [s EV].
  exists s. by rewrite HK, EV, E0.
Qed.

End Claim.

(** ** A small system *)

Module BootExample.
Definition blank : Kernel := set_threads ∅ ThreadExample.k0.
Definition configuration : rtems_configuration_table :=
  {| work_space_start := 4096; work_space_size := 65536; maximum_extensions := 1; microseconds_per_tick := 10000;
     ticks_per_timeslice := 5; maximum_devices := 2; number_of_device_drivers := 1; Device_driver_table := [no_driver];
     User_extension_table := None; User_multiprocessing_table := None;
     RTEMS_api_configuration := {| maximum_tasks := 3; maximum_timers := 2; maximum_semaphores := 2; maximum_message_queues := 1;
       maximum_partitions := 1; maximum_regions := 1; maximum_ports := 1; maximum_periods := 1;
       User_initialization_tasks_table := None |} |}.
Definition cpu : rtems_cpu_table :=
  {| pretasking_hook := 0; predriver_hook' := 0; postdriver_hook' := 0; idle_task := 77; do_zero_of_workspace := false;
     idle_task_stack_size := 0; interrupt_stack_size := 4096 |}.
Definition create (t : Z) (k : Kernel) : option (bool * Kernel) := _RTEMS_tasks_Create_extension 64 5000 (_Thread_Executing k) t k.
Abbreviation boot start :=
  (rtems_initialize_executive 64 5000 10 (fun _ k => k) (fun _ k => k) (fun _ _ _ _ k => (0, k)) (fun _ => 64) 400 (fun _ k => k)
    (fun k => k) (fun k => k) (fun k => k) (fun k => k) None None create (fun _ k => k) 500 540 600 900 3000 0
    (Some configuration) (Some cpu) 0 start).
Abbreviation handlers start :=
  (initialize_handlers 64 5000 10 (fun _ k => k) (fun _ => 64) 400 (fun _ k => k) (fun k => k) (fun k => k) None None 500 540 600 900
    configuration cpu 0 start).
Definition idle_check (o : outcome Executive) : bool :=
  match o with
  | Done x =>
      let '(t, k0) := object_allocate OBJECTS_INTERNAL_THREADS (kernel x) in
      match _Thread_Initialize 64 5000 None None create 10 3000 OBJECTS_INTERNAL_THREADS t NULL STACK_MINIMUM_SIZE false
              PRIORITY_MAXIMUM true THREAD_CPU_BUDGET_ALGORITHM_NONE NULL 0 0 (set_idle t k0) with
      | Some (true, _) => true
      | _ => false
      end
  | _ => false
  end.
Lemma booted : exists e, boot blank = Done e.
Proof. eexists. vm_compute. reflexivity. Qed.
Lemma idle_checked : idle_check (handlers blank) = true.
Proof. vm_compute. reflexivity. Qed.
End BootExample.

(** The extension of the Task Manager leaves the scheduler alone. *)
Lemma task_extension_apart : extensions_apart BootExample.create.
Proof.
  intros t k ok k'. unfold BootExample.create, _RTEMS_tasks_Create_extension, _Workspace_Allocate.
  destruct (_Heap_Allocate _ _ _ _) as [[p m]|]; [|done]. destruct (p =? 0); [by intros [= _ <-]|]. intros [= _ <-].
  set (k1 := upd_thread t _ _). assert (only t k k1) as [A B C D] by (apply only_upd; by split).
  assert (scheduling (tcb k1 t) = scheduling (tcb k t)) as ES by (unfold k1; by rewrite tcb_upd_self).
  assert (known k1 t) as HK by (unfold known, k1, upd_thread; simpl; rewrite lookup_insert_eq; by eexists).
  clearbody k1. split; [by split|]. by split.
Qed.

Lemma idle_checked_created x : BootExample.idle_check (Done x) = true ->
  idle_created 64 5000 10 None None BootExample.create 3000 0 BootExample.cpu (kernel x).
Proof.
  unfold idle_created, BootExample.idle_check. destruct (object_allocate OBJECTS_INTERNAL_THREADS (kernel x)) as [t k0].
  assert ((if idle_task_stack_size BootExample.cpu <? STACK_MINIMUM_SIZE then STACK_MINIMUM_SIZE
           else idle_task_stack_size BootExample.cpu) = STACK_MINIMUM_SIZE) as -> by reflexivity.
  generalize (_Thread_Initialize 64 5000 None None BootExample.create 10 3000 OBJECTS_INTERNAL_THREADS t NULL STACK_MINIMUM_SIZE false
    PRIORITY_MAXIMUM true THREAD_CPU_BUDGET_ALGORITHM_NONE NULL 0 0 (set_idle t k0)).
  intros [[[] k1]|]; try discriminate. intros _. by exists ().
Qed.

Lemma no_hook k : call_hook (fun _ k => k) (pretasking_hook BootExample.cpu) k = k.
Proof. reflexivity. Qed.

Lemma untouched_tame start T : tame 64 start T (fun k => k).
Proof. intros k H. by split. Qed.

Lemma example_placed : placed_well 64 5000 10 3000 BootExample.configuration.
Proof. split; [done|split; done|split; [done|left; done]|left; done|split; [done|lia]]. Qed.

Lemma example_fed : well_fed 64 (fun _ k => k) (fun _ k => k) (fun k => k) (fun k => k) None BootExample.create BootExample.configuration BootExample.cpu.
Proof.
  split; try apply untouched_tame; try done. intros t k HK. unfold BootExample.create, _RTEMS_tasks_Create_extension.
  edestruct (heap_answers 64 5000) as (p & k' & -> & _); [|exact HK|by destruct (p =? 0); eexists]. vm_compute. reflexivity.
Qed.


(** ** The floating point context of the first thread *)

(** [_Thread_Start_multitasking] loads the registers of the first thread but does not make it
    their owner: the values [r] that it has computed are overwritten, and saved nowhere,
    when another floating point thread is switched to. *)
Theorem first_fp_context_lost u r k : let h := _Thread_Heir k in
  fp_context (tcb k h) <> NULL -> fp_context (tcb k u) <> NULL -> u <> h -> _Thread_Allocated_fp k = NULL -> h <> NULL -> u <> NULL ->
  let k1 := _Thread_Start_multitasking id k in
  let k2 := switch_fp u (set_fp_registers r k1) in
  fp_value k2 h = ld (fp_areas k) (fp_context (tcb k h)) /\ fp_registers k2 = ld (fp_areas k) (fp_context (tcb k u)).
Proof.
  intros h Hh Hu Hne HA Hh0 Hu0 k1 k2.
  assert (k1 = _Context_Restore_fp (fp_context (tcb k h)) (set_executing h (set_necessary false k))) as E1.
  { unfold k1, _Thread_Start_multitasking, id. cbn zeta. change (tcb (set_executing _ _) ?x) with (tcb k x).
    change (_Thread_Heir (set_executing ?a ?b)) with h. change (_Thread_Heir (set_necessary false k)) with h.
    by rewrite (proj2 (Z.eqb_neq _ _) Hh). }
  assert (k2 = set_allocated_fp u (_Context_Restore_fp (fp_context (tcb k u)) (set_fp_registers r k1))) as E2.
  { unfold k2, switch_fp, _Thread_Is_allocated_fp. rewrite E1. change (tcb (set_fp_registers _ _) ?x) with (tcb k x).
    change (_Thread_Allocated_fp (set_fp_registers _ _)) with (_Thread_Allocated_fp k).
    by rewrite HA, (proj2 (Z.eqb_neq _ _) Hu), (proj2 (Z.eqb_neq u NULL) Hu0). }
  rewrite E2, E1. unfold fp_value, _Thread_Is_allocated_fp. simpl. rewrite (proj2 (Z.eqb_neq h u)) by done. done.
Qed.
