(* ===== verification/Posix.v ===== *)
(** * Common parts of the POSIX API (posix/inline/rtems/posix/priority.inl, posix/src/time.c)

    Priorities run the other way round than in the SuperCore.  Times are a number of seconds
    and nanoseconds, and are turned into clock ticks for the watchdogs.  The error numbers
    are those of the C library that RTEMS is built with. *)
From S2P Require Import Prelude Chain Watchdog Tod Object Priority ApiTypes Kernel.

Definition EPERM : Z := 1.
Definition EAGAIN : Z := 11.
Definition ENOMEM : Z := 12.
Definition EBUSY : Z := 16.
Definition EINVAL : Z := 22.
Definition EDEADLK : Z := 45.
Definition ETIMEDOUT : Z := 116.

(** What a call ends in: it returns a value, or -1 with an error number, or an assertion does
    not hold, which is also where what is not implemented ends. *)
Inductive result : Type :=
| Returned (value : Z) (k : Kernel)
| Failed_with (errno : Z) (k : Kernel)
| Assertion_failed
| Unfinished.

Definition returns (r : option (Z * Kernel)) : result :=
  match r with None => Unfinished | Some (value, k) => Returned value k end.

Definition EINTR : Z := 4.
Definition ESRCH : Z := 3.

(** ** Priorities *)

Definition POSIX_SCHEDULER_MAXIMUM_PRIORITY : Z := 254.
Definition POSIX_SCHEDULER_MINIMUM_PRIORITY : Z := 1.
Definition _POSIX_Priority_Is_valid (priority : Z) : bool := (1 <=? priority) && (priority <=? 255).
Definition _POSIX_Priority_To_core (priority : Z) : Z := wrap32 (256 - priority).
Definition _POSIX_Priority_From_core (priority : Z) : Z := 256 - priority.

(** ** Times *)

Definition TOD_NANOSECONDS_PER_SECOND : Z := 1000000000.
Definition TOD_NANOSECONDS_PER_MICROSECOND : Z := 1000.

(** A comparison of a [long] with an [unsigned int] is one of unsigned numbers, and so is
    the division. *)
Definition _POSIX_Timespec_subtract (start end_ : timespec) : timespec :=
  let start :=
    if tv_nsec end_ <? tv_nsec start then
      let seconds := wrap32 (tv_nsec start - tv_nsec end_) / TOD_NANOSECONDS_PER_SECOND + 1 in
      {| tv_sec := tv_sec start + seconds; tv_nsec := tv_nsec start - TOD_NANOSECONDS_PER_SECOND * seconds |}
    else start in
  let start :=
    if TOD_NANOSECONDS_PER_SECOND <? wrap32 (tv_nsec end_ - tv_nsec start) then
      let seconds := wrap32 (tv_nsec start - tv_nsec end_) / TOD_NANOSECONDS_PER_SECOND in
      {| tv_sec := tv_sec start - seconds; tv_nsec := tv_nsec start + TOD_NANOSECONDS_PER_SECOND * seconds |}
    else start in
  {| tv_sec := tv_sec end_ - tv_sec start; tv_nsec := tv_nsec end_ - tv_nsec start |}.

(** The products are taken modulo [2^32], as the processor computes them. *)
Definition _POSIX_Timespec_to_interval (microseconds_per_tick : Z) (time : timespec) : Z :=
  let ticks := (tv_sec time *w TOD_MICROSECONDS_PER_SECOND) / microseconds_per_tick in
  let ticks := ticks +w (tv_nsec time / TOD_NANOSECONDS_PER_MICROSECOND) / microseconds_per_tick in
  if negb (ticks =? 0) then ticks else 1.

Definition _POSIX_Interval_to_timespec (microseconds_per_tick ticks : Z) : timespec :=
  let usecs := ticks *w microseconds_per_tick in
  {| tv_sec := usecs / TOD_MICROSECONDS_PER_SECOND;
     tv_nsec := (usecs mod TOD_MICROSECONDS_PER_SECOND) * TOD_NANOSECONDS_PER_MICROSECOND |}.

(** ** Their correctness *)

Definition valid_time (t : timespec) : Prop := 0 <= tv_sec t < 2 ^ 31 /\ 0 <= tv_nsec t < TOD_NANOSECONDS_PER_SECOND.
Definition nanoseconds (t : timespec) : Z := tv_sec t * TOD_NANOSECONDS_PER_SECOND + tv_nsec t.

(** The difference of two times is exact and has its nanoseconds in range. *)
Theorem timespec_subtract_exact start end_ : valid_time start -> valid_time end_ ->
  let d := _POSIX_Timespec_subtract start end_ in
  nanoseconds d = nanoseconds end_ - nanoseconds start /\ 0 <= tv_nsec d < TOD_NANOSECONDS_PER_SECOND.
Proof.
  destruct start as [s n], end_ as [e m]. unfold valid_time, nanoseconds, _POSIX_Timespec_subtract, TOD_NANOSECONDS_PER_SECOND. simpl.
  intros H1 H2. destruct (Z.ltb_spec m n); simpl.
  - rewrite (wrap32_small (n - m)) by (unfold u32, two32; lia). rewrite (Z.div_small (n - m)) by lia. simpl.
    rewrite wrap32_small by (unfold u32, two32; lia). rewrite (proj2 (Z.ltb_ge 1000000000 _)) by lia. simpl. lia.
  - rewrite wrap32_small by (unfold u32, two32; lia). rewrite (proj2 (Z.ltb_ge 1000000000 _)) by lia. simpl. lia.
Qed.

(** A time turns into the number of whole ticks of its seconds and of its nanoseconds, and at
    least one, as long as its microseconds fit a word: from 4295 seconds on, a little more
    than an hour, the number wraps around and a long wait becomes a short one. *)
Theorem timespec_to_interval_wraps us t : 1 <= us < two32 -> 0 <= tv_sec t -> 0 <= tv_nsec t < TOD_NANOSECONDS_PER_SECOND ->
  _POSIX_Timespec_to_interval us t =
    let sec := if tv_sec t <=? 4294 then tv_sec t * 1000000 else (tv_sec t * 1000000) mod two32 in
    Z.max 1 (wrap32 (sec / us + tv_nsec t / 1000 / us)).
Proof.
  intros Hu Hs Hn. unfold _POSIX_Timespec_to_interval, TOD_MICROSECONDS_PER_SECOND, TOD_NANOSECONDS_PER_MICROSECOND. cbn zeta.
  assert (wrap32 (tv_sec t * 1000000) = if tv_sec t <=? 4294 then tv_sec t * 1000000 else (tv_sec t * 1000000) mod two32) as ->.
  { destruct (Z.leb_spec (tv_sec t) 4294); [apply wrap32_small; unfold u32, two32; lia|done]. }
  set (x := wrap32 _). assert (0 <= x < two32) as Hx by apply Z.mod_pos_bound, eq_refl.
  destruct (Z.eqb_spec x 0) as [E|E]; simpl; lia.
Qed.

Lemma interval_wraps_example : _POSIX_Timespec_to_interval 10000 {| tv_sec := 4295; tv_nsec := 0 |} = 3.
Proof. reflexivity. Qed.

(** Ticks come back unchanged, as long as their microseconds fit a word. *)
Theorem interval_timespec_roundtrip us ticks : 1 <= us <= 1000000 -> 1000000 mod us = 0 -> 1 <= ticks -> ticks * us < two32 ->
  _POSIX_Timespec_to_interval us (_POSIX_Interval_to_timespec us ticks) = ticks.
Proof.
  intros Hu Hd Ht Hw. unfold _POSIX_Interval_to_timespec. rewrite wrap32_small by (unfold u32; nia).
  unfold TOD_MICROSECONDS_PER_SECOND, TOD_NANOSECONDS_PER_MICROSECOND. set (n := ticks * us) in *. cbn zeta.
  assert (0 <= n / 1000000 /\ 0 <= n mod 1000000 < 1000000 /\ n = 1000000 * (n / 1000000) + n mod 1000000) as (A & B & C).
  { split_and!; [apply Z.div_pos; lia|apply Z.mod_pos_bound; lia|apply Z.mod_pos_bound; lia|apply Z.div_mod; lia]. }
  unfold _POSIX_Timespec_to_interval, TOD_MICROSECONDS_PER_SECOND, TOD_NANOSECONDS_PER_MICROSECOND. cbn [tv_sec tv_nsec]. cbn zeta.
  rewrite (wrap32_small (n / 1000000 * 1000000)) by (unfold u32; lia). rewrite Z.div_mul by lia.
  assert (exists q, 1000000 = us * q) as [q Hq] by (exists (1000000 / us); pose proof (Z.div_mod 1000000 us); lia).
  assert (n / 1000000 * 1000000 / us = n / 1000000 * q) as ->.
  { rewrite Hq at 2. replace (n / 1000000 * (us * q)) with (n / 1000000 * q * us) by lia. apply Z.div_mul. lia. }
  assert (n mod 1000000 / us = ticks - n / 1000000 * q) as ->.
  { symmetry. apply (Z.div_unique_exact _ us); [lia|]. unfold n in *. nia. }
  replace (n / 1000000 * q + (ticks - n / 1000000 * q)) with ticks by lia.
  rewrite wrap32_small by (unfold u32; nia). by rewrite (proj2 (Z.eqb_neq ticks 0)) by lia.
Qed.

(** Priorities come back unchanged; the highest of POSIX is the highest of the SuperCore that
    is not reserved, and 1 is that of the idle thread. *)
Theorem posix_priority_roundtrip p : _POSIX_Priority_Is_valid p = true ->
  _POSIX_Priority_From_core (_POSIX_Priority_To_core p) = p /\ 1 <= _POSIX_Priority_To_core p <= 255.
Proof.
  unfold _POSIX_Priority_Is_valid, _POSIX_Priority_From_core, _POSIX_Priority_To_core. intros [H1 H2]%andb_prop.
  apply Z.leb_le in H1, H2. rewrite wrap32_small by (unfold u32, two32; lia). lia.
Qed.
