(* ===== verification/PosixKey.v ===== *)
(** * Keys of the POSIX API (posix/src/key.c)

    A key has, for every class of threads, a table in the workspace with one word for each
    thread of the class.  When a thread ends, the destructors of the keys for which it has a
    value are called; they are the parameter [call]. *)
From S2P Require Import Prelude Chain Watchdog Object Priority ApiTypes Heap Kernel Thread Workspace CoreMsg Rtems Partition Init Posix.

Definition OBJECTS_POSIX_KEYS : Z := 12.
Definition PTHREAD_DESTRUCTOR_ITERATIONS : nat := 4.
(** [OBJECTS_CLASSES_FIRST_THREAD_CLASS] to [OBJECTS_CLASSES_LAST_THREAD_CLASS]. *)
Definition thread_classes : list Z := [1; 2; 3].

Definition posix_key (k : Kernel) (the_key : Z) : POSIX_Keys_Control := posix_keys (rtems k) !!! the_key.
Definition upd_key (the_key : Z) (f : POSIX_Keys_Control -> POSIX_Keys_Control) (k : Kernel) : Kernel :=
  upd_rtems (fun r => set_posix_keys (<[the_key := f (posix_key k the_key)]> (posix_keys r)) r) k.

(** The word of [Values[ class ][ index ]]. *)
Definition value_address (k : Kernel) (the_key class index : Z) : Z := Values (posix_key k the_key) !!! class + 4 * index.
Definition key_value (k : Kernel) (the_key class index : Z) : Z := ld (_Workspace_Area k) (value_address k the_key class index).
Definition set_key_value (the_key class index value : Z) (k : Kernel) : Kernel :=
  set_workspace (st (_Workspace_Area k) (value_address k the_key class index) value) k.

(** Opening an object that has no name. *)
Definition object_open_unnamed (fuel : nat) (c the_object : Z) (k : Kernel) : option Kernel :=
  match _Objects_Open fuel the_object 0 (objects_of k c) with
  | None => None
  | Some s => Some (put_objects c s k)
  end.

Section Keys.
Context (workspace : Z) (hfuel : nat).

Definition _POSIX_Key_Manager_initialization (fatal_extensions : Internal_errors_Information -> Kernel -> Kernel) (node nodes : Z)
    (is_multiprocessing : bool) (size maximum_keys : Z) : Kernel -> outcome Kernel :=
  initialize_class workspace hfuel fatal_extensions node nodes is_multiprocessing OBJECTS_POSIX_KEYS false maximum_keys size false 0 false.

(** The tables of the classes, the last one first, given back. *)
Definition free_tables (the_key : Z) (classes : list Z) (k : Kernel) : Kernel :=
  fold_left (fun k c => (_Workspace_Free workspace (Values (posix_key k the_key) !!! c) k).2) classes k.

(** A table of zeros for each class: [false] if there is no room for one of them; [done] are
    the classes that have theirs, the last one first. *)
Fixpoint allocate_tables (the_key : Z) (done classes : list Z) (k : Kernel) : option (bool * Kernel) :=
  match classes with
  | [] => Some (true, k)
  | c :: classes =>
      let bytes_to_allocate := (maximum (info (objects_of k c)) +w 1) *w sizeof_pointer in
      match _Workspace_Allocate workspace hfuel bytes_to_allocate k with
      | None => None
      | Some (table, k) =>
          if table =? 0 then Some (false, free_tables the_key done k)
          else
            let k := upd_key the_key (fun r => set_Values (<[c := table]> (Values r)) r) k in
            let k := set_workspace (zero_words (Z.to_nat (bytes_to_allocate / 4)) table (_Workspace_Area k)) k in
            allocate_tables the_key (c :: done) classes k
      end
  end.

Section Directives.
Context (switch : Z -> Z -> Kernel -> Kernel) (postswitch : Kernel -> Kernel).
Context (isrs : list (Kernel -> Kernel)) (fuel : nat) (_Objects_Local_node _Objects_Maximum_nodes : Z).

Notation finish := (enable_return switch postswitch isrs fuel).
Notation Get := (object_get switch postswitch isrs fuel _Objects_Local_node _Objects_Maximum_nodes OBJECTS_POSIX_KEYS).

Definition pthread_key_create (key destructor_ : Z) (k : Kernel) : option (Z * Kernel) :=
  let k := _Thread_Disable_dispatch k in
  let '(the_key, k) := object_allocate OBJECTS_POSIX_KEYS k in
  if the_key =? NULL then finish EAGAIN k
  else
    let k := upd_key the_key (fun r => {| key_is_active := key_is_active r; destructor := destructor_; Values := Values r |}) k in
    match allocate_tables the_key [] thread_classes k with
    | None => None
    | Some (false, k) => finish ENOMEM (object_free OBJECTS_POSIX_KEYS the_key k)
    | Some (true, k) =>
        let k := upd_key the_key (set_key_is_active true) k in
        match object_open_unnamed fuel OBJECTS_POSIX_KEYS the_key k with
        | None => None
        | Some k => finish 0 (put_word key (object_id k OBJECTS_POSIX_KEYS the_key) k)
        end
    end.

Definition executing_index (k : Kernel) : Z := _Objects_Get_index (Object_id (tcb k (_Thread_Executing k))).
Definition executing_class (k : Kernel) : Z := _Objects_Get_class (Object_id (tcb k (_Thread_Executing k))).

Definition pthread_setspecific (key value : Z) (k : Kernel) : option (Z * Kernel) :=
  match Get key k with
  | None => None
  | Some (OBJECTS_LOCAL, the_key, k) => finish 0 (set_key_value the_key (executing_class k) (executing_index k) value k)
  | Some (_, _, k) => Some (EINVAL, k)
  end.

Definition pthread_getspecific (key : Z) (k : Kernel) : option (Z * Kernel) :=
  match Get key k with
  | None => None
  | Some (OBJECTS_LOCAL, the_key, k) => finish (key_value k the_key (executing_class k) (executing_index k)) k
  | Some (_, _, k) => Some (NULL, k)
  end.

Definition pthread_key_delete (key : Z) (k : Kernel) : option (Z * Kernel) :=
  match Get key k with
  | None => None
  | Some (OBJECTS_LOCAL, the_key, k) =>
      let k := object_close OBJECTS_POSIX_KEYS the_key k in
      let k := upd_key the_key (set_key_is_active false) k in
      let k := free_tables the_key thread_classes k in
      finish 0 (object_free OBJECTS_POSIX_KEYS the_key k)
  | Some (_, _, k) => Some (EINVAL, k)
  end.
End Directives.
End Keys.

(** ** Destructors *)

Section Destructors.
Context (call : Z -> Z -> Kernel -> Kernel).

(** One key: whether its value is [NULL] when its destructor, if it has to be called, has
    returned. *)
Definition destroy_one (class index the_key : Z) (k : Kernel) : bool * Kernel :=
  if negb (the_key =? NULL) && key_is_active (posix_key k the_key) && negb (destructor (posix_key k the_key) =? 0) then
    let value := key_value k the_key class index in
    if negb (value =? NULL) then
      let k := call (destructor (posix_key k the_key)) value k in
      (key_value k the_key class index =? NULL, k)
    else (true, k)
  else (true, k).

(** All keys, from [index] on. *)
Fixpoint destroy_pass (n : nat) (class pthread_index index : Z) (are_all_null : bool) (k : Kernel) : bool * Kernel :=
  match n with
  | O => (are_all_null, k)
  | S n =>
      let the_key := default NULL (table_read (info (objects_of k OBJECTS_POSIX_KEYS)) index) in
      let '(null, k) := destroy_one class pthread_index the_key k in
      destroy_pass n class pthread_index (index + 1) (are_all_null && null) k
  end.

(** The passes: [n] more. *)
Fixpoint destroy_passes (n : nat) (class pthread_index : Z) (k : Kernel) : Kernel :=
  match n with
  | O => k
  | S n =>
      let '(are_all_null, k) :=
        destroy_pass (Z.to_nat (maximum (info (objects_of k OBJECTS_POSIX_KEYS)))) class pthread_index 1 true k in
      if are_all_null then k else destroy_passes n class pthread_index k
  end.

Definition _POSIX_Keys_Run_destructors (thread : Z) (k : Kernel) : Kernel :=
  destroy_passes PTHREAD_DESTRUCTOR_ITERATIONS (_Objects_Get_class (Object_id (tcb k thread)))
    (_Objects_Get_index (Object_id (tcb k thread))) k.
End Destructors.
