(* ===== verification/PosixKeySpec.v ===== *)
(** * Correctness of the keys (posix/src/key.c)

    A key owns one cleared table for every class of threads, or it does not exist: a creation
    that finds no room for one table gives the others back.  Values are kept apart for every
    key and thread, and the destructors of a thread that ends are called a bounded number of
    times. *)
From S2P Require Import Prelude Chain Watchdog Object Priority ApiTypes Heap HeapProofs HeapOps HeapSpec Kernel Thread Workspace.
From S2P Require Import ThreadProofs ThreadSpec WorkspaceSpec CoreMsg Rtems Partition Init Posix PosixKey.

(** ** Access to the key records *)

Lemma posix_key_upd p q f k : posix_key (upd_key p f k) q = if decide (q = p) then f (posix_key k p) else posix_key k q.
Proof.
  unfold posix_key, upd_key. simpl. case_decide as H.
  - subst. by rewrite lookup_total_insert_eq.
  - by rewrite lookup_total_insert_ne.
Qed.

(** Addresses and sizes of the tables: the classes of threads have at most 2^29 members. *)
Definition table_words (k : Kernel) (c : Z) : Z := maximum (info (objects_of k c)) + 1.
Definition small_class (k : Kernel) (c : Z) : Prop := 0 <= maximum (info (objects_of k c)) < 2 ^ 29.
Definition table_of (k : Kernel) (the_key c : Z) : Z := Values (posix_key k the_key) !!! c.

Lemma table_bytes k c : small_class k c ->
  (maximum (info (objects_of k c)) +w 1) *w sizeof_pointer = 4 * table_words k c.
Proof.
  unfold small_class, table_words, sizeof_pointer. intros H. rewrite (wrap32_small (_ + 1)) by (unfold u32, two32; lia).
  rewrite wrap32_small by (unfold u32, two32; lia). lia.
Qed.

Section Tables.
Context (workspace : Z) (hfuel : nat) (start T : Z).
Notation ws := (ws workspace hfuel start T).

(** The client's blocks are the tables of the classes in [cs], in this order. *)
Definition has_tables (k : Kernel) (the_key : Z) (cs : list Z) (D : list (Z * (Z * Z))) : Prop :=
  Forall2 (fun c e => e.1 = table_of k the_key c /\ e.1 <> NULL /\ e.1 + 4 * table_words k c <= e.2.1 + e.2.2) cs D.

(** Every value of the classes in [cs] is [NULL]. *)
Definition cleared (k : Kernel) (the_key : Z) (cs : list Z) : Prop :=
  forall c i, c ∈ cs -> 0 <= i < table_words k c -> key_value k the_key c i = NULL.

(** What the tables of a key leave as it is: the classes, the other keys and the words of the
    other blocks. *)
Record aside (the_key : Z) (L : list (Z * (Z * Z))) (k k' : Kernel) : Prop := {
  as_objects : forall c, objects_of k' c = objects_of k c;
  as_keys : forall p, p <> the_key -> posix_key k' p = posix_key k p;
  as_own : key_is_active (posix_key k' the_key) = key_is_active (posix_key k the_key) /\
    destructor (posix_key k' the_key) = destructor (posix_key k the_key);
  as_words : forall w, client_word L w -> ld (_Workspace_Area k') w = ld (_Workspace_Area k) w
}.

Lemma aside_refl the_key L k : aside the_key L k k.
Proof. done. Qed.

Lemma aside_trans the_key L k1 k2 k3 : aside the_key L k1 k2 -> aside the_key L k2 k3 -> aside the_key L k1 k3.
Proof.
  intros [A1 A2 [A4 A5] A3] [B1 B2 [B4 B5] B3]. split; intros.
  - by rewrite B1.
  - by rewrite B2, A2.
  - by rewrite B4, B5.
  - by rewrite B3, A3.
Qed.

Lemma client_word_mono L1 L2 w : L1 ⊆ L2 -> client_word L1 w -> client_word L2 w.
Proof. intros HL (p & b & sz & H & Hw). exists p, b, sz. split; [by apply HL|done]. Qed.

(** The values of the tables are words of the client. *)
Lemma table_client k the_key cs D c i : has_tables k the_key cs D -> c ∈ cs -> 0 <= i < table_words k c ->
  client_word D (value_address k the_key c i).
Proof.
  unfold value_address. fold (table_of k the_key c). intros HT Hc Hi. induction HT as [|c' e cs D (H1 & H2 & H3) HT IH]; [set_solver|].
  apply elem_of_cons in Hc as [-> |Hc].
  - exists e.1, e.2.1, e.2.2. split; [destruct e as [? []]; left|]. rewrite H1 in *. lia.
  - eapply client_word_mono; [|by apply IH]. set_solver.
Qed.

(** Freeing the tables gives their blocks, and nothing else, back. *)
Lemma free_tables_spec the_key cs : forall k U D L,
  ws (_Workspace_Area k) U (D ++ L) -> has_tables k the_key cs D ->
  let k' := free_tables workspace the_key cs k in ws (_Workspace_Area k') U L /\ aside the_key L k k'.
Proof.
  induction cs as [|c cs IH]; intros k U D L HW HT; apply Forall2_cons_inv_l in HT || apply Forall2_nil_inv_l in HT.
  { by subst. }
  destruct HT as ([p e] & D' & (Hp & _) & HT & ->). simpl in Hp.
  destruct (ws_free_words workspace hfuel start T _ U _ p e (D' ++ L) HW) as (m' & EF & HW' & Hm); [done|].
  unfold free_tables. simpl. unfold _Workspace_Free at 2 4. fold (table_of k the_key c). rewrite <- Hp, EF. simpl.
  destruct (IH (set_workspace m' k) U D' L HW' HT) as [IH1 IH2]. split; [exact IH1|]. eapply aside_trans; [|exact IH2].
  split; [done..|]. intros w Hw. apply Hm. eapply client_word_mono; [|exact Hw]. set_solver.
Qed.

(** One more table. *)
Definition with_table (the_key c table : Z) (k : Kernel) : Kernel :=
  set_workspace (zero_words (Z.to_nat (table_words k c)) table (_Workspace_Area k))
    (upd_key the_key (fun r => set_Values (<[c := table]> (Values r)) r) k).

Lemma with_table_area the_key c table k :
  _Workspace_Area (with_table the_key c table k) = zero_words (Z.to_nat (table_words k c)) table (_Workspace_Area k).
Proof. reflexivity. Qed.

Lemma with_table_of the_key c table k c' :
  table_of (with_table the_key c table k) the_key c' = if decide (c' = c) then table else table_of k the_key c'.
Proof.
  unfold table_of. change (posix_key (with_table the_key c table k) the_key)
    with (posix_key (upd_key the_key (fun r => set_Values (<[c := table]> (Values r)) r) k) the_key).
  rewrite posix_key_upd, decide_True by done. simpl. case_decide; [subst; apply lookup_total_insert_eq|by apply lookup_total_insert_ne].
Qed.

Section WithTable.
Context (the_key c p b sz : Z) (k : Kernel) (U : list (Z * Z)) (D L : list (Z * (Z * Z))) (cs : list Z).
Context (HW : ws (_Workspace_Area k) U ((p, (b, sz)) :: D ++ L)) (HT : has_tables k the_key cs D) (Hc : c ∉ cs).
Context (Hp : p <> NULL) (Hs : small_class k c) (Hr : p + 4 * table_words k c <= b + sz).
Let k' := with_table the_key c p k.

Lemma with_table_tables : has_tables k' the_key (c :: cs) ((p, (b, sz)) :: D).
Proof using HT Hc Hp Hr Hs.
  constructor.
  - split; [|done]. unfold k'. by rewrite with_table_of, decide_True.
  - clear HW Hr. unfold has_tables in *. induction HT as [|c' e cs' D' H HT' IH]; constructor.
    + unfold k'. rewrite with_table_of, decide_False; [exact H|]. set_solver.
    + apply IH; [done|set_solver].
Qed.

Lemma with_table_ws : ws (_Workspace_Area k') U ((p, (b, sz)) :: D ++ L).
Proof using HW Hs Hr.
  unfold k'. rewrite with_table_area. eapply ws_zero; [exact HW|left|lia|]. unfold small_class, table_words in *. lia.
Qed.

(** The words of the other blocks stay as they are. *)
Lemma with_table_words w : client_word (D ++ L) w -> ld (_Workspace_Area k') w = ld (_Workspace_Area k) w.
Proof using HW Hs Hr.
  intros Hw. unfold k'. rewrite with_table_area. destruct (ws_apart workspace hfuel start T _ _ _ _ _ _ _ HW Hw);
    apply ld_zero_words_out; unfold small_class, table_words in *; lia.
Qed.

Lemma with_table_cleared : cleared k the_key cs -> cleared k' the_key (c :: cs).
Proof using HW HT Hc Hp Hs Hr.
  intros HC d i Hd Hi. unfold key_value, value_address. fold (table_of k' the_key d).
  change (table_words k' d) with (table_words k d) in Hi. unfold k' at 2. rewrite with_table_of.
  destruct (decide (d = c)) as [-> |Hne].
  - replace i with (Z.of_nat (Z.to_nat i)) by lia. unfold k'. rewrite with_table_area. apply ld_zero_words_in. lia.
  - assert (d ∈ cs) as Hd' by set_solver. rewrite with_table_words; [by apply HC|].
    eapply client_word_mono; [|by apply (table_client k the_key cs D)]. set_solver.
Qed.

Lemma with_table_aside : aside the_key L k k'.
Proof using HW Hs Hr.
  assert (forall q, posix_key k' q = posix_key (upd_key the_key (fun r => set_Values (<[c := p]> (Values r)) r) k) q) as HK by done.
  split; [done| | |].
  - intros q Hq. by rewrite HK, posix_key_upd, decide_False.
  - by rewrite HK, posix_key_upd, decide_True.
  - intros w Hw. apply with_table_words. eapply client_word_mono; [|exact Hw]. intros x Hx. apply elem_of_app. by right.
Qed.
End WithTable.

(** Either every class of threads gets a table of [NULL]s, or all is as it was. *)
Lemma allocate_tables_spec the_key cs : forall k done D U L,
  ws (_Workspace_Area k) U (D ++ L) -> has_tables k the_key done D -> cleared k the_key done ->
  NoDup (cs ++ done) -> Forall (small_class k) cs ->
  exists ok k', allocate_tables workspace hfuel the_key done cs k = Some (ok, k') /\ aside the_key L k k' /\
    if ok : bool then exists D', ws (_Workspace_Area k') U (D' ++ L) /\
      has_tables k' the_key (rev cs ++ done) D' /\ cleared k' the_key (rev cs ++ done)
    else ws (_Workspace_Area k') U L.
Proof.
  induction cs as [|c cs IH]; intros k done D U L HW HT HC HN HS.
  { exists true, k. split; [done|]. split; [apply aside_refl|]. by exists D. }
  apply Forall_cons in HS as [Hs HS]. simpl in HN. apply NoDup_cons in HN as [Hn HN].
  simpl. rewrite table_bytes by done. unfold _Workspace_Allocate.
  destruct (ws_allocate workspace hfuel start T _ U _ (4 * table_words k c) HW) as (p & m' & EA & HA);
    [unfold small_class, table_words, two32 in *; lia..|]. rewrite EA.
  destruct HA as [[-> ->]|(Hp & b & sz & HW' & _ & Hr & Hm)].
  { destruct (free_tables_spec the_key done (set_workspace (_Workspace_Area k) k) U D L HW HT) as [F1 F2].
    eexists _, _. split; [reflexivity|]. split; [|exact F1]. eapply aside_trans; [|exact F2]. done. }
  rewrite (proj2 (Z.eqb_neq p 0)) by done. set (k1 := set_workspace m' k) in *.
  assert (4 * table_words k c / 4 = table_words k c) as -> by (rewrite Z.mul_comm; by apply Z.div_mul).
  change (set_workspace _ (upd_key _ _ k1)) with (with_table the_key c p k1).
  assert (Hc : c ∉ done) by set_solver.
  assert (has_tables k1 the_key done D) as HT1 by exact HT.
  destruct (IH (with_table the_key c p k1) (c :: done) ((p, (b, sz)) :: D) U L) as (ok & k' & E & HF & HR).
  - by apply with_table_ws.
  - by apply with_table_tables.
  - apply (with_table_cleared the_key c p b sz k1 U D L done); try done. intros d i Hd Hi.
    rewrite <- (HC d i Hd Hi). unfold key_value. apply Hm. eapply client_word_mono; [|by apply (table_client k the_key done D)]. set_solver.
  - rewrite <- Permutation_middle. by apply NoDup_cons.
  - exact HS.
  - exists ok, k'. split; [exact E|]. split; [apply (aside_trans _ _ _ k1); [|eapply aside_trans; [|exact HF]]|].
    + split; [done..|]. intros w Hw. apply Hm. eapply client_word_mono; [|exact Hw]. set_solver.
    + apply (with_table_aside the_key c p b sz k1 U D L); try done.
    + simpl. by rewrite <- app_assoc.
Qed.

(** ** Values *)

(** The tables do not overlap. *)
Lemma value_addresses_differ k U the_key c i c' i' cs D : has_tables k the_key cs D -> forall L,
  ws (_Workspace_Area k) U (D ++ L) -> NoDup cs -> c ∈ cs -> c' ∈ cs -> 0 <= i < table_words k c -> 0 <= i' < table_words k c' ->
  (c, i) <> (c', i') -> value_address k the_key c i <> value_address k the_key c' i'.
Proof.
  unfold value_address. fold (table_of k the_key c) (table_of k the_key c'). intros HT.
  induction HT as [|c0 [p [b sz]] cs D (H1 & H2 & H3) HT IH]; [set_solver|].
  intros L HW [Hn HN]%NoDup_cons Hc Hc' Hi Hi' Hne. simpl in H1, H3.
  assert (forall d j, d ∈ cs -> 0 <= j < table_words k d -> table_of k the_key d + 4 * j < p \/ b + sz <= table_of k the_key d + 4 * j) as HX.
  { intros d j Hd Hj. eapply (ws_apart workspace hfuel start T _ U); [exact HW|].
    eapply client_word_mono; [|by apply (table_client k the_key cs D)]. set_solver. }
  apply elem_of_cons in Hc as [-> |Hc], Hc' as [-> |Hc'].
  - intros E. apply Hne. f_equal. lia.
  - destruct (HX c' i' Hc' Hi'); rewrite <- H1; lia.
  - destruct (HX c i Hc Hi); rewrite <- H1; lia.
  - apply (IH ((p, (b, sz)) :: L)); try done. by rewrite <- Permutation_middle.
Qed.

(** A value is kept until it is set again; setting it changes no other value and no other
    block. *)
Lemma set_key_value_spec k U the_key cs D L c i v : has_tables k the_key cs D -> ws (_Workspace_Area k) U (D ++ L) ->
  NoDup cs -> c ∈ cs -> 0 <= i < table_words k c ->
  let k' := set_key_value the_key c i v k in
  ws (_Workspace_Area k') U (D ++ L) /\ has_tables k' the_key cs D /\ aside the_key L k k' /\
  key_value k' the_key c i = v /\
  forall c' i', c' ∈ cs -> 0 <= i' < table_words k c' -> (c', i') <> (c, i) -> key_value k' the_key c' i' = key_value k the_key c' i'.
Proof.
  intros HT HW HN Hc Hi k'. pose proof (table_client k the_key cs D c i HT Hc Hi) as HC. split_and!.
  - apply ws_store; [done|]. eapply client_word_mono; [|exact HC]. set_solver.
  - exact HT.
  - split; [done..|]. intros w Hw. apply ld_st_ne. intros <-. by eapply ws_disjoint.
  - apply ld_st_eq.
  - intros c' i' Hc' Hi' Hne. apply (ld_st_ne (_Workspace_Area k)).
    by eapply (value_addresses_differ k U the_key c i c' i').
Qed.

(** ** Directives *)

Section Directives.
Context (switch : Z -> Z -> Kernel -> Kernel) (postswitch : Kernel -> Kernel).
Context (isrs : list (Kernel -> Kernel)) (fuel : nat) (node nodes : Z).

Notation finish := (enable_return switch postswitch isrs fuel).
Notation Get := (object_get switch postswitch isrs fuel node nodes OBJECTS_POSIX_KEYS).

(** The key that exists: its tables are blocks of the workspace. *)
Definition owns_tables (k : Kernel) (the_key : Z) (U : list (Z * Z)) (L : list (Z * (Z * Z))) : Prop :=
  exists D, ws (_Workspace_Area k) U (D ++ L) /\ has_tables k the_key thread_classes D.

Lemma has_tables_rev k the_key cs D : has_tables k the_key cs D -> has_tables k the_key (rev cs) (rev D).
Proof.
  unfold has_tables. induction 1 as [|c e cs D H _ IH]; [constructor|]. simpl. apply Forall2_app; [done|]. constructor; [done|constructor].
Qed.

Lemma key_set_up the_key d k U L : ws (_Workspace_Area k) U L -> Forall (small_class k) thread_classes ->
  let k1 := upd_key the_key (fun r => {| key_is_active := key_is_active r; destructor := d; Values := Values r |}) k in
  exists ok k2, allocate_tables workspace hfuel the_key [] thread_classes k1 = Some (ok, k2) /\ aside the_key L k1 k2 /\
    if ok : bool then owns_tables k2 the_key U L /\ cleared k2 the_key thread_classes else ws (_Workspace_Area k2) U L.
Proof.
  intros HW HS k1. destruct (allocate_tables_spec the_key thread_classes k1 [] [] U L HW) as (ok & k2 & E & HA & HR).
  - constructor.
  - intros c i Hc. by apply elem_of_nil in Hc.
  - repeat constructor; set_solver.
  - exact HS.
  - exists ok, k2. split; [done|]. split; [done|]. destruct ok; [|done].
    destruct HR as (D & H1 & H2 & H3). rewrite app_nil_r in H2, H3. split.
    + exists (rev D). split; [by rewrite <- Permutation_rev|]. apply has_tables_rev in H2. by rewrite rev_involutive in H2.
    + intros c i Hc. apply H3. by rewrite <- Permutation_rev.
Qed.

(** Whether a key is active has no influence on its tables. *)
Lemma active_table_of the_key b k c : table_of (upd_key the_key (set_key_is_active b) k) the_key c = table_of k the_key c.
Proof. unfold table_of. by rewrite posix_key_upd, decide_True. Qed.

Lemma has_tables_ext k k' the_key cs D :
  (forall c, c ∈ cs -> table_of k' the_key c = table_of k the_key c /\ table_words k' c = table_words k c) ->
  has_tables k the_key cs D -> has_tables k' the_key cs D.
Proof.
  intros HX HT. unfold has_tables in *. induction HT as [|c e cs D H HT IH]; constructor.
  - destruct (HX c) as [-> ->]; [left|done].
  - apply IH. intros d Hd. apply HX. by right.
Qed.

Lemma active_has_tables the_key b k cs D : has_tables k the_key cs D -> has_tables (upd_key the_key (set_key_is_active b) k) the_key cs D.
Proof. apply has_tables_ext. intros c _. by rewrite active_table_of. Qed.

Lemma active_cleared the_key b k cs : cleared k the_key cs -> cleared (upd_key the_key (set_key_is_active b) k) the_key cs.
Proof.
  intros HC c i Hc Hi. unfold key_value, value_address. fold (table_of (upd_key the_key (set_key_is_active b) k) the_key c).
  rewrite active_table_of. by apply HC.
Qed.

(** C18: creating a key is all or nothing.  When [_Objects_Allocate] has found a control block,
    either there is room for one table for each class of threads: the key is opened as an
    active one with its destructor, owns three new blocks of the workspace that overlap no
    other block, and its value is [NULL] for every thread; or the answer is [ENOMEM], the
    control block is free again and the workspace has exactly the blocks it had.  In both
    cases the other keys, the object classes and the words of all other blocks of the
    workspace are what they were. *)
Theorem key_create_all_or_nothing the_key key d k k1 U L :
  object_allocate OBJECTS_POSIX_KEYS (_Thread_Disable_dispatch k) = (the_key, k1) -> the_key <> NULL ->
  ws (_Workspace_Area k1) U L -> Forall (small_class k1) thread_classes ->
  exists (ok : bool) k2,
    pthread_key_create workspace hfuel switch postswitch isrs fuel key d k =
      (if ok then match object_open_unnamed fuel OBJECTS_POSIX_KEYS the_key k2 with
                  | None => None
                  | Some k3 => finish 0 (put_word key (object_id k3 OBJECTS_POSIX_KEYS the_key) k3)
                  end
       else finish ENOMEM (object_free OBJECTS_POSIX_KEYS the_key k2)) /\
    (forall c, objects_of k2 c = objects_of k1 c) /\
    (forall p, p <> the_key -> posix_key k2 p = posix_key k1 p) /\
    (forall w, client_word L w -> ld (_Workspace_Area k2) w = ld (_Workspace_Area k1) w) /\
    if ok then owns_tables k2 the_key U L /\ cleared k2 the_key thread_classes /\
               key_is_active (posix_key k2 the_key) = true /\ destructor (posix_key k2 the_key) = d
    else ws (_Workspace_Area k2) U L.
Proof.
  intros EA Hn HW HS. unfold pthread_key_create. rewrite EA, (proj2 (Z.eqb_neq the_key NULL)) by done.
  destruct (key_set_up the_key d k1 U L HW HS) as (ok & k2 & E & [A1 A2 A4 A3] & HR). rewrite E.
  rewrite !posix_key_upd, !decide_True in A4 by done. setoid_rewrite posix_key_upd in A2.
  destruct ok.
  - exists true, (upd_key the_key (set_key_is_active true) k2). split; [done|]. setoid_rewrite posix_key_upd.
    rewrite decide_True by done. destruct HR as [(D & H1 & H2) H3]. split_and!; try done.
    + intros p Hp. rewrite decide_False by done. rewrite A2 by done. by rewrite decide_False.
    + exists D. split; [done|]. by apply active_has_tables.
    + by apply active_cleared.
    + apply A4.
  - exists false, k2. split_and!; try done. intros p Hp. rewrite A2 by done. by rewrite decide_False.
Qed.

Lemma key_create_no_block key d k k1 :
  object_allocate OBJECTS_POSIX_KEYS (_Thread_Disable_dispatch k) = (NULL, k1) ->
  pthread_key_create workspace hfuel switch postswitch isrs fuel key d k = finish EAGAIN k1.
Proof. intros EA. unfold pthread_key_create. by rewrite EA. Qed.

(** Deleting a key gives its three blocks, and nothing else, back. *)
Theorem key_delete_gives_back the_key key k k1 U L :
  Get key k = Some (OBJECTS_LOCAL, the_key, k1) -> owns_tables k1 the_key U L ->
  exists k2, pthread_key_delete workspace switch postswitch isrs fuel node nodes key k =
      finish 0 (object_free OBJECTS_POSIX_KEYS the_key k2) /\
    ws (_Workspace_Area k2) U L /\ key_is_active (posix_key k2 the_key) = false /\
    (forall p, p <> the_key -> posix_key k2 p = posix_key k1 p) /\
    (forall w, client_word L w -> ld (_Workspace_Area k2) w = ld (_Workspace_Area k1) w).
Proof.
  intros EG (D & HW & HT). unfold pthread_key_delete. rewrite EG.
  set (k2 := upd_key the_key (set_key_is_active false) (object_close OBJECTS_POSIX_KEYS the_key k1)).
  assert (has_tables k2 the_key thread_classes D) as HT2.
  { apply active_has_tables. eapply has_tables_ext; [|exact HT]. intros c Hc. split; [done|]. unfold table_words, objects_of.
    change (information_table (object_close _ _ _)) with (<[OBJECTS_POSIX_KEYS := _Objects_Close the_key (objects_of k1 OBJECTS_POSIX_KEYS)]> (information_table k1)).
    rewrite lookup_insert_ne; [done|]. intros <-. revert Hc. by_decide. }
  destruct (free_tables_spec the_key thread_classes k2 U D L HW HT2) as [H1 [H2 H3 [H4 _] H5]].
  exists (free_tables workspace the_key thread_classes k2). split_and!; [done|done| | |done].
  - rewrite H4. unfold k2. by rewrite posix_key_upd, decide_True.
  - intros p Hp. rewrite H3 by done. unfold k2. by rewrite posix_key_upd, decide_False.
Qed.

(** What a thread sets is what it gets; the values of the other threads and of the other keys
    are untouched. *)
Theorem key_set_get the_key key v k k1 U L :
  Get key k = Some (OBJECTS_LOCAL, the_key, k1) -> owns_tables k1 the_key U L ->
  let c := executing_class k1 in let i := executing_index k1 in
  c ∈ thread_classes -> 0 <= i < table_words k1 c ->
  let k2 := set_key_value the_key c i v k1 in
  pthread_setspecific switch postswitch isrs fuel node nodes key v k = finish 0 k2 /\
  owns_tables k2 the_key U L /\
  (forall k0, Get key k0 = Some (OBJECTS_LOCAL, the_key, k2) ->
     pthread_getspecific switch postswitch isrs fuel node nodes key k0 = finish v k2) /\
  (forall c' i', c' ∈ thread_classes -> 0 <= i' < table_words k1 c' -> (c', i') <> (c, i) ->
     key_value k2 the_key c' i' = key_value k1 the_key c' i') /\
  (forall w, client_word L w -> ld (_Workspace_Area k2) w = ld (_Workspace_Area k1) w).
Proof.
  intros EG (D & HW & HT) c i Hc Hi k2.
  destruct (set_key_value_spec k1 U the_key thread_classes D L c i v HT HW) as (H1 & H2 & [_ _ _ H3] & H4 & H5); try done.
  { repeat constructor; set_solver. }
  split_and!; try done.
  - unfold pthread_setspecific. by rewrite EG.
  - by exists D.
  - intros k0 E0. unfold pthread_getspecific. rewrite E0. f_equal. exact H4.
Qed.
End Directives.
End Tables.

(** ** Destructors *)

(** The only key that exists has a destructor, and the value [v] for the thread at [i] of
    class [c]. *)
Record lone_key (the_key d c i v : Z) (k : Kernel) : Prop := {
  lk_table : table_read (info (objects_of k OBJECTS_POSIX_KEYS)) 1 = Some the_key;
  lk_maximum : maximum (info (objects_of k OBJECTS_POSIX_KEYS)) = 1;
  lk_key : the_key <> NULL /\ key_is_active (posix_key k the_key) = true;
  lk_destructor : destructor (posix_key k the_key) = d /\ d <> 0;
  lk_value : key_value k the_key c i = v
}.

Lemma destroy_pass_lone call the_key d c i v k : lone_key the_key d c i v k ->
  let called := if v =? NULL then k else call d v k in
  destroy_pass call (Z.to_nat (maximum (info (objects_of k OBJECTS_POSIX_KEYS)))) c i 1 true k =
    (if v =? NULL then true else key_value called the_key c i =? NULL, called).
Proof.
  intros [H1 H2 [H3 H4] [H5 H6] H7]. rewrite H2. change (Z.to_nat 1) with 1%nat. cbn [destroy_pass]. rewrite H1. cbn [from_option id].
  unfold destroy_one. rewrite H4, H5, H7. rewrite (proj2 (Z.eqb_neq the_key NULL)), (proj2 (Z.eqb_neq d 0)) by done.
  cbn [negb andb]. destruct (v =? NULL); reflexivity.
Qed.

(** A destructor runs once if it leaves the value [NULL].  The value is not reset before the
    destructor is called: one that does not set it to [NULL] itself is called four times with
    the same value. *)
Theorem destructor_calls call the_key d v thread k :
  let c := _Objects_Get_class (Object_id (tcb k thread)) in
  let i := _Objects_Get_index (Object_id (tcb k thread)) in
  lone_key the_key d c i v k -> v <> NULL ->
  (key_value (call d v k) the_key c i = NULL -> _POSIX_Keys_Run_destructors call thread k = call d v k) /\
  ((forall k, lone_key the_key d c i v k -> lone_key the_key d c i v (call d v k)) ->
   _POSIX_Keys_Run_destructors call thread k = Nat.iter PTHREAD_DESTRUCTOR_ITERATIONS (call d v) k).
Proof.
  intros c i HL Hv. unfold _POSIX_Keys_Run_destructors. fold c i. split.
  - intros HC. unfold PTHREAD_DESTRUCTOR_ITERATIONS. cbn [destroy_passes]. rewrite (destroy_pass_lone call the_key d c i v k HL).
    cbn zeta. rewrite (proj2 (Z.eqb_neq v NULL)) by done. by rewrite HC.
  - intros HK. generalize PTHREAD_DESTRUCTOR_ITERATIONS as n. clearbody c i. intros n. revert k HL.
    induction n as [|n IH]; intros k HL; [done|]. cbn [destroy_passes]. rewrite (destroy_pass_lone call the_key d c i v k HL).
    cbn zeta. rewrite (proj2 (Z.eqb_neq v NULL)) by done. pose proof (HK k HL) as HL'.
    rewrite (lk_value _ _ _ _ _ _ HL'), (proj2 (Z.eqb_neq v NULL)) by done. rewrite IH by done. by rewrite Nat.iter_succ_r.
Qed.

(** ** An example *)

Module KeyExample.
Definition class_of (c n : Z) (free : list Z) : Objects_State :=
  {| info := {| the_class := c; minimum_id := _Objects_Build_id c 1 1; maximum_id := _Objects_Build_id c 1 n; maximum := n;
                local_table := replicate (Z.to_nat (n + 1)) NULL; name_table := 0; global_table := None; Inactive := free;
                is_string := false; name_length := 4; is_thread := false |};
     objects := {[ 800 := {| obj_id := _Objects_Build_id c 1 1; obj_name := 0 |} ]}; names := ∅ |}.
Definition classes : gmap Z Objects_State :=
  list_to_map [(1, class_of 1 1 []); (2, class_of 2 4 []); (3, class_of 3 6 []); (OBJECTS_POSIX_KEYS, class_of 12 1 [800])].
Definition heap : mem := (_Heap_Initialize ∅ 64 1024 4096 CPU_HEAP_ALIGNMENT).2.
Definition k0 : Kernel := set_workspace heap (set_information_table classes (_Thread_Disable_dispatch ThreadExample.k2)).
Definition k1 : Kernel := (object_allocate OBJECTS_POSIX_KEYS (_Thread_Disable_dispatch k0)).2.

Lemma k1_ws : ws 64 256 1024 4088 (_Workspace_Area k1) [] [].
Proof.
  change (_Workspace_Area k1) with heap. apply (ws_intro 64 256 1024 4088 heap [(4088, false)] [1024]); [|done|done].
  apply (heap_initialize_rep ∅ 64 1024 4096 CPU_HEAP_ALIGNMENT); try (vm_compute; congruence). left. lia.
Qed.
Lemma k1_allocated : object_allocate OBJECTS_POSIX_KEYS (_Thread_Disable_dispatch k0) = (800, k1).
Proof. reflexivity. Qed.
Lemma k1_small : Forall (small_class k1) thread_classes.
Proof. by_decide. Qed.
Lemma k0_creates : exists k, pthread_key_create 64 256 (fun _ _ k => k) id [] 5 600 77 k0 = Some (0, k).
Proof. eexists. vm_compute. reflexivity. Qed.
End KeyExample.

Lemma key_create_witness : exists k2, owns_tables 64 256 1024 4088 k2 800 [] [] /\ destructor (posix_key k2 800) = 77.
Proof.
  pose proof KeyExample.k1_ws as HW. pose proof KeyExample.k1_allocated as EA. pose proof KeyExample.k1_small as HS.
  destruct KeyExample.k0_creates as [k' EC]. generalize dependent KeyExample.k1. generalize dependent KeyExample.k0. intros k0 EC k1 HW EA HS.
  destruct (key_create_all_or_nothing 64 256 1024 4088 (fun _ _ k => k) id [] 5 800 600 77 k0 k1 [] [] EA)
    as (ok & k2 & E & _ & _ & _ & HR); [discriminate|exact HW|exact HS|].
  destruct ok.
  - exists k2. destruct HR as (H1 & _ & _ & H2). exact (conj H1 H2).
  - rewrite E in EC. unfold enable_return in EC. destruct (_Thread_Enable_dispatch _ _ _ _ _); discriminate.
Defined.
