(* ===== verification/PosixTime.v ===== *)
(** * Clocks and sleeping of the POSIX API (posix/src/time.c)

    A [struct timespec] is two words of memory, which hold signed numbers.  [gmtime_r] of the
    C library splits a number of seconds since 1970 into a calendar date. *)
From S2P Require Import Prelude Chain Watchdog WatchdogOps Tod Object Priority ApiTypes Kernel Thread ThreadProofs Workspace CoreMsg Rtems Partition.
From S2P Require Import Timer Tasks Posix.

Inductive clockid_t : Type := CLOCK_REALTIME | CLOCK_PROCESS_CPUTIME | CLOCK_THREAD_CPUTIME | other_clock.

Definition TOD_SECONDS_PER_NON_LEAP_YEAR : Z := 365 * TOD_SECONDS_PER_DAY.
Definition POSIX_TIME_SECONDS_1970_THROUGH_1988 : Z :=
  (1987 - 1970 + 1) * TOD_SECONDS_PER_NON_LEAP_YEAR + 4 * TOD_SECONDS_PER_DAY.

Definition signed32 (w : Z) : Z := if w <? 2 ^ 31 then w else w - two32.
Definition timespec_at (k : Kernel) (a : Z) : timespec :=
  {| tv_sec := signed32 (ld32 (memory k) a); tv_nsec := signed32 (ld32 (memory k) (a + 4)) |}.
Definition put_timespec (a : Z) (t : timespec) (k : Kernel) : Kernel :=
  put_word (a + 4) (wrap32 (tv_nsec t)) (put_word a (wrap32 (tv_sec t)) k).

(** ** Clocks *)

(** The two readings of the clock are taken with interrupts disabled. *)
Definition current_timespec (k : Kernel) : timespec :=
  let seconds := _TOD_Seconds_since_epoch (tod k) in
  let ticks := tod_ticks (_TOD_Current (tod k)) in
  {| tv_sec := seconds + POSIX_TIME_SECONDS_1970_THROUGH_1988;
     tv_nsec := (ticks *w _TOD_Microseconds_per_tick (tod k)) *w TOD_NANOSECONDS_PER_MICROSECOND |}.

Definition clock_gettime (clock_id : clockid_t) (tp : Z) (k : Kernel) : result :=
  if tp =? NULL then Failed_with EINVAL k
  else
    match clock_id with
    | CLOCK_REALTIME => Returned 0 (put_timespec tp (current_timespec k) k)
    | CLOCK_PROCESS_CPUTIME | CLOCK_THREAD_CPUTIME => Assertion_failed
    | other_clock => Failed_with EINVAL k
    end.

Definition clock_getres (clock_id : clockid_t) (res : Z) (k : Kernel) : result :=
  if res =? NULL then Failed_with EINVAL k
  else
    match clock_id with
    | CLOCK_REALTIME | CLOCK_PROCESS_CPUTIME | CLOCK_THREAD_CPUTIME =>
        let us := _TOD_Microseconds_per_tick (tod k) in
        Returned 0 (put_timespec res (_POSIX_Interval_to_timespec us us) k)
    | other_clock => Failed_with EINVAL k
    end.

Section Calls.
Context (switch : Z -> Z -> Kernel -> Kernel) (postswitch : Kernel -> Kernel) (isrs : list (Kernel -> Kernel)) (fuel : nat).
Context (wfuel : nat) (wisr : Kernel -> Kernel).

Section Set_time.
Context (_TOD_Seconds_watchdog : Z) (run : Z -> Z -> Z -> Kernel -> Kernel).
(** Year, month and day as in the calendar (from 1 on), hour, minute and second. *)
Context (gmtime_r : Z -> Z * Z * Z * Z * Z * Z).

Definition tod_of_time (us : Z) (t : timespec) : TOD_Control :=
  let '(y, mo, d, h, mi, s) := gmtime_r (tv_sec t) in
  {| year := y; month := mo; day := d; hour := h; minute := mi; second := s;
     tod_ticks := tv_nsec t / TOD_NANOSECONDS_PER_MICROSECOND / us |}.

Definition clock_settime (clock_id : clockid_t) (tp : Z) (k : Kernel) : result :=
  if tp =? NULL then Assertion_failed
  else
    match clock_id with
    | CLOCK_REALTIME =>
        let the_tod := tod_of_time (_TOD_Microseconds_per_tick (tod k)) (timespec_at k tp) in
        if negb (_TOD_Validate (_TOD_Ticks_per_second (tod k)) the_tod) then Failed_with EINVAL k
        else
          let k := _Thread_Disable_dispatch k in
          match _TOD_Set _TOD_Seconds_watchdog wfuel wisr run _Thread_Disable_dispatch
                  (enable_or_stay switch postswitch isrs fuel) the_tod (_TOD_To_seconds the_tod) k with
          | None => Unfinished
          | Some k => returns (enable_return switch postswitch isrs fuel 0 k)
          end
    | CLOCK_PROCESS_CPUTIME | CLOCK_THREAD_CPUTIME => Assertion_failed
    | other_clock => Failed_with EINVAL k
    end.
End Set_time.

(** ** Sleeping: [resume] is what happens until the caller is executing again *)

Section Sleep.
Context (Delay_ended : Z) (resume : Kernel -> Kernel).

(** A negative number of seconds is replaced in the caller's memory. *)
Definition nanosleep (rqtp rmtp : Z) (k : Kernel) : result :=
  if rqtp =? NULL then Failed_with EINVAL k
  else
    let k := if tv_sec (timespec_at k rqtp) <? 0 then put_word rqtp 0 k else k in
    let the_rqtp := timespec_at k rqtp in
    if tv_nsec the_rqtp <? 0 then Failed_with EAGAIN k
    else if TOD_NANOSECONDS_PER_SECOND <=? tv_nsec the_rqtp then Failed_with EINVAL k
    else
      let ticks := _POSIX_Timespec_to_interval (_TOD_Microseconds_per_tick (tod k)) the_rqtp in
      if ticks =? 0 then
        match _Thread_Dispatch switch postswitch fuel isrs (_Thread_Yield_processor k) with
        | None => Unfinished
        | Some k => Returned 0 (if negb (rmtp =? NULL) then put_timespec rmtp {| tv_sec := 0; tv_nsec := 0 |} k else k)
        end
      else
        let k := _Thread_Disable_dispatch k in
        match delay (Z.lor STATES_DELAYING STATES_INTERRUPTIBLE_BY_SIGNAL) Delay_ended
                (fun k => _Watchdog_Insert_ticks wfuel wisr (Timer (_Thread_Executing k)) ticks k) k with
        | None => Unfinished
        | Some k =>
            match _Thread_Enable_dispatch switch postswitch fuel isrs k with
            | None => Unfinished
            | Some k =>
                let k := resume k in
                if negb (rmtp =? NULL) then
                  let timer := ctl (watchdogs k) (Timer (_Thread_Executing k)) in
                  let ticks := ticks -w (stop_time timer -w start_time timer) in
                  let k := put_timespec rmtp (_POSIX_Interval_to_timespec (_TOD_Microseconds_per_tick (tod k)) ticks) k in
                  if negb (ticks =? 0) then Failed_with EINTR k else Returned 0 k
                else Returned 0 k
            end
        end.
End Sleep.
End Calls.
