(* ===== verification/PosixTimeSpec.v ===== *)
(** * Correctness of the POSIX clocks (posix/src/time.c) and of setting the time of day

    A time that is set is the time that is read back, to the tick; what goes wrong when the
    time is set in the middle of a second, and with the resolution of the clock. *)
From S2P Require Import Prelude Chain Watchdog WatchdogProofs WatchdogOps WatchdogSpec Tod TodSpec Object Priority ApiTypes Kernel Thread.
From S2P Require Import ThreadProofs Workspace CoreMsg Rtems Partition Timer TimerSpec Tasks Posix PosixTime.

(** Enabling what was disabled while dispatching was disabled already. *)
Lemma enable_nested switch postswitch isrs fuel l k : 0 < l < two32 - 1 -> _Thread_Dispatch_disable_level k = l +w 1 ->
  _Thread_Enable_dispatch switch postswitch fuel isrs k = Some (set_disable_level l k).
Proof.
  intros Hl E. unfold _Thread_Enable_dispatch, _Thread_Unnest_dispatch. rewrite E, (wrap32_small (l + 1)) by (unfold u32; lia).
  replace (l + 1 - 1) with l by lia. rewrite wrap32_small by (unfold u32; lia).
  change (_Thread_Dispatch_disable_level (set_disable_level l k)) with l. by rewrite (proj2 (Z.eqb_neq l 0)) by lia.
Qed.

(** ** Setting the time of day *)

(** Nothing waits for a date. *)
Lemma adjust_nothing run wfuel dir n k : chain_of Seconds (watchdogs k) = [] ->
  _Watchdog_Adjust_seconds (S := Kernel) run wfuel dir n k = Some k.
Proof. intros E. unfold _Watchdog_Adjust_seconds, _Watchdog_Adjust. change (wd_get k) with (watchdogs k). by rewrite E. Qed.

Lemma remove_no_seconds w ws : chain_of Seconds ws = [] -> chain_of Seconds (_Watchdog_Remove w ws).2 = [].
Proof.
  intros E. unfold _Watchdog_Remove. destruct (wd_state (ctl ws w)); cbn [snd]; try exact E;
    (destruct (next_on _ _); destruct (negb _); destruct (header_of _ _); simpl in *; try exact E; by rewrite E).
Qed.

(** When the second that begins with the new time ends. *)
Definition next_second (t : TOD_State) : Z :=
  let tps := _TOD_Ticks_per_second t in
  if tod_ticks (_TOD_Current t) <? tps then tps - tod_ticks (_TOD_Current t) else tps.

(** [_TOD_Set] stores the time and the number of seconds, and restarts the watchdog of the
    seconds.  The watchdog is set to the ticks that were left of the second that the clock
    was in before, whatever the ticks of the new time are. *)
Theorem tod_set_correct switch postswitch isrs fuel w wfuel run c seconds k :
  wd_ok (watchdogs k) -> pending Ticks (watchdogs k) -> chain_of Seconds (watchdogs k) = [] ->
  (length (chain_of Ticks (watchdogs k)) + 1 < wfuel)%nat -> 0 < _Thread_Dispatch_disable_level k < two32 - 1 ->
  0 <= tod_ticks (_TOD_Current (tod k)) -> 1 <= _TOD_Ticks_per_second (tod k) < two32 ->
  exists k', _TOD_Set w wfuel id run _Thread_Disable_dispatch (enable_or_stay switch postswitch isrs fuel) c seconds k = Some k' /\
    tod k' = {| _TOD_Is_set := true; _TOD_Current := c; _TOD_Seconds_since_epoch := seconds;
                _TOD_Microseconds_per_tick := _TOD_Microseconds_per_tick (tod k); _TOD_Ticks_per_second := _TOD_Ticks_per_second (tod k) |} /\
    (w, next_second (tod k)) ∈ expiries Ticks (watchdogs k') /\
    _Thread_Dispatch_disable_level k' = _Thread_Dispatch_disable_level k.
Proof.
  intros HS HP HE Hf Hl Ht Hs. unfold _TOD_Set, _TOD_Deactivate, wd_mod. cbn zeta.
  set (k1 := _Thread_Disable_dispatch k). change (wd_get k1) with (watchdogs k).
  destruct (remove_pending w (watchdogs k) HS HP) as (A & B & C & D). pose proof (remove_no_seconds w _ HE) as E0.
  set (ws1 := (_Watchdog_Remove w (watchdogs k)).2) in *. set (k2 := wd_put ws1 k1).
  assert (chain_of Seconds (watchdogs k2) = []) as E2 by exact E0.
  assert ((if seconds <? _TOD_Seconds_since_epoch (tod_get k2)
           then _Watchdog_Adjust_seconds run wfuel WATCHDOG_BACKWARD (_TOD_Seconds_since_epoch (tod_get k2) -w seconds) k2
           else _Watchdog_Adjust_seconds run wfuel WATCHDOG_FORWARD (seconds -w _TOD_Seconds_since_epoch (tod_get k2)) k2) = Some k2) as ->
    by (destruct (_ <? _); by apply adjust_nothing).
  change (tod_get k2) with (tod k). set (n := if _ <? _ then _ else _).
  assert (n = next_second (tod k)) as En.
  { unfold n, next_second. destruct (Z.ltb_spec (tod_ticks (_TOD_Current (tod k))) (_TOD_Ticks_per_second (tod k))); [|done].
    apply wrap32_small. unfold u32. lia. }
  assert (1 <= n < two32) as Hn.
  { rewrite En. unfold next_second. destruct (Z.ltb_spec (tod_ticks (_TOD_Current (tod k))) (_TOD_Ticks_per_second (tod k))); lia. }
  clearbody n. subst n.
  set (k3 := tod_put _ k2). unfold _TOD_Activate, _Watchdog_Insert_ticks, wd_mod. change (wd_get k3) with ws1.
  set (ws2 := upd w (set_initial (next_second (tod k))) ws1). set (k4 := wd_put ws2 k3).
  assert (wd_ok ws2 /\ pending Ticks ws2) as [A2 B2] by (by apply upd_pending).
  assert (ctl ws2 w = set_initial (next_second (tod k)) (ctl ws1 w)) as C2 by (unfold ws2; by rewrite ctl_upd_eq).
  destruct (insert_pending wfuel w k4) as (ws & E & G & _); change (watchdogs k4) with ws2 in *; rewrite ?C2; try done.
  { change (chain_of Ticks ws2) with (chain_of Ticks ws1). lia. }
  rewrite E. rewrite C2 in G. eexists. split; [reflexivity|].
  unfold enable_or_stay. rewrite (enable_nested _ _ _ _ (_Thread_Dispatch_disable_level k)) by done.
  split; [done|]. split; [apply G|done].
Qed.

(** ** Reading back what was set *)

(** What the C library documents of [gmtime_r]: the date and time of day of a number of
    seconds since 1970. *)
Definition gmtime_at (gmtime_r : Z -> Z * Z * Z * Z * Z * Z) (s : Z) : Prop :=
  forall us n, let c := tod_of_time gmtime_r us {| tv_sec := s; tv_nsec := n |} in
  tod_valid c /\ tod_seconds c = s - POSIX_TIME_SECONDS_1970_THROUGH_1988.

(** The time is read back as it was set, rounded down to a tick. *)
Theorem clock_set_get switch postswitch isrs fuel w wfuel run gmtime_r tp k :
  let t := timespec_at k tp in
  let us := _TOD_Microseconds_per_tick (tod k) in
  wd_ok (watchdogs k) -> pending Ticks (watchdogs k) -> chain_of Seconds (watchdogs k) = [] ->
  (length (chain_of Ticks (watchdogs k)) + 1 < wfuel)%nat -> 0 <= _Thread_Dispatch_disable_level k < two32 - 2 ->
  0 <= tod_ticks (_TOD_Current (tod k)) -> 1 <= us -> 1000000 mod us = 0 -> _TOD_Ticks_per_second (tod k) = 1000000 / us ->
  tp <> NULL -> valid_time t -> POSIX_TIME_SECONDS_1970_THROUGH_1988 <= tv_sec t -> gmtime_at gmtime_r (tv_sec t) ->
  exists k1, clock_settime switch postswitch isrs fuel wfuel id w run gmtime_r CLOCK_REALTIME tp k =
      returns (enable_return switch postswitch isrs fuel 0 k1) /\
    _TOD_Is_set (tod k1) = true /\
    current_timespec k1 = {| tv_sec := tv_sec t; tv_nsec := tv_nsec t / (us * 1000) * (us * 1000) |}.
Proof.
  intros t us HS HP HE Hf Hl Ht Hu Hd HT Htp [Hs Hn] Hge HG. unfold TOD_NANOSECONDS_PER_SECOND in Hn.
  unfold clock_settime. rewrite (proj2 (Z.eqb_neq tp NULL)) by done. fold us t. set (c := tod_of_time gmtime_r us t).
  assert (tod_valid c /\ tod_seconds c = tv_sec t - POSIX_TIME_SECONDS_1970_THROUGH_1988) as [HV HX].
  { destruct (HG us (tv_nsec t)) as [X1 X2]. assert (c = tod_of_time gmtime_r us {| tv_sec := tv_sec t; tv_nsec := tv_nsec t |}) as -> by (unfold c; by destruct t).
    done. }
  assert (tod_ticks c = tv_nsec t / (us * 1000)) as HC.
  { unfold c, tod_of_time. destruct (gmtime_r _) as [[[[[? ?] ?] ?] ?] ?]. simpl. unfold TOD_NANOSECONDS_PER_MICROSECOND.
    rewrite Z.div_div by lia. by rewrite (Z.mul_comm 1000). }
  assert (1000000 = us * (1000000 / us)) as Hq by (apply Z_div_exact_full_2; lia).
  set (tps := 1000000 / us) in *.
  assert (1 <= tps <= 1000000) as Hps by nia.
  assert (0 <= tod_ticks c < tps) as Htk.
  { rewrite HC. split; [apply Z.div_pos; lia|]. apply Z.div_lt_upper_bound; nia. }
  assert (_TOD_Validate (_TOD_Ticks_per_second (tod k)) c = true) as -> by (apply valid_validate; [done|lia]). cbn [negb].
  set (k0 := _Thread_Disable_dispatch k).
  destruct (tod_set_correct switch postswitch isrs fuel w wfuel run c (_TOD_To_seconds c) k0) as (k1 & E & HT1 & _); try done.
  { change (_Thread_Dispatch_disable_level k0) with (_Thread_Dispatch_disable_level k +w 1). rewrite wrap32_small by (unfold u32, two32 in *; lia). lia. }
  { change (tod k0) with (tod k). rewrite HT. unfold two32. lia. }
  rewrite E. exists k1. split; [done|]. rewrite HT1. split; [done|]. unfold current_timespec. rewrite HT1. cbn [_TOD_Seconds_since_epoch _TOD_Current _TOD_Microseconds_per_tick].
  change (tod k0) with (tod k). fold us. f_equal.
  - rewrite to_seconds_reference by done. rewrite HX, wrap32_small; [lia|]. unfold u32, two32. split; [lia|].
    assert (0 <= POSIX_TIME_SECONDS_1970_THROUGH_1988) by by_decide. lia.
  - unfold TOD_NANOSECONDS_PER_MICROSECOND. rewrite HC. set (q := tv_nsec t / (us * 1000)) in *. rewrite HC in Htk.
    rewrite (wrap32_small (q * us)) by (unfold u32, two32; nia). rewrite wrap32_small by (unfold u32, two32; nia). lia.
Qed.

(** ** The resolution of the clock *)

(** [clock_getres] hands the number of microseconds per tick to a function that expects a
    number of ticks: with a tick of 10 ms the resolution is said to be 100 seconds. *)
Theorem clock_getres_squares us : 1 <= us < 65536 -> nanoseconds (_POSIX_Interval_to_timespec us us) = us * (us * 1000).
Proof.
  intros Hu. unfold _POSIX_Interval_to_timespec, nanoseconds, TOD_MICROSECONDS_PER_SECOND, TOD_NANOSECONDS_PER_SECOND,
    TOD_NANOSECONDS_PER_MICROSECOND. cbn zeta. rewrite wrap32_small by (unfold u32, two32; nia). cbn [tv_sec tv_nsec].
  pose proof (Z.div_mod (us * us) 1000000). lia.
Qed.

(** ** Sleeping *)

(** The number of ticks is never zero: a sleep of no time waits for a tick and does not, as
    the code means it to, give up the processor. *)
Theorem nanosleep_never_yields us t : _POSIX_Timespec_to_interval us t <> 0.
Proof.
  unfold _POSIX_Timespec_to_interval. cbn zeta. destruct (negb _) eqn:E; [|done]. by apply negb_true_iff, Z.eqb_neq in E.
Qed.
