(* ===== verification/PosixMutex.v ===== *)
(** * Mutexes of the POSIX API (posix/src/mutex.c, posix/inline/rtems/posix/mutex.inl)

    A mutex is a core mutex at offset 20 of its control block.  [pthread_mutex_t] is a word of
    memory with the id; a mutex initialised with [PTHREAD_MUTEX_INITIALIZER] is created when it
    is used for the first time.  An attribute object is what its address designates, [None]
    for [NULL].  Assertions are enabled; mutexes shared between processes, which are not
    implemented, end in one.  The values of the constants are those of the C library that
    RTEMS is built with. *)
From S2P Require Import Prelude Chain Watchdog Object Priority ApiTypes Heap Kernel Thread Threadq Workspace.
From S2P Require Import CoreMutex CoreMsg Rtems Partition Init Semaphore Tod Posix PosixKey.

Definition OBJECTS_POSIX_MUTEXES : Z := 15.
Definition PTHREAD_MUTEX_INITIALIZER : Z := 4294967295.
Definition PTHREAD_PROCESS_PRIVATE : Z := 0.
Definition PTHREAD_PROCESS_SHARED : Z := 1.
Definition PTHREAD_PRIO_NONE : Z := 0.
Definition PTHREAD_PRIO_INHERIT : Z := 1.
Definition PTHREAD_PRIO_PROTECT : Z := 2.
Definition THREAD_QUEUE_WAIT_FOREVER : Z := WATCHDOG_NO_TIMEOUT.

Definition posix_mutex (k : Kernel) (m : Z) : POSIX_Mutex_Control := posix_mutexes (rtems k) !!! m.
Definition upd_posix_mutex (m : Z) (f : POSIX_Mutex_Control -> POSIX_Mutex_Control) (k : Kernel) : Kernel :=
  upd_rtems (fun r => set_posix_mutexes (<[m := f (posix_mutex k m)]> (posix_mutexes r)) r) k.
Definition Core_mutex (m : Z) : Z := m + 20.

(** ** Attributes *)

Record pthread_mutexattr_t : Type := {
  is_initialized : bool;
  process_shared : Z;
  prio_ceiling : Z;
  protocol : Z;
  recursive : bool
}.

Definition _POSIX_Mutex_Default_attributes : pthread_mutexattr_t :=
  {| is_initialized := true; process_shared := PTHREAD_PROCESS_PRIVATE; prio_ceiling := POSIX_SCHEDULER_MAXIMUM_PRIORITY;
     protocol := PTHREAD_PRIO_NONE; recursive := false |}.

(** The status and what [attr] designates afterwards. *)
Definition pthread_mutexattr_init (attr : option pthread_mutexattr_t) : Z * option pthread_mutexattr_t :=
  match attr with
  | None => (EINVAL, attr)
  | Some _ => (0, Some _POSIX_Mutex_Default_attributes)
  end.

(** The attributes of an initialised object. *)
Definition valid_attr (attr : option pthread_mutexattr_t) : option pthread_mutexattr_t :=
  match attr with
  | Some a => if is_initialized a then Some a else None
  | None => None
  end.

Definition pthread_mutexattr_destroy (attr : option pthread_mutexattr_t) : Z * option pthread_mutexattr_t :=
  match valid_attr attr with
  | None => (EINVAL, attr)
  | Some a => (0, Some {| is_initialized := false; process_shared := process_shared a; prio_ceiling := prio_ceiling a;
                          protocol := protocol a; recursive := recursive a |})
  end.

(** The value of an attribute: nothing is stored when the status is not 0. *)
Definition get_attr (f : pthread_mutexattr_t -> Z) (attr : option pthread_mutexattr_t) (value : Z) (k : Kernel) : Z * Kernel :=
  match valid_attr attr with
  | Some a => if value =? NULL then (EINVAL, k) else (0, put_word value (f a) k)
  | None => (EINVAL, k)
  end.
Definition pthread_mutexattr_getpshared : option pthread_mutexattr_t -> Z -> Kernel -> Z * Kernel := get_attr process_shared.
Definition pthread_mutexattr_getprotocol : option pthread_mutexattr_t -> Z -> Kernel -> Z * Kernel := get_attr protocol.
Definition pthread_mutexattr_getprioceiling : option pthread_mutexattr_t -> Z -> Kernel -> Z * Kernel := get_attr prio_ceiling.

Definition pthread_mutexattr_setpshared (attr : option pthread_mutexattr_t) (pshared : Z) : Z * option pthread_mutexattr_t :=
  match valid_attr attr with
  | None => (EINVAL, attr)
  | Some a =>
      if (pshared =? PTHREAD_PROCESS_SHARED) || (pshared =? PTHREAD_PROCESS_PRIVATE)
      then (0, Some {| is_initialized := is_initialized a; process_shared := pshared; prio_ceiling := prio_ceiling a;
                       protocol := protocol a; recursive := recursive a |})
      else (EINVAL, attr)
  end.

Definition pthread_mutexattr_setprotocol (attr : option pthread_mutexattr_t) (the_protocol : Z) : Z * option pthread_mutexattr_t :=
  match valid_attr attr with
  | None => (EINVAL, attr)
  | Some a =>
      if (the_protocol =? PTHREAD_PRIO_NONE) || (the_protocol =? PTHREAD_PRIO_INHERIT) || (the_protocol =? PTHREAD_PRIO_PROTECT)
      then (0, Some {| is_initialized := is_initialized a; process_shared := process_shared a; prio_ceiling := prio_ceiling a;
                       protocol := the_protocol; recursive := recursive a |})
      else (EINVAL, attr)
  end.

Definition pthread_mutexattr_setprioceiling (attr : option pthread_mutexattr_t) (prioceiling : Z) : Z * option pthread_mutexattr_t :=
  match valid_attr attr with
  | None => (EINVAL, attr)
  | Some a =>
      if negb (_POSIX_Priority_Is_valid prioceiling) then (EINVAL, attr)
      else (0, Some {| is_initialized := is_initialized a; process_shared := process_shared a; prio_ceiling := prioceiling;
                       protocol := protocol a; recursive := recursive a |})
  end.

(** ** Status codes *)

(** [None]: the assertion of the default case. *)
Definition _POSIX_Mutex_From_core_mutex_status (status : Z) : option Z :=
  if status =? CORE_MUTEX_STATUS_SUCCESSFUL then Some 0
  else if status =? CORE_MUTEX_STATUS_UNSATISFIED_NOWAIT then Some EBUSY
  else if status =? CORE_MUTEX_STATUS_NESTING_NOT_ALLOWED then Some EDEADLK
  else if status =? CORE_MUTEX_STATUS_NOT_OWNER_OF_RESOURCE then Some EPERM
  else if status =? CORE_MUTEX_WAS_DELETED then Some EINVAL
  else if status =? CORE_MUTEX_TIMEOUT then Some EAGAIN
  else if status =? CORE_MUTEX_STATUS_CEILING_VIOLATED then Some EINVAL
  else None.

Definition core_status (status : Z) (k : Kernel) : result :=
  match _POSIX_Mutex_From_core_mutex_status status with
  | None => Assertion_failed
  | Some status => Returned status k
  end.

Definition _POSIX_Mutex_Manager_initialization (workspace : Z) (hfuel : nat)
    (fatal_extensions : Internal_errors_Information -> Kernel -> Kernel) (node nodes : Z) (is_multiprocessing : bool)
    (size maximum_mutexes : Z) : Kernel -> outcome Kernel :=
  initialize_class workspace hfuel fatal_extensions node nodes is_multiprocessing OBJECTS_POSIX_MUTEXES true maximum_mutexes size false 0 false.

(** ** Creation and look-up *)

Section Directives.
Context (switch : Z -> Z -> Kernel -> Kernel) (postswitch : Kernel -> Kernel).
Context (isrs : list (Kernel -> Kernel)) (fuel : nat) (_Objects_Local_node _Objects_Maximum_nodes : Z).

Notation finish := (enable_return switch postswitch isrs fuel).

Definition mutex_discipline_of (the_protocol : Z) : option CORE_mutex_Disciplines :=
  if the_protocol =? PTHREAD_PRIO_NONE then Some CORE_MUTEX_DISCIPLINES_FIFO
  else if the_protocol =? PTHREAD_PRIO_INHERIT then Some CORE_MUTEX_DISCIPLINES_PRIORITY_INHERIT
  else if the_protocol =? PTHREAD_PRIO_PROTECT then Some CORE_MUTEX_DISCIPLINES_PRIORITY_CEILING
  else None.

(** The control block of a new mutex. *)
Definition mutex_set_up (the_mutex : Z) (the_attr : pthread_mutexattr_t) (the_discipline : CORE_mutex_Disciplines) (k : Kernel) : Kernel :=
  let k := upd_posix_mutex the_mutex (fun _ => {| mutex_process_shared := process_shared the_attr |}) k in
  _CORE_mutex_Initialize (Core_mutex the_mutex) OBJECTS_POSIX_MUTEXES (recursive the_attr) the_discipline
    (_POSIX_Priority_To_core (prio_ceiling the_attr)) CORE_MUTEX_UNLOCKED NULL k.

(** [pthread_mutex_init] once [*mutex] is known not to be in use.  After the assertion the
    mutex is private: what the code does with shared ones is not reached. *)
Definition mutex_create (mutex : Z) (the_attr : pthread_mutexattr_t) (k : Kernel) : result :=
  if negb (is_initialized the_attr) then Returned EINVAL k
  else if negb (process_shared the_attr =? PTHREAD_PROCESS_PRIVATE) then Assertion_failed
  else
    match mutex_discipline_of (protocol the_attr) with
    | None => Returned EINVAL k
    | Some the_discipline =>
        if negb (_POSIX_Priority_Is_valid (prio_ceiling the_attr)) then Returned EINVAL k
        else
          let k := _Thread_Disable_dispatch k in
          let '(the_mutex, k) := object_allocate OBJECTS_POSIX_MUTEXES k in
          if the_mutex =? NULL then returns (finish EAGAIN k)
          else
            let k := mutex_set_up the_mutex the_attr the_discipline k in
            match object_open_unnamed fuel OBJECTS_POSIX_MUTEXES the_mutex k with
            | None => Unfinished
            | Some k => returns (finish 0 (put_word mutex (object_id k OBJECTS_POSIX_MUTEXES the_mutex) k))
            end
    end.

(** A mutex that does not exist yet is created with the default attributes. *)
Definition _POSIX_Mutex_Get (id : Z) (k : Kernel) : option (Objects_Locations * Z * Kernel) :=
  if id =? NULL then Some (OBJECTS_ERROR, NULL, k)
  else
    let created :=
      if ld32 (memory k) id =? PTHREAD_MUTEX_INITIALIZER then mutex_create id _POSIX_Mutex_Default_attributes k
      else Returned 0 k in
    match created with
    | Returned status k =>
        if negb (status =? 0) then Some (OBJECTS_ERROR, NULL, k)
        else object_get switch postswitch isrs fuel _Objects_Local_node _Objects_Maximum_nodes OBJECTS_POSIX_MUTEXES
               (ld32 (memory k) id) k
    | Failed_with _ _ | Assertion_failed | Unfinished => None
    end.

Definition pthread_mutex_init (mutex : Z) (attr : option pthread_mutexattr_t) (k : Kernel) : result :=
  let the_attr := default _POSIX_Mutex_Default_attributes attr in
  if mutex =? NULL then Returned EINVAL k
  else if negb (ld32 (memory k) mutex =? PTHREAD_MUTEX_INITIALIZER) then
    match _POSIX_Mutex_Get mutex k with
    | None => Unfinished
    | Some (OBJECTS_ERROR, _, k) => mutex_create mutex the_attr k
    | Some (_, _, k) => returns (finish EBUSY k)
    end
  else mutex_create mutex the_attr k.

Definition pthread_mutex_destroy (mutex : Z) (k : Kernel) : result :=
  match _POSIX_Mutex_Get mutex k with
  | None => Unfinished
  | Some (OBJECTS_ERROR, _, k) => Returned EINVAL k
  | Some (OBJECTS_REMOTE, _, k) =>
      match _Thread_Dispatch switch postswitch fuel isrs k with None => Unfinished | Some _ => Assertion_failed end
  | Some (OBJECTS_LOCAL, the_mutex, k) =>
      if _CORE_mutex_Is_locked (Kernel.mutex k (Core_mutex the_mutex)) then returns (finish EBUSY k)
      else
        let k := object_close OBJECTS_POSIX_MUTEXES the_mutex k in
        match _CORE_mutex_Flush fuel (Core_mutex the_mutex) EINVAL k with
        | None => Unfinished
        | Some k => returns (finish 0 (object_free OBJECTS_POSIX_MUTEXES the_mutex k))
        end
  end.

(** ** Locking and unlocking *)

(** [resume] is what happens until the caller is executing again. *)
Section Lock.
Context (timeout_routine : Z) (wfuel : nat) (wisr isr resume : Kernel -> Kernel) (qisrs : list (Kernel -> Kernel)).
Context (mp_support : Z -> Z -> Kernel -> Kernel).

Definition _POSIX_Mutex_Lock_support (mutex : Z) (blocking : bool) (timeout : Z) (k : Kernel) : result :=
  match _POSIX_Mutex_Get mutex k with
  | None => Unfinished
  | Some (OBJECTS_ERROR, _, k) => Returned EINVAL k
  | Some (OBJECTS_REMOTE, _, k) => Assertion_failed
  | Some (OBJECTS_LOCAL, the_mutex, k) =>
      match _CORE_mutex_Seize timeout_routine wfuel wisr fuel qisrs isr (Core_mutex the_mutex)
              (object_id k OBJECTS_POSIX_MUTEXES the_mutex) blocking timeout k with
      | None => Unfinished
      | Some k =>
          match _Thread_Enable_dispatch switch postswitch fuel isrs k with
          | None => Unfinished
          | Some k =>
              let k := resume k in core_status (Wait_return_code (Wait (tcb k (_Thread_Executing k)))) k
          end
      end
  end.

Definition pthread_mutex_lock (mutex : Z) : Kernel -> result := _POSIX_Mutex_Lock_support mutex true THREAD_QUEUE_WAIT_FOREVER.
Definition pthread_mutex_trylock (mutex : Z) : Kernel -> result := _POSIX_Mutex_Lock_support mutex false THREAD_QUEUE_WAIT_FOREVER.
Definition pthread_mutex_timedlock (mutex : Z) (timeout : timespec) (k : Kernel) : result :=
  _POSIX_Mutex_Lock_support mutex true (_POSIX_Timespec_to_interval (_TOD_Microseconds_per_tick (tod k)) timeout) k.

Definition pthread_mutex_unlock (mutex : Z) (k : Kernel) : result :=
  match _POSIX_Mutex_Get mutex k with
  | None => Unfinished
  | Some (OBJECTS_ERROR, _, k) => Returned EINVAL k
  | Some (OBJECTS_REMOTE, _, k) => Assertion_failed
  | Some (OBJECTS_LOCAL, the_mutex, k) =>
      let '(status, k) := _CORE_mutex_Surrender _Objects_Local_node mp_support (Core_mutex the_mutex)
                            (object_id k OBJECTS_POSIX_MUTEXES the_mutex) k in
      match _Thread_Enable_dispatch switch postswitch fuel isrs k with
      | None => Unfinished
      | Some k => core_status status k
      end
  end.

(** ** Priority ceilings *)

Definition pthread_mutex_setprioceiling (mutex prioceiling old_ceiling : Z) (k : Kernel) : result :=
  if old_ceiling =? NULL then Returned EINVAL k
  else if negb (_POSIX_Priority_Is_valid prioceiling) then Returned EINVAL k
  else
    match pthread_mutex_lock mutex k with
    | Returned status k =>
        if negb (status =? 0) then Returned status k
        else
          match _POSIX_Mutex_Get mutex k with
          | None => Unfinished
          | Some (OBJECTS_LOCAL, the_mutex, k) =>
              let k := put_word old_ceiling
                (_POSIX_Priority_From_core (priority_ceiling (Kernel.mutex k (Core_mutex the_mutex)))) k in
              let k := upd_mutex (Core_mutex the_mutex) (fun c =>
                {| allow_nesting := allow_nesting c; mutex_discipline := mutex_discipline c;
                   priority_ceiling := _POSIX_Priority_To_core prioceiling; lock := lock c;
                   nest_count := nest_count c; holder := holder c; holder_id := holder_id c |}) k in
              let '(_, k) := _CORE_mutex_Surrender _Objects_Local_node mp_support (Core_mutex the_mutex)
                               (object_id k OBJECTS_POSIX_MUTEXES the_mutex) k in
              returns (finish 0 k)
          | Some (_, _, k) => Returned EINVAL k
          end
    | r => r
    end.

Definition pthread_mutex_getprioceiling (mutex prioceiling : Z) (k : Kernel) : result :=
  if prioceiling =? NULL then Returned EINVAL k
  else
    match _POSIX_Mutex_Get mutex k with
    | None => Unfinished
    | Some (OBJECTS_ERROR, _, k) => Returned EINVAL k
    | Some (OBJECTS_REMOTE, _, k) => Assertion_failed
    | Some (OBJECTS_LOCAL, the_mutex, k) =>
        returns (finish 0 (put_word prioceiling
          (_POSIX_Priority_From_core (priority_ceiling (Kernel.mutex k (Core_mutex the_mutex)))) k))
    end.
End Lock.
End Directives.
