(* ===== verification/PosixCond.v ===== *)
(** * Condition variables of the POSIX API (posix/src/cond.c, posix/inline/rtems/posix/cond.inl)

    A condition variable has a FIFO thread queue, at offset 24 of its control block, and the
    id of the mutex that its waiters use, 0 for none.  Condition variables shared between
    processes are not implemented and end in an assertion. *)
From S2P Require Import Prelude Chain Watchdog Object Priority ApiTypes Heap Kernel Thread Threadq Workspace.
From S2P Require Import CoreMutex CoreMsg Rtems Partition Init Semaphore Tod Posix PosixKey PosixTime PosixMutex.

Definition OBJECTS_POSIX_CONDITION_VARIABLES : Z := 17.
Definition POSIX_CONDITION_VARIABLES_NO_MUTEX : Z := 0.

Definition condition (k : Kernel) (c : Z) : POSIX_Condition_variables_Control := posix_conditions (rtems k) !!! c.
Definition upd_condition (c : Z) (f : POSIX_Condition_variables_Control -> POSIX_Condition_variables_Control) (k : Kernel) : Kernel :=
  upd_rtems (fun r => set_posix_conditions (<[c := f (condition k c)]> (posix_conditions r)) r) k.
Definition Cond_queue (c : Z) : Z := c + 24.

(** ** Attributes *)

Record pthread_condattr_t : Type := {
  condattr_is_initialized : bool;
  condattr_process_shared : Z
}.

Definition _POSIX_Condition_variables_Default_attributes : pthread_condattr_t :=
  {| condattr_is_initialized := true; condattr_process_shared := PTHREAD_PROCESS_PRIVATE |}.

Definition pthread_condattr_init (attr : option pthread_condattr_t) : Z * option pthread_condattr_t :=
  match attr with
  | None => (EINVAL, attr)
  | Some _ => (0, Some _POSIX_Condition_variables_Default_attributes)
  end.

Definition pthread_condattr_destroy (attr : option pthread_condattr_t) : Z * option pthread_condattr_t :=
  match attr with
  | Some a =>
      if negb (condattr_is_initialized a) then (EINVAL, attr)
      else (0, Some {| condattr_is_initialized := false; condattr_process_shared := condattr_process_shared a |})
  | None => (EINVAL, attr)
  end.

Definition pthread_condattr_getpshared (attr : option pthread_condattr_t) (pshared : Z) (k : Kernel) : Z * Kernel :=
  match attr with
  | None => (EINVAL, k)
  | Some a => (0, put_word pshared (condattr_process_shared a) k)
  end.

Definition pthread_condattr_setpshared (attr : option pthread_condattr_t) (pshared : Z) : Z * option pthread_condattr_t :=
  match attr with
  | None => (EINVAL, attr)
  | Some a =>
      if (pshared =? PTHREAD_PROCESS_SHARED) || (pshared =? PTHREAD_PROCESS_PRIVATE)
      then (0, Some {| condattr_is_initialized := condattr_is_initialized a; condattr_process_shared := pshared |})
      else (EINVAL, attr)
  end.

Definition _POSIX_Condition_variables_Manager_initialization (workspace : Z) (hfuel : nat)
    (fatal_extensions : Internal_errors_Information -> Kernel -> Kernel) (node nodes : Z) (is_multiprocessing : bool)
    (size maximum_condition_variables : Z) : Kernel -> outcome Kernel :=
  initialize_class workspace hfuel fatal_extensions node nodes is_multiprocessing OBJECTS_POSIX_CONDITION_VARIABLES true
    maximum_condition_variables size false 0 false.

(** ** Signals: the local case, before dispatching is enabled again *)

Fixpoint cond_signal (fuel : nat) (the_cond : Z) (is_broadcast : bool) (k : Kernel) : option Kernel :=
  match fuel with
  | O => None
  | S fuel =>
      let '(the_thread, k) := _Thread_queue_Dequeue (Cond_queue the_cond) k in
      let k := if the_thread =? NULL
               then upd_condition the_cond (set_cond_Mutex POSIX_CONDITION_VARIABLES_NO_MUTEX) k else k in
      if is_broadcast && negb (the_thread =? NULL) then cond_signal fuel the_cond is_broadcast k else Some k
  end.

(** ** Directives *)

Section Directives.
Context (switch : Z -> Z -> Kernel -> Kernel) (postswitch : Kernel -> Kernel).
Context (isrs : list (Kernel -> Kernel)) (fuel : nat) (_Objects_Local_node _Objects_Maximum_nodes : Z).
Context (extract_proxy : Z).

Notation finish := (enable_return switch postswitch isrs fuel).
Notation Get_mutex := (_POSIX_Mutex_Get switch postswitch isrs fuel _Objects_Local_node _Objects_Maximum_nodes).

Definition _POSIX_Condition_variables_Get (id : Z) (k : Kernel) : option (Objects_Locations * Z * Kernel) :=
  object_get switch postswitch isrs fuel _Objects_Local_node _Objects_Maximum_nodes OBJECTS_POSIX_CONDITION_VARIABLES
    (ld32 (memory k) id) k.

(** The control block of a new condition variable. *)
Definition cond_set_up (the_cond : Z) (the_attr : pthread_condattr_t) (k : Kernel) : Kernel :=
  let k := upd_condition the_cond (fun _ =>
    {| cond_process_shared := condattr_process_shared the_attr; cond_Mutex := POSIX_CONDITION_VARIABLES_NO_MUTEX |}) k in
  _Thread_queue_Initialize (Cond_queue the_cond) OBJECTS_POSIX_CONDITION_VARIABLES THREAD_QUEUE_DISCIPLINE_FIFO
    STATES_WAITING_FOR_CONDITION_VARIABLE extract_proxy ETIMEDOUT k.

(** After the first test the condition variable is private: what the code does with shared
    ones is not reached. *)
Definition pthread_cond_init (cond : Z) (attr : option pthread_condattr_t) (k : Kernel) : result :=
  let the_attr := default _POSIX_Condition_variables_Default_attributes attr in
  if condattr_process_shared the_attr =? PTHREAD_PROCESS_SHARED then Assertion_failed
  else if negb (condattr_is_initialized the_attr) then Returned EINVAL k
  else
    let k := _Thread_Disable_dispatch k in
    let '(the_cond, k) := object_allocate OBJECTS_POSIX_CONDITION_VARIABLES k in
    if the_cond =? NULL then returns (finish ENOMEM k)
    else
      let k := cond_set_up the_cond the_attr k in
      match object_open_unnamed fuel OBJECTS_POSIX_CONDITION_VARIABLES the_cond k with
      | None => Unfinished
      | Some k => returns (finish 0 (put_word cond (object_id k OBJECTS_POSIX_CONDITION_VARIABLES the_cond) k))
      end.

(** The answer to the id of a condition variable of another node. *)
Definition remote (k : Kernel) : result :=
  match _Thread_Dispatch switch postswitch fuel isrs k with None => Unfinished | Some _ => Assertion_failed end.

Definition pthread_cond_destroy (cond : Z) (k : Kernel) : result :=
  match _POSIX_Condition_variables_Get cond k with
  | None => Unfinished
  | Some (OBJECTS_ERROR, _, k) => Returned EINVAL k
  | Some (OBJECTS_REMOTE, _, k) => remote k
  | Some (OBJECTS_LOCAL, the_cond, k) =>
      if negb (_Thread_queue_First k (Cond_queue the_cond) =? NULL) then returns (finish EBUSY k)
      else
        let k := object_close OBJECTS_POSIX_CONDITION_VARIABLES the_cond k in
        returns (finish 0 (object_free OBJECTS_POSIX_CONDITION_VARIABLES the_cond k))
  end.

Definition _POSIX_Condition_variables_Signal_support (cond : Z) (is_broadcast : bool) (k : Kernel) : result :=
  match _POSIX_Condition_variables_Get cond k with
  | None => Unfinished
  | Some (OBJECTS_ERROR, _, k) => Returned EINVAL k
  | Some (OBJECTS_REMOTE, _, k) => remote k
  | Some (OBJECTS_LOCAL, the_cond, k) =>
      match cond_signal fuel the_cond is_broadcast k with
      | None => Unfinished
      | Some k => returns (finish 0 k)
      end
  end.

Definition pthread_cond_signal (cond : Z) : Kernel -> result := _POSIX_Condition_variables_Signal_support cond false.
Definition pthread_cond_broadcast (cond : Z) : Kernel -> result := _POSIX_Condition_variables_Signal_support cond true.

(** ** Waiting *)

(** [resume] is what happens until the caller is executing again, [relock] the same while it
    waits for the mutex. *)
Section Wait.
Context (timeout_routine : Z) (wfuel : nat) (wisr isr resume relock : Kernel -> Kernel) (qisrs : list (Kernel -> Kernel)).
Context (mp_support : Z -> Z -> Kernel -> Kernel).

Notation unlock := (pthread_mutex_unlock switch postswitch isrs fuel _Objects_Local_node _Objects_Maximum_nodes mp_support).
Notation lock_again := (pthread_mutex_lock switch postswitch isrs fuel _Objects_Local_node _Objects_Maximum_nodes
  timeout_routine wfuel wisr isr relock qisrs).

(** The executing thread joins the queue of the condition variable. *)
Definition cond_enqueue (the_cond mutex_id cond_id timeout : Z) (k : Kernel) : option Kernel :=
  let q := Cond_queue the_cond in
  let k := upd_condition the_cond (set_cond_Mutex mutex_id) k in
  let k := _Thread_queue_Enter_critical_section q k in
  let k := upd_wait (_Thread_Executing k) (set_Wait_return_code 0) k in
  let k := upd_wait (_Thread_Executing k) (set_Wait_queue q) k in
  let k := upd_wait (_Thread_Executing k) (set_Wait_id cond_id) k in
  _Thread_queue_Enqueue timeout_routine wfuel wisr fuel qisrs q timeout k.

(** The mutex is taken again, with dispatching enabled. *)
Definition cond_relock (mutex status : Z) (k : Kernel) : result :=
  match lock_again mutex k with
  | Returned mutex_status k => if negb (mutex_status =? 0) then Returned EINVAL k else Returned status k
  | r => r
  end.

(** The caller executes again. *)
Definition cond_awake (mutex : Z) (k : Kernel) : result :=
  let k := resume k in
  let status := Wait_return_code (Wait (tcb k (_Thread_Executing k))) in
  if negb (status =? 0) && negb (status =? ETIMEDOUT) then Returned status k
  else cond_relock mutex status k.

Definition _POSIX_Condition_variables_Wait_support (cond mutex timeout : Z) (already_timedout : bool) (k : Kernel) : result :=
  match Get_mutex mutex k with
  | None => Unfinished
  | Some (_, m, k) =>
      if m =? NULL then Returned EINVAL k
      else
        let k := _Thread_Unnest_dispatch k in
        match _POSIX_Condition_variables_Get cond k with
        | None => Unfinished
        | Some (OBJECTS_ERROR, _, k) => Returned EINVAL k
        | Some (OBJECTS_REMOTE, _, k) => remote k
        | Some (OBJECTS_LOCAL, the_cond, k) =>
            let bound := cond_Mutex (condition k the_cond) in
            if negb (bound =? 0) && negb (bound =? ld32 (memory k) mutex) then returns (finish EINVAL k)
            else
              match unlock mutex k with
              | Returned _ k =>
                  if negb already_timedout then
                    match cond_enqueue the_cond (ld32 (memory k) mutex) (ld32 (memory k) cond) timeout k with
                    | None => Unfinished
                    | Some k =>
                        match _Thread_Enable_dispatch switch postswitch fuel isrs k with
                        | None => Unfinished
                        | Some k => cond_awake mutex k
                        end
                    end
                  else
                    match _Thread_Enable_dispatch switch postswitch fuel isrs k with
                    | None => Unfinished
                    | Some k => cond_relock mutex ETIMEDOUT k
                    end
              | r => r
              end
        end
  end.

Definition pthread_cond_wait (cond mutex : Z) : Kernel -> result :=
  _POSIX_Condition_variables_Wait_support cond mutex THREAD_QUEUE_WAIT_FOREVER false.

Definition pthread_cond_timedwait (cond mutex : Z) (abstime : option timespec) (k : Kernel) : result :=
  match abstime with
  | None => Returned EINVAL k
  | Some abstime =>
      let difference := _POSIX_Timespec_subtract (current_timespec k) abstime in
      let already_timedout := (tv_sec difference <? 0) || ((tv_sec difference =? 0) && (tv_nsec difference <? 0)) in
      _POSIX_Condition_variables_Wait_support cond mutex (_POSIX_Timespec_to_interval (_TOD_Microseconds_per_tick (tod k)) difference)
        already_timedout k
  end.
End Wait.
End Directives.
