(* ===== verification/PosixCondSpec.v ===== *)
(** * Correctness of the condition variables (posix/src/cond.c)

    A signal releases the thread that has waited longest, a broadcast all of them, in both
    cases exactly those and no other.  A thread that waits gives up the mutex and joins the
    queue without dispatching in between, so that no signal sent by the thread that gets the
    mutex next can be lost. *)
From S2P Require Import Prelude Chain Watchdog WatchdogProofs WatchdogOps Object Priority ApiTypes Kernel Thread.
From S2P Require Import ThreadProofs ThreadSpec Threadq ThreadqProofs ThreadqSpec CoreWait CoreMutex CoreMutexSpec CoreMsg.
From S2P Require Import Workspace Rtems Partition Init Tod Posix PosixKey PosixTime PosixTimeSpec PosixMutex PosixCond.

(** ** What an operation on the queue at [m] leaves as it is *)

Record beside (m : Z) (k k' : Kernel) : Prop := {
  be_queue : forall q, q <> m -> tq k' q = tq k q;
  be_idle : _Thread_Idle k' = _Thread_Idle k;
  be_executing : _Thread_Executing k' = _Thread_Executing k;
  be_level : _Thread_Dispatch_disable_level k' = _Thread_Dispatch_disable_level k;
  be_rtems : rtems k' = rtems k;
  be_memory : memory k' = memory k;
  be_information : information_table k' = information_table k;
  be_post : _Thread_Do_post_task_switch_extension k' = _Thread_Do_post_task_switch_extension k
}.
#[export] Instance beside_preorder m : PreOrder (beside m).
Proof.
  split; [done|]. intros k1 k2 k3 [A1 A2 A3 A4 A5 A6 A7 A8] [B1 B2 B3 B4 B5 B6 B7 B8].
  split; try congruence. intros q Hq. by rewrite B1, A1.
Qed.

Lemma beside_queue m f k : beside m k (upd_queue m f k).
Proof. split; try done. intros q Hq. by rewrite tq_upd, decide_False. Qed.

Lemma beside_release m t k : beside m k (release t k).
Proof.
  unfold release, _Thread_Unblock, _Thread_Clear_state, stop_timer.
  destruct (_Watchdog_Is_active _ _); (destruct (negb _); [destruct (_States_Is_ready _); [destruct (_ <? _); [destruct (_ || _)|]|]|]); done.
Qed.

Lemma beside_change_priority m t p pre k : beside m k (_Thread_Change_priority t p pre k).
Proof.
  rewrite change_priority_eq. unfold reschedule, enter, lifted, _Thread_Set_transient, _Thread_Set_priority, remove_ready.
  repeat case_match; done.
Qed.

Lemma beside_dequeue m k : beside m k (_Thread_queue_Dequeue m k).2.
Proof.
  assert (forall k, beside m k (dequeue_empty m k).2) as HE.
  { intros k0. unfold dequeue_empty. destruct (sync_state _); try done; apply beside_queue. }
  unfold _Thread_queue_Dequeue, _Thread_queue_Dequeue_fifo, _Thread_queue_Dequeue_priority. destruct (discipline _).
  - destruct (queue_chain k m 0) as [|u rest]; [apply HE|]. cbn [snd].
    etransitivity; [apply beside_queue|]. apply (beside_release m u).
  - destruct (first_of_headers _ _ _) as [[i u]|]; [|apply HE]. cbn [snd].
    transitivity (unlink_first m i u k); [|apply (beside_release m u)].
    unfold unlink_first. destruct (block2n k u) as [|v rest]; [apply beside_queue|].
    etransitivity; [apply beside_queue|]. by destruct rest.
Qed.

Lemma dequeue_known m k u : known k u -> known (_Thread_queue_Dequeue m k).2 u.
Proof.
  assert (forall k0 t, known k0 u -> known (release t k0) u) as HR by (intros k0 t; apply (proj1 (release_core t k0))).
  assert (forall k0, known k0 u -> known (dequeue_empty m k0).2 u) as HE by (intros k0; unfold dequeue_empty; by destruct (sync_state _)).
  intros Hk. unfold _Thread_queue_Dequeue, _Thread_queue_Dequeue_fifo, _Thread_queue_Dequeue_priority. destruct (discipline _).
  - destruct (queue_chain k m 0) as [|v rest]; [by apply HE|]. by apply (HR (set_queue_chain m 0 rest k) v).
  - destruct (first_of_headers _ _ _) as [[i v]|]; [|by apply HE]. apply (HR (unlink_first m i v k) v).
    unfold unlink_first. destruct (block2n k v) as [|w [|w' rest]]; try done. by apply known_mono.
Qed.

Lemma beside_restore m t k : beside m k (restore_priority m t k).
Proof.
  unfold restore_priority. destruct (mutex_discipline _); try done; (destruct (_ && _); [apply beside_change_priority|done]).
Qed.

(** ** Condition variables *)

Record cond_ok (the_cond : Z) (k : Kernel) : Prop := {
  co_queue : tq_ok k (Cond_queue the_cond);
  co_sched : sched_ok k;
  co_sync : sync_state (tq k (Cond_queue the_cond)) = THREAD_QUEUE_SYNCHRONIZED;
  co_state : tq_state (tq k (Cond_queue the_cond)) = STATES_WAITING_FOR_CONDITION_VARIABLE;
  co_fifo : discipline (tq k (Cond_queue the_cond)) = THREAD_QUEUE_DISCIPLINE_FIFO;
  co_null : NULL ∉ tq_list k (Cond_queue the_cond)
}.

Notation waiters k the_cond := (tq_list k (Cond_queue the_cond)).

Lemma condition_upd c f k : condition (upd_condition c f k) c = f (condition k c).
Proof. unfold condition at 1, upd_condition. simpl. apply lookup_total_insert_eq. Qed.

Lemma upd_condition_threads c f k : same_threads k (upd_condition c f k).
Proof. done. Qed.

Lemma cond_ok_same c k k' : same_threads k k' -> cond_ok c k -> cond_ok c k'.
Proof.
  intros HT [A B C D E F]. pose proof (same_threads_tq _ _ HT) as HQ.
  split; rewrite ?(ts_queue _ _ HQ), ?(same_threads_list _ _ _ HT); try done.
  - by apply (same_threads_tq_ok k).
  - by apply (same_threads_sched k).
Qed.

(** One turn of the loop. *)
Lemma cond_dequeue c k u rest : cond_ok c k -> waiters k c = u :: rest ->
  exists k1, _Thread_queue_Dequeue (Cond_queue c) k = (u, k1) /\ u <> NULL /\ cond_ok c k1 /\ waiters k1 c = rest /\
    condition k1 c = condition k c /\ _Thread_Executing k1 = _Thread_Executing k /\
    forall v, but_block2n (tcb k1 v) = but_block2n (if decide (v = u) then unblocked (tcb k u) else tcb k v).
Proof.
  intros [A B C D E F] EL. rewrite EL in F.
  destruct (dequeue_first (Cond_queue c) k u rest A B EL) as (k1 & X0 & X1 & X2 & X3 & (X4 & X5 & X6 & X7) & X8 & X9 & X10).
  exists k1. split_and!; try done.
  - intros ->. apply F. left.
  - split; rewrite ?X1, ?X4, ?X5, ?X6; try done. intros H. apply F. by right.
  - unfold condition. by rewrite (cs_rtems _ _ X8).
Qed.

Lemma cond_dequeue_none c k : cond_ok c k -> waiters k c = [] -> _Thread_queue_Dequeue (Cond_queue c) k = (NULL, k).
Proof. intros [A B C D E F] EL. by apply dequeue_none. Qed.

(** The threads that a signal or a broadcast releases. *)
Definition released (is_broadcast : bool) (l : list Z) : list Z := if is_broadcast then l else take 1 l.
Definition unbound (is_broadcast : bool) (l : list Z) : bool := is_broadcast || bool_decide (l = []).

Lemma cond_signal_spec c is_broadcast : forall l k fuel, waiters k c = l -> cond_ok c k -> (length l < fuel)%nat ->
  exists k', cond_signal fuel c is_broadcast k = Some k' /\ cond_ok c k' /\
    waiters k' c = (if is_broadcast then [] else tail l) /\
    cond_Mutex (condition k' c) = (if unbound is_broadcast l then POSIX_CONDITION_VARIABLES_NO_MUTEX else cond_Mutex (condition k c)) /\
    _Thread_Executing k' = _Thread_Executing k /\
    forall v, but_block2n (tcb k' v) = but_block2n (if decide (v ∈ released is_broadcast l) then unblocked (tcb k v) else tcb k v).
Proof.
  induction l as [|u rest IH]; intros k fuel EL HC Hf; (destruct fuel as [|fuel]; [simpl in Hf; lia|]); cbn [cond_signal].
  - rewrite (cond_dequeue_none c k HC EL). rewrite Z.eqb_refl, andb_false_r.
    pose proof (upd_condition_threads c (set_cond_Mutex POSIX_CONDITION_VARIABLES_NO_MUTEX) k) as HT.
    eexists. split; [done|]. split; [by apply (cond_ok_same c k)|]. rewrite (same_threads_list _ _ _ HT), EL. split; [by destruct is_broadcast|].
    rewrite condition_upd. split; [by destruct is_broadcast|]. split; [done|].
    intros v. rewrite (same_threads_tcb _ _ _ HT), decide_False; [done|]. destruct is_broadcast; simpl; apply not_elem_of_nil.
  - destruct (cond_dequeue c k u rest HC EL) as (k1 & E & Hu & HC1 & EL1 & EC & EX & ET). rewrite E, (proj2 (Z.eqb_neq u NULL) Hu).
    cbn [negb]. rewrite andb_true_r. destruct is_broadcast.
    + destruct (IH k1 fuel EL1 HC1) as (k' & E' & HC' & EL' & EM' & EX' & ET'); [simpl in Hf; lia|]. exists k'.
      split_and!; try done.
      * by rewrite EX'.
      * intros v. rewrite ET'. simpl. assert (u ∉ rest) as Hn.
        { pose proof (to_nodup _ _ (co_queue _ _ HC)) as X. rewrite EL in X. by apply NoDup_cons in X as [X _]. }
        destruct (decide (v ∈ rest)) as [Hv|Hv]; [rewrite decide_True by (by right)|].
        -- assert (v <> u) as Hne by (by intros ->). pose proof (ET v) as Ev. rewrite decide_False in Ev by done.
           transitivity (unblocked (but_block2n (tcb k1 v))); [done|]. by rewrite Ev.
        -- rewrite ET. destruct (decide (v = u)) as [-> |Hne]; [by rewrite decide_True by left|].
           rewrite decide_False; [done|]. set_solver.
    + exists k1. split_and!; try done.
      * by rewrite EC.
      * intros v. rewrite ET. simpl. destruct (decide (v = u)) as [-> |Hne]; [by rewrite decide_True by left|].
        rewrite decide_False; [done|]. set_solver.
Qed.

(** ** Giving up the mutex *)

Section Wait.
Context (node : Z) (mp : Z -> Z -> Kernel -> Kernel).

(** The executing thread holds the mutex at [m], once. *)
Record holds (m : Z) (k : Kernel) : Prop := {
  ho_mutex : mutex_ok m k;
  ho_locked : lock (mutex k m) = CORE_MUTEX_LOCKED;
  ho_holder : holder (mutex k m) = _Thread_Executing k;
  ho_nest : nest_count (mutex k m) = 1;
  ho_priority : prio (real_priority (tcb k (_Thread_Executing k)));
  ho_local : forall u, u ∈ tq_list k m -> _Objects_Is_local_id node (Object_id (tcb k u)) = true
}.

Lemma surrender_beside m id k : holds m k ->
  beside m k (_CORE_mutex_Surrender node mp m id k).2 /\
  (is_ready k (_Thread_Executing k) -> is_ready (_CORE_mutex_Surrender node mp m id k).2 (_Thread_Executing k)).
Proof.
  intros [A B C D E F]. destruct (surrender_result node mp m id k A B (or_introl C) D E F) as (f & E1 & E2 & E3). split; [|exact E3].
  rewrite E1. set (k4 := restore_priority m _ _).
  assert (beside m k k4) as H4 by (etransitivity; [|apply beside_restore]; done).
  transitivity (_Thread_queue_Dequeue m k4).2; [etransitivity; [exact H4|apply beside_dequeue]|].
  destruct E2 as [-> |(u & o & _ & ->)]; done.
Qed.

(** The next holder, or nobody. *)
Definition passed_on (m : Z) (k k' : Kernel) : Prop :=
  match tq_list k m with
  | [] => lock (mutex k' m) = CORE_MUTEX_UNLOCKED /\ holder (mutex k' m) = NULL
  | u :: rest => holder (mutex k' m) = u /\ lock (mutex k' m) = CORE_MUTEX_LOCKED /\
      current_state (tcb k' u) = _States_Clear STATES_BLOCKED (current_state (tcb k u))
  end.

(** What happens to the mutex, and to the threads other than the caller and the next holder. *)
Lemma surrender_hands m id k : holds m k ->
  let (status, k') := _CORE_mutex_Surrender node mp m id k in
  status = CORE_MUTEX_STATUS_SUCCESSFUL /\ mutex_ok m k' /\ passed_on m k k' /\ (forall u, known k u -> known k' u) /\
  forall v, v <> _Thread_Executing k -> v ∉ tq_list k m -> current_state (tcb k' v) = current_state (tcb k v).
Proof.
  intros [A B C D E F].
  assert (forall u, known k u -> known (_CORE_mutex_Surrender node mp m id k).2 u) as HK.
  { destruct (surrender_result node mp m id k A B (or_introl C) D E F) as (f & -> & HF & _).
    pose proof (gi_known _ _ _ (given_ok m k A B (or_introl C) D E)) as HK. intros u Hu. specialize (HK u Hu). apply (dequeue_known m) in HK.
    destruct HF as [-> |(w & o & _ & ->)]; [exact HK|]. by apply (known_mono w). }
  unfold passed_on. destruct (tq_list k m) as [|u rest] eqn:EL.
  - destruct (surrender_unlocks node mp m id k A B (or_introl C) D E EL) as (S1 & S2 & S3 & _ & _ & _ & S4).
    destruct (_CORE_mutex_Surrender node mp m id k) as [status k']. cbn [fst snd] in *. rewrite S3. split_and!; try done.
    intros v Hv _. by rewrite S4.
  - destruct (surrender_passes node mp m id k A B (or_introl C) D E u rest EL) as (S1 & S2 & S3 & S4 & _ & _ & S5 & S6); [apply F; left|].
    destruct (_CORE_mutex_Surrender node mp m id k) as [status k']. cbn [fst snd] in *. rewrite S3. split_and!; try done.
    + exact (f_equal current_state S5).
    + intros v Hv Hn. apply (f_equal current_state (S6 v Hv ltac:(set_solver))).
Qed.

Lemma fifo_list k k' q : tq k' q = tq k q -> discipline (tq k q) = THREAD_QUEUE_DISCIPLINE_FIFO -> tq_list k' q = tq_list k q.
Proof. intros E HD. unfold tq_list, queue_chain. by rewrite E, HD. Qed.

(** The condition variable is not disturbed, and the caller may wait for it. *)
Lemma surrender_cond m id c k : holds m k -> cond_ok c k -> Cond_queue c <> m -> is_ready k (_Thread_Executing k) ->
  _Thread_Executing k <> _Thread_Idle k -> (forall u, u ∈ tq_list k m -> u ∉ waiters k c) ->
  _Thread_Executing k ∉ waiters k c ->
  let k' := (_CORE_mutex_Surrender node mp m id k).2 in
  cond_ok c k' /\ waiters k' c = waiters k c /\ can_wait (Cond_queue c) k'.
Proof.
  intros HH HC Hq HR HI Hd Hn. destruct (surrender_beside m id k HH) as [HB HR']. specialize (HR' HR).
  pose proof (surrender_hands m id k HH) as HS. destruct (_CORE_mutex_Surrender node mp m id k) as [status k']. cbn [snd] in *.
  destruct HS as (_ & HM & _ & HK & HT). destruct HB as [B1 B2 B3 B4 B5 B6 B7]. destruct HC as [C1 C2 C3 C4 C5 C6].
  pose proof (B1 _ Hq) as EQ. pose proof (fifo_list k k' _ EQ C5) as EL.
  assert (cond_ok c k') as HC'.
  { split; rewrite ?EQ, ?EL; try done; [|apply HM]. split; rewrite ?EQ, ?EL; try apply C1.
    - intros u Hu. by apply HK, C1.
    - intros u Hu. rewrite HT; [by apply C1| |].
      + by intros ->.
      + intros Hu'. by apply (Hd u).
    - rewrite C5. discriminate. }
  split; [done|]. split; [done|]. split; rewrite ?B3, ?EL, ?B2, ?EQ; try done; try apply HC'.
  rewrite C4. discriminate.
Qed.

(** ** Joining the queue *)

Lemma cond_enqueue_spec routine wfuel fuel c mutex_id cond_id timeout k :
  cond_ok c k -> can_wait (Cond_queue c) k -> timer_free wfuel (_Thread_Executing k) timeout k ->
  (length (waiters k c) < fuel)%nat -> _Thread_Executing k <> NULL ->
  exists k', cond_enqueue fuel routine wfuel id [] c mutex_id cond_id timeout k = Some k' /\
    waiters k' c = waiters k c ++ [_Thread_Executing k] /\ cond_ok c k' /\ _Thread_Executing k' = _Thread_Executing k /\
    cond_Mutex (condition k' c) = mutex_id /\ _Context_Switch_necessary k' = true /\
    current_state (tcb k' (_Thread_Executing k)) = STATES_WAITING_FOR_CONDITION_VARIABLE /\
    Wait_return_code (Wait (tcb k' (_Thread_Executing k))) = 0 /\
    mutexes k' = mutexes k /\
    forall u, u <> _Thread_Executing k -> but_block2n (tcb k' u) = but_block2n (tcb k u).
Proof.
  intros HC HW HT Hf Hnull. set (q := Cond_queue c). set (t := _Thread_Executing k).
  unfold cond_enqueue. fold q. set (k1 := upd_condition c (set_cond_Mutex mutex_id) k).
  assert (same_threads k k1) as HS by apply upd_condition_threads.
  assert (can_wait q k1) as HW1 by (by apply (same_threads_can_wait q k)).
  pose proof (noted_enter _ _ _ _ _ (noted_refl q k1 HW1)) as N1.
  apply (noted_code q _ (set_Wait_return_code 0)) in N1; [|done].
  apply (noted_code q _ (set_Wait_queue q)) in N1; [|done].
  apply (noted_code q _ (set_Wait_id cond_id)) in N1; [|done].
  destruct (noted_wait_spec routine wfuel fuel q timeout _ k1 _ N1) as (k' & E & X1 & X2 & X3 & X4 & X5 & X6 & X7 & (X8 & X9 & X10) & X11).
  { exact HT. }
  { by rewrite (same_threads_list _ _ _ HS). }
  destruct HC as [C1 C2 C3 C4 C5 C6]. fold q in C1, C3, C4, C5, C6. change (_Thread_Executing k1) with t in *. change (tq k1 q) with (tq k q) in *.
  unfold joined in X1. change (tq k1 q) with (tq k q) in X1. rewrite C5, (same_threads_list _ _ _ HS) in X1.
  pose proof (X11 t) as Xt. rewrite decide_True in Xt by done. exists k'. split; [exact E|]. split_and!; try done.
  - split; fold q; rewrite ?X5, ?X8, ?X9, ?X1; try done. rewrite elem_of_app, list_elem_of_singleton. intros [?|?]; done.
  - unfold condition. rewrite (cs_rtems _ _ X6). fold (condition k1 c). unfold k1. by rewrite condition_upd.
  - rewrite <- C4. exact (f_equal current_state Xt).
  - exact (f_equal (fun x => Wait_return_code (Wait x)) Xt).
  - by rewrite (cs_mutexes _ _ X6).
  - intros u Hu. rewrite X11, decide_False by done. by rewrite (same_threads_tcb _ _ _ HS).
Qed.

(** Waiting does not touch the level of nested critical sections. *)
Lemma enqueue_fifo_level routine wfuel fuel q k k' : discipline (tq k q) = THREAD_QUEUE_DISCIPLINE_FIFO ->
  sync_state (tq k q) = THREAD_QUEUE_NOTHING_HAPPENED ->
  _Thread_queue_Enqueue routine wfuel id fuel [] q THREAD_QUEUE_WAIT_FOREVER k = Some k' ->
  _Thread_Dispatch_disable_level k' = _Thread_Dispatch_disable_level k.
Proof.
  intros HD HS. unfold _Thread_queue_Enqueue, start_timer. cbn zeta. set (k1 := _Thread_Set_state _ _ _).
  assert (tq k1 q = tq k q /\ _Thread_Dispatch_disable_level k1 = _Thread_Dispatch_disable_level k) as [E1 E2].
  { unfold k1, _Thread_Set_state, remove_ready. destruct (negb _); [done|].
    destruct (ListChain.has_only_one_node _), (_Thread_Is_heir _ _); cbn zeta; by destruct (_Thread_Is_executing _ _). }
  clearbody k1. cbn [negb Z.eqb THREAD_QUEUE_WAIT_FOREVER WATCHDOG_NO_TIMEOUT]. rewrite E1, HD. intros [= <-].
  unfold _Thread_queue_Enqueue_fifo. rewrite E1, HS. exact E2.
Qed.

Lemma cond_enqueue_level routine wfuel fuel c mutex_id cond_id k k' : cond_ok c k ->
  cond_enqueue fuel routine wfuel id [] c mutex_id cond_id THREAD_QUEUE_WAIT_FOREVER k = Some k' ->
  _Thread_Dispatch_disable_level k' = _Thread_Dispatch_disable_level k.
Proof.
  intros HC. unfold cond_enqueue. cbn zeta. set (k1 := _Thread_queue_Enter_critical_section _ _).
  assert (tq k1 (Cond_queue c) = set_sync_state THREAD_QUEUE_NOTHING_HAPPENED (tq k (Cond_queue c))) as E1 by (unfold k1; by rewrite enter_tq).
  assert (_Thread_Dispatch_disable_level k1 = _Thread_Dispatch_disable_level k) as E2 by done. clearbody k1.
  set (k2 := upd_wait _ (set_Wait_id cond_id) _).
  assert (tq k2 (Cond_queue c) = tq k1 (Cond_queue c) /\ _Thread_Dispatch_disable_level k2 = _Thread_Dispatch_disable_level k1) as [E3 E4] by done.
  clearbody k2. intros E. rewrite <- E2, <- E4. apply (enqueue_fifo_level routine wfuel fuel (Cond_queue c)); [| |exact E]; rewrite E3, E1; [apply HC|done].
Qed.

Lemma passed_on_kept m k k1 k2 : mutex_ok m k -> _Thread_Executing k ∉ tq_list k m -> passed_on m k k1 -> mutexes k2 = mutexes k1 ->
  (forall u, u <> _Thread_Executing k -> but_block2n (tcb k2 u) = but_block2n (tcb k1 u)) -> passed_on m k k2.
Proof.
  unfold passed_on. intros HM Hn HP EM HT. assert (mutex k2 m = mutex k1 m) as -> by (unfold mutex; by rewrite EM).
  destruct (tq_list k m) as [|u rest]; [done|]. destruct HP as (A & B & C). split_and!; try done. rewrite <- C.
  assert (u <> _Thread_Executing k) as Hu by (intros ->; apply Hn; left). exact (f_equal current_state (HT u Hu)).
Qed.

(** ** The claims *)

Section Calls.
Context (switch : Z -> Z -> Kernel -> Kernel) (postswitch : Kernel -> Kernel).
Context (isrs : list (Kernel -> Kernel)) (fuel : nat) (nodes : Z).

Notation Get_mutex := (_POSIX_Mutex_Get switch postswitch isrs fuel node nodes).
Notation Get_cond := (_POSIX_Condition_variables_Get switch postswitch isrs fuel node nodes).

Lemma unlock_nested mutex the_mutex k k1 l : Get_mutex mutex k = Some (OBJECTS_LOCAL, the_mutex, k1) ->
  0 < l < two32 - 1 -> _Thread_Dispatch_disable_level k1 = l +w 1 -> holds (Core_mutex the_mutex) k1 ->
  let k2 := (_CORE_mutex_Surrender node mp (Core_mutex the_mutex) (object_id k1 OBJECTS_POSIX_MUTEXES the_mutex) k1).2 in
  pthread_mutex_unlock switch postswitch isrs fuel node nodes mp mutex k = Returned 0 (set_disable_level l k2).
Proof.
  intros EG Hl El HH k2. unfold pthread_mutex_unlock. rewrite EG.
  destruct (surrender_beside _ (object_id k1 OBJECTS_POSIX_MUTEXES the_mutex) k1 HH) as [HB _].
  pose proof (surrender_hands _ (object_id k1 OBJECTS_POSIX_MUTEXES the_mutex) k1 HH) as HS. fold k2 in HB.
  assert (_Thread_Dispatch_disable_level k2 = l +w 1) as E2 by (rewrite (be_level _ _ _ HB); exact El). unfold k2 in *. clear k2.
  destruct (_CORE_mutex_Surrender node mp _ _ k1) as [status k2]. cbn [snd] in *. destruct HS as (-> & _).
  by rewrite (enable_nested _ _ _ _ l) by done.
Qed.

(** C29: signalling a condition variable.  [pthread_cond_signal] releases the thread that has
    waited longest and no other, [pthread_cond_broadcast] releases every waiting thread and
    terminates; the other waiters keep their order.  The binding of the condition variable to
    a mutex is dropped by a broadcast and by a signal that finds nobody waiting. *)
Theorem cond_signal_correct cond is_broadcast c k k1 :
  Get_cond cond k = Some (OBJECTS_LOCAL, c, k1) -> cond_ok c k1 -> (length (waiters k1 c) < fuel)%nat ->
  exists k2, _POSIX_Condition_variables_Signal_support switch postswitch isrs fuel node nodes cond is_broadcast k =
      returns (enable_return switch postswitch isrs fuel 0 k2) /\
    cond_ok c k2 /\ waiters k2 c = (if is_broadcast then [] else tail (waiters k1 c)) /\
    _Thread_Executing k2 = _Thread_Executing k1 /\
    (forall v, v ∈ released is_broadcast (waiters k1 c) ->
       current_state (tcb k2 v) = _States_Clear STATES_BLOCKED (current_state (tcb k1 v))) /\
    (forall v, v ∉ released is_broadcast (waiters k1 c) -> but_block2n (tcb k2 v) = but_block2n (tcb k1 v)) /\
    cond_Mutex (condition k2 c) =
      (if unbound is_broadcast (waiters k1 c) then POSIX_CONDITION_VARIABLES_NO_MUTEX else cond_Mutex (condition k1 c)).
Proof.
  intros EG HC Hf. unfold _POSIX_Condition_variables_Signal_support. rewrite EG.
  destruct (cond_signal_spec c is_broadcast (waiters k1 c) k1 fuel eq_refl HC Hf) as (k2 & E & A & B & C & D & F).
  rewrite E. exists k2. split_and!; try done.
  - intros v Hv. pose proof (F v) as Fv. rewrite decide_True in Fv by done. exact (f_equal current_state Fv).
  - intros v Hv. by rewrite F, decide_False.
Qed.

(** C28: waiting is atomic.  A thread that holds the mutex and calls [pthread_cond_wait] gives
    the mutex to the first thread that waits for it, or unlocks it, and joins the end of the
    queue of the condition variable without enabling dispatching in between: the one dispatch
    of the call comes when the thread is in the queue, blocked, with the condition variable
    bound to the mutex, and a context switch is asked for. *)
Theorem cond_wait_atomic routine wfuel resume relock cond mutex the_mutex c ka kb k k0 l :
  let m := Core_mutex the_mutex in
  let t := _Thread_Executing k in
  Get_mutex mutex k0 = Some (OBJECTS_LOCAL, the_mutex, ka) -> the_mutex <> NULL ->
  Get_cond cond (_Thread_Unnest_dispatch ka) = Some (OBJECTS_LOCAL, c, kb) ->
  cond_Mutex (condition kb c) = 0 \/ cond_Mutex (condition kb c) = ld32 (memory kb) mutex ->
  Get_mutex mutex kb = Some (OBJECTS_LOCAL, the_mutex, k) ->
  0 < l < two32 - 1 -> _Thread_Dispatch_disable_level k = l +w 1 ->
  holds m k -> cond_ok c k -> Cond_queue c <> m -> is_ready k t -> t <> _Thread_Idle k -> t <> NULL ->
  (forall u, u ∈ tq_list k m -> u ∉ waiters k c) -> t ∉ waiters k c -> (length (waiters k c) < fuel)%nat ->
  exists k',
    pthread_cond_wait switch postswitch isrs fuel node nodes routine wfuel id id resume relock [] mp cond mutex k0 =
      match _Thread_Enable_dispatch switch postswitch fuel isrs k' with
      | None => Unfinished
      | Some k2 => cond_awake switch postswitch isrs fuel node nodes routine wfuel id id resume relock [] mutex k2
      end /\
    _Thread_Dispatch_disable_level k' = l /\ passed_on m k k' /\ waiters k' c = waiters k c ++ [t] /\ cond_ok c k' /\
    _Thread_Executing k' = t /\ current_state (tcb k' t) = STATES_WAITING_FOR_CONDITION_VARIABLE /\
    cond_Mutex (condition k' c) = ld32 (memory k) mutex /\ _Context_Switch_necessary k' = true.
Proof.
  intros m t G1 Hn G2 Hb G3 Hl El HH HC Hq HR HI Ht Hd Ho Hf.
  unfold pthread_cond_wait, _POSIX_Condition_variables_Wait_support. rewrite G1, (proj2 (Z.eqb_neq the_mutex NULL) Hn), G2.
  assert (negb (cond_Mutex (condition kb c) =? 0) && negb (cond_Mutex (condition kb c) =? ld32 (memory kb) mutex) = false) as ->
    by (destruct Hb as [-> | ->]; [done|by rewrite Z.eqb_refl, andb_false_r]).
  rewrite (unlock_nested mutex the_mutex kb k l G3 Hl El HH). cbn zeta. fold m.
  set (id0 := object_id k OBJECTS_POSIX_MUTEXES the_mutex).
  destruct (surrender_beside m id0 k HH) as [HB _]. pose proof (surrender_hands m id0 k HH) as HS.
  destruct (surrender_cond m id0 c k HH HC Hq HR HI Hd Ho) as (S1 & S2 & S3).
  destruct (_CORE_mutex_Surrender node mp m id0 k) as [status k2]. cbn [snd] in *. destruct HS as (_ & _ & HP & _).
  set (k3 := set_disable_level l k2). assert (same_threads k2 k3) as HT by done.
  pose proof (be_executing _ _ _ HB) as EX.
  destruct (cond_enqueue_spec routine wfuel fuel c (ld32 (memory k3) mutex) (ld32 (memory k3) cond) THREAD_QUEUE_WAIT_FOREVER k3)
    as (k' & E & X1 & X2 & X3 & X4 & X5 & X6 & X7 & X8 & X9).
  - by apply (cond_ok_same c k2).
  - by apply (same_threads_can_wait _ k2).
  - by left.
  - by rewrite (same_threads_list _ _ _ HT), S2.
  - change (_Thread_Executing k3) with (_Thread_Executing k2). by rewrite EX.
  - cbn [negb]. rewrite E. exists k'. split; [done|]. change (_Thread_Executing k3) with (_Thread_Executing k2) in *. rewrite EX in *.
    split_and!; try done.
    + rewrite (cond_enqueue_level _ _ _ _ _ _ _ _ (cond_ok_same c k2 k3 HT S1) E). done.
    + apply (passed_on_kept m k k3); [apply HH| |done|done|].
      * pose proof (he_off _ _ (mo_held _ _ (ho_mutex _ _ HH) (ho_locked _ _ HH))) as X. by rewrite (ho_holder _ _ HH) in X.
      * done.
    + rewrite X1, (same_threads_list _ _ _ HT), S2. done.
    + rewrite X4. change (memory k3) with (memory k2). by rewrite (be_memory _ _ _ HB).
Qed.
End Calls.
End Wait.

(** ** What a signal leaves behind *)

(** A signal that releases the last waiter leaves the condition variable bound to its mutex:
    a thread that then waits with another mutex is refused, although nobody is waiting. *)
Theorem cond_stays_bound switch postswitch isrs fuel node nodes routine wfuel wisr isr resume relock qisrs mp c u k :
  cond_ok c k -> waiters k c = [u] -> (1 < fuel)%nat -> cond_Mutex (condition k c) <> 0 ->
  exists k', cond_signal fuel c false k = Some k' /\ waiters k' c = [] /\ cond_Mutex (condition k' c) = cond_Mutex (condition k c) /\
    forall cond mutex m k0 ka kb,
      _POSIX_Mutex_Get switch postswitch isrs fuel node nodes mutex k0 = Some (OBJECTS_LOCAL, m, ka) -> m <> NULL ->
      _POSIX_Condition_variables_Get switch postswitch isrs fuel node nodes cond (_Thread_Unnest_dispatch ka) = Some (OBJECTS_LOCAL, c, kb) ->
      condition kb c = condition k' c -> ld32 (memory kb) mutex <> cond_Mutex (condition k c) ->
      pthread_cond_wait switch postswitch isrs fuel node nodes routine wfuel wisr isr resume relock qisrs mp cond mutex k0 =
        returns (enable_return switch postswitch isrs fuel EINVAL kb).
Proof.
  intros HC EL Hf Hb. destruct (cond_signal_spec c false [u] k fuel EL HC) as (k' & E & _ & E1 & E2 & _); [simpl; lia|].
  change (unbound false [u]) with false in E2. cbv iota in E2. exists k'. split_and!; try done. intros cond mutex m k0 ka kb G1 Hm G2 Ec Hne.
  unfold pthread_cond_wait, _POSIX_Condition_variables_Wait_support. rewrite G1, (proj2 (Z.eqb_neq m NULL) Hm), G2, Ec, E2.
  rewrite (proj2 (Z.eqb_neq _ 0) Hb), (proj2 (Z.eqb_neq _ _) (not_eq_sym Hne)). done.
Qed.

(** ** A small system with a condition variable *)

Lemma cond_ok_empty c k : sched_ok k -> waiters k c = [] -> sync_state (tq k (Cond_queue c)) = THREAD_QUEUE_SYNCHRONIZED ->
  tq_state (tq k (Cond_queue c)) = STATES_WAITING_FOR_CONDITION_VARIABLE ->
  discipline (tq k (Cond_queue c)) = THREAD_QUEUE_DISCIPLINE_FIFO -> cond_ok c k.
Proof.
  intros HS EL E1 E2 E3. split; rewrite ?EL; try done; [|apply not_elem_of_nil].
  split; rewrite ?EL, ?E2, ?E3; try done; [constructor|intros u Hu; by apply elem_of_nil in Hu..].
Qed.

Lemma mutex_ok_same m k k' : same_threads k k' -> mutexes k' = mutexes k -> mutex_ok m k -> mutex_ok m k'.
Proof.
  intros HT EM [A B C D]. assert (mutex k' m = mutex k m) as E by (unfold mutex; by rewrite EM).
  pose proof (same_threads_list _ _ m HT) as EL. pose proof (same_threads_tq _ _ HT) as HQ.
  split; rewrite ?E, ?EL; try done.
  - destruct A as [A1 A2 A3 A4 A5 A6]. split; rewrite ?E, ?EL, ?(ts_queue _ _ HQ); try done.
    + by apply (same_threads_tq_ok k).
    + by apply (same_threads_sched k).
  - intros HL. destruct (D HL) as [H1 H2 H3 H4 H5 H6]. pose proof (fun u => same_threads_tcb _ _ u HT) as ET.
    split; rewrite ?E, ?EL, ?ET; try done.
    + unfold known. by rewrite (st_threads _ _ HT).
    + intros Hd w Hw. rewrite ET. by apply H6.
Qed.

(** Neither mutexes nor the scheduler look at the level of nested critical sections. *)
Lemma level_mutex_ok m k : mutex_ok m k -> mutex_ok m (_Thread_Disable_dispatch (_Thread_Disable_dispatch (_Thread_Unnest_dispatch (_Thread_Disable_dispatch k)))).
Proof. intros H. by apply (mutex_ok_same m k). Qed.
Lemma level_list q k : tq_list (_Thread_Disable_dispatch (_Thread_Disable_dispatch (_Thread_Unnest_dispatch (_Thread_Disable_dispatch k)))) q = tq_list k q.
Proof. done. Qed.

Lemma tables_sched i w k : sched_ok k -> sched_ok (set_information_table i (set_memory w k)).
Proof. intros H. by apply (same_threads_sched k). Qed.

(** Creating a condition variable does not concern the scheduler. *)
Lemma cond_set_up_sched proxy c a k : sched_ok k -> sched_ok (cond_set_up proxy c a k).
Proof.
  intros HS. unfold cond_set_up. set (k1 := upd_condition _ _ k).
  destruct (initialize_fresh (Cond_queue c) OBJECTS_POSIX_CONDITION_VARIABLES THREAD_QUEUE_DISCIPLINE_FIFO
    STATES_WAITING_FOR_CONDITION_VARIABLE proxy ETIMEDOUT k1) as (_ & _ & HL & _); [done|].
  apply (links_only_sched _ _ HL). apply (same_threads_sched k); [apply upd_condition_threads|done].
Qed.

Module CondExample.
Import ThreadExample.
Definition one_object (cls a : Z) : Objects_State :=
  {| info := {| the_class := cls; minimum_id := _Objects_Build_id cls 1 1; maximum_id := _Objects_Build_id cls 1 1; maximum := 1;
                local_table := [NULL; a]; name_table := 0; global_table := None; Inactive := [];
                is_string := false; name_length := 4; is_thread := false |};
     objects := {[ a := {| obj_id := _Objects_Build_id cls 1 1; obj_name := 0 |} ]}; names := ∅ |}.
(** The mutex at 500 and the condition variable at 400; their ids are at 600 and 700. *)
Definition base : Kernel :=
  set_information_table (list_to_map [(OBJECTS_POSIX_MUTEXES, one_object 15 500); (OBJECTS_POSIX_CONDITION_VARIABLES, one_object 17 400)])
    (set_memory (st32 (st32 ∅ 600 (_Objects_Build_id 15 1 1)) 700 (_Objects_Build_id 17 1 1)) k2).
Definition fresh : Kernel := cond_set_up NULL 400 _POSIX_Condition_variables_Default_attributes base.
(** The executing thread, at 200, holds the mutex. *)
Definition locked : Kernel :=
  set_executing (_Thread_Executing fresh)
    (_CORE_mutex_Initialize 520 OBJECTS_POSIX_MUTEXES false CORE_MUTEX_DISCIPLINES_FIFO 2 CORE_MUTEX_LOCKED NULL (set_executing 200 fresh)).
Definition ka : Kernel := _Thread_Disable_dispatch locked.
Definition kb : Kernel := _Thread_Disable_dispatch (_Thread_Unnest_dispatch ka).
Definition kc : Kernel := _Thread_Disable_dispatch kb.
Notation Mutex_Get := (_POSIX_Mutex_Get (fun _ _ k => k) id [] 5 1 1).
Notation Cond_Get := (_POSIX_Condition_variables_Get (fun _ _ k => k) id [] 5 1 1).

Lemma cond_fresh_ok : sched_ok fresh /\ known fresh 200.
Proof.
  split; [|vm_compute; eexists; reflexivity].
  exact (cond_set_up_sched NULL 400 _ base (tables_sched _ _ k2 k2_ok)).
Qed.

Lemma cond_locked_ok : mutex_ok 520 locked /\ tq_list locked 520 = [].
Proof.
  destruct (handed_ok 520 OBJECTS_POSIX_MUTEXES false CORE_MUTEX_DISCIPLINES_FIFO 2 NULL 200 fresh (proj1 cond_fresh_ok) (proj2 cond_fresh_ok))
    as (A & _ & B & _); [discriminate|]. split; [exact A|exact B].
Qed.

Lemma kc_holds : holds 1 520 kc.
Proof.
  destruct cond_locked_ok as [HM HL]. split.
  - exact (level_mutex_ok 520 locked HM).
  - vm_compute. reflexivity.
  - vm_compute. reflexivity.
  - vm_compute. reflexivity.
  - split; vm_compute; discriminate.
  - intros u Hu. rewrite (level_list 520 locked : tq_list kc 520 = _), HL in Hu. destruct (not_elem_of_nil u Hu).
Qed.

Lemma kc_cond : cond_ok 400 kc /\ waiters kc 400 = [].
Proof.
  assert (waiters kc 400 = []) as E by (vm_compute; reflexivity). split; [|exact E].
  apply cond_ok_empty; [|exact E|vm_compute; reflexivity..].
  exact (mq_sched 520 kc (mo_queue 520 kc (level_mutex_ok 520 locked (proj1 cond_locked_ok)))).
Qed.

Lemma get_first : Mutex_Get 600 locked = Some (OBJECTS_LOCAL, 500, ka).
Proof. vm_compute. reflexivity. Qed.
Lemma get_cond : Cond_Get 700 (_Thread_Unnest_dispatch ka) = Some (OBJECTS_LOCAL, 400, kb).
Proof. vm_compute. reflexivity. Qed.
Lemma get_second : Mutex_Get 600 kb = Some (OBJECTS_LOCAL, 500, kc).
Proof. vm_compute. reflexivity. Qed.
Lemma kb_unbound : cond_Mutex (condition kb 400) = 0.
Proof. vm_compute. reflexivity. Qed.
Lemma kc_level : _Thread_Dispatch_disable_level kc = 1 +w 1.
Proof. vm_compute. reflexivity. Qed.
Lemma kc_executing : _Thread_Executing kc = 200 /\ is_ready kc 200 /\ 200 <> _Thread_Idle kc.
Proof. split; [vm_compute; reflexivity|split; [vm_compute; reflexivity|vm_compute; discriminate]]. Qed.
Lemma kc_mutex_queue : tq_list kc 520 = [].
Proof. exact (eq_trans (level_list 520 locked) (proj2 cond_locked_ok)). Qed.

(** The thread at 200 waits. *)
Definition kw : Kernel := default kc (cond_enqueue 5 9 5 id [] 400 (_Objects_Build_id 15 1 1) (_Objects_Build_id 17 1 1) 0 kc).
Lemma kc_can_wait : can_wait (Cond_queue 400) kc.
Proof.
  destruct kc_cond as [HC EW]. destruct kc_executing as (EX & HR & HI). split.
  - exact (co_sched _ _ HC).
  - exact (co_queue _ _ HC).
  - rewrite EW. apply not_elem_of_nil.
  - rewrite EX. exact HR.
  - rewrite EX. exact HI.
  - rewrite (co_state _ _ HC). discriminate.
Qed.
Lemma kw_cond : cond_ok 400 kw /\ waiters kw 400 = [200].
Proof.
  destruct kc_cond as [HC EW]. pose proof kc_can_wait as HW. destruct kc_executing as (EX & _ & _). unfold kw.
  generalize dependent kc. intros k HC EW HW EX.
  destruct (cond_enqueue_spec 9 5 5 400 (_Objects_Build_id 15 1 1) (_Objects_Build_id 17 1 1) 0 k HC HW)
    as (k' & E & H1 & H2 & _); [by left|rewrite EW; simpl; lia|rewrite EX; discriminate|].
  rewrite E. rewrite EW, EX in H1. exact (conj H2 H1).
Qed.
Lemma kw_get : Cond_Get 700 (_Thread_Unnest_dispatch kw) = Some (OBJECTS_LOCAL, 400, kw).
Proof. vm_compute. reflexivity. Qed.
End CondExample.

Lemma cond_signal_witness : exists k2, cond_ok 400 k2 /\ waiters k2 400 = [] /\
  current_state (tcb k2 200) = _States_Clear STATES_BLOCKED (current_state (tcb CondExample.kw 200)).
Proof.
  destruct CondExample.kw_cond as [HC EW]. pose proof CondExample.kw_get as EG. generalize dependent CondExample.kw. intros k HC EW EG.
  destruct (cond_signal_correct 1 (fun _ _ k => k) id [] 5 1 700 true 400 (_Thread_Unnest_dispatch k) k EG HC)
    as (k2 & _ & H1 & H2 & _ & H3 & _); [rewrite EW; simpl; lia|].
  exists k2. split; [exact H1|]. split; [exact H2|]. apply H3. rewrite EW. left.
Defined.

Lemma cond_wait_witness : exists k', waiters k' 400 = [200] /\ current_state (tcb k' 200) = STATES_WAITING_FOR_CONDITION_VARIABLE /\
  lock (mutex k' 520) = CORE_MUTEX_UNLOCKED /\ _Thread_Dispatch_disable_level k' = 1.
Proof.
  pose proof CondExample.get_first as G1. pose proof CondExample.get_cond as G2. pose proof CondExample.get_second as G3.
  pose proof CondExample.kb_unbound as HU. pose proof CondExample.kc_level as HL. pose proof CondExample.kc_holds as HH.
  destruct CondExample.kc_cond as [HC EW]. destruct CondExample.kc_executing as (EX & HR & HI). pose proof CondExample.kc_mutex_queue as EQ.
  generalize dependent CondExample.kc. intros k G3 HL HH HC EW EX HR HI EQ.
  generalize dependent CondExample.kb. intros kb G2 HU G3. generalize dependent CondExample.ka. intros ka G1 G2.
  generalize dependent CondExample.locked. intros k0 G1. rewrite <- EX in HR, HI.
  destruct (cond_wait_atomic 1 (fun _ _ k => k) (fun _ _ k => k) id [] 5 1 9 5 id id 700 600 500 400 ka kb k k0 1 G1)
    as (k' & _ & H1 & H2 & H3 & _ & _ & H4 & _).
  - discriminate.
  - exact G2.
  - left. exact HU.
  - exact G3.
  - split; reflexivity.
  - exact HL.
  - exact HH.
  - exact HC.
  - discriminate.
  - exact HR.
  - exact HI.
  - rewrite EX. discriminate.
  - intros u Hu. change (Core_mutex 500) with 520 in Hu. rewrite EQ in Hu. by apply elem_of_nil in Hu.
  - rewrite EW. apply not_elem_of_nil.
  - rewrite EW. simpl. lia.
  - exists k'. rewrite EX, EW in H3. rewrite EX in H4. unfold passed_on in H2. change (Core_mutex 500) with 520 in H2. rewrite EQ in H2.
    exact (conj H3 (conj H4 (conj (proj1 H2) H1))).
Defined.
