(* ===== verification/PosixSignal.v ===== *)
(** * Signals of the POSIX API (posix/src/psignal.c)

    A signal is sent to the process or to a thread.  A thread that waits for it gets it at
    once; otherwise it pends, for the process or for the thread, until a thread that does not
    block it comes out of a dispatch and calls the handler.  Signals whose action has
    [SA_SIGINFO] are queued with their information, in nodes from a pool.

    Sets of signals are words with bit [n - 1] for signal [n].  The handlers are parameters;
    [None] stands for a [siginfo_t] that was never filled in.  [_POSIX_signals_Wait_queue] and
    [_POSIX_signals_Alarm_timer] are the addresses of these variables. *)
From S2P Require Import Prelude Chain Watchdog Tod Object Priority ApiTypes Heap Kernel Thread Threadq Workspace CoreMsg Rtems Partition.
From S2P Require Import Signal Init ThreadLife Posix PosixKey PosixTime PosixMutex.

Definition ENOSYS : Z := 88.
Definition SIGHUP : Z := 1.
Definition SIGILL : Z := 4.
Definition SIGFPE : Z := 8.
Definition SIGKILL : Z := 9.
Definition SIGSEGV : Z := 11.
Definition SIGALRM : Z := 14.
Definition __SIGLASTNOTRT : Z := 17.
Definition SIGRTMIN : Z := 18.
Definition SIGRTMAX : Z := 32.
Definition SIG_DFL : Z := 0.
Definition SIG_IGN : Z := 1.
Definition SA_SIGINFO : Z := 2.
Definition SI_USER : Z := 1.
Definition SIG_SETMASK : Z := 0.
Definition SIG_BLOCK : Z := 1.
Definition SIG_UNBLOCK : Z := 2.
Definition OBJECTS_POSIX_THREADS : Z := 3.

Definition SIGNAL_EMPTY_MASK : Z := 0.
Definition SIGNAL_ALL_MASK : Z := 4294967295.
Definition signo_to_mask (sig : Z) : Z := wrap32 (Z.shiftl 1 (sig - 1)).
Definition is_valid_signo (sig : Z) : bool := (1 <=? sig) && (sig <=? 32).
Definition meets (a b : Z) : bool := negb (Z.land a b =? 0).

(** The real-time signals come first, then the others. *)
Definition delivery_order : list Z := seqZ SIGRTMIN (SIGRTMAX - SIGRTMIN + 1) ++ seqZ SIGHUP (__SIGLASTNOTRT - SIGHUP + 1).

(** ** The state *)

Definition psig (k : Kernel) : POSIX_signals_State := posix_signals (rtems k).
Definition upd_psig (f : POSIX_signals_State -> POSIX_signals_State) : Kernel -> Kernel :=
  upd_rtems (fun r => set_posix_signals (f (posix_signals r)) r).
Definition vector (k : Kernel) (sig : Z) : sigaction_t := _POSIX_signals_Vectors (psig k) !!! sig.
Definition queued (k : Kernel) (sig : Z) : list Z := _POSIX_signals_Siginfo (psig k) !!! sig.

(** [the_thread->API_Extensions[ THREAD_API_POSIX ]], a null pointer for a thread without it. *)
Definition posix_block (k : Kernel) (the_thread : Z) : Z := default NULL (API_Extensions_POSIX (rtems k) !! the_thread).
Definition posix_api (k : Kernel) (the_thread : Z) : POSIX_API_Control := posix_apis (rtems k) !!! posix_block k the_thread.
Definition upd_posix_api (the_thread : Z) (f : POSIX_API_Control -> POSIX_API_Control) (k : Kernel) : Kernel :=
  upd_rtems (fun r => set_posix_apis (<[posix_block k the_thread := f (posix_api k the_thread)]> (posix_apis r)) r) k.

(** A [siginfo_t] and a [struct sigaction] are three words of memory. *)
Definition put_siginfo (a : Z) (i : siginfo_t) (k : Kernel) : Kernel :=
  put_word (a + 8) (si_value i) (put_word (a + 4) (si_code i) (put_word a (wrap32 (si_signo i)) k)).
Definition put_sigaction (a : Z) (s : sigaction_t) (k : Kernel) : Kernel :=
  put_word (a + 8) (sa_handler s) (put_word (a + 4) (sa_mask s) (put_word a (sa_flags s) k)).
Definition user_siginfo (sig value : Z) : siginfo_t := {| si_signo := sig; si_code := SI_USER; si_value := value |}.

(** ** Sets of signals; [None] is a null pointer, and the set is what the pointer designates
    afterwards *)

Definition sigemptyset (set : option Z) : option Z * option Z :=
  match set with None => (Some EINVAL, None) | Some _ => (None, Some SIGNAL_EMPTY_MASK) end.
Definition sigfillset (set : option Z) : option Z * option Z :=
  match set with None => (Some EINVAL, None) | Some _ => (None, Some SIGNAL_ALL_MASK) end.

(** The error number, if -1 is returned, and the set. *)
Definition sigaddset (set : option Z) (signo : Z) : option Z * option Z :=
  match set with
  | None => (Some EINVAL, None)
  | Some s =>
      if signo =? 0 then (None, set)
      else if negb (is_valid_signo signo) then (Some EINVAL, set)
      else (None, Some (Z.lor s (signo_to_mask signo)))
  end.
Definition sigdelset (set : option Z) (signo : Z) : option Z * option Z :=
  match set with
  | None => (Some EINVAL, None)
  | Some s =>
      if signo =? 0 then (None, set)
      else if negb (is_valid_signo signo) then (Some EINVAL, set)
      else (None, Some (Z.land s (not32 (signo_to_mask signo))))
  end.
(** -1 goes with [EINVAL]. *)
Definition sigismember (set : option Z) (signo : Z) : Z :=
  match set with
  | None => -1
  | Some s =>
      if signo =? 0 then 0
      else if negb (is_valid_signo signo) then -1
      else if meets s (signo_to_mask signo) then 1 else 0
  end.

(** ** Signals that pend for the process *)

Definition _POSIX_signals_Set_process_signals (mask : Z) (k : Kernel) : Kernel :=
  let k := if _POSIX_signals_Pending (psig k) =? 0
           then set_post_task_switch_extension (_Thread_Do_post_task_switch_extension k +w 1) k else k in
  upd_psig (fun s => set_signals_Pending (Z.lor (_POSIX_signals_Pending s) mask) s) k.

Definition _POSIX_signals_Clear_process_signals (mask : Z) (k : Kernel) : Kernel :=
  let k := upd_psig (fun s => set_signals_Pending (Z.land (_POSIX_signals_Pending s) (not32 mask)) s) k in
  if _POSIX_signals_Pending (psig k) =? 0
  then set_post_task_switch_extension (_Thread_Do_post_task_switch_extension k -w 1) k else k.

(** The first queued information of a signal; the node goes back to the pool.  Whether it
    was the last one decides if the signal still pends. *)
Definition take_siginfo (signo : Z) (k : Kernel) : option siginfo_t * Kernel :=
  let node := head (queued k signo) in
  let k := upd_psig (fun s => set_signals_Siginfo (<[signo := tl (_POSIX_signals_Siginfo s !!! signo)]> (_POSIX_signals_Siginfo s)) s) k in
  let k := match queued k signo with [] => _POSIX_signals_Clear_process_signals (signo_to_mask signo) k | _ => k end in
  match node with
  | Some psiginfo =>
      (Some (siginfo_nodes (psig k) !!! psiginfo),
       upd_psig (fun s => set_Inactive_siginfo (ListChain.append (_POSIX_signals_Inactive_siginfo s) psiginfo) s) k)
  | None => (None, k)
  end.

(** Whether the signal pended and was not blocked, the information if there was any, and
    the state in which it does not pend any more. *)
Definition _POSIX_signals_Clear_signals (the_thread signo : Z) (is_global check_blocked : bool) (k : Kernel)
  : bool * option siginfo_t * Kernel :=
  let mask := signo_to_mask signo in
  let signals_unblocked := if check_blocked then not32 (signals_blocked (posix_api k the_thread)) else SIGNAL_ALL_MASK in
  if is_global then
    if meets mask (Z.land (_POSIX_signals_Pending (psig k)) signals_unblocked) then
      if sa_flags (vector k signo) =? SA_SIGINFO then
        let '(info, k) := take_siginfo signo k in (true, info, k)
      else (true, None, _POSIX_signals_Clear_process_signals mask k)
    else (false, None, k)
  else
    if meets mask (Z.land (thread_signals_pending (posix_api k the_thread)) signals_unblocked)
    then (true, None, upd_posix_api the_thread (fun a => set_thread_signals_pending (Z.land (thread_signals_pending a) (not32 mask)) a) k)
    else (false, None, k).

(** ** Calling the handlers *)

Section Delivery.
(** The routines at an address: of one argument, and of a signal with its information. *)
Context (call_handler : Z -> Z -> Kernel -> Kernel) (call_sigaction : Z -> Z -> option siginfo_t -> Kernel -> Kernel).

(** [None]: an assertion does not hold. *)
Definition _POSIX_signals_Check_signal (the_thread signo : Z) (is_global : bool) (k : Kernel) : option (bool * Kernel) :=
  match _POSIX_signals_Clear_signals the_thread signo is_global true k with
  | (false, _, k) => Some (false, k)
  | (true, siginfo_struct, k) =>
      let v := vector k signo in
      if sa_handler v =? NULL then None
      else if sa_handler v =? SIG_IGN then Some (false, k)
      else
        let saved_signals_blocked := signals_blocked (posix_api k the_thread) in
        let k := upd_posix_api the_thread (fun a => set_signals_blocked (Z.lor (signals_blocked a) (sa_mask v)) a) k in
        let restore k := upd_posix_api the_thread (set_signals_blocked saved_signals_blocked) k in
        if sa_flags v =? SA_SIGINFO then
          if negb is_global then None else Some (true, restore (call_sigaction (sa_handler v) signo siginfo_struct k))
        else Some (true, restore (call_handler (sa_handler v) signo k))
  end.

(** One pass through the signals, up to the first whose handler was called. *)
Fixpoint check_signals (the_thread : Z) (signos : list Z) (k : Kernel) : option (bool * Kernel) :=
  match signos with
  | [] => Some (false, k)
  | signo :: signos =>
      match _POSIX_signals_Check_signal the_thread signo false k with
      | None => None
      | Some (true, k) => Some (true, k)
      | Some (false, k) =>
          match _POSIX_signals_Check_signal the_thread signo true k with
          | None => None
          | Some (true, k) => Some (true, k)
          | Some (false, k) => check_signals the_thread signos k
          end
      end
  end.

Definition signals_to_take (k : Kernel) (the_thread : Z) : Z :=
  Z.land (not32 (signals_blocked (posix_api k the_thread)))
         (Z.lor (thread_signals_pending (posix_api k the_thread)) (_POSIX_signals_Pending (psig k))).

Fixpoint _POSIX_signals_Post_switch_extension (fuel : nat) (the_thread : Z) (k : Kernel) : result :=
  match fuel with
  | O => Unfinished
  | S fuel =>
      if signals_to_take k the_thread =? 0 then Returned 0 k
      else
        match check_signals the_thread delivery_order k with
        | None => Assertion_failed
        | Some (true, k) => _POSIX_signals_Post_switch_extension fuel the_thread k
        | Some (false, k) => Returned 0 k
        end
  end.
End Delivery.

(** ** Waking a thread *)

Definition _States_Is_interruptible_signal (the_states : Z) : bool :=
  let both := Z.lor STATES_WAITING_FOR_SIGNAL STATES_INTERRUPTIBLE_BY_SIGNAL in Z.land the_states both =? both.

(** Whether the signal was given to a thread that waits for it. *)
Definition _POSIX_signals_Unblock_thread (run_callout : Z -> Z -> Kernel -> Kernel) (the_thread signo : Z) (info : option siginfo_t)
    (k : Kernel) : bool * Kernel :=
  let mask := signo_to_mask signo in
  let unblocked := meets (not32 (signals_blocked (posix_api k the_thread))) mask in
  let state := current_state (tcb k the_thread) in
  if _States_Is_interruptible_signal state then
    if meets (Wait_option (Wait (tcb k the_thread))) mask || unblocked then
      let k := upd_wait the_thread (set_Wait_return_code EINTR) k in
      let k := put_siginfo (Wait_return_argument (Wait (tcb k the_thread))) (default (user_siginfo signo 0) info) k in
      (true, (_Thread_queue_Extract_with_proxy run_callout the_thread k).2)
    else (false, k)
  else if unblocked then
    let k := upd_thread the_thread (set_do_post true) k in
    (false,
     if negb (Z.land state STATES_INTERRUPTIBLE_BY_SIGNAL =? 0) then
       let k := upd_wait the_thread (set_Wait_return_code EINTR) k in
       if _States_Is_waiting_on_thread_queue state then (_Thread_queue_Extract_with_proxy run_callout the_thread k).2
       else if _States_Is_delaying state then
         let k := if _Watchdog_Is_active (watchdogs k) (Timer the_thread)
                  then wd_mod (fun w => (_Watchdog_Remove (Timer the_thread) w).2) k else k in
         _Thread_Unblock the_thread k
       else k
     else k)
  else (false, k).

(** ** The thread that a signal to the process goes to *)

Definition _POSIX_signals_Is_interested (k : Kernel) (the_thread mask : Z) : bool :=
  meets (not32 (signals_blocked (posix_api k the_thread))) mask.

(** The first thread on the chains of the wait queue that waits for the signal or does not
    block it.  The other threads of its priority, on its [Block2n] chain, are not looked at. *)
Definition waiting_thread (_POSIX_signals_Wait_queue : Z) (k : Kernel) (mask : Z) : option Z :=
  snd <$> list_find (fun t => meets (Wait_option (Wait (tcb k t))) mask || _POSIX_signals_Is_interested k t mask = true)
            (flat_map (queue_chain k _POSIX_signals_Wait_queue) priority_headers).

(** The threads of the other classes than the internal one, in the order of the tables. *)
Definition candidates (k : Kernel) : list Z :=
  flat_map (fun c =>
    match information_table k !! c with
    | None => []
    | Some s => filter (fun t => t <> NULL) (take (Z.to_nat (maximum (info s))) (tl (local_table (info s))))
    end) (filter (fun c => c <> OBJECTS_INTERNAL_THREADS) thread_classes).

(** The best thread so far and its priority, after [the_thread] was looked at. *)
Definition consider (k : Kernel) (mask : Z) (best : Z * Z) (the_thread : Z) : Z * Z :=
  let '(interested_thread, interested_priority) := best in
  let priority := current_priority (tcb k the_thread) in
  let state := current_state (tcb k the_thread) in
  let interested_state := current_state (tcb k interested_thread) in
  if interested_priority <? priority then best
  else if (posix_block k the_thread =? NULL) || negb (_POSIX_signals_Is_interested k the_thread mask) then best
  else if priority <? interested_priority then (the_thread, priority)
  else if _States_Is_ready interested_state then best
  else if _States_Is_ready state then (the_thread, priority)
  else if negb (Z.land interested_state STATES_INTERRUPTIBLE_BY_SIGNAL =? 0) then best
  else if negb (Z.land state STATES_INTERRUPTIBLE_BY_SIGNAL =? 0) then (the_thread, priority)
  else best.

Definition interested_thread (k : Kernel) (mask : Z) : Z :=
  (foldl (consider k mask) (NULL, PRIORITY_MAXIMUM + 1) (candidates k)).1.

(** ** Sending *)

Section Send.
Context (run_callout : Z -> Z -> Kernel -> Kernel) (_POSIX_signals_Wait_queue : Z).

Definition thread_for_signal (k : Kernel) (mask : Z) : option Z :=
  if _POSIX_signals_Is_interested k (_Thread_Executing k) mask then Some (_Thread_Executing k)
  else
    match waiting_thread _POSIX_signals_Wait_queue k mask with
    | Some t => Some t
    | None => if interested_thread k mask =? NULL then None else Some (interested_thread k mask)
    end.

(** The signal pends; [false]: there is no node for its information. *)
Definition post_process_signal (siginfo : siginfo_t) (k : Kernel) : bool * Kernel :=
  let sig := si_signo siginfo in
  let k := _POSIX_signals_Set_process_signals (signo_to_mask sig) k in
  if sa_flags (vector k sig) =? SA_SIGINFO then
    match _POSIX_signals_Inactive_siginfo (psig k) with
    | [] => (false, k)
    | psiginfo :: rest =>
        let k := upd_psig (fun s => set_siginfo_nodes (<[psiginfo := siginfo]> (siginfo_nodes s)) (set_Inactive_siginfo rest s)) k in
        (true, upd_psig (fun s => set_signals_Siginfo
                 (<[sig := ListChain.append (_POSIX_signals_Siginfo s !!! sig) psiginfo]> (_POSIX_signals_Siginfo s)) s) k)
    end
  else (true, k).

(** What is done while dispatching is disabled. *)
Definition send_to_process (siginfo : siginfo_t) (k : Kernel) : bool * Kernel :=
  match thread_for_signal k (signo_to_mask (si_signo siginfo)) with
  | Some the_thread =>
      let k := upd_thread the_thread (set_do_post true) k in
      match _POSIX_signals_Unblock_thread run_callout the_thread (si_signo siginfo) (Some siginfo) k with
      | (true, k) => (true, k)
      | (false, k) => post_process_signal siginfo k
      end
  | None => post_process_signal siginfo k
  end.

Definition send_to_thread (the_thread sig : Z) (k : Kernel) : Kernel :=
  let k := upd_posix_api the_thread (fun a => set_thread_signals_pending (Z.lor (thread_signals_pending a) (signo_to_mask sig)) a) k in
  let k := (_POSIX_signals_Unblock_thread run_callout the_thread sig None k).2 in
  let k := upd_thread the_thread (set_do_post true) k in
  if _ISR_Is_in_progress k && _Thread_Is_executing k the_thread
  then upd_rtems (set_Signals_to_thread_executing true) k else k.

Context (switch : Z -> Z -> Kernel -> Kernel) (postswitch : Kernel -> Kernel).
Context (isrs : list (Kernel -> Kernel)) (fuel : nat) (_Objects_Local_node _Objects_Maximum_nodes : Z).

Notation finish := (enable_return switch postswitch isrs fuel).

Definition _POSIX_Threads_Get (thread : Z) (k : Kernel) : option (Objects_Locations * Z * Kernel) :=
  object_get switch postswitch isrs fuel _Objects_Local_node _Objects_Maximum_nodes OBJECTS_POSIX_THREADS thread k.

(** [errno] is set, not returned. *)
Definition pthread_kill (thread sig : Z) (k : Kernel) : result :=
  if negb (sig =? 0) && negb (is_valid_signo sig) then Failed_with EINVAL k
  else if sa_flags (vector k sig) =? SA_SIGINFO then Failed_with ENOSYS k
  else
    match _POSIX_Threads_Get thread k with
    | None => Unfinished
    | Some (OBJECTS_ERROR, _, k) | Some (OBJECTS_REMOTE, _, k) => Failed_with ESRCH k
    | Some (OBJECTS_LOCAL, the_thread, k) =>
        if sig =? 0 then returns (finish 0 k)
        else if sa_handler (vector k sig) =? SIG_IGN then returns (finish 0 k)
        else returns (finish 0 (send_to_thread the_thread sig k))
    end.

Definition pthread_self (k : Kernel) : Z := Object_id (tcb k (_Thread_Executing k)).
Definition getpid : Z := _Objects_Local_node.

(** Without a node for the information the call returns with dispatching disabled. *)
Definition killinfo (pid sig : Z) (value : option Z) (k : Kernel) : result :=
  if negb (pid =? getpid) then Failed_with ESRCH k
  else if negb (sig =? 0) && negb (is_valid_signo sig) then Failed_with EINVAL k
  else if (sig =? 0) || (sa_handler (vector k sig) =? SIG_IGN) then Returned 0 k
  else if (sig =? SIGFPE) || (sig =? SIGILL) || (sig =? SIGSEGV) then pthread_kill (pthread_self k) sig k
  else
    match send_to_process (user_siginfo sig (default 0 value)) (_Thread_Disable_dispatch k) with
    | (true, k) => returns (finish 0 k)
    | (false, k) => Failed_with EAGAIN k
    end.

Definition kill (pid sig : Z) : Kernel -> result := killinfo pid sig None.
Definition sigqueue (pid signo value : Z) : Kernel -> result := killinfo pid signo (Some value).

(** ** Actions and masks *)

Section Actions.
(** [_POSIX_signals_Abormal_termination_handler]. *)
Context (Abormal_termination_handler : Z).

Definition default_action (sig : Z) : sigaction_t :=
  {| sa_flags := 0; sa_mask := SIGNAL_ALL_MASK;
     sa_handler := if (1 <=? sig) && (sig <=? 17) then Abormal_termination_handler else SIG_IGN |}.
Definition _POSIX_signals_Default_vectors : gmap Z sigaction_t :=
  list_to_map ((fun sig => (sig, default_action sig)) <$> seqZ 0 (SIGRTMAX + 1)).

(** The old action is read from the vectors before the number of the signal is checked. *)
Definition sigaction (sig : Z) (act : option sigaction_t) (oact : Z) (k : Kernel) : result :=
  let k := if negb (oact =? NULL) then put_sigaction oact (vector k sig) k else k in
  if sig =? 0 then Returned 0 k
  else if negb (is_valid_signo sig) then Failed_with EINVAL k
  else if sig =? SIGKILL then Failed_with EINVAL k
  else
    match act with
    | None => Returned 0 k
    | Some act =>
        Returned 0
          (if sa_handler act =? SIG_DFL
           then upd_psig (fun s => set_signals_Vectors (<[sig := _POSIX_signals_Default_vectors !!! sig]> (_POSIX_signals_Vectors s)) s) k
           else
             let k := _POSIX_signals_Clear_process_signals (signo_to_mask sig) k in
             upd_psig (fun s => set_signals_Vectors (<[sig := act]> (_POSIX_signals_Vectors s)) s) k)
    end.
End Actions.

Definition new_mask (how set blocked : Z) : option Z :=
  if how =? SIG_BLOCK then Some (Z.lor blocked set)
  else if how =? SIG_UNBLOCK then Some (Z.land blocked (not32 set))
  else if how =? SIG_SETMASK then Some set
  else None.

Definition pthread_sigmask (how : Z) (set : option Z) (oset : Z) (k : Kernel) : result :=
  let executing := _Thread_Executing k in
  match set with
  | None =>
      if oset =? NULL then Failed_with EINVAL k else Returned 0 (put_word oset (signals_blocked (posix_api k executing)) k)
  | Some set =>
      let k := if negb (oset =? NULL) then put_word oset (signals_blocked (posix_api k executing)) k else k in
      match new_mask how set (signals_blocked (posix_api k executing)) with
      | None => Failed_with EINVAL k
      | Some blocked =>
          let k := upd_posix_api executing (set_signals_blocked blocked) k in
          if negb (signals_to_take k executing =? 0) then
            match _Thread_Dispatch switch postswitch fuel isrs (upd_thread executing (set_do_post true) k) with
            | None => Unfinished
            | Some k => Returned 0 k
            end
          else Returned 0 k
      end
  end.
Definition sigprocmask : Z -> option Z -> Z -> Kernel -> result := pthread_sigmask.

Definition sigpending (set : Z) (k : Kernel) : result :=
  if set =? NULL then Failed_with EINVAL k
  else Returned 0 (put_word set (Z.lor (thread_signals_pending (posix_api k (_Thread_Executing k))) (_POSIX_signals_Pending (psig k))) k).

(** ** Waiting for a signal *)

Definition _POSIX_signals_Get_highest (set : Z) : Z :=
  match list_find (fun signo => meets set (signo_to_mask signo) = true) delivery_order with
  | Some (_, signo) => signo
  | None => 0
  end.

(** [resume] is what happens until the caller is executing again; [signal_information] the
    caller's local variable of that name. *)
Section Wait.
Context (timeout_routine : Z) (wfuel : nat) (wisr resume : Kernel -> Kernel) (qisrs : list (Kernel -> Kernel)) (signal_information : Z).

(** The thread that called joins the queue. *)
Definition sigwait_enqueue (set the_info interval : Z) (k : Kernel) : option Kernel :=
  let the_thread := _Thread_Executing k in
  let k := upd_wait the_thread (set_Wait_queue _POSIX_signals_Wait_queue) k in
  let k := upd_wait the_thread (set_Wait_return_code EINTR) k in
  let k := upd_wait the_thread (set_Wait_option set) k in
  let k := upd_wait the_thread (set_Wait_return_argument the_info) k in
  let k := _Thread_queue_Enter_critical_section _POSIX_signals_Wait_queue k in
  _Thread_queue_Enqueue timeout_routine wfuel wisr fuel qisrs _POSIX_signals_Wait_queue interval k.

(** A signal that pends for the process is taken, but the caller waits all the same. *)
Definition take_process_signal (set info the_info : Z) (k : Kernel) : Kernel :=
  let pending := _POSIX_signals_Pending (psig k) in
  if meets set pending then
    let signo := _POSIX_signals_Get_highest pending in
    let '(_, siginfo, k) := _POSIX_signals_Clear_signals (_Thread_Executing k) signo true false k in
    let k := match siginfo with Some i => put_siginfo the_info i k | None => k end in
    if info =? NULL then put_siginfo the_info (user_siginfo signo 0) k else k
  else k.

(** [errno] is the return code of the wait, also when a signal is returned. *)
Definition sigtimedwait (set info : Z) (timeout : option timespec) (k : Kernel) : result :=
  let the_info := if negb (info =? NULL) then info else signal_information in
  let the_thread := _Thread_Executing k in
  let pending := thread_signals_pending (posix_api k the_thread) in
  if meets set pending then
    let signo := _POSIX_signals_Get_highest pending in
    let '(_, _, k) := _POSIX_signals_Clear_signals the_thread signo false false k in
    Returned signo (put_siginfo the_info (user_siginfo signo 0) k)
  else
    let k := take_process_signal set info the_info k in
    let interval :=
      match timeout with
      | None => Some 0
      | Some t =>
          if (tv_nsec t <? 0) || (TOD_NANOSECONDS_PER_SECOND <=? tv_nsec t) then None
          else Some (_POSIX_Timespec_to_interval (_TOD_Microseconds_per_tick (tod k)) t)
      end in
    match interval with
    | None => Failed_with EINVAL k
    | Some interval =>
        let k := put_word the_info (wrap32 (-1)) k in
        match sigwait_enqueue set the_info interval (_Thread_Disable_dispatch k) with
        | None => Unfinished
        | Some k =>
            match _Thread_Enable_dispatch switch postswitch fuel isrs k with
            | None => Unfinished
            | Some k =>
                let k := resume k in
                let signo := signed32 (ld32 (memory k) the_info) in
                if signo =? -1 then Failed_with (Wait_return_code (Wait (tcb k (_Thread_Executing k)))) k else Returned signo k
            end
        end
    end.

Definition sigwaitinfo (set info : Z) : Kernel -> result := sigtimedwait set info None.

Definition sigwait (set sig : Z) (k : Kernel) : result :=
  match sigtimedwait set NULL None k with
  | Returned status k => Returned 0 (if negb (sig =? NULL) then put_word sig status k else k)
  | Failed_with errno k => Returned errno k
  | r => r
  end.

Definition pause : Kernel -> result := sigtimedwait SIGNAL_ALL_MASK NULL None.

(** [saved_signals_blocked] is the caller's local variable of that name.  The state goes on
    whatever the first call returns. *)
Definition state_of (r : result) : option Kernel :=
  match r with Returned _ k | Failed_with _ k => Some k | Assertion_failed | Unfinished => None end.

Definition sigsuspend (saved_signals_blocked sigmask : Z) (k : Kernel) : result :=
  match state_of (sigprocmask SIG_BLOCK (Some sigmask) saved_signals_blocked k) with
  | None => Unfinished
  | Some k =>
      match sigtimedwait SIGNAL_ALL_MASK NULL None k with
      | Returned status k =>
          match state_of (sigprocmask SIG_SETMASK (Some (ld32 (memory k) saved_signals_blocked)) NULL k) with
          | None => Unfinished
          | Some k => Returned status k
          end
      | Failed_with errno k =>
          match state_of (sigprocmask SIG_SETMASK (Some (ld32 (memory k) saved_signals_blocked)) NULL k) with
          | None => Unfinished
          | Some k => Failed_with errno k
          end
      | r => r
      end
  end.
End Wait.

(** ** The alarm *)

Section Alarm.
Context (_POSIX_signals_Alarm_timer : Z) (wfuel : nat) (wisr : Kernel -> Kernel).

Definition _POSIX_signals_Alarm_TSR (k : Kernel) : result :=
  match kill getpid SIGALRM k with
  | Returned status k => if status =? 0 then Returned 0 k else Assertion_failed
  | Failed_with _ _ => Assertion_failed
  | r => r
  end.

Definition alarm (seconds : Z) (k : Kernel) : option (Z * Kernel) :=
  let '(previous_state, w) := _Watchdog_Remove _POSIX_signals_Alarm_timer (watchdogs k) in
  let k := set_watchdogs w k in
  let c := ctl w _POSIX_signals_Alarm_timer in
  let remaining :=
    match previous_state with
    | WATCHDOG_INACTIVE | WATCHDOG_BEING_INSERTED => 0
    | WATCHDOG_ACTIVE | WATCHDOG_REMOVE_IT => initial c -w (stop_time c -w start_time c)
    end in
  match _Watchdog_Insert_seconds wfuel wisr _POSIX_signals_Alarm_timer seconds k with
  | None => None
  | Some k => Some (remaining, k)
  end.
End Alarm.
End Send.

(** ** Initialization; [Alarm_TSR] is the address of the routine *)

Definition sizeof_Siginfo_node : Z := 20.

Section Initialization.
Context (workspace : Z) (hfuel : nat) (fatal_extensions : Internal_errors_Information -> Kernel -> Kernel).
Context (_POSIX_signals_Wait_queue _POSIX_signals_Alarm_timer Alarm_TSR Abormal_termination_handler : Z).

Definition _POSIX_signals_Manager_Initialization (maximum_queued_signals : Z) (k : Kernel) : outcome Kernel :=
  let k := upd_psig (set_signals_Vectors (_POSIX_signals_Default_vectors Abormal_termination_handler)) k in
  let k := upd_psig (set_signals_Pending 0) k in
  let k := wd_mod (_Watchdog_Initialize _POSIX_signals_Alarm_timer Alarm_TSR 0 NULL) k in
  let k := _Thread_queue_Initialize _POSIX_signals_Wait_queue OBJECTS_NO_CLASS THREAD_QUEUE_DISCIPLINE_PRIORITY
             (Z.lor STATES_WAITING_FOR_SIGNAL STATES_INTERRUPTIBLE_BY_SIGNAL) NULL EAGAIN k in
  let k := upd_psig (fun s => set_signals_Siginfo
             (foldl (fun m signo => <[signo := []]> m) (_POSIX_signals_Siginfo s) (seqZ 1 SIGRTMAX)) s) k in
  match _Workspace_Allocate_or_fatal_error workspace hfuel fatal_extensions (maximum_queued_signals *w sizeof_Siginfo_node) k with
  | Done (area, k) =>
      Done (upd_psig (set_Inactive_siginfo (block_array area sizeof_Siginfo_node (Z.to_nat maximum_queued_signals))) k)
  | Fatal what k => Fatal what k
  | OutOfFuel => OutOfFuel
  end.
End Initialization.
