(* ===== verification/PosixSignalSpec.v ===== *)
(** * Correctness of the signals of the POSIX API (posix/src/psignal.c)

    The sets of signals, the choice of the thread that a signal to the process goes to, what
    becomes of a signal that is sent, and the delivery of the signals that pend. *)
From S2P Require Import Prelude Chain Watchdog WatchdogProofs WatchdogOps Object Priority ApiTypes Kernel Thread.
From S2P Require Import ThreadProofs ThreadSpec Threadq ThreadqProofs ThreadqSpec CoreWait CoreMsg CoreMsgSpec.
From S2P Require Import Workspace Rtems Partition Signal Init ThreadLife Posix PosixKey PosixTime PosixMutex PosixCond PosixCondSpec PosixSignal.

(** ** Sets of signals *)

Section Sets.
Context (n : Z) (Hn : is_valid_signo n = true).

Lemma valid_range : 1 <= n <= 32.
Proof using Hn. clear -Hn. unfold is_valid_signo in Hn. bool_simp. lia. Qed.

Lemma signo_mask_pow : signo_to_mask n = 2 ^ (n - 1).
Proof using Hn.
  pose proof valid_range. unfold signo_to_mask. rewrite Z.shiftl_1_l. apply wrap32_small.
  unfold u32. change two32 with (2 ^ 32). split; [apply Z.pow_nonneg; lia|]. apply Z.pow_lt_mono_r; lia.
Qed.

Lemma signo_mask_bit i : 0 <= i -> Z.testbit (signo_to_mask n) i = (i =? n - 1).
Proof using Hn. pose proof valid_range. intros Hi. rewrite signo_mask_pow, Z.pow2_bits_eqb by lia. apply Z.eqb_sym. Qed.

Lemma mask_u32 : u32 (signo_to_mask n).
Proof using. apply wrap32_range. Qed.

Lemma meets_bit s : meets s (signo_to_mask n) = Z.testbit s (n - 1).
Proof using Hn.
  pose proof valid_range. unfold meets. rewrite signo_mask_pow. destruct (Z.testbit s (n - 1)) eqn:E.
  - apply negb_true_iff, Z.eqb_neq. intros H0. assert (Z.testbit (Z.land s (2 ^ (n - 1))) (n - 1) = true) as E1.
    { by rewrite Z.land_spec, E, Z.pow2_bits_true by lia. }
    by rewrite H0, Z.bits_0 in E1.
  - apply negb_false_iff, Z.eqb_eq, Z.bits_inj'. intros i Hi. rewrite Z.land_spec, Z.bits_0, Z.pow2_bits_eqb by lia.
    destruct (Z.eqb_spec (n - 1) i) as [<- |]; [by rewrite E|apply andb_false_r].
Qed.

Lemma meets_bit_l s : meets (signo_to_mask n) s = Z.testbit s (n - 1).
Proof using Hn. rewrite <- meets_bit. unfold meets. by rewrite Z.land_comm. Qed.

Lemma cleared_bit s i : 0 <= i < 32 -> Z.testbit (Z.land s (not32 (signo_to_mask n))) i = Z.testbit s i && negb (i =? n - 1).
Proof using Hn.
  intros Hi. rewrite Z.land_spec, not32_testbit by (apply mask_u32 || lia). rewrite signo_mask_bit by lia.
  by rewrite (proj2 (Z.ltb_lt i 32)) by lia.
Qed.
End Sets.

(** Adding and removing a signal changes its membership and that of no other. *)
Theorem sigset_correct s n m : is_valid_signo n = true -> is_valid_signo m = true ->
  sigismember (sigaddset (Some s) n).2 m = (if m =? n then 1 else sigismember (Some s) m) /\
  sigismember (sigdelset (Some s) n).2 m = (if m =? n then 0 else sigismember (Some s) m) /\
  sigismember (sigemptyset (Some s)).2 m = 0 /\ sigismember (sigfillset (Some s)).2 m = 1.
Proof.
  intros Hn Hm. pose proof (valid_range n Hn). pose proof (valid_range m Hm). unfold sigaddset, sigdelset, sigismember, sigemptyset, sigfillset.
  rewrite (proj2 (Z.eqb_neq n 0)), (proj2 (Z.eqb_neq m 0)), Hn, Hm by lia. cbn [negb snd]. rewrite !meets_bit by done.
  rewrite Z.lor_spec, signo_mask_bit, cleared_bit by (done || lia).
  assert ((m - 1 =? n - 1) = (m =? n)) as -> by (destruct (Z.eqb_spec m n), (Z.eqb_spec (m - 1) (n - 1)); done || lia).
  split_and!; [by destruct (m =? n); rewrite ?orb_true_r, ?orb_false_r|by destruct (m =? n); rewrite ?andb_false_r, ?andb_true_r|by rewrite Z.bits_0|].
  unfold SIGNAL_ALL_MASK. by rewrite (Z.ones_spec_low 32) by lia.
Qed.

(** ** The order of delivery *)

Lemma in_order n : n ∈ delivery_order <-> is_valid_signo n = true.
Proof.
  unfold delivery_order, is_valid_signo, SIGRTMIN, SIGRTMAX, SIGHUP, __SIGLASTNOTRT. rewrite elem_of_app, !elem_of_seqZ, andb_true_iff, !Z.leb_le. lia.
Qed.

Lemma order_nodup : NoDup delivery_order.
Proof. by_decide. Qed.

(** A set that is not empty has a signal that is defined. *)
Lemma u32_member s : u32 s -> s <> 0 -> exists n, is_valid_signo n = true /\ Z.testbit s (n - 1) = true.
Proof.
  intros [H0 H1] Hs. exists (Z.log2 s + 1). pose proof (Z.log2_nonneg s). replace (Z.log2 s + 1 - 1) with (Z.log2 s) by lia.
  split; [|apply Z.bit_log2; lia]. assert (Z.log2 s < 32) by (apply Z.log2_lt_pow2; change (2 ^ 32) with two32; lia).
  unfold is_valid_signo. apply andb_true_iff. rewrite !Z.leb_le. lia.
Qed.

(** The highest signal of a set is the first of its members in the order of delivery, and 0
    stands for the empty set only. *)
Theorem get_highest_correct s : u32 s ->
  (s = 0 /\ _POSIX_signals_Get_highest s = 0) \/
  (exists l1 n l2, delivery_order = l1 ++ n :: l2 /\ _POSIX_signals_Get_highest s = n /\ Z.testbit s (n - 1) = true /\
     forall m, m ∈ l1 -> Z.testbit s (m - 1) = false).
Proof.
  intros Hs. unfold _POSIX_signals_Get_highest. destruct (list_find _ _) as [[i n]|] eqn:E.
  - right. apply list_find_Some in E as (Hi & Hn & Hl). exists (take i delivery_order), n, (drop (S i) delivery_order).
    pose proof (proj1 (in_order n) (list_elem_of_lookup_2 _ _ _ Hi)) as Hv. rewrite meets_bit in Hn by done.
    split_and!; [by rewrite take_drop_middle|done..|]. intros m (j & Hj)%list_elem_of_lookup_1. apply lookup_take_Some in Hj as [Hj Hlt].
    specialize (Hl j m Hj Hlt). pose proof (proj1 (in_order m) (list_elem_of_lookup_2 _ _ _ Hj)) as Hm.
    rewrite meets_bit in Hl by done. by destruct (Z.testbit s (m - 1)).
  - left. split; [|done]. apply list_find_None in E. destruct (decide (s = 0)) as [|Hne]; [done|].
    destruct (u32_member s Hs Hne) as (n & Hv & Hb). rewrite Forall_forall in E. destruct (E n); [by apply in_order|by rewrite meets_bit].
Qed.

(** ** The choice among the threads *)

(** Threads of higher priority first; among equals a ready thread, then one that a signal
    can interrupt. *)
Definition rank (k : Kernel) (t : Z) : Z :=
  3 * current_priority (tcb k t) +
  (if current_state (tcb k t) =? STATES_READY then 0
   else if negb (Z.land (current_state (tcb k t)) STATES_INTERRUPTIBLE_BY_SIGNAL =? 0) then 1 else 2).
Definition takes (k : Kernel) (mask t : Z) : Prop := posix_block k t <> NULL /\ _POSIX_signals_Is_interested k t mask = true.
#[export] Instance takes_dec k mask t : Decision (takes k mask t).
Proof. unfold takes. apply _. Defined.

(** [t] is the first of the least rank. *)
Definition first_least (f : Z -> Z) (l : list Z) (t : Z) : Prop :=
  exists l1 l2, l = l1 ++ t :: l2 /\ (forall u, u ∈ l1 -> f t < f u) /\ (forall u, u ∈ l2 -> f t <= f u).

Lemma first_least_keep f l t u : first_least f l t -> f t <= f u -> first_least f (l ++ [u]) t.
Proof.
  intros (l1 & l2 & -> & H1 & H2) Hu. exists l1, (l2 ++ [u]). split; [by rewrite <- app_assoc|]. split; [done|].
  intros v. rewrite elem_of_app, list_elem_of_singleton. intros [Hv| ->]; auto.
Qed.
Lemma first_least_new f l t u : first_least f l t -> f u < f t -> first_least f (l ++ [u]) u.
Proof.
  intros (l1 & l2 & -> & H1 & H2) Hu. exists (l1 ++ t :: l2), []. split_and!; [done| |set_solver].
  intros v. rewrite elem_of_app, elem_of_cons. intros [Hv|[-> |Hv]]; [specialize (H1 v Hv)| |specialize (H2 v Hv)]; lia.
Qed.

(** What [consider] does when the thread takes the signal, in terms of ranks. *)
Lemma consider_takes k mask t p u : p = current_priority (tcb k t) -> takes k mask u ->
  consider k mask (t, p) u = if rank k u <? rank k t then (u, current_priority (tcb k u)) else (t, p).
Proof.
  intros -> [Hb Hi]. unfold consider, rank, _States_Is_ready. rewrite (proj2 (Z.eqb_neq _ _) Hb), Hi. cbn [orb negb].
  destruct (Z.ltb_spec (current_priority (tcb k t)) (current_priority (tcb k u))) as [H1|H1];
    [|destruct (Z.ltb_spec (current_priority (tcb k u)) (current_priority (tcb k t))) as [H2|H2]];
    destruct (current_state (tcb k t) =? STATES_READY), (current_state (tcb k u) =? STATES_READY),
      (Z.land (current_state (tcb k t)) STATES_INTERRUPTIBLE_BY_SIGNAL =? 0), (Z.land (current_state (tcb k u)) STATES_INTERRUPTIBLE_BY_SIGNAL =? 0); cbn [negb];
    match goal with |- context [?a <? ?b] => destruct (Z.ltb_spec a b) end; done || lia.
Qed.

Lemma consider_ignores k mask best u : ~ takes k mask u -> consider k mask best u = best.
Proof.
  intros Hn. destruct best as [t p]. unfold consider. destruct (p <? _); [done|].
  destruct (_ || _) eqn:E; [done|]. exfalso. apply Hn. bool_simp. done.
Qed.

Lemma consider_spec k mask l : (forall t, t ∈ l -> current_priority (tcb k t) <= PRIORITY_MAXIMUM) ->
  let best := foldl (consider k mask) (NULL, PRIORITY_MAXIMUM + 1) l in let ts := filter (takes k mask) l in
  (ts = [] /\ best = (NULL, PRIORITY_MAXIMUM + 1)) \/
  (first_least (rank k) ts best.1 /\ best.2 = current_priority (tcb k best.1)).
Proof.
  induction l as [|u l IH] using rev_ind; [by left|]. intros Hp. cbn zeta. rewrite foldl_app, filter_app. cbn [foldl].
  specialize (IH (fun t Ht => Hp t (proj2 (elem_of_app _ _ _) (or_introl Ht)))). cbn zeta in IH.
  assert (current_priority (tcb k u) <= PRIORITY_MAXIMUM) as Hu by (apply Hp; set_solver).
  destruct (foldl _ _ l) as [t p]. cbn [fst snd] in IH. rewrite filter_cons, filter_nil. case_decide as HT.
  2: { by rewrite consider_ignores, app_nil_r. }
  destruct IH as [[-> [= -> ->]]|[HF Hpt]].
  - right. assert (consider k mask (NULL, PRIORITY_MAXIMUM + 1) u = (u, current_priority (tcb k u))) as ->; [|split; [|done]].
    + unfold consider. destruct HT as [Hb Hi]. rewrite (proj2 (Z.eqb_neq _ _) Hb), Hi. cbn [orb negb].
      rewrite (proj2 (Z.ltb_ge _ _)), (proj2 (Z.ltb_lt _ _)) by lia. done.
    + exists [], []. split_and!; [done|set_solver..].
  - right. rewrite consider_takes by done. destruct (Z.ltb_spec (rank k u) (rank k t)).
    + split; [by eapply first_least_new|done].
    + split; [by apply first_least_keep|done].
Qed.

(** The search through the tables finds the first thread of the least rank among those that
    have the API and do not block the signal, and nothing only if there is none. *)
Lemma interested_thread_spec k mask : (forall t, t ∈ candidates k -> current_priority (tcb k t) <= PRIORITY_MAXIMUM) ->
  let ts := filter (takes k mask) (candidates k) in
  (ts = [] /\ interested_thread k mask = NULL) \/ first_least (rank k) ts (interested_thread k mask).
Proof.
  intros Hp. unfold interested_thread. cbn zeta. destruct (consider_spec k mask (candidates k) Hp) as [[H1 ->]|[H1 _]]; [by left|by right].
Qed.

(** ** The recipient of a signal to the process

    What the code promises, without the search that finds it. *)

(** The thread does not block the signal; it waits for it or does not block it. *)
Definition not_blocked (k : Kernel) (sig t : Z) : Prop := Z.testbit (signals_blocked (posix_api k t)) (sig - 1) = false.
Definition awaits (k : Kernel) (sig t : Z) : Prop := Z.testbit (Wait_option (Wait (tcb k t))) (sig - 1) = true \/ not_blocked k sig t.
(** The first waiting threads of the priorities, on the four chains of the wait queue. *)
Definition first_waiters (k : Kernel) (q : Z) : list Z :=
  Queues (tq k q) !!! 0 ++ Queues (tq k q) !!! 1 ++ Queues (tq k q) !!! 2 ++ Queues (tq k q) !!! 3.
(** The threads of a class: the entries 1 to [maximum] of its table that are not null. *)
Definition threads_of (k : Kernel) (c : Z) : list Z :=
  match information_table k !! c with
  | Some s => filter (fun t => t <> NULL) (map (fun j => nth j (local_table (info s)) NULL) (seq 1 (Z.to_nat (maximum (info s)))))
  | None => []
  end.
(** The threads of the classic and of the POSIX API. *)
Definition user_threads (k : Kernel) : list Z := threads_of k 2 ++ threads_of k 3.
#[export] Instance not_blocked_dec k sig t : Decision (not_blocked k sig t).
Proof. unfold not_blocked. apply _. Defined.
Definition deliverable (k : Kernel) (sig : Z) : list Z := filter (fun t => posix_block k t <> NULL /\ not_blocked k sig t) (user_threads k).

Inductive recipient (k : Kernel) (q sig : Z) : option Z -> Prop :=
  | to_executing : not_blocked k sig (_Thread_Executing k) -> recipient k q sig (Some (_Thread_Executing k))
  | to_waiter l1 t l2 : ~ not_blocked k sig (_Thread_Executing k) -> first_waiters k q = l1 ++ t :: l2 ->
      awaits k sig t -> (forall u, u ∈ l1 -> ~ awaits k sig u) -> recipient k q sig (Some t)
  | to_thread t : ~ not_blocked k sig (_Thread_Executing k) -> (forall u, u ∈ first_waiters k q -> ~ awaits k sig u) ->
      first_least (rank k) (deliverable k sig) t -> recipient k q sig (Some t)
  | to_nobody : ~ not_blocked k sig (_Thread_Executing k) -> (forall u, u ∈ first_waiters k q -> ~ awaits k sig u) ->
      deliverable k sig = [] -> recipient k q sig None.

Lemma entries_of_table (l : list Z) n :
  filter (fun t => t <> NULL) (map (fun j => nth j l NULL) (seq 1 n)) = filter (fun t => t <> NULL) (take n (tl l)).
Proof.
  assert (forall (l : list Z) n a, filter (fun t => t <> NULL) (map (fun j => nth (j - a) l NULL) (seq a n)) = filter (fun t => t <> NULL) (take n l)) as H.
  { clear. induction l as [|x l IH]; intros n a.
    - rewrite take_nil, filter_nil. generalize (seq a n). intros js. induction js as [|j js IHj]; [done|]. cbn [map].
      rewrite filter_cons_False by (destruct (j - a)%nat; simpl; tauto). exact IHj.
    - destruct n as [|n]; [done|]. cbn [seq map take]. rewrite Nat.sub_diag. cbn [nth].
      specialize (IH n (S a)). rewrite !filter_cons. assert (map (fun j => nth (j - a) (x :: l) NULL) (seq (S a) n) = map (fun j => nth (j - S a) l NULL) (seq (S a) n)) as E.
      { apply map_ext_in. intros j [Hj _]%in_seq. by replace (j - a)%nat with (S (j - S a)) by lia. }
      cbn [nth] in E. by rewrite E, IH. }
  destruct l as [|x l].
  - cbn [tl]. rewrite <- (H [] n 1%nat). f_equal. apply map_ext. intros j. by destruct j, (_ - _)%nat.
  - cbn [tl]. rewrite <- (H l n 1%nat). f_equal. apply map_ext_in. intros j [Hj _]%in_seq. by replace j with (S (j - 1)) at 1 by lia.
Qed.

Lemma user_candidates k : user_threads k = candidates k.
Proof.
  unfold user_threads, candidates. change (filter _ thread_classes) with [2; 3]. cbn [flat_map]. rewrite app_nil_r. unfold threads_of.
  f_equal; destruct (information_table k !! _); [|done| |done]; apply entries_of_table.
Qed.

Lemma first_waiters_chains k q : first_waiters k q = flat_map (queue_chain k q) priority_headers.
Proof. change priority_headers with [0; 1; 2; 3]. cbn [flat_map]. by rewrite app_nil_r. Qed.

Section Recipient.
Context (k : Kernel) (sig : Z) (Hv : is_valid_signo sig = true) (Hu : forall t, u32 (signals_blocked (posix_api k t))).
Notation mask := (signo_to_mask sig).

Lemma interested_not_blocked t : _POSIX_signals_Is_interested k t mask = true <-> not_blocked k sig t.
Proof using Hv Hu.
  pose proof (valid_range sig Hv). unfold _POSIX_signals_Is_interested, not_blocked.
  rewrite meets_bit, not32_testbit by (done || lia || apply Hu). rewrite (proj2 (Z.ltb_lt (sig - 1) 32)) by lia. by destruct (Z.testbit _ _).
Qed.

Lemma meets_awaits t : meets (Wait_option (Wait (tcb k t))) mask || _POSIX_signals_Is_interested k t mask = true <-> awaits k sig t.
Proof using Hv Hu. rewrite orb_true_iff, interested_not_blocked, meets_bit by done. done. Qed.

Lemma takes_deliverable : filter (takes k mask) (candidates k) = deliverable k sig.
Proof using Hv Hu. unfold deliverable. rewrite user_candidates. apply list_filter_iff. intros t. unfold takes. by rewrite interested_not_blocked. Qed.

(** The search finds the recipient. *)
Lemma thread_for_signal_spec q : (forall t, t ∈ user_threads k -> current_priority (tcb k t) <= PRIORITY_MAXIMUM) ->
  recipient k q sig (thread_for_signal q k mask).
Proof using Hv Hu.
  intros Hp. unfold thread_for_signal. destruct (_POSIX_signals_Is_interested k (_Thread_Executing k) mask) eqn:E1.
  { by apply to_executing, interested_not_blocked. }
  assert (~ not_blocked k sig (_Thread_Executing k)) as HE by (by rewrite <- interested_not_blocked, E1).
  unfold waiting_thread. rewrite <- first_waiters_chains. destruct (list_find _ _) as [[j t]|] eqn:E2; cbn [fmap option_fmap option_map snd].
  - apply list_find_Some in E2 as (Hj & Ht & Hl). apply (to_waiter _ _ _ (take j (first_waiters k q)) t (drop (S j) (first_waiters k q)));
      [done|by rewrite take_drop_middle|by apply meets_awaits|].
    intros u (i & Hi)%list_elem_of_lookup_1. apply lookup_take_Some in Hi as [Hi Hlt]. rewrite <- meets_awaits. by apply (Hl i u).
  - apply list_find_None in E2. rewrite Forall_forall in E2.
    assert (forall u, u ∈ first_waiters k q -> ~ awaits k sig u) as HW by (intros u Hu'; rewrite <- meets_awaits; by apply E2).
    pose proof (interested_thread_spec k mask) as HI. rewrite <- user_candidates in HI. specialize (HI Hp). cbn zeta in HI.
    rewrite user_candidates, takes_deliverable in HI. destruct HI as [[HD ->]|HF]; [by apply to_nobody|].
    destruct (Z.eqb_spec (interested_thread k mask) NULL) as [H0|]; [|by apply to_thread]. exfalso. rewrite H0 in HF.
    destruct HF as (l1 & l2 & HD & _). assert (NULL ∈ deliverable k sig) as HN by (rewrite HD; set_solver).
    unfold deliverable, user_threads, threads_of in HN. apply list_elem_of_filter in HN as [_ HN]. apply elem_of_app in HN as [HN|HN];
      (destruct (information_table k !! _); [|by apply not_elem_of_nil in HN]); by apply list_elem_of_filter in HN as [? _].
Qed.

Lemma recipient_awaits q t : recipient k q sig (Some t) -> awaits k sig t.
Proof using Hv Hu.
  inversion 1; subst; [by right|done|]. right. match goal with H : first_least _ _ _ |- _ => destruct H as (l1 & l2 & HD & _) end.
  assert (t ∈ deliverable k sig) as HN by (rewrite HD; set_solver). apply list_elem_of_filter in HN as [[_ HN] _]. exact HN.
Qed.
End Recipient.

(** ** Sending *)

Lemma psig_upd f k : psig (upd_psig f k) = f (psig k).
Proof. done. Qed.

Lemma posix_api_upd t f k u : posix_api (upd_posix_api t f k) u = if decide (posix_block k u = posix_block k t) then f (posix_api k t) else posix_api k u.
Proof.
  unfold posix_api at 1, upd_posix_api, upd_rtems, posix_block. simpl. fold (posix_block k u) (posix_block k t). case_decide as E.
  - rewrite E. by rewrite lookup_total_insert_eq.
  - by rewrite lookup_total_insert_ne.
Qed.
Lemma posix_api_upd_self t f k : posix_api (upd_posix_api t f k) t = f (posix_api k t).
Proof. by rewrite posix_api_upd, decide_True. Qed.

Lemma beside_extract q t k : beside q k (_Thread_queue_Extract q t k).
Proof.
  unfold _Thread_queue_Extract, _Thread_queue_Extract_fifo, _Thread_queue_Extract_priority. destruct (discipline _).
  - destruct (negb _); [done|]. etransitivity; [apply beside_queue|apply (beside_release q t)].
  - destruct (_States_Is_waiting_on_thread_queue _); [|done].
    etransitivity; [|apply (beside_release q t)]. destruct (place_in k q t) as [i|u|]; [|done|done].
    unfold unlink_first. destruct (block2n k t) as [|v rest]; [apply beside_queue|].
    etransitivity; [apply beside_queue|]. by destruct rest.
Qed.

Section Send.
Context (run_callout : Z -> Z -> Kernel -> Kernel) (Wq : Z).
Context (Hcall : forall r t k, rtems (run_callout r t k) = rtems k).
Context (Hpost : forall r t k, _Thread_Do_post_task_switch_extension (run_callout r t k) = _Thread_Do_post_task_switch_extension k).

Lemma extract_with_proxy_rtems t k : rtems (_Thread_queue_Extract_with_proxy run_callout t k).2 = rtems k.
Proof using Hcall.
  unfold _Thread_queue_Extract_with_proxy. destruct (_States_Is_waiting_on_thread_queue _); [|done]. cbn [snd].
  rewrite (be_rtems _ _ _ (beside_extract _ t _)). destruct (_ && _); [|done]. destruct (negb _); [apply Hcall|done].
Qed.

Lemma extract_with_proxy_count t k :
  _Thread_Do_post_task_switch_extension (_Thread_queue_Extract_with_proxy run_callout t k).2 = _Thread_Do_post_task_switch_extension k.
Proof using Hpost.
  unfold _Thread_queue_Extract_with_proxy. destruct (_States_Is_waiting_on_thread_queue _); [|done]. cbn [snd].
  rewrite (be_post _ _ _ (beside_extract _ t _)). destruct (_ && _); [|done]. destruct (negb _); [apply Hpost|done].
Qed.

Lemma unblock_thread_count t sig info k :
  _Thread_Do_post_task_switch_extension (_POSIX_signals_Unblock_thread run_callout t sig info k).2 = _Thread_Do_post_task_switch_extension k.
Proof using Hpost.
  unfold _POSIX_signals_Unblock_thread. destruct (_States_Is_interruptible_signal _).
  - destruct (_ || _); [|done]. cbn [snd]. by rewrite extract_with_proxy_count.
  - destruct (meets _ _); [|done]. cbn [snd]. destruct (negb _); [|done]. destruct (_States_Is_waiting_on_thread_queue _).
    + by rewrite extract_with_proxy_count.
    + destruct (_States_Is_delaying _); [|done]. set (k1 := if _Watchdog_Is_active _ _ then _ else _).
      assert (_Thread_Do_post_task_switch_extension k1 = _Thread_Do_post_task_switch_extension k) as <-
        by (unfold k1; by destruct (_Watchdog_Is_active _ _)).
      unfold _Thread_Unblock, _Thread_Clear_state.
      destruct (negb _); [destruct (_States_Is_ready _); [destruct (_ <? _); [destruct (_ || _)|]|]|]; done.
Qed.

Lemma unblock_thread_rtems t sig info k : rtems (_POSIX_signals_Unblock_thread run_callout t sig info k).2 = rtems k.
Proof using Hcall.
  unfold _POSIX_signals_Unblock_thread. destruct (_States_Is_interruptible_signal _).
  - destruct (_ || _); [|done]. cbn [snd]. by rewrite extract_with_proxy_rtems.
  - destruct (meets _ _); [|done]. cbn [snd]. destruct (negb _); [|done]. destruct (_States_Is_waiting_on_thread_queue _).
    + by rewrite extract_with_proxy_rtems.
    + destruct (_States_Is_delaying _); [|done]. set (k1 := if _Watchdog_Is_active _ _ then _ else _).
      assert (rtems k1 = rtems k) as <- by (unfold k1; by destruct (_Watchdog_Is_active _ _)).
      unfold _Thread_Unblock, _Thread_Clear_state.
      destruct (negb _); [destruct (_States_Is_ready _); [destruct (_ <? _); [destruct (_ || _)|]|]|]; done.
Qed.

(** The signal pends, with its information at the end of the queue, if it has any and there
    is a node for it; the first signal that pends is counted in
    [_Thread_Do_post_task_switch_extension]. *)
Record pends (i : siginfo_t) (k : Kernel) (ok : bool) (k' : Kernel) : Prop := {
  pe_pending : _POSIX_signals_Pending (psig k') = Z.lor (_POSIX_signals_Pending (psig k)) (2 ^ (si_signo i - 1));
  pe_count : _Thread_Do_post_task_switch_extension k' =
    (if _POSIX_signals_Pending (psig k) =? 0 then _Thread_Do_post_task_switch_extension k +w 1
     else _Thread_Do_post_task_switch_extension k);
  pe_vectors : _POSIX_signals_Vectors (psig k') = _POSIX_signals_Vectors (psig k);
  pe_threads : API_Extensions_POSIX (rtems k') = API_Extensions_POSIX (rtems k) /\ posix_apis (rtems k') = posix_apis (rtems k);
  pe_queues : forall sig, sig <> si_signo i -> queued k' sig = queued k sig;
  pe_queue :
    if sa_flags (vector k (si_signo i)) =? SA_SIGINFO then
      match _POSIX_signals_Inactive_siginfo (psig k) with
      | [] => ok = false /\ queued k' (si_signo i) = queued k (si_signo i) /\ _POSIX_signals_Inactive_siginfo (psig k') = [] /\
              siginfo_nodes (psig k') = siginfo_nodes (psig k)
      | n :: rest => ok = true /\ queued k' (si_signo i) = queued k (si_signo i) ++ [n] /\
              _POSIX_signals_Inactive_siginfo (psig k') = rest /\ siginfo_nodes (psig k') = <[n := i]> (siginfo_nodes (psig k))
      end
    else ok = true /\ queued k' (si_signo i) = queued k (si_signo i) /\
         _POSIX_signals_Inactive_siginfo (psig k') = _POSIX_signals_Inactive_siginfo (psig k) /\
         siginfo_nodes (psig k') = siginfo_nodes (psig k)
}.

Lemma post_process_pends i k : is_valid_signo (si_signo i) = true ->
  pends i k (post_process_signal i k).1 (post_process_signal i k).2.
Proof using.
  intros Hv. unfold post_process_signal. set (k1 := _POSIX_signals_Set_process_signals _ k).
  assert (rtems k1 = rtems (upd_psig (fun s => set_signals_Pending (Z.lor (_POSIX_signals_Pending s) (signo_to_mask (si_signo i))) s) k)) as ER
    by (unfold k1, _POSIX_signals_Set_process_signals; by destruct (_ =? 0)).
  assert (vector k1 (si_signo i) = vector k (si_signo i)) as -> by (unfold vector, psig; by rewrite ER).
  assert (_POSIX_signals_Inactive_siginfo (psig k1) = _POSIX_signals_Inactive_siginfo (psig k)) as EI by (unfold psig; by rewrite ER).
  assert (_Thread_Do_post_task_switch_extension k1 = (if _POSIX_signals_Pending (psig k) =? 0
    then _Thread_Do_post_task_switch_extension k +w 1 else _Thread_Do_post_task_switch_extension k)) as EC
    by (unfold k1, _POSIX_signals_Set_process_signals; by destruct (_ =? 0)).
  rewrite EI. rewrite (signo_mask_pow _ Hv) in ER. clearbody k1. destruct (sa_flags (vector k (si_signo i)) =? SA_SIGINFO) eqn:HF;
    [destruct (_POSIX_signals_Inactive_siginfo (psig k)) as [|n rest] eqn:HI|];
    split; unfold queued, psig, upd_psig, upd_rtems; cbn [fst snd]; rewrite ?HF; simpl; rewrite ?ER; unfold psig in *; simpl; rewrite ?HI; try done.
  - intros sig Hs. by rewrite lookup_total_insert_ne.
  - by rewrite lookup_total_insert_eq.
Qed.

(** The signal was given to a thread that waits for it. *)
Record handed (i : siginfo_t) (t : Z) (k k' : Kernel) : Prop := {
  ha_waits : t ∈ tq_list k Wq;
  ha_rtems : rtems k' = rtems k;
  ha_count : _Thread_Do_post_task_switch_extension k' = _Thread_Do_post_task_switch_extension k;
  ha_memory : memory k' = memory (put_siginfo (Wait_return_argument (Wait (tcb k t))) i k);
  ha_list : tq_list k' Wq = ListChain.extract (tq_list k Wq) t;
  ha_ok : sched_ok k' /\ tq_ok k' Wq;
  ha_thread : Wait_return_code (Wait (tcb k' t)) = EINTR /\
    current_state (tcb k' t) = _States_Clear STATES_BLOCKED (current_state (tcb k t));
  ha_others : forall u, u <> t -> but_block2n (tcb k' u) = but_block2n (tcb k u)
}.

(** Every thread that waits for signals is on the queue, for no other node. *)
Definition waiters_known (k : Kernel) : Prop := forall t, _States_Is_interruptible_signal (current_state (tcb k t)) = true ->
  t ∈ tq_list k Wq /\ Wait_queue (Wait (tcb k t)) = Wq /\ _States_Is_waiting_for_rpc_reply (current_state (tcb k t)) = false.

Lemma interruptible_waits s : _States_Is_interruptible_signal s = true -> _States_Is_waiting_on_thread_queue s = true.
Proof using.
  unfold _States_Is_interruptible_signal, _States_Is_waiting_on_thread_queue. intros H%Z.eqb_eq. apply negb_true_iff, Z.eqb_neq.
  apply (states_subset _ STATES_WAITING_FOR_SIGNAL); [done|]. intros H0.
  assert (Z.land (Z.land s (Z.lor STATES_WAITING_FOR_SIGNAL STATES_INTERRUPTIBLE_BY_SIGNAL)) STATES_WAITING_FOR_SIGNAL = 0) as H1.
  { rewrite <- Z.land_assoc. exact H0. }
  by rewrite H in H1.
Qed.

(** The control block of a thread that gets a signal, before it is taken off the queue. *)
Definition signalled (c : Thread_Control) : Thread_Control :=
  set_Wait (set_Wait_return_code EINTR (Wait c)) (set_do_post true c).

Lemma put_siginfo_threads a i k : same_threads k (put_siginfo a i k).
Proof using. by split. Qed.

Lemma unblock_hands i t k : sched_ok k -> tq_ok k Wq -> waiters_known k -> _States_Is_interruptible_signal (current_state (tcb k t)) = true ->
  meets (Wait_option (Wait (tcb k t))) (signo_to_mask (si_signo i)) || _POSIX_signals_Is_interested k t (signo_to_mask (si_signo i)) = true ->
  exists k', _POSIX_signals_Unblock_thread run_callout t (si_signo i) (Some i) (upd_thread t (set_do_post true) k) = (true, k') /\ handed i t k k'.
Proof using.
  intros HS HQ HW Hs Hfor. destruct (HW t Hs) as (Hin & Hwq & Hrpc). pose proof (to_known _ _ HQ t Hin) as Hk.
  set (k1 := upd_thread t (set_do_post true) k). assert (known k1 t) as Hk1 by (by apply known_upd).
  assert (tcb k1 t = set_do_post true (tcb k t)) as E1 by (unfold k1; by rewrite tcb_upd, decide_True).
  set (k2 := upd_wait t (set_Wait_return_code EINTR) k1). assert (tcb k2 t = signalled (tcb k t)) as E2.
  { unfold k2. rewrite code_tcb, decide_True by done. by rewrite E1. }
  set (k3 := put_siginfo (Wait_return_argument (Wait (tcb k2 t))) i k2).
  assert (sched_ok k3) as HS3. { apply (same_threads_sched k2); [done|]. apply code_sched; [done|]. by apply inert_ok. }
  assert (tq_ok k3 Wq) as HQ3. { apply (same_threads_tq_ok k2); [done|]. apply code_tq_ok; [done..|]. by apply field_tq_ok. }
  assert (tq_list k3 Wq = tq_list k Wq) as HL3.
  { rewrite (same_threads_list k2 k3) by done. unfold k2. rewrite code_list by done. unfold k1. by rewrite field_list. }
  assert (forall u, tcb k3 u = if decide (u = t) then signalled (tcb k t) else tcb k u) as HT3.
  { intros u. rewrite (same_threads_tcb k2 k3) by done. unfold k2. rewrite code_tcb. case_decide; [by rewrite E1|]. unfold k1. by rewrite tcb_upd_ne. }
  assert (rtems k3 = rtems k) as HR3 by done.
  assert (_Thread_Do_post_task_switch_extension k3 = _Thread_Do_post_task_switch_extension k) as HP3 by done. assert (memory k3 = memory (put_siginfo (Wait_return_argument (Wait (tcb k t))) i k)) as HM3.
  { unfold k3. by rewrite E2. }
  destruct (extract_spec Wq t k3 HQ3) as (k4 & HT & HE); [by rewrite HL3|]. rewrite <- HL3 in Hin.
  exists (release t k4). split.
  - unfold _POSIX_signals_Unblock_thread. fold k1. change (posix_api k1 t) with (posix_api k t).
    assert (current_state (tcb k1 t) = current_state (tcb k t)) as -> by by rewrite E1. rewrite Hs.
    assert (Wait (tcb k1 t) = Wait (tcb k t)) as -> by by rewrite E1. unfold _POSIX_signals_Is_interested in Hfor. rewrite Hfor.
    change (default (user_siginfo (si_signo i) 0) (Some i)) with i. fold k2. fold k3. unfold _Thread_queue_Extract_with_proxy. rewrite !HT3, decide_True by done.
    change (current_state (signalled (tcb k t))) with (current_state (tcb k t)). rewrite (interruptible_waits _ Hs), Hrpc. cbn [andb snd].
    rewrite HT3, decide_True by done. change (Wait_queue (Wait (signalled (tcb k t)))) with (Wait_queue (Wait (tcb k t))). by rewrite Hwq, HE.
  - assert (_Thread_Do_post_task_switch_extension (release t k4) = _Thread_Do_post_task_switch_extension k) as HP4.
    { rewrite <- HE, (be_post _ _ _ (beside_extract Wq t k3)). exact HP3. }
    clearbody k3. clear HE. destruct (released_core Wq t k3 k4 HT) as [HC _]. split; [by rewrite <- HL3|..].
    + by rewrite (cs_rtems _ _ HC).
    + exact HP4.
    + by rewrite (cs_memory _ _ HC).
    + by rewrite (released_list Wq t k3 k4 HT), HL3.
    + split; [by apply (released_sched Wq t k3)|by apply (released_tq_ok Wq t k3)].
    + pose proof (released_tcb Wq t k3 k4 HQ3 Hin HT t) as E. rewrite decide_True, HT3, decide_True in E by done.
      split; [apply (f_equal (fun c => Wait_return_code (Wait c))) in E|apply (f_equal current_state) in E]; exact E.
    + intros u Hu. pose proof (released_tcb Wq t k3 k4 HQ3 Hin HT u) as E. by rewrite decide_False, HT3, decide_False in E.
Qed.

Lemma unblock_not_waiting i t k : _States_Is_interruptible_signal (current_state (tcb k t)) = false ->
  (_POSIX_signals_Unblock_thread run_callout t (si_signo i) (Some i) (upd_thread t (set_do_post true) k)).1 = false.
Proof using.
  intros Hs. unfold _POSIX_signals_Unblock_thread.
  assert (current_state (tcb (upd_thread t (set_do_post true) k) t) = current_state (tcb k t)) as -> by by rewrite tcb_upd, decide_True.
  rewrite Hs. by destruct (meets _ _).
Qed.

Lemma pends_rtems i k k1 ok k' : rtems k1 = rtems k ->
  _Thread_Do_post_task_switch_extension k1 = _Thread_Do_post_task_switch_extension k -> pends i k1 ok k' -> pends i k ok k'.
Proof using. intros E EC [H1 H1' H2 H3 H4 H5]. split; unfold vector, queued, psig in *; rewrite <- E, <- ?EC; done. Qed.

(** C31: a signal that is sent to the process is never lost and never taken twice.  It goes
    to the executing thread if that does not block it; else to the first thread on the
    chains of the wait queue that waits for it or does not block it; else to the first, in
    the order of the tables, of the threads of best rank (priority, then ready, then
    interruptible) that have the API and do not block it; else to nobody.  If the recipient
    waits for signals, it gets the signal with its information, is taken off the queue and
    made ready, and nothing pends that did not pend before.  Otherwise the signal pends for
    the process, the first that pends is counted for the dispatcher, and if it carries
    information this is put behind what is queued for it, in a node from the pool; only when
    the pool is empty is there no information.  Of the threads of one priority on the wait
    queue only the first is on the chains: a signal may pend while another waits for it. *)
Theorem signal_accounted i k : 1 <= si_signo i <= 32 -> sched_ok k -> tq_ok k Wq -> waiters_known k ->
  (forall t, u32 (signals_blocked (posix_api k t))) -> (forall t, t ∈ user_threads k -> current_priority (tcb k t) <= 255) ->
  let '(ok, k') := send_to_process run_callout Wq i k in
  exists to, recipient k Wq (si_signo i) to /\
  match to with
  | Some t =>
      if Z.land (current_state (tcb k t)) (Z.lor STATES_WAITING_FOR_SIGNAL STATES_INTERRUPTIBLE_BY_SIGNAL)
           =? Z.lor STATES_WAITING_FOR_SIGNAL STATES_INTERRUPTIBLE_BY_SIGNAL
      then ok = true /\ handed i t k k' else pends i k ok k'
  | None => pends i k ok k'
  end.
Proof using Hcall Hpost.
  intros Hr HS HQ HW Hu Hp. assert (is_valid_signo (si_signo i) = true) as Hv by (apply andb_true_iff; rewrite !Z.leb_le; exact Hr).
  pose proof (thread_for_signal_spec k (si_signo i) Hv Hu Wq Hp) as HR. unfold send_to_process.
  destruct (thread_for_signal Wq k _) as [t|].
  2: { pose proof (post_process_pends i k Hv) as HP. destruct (post_process_signal i k). by exists None. }
  pose proof (proj2 (meets_awaits k _ Hv Hu t) (recipient_awaits _ _ Hv Hu _ _ HR)) as Hfor.
  destruct (_States_Is_interruptible_signal (current_state (tcb k t))) eqn:Hs.
  - destruct (unblock_hands i t k HS HQ HW Hs Hfor) as (k' & -> & HH). exists (Some t). split; [done|].
    unfold _States_Is_interruptible_signal in Hs. by rewrite Hs.
  - pose proof (unblock_not_waiting i t k Hs) as H1.
    pose proof (unblock_thread_rtems t (si_signo i) (Some i) (upd_thread t (set_do_post true) k)) as HE.
    pose proof (unblock_thread_count t (si_signo i) (Some i) (upd_thread t (set_do_post true) k)) as HC.
    destruct (_POSIX_signals_Unblock_thread _ _ _ _ _) as [b k1]. cbn [fst snd] in H1, HE, HC. subst b.
    pose proof (post_process_pends i k1 Hv) as HP. destruct (post_process_signal i k1) as [ok k']. exists (Some t). split; [done|].
    unfold _States_Is_interruptible_signal in Hs. rewrite Hs. by apply (pends_rtems i k k1).
Qed.
End Send.

(** ** Waiting *)

Definition SIGNAL_WAIT : Z := Z.lor STATES_WAITING_FOR_SIGNAL STATES_INTERRUPTIBLE_BY_SIGNAL.

Lemma signal_queue_state : queue_state SIGNAL_WAIT.
Proof. by split. Qed.

(** The caller is on the queue, with the set it waits for and the place of the information. *)
Record waits_for_signal (Wq set the_info : Z) (k k' : Kernel) : Prop := {
  ws_list : tq_list k' Wq = joined k Wq (_Thread_Executing k);
  ws_ok : tq_ok k' Wq /\ sched_ok k' /\ _Context_Switch_necessary k' = true;
  ws_core : core_same k k';
  ws_executing : _Thread_Executing k' = _Thread_Executing k;
  ws_caller : let c := tcb k' (_Thread_Executing k) in
    current_state c = SIGNAL_WAIT /\ Wait_option (Wait c) = set /\ Wait_return_argument (Wait c) = the_info /\
    Wait_queue (Wait c) = Wq /\ Wait_return_code (Wait c) = EINTR;
  ws_others : forall u, u <> _Thread_Executing k -> but_block2n (tcb k' u) = but_block2n (tcb k u)
}.

Lemma sigwait_enqueue_spec routine wfuel fuel Wq set the_info interval k : can_wait Wq k -> tq_state (tq k Wq) = SIGNAL_WAIT ->
  timer_free wfuel (_Thread_Executing k) interval k -> (length (tq_list k Wq) < fuel)%nat ->
  exists k', sigwait_enqueue Wq fuel routine wfuel id [] set the_info interval k = Some k' /\ waits_for_signal Wq set the_info k k'.
Proof.
  intros HW HST HT Hf. pose proof (noted_refl Wq k HW) as N1.
  apply (noted_code Wq _ (set_Wait_queue Wq)) in N1; [|done].
  apply (noted_code Wq _ (set_Wait_return_code EINTR)) in N1; [|done].
  apply (noted_code Wq _ (set_Wait_option set)) in N1; [|done].
  apply (noted_code Wq _ (set_Wait_return_argument the_info)) in N1; [|done]. apply noted_enter in N1.
  destruct (noted_wait_spec routine wfuel fuel Wq interval _ k _ N1 HT Hf) as (k' & E & X1 & X2 & X3 & X4 & X5 & X6 & X7 & _ & X11).
  pose proof (X11 (_Thread_Executing k)) as Xt. rewrite decide_True in Xt by done. exists k'. split; [exact E|]. split; try done.
  - cbn zeta. split_and!; [rewrite <- HST; exact (f_equal current_state Xt)|exact (f_equal (fun x => Wait_option (Wait x)) Xt)|
      exact (f_equal (fun x => Wait_return_argument (Wait x)) Xt)|exact (f_equal (fun x => Wait_queue (Wait x)) Xt)|
      exact (f_equal (fun x => Wait_return_code (Wait x)) Xt)].
  - intros u Hu. by rewrite X11, decide_False.
Qed.

(** The threads that wait for signals are still those on the queue. *)
Lemma waiters_known_wait Wq set the_info k k' : waits_for_signal Wq set the_info k k' -> waiters_known Wq k -> waiters_known Wq k'.
Proof.
  intros [W1 _ _ _ W5 W6] HK t Ht. rewrite W1, joined_perm, elem_of_cons. destruct (decide (t = _Thread_Executing k)) as [-> |Hne].
  - destruct W5 as (E1 & _ & _ & E2 & _). split; [by left|]. split; [done|]. by rewrite E1.
  - destruct (but_block2n_fields _ _ (W6 t Hne)) as (E1 & _). rewrite E1 in Ht. destruct (HK t Ht) as (H1 & H2 & H3).
    split; [by right|]. rewrite E1. split; [|done]. rewrite <- H2. exact (f_equal (fun x => Wait_queue (Wait x)) (W6 t Hne)).
Qed.

(** ** A small system: the threads at 200 and 300 wait for signals in turn *)

Module SigExample.
Import ThreadExample.
(** The wait queue is at 60; the API of every thread blocks all signals. *)
Definition base : Kernel := _Thread_queue_Initialize 60 OBJECTS_NO_CLASS THREAD_QUEUE_DISCIPLINE_PRIORITY SIGNAL_WAIT NULL EAGAIN k2.
Definition all_blocked : POSIX_API_Control := set_signals_blocked SIGNAL_ALL_MASK inhabitant.
Definition with_api : Kernel := upd_rtems (fun r => set_API_Extensions_POSIX (list_to_map [(100, 1000); (200, 2000); (300, 3000)])
  (set_posix_apis (list_to_map [(1000, all_blocked); (2000, all_blocked); (3000, all_blocked)])
  (set_posix_signals (set_signals_Vectors (_POSIX_signals_Default_vectors 7777) (posix_signals r)) r))) base.
(** 200 waits for signal 16. *)
Definition one_waits : Kernel := default with_api (sigwait_enqueue 60 5 9 5 id [] (signo_to_mask 16) 8000 0 with_api).
(** Then 300 has the processor and waits for signal 17. *)
Definition next : Kernel := default one_waits (_Thread_Dispatch (fun _ _ k => k) id 5 [] one_waits).
Definition two_wait : Kernel := default next (sigwait_enqueue 60 5 9 5 id [] (signo_to_mask 17) 9000 0 next).
Definition idle : Kernel := default two_wait (_Thread_Dispatch (fun _ _ k => k) id 5 [] two_wait).

Lemma base_ok : sched_ok with_api /\ tq_ok with_api 60 /\ tq_list with_api 60 = [].
Proof.
  destruct (initialize_fresh 60 OBJECTS_NO_CLASS THREAD_QUEUE_DISCIPLINE_PRIORITY SIGNAL_WAIT NULL EAGAIN k2) as (E & HQ & HL & _);
    [apply signal_queue_state|]. assert (same_threads base with_api) as HS by (split; reflexivity).
  pose proof (links_only_sched _ _ HL k2_ok) as HB. fold base in HB, HQ, E. generalize dependent with_api. generalize dependent base.
  intros b E HQ HB w HS. split_and!; [by apply (same_threads_sched b)|by apply (same_threads_tq_ok b)|by rewrite (same_threads_list b)].
Qed.

Lemma base_quiet : waiters_known 60 with_api.
Proof.
  intros t Ht. exfalso. assert (map_Forall (fun _ c => _States_Is_interruptible_signal (current_state c) = false) (threads with_api)) as HF
    by (apply map_Forall_to_list; vm_compute; repeat constructor).
  unfold tcb in Ht. rewrite lookup_total_alt in Ht. destruct (threads with_api !! t) as [c|] eqn:E; [|discriminate].
  specialize (HF t c E). cbn [default] in Ht. unfold default, from_option, id in Ht. congruence.
Qed.

Lemma base_can_wait : can_wait 60 with_api.
Proof.
  destruct base_ok as (H1 & H2 & H3). split; [exact H1|exact H2|rewrite H3; apply not_elem_of_nil|vm_compute; reflexivity|vm_compute; discriminate|vm_compute; discriminate].
Qed.

Lemma one_waits_ok : waits_for_signal 60 (signo_to_mask 16) 8000 with_api one_waits.
Proof.
  pose proof base_can_wait as HW. destruct base_ok as (_ & _ & HL). assert (tq_state (tq with_api 60) = SIGNAL_WAIT) as HST by (vm_compute; reflexivity).
  unfold one_waits. generalize dependent with_api. intros k HW HL HST.
  destruct (sigwait_enqueue_spec 9 5 5 60 (signo_to_mask 16) 8000 0 k HW HST) as (k' & E & H); [by left|rewrite HL; simpl; lia|].
  by rewrite E.
Qed.

Lemma one_waits_state : sched_ok one_waits /\ tq_ok one_waits 60 /\ waiters_known 60 one_waits.
Proof.
  pose proof one_waits_ok as H. pose proof base_quiet as HK. generalize dependent one_waits. generalize dependent with_api. intros k HK k' H.
  destruct (ws_ok _ _ _ _ _ H) as (H1 & H2 & _). split_and!; [done|done|by apply (waiters_known_wait 60 (signo_to_mask 16) 8000 k)].
Qed.

(** The masks and the priorities are in range, and only 200 is on the chains. *)
Definition masks_in_range (k : Kernel) : bool := bool_decide (map_Forall (fun _ a => 0 <= signals_blocked a < two32) (posix_apis (rtems k))).
Lemma masks_u32 k : masks_in_range k = true -> u32 (signals_blocked inhabitant) -> forall t, u32 (signals_blocked (posix_api k t)).
Proof.
  unfold masks_in_range. rewrite bool_decide_eq_true. intros HF H0 t. unfold posix_api. rewrite lookup_total_alt.
  destruct (posix_apis (rtems k) !! _) as [a|] eqn:E; [|exact H0]. exact (HF _ _ E).
Qed.

Lemma one_waits_facts : masks_in_range one_waits = true /\ Forall (fun t => current_priority (tcb one_waits t) <= 255) (user_threads one_waits) /\
  first_waiters one_waits 60 = [200] /\ Wait_option (Wait (tcb one_waits 200)) = 2 ^ 15 /\
  current_state (tcb one_waits 200) = SIGNAL_WAIT /\ signals_blocked (posix_api one_waits (_Thread_Executing one_waits)) = SIGNAL_ALL_MASK.
Proof. split; [vm_compute; reflexivity|]. split; [vm_compute; repeat constructor; discriminate|]. vm_compute. repeat split. Qed.

Lemma with_api_facts : masks_in_range with_api = true /\ Forall (fun t => current_priority (tcb with_api t) <= 255) (user_threads with_api) /\
  first_waiters with_api 60 = [] /\ deliverable with_api 16 = [] /\ _POSIX_signals_Pending (psig with_api) = 0.
Proof. split; [vm_compute; reflexivity|]. split; [vm_compute; repeat constructor; discriminate|]. vm_compute. repeat split. Qed.
End SigExample.

(** Signal 16 is sent while the thread at 200 waits for it, and while no thread does. *)
Lemma signal_accounted_witness :
  (exists k', send_to_process (fun _ _ k => k) 60 (user_siginfo 16 5) SigExample.one_waits = (true, k') /\
    Wait_return_code (Wait (tcb k' 200)) = EINTR /\ psig k' = psig SigExample.one_waits /\
    memory k' = memory (put_siginfo (Wait_return_argument (Wait (tcb SigExample.one_waits 200))) (user_siginfo 16 5) SigExample.one_waits)) /\
  (let '(ok, k') := send_to_process (fun _ _ k => k) 60 (user_siginfo 16 5) SigExample.with_api in
   _POSIX_signals_Pending (psig k') = 2 ^ 15 /\
   _Thread_Do_post_task_switch_extension k' = _Thread_Do_post_task_switch_extension SigExample.with_api +w 1).
Proof.
  assert (u32 (signals_blocked inhabitant)) as H0 by (split; reflexivity || discriminate).
  assert (1 <= si_signo (user_siginfo 16 5) <= 32) as HN16 by (split; discriminate). split.
  - destruct SigExample.one_waits_state as (HS & HQ & HK). destruct SigExample.one_waits_facts as (HM & HP & HF & HO & HI & HB).
    generalize dependent SigExample.one_waits. intros k HS HQ HK HM HP HF HO HI HB. rewrite Forall_forall in HP.
    pose proof (SigExample.masks_u32 k HM H0) as HU.
    pose proof (signal_accounted (fun _ _ k => k) 60 (fun _ _ _ => eq_refl) (fun _ _ _ => eq_refl) (user_siginfo 16 5) k HN16 HS HQ HK HU HP) as H.
    destruct (send_to_process (fun _ _ k => k) 60 (user_siginfo 16 5) k) as [ok k']. change (si_signo (user_siginfo 16 5)) with 16 in H.
    assert (awaits k 16 200) as HA by (left; by rewrite HO).
    destruct H as (to & HR & H). assert (to = Some 200) as ->.
    { inversion HR as [HE|l1 t l2 _ Hl _ Hn|t _ Hn _|_ Hn _]; subst.
      - unfold not_blocked in HE. by rewrite HB in HE.
      - rewrite HF in Hl. destruct l1 as [|u l1]; [by injection Hl as ->|]. destruct l1; discriminate.
      - destruct (Hn 200); [rewrite HF; set_solver|exact HA].
      - destruct (Hn 200); [rewrite HF; set_solver|exact HA]. }
    rewrite HI in H. change (_ =? _) with true in H. cbv iota in H. destruct H as [-> H]. exists k'. split; [reflexivity|].
    split; [exact (proj1 (ha_thread _ _ _ _ _ H))|]. split; [exact (f_equal posix_signals (ha_rtems _ _ _ _ _ H))|exact (ha_memory _ _ _ _ _ H)].
  - destruct SigExample.base_ok as (HS & HQ & HL). pose proof SigExample.base_quiet as HK.
    destruct SigExample.with_api_facts as (HM & HP & HF & HD & HN).
    generalize dependent SigExample.with_api. intros k HS HQ HL HK HM HP HF HD HN. rewrite Forall_forall in HP.
    pose proof (SigExample.masks_u32 k HM H0) as HU.
    pose proof (signal_accounted (fun _ _ k => k) 60 (fun _ _ _ => eq_refl) (fun _ _ _ => eq_refl) (user_siginfo 16 5) k HN16 HS HQ HK HU HP) as H.
    destruct (send_to_process (fun _ _ k => k) 60 (user_siginfo 16 5) k) as [ok k'].
    assert (pends (user_siginfo 16 5) k ok k') as HPe.
    { destruct H as ([t|] & _ & H); [|exact H]. destruct (_ =? _) eqn:E; [|exact H]. destruct H as [_ H]. destruct H as [H _ _ _ _ _ _ _].
      rewrite HL in H. by apply not_elem_of_nil in H. }
    destruct HPe as [H1 H2 _ _ _ _]. rewrite HN in H1, H2. split; [exact H1|exact H2].
Defined.

(** ** What the code does not do *)

(** Two threads of one priority wait, the second for signal 17: the search looks only at the
    first of a priority, and the signal pends while the thread goes on waiting for it. *)
Theorem second_waiter_missed : let k := SigExample.idle in
  tq_list k 60 = [200; 300] /\ Wait_option (Wait (tcb k 300)) = signo_to_mask 17 /\
  (send_to_process (fun _ _ k => k) 60 (user_siginfo 17 0) k).1 = true /\
  current_state (tcb (send_to_process (fun _ _ k => k) 60 (user_siginfo 17 0) k).2 300) = SIGNAL_WAIT /\
  _POSIX_signals_Pending (psig (send_to_process (fun _ _ k => k) 60 (user_siginfo 17 0) k).2) = signo_to_mask 17.
Proof. vm_compute. repeat split. Qed.

Lemma set_process_rtems mask k : rtems (_POSIX_signals_Set_process_signals mask k) =
  rtems (upd_psig (fun s => set_signals_Pending (Z.lor (_POSIX_signals_Pending s) mask) s) k).
Proof. unfold _POSIX_signals_Set_process_signals. by destruct (_ =? 0). Qed.
Lemma clear_process_rtems mask k : rtems (_POSIX_signals_Clear_process_signals mask k) =
  rtems (upd_psig (fun s => set_signals_Pending (Z.land (_POSIX_signals_Pending s) (not32 mask)) s) k).
Proof. unfold _POSIX_signals_Clear_process_signals. by destruct (_ =? 0). Qed.

Lemma set_process_pending mask k : _POSIX_signals_Pending (psig (_POSIX_signals_Set_process_signals mask k)) = Z.lor (_POSIX_signals_Pending (psig k)) mask.
Proof. unfold psig at 1. by rewrite set_process_rtems. Qed.
Lemma clear_process_pending mask k :
  _POSIX_signals_Pending (psig (_POSIX_signals_Clear_process_signals mask k)) = Z.land (_POSIX_signals_Pending (psig k)) (not32 mask).
Proof. unfold psig at 1. by rewrite clear_process_rtems. Qed.

Lemma post_process_level i k : _Thread_Dispatch_disable_level (post_process_signal i k).2 = _Thread_Dispatch_disable_level k.
Proof.
  unfold post_process_signal. set (k1 := _POSIX_signals_Set_process_signals _ _).
  assert (_Thread_Dispatch_disable_level k1 = _Thread_Dispatch_disable_level k) as <-
    by (unfold k1, _POSIX_signals_Set_process_signals; by destruct (_ =? 0)).
  clearbody k1. destruct (sa_flags _ =? SA_SIGINFO); [destruct (_POSIX_signals_Inactive_siginfo _)|]; reflexivity.
Qed.

(** Without a node for the information, [sigqueue] fails and the signal pends all the same,
    without it; and it returns with dispatching disabled. *)
Theorem sigqueue_exhausted run_callout Wq switch postswitch isrs fuel node nodes sig value k :
  is_valid_signo sig = true -> sig ∉ [SIGFPE; SIGILL; SIGSEGV] -> sa_handler (vector k sig) <> SIG_IGN ->
  sa_flags (vector k sig) = SA_SIGINFO -> _POSIX_signals_Inactive_siginfo (psig k) = [] -> thread_for_signal Wq k (signo_to_mask sig) = None ->
  exists k', sigqueue run_callout Wq switch postswitch isrs fuel node nodes node sig value k = Failed_with EAGAIN k' /\
    _POSIX_signals_Pending (psig k') = Z.lor (_POSIX_signals_Pending (psig k)) (signo_to_mask sig) /\ queued k' sig = queued k sig /\
    _Thread_Dispatch_disable_level k' = _Thread_Dispatch_disable_level k +w 1.
Proof.
  intros Hv Hn Hh Hf Hi Ht. pose proof (valid_range sig Hv). unfold sigqueue, killinfo, getpid.
  rewrite Z.eqb_refl, (proj2 (Z.eqb_neq sig 0)), Hv, (proj2 (Z.eqb_neq _ _) Hh) by lia. cbn [negb andb orb].
  assert ((sig =? SIGFPE) || (sig =? SIGILL) || (sig =? SIGSEGV) = false) as ->.
  { apply not_true_is_false. intros E. apply Hn. rewrite !orb_true_iff, !Z.eqb_eq in E. set_solver. }
  unfold send_to_process. change (thread_for_signal Wq (_Thread_Disable_dispatch k) (signo_to_mask (si_signo (user_siginfo sig (default 0 (Some value))))))
    with (thread_for_signal Wq k (signo_to_mask sig)). rewrite Ht.
  pose proof (post_process_pends (user_siginfo sig value) (_Thread_Disable_dispatch k) Hv) as [P1 _ _ _ _ P5].
  pose proof (post_process_level (user_siginfo sig value) (_Thread_Disable_dispatch k)) as EL.
  change (default 0 (Some value)) with value. cbn [si_signo user_siginfo] in P1, P5. rewrite <- (signo_mask_pow _ Hv) in P1.
  change (vector (_Thread_Disable_dispatch k) sig) with (vector k sig) in P5. rewrite Hf, Z.eqb_refl in P5.
  change (_POSIX_signals_Inactive_siginfo (psig (_Thread_Disable_dispatch k))) with (_POSIX_signals_Inactive_siginfo (psig k)) in P5.
  rewrite Hi in P5. destruct (post_process_signal _ _) as [ok k']. cbn [fst snd] in *. destruct P5 as (-> & P5 & _ & _). by exists k'.
Qed.

(** A signal that is sent to a thread pends for it, also when the thread waited for the
    signal and was given it: it takes the signal twice. *)
Theorem pthread_kill_pends run_callout t sig k : (forall r t k, rtems (run_callout r t k) = rtems k) -> is_valid_signo sig = true ->
  Z.testbit (thread_signals_pending (posix_api (send_to_thread run_callout t sig k) t)) (sig - 1) = true.
Proof.
  intros Hcall Hv. pose proof (valid_range sig Hv). unfold send_to_thread. set (k1 := upd_posix_api _ _ k).
  set (k2 := upd_thread _ _ _). assert (posix_api k2 t = posix_api k1 t) as E.
  { unfold posix_api, posix_block, k2. cbn [rtems upd_thread set_threads]. by rewrite (unblock_thread_rtems run_callout Hcall). }
  assert (Z.testbit (thread_signals_pending (posix_api k2 t)) (sig - 1) = true) as HB.
  { rewrite E. unfold k1. rewrite posix_api_upd_self. simpl. rewrite Z.lor_spec, signo_mask_bit, Z.eqb_refl by (done || lia). apply orb_true_r. }
  by destruct (_ && _).
Qed.

(** ** The counter of the extensions that run after a switch *)

(** The signals of the process count as one reason to run them. *)
Definition counter_ok (others : Z) (k : Kernel) : Prop :=
  _Thread_Do_post_task_switch_extension k = others +w (if _POSIX_signals_Pending (psig k) =? 0 then 0 else 1).

Lemma set_process_counter others mask k : u32 others -> u32 (_POSIX_signals_Pending (psig k)) -> u32 mask -> mask <> 0 -> counter_ok others k ->
  counter_ok others (_POSIX_signals_Set_process_signals mask k).
Proof.
  intros Ho Hp Hm H0 HC. unfold counter_ok. rewrite set_process_pending.
  rewrite (proj2 (Z.eqb_neq _ _)).
  2: { intros [_ E]%Z.lor_eq_0_iff. done. }
  unfold _POSIX_signals_Set_process_signals. unfold counter_ok in HC. destruct (_POSIX_signals_Pending (psig k) =? 0) eqn:E; cbn; rewrite HC; [|done].
  rewrite Z.add_0_r. by rewrite (wrap32_small others).
Qed.

Lemma clear_process_counter others mask k : u32 others -> _POSIX_signals_Pending (psig k) <> 0 -> counter_ok others k ->
  counter_ok others (_POSIX_signals_Clear_process_signals mask k).
Proof.
  intros Ho H0 HC. unfold counter_ok in *. rewrite (proj2 (Z.eqb_neq _ _) H0) in HC. unfold _POSIX_signals_Clear_process_signals.
  set (k1 := upd_psig _ k). destruct (_POSIX_signals_Pending (psig k1) =? 0) eqn:E.
  - change (psig (set_post_task_switch_extension _ k1)) with (psig k1). rewrite E. cbn. rewrite HC, Z.add_0_r.
    apply wrap32_eqm. rewrite eqm32_wrap. replace (others + 1 - 1) with others by lia. done.
  - rewrite E. exact HC.
Qed.

(** Installing a handler when no signal pends takes one off the counter all the same, and the
    next signal brings it back to what it was: the signal pends and the counter says that
    there is nothing to do. *)
Theorem sigaction_unbalances terminate sig act mask others k : is_valid_signo sig = true -> sig <> SIGKILL -> sa_handler act <> SIG_DFL ->
  u32 others -> _POSIX_signals_Pending (psig k) = 0 -> counter_ok others k -> u32 mask -> mask <> 0 ->
  exists k', sigaction terminate sig (Some act) NULL k = Returned 0 k' /\ _Thread_Do_post_task_switch_extension k' = others -w 1 /\
    let k'' := _POSIX_signals_Set_process_signals mask k' in
    _POSIX_signals_Pending (psig k'') = mask /\ _Thread_Do_post_task_switch_extension k'' = others.
Proof.
  intros Hv Hk Ha Ho Hp HC Hm H0. pose proof (valid_range sig Hv). unfold counter_ok in HC. rewrite Hp in HC. cbn in HC. rewrite Z.add_0_r, wrap32_small in HC by done.
  unfold sigaction. cbn [negb Z.eqb NULL]. rewrite (proj2 (Z.eqb_neq sig 0)), Hv, (proj2 (Z.eqb_neq _ _) Hk), (proj2 (Z.eqb_neq _ _) Ha) by lia.
  cbn [negb]. set (k1 := _POSIX_signals_Clear_process_signals (signo_to_mask sig) k).
  assert (_POSIX_signals_Pending (psig k1) = 0) as EP. { unfold k1. by rewrite clear_process_pending, Hp. }
  assert (_Thread_Do_post_task_switch_extension k1 = others -w 1) as EC.
  { unfold k1, _POSIX_signals_Clear_process_signals. set (k0 := upd_psig _ k). assert (_POSIX_signals_Pending (psig k0) = 0) as -> by (unfold k0; by rewrite psig_upd; simpl; rewrite Hp).
    cbn. by rewrite HC. }
  eexists. split; [done|]. split; [exact EC|]. cbn zeta. set (k2 := upd_psig _ k1).
  assert (_POSIX_signals_Pending (psig k2) = 0) as EP2 by exact EP. split.
  - by rewrite set_process_pending, EP2.
  - unfold _POSIX_signals_Set_process_signals. rewrite EP2. cbn. rewrite EC. rewrite <- (wrap32_small others Ho) at 2. apply wrap32_eqm.
    rewrite eqm32_wrap. replace (others - 1 + 1) with others by lia. done.
Qed.

(** The signal does not pend any more when a handler is installed, but what is queued with it
    stays queued, and is what the next signal is delivered with. *)
Theorem sigaction_keeps_queue terminate sig act k : is_valid_signo sig = true -> sig <> SIGKILL -> sa_handler act <> SIG_DFL ->
  exists k', sigaction terminate sig (Some act) NULL k = Returned 0 k' /\
    Z.testbit (_POSIX_signals_Pending (psig k')) (sig - 1) = false /\ queued k' sig = queued k sig.
Proof.
  intros Hv Hk Ha. pose proof (valid_range sig Hv).
  unfold sigaction. cbn [negb Z.eqb NULL]. rewrite (proj2 (Z.eqb_neq sig 0)), Hv, (proj2 (Z.eqb_neq _ _) Hk), (proj2 (Z.eqb_neq _ _) Ha) by lia.
  cbn [negb]. eexists. split; [done|]. set (k1 := _POSIX_signals_Clear_process_signals _ k). split.
  - change (Z.testbit (_POSIX_signals_Pending (psig k1)) (sig - 1) = false). unfold k1. rewrite clear_process_pending, cleared_bit, Z.eqb_refl by (done || lia).
    apply andb_false_r.
  - change (queued k1 sig = queued k sig). unfold queued, psig, k1. by rewrite clear_process_rtems.
Qed.

(** A signal pends for the process, and a thread asks for it: the signal is taken off, and
    the thread waits. *)
Theorem sigtimedwait_drops Wq switch postswitch isrs fuel routine wfuel resume signal_information set sig info k :
  info <> NULL -> is_valid_signo sig = true -> Z.testbit set (sig - 1) = true -> _POSIX_signals_Pending (psig k) = signo_to_mask sig ->
  sa_flags (vector k sig) <> SA_SIGINFO -> meets set (thread_signals_pending (posix_api k (_Thread_Executing k))) = false ->
  can_wait Wq k -> tq_state (tq k Wq) = SIGNAL_WAIT -> (length (tq_list k Wq) < fuel)%nat ->
  exists k', _POSIX_signals_Pending (psig k') = 0 /\ current_state (tcb k' (_Thread_Executing k)) = SIGNAL_WAIT /\ _Thread_Executing k ∈ tq_list k' Wq /\
    sigtimedwait Wq switch postswitch isrs fuel routine wfuel id resume [] signal_information set info None k =
      match _Thread_Enable_dispatch switch postswitch fuel isrs k' with
      | None => Unfinished
      | Some k =>
          let k := resume k in let signo := signed32 (ld32 (memory k) info) in
          if signo =? -1 then Failed_with (Wait_return_code (Wait (tcb k (_Thread_Executing k)))) k else Returned signo k
      end.
Proof.
  intros Hi Hv Hb Hp Hf Ht HW HST Hfu. unfold sigtimedwait. rewrite Ht, (proj2 (Z.eqb_neq _ _) Hi). cbn [negb].
  assert (_POSIX_signals_Get_highest (signo_to_mask sig) = sig) as EH.
  { destruct (get_highest_correct (signo_to_mask sig) (mask_u32 sig)) as [[E _]|(l1 & n & l2 & EO & -> & Hn & _)].
    - pose proof (signo_mask_bit sig Hv (sig - 1)) as HB. pose proof (valid_range sig Hv). rewrite E, Z.bits_0, Z.eqb_refl in HB by lia. by specialize (HB ltac:(lia)).
    - assert (is_valid_signo n = true) as Hvn by (apply in_order; rewrite EO; set_solver). pose proof (valid_range n Hvn).
      rewrite signo_mask_bit in Hn by (done || lia). apply Z.eqb_eq in Hn. lia. }
  assert (take_process_signal set info info k = _POSIX_signals_Clear_process_signals (signo_to_mask sig) k) as ->.
  { unfold take_process_signal. rewrite Hp, EH, meets_bit, Hb by done. unfold _POSIX_signals_Clear_signals. rewrite Hp, meets_bit_l by done.
    pose proof (valid_range sig Hv). unfold SIGNAL_ALL_MASK. rewrite Z.land_spec, signo_mask_bit, Z.eqb_refl, (Z.ones_spec_low 32) by (done || lia).
    cbn [andb]. rewrite (proj2 (Z.eqb_neq _ _) Hf), (proj2 (Z.eqb_neq _ _) Hi). done. }
  set (k1 := _Thread_Disable_dispatch _). assert (same_threads k k1) as HS.
  { unfold k1, _POSIX_signals_Clear_process_signals. destruct (_ =? 0); by split. }
  assert (_POSIX_signals_Pending (psig k1) = 0) as E0.
  { change (psig k1) with (psig (_POSIX_signals_Clear_process_signals (signo_to_mask sig) k)). rewrite clear_process_pending.
    rewrite Hp. apply Z.bits_inj_0. intros j. destruct (Z_lt_le_dec j 0); [by apply Z.testbit_neg_r|].
    rewrite Z.land_spec, not32_testbit by (apply mask_u32 || lia). rewrite signo_mask_bit by done. destruct (j =? sig - 1); [apply andb_false_r|done]. }
  clearbody k1. destruct (sigwait_enqueue_spec routine wfuel fuel Wq set info 0 k1) as (k' & E & HWs).
  - by apply (same_threads_can_wait Wq k).
  - by rewrite (ts_queue _ _ (same_threads_tq _ _ HS)).
  - by left.
  - by rewrite (same_threads_list _ _ _ HS).
  - rewrite E. destruct HWs as [W1 _ W3 _ W5 _]. rewrite (st_executing _ _ HS) in *. exists k'.
    split_and!; [unfold psig; by rewrite (cs_rtems _ _ W3)|apply W5|rewrite W1, joined_perm; left|done].
Qed.

(** The time that was left of an alarm is its seconds less the ticks that have passed. *)
Theorem alarm_remaining timer wfuel wisr seconds k r k' : wd_ok (watchdogs k) -> timer ∈ chain_of Seconds (watchdogs k) ->
  alarm timer wfuel wisr seconds k = Some (r, k') ->
  r = initial (ctl (watchdogs k) timer) -w (_Watchdog_Ticks_since_boot (watchdogs k) -w start_time (ctl (watchdogs k) timer)).
Proof.
  intros HW Hin. destruct (list_elem_of_split _ _ Hin) as (l1 & l2 & El).
  pose proof (remove_ctl_self (watchdogs k) HW Seconds l1 timer l2 El) as ES.
  assert ((_Watchdog_Remove timer (watchdogs k)).1 = wd_state (ctl (watchdogs k) timer)) as E1 by done.
  assert (wd_state (ctl (watchdogs k) timer) = WATCHDOG_ACTIVE \/ wd_state (ctl (watchdogs k) timer) = WATCHDOG_REMOVE_IT) as HO.
  { exact (ok_member _ Seconds timer HW Hin). }
  unfold alarm. destruct (_Watchdog_Remove timer (watchdogs k)) as [st w]. cbn [fst snd] in *. subst st.
  destruct (_Watchdog_Insert_seconds _ _ _ _ _) as [k1|]; [|done]. intros [= <- <-]. destruct HO as [-> | ->]; by rewrite ES.
Qed.
