(* ===== verification/PosixDelivery.v ===== *)
(** * Delivery of signals (posix/src/psignal.c)

    What the extension that runs after a dispatch does with the signals that pend for the
    thread and for the process. *)
From S2P Require Import Prelude Chain Watchdog Object Priority ApiTypes Kernel Thread ThreadSpec CoreMsg.
From S2P Require Import Workspace Rtems EventSpec Signal Init Posix PosixKey PosixTime PosixSignal PosixSignalSpec.

(** ** Delivery *)

(** The signals of a thread: what it blocks, what pends for it and for the process. *)
Section Due.
Context (t : Z).

Definition blocks (k : Kernel) (n : Z) : bool := Z.testbit (signals_blocked (posix_api k t)) (n - 1).
Definition thread_due (k : Kernel) (n : Z) : bool := Z.testbit (thread_signals_pending (posix_api k t)) (n - 1) && negb (blocks k n).
Definition process_due (k : Kernel) (n : Z) : bool := Z.testbit (_POSIX_signals_Pending (psig k)) (n - 1) && negb (blocks k n).
Definition with_info (k : Kernel) (n : Z) : bool := sa_flags (vector k n) =? SA_SIGINFO.

Record sets_ok (k : Kernel) : Prop := {
  se_blocked : u32 (signals_blocked (posix_api k t));
  se_thread : u32 (thread_signals_pending (posix_api k t));
  se_process : u32 (_POSIX_signals_Pending (psig k))
}.

(** Every signal that is due has a handler; one with information does not pend for a thread. *)
Definition actions_ok (k : Kernel) : Prop := forall n, is_valid_signo n = true -> thread_due k n || process_due k n = true ->
  sa_handler (vector k n) <> NULL /\ sa_handler (vector k n) <> SIG_IGN /\ (thread_due k n = true -> with_info k n = false).

(** Signals that were due were taken; nothing else happened to the signals. *)
Record takes_due (k k' : Kernel) : Prop := {
  td_block : API_Extensions_POSIX (rtems k') = API_Extensions_POSIX (rtems k);
  td_blocked : signals_blocked (posix_api k' t) = signals_blocked (posix_api k t);
  td_vectors : _POSIX_signals_Vectors (psig k') = _POSIX_signals_Vectors (psig k);
  td_nodes : siginfo_nodes (psig k') = siginfo_nodes (psig k);
  td_sets : sets_ok k';
  td_thread : forall n, is_valid_signo n = true -> thread_due k n = false ->
    Z.testbit (thread_signals_pending (posix_api k' t)) (n - 1) = Z.testbit (thread_signals_pending (posix_api k t)) (n - 1);
  td_process : forall n, is_valid_signo n = true -> process_due k n = false ->
    Z.testbit (_POSIX_signals_Pending (psig k')) (n - 1) = Z.testbit (_POSIX_signals_Pending (psig k)) (n - 1) /\ queued k' n = queued k n;
  td_queue : forall n, is_valid_signo n = true -> process_due k n = true -> with_info k n = true -> process_due k' n = false -> queued k' n = []
}.

Lemma takes_due_blocks k k' n : takes_due k k' -> blocks k' n = blocks k n.
Proof using. intros H. unfold blocks. by rewrite (td_blocked _ _ H). Qed.
Lemma takes_due_vector k k' n : takes_due k k' -> vector k' n = vector k n.
Proof using. intros H. unfold vector. by rewrite (td_vectors _ _ H). Qed.

(** What is not due does not become due. *)
Lemma takes_due_mono k k' n : takes_due k k' -> is_valid_signo n = true ->
  (thread_due k n = false -> thread_due k' n = false) /\ (process_due k n = false -> process_due k' n = false).
Proof using.
  intros H Hn. pose proof (takes_due_blocks _ _ n H) as HB. split; intros Hd; unfold thread_due, process_due; rewrite HB.
  - rewrite (td_thread _ _ H n Hn Hd). exact Hd.
  - rewrite (proj1 (td_process _ _ H n Hn Hd)). exact Hd.
Qed.

Lemma takes_due_refl k : sets_ok k -> takes_due k k.
Proof using. intros H. split; try done. intros n _ H1 _ H2. congruence. Qed.

Lemma takes_due_trans k k1 k2 : takes_due k k1 -> takes_due k1 k2 -> takes_due k k2.
Proof using.
  intros H1 H2. split; [etransitivity; [apply H2|apply H1]..|apply H2| | |].
  - intros n Hn Hd. rewrite (td_thread _ _ H2 n Hn); [by apply H1|]. by apply (takes_due_mono _ _ n H1).
  - intros n Hn Hd. destruct (takes_due_mono _ _ n H1 Hn) as [_ Hm]. destruct (td_process _ _ H2 n Hn (Hm Hd)) as [-> ->]. by apply H1.
  - intros n Hn Hd Hi H0. destruct (process_due k1 n) eqn:E1.
    + apply H2; [done..| |done]. unfold with_info. by rewrite (takes_due_vector _ _ n H1).
    + rewrite (proj2 (td_process _ _ H2 n Hn E1)). by apply (td_queue _ _ H1).
Qed.

Lemma takes_due_actions k k' : takes_due k k' -> actions_ok k -> actions_ok k'.
Proof using.
  intros H HA n Hn Hd. rewrite (takes_due_vector _ _ n H). unfold with_info. rewrite (takes_due_vector _ _ n H).
  destruct (takes_due_mono _ _ n H Hn) as [HT HP]. destruct (HA n Hn) as (H1 & H2 & H3).
  - destruct (thread_due k n); [done|]. destruct (process_due k n); [done|]. by rewrite HT, HP in Hd.
  - split_and!; [done..|]. intros HD. apply H3. destruct (thread_due k n); [done|]. by rewrite HT in HD.
Qed.

Lemma due_meets k n s : is_valid_signo n = true -> sets_ok k ->
  meets (signo_to_mask n) (Z.land s (not32 (signals_blocked (posix_api k t)))) = Z.testbit s (n - 1) && negb (blocks k n).
Proof using.
  intros Hn HS. pose proof (valid_range n Hn). rewrite meets_bit_l by done. rewrite Z.land_spec, not32_testbit by (apply HS || lia).
  by rewrite (proj2 (Z.ltb_lt _ _)) by lia.
Qed.
End Due.

(** ** What the handlers see

    [log] is a trace of the calls that the handlers leave in the state; they may do anything
    else but send signals and change masks and actions. *)
Section Delivery.
Context (call_handler : Z -> Z -> Kernel -> Kernel) (call_sigaction : Z -> Z -> option siginfo_t -> Kernel -> Kernel).
Context {A : Type} (log : Kernel -> list A) (entry : Z -> option siginfo_t -> A).

Definition same_signals (k k' : Kernel) : Prop :=
  posix_signals (rtems k') = posix_signals (rtems k) /\ posix_apis (rtems k') = posix_apis (rtems k) /\
  API_Extensions_POSIX (rtems k') = API_Extensions_POSIX (rtems k).
Record observed : Prop := {
  ob_handler : forall r n k, log (call_handler r n k) = log k ++ [entry n None] /\ same_signals k (call_handler r n k);
  ob_sigaction : forall r n i k, log (call_sigaction r n i k) = log k ++ [entry n i] /\ same_signals k (call_sigaction r n i k);
  ob_rtems : forall r k, log (set_rtems r k) = log k;
  ob_counter : forall v k, log (set_post_task_switch_extension v k) = log k
}.
Context (HO : observed) (t : Z).

(** The calls for a signal that is due, in their order. *)
Definition expected1 (k : Kernel) (n : Z) : list A :=
  (if thread_due t k n then [entry n None] else []) ++
  (if process_due t k n then
     if with_info k n then
       match queued k n with [] => [entry n None] | q => (fun x => entry n (Some (siginfo_nodes (psig k) !!! x))) <$> q end
     else [entry n None]
   else []).
Definition expected (k : Kernel) : list A := flat_map (expected1 k) delivery_order.

(** One call was made, for the signal [n]. *)
Record delivers (n : Z) (k k' : Kernel) : Prop := {
  de_takes : takes_due t k k';
  de_other : forall m, is_valid_signo m = true -> m <> n -> expected1 k' m = expected1 k m;
  de_log : exists e : A, log k' = log k ++ [e] /\ expected1 k n = e :: expected1 k' n
}.

Lemma same_api k k' u : same_signals k k' -> posix_api k' u = posix_api k u.
Proof using. intros (_ & E1 & E2). unfold posix_api, posix_block. by rewrite E1, E2. Qed.

(** Around the call of a handler the signals of its action are blocked. *)
Lemma around_call k k1 mask : same_signals (upd_posix_api t (fun a => set_signals_blocked (Z.lor (signals_blocked a) mask) a) k) k1 ->
  let k2 := upd_posix_api t (set_signals_blocked (signals_blocked (posix_api k t))) k1 in
  psig k2 = psig k /\ posix_api k2 t = posix_api k t /\ API_Extensions_POSIX (rtems k2) = API_Extensions_POSIX (rtems k).
Proof using.
  intros HS. cbn zeta. split_and!.
  - exact (proj1 HS).
  - rewrite posix_api_upd_self, (same_api _ _ _ HS), posix_api_upd_self. by destruct (posix_api k t).
  - exact (proj2 (proj2 HS)).
Qed.

Lemma check_not_due n (g : bool) k : is_valid_signo n = true -> sets_ok t k -> (if g then process_due t k n else thread_due t k n) = false ->
  _POSIX_signals_Check_signal call_handler call_sigaction t n g k = Some (false, k).
Proof using.
  intros Hn HS Hd. unfold _POSIX_signals_Check_signal, _POSIX_signals_Clear_signals. rewrite !due_meets by done.
  destruct g; unfold process_due, thread_due in Hd; by rewrite Hd.
Qed.

(** The handler of a signal that was just cleared is called. *)
Lemma check_calls n (g : bool) k i k1 : _POSIX_signals_Clear_signals t n g true k = (true, i, k1) ->
  sa_handler (vector k1 n) <> NULL -> sa_handler (vector k1 n) <> SIG_IGN ->
  (g = false -> with_info k1 n = false) -> (with_info k1 n = false -> i = None) ->
  exists k2, _POSIX_signals_Check_signal call_handler call_sigaction t n g k = Some (true, k2) /\ log k2 = log k1 ++ [entry n i] /\
    psig k2 = psig k1 /\ posix_api k2 t = posix_api k1 t /\ API_Extensions_POSIX (rtems k2) = API_Extensions_POSIX (rtems k1).
Proof using HO.
  intros HC H1 H2 Hg Hi. unfold _POSIX_signals_Check_signal. rewrite HC, (proj2 (Z.eqb_neq _ _) H1), (proj2 (Z.eqb_neq _ _) H2).
  unfold with_info in *. set (ks := upd_posix_api t _ k1). assert (log ks = log k1) as HL by apply HO.
  destruct (sa_flags (vector k1 n) =? SA_SIGINFO).
  - destruct g; [|by specialize (Hg eq_refl)]. cbn [negb]. eexists. split; [done|].
    destruct (ob_sigaction HO (sa_handler (vector k1 n)) n i ks) as [EL ES]. split; [|by apply (around_call k1 _ (sa_mask (vector k1 n)))].
    unfold upd_posix_api at 1, upd_rtems. by rewrite (ob_rtems HO), EL, HL.
  - rewrite (Hi eq_refl). eexists. split; [done|].
    destruct (ob_handler HO (sa_handler (vector k1 n)) n ks) as [EL ES]. split; [|by apply (around_call k1 _ (sa_mask (vector k1 n)))].
    unfold upd_posix_api at 1, upd_rtems. by rewrite (ob_rtems HO), EL, HL.
Qed.

Lemma bit_ne m n : is_valid_signo m = true -> m <> n -> (m - 1 =? n - 1) = false.
Proof using. intros _ H. apply Z.eqb_neq. lia. Qed.

Lemma cleared_u32 s n : u32 s -> u32 (Z.land s (not32 (signo_to_mask n))).
Proof using. intros H. apply land_u32; [done|]. pose proof (mask_u32 n) as [H1 H2]. unfold not32. lia. Qed.

(** A signal that pends for the thread. *)
Lemma delivers_thread n k : is_valid_signo n = true -> sets_ok t k -> actions_ok t k -> thread_due t k n = true ->
  exists k', _POSIX_signals_Check_signal call_handler call_sigaction t n false k = Some (true, k') /\ delivers n k k'.
Proof using HO.
  intros Hn HS HA Hd. destruct (HA n Hn) as (H1 & H2 & H3); [by rewrite Hd|]. specialize (H3 Hd). pose proof (valid_range n Hn).
  set (k1 := upd_posix_api t (fun a => set_thread_signals_pending (Z.land (thread_signals_pending a) (not32 (signo_to_mask n))) a) k).
  destruct (check_calls n false k None k1) as (k2 & E & EL & EP & EA & EX); [|done..|].
  { unfold _POSIX_signals_Clear_signals. rewrite due_meets by done. unfold thread_due in Hd. by rewrite Hd. }
  exists k2. split; [done|]. unfold k1 in EA. rewrite posix_api_upd_self in EA.
  assert (log k1 = log k) as EL1 by apply HO. rewrite EL1 in EL. assert (psig k1 = psig k) as EP1 by done. rewrite EP1 in EP.
  assert (API_Extensions_POSIX (rtems k2) = API_Extensions_POSIX (rtems k)) as EX' by by rewrite EX. clear EX EL1 EP1. clearbody k1. clear k1.
  assert (forall m, blocks t k2 m = blocks t k m) as EB by (intros m; unfold blocks; by rewrite EA).
  assert (forall m, process_due t k2 m = process_due t k m) as ED by (intros m; unfold process_due; by rewrite EP, EB).
  assert (forall m, is_valid_signo m = true -> thread_due t k2 m = thread_due t k m && negb (m - 1 =? n - 1)) as ET.
  { intros m Hm. pose proof (valid_range m Hm). unfold thread_due. rewrite EB, EA. simpl. rewrite cleared_bit by (done || lia).
    destruct (Z.testbit _ _), (blocks _ _ _), (m - 1 =? n - 1); done. }
  split.
  - split; [done|by rewrite EA|by rewrite EP..| | |intros m _ _; unfold queued; by rewrite EP|].
    + split; rewrite ?EA, ?EP; [apply HS|apply cleared_u32, HS|apply HS].
    + intros m Hm Hdm. pose proof (valid_range m Hm). rewrite EA. simpl. rewrite cleared_bit by (done || lia).
      rewrite bit_ne, andb_true_r by (done || congruence). done.
    + intros m _ Hp _ Hp'. rewrite ED in Hp'. congruence.
  - intros m Hm Hne. unfold expected1, with_info, vector, queued. rewrite ED, ET, EP, bit_ne, andb_true_r by done. done.
  - exists (entry n None). split; [done|]. unfold expected1, with_info, vector, queued. by rewrite ED, ET, EP, Hd, Z.eqb_refl, andb_false_r.
Qed.

(** A signal that pends for the process, cleared: the next information, if it has any, and
    the signal goes on pending while there is more. *)
Lemma clear_process_spec n k : is_valid_signo n = true -> sets_ok t k -> process_due t k n = true ->
  exists i k1, _POSIX_signals_Clear_signals t n true true k = (true, i, k1) /\ log k1 = log k /\
    API_Extensions_POSIX (rtems k1) = API_Extensions_POSIX (rtems k) /\ posix_apis (rtems k1) = posix_apis (rtems k) /\
    _POSIX_signals_Vectors (psig k1) = _POSIX_signals_Vectors (psig k) /\ siginfo_nodes (psig k1) = siginfo_nodes (psig k) /\
    (forall m, queued k1 m = if decide (m = n) then (if with_info k n then tl (queued k n) else queued k n) else queued k m) /\
    _POSIX_signals_Pending (psig k1) =
      (if with_info k n && negb (bool_decide (tl (queued k n) = [])) then _POSIX_signals_Pending (psig k)
       else Z.land (_POSIX_signals_Pending (psig k)) (not32 (signo_to_mask n))) /\
    i = (if with_info k n then (fun x => siginfo_nodes (psig k) !!! x) <$> head (queued k n) else None).
Proof using HO.
  intros Hn HS Hd. unfold _POSIX_signals_Clear_signals. rewrite due_meets by done. unfold process_due in Hd. rewrite Hd.
  fold (with_info k n). assert (forall mask k0, log (_POSIX_signals_Clear_process_signals mask k0) = log k0) as HL.
  { intros mask k0. unfold _POSIX_signals_Clear_process_signals. destruct (_ =? 0); [rewrite (ob_counter HO)|]; apply HO. }
  assert (forall mask k0, rtems (_POSIX_signals_Clear_process_signals mask k0) =
    rtems (upd_psig (fun s => set_signals_Pending (Z.land (_POSIX_signals_Pending s) (not32 mask)) s) k0)) as HR.
  { intros mask k0. unfold _POSIX_signals_Clear_process_signals. by destruct (_ =? 0). }
  destruct (with_info k n).
  - unfold take_siginfo. set (ka := upd_psig _ k). assert (queued ka n = tl (queued k n)) as EQ by apply lookup_total_insert_eq.
    rewrite EQ. set (kb := match tl (queued k n) with [] => _ | _ => ka end).
    assert (log kb = log k) as ELb. { unfold kb. destruct (tl _); [rewrite HL|]; apply HO. }
    assert (rtems kb = rtems (upd_psig (fun s => set_signals_Pending
      (if negb (bool_decide (tl (queued k n) = [])) then _POSIX_signals_Pending (psig k)
       else Z.land (_POSIX_signals_Pending (psig k)) (not32 (signo_to_mask n))) s) ka)) as ERb.
    { unfold kb. destruct (tl (queued k n)); [by rewrite HR|]. done. }
    exists ((fun x => siginfo_nodes (psig k) !!! x) <$> head (queued k n)).
    assert (forall m, (<[n:=tl (queued k n)]> (_POSIX_signals_Siginfo (psig k)) : gmap Z (list Z)) !!! m =
      if decide (m = n) then tl (queued k n) else queued k m) as EM.
    { intros m. case_decide; [subst m; apply lookup_total_insert_eq|by apply lookup_total_insert_ne]. }
    assert (psig kb = set_signals_Pending (if negb (bool_decide (tl (queued k n) = [])) then _POSIX_signals_Pending (psig k)
       else Z.land (_POSIX_signals_Pending (psig k)) (not32 (signo_to_mask n))) (psig ka)) as EPb by (unfold psig at 1; by rewrite ERb).
    assert (API_Extensions_POSIX (rtems kb) = API_Extensions_POSIX (rtems k) /\ posix_apis (rtems kb) = posix_apis (rtems k)) as [EXb EAb]
      by (by rewrite ERb).
    clearbody kb. cbn [andb]. destruct (head (queued k n)) as [x|]; eexists; (split; [by rewrite ?EPb|]);
      (split_and!; [rewrite <- ELb; done || apply HO|done|done|by rewrite ?psig_upd, EPb..| |by rewrite ?psig_upd, EPb|done]);
      intros m; unfold queued at 1; rewrite ?psig_upd, EPb; apply EM.
  - exists None. eexists. split; [done|]. set (k1 := _POSIX_signals_Clear_process_signals _ k).
    assert (psig k1 = set_signals_Pending (Z.land (_POSIX_signals_Pending (psig k)) (not32 (signo_to_mask n))) (psig k)) as EP1
      by (unfold psig at 1, k1; by rewrite HR).
    split_and!; [apply HL|unfold k1; by rewrite HR..|by rewrite EP1|by rewrite EP1| |by rewrite EP1|done].
    intros m. unfold queued at 1. rewrite EP1. by case_decide; subst.
Qed.

Lemma delivers_process n k : is_valid_signo n = true -> sets_ok t k -> actions_ok t k -> thread_due t k n = false -> process_due t k n = true ->
  exists k', _POSIX_signals_Check_signal call_handler call_sigaction t n true k = Some (true, k') /\ delivers n k k'.
Proof using HO.
  intros Hn HS HA Ht Hd. destruct (HA n Hn) as (H1 & H2 & _); [by rewrite Hd, orb_true_r|]. pose proof (valid_range n Hn).
  destruct (clear_process_spec n k Hn HS Hd) as (i & k1 & HC & EL1 & EX1 & EA1 & EV1 & EN1 & EQ1 & EP1 & Ei).
  assert (vector k1 n = vector k n) as Ev by (unfold vector; by rewrite EV1).
  destruct (check_calls n true k i k1) as (k2 & E & EL & EP & EA & EX); [done|by rewrite Ev..|done| |].
  { unfold with_info. rewrite Ev. fold (with_info k n). intros Hw. by rewrite Ei, Hw. }
  assert (posix_api k1 t = posix_api k t) as Ea by (unfold posix_api, posix_block; by rewrite EA1, EX1).
  exists k2. split; [done|]. rewrite Ea in EA. rewrite EX1 in EX. rewrite EL1 in EL. unfold queued in EQ1. rewrite <- EP in *.
  clear E HC EL1 EX1 EA1 Ev Ea. clear EP k1.
  assert (forall m, blocks t k2 m = blocks t k m) as EB by (intros m; unfold blocks; by rewrite EA).
  assert (forall m, with_info k2 m = with_info k m) as EW by (intros m; unfold with_info, vector; by rewrite EV1).
  assert (forall m, thread_due t k2 m = thread_due t k m) as ET by (intros m; unfold thread_due; by rewrite EA, EB).
  set (more := with_info k n && negb (bool_decide (tl (queued k n) = []))) in *.
  assert (forall m, is_valid_signo m = true -> Z.testbit (_POSIX_signals_Pending (psig k2)) (m - 1) =
    Z.testbit (_POSIX_signals_Pending (psig k)) (m - 1) && (more || negb (m - 1 =? n - 1))) as EB2.
  { intros m Hm. pose proof (valid_range m Hm). rewrite EP1. destruct more; [by rewrite andb_true_r|]. apply cleared_bit; done || lia. }
  assert (forall m, is_valid_signo m = true -> process_due t k2 m = process_due t k m && (more || negb (m - 1 =? n - 1))) as ED.
  { intros m Hm. unfold process_due. rewrite EB, EB2 by done. destruct (Z.testbit _ _), (blocks _ _ _), (more || _); done. }
  split.
  - split; [done|by rewrite EA|done|done| |by intros m _ _; rewrite EA| |].
    + split; rewrite ?EA; [apply HS..|]. rewrite EP1. destruct more; [|apply cleared_u32]; apply HS.
    + intros m Hm Hdm. assert (m <> n) as Hne by congruence. rewrite EB2, bit_ne, orb_true_r, andb_true_r by done.
      split; [done|]. unfold queued at 1. by rewrite EQ1, decide_False.
    + intros m Hm Hp Hw Hp'. rewrite ED, Hp in Hp' by done. apply orb_false_iff in Hp' as [Hmo Hmn].
      apply negb_false_iff, Z.eqb_eq in Hmn. assert (m = n) as -> by lia. unfold queued. rewrite EQ1, decide_True, Hw by done.
      unfold more in Hmo. rewrite Hw in Hmo. cbn [andb] in Hmo. by apply negb_false_iff, bool_decide_eq_true in Hmo.
  - intros m Hm Hne. unfold expected1, queued. rewrite EW, ET, ED, EN1, EQ1, decide_False, bit_ne, orb_true_r, andb_true_r by done. done.
  - exists (entry n i). split; [done|]. unfold expected1. rewrite ET, Ht, EW, ED, Hd, Z.eqb_refl, orb_false_r, EN1 by done.
    assert (queued k2 n = if with_info k n then tl (queued k n) else queued k n) as -> by (unfold queued; by rewrite EQ1, decide_True).
    rewrite Ei. unfold more. destruct (with_info k n); [|done]. destruct (queued k n) as [|x [|y q]]; done.
Qed.

(** One pass calls the handler of the first signal that is due. *)
Lemma check_signals_due l k : sets_ok t k -> actions_ok t k -> (forall n, n ∈ l -> is_valid_signo n = true) ->
  (check_signals call_handler call_sigaction t l k = Some (false, k) /\ forall n, n ∈ l -> expected1 k n = []) \/
  exists l1 n l2 k', l = l1 ++ n :: l2 /\ (forall m, m ∈ l1 -> expected1 k m = []) /\
    check_signals call_handler call_sigaction t l k = Some (true, k') /\ delivers n k k'.
Proof using HO.
  intros HS HA. induction l as [|n l IH]; intros Hl; [left; split; [done|set_solver]|].
  assert (is_valid_signo n = true) as Hn by (apply Hl; set_solver). cbn [check_signals].
  destruct (thread_due t k n) eqn:Ht.
  { right. destruct (delivers_thread n k Hn HS HA Ht) as (k' & -> & HD). exists [], n, l, k'. split_and!; [done|set_solver|done..]. }
  rewrite (check_not_due n false k Hn HS Ht). destruct (process_due t k n) eqn:Hp.
  { right. destruct (delivers_process n k Hn HS HA Ht Hp) as (k' & -> & HD). exists [], n, l, k'. split_and!; [done|set_solver|done..]. }
  rewrite (check_not_due n true k Hn HS Hp). assert (expected1 k n = []) as H0 by (unfold expected1; by rewrite Ht, Hp).
  destruct IH as [[-> HE]|(l1 & m & l2 & k' & -> & HE & -> & HD)]; [intros m Hm; apply Hl; set_solver|left|right].
  - split; [done|]. intros m [-> |Hm]%elem_of_cons; auto.
  - exists (n :: l1), m, l2, k'. split_and!; try done. intros v [-> |Hv]%elem_of_cons; auto.
Qed.

Lemma to_take_bit k n : is_valid_signo n = true -> sets_ok t k ->
  Z.testbit (signals_to_take k t) (n - 1) = thread_due t k n || process_due t k n.
Proof using.
  intros Hn HS. pose proof (valid_range n Hn). unfold signals_to_take, thread_due, process_due.
  rewrite Z.land_spec, Z.lor_spec, not32_testbit, (proj2 (Z.ltb_lt _ _)) by (apply HS || lia). fold (blocks t k n).
  destruct (blocks t k n), (Z.testbit _ _), (Z.testbit _ _); done.
Qed.

Lemma nothing_expected k n : expected1 k n = [] <-> thread_due t k n || process_due t k n = false.
Proof using.
  unfold expected1. destruct (thread_due t k n), (process_due t k n), (with_info k n); try done. by destruct (queued k n).
Qed.

Lemma to_take_zero k : sets_ok t k -> signals_to_take k t = 0 <-> forall n, is_valid_signo n = true -> expected1 k n = [].
Proof using.
  intros HS. split.
  - intros H0 n Hn. apply nothing_expected. by rewrite <- to_take_bit, H0, Z.bits_0.
  - intros H0. destruct (Z.eq_dec (signals_to_take k t) 0) as [|Hne]; [done|]. destruct (u32_member (signals_to_take k t)) as (n & Hn & Hb); [|done|].
    + apply land_u32; [|apply Z.lor_nonneg; split; apply HS]. pose proof (se_blocked _ _ HS) as [H1 H2]. unfold not32, u32. unfold two32 in *. lia.
    + rewrite to_take_bit in Hb by done. apply H0, nothing_expected in Hn. congruence.
Qed.

Lemma flat_map_nil (f : Z -> list A) l : (forall n, n ∈ l -> f n = []) -> flat_map f l = [].
Proof using. induction l as [|m l IH]; intros H; [done|]. cbn [flat_map]. rewrite H, IH; [done| |apply elem_of_cons; by left]. intros n Hn. apply H, elem_of_cons. by right. Qed.

Lemma delivers_expected n k k' l1 l2 : delivery_order = l1 ++ n :: l2 -> (forall m, m ∈ l1 -> expected1 k m = []) -> delivers n k k' ->
  exists e, log k' = log k ++ [e] /\ expected k = e :: expected k'.
Proof using HO.
  intros EO H1 HD. destruct (de_log _ _ _ HD) as (e & EL & EE). exists e. split; [done|]. unfold expected. rewrite EO, !flat_map_app. cbn [flat_map].
  pose proof order_nodup as HN. rewrite EO in HN. assert (forall m, m ∈ l1 ++ l2 -> m <> n /\ is_valid_signo m = true) as Hv.
  { intros m Hm. apply NoDup_app_3 in HN as [_ HN]. split; [set_solver|]. apply in_order. rewrite EO. set_solver. }
  assert (forall l, (forall m, m ∈ l -> m ∈ l1 ++ l2) -> flat_map (expected1 k') l = flat_map (expected1 k) l) as HF.
  { intros l Hl. induction l as [|m l IH]; [done|]. cbn [flat_map]. rewrite IH by set_solver.
    destruct (Hv m) as [Hm1 Hm2]; [set_solver|]. by rewrite (de_other _ _ _ HD m). }
  rewrite !HF by set_solver. rewrite (flat_map_nil _ l1 H1). by rewrite EE.
Qed.

Lemma masked_bits s s' b : u32 s -> u32 s' -> (forall n, is_valid_signo n = true ->
  Z.testbit s' (n - 1) = Z.testbit s (n - 1) && Z.testbit b (n - 1)) -> s' = Z.land s b.
Proof using.
  intros Hs Hs' H. apply Z.bits_inj'. intros i Hi. rewrite Z.land_spec. destruct (Z_lt_le_dec i 32) as [Hlt|Hge].
  - specialize (H (i + 1)). replace (i + 1 - 1) with i in H by lia. apply H. unfold is_valid_signo. apply andb_true_iff. rewrite !Z.leb_le. lia.
  - assert (forall x, u32 x -> Z.testbit x i = false) as HB; [|rewrite (HB s Hs), (HB s' Hs'); done].
    intros x [H1 H2]. destruct (Z.eq_dec x 0) as [->|]; [apply Z.bits_0|]. apply Z.bits_above_log2; [done|].
    apply Z.lt_le_trans with 32; [|done]. apply Z.log2_lt_pow2; change (2 ^ 32) with two32; lia.
Qed.

(** Handlers that do not send signals: all that is due is delivered, in one go. *)
Lemma quiet_delivery fuel k : sets_ok t k -> actions_ok t k -> (length (expected k) < fuel)%nat ->
  exists k', _POSIX_signals_Post_switch_extension call_handler call_sigaction fuel t k = Returned 0 k' /\
    log k' = log k ++ expected k /\ takes_due t k k' /\
    thread_signals_pending (posix_api k' t) = Z.land (thread_signals_pending (posix_api k t)) (signals_blocked (posix_api k t)) /\
    _POSIX_signals_Pending (psig k') = Z.land (_POSIX_signals_Pending (psig k)) (signals_blocked (posix_api k t)) /\
    (forall n, is_valid_signo n = true -> process_due t k n = true -> with_info k n = true -> queued k' n = []).
Proof using HO.
  intros HS HA Hf. assert (exists k', _POSIX_signals_Post_switch_extension call_handler call_sigaction fuel t k = Returned 0 k' /\
    log k' = log k ++ expected k /\ takes_due t k k' /\ signals_to_take k' t = 0) as (k' & HR & HL & HT & H0).
  { revert k HS HA Hf. induction fuel as [|fuel IH]; [lia|]. intros k HS HA Hf. cbn [_POSIX_signals_Post_switch_extension].
    destruct (Z.eqb_spec (signals_to_take k t) 0) as [H0|H0].
    { exists k. split_and!; [done| |by apply takes_due_refl|done]. rewrite to_take_zero in H0 by done. unfold expected.
      rewrite flat_map_nil, app_nil_r; [done|]. intros n Hn. by apply H0, in_order. }
    destruct (check_signals_due delivery_order k HS HA) as [[_ HE]|(l1 & n & l2 & k1 & EO & H1 & -> & HD)]; [intros n; apply in_order| |].
    { destruct H0. apply to_take_zero; [done|]. intros n Hn. apply HE. by apply in_order. }
    destruct (delivers_expected n k k1 l1 l2 EO H1 HD) as (e & EL & EE). pose proof (de_takes _ _ _ HD) as HT.
    destruct (IH k1) as (k' & HR & HL & HT' & H2); [apply HT|by apply (takes_due_actions t k)|rewrite EE in Hf; simpl in Hf; lia|].
    exists k'. split_and!; [done| |by apply (takes_due_trans t k k1)|done]. by rewrite HL, EL, EE, <- app_assoc. }
  exists k'. split_and!; try done.
  all: assert (forall n, is_valid_signo n = true -> thread_due t k' n = false /\ process_due t k' n = false) as HN
    by (intros n Hn; apply orb_false_iff, nothing_expected; by apply to_take_zero; [apply HT|..]).
  - apply masked_bits; [apply HS|apply HT|]. intros n Hn. destruct (HN n Hn) as [H1 _]. fold (blocks t k n).
    destruct (thread_due t k n) eqn:E1; [|rewrite (td_thread _ _ _ HT n Hn E1)]; unfold thread_due in *; rewrite ?(takes_due_blocks _ _ _ n HT) in H1;
      destruct (blocks t k n), (Z.testbit _ _), (Z.testbit _ _); done.
  - apply masked_bits; [apply HS|apply HT|]. intros n Hn. destruct (HN n Hn) as [_ H1]. fold (blocks t k n).
    destruct (process_due t k n) eqn:E1; [|rewrite (proj1 (td_process _ _ _ HT n Hn E1))]; unfold process_due in *; rewrite ?(takes_due_blocks _ _ _ n HT) in H1;
      destruct (blocks t k n), (Z.testbit _ _), (Z.testbit _ _); done.
  - intros n Hn Hp Hw. apply (td_queue _ _ _ HT); try done. by apply HN.
Qed.
End Delivery.

(** ** Any handlers

    A handler may send signals and change masks and actions: the extension starts again
    after each call. *)
Section Run.
Context (call_handler : Z -> Z -> Kernel -> Kernel) (call_sigaction : Z -> Z -> option siginfo_t -> Kernel -> Kernel) (t : Z).

Definition due (k : Kernel) (n : Z) : bool := thread_due t k n || process_due t k n.

(** The state after the handler, called in the state [k1] with the signals of its action
    blocked, and with the mask it was called under put back. *)
Definition handled (n : Z) (i : option siginfo_t) (k1 : Kernel) : Kernel :=
  let a := vector k1 n in
  let masked := upd_posix_api t (fun p => set_signals_blocked (Z.lor (signals_blocked p) (sa_mask a)) p) k1 in
  upd_posix_api t (set_signals_blocked (signals_blocked (posix_api k1 t)))
    (if sa_flags a =? SA_SIGINFO then call_sigaction (sa_handler a) n i masked else call_handler (sa_handler a) n masked).

(** One call: of the first signal in the order of delivery that is due, for the thread
    rather than for the process, after it was taken off what pends. *)
Inductive handler_call (k : Kernel) : Kernel -> Prop :=
  | first_due l1 n l2 i k1 : delivery_order = l1 ++ n :: l2 -> (forall m, m ∈ l1 -> due k m = false) -> due k n = true ->
      _POSIX_signals_Clear_signals t n (negb (thread_due t k n)) true k = (true, i, k1) -> handler_call k (handled n i k1).

Lemma clear_vectors n g k b i k1 : _POSIX_signals_Clear_signals t n g true k = (b, i, k1) -> vector k1 n = vector k n.
Proof using.
  assert (forall mask k0, vector (_POSIX_signals_Clear_process_signals mask k0) n = vector k0 n) as HC.
  { intros mask k0. unfold _POSIX_signals_Clear_process_signals. by destruct (_ =? 0). }
  unfold _POSIX_signals_Clear_signals, take_siginfo. destruct g; (destruct (meets _ _); [|by intros [= _ _ <-]]); [|by intros [= _ _ <-]].
  destruct (_ =? SA_SIGINFO); [|intros [= _ _ <-]; by rewrite HC]. set (ka := upd_psig _ k). set (kb := match queued ka n with [] => _ | _ => ka end).
  assert (vector kb n = vector k n) as EB by (unfold kb; destruct (queued ka n); [by rewrite HC|done]).
  destruct (head (queued k n)); intros [= _ _ <-]; exact EB.
Qed.

Lemma check_handles n g k i k1 : _POSIX_signals_Clear_signals t n g true k = (true, i, k1) -> sa_handler (vector k n) <> NULL ->
  sa_handler (vector k n) <> SIG_IGN -> (g = false -> with_info k n = false) ->
  _POSIX_signals_Check_signal call_handler call_sigaction t n g k = Some (true, handled n i k1).
Proof using.
  intros HC H1 H2 Hg. unfold _POSIX_signals_Check_signal, handled. rewrite HC, (clear_vectors _ _ _ _ _ _ HC).
  rewrite (proj2 (Z.eqb_neq _ _) H1), (proj2 (Z.eqb_neq _ _) H2). fold (with_info k n). destruct (with_info k n); [|done].
  destruct g; [done|by specialize (Hg eq_refl)].
Qed.

Lemma due_cleared n k : is_valid_signo n = true -> sets_ok t k -> due k n = true ->
  exists i k1, _POSIX_signals_Clear_signals t n (negb (thread_due t k n)) true k = (true, i, k1).
Proof using.
  intros Hn HS Hd. unfold _POSIX_signals_Clear_signals. rewrite !due_meets by done. fold (thread_due t k n) (process_due t k n). unfold due in Hd.
  destruct (thread_due t k n); cbn [negb orb] in *; [by eexists _, _|]. rewrite Hd. destruct (_ =? SA_SIGINFO); [|by eexists _, _].
  destruct (take_siginfo n k) as [i k1]. by eexists _, _.
Qed.

Lemma check_signals_runs l0 l k : sets_ok t k -> actions_ok t k -> delivery_order = l0 ++ l -> (forall m, m ∈ l0 -> due k m = false) ->
  (check_signals call_handler call_sigaction t l k = Some (false, k) /\ forall m, m ∈ delivery_order -> due k m = false) \/
  exists k', check_signals call_handler call_sigaction t l k = Some (true, k') /\ handler_call k k'.
Proof using.
  intros HS HA. revert l0. induction l as [|n l IH]; intros l0 EO H0; [left; split; [done|]; by rewrite EO, app_nil_r|].
  assert (is_valid_signo n = true) as Hn by (apply in_order; rewrite EO; set_solver). cbn [check_signals]. destruct (due k n) eqn:Hd.
  - right. destruct (due_cleared n k Hn HS Hd) as (i & k1 & HC). destruct (HA n Hn Hd) as (H1 & H2 & H3).
    exists (handled n i k1). split; [|by apply (first_due k l0 n l i k1)]. destruct (thread_due t k n) eqn:Ht; cbn [negb] in HC.
    + rewrite (check_handles n false k i k1) by auto. done.
    + rewrite (check_not_due call_handler call_sigaction t n false k Hn HS Ht), (check_handles n true k i k1) by done. done.
  - apply orb_false_iff in Hd as [Ht Hp]. rewrite (check_not_due call_handler call_sigaction t n false k Hn HS Ht).
    rewrite (check_not_due call_handler call_sigaction t n true k Hn HS Hp).
    apply (IH (l0 ++ [n])); [by rewrite <- app_assoc|]. intros m Hm. apply elem_of_app in Hm as [Hm| ->%list_elem_of_singleton]; [auto|].
    unfold due. by rewrite Ht, Hp.
Qed.

Lemma nothing_to_take k : sets_ok t k -> signals_to_take k t = 0 <-> forall m, is_valid_signo m = true -> due k m = false.
Proof using.
  intros HS. rewrite (to_take_zero (A := unit) (fun _ _ => tt) t k HS). split; intros H m Hm; [by apply (nothing_expected (A := unit) (fun _ _ => tt)), H|].
  by apply nothing_expected, H.
Qed.

Lemma extension_runs (I : Kernel -> Prop) : (forall k, I k -> sets_ok t k /\ actions_ok t k) -> (forall k k', I k -> handler_call k k' -> I k') ->
  forall fuel k, I k ->
  (exists n k', (n < fuel)%nat /\ nsteps handler_call n k k' /\ (forall m, is_valid_signo m = true -> due k' m = false) /\
     _POSIX_signals_Post_switch_extension call_handler call_sigaction fuel t k = Returned 0 k') \/
  (exists k', nsteps handler_call fuel k k' /\ _POSIX_signals_Post_switch_extension call_handler call_sigaction fuel t k = Unfinished).
Proof using.
  intros HI HK. induction fuel as [|fuel IH]; intros k Hk; [right; exists k; split; [constructor|done]|].
  cbn [_POSIX_signals_Post_switch_extension]. destruct (HI k Hk) as [HS HA]. destruct (Z.eqb_spec (signals_to_take k t) 0) as [H0|H0].
  { left. exists 0%nat, k. split_and!; [lia|constructor|by apply nothing_to_take|done]. }
  destruct (check_signals_runs [] delivery_order k HS HA eq_refl) as [[_ HE]|(k1 & -> & HC)]; [set_solver| |].
  { destruct H0. apply nothing_to_take; [done|]. intros m Hm. by apply HE, in_order. }
  destruct (IH k1 (HK k k1 Hk HC)) as [(n & k' & Hn & HN & HD & HE)|(k' & HN & HE)].
  - left. exists (S n), k'. split_and!; [lia|by econstructor|done|done].
  - right. exists k'. split; [by econstructor|done].
Qed.
End Run.


(** ** Delivery in a small system *)

Module DeliveryExample.
Import ThreadExample.
(** The handlers write what they were called with into a list. *)
Definition call_handler (_ n : Z) (k : Kernel) : Kernel := set_User_extensions_List (_User_extensions_List k ++ [n]) k.
Definition entry (n : Z) (i : option siginfo_t) : Z := match i with None => n | Some i => 100 * n + si_value i end.
Definition call_sigaction (_ n : Z) (i : option siginfo_t) (k : Kernel) : Kernel :=
  set_User_extensions_List (_User_extensions_List k ++ [entry n i]) k.

(** Signals 5 and 16 pend for the thread, which blocks 5; 17 and 18 pend for the process, 18
    with two values. *)
Definition api : POSIX_API_Control :=
  set_thread_signals_pending (Z.lor (signo_to_mask 5) (signo_to_mask 16)) (set_signals_blocked (signo_to_mask 5) inhabitant).
Definition action (flags : Z) : sigaction_t := {| sa_flags := flags; sa_mask := SIGNAL_ALL_MASK; sa_handler := 900 |}.
Definition signals : POSIX_signals_State :=
  {| _POSIX_signals_Pending := Z.lor (signo_to_mask 17) (signo_to_mask 18);
     _POSIX_signals_Vectors := list_to_map [(16, action 0); (17, action 0); (18, action SA_SIGINFO)];
     _POSIX_signals_Inactive_siginfo := []; _POSIX_signals_Siginfo := {[ 18 := [40; 60] ]};
     siginfo_nodes := list_to_map [(40, user_siginfo 18 7); (60, user_siginfo 18 8)] |}.
Definition pending : Kernel := upd_rtems (fun r => set_API_Extensions_POSIX {[ 200 := 2000 ]}
  (set_posix_apis {[ 2000 := api ]} (set_posix_signals signals r))) k2.

Lemma handlers_observed : observed call_handler call_sigaction _User_extensions_List entry.
Proof. split; try done; intros; split; try done; by split_and!. Qed.

Lemma pending_sets : sets_ok 200 pending.
Proof. split; by_decide. Qed.

Lemma pending_actions : actions_ok 200 pending.
Proof.
  assert (forallb (fun n => negb (thread_due 200 pending n || process_due 200 pending n) ||
    (negb (sa_handler (vector pending n) =? NULL) && negb (sa_handler (vector pending n) =? SIG_IGN) &&
     (negb (thread_due 200 pending n) || negb (with_info pending n)))) delivery_order = true) as H by (vm_compute; reflexivity).
  generalize dependent pending. intros k H. rewrite forallb_forall in H. intros n Hn Hd. apply in_order, list_elem_of_In in Hn. specialize (H n Hn).
  rewrite Hd in H. cbn [negb orb] in H. rewrite !andb_true_iff, !negb_true_iff, !Z.eqb_neq in H. destruct H as [[H1 H2] H3].
  split_and!; [done..|]. intros HT. rewrite HT in H3. by destruct (with_info k n).
Qed.

Lemma pending_expected : expected entry 200 pending = [1807; 1808; 16; 17] /\ _User_extensions_List pending = [].
Proof. split; vm_compute; reflexivity. Qed.
Lemma pending_masks : Z.land (thread_signals_pending (posix_api pending 200)) (signals_blocked (posix_api pending 200)) = signo_to_mask 5 /\
  Z.land (_POSIX_signals_Pending (psig pending)) (signals_blocked (posix_api pending 200)) = 0.
Proof. split; vm_compute; reflexivity. Qed.

(** The handler of signal 16 sends signal 17 to the thread, and every action is plain. *)
Definition resend (_ n : Z) (k : Kernel) : Kernel :=
  if n =? 16 then upd_posix_api 200 (fun a => set_thread_signals_pending (Z.lor (thread_signals_pending a) (signo_to_mask 17)) a) k else k.
Definition no_sigaction (_ _ : Z) (_ : option siginfo_t) (k : Kernel) : Kernel := k.
Definition plain : Kernel := upd_psig (fun s => set_signals_Pending 0 (set_signals_Vectors (list_to_map ((fun n => (n, action 0)) <$> seqZ 1 32)) s)) pending.
Definition in_order_sets (k : Kernel) : Prop := sets_ok 200 k /\ forall n, is_valid_signo n = true -> vector k n = action 0.

Lemma plain_actions k : in_order_sets k -> sets_ok 200 k /\ actions_ok 200 k.
Proof. intros [HS HV]. split; [done|]. intros n Hn _. rewrite (HV n Hn). split_and!; [done..|]. intros _. unfold with_info. by rewrite (HV n Hn). Qed.

Lemma plain_cleared k n b i k1 : in_order_sets k -> is_valid_signo n = true ->
  _POSIX_signals_Clear_signals 200 n (negb (thread_due 200 k n)) true k = (b, i, k1) -> in_order_sets k1.
Proof.
  intros [HS HV] Hn. unfold _POSIX_signals_Clear_signals. rewrite (HV n Hn). change (sa_flags (action 0) =? SA_SIGINFO) with false.
  destruct (negb _); (destruct (meets _ _); [|by intros [= _ _ <-]]).
  - intros [= _ _ <-]. set (k2 := _POSIX_signals_Clear_process_signals _ k).
    assert (rtems k2 = rtems (upd_psig (fun s => set_signals_Pending (Z.land (_POSIX_signals_Pending s) (not32 (signo_to_mask n))) s) k)) as ER
      by (unfold k2, _POSIX_signals_Clear_process_signals; by destruct (_ =? 0)). split; [|intros m Hm; unfold vector, psig; rewrite ER; by apply HV].
    split; unfold posix_api, posix_block, psig; rewrite ER; [apply HS..|]. apply cleared_u32, HS.
  - intros [= _ _ <-]. split; [|exact HV]. split; rewrite ?posix_api_upd_self; [apply HS|apply cleared_u32, HS|apply HS].
Qed.

Lemma plain_kept k k' : in_order_sets k -> handler_call resend no_sigaction 200 k k' -> in_order_sets k'.
Proof.
  intros HI [l1 n l2 i k1 EO _ _ HC]. assert (is_valid_signo n = true) as Hn by (apply in_order; rewrite EO; set_solver).
  destruct (plain_cleared k n _ _ _ HI Hn HC) as [HS HV]. unfold handled. rewrite (HV n Hn). change (sa_flags (action 0) =? SA_SIGINFO) with false. cbv iota zeta.
  unfold resend. set (k2 := upd_posix_api 200 (fun p => _) k1). clear HC. destruct (n =? 16); (split; [|exact HV]); split; rewrite ?posix_api_upd_self; unfold k2;
    rewrite ?posix_api_upd_self; cbn; try apply HS; apply lor_u32; [apply HS|apply mask_u32].
Qed.

Lemma plain_start : in_order_sets plain.
Proof.
  split; [split; by_decide|]. assert (forallb (fun n => let v := vector plain n in
    (sa_flags v =? 0) && (sa_mask v =? SIGNAL_ALL_MASK) && (sa_handler v =? 900)) (seqZ 1 32) = true) as H by (vm_compute; reflexivity).
  generalize dependent plain. intros k H n Hn. rewrite forallb_forall in H. unfold is_valid_signo in Hn. rewrite andb_true_iff, !Z.leb_le in Hn.
  specialize (H n). rewrite !andb_true_iff, !Z.eqb_eq in H. destruct H as [[H1 H2] H3]; [apply list_elem_of_In, elem_of_seqZ; lia|].
  destruct (vector k n). cbn in *. by subst.
Qed.

Lemma plain_returns : match _POSIX_signals_Post_switch_extension resend no_sigaction 5 200 plain with Unfinished => false | _ => true end = true.
Proof. vm_compute. reflexivity. Qed.
End DeliveryExample.

