(* ===== verification/PosixSem.v ===== *)
(** * Semaphores of the POSIX API (posix/src/semaphore.c, posix/inline/rtems/posix/semaphore.inl)

    A semaphore is a core semaphore at offset 32 of its control block; a [sem_t] is a word of
    memory with the id.  [_POSIX_Semaphore_Name_to_id] is declared and called in the sources
    and defined nowhere: it is a parameter, with its status and the id it stores.  The values
    of local variables that are read before they are set are parameters, too.  The packets to
    other nodes are parameters; what is not implemented ends in an assertion. *)
From S2P Require Import Prelude Chain Watchdog Tod Object Priority ApiTypes Heap Kernel Thread Threadq Workspace.
From S2P Require Import CoreSem CoreMsg Rtems Partition Init Posix PosixKey PosixTime PosixMutex.

Definition ENOENT : Z := 2.
Definition EEXIST : Z := 17.
Definition O_CREAT : Z := 512.
Definition O_EXCL : Z := 2048.
Definition OBJECTS_POSIX_SEMAPHORES : Z := 16.
Definition _POSIX_PATH_MAX : Z := 255.
Definition minus_one : Z := wrap32 (-1).

Inductive POSIX_Semaphore_MP_Remote_operations : Type := POSIX_SEMAPHORE_MP_ANNOUNCE_CREATE | POSIX_SEMAPHORE_MP_ANNOUNCE_DELETE.

Definition posix_semaphore (k : Kernel) (s : Z) : POSIX_Semaphore_Control := posix_semaphores (rtems k) !!! s.
Definition upd_posix_semaphore (s : Z) (f : POSIX_Semaphore_Control -> POSIX_Semaphore_Control) (k : Kernel) : Kernel :=
  upd_rtems (fun r => set_posix_semaphores (<[s := f (posix_semaphore k s)]> (posix_semaphores r)) r) k.
Definition Core_semaphore (s : Z) : Z := s + 32.
(** The address of [Object.id]. *)
Definition id_address (s : Z) : Z := s + 8.

Definition _POSIX_Semaphore_Manager_initialization (workspace : Z) (hfuel : nat)
    (fatal_extensions : Internal_errors_Information -> Kernel -> Kernel) (node nodes : Z) (is_multiprocessing : bool)
    (size maximum_semaphores : Z) : Kernel -> outcome Kernel :=
  initialize_class workspace hfuel fatal_extensions node nodes is_multiprocessing OBJECTS_POSIX_SEMAPHORES true maximum_semaphores size
    true _POSIX_PATH_MAX false.

Section Directives.
Context (switch : Z -> Z -> Kernel -> Kernel) (postswitch : Kernel -> Kernel).
Context (isrs : list (Kernel -> Kernel)) (fuel : nat) (_Objects_Local_node _Objects_Maximum_nodes : Z).
Context (mp_allocate_and_open : Z -> Kernel -> bool * Kernel) (mp_close : Z -> Kernel -> Kernel).
Context (mp_announce : POSIX_Semaphore_MP_Remote_operations -> Z -> Z -> Kernel -> Kernel).
Context (name_to_id : Z -> Kernel -> Z * Z).

Notation finish := (enable_return switch postswitch isrs fuel).

(** The routines of [semaphore.inl]. *)
Definition _POSIX_Semaphore_Allocate : Kernel -> Z * Kernel := object_allocate OBJECTS_POSIX_SEMAPHORES.
Definition _POSIX_Semaphore_Free : Z -> Kernel -> Kernel := object_free OBJECTS_POSIX_SEMAPHORES.
Definition _POSIX_Semaphore_Get (id : Z) (k : Kernel) : option (Objects_Locations * Z * Kernel) :=
  object_get switch postswitch isrs fuel _Objects_Local_node _Objects_Maximum_nodes OBJECTS_POSIX_SEMAPHORES (ld32 (memory k) id) k.
Definition sem_id (k : Kernel) (s : Z) : Z := object_id k OBJECTS_POSIX_SEMAPHORES s.

(** ** Creation *)

(** The control block of a new semaphore.  The flags of one without a name are left as they
    are, but for [named]. *)
Definition semaphore_fields (name pshared : Z) (c : POSIX_Semaphore_Control) : POSIX_Semaphore_Control :=
  let c := set_sem_process_shared pshared c in
  if negb (name =? NULL) then set_sem_linked true (set_sem_open_count 1 (set_sem_named true c)) else set_sem_named false c.

Definition posix_semaphore_set_up (the_semaphore name pshared value : Z) (k : Kernel) : Kernel :=
  let k := upd_posix_semaphore the_semaphore (semaphore_fields name pshared) k in
  _CORE_semaphore_Initialize (Core_semaphore the_semaphore) OBJECTS_POSIX_SEMAPHORES CORE_SEMAPHORE_DISCIPLINES_FIFO value 0 k.

(** The semaphore, [NULL] if there is none, and what the caller is returned. *)
Definition _POSIX_Semaphore_Create_support (name pshared value : Z) (k : Kernel) : Z * result :=
  let k := _Thread_Disable_dispatch k in
  let '(the_semaphore, k) := _POSIX_Semaphore_Allocate k in
  let fails errno k := match finish 0 k with None => (NULL, Unfinished) | Some (_, k) => (NULL, Failed_with errno k) end in
  if the_semaphore =? NULL then fails ENOMEM k
  else
    let shared := pshared =? PTHREAD_PROCESS_SHARED in
    let '(opened, k) := if shared then mp_allocate_and_open (sem_id k the_semaphore) k else (true, k) in
    if negb opened then fails EAGAIN (_POSIX_Semaphore_Free the_semaphore k)
    else
      let k := posix_semaphore_set_up the_semaphore name pshared value k in
      match _Objects_Open fuel the_semaphore name (objects_of k OBJECTS_POSIX_SEMAPHORES) with
      | None => (NULL, Unfinished)
      | Some s =>
          let k := put_objects OBJECTS_POSIX_SEMAPHORES s k in
          let k := if shared then mp_announce POSIX_SEMAPHORE_MP_ANNOUNCE_CREATE (sem_id k the_semaphore) name k else k in
          (the_semaphore, returns (finish 0 k))
      end.

Definition sem_init (sem pshared value : Z) (k : Kernel) : result :=
  match _POSIX_Semaphore_Create_support NULL pshared value k with
  | (the_semaphore, Returned status k) => Returned status (put_word sem (sem_id k the_semaphore) k)
  | (_, r) => r
  end.

(** The answer to the id of a semaphore of another node. *)
Definition sem_remote (k : Kernel) : result :=
  match _Thread_Dispatch switch postswitch fuel isrs k with None => Unfinished | Some _ => Assertion_failed end.

(** ** Deletion *)

(** The other nodes are told. *)
Definition forget_shared (the_semaphore : Z) (k : Kernel) : Kernel :=
  if sem_process_shared (posix_semaphore k the_semaphore) =? PTHREAD_PROCESS_SHARED then
    let k := mp_close (sem_id k the_semaphore) k in
    mp_announce POSIX_SEMAPHORE_MP_ANNOUNCE_DELETE (sem_id k the_semaphore) 0 k
  else k.

(** For a semaphore with a name the call returns with dispatching disabled. *)
Definition sem_destroy (sem : Z) (k : Kernel) : result :=
  match _POSIX_Semaphore_Get sem k with
  | None => Unfinished
  | Some (OBJECTS_ERROR, _, k) => Failed_with EINVAL k
  | Some (OBJECTS_REMOTE, _, k) => sem_remote k
  | Some (OBJECTS_LOCAL, the_semaphore, k) =>
      if sem_named (posix_semaphore k the_semaphore) then Failed_with EINVAL k
      else
        let k := object_close OBJECTS_POSIX_SEMAPHORES the_semaphore k in
        match _CORE_semaphore_Flush fuel (Core_semaphore the_semaphore) minus_one k with
        | None => Unfinished
        | Some k => returns (finish 0 (forget_shared the_semaphore (_POSIX_Semaphore_Free the_semaphore k)))
        end
  end.

Definition _POSIX_Semaphore_Delete (the_semaphore : Z) (k : Kernel) : Kernel :=
  let c := posix_semaphore k the_semaphore in
  if negb (sem_linked c) && (sem_open_count c =? 0)
  then forget_shared the_semaphore (_POSIX_Semaphore_Free the_semaphore k) else k.

(** ** Named semaphores *)

(** [the_semaphore] is the local variable, which nothing sets.  The creation at the end of the
    routine is not reached: both branches of the test return. *)
Definition sem_open (the_semaphore name oflag : Z) (k : Kernel) : result :=
  let '(status, _) := name_to_id name k in
  if negb (status =? 0) then
    if (status =? EINVAL) && (Z.land oflag O_CREAT =? 0) then Failed_with ENOENT k
    else Failed_with status k
  else if Z.land oflag (Z.lor O_CREAT O_EXCL) =? Z.lor O_CREAT O_EXCL then Failed_with EEXIST k
  else Returned (id_address the_semaphore)
         (upd_posix_semaphore the_semaphore (fun c => set_sem_open_count (sem_open_count c +w 1) c) k).

Definition sem_close (sem : Z) (k : Kernel) : result :=
  match _POSIX_Semaphore_Get sem k with
  | None => Unfinished
  | Some (OBJECTS_ERROR, _, k) => Failed_with EINVAL k
  | Some (OBJECTS_REMOTE, _, k) => sem_remote k
  | Some (OBJECTS_LOCAL, the_semaphore, k) =>
      let k := upd_posix_semaphore the_semaphore (fun c => set_sem_open_count (sem_open_count c -w 1) c) k in
      returns (finish 0 (_POSIX_Semaphore_Delete the_semaphore k))
  end.

(** The status is tested the wrong way round: a name that is found is an error with [errno] 0.
    [the_semaphore_id] is the address of the local variable, which then holds what
    [name_to_id] left in it. *)
Definition sem_unlink (the_semaphore_id name : Z) (k : Kernel) : result :=
  let '(status, id) := name_to_id name k in
  let k := put_word the_semaphore_id id k in
  if status =? 0 then Failed_with status k
  else
    match _POSIX_Semaphore_Get the_semaphore_id k with
    | None => Unfinished
    | Some (OBJECTS_ERROR, _, k) => Failed_with EINVAL k
    | Some (OBJECTS_REMOTE, _, k) => sem_remote k
    | Some (OBJECTS_LOCAL, the_semaphore, k) =>
        let k := if sem_process_shared (posix_semaphore k the_semaphore) =? PTHREAD_PROCESS_SHARED
                 then mp_close (sem_id k the_semaphore) k else k in
        let k := upd_posix_semaphore the_semaphore (set_sem_linked false) k in
        returns (finish 0 (_POSIX_Semaphore_Delete the_semaphore k))
    end.

(** ** Waiting and posting; [resume] is what happens until the caller is executing again *)

Section Wait.
Context (timeout_routine : Z) (wfuel : nat) (wisr isr resume : Kernel -> Kernel) (qisrs : list (Kernel -> Kernel)).

(** What is returned is the status of the core semaphore, which was left for the caller. *)
Definition _POSIX_Semaphore_Wait_support (sem : Z) (blocking : bool) (timeout : Z) (k : Kernel) : result :=
  match _POSIX_Semaphore_Get sem k with
  | None => Unfinished
  | Some (OBJECTS_ERROR, _, k) => Failed_with EINVAL k
  | Some (OBJECTS_REMOTE, _, k) => sem_remote k
  | Some (OBJECTS_LOCAL, the_semaphore, k) =>
      match _CORE_semaphore_Seize timeout_routine wfuel wisr fuel qisrs isr (Core_semaphore the_semaphore)
              (sem_id k the_semaphore) blocking timeout k with
      | None => Unfinished
      | Some k =>
          match _Thread_Enable_dispatch switch postswitch fuel isrs k with
          | None => Unfinished
          | Some k => let k := resume k in Returned (signed32 (Wait_return_code (Wait (tcb k (_Thread_Executing k))))) k
          end
      end
  end.

Definition sem_wait (sem : Z) : Kernel -> result := _POSIX_Semaphore_Wait_support sem true THREAD_QUEUE_WAIT_FOREVER.
Definition sem_trywait (sem : Z) : Kernel -> result := _POSIX_Semaphore_Wait_support sem false THREAD_QUEUE_WAIT_FOREVER.
Definition sem_timedwait (sem : Z) (timeout : timespec) (k : Kernel) : result :=
  _POSIX_Semaphore_Wait_support sem true (_POSIX_Timespec_to_interval (_TOD_Microseconds_per_tick (tod k)) timeout) k.
End Wait.

Definition sem_post (mp_support : Z -> Z -> Kernel -> Kernel) (sem : Z) (k : Kernel) : result :=
  match _POSIX_Semaphore_Get sem k with
  | None => Unfinished
  | Some (OBJECTS_ERROR, _, k) => Failed_with EINVAL k
  | Some (OBJECTS_REMOTE, _, k) => sem_remote k
  | Some (OBJECTS_LOCAL, the_semaphore, k) =>
      let '(_, k) := _CORE_semaphore_Surrender _Objects_Local_node mp_support (Core_semaphore the_semaphore) (sem_id k the_semaphore) k in
      returns (finish 0 k)
  end.

Definition sem_getvalue (sem sval : Z) (k : Kernel) : result :=
  match _POSIX_Semaphore_Get sem k with
  | None => Unfinished
  | Some (OBJECTS_ERROR, _, k) => Failed_with EINVAL k
  | Some (OBJECTS_REMOTE, _, k) => sem_remote k
  | Some (OBJECTS_LOCAL, the_semaphore, k) =>
      returns (finish 0 (put_word sval (_CORE_semaphore_Get_count k (Core_semaphore the_semaphore)) k))
  end.
End Directives.
