(* ===== verification/PosixSemSpec.v ===== *)
(** * Correctness of the semaphores of the POSIX API (posix/src/semaphore.c)

    A new semaphore has its value and nobody waits; waiting and posting take and give back
    units of the core semaphore; and what the calls for named semaphores do instead of what
    they are for. *)
From S2P Require Import Prelude Chain Watchdog WatchdogProofs WatchdogOps Object Priority ApiTypes Kernel Thread.
From S2P Require Import ThreadProofs ThreadSpec Threadq ThreadqProofs ThreadqSpec CoreWait CoreSem CoreMsg.
From S2P Require Import Workspace Rtems Partition Init Posix PosixKey PosixTime PosixMutex PosixSem.

Section Semaphores.
Context (switch : Z -> Z -> Kernel -> Kernel) (postswitch : Kernel -> Kernel).
Context (isrs : list (Kernel -> Kernel)) (fuel : nat) (node nodes : Z).
Context (mp_allocate_and_open : Z -> Kernel -> bool * Kernel) (mp_close : Z -> Kernel -> Kernel).
Context (mp_announce : POSIX_Semaphore_MP_Remote_operations -> Z -> Z -> Kernel -> Kernel) (name_to_id : Z -> Kernel -> Z * Z).

Notation finish := (enable_return switch postswitch isrs fuel).
Notation Get := (_POSIX_Semaphore_Get switch postswitch isrs fuel node nodes).

Lemma upd_posix_semaphore_threads s f k : same_threads k (upd_posix_semaphore s f k).
Proof using. by split. Qed.

(** A semaphore that was set up has its value, nobody waits for it, and it keeps the
    invariant of the core semaphore. *)
Theorem sem_set_up_correct s name pshared value k : sched_ok k -> u32 value ->
  let k' := posix_semaphore_set_up s name pshared value k in
  sem_ok (Core_semaphore s) k' /\ _CORE_semaphore_Get_count k' (Core_semaphore s) = value /\ tq_list k' (Core_semaphore s) = [] /\
  sem_named (posix_semaphore k' s) = negb (name =? NULL) /\ sem_process_shared (posix_semaphore k' s) = pshared.
Proof using.
  intros HS Hv. cbn zeta. unfold posix_semaphore_set_up. set (k1 := upd_posix_semaphore s _ k).
  destruct (semaphore_fresh (Core_semaphore s) OBJECTS_POSIX_SEMAPHORES CORE_SEMAPHORE_DISCIPLINES_FIFO value 0 k1) as (H1 & H2 & H3);
    [by apply (same_threads_sched k)|done|].
  assert (posix_semaphore k1 s = semaphore_fields name pshared (posix_semaphore k s)) as E by apply lookup_total_insert_eq.
  assert (forall k0, posix_semaphore (_CORE_semaphore_Initialize (Core_semaphore s) OBJECTS_POSIX_SEMAPHORES CORE_SEMAPHORE_DISCIPLINES_FIFO value 0 k0) s
    = posix_semaphore k0 s) as EI by done.
  split_and!; [done..| |]; rewrite EI, E; unfold semaphore_fields; by destruct (negb (name =? NULL)).
Qed.

(** What a call that tries to take a unit returns, once it is enabled to go on: 0, and one
    unit less; or, when there is none, the status of the core semaphore, which is a positive
    number and not -1. *)
Theorem sem_trywait_correct routine wfuel isr resume s sem k k1 : Get sem k = Some (OBJECTS_LOCAL, s, k1) -> sem_ok (Core_semaphore s) k1 ->
  exists k2, sem_trywait switch postswitch isrs fuel node nodes routine wfuel id isr resume [] sem k =
      match _Thread_Enable_dispatch switch postswitch fuel isrs k2 with
      | None => Unfinished
      | Some k => let k := resume k in Posix.Returned (signed32 (Wait_return_code (Wait (tcb k (_Thread_Executing k))))) k
      end /\ sem_ok (Core_semaphore s) k2 /\ _Thread_Executing k2 = _Thread_Executing k1 /\
    (let count := _CORE_semaphore_Get_count k1 (Core_semaphore s) in
     if count =? 0
     then Wait_return_code (Wait (tcb k2 (_Thread_Executing k1))) = CORE_SEMAPHORE_STATUS_UNSATISFIED_NOWAIT /\
          _CORE_semaphore_Get_count k2 (Core_semaphore s) = 0
     else Wait_return_code (Wait (tcb k2 (_Thread_Executing k1))) = 0 /\ _CORE_semaphore_Get_count k2 (Core_semaphore s) = count - 1).
Proof using.
  intros HG HO. unfold sem_trywait, _POSIX_Semaphore_Wait_support. rewrite HG. cbn zeta. unfold _CORE_semaphore_Get_count.
  destruct (Z.eqb_spec (sem_count (Kernel.sem k1 (Core_semaphore s))) 0) as [E|E].
  - destruct (sem_seize_refused (Core_semaphore s) k1 HO routine wfuel fuel isr (sem_id k1 s) THREAD_QUEUE_WAIT_FOREVER E) as (k2 & -> & H1 & H2 & _ & H3 & H4).
    exists k2. split_and!; [done|done|done| |by rewrite H2]. rewrite H4. unfold with_status. by rewrite decide_True.
  - destruct (seize_available (Core_semaphore s) k1 HO routine wfuel fuel isr (sem_id k1 s) THREAD_QUEUE_WAIT_FOREVER false E) as (k2 & -> & H1 & H2 & _ & H3 & H4).
    exists k2. split_and!; [done|done|done| |done]. rewrite H4. unfold with_status. by rewrite decide_True.
Qed.

(** Posting gives the unit to the thread that has waited longest, or else adds it to the
    value. *)
Theorem sem_post_correct mp s sem k k1 : Get sem k = Some (OBJECTS_LOCAL, s, k1) -> sem_ok (Core_semaphore s) k1 ->
  _CORE_semaphore_Get_count k1 (Core_semaphore s) < two32 - 1 ->
  (forall u, u ∈ tq_list k1 (Core_semaphore s) -> _Objects_Is_local_id node (Object_id (tcb k1 u)) = true) ->
  exists k2, sem_post switch postswitch isrs fuel node nodes mp sem k = returns (finish 0 k2) /\ sem_ok (Core_semaphore s) k2 /\
    match tq_list k1 (Core_semaphore s) with
    | [] => tq_list k2 (Core_semaphore s) = [] /\ _CORE_semaphore_Get_count k2 (Core_semaphore s) = _CORE_semaphore_Get_count k1 (Core_semaphore s) + 1
    | u :: rest => tq_list k2 (Core_semaphore s) = rest /\ _CORE_semaphore_Get_count k2 (Core_semaphore s) = _CORE_semaphore_Get_count k1 (Core_semaphore s) /\
        current_state (tcb k2 u) = _States_Clear STATES_BLOCKED (current_state (tcb k1 u))
    end.
Proof using.
  intros HG HO Hc Hl. unfold sem_post. rewrite HG. unfold _CORE_semaphore_Get_count in *. destruct (tq_list k1 (Core_semaphore s)) as [|u rest] eqn:EL.
  - destruct (surrender_returned (Core_semaphore s) k1 HO node mp (sem_id k1 s) EL Hc) as (E & H1 & H2 & H3). rewrite E in *. cbn [snd] in *.
    eexists. split; [done|]. by split_and!.
  - destruct (surrender_granted (Core_semaphore s) k1 HO node mp (sem_id k1 s) u rest EL) as (_ & H1 & H2 & H3 & _ & H4); [apply Hl; left|].
    destruct (_CORE_semaphore_Surrender _ _ _ _ _) as [st k2]. cbn [snd] in *. exists k2. split_and!; [done|done|done|by rewrite H2|].
    specialize (H4 u). rewrite decide_True in H4 by done. exact (f_equal current_state H4).
Qed.

(** ** Named semaphores *)

(** Opening never creates a semaphore: no object is allocated, whatever the flags. *)
Theorem sem_open_creates_nothing stray name oflag k :
  match sem_open name_to_id stray name oflag k with
  | Posix.Returned _ k' | Failed_with _ k' => information_table k' = information_table k /\ semaphores k' = semaphores k
  | Assertion_failed | Unfinished => False
  end.
Proof using. unfold sem_open. destruct (name_to_id name k) as [status i]. destruct (negb (status =? 0)); [by destruct (_ && _)|]. by destruct (_ =? _). Qed.

(** A name that exists cannot be unlinked: the call fails, with the error number 0. *)
Theorem sem_unlink_fails local name i k : name_to_id name k = (0, i) ->
  sem_unlink switch postswitch isrs fuel node nodes mp_close mp_announce name_to_id local name k = Failed_with 0 (put_word local i k).
Proof using. intros E. unfold sem_unlink. by rewrite E. Qed.

(** Destroying a semaphore that has a name is refused, but dispatching stays disabled. *)
Theorem sem_destroy_named sem s k k1 : Get sem k = Some (OBJECTS_LOCAL, s, k1) -> sem_named (posix_semaphore k1 s) = true ->
  sem_destroy switch postswitch isrs fuel node nodes mp_close mp_announce sem k = Failed_with EINVAL k1.
Proof using. intros HG Hn. unfold sem_destroy. by rewrite HG, Hn. Qed.
End Semaphores.
