(* ===== verification/PosixThread.v ===== *)
(** * Threads of the POSIX API (posix/src/pthread.c, posix/inline/rtems/posix/pthread.inl)

    A thread has a control block of the API, which the extensions of the manager allocate and
    give back; other threads wait on its [Join_List] until it ends.  The scheduling policies
    are ways to use the time slices of the core thread; the sporadic server lowers and raises
    the priority of its thread.  An attribute object is what its address designates, [None]
    for [NULL]; a [struct sched_param] is a value.  The values of the constants are those of the
    C library that RTEMS is built with. *)
From S2P Require Import Prelude Chain Watchdog Tod Object Priority ApiTypes Heap Kernel Thread Threadq Workspace CoreMsg.
From S2P Require Import Rtems Partition Extension Init ThreadLife Tasks Posix PosixKey PosixTime PosixMutex PosixSignal.

Definition ENOTSUP : Z := 134.
Definition PTHREAD_SCOPE_PROCESS : Z := 0.
Definition PTHREAD_SCOPE_SYSTEM : Z := 1.
Definition PTHREAD_INHERIT_SCHED : Z := 1.
Definition PTHREAD_EXPLICIT_SCHED : Z := 2.
Definition PTHREAD_CREATE_DETACHED : Z := 0.
Definition PTHREAD_CREATE_JOINABLE : Z := 1.
Definition SCHED_OTHER : Z := 0.
Definition SCHED_FIFO : Z := 1.
Definition SCHED_RR : Z := 2.
Definition SCHED_SPORADIC : Z := 4.
Definition CLOCK_DISABLED : Z := 0.
Definition CLOCK_ENABLED : Z := 1.
Definition PTHREAD_MINIMUM_STACK_SIZE : Z := STACK_MINIMUM_SIZE * 2.

(** ** Attributes *)

Definition zero_time : timespec := {| tv_sec := 0; tv_nsec := 0 |}.
Definition _POSIX_Threads_Default_attributes : pthread_attr_t :=
  {| attr_is_initialized := true; attr_stackaddr := NULL; attr_stacksize := PTHREAD_MINIMUM_STACK_SIZE;
     attr_contentionscope := PTHREAD_SCOPE_PROCESS; attr_inheritsched := PTHREAD_INHERIT_SCHED; attr_schedpolicy := SCHED_FIFO;
     attr_schedparam := {| sched_priority := 2; ss_low_priority := 0; ss_replenish_period := zero_time; ss_initial_budget := zero_time |};
     attr_detachstate := PTHREAD_CREATE_JOINABLE; attr_cputime_clock_allowed := 1 |}.

Definition pthread_attr_init (attr : option pthread_attr_t) : Z * option pthread_attr_t :=
  match attr with
  | None => (EINVAL, attr)
  | Some _ => (0, Some _POSIX_Threads_Default_attributes)
  end.

(** A change of an initialised object: a status, and the object if it is 0. *)
Definition set_attr (attr : option pthread_attr_t) (f : pthread_attr_t -> Z + pthread_attr_t) : Z * option pthread_attr_t :=
  match attr with
  | Some a =>
      if attr_is_initialized a then match f a with inl status => (status, attr) | inr a => (0, Some a) end else (EINVAL, attr)
  | None => (EINVAL, attr)
  end.

Definition pthread_attr_destroy (attr : option pthread_attr_t) : Z * option pthread_attr_t :=
  set_attr attr (fun a => inr (set_attr_is_initialized false a)).
Definition pthread_attr_setscope (attr : option pthread_attr_t) (contentionscope : Z) : Z * option pthread_attr_t :=
  set_attr attr (fun a =>
    if contentionscope =? PTHREAD_SCOPE_PROCESS then inr (set_attr_contentionscope contentionscope a)
    else if contentionscope =? PTHREAD_SCOPE_SYSTEM then inl ENOTSUP
    else inl EINVAL).
Definition pthread_attr_setinheritsched (attr : option pthread_attr_t) (inheritsched : Z) : Z * option pthread_attr_t :=
  set_attr attr (fun a =>
    if (inheritsched =? PTHREAD_INHERIT_SCHED) || (inheritsched =? PTHREAD_EXPLICIT_SCHED)
    then inr (set_attr_inheritsched inheritsched a) else inl ENOTSUP).
Definition pthread_attr_setschedpolicy (attr : option pthread_attr_t) (policy : Z) : Z * option pthread_attr_t :=
  set_attr attr (fun a =>
    if (policy =? SCHED_OTHER) || (policy =? SCHED_FIFO) || (policy =? SCHED_RR) || (policy =? SCHED_SPORADIC)
    then inr (set_attr_schedpolicy policy a) else inl ENOTSUP).
Definition pthread_attr_setschedparam (attr : option pthread_attr_t) (param : option sched_param) : Z * option pthread_attr_t :=
  set_attr attr (fun a => match param with None => inl EINVAL | Some p => inr (set_attr_schedparam p a) end).
Definition pthread_attr_setstacksize (attr : option pthread_attr_t) (stacksize : Z) : Z * option pthread_attr_t :=
  set_attr attr (fun a =>
    inr (set_attr_stacksize (if stacksize <? PTHREAD_MINIMUM_STACK_SIZE then PTHREAD_MINIMUM_STACK_SIZE else stacksize) a)).
Definition pthread_attr_setstackaddr (attr : option pthread_attr_t) (stackaddr : Z) : Z * option pthread_attr_t :=
  set_attr attr (fun a => inr (set_attr_stackaddr stackaddr a)).
Definition pthread_attr_setdetachstate (attr : option pthread_attr_t) (detachstate : Z) : Z * option pthread_attr_t :=
  set_attr attr (fun a =>
    if (detachstate =? PTHREAD_CREATE_DETACHED) || (detachstate =? PTHREAD_CREATE_JOINABLE)
    then inr (set_attr_detachstate detachstate a) else inl EINVAL).
Definition pthread_attr_setcputime (attr : option pthread_attr_t) (clock_allowed : Z) : Z * option pthread_attr_t :=
  set_attr attr (fun a =>
    if (clock_allowed =? CLOCK_ENABLED) || (clock_allowed =? CLOCK_DISABLED)
    then inr (set_attr_cputime_clock_allowed clock_allowed a) else inl EINVAL).

(** The value of an attribute, stored at [place] when the status is 0. *)
Definition get_thread_attr (f : pthread_attr_t -> Z) (attr : option pthread_attr_t) (place : Z) (k : Kernel) : Z * Kernel :=
  match attr with
  | Some a => if negb (attr_is_initialized a) || (place =? NULL) then (EINVAL, k) else (0, put_word place (f a) k)
  | None => (EINVAL, k)
  end.
Definition pthread_attr_getscope : option pthread_attr_t -> Z -> Kernel -> Z * Kernel := get_thread_attr attr_contentionscope.
Definition pthread_attr_getinheritsched : option pthread_attr_t -> Z -> Kernel -> Z * Kernel := get_thread_attr attr_inheritsched.
Definition pthread_attr_getschedpolicy : option pthread_attr_t -> Z -> Kernel -> Z * Kernel := get_thread_attr attr_schedpolicy.
Definition pthread_attr_getstacksize : option pthread_attr_t -> Z -> Kernel -> Z * Kernel := get_thread_attr attr_stacksize.
Definition pthread_attr_getstackaddr : option pthread_attr_t -> Z -> Kernel -> Z * Kernel := get_thread_attr attr_stackaddr.
Definition pthread_attr_getdetachstate : option pthread_attr_t -> Z -> Kernel -> Z * Kernel := get_thread_attr attr_detachstate.
Definition pthread_attr_getcputime : option pthread_attr_t -> Z -> Kernel -> Z * Kernel := get_thread_attr attr_cputime_clock_allowed.
Definition pthread_attr_getschedparam (attr : option pthread_attr_t) (param : bool) : Z * option sched_param :=
  match attr with
  | Some a => if negb (attr_is_initialized a) || negb param then (EINVAL, None) else (0, Some (attr_schedparam a))
  | None => (EINVAL, None)
  end.

(** ** Scheduling policies *)

(** The use of time slices, for parameters that make sense; [callout] is the address of
    [_POSIX_Threads_Sporadic_budget_callout]. *)
Definition budget_of (callout microseconds_per_tick policy : Z) (param : sched_param) : option (Thread_CPU_budget_algorithms * Z) :=
  if policy =? SCHED_OTHER then Some (THREAD_CPU_BUDGET_ALGORITHM_RESET_TIMESLICE, NULL)
  else if policy =? SCHED_FIFO then Some (THREAD_CPU_BUDGET_ALGORITHM_NONE, NULL)
  else if policy =? SCHED_RR then Some (THREAD_CPU_BUDGET_ALGORITHM_EXHAUST_TIMESLICE, NULL)
  else if policy =? SCHED_SPORADIC then
    if _POSIX_Timespec_to_interval microseconds_per_tick (ss_replenish_period param)
       <? _POSIX_Timespec_to_interval microseconds_per_tick (ss_initial_budget param) then None
    else if negb (_POSIX_Priority_Is_valid (ss_low_priority param)) then None
    else Some (THREAD_CPU_BUDGET_ALGORITHM_CALLOUT, callout)
  else None.

(** Members of the control block of the API. *)
Definition sizeof_POSIX_API_Control : Z := 204.
Definition Join_List (block : Z) : Z := block + 60.
Definition Sporadic_timer (block : Z) : Z := block + 156.

Definition ticks_of (k : Kernel) (t : timespec) : Z :=
  let ticks := _POSIX_Timespec_to_interval (_TOD_Microseconds_per_tick (tod k)) t in if ticks =? 0 then 1 else ticks.

(** The real priority changes, the current one unless the thread holds a resource for which
    it has a higher one. *)
Definition sporadic_priority (the_thread new_priority : Z) (k : Kernel) : Kernel :=
  let k := upd_thread the_thread (set_real_priority new_priority) k in
  if (resource_count (tcb k the_thread) =? 0) || (new_priority <? current_priority (tcb k the_thread))
  then _Thread_Change_priority the_thread new_priority true k else k.

(** The budget is used up. *)
Definition _POSIX_Threads_Sporadic_budget_callout (the_thread : Z) (k : Kernel) : Kernel :=
  let k := upd_thread the_thread (set_cpu_time_budget 4294967295) k in
  sporadic_priority the_thread (_POSIX_Priority_To_core (ss_low_priority (api_schedparam (posix_api k the_thread)))) k.

(** The period is over. *)
Definition _POSIX_Threads_Sporadic_budget_TSR (wfuel : nat) (wisr : Kernel -> Kernel) (the_thread : Z) (k : Kernel) : option Kernel :=
  let k := upd_thread the_thread (set_cpu_time_budget (ticks_of k (ss_initial_budget (api_schedparam (posix_api k the_thread))))) k in
  let k := sporadic_priority the_thread (_POSIX_Priority_To_core (ss_high_priority (posix_api k the_thread))) k in
  _Watchdog_Insert_ticks wfuel wisr (Sporadic_timer (posix_block k the_thread))
    (ticks_of k (ss_replenish_period (api_schedparam (posix_api k the_thread)))) k.

(** ** The extensions of the manager *)

Section Extensions.
Context (workspace : Z) (hfuel fuel : nat) (call_destructor : Z -> Z -> Kernel -> Kernel) (Sporadic_budget_TSR : Z).

Definition put_posix_block (the_thread block : Z) : Kernel -> Kernel :=
  upd_rtems (fun r => set_API_Extensions_POSIX (<[the_thread := block]> (API_Extensions_POSIX r)) r).

(** [ss_high_priority], and the blocked signals of a thread of this API, are what the area
    holds. *)
Definition fresh_api (k : Kernel) (created : Z) (a : POSIX_API_Control) : POSIX_API_Control :=
  let d := _POSIX_Threads_Default_attributes in
  {| api_Attributes := d; api_detachstate := attr_detachstate d; api_schedpolicy := attr_schedpolicy d;
     api_schedparam := set_sched_priority (_POSIX_Priority_From_core (current_priority (tcb k created))) (attr_schedparam d);
     ss_high_priority := ss_high_priority a;
     signals_blocked := if _Objects_Get_class (Object_id (tcb k created)) =? OBJECTS_POSIX_THREADS then signals_blocked a
                        else SIGNAL_ALL_MASK;
     thread_signals_pending := 0 |}.

Definition _POSIX_Threads_Create_extension (executing created : Z) (k : Kernel) : option (bool * Kernel) :=
  match _Workspace_Allocate workspace hfuel sizeof_POSIX_API_Control k with
  | None => None
  | Some (api, k) =>
      if api =? 0 then Some (false, k)
      else
        let k := put_posix_block created api k in
        let k := upd_posix_api created (fresh_api k created) k in
        let k := _Thread_queue_Initialize (Join_List api) OBJECTS_NO_CLASS THREAD_QUEUE_DISCIPLINE_FIFO
                   STATES_WAITING_FOR_JOIN_AT_EXIT NULL 0 k in
        Some (true, wd_mod (_Watchdog_Initialize (Sporadic_timer api) Sporadic_budget_TSR (Object_id (tcb k created)) created) k)
  end.

(** Every thread that waits for the end gets the value, and goes on. *)
Fixpoint wake_joiners (fuel : nat) (q value_ptr : Z) (k : Kernel) : option Kernel :=
  match fuel with
  | O => None
  | S fuel =>
      let '(the_thread, k) := _Thread_queue_Dequeue q k in
      if the_thread =? NULL then Some k
      else wake_joiners fuel q value_ptr (put_word (Wait_return_argument (Wait (tcb k the_thread))) value_ptr k)
  end.

Definition _POSIX_Threads_Delete_extension (executing deleted : Z) (k : Kernel) : option Kernel :=
  let api := posix_block k deleted in
  let k := _POSIX_Keys_Run_destructors call_destructor deleted k in
  match wake_joiners fuel (Join_List api) (Wait_return_argument (Wait (tcb k deleted))) k with
  | None => None
  | Some k =>
      let k := if api_schedpolicy (posix_api k deleted) =? SCHED_SPORADIC
               then wd_mod (fun w => (_Watchdog_Remove (Sporadic_timer api) w).2) k else k in
      let k := put_posix_block deleted NULL k in
      Some (_Workspace_Free workspace api k).2
  end.
End Extensions.

(** The class, the set of extensions and the hooks of the API. *)
Definition _POSIX_Threads_Manager_initialization (workspace : Z) (hfuel : nat)
    (fatal_extensions : Internal_errors_Information -> Kernel -> Kernel) (node nodes : Z) (is_multiprocessing : bool)
    (size user_extension_set api_extension_set maximum_pthreads : Z) (k : Kernel) : outcome Kernel :=
  and_then (initialize_class workspace hfuel fatal_extensions node nodes is_multiprocessing OBJECTS_POSIX_THREADS false maximum_pthreads size true 5 true k)
    (fun k => _API_extensions_Add api_extension_set (_User_extensions_Add_API_set user_extension_set k)).

(** ** Calls *)

Section Calls.
Context (switch : Z -> Z -> Kernel -> Kernel) (postswitch : Kernel -> Kernel).
Context (isrs : list (Kernel -> Kernel)) (fuel : nat) (_Objects_Local_node _Objects_Maximum_nodes : Z).
Context (wfuel : nat) (wisr : Kernel -> Kernel).
Context (Sporadic_budget_callout : Z).

Notation finish := (enable_return switch postswitch isrs fuel).
Notation Threads_Get := (_POSIX_Threads_Get switch postswitch isrs fuel _Objects_Local_node _Objects_Maximum_nodes).

Definition pthread_getschedparam (thread policy : Z) (param : bool) (k : Kernel) : result * option sched_param :=
  if (policy =? NULL) || negb param then (Returned EINVAL k, None)
  else
    match Threads_Get thread k with
    | None => (Unfinished, None)
    | Some (OBJECTS_LOCAL, the_thread, k) =>
        let a := posix_api k the_thread in
        (returns (finish 0 (put_word policy (api_schedpolicy a) k)),
         Some (set_sched_priority (_POSIX_Priority_From_core (current_priority (tcb k the_thread))) (api_schedparam a)))
    | Some (_, _, k) => (Returned ESRCH k, None)
    end.

(** The local case. *)
Definition set_sched (the_thread policy : Z) (param : sched_param) (budget : Thread_CPU_budget_algorithms * Z) (k : Kernel) : option Kernel :=
  let k := if api_schedpolicy (posix_api k the_thread) =? SCHED_SPORADIC
           then wd_mod (fun w => (_Watchdog_Remove (Sporadic_timer (posix_block k the_thread)) w).2) k else k in
  let k := upd_posix_api the_thread (fun a => set_api_schedparam param (set_api_schedpolicy policy a)) k in
  let k := upd_thread the_thread (fun c => set_budget_callout budget.2 (set_budget_algorithm budget.1 c)) k in
  if policy =? SCHED_SPORADIC then
    let k := upd_posix_api the_thread (fun a => set_ss_high_priority (sched_priority (api_schedparam a)) a) k in
    _POSIX_Threads_Sporadic_budget_TSR wfuel wisr the_thread k
  else
    let k := upd_thread the_thread (set_cpu_time_budget (_Thread_Ticks_per_timeslice k)) k in
    let k := upd_thread the_thread (set_real_priority (_POSIX_Priority_To_core (sched_priority (api_schedparam (posix_api k the_thread))))) k in
    Some (_Thread_Change_priority the_thread (real_priority (tcb k the_thread)) true k).

Definition pthread_setschedparam (thread policy : Z) (param : option sched_param) (k : Kernel) : result :=
  match param with
  | None => Returned EINVAL k
  | Some param =>
      if negb (_POSIX_Priority_Is_valid (sched_priority param)) then Returned EINVAL k
      else
        match budget_of Sporadic_budget_callout (_TOD_Microseconds_per_tick (tod k)) policy param with
        | None => Returned EINVAL k
        | Some budget =>
            match Threads_Get thread k with
            | None => Unfinished
            | Some (OBJECTS_LOCAL, the_thread, k) =>
                match set_sched the_thread policy param budget k with
                | None => Unfinished
                | Some k => returns (finish 0 k)
                end
            | Some (_, _, k) => Returned ESRCH k
            end
        end
  end.

(** *** Creation *)

Section Create.
Context (workspace : Z) (hfuel : nat) (name_argument default_name : Z) (CPU_HARDWARE_FP : bool).
Context (stack_allocate_hook : option (Z -> Kernel -> Z * Kernel)) (stack_free_hook : option (Z -> Kernel -> Kernel)).
Context (create_extensions : Z -> Kernel -> option (bool * Kernel)) (started : Z -> Kernel -> Kernel).

(** The policy and the parameters of the new thread. *)
Definition create_scheduling (the_attr : pthread_attr_t) (k : Kernel) : option (Z * sched_param) :=
  if attr_inheritsched the_attr =? PTHREAD_INHERIT_SCHED then
    let api := posix_api k (_Thread_Executing k) in Some (api_schedpolicy api, api_schedparam api)
  else if attr_inheritsched the_attr =? PTHREAD_EXPLICIT_SCHED then Some (attr_schedpolicy the_attr, attr_schedparam the_attr)
  else None.

(** The first reason to refuse the attributes, or what they come to. *)
Definition create_arguments (the_attr : pthread_attr_t) (k : Kernel) : Z + (Z * sched_param * (Thread_CPU_budget_algorithms * Z)) :=
  if negb (attr_is_initialized the_attr) then inl EINVAL
  else if negb (attr_stackaddr the_attr =? NULL) && negb (_Stack_Is_enough (attr_stacksize the_attr)) then inl EINVAL
  else
    match create_scheduling the_attr k with
    | None => inl EINVAL
    | Some (schedpolicy, schedparam) =>
        if negb (attr_contentionscope the_attr =? PTHREAD_SCOPE_PROCESS) then inl ENOTSUP
        else if negb (_POSIX_Priority_Is_valid (sched_priority schedparam)) then inl EINVAL
        else
          match budget_of Sporadic_budget_callout (_TOD_Microseconds_per_tick (tod k)) schedpolicy schedparam with
          | None => inl EINVAL
          | Some budget => inr (schedpolicy, schedparam, budget)
          end
    end.

(** The control block of the API of a thread that was initialised. *)
Definition finish_api (the_thread : Z) (the_attr : pthread_attr_t) (schedpolicy : Z) (schedparam : sched_param) (k : Kernel) : Kernel :=
  let k := upd_posix_api the_thread (fun a => set_api_schedparam schedparam (set_api_schedpolicy schedpolicy
             (set_api_detachstate (attr_detachstate the_attr) (set_api_Attributes the_attr a)))) k in
  upd_thread the_thread (set_do_post true) k.

Definition pthread_create (thread : Z) (attr : option pthread_attr_t) (start_routine arg : Z) (k : Kernel) : result :=
  let the_attr := default _POSIX_Threads_Default_attributes attr in
  match create_arguments the_attr k with
  | inl status => Returned status k
  | inr (schedpolicy, schedparam, budget) =>
      let k := _Thread_Disable_dispatch k in
      let '(the_thread, k) := object_allocate OBJECTS_POSIX_THREADS k in
      if the_thread =? NULL then returns (finish EAGAIN k)
      else
        match _Thread_Initialize workspace hfuel stack_allocate_hook stack_free_hook create_extensions fuel name_argument
                OBJECTS_POSIX_THREADS the_thread (attr_stackaddr the_attr) (attr_stacksize the_attr) CPU_HARDWARE_FP
                (_POSIX_Priority_To_core (sched_priority schedparam)) true budget.1 budget.2 0 default_name k with
        | None => Unfinished
        | Some (false, k) => returns (finish EAGAIN (object_free OBJECTS_POSIX_THREADS the_thread k))
        | Some (true, k) =>
            let k := finish_api the_thread the_attr schedpolicy schedparam k in
            let '(status, k) := _Thread_Start started the_thread THREAD_START_POINTER start_routine arg 0 k in
            let inserted :=
              if schedpolicy =? SCHED_SPORADIC then
                _Watchdog_Insert_ticks wfuel wisr (Sporadic_timer (posix_block k the_thread))
                  (_POSIX_Timespec_to_interval (_TOD_Microseconds_per_tick (tod k))
                     (ss_replenish_period (api_schedparam (posix_api k the_thread)))) k
              else Some k in
            match inserted with
            | None => Unfinished
            | Some k =>
                if negb status then returns (finish EINVAL (object_free OBJECTS_POSIX_THREADS the_thread k))
                else returns (finish 0 (put_word thread (Object_id (tcb k the_thread)) k))
            end
        end
  end.

(** The initialization threads: [attr] is what the three calls make of it, [thread_id] the
    local variable. *)
Definition user_thread_attr : option pthread_attr_t :=
  let a := (pthread_attr_init (Some zero_pthread_attr)).2 in
  let a := (pthread_attr_setinheritsched a PTHREAD_EXPLICIT_SCHED).2 in
  (pthread_attr_setstacksize a (PTHREAD_MINIMUM_STACK_SIZE * 2)).2.

Fixpoint create_user_threads (thread_id : Z) (entries : list Z) (k : Kernel) : result :=
  match entries with
  | [] => Returned 0 k
  | thread_entry :: entries =>
      match pthread_create thread_id user_thread_attr thread_entry NULL k with
      | Returned status k => if status =? 0 then create_user_threads thread_id entries k else Assertion_failed
      | r => r
      end
  end.
(** [None]: there is no table. *)
Definition _POSIX_Threads_Initialize_user_threads (thread_id : Z) (user_threads : option (list Z)) (k : Kernel) : result :=
  match user_threads with None => Returned 0 k | Some entries => create_user_threads thread_id entries k end.
End Create.

(** *** Joining, detaching and ending *)

(** [return_pointer] is the local variable of the caller, [resume] what happens until the
    caller is executing again. *)
Definition join_enqueue (timeout_routine : Z) (qisrs : list (Kernel -> Kernel)) (block return_pointer : Z) (k : Kernel) : option Kernel :=
  let k := upd_wait (_Thread_Executing k) (set_Wait_return_argument return_pointer) k in
  let k := _Thread_queue_Enter_critical_section (Join_List block) k in
  _Thread_queue_Enqueue timeout_routine wfuel wisr fuel qisrs (Join_List block) WATCHDOG_NO_TIMEOUT k.

Definition pthread_join (timeout_routine : Z) (qisrs : list (Kernel -> Kernel)) (resume : Kernel -> Kernel)
    (return_pointer thread value_ptr : Z) (k : Kernel) : result :=
  match Threads_Get thread k with
  | None => Unfinished
  | Some (OBJECTS_LOCAL, the_thread, k) =>
      if api_detachstate (posix_api k the_thread) =? PTHREAD_CREATE_DETACHED then returns (finish EINVAL k)
      else if _Thread_Is_executing k the_thread then returns (finish EDEADLK k)
      else
        match join_enqueue timeout_routine qisrs (posix_block k the_thread) return_pointer k with
        | None => Unfinished
        | Some k =>
            match _Thread_Enable_dispatch switch postswitch fuel isrs k with
            | None => Unfinished
            | Some k =>
                let k := resume k in
                Returned 0 (if negb (value_ptr =? NULL) then put_word value_ptr (ld32 (memory k) return_pointer) k else k)
            end
        end
  | Some (_, _, k) => Returned ESRCH k
  end.

Definition pthread_detach (thread : Z) (k : Kernel) : result :=
  match Threads_Get thread k with
  | None => Unfinished
  | Some (OBJECTS_LOCAL, the_thread, k) =>
      returns (finish 0 (upd_posix_api the_thread (set_api_detachstate PTHREAD_CREATE_DETACHED) k))
  | Some (_, _, k) => Returned ESRCH k
  end.

(** The class is that of the thread, but the control block goes to the pool of the threads of
    this API. *)
Definition pthread_exit (workspace : Z) (stack_free_hook : option (Z -> Kernel -> Kernel)) (run_callout : Z -> Z -> Kernel -> Kernel)
    (deleted : Z -> Kernel -> Kernel) (value_ptr : Z) (k : Kernel) : option Kernel :=
  let executing := _Thread_Executing k in
  let the_class := _Objects_Get_class (Object_id (tcb k executing)) in
  let k := _Thread_Disable_dispatch k in
  let k := upd_wait executing (set_Wait_return_argument value_ptr) k in
  let k := _Thread_Close workspace stack_free_hook run_callout deleted the_class executing k in
  let k := object_free OBJECTS_POSIX_THREADS (_Thread_Executing k) k in
  _Thread_Enable_dispatch switch postswitch fuel isrs k.

(** Without [RTEMS_DEBUG]. *)
Definition pthread_equal (t1 t2 : Z) : bool := _Objects_Are_ids_equal t1 t2.

(** The two members of a [pthread_once_t], [is_initialized] and [init_executed], are words of
    memory. *)
Definition pthread_once (call : Z -> Kernel -> Kernel) (once_control init_routine : Z) (k : Kernel) : result :=
  if (once_control =? NULL) || (init_routine =? NULL) then Returned EINVAL k
  else
    let k := _Thread_Disable_dispatch k in
    let k :=
      if ld32 (memory k) (once_control + 4) =? 0 then
        let k := put_word once_control 1 k in
        let k := put_word (once_control + 4) 1 k in
        call init_routine k
      else k in
    returns (finish 0 k).

Definition pthread_getcpuclockid (pid clock_id : Z) : result := Assertion_failed.
End Calls.
