(* ===== verification/PosixThreadSpec.v ===== *)
(** * Correctness of the threads of the POSIX API (posix/src/pthread.c)

    An attribute object can only be given values that the creation of a thread understands.
    The threads that wait for the end of a thread are all released, with the value that it
    left.  The sporadic server has the low priority once its budget is used up and the high
    one when its period begins again. *)
From S2P Require Import Prelude Chain Watchdog WatchdogProofs WatchdogOps Object Priority ApiTypes Kernel Thread.
From S2P Require Import ThreadProofs ThreadSpec Threadq ThreadqProofs ThreadqSpec CoreWait CoreMsg CoreMsgSpec.
From S2P Require Import TodSpec Workspace Rtems Partition Init ThreadLife Tasks Tod Posix PosixKey PosixTime PosixMutex PosixSignal PosixThread.

(** ** Attributes *)

Record attr_valid (a : pthread_attr_t) : Prop := {
  av_initialized : attr_is_initialized a = true;
  av_stack : PTHREAD_MINIMUM_STACK_SIZE <= attr_stacksize a;
  av_scope : attr_contentionscope a = PTHREAD_SCOPE_PROCESS;
  av_inherit : attr_inheritsched a = PTHREAD_INHERIT_SCHED \/ attr_inheritsched a = PTHREAD_EXPLICIT_SCHED;
  av_policy : attr_schedpolicy a ∈ [SCHED_OTHER; SCHED_FIFO; SCHED_RR; SCHED_SPORADIC];
  av_detach : attr_detachstate a = PTHREAD_CREATE_DETACHED \/ attr_detachstate a = PTHREAD_CREATE_JOINABLE;
  av_cputime : attr_cputime_clock_allowed a = CLOCK_ENABLED \/ attr_cputime_clock_allowed a = CLOCK_DISABLED
}.

(** The calls that change an attribute object. *)
Inductive attr_call : Type :=
| Init | SetScope (v : Z) | SetInherit (v : Z) | SetPolicy (v : Z) | SetParam (p : option sched_param)
| SetStackSize (v : Z) | SetStackAddr (v : Z) | SetDetach (v : Z) | SetCputime (v : Z).

Definition attr_step (c : attr_call) (a : option pthread_attr_t) : Z * option pthread_attr_t :=
  match c with
  | Init => pthread_attr_init a
  | SetScope v => pthread_attr_setscope a v
  | SetInherit v => pthread_attr_setinheritsched a v
  | SetPolicy v => pthread_attr_setschedpolicy a v
  | SetParam p => pthread_attr_setschedparam a p
  | SetStackSize v => pthread_attr_setstacksize a v
  | SetStackAddr v => pthread_attr_setstackaddr a v
  | SetDetach v => pthread_attr_setdetachstate a v
  | SetCputime v => pthread_attr_setcputime a v
  end.

Lemma default_valid : attr_valid _POSIX_Threads_Default_attributes.
Proof. split; simpl; auto; [apply Z.le_refl|set_solver]. Qed.

Ltac attr_cases :=
  repeat match goal with
  | |- context [if ?b then _ else _] => let E := fresh "E" in destruct b eqn:E
  | |- context [match ?p with Some _ => _ | None => _ end] => destruct p
  end.

(** A call that fails leaves the object alone, and one that succeeds leaves it valid. *)
Lemma attr_step_valid c a : attr_valid a ->
  exists status a', attr_step c (Some a) = (status, Some a') /\ attr_valid a' /\ (status <> 0 -> a' = a).
Proof.
  intros H. destruct c; simpl; [by exists 0, _POSIX_Threads_Default_attributes; split; [|split; [apply default_valid|]]|..];
    unfold pthread_attr_setscope, pthread_attr_setinheritsched, pthread_attr_setschedpolicy, pthread_attr_setschedparam,
      pthread_attr_setstacksize, pthread_attr_setstackaddr, pthread_attr_setdetachstate, pthread_attr_setcputime, set_attr;
    rewrite (av_initialized _ H); attr_cases; try (by eexists _, _; split; [reflexivity|]);
    eexists _, _; (split; [reflexivity|]); (split; [|done]); destruct H; split; simpl; try done;
    rewrite ?orb_true_iff, ?Z.eqb_eq, ?Z.ltb_ge in *; set_solver by lia.
Qed.

Definition attr_run (calls : list attr_call) : option pthread_attr_t := foldl (fun a c => (attr_step c a).2) (Some _POSIX_Threads_Default_attributes) calls.

(** Whatever calls follow the initialization, the object stays one that the creation of a
    thread accepts: it fails only for the priority or the parameters of the sporadic server. *)
Theorem attributes_accepted callout calls k :
  exists a, attr_run calls = Some a /\ attr_valid a /\
    let '(policy, param) := if attr_inheritsched a =? PTHREAD_INHERIT_SCHED
                            then (api_schedpolicy (posix_api k (_Thread_Executing k)), api_schedparam (posix_api k (_Thread_Executing k)))
                            else (attr_schedpolicy a, attr_schedparam a) in
    create_arguments callout a k =
      match budget_of callout (_TOD_Microseconds_per_tick (tod k)) policy param with
      | Some budget => if _POSIX_Priority_Is_valid (sched_priority param) then inr (policy, param, budget) else inl EINVAL
      | None => inl EINVAL
      end.
Proof.
  assert (exists a, attr_run calls = Some a /\ attr_valid a) as (a & E & H).
  { unfold attr_run. generalize default_valid. generalize _POSIX_Threads_Default_attributes.
    induction calls as [|c calls IH]; intros a Ha; [by exists a|]. simpl.
    destruct (attr_step_valid c a Ha) as (status & a' & -> & Ha' & _). by apply IH. }
  exists a. split; [done|]. split; [done|]. destruct H as [H1 H2 H3 H4 H5 H6 H7]. unfold create_arguments, create_scheduling, _Stack_Is_enough.
  rewrite H1, H3, Z.eqb_refl. rewrite (proj2 (Z.leb_le STACK_MINIMUM_SIZE (attr_stacksize a)))
    by (unfold PTHREAD_MINIMUM_STACK_SIZE, STACK_MINIMUM_SIZE in *; lia).
  rewrite andb_false_r. cbn [negb]. destruct H4 as [-> | ->].
  - rewrite Z.eqb_refl. destruct (_POSIX_Priority_Is_valid _), (budget_of _ _ _ _); done.
  - change (PTHREAD_EXPLICIT_SCHED =? PTHREAD_INHERIT_SCHED) with false. rewrite Z.eqb_refl.
    destruct (_POSIX_Priority_Is_valid _), (budget_of _ _ _ _); done.
Qed.

(** ** Joining *)

(** The queue of the threads that wait for the end of another one. *)
Record join_ok (q : Z) (k : Kernel) : Prop := {
  jo_queue : tq_ok k q;
  jo_sched : sched_ok k;
  jo_sync : sync_state (tq k q) = THREAD_QUEUE_SYNCHRONIZED;
  jo_null : NULL ∉ tq_list k q
}.

Lemma join_ok_same q k k' : same_threads k k' -> join_ok q k -> join_ok q k'.
Proof.
  intros HT [A B C D]. pose proof (same_threads_tq _ _ HT) as HQ. split; rewrite ?(ts_queue _ _ HQ), ?(same_threads_list _ _ _ HT); try done.
  - by apply (same_threads_tq_ok k).
  - by apply (same_threads_sched k).
Qed.

(** Where a waiting thread expects the value. *)
Definition place (k : Kernel) (u : Z) : Z := Wait_return_argument (Wait (tcb k u)).

Lemma but_block2n_place k k' u : but_block2n (tcb k' u) = but_block2n (tcb k u) -> place k' u = place k u.
Proof. intros H. exact (f_equal (fun c => Wait_return_argument (Wait c)) H). Qed.

Lemma wake_joiners_spec q v : u32 v -> forall l k fuel, tq_list k q = l -> join_ok q k -> (length l < fuel)%nat ->
  (forall t u, t ∈ l -> u ∈ l -> t <> u -> apart (place k t) 4 (place k u) 4) ->
  exists k', wake_joiners fuel q v k = Some k' /\ tq_list k' q = [] /\ join_ok q k' /\
    (forall u, u ∈ l -> ld32 (memory k') (place k u) = v) /\
    (forall a n, (forall u, u ∈ l -> apart (place k u) 4 a n) -> agrees a n (memory k) (memory k')) /\
    _Thread_Executing k' = _Thread_Executing k /\
    forall u, but_block2n (tcb k' u) = but_block2n (if decide (u ∈ l) then unblocked (tcb k u) else tcb k u).
Proof.
  intros Hv. induction l as [|t rest IH]; intros k fuel EL HJ Hf Hd; (destruct fuel as [|fuel]; [simpl in Hf; lia|]); cbn [wake_joiners].
  - destruct (HJ) as [A B C D]. rewrite (dequeue_none q k A C EL). rewrite Z.eqb_refl. exists k. split_and!; [done..|by intros u Hu%not_elem_of_nil|done|done|].
    intros u. rewrite decide_False by apply not_elem_of_nil. done.
  - destruct (HJ) as [A B C D]. rewrite EL in D.
    destruct (dequeue_first q k t rest A B EL) as (k1 & E & X1 & X2 & X3 & (X4 & X5 & X6 & X7) & X8 & X9 & X10). rewrite E.
    assert (t <> NULL) as Ht by (intros ->; apply D; left). rewrite (proj2 (Z.eqb_neq t NULL) Ht).
    assert (t ∉ rest) as Hn by (pose proof (to_nodup _ _ A) as X; rewrite EL in X; by apply NoDup_cons in X as [X _]).
    assert (forall u, place k1 u = place k u) as EP.
    { intros u. specialize (X10 u). destruct (decide (u = t)) as [-> |]; [|by apply but_block2n_place].
      exact (f_equal (fun c => Wait_return_argument (Wait c)) X10). }
    fold (place k1 t). rewrite EP. set (k2 := put_word (place k t) v k1).
    assert (same_threads k1 k2) as HT by (by split).
    assert (join_ok q k2) as HJ2.
    { apply (join_ok_same q k1); [done|]. split; rewrite ?X1, ?X4; try done. intros H. apply D. by right. }
    assert (forall u, place k2 u = place k u) as EP2 by exact EP.
    destruct (IH k2 fuel) as (k' & E' & Y1 & Y2 & Y3 & Y4 & Y5 & Y6).
    { by rewrite (same_threads_list _ _ _ HT). } { done. } { simpl in Hf. lia. }
    { intros a b Ha Hb. rewrite !EP2. apply Hd; by right. }
    exists k'. split_and!; try done.
    + intros u Hu. apply elem_of_cons in Hu as [-> |Hu].
      * rewrite (agrees_ld32 (place k t) (memory k2) (memory k')).
        -- by apply ld32_st32.
        -- apply Y4. intros u Hu. rewrite EP2. apply Hd; [by right|left|]. by intros ->.
      * rewrite <- (EP2 u). by apply Y3.
    + intros a n Ha. apply (agrees_trans a n _ (memory k2)).
      * unfold k2. simpl. rewrite (cs_memory _ _ X8). apply agrees_st32, Ha. left.
      * apply Y4. intros u Hu. rewrite EP2. apply Ha. by right.
    + by rewrite Y5.
    + intros u. rewrite Y6. change (tcb k2 u) with (tcb k1 u). pose proof (X10 u) as Eu.
      destruct (decide (u ∈ rest)) as [Hu|Hu].
      * rewrite (decide_True (P := u ∈ t :: rest)) by (by right). rewrite decide_False in Eu by (by intros ->).
        transitivity (unblocked (but_block2n (tcb k1 u))); [done|]. by rewrite Eu.
      * rewrite Eu. destruct (decide (u = t)) as [-> |Hne]; [by rewrite decide_True by left|].
        rewrite decide_False; [done|]. set_solver.
Qed.

Lemma join_enqueue_spec routine wfuel fuel block return_pointer k :
  let q := Join_List block in let t := _Thread_Executing k in
  join_ok q k -> can_wait q k -> discipline (tq k q) = THREAD_QUEUE_DISCIPLINE_FIFO -> (length (tq_list k q) < fuel)%nat -> t <> NULL ->
  exists k', join_enqueue fuel wfuel id routine [] block return_pointer k = Some k' /\ join_ok q k' /\
    tq_list k' q = tq_list k q ++ [t] /\ place k' t = return_pointer /\ current_state (tcb k' t) = tq_state (tq k q) /\
    _Context_Switch_necessary k' = true /\ forall u, u <> t -> but_block2n (tcb k' u) = but_block2n (tcb k u).
Proof.
  intros q t HJ HW HD Hf Ht. pose proof (noted_refl q k HW) as N1.
  apply (noted_code q _ (set_Wait_return_argument return_pointer)) in N1; [|done]. apply noted_enter in N1.
  destruct (noted_wait_spec routine wfuel fuel q WATCHDOG_NO_TIMEOUT _ k _ N1) as (k' & E & X1 & X2 & X3 & X4 & X5 & X6 & X7 & _ & X11); try done.
  { by left. }
  pose proof (X11 t) as Xt. rewrite decide_True in Xt by done. unfold joined in X1. rewrite HD in X1. exists k'. split_and!; try done.
  - split; try done. rewrite X1, elem_of_app, list_elem_of_singleton. intros [H|H]; [by apply (jo_null _ _ HJ)|by apply Ht].
  - exact (f_equal (fun x => Wait_return_argument (Wait x)) Xt).
  - exact (f_equal current_state Xt).
  - intros u Hu. by rewrite X11, decide_False.
Qed.

Section End.
Context (workspace : Z) (fuel : nat) (call_destructor : Z -> Z -> Kernel -> Kernel).

(** After the destructors nothing but the waiting threads and their places is touched. *)
Lemma delete_extension_spec executing deleted k :
  let kd := _POSIX_Keys_Run_destructors call_destructor deleted k in
  let q := Join_List (posix_block k deleted) in let v := Wait_return_argument (Wait (tcb kd deleted)) in
  join_ok q kd -> u32 v -> (length (tq_list kd q) < fuel)%nat ->
  (forall t u, t ∈ tq_list kd q -> u ∈ tq_list kd q -> t <> u -> apart (place kd t) 4 (place kd u) 4) ->
  exists k', _POSIX_Threads_Delete_extension workspace fuel call_destructor executing deleted k = Some k' /\
    tq_list k' q = [] /\ join_ok q k' /\ (forall u, u ∈ tq_list kd q -> ld32 (memory k') (place kd u) = v) /\
    forall u, but_block2n (tcb k' u) = but_block2n (if decide (u ∈ tq_list kd q) then unblocked (tcb kd u) else tcb kd u).
Proof using.
  intros kd q v HJ Hv Hf Hd. destruct (wake_joiners_spec q v Hv (tq_list kd q) kd fuel eq_refl HJ Hf Hd)
    as (k1 & E & X1 & X2 & X3 & X4 & X5 & X6).
  unfold _POSIX_Threads_Delete_extension. fold kd q v. rewrite E. set (k2 := if _ =? SCHED_SPORADIC then _ else k1). eexists. split; [reflexivity|].
  set (k' := (_Workspace_Free _ _ _).2).
  assert (same_threads k1 k' /\ memory k' = memory k1) as [HS EM].
  { assert (same_threads k1 k2 /\ memory k2 = memory k1) as [[] EM] by (unfold k2; destruct (_ =? SCHED_SPORADIC); split; done).
    unfold k', _Workspace_Free, put_posix_block. repeat case_match; cbn [snd]; (split; [by split|done]). }
  rewrite (same_threads_list _ _ _ HS), EM. split_and!; try done.
  - by apply (join_ok_same q k1).
  - intros u. rewrite (same_threads_tcb _ _ u HS). apply X6.
Qed.
End End.

(** C33: A thread that joins another one is the last of its queue, blocked, with the place for
    the value noted.  When the other thread ends, whatever happened in between, all threads on
    the queue are released, each finds the value that was left at its place, no other thread
    changes, and the queue is empty; both routines end with fuel for the threads on the
    queue. *)
Theorem join_gets_value routine wfuel fuel workspace call_destructor executing deleted return_pointer k :
  let q := Join_List (posix_block k deleted) in let t := _Thread_Executing k in
  join_ok q k -> can_wait q k -> discipline (tq k q) = THREAD_QUEUE_DISCIPLINE_FIFO -> (S (length (tq_list k q)) < fuel)%nat -> t <> NULL ->
  exists k1, join_enqueue fuel wfuel id routine [] (posix_block k deleted) return_pointer k = Some k1 /\
    join_ok q k1 /\ tq_list k1 q = tq_list k q ++ [t] /\ current_state (tcb k1 t) = tq_state (tq k q) /\ _Context_Switch_necessary k1 = true /\
    (forall u, u <> t -> but_block2n (tcb k1 u) = but_block2n (tcb k u)) /\
    forall k2, let kd := _POSIX_Keys_Run_destructors call_destructor deleted k2 in
      let v := Wait_return_argument (Wait (tcb kd deleted)) in
      posix_block k2 deleted = posix_block k deleted -> join_ok q kd -> tq_list kd q = tq_list k1 q -> u32 v ->
      (forall u, u ∈ tq_list k1 q -> place kd u = place k1 u) ->
      (forall u u', u ∈ tq_list k1 q -> u' ∈ tq_list k1 q -> u <> u' -> apart (place k1 u) 4 (place k1 u') 4) ->
      exists k3, _POSIX_Threads_Delete_extension workspace fuel call_destructor executing deleted k2 = Some k3 /\
        tq_list k3 q = [] /\ ld32 (memory k3) return_pointer = v /\
        (forall u, u ∈ tq_list k q -> ld32 (memory k3) (place k u) = v) /\
        forall u, current_state (tcb k3 u) =
          if decide (u ∈ tq_list k q ++ [t]) then _States_Clear STATES_BLOCKED (current_state (tcb kd u)) else current_state (tcb kd u).
Proof.
  intros q t HJ HW HD Hf Ht.
  destruct (join_enqueue_spec routine wfuel fuel (posix_block k deleted) return_pointer k HJ HW HD (Nat.lt_succ_l _ _ Hf) Ht)
    as (k1 & E & J1 & J2 & J3 & J4 & J5 & J6). fold q t in J1, J2, J3, J4, J6. exists k1. split_and!; try done.
  intros k2 kd v EB HJd EL Hv HP HA. destruct (delete_extension_spec workspace fuel call_destructor executing deleted k2) as (k3 & E3 & X1 & X2 & X3 & X4);
    fold kd; rewrite ?EB; fold q; try done.
  { rewrite EL, J2, length_app. simpl. lia. }
  { intros u u' Hu Hu' Hne. rewrite EL in Hu, Hu'. rewrite !HP by done. by apply HA. }
  fold kd in X1, X2, X3, X4. rewrite EB in X1, X3, X4. fold q in X1, X3, X4. rewrite EL in X3, X4. exists k3. split_and!; try done.
  - rewrite <- J3, <- HP by (rewrite J2; set_solver). apply X3. rewrite J2. set_solver.
  - intros u Hu. assert (u ∈ tq_list k1 q) as Hu1 by (rewrite J2; set_solver).
    assert (u <> t) as Hne by (intros ->; by apply (cw_off _ _ HW)).
    rewrite <- (but_block2n_place k k1 u (J6 u Hne)), <- HP by done. by apply X3.
  - intros u. rewrite <- J2. pose proof (X4 u) as Eu. apply but_block2n_fields in Eu as (-> & _). by case_decide.
Qed.

(** ** A small system: the thread at 200 waits for the end of the one at 300 *)

Module JoinExample.
Import ThreadExample.
Definition fresh : Kernel := _Thread_queue_Initialize (Join_List 3000) OBJECTS_NO_CLASS THREAD_QUEUE_DISCIPLINE_FIFO
  STATES_WAITING_FOR_JOIN_AT_EXIT NULL 0 k2.
Definition base : Kernel := upd_rtems (set_API_Extensions_POSIX (list_to_map [(100, 1000); (200, 2000); (300, 3000)])) fresh.
Definition waiting : Kernel := default base (join_enqueue 5 5 id 9 [] 3000 8000 base).
(** 300 is about to leave the value 77. *)
Definition leaving : Kernel := upd_wait 300 (set_Wait_return_argument 77) waiting.

Lemma fresh_state : join_ok 3060 base /\ can_wait 3060 base /\ tq_list base 3060 = [].
Proof.
  destruct (initialize_fresh 3060 OBJECTS_NO_CLASS THREAD_QUEUE_DISCIPLINE_FIFO STATES_WAITING_FOR_JOIN_AT_EXIT NULL 0 k2) as (E & HQ & HL & _);
    [vm_compute; auto|]. change 3060 with (Join_List 3000) in *. fold fresh in E, HQ, HL.
  assert (same_threads fresh base) as HS by (split; reflexivity). pose proof (links_only_sched _ _ HL k2_ok) as HB.
  assert (sync_state (tq base (Join_List 3000)) = THREAD_QUEUE_SYNCHRONIZED) as H1 by (vm_compute; reflexivity).
  assert (is_ready base (_Thread_Executing base) /\ _Thread_Executing base <> _Thread_Idle base /\ tq_state (tq base (Join_List 3000)) <> STATES_READY)
    as (H2 & H3 & H4) by (split; [vm_compute; reflexivity|split; vm_compute; discriminate]).
  clear HL. generalize dependent base. generalize dependent fresh. intros f E HQ HB b HS H1 H2 H3 H4.
  pose proof (same_threads_list _ _ (Join_List 3000) HS) as EL. rewrite E in EL.
  split_and!; [split|split|]; rewrite ?EL; try done; try apply not_elem_of_nil;
    first [by apply (same_threads_tq_ok f)|by apply (same_threads_sched f)].
Qed.
Lemma no_keys : _POSIX_Keys_Run_destructors (fun _ _ k => k) 300 leaving = leaving.
Proof. vm_compute. reflexivity. Qed.
End JoinExample.

Lemma join_gets_value_witness :
  exists k3, _POSIX_Threads_Delete_extension 40000 5 (fun _ _ k => k) 300 300 JoinExample.leaving = Some k3 /\
    ld32 (memory k3) 8000 = 77 /\ tq_list k3 3060 = [].
Proof.
  destruct JoinExample.fresh_state as (HJ & HW & HL).
  assert (_Thread_Executing JoinExample.base = 200 /\ posix_block JoinExample.base 300 = 3000 /\
    discipline (tq JoinExample.base 3060) = THREAD_QUEUE_DISCIPLINE_FIFO) as (EX & EB & ED) by (split; [|split]; vm_compute; reflexivity).
  destruct (join_gets_value 9 5 5 40000 (fun _ _ k => k) 300 300 8000 JoinExample.base) as (k1 & E & HJ1 & X1 & X2 & X3 & X4 & X5);
    rewrite ?EB, ?EX; change (Join_List 3000) with 3060; try assumption; [rewrite HL; simpl; lia|discriminate|].
  rewrite EB, EX in *. change (Join_List 3000) with 3060 in *. rewrite HL in X1.
  specialize (X5 JoinExample.leaving). rewrite JoinExample.no_keys in X5.
  assert (JoinExample.waiting = k1) as EW by (unfold JoinExample.waiting; rewrite E; reflexivity).
  assert (posix_block JoinExample.leaving 300 = 3000 /\ place JoinExample.leaving 300 = 77 /\ known JoinExample.waiting 300) as (H1 & H2 & H3)
    by (split; [|split]; [vm_compute; reflexivity..|vm_compute; eauto]).
  subst k1. clear E X2 X3 X4 HJ HW HL EX EB ED. unfold JoinExample.leaving in *. generalize dependent JoinExample.waiting.
  generalize dependent JoinExample.base. intros b k1 X5 X1 HJ1 H1 H2 Hk. rewrite X1 in X5.
  set (k := upd_wait 300 _ k1) in *. assert (tq_list k 3060 = [200]) as EL by (unfold k; rewrite code_list; [exact X1|done]).
  destruct X5 as (k3 & E3 & Y1 & Y2 & _).
  - exact H1.
  - destruct HJ1 as [A B C D]. split; [by apply code_tq_ok|by apply code_sched|exact C|]. rewrite EL. by intros ?%list_elem_of_singleton.
  - exact EL.
  - change (u32 (place k 300)). rewrite H2. done.
  - intros u Hu. apply list_elem_of_singleton in Hu as ->. unfold place, k. rewrite code_tcb. done.
  - intros u u' Hu%list_elem_of_singleton Hu'%list_elem_of_singleton. congruence.
  - exists k3. split; [exact E3|]. split; [|exact Y1]. rewrite Y2. exact H2.
Defined.

(** ** The sporadic server *)

Lemma unseen_real p : unseen (set_real_priority p).
Proof. by intros c; split_and!; try (intros c'; split_and!). Qed.
Lemma unseen_budget n : unseen (set_cpu_time_budget n).
Proof. by intros c; split_and!; try (intros c'; split_and!). Qed.

(** The priority of [c] when its own one becomes [p]: a higher one that it inherited stays
    until the resources are given back. *)
Definition priority_with (p : Z) (c : Thread_Control) : Z :=
  if (resource_count c =? 0) || (p <? current_priority c) then p else current_priority c.

Lemma sporadic_priority_spec t p k : sched_ok k -> known k t -> prio p ->
  let k' := sporadic_priority t p k in
  sched_ok k' /\ known k' t /\ real_priority (tcb k' t) = p /\ current_priority (tcb k' t) = priority_with p (tcb k t) /\
  cpu_time_budget (tcb k' t) = cpu_time_budget (tcb k t) /\ rtems k' = rtems k /\ tod k' = tod k /\ watchdogs k' = watchdogs k /\
  forall u, u <> t -> tcb k' u = tcb k u.
Proof.
  intros HS Hk Hp. unfold sporadic_priority, priority_with. set (k1 := upd_thread t (set_real_priority p) k).
  assert (sched_ok k1) as HS1 by (by apply unseen_sched; [apply unseen_real|..]).
  assert (known k1 t) as Hk1 by (by apply known_mono).
  assert (tcb k1 t = set_real_priority p (tcb k t)) as Et by (unfold k1; by rewrite tcb_upd, decide_True).
  assert (forall u, u <> t -> tcb k1 u = tcb k u) as Eu by (intros u Hu; unfold k1; by rewrite tcb_upd, decide_False).
  rewrite Et. change (resource_count (set_real_priority p (tcb k t))) with (resource_count (tcb k t)).
  change (current_priority (set_real_priority p (tcb k t))) with (current_priority (tcb k t)).
  destruct (_ || _) eqn:E.
  - destruct (change_priority_frame t p true k1 Hk1) as (HC & HW & _). pose proof (change_priority_tcb t p true k1 HS1 Hk1) as ET.
    rewrite ET, decide_True, Et by done.
    assert (rtems (_Thread_Change_priority t p true k1) = rtems k) as HR by (by rewrite (cs_rtems _ _ HC)).
    assert (tod (_Thread_Change_priority t p true k1) = tod k) as HD by (by rewrite (cs_tod _ _ HC)).
    split_and!; try done; [by apply change_priority_sched|by apply change_priority_known|].
    intros u Hu. rewrite ET, decide_False by done. by apply Eu.
  - rewrite Et. by split_and!.
Qed.

Lemma core_prio p : _POSIX_Priority_Is_valid p = true -> prio (_POSIX_Priority_To_core p).
Proof. intros H. pose proof (proj2 (posix_priority_roundtrip p H)). unfold prio, PRIORITY_MAXIMUM. lia. Qed.

(** When the budget is used up the thread has the low priority and no budget that could run
    out; nothing else changes. *)
Theorem sporadic_callout_correct t k : sched_ok k -> known k t ->
  _POSIX_Priority_Is_valid (ss_low_priority (api_schedparam (posix_api k t))) = true ->
  let low := _POSIX_Priority_To_core (ss_low_priority (api_schedparam (posix_api k t))) in
  let k' := _POSIX_Threads_Sporadic_budget_callout t k in
  sched_ok k' /\ real_priority (tcb k' t) = low /\ current_priority (tcb k' t) = priority_with low (tcb k t) /\
  cpu_time_budget (tcb k' t) = 4294967295 /\ forall u, u <> t -> tcb k' u = tcb k u.
Proof.
  intros HS Hk Hv low. unfold _POSIX_Threads_Sporadic_budget_callout. set (k1 := upd_thread t (set_cpu_time_budget 4294967295) k).
  change (posix_api k1 t) with (posix_api k t). fold low.
  assert (sched_ok k1) as HS1 by (by apply unseen_sched; [apply unseen_budget|..]).
  assert (tcb k1 t = set_cpu_time_budget 4294967295 (tcb k t)) as Et by (unfold k1; by rewrite tcb_upd, decide_True).
  destruct (sporadic_priority_spec t low k1 HS1 (known_mono _ _ _ _ Hk) (core_prio _ Hv)) as (X1 & _ & X2 & X3 & X4 & _ & _ & _ & X5).
  cbv zeta. rewrite X2, X3, X4, Et. split_and!; try done.
  intros u Hu. rewrite X5 by done. unfold k1. by rewrite tcb_upd, decide_False.
Qed.

Lemma ticks_of_u32 k t : 0 <= ticks_of k t < two32.
Proof.
  unfold ticks_of, _POSIX_Timespec_to_interval. set (n := _ +w _). assert (0 <= n < two32) as H by apply wrap32_range.
  clearbody n. unfold two32 in *. destruct (n =? 0); simpl; [lia|]. destruct (n =? 0); lia.
Qed.

(** When the period begins again the thread has the high priority and its budget, and the
    timer is set for the end of the period. *)
Theorem sporadic_replenish_correct wfuel t k : sched_ok k -> known k t -> wd_ok (watchdogs k) ->
  _POSIX_Priority_Is_valid (ss_high_priority (posix_api k t)) = true ->
  (forall h, Sporadic_timer (posix_block k t) ∉ chain_of h (watchdogs k)) -> (length (chain_of Ticks (watchdogs k)) + 1 < wfuel)%nat ->
  let high := _POSIX_Priority_To_core (ss_high_priority (posix_api k t)) in
  let param := api_schedparam (posix_api k t) in
  exists k', _POSIX_Threads_Sporadic_budget_TSR wfuel id t k = Some k' /\ sched_ok k' /\ wd_ok (watchdogs k') /\
    real_priority (tcb k' t) = high /\ current_priority (tcb k' t) = priority_with high (tcb k t) /\
    cpu_time_budget (tcb k' t) = ticks_of k (ss_initial_budget param) /\
    (Sporadic_timer (posix_block k t), ticks_of k (ss_replenish_period param)) ∈ expiries Ticks (watchdogs k') /\
    forall u, u <> t -> tcb k' u = tcb k u.
Proof.
  intros HS Hk HW Hv Hoff Hf high param. unfold _POSIX_Threads_Sporadic_budget_TSR. fold param. set (n := ticks_of k (ss_initial_budget param)).
  set (k1 := upd_thread t (set_cpu_time_budget n) k). change (posix_api k1 t) with (posix_api k t). fold high.
  assert (sched_ok k1) as HS1 by (by apply unseen_sched; [apply unseen_budget|..]).
  assert (tcb k1 t = set_cpu_time_budget n (tcb k t)) as Et by (unfold k1; by rewrite tcb_upd, decide_True).
  destruct (sporadic_priority_spec t high k1 HS1 (known_mono _ _ _ _ Hk) (core_prio _ Hv)) as (X1 & X2 & X3 & X4 & X5 & X6 & X7 & X8 & X9).
  set (k2 := sporadic_priority t high k1) in *.
  assert (posix_block k2 t = posix_block k t /\ posix_api k2 t = posix_api k t /\ ticks_of k2 = ticks_of k) as (-> & -> & ->)
    by (unfold posix_api, posix_block, ticks_of; rewrite X6, X7; done).
  fold param. destruct (insert_ticks_spec (S := Kernel) wfuel (fun _ _ _ s => s) ltac:(done) ltac:(done) ltac:(done) ltac:(done)
    (Sporadic_timer (posix_block k t)) (ticks_of k (ss_replenish_period param)) k2) as (ws & E & H1 & H2 & _);
    [change (wd_ok (watchdogs k2))|change (forall h, Sporadic_timer (posix_block k t) ∉ chain_of h (watchdogs k2))|apply ticks_of_u32|
     change (length (chain_of Ticks (watchdogs k2)) + 1 < wfuel)%nat|]; rewrite ?X8; try done.
  rewrite E. eexists. split; [done|]. split; [by apply (same_threads_sched k2)|]. split; [done|].
  change (tcb (wd_put ws k2)) with (tcb k2). rewrite X3, X4, X5, Et. split_and!; try done.
  intros u Hu. rewrite X9 by done. unfold k1. by rewrite tcb_upd, decide_False.
Qed.

(** A new thread with this policy has neither: the creation leaves the high priority as it
    found it in memory, whatever priority was asked for. *)
Lemma create_leaves_high_priority t a policy param k :
  ss_high_priority (posix_api (finish_api t a policy param k) t) = ss_high_priority (posix_api k t).
Proof.
  unfold finish_api. change (posix_api (upd_thread t _ ?k) t) with (posix_api k t). unfold posix_api at 1, upd_posix_api, posix_block.
  simpl. by rewrite lookup_total_insert_eq.
Qed.
