(* ===== verification/PosixMqueue.v ===== *)
(** * Message queues of the POSIX API (posix/src/mqueue.c, posix/inline/rtems/posix/mqueue.inl)

    A queue is a core message queue at offset 40 of its control block; a [mqd_t] is an id.
    [_POSIX_Message_queue_Name_to_id] is declared and called in the sources and defined
    nowhere: it is a parameter, with its status and the id it stores.  Local variables that are
    read before they are set, or whose address is taken, are parameters, too.  The packets to
    other nodes are parameters; what is not implemented ends in an assertion. *)
From S2P Require Import Prelude Chain Heap Watchdog WatchdogProofs WatchdogOps Tod Priority Object ApiTypes Kernel.
From S2P Require Import Workspace Thread ThreadProofs ThreadSpec Threadq ThreadqProofs ThreadqSpec CoreWait.
From S2P Require Import CoreMsg CoreMsgSpec CoreMsgTheorems Rtems Partition Init Posix PosixKey PosixTime.
From S2P Require Import PosixMutex PosixSem.

Definition EBADF : Z := 9.
Definition ENFILE : Z := 23.
Definition ENOSPC : Z := 28.
Definition O_NONBLOCK : Z := 16384.
Definition OBJECTS_POSIX_MESSAGE_QUEUES : Z := 14.

(** The operations on a message queue of another node that are used. *)
Inductive POSIX_Message_queue_MP_Remote_operations : Type :=
| POSIX_MESSAGE_QUEUE_MP_ANNOUNCE_CREATE
| POSIX_MESSAGE_QUEUE_MP_ANNOUNCE_DELETE.

Record mq_attr : Type := { mq_flags : Z; mq_maxmsg : Z; mq_msgsize : Z; mq_curmsgs : Z }.

Definition posix_mq (k : Kernel) (q : Z) : POSIX_Message_queue_Control := posix_message_queues (rtems k) !!! q.
Definition upd_posix_mq (q : Z) (f : POSIX_Message_queue_Control -> POSIX_Message_queue_Control) (k : Kernel) : Kernel :=
  upd_rtems (fun r => set_posix_message_queues (<[q := f (posix_mq k q)]> (posix_message_queues r)) r) k.
(** The addresses of [Message_queue] and of [Object.id]. *)
Definition Core_mq (q : Z) : Z := q + 40.
Definition mq_id_address (q : Z) : Z := q + 8.

(** A [struct mq_attr] is four words of memory. *)
Definition put_mq_attr (a : Z) (s : mq_attr) (k : Kernel) : Kernel :=
  put_word (a + 12) (mq_curmsgs s) (put_word (a + 8) (mq_msgsize s) (put_word (a + 4) (mq_maxmsg s) (put_word a (mq_flags s) k))).

Definition _POSIX_Message_queue_Manager_initialization (workspace : Z) (hfuel : nat)
    (fatal_extensions : Internal_errors_Information -> Kernel -> Kernel) (node nodes : Z) (is_multiprocessing : bool)
    (size maximum_message_queues : Z) : Kernel -> outcome Kernel :=
  initialize_class workspace hfuel fatal_extensions node nodes is_multiprocessing OBJECTS_POSIX_MESSAGE_QUEUES true maximum_message_queues
    size true _POSIX_PATH_MAX false.

Section Directives.
Context (switch : Z -> Z -> Kernel -> Kernel) (postswitch : Kernel -> Kernel).
Context (isrs : list (Kernel -> Kernel)) (fuel : nat) (_Objects_Local_node _Objects_Maximum_nodes : Z).
Context (mp_allocate_and_open : Z -> Kernel -> bool * Kernel) (mp_close : Z -> Kernel -> Kernel).
Context (mp_announce : POSIX_Message_queue_MP_Remote_operations -> Z -> Z -> Kernel -> Kernel).
Context (name_to_id : Z -> Kernel -> Z * Z).
(** The call through the null pointer that the core is given for the threads of other nodes. *)
Context (call_null : Z -> Z -> Kernel -> Kernel).

Notation finish := (enable_return switch postswitch isrs fuel).
Notation remote := (sem_remote switch postswitch isrs fuel).

(** The routines of [mqueue.inl]. *)
Definition _POSIX_Message_queue_Allocate : Kernel -> Z * Kernel := object_allocate OBJECTS_POSIX_MESSAGE_QUEUES.
Definition _POSIX_Message_queue_Free : Z -> Kernel -> Kernel := object_free OBJECTS_POSIX_MESSAGE_QUEUES.
Definition _POSIX_Message_queue_Get (id : Z) (k : Kernel) : option (Objects_Locations * Z * Kernel) :=
  object_get switch postswitch isrs fuel _Objects_Local_node _Objects_Maximum_nodes OBJECTS_POSIX_MESSAGE_QUEUES id k.
Definition mq_id (k : Kernel) (q : Z) : Z := object_id k OBJECTS_POSIX_MESSAGE_QUEUES q.

(** ** Creation *)

Definition nonblocking (flags : Z) : bool := negb (Z.land flags O_NONBLOCK =? 0).

(** The control block of a new queue; [flags] is left as it is. *)
Definition mq_fields (name pshared oflag : Z) (c : POSIX_Message_queue_Control) : POSIX_Message_queue_Control :=
  let c := set_pmq_process_shared pshared c in
  let c := if negb (name =? NULL) then set_pmq_linked true (set_pmq_open_count 1 (set_pmq_named true c)) else set_pmq_named false c in
  set_pmq_blocking (negb (nonblocking oflag)) c.

(** The queue, [NULL] if there is none, and what the caller is returned.  [extract_proxy] is
    the address of [_POSIX_Message_queue_MP_Send_extract_proxy]. *)
Definition _POSIX_Message_queue_Create_support (workspace : Z) (hfuel : nat) (extract_proxy name pshared oflag : Z) (attr : mq_attr)
    (k : Kernel) : Z * result :=
  let k := _Thread_Disable_dispatch k in
  let '(the_mq, k) := _POSIX_Message_queue_Allocate k in
  let fails errno k := match finish 0 k with None => (NULL, Unfinished) | Some (_, k) => (NULL, Failed_with errno k) end in
  if the_mq =? NULL then fails ENFILE k
  else
    let shared := pshared =? PTHREAD_PROCESS_SHARED in
    let '(opened, k) := if shared then mp_allocate_and_open (mq_id k the_mq) k else (true, k) in
    if negb opened then fails ENFILE (_POSIX_Message_queue_Free the_mq k)
    else
      let k := upd_posix_mq the_mq (mq_fields name pshared oflag) k in
      match _CORE_message_queue_Initialize workspace hfuel (Core_mq the_mq) OBJECTS_POSIX_MESSAGE_QUEUES CORE_MESSAGE_QUEUE_DISCIPLINES_FIFO
              (mq_maxmsg attr) (mq_msgsize attr) extract_proxy k with
      | None => (NULL, Unfinished)
      | Some (false, k) =>
          let k := if shared then mp_close (mq_id k the_mq) k else k in
          fails ENOSPC (_POSIX_Message_queue_Free the_mq k)
      | Some (true, k) =>
          match _Objects_Open fuel the_mq name (objects_of k OBJECTS_POSIX_MESSAGE_QUEUES) with
          | None => (NULL, Unfinished)
          | Some s =>
              let k := put_objects OBJECTS_POSIX_MESSAGE_QUEUES s k in
              let k := if shared then mp_announce POSIX_MESSAGE_QUEUE_MP_ANNOUNCE_CREATE (mq_id k the_mq) name k else k in
              (the_mq, returns (finish 0 k))
          end
      end.

(** [the_mq] is the local variable, which nothing sets.  The creation at the end of the routine
    is not reached: both branches of the test return. *)
Definition mq_open (the_mq name oflag : Z) (k : Kernel) : result :=
  let '(status, _) := name_to_id name k in
  if negb (status =? 0) then
    if (status =? EINVAL) && (Z.land oflag O_CREAT =? 0) then Failed_with ENOENT k
    else Failed_with status k
  else if Z.land oflag (Z.lor O_CREAT O_EXCL) =? Z.lor O_CREAT O_EXCL then Failed_with EEXIST k
  else Returned (mq_id_address the_mq) (upd_posix_mq the_mq (fun c => set_pmq_open_count (pmq_open_count c +w 1) c) k).

(** ** Deletion *)

Definition _POSIX_Message_queue_Delete (the_mq : Z) (k : Kernel) : Kernel :=
  let c := posix_mq k the_mq in
  if negb (pmq_linked c) && (pmq_open_count c =? 0) then
    let k := _POSIX_Message_queue_Free the_mq k in
    if pmq_process_shared (posix_mq k the_mq) =? PTHREAD_PROCESS_SHARED then
      let k := mp_close (mq_id k the_mq) k in
      mp_announce POSIX_MESSAGE_QUEUE_MP_ANNOUNCE_DELETE (mq_id k the_mq) 0 k
    else k
  else k.

(** A call on the queue with this id, [errno] for an id of no queue. *)
Definition with_mq (errno id : Z) (local : Z -> Kernel -> result) (k : Kernel) : result :=
  match _POSIX_Message_queue_Get id k with
  | None => Unfinished
  | Some (OBJECTS_ERROR, _, k) => Failed_with errno k
  | Some (OBJECTS_REMOTE, _, k) => remote k
  | Some (OBJECTS_LOCAL, the_mq, k) => local the_mq k
  end.

Definition mq_close (mqdes : Z) : Kernel -> result :=
  with_mq EINVAL mqdes (fun the_mq k =>
    let k := upd_posix_mq the_mq (fun c => set_pmq_open_count (pmq_open_count c -w 1) c) k in
    returns (finish 0 (_POSIX_Message_queue_Delete the_mq k))).

(** The status is tested the wrong way round: a name that is found is an error with [errno] 0. *)
Definition mq_unlink (name : Z) (k : Kernel) : result :=
  let '(status, the_mq_id) := name_to_id name k in
  if status =? 0 then Failed_with status k
  else
    with_mq EINVAL the_mq_id (fun the_mq k =>
      let k := mp_close (mq_id k the_mq) k in
      let k := upd_posix_mq the_mq (set_pmq_linked false) k in
      returns (finish 0 (_POSIX_Message_queue_Delete the_mq k))) k.

(** ** Messages *)

(** What is returned is whatever the last wait of the caller left; the status of the core is
    dropped, as are the priority and the timeout. *)
Definition _POSIX_Message_queue_Send_support (mqdes msg_ptr msg_len : Z) : Kernel -> result :=
  with_mq EINVAL mqdes (fun the_mq k =>
    let '(_, k) := _CORE_message_queue_Send _Objects_Local_node call_null (Core_mq the_mq) msg_ptr msg_len mqdes k in
    match _Thread_Enable_dispatch switch postswitch fuel isrs k with
    | None => Unfinished
    | Some k => Returned (signed32 (Wait_return_code (Wait (tcb k (_Thread_Executing k))))) k
    end).

Definition mq_send (mqdes msg_ptr msg_len msg_prio : Z) : Kernel -> result := _POSIX_Message_queue_Send_support mqdes msg_ptr msg_len.
Definition mq_timedsend (mqdes msg_ptr msg_len msg_prio : Z) (timeout : timespec) : Kernel -> result :=
  _POSIX_Message_queue_Send_support mqdes msg_ptr msg_len.

(** [resume] is what happens until the caller is executing again, [length_out] the address of
    the local variable. *)
Section Receive.
Context (timeout_routine : Z) (wfuel : nat) (wisr isr resume : Kernel -> Kernel) (qisrs : list (Kernel -> Kernel)) (length_out : Z).

(** The local [status] stays 0: the length is returned whether there was a message or not. *)
Definition _POSIX_Message_queue_Receive_support (mqdes msg_ptr msg_len timeout : Z) : Kernel -> result :=
  with_mq EINVAL mqdes (fun the_mq k =>
    let k := put_word length_out msg_len k in
    match _CORE_message_queue_Seize timeout_routine wfuel wisr fuel qisrs isr (Core_mq the_mq) mqdes msg_ptr length_out
            (pmq_blocking (posix_mq k the_mq)) timeout k with
    | None => Unfinished
    | Some k =>
        match _Thread_Enable_dispatch switch postswitch fuel isrs k with
        | None => Unfinished
        | Some k => let k := resume k in Returned (signed32 (ld32 (memory k) length_out)) k
        end
    end).

Definition mq_receive (mqdes msg_ptr msg_len : Z) : Kernel -> result :=
  _POSIX_Message_queue_Receive_support mqdes msg_ptr msg_len THREAD_QUEUE_WAIT_FOREVER.
Definition mq_timedreceive (mqdes msg_ptr msg_len : Z) (timeout : timespec) (k : Kernel) : result :=
  _POSIX_Message_queue_Receive_support mqdes msg_ptr msg_len (_POSIX_Timespec_to_interval (_TOD_Microseconds_per_tick (tod k)) timeout) k.
End Receive.

(** ** Notification and attributes *)

(** The handler does nothing; [Notify_handler] is its address.  [None] is a null pointer. *)
Definition mq_notify (Notify_handler mqdes : Z) (notification : option (list Z)) : Kernel -> result :=
  with_mq EBADF mqdes (fun the_mq k =>
    match notification with
    | Some n =>
        if _CORE_message_queue_Is_notify_enabled k (Core_mq the_mq) then
          match finish 0 k with None => Unfinished | Some (_, k) => Failed_with EBUSY k end
        else
          let k := _CORE_message_queue_Set_notify (Core_mq the_mq) NULL NULL k in
          let k := upd_posix_mq the_mq (set_pmq_notification n) k in
          returns (finish 0 (_CORE_message_queue_Set_notify (Core_mq the_mq) Notify_handler the_mq k))
    | None => returns (finish 0 (_CORE_message_queue_Set_notify (Core_mq the_mq) NULL NULL k))
    end).

(** What both calls report. *)
Definition mq_status (the_mq : Z) (k : Kernel) : mq_attr :=
  let c := mq k (Core_mq the_mq) in
  {| mq_flags := pmq_flags (posix_mq k the_mq); mq_maxmsg := maximum_pending_messages c;
     mq_msgsize := maximum_message_size c; mq_curmsgs := number_of_pending_messages c |}.

Definition mq_setattr (mqdes : Z) (mqstat : mq_attr) (omqstat : Z) : Kernel -> result :=
  with_mq EINVAL mqdes (fun the_mq k =>
    let k := put_mq_attr omqstat (mq_status the_mq k) k in
    let k := upd_posix_mq the_mq (set_pmq_blocking (negb (nonblocking (mq_flags mqstat)))) k in
    returns (finish 0 (upd_posix_mq the_mq (set_pmq_flags (mq_flags mqstat)) k))).

Definition mq_getattr (mqdes mqstat : Z) : Kernel -> result :=
  with_mq EINVAL mqdes (fun the_mq k => returns (finish 0 (put_mq_attr mqstat (mq_status the_mq k) k))).
End Directives.

(** * Correctness: messages go through the core queue; what the calls report is not what happened to them *)

Section Queues.
Context (switch : Z -> Z -> Kernel -> Kernel) (postswitch : Kernel -> Kernel).
Context (isrs : list (Kernel -> Kernel)) (fuel : nat) (node nodes : Z).
Context (mp_close : Z -> Kernel -> Kernel) (mp_announce : POSIX_Message_queue_MP_Remote_operations -> Z -> Z -> Kernel -> Kernel).
Context (name_to_id : Z -> Kernel -> Z * Z) (call_null : Z -> Z -> Kernel -> Kernel).

Notation Get := (_POSIX_Message_queue_Get switch postswitch isrs fuel node nodes).
Notation mode code := (fun k2 => match _Thread_Enable_dispatch switch postswitch fuel isrs k2 with
  | None => Unfinished | Some k => Returned (signed32 (code k)) k end).

(** The message is appended, or refused because it is too long or the queue is full; either way
    the value returned is the code that an earlier wait of the caller left. *)
Theorem mq_send_correct mqdes q buffer size prio k k1 :
  Get mqdes k = Some (OBJECTS_LOCAL, q, k1) -> msgq_ok (Core_mq q) k1 -> 0 <= size -> clear_of (Core_mq q) k1 buffer size ->
  tq_list k1 (Core_mq q) = [] ->
  exists k2, mq_send switch postswitch isrs fuel node nodes call_null mqdes buffer size prio k =
      mode (fun k => Wait_return_code (Wait (tcb k (_Thread_Executing k)))) k2 /\
    msgq_ok (Core_mq q) k2 /\ same_threads k1 k2 /\
    messages k2 (Core_mq q) =
      if (maximum_message_size (mq k1 (Core_mq q)) <? size) || (Z.of_nat (length (messages k1 (Core_mq q))) =? maximum_pending_messages (mq k1 (Core_mq q)))
      then messages k1 (Core_mq q) else messages k1 (Core_mq q) ++ [bytes (memory k1) buffer size].
Proof using.
  intros HG HO Hs Hc HL. unfold mq_send, _POSIX_Message_queue_Send_support, with_mq. rewrite HG.
  pose proof (message_submit_correct node call_null (Core_mq q) buffer size mqdes CORE_MESSAGE_QUEUE_SEND_REQUEST k1 HO Hs Hc) as H.
  rewrite HL in H. specialize (H ltac:(by intros u ?%not_elem_of_nil)). unfold _CORE_message_queue_Send.
  destruct (_CORE_message_queue_Submit _ _ _ _ _ _ _ _) as [status k2]. destruct H as [HO' H]. exists k2.
  split; [done|]. split; [done|]. destruct (_ <? size); [by destruct H as [_ ->]|]. destruct (_ =? maximum_pending_messages _); [by destruct H as [_ ->]|].
  by destruct H as (_ & H1 & H2).
Qed.

(** A queue that does not block and is empty: the call returns the length of the buffer, as
    if a message of that length had arrived. *)
Theorem mq_receive_nothing routine wfuel resume length_out mqdes q buffer size k k1 :
  Get mqdes k = Some (OBJECTS_LOCAL, q, k1) -> pmq_blocking (posix_mq k1 q) = false -> u32 size ->
  msgq_ok (Core_mq q) (put_word length_out size k1) -> messages k1 (Core_mq q) = [] ->
  exists k2, mq_receive switch postswitch isrs fuel node nodes routine wfuel id id resume [] length_out mqdes buffer size k =
      match _Thread_Enable_dispatch switch postswitch fuel isrs k2 with
      | None => Unfinished
      | Some k => let k := resume k in Returned (signed32 (ld32 (memory k) length_out)) k
      end /\
    ld32 (memory k2) length_out = size /\ messages k2 (Core_mq q) = [] /\
    Wait_return_code (Wait (tcb k2 (_Thread_Executing k1))) = CORE_MESSAGE_QUEUE_STATUS_UNSATISFIED_NOWAIT.
Proof using.
  intros HG HB Hs HO HM. unfold mq_receive, _POSIX_Message_queue_Receive_support, with_mq. rewrite HG.
  change (posix_mq (put_word length_out size k1) q) with (posix_mq k1 q). rewrite HB. unfold messages in HM. apply map_eq_nil in HM.
  destruct (msg_seize_refused routine wfuel fuel (Core_mq q) mqdes buffer length_out THREAD_QUEUE_WAIT_FOREVER _ HO HM) as (k2 & -> & A & B & C & D & F).
  exists k2. split; [done|]. unfold messages. rewrite C, F. change (_Thread_Executing (put_word length_out size k1)) with (_Thread_Executing k1).
  rewrite decide_True by done. rewrite D. split_and!; [by apply ld32_st32|by change (mq (put_word length_out size k1) (Core_mq q)) with (mq k1 (Core_mq q)); rewrite HM|done].
Qed.

(** Opening never creates a queue: no object is allocated, whatever the flags. *)
Theorem mq_open_creates_nothing stray name oflag k :
  match mq_open name_to_id stray name oflag k with
  | Returned _ k' | Failed_with _ k' => information_table k' = information_table k /\ message_queues k' = message_queues k
  | Assertion_failed | Unfinished => False
  end.
Proof using. unfold mq_open. destruct (name_to_id name k) as [status i]. destruct (negb (status =? 0)); [by destruct (_ && _)|]. by destruct (_ =? _). Qed.

(** A name that exists cannot be unlinked: the call fails, with the error number 0. *)
Theorem mq_unlink_fails name i k : name_to_id name k = (0, i) ->
  mq_unlink switch postswitch isrs fuel node nodes mp_close mp_announce name_to_id name k = Failed_with 0 k.
Proof using. intros E. unfold mq_unlink. by rewrite E. Qed.

Lemma posix_mq_upd q f k : posix_mq (upd_posix_mq q f k) q = f (posix_mq k q).
Proof using. unfold posix_mq at 1, upd_posix_mq, upd_rtems. simpl. apply lookup_total_insert_eq. Qed.

(** The attributes that are set are the flags, of which [O_NONBLOCK] decides whether receiving
    blocks; the limits and the messages are not changed by it. *)
Theorem mq_setattr_correct mqdes q stat ostat k k1 : Get mqdes k = Some (OBJECTS_LOCAL, q, k1) ->
  exists k2, mq_setattr switch postswitch isrs fuel node nodes mqdes stat ostat k = returns (enable_return switch postswitch isrs fuel 0 k2) /\
    mq_status q k2 = {| mq_flags := mq_flags stat; mq_maxmsg := mq_maxmsg (mq_status q k1); mq_msgsize := mq_msgsize (mq_status q k1);
                        mq_curmsgs := mq_curmsgs (mq_status q k1) |} /\
    pmq_blocking (posix_mq k2 q) = negb (nonblocking (mq_flags stat)) /\ message_queues k2 = message_queues k1 /\ same_threads k1 k2.
Proof using.
  intros HG. unfold mq_setattr, with_mq. rewrite HG. eexists. split; [done|]. unfold mq_status at 1. rewrite !posix_mq_upd. by split_and!.
Qed.
End Queues.
