(* ===== verification/PosixApi.v ===== *)
(** * The rest of the POSIX API: scheduling calls, sleeping and initialization

    posix/src/sched.c, posix/src/unistd.c and sapi/src/posixapi.c.  The sizes and addresses of
    the tables of the managers are parameters. *)
From S2P Require Import Prelude Chain Watchdog WatchdogProofs Tod Object Priority ApiTypes Heap Kernel Thread ThreadProofs ThreadSpec Threadq ThreadqProofs ThreadqSpec Workspace.
From S2P Require Import CoreWait CoreMsg Rtems Partition Extension Init ThreadLife Tasks Exinit Posix PosixKey PosixTime PosixMutex PosixCond PosixSignal PosixThread.

(** ** Scheduling *)

Definition sched_setparam (pid : Z) (k : Kernel) : result := Failed_with ENOSYS k.
Definition sched_getparam (pid : Z) (k : Kernel) : result := Failed_with ENOSYS k.
Definition sched_setscheduler (pid policy : Z) (k : Kernel) : result := Failed_with ENOSYS k.
Definition sched_getscheduler (pid : Z) (k : Kernel) : result := Failed_with ENOSYS k.

Definition known_policy (policy : Z) : bool :=
  (policy =? SCHED_OTHER) || (policy =? SCHED_FIFO) || (policy =? SCHED_RR) || (policy =? SCHED_SPORADIC).
Definition sched_get_priority_max (policy : Z) (k : Kernel) : result :=
  if known_policy policy then Returned POSIX_SCHEDULER_MAXIMUM_PRIORITY k else Failed_with EINVAL k.
Definition sched_get_priority_min (policy : Z) (k : Kernel) : result :=
  if known_policy policy then Returned POSIX_SCHEDULER_MINIMUM_PRIORITY k else Failed_with EINVAL k.

Definition sched_rr_get_interval (_Objects_Local_node pid interval : Z) (k : Kernel) : result :=
  if negb (pid =? getpid _Objects_Local_node) then Failed_with ESRCH k
  else if interval =? NULL then Failed_with EINVAL k
  else Returned 0 (put_timespec interval (_POSIX_Interval_to_timespec (_TOD_Microseconds_per_tick (tod k)) (_Thread_Ticks_per_timeslice k)) k).

Section Calls.
Context (switch : Z -> Z -> Kernel -> Kernel) (postswitch : Kernel -> Kernel) (isrs : list (Kernel -> Kernel)) (fuel : nat).

Definition sched_yield (k : Kernel) : result :=
  returns (enable_return switch postswitch isrs fuel 0 (_Thread_Yield_processor (_Thread_Disable_dispatch k))).

(** The two times are local variables, at [tp] and [tm]; what [nanosleep] returns is not
    looked at. *)
Definition sleep (wfuel : nat) (wisr : Kernel -> Kernel) (Delay_ended : Z) (resume : Kernel -> Kernel) (tp tm seconds : Z) (k : Kernel)
  : option (Z * Kernel) :=
  let k := put_timespec tp {| tv_sec := seconds; tv_nsec := 0 |} k in
  match nanosleep switch postswitch isrs fuel wfuel wisr Delay_ended resume tp tm k with
  | Returned _ k | Failed_with _ k => Some (wrap32 (tv_sec (timespec_at k tm)), k)
  | Assertion_failed | Unfinished => None
  end.
End Calls.

(** ** Initialization *)

(** The table of the initialization threads with its length is a list of entry points, [None]
    for a null pointer. *)
Record posix_api_configuration_table : Type := {
  maximum_threads : Z;
  maximum_mutexes : Z;
  maximum_condition_variables : Z;
  maximum_keys : Z;
  maximum_queued_signals : Z;
  User_initialization_threads : option (list Z)
}.
Definition _POSIX_Default_configuration : posix_api_configuration_table :=
  {| maximum_threads := 0; maximum_mutexes := 0; maximum_condition_variables := 0; maximum_keys := 0; maximum_queued_signals := 0;
     User_initialization_threads := None |}.

Section Initialization.
Context (workspace : Z) (hfuel : nat) (fatal_extensions : Internal_errors_Information -> Kernel -> Kernel).
Context (node nodes : Z) (is_multiprocessing : bool) (sizeof : Z -> Z).
Context (Wait_queue Alarm_timer Alarm_TSR Abormal_termination_handler user_extension_set api_extension_set : Z).

(** With the initialization threads that [_POSIX_Threads_Initialize_user_threads] will find. *)
Definition _POSIX_API_Initialize (configuration : option posix_api_configuration_table) (k : Kernel) : outcome (option (list Z) * Kernel) :=
  let c := default _POSIX_Default_configuration configuration in
  k <-- _POSIX_signals_Manager_Initialization workspace hfuel fatal_extensions Wait_queue Alarm_timer Alarm_TSR Abormal_termination_handler
          (maximum_queued_signals c) k;
  k <-- _POSIX_Threads_Manager_initialization workspace hfuel fatal_extensions node nodes is_multiprocessing (sizeof OBJECTS_POSIX_THREADS)
          user_extension_set api_extension_set (maximum_threads c) k;
  k <-- _POSIX_Condition_variables_Manager_initialization workspace hfuel fatal_extensions node nodes is_multiprocessing
          (sizeof OBJECTS_POSIX_CONDITION_VARIABLES) (maximum_condition_variables c) k;
  k <-- _POSIX_Key_Manager_initialization workspace hfuel fatal_extensions node nodes is_multiprocessing (sizeof OBJECTS_POSIX_KEYS)
          (maximum_keys c) k;
  k <-- _POSIX_Mutex_Manager_initialization workspace hfuel fatal_extensions node nodes is_multiprocessing (sizeof OBJECTS_POSIX_MUTEXES)
          (maximum_mutexes c) k;
  Done (User_initialization_threads c, k).
End Initialization.

(** ** Properties *)

(** Every priority between the limits that are reported is a level of the core on which a
    thread can be. *)
Theorem sched_limits policy k p : known_policy policy = true ->
  sched_get_priority_max policy k = Returned POSIX_SCHEDULER_MAXIMUM_PRIORITY k /\
  sched_get_priority_min policy k = Returned POSIX_SCHEDULER_MINIMUM_PRIORITY k /\
  (POSIX_SCHEDULER_MINIMUM_PRIORITY <= p <= POSIX_SCHEDULER_MAXIMUM_PRIORITY -> _POSIX_Priority_Is_valid p = true).
Proof.
  intros H. unfold sched_get_priority_max, sched_get_priority_min. rewrite H. split; [done|]. split; [done|].
  unfold _POSIX_Priority_Is_valid. intros [H1 H2]. apply andb_true_iff. unfold POSIX_SCHEDULER_MINIMUM_PRIORITY, POSIX_SCHEDULER_MAXIMUM_PRIORITY in *. split; apply Z.leb_le; lia.
Qed.

(** The caller goes behind the other threads of its priority, the first of which is the heir
    when dispatching is enabled again; without one nothing changes. *)
Theorem sched_yield_correct switch postswitch isrs fuel k t rest :
  sched_ok k -> t = _Thread_Executing k -> t = _Thread_Heir k -> chain_at k (current_priority (tcb k t)) = t :: rest ->
  let k1 := _Thread_Disable_dispatch k in
  exists k2, sched_yield switch postswitch isrs fuel k = returns (enable_return switch postswitch isrs fuel 0 k2) /\ sched_ok k2 /\
  match rest with
  | [] => k2 = k1
  | next :: more =>
      _Thread_Heir k2 = next /\ _Context_Switch_necessary k2 = true /\
      forall q, chain_at k2 q = if decide (q = current_priority (tcb k t)) then next :: more ++ [t] else chain_at k q
  end.
Proof.
  intros HS E1 E2 EC k1. assert (sched_ok k1) as HS1 by (by apply (same_threads_sched k)).
  destruct (thread_yield_correct k1 t rest HS1 E1 E2 EC) as (_ & H1 & H2). eexists. split; [done|]. split; [exact H1|exact H2].
Qed.
