(* ===== verification/Sparc.v ===== *)
(** * Interrupts: the Interrupt Manager and the SPARC port it calls

    rtems/src/intr.c and intrbody.c, score/inline/isr.inl, and of the SPARC port
    (score/cpu/sparc) the routines of cpu.c and the interrupt level macros of sparc.h.  The
    state is the processor status and trap base registers, the table of user handlers and
    the byte memory, which holds the trap table: four instruction words per trap. *)
From S2P Require Import Prelude Chain ObjectSpec ApiTypes CoreMsg CoreMsgSpec Rtems EventSpec ThreadLife.

(** ** State *)

Record Sparc : Type := {
  psr : Z;
  tbr : Z;
  _ISR_Vector_table : gmap Z Z;
  ram : mem
}.
Definition set_psr (v : Z) (s : Sparc) : Sparc :=
  {| psr := v; tbr := tbr s; _ISR_Vector_table := _ISR_Vector_table s; ram := ram s |}.
Definition set_tbr (v : Z) (s : Sparc) : Sparc :=
  {| psr := psr s; tbr := v; _ISR_Vector_table := _ISR_Vector_table s; ram := ram s |}.
Definition set_vector_table (v : gmap Z Z) (s : Sparc) : Sparc :=
  {| psr := psr s; tbr := tbr s; _ISR_Vector_table := v; ram := ram s |}.
Definition set_ram (v : mem) (s : Sparc) : Sparc :=
  {| psr := psr s; tbr := tbr s; _ISR_Vector_table := _ISR_Vector_table s; ram := v |}.

(** ** The interrupt level (sparc.h)

    The level a section of code returns to is the whole register. *)

Definition SPARC_PSR_PIL_MASK : Z := 3840.
Definition SPARC_PSR_PIL_BIT_POSITION : Z := 8.
Definition SPARC_PSR_EF_MASK : Z := 4096.

Definition sparc_disable_interrupts (s : Sparc) : Z * Sparc :=
  (psr s, set_psr (Z.lor (psr s) SPARC_PSR_PIL_MASK) s).
Definition sparc_enable_interrupts (level : Z) (s : Sparc) : Sparc :=
  let tmp := Z.land (psr s) (not32 SPARC_PSR_PIL_MASK) in
  set_psr (Z.lor tmp (Z.land level SPARC_PSR_PIL_MASK)) s.
(** [window] is what runs while interrupts are enabled. *)
Definition sparc_flash_interrupts (window : Sparc -> Sparc) (level : Z) (s : Sparc) : Sparc :=
  (sparc_disable_interrupts (window (sparc_enable_interrupts level s))).2.
Definition sparc_set_interrupt_level (new_level : Z) (s : Sparc) : Sparc :=
  let new_psr_level := Z.land (psr s) (not32 SPARC_PSR_PIL_MASK) in
  set_psr (Z.lor new_psr_level
    (Z.land (wrap32 (Z.shiftl new_level SPARC_PSR_PIL_BIT_POSITION)) SPARC_PSR_PIL_MASK)) s.
Definition sparc_get_interrupt_level (s : Sparc) : Z :=
  Z.shiftr (Z.land (psr s) SPARC_PSR_PIL_MASK) SPARC_PSR_PIL_BIT_POSITION.
Definition _CPU_ISR_Get_level : Sparc -> Z := sparc_get_interrupt_level.

(** ** The trap table (cpu.h, cpu.c) *)

Definition CPU_INTERRUPT_MAXIMUM_VECTOR_NUMBER : Z := 511.
Definition SPARC_REAL_TRAP_NUMBER (trap : Z) : Z := trap mod 256.
Definition SPARC_TRAP_TABLE_ALIGNMENT : Z := 4096.
Definition sizeof_CPU_Trap_table_entry : Z := 16.
Definition HIGH_BITS_MASK : Z := 4294966272.
Definition HIGH_BITS_SHIFT : Z := 10.
Definition LOW_BITS_MASK : Z := 1023.

Record CPU_Trap_table_entry : Type := {
  mov_psr_l0 : Z;
  sethi_of_handler_to_l4 : Z;
  jmp_to_low_of_handler_plus_l4 : Z;
  mov_vector_l3 : Z
}.
Definition _CPU_Trap_slot_template : CPU_Trap_table_entry :=
  {| mov_psr_l0 := 2705850368; sethi_of_handler_to_l4 := 687865856;
     jmp_to_low_of_handler_plus_l4 := 2177179648; mov_vector_l3 := 2786074624 |}.

Definition load_slot (m : mem) (slot : Z) : CPU_Trap_table_entry :=
  {| mov_psr_l0 := ld32 m slot; sethi_of_handler_to_l4 := ld32 m (slot + 4);
     jmp_to_low_of_handler_plus_l4 := ld32 m (slot + 8); mov_vector_l3 := ld32 m (slot + 12) |}.
Definition store_slot (slot : Z) (e : CPU_Trap_table_entry) (m : mem) : mem :=
  st32 (st32 (st32 (st32 m slot (mov_psr_l0 e)) (slot + 4) (sethi_of_handler_to_l4 e))
    (slot + 8) (jmp_to_low_of_handler_plus_l4 e)) (slot + 12) (mov_vector_l3 e).
Definition trap_table (s : Sparc) : Z := Z.land (tbr s) 4294963200.
Definition trap_slot (s : Sparc) (vector : Z) : Z :=
  trap_table s + SPARC_REAL_TRAP_NUMBER vector * sizeof_CPU_Trap_table_entry.

(** What [_CPU_ISR_install_raw_handler] reports of a slot, and what it puts there. *)
Definition slot_handler (e : CPU_Trap_table_entry) : Z :=
  if mov_psr_l0 e =? mov_psr_l0 _CPU_Trap_slot_template then
    Z.lor (wrap32 (Z.shiftl (Z.land (sethi_of_handler_to_l4 e) HIGH_BITS_MASK) HIGH_BITS_SHIFT))
      (Z.land (jmp_to_low_of_handler_plus_l4 e) LOW_BITS_MASK)
  else 0.
Definition slot_for (vector u32_handler : Z) : CPU_Trap_table_entry :=
  {| mov_psr_l0 := mov_psr_l0 _CPU_Trap_slot_template;
     sethi_of_handler_to_l4 := Z.lor (sethi_of_handler_to_l4 _CPU_Trap_slot_template)
       (Z.shiftr (Z.land u32_handler HIGH_BITS_MASK) HIGH_BITS_SHIFT);
     jmp_to_low_of_handler_plus_l4 := Z.lor (jmp_to_low_of_handler_plus_l4 _CPU_Trap_slot_template)
       (Z.land u32_handler LOW_BITS_MASK);
     mov_vector_l3 := Z.lor (mov_vector_l3 _CPU_Trap_slot_template) vector |}.

(** The old handler and the new state. *)
Definition _CPU_ISR_install_raw_handler (vector new_handler : Z) (s : Sparc) : Z * Sparc :=
  let slot := trap_slot s vector in
  let old_handler := slot_handler (load_slot (ram s) slot) in
  (old_handler, set_ram (store_slot slot (slot_for vector new_handler) (ram s)) s).

(** [old_handler] is the address the former user handler is stored at, [_ISR_Handler] that
    of the executive's wrapper. *)
Definition _CPU_ISR_install_vector (_ISR_Handler vector new_handler old_handler : Z) (s : Sparc) : Sparc :=
  let real_vector := SPARC_REAL_TRAP_NUMBER vector in
  let s := set_ram (st32 (ram s) old_handler (default 0 (_ISR_Vector_table s !! real_vector))) s in
  let s := (_CPU_ISR_install_raw_handler vector _ISR_Handler s).2 in
  set_vector_table (<[real_vector := new_handler]> (_ISR_Vector_table s)) s.

(** The part of [_CPU_Initialize] that moves the trap table to the executive's own area. *)
Definition trap_table_start (area : Z) : Z :=
  if negb (Z.land area (SPARC_TRAP_TABLE_ALIGNMENT - 1) =? 0)
  then Z.land (area +w SPARC_TRAP_TABLE_ALIGNMENT) (not32 (SPARC_TRAP_TABLE_ALIGNMENT - 1))
  else area.
Definition move_trap_table (_CPU_Trap_Table_area : Z) (s : Sparc) : Sparc :=
  let start := trap_table_start _CPU_Trap_Table_area in
  let old_tbr := trap_table s in
  set_tbr start (set_ram (memcpy (Z.to_nat (256 * sizeof_CPU_Trap_table_entry)) (ram s) start old_tbr) s).

(** ** The context of a new thread (cpu.c) *)

Definition CPU_MINIMUM_STACK_FRAME_SIZE : Z := 96.
Record Context_Control : Type := {
  o7 : Z;
  o6_sp : Z;
  i6_fp : Z;
  context_psr : Z
}.
Definition _CPU_Context_Initialize (SPARC_HAS_FPU : bool) (stack_base size new_level entry : Z) (is_fp : bool)
    (s : Sparc) : Context_Control :=
  let stack_high := stack_base +w size in
  let stack_high := Z.land stack_high (not32 (CPU_STACK_ALIGNMENT - 1)) in
  let tmp_psr := Z.land (psr s) (not32 SPARC_PSR_PIL_MASK) in
  let tmp_psr := Z.lor tmp_psr (Z.land (wrap32 (Z.shiftl new_level 8)) SPARC_PSR_PIL_MASK) in
  let tmp_psr := Z.land tmp_psr (not32 SPARC_PSR_EF_MASK) in
  let tmp_psr := if SPARC_HAS_FPU && is_fp then Z.lor tmp_psr SPARC_PSR_EF_MASK else tmp_psr in
  {| o7 := entry -w 8; o6_sp := stack_high -w CPU_MINIMUM_STACK_FRAME_SIZE; i6_fp := stack_high;
     context_psr := tmp_psr |}.

(** ** The Interrupt Manager (rtems/src/intr.c, intrbody.c) *)

Definition _ISR_Is_vector_number_valid (vector : Z) : bool := vector <=? CPU_INTERRUPT_MAXIMUM_VECTOR_NUMBER.
Definition _ISR_Is_valid_user_handler (handler : Z) : bool := negb (handler =? NULL).

Definition rtems_interrupt_catch (_ISR_Handler new_isr_handler vector old_isr_handler : Z) (s : Sparc) : Z * Sparc :=
  if negb (_ISR_Is_vector_number_valid vector) then (RTEMS_INVALID_NUMBER, s)
  else if negb (_ISR_Is_valid_user_handler new_isr_handler) then (RTEMS_INVALID_ADDRESS, s)
  else if negb (_ISR_Is_valid_user_handler old_isr_handler) then (RTEMS_INVALID_ADDRESS, s)
  else (RTEMS_SUCCESSFUL, _CPU_ISR_install_vector _ISR_Handler vector new_isr_handler old_isr_handler s).

Definition rtems_interrupt_disable : Sparc -> Z * Sparc := sparc_disable_interrupts.
Definition rtems_interrupt_enable : Z -> Sparc -> Sparc := sparc_enable_interrupts.
Definition rtems_interrupt_flash : (Sparc -> Sparc) -> Z -> Sparc -> Sparc := sparc_flash_interrupts.

(** * Correctness

    Installing a handler reports the one it replaces, and the trap table entry that it
    builds takes the processor to the executive's wrapper with the number of the vector;
    the interrupt level of a critical section is given back; a new thread's context starts
    it on an aligned stack at the level asked for.  The handler that the raw installation
    reports has lost ten bits of its address. *)

(** ** Masks *)

Lemma u32_high_bits x n : u32 x -> 32 <= n -> Z.testbit x n = false.
Proof.
  intros [H1 H2] Hn. destruct (Z.eq_dec x 0) as [-> |]; [apply Z.bits_0|]. apply Z.bits_above_log2; [lia|].
  apply Z.log2_lt_pow2; [lia|]. assert (2 ^ 32 <= 2 ^ n) by (apply Z.pow_le_mono_r; lia). unfold two32 in H2. lia.
Qed.

Lemma land_not32 x m : u32 x -> u32 m -> Z.land x (not32 m) = Z.ldiff x m.
Proof.
  intros Hx Hm. apply Z.bits_inj'. intros n Hn. rewrite Z.land_spec, Z.ldiff_spec, not32_testbit by done.
  destruct (Z.ltb_spec n 32); [done|]. by rewrite (u32_high_bits x n).
Qed.

(** Clearing the low bits of an address. *)
Lemma align_down x n : u32 x -> 0 <= n < 32 -> Z.land x (not32 (2 ^ n - 1)) = x - x mod 2 ^ n.
Proof.
  intros Hx Hn. assert (2 ^ n < 2 ^ 32) by (apply Z.pow_lt_mono_r; lia).
  assert (0 < 2 ^ n) by (apply Z.pow_pos_nonneg; lia).
  rewrite land_not32; [|done|unfold u32, two32; lia].
  replace (2 ^ n - 1) with (Z.ones n) by (rewrite Z.ones_equiv; lia).
  rewrite Z.ldiff_ones_r, Z.shiftl_mul_pow2, Z.shiftr_div_pow2 by lia. rewrite (Z.mod_eq x (2 ^ n)) by lia. lia.
Qed.

Lemma masked_lor a b m : Z.land a m = 0 -> Z.land (Z.lor a b) m = Z.land b m.
Proof. intros H. by rewrite Z.land_lor_distr_l, H. Qed.

Lemma land_low x n : 0 <= n -> 0 <= x < 2 ^ n -> Z.land x (Z.ones n) = x.
Proof. intros Hn Hx. rewrite Z.land_ones by done. by apply Z.mod_small. Qed.

(** ** The interrupt level *)

Lemma level_field l : Z.shiftr (Z.land (wrap32 (Z.shiftl l 8)) SPARC_PSR_PIL_MASK) 8 = l mod 16.
Proof.
  unfold wrap32. change two32 with (2 ^ 32). rewrite <- Z.land_ones, <- Z.land_assoc by lia.
  change (Z.land (Z.ones 32) SPARC_PSR_PIL_MASK) with SPARC_PSR_PIL_MASK.
  rewrite Z.shiftr_land, Z.shiftr_shiftl_l by lia. simpl. change (Z.shiftr SPARC_PSR_PIL_MASK 8) with (Z.ones 4).
  by rewrite Z.land_ones by lia.
Qed.

Lemma cleared_pil p : Z.land (Z.land p (not32 SPARC_PSR_PIL_MASK)) SPARC_PSR_PIL_MASK = 0.
Proof. rewrite <- Z.land_assoc. apply Z.land_0_r. Qed.

Lemma set_level_get l s : sparc_get_interrupt_level (sparc_set_interrupt_level l s) = l mod 16.
Proof.
  unfold sparc_get_interrupt_level, sparc_set_interrupt_level. simpl psr.
  rewrite masked_lor by apply cleared_pil. rewrite <- Z.land_assoc, Z.land_diag. apply level_field.
Qed.

Lemma lor_absorb a m : Z.lor (Z.land a m) m = m.
Proof. apply Z.bits_inj'. intros n Hn. rewrite Z.lor_spec, Z.land_spec. by destruct (Z.testbit a n), (Z.testbit m n). Qed.

Lemma disabled_level s : sparc_get_interrupt_level (sparc_disable_interrupts s).2 = 15.
Proof.
  unfold sparc_get_interrupt_level, sparc_disable_interrupts. simpl psr.
  rewrite Z.land_lor_distr_l, Z.land_diag, lor_absorb. done.
Qed.

Lemma enabled_level level s :
  sparc_get_interrupt_level (sparc_enable_interrupts level s) = Z.shiftr (Z.land level SPARC_PSR_PIL_MASK) 8.
Proof.
  unfold sparc_get_interrupt_level, sparc_enable_interrupts. simpl psr.
  by rewrite masked_lor, <- Z.land_assoc, Z.land_diag by apply cleared_pil.
Qed.

(** A critical section ends at the level it began at, and what its body did to the other
    fields of the register stays. *)
Lemma critical_section_restores (body : Sparc -> Sparc) s :
  let r := rtems_interrupt_disable s in
  let s1 := body (snd r) in
  let s2 := rtems_interrupt_enable (fst r) s1 in
  sparc_get_interrupt_level (snd r) = 15 /\
  sparc_get_interrupt_level s2 = sparc_get_interrupt_level s /\
  Z.land (psr s2) (not32 SPARC_PSR_PIL_MASK) = Z.land (psr s1) (not32 SPARC_PSR_PIL_MASK) /\
  ram s2 = ram s1 /\ tbr s2 = tbr s1 /\ _ISR_Vector_table s2 = _ISR_Vector_table s1.
Proof.
  cbv zeta. split; [apply disabled_level|]. split; [apply enabled_level|]. split_and!; try done.
  unfold rtems_interrupt_enable, sparc_enable_interrupts. simpl psr.
  rewrite Z.land_lor_distr_l, <- !Z.land_assoc, Z.land_diag. simpl.
  change (Z.land SPARC_PSR_PIL_MASK (not32 SPARC_PSR_PIL_MASK)) with 0. by rewrite Z.land_0_r, Z.lor_0_r.
Qed.

Lemma flash_stays_disabled (window : Sparc -> Sparc) level s :
  sparc_get_interrupt_level (rtems_interrupt_flash window level s) = 15.
Proof. apply disabled_level. Qed.

(** ** The processor at a trap table entry

    The four kinds of instructions of an entry, with their formats and their effect, as the
    architecture (version 8) defines them.  A word of another kind is not executed. *)

Inductive instruction : Type :=
  | SETHI (rd imm22 : Z)
  | RDPSR (rd : Z)
  | OR_immediate (rd rs1 simm13 : Z)
  | JMPL_immediate (rd rs1 simm13 : Z).

(** [n] bits of a word, from bit [lo]. *)
Definition bit_field (word lo n : Z) : Z := word / 2 ^ lo mod 2 ^ n.
Definition simm13 (word : Z) : Z := let i := bit_field word 0 13 in if i <? 4096 then i else i - 8192.
Definition decode (word : Z) : option instruction :=
  let rd := bit_field word 25 5 in
  if bit_field word 30 2 =? 0 then (if bit_field word 22 3 =? 4 then Some (SETHI rd (bit_field word 0 22)) else None)
  else if bit_field word 30 2 =? 2 then
    let op3 := bit_field word 19 6 in
    let rs1 := bit_field word 14 5 in
    if op3 =? 41 then Some (RDPSR rd)
    else if bit_field word 13 1 =? 0 then None
    else if op3 =? 2 then Some (OR_immediate rd rs1 (simm13 word))
    else if op3 =? 56 then Some (JMPL_immediate rd rs1 (simm13 word))
    else None
  else None.

(** The program counter, the next one, and the registers of the window; [%g0] is 0. *)
Record Processor : Type := { pc : Z; npc : Z; register : Z -> Z }.
Definition read_register (p : Processor) (r : Z) : Z := if r =? 0 then 0 else register p r.
Definition sequential (rd v : Z) (p : Processor) : Processor :=
  {| pc := npc p; npc := npc p +w 4; register := fun r => if r =? rd then v else register p r |}.
Definition execute (status : Z) (i : instruction) (p : Processor) : option Processor :=
  match i with
  | SETHI rd imm22 => Some (sequential rd (wrap32 (Z.shiftl imm22 10)) p)
  | RDPSR rd => Some (sequential rd status p)
  | OR_immediate rd rs1 simm13 => Some (sequential rd (Z.lor (read_register p rs1) (wrap32 simm13)) p)
  | JMPL_immediate rd rs1 simm13 =>
      let target := wrap32 (read_register p rs1 + simm13) in
      if target mod 4 =? 0
      then Some {| pc := npc p; npc := target; register := fun r => if r =? rd then pc p else register p r |}
      else None
  end.
Fixpoint steps (n : nat) (m : mem) (status : Z) (p : Processor) : option Processor :=
  match n with
  | O => Some p
  | S n => i ← decode (ld32 m (pc p)); p ← execute status i p; steps n m status p
  end.

Definition l0 : Z := 16.
Definition l3 : Z := 19.
Definition l4 : Z := 20.

(** From the entry at [slot] the processor reaches [target] in four instructions, with the
    status register in [%l0] and the vector in [%l3]; of the other registers only [%l4] is
    used, to compute the address. *)
Definition leads_to (m : mem) (slot target vector : Z) : Prop :=
  forall status registers, exists p,
    steps 4 m status {| pc := slot; npc := slot + 4; register := registers |} = Some p /\
    pc p = target /\ npc p = target +w 4 /\ register p l0 = status /\ register p l3 = vector /\
    forall r, r <> 0 -> r <> l0 -> r <> l3 -> r <> l4 -> register p r = registers r.

Section Entry.
Context (vector h : Z) (Hv : 0 <= vector < 512) (Hh : u32 h).

Lemma high_bits : Z.shiftr (Z.land h HIGH_BITS_MASK) HIGH_BITS_SHIFT = h / 1024.
Proof using Hh.
  clear Hv. rewrite Z.shiftr_land. change (Z.shiftr HIGH_BITS_MASK HIGH_BITS_SHIFT) with (Z.ones 22).
  unfold HIGH_BITS_SHIFT. rewrite Z.shiftr_div_pow2 by lia. change (2 ^ 10) with 1024. apply land_low; [lia|].
  unfold u32, two32 in Hh. change (2 ^ 22) with 4194304. Z.div_mod_to_equations; lia.
Qed.

Lemma low_bits : Z.land h LOW_BITS_MASK = h mod 1024.
Proof. change LOW_BITS_MASK with (Z.ones 10). by rewrite Z.land_ones by lia. Qed.

(** The fields of a word put together from a template and a small value. *)
Lemma field_template a m x lo n : 0 <= m <= lo -> 0 <= x < 2 ^ m -> bit_field (a * 2 ^ m + x) lo n = bit_field a (lo - m) n.
Proof.
  clear. intros Hm Hx. unfold bit_field. f_equal. replace lo with (m + (lo - m)) at 1 by lia. rewrite Z.pow_add_r, <- Z.div_div by lia.
  f_equal. rewrite Z.div_add_l, Z.div_small by lia. lia.
Qed.

Lemma field_value a m x : 0 <= m -> 0 <= x < 2 ^ m -> bit_field (a * 2 ^ m + x) 0 m = x.
Proof. clear. intros Hm Hx. unfold bit_field. rewrite Z.pow_0_r, Z.div_1_r, Z.add_comm, Z.mod_add, Z.mod_small by lia. done. Qed.

(** The words of an entry, decoded. *)
Lemma slot_for_decoded : let e := slot_for vector h in
  decode (mov_psr_l0 e) = Some (RDPSR l0) /\ decode (sethi_of_handler_to_l4 e) = Some (SETHI l4 (h / 1024)) /\
  decode (jmp_to_low_of_handler_plus_l4 e) = Some (JMPL_immediate 0 l4 (h mod 1024)) /\
  decode (mov_vector_l3 e) = Some (OR_immediate l3 0 vector).
Proof using Hv Hh.
  cbn zeta. unfold slot_for. simpl. rewrite high_bits, low_bits. unfold u32, two32 in Hh.
  assert (0 <= h / 1024 < 2 ^ 22) as H1 by (change (2 ^ 22) with 4194304; Z.div_mod_to_equations; lia).
  assert (0 <= h mod 1024 < 2 ^ 13 /\ h mod 1024 < 4096) as [H2 H2'] by (change (2 ^ 13) with 8192; Z.div_mod_to_equations; lia).
  assert (0 <= vector < 2 ^ 13) as H3 by (change (2 ^ 13) with 8192; lia).
  change 687865856 with (164 * 2 ^ 22). change 2177179648 with (265769 * 2 ^ 13). change 2786074624 with (340097 * 2 ^ 13).
  rewrite (lor_add 164 (h / 1024) 22 ltac:(lia) H1), (lor_add 265769 (h mod 1024) 13 ltac:(lia) H2), (lor_add 340097 vector 13 ltac:(lia) H3). split; [reflexivity|]. unfold decode, simm13.
  rewrite !(field_template 164 22), !(field_template 265769 13), !(field_template 340097 13) by (done || lia).
  rewrite !(field_template 265769 13 _ 19), !(field_template 265769 13 _ 14), !(field_template 265769 13 _ 13) by (done || lia).
  rewrite !(field_template 340097 13 _ 19), !(field_template 340097 13 _ 14), !(field_template 340097 13 _ 13), !field_value by (done || lia).
  rewrite (proj2 (Z.ltb_lt (h mod 1024) 4096) H2'), (proj2 (Z.ltb_lt vector 4096)) by lia.
  repeat match goal with |- context [bit_field (Z.pos ?c) ?lo ?n] => let v := eval vm_compute in (bit_field (Z.pos c) lo n) in change (bit_field (Z.pos c) lo n) with v end.
  done.
Qed.

(** The processor goes through an entry that holds these words. *)
Lemma slot_for_leads m slot : h mod 4 = 0 -> 0 <= slot -> slot + 16 <= two32 -> load_slot m slot = slot_for vector h -> leads_to m slot h vector.
Proof using Hv Hh.
  intros Ha H0 H1 HL status registers. destruct slot_for_decoded as (D0 & D1 & D2 & D3). rewrite <- HL in D0, D1, D2, D3.
  unfold load_slot in D0, D1, D2, D3. cbn [mov_psr_l0 sethi_of_handler_to_l4 jmp_to_low_of_handler_plus_l4 mov_vector_l3] in D0, D1, D2, D3.
  assert (slot + 4 +w 4 = slot + 8) as E1 by (rewrite wrap32_small; [lia|unfold u32; lia]).
  assert (slot + 8 +w 4 = slot + 12) as E2 by (rewrite wrap32_small; [lia|unfold u32; lia]).
  assert (wrap32 (wrap32 (Z.shiftl (h / 1024) 10) + h mod 1024) = h) as ET.
  { unfold u32 in Hh. rewrite Z.shiftl_mul_pow2 by lia. change (2 ^ 10) with 1024.
    rewrite (wrap32_small (h / 1024 * 1024)) by (unfold u32; Z.div_mod_to_equations; lia).
    rewrite wrap32_small; [|unfold u32]; Z.div_mod_to_equations; lia. }
  cbn [steps pc npc]. rewrite D0. cbn [mbind option_bind execute sequential pc npc]. rewrite D1.
  cbn [mbind option_bind execute sequential pc npc]. rewrite E1, D2.
  cbn [mbind option_bind execute sequential pc npc]. change (read_register _ l4) with (wrap32 (Z.shiftl (h / 1024) 10)).
  rewrite ET, (proj2 (Z.eqb_eq _ _) Ha). cbn [mbind option_bind pc npc]. rewrite E1, E2, D3. cbn [mbind option_bind execute].
  eexists. split; [reflexivity|]. cbn [sequential pc npc register]. change (read_register _ 0) with 0. rewrite Z.lor_0_l.
  split_and!; [done|done|done|rewrite Z.eqb_refl; apply wrap32_small; unfold u32, two32; lia|].
  intros r N0 N1 N3 N4. by rewrite !(proj2 (Z.eqb_neq r _)) by done.
Qed.

Lemma slot_for_u32 : u32 (sethi_of_handler_to_l4 (slot_for vector h)) /\
  u32 (jmp_to_low_of_handler_plus_l4 (slot_for vector h)) /\ u32 (mov_vector_l3 (slot_for vector h)).
Proof using Hv Hh.
  unfold slot_for. simpl. rewrite high_bits, low_bits. unfold u32, two32 in Hh.
  split_and!; apply lor_u32; try (by split); unfold u32, two32; Z.div_mod_to_equations; lia.
Qed.

(** What the raw installation reports of an entry it built: bits 10 to 19 are gone. *)
Lemma slot_handler_loses : slot_handler (slot_for vector h) = h - h / 1024 mod 1024 * 1024.
Proof using Hh.
  clear Hv. unfold slot_handler, slot_for. simpl. rewrite high_bits, low_bits.
  rewrite Z.land_lor_distr_l, Z.shiftl_lor. unfold wrap32. change two32 with (2 ^ 32).
  rewrite <- Z.land_ones, Z.land_lor_distr_l by lia.
  change (Z.land (Z.shiftl _ HIGH_BITS_SHIFT) (Z.ones 32)) with 0 at 1. rewrite Z.lor_0_l.
  unfold u32, two32 in Hh.
  assert (Z.land (h / 1024) HIGH_BITS_MASK = h / 1048576 * 1024) as ->.
  { change HIGH_BITS_MASK with (not32 (2 ^ 10 - 1)). rewrite align_down by (unfold u32, two32; Z.div_mod_to_equations; lia).
    change (2 ^ 10) with 1024. Z.div_mod_to_equations; lia. }
  rewrite Z.shiftl_mul_pow2, land_low by (unfold HIGH_BITS_SHIFT; change (2 ^ 10) with 1024; change (2 ^ 32) with 4294967296; Z.div_mod_to_equations; lia).
  assert (Z.land (Z.lor (jmp_to_low_of_handler_plus_l4 _CPU_Trap_slot_template) (h mod 1024)) LOW_BITS_MASK = h mod 1024) as E.
  { rewrite masked_lor by done. change LOW_BITS_MASK with (Z.ones 10). apply land_low; [lia|]. change (2 ^ 10) with 1024. Z.div_mod_to_equations; lia. }
  simpl in E. rewrite E. unfold HIGH_BITS_SHIFT. rewrite lor_add by (change (2 ^ 10) with 1024; Z.div_mod_to_equations; lia).
  change (2 ^ 10) with 1024. Z.div_mod_to_equations; lia.
Qed.
End Entry.

(** ** The table *)

Lemma ld32_st32_apart m a b v : apart b 4 a 4 -> ld32 (st32 m b v) a = ld32 m a.
Proof. intros H. by apply agrees_ld32, agrees_st32. Qed.

Lemma load_store_slot m a e : u32 (mov_psr_l0 e) -> u32 (sethi_of_handler_to_l4 e) ->
  u32 (jmp_to_low_of_handler_plus_l4 e) -> u32 (mov_vector_l3 e) -> load_slot (store_slot a e m) a = e.
Proof.
  intros A B C D. unfold load_slot, store_slot. destruct e as [w0 w1 w2 w3]; simpl in *.
  rewrite !(ld32_st32_apart _ a), !(ld32_st32_apart _ (a + 4)), (ld32_st32_apart _ (a + 8)) by (unfold apart; lia).
  by rewrite !ld32_st32.
Qed.

Lemma agrees_store_slot m a e b n : apart a 16 b n -> agrees b n m (store_slot a e m).
Proof.
  unfold apart, store_slot. intros H.
  do 3 (eapply agrees_trans; [|apply agrees_st32; unfold apart; lia]). apply agrees_st32. unfold apart. lia.
Qed.

Lemma slot_in_table s vector : trap_table s <= trap_slot s vector /\ trap_slot s vector + 16 <= trap_table s + 4096.
Proof.
  unfold trap_slot, SPARC_REAL_TRAP_NUMBER, sizeof_CPU_Trap_table_entry.
  pose proof (Z.mod_pos_bound vector 256 ltac:(lia)). lia.
Qed.

Lemma trap_table_range s : 0 <= trap_table s <= two32 - 4096.
Proof.
  unfold trap_table. change 4294963200 with (Z.land (Z.ones 32) (not32 (2 ^ 12 - 1))).
  rewrite Z.land_assoc, Z.land_ones by lia. change (2 ^ 32) with two32. pose proof (Z.mod_pos_bound (tbr s) two32 eq_refl) as H.
  rewrite align_down by (done || lia). change (2 ^ 12) with 4096. unfold two32 in *. Z.div_mod_to_equations; lia.
Qed.

(** The user handler of a vector; a synchronous vector shares that of the trap. *)
Definition user_handler (s : Sparc) (vector : Z) : Z :=
  default 0 (_ISR_Vector_table s !! SPARC_REAL_TRAP_NUMBER vector).

(** An installed handler: the trap's entry leads to the wrapper, the table to the handler. *)
Record installed (_ISR_Handler vector new_handler : Z) (s s' : Sparc) : Prop := {
  in_entry : leads_to (ram s') (trap_slot s' vector) _ISR_Handler vector;
  in_handlers : forall v, user_handler s' v =
    if decide (SPARC_REAL_TRAP_NUMBER v = SPARC_REAL_TRAP_NUMBER vector) then new_handler else user_handler s v;
  in_psr : psr s' = psr s;
  in_tbr : tbr s' = tbr s
}.

Section Install.
Context (_ISR_Handler vector new_handler old_handler : Z) (s : Sparc).
Context (HI : u32 _ISR_Handler) (HA : _ISR_Handler mod 4 = 0) (Hv : 0 <= vector < 512) (Hu : u32 (user_handler s vector)).
Context (Ho : apart old_handler 4 (trap_table s) 4096).
Notation s' := (_CPU_ISR_install_vector _ISR_Handler vector new_handler old_handler s).

Lemma installed_slot : load_slot (ram s') (trap_slot s vector) = slot_for vector _ISR_Handler.
Proof using HI Hv.
  destruct (slot_for_u32 vector _ISR_Handler Hv HI) as (A & B & C). by apply load_store_slot.
Qed.

Lemma install_vector_spec : installed _ISR_Handler vector new_handler s s' /\
  ld32 (ram s') old_handler = user_handler s vector /\
  forall a n, apart (trap_slot s vector) 16 a n -> apart old_handler 4 a n -> agrees a n (ram s) (ram s').
Proof using HI HA Hv Hu Ho.
  pose proof (slot_in_table s vector) as HT. pose proof (trap_table_range s) as HR. split; [split|split]; try done.
  - change (trap_slot s' vector) with (trap_slot s vector). apply slot_for_leads; [done..|lia|unfold two32 in *; lia|apply installed_slot].
  - intros v. unfold user_handler. simpl. case_decide as E; [by rewrite E, lookup_insert_eq|].
    by rewrite lookup_insert_ne.
  - rewrite <- (ld32_st32 (ram s) old_handler (user_handler s vector) Hu).
    apply agrees_ld32, agrees_store_slot. change (trap_slot (set_ram _ s) vector) with (trap_slot s vector).
    unfold apart in *. lia.
  - intros a n A B. eapply agrees_trans; [by apply (agrees_st32 a n _ old_handler)|]. by apply agrees_store_slot.
Qed.
End Install.

(** C34: [rtems_interrupt_catch] refuses vectors above 511 and null addresses without any
    effect.  Otherwise it reports the user handler the trap had, makes the new one the
    trap's (for its synchronous and asynchronous vector), and leaves a trap table entry
    whose four instructions take the processor to the executive's wrapper with the status
    register in [%l0] and the vector in [%l3], and change no other register but [%l4];
    no other byte of memory and no other handler changes. *)
Theorem interrupt_catch_correct _ISR_Handler new_isr_handler vector old_isr_handler s :
  u32 _ISR_Handler -> _ISR_Handler mod 4 = 0 -> 0 <= vector -> u32 (user_handler s vector) ->
  apart old_isr_handler 4 (trap_table s) 4096 ->
  let r := rtems_interrupt_catch _ISR_Handler new_isr_handler vector old_isr_handler s in
  (511 < vector -> r = (RTEMS_INVALID_NUMBER, s)) /\
  (vector <= 511 -> new_isr_handler = NULL \/ old_isr_handler = NULL -> r = (RTEMS_INVALID_ADDRESS, s)) /\
  (vector <= 511 -> new_isr_handler <> NULL -> old_isr_handler <> NULL ->
   exists s', r = (RTEMS_SUCCESSFUL, s') /\ installed _ISR_Handler vector new_isr_handler s s' /\
     ld32 (ram s') old_isr_handler = user_handler s vector /\
     forall a n, apart (trap_slot s vector) 16 a n -> apart old_isr_handler 4 a n -> agrees a n (ram s) (ram s')).
Proof.
  intros HI HA Hv Hu Ho. cbv zeta. unfold rtems_interrupt_catch, _ISR_Is_vector_number_valid, _ISR_Is_valid_user_handler,
    CPU_INTERRUPT_MAXIMUM_VECTOR_NUMBER. split_and!.
  - intros H. by rewrite (proj2 (Z.leb_gt _ _)) by lia.
  - intros H1 H2. rewrite (proj2 (Z.leb_le _ _)) by lia. simpl. destruct (Z.eqb_spec new_isr_handler NULL); [done|].
    destruct H2 as [? | ->]; [done|]. done.
  - intros H1 H2 H3. rewrite (proj2 (Z.leb_le _ _)), (proj2 (Z.eqb_neq new_isr_handler NULL)), (proj2 (Z.eqb_neq old_isr_handler NULL)) by done.
    simpl. eexists. split; [done|]. apply install_vector_spec; [done|done|lia|done..].
Qed.

(** A handler that is caught twice is reported the second time. *)
Lemma catch_reports_last _ISR_Handler h1 h2 vector old1 old2 s :
  u32 _ISR_Handler -> _ISR_Handler mod 4 = 0 -> 0 <= vector <= 511 -> u32 (user_handler s vector) -> u32 h1 -> h1 <> NULL -> h2 <> NULL ->
  old1 <> NULL -> old2 <> NULL -> apart old1 4 (trap_table s) 4096 -> apart old2 4 (trap_table s) 4096 ->
  exists s1 s2, rtems_interrupt_catch _ISR_Handler h1 vector old1 s = (RTEMS_SUCCESSFUL, s1) /\
    rtems_interrupt_catch _ISR_Handler h2 vector old2 s1 = (RTEMS_SUCCESSFUL, s2) /\ ld32 (ram s2) old2 = h1.
Proof.
  intros HI HA Hv Hu H1 N1 N2 O1 O2 A1 A2.
  unfold rtems_interrupt_catch, _ISR_Is_vector_number_valid, _ISR_Is_valid_user_handler, CPU_INTERRUPT_MAXIMUM_VECTOR_NUMBER.
  rewrite (proj2 (Z.leb_le vector 511)) by lia. rewrite !(proj2 (Z.eqb_neq _ NULL)) by done. simpl.
  destruct (install_vector_spec _ISR_Handler vector h1 old1 s) as (HS & _); try done; [lia|].
  set (s1 := _CPU_ISR_install_vector _ISR_Handler vector h1 old1 s) in *. exists s1. eexists. do 2 (split; [done|]).
  assert (user_handler s1 vector = h1) as E by (rewrite (in_handlers _ _ _ _ _ HS); by rewrite decide_True).
  rewrite <- E. apply install_vector_spec; [done|done|lia|by rewrite E|done].
Qed.

(** The raw installation reports another address than the one it was given before, as soon
    as one of the bits 10 to 19 is set. *)
Lemma raw_handler_is_bogus h1 h2 vector s : u32 h1 -> 0 <= vector < 512 -> h1 / 1024 mod 1024 <> 0 ->
  let s1 := (_CPU_ISR_install_raw_handler vector h1 s).2 in
  (_CPU_ISR_install_raw_handler vector h2 s1).1 = h1 - h1 / 1024 mod 1024 * 1024 /\
  (_CPU_ISR_install_raw_handler vector h2 s1).1 <> h1.
Proof.
  intros Hh Hv Hb. cbv zeta. assert ((_CPU_ISR_install_raw_handler vector h2 (_CPU_ISR_install_raw_handler vector h1 s).2).1 =
    h1 - h1 / 1024 mod 1024 * 1024) as E; [|rewrite E; lia].
  rewrite <- (slot_handler_loses vector h1 Hh). unfold _CPU_ISR_install_raw_handler at 1. simpl. f_equal.
  destruct (slot_for_u32 vector h1 Hv Hh) as (A & B & C). by apply load_store_slot.
Qed.

(** ** Moving the trap table *)

Lemma trap_table_start_aligned area : u32 area -> area + 8192 <= two32 ->
  trap_table_start area mod 4096 = 0 /\ area <= trap_table_start area /\
  trap_table_start area + 4096 <= area + 8192.
Proof.
  intros Hu Hs. unfold trap_table_start, SPARC_TRAP_TABLE_ALIGNMENT.
  change (Z.land area (4096 - 1)) with (Z.land area (Z.ones 12)). rewrite Z.land_ones by lia. change (2 ^ 12) with 4096. unfold u32, two32 in *.
  destruct (Z.eqb_spec (area mod 4096) 0) as [E|E]; cbn [negb]; [lia|].
  rewrite wrap32_small by (unfold u32, two32; lia). change (4096 - 1) with (2 ^ 12 - 1).
  rewrite align_down by (unfold u32, two32; lia). change (2 ^ 12) with 4096. Z.div_mod_to_equations; lia.
Qed.

Lemma load_slot_ext m m' a b : (forall i, 0 <= i < 16 -> ld m' (b + i) = ld m (a + i)) -> load_slot m' b = load_slot m a.
Proof.
  intros H. assert (forall i, 0 <= i <= 12 -> ld32 m' (b + i) = ld32 m (a + i)) as H4.
  { intros i Hi. unfold ld32. rewrite <- !Z.add_assoc. by rewrite !H by lia. }
  unfold load_slot. rewrite <- (Z.add_0_r a) at 1. rewrite <- (Z.add_0_r b) at 1. by rewrite !H4 by lia.
Qed.

(** Every entry of the old table is found in the new one. *)
Lemma moved_table_keeps_entries area s vector : u32 area -> area + 8192 <= two32 ->
  apart (trap_table_start area) 4096 (trap_table s) 4096 ->
  let s' := move_trap_table area s in
  trap_table s' = trap_table_start area /\
  load_slot (ram s') (trap_slot s' vector) = load_slot (ram s) (trap_slot s vector).
Proof.
  intros Hu Hs Ha. cbv zeta. destruct (trap_table_start_aligned area Hu Hs) as (E1 & E2 & E3).
  set (start := trap_table_start area) in *. assert (trap_table (move_trap_table area s) = start) as ET.
  { unfold trap_table. change (tbr (move_trap_table area s)) with start. change 4294963200 with (not32 (2 ^ 12 - 1)).
    rewrite align_down; [change (2 ^ 12) with 4096; lia| |lia]. unfold u32, two32 in *. lia. }
  split; [done|]. pose proof (slot_in_table s vector) as HS. unfold trap_slot in *. rewrite ET.
  set (o := SPARC_REAL_TRAP_NUMBER vector * sizeof_CPU_Trap_table_entry) in *.
  assert (forall i, 0 <= i < 16 -> ld (ram (move_trap_table area s)) (start + o + i) = ld (ram s) (trap_table s + o + i)) as EL.
  { intros i Hi. change (ram (move_trap_table area s))
      with (memcpy (Z.to_nat (256 * sizeof_CPU_Trap_table_entry)) (ram s) start (trap_table s)).
    rewrite ld_memcpy; rewrite Z2Nat.id by done; [|exact Ha]. rewrite decide_True by (change (256 * sizeof_CPU_Trap_table_entry) with 4096; lia).
    f_equal. lia. }
  by apply load_slot_ext.
Qed.

(** ** The context of a thread *)

(** A thread starts at its entry point (the return skips two instructions), on a stack
    frame that is aligned and inside the stack area, at the interrupt level asked for, with
    the floating point unit enabled only for a floating point thread. *)
Lemma context_initialize_spec has_fpu stack_base size new_level entry is_fp s :
  u32 (psr s) -> 0 <= stack_base -> 112 <= size -> stack_base + size < two32 -> u32 entry ->
  let c := _CPU_Context_Initialize has_fpu stack_base size new_level entry is_fp s in
  o7 c +w 8 = entry /\
  o6_sp c mod 16 = 0 /\ stack_base <= o6_sp c /\ o6_sp c + CPU_MINIMUM_STACK_FRAME_SIZE = i6_fp c /\
  i6_fp c <= stack_base + size /\
  Z.shiftr (Z.land (context_psr c) SPARC_PSR_PIL_MASK) 8 = new_level mod 16 /\
  Z.land (context_psr c) SPARC_PSR_EF_MASK = if has_fpu && is_fp then SPARC_PSR_EF_MASK else 0.
Proof.
  intros Hp Hb Hs Hsz He. cbv zeta. unfold _CPU_Context_Initialize. cbn [o7 o6_sp i6_fp context_psr].
  unfold CPU_STACK_ALIGNMENT, CPU_MINIMUM_STACK_FRAME_SIZE. unfold u32 in He.
  rewrite (wrap32_small (stack_base + size)) by (unfold u32; lia). change (16 - 1) with (2 ^ 4 - 1).
  rewrite align_down by (unfold u32; lia). change (2 ^ 4) with 16.
  set (h := stack_base + size - (stack_base + size) mod 16).
  assert (h mod 16 = 0 /\ stack_base + 97 <= h <= stack_base + size) as [H1 H2]
    by (unfold h; split; Z.div_mod_to_equations; lia).
  rewrite (wrap32_small (h - 96)) by (unfold u32; lia). split_and!; try lia.
  - rewrite (wrap32_eqm (wrap32 (entry - 8) + 8) entry); [by apply wrap32_small|].
    rewrite eqm32_wrap. exists 0. lia.
  - Z.div_mod_to_equations; lia.
  - rewrite <- level_field. f_equal. set (q := wrap32 _).
    destruct (has_fpu && is_fp); rewrite ?(Z.lor_comm _ SPARC_PSR_EF_MASK), ?masked_lor by done.
    all: rewrite <- Z.land_assoc; change (Z.land (not32 SPARC_PSR_EF_MASK) SPARC_PSR_PIL_MASK) with SPARC_PSR_PIL_MASK.
    all: rewrite masked_lor by apply cleared_pil; by rewrite <- Z.land_assoc, Z.land_diag.
  - set (q := Z.land _ (not32 SPARC_PSR_EF_MASK)). assert (Z.land q SPARC_PSR_EF_MASK = 0) as E
      by (unfold q; rewrite <- Z.land_assoc; apply Z.land_0_r).
    destruct (has_fpu && is_fp); [|done]. by rewrite masked_lor.
Qed.

(** ** An example: a clock handler on trap 24 *)

Module SparcExample.
Definition machine : Sparc := {| psr := 224; tbr := 33558528; _ISR_Vector_table := {[ 24 := 34000000 ]}; ram := ∅ |}.

Lemma interrupt_catch_witness :
  exists s', rtems_interrupt_catch 33570444 34001234 280 50000000 machine = (RTEMS_SUCCESSFUL, s') /\
    installed 33570444 280 34001234 machine s' /\ ld32 (ram s') 50000000 = 34000000.
Proof.
  destruct (interrupt_catch_correct 33570444 34001234 280 50000000 machine) as (_ & _ & H).
  - by split.
  - reflexivity.
  - lia.
  - by split.
  - right. vm_compute. discriminate.
  - destruct H as (s' & A & B & C & _); [lia|done|done|]. exists s'. done.
Defined.
End SparcExample.
