(* ===== verification/Mpci.v ===== *)
(** * Multiprocessing communications (score/src/mpci.c, threadmp.c, score/inline/mppkt.inl, threadmp.inl,
    rtems/src/mp.c and the packets of the managers)

    Packets are areas of the byte memory; their fields are words at fixed offsets.  The
    driver that moves them between nodes is the user's table of entries ([MPCI_Control]).
    [Node] adds to the state of the executive what only this layer uses: the packet each
    thread is working on, the table of packet processors, the chains of proxies and the pool
    of global objects. *)
From S2P Require Import Prelude Chain Heap Watchdog Priority Object ApiTypes Kernel Workspace Thread Threadq.
From S2P Require Import CoreSem CoreMsg Rtems Semaphore Init ThreadLife ObjectMP Exinit.

(** ** Packets (headers/mppkt.h) *)

Definition packet_class : Z := 0.
Definition packet_id : Z := 4.
Definition packet_source_tid : Z := 8.
Definition packet_source_priority : Z := 12.
Definition packet_return_code : Z := 16.
Definition packet_length : Z := 20.
Definition packet_to_convert : Z := 24.
Definition packet_timeout : Z := 28.
Definition sizeof_MP_packet_Prefix : Z := 32.
(** The field behind the prefix, in every kind of packet. *)
Definition packet_operation : Z := 32.

Definition field (k : Kernel) (the_packet offset : Z) : Z := ld32 (memory k) (the_packet + offset).
Definition set_field (the_packet offset v : Z) : Kernel -> Kernel := put_word (the_packet + offset) v.

Definition class_number (c : MP_packet_Classes) : Z :=
  match c with
  | MP_PACKET_MPCI_INTERNAL => 0
  | MP_PACKET_TASKS => 1
  | MP_PACKET_MESSAGE_QUEUE => 2
  | MP_PACKET_SEMAPHORE => 3
  | MP_PACKET_PARTITION => 4
  | MP_PACKET_REGION => 5
  | MP_PACKET_EVENT => 6
  | MP_PACKET_SIGNAL => 7
  end.
Definition MP_PACKET_CLASSES_LAST : Z := 7.
Definition _Mp_packet_Is_valid_packet_class (the_packet_class : Z) : bool := the_packet_class <=? MP_PACKET_CLASSES_LAST.
Definition _Mp_packet_Is_null (the_packet : Z) : bool := the_packet =? NULL.

(** ** The driver and the node (headers/mpci.h, threadmp.h) *)

Definition MPCI_ALL_NODES : Z := 0.
Definition INTERNAL_ERROR_OUT_OF_PACKETS : Z := 11.
Definition INTERNAL_ERROR_OUT_OF_PROXIES : Z := 13.
Definition INTERNAL_ERROR_BAD_PACKET : Z := 10.
Definition INTERNAL_ERROR_INCONSISTENT_MP_INFORMATION : Z := 7.

Record MPCI_Control : Type := {
  default_timeout : Z;
  maximum_packet_size : Z;
  mpci_initialization : Kernel -> Kernel;
  get_packet : Kernel -> Z * Kernel;
  return_packet : Z -> Kernel -> Kernel;
  send_packet : Z -> Z -> Kernel -> Kernel;
  receive_packet : Kernel -> Z * Kernel
}.

Record Node : Type := {
  node_kernel : Kernel;
  thread_receive_packet : gmap Z Z;
  _MPCI_Packet_processors : gmap Z Z;
  _MPCI_Receive_server_tcb : Z;
  _Thread_MP_Active_proxies : list Z;
  _Thread_MP_Inactive_proxies : list Z;
  mp_state : MP_State
}.
Definition set_node_kernel (v : Kernel) (n : Node) : Node :=
  {| node_kernel := v; thread_receive_packet := thread_receive_packet n; _MPCI_Packet_processors := _MPCI_Packet_processors n;
     _MPCI_Receive_server_tcb := _MPCI_Receive_server_tcb n; _Thread_MP_Active_proxies := _Thread_MP_Active_proxies n;
     _Thread_MP_Inactive_proxies := _Thread_MP_Inactive_proxies n; mp_state := mp_state n |}.
Definition set_receive_packet (t p : Z) (n : Node) : Node :=
  {| node_kernel := node_kernel n; thread_receive_packet := <[t := p]> (thread_receive_packet n);
     _MPCI_Packet_processors := _MPCI_Packet_processors n;
     _MPCI_Receive_server_tcb := _MPCI_Receive_server_tcb n; _Thread_MP_Active_proxies := _Thread_MP_Active_proxies n;
     _Thread_MP_Inactive_proxies := _Thread_MP_Inactive_proxies n; mp_state := mp_state n |}.
Definition set_processors (v : gmap Z Z) (n : Node) : Node :=
  {| node_kernel := node_kernel n; thread_receive_packet := thread_receive_packet n; _MPCI_Packet_processors := v;
     _MPCI_Receive_server_tcb := _MPCI_Receive_server_tcb n; _Thread_MP_Active_proxies := _Thread_MP_Active_proxies n;
     _Thread_MP_Inactive_proxies := _Thread_MP_Inactive_proxies n; mp_state := mp_state n |}.
Definition set_server (v : Z) (n : Node) : Node :=
  {| node_kernel := node_kernel n; thread_receive_packet := thread_receive_packet n;
     _MPCI_Packet_processors := _MPCI_Packet_processors n;
     _MPCI_Receive_server_tcb := v; _Thread_MP_Active_proxies := _Thread_MP_Active_proxies n;
     _Thread_MP_Inactive_proxies := _Thread_MP_Inactive_proxies n; mp_state := mp_state n |}.
Definition set_proxies (active inactive : list Z) (n : Node) : Node :=
  {| node_kernel := node_kernel n; thread_receive_packet := thread_receive_packet n;
     _MPCI_Packet_processors := _MPCI_Packet_processors n;
     _MPCI_Receive_server_tcb := _MPCI_Receive_server_tcb n; _Thread_MP_Active_proxies := active;
     _Thread_MP_Inactive_proxies := inactive; mp_state := mp_state n |}.
Definition set_mp_state (v : MP_State) (n : Node) : Node :=
  {| node_kernel := node_kernel n; thread_receive_packet := thread_receive_packet n;
     _MPCI_Packet_processors := _MPCI_Packet_processors n;
     _MPCI_Receive_server_tcb := _MPCI_Receive_server_tcb n; _Thread_MP_Active_proxies := _Thread_MP_Active_proxies n;
     _Thread_MP_Inactive_proxies := _Thread_MP_Inactive_proxies n; mp_state := v |}.
(** The packet a thread is working on. *)
Definition working_on (n : Node) (t : Z) : Z := thread_receive_packet n !!! t.

(** ** Initialization *)

Definition _MPCI_Register_packet_processor (the_class : MP_packet_Classes) (the_packet_processor : Z) (n : Node) : Node :=
  set_processors (<[class_number the_class := the_packet_processor]> (_MPCI_Packet_processors n)) n.

(** The semaphore of the receive server and the queue of the threads that wait for an
    answer: the part of [_MPCI_Handler_initialization] (Exinit) behind its checks. *)
Definition mpci_queues (_MPCI_Semaphore _MPCI_Remote_blocked_threads timeout_status : Z) (k : Kernel) : Kernel :=
  let k := _CORE_semaphore_Initialize _MPCI_Semaphore OBJECTS_NO_CLASS CORE_SEMAPHORE_DISCIPLINES_FIFO 0 NULL k in
  _Thread_queue_Initialize _MPCI_Remote_blocked_threads OBJECTS_NO_CLASS THREAD_QUEUE_DISCIPLINE_FIFO
    STATES_WAITING_FOR_RPC_REPLY NULL timeout_status k.

Section Mpci.
Context (fatal_extensions : Internal_errors_Information -> Kernel -> Kernel).
Context (_MPCI_table : MPCI_Control) (_MPCI_Semaphore _MPCI_Remote_blocked_threads : Z).
Context (_Objects_Local_node _Objects_Maximum_nodes : Z).

Definition _MPCI_Initialization : Kernel -> Kernel := mpci_initialization _MPCI_table.

(** ** Sending *)

Definition _MPCI_Get_packet (k : Kernel) : outcome (Z * Kernel) :=
  let '(the_packet, k) := get_packet _MPCI_table k in
  if the_packet =? NULL
  then _Internal_error_Occurred fatal_extensions INTERNAL_ERROR_CORE true INTERNAL_ERROR_OUT_OF_PACKETS k
  else Done (the_packet, set_field the_packet packet_timeout MPCI_DEFAULT_TIMEOUT k).
Definition _MPCI_Return_packet (the_packet : Z) : Kernel -> Kernel := return_packet _MPCI_table the_packet.

(** The number of words behind the prefix, from the number of bytes of the packet. *)
Definition words_to_convert (the_packet : Z) (k : Kernel) : Kernel :=
  set_field the_packet packet_to_convert ((field k the_packet packet_to_convert -w sizeof_MP_packet_Prefix) / 4) k.

Definition _MPCI_Send_process_packet (destination the_packet : Z) (k : Kernel) : Kernel :=
  let k := set_field the_packet packet_source_tid (Object_id (tcb k (_Thread_Executing k))) k in
  let k := words_to_convert the_packet k in
  send_packet _MPCI_table destination the_packet k.

Definition _MPCI_Send_response_packet (destination the_packet : Z) (k : Kernel) : Kernel :=
  let k := set_field the_packet packet_source_tid (Object_id (tcb k (_Thread_Executing k))) k in
  send_packet _MPCI_table destination the_packet k.

(** *** Requests *)

Section Request.
Context (timeout_routine : Z) (wfuel : nat) (wisr : Kernel -> Kernel) (fuel : nat) (isrs : list (Kernel -> Kernel)).

(** The packet and the wait information, up to the driver's entry. *)
Definition fill_request (the_packet : Z) (k : Kernel) : Kernel :=
  let executing := _Thread_Executing k in
  let k := set_field the_packet packet_source_tid (Object_id (tcb k executing)) k in
  let k := set_field the_packet packet_source_priority (current_priority (tcb k executing)) k in
  let k := words_to_convert the_packet k in
  let k := upd_wait executing (set_Wait_id (field k the_packet packet_id)) k in
  let k := upd_wait executing (set_Wait_queue _MPCI_Remote_blocked_threads) k in
  _Thread_Disable_dispatch k.

(** What follows the driver's entry, up to [_Thread_Enable_dispatch].  The packet is read
    (and its timeout written) although it has been sent. *)
Definition await_response (the_packet extra_state : Z) (k : Kernel) : option Kernel :=
  let k := _Thread_queue_Enter_critical_section _MPCI_Remote_blocked_threads k in
  let k := if field k the_packet packet_timeout =? MPCI_DEFAULT_TIMEOUT
           then set_field the_packet packet_timeout (default_timeout _MPCI_table) k else k in
  match _Thread_queue_Enqueue timeout_routine wfuel wisr fuel isrs _MPCI_Remote_blocked_threads
          (field k the_packet packet_timeout) k with
  | None => None
  | Some k =>
      Some (upd_thread (_Thread_Executing k) (fun c => set_current_state (_States_Set extra_state (current_state c)) c) k)
  end.

Definition send_request (destination the_packet extra_state : Z) (k : Kernel) : option Kernel :=
  await_response the_packet extra_state (send_packet _MPCI_table destination the_packet (fill_request the_packet k)).

(** The code behind [_Thread_Enable_dispatch] runs when the caller executes again: [resume]
    is what happens until then. *)
Definition _MPCI_Send_request_packet (switch : Z -> Z -> Kernel -> Kernel) (postswitch resume : Kernel -> Kernel)
    (dfuel : nat) (disrs : list (Kernel -> Kernel)) (destination the_packet extra_state : Z) (k : Kernel)
  : option (Z * Kernel) :=
  match send_request destination the_packet extra_state k with
  | None => None
  | Some k =>
      match _Thread_Enable_dispatch switch postswitch dfuel disrs k with
      | None => None
      | Some k => let k := resume k in Some (Wait_return_code (Wait (tcb k (_Thread_Executing k))), k)
      end
  end.
End Request.

(** ** Receiving *)

Definition _MPCI_Receive_packet : Kernel -> Z * Kernel := receive_packet _MPCI_table.

Section Dispatching.
Context (switch : Z -> Z -> Kernel -> Kernel) (postswitch : Kernel -> Kernel).
Context (isrs : list (Kernel -> Kernel)) (fuel : nat).

(** The thread that was waiting, [NULL] when there is none. *)
Definition _MPCI_Process_response (the_packet : Z) (k : Kernel) : option (Z * Kernel) :=
  match _Thread_Get switch postswitch isrs fuel _Objects_Local_node _Objects_Maximum_nodes (field k the_packet packet_id) k with
  | None => None
  | Some (OBJECTS_LOCAL, the_thread, k) =>
      let k := _Thread_queue_Extract _MPCI_Remote_blocked_threads the_thread k in
      let k := upd_wait the_thread (set_Wait_return_code (field k the_packet packet_return_code)) k in
      Some (the_thread, _Thread_Unnest_dispatch k)
  | Some (_, _, k) => Some (NULL, k)
  end.

Definition _MPCI_Announce (mp_support : Z -> Z -> Kernel -> Kernel) (k : Kernel) : option Kernel :=
  let k := _Thread_Disable_dispatch k in
  let k := (_CORE_semaphore_Surrender _Objects_Local_node mp_support _MPCI_Semaphore 0 k).2 in
  _Thread_Enable_dispatch switch postswitch fuel isrs k.
Definition rtems_multiprocessing_announce : (Z -> Z -> Kernel -> Kernel) -> Kernel -> option Kernel := _MPCI_Announce.

(** *** The receive server

    [call_processor] calls the packet processor at an address. *)
Section Server.
Context (call_processor : Z -> Z -> Node -> outcome Node).

(** The inner loop: until the driver has no packet left, or a packet of no class comes. *)
Fixpoint process_packets (pfuel : nat) (executing : Z) (n : Node) : outcome Node :=
  match pfuel with
  | O => OutOfFuel
  | S pfuel =>
      let '(the_packet, k) := _MPCI_Receive_packet (node_kernel n) in
      let n := set_node_kernel k n in
      if the_packet =? NULL then Done n
      else
        let n := set_receive_packet executing the_packet n in
        let the_class := field (node_kernel n) the_packet packet_class in
        if negb (_Mp_packet_Is_valid_packet_class the_class) then Done n
        else
          let the_function := default NULL (_MPCI_Packet_processors n !! the_class) in
          if the_function =? NULL
          then _Internal_error_Occurred fatal_extensions INTERNAL_ERROR_CORE true INTERNAL_ERROR_BAD_PACKET (node_kernel n)
          else n <-- call_processor the_function the_packet n; process_packets pfuel executing n
  end.

(** A pass of the outer loop of [_MPCI_Receive_server]; [resume] is what happens while the
    server waits for the semaphore. *)
Definition receive_round (timeout_routine : Z) (wfuel : nat) (wisr isr resume : Kernel -> Kernel) (pfuel : nat)
    (executing : Z) (n : Node) : outcome Node :=
  let n := set_receive_packet executing NULL n in
  let k := _Thread_Disable_dispatch (node_kernel n) in
  k <-- of_option (_CORE_semaphore_Seize timeout_routine wfuel wisr fuel isrs isr _MPCI_Semaphore 0 true 0 k);
  k <-- of_option (_Thread_Enable_dispatch switch postswitch fuel isrs k);
  process_packets pfuel executing (set_node_kernel (resume k) n).
End Server.
End Dispatching.

(** ** Packets of the layer itself *)

Definition MPCI_PACKETS_SYSTEM_VERIFY : Z := 0.
Definition sizeof_MPCI_Internal_packet : Z := 44.
Definition packet_maximum_nodes : Z := 36.
Definition packet_maximum_global_objects : Z := 40.

Definition _MPCI_Internal_packets_Get_packet : Kernel -> outcome (Z * Kernel) := _MPCI_Get_packet.

Definition _MPCI_Internal_packets_Send_process_packet (operation : Z) (n : Node) : outcome Node :=
  if operation =? MPCI_PACKETS_SYSTEM_VERIFY then
    r <-- _MPCI_Internal_packets_Get_packet (node_kernel n);
    let '(p, k) := r in
    let k := set_field p packet_class (class_number MP_PACKET_MPCI_INTERNAL) k in
    let k := set_field p packet_length sizeof_MPCI_Internal_packet k in
    let k := set_field p packet_to_convert sizeof_MPCI_Internal_packet k in
    let k := set_field p packet_operation operation k in
    let k := set_field p packet_maximum_nodes _Objects_Maximum_nodes k in
    let k := set_field p packet_maximum_global_objects (_Objects_MP_Maximum_global_objects (mp_state n)) k in
    Done (set_node_kernel (_MPCI_Send_process_packet MPCI_ALL_NODES p k) n)
  else Done n.

Definition _MPCI_Internal_packets_Process_packet (the_packet : Z) (n : Node) : outcome Node :=
  let k := node_kernel n in
  if field k the_packet packet_operation =? MPCI_PACKETS_SYSTEM_VERIFY then
    let maximum_nodes := field k the_packet packet_maximum_nodes in
    let maximum_global_objects := field k the_packet packet_maximum_global_objects in
    if negb (maximum_nodes =? _Objects_Maximum_nodes)
       || negb (maximum_global_objects =? _Objects_MP_Maximum_global_objects (mp_state n))
    then _Internal_error_Occurred fatal_extensions INTERNAL_ERROR_CORE true INTERNAL_ERROR_INCONSISTENT_MP_INFORMATION
           (_MPCI_Return_packet the_packet k)
    else Done (set_node_kernel (_MPCI_Return_packet the_packet k) n)
  else Done n.
End Mpci.

(** ** The receive server's thread *)

Definition _MPCI_Create_server (workspace : Z) (hfuel : nat) (stack_allocate_hook : option (Z -> Kernel -> Z * Kernel))
    (stack_free_hook : option (Z -> Kernel -> Kernel)) (create_extensions : Z -> Kernel -> option (bool * Kernel))
    (started : Z -> Kernel -> Kernel) (fuel : nat) (name_argument MPCI_RECEIVE_SERVER_STACK_SIZE _MPCI_Receive_server : Z)
    (_MPCI_Internal_name : Z) (is_multiprocessing CPU_ALL_TASKS_ARE_FP : bool) (n : Node) : option Node :=
  if negb is_multiprocessing then Some n
  else
    let '(server, k) := object_allocate OBJECTS_INTERNAL_THREADS (node_kernel n) in
    let n := set_server server n in
    match _Thread_Initialize workspace hfuel stack_allocate_hook stack_free_hook create_extensions fuel name_argument
            OBJECTS_INTERNAL_THREADS server NULL MPCI_RECEIVE_SERVER_STACK_SIZE CPU_ALL_TASKS_ARE_FP PRIORITY_MINIMUM false
            THREAD_CPU_BUDGET_ALGORITHM_NONE NULL 0 _MPCI_Internal_name k with
    | None => None
    | Some (_, k) =>
        let k := (_Thread_Start started server THREAD_START_NUMERIC _MPCI_Receive_server NULL 0 k).2 in
        Some (set_node_kernel k n)
    end.

(** ** Proxies (threadmp.c, threadmp.inl)

    A proxy stands for a thread of another node; its control block is one of [threads].
    [_Thread_MP_Receive] is the thread whose packet is being processed. *)
Section Proxies.
Context (fatal_extensions : Internal_errors_Information -> Kernel -> Kernel) (_Thread_MP_Receive : Z).

Definition _Thread_MP_Handler_initialization (workspace : Z) (hfuel : nat) (sizeof_Thread_Proxy_control maximum_proxies : Z)
    (n : Node) : outcome Node :=
  if maximum_proxies =? 0 then Done (set_proxies [] [] n)
  else
    r <-- _Workspace_Allocate_or_fatal_error workspace hfuel fatal_extensions (maximum_proxies *w sizeof_Thread_Proxy_control) (node_kernel n);
    let '(area, k) := r in
    Done (set_proxies [] (block_array area sizeof_Thread_Proxy_control (Z.to_nat maximum_proxies)) (set_node_kernel k n)).

Definition _Thread_MP_Is_receive (the_thread : Z) : bool := the_thread =? _Thread_MP_Receive.

Definition _Thread_MP_Allocate_proxy (the_state : Z) (n : Node) : outcome (Z * Node) :=
  match _Thread_MP_Inactive_proxies n with
  | the_proxy :: inactive =>
      let k := node_kernel n in
      let executing := _Thread_Executing k in
      let k := upd_wait executing (set_Wait_return_code THREAD_STATUS_PROXY_BLOCKING) k in
      let the_packet := working_on n _Thread_MP_Receive in
      let k := upd_thread the_proxy (fun c =>
                 set_Wait (Wait (tcb k executing))
                   (set_current_state (_States_Set STATES_DORMANT the_state)
                     (set_current_priority (field k the_packet packet_source_priority)
                       (set_Object_id (field k the_packet packet_source_tid) c)))) k in
      let n := set_receive_packet the_proxy the_packet (set_node_kernel k n) in
      Done (the_proxy, set_proxies (ListChain.append (_Thread_MP_Active_proxies n) the_proxy) inactive n)
  | [] => _Internal_error_Occurred fatal_extensions INTERNAL_ERROR_CORE true INTERNAL_ERROR_OUT_OF_PROXIES (node_kernel n)
  end.

Definition _Thread_MP_Free_proxy (the_thread : Z) (n : Node) : Node :=
  set_proxies (ListChain.extract (_Thread_MP_Active_proxies n) the_thread)
    (ListChain.append (_Thread_MP_Inactive_proxies n) the_thread) n.

(** The node behind [t]. *)
Fixpoint next_of (l : list Z) (t : Z) : option (list Z) :=
  match l with
  | [] => None
  | u :: l => if u =? t then Some l else next_of l t
  end.

(** The search from the nodes [rest] of the chain on.  At each flash the next of [isrs] runs;
    a proxy that it made dormant has left the chain, and the search starts again.  [None]:
    fuel, or a proxy that left the chain and is not dormant. *)
Fixpoint find_proxy (fuel : nat) (isrs : list (Node -> Node)) (the_id : Z) (rest : list Z) (n : Node) : option (Z * Node) :=
  match fuel with
  | O => None
  | S fuel =>
      match rest with
      | [] => Some (NULL, n)
      | the_thread :: _ =>
          if _Objects_Are_ids_equal (Object_id (tcb (node_kernel n) the_thread)) the_id then Some (the_thread, n)
          else
            let n := (hd id isrs) n in
            if _States_Is_only_dormant (current_state (tcb (node_kernel n) the_thread))
            then find_proxy fuel (tl isrs) the_id (_Thread_MP_Active_proxies n) n
            else
              match next_of (_Thread_MP_Active_proxies n) the_thread with
              | None => None
              | Some rest => find_proxy fuel (tl isrs) the_id rest n
              end
      end
  end.
Definition _Thread_MP_Find_proxy (fuel : nat) (isrs : list (Node -> Node)) (the_id : Z) (n : Node) : option (Z * Node) :=
  find_proxy fuel isrs the_id (_Thread_MP_Active_proxies n) n.
End Proxies.

(** * The packets of the managers (rtems/src/eventmp.c, signalmp.c, taskmp.c, partmp.c)

    A directive on an object of another node sends a request and waits; the receive server
    of that node executes the directive and sends the packet back with the status; the
    receive server of the first node releases the caller.  [event_send], [signal_send], the
    task and the partition directives are those of the managers, applied to their own
    parameters. *)

(** ** Operations and fields *)

Definition EVENT_MP_SEND_REQUEST : Z := 0.
Definition EVENT_MP_SEND_RESPONSE : Z := 1.
Definition sizeof_Event_MP_Packet : Z := 40.
Definition packet_event_in : Z := 36.

Definition SIGNAL_MP_SEND_REQUEST : Z := 0.
Definition SIGNAL_MP_SEND_RESPONSE : Z := 1.
Definition sizeof_Signal_MP_Packet : Z := 40.
Definition packet_signal_in : Z := 36.

Definition TASKS_MP_ANNOUNCE_CREATE : Z := 0.
Definition TASKS_MP_ANNOUNCE_DELETE : Z := 1.
Definition TASKS_MP_SUSPEND_REQUEST : Z := 2.
Definition TASKS_MP_SUSPEND_RESPONSE : Z := 3.
Definition TASKS_MP_RESUME_REQUEST : Z := 4.
Definition TASKS_MP_RESUME_RESPONSE : Z := 5.
Definition TASKS_MP_SET_PRIORITY_REQUEST : Z := 6.
Definition TASKS_MP_SET_PRIORITY_RESPONSE : Z := 7.
Definition TASKS_MP_GET_NOTE_REQUEST : Z := 8.
Definition TASKS_MP_GET_NOTE_RESPONSE : Z := 9.
Definition TASKS_MP_SET_NOTE_REQUEST : Z := 10.
Definition TASKS_MP_SET_NOTE_RESPONSE : Z := 11.
Definition sizeof_RTEMS_tasks_MP_Packet : Z := 52.
Definition packet_name : Z := 36.
Definition packet_the_priority : Z := 40.
Definition packet_notepad : Z := 44.
Definition packet_note : Z := 48.

Definition PARTITION_MP_ANNOUNCE_CREATE : Z := 0.
Definition PARTITION_MP_ANNOUNCE_DELETE : Z := 1.
Definition PARTITION_MP_EXTRACT_PROXY : Z := 2.
Definition PARTITION_MP_GET_BUFFER_REQUEST : Z := 3.
Definition PARTITION_MP_GET_BUFFER_RESPONSE : Z := 4.
Definition PARTITION_MP_RETURN_BUFFER_REQUEST : Z := 5.
Definition PARTITION_MP_RETURN_BUFFER_RESPONSE : Z := 6.
Definition sizeof_Partition_MP_Packet : Z := 48.
Definition packet_buffer : Z := 40.
Definition packet_proxy_id : Z := 44.

(** Membership of an operation in the labels of a [switch]. *)
Definition one_of (operation : Z) (labels : list Z) : bool := existsb (Z.eqb operation) labels.

Section Managers.
Context (fatal_extensions : Internal_errors_Information -> Kernel -> Kernel).
Context (_MPCI_table : MPCI_Control) (_MPCI_Remote_blocked_threads : Z) (_Objects_Local_node _Objects_Maximum_nodes : Z).
Context (timeout_routine : Z) (wfuel : nat) (wisr : Kernel -> Kernel) (qfuel : nat) (qisrs : list (Kernel -> Kernel)).
Context (switch : Z -> Z -> Kernel -> Kernel) (postswitch resume : Kernel -> Kernel).
Context (isrs : list (Kernel -> Kernel)) (fuel : nat).

Notation Get_packet := (_MPCI_Get_packet fatal_extensions _MPCI_table).
Notation Request := (_MPCI_Send_request_packet _MPCI_table _MPCI_Remote_blocked_threads timeout_routine wfuel wisr qfuel qisrs
  switch postswitch resume fuel isrs).
Notation Response := (_MPCI_Process_response _MPCI_Remote_blocked_threads _Objects_Local_node _Objects_Maximum_nodes
  switch postswitch isrs fuel).
Notation Return_packet := (_MPCI_Return_packet _MPCI_table).

(** The fields that every request sets first. *)
Definition new_packet (the_class : MP_packet_Classes) (size operation id p : Z) (k : Kernel) : Kernel :=
  let k := set_field p packet_class (class_number the_class) k in
  let k := set_field p packet_length size k in
  let k := set_field p packet_to_convert size k in
  let k := set_field p packet_operation operation k in
  set_field p packet_id id k.

(** Sending back the packet that [the_thread] was working on. *)
Definition send_back (operation the_thread : Z) (n : Node) : Node :=
  let the_packet := working_on n the_thread in
  let k := set_field the_packet packet_operation operation (node_kernel n) in
  let k := set_field the_packet packet_id (field k the_packet packet_source_tid) k in
  set_node_kernel
    (_MPCI_Send_response_packet _MPCI_table (_Objects_Get_node (field k the_packet packet_source_tid)) the_packet k) n.

(** A request is executed: the status goes into the packet, which goes back. *)
Definition answer (directive : Kernel -> option (Z * Kernel)) (respond : Z -> Node -> Node) (the_packet : Z) (n : Node)
  : outcome Node :=
  r <-- of_option (directive (node_kernel n));
  let k := set_field the_packet packet_return_code r.1 r.2 in
  Done (respond (_Thread_Executing k) (set_node_kernel k n)).

(** A response is handed to the thread that waits; [give] stores the result it carries. *)
Definition accept (give : Z -> Kernel -> Kernel) (the_packet : Z) (n : Node) : outcome Node :=
  r <-- of_option (Response the_packet (node_kernel n));
  Done (set_node_kernel (Return_packet the_packet (give r.1 r.2)) n).
Definition give_nothing (the_thread : Z) (k : Kernel) : Kernel := k.
(** The word that the return argument of the waiting thread points to. *)
Definition give_field (the_packet offset the_thread : Z) (k : Kernel) : Kernel :=
  put_word (Wait_return_argument (Wait (tcb k the_thread))) (field k the_packet offset) k.

(** ** Events *)

Definition _Event_MP_Get_packet : Kernel -> outcome (Z * Kernel) := Get_packet.

Definition _Event_MP_Send_request_packet (operation event_id event_in : Z) (k : Kernel) : outcome (Z * Kernel) :=
  if operation =? EVENT_MP_SEND_REQUEST then
    r <-- _Event_MP_Get_packet k;
    let '(p, k) := r in
    let k := new_packet MP_PACKET_EVENT sizeof_Event_MP_Packet operation event_id p k in
    let k := set_field p packet_event_in event_in k in
    of_option (Request (_Objects_Get_node event_id) p STATES_READY k)
  else Done (RTEMS_SUCCESSFUL, k).

Definition _Event_MP_Send_response_packet (operation the_thread : Z) (n : Node) : Node :=
  if operation =? EVENT_MP_SEND_RESPONSE then send_back operation the_thread n else n.

Definition _Event_MP_Process_packet (event_send : Z -> Z -> Kernel -> option (Z * Kernel)) (the_packet : Z) (n : Node)
  : outcome Node :=
  let k := node_kernel n in
  let operation := field k the_packet packet_operation in
  if operation =? EVENT_MP_SEND_REQUEST
  then answer (event_send (field k the_packet packet_id) (field k the_packet packet_event_in))
         (_Event_MP_Send_response_packet EVENT_MP_SEND_RESPONSE) the_packet n
  else if operation =? EVENT_MP_SEND_RESPONSE then accept give_nothing the_packet n
  else Done n.

(** ** Signals *)

Definition _Signal_MP_Get_packet : Kernel -> outcome (Z * Kernel) := Get_packet.

Definition _Signal_MP_Send_request_packet (operation task_id signal_in : Z) (k : Kernel) : outcome (Z * Kernel) :=
  if operation =? SIGNAL_MP_SEND_REQUEST then
    r <-- _Signal_MP_Get_packet k;
    let '(p, k) := r in
    let k := new_packet MP_PACKET_SIGNAL sizeof_Signal_MP_Packet operation task_id p k in
    let k := set_field p packet_signal_in signal_in k in
    of_option (Request (_Objects_Get_node task_id) p STATES_READY k)
  else Done (RTEMS_INTERNAL_ERROR, k).

Definition _Signal_MP_Send_response_packet (operation the_thread : Z) (n : Node) : Node :=
  if operation =? SIGNAL_MP_SEND_RESPONSE then send_back operation the_thread n else n.

Definition _Signal_MP_Process_packet (signal_send : Z -> Z -> Kernel -> option (Z * Kernel)) (the_packet : Z) (n : Node)
  : outcome Node :=
  let k := node_kernel n in
  let operation := field k the_packet packet_operation in
  if operation =? SIGNAL_MP_SEND_REQUEST
  then answer (signal_send (field k the_packet packet_id) (field k the_packet packet_signal_in))
         (_Signal_MP_Send_response_packet SIGNAL_MP_SEND_RESPONSE) the_packet n
  else if operation =? SIGNAL_MP_SEND_RESPONSE then accept give_nothing the_packet n
  else Done n.

(** ** Announcements: the tables of global objects *)

Definition announce_create (the_class name id : Z) (n : Node) : outcome Node :=
  r <-- _Objects_MP_Allocate_and_open fatal_extensions name id true (info (objects_of (node_kernel n) the_class)) (mp_state n)
          (node_kernel n);
  let '(_, i, s) := r in
  Done (set_mp_state s (set_node_kernel (put_objects the_class (set_info i (objects_of (node_kernel n) the_class)) (node_kernel n)) n)).

Definition announce_delete (the_class id : Z) (n : Node) : outcome Node :=
  r <-- _Objects_MP_Close fatal_extensions id (info (objects_of (node_kernel n) the_class)) (mp_state n) (node_kernel n);
  let '(i, s) := r in
  Done (set_mp_state s (set_node_kernel (put_objects the_class (set_info i (objects_of (node_kernel n) the_class)) (node_kernel n)) n)).

Definition return_to_driver (the_packet : Z) (n : Node) : Node :=
  set_node_kernel (Return_packet the_packet (node_kernel n)) n.

(** ** Tasks *)

Definition _RTEMS_tasks_MP_Get_packet : Kernel -> outcome (Z * Kernel) := Get_packet.

Definition _RTEMS_tasks_MP_Send_process_packet (operation task_id name : Z) (k : Kernel) : outcome Kernel :=
  if one_of operation [TASKS_MP_ANNOUNCE_CREATE; TASKS_MP_ANNOUNCE_DELETE] then
    r <-- _RTEMS_tasks_MP_Get_packet k;
    let '(p, k) := r in
    let k := new_packet MP_PACKET_TASKS sizeof_RTEMS_tasks_MP_Packet operation task_id p k in
    let k := set_field p packet_name name k in
    Done (_MPCI_Send_process_packet _MPCI_table MPCI_ALL_NODES p k)
  else Done k.

Definition _RTEMS_tasks_MP_Send_request_packet (operation task_id new_priority notepad note : Z) (k : Kernel) : outcome (Z * Kernel) :=
  if one_of operation [TASKS_MP_SUSPEND_REQUEST; TASKS_MP_RESUME_REQUEST; TASKS_MP_SET_PRIORITY_REQUEST;
                       TASKS_MP_GET_NOTE_REQUEST; TASKS_MP_SET_NOTE_REQUEST] then
    r <-- _RTEMS_tasks_MP_Get_packet k;
    let '(p, k) := r in
    let k := new_packet MP_PACKET_TASKS sizeof_RTEMS_tasks_MP_Packet operation task_id p k in
    let k := set_field p packet_the_priority new_priority k in
    let k := set_field p packet_notepad notepad k in
    let k := set_field p packet_note note k in
    of_option (Request (_Objects_Get_node task_id) p STATES_READY k)
  else Done (RTEMS_SUCCESSFUL, k).

Definition _RTEMS_tasks_MP_Send_response_packet (operation the_thread : Z) (n : Node) : Node :=
  if one_of operation [TASKS_MP_SUSPEND_RESPONSE; TASKS_MP_RESUME_RESPONSE; TASKS_MP_SET_PRIORITY_RESPONSE;
                       TASKS_MP_GET_NOTE_RESPONSE; TASKS_MP_SET_NOTE_RESPONSE]
  then send_back operation the_thread n else n.

Section TaskPackets.
Context (task_suspend task_resume : Z -> Kernel -> option (Z * Kernel)).
Context (task_set_priority task_get_note task_set_note : Z -> Z -> Z -> Kernel -> option (Z * Kernel)).

Definition _RTEMS_tasks_MP_Process_packet (the_packet : Z) (n : Node) : outcome Node :=
  let k := node_kernel n in
  let operation := field k the_packet packet_operation in
  let id := field k the_packet packet_id in
  if operation =? TASKS_MP_ANNOUNCE_CREATE then
    n <-- announce_create OBJECTS_RTEMS_TASKS (field k the_packet packet_name) id n; Done (return_to_driver the_packet n)
  else if operation =? TASKS_MP_ANNOUNCE_DELETE then
    n <-- announce_delete OBJECTS_RTEMS_TASKS id n; Done (return_to_driver the_packet n)
  else if operation =? TASKS_MP_SUSPEND_REQUEST then
    answer (task_suspend id) (_RTEMS_tasks_MP_Send_response_packet TASKS_MP_SUSPEND_RESPONSE) the_packet n
  else if one_of operation [TASKS_MP_SUSPEND_RESPONSE; TASKS_MP_RESUME_RESPONSE; TASKS_MP_SET_NOTE_RESPONSE] then
    accept give_nothing the_packet n
  else if operation =? TASKS_MP_RESUME_REQUEST then
    answer (task_resume id) (_RTEMS_tasks_MP_Send_response_packet TASKS_MP_RESUME_RESPONSE) the_packet n
  else if operation =? TASKS_MP_SET_PRIORITY_REQUEST then
    answer (task_set_priority id (field k the_packet packet_the_priority) (the_packet + packet_the_priority))
      (_RTEMS_tasks_MP_Send_response_packet TASKS_MP_SET_PRIORITY_RESPONSE) the_packet n
  else if operation =? TASKS_MP_SET_PRIORITY_RESPONSE then
    accept (give_field the_packet packet_the_priority) the_packet n
  else if operation =? TASKS_MP_GET_NOTE_REQUEST then
    answer (task_get_note id (field k the_packet packet_notepad) (the_packet + packet_note))
      (_RTEMS_tasks_MP_Send_response_packet TASKS_MP_GET_NOTE_RESPONSE) the_packet n
  else if operation =? TASKS_MP_GET_NOTE_RESPONSE then
    accept (give_field the_packet packet_note) the_packet n
  else if operation =? TASKS_MP_SET_NOTE_REQUEST then
    answer (task_set_note id (field k the_packet packet_notepad) (field k the_packet packet_note))
      (_RTEMS_tasks_MP_Send_response_packet TASKS_MP_SET_NOTE_RESPONSE) the_packet n
  else Done n.
End TaskPackets.

(** ** Partitions *)

Definition _Partition_MP_Get_packet : Kernel -> outcome (Z * Kernel) := Get_packet.

Definition _Partition_MP_Send_process_packet (operation partition_id name proxy_id : Z) (k : Kernel) : outcome Kernel :=
  if one_of operation [PARTITION_MP_ANNOUNCE_CREATE; PARTITION_MP_ANNOUNCE_DELETE; PARTITION_MP_EXTRACT_PROXY] then
    r <-- _Partition_MP_Get_packet k;
    let '(p, k) := r in
    let k := new_packet MP_PACKET_PARTITION sizeof_Partition_MP_Packet operation partition_id p k in
    let k := set_field p packet_name name k in
    let k := set_field p packet_proxy_id proxy_id k in
    let node := if operation =? PARTITION_MP_EXTRACT_PROXY then _Objects_Get_node partition_id else MPCI_ALL_NODES in
    Done (_MPCI_Send_process_packet _MPCI_table node p k)
  else Done k.
Definition _Partition_MP_Send_extract_proxy (the_thread : Z) (k : Kernel) : outcome Kernel :=
  _Partition_MP_Send_process_packet PARTITION_MP_EXTRACT_PROXY (Wait_id (Wait (tcb k the_thread))) 0
    (Object_id (tcb k the_thread)) k.

Definition _Partition_MP_Send_request_packet (operation partition_id buffer : Z) (k : Kernel) : outcome (Z * Kernel) :=
  if one_of operation [PARTITION_MP_GET_BUFFER_REQUEST; PARTITION_MP_RETURN_BUFFER_REQUEST] then
    r <-- _Partition_MP_Get_packet k;
    let '(p, k) := r in
    let k := new_packet MP_PACKET_PARTITION sizeof_Partition_MP_Packet operation partition_id p k in
    let k := set_field p packet_buffer buffer k in
    of_option (Request (_Objects_Get_node partition_id) p STATES_READY k)
  else Done (RTEMS_SUCCESSFUL, k).

Definition _Partition_MP_Send_response_packet (operation partition_id the_thread : Z) (n : Node) : Node :=
  if one_of operation [PARTITION_MP_GET_BUFFER_RESPONSE; PARTITION_MP_RETURN_BUFFER_RESPONSE]
  then send_back operation the_thread n else n.

Section PartitionPackets.
Context (partition_get_buffer partition_return_buffer : Z -> Z -> Kernel -> option (Z * Kernel)).
Context (pfuel : nat) (pisrs : list (Node -> Node)).

Definition _Partition_MP_Process_packet (the_packet : Z) (n : Node) : outcome Node :=
  let k := node_kernel n in
  let operation := field k the_packet packet_operation in
  let id := field k the_packet packet_id in
  if operation =? PARTITION_MP_ANNOUNCE_CREATE then
    n <-- announce_create OBJECTS_RTEMS_PARTITIONS (field k the_packet packet_name) id n; Done (return_to_driver the_packet n)
  else if operation =? PARTITION_MP_ANNOUNCE_DELETE then
    n <-- announce_delete OBJECTS_RTEMS_PARTITIONS id n; Done (return_to_driver the_packet n)
  else if operation =? PARTITION_MP_EXTRACT_PROXY then
    r <-- of_option (_Thread_MP_Find_proxy pfuel pisrs (field k the_packet packet_proxy_id) n);
    let '(the_thread, n) := r in
    let k := node_kernel n in
    let k := if negb (the_thread =? NULL)
             then _Thread_queue_Extract (Wait_queue (Wait (tcb k the_thread))) the_thread k else k in
    Done (return_to_driver the_packet (set_node_kernel k n))
  else if operation =? PARTITION_MP_GET_BUFFER_REQUEST then
    answer (partition_get_buffer id (the_packet + packet_buffer))
      (_Partition_MP_Send_response_packet PARTITION_MP_GET_BUFFER_RESPONSE id) the_packet n
  else if operation =? PARTITION_MP_GET_BUFFER_RESPONSE then
    accept (give_field the_packet packet_buffer) the_packet n
  else if operation =? PARTITION_MP_RETURN_BUFFER_REQUEST then
    answer (partition_return_buffer id (field k the_packet packet_buffer))
      (_Partition_MP_Send_response_packet PARTITION_MP_RETURN_BUFFER_RESPONSE id) the_packet n
  else if operation =? PARTITION_MP_RETURN_BUFFER_RESPONSE then accept give_nothing the_packet n
  else Done n.
End PartitionPackets.
End Managers.
