(* ===== verification/MpciSpec.v ===== *)
(** * Correctness of multiprocessing communications

    A remote directive is the local one, executed on the node of the object: the request
    carries its arguments there, the caller waits on the queue of remote calls, and the
    response gives it the status that the directive returned there.  The receive server
    hands every packet to the processor of its class, in the order of the driver. *)
From S2P Require Import Prelude Chain Watchdog WatchdogProofs WatchdogOps Object Priority ApiTypes Heap Kernel Thread Workspace.
From S2P Require Import ThreadProofs ThreadSpec Threadq ThreadqProofs ThreadqSpec CoreWait CoreSem CoreMsg CoreMsgSpec Rtems.
From S2P Require Import Init ThreadLife ObjectMP Semaphore Exinit Event Sparc Mpci.

(** ** Fields of packets *)

Lemma field_set_eq k p o v : u32 v -> field (set_field p o v k) p o = v.
Proof. apply ld32_st32. Qed.

Lemma field_set_ne k p o o' v : o' + 4 <= o \/ o + 4 <= o' -> field (set_field p o v k) p o' = field k p o'.
Proof. intros H. apply ld32_st32_apart. unfold apart. lia. Qed.

(** [offsets] compares offsets. *)
Ltac offsets := unfold packet_class, packet_id, packet_source_tid, packet_source_priority, packet_return_code, packet_length,
  packet_to_convert, packet_timeout, packet_operation, packet_event_in, packet_note, packet_the_priority, packet_buffer in *; lia.

(** [packet_simpl] reads fields through the writes to the same packet. *)
Ltac packet_simpl :=
  repeat first
    [ rewrite field_set_ne by offsets
    | rewrite field_set_eq by (first [assumption | apply wrap32_range | by_u32]) ]
with by_u32 := split; [by vm_compute|reflexivity].

(** The packets of [size] bytes at [p] and [p'] are the same. *)
Definition same_packet (size : Z) (k : Kernel) (p : Z) (k' : Kernel) (p' : Z) : Prop :=
  forall i, 0 <= i < size -> ld (memory k') (p' + i) = ld (memory k) (p + i).

Lemma same_field size k p k' p' o : same_packet size k p k' p' -> 0 <= o -> o + 4 <= size -> field k' p' o = field k p o.
Proof. intros H H1 H2. unfold field, ld32. rewrite <- !Z.add_assoc. by rewrite !H by lia. Qed.

Lemma agrees_packet size k p k' : agrees p size (memory k) (memory k') -> same_packet size k p k' p.
Proof. intros H i Hi. apply H. lia. Qed.

(** ** States that differ in their memory only *)

Definition memory_only (k k' : Kernel) : Prop := exists m, k' = set_memory m k.

#[export] Instance memory_only_preorder : PreOrder memory_only.
Proof.
  split; [intros k; exists (memory k); by destruct k|]. intros k k1 k2 [m ->] [m' ->]. by exists m'.
Qed.

Lemma set_field_only p o v k : memory_only k (set_field p o v k).
Proof. by eexists. Qed.

Lemma set_field_memory p o v k k' : memory_only k k' -> memory_only k (set_field p o v k').
Proof. intros H. etransitivity; [exact H|apply set_field_only]. Qed.

(** [memory_only_solve] sees through the writes to packets. *)
Ltac memory_only_solve := repeat apply set_field_memory; first [assumption | reflexivity].

(** ** Drivers

    What the code relies on: the entries of the driver touch memory only, and a packet that
    was sent can still be read for its timeout. *)
Class driver_ok (d : MPCI_Control) : Prop := {
  do_get : forall k, memory_only k (get_packet d k).2;
  do_send : forall destination p k, memory_only k (send_packet d destination p k);
  do_timeout : forall destination p k, field (send_packet d destination p k) p packet_timeout = field k p packet_timeout;
  do_return : forall p k, memory_only k (return_packet d p k);
  do_receive : forall k, memory_only k (receive_packet d k).2
}.

(** ** Waiting for a response *)

Section Request.
Context (d : MPCI_Control) {HD : driver_ok d} (q : Z) (routine : Z) (wfuel fuel : nat).
Context (p destination : Z) (k : Kernel).
Notation t := (_Thread_Executing k).

(** The timeout of the request. *)
Definition request_timeout : Z :=
  if field k p packet_timeout =? MPCI_DEFAULT_TIMEOUT then default_timeout d else field k p packet_timeout.

(** The caller's control block while it waits. *)
Definition requesting (c : Thread_Control) : Thread_Control :=
  set_current_state (tq_state (tq k q))
    (noted_thread (fun w => set_Wait_queue q (set_Wait_id (field k p packet_id) w)) c).

(** The packet and the memory around it when the driver is called. *)
Definition addressed : Kernel :=
  words_to_convert p (set_field p packet_source_priority (current_priority (tcb k t))
    (set_field p packet_source_tid (Object_id (tcb k t)) k)).

Lemma filled_memory : memory (fill_request q p k) = memory addressed.
Proof.
  assert (forall a b k1, memory (_Thread_Disable_dispatch (upd_wait t (set_Wait_queue a) (upd_wait t (set_Wait_id b) k1))) = memory k1)
    as E by done.
  unfold fill_request. cbv zeta. apply E.
Qed.

Lemma filled_field o : field (fill_request q p k) p o = field addressed p o.
Proof. unfold field. by rewrite filled_memory. Qed.

Lemma filled_packet o : o <= 4 \/ 16 <= o <= 20 \/ 28 <= o -> field (fill_request q p k) p o = field k p o.
Proof.
  intros H. rewrite filled_field. unfold addressed, words_to_convert. rewrite !field_set_ne; [done|..]; offsets.
Qed.

Lemma filled_source : u32 (Object_id (tcb k t)) -> field (fill_request q p k) p packet_source_tid = Object_id (tcb k t).
Proof. intros H. rewrite filled_field. unfold addressed, words_to_convert. by packet_simpl. Qed.

Lemma addressed_memory : memory_only k addressed.
Proof. unfold addressed, words_to_convert. memory_only_solve. Qed.

(** The caller when it has noted what it waits for, whatever the memory is. *)
Definition announced (m : mem) : Kernel :=
  upd_wait t (set_Wait_queue q) (upd_wait t (set_Wait_id (field k p packet_id))
    (set_disable_level (_Thread_Dispatch_disable_level k +w 1) (set_memory m k))).

Lemma fill_announced : exists m, fill_request q p k = announced m.
Proof.
  assert (field addressed p packet_id = field k p packet_id) as E
    by (rewrite <- filled_field; apply filled_packet; offsets).
  destruct addressed_memory as [m Em]. exists m. unfold fill_request. cbv zeta.
  set (k1 := set_field p packet_source_tid (Object_id (tcb k t)) k). change (tcb k1 t) with (tcb k t). unfold k1.
  fold addressed. rewrite E, Em. done.
Qed.

Lemma sent_announced : exists m, send_packet d destination p (fill_request q p k) = announced m.
Proof using HD.
  destruct (do_send destination p (fill_request q p k)) as [m' ->]. destruct fill_announced as [m ->]. by exists m'.
Qed.

Lemma sent_timeout : field (send_packet d destination p (fill_request q p k)) p packet_timeout = field k p packet_timeout.
Proof using HD. rewrite do_timeout. apply filled_packet. offsets. Qed.

Lemma announced_noted m : can_wait q k ->
  noted q (fun w => set_Wait_queue q (set_Wait_id (field k p packet_id) w)) THREAD_QUEUE_NOTHING_HAPPENED
    (set_disable_level (_Thread_Dispatch_disable_level k +w 1) (set_memory m k))
    (_Thread_queue_Enter_critical_section q (announced m)).
Proof.
  intros HW. set (k0 := set_disable_level _ (set_memory m k)).
  assert (can_wait q k0) as HW0 by (by apply (same_threads_can_wait q k)).
  apply noted_refl in HW0. eapply noted_enter.
  change (announced m) with (upd_wait (_Thread_Executing k0) (set_Wait_queue q)
    (upd_wait (_Thread_Executing k0) (set_Wait_id (field k p packet_id)) k0)).
  apply (noted_code q (set_Wait_id (field k p packet_id)) (set_Wait_queue q)); [done|].
  by apply (noted_code q id (set_Wait_id (field k p packet_id)) _ k0 k0).
Qed.

(** The timeout is read from the packet after it was sent. *)
Lemma await_enqueues m : u32 (default_timeout d) -> field (announced m) p packet_timeout = field k p packet_timeout ->
  exists m', await_response d q routine wfuel id fuel [] p STATES_READY (announced m) =
    match _Thread_queue_Enqueue routine wfuel id fuel [] q request_timeout
            (_Thread_queue_Enter_critical_section q (announced m')) with
    | None => None
    | Some k => Some (upd_thread (_Thread_Executing k) (fun c => set_current_state (_States_Set STATES_READY (current_state c)) c) k)
    end.
Proof.
  intros Hd Ht. unfold await_response, request_timeout. set (ke := _Thread_queue_Enter_critical_section q (announced m)).
  assert (field ke p packet_timeout = field k p packet_timeout) as E by exact Ht. rewrite E.
  destruct (field k p packet_timeout =? MPCI_DEFAULT_TIMEOUT).
  - rewrite field_set_eq by done. destruct (set_field_only p packet_timeout (default_timeout d) ke) as [m' ->].
    exists m'. reflexivity.
  - exists m. by rewrite E.
Qed.

(** A state that is already set. *)
Lemma set_ready_again u k1 : known k1 u ->
  upd_thread u (fun c => set_current_state (_States_Set STATES_READY (current_state c)) c) k1 = k1.
Proof.
  intros Hk. unfold upd_thread. assert (set_current_state (_States_Set STATES_READY (current_state (tcb k1 u))) (tcb k1 u) = tcb k1 u) as E.
  { unfold _States_Set, STATES_READY. rewrite Z.lor_0_r. by destruct (tcb k1 u). }
  rewrite E. destruct Hk as [c Hc]. unfold tcb, lookup_total, map_lookup_total. rewrite Hc. simpl.
  rewrite (insert_id _ _ _ Hc). by destruct k1.
Qed.

Lemma send_request_blocks :
  can_wait q k -> discipline (tq k q) = THREAD_QUEUE_DISCIPLINE_FIFO -> timer_free wfuel t request_timeout k ->
  u32 (default_timeout d) -> (length (tq_list k q) < fuel)%nat ->
  exists k', send_request d q routine wfuel id fuel [] destination p STATES_READY k = Some k' /\
    tq_list k' q = tq_list k q ++ [t] /\ tq_ok k' q /\ sched_ok k' /\ _Context_Switch_necessary k' = true /\
    _Thread_Executing k' = t /\ information_table k' = information_table k /\
    forall u, but_block2n (tcb k' u) = but_block2n (if decide (u = t) then requesting (tcb k t) else tcb k u).
Proof using HD.
  intros HW HF HT Hd Hf. unfold send_request. destruct sent_announced as [m Em].
  assert (field (announced m) p packet_timeout = field k p packet_timeout) as Et by (rewrite <- Em; apply sent_timeout).
  rewrite Em. destruct (await_enqueues m Hd Et) as [m' ->].
  destruct (noted_wait_spec routine wfuel fuel q request_timeout _ _ _ (announced_noted m' HW) HT Hf)
    as (k' & -> & X1 & X2 & X3 & X4 & X5 & X6 & X7 & X8 & X9).
  assert (_Thread_Executing k' = t) as EX by exact X7. rewrite EX.
  assert (known k' t) as Hk by (apply X2; rewrite X1; unfold joined; change (tq (set_disable_level _ _) q) with (tq k q); rewrite HF; set_solver).
  rewrite set_ready_again by done. exists k'. split; [done|].
  split; [|split_and!; try done; exact (cs_information _ _ X6)]. rewrite X1. unfold joined. change (tq (set_disable_level _ _) q) with (tq k q). by rewrite HF.
Qed.
End Request.

(** ** The response *)

Section Response.
Context (q : Z) (switch : Z -> Z -> Kernel -> Kernel) (postswitch : Kernel -> Kernel).
Context (isrs : list (Kernel -> Kernel)) (fuel : nat) (node nodes : Z).

(** The thread that waited goes on, with the status [code]. *)
Record rpc_released (t code : Z) (k k' : Kernel) : Prop := {
  rr_list : tq_list k' q = ListChain.extract (tq_list k q) t;
  rr_queue : tq_ok k' q;
  rr_sched : sched_ok k';
  rr_memory : memory k' = memory k;
  rr_executing : _Thread_Executing k' = _Thread_Executing k;
  rr_tcb : forall u, but_block2n (tcb k' u) =
    but_block2n (if decide (u = t) then with_code code (unblocked (tcb k t)) else tcb k u)
}.

Lemma response_releases t p k :
  _Thread_Get switch postswitch isrs fuel node nodes (field k p packet_id) k = Some (OBJECTS_LOCAL, t, _Thread_Disable_dispatch k) ->
  tq_ok k q -> sched_ok k -> t ∈ tq_list k q ->
  exists k', _MPCI_Process_response q node nodes switch postswitch isrs fuel p k = Some (t, k') /\
    rpc_released t (field k p packet_return_code) k k'.
Proof.
  intros HG HQ HS Ht. unfold _MPCI_Process_response. rewrite HG.
  set (k0 := _Thread_Disable_dispatch k). assert (same_threads k k0) as H0 by done.
  assert (tq_ok k0 q) as HQ0 by (by apply (same_threads_tq_ok k)).
  assert (tq_list k0 q = tq_list k q) as EL by (by apply same_threads_list).
  assert (t ∈ tq_list k0 q) as Ht0 by (by rewrite EL).
  destruct (extract_spec q t k0 HQ0 Ht0) as (k1 & HT & ->). destruct (released_core q t k0 k1 HT) as [RC RE].
  set (k2 := release t k1) in *. assert (known k2 t) as Hk by (apply RC, HQ0, Ht0).
  assert (field k2 p packet_return_code = field k p packet_return_code) as -> by (unfold field; by rewrite (cs_memory _ _ RC)).
  set (code := field k p packet_return_code). set (k3 := upd_wait t (set_Wait_return_code code) k2).
  exists (_Thread_Unnest_dispatch k3). split; [done|]. assert (same_threads k3 (_Thread_Unnest_dispatch k3)) as H3 by done.
  split.
  - rewrite (same_threads_list _ _ _ H3). unfold k3. rewrite code_list by done. unfold k2.
    rewrite (released_list q t k0 k1 HT). by rewrite EL.
  - apply (same_threads_tq_ok k3); [done|]. unfold k3. apply code_tq_ok; [done|done|]. by apply (released_tq_ok q t k0).
  - apply (same_threads_sched k3); [done|]. unfold k3. apply code_sched; [done|]. apply (released_sched q t k0); [done|done|done|].
    by apply (same_threads_sched k).
  - exact (cs_memory _ _ RC).
  - exact RE.
  - intros u. change (tcb (_Thread_Unnest_dispatch k3) u) with (tcb k3 u). unfold k3. rewrite code_tcb.
    assert (forall v, but_block2n (tcb k2 v) = but_block2n (if decide (v = t) then unblocked (tcb k t) else tcb k v)) as HR
      by (intros v; unfold k2; rewrite (released_tcb q t k0) by done; by case_decide).
    destruct (decide (u = t)) as [-> |Hu]; rewrite ?but_block2n_code, HR, ?decide_True, ?decide_False by done; [|done].
    symmetry. apply but_block2n_code.
Qed.
End Response.

(** ** The answer *)

(** The packet that goes back to the thread [tid]: the status, the operation, and what the
    directive left in the fields behind. *)
Record answer_sent (code operation tid : Z) (p : Z) (k kR : Kernel) : Prop := {
  an_memory : memory_only k kR;
  an_id : field kR p packet_id = tid;
  an_code : field kR p packet_return_code = code;
  an_operation : field kR p packet_operation = operation;
  an_class : field kR p packet_class = field k p packet_class;
  an_rest : forall o, 36 <= o -> field kR p o = field k p o
}.

Lemma answer_spec d (directive : Kernel -> option (Z * Kernel)) operation tid code p n k :
  directive (node_kernel n) = Some (code, k) -> working_on n (_Thread_Executing k) = p ->
  field k p packet_source_tid = tid -> u32 tid -> u32 code -> u32 operation ->
  exists kR, answer directive (send_back d operation) p n =
      Done (set_node_kernel (send_packet d (_Objects_Get_node tid) p kR) n) /\ answer_sent code operation tid p k kR.
Proof.
  intros E Hw Et Ht Hc Ho. unfold answer. rewrite E. cbn [of_option obind fst snd].
  set (k1 := set_field p packet_return_code code k). unfold send_back.
  change (working_on (set_node_kernel k1 n) (_Thread_Executing k1)) with (working_on n (_Thread_Executing k)). rewrite Hw.
  change (node_kernel (set_node_kernel k1 n)) with k1. set (k2 := set_field p packet_operation operation k1).
  assert (field k2 p packet_source_tid = tid) as E2 by (unfold k2, k1; by packet_simpl). rewrite E2.
  set (k3 := set_field p packet_id tid k2).
  assert (field k3 p packet_source_tid = tid) as E3 by (unfold k3; by packet_simpl). rewrite E3.
  unfold _MPCI_Send_response_packet. set (me := Object_id _). exists (set_field p packet_source_tid me k3). split; [done|].
  split.
  - unfold k3, k2, k1. memory_only_solve.
  - rewrite field_set_ne by offsets. unfold k3. by packet_simpl.
  - rewrite field_set_ne by offsets. unfold k3, k2, k1. by packet_simpl.
  - rewrite field_set_ne by offsets. unfold k3, k2. by packet_simpl.
  - unfold k3, k2, k1. by packet_simpl.
  - intros o Hr. unfold k3, k2, k1. rewrite !field_set_ne; [done|..]; offsets.
Qed.

(** ** Remote events *)

(** The request for a directive of the event manager. *)
Definition event_request_at (k : Kernel) (p tid id event_in : Z) : Prop :=
  field k p packet_class = class_number MP_PACKET_EVENT /\ field k p packet_id = id /\ field k p packet_source_tid = tid /\
  field k p packet_operation = EVENT_MP_SEND_REQUEST /\ field k p packet_event_in = event_in.

(** The caller may wait for a response for the driver's default timeout. *)
Record may_call (d : MPCI_Control) (q : Z) (wfuel fuel : nat) (k : Kernel) : Prop := {
  mc_wait : can_wait q k;
  mc_fifo : discipline (tq k q) = THREAD_QUEUE_DISCIPLINE_FIFO;
  mc_timer : timer_free wfuel (_Thread_Executing k) (default_timeout d) k;
  mc_timeout : u32 (default_timeout d);
  mc_tid : u32 (Object_id (tcb k (_Thread_Executing k)));
  mc_fuel : (length (tq_list k q) < fuel)%nat
}.

(** The caller waits at the end of the queue of remote calls. *)
Record rpc_waits (q id : Z) (k k' : Kernel) : Prop := {
  rw_list : tq_list k' q = tq_list k q ++ [_Thread_Executing k];
  rw_queue : tq_ok k' q;
  rw_sched : sched_ok k';
  rw_necessary : _Context_Switch_necessary k' = true;
  rw_objects : information_table k' = information_table k;
  rw_tcb : forall u, but_block2n (tcb k' u) = but_block2n (if decide (u = _Thread_Executing k)
    then set_current_state (tq_state (tq k q))
           (noted_thread (fun w => set_Wait_queue q (set_Wait_id id w)) (tcb k u)) else tcb k u)
}.

Section Events.
Context (fatal : Internal_errors_Information -> Kernel -> Kernel) (d : MPCI_Control) {HD : driver_ok d} (q : Z).
Context (routine : Z) (wfuel qfuel : nat) (switch : Z -> Z -> Kernel -> Kernel) (postswitch resume : Kernel -> Kernel).
Context (isrs : list (Kernel -> Kernel)) (fuel : nat).

(** The packet of a request before it is sent. *)
Definition event_packet (id event_in p : Z) (k : Kernel) : Kernel :=
  set_field p packet_event_in event_in
    (new_packet MP_PACKET_EVENT sizeof_Event_MP_Packet EVENT_MP_SEND_REQUEST id p
      (set_field p packet_timeout MPCI_DEFAULT_TIMEOUT k)).

Lemma event_packet_memory id event_in p k : memory_only k (event_packet id event_in p k).
Proof. unfold event_packet, new_packet. memory_only_solve. Qed.

(** What runs between the caller's wait and its return. *)
Definition back_from_call (k : Kernel) : option (Z * Kernel) :=
  match _Thread_Enable_dispatch switch postswitch fuel isrs k with
  | None => None
  | Some k => let k := resume k in Some (Wait_return_code (Wait (tcb k (_Thread_Executing k))), k)
  end.

Lemma event_request_sent id event_in p kA k0 :
  may_call d q wfuel qfuel kA -> get_packet d kA = (p, k0) -> p <> NULL -> u32 id -> u32 event_in ->
  exists k1 k2, event_request_at k1 p (Object_id (tcb kA (_Thread_Executing kA))) id event_in /\
    await_response d q routine wfuel Datatypes.id qfuel [] p STATES_READY (send_packet d (_Objects_Get_node id) p k1) = Some k2 /\
    rpc_waits q id kA k2 /\
    _Event_MP_Send_request_packet fatal d q routine wfuel Datatypes.id qfuel [] switch postswitch resume isrs fuel
      EVENT_MP_SEND_REQUEST id event_in kA = of_option (back_from_call k2).
Proof using HD.
  intros [HW HF HT Hd Htid Hf] HG Hp Hid Hev.
  pose proof (do_get kA) as Hk0. rewrite HG in Hk0. simpl in Hk0.
  set (kp := event_packet id event_in p k0).
  assert (_Event_MP_Send_request_packet fatal d q routine wfuel Datatypes.id qfuel [] switch postswitch resume isrs fuel
      EVENT_MP_SEND_REQUEST id event_in kA =
    of_option (_MPCI_Send_request_packet d q routine wfuel Datatypes.id qfuel [] switch postswitch resume fuel isrs
      (_Objects_Get_node id) p STATES_READY kp)) as ER.
  { unfold _Event_MP_Send_request_packet, _Event_MP_Get_packet, _MPCI_Get_packet. rewrite HG.
    by rewrite (proj2 (Z.eqb_neq p NULL)) by done. }
  assert (memory_only kA kp) as [m Ekp] by (etransitivity; [exact Hk0|apply event_packet_memory]).
  assert (field kp p packet_class = class_number MP_PACKET_EVENT /\ field kp p packet_id = id /\
    field kp p packet_operation = EVENT_MP_SEND_REQUEST /\ field kp p packet_event_in = event_in /\
    field kp p packet_timeout = MPCI_DEFAULT_TIMEOUT) as (F1 & F2 & F3 & F4 & F5)
    by (unfold kp, event_packet, new_packet; split_and!; by packet_simpl).
  clearbody kp. subst kp. set (kp := set_memory m kA) in *.
  assert (request_timeout d p kp = default_timeout d) as ET by (unfold request_timeout; by rewrite F5).
  destruct (send_request_blocks d q routine wfuel qfuel p (_Objects_Get_node id) kp) as (k2 & E & X1 & X2 & X3 & X4 & _ & X6 & X5);
    [by apply (same_threads_can_wait q kA)|done|by rewrite ET|done|done|].
  exists (fill_request q p kp), k2. split; [|split; [exact E|split]].
  - unfold event_request_at. rewrite filled_source by done. split_and!; first [done | rewrite filled_packet by offsets; done].
  - split; [exact X1|exact X2|exact X3|exact X4|exact X6|]. intros u. rewrite X5. unfold requesting. rewrite F2.
    change (_Thread_Executing kp) with (_Thread_Executing kA). by destruct (decide (u = _Thread_Executing kA)) as [-> |].
  - rewrite ER. unfold _MPCI_Send_request_packet. by rewrite E.
Qed.

(** The response of a remote call is accepted: the packet goes back to the driver. *)
Lemma response_accepted event_send node nodes p n t code :
  let k := node_kernel n in
  field k p packet_operation = EVENT_MP_SEND_RESPONSE -> field k p packet_return_code = code ->
  _Thread_Get switch postswitch isrs fuel node nodes (field k p packet_id) k = Some (OBJECTS_LOCAL, t, _Thread_Disable_dispatch k) ->
  tq_ok k q -> sched_ok k -> t ∈ tq_list k q ->
  exists k', _Event_MP_Process_packet d q node nodes switch postswitch isrs fuel event_send p n =
      Done (set_node_kernel (return_packet d p k') n) /\ rpc_released q t code k k'.
Proof.
  intros k Eo Ec HG HQ HS Ht.
  destruct (response_releases q switch postswitch isrs fuel node nodes t p k HG HQ HS Ht) as (k' & E & HR).
  rewrite Ec in HR. exists k'. split; [|done]. unfold _Event_MP_Process_packet, accept. fold k. rewrite Eo.
  change (EVENT_MP_SEND_RESPONSE =? EVENT_MP_SEND_REQUEST) with false.
  change (EVENT_MP_SEND_RESPONSE =? EVENT_MP_SEND_RESPONSE) with true. cbv iota. by rewrite E.
Qed.
End Events.

(** A request is answered with the status of the directive. *)
Lemma request_answered d q switch postswitch isrs fuel node nodes (event_send : Z -> Z -> Kernel -> option (Z * Kernel)) p n
    id event_in tid code k :
  event_request_at (node_kernel n) p tid id event_in -> event_send id event_in (node_kernel n) = Some (code, k) ->
  working_on n (_Thread_Executing k) = p -> field k p packet_source_tid = tid -> u32 tid -> u32 code ->
  exists kR, _Event_MP_Process_packet d q node nodes switch postswitch isrs fuel event_send p n =
      Done (set_node_kernel (send_packet d (_Objects_Get_node tid) p kR) n) /\
    answer_sent code EVENT_MP_SEND_RESPONSE tid p k kR.
Proof.
  intros (_ & Eid & _ & Eop & Eev) E Hw Et Ht Hc.
  destruct (answer_spec d (event_send id event_in) EVENT_MP_SEND_RESPONSE tid code p n k) as (kR & ER & HR); try done.
  exists kR. split; [|done]. unfold _Event_MP_Process_packet. by rewrite Eop, Eid, Eev.
Qed.

Section RemoteEvent.
(** The node of the caller. *)
Context (fatal : Internal_errors_Information -> Kernel -> Kernel) (dA : MPCI_Control) {HA : driver_ok dA} (qA nodeA nodes : Z).
Context (routine : Z) (wfuel qfuel : nat) (switchA : Z -> Z -> Kernel -> Kernel) (postswitchA resume : Kernel -> Kernel).
Context (isrsA : list (Kernel -> Kernel)) (fuelA : nat) (event_sendA : Z -> Z -> Kernel -> option (Z * Kernel)).
(** The node of the task. *)
Context (dB : MPCI_Control) (qB nodeB : Z) (switchB : Z -> Z -> Kernel -> Kernel) (postswitchB : Kernel -> Kernel).
Context (isrsB : list (Kernel -> Kernel)) (fuelB : nat) (event_sendB : Z -> Z -> Kernel -> option (Z * Kernel)).

(** C30: [rtems_event_send] to a task of another node.  The caller hands the driver a packet
    with its arguments and waits, last on the queue of remote calls.  Wherever that packet
    arrives, the receive server executes the directive of its node with these arguments and
    sends the packet back to the caller's node with the status that the directive returned.
    When it arrives there, the caller, if it still waits, is taken off the queue with that
    status as the result of its call; the other callers keep their places, and the packet
    goes back to the driver. *)
Theorem remote_event_send_correct id event_in p kA k0 :
  may_call dA qA wfuel qfuel kA -> get_packet dA kA = (p, k0) -> p <> NULL -> u32 id -> u32 event_in ->
  let t := _Thread_Executing kA in
  let tid := Object_id (tcb kA t) in
  exists k1 k2, event_request_at k1 p tid id event_in /\
    await_response dA qA routine wfuel Datatypes.id qfuel [] p STATES_READY (send_packet dA (_Objects_Get_node id) p k1) = Some k2 /\
    rpc_waits qA id kA k2 /\
    _Event_MP_Send_request_packet fatal dA qA routine wfuel Datatypes.id qfuel [] switchA postswitchA resume isrsA fuelA
      EVENT_MP_SEND_REQUEST id event_in kA = of_option (back_from_call switchA postswitchA resume isrsA fuelA k2) /\
    forall nB p' code kB,
      same_packet sizeof_Event_MP_Packet k1 p (node_kernel nB) p' ->
      event_sendB id event_in (node_kernel nB) = Some (code, kB) -> u32 code ->
      working_on nB (_Thread_Executing kB) = p' -> same_packet sizeof_Event_MP_Packet (node_kernel nB) p' kB p' ->
      exists kR, _Event_MP_Process_packet dB qB nodeB nodes switchB postswitchB isrsB fuelB event_sendB p' nB =
          Done (set_node_kernel (send_packet dB (_Objects_Get_node tid) p' kR) nB) /\ memory_only kB kR /\
        forall nA p'', let k := node_kernel nA in
          same_packet sizeof_Event_MP_Packet kR p' k p'' ->
          _Thread_Get switchA postswitchA isrsA fuelA nodeA nodes tid k = Some (OBJECTS_LOCAL, t, _Thread_Disable_dispatch k) ->
          tq_ok k qA -> sched_ok k -> t ∈ tq_list k qA ->
          exists k', _Event_MP_Process_packet dA qA nodeA nodes switchA postswitchA isrsA fuelA event_sendA p'' nA =
              Done (set_node_kernel (return_packet dA p'' k') nA) /\ rpc_released qA t code k k'.
Proof using HA.
  intros HC HG Hp Hid Hev t tid.
  destruct (event_request_sent fatal dA qA routine wfuel qfuel switchA postswitchA resume isrsA fuelA id event_in p kA k0 HC HG Hp Hid Hev)
    as (k1 & k2 & H1 & H2 & H3 & H4).
  exists k1, k2. do 4 (split; [done|]). intros nB p' code kB HP E Hc Hw HK.
  destruct H1 as (F1 & F2 & F3 & F4 & F5).
  assert (event_request_at (node_kernel nB) p' tid id event_in) as HB
    by (unfold event_request_at; rewrite !(same_field _ _ _ _ _ _ HP) by (unfold sizeof_Event_MP_Packet; offsets); done).
  assert (field kB p' packet_source_tid = tid) as Et
    by (rewrite (same_field _ _ _ _ _ _ HK) by (unfold sizeof_Event_MP_Packet; offsets); apply HB).
  destruct (request_answered dB qB switchB postswitchB isrsB fuelB nodeB nodes event_sendB p' nB id event_in tid code kB)
    as (kR & E2 & [R1 R2 R3 R4 _ _]); try done; [apply HC|].
  exists kR. split; [done|]. split; [done|]. intros nA p'' k HS HGt HQ HSch Ht.
  apply response_accepted; try done.
  1-2: by rewrite (same_field _ _ _ _ _ _ HS) by (unfold sizeof_Event_MP_Packet; offsets).
  by rewrite (same_field _ _ _ _ _ _ HS), R2 by (unfold sizeof_Event_MP_Packet; offsets).
Qed.
End RemoteEvent.

(** ** The receive server *)

Section Server.
Context (fatal : Internal_errors_Information -> Kernel -> Kernel) (d : MPCI_Control) (call_processor : Z -> Z -> Node -> outcome Node).

(** The node when the driver has delivered [p] to the thread [executing]. *)
Definition delivered (executing p : Z) (k : Kernel) (n : Node) : Node := set_receive_packet executing p (set_node_kernel k n).
(** The processor that is registered for the class of a packet. *)
Definition processor_of (p : Z) (n : Node) : Z :=
  default NULL (_MPCI_Packet_processors n !! field (node_kernel n) p packet_class).

(** [packets_served ps n n']: the driver delivers the packets [ps] and then no more, and their
    processors take the node from [n] to [n']. *)
Inductive packets_served (executing : Z) : list Z -> Node -> Node -> Prop :=
| served_none n k : receive_packet d (node_kernel n) = (NULL, k) -> packets_served executing [] n (set_node_kernel k n)
| served_packet p ps n k n1 n2 : receive_packet d (node_kernel n) = (p, k) -> p <> NULL ->
    field k p packet_class <= MP_PACKET_CLASSES_LAST -> processor_of p (delivered executing p k n) <> NULL ->
    call_processor (processor_of p (delivered executing p k n)) p (delivered executing p k n) = Done n1 ->
    packets_served executing ps n1 n2 -> packets_served executing (p :: ps) n n2.

Lemma server_processes_all executing ps n n' fuel : packets_served executing ps n n' -> (length ps < fuel)%nat ->
  process_packets fatal d call_processor fuel executing n = Done n'.
Proof.
  intros HS. revert fuel. induction HS as [n k E|p ps n k n1 n2 E Hp Hc Hf Hd _ IH]; intros fuel Hl;
    destruct fuel as [|fuel]; simpl in Hl; try lia; simpl; unfold _MPCI_Receive_packet; rewrite E.
  - done.
  - rewrite (proj2 (Z.eqb_neq p NULL)) by done. unfold _Mp_packet_Is_valid_packet_class.
    change (node_kernel (set_receive_packet executing p (set_node_kernel k n))) with k.
    rewrite (proj2 (Z.leb_le _ _)) by done. cbn [negb].
    fold (delivered executing p k n). change (default NULL _) with (processor_of p (delivered executing p k n)).
    rewrite (proj2 (Z.eqb_neq _ NULL)) by done. rewrite Hd. simpl. apply IH. lia.
Qed.

(** A packet of no class ends the pass: it stays with the server, neither processed nor
    given back to the driver, and the packets behind it wait for the next announcement. *)
Lemma server_drops_unknown executing p n k fuel : receive_packet d (node_kernel n) = (p, k) -> p <> NULL ->
  MP_PACKET_CLASSES_LAST < field k p packet_class ->
  process_packets fatal d call_processor (S fuel) executing n = Done (delivered executing p k n).
Proof.
  intros E Hp Hc. simpl. unfold _MPCI_Receive_packet. rewrite E, (proj2 (Z.eqb_neq p NULL)) by done.
  unfold _Mp_packet_Is_valid_packet_class. change (node_kernel (set_receive_packet executing p (set_node_kernel k n))) with k.
  by rewrite (proj2 (Z.leb_gt _ _)) by done.
Qed.

(** A class without a processor is a fatal error. *)
Lemma server_needs_processor executing p n k fuel : receive_packet d (node_kernel n) = (p, k) -> p <> NULL ->
  field k p packet_class <= MP_PACKET_CLASSES_LAST -> processor_of p (delivered executing p k n) = NULL ->
  exists what k', process_packets fatal d call_processor (S fuel) executing n = Fatal what k'.
Proof.
  intros E Hp Hc Hf. simpl. unfold _MPCI_Receive_packet. rewrite E, (proj2 (Z.eqb_neq p NULL)) by done.
  unfold _Mp_packet_Is_valid_packet_class. change (node_kernel (set_receive_packet executing p (set_node_kernel k n))) with k.
  rewrite (proj2 (Z.leb_le _ _)) by done. cbn [negb]. fold (delivered executing p k n).
  change (default NULL _) with (processor_of p (delivered executing p k n)). rewrite Hf. by do 2 eexists.
Qed.
End Server.

(** ** Results behind pointers *)

(** The note, priority or buffer that a response carries is stored where the caller's
    argument points. *)
Lemma give_field_stores p o t k : u32 (field k p o) ->
  ld32 (memory (give_field p o t k)) (Wait_return_argument (Wait (tcb k t))) = field k p o.
Proof. intros H. apply ld32_st32, H. Qed.

(** ** Proxies *)

Section Proxies.
Context (fatal : Internal_errors_Information -> Kernel -> Kernel) (mp_receive : Z).

(** The proxies of a node are on one of the two chains. *)
Definition proxies (n : Node) : list Z := _Thread_MP_Active_proxies n ++ _Thread_MP_Inactive_proxies n.

(** A proxy bears the id and the priority of the remote thread. *)
Lemma proxy_allocated state n proxy rest : _Thread_MP_Inactive_proxies n = proxy :: rest ->
  exists n', _Thread_MP_Allocate_proxy fatal mp_receive state n = Done (proxy, n') /\
    proxies n' ≡ₚ proxies n /\
    Object_id (tcb (node_kernel n') proxy) = field (node_kernel n) (working_on n mp_receive) packet_source_tid /\
    current_priority (tcb (node_kernel n') proxy) = field (node_kernel n) (working_on n mp_receive) packet_source_priority /\
    working_on n' proxy = working_on n mp_receive.
Proof.
  intros E. unfold _Thread_MP_Allocate_proxy. rewrite E. eexists. split; [done|]. split_and!.
  - unfold proxies. rewrite E. simpl. unfold ListChain.append. rewrite <- app_assoc. done.
  - simpl. unfold upd_thread, tcb. simpl. by rewrite lookup_total_insert_eq.
  - simpl. unfold upd_thread, tcb. simpl. by rewrite lookup_total_insert_eq.
  - unfold working_on. simpl. by rewrite lookup_total_insert_eq.
Qed.

Lemma proxies_exhausted state n : _Thread_MP_Inactive_proxies n = [] ->
  exists what k, _Thread_MP_Allocate_proxy fatal mp_receive state n = Fatal what k.
Proof. intros E. unfold _Thread_MP_Allocate_proxy. rewrite E. by do 2 eexists. Qed.

Lemma proxy_freed n proxy : proxy ∈ _Thread_MP_Active_proxies n -> proxies (_Thread_MP_Free_proxy proxy n) ≡ₚ proxies n.
Proof.
  intros Hp. unfold proxies, _Thread_MP_Free_proxy, ListChain.append. simpl.
  rewrite app_assoc, (Permutation_app_comm _ [proxy]). simpl.
  change (proxy :: ?a ++ ?b) with ((proxy :: a) ++ b). by rewrite Permutation_cons_append, (extract_perm _ _ Hp).
Qed.

(** Without interrupts the search finds the first active proxy with the id, or none. *)
Definition first_proxy (the_id : Z) (n : Node) (l : list Z) : Z :=
  default NULL (head (List.filter (fun t => _Objects_Are_ids_equal (Object_id (tcb (node_kernel n) t)) the_id) l)).

Lemma next_of_split l1 t l2 : t ∉ l1 -> next_of (l1 ++ t :: l2) t = Some l2.
Proof.
  induction l1 as [|u l1 IH]; intros Ht; simpl; [by rewrite Z.eqb_refl|].
  rewrite (proj2 (Z.eqb_neq u t)) by set_solver. apply IH. set_solver.
Qed.

Lemma find_proxy_first the_id n : NoDup (_Thread_MP_Active_proxies n) ->
  (forall t, t ∈ _Thread_MP_Active_proxies n -> _States_Is_only_dormant (current_state (tcb (node_kernel n) t)) = false) ->
  forall rest fuel l1, _Thread_MP_Active_proxies n = l1 ++ rest -> (length rest < fuel)%nat ->
  find_proxy fuel [] the_id rest n = Some (first_proxy the_id n rest, n).
Proof.
  intros HN HB rest. induction rest as [|t rest IH]; intros fuel l1 E Hf; destruct fuel as [|fuel]; simpl in Hf; try lia; simpl; [done|].
  unfold first_proxy. simpl. destruct (_Objects_Are_ids_equal _ the_id); [done|].
  unfold id. rewrite HB by (rewrite E; set_solver). rewrite E in HN |- *.
  rewrite next_of_split by (apply NoDup_app in HN; set_solver). apply (IH fuel (l1 ++ [t])); [|lia].
  by rewrite <- app_assoc.
Qed.

Lemma find_proxy_spec the_id n fuel : NoDup (_Thread_MP_Active_proxies n) ->
  (forall t, t ∈ _Thread_MP_Active_proxies n -> _States_Is_only_dormant (current_state (tcb (node_kernel n) t)) = false) ->
  (length (_Thread_MP_Active_proxies n) < fuel)%nat ->
  _Thread_MP_Find_proxy fuel [] the_id n = Some (first_proxy the_id n (_Thread_MP_Active_proxies n), n).
Proof. intros HN HB Hf. by apply (find_proxy_first the_id n HN HB _ fuel []). Qed.
End Proxies.

(** ** A fresh node *)

Lemma mpci_queues_ok semaphore q status k : sched_ok k ->
  sched_ok (mpci_queues semaphore q status k) /\ tq_ok (mpci_queues semaphore q status k) q /\
  tq_list (mpci_queues semaphore q status k) q = [].
Proof.
  intros HS. assert (u32 0) as H0 by (by split).
  destruct (semaphore_fresh semaphore OBJECTS_NO_CLASS CORE_SEMAPHORE_DISCIPLINES_FIFO 0 NULL k HS H0) as [HO _].
  apply so_sched in HO. unfold mpci_queues. cbv zeta.
  revert HO. generalize (_CORE_semaphore_Initialize semaphore OBJECTS_NO_CLASS CORE_SEMAPHORE_DISCIPLINES_FIFO 0 NULL k). intros ks HO.
  destruct (initialize_fresh q OBJECTS_NO_CLASS THREAD_QUEUE_DISCIPLINE_FIFO STATES_WAITING_FOR_RPC_REPLY NULL status ks)
    as (A & B & C & _); [done|]. split_and!; [by apply (links_only_sched ks)|done|done].
Qed.

Lemma tables_threads g k : same_threads k (set_information_table g k).
Proof. by split. Qed.

(** ** An example: two nodes *)

Module MpciExample.
Import ThreadExample.
(** A driver with one packet, at 6000. *)
Definition driver : MPCI_Control :=
  {| default_timeout := 9; maximum_packet_size := 64; mpci_initialization := Datatypes.id; get_packet := fun k => (6000, k);
     return_packet := fun _ k => k; send_packet := fun _ _ k => k; receive_packet := fun k => (NULL, k) |}.
#[export] Instance driver_is_ok : driver_ok driver.
Proof. by split. Qed.

Definition task_id (node : Z) : Z := _Objects_Build_id OBJECTS_RTEMS_TASKS node 1.
Definition one_task (node t : Z) : Objects_State :=
  {| info := {| the_class := OBJECTS_RTEMS_TASKS; minimum_id := task_id node; maximum_id := task_id node; maximum := 1;
                local_table := [NULL; t]; name_table := 0; global_table := None; Inactive := [];
                is_string := false; name_length := 4; is_thread := true |};
     objects := {[ t := {| obj_id := task_id node; obj_name := 0 |} ]}; names := ∅ |}.
(** A node whose task is the thread at [t]. *)
Definition with_task (node t : Z) : Kernel :=
  upd_thread t (fun c => set_API_Extensions_RTEMS 5000 (set_Object_id (task_id node) c)) k2.
Definition system (node t : Z) : Kernel :=
  set_information_table {[ OBJECTS_RTEMS_TASKS := one_task node t ]} (mpci_queues 80 90 7 (with_task node t)).
(** The thread at 200 calls, and is the receive server of the other node. *)
Definition caller : Kernel := system 1 200.
Definition callee (m : mem) : Kernel := set_memory m (system 2 300).
Definition node_of (k : Kernel) : Node :=
  {| node_kernel := k; thread_receive_packet := {[ 200 := 6000 ]}; _MPCI_Packet_processors := ∅; _MPCI_Receive_server_tcb := 200;
     _Thread_MP_Active_proxies := []; _Thread_MP_Inactive_proxies := [];
     mp_state := {| _Objects_MP_Maximum_global_objects := 0; _Objects_MP_Inactive_global_objects := [] |} |}.
Definition send_event (node id event_in : Z) (k : Kernel) : option (Z * Kernel) :=
  rtems_event_send (fun _ _ k => k) Datatypes.id [] 5 node 2 (fun _ _ k => (0, k)) Datatypes.id id event_in k.

Lemma with_task_ok node t : known k2 t -> sched_ok (with_task node t).
Proof. intros Hk. apply inert_ok; [by repeat split|exact Hk|exact k2_ok]. Qed.

Lemma caller_ok : sched_ok caller /\ tq_ok caller 90 /\ tq_list caller 90 = [].
Proof.
  assert (known k2 200) as Hk by (vm_compute; eexists; reflexivity).
  destruct (mpci_queues_ok 80 90 7 (with_task 1 200) (with_task_ok 1 200 Hk)) as (A & B & C).
  pose proof (tables_threads {[ OBJECTS_RTEMS_TASKS := one_task 1 200 ]} (mpci_queues 80 90 7 (with_task 1 200))) as HT.
  exact (conj (same_threads_sched _ _ HT A) (conj (same_threads_tq_ok _ _ 90 HT B) (eq_trans (same_threads_list _ _ 90 HT) C))).
Qed.

Lemma caller_may_call : may_call driver 90 5 5 caller.
Proof.
  destruct caller_ok as (HS & HQ & EL). split.
  - split; [exact HS|exact HQ|rewrite EL; apply not_elem_of_nil|vm_compute; reflexivity|vm_compute; discriminate|vm_compute; discriminate].
  - vm_compute. reflexivity.
  - right. assert (watchdogs caller = no_watchdogs) as -> by (vm_compute; reflexivity).
    assert (_Thread_Executing caller = 200) as -> by (vm_compute; reflexivity).
    change (default_timeout driver) with 9. split_and!; [exact ThreadqExample.no_watchdogs_ok|vm_compute; intros [?|?]; discriminate|split; [lia|reflexivity]|vm_compute; lia].
  - split; [discriminate|reflexivity].
  - vm_compute. split; [discriminate|reflexivity].
  - rewrite EL. simpl. lia.
Qed.

(** The directive on the callee's node, whatever the memory holds. *)
Lemma event_posted m : exists kB, send_event 2 (task_id 2) 4 (callee m) = Some (RTEMS_SUCCESSFUL, kB) /\ memory kB = m /\
  _Thread_Executing kB = 200 /\ pending_events (api kB 300) = 4.
Proof. eexists. split; [vm_compute; reflexivity|]. vm_compute. split_and!; reflexivity. Qed.

Lemma task_found (T : Type) (disable enable unnest : T -> T) (a : T) :
  _Objects_Get 1 2 disable enable unnest (info (one_task 1 200)) (task_id 1) a = Some (OBJECTS_LOCAL, 200, disable a).
Proof. vm_compute. reflexivity. Qed.

Lemma caller_found k : information_table k = {[ OBJECTS_RTEMS_TASKS := one_task 1 200 ]} ->
  _Thread_Get (fun _ _ k => k) Datatypes.id [] 5 1 2 (task_id 1) k = Some (OBJECTS_LOCAL, 200, _Thread_Disable_dispatch k).
Proof.
  intros E. unfold _Thread_Get. rewrite E. change (_Objects_Are_ids_equal (task_id 1) OBJECTS_ID_OF_SELF) with false.
  change (OBJECTS_CLASSES_LAST <? _Objects_Get_class (task_id 1)) with false.
  change (_Objects_Get_class (task_id 1)) with OBJECTS_RTEMS_TASKS. rewrite lookup_singleton_eq. cbv iota.
  change (is_thread (info (one_task 1 200))) with true. apply task_found.
Qed.
End MpciExample.

(** The caller at 200 on node 1 sends event 4 to the task of node 2, and gets the status of
    the directive that ran there. *)
Lemma remote_event_send_witness :
  exists n n' : Node, _Event_MP_Process_packet MpciExample.driver 90 1 2 (fun _ _ k => k) Datatypes.id [] 5
      (MpciExample.send_event 1) 6000 n = Done n' /\
    current_state (tcb (node_kernel n) 200) = STATES_WAITING_FOR_RPC_REPLY /\
    current_state (tcb (node_kernel n') 200) = STATES_READY /\
    Wait_return_code (Wait (tcb (node_kernel n') 200)) = RTEMS_SUCCESSFUL.
Proof.
  assert (_Thread_Executing MpciExample.caller = 200) as Ex by (vm_compute; reflexivity).
  assert (Object_id (tcb MpciExample.caller 200) = MpciExample.task_id 1) as Eid by (vm_compute; reflexivity).
  assert (tq_state (tq MpciExample.caller 90) = STATES_WAITING_FOR_RPC_REPLY) as Es by (vm_compute; reflexivity).
  assert (information_table MpciExample.caller = {[ OBJECTS_RTEMS_TASKS := MpciExample.one_task 1 200 ]}) as Ei by reflexivity.
  destruct MpciExample.caller_ok as (_ & _ & EL). pose proof MpciExample.caller_may_call as HC.
  set (c := MpciExample.caller) in *. clearbody c.
  destruct (remote_event_send_correct (HA := MpciExample.driver_is_ok) (fun _ k => k) MpciExample.driver 90 1 2 9 5 5 (fun _ _ k => k)
    Datatypes.id Datatypes.id [] 5 (MpciExample.send_event 1) MpciExample.driver 90 2 (fun _ _ k => k) Datatypes.id [] 5
    (MpciExample.send_event 2) (MpciExample.task_id 2) 4 6000 c c) as (k1 & k2 & _ & _ & HW & _ & H);
    [exact HC|reflexivity|discriminate|vm_compute; split; [discriminate|reflexivity]|split; [discriminate|reflexivity]|].
  destruct (MpciExample.event_posted (memory k1)) as (kB & E & EM & EX & _).
  destruct (H (MpciExample.node_of (MpciExample.callee (memory k1))) 6000 RTEMS_SUCCESSFUL kB) as (kR & _ & _ & H2);
    [intros i _; reflexivity|exact E|split; [discriminate|reflexivity]|rewrite EX; reflexivity|intros i _; rewrite EM; reflexivity|].
  rewrite Ex, Eid in H2. destruct HW as [W1 W2 W3 _ W5 W6]. rewrite Ex, EL in W1. rewrite Ei in W5.
  set (kA := set_memory (memory kR) k2) in *. pose proof (set_memory_threads (memory kR) k2) as HT. fold kA in HT.
  assert (information_table kA = information_table k2) as EA by reflexivity. assert (memory kA = memory kR) as EM2 by reflexivity.
  clearbody kA. rewrite W5 in EA.
  destruct (H2 (MpciExample.node_of kA) 6000) as (k' & E' & [_ _ _ _ _ R]).
  - intros i _. change (node_kernel (MpciExample.node_of kA)) with kA. by rewrite EM2.
  - exact (MpciExample.caller_found kA EA).
  - exact (same_threads_tq_ok _ _ 90 HT W2).
  - exact (same_threads_sched _ _ HT W3).
  - change (node_kernel (MpciExample.node_of kA)) with kA. rewrite (same_threads_list _ _ 90 HT), W1. left.
  - exists (MpciExample.node_of kA), (set_node_kernel k' (MpciExample.node_of kA)). split; [exact E'|].
    change (node_kernel (MpciExample.node_of kA)) with kA in *. change (node_kernel (set_node_kernel k' _)) with k'.
    specialize (R 200). specialize (W6 200). rewrite Ex, decide_True in W6 by reflexivity. rewrite decide_True in R by reflexivity.
    pose proof (but_block2n_code_of _ _ R) as R2. apply but_block2n_fields in R as (R1 & _). apply but_block2n_fields in W6 as (V1 & _).
    rewrite <- (same_threads_tcb _ _ 200 HT) in V1. rewrite Es in V1.
    split; [exact V1|]. split; [|exact R2]. rewrite R1. simpl. rewrite V1. reflexivity.
Defined.
